(* ===== verification/_CoqProject ===== *)
-Q . S2P
Prelude.v
PyFloat.v
PyDict.v
PyFormat.v
PyParse.v
FloatFacts.v
Constants.v
OrderState.v
PipelineState.v
Ledger.v
Breaker.v
Guard.v
PriceGuard.v
Executor.v
Settlement.v
Idempotency.v
Orders.v
Reconcile.v
Calendar.v
Scheduler.v
Tasks.v
Alerts.v
Channels.v
Auth.v
Handlers.v
Gates.v
Ensemble.v
Pipeline.v
Rebalancing.v
RebalancingRoute.v
EmergencyMonitor.v
Backtest.v
Oos.v
KisClient.v
ExchangeRate.v
AiAnalysis.v
EnsembleConfig.v
Series.v
Signals.v
Factors.v
DynamicEnsemble.v
RlEnv.v
RlModels.v
OrderPath.v
KisRecovery.v
AuditChain.v
DryRun.v
Limits.v
Lifecycle.v
Quotes.v
KisWebSocket.v
Compliance.v
Health.v
Universe.v
Judgement.v
MarketData.v
Reports.v
News.v
Economic.v
RateLimit.v
ParamSensitivity.v
Financial.v
Social.v
Decisions.v
