(* ===== verification/Prelude.v ===== *)
(** * AQTS: an automated trading system, from the request to the settled order

    AQTS (backend/ under src/) trades Korean and United States stocks over the
    KIS broker API.  This development models its order path, from the HTTP
    request to the settled row of the table [orders] and the position ledger;
    the safeguards around it; what produces orders (signals, ensembles, analyses
    of a language model, the analysis pipeline, rebalancing, emergency monitor);
    what carries them to the broker
    (the KIS clients and their recovery); and what judges and records them
    (backtest, out-of-sample jobs, audit chain, alerts, daily report).

    ** How the parts interact

    A request is counted by [RateLimit], let in by [Auth] (api/middleware/,
    api/routes/auth.py, users.py) and enters [Orders] (api/routes/orders.py).  It claims its
    idempotency key in a store of [Idempotency], writes a strict audit record,
    and only then calls [Executor] (order_executor/executor.py).  The executor
    asks [Guard] (trading_guard.py), fetches a quote from [Quotes] through
    [PriceGuard], places the order at the broker, checks the slippage, writes
    one row and tells [Ledger] (portfolio_ledger.py) what was filled; in a dry
    run it tells [DryRun] instead of the broker.  The broker is reached through
    [KisClient] (kis_client.py), which [KisRecovery] (kis_recovery.py) repairs
    after a failed start, and streams prices and execution notices through
    [KisWebSocket].  [Settlement] (settlement_poller.py, ws_execution_handler.py,
    the cancel route) later moves the row along [OrderState], concurrently with
    itself and everything else.  [Reconcile] compares broker and ledger and
    turns the guard's kill switch on.

    Orders also come from [Rebalancing], started by [RebalancingRoute], and from
    [EmergencyMonitor].  [Pipeline] runs an analysis through the registry of
    [Gates] and the engine of [Ensemble], along [PipelineState].  [Scheduler]
    (trading_scheduler.py) runs the events of a trading day, on the Korean days
    of [Calendar], and [Handlers] says what each event does; both tell [Alerts].
    [Breaker] stands in front of external services, [Lifecycle] ends the
    process.  [Oos] submits strategies to the simulation of [Backtest].

    [Signals] turns a price table into three series of trading signals;
    [DynamicEnsemble] weighs them by the regime of each bar, with the parameters
    that [EnsembleConfig] loads, and its runner is what the opening of the market
    runs for each ticker; [Factors] ranks the tickers of a market against each
    other.  The table [market_ohlcv] those series come from is filled every day by
    [MarketData], for the tickers of the universe that [Universe] builds from the
    investor's profile; [Economic], [News], [Social] and [Financial] fill the tables of
    indicators, articles, posts and company statements.  [AiAnalysis] asks a language model for sentiments and
    opinions, which [Pipeline] adds to the signals.  [RlModels] registers trained
    models, of which one is champion, and asks it for positions.  [ExchangeRate] gives the
    rates, and [Channels] delivers what [Alerts] stores.  [Health] says whether the
    system may trade, [Judgement] whether a strategy is good enough to,
    [ParamSensitivity] what its parameters change, [Reports] what a week and a month
    brought, [Compliance] keeps records as long as the rules ask and turns the keys, and
    [Decisions] keeps the steps of a decision.  [OrderPath] puts
    [Executor] on top of [KisClient] and shows what that composition loses.

    ** The files

    - [Prelude]: results, the state-and-exception monad [M], its invariants
      ([preserves], [returns], [yields]), transition sequences, runs, automation.
    - [PyFloat], [PyDict], [PyFormat], [PyParse], [FloatFacts]: what the code
      uses of Python's floats (binary64, on the Standard Library's
      [spec_float]), of dictionaries in insertion order, of number formatting
      and substring search, of [int(s)] and [float(s)]; the order and the
      rounding of floats as the theorems need them.
    - [Constants]: config/constants.py, with the class [StrEnum] for
      [class X(str, Enum)].
    - [OrderState], [PipelineState]: the transition maps, their guards and the
      rejection counters.
    - [Ledger]: [PortfolioLedger.record_fill], [hydrate] and the rest over the
      class [LedgerRepository] (the Protocol of the same name), the abstract
      [Book] it refines, and [SqlPortfolioLedgerRepository], which discharges the
      class for a database whose statements and commits fail at will (a commit
      that fails has done nothing).
    - [Breaker]: one step per lock-protected section; calls in flight are part
      of the state.
    - [Guard]: each check of [TradingGuard], [check_pre_order],
      [record_trade_result], the kill switch, and the reason codes the executor
      reads off the guard's messages.
    - [PriceGuard]: quote freshness, price band, slippage, with their counters.
    - [Executor]: [execute_order] with its MARKET, LIMIT, TWAP and VWAP bodies,
      [execute_batch_orders], and the [orders] row each call writes.
    - [Settlement]: compare-and-swap status updates, the poll after an
      execution, the daily sweep, the WebSocket notices, the cancel route; every
      [await] lets an arbitrary function of the environment change the table.
    - [Idempotency]: the class [OrderIdempotencyStore], the operations of a store,
      with the in-memory, Redis, PostgreSQL and two-tier stores; the class [StoreLaws],
      what a store's [view] promises, kept by the first two.
    - [Orders]: [create_order] and [create_batch_orders] over any store and any
      executor, and a system of requests that run concurrently.
    - [Reconcile]: the engine, the parsing of the broker's balance, the runner.
    - [Calendar]: dates as ordinals, both exchanges' holidays, [MarketCalendar].
    - [Scheduler]: the scheduler's loop, its control and its Redis keys.
    - [Tasks]: interleaved tasks over a shared world; [Alerts], [RebalancingRoute]
      and others are systems of such tasks.
    - [Alerts]: notification/: the collection of alerts, dispatch, retry loop,
      the Telegram notifier's loop, operators; [dispatch_alert], which sends without a
      claim, is not one of the tasks.
    - [RateLimit]: the keys of the rate limiter over the class [RateStore], which says
      what the store counts.
    - [Auth]: tokens, revocation, login with lockout and TOTP, user
      administration, over tables whose sessions commit and roll back.
    - [Handlers]: scheduler_handlers.py and the numbers of daily_reporter.py.
    - [Gates], [Ensemble], [Pipeline]: the nine gates and their registry, the
      strategy ensemble with its thresholds, the analysis pipeline.
    - [Rebalancing], [RebalancingRoute], [EmergencyMonitor]: portfolio
      construction and the rebalancing engine, the route with its Redis lock and
      background task, the monitor that sells on losses, by its loop or by hand.
    - [Channels]: notification/fallback_notifier.py and the adapters main.py
      wires: health of a channel, cascade from Telegram to a file to the console.
    - [ExchangeRate]: the exchange rate manager over KIS, FRED, Redis and the
      database.
    - [AiAnalysis]: the sentiment analyser and the opinion generator, from the
      text of the model's answer to cache and database.
    - [EnsembleConfig]: loading, validating and saving the configuration of the
      dynamic ensemble, over dicts that share references.
    - [Series]: columns of a price table; the class [Pandas] is what pandas and
      numpy compute, everything that acts on each value by itself is written
      out, with the tactic [at_bar] for the value of a chain at one bar.
    - [Signals], [DynamicEnsemble]: the indicators and the two signal
      generators; the service of the dynamic ensemble and its runner.
    - [Factors]: the factor analyser and the scores across markets.
    - [MarketData]: the collector of daily prices, with the transaction it saves in,
      and the check of the collected rows.
    - [News]: the feeds and the disclosures, the tickers of a text, the collection with
      its unique index and the queries that read it.
    - [Economic]: the collectors of FRED and ECOS with their retries, the table and the
      cache.
    - [Social]: the collectors of posts, the marks of spam and the counts by author.
    - [Financial]: the collector of DART statements, their parsing, the measures
      and ratios, and the table they are saved in.
    - [Universe]: the investor's profile over its table and the universe of tickers.
    - [Judgement]: the verdicts on a strategy's metrics and its promotion.
    - [ParamSensitivity]: the sweeps of core/param_sensitivity/, its engine over an
      arbitrary backtest, the analysis of the results and the routes.
    - [Reports]: the weekly and monthly reports, their days, numbers and text, and the
      lemmas on months it needs ([Months]).
    - [Health]: the health checker and the demo verifier.
    - [Compliance]: retention, rotation of secrets, compliance reports.
    - [Decisions]: the store of decision records and its routes.
    - [Backtest], [Oos]: the day-by-day simulation; walk-forward windows, gates,
      runs and jobs.
    - [KisClient], [KisRecovery], [KisWebSocket], [Quotes]: credentials by
      mode, tokens and REST calls; the health-driven repair of the client; the
      realtime frames and bars; the quote cache with its per-key locks.
    - [RlEnv], [RlModels]: core/rl/: the training environment of one asset with its
      features; the model registry, the inference service and the inference of the
      opening, over an arbitrary policy network.
    - [OrderPath]: the executor's broker interface discharged by the REST client,
      and the unique order number of the table [orders].
    - [AuditChain], [DryRun], [Limits], [Lifecycle]: the hash chain, the dry-run
      sessions, the time rules and budgets, shutdown and the mode manager.

    A definition has the name of the Python function or class it models, inside
    a Module named after its class; a method is a function of the object's state
    in the monad [M], so the mutations before a [raise] stay.  Broker, database,
    Redis, clock, network and handlers are parameters: arbitrary functions, or
    streams of answers and faults.

    ** What is shown

    - Admission ([Auth], [RateLimit], [Executor], [Guard], [PriceGuard], [Quotes]): a request
      gets in exactly with a valid token of a current user; an order reaches the
      broker only live and after contract, guard, quantity, fresh quote and price
      band have passed; the guard decides exactly by its limits; the kill switch
      latches; quotes handed out are for the asked ticker and fresh.
    - Accounting ([Executor], [Ledger]): one row per call, matching its outcome,
      unless the database refuses it; the ledger moves by exactly the counted fills,
      refines the abstract book, stays long-only and is atomic under database failures;
      TWAP, and VWAP without negative slices, never fill more than ordered.
    - Idempotency ([Idempotency], [Orders]): a request executes at most once and
      after its audit record, over any store; over a lawful one retries replay and one
      execution per key runs at a time while claims outlive executions; what is stored
      survives the loss of Redis.
    - Settlement: under failures and any interleaving with tasks that do so too, rows
      move along legal transitions only; polls end and write at most once; undisturbed,
      the sweep settles each due row to what the broker's records say.
    - Transport ([KisClient], [KisRecovery], [KisWebSocket]): every request goes
      to the host and with the keys of the mode in force; a degraded connection
      is repaired at a bounded pace and, when due, in one call; what is written in a
      plain frame reaches the callbacks, in order.
    - Decisions ([Signals], [DynamicEnsemble], [EnsembleConfig], [AiAnalysis],
      [Gates], [Ensemble], [Pipeline], [Rebalancing], [RebalancingRoute],
      [EmergencyMonitor]): signals, sentiments and opinions are in range
      whatever prices and answers are; the chain of masks decides each bar by
      itself, and the ensemble respects unanimous strategies; an applied result
      of the optimiser is live after the next load; analyses pass exactly the
      gates; a registry whose files can be written has one champion, and a prediction
      reads the last bar; a rebalancing trades each ticker once, sells first, tells
      what came of it, and runs one at a time; the monitor sells only what is held.
    - Data ([MarketData], [News], [Social], [Economic], [Financial], [Universe], [Factors]): every ticker of a
      collection is accounted for, and a repeated collection changes nothing; an article
      is stored once; a collection of indicators ends whatever the services answer, and
      all of it or none is in the table, and so it is with statements; posts are spam
      exactly when they advertise; a profile is read
      back as it was written; the members of the universe pass its filters; composite
      scores are ranks.
    - Judgement ([Backtest], [Oos], [Judgement], [ParamSensitivity]): trades and days of rest replay, day by day, to the cash and the positions;
      a run ends in the verdict of the gates or in an error; a sweep reports each trial
      and a best one.
    - Supervision ([Reconcile], [Breaker], [Calendar], [Scheduler], [Handlers],
      [Alerts], [AuditChain], [DryRun], [Lifecycle], [Reports], [Health], [Compliance],
      [Decisions]): mismatches are exactly the
      differing tickers and trip the guard beyond the threshold; the breaker's
      counters stay consistent; each day executes a prefix of the schedule, in
      order, once, also over restarts; reports state what a closing read; an alert
      is sent a bounded number of times by the tasks that claim it; a verified log cannot
      be altered without a collision of the digest between its entries; a shutdown ends; the system is ready exactly when
      its critical parts are; nothing is deleted before it is due; every month is reported once;
      the status of a decision says which of its steps are recorded.
    - Divergences: theorems that exhibit where the code does not do what it means
      to (a falling market whose averages signal nothing, code defaults
      overwritten by a file that was loaded over them, limit orders that share
      one row, a lost answer of the broker recorded as a failed order, an
      execution repeated after a claim expires or an answer is lost, a fill overwritten by a cancellation, unfilled TWAP slices submitted again,
      the half-open quota that refuses nothing, a raising handler that starves
      the day, a training environment whose agents never hold the stock, an
      inference that selects a column the table does not have, encrypted
      execution notices taken for heartbeats, a collection that saves nothing after
      one failed save, a verification of the demo account that cannot pass, forged tokens
      that choose the count they are limited by, a week without a report when its Friday is
      a holiday, an indicator that a holiday hides, parameters that are swept and change
      nothing, a range that is walked for ever, a registry without a champion after a
      failed write, a check by hand that sells during the cooldown, an alert sent without a
      claim, profitable
      companies left out of a factor table, a cost of sales stored as revenue, decisions whose
      routes refuse three of the seven steps, New York hours
      without daylight saving).

    ** Bounds and fuel

    The code's loops are structural here, with these exceptions.  The
    trading-day searches have fuel 10, enough for every date on the Korean
    calendar and for 2020 to 2030 on the New York one
    ([CalendarFacts.market_soon]).  The scheduler's endless loop is a number of
    turns, and every theorem about it holds for all numbers; so are the loops of
    the emergency monitor and of the alert tasks.  The walk-forward split has
    the number of dates as its fuel, and ends before it.  The polls of a shutdown
    are as many as its timeout allows.  Number formatting recurses on the binary
    logarithm of the number.  The walk over a parameter's range has a fuel: 40 is enough
    for the default parameters, and no fuel is for a range without width.  Python integers are [Z], floats are binary64 with
    their rounding, NaN and infinities.

    ** What is not modelled

    Research code on numpy, pandas and scipy (the market regime
    detector, weight optimisation, hyperparameter search, return statistics),
    the training of models, the prompts of the language model, corporate
    actions, the collectors of the audit of decisions, which nothing calls, the
    masking of personal data (regular expressions), charts and dashboards, schema
    declarations, migrations and the frontend.  Of the modelled files, log lines,
    metrics other than those a
    decision depends on, time stamps that are only recorded, and sleeps are left
    out. *)

From stdpp Require Import base option list gmap strings.
From Stdlib Require Import ZArith Lia.

#[global] Open Scope Z_scope.

(** * Results and the state-and-exception monad

    Python code mutates objects and raises.  A method is modelled as a
    function of the object's state to an outcome and the state it leaves
    behind; the mutations made before a [raise] stay, as they do in Python. *)

Inductive result (E A : Type) : Type :=
  | Ok (a : A)
  | Err (e : E).
Arguments Ok {E A} a.
Arguments Err {E A} e.

#[global] Instance result_eq_dec E A `{EqDecision E} `{EqDecision A} : EqDecision (result E A).
Proof. solve_decision. Defined.

Definition is_ok {E A} (r : result E A) : bool := match r with Ok _ => true | Err _ => false end.

Definition rbind {E A B} (r : result E A) (f : A → result E B) : result E B :=
  match r with Ok a => f a | Err e => Err e end.

Definition rmap {E A B} (f : A → B) (r : result E A) : result E B :=
  match r with Ok a => Ok (f a) | Err e => Err e end.

Definition M (S E A : Type) : Type := S → result E A * S.

#[global] Instance M_ret {S E} : MRet (M S E) := λ A a s, (Ok a, s).
#[global] Instance M_bind {S E} : MBind (M S E) := λ A B f m s,
  match m s with
  | (Ok a, s') => f a s'
  | (Err e, s') => (Err e, s')
  end.
#[global] Instance M_map {S E} : FMap (M S E) := λ A B f m s,
  match m s with
  | (Ok a, s') => (Ok (f a), s')
  | (Err e, s') => (Err e, s')
  end.

Definition raise {S E A} (e : E) : M S E A := λ s, (Err e, s).
Definition get {S E} : M S E S := λ s, (Ok s, s).
Definition gets {S E A} (f : S → A) : M S E A := λ s, (Ok (f s), s).
Definition modify {S E} (f : S → S) : M S E unit := λ s, (Ok tt, f s).
Definition lift_result {S E A} (r : result E A) : M S E A := λ s, (r, s).

(** [try: m except e: h e] *)
Definition try_except {S E E' A} (m : M S E A) (h : E → M S E' A) : M S E' A := λ s,
  match m s with
  | (Ok a, s') => (Ok a, s')
  | (Err e, s') => h e s'
  end.

(** The same computation, its exceptions seen as [f e]. *)
Definition with_err {S E E' A} (f : E → E') (m : M S E A) : M S E' A := λ s,
  match m s with
  | (Ok a, s') => (Ok a, s')
  | (Err e, s') => (Err (f e), s')
  end.

(** A computation on a part of the state. *)
Definition zoom {S T E A} (get : S → T) (set : T → S → S) (m : M T E A) : M S E A := λ s,
  let '(r, t') := m (get s) in (r, set t' s).

Definition when {S E} (b : bool) (m : M S E unit) : M S E unit :=
  if b then m else mret tt.

(** [for x in l: f x] *)
Fixpoint for_each {S E A} (f : A → M S E unit) (l : list A) : M S E unit :=
  match l with
  | [] => mret tt
  | x :: l' => f x ;; for_each f l'
  end.

Definition outcome {S E A} (m : M S E A) (s : S) : result E A := (m s).1.
Definition after {S E A} (m : M S E A) (s : S) : S := (m s).2.

(** ** Invariants of computations *)

Definition preserves {S E A} (P : S → Prop) (m : M S E A) : Prop :=
  ∀ s, P s → P (after m s).

Create HintDb py discriminated.

Section Preservation.
Context {S E : Type} (P : S → Prop).

Lemma preserves_ret A (a : A) : preserves (E:=E) P (mret a).
Proof. by intros s Hs. Qed.

Lemma preserves_raise A (e : E) : preserves (A:=A) P (raise e).
Proof. by intros s Hs. Qed.

Lemma preserves_gets A (f : S → A) : preserves (E:=E) P (gets f).
Proof. by intros s Hs. Qed.

Lemma preserves_get : preserves (E:=E) P get.
Proof. by intros s Hs. Qed.

Lemma preserves_modify (f : S → S) : (∀ s, P s → P (f s)) → preserves (E:=E) P (modify f).
Proof. intros H s Hs. by apply H. Qed.

Lemma preserves_bind A B (m : M S E A) (k : A → M S E B) :
  preserves P m → (∀ a, preserves P (k a)) → preserves P (m ≫= k).
Proof.
  intros Hm Hk s Hs. unfold after, mbind, M_bind. specialize (Hm s Hs).
  unfold after in Hm. destruct (m s) as [[a|e] s'] eqn:Em; cbn in *; [|done].
  by apply (Hk a s').
Qed.

Lemma preserves_try E' A (m : M S E A) (h : E → M S E' A) :
  preserves P m → (∀ e, preserves P (h e)) → preserves P (try_except m h).
Proof.
  intros Hm Hh s Hs. unfold after, try_except. specialize (Hm s Hs).
  unfold after in Hm. destruct (m s) as [[a|e] s'] eqn:Em; cbn in *; [done|].
  by apply (Hh e s').
Qed.

Lemma preserves_if A (b : bool) (m1 m2 : M S E A) :
  (b = true → preserves P m1) → (b = false → preserves P m2) →
  preserves P (if b then m1 else m2).
Proof. destruct b; auto. Qed.

Lemma preserves_when (b : bool) (m : M S E unit) :
  (b = true → preserves P m) → preserves P (when b m).
Proof. destruct b; [auto|]. intros _. apply preserves_ret. Qed.
End Preservation.

#[export] Hint Resolve preserves_ret preserves_raise preserves_get preserves_gets : py.

(** ** Results of computations

    [returns P m]: what [m] returns satisfies [P] ([m] may raise);
    [yields P m]: moreover [m] does not raise. *)

Definition returns {S E A} (P : A → Prop) (m : M S E A) : Prop :=
  ∀ s, match outcome m s with Ok a => P a | Err _ => True end.
Definition yields {S E A} (P : A → Prop) (m : M S E A) : Prop :=
  ∀ s, match outcome m s with Ok a => P a | Err _ => False end.

Section Results.
Context {S E : Type}.

Lemma returns_any A (m : M S E A) : returns (λ _, True) m.
Proof. intros s. by destruct (outcome m s). Qed.

Lemma returns_ret A (P : A → Prop) a : P a → returns (S:=S) (E:=E) P (mret a).
Proof. by intros Ha s. Qed.

Lemma returns_raise A (P : A → Prop) (e : E) : returns (S:=S) P (raise e).
Proof. by intros s. Qed.

Lemma returns_bind A B (Q : A → Prop) (P : B → Prop) (m : M S E A) (k : A → M S E B) :
  returns Q m → (∀ a, Q a → returns P (k a)) → returns P (m ≫= k).
Proof.
  intros Hm Hk s. specialize (Hm s). unfold outcome, mbind, M_bind in *.
  destruct (m s) as [[a|e] s']; [|done]. by apply (Hk a Hm s').
Qed.

Lemma returns_seq A B (P : B → Prop) (m : M S E A) (k : M S E B) :
  returns P k → returns P (m ;; k).
Proof. intros Hk. eapply returns_bind; [apply returns_any|done]. Qed.

Lemma returns_then A B (P : B → Prop) (m : M S E A) (k : A → M S E B) :
  (∀ a, returns P (k a)) → returns P (m ≫= k).
Proof. intros Hk. eapply returns_bind; [apply returns_any|done]. Qed.

Lemma yields_ret A (P : A → Prop) a : P a → yields (S:=S) (E:=E) P (mret a).
Proof. by intros Ha s. Qed.

Lemma yields_bind A B (Q : A → Prop) (P : B → Prop) (m : M S E A) (k : A → M S E B) :
  yields Q m → (∀ a, Q a → yields P (k a)) → yields P (m ≫= k).
Proof.
  intros Hm Hk s. specialize (Hm s). unfold outcome, mbind, M_bind in *.
  destruct (m s) as [[a|e] s']; [|done]. by apply (Hk a Hm s').
Qed.

Lemma yields_weaken A (P Q : A → Prop) (m : M S E A) :
  (∀ a, P a → Q a) → yields P m → yields Q m.
Proof. intros HPQ Hm s. specialize (Hm s). destruct (outcome m s); auto. Qed.

Lemma yields_try E' A (P : A → Prop) (m : M S E A) (h : E → M S E' A) :
  returns P m → (∀ e, yields P (h e)) → yields P (try_except m h).
Proof.
  intros Hm Hh s. specialize (Hm s). unfold outcome, try_except in *.
  destruct (m s) as [[a|e] s']; [done|]. apply Hh.
Qed.
End Results.

(** ** Taking a computation apart *)

Lemma bind_Ok {S E A B} (m : M S E A) (k : A → M S E B) s b s' :
  (m ≫= k) s = (Ok b, s') → ∃ a s1, m s = (Ok a, s1) ∧ k a s1 = (Ok b, s').
Proof. unfold mbind, M_bind. destruct (m s) as [[a|e] s1]; [|done]. eauto. Qed.

Lemma try_Ok {S E E' A} (m : M S E A) (f : E → E') (g : M S E' unit) s a s' :
  try_except m (λ e, g ;; raise (f e)) s = (Ok a, s') → m s = (Ok a, s').
Proof.
  unfold try_except, mbind, M_bind, raise. destruct (m s) as [[b|e] s1]; [congruence|].
  destruct (g s1) as [[[]|e'] s2]; discriminate.
Qed.

Lemma try_raise_Ok {S E E' A} (m : M S E A) (f : E → E') s a s' :
  try_except m (λ e, raise (f e)) s = (Ok a, s') → m s = (Ok a, s').
Proof. unfold try_except, raise. destruct (m s) as [[b|e] s1]; [congruence|discriminate]. Qed.

(** ** Invariants together with results

    [keeps P Q m]: [m] preserves [P], and where [P] held, what it returns
    satisfies [Q]. *)

Definition keeps {S E A} (P : S → Prop) (Q : A → Prop) (m : M S E A) : Prop :=
  ∀ s, P s → P (after m s) ∧ ∀ a, outcome m s = Ok a → Q a.

Section Keeping.
Context {S E : Type} (P : S → Prop).

Lemma keeps_preserves A (Q : A → Prop) (m : M S E A) : keeps P Q m → preserves P m.
Proof. intros H s Hs. by apply H. Qed.

Lemma preserves_keeps A (Q : A → Prop) (m : M S E A) : preserves P m → returns Q m → keeps P Q m.
Proof. intros Hp Hq s Hs. split; [by apply Hp|]. intros a Ha. specialize (Hq s). by rewrite Ha in Hq. Qed.

Lemma keeps_weaken A (Q Q' : A → Prop) (m : M S E A) : (∀ a, Q a → Q' a) → keeps P Q m → keeps P Q' m.
Proof. intros HQ H s Hs. destruct (H s Hs). split; auto. Qed.

Lemma keeps_ret A (Q : A → Prop) a : Q a → keeps (E:=E) P Q (mret a).
Proof. intros Ha s Hs. split; [done|]. by intros ? [= <-]. Qed.

Lemma keeps_raise A (Q : A → Prop) (e : E) : keeps P Q (raise e).
Proof. by intros s Hs. Qed.

Lemma keeps_gets A (Q : A → Prop) (f : S → A) : (∀ s, P s → Q (f s)) → keeps (E:=E) P Q (gets f).
Proof. intros H s Hs. split; [done|]. intros ? [= <-]. by apply H. Qed.

Lemma keeps_modify (f : S → S) : (∀ s, P s → P (f s)) → keeps (E:=E) P (λ _, True) (modify f).
Proof. intros H s Hs. split; [by apply H|done]. Qed.

Lemma keeps_bind A B (Q : A → Prop) (Q' : B → Prop) (m : M S E A) (k : A → M S E B) :
  keeps P Q m → (∀ a, Q a → keeps P Q' (k a)) → keeps P Q' (m ≫= k).
Proof.
  intros Hm Hk s Hs. destruct (Hm s Hs) as [Hp Hq]. unfold after, outcome, mbind, M_bind in *.
  destruct (m s) as [[a|e] s']; cbn in *; [|done]. by apply (Hk a (Hq a eq_refl) s').
Qed.

Lemma keeps_try E' A (Q : A → Prop) (m : M S E A) (h : E → M S E' A) :
  keeps P Q m → (∀ e, keeps P Q (h e)) → keeps P Q (try_except m h).
Proof.
  intros Hm Hh s Hs. destruct (Hm s Hs) as [Hp Hq]. unfold after, outcome, try_except in *.
  destruct (m s) as [[a|e] s']; cbn in *; [split; [done|]; intros ? [= <-]; by apply Hq|]. by apply (Hh e s').
Qed.

Lemma keeps_when (b : bool) (m : M S E unit) : keeps P (λ _, True) m → keeps P (λ _, True) (when b m).
Proof. destruct b; [done|]. intros _. by apply keeps_ret. Qed.
End Keeping.

(** Unfolds the monad in the goal and hypotheses so that the branches of a
    method appear as plain matches. *)
Ltac run_m :=
  unfold outcome, after, mbind, M_bind, mret, M_ret, fmap, M_map, raise, get, gets, modify,
    lift_result, try_except, with_err, when, zoom in *; cbn beta iota zeta delta [negb] in *.

(** Evaluates the decisions on concrete values, such as [s == State.OPEN]. *)
Ltac eval_decides :=
  repeat match goal with
  | |- context [@bool_decide ?P ?d] =>
      first [ change (@bool_decide P d) with true | change (@bool_decide P d) with false ]
  end; cbn.

(** Splits on the guards of the goal, one at a time. *)
Ltac split_guards :=
  repeat (case_match; simplify_eq/=; try done).

(** Boolean guards of the code, as propositions. *)
Ltac bool_hyps :=
  repeat match goal with
  | H : (_ && _)%bool = true |- _ => apply andb_true_iff in H as [??]
  | H : (_ || _)%bool = false |- _ => apply orb_false_iff in H as [??]
  | H : negb _ = true |- _ => apply negb_true_iff in H
  | H : negb _ = false |- _ => apply negb_false_iff in H
  | H : (_ <=? _) = true |- _ => apply Z.leb_le in H
  | H : (_ <=? _) = false |- _ => apply Z.leb_gt in H
  | H : (_ <? _) = true |- _ => apply Z.ltb_lt in H
  | H : (_ <? _) = false |- _ => apply Z.ltb_ge in H
  | H : (_ =? _) = true |- _ => apply Z.eqb_eq in H
  | H : (_ =? _) = false |- _ => apply Z.eqb_neq in H
  | H : bool_decide _ = true |- _ => apply bool_decide_eq_true in H
  | H : bool_decide _ = false |- _ => apply bool_decide_eq_false in H
  end.

(** * Transition sequences *)

Section Steps.
Context {A : Type} (R : A → A → Prop).

Inductive steps : A → A → Prop :=
  | steps_refl a : steps a a
  | steps_cons a b c : R a b → steps b c → steps a c.

Lemma steps_trans a b c : steps a b → steps b c → steps a c.
Proof. induction 1; eauto using steps. Qed.

Lemma steps_invariant (P : A → Prop) :
  (∀ a b, R a b → P a → P b) → ∀ a b, steps a b → P a → P b.
Proof. induction 2; eauto. Qed.
End Steps.

#[export] Hint Constructors steps : py.

(** Runs of a deterministic operation over a list of inputs. *)
Section Runs.
Context {S I : Type} (op : I → S → S).

Definition run_ops (l : list I) (s : S) : S := foldl (λ s i, op i s) s l.

Lemma run_ops_invariant (P : S → Prop) :
  (∀ i s, P s → P (op i s)) → ∀ l s, P s → P (run_ops l s).
Proof. intros H l. unfold run_ops. induction l as [|i l IH]; intros s Hs; cbn; [done|]. by apply IH, H. Qed.

Lemma run_ops_app l1 l2 s : run_ops (l1 ++ l2) s = run_ops l2 (run_ops l1 s).
Proof. apply foldl_app. Qed.
End Runs.

(** * Lists and integers *)

Fixpoint sumZ (l : list Z) : Z :=
  match l with
  | [] => 0
  | x :: l' => x + sumZ l'
  end.

Lemma sumZ_app l1 l2 : sumZ (l1 ++ l2) = sumZ l1 + sumZ l2.
Proof. induction l1; cbn; lia. Qed.

Lemma sumZ_insert (l : list Z) (i : nat) x v :
  l !! i = Some v → sumZ (<[i:=x]> l) = sumZ l - v + x.
Proof.
  revert i. induction l as [|y l IH]; intros [|i] H; simplify_eq/=; [lia|].
  rewrite (IH i H). lia.
Qed.

(** Consecutive elements of a list are related. *)
Fixpoint chained {A} (R : A → A → Prop) (l : list A) : Prop :=
  match l with
  | x :: (y :: _) as l' => R x y ∧ chained R l'
  | _ => True
  end.

Lemma chained_snoc {A} (R : A → A → Prop) (l : list A) x y :
  chained R l → last l = Some x → R x y → chained R (l ++ [y]).
Proof.
  induction l as [|a [|b l] IH]; intros Hc Hl HR; simplify_eq/=; [done..|].
  destruct Hc as [Hab Hc]. split; [done|]. by apply IH.
Qed.
