(* ===== verification/PyFloat.v ===== *)
(** Python floats.  A [float] is an IEEE 754 binary64 value, the kernel-checked
    [spec_float] of the Standard Library with precision 53 and exponent bound
    1024: NaN, the infinities and the signed zeros behave as they do in Python,
    and every operation rounds to nearest, ties to even. *)

From stdpp Require Import base list.
From Stdlib Require Import ZArith Lia Floats.SpecFloat.
From S2P Require Import Prelude.

Abbreviation float := spec_float.

Declare Scope pyfloat_scope.
Delimit Scope pyfloat_scope with pyf.

#[global] Instance float_eq_dec : EqDecision float.
Proof. solve_decision. Defined.

Definition fadd : float → float → float := SFadd 53 1024.
Definition fsub : float → float → float := SFsub 53 1024.
Definition fmul : float → float → float := SFmul 53 1024.
Definition fdiv : float → float → float := SFdiv 53 1024.
Definition fneg : float → float := SFopp.
Definition fabs : float → float := SFabs.
Definition feq : float → float → bool := SFeqb.
Definition flt : float → float → bool := SFltb.
Definition fle : float → float → bool := SFleb.

(** [float(z)].  Python raises [OverflowError] where this saturates to an
    infinity, beyond the range of binary64. *)
Definition of_Z (z : Z) : float := binary_normalize 53 1024 z 0 false.

(** A decimal literal [m * 10^-k]: both operands are exact for the literals of
    the program, so the correctly rounded quotient is the literal's value. *)
Definition dec (m : Z) (k : Z) : float := fdiv (of_Z m) (of_Z (10 ^ k)).

Definition fzero : float := S754_zero false.
Definition is_nan (x : float) : bool := match x with S754_nan => true | _ => false end.

Infix "+" := fadd : pyfloat_scope.
Infix "-" := fsub : pyfloat_scope.
Infix "*" := fmul : pyfloat_scope.
Infix "/" := fdiv : pyfloat_scope.
Infix "<?" := flt : pyfloat_scope.
Infix "<=?" := fle : pyfloat_scope.
Infix "=?" := feq : pyfloat_scope.
Notation "x >? y" := (flt y x) (only parsing) : pyfloat_scope.
Notation "x >=? y" := (fle y x) (only parsing) : pyfloat_scope.

(** [max(a, b)] and [min(a, b)] keep the first argument unless the second is
    strictly beyond it. *)
Definition fmax (a b : float) : float := if flt a b then b else a.
Definition fmin (a b : float) : float := if flt b a then b else a.

(** [sum(l)] starts from the integer 0, so the first addition is exact. *)
Definition fsum (l : list float) : float := foldl fadd fzero l.

(** ** Comparison with integers: Python compares the exact values. *)
Definition fcmpZ (x : float) (z : Z) : option comparison :=
  match x with
  | S754_nan => None
  | S754_infinity s => Some (if s then Lt else Gt)
  | S754_zero _ => Some (0 ?= z)
  | S754_finite s m e =>
      let v := cond_Zopp s (Zpos m) in
      Some (if 0 <=? e then v * 2 ^ e ?= z else v ?= z * 2 ^ (- e))
  end.
Definition fltZ (x : float) (z : Z) : bool := match fcmpZ x z with Some Lt => true | _ => false end.
Definition fleZ (x : float) (z : Z) : bool :=
  match fcmpZ x z with Some (Lt | Eq) => true | _ => false end.
Definition fgtZ (x : float) (z : Z) : bool := match fcmpZ x z with Some Gt => true | _ => false end.
Definition fgeZ (x : float) (z : Z) : bool :=
  match fcmpZ x z with Some (Gt | Eq) => true | _ => false end.

(** ** Conversion to integers; [None] is the [ValueError]/[OverflowError]. *)

(** [int(x)]: towards zero. *)
Definition trunc (x : float) : option Z :=
  match x with
  | S754_zero _ => Some 0
  | S754_finite s m e =>
      Some (cond_Zopp s (if 0 <=? e then Zpos m * 2 ^ e else Zpos m / 2 ^ (- e)))
  | _ => None
  end.

(** [n / d] rounded to the nearest integer, ties to even ([d > 0]). *)
Definition div_half_even (n d : Z) : Z :=
  let q := n / d in
  let r := n mod d in
  match 2 * r ?= d with
  | Lt => q
  | Gt => q + 1
  | Eq => if Z.even q then q else q + 1
  end.

(** [round(x)]: ties to even. *)
Definition round (x : float) : option Z :=
  match x with
  | S754_zero _ => Some 0
  | S754_finite s m e =>
      Some (cond_Zopp s (if 0 <=? e then Zpos m * 2 ^ e else div_half_even (Zpos m) (2 ^ (- e))))
  | _ => None
  end.

(** [round(x, k)]: the exact value rounded half to even, then the float nearest
    to that decimal; the sign of a zero stays. *)
Definition round_to (k : Z) (x : float) : float :=
  match x with
  | S754_finite s m e =>
      let p := Zpos m * 10 ^ k in
      match (if e <? 0 then div_half_even p (2 ^ (- e)) else p * 2 ^ e) with
      | Zpos n => fdiv (S754_finite s n 0) (of_Z (10 ^ k))
      | _ => S754_zero s
      end
  | _ => x
  end.

(** * The order on floats *)

(** Every non-NaN value has a key, and comparison is the lexicographic order
    of the keys. *)
Definition fkey (x : float) : Z * Z * Z :=
  match x with
  | S754_nan => (0, 0, 0)
  | S754_infinity s => ((if s then -2 else 2), 0, 0)
  | S754_zero _ => (0, 0, 0)
  | S754_finite true m e => (-1, - e, - Zpos m)
  | S754_finite false m e => (1, e, Zpos m)
  end.

Definition key_lt (a b : Z * Z * Z) : Prop :=
  a.1.1 < b.1.1 ∨ (a.1.1 = b.1.1 ∧ (a.1.2 < b.1.2 ∨ (a.1.2 = b.1.2 ∧ a.2 < b.2))).

Lemma SFcompare_key x y :
  is_nan x = false → is_nan y = false →
  match SFcompare x y with
  | Some Lt => key_lt (fkey x) (fkey y)
  | Some Eq => fkey x = fkey y
  | Some Gt => key_lt (fkey y) (fkey x)
  | None => False
  end.
Proof.
  intros Hx Hy. unfold key_lt.
  destruct x as [sx|sx| |sx mx ex], y as [sy|sy| |sy my ey]; try done;
    destruct sx, sy; cbn; try done; try lia.
  - destruct (Z.compare_spec ex ey); cbn; try lia. subst.
    change (Pos.compare_cont Eq mx my) with (mx ?= my)%positive.
    destruct (Pos.compare_spec mx my); cbn; subst; try done; lia.
  - destruct (Z.compare_spec ex ey); cbn; try lia. subst.
    change (Pos.compare_cont Eq mx my) with (mx ?= my)%positive.
    destruct (Pos.compare_spec mx my); cbn; subst; try done; lia.
Qed.

Lemma flt_key x y :
  is_nan x = false → is_nan y = false → flt x y = true ↔ key_lt (fkey x) (fkey y).
Proof.
  intros Hx Hy. pose proof (SFcompare_key x y Hx Hy) as H. unfold flt, SFltb, key_lt in *.
  destruct (SFcompare x y) as [[]|]; try done; split; try done; try (rewrite H); lia.
Qed.

Lemma fle_key x y :
  is_nan x = false → is_nan y = false → fle x y = true ↔ ¬ key_lt (fkey y) (fkey x).
Proof.
  intros Hx Hy. pose proof (SFcompare_key x y Hx Hy) as H. unfold fle, SFleb, key_lt in *.
  destruct (SFcompare x y) as [[]|]; try done; split; try done; try (rewrite H); lia.
Qed.

Lemma flt_nan x y : flt x y = true → is_nan x = false ∧ is_nan y = false.
Proof. by destruct x, y. Qed.

Lemma fle_nan x y : fle x y = true → is_nan x = false ∧ is_nan y = false.
Proof. by destruct x, y. Qed.

Lemma flt_nan_l x y : is_nan x = true → flt x y = false.
Proof. by destruct x. Qed.
Lemma flt_nan_r x y : is_nan y = true → flt x y = false.
Proof. by destruct x, y. Qed.

Lemma key_lt_trans a b c : key_lt a b → key_lt b c → key_lt a c.
Proof. unfold key_lt. lia. Qed.

Ltac fkeys :=
  repeat match goal with
  | H : flt ?x ?y = true |- _ =>
      let h1 := fresh in let h2 := fresh in
      pose proof (flt_nan x y H) as [h1 h2]; apply (flt_key x y h1 h2) in H
  | H : fle ?x ?y = true |- _ =>
      let h1 := fresh in let h2 := fresh in
      pose proof (fle_nan x y H) as [h1 h2]; apply (fle_key x y h1 h2) in H
  end.

Lemma fle_trans x y z : fle x y = true → fle y z = true → fle x z = true.
Proof. intros. fkeys. rewrite fle_key by done. unfold key_lt in *. lia. Qed.

Lemma flt_le_trans x y z : flt x y = true → fle y z = true → flt x z = true.
Proof. intros. fkeys. rewrite flt_key by done. unfold key_lt in *. lia. Qed.

Lemma fle_lt_trans x y z : fle x y = true → flt y z = true → flt x z = true.
Proof. intros. fkeys. rewrite flt_key by done. unfold key_lt in *. lia. Qed.

Lemma flt_trans x y z : flt x y = true → flt y z = true → flt x z = true.
Proof. intros. fkeys. rewrite flt_key by done. unfold key_lt in *. lia. Qed.

Lemma flt_irrefl x : flt x x = false.
Proof.
  apply not_true_is_false. intros H. fkeys. unfold key_lt in *. lia.
Qed.

Lemma fle_refl x : is_nan x = false → fle x x = true.
Proof. intros. rewrite fle_key by done. unfold key_lt. lia. Qed.

Lemma flt_le x y : flt x y = true → fle x y = true.
Proof. intros. fkeys. rewrite fle_key by done. unfold key_lt in *. lia. Qed.

Lemma fle_not_lt x y : is_nan x = false → is_nan y = false → fle x y = negb (flt y x).
Proof.
  intros Hx Hy. destruct (flt y x) eqn:E, (fle x y) eqn:F; cbn; try done; exfalso.
  - fkeys. done.
  - assert (¬ flt y x = true) as Hn by congruence. rewrite flt_key in Hn by done.
    assert (¬ fle x y = true) as Hm by congruence. rewrite fle_key in Hm by done.
    unfold key_lt in *. lia.
Qed.

Lemma flt_not_le x y : is_nan x = false → is_nan y = false → flt x y = negb (fle y x).
Proof. intros. rewrite (fle_not_lt y x) by done. by rewrite negb_involutive. Qed.

Lemma fmax_ge_l a b : is_nan a = false → fle a (fmax a b) = true.
Proof.
  intros Ha. unfold fmax. destruct (flt a b) eqn:E; [by apply flt_le|by apply fle_refl].
Qed.

Lemma feq_zero x : feq x fzero = true ↔ ∃ s, x = S754_zero s.
Proof.
  split.
  - destruct x as [s|[]| |[] m e]; cbn; try done. by exists s.
  - intros [s ->]. done.
Qed.

Lemma fneg_involutive x : fneg (fneg x) = x.
Proof. destruct x; cbn; by rewrite ?negb_involutive. Qed.

#[global] Arguments fadd : simpl never.
#[global] Arguments fsub : simpl never.
#[global] Arguments fmul : simpl never.
#[global] Arguments fdiv : simpl never.
#[global] Arguments feq : simpl never.
#[global] Arguments flt : simpl never.
#[global] Arguments fle : simpl never.
#[global] Arguments of_Z : simpl never.
#[global] Arguments dec : simpl never.
#[global] Arguments fltZ : simpl never.
#[global] Arguments fleZ : simpl never.
#[global] Arguments fgtZ : simpl never.
#[global] Arguments fgeZ : simpl never.

#[export] Hint Resolve fle_refl flt_le : py.

Example round_to_examples :
  round_to 2 (dec 2675 3) = dec 267 2 ∧ round_to 4 (dec (-1) 5) = S754_zero true ∧
  round_to 1 (dec 25 2) = dec 2 1.
Proof. vm_compute. split_and!; reflexivity. Qed.

Example tenth_and_two_tenths :
  (dec 1 1 + dec 2 1 =? dec 3 1)%pyf = false.
Proof. reflexivity. Qed.
