(* ===== verification/PyDict.v ===== *)
(** Python dicts whose order the program observes: association lists with distinct
    keys.  An assignment to a present key keeps its place, a new key goes to the
    end, and [del] keeps the order of the others. *)

From stdpp Require Import base option list sets.

Section Dict.
Context {K : Type} `{EqDecision K} {A : Type}.
Implicit Types (k : K) (v : A) (d : list (K * A)).

Fixpoint dict_get k d : option A :=
  match d with
  | [] => None
  | (k', v) :: d' => if bool_decide (k = k') then Some v else dict_get k d'
  end.

(** [d[k] = v] *)
Fixpoint dict_set k v d : list (K * A) :=
  match d with
  | [] => [(k, v)]
  | (k', v') :: d' => if bool_decide (k = k') then (k, v) :: d' else (k', v') :: dict_set k v d'
  end.

(** [del d[k]], of a present key *)
Fixpoint dict_del k d : list (K * A) :=
  match d with
  | [] => []
  | (k', v) :: d' => if bool_decide (k = k') then d' else (k', v) :: dict_del k d'
  end.

Lemma dict_get_none k d : dict_get k d = None ↔ k ∉ d.*1.
Proof.
  induction d as [|[k' v] d IH]; cbn; [set_solver|]. case_bool_decide; [split; [done|set_solver]|].
  rewrite IH. set_solver.
Qed.

Lemma dict_get_None k d : k ∉ d.*1 → dict_get k d = None.
Proof. apply dict_get_none. Qed.

Lemma dict_get_elem k v d : dict_get k d = Some v → (k, v) ∈ d.
Proof. induction d as [|[k' v'] d IH]; cbn; [done|]. case_bool_decide; [intros [= ->]; subst; by left|right; auto]. Qed.

Lemma dict_get_of_elem k v d : NoDup d.*1 → (k, v) ∈ d → dict_get k d = Some v.
Proof.
  induction d as [|[k' v'] d IH]; cbn; [set_solver|]. intros [Hn Hd]%NoDup_cons [[= -> ->]|Hin]%elem_of_cons.
  - by rewrite bool_decide_true.
  - rewrite bool_decide_false; [by apply IH|]. intros ->. apply Hn. apply list_elem_of_fmap. by exists (k', v).
Qed.

Lemma dict_get_set k k' v d : dict_get k (dict_set k' v d) = if bool_decide (k = k') then Some v else dict_get k d.
Proof.
  induction d as [|[k1 v1] d IH]; cbn; [done|].
  destruct (decide (k' = k1)) as [->|Hne].
  - rewrite (bool_decide_true (k1 = k1)) by done. cbn. by destruct (bool_decide (k = k1)).
  - rewrite (bool_decide_false (k' = k1)) by done. cbn. rewrite IH.
    destruct (decide (k = k1)) as [->|]; [|by rewrite (bool_decide_false (k = k1)) by done].
    rewrite (bool_decide_true (k1 = k1)), (bool_decide_false (k1 = k')) by (done || congruence). done.
Qed.

Lemma dict_set_keys k v d : ∀ x, x ∈ (dict_set k v d).*1 ↔ x = k ∨ x ∈ d.*1.
Proof.
  induction d as [|[k1 v1] d IH]; intros x; cbn; [set_solver|].
  case_bool_decide; subst; cbn; [set_solver|]. rewrite !elem_of_cons, IH. tauto.
Qed.

Lemma dict_set_values k v d x : x ∈ (dict_set k v d).*2 → x = v ∨ x ∈ d.*2.
Proof. induction d as [|[k1 v1] d IH]; cbn; [set_solver|]. case_bool_decide; cbn; set_solver. Qed.

Lemma dict_set_NoDup k v d : NoDup d.*1 → NoDup (dict_set k v d).*1.
Proof.
  induction d as [|[k1 v1] d IH]; cbn; intros Hnd; [repeat constructor; set_solver|].
  apply NoDup_cons in Hnd as [Hni Hnd]. case_bool_decide; subst; cbn; [by constructor|].
  constructor; [|by apply IH]. rewrite dict_set_keys. intros [->|?]; by auto.
Qed.

Lemma dict_set_keys_same k v d : k ∈ d.*1 → (dict_set k v d).*1 = d.*1.
Proof.
  induction d as [|[k' v'] d IH]; cbn; [set_solver|]. intros Hk. case_bool_decide as E; cbn; [by rewrite E|].
  rewrite IH; [done|]. set_solver.
Qed.

Lemma dict_set_new k v d : dict_get k d = None → dict_set k v d = d ++ [(k, v)].
Proof. induction d as [|[k' v'] d IH]; cbn; [done|]. case_bool_decide; [done|]. intros. by rewrite IH. Qed.

Lemma dict_del_elem k d x : x ∈ dict_del k d → x ∈ d.
Proof. induction d as [|[k' v] d IH]; cbn; [done|]. case_bool_decide; set_solver. Qed.

Lemma dict_del_NoDup k d : NoDup d.*1 → NoDup (dict_del k d).*1.
Proof.
  induction d as [|[k' v] d IH]; cbn; [done|]. intros [Hn Hd]%NoDup_cons. case_bool_decide; [done|]. cbn.
  constructor; [|by apply IH]. intros ([k1 v1] & -> & Hin%dict_del_elem)%list_elem_of_fmap. apply Hn.
  apply list_elem_of_fmap. by exists (k1, v1).
Qed.

Lemma dict_get_del k k' d : NoDup d.*1 → dict_get k (dict_del k' d) = if bool_decide (k = k') then None else dict_get k d.
Proof.
  induction d as [|[k1 v1] d IH]; cbn; [intros _; by case_bool_decide|]. intros [Hn Hd]%NoDup_cons.
  destruct (decide (k' = k1)) as [->|].
  - rewrite (bool_decide_true (k1 = k1)) by done. case_bool_decide; [|done]. subst. by apply dict_get_None.
  - rewrite (bool_decide_false (k' = k1)) by done. cbn. rewrite IH by done.
    destruct (decide (k = k1)) as [->|]; [|by rewrite (bool_decide_false (k = k1)) by done].
    by rewrite (bool_decide_true (k1 = k1)), (bool_decide_false (k1 = k')) by congruence.
Qed.
End Dict.

(** Maps over the values *)
Lemma dict_get_fmap {K} `{EqDecision K} {A B} (f : A → B) (k : K) d : dict_get k (prod_map id f <$> d) = f <$> dict_get k d.
Proof. induction d as [|[k' v] d IH]; cbn; [done|]. by case_bool_decide. Qed.

Lemma dict_del_fmap {K} `{EqDecision K} {A B} (f : A → B) (k : K) d :
  dict_del k (prod_map id f <$> d) = prod_map id f <$> dict_del k d.
Proof. induction d as [|[k' v] d IH]; cbn; [done|]. case_bool_decide; cbn; [done|]. by rewrite IH. Qed.
