(* ===== verification/PyFormat.v ===== *)
(** Python's number formatting ([f"{x:,.0f}"], [f"{x:.2%}"], [f"{n}"]) and the
    substring test [p in s], on UTF-8 strings, where the bytes of a match are
    the bytes of a match of characters. *)

From stdpp Require Import base option list strings.
From Stdlib Require Import ZArith Lia Ascii Floats.SpecFloat.
From S2P Require Import Prelude PyFloat.

(** [len(s)]: code points of a UTF-8 string. *)
Fixpoint py_len (s : string) : Z :=
  match s with
  | "" => 0
  | String a s' =>
      let n := Ascii.N_of_ascii a in
      (if (128 <=? n)%N && (n <=? 191)%N then 0 else 1) + py_len s'
  end.

(** * Substrings *)

(** [s.startswith(p)] *)
Fixpoint starts_with (p s : string) : bool :=
  match p, s with
  | "", _ => true
  | String a p', String b s' => Ascii.eqb a b && starts_with p' s'
  | String _ _, "" => false
  end.

(** [p in s] *)
Fixpoint contains (p s : string) : bool :=
  starts_with p s || match s with "" => false | String _ s' => contains p s' end.

(** Neither string is a prefix of the other. *)
Definition clash (a b : string) : bool := negb (starts_with a b) && negb (starts_with b a).

(** Every non-empty suffix of [s] satisfies [f]. *)
Fixpoint all_suffixes (f : string → bool) (s : string) : bool :=
  match s with "" => true | String _ s' => f s && all_suffixes f s' end.

(** No occurrence of [p] can touch [t]: it can neither run into it nor begin in it. *)
Definition foreign (p t : string) : bool :=
  negb (bool_decide (t = "")) && negb (bool_decide (p = "")) &&
  all_suffixes (λ p', clash p' t) p && all_suffixes (clash p) t.

Lemma append_cons a (s t : string) : String a s +:+ t = String a (s +:+ t).
Proof. reflexivity. Qed.

Lemma append_nil (s : string) : "" +:+ s = s.
Proof. reflexivity. Qed.

Lemma append_assoc (r s t : string) : r +:+ (s +:+ t) = (r +:+ s) +:+ t.
Proof. induction r as [|a r IH]; [done|]. by rewrite !append_cons, IH. Qed.
Lemma append_nil_r (s : string) : s +:+ "" = s.
Proof. induction s as [|a s IH]; [done|]. by rewrite append_cons, IH. Qed.

Lemma clash_app a b s : clash a b = true → starts_with a (b +:+ s) = false.
Proof.
  unfold clash. revert b. induction a as [|x a IH]; intros [|y b]; rewrite ?append_cons; cbn; try done.
  rewrite (Ascii.eqb_sym y x). destruct (Ascii.eqb x y); cbn; [apply IH|done].
Qed.

Lemma starts_with_before p t s1 s2 :
  all_suffixes (λ p', clash p' t) p = true → p ≠ "" →
  starts_with p (s1 +:+ t +:+ s2) = starts_with p s1.
Proof.
  revert p. induction s1 as [|b s1 IH]; intros [|a p] H Hne; try done; cbn in H;
    apply andb_true_iff in H as [H1 H2].
  - rewrite append_nil. by apply clash_app.
  - rewrite append_cons. cbn. destruct (Ascii.eqb a b); [|done]. cbn.
    destruct p as [|a' p]; [by destruct s1|]. by apply IH.
Qed.

Lemma contains_after p t s :
  all_suffixes (clash p) t = true → contains p (t +:+ s) = contains p s.
Proof.
  induction t as [|a t IH]; [done|]. intros [H1 H2]%andb_true_iff.
  rewrite <- (IH H2). apply (clash_app _ _ s) in H1. rewrite append_cons in *. cbn in *.
  by rewrite H1.
Qed.

(** A foreign segment splits the search. *)
Lemma contains_split p t s1 s2 :
  foreign p t = true →
  contains p (s1 +:+ t +:+ s2) = contains p s1 || contains p s2.
Proof.
  unfold foreign. intros H. bool_hyps.
  assert (starts_with p "" = false) as Hp by by destruct p.
  induction s1 as [|b s1 IH].
  - rewrite append_nil, contains_after by done. cbn. by rewrite Hp.
  - pose proof (starts_with_before p t (String b s1) s2) as Hb. rewrite append_cons in *.
    cbn [contains]. rewrite IH, orb_assoc, Hb by done. done.
Qed.

Lemma contains_split_end p t s1 :
  foreign p t = true → contains p (s1 +:+ t) = contains p s1.
Proof.
  intros H. rewrite <- (append_nil_r t), contains_split by done. unfold foreign in H. bool_hyps.
  destruct p; [done|]. cbn. by rewrite orb_false_r.
Qed.

Lemma contains_prefix p s : contains p (p +:+ s) = true.
Proof.
  destruct (p +:+ s) as [|a s'] eqn:E; [by destruct p|].
  assert (∀ q r, starts_with q (q +:+ r) = true) as Hs.
  { induction q as [|c q IH]; intros r; [done|]. rewrite append_cons. cbn. rewrite Ascii.eqb_refl. apply IH. }
  cbn. specialize (Hs p s). rewrite E in Hs. cbn in Hs. by rewrite Hs.
Qed.

(** * Digits *)

Definition digit (n : Z) : ascii := ascii_of_N (Z.to_N (48 + n)).

(** The decimal digits of [n >= 0], most significant first. *)
Fixpoint digits_fuel (fuel : nat) (n : Z) (acc : string) : string :=
  match fuel with
  | O => acc
  | S fuel' =>
      let acc' := String (digit (n mod 10)) acc in
      if n <? 10 then acc' else digits_fuel fuel' (n / 10) acc'
  end.
Definition digits (n : Z) : string := digits_fuel (S (Z.to_nat (Z.log2 n))) n "".

(** Thousands separators, from the right. *)
Fixpoint group_from (k : nat) (s : string) : string :=
  match s with
  | "" => ""
  | String a s' =>
      let rest := group_from (pred k) s' in
      if bool_decide (k ≠ 1 ∧ (k - 1) mod 3 = 0)%nat then String a (String "," rest) else String a rest
  end.
Definition group (s : string) : string := group_from (String.length s) s.

Fixpoint pad_left (n : nat) (s : string) : string :=
  match n with O => s | S n' => String "0" (pad_left n' s) end.

(** [f"{n}"] for an integer. *)
Definition fmt_int (n : Z) : string := if n <? 0 then "-" +:+ digits (- n) else digits n.

(** [f"{x:.<prec>f}"], with thousands separators when [comma]: the exact binary
    value rounded half to even at [prec] decimals. *)
Definition fmt_fixed (comma : bool) (prec : nat) (x : float) : string :=
  let sign (s : bool) := if s then "-" else "" in
  let body (n : Z) :=
    let p := 10 ^ Z.of_nat prec in
    let int := digits (n / p) in
    let frac := digits (n mod p) in
    (if comma then group int else int) +:+
    (if bool_decide (prec = 0%nat) then "" else
       "." +:+ pad_left (prec - String.length frac) frac) in
  match x with
  | S754_nan => "nan"
  | S754_infinity s => sign s +:+ "inf"
  | S754_zero s => sign s +:+ body 0
  | S754_finite s m e =>
      let p := 10 ^ Z.of_nat prec in
      sign s +:+ body (if 0 <=? e then Zpos m * p * 2 ^ e else div_half_even (Zpos m * p) (2 ^ (- e)))
  end.

(** [f"{x:.<prec>%}"] *)
Definition fmt_percent (prec : nat) (x : float) : string :=
  fmt_fixed false prec (x * of_Z 100)%pyf +:+ "%".

Example fmt_examples :
  fmt_fixed true 0 (of_Z 50000000) = "50,000,000" ∧ fmt_fixed true 0 (dec (-12345) 1) = "-1,234" ∧
  fmt_percent 2 (dec 15 2) = "15.00%" ∧ fmt_fixed false 3 (dec 5 4) = "0.001" ∧
  fmt_fixed true 0 (dec 25 1) = "2" ∧ fmt_int (-7) = "-7".
Proof. vm_compute. split_and!; reflexivity. Qed.

(** * What a formatted number looks like *)

Fixpoint all_chars (f : ascii → bool) (s : string) : bool :=
  match s with "" => true | String a s' => f a && all_chars f s' end.

Definition is_digit (a : ascii) : bool := let n := N_of_ascii a in (48 <=? n)%N && (n <=? 57)%N.
Definition numeric_char (a : ascii) : bool :=
  is_digit a || Ascii.eqb a "," || Ascii.eqb a "." || Ascii.eqb a "-" || Ascii.eqb a "%".

Definition specials : list string := ["nan"; "inf"; "-inf"; "nan%"; "inf%"; "-inf%"].

Definition number_text (t : string) : Prop :=
  (t ≠ "" ∧ all_chars numeric_char t = true) ∨ t ∈ specials.

(** A keyword no number can be mistaken for. *)
Definition keyword (p : string) : bool :=
  negb (bool_decide (p = "")) && all_chars (λ a, negb (numeric_char a)) p &&
  forallb (foreign p) specials.

Lemma all_chars_app f (s t : string) : all_chars f (s +:+ t) = all_chars f s && all_chars f t.
Proof.
  induction s as [|a s IH]; [done|]. rewrite append_cons. cbn. by rewrite IH, andb_assoc.
Qed.

Lemma digit_numeric n : 0 ≤ n < 10 → numeric_char (digit n) = true.
Proof.
  intros Hn. unfold numeric_char, is_digit, digit.
  rewrite N_ascii_embedding by lia.
  destruct (48 <=? Z.to_N (48 + n))%N eqn:E1, (Z.to_N (48 + n) <=? 57)%N eqn:E2; [done|..];
    apply N.leb_gt in E1 || apply N.leb_gt in E2; lia.
Qed.

Lemma digits_fuel_numeric fuel n acc :
  all_chars numeric_char acc = true → 0 ≤ n → all_chars numeric_char (digits_fuel fuel n acc) = true.
Proof.
  revert n acc. induction fuel as [|fuel IH]; intros n acc Hacc Hn; cbn; [done|].
  assert (all_chars numeric_char (String (digit (n mod 10)) acc) = true) as Hacc'.
  { cbn. rewrite digit_numeric, Hacc; [done|]. apply Z.mod_pos_bound. lia. }
  destruct (n <? 10); [done|]. apply IH; [done|]. by apply Z.div_pos.
Qed.

Lemma digits_fuel_nonempty fuel n acc : acc ≠ "" → digits_fuel fuel n acc ≠ "".
Proof.
  revert n acc. induction fuel as [|fuel IH]; intros n acc H; cbn; [done|].
  destruct (n <? 10); [done|]. by apply IH.
Qed.

Lemma digits_number n : 0 ≤ n → digits n ≠ "" ∧ all_chars numeric_char (digits n) = true.
Proof.
  intros Hn. split; [|by apply digits_fuel_numeric]. unfold digits. cbn.
  destruct (n <? 10); [done|]. by apply digits_fuel_nonempty.
Qed.

Lemma group_number s :
  s ≠ "" → all_chars numeric_char s = true → group s ≠ "" ∧ all_chars numeric_char (group s) = true.
Proof.
  intros Hs Ha. unfold group. generalize (String.length s) as k.
  assert (∀ s k, all_chars numeric_char s = true → all_chars numeric_char (group_from k s) = true) as Hg.
  { clear. induction s as [|a s IH]; intros k; [done|]. cbn. intros [H1 H2]%andb_true_iff.
    case_bool_decide; cbn; rewrite H1, (IH _ H2); done. }
  intros k. split; [|by apply Hg]. destruct s; [done|]. cbn. by case_bool_decide.
Qed.

Lemma pad_left_numeric n s : all_chars numeric_char s = true → all_chars numeric_char (pad_left n s) = true.
Proof. intros H. induction n; [done|]. cbn. by rewrite IHn. Qed.

Lemma append_nonempty_r (s t : string) : t ≠ "" → s +:+ t ≠ "".
Proof. destruct s; [done|]. by rewrite append_cons. Qed.

Lemma append_nonempty_l (s t : string) : s ≠ "" → s +:+ t ≠ "".
Proof. destruct s; [done|]. by rewrite append_cons. Qed.

Lemma body_number (comma : bool) (prec : nat) n :
  0 ≤ n →
  let p := 10 ^ Z.of_nat prec in
  let t := (if comma then group (digits (n / p)) else digits (n / p)) +:+
    (if bool_decide (prec = 0%nat) then "" else
       "." +:+ pad_left (prec - String.length (digits (n mod p))) (digits (n mod p))) in
  t ≠ "" ∧ all_chars numeric_char t = true.
Proof.
  intros Hn p t. assert (0 < p) as Hp by (apply Z.pow_pos_nonneg; lia).
  assert (0 ≤ n / p) as Hq by (apply Z.div_pos; lia).
  pose proof (Z.mod_pos_bound n p Hp) as Hr. pose proof (digits_number (n / p) Hq) as [Hd1 Hd2].
  assert (let i := if comma then group (digits (n / p)) else digits (n / p) in
          i ≠ "" ∧ all_chars numeric_char i = true) as [Hi1 Hi2].
  { destruct comma; [by apply group_number|done]. }
  subst t. split; [by apply append_nonempty_l|]. rewrite all_chars_app, Hi2.
  case_bool_decide; [done|]. rewrite all_chars_app. cbn.
  apply pad_left_numeric, digits_number. lia.
Qed.

Lemma div_half_even_nonneg n d : 0 ≤ n → 0 < d → 0 ≤ div_half_even n d.
Proof.
  intros Hn Hd. unfold div_half_even. assert (0 ≤ n / d) by (by apply Z.div_pos).
  repeat case_match; lia.
Qed.

Lemma sign_number (s : bool) t :
  t ≠ "" ∧ all_chars numeric_char t = true →
  let t' := (if s then "-" else "") +:+ t in t' ≠ "" ∧ all_chars numeric_char t' = true.
Proof.
  intros [H1 H2] t'. subst t'. split; [by apply append_nonempty_r|].
  rewrite all_chars_app, H2. by destruct s.
Qed.

Lemma fmt_fixed_cases comma prec x :
  let t := fmt_fixed comma prec x in
  (t ≠ "" ∧ all_chars numeric_char t = true) ∨ t ∈ ["nan"; "inf"; "-inf"].
Proof.
  destruct x as [s|s| |s m e]; cbn [fmt_fixed].
  - left. apply sign_number, body_number. lia.
  - right. destruct s; repeat (first [left|right]).
  - right. left.
  - left. apply sign_number, body_number. destruct (0 <=? e) eqn:E; bool_hyps.
    + apply Z.mul_nonneg_nonneg; [|lia]. apply Z.mul_nonneg_nonneg; lia.
    + apply div_half_even_nonneg; [|apply Z.pow_pos_nonneg; lia]. apply Z.mul_nonneg_nonneg; lia.
Qed.

Lemma fmt_fixed_number comma prec x : number_text (fmt_fixed comma prec x).
Proof.
  destruct (fmt_fixed_cases comma prec x) as [?|H]; [by left|right]. unfold specials.
  rewrite !elem_of_cons, elem_of_nil in *. tauto.
Qed.

Lemma fmt_percent_number prec x : number_text (fmt_percent prec x).
Proof.
  unfold fmt_percent. destruct (fmt_fixed_cases false prec (x * of_Z 100)%pyf) as [[H1 H2]|H].
  - left. split; [by apply append_nonempty_l|]. by rewrite all_chars_app, H2.
  - right. rewrite !elem_of_cons in H. destruct H as [->|[->|[->|[]%elem_of_nil]]];
      repeat (first [left|right]).
Qed.

Lemma fmt_int_number n : number_text (fmt_int n).
Proof.
  left. unfold fmt_int. destruct (n <? 0) eqn:E; bool_hyps; [|by apply digits_number].
  apply (sign_number true). apply digits_number. lia.
Qed.

Lemma clash_first a b (p t : string) : a ≠ b → clash (String a p) (String b t) = true.
Proof.
  intros H. unfold clash. cbn. rewrite (proj2 (Ascii.eqb_neq a b)) by done.
  by rewrite (proj2 (Ascii.eqb_neq b a)).
Qed.

Lemma foreign_number p t : keyword p = true → number_text t → foreign p t = true.
Proof.
  unfold keyword. intros H. bool_hyps. intros [[Hne Ht]|Hs].
  - unfold foreign. rewrite !bool_decide_false by done. cbn. apply andb_true_iff. split.
    + destruct t as [|b t]; [done|]. cbn in Ht. apply andb_true_iff in Ht as [Hb _].
      assert (all_chars (λ a, negb (numeric_char a)) p = true) as Hp by done. revert Hp. clear -Hb.
      induction p as [|a p IH]; [done|]. cbn. intros [Ha Hp]%andb_true_iff.
      rewrite clash_first, IH; [done|done|]. intros ->. by rewrite Hb in Ha.
    + destruct p as [|a p]; [done|].
      assert (numeric_char a = false) as Ha by (cbn in *; bool_hyps; done).
      revert Ht. clear -Ha. induction t as [|b t IH]; [done|]. cbn. intros [Hb Ht]%andb_true_iff.
      rewrite clash_first, IH; [done|done|]. intros ->. congruence.
  - match goal with H : forallb _ _ = true |- _ => rewrite forallb_forall in H; apply H end.
    by apply list_elem_of_In.
Qed.

(** The two rewriting rules for searching a keyword in a message. *)
Lemma contains_number p t s1 s2 :
  keyword p = true → number_text t →
  contains p (s1 +:+ t +:+ s2) = contains p s1 || contains p s2.
Proof. intros. by apply contains_split, foreign_number. Qed.

Lemma contains_number_end p t s1 :
  keyword p = true → number_text t → contains p (s1 +:+ t) = contains p s1.
Proof. intros. by apply contains_split_end, foreign_number. Qed.

#[export] Hint Resolve fmt_fixed_number fmt_percent_number fmt_int_number : py.
