(* ===== verification/PyParse.v ===== *)
(** Reading Python numbers from text: [str.strip], [int(s)] and [float(s)] on
    ASCII strings, with the signs, underscores, exponents and special values
    Python accepts. *)

From stdpp Require Import base option list strings.
From Stdlib Require Import ZArith Lia Ascii Floats.SpecFloat.
From S2P Require Import Prelude PyFloat PyFormat.

(** ASCII white space of [str.strip] *)
Definition is_space (a : ascii) : bool :=
  let n := Ascii.N_of_ascii a in ((9 <=? n)%N && (n <=? 13)%N) || ((28 <=? n)%N && (n <=? 32)%N).

Fixpoint lstrip (s : string) : string :=
  match s with
  | "" => ""
  | String a s' => if is_space a then lstrip s' else s
  end.
Fixpoint rstrip (s : string) : string :=
  match s with
  | "" => ""
  | String a s' =>
      match rstrip s' with
      | "" => if is_space a then "" else String a ""
      | t => String a t
      end
  end.
Definition strip (s : string) : string := rstrip (lstrip s).

Definition digit_value (a : ascii) : option Z :=
  if is_digit a then Some (Z.of_N (Ascii.N_of_ascii a) - 48) else None.

(** A run of digits with single underscores between them: its value from
    [acc], its number of digits, and the rest. *)
Fixpoint scan_digits (acc : Z) (n : nat) (s : string) : Z * nat * string :=
  match s with
  | "" => (acc, n, "")
  | String a s' =>
      match digit_value a with
      | Some d => scan_digits (acc * 10 + d) (S n) s'
      | None =>
          match s' with
          | String b s'' =>
              match digit_value b with
              | Some d => if Ascii.eqb a "_" && negb (bool_decide (n = O))
                  then scan_digits (acc * 10 + d) (S n) s'' else (acc, n, s)
              | None => (acc, n, s)
              end
          | "" => (acc, n, s)
          end
      end
  end.

(** The sign of a numeral: is it negative, and what follows. *)
Definition scan_sign (s : string) : bool * string :=
  match s with
  | String "-" s' => (true, s')
  | String "+" s' => (false, s')
  | _ => (false, s)
  end.

Definition signed (neg : bool) (z : Z) : Z := if neg then - z else z.

(** [int(s)]; [None] is the [ValueError]. *)
Definition py_int (s : string) : option Z :=
  let '(neg, t) := scan_sign (strip s) in
  match scan_digits 0 0 t with
  | (v, S _, "") => Some (signed neg v)
  | _ => None
  end.

Definition lower_ascii (a : ascii) : ascii :=
  let n := Ascii.N_of_ascii a in
  if (65 <=? n)%N && (n <=? 90)%N then Ascii.ascii_of_N (n + 32) else a.
Fixpoint lower (s : string) : string :=
  match s with "" => "" | String a s' => String (lower_ascii a) (lower s') end.

(** [m * 10^e], correctly rounded: both operands of the quotient are exact. *)
Definition scaled (neg : bool) (m e : Z) : float :=
  match m with
  | Zpos p =>
      if 0 <=? e then of_Z (signed neg (m * 10 ^ e))
      else match 10 ^ (- e) with
           | Zpos d => SFdiv 53 1024 (S754_finite neg p 0) (S754_finite false d 0)
           | _ => S754_nan
           end
  | _ => S754_zero neg
  end.

(** The fraction and the exponent after the integer part *)
Definition scan_fraction (v : Z) (n : nat) (s : string) : Z * nat * nat * string :=
  match s with
  | String "." s' =>
      match scan_digits v 0 s' with (v', k, s'') => (v', (n + k)%nat, k, s'') end
  | _ => (v, n, O, s)
  end.
Definition scan_exponent (s : string) : option Z :=
  match s with
  | "" => Some 0
  | String a s' =>
      if Ascii.eqb (lower_ascii a) "e" then
        let '(neg, t) := scan_sign s' in
        match scan_digits 0 0 t with
        | (v, S _, "") => Some (signed neg v)
        | _ => None
        end
      else None
  end.

(** [float(s)]; [None] is the [ValueError]. *)
Definition py_float (s : string) : option float :=
  let '(neg, t) := scan_sign (strip s) in
  let l := lower t in
  if bool_decide (l = "nan") then Some S754_nan
  else if bool_decide (l = "inf") || bool_decide (l = "infinity") then Some (S754_infinity neg)
  else
    let '(v, n, rest) := scan_digits 0 0 t in
    let '(v, n, k, rest) := scan_fraction v n rest in
    match n, scan_exponent rest with
    | S _, Some e => Some (scaled neg v (e - Z.of_nat k))
    | _, _ => None
    end.

Example parse_examples :
  py_int " -1_000 " = Some (-1000) ∧ py_int "1__0" = None ∧ py_int "_1" = None ∧ py_int "" = None ∧
  py_int "12.0" = None ∧ py_float "70000.0000" = Some (of_Z 70000) ∧ py_float ".5" = Some (dec 5 1) ∧
  py_float "1e3" = Some (of_Z 1000) ∧ py_float "2.5E-1" = Some (dec 25 2) ∧ py_float "." = None ∧
  py_float "-inf" = Some (S754_infinity true) ∧ py_float "0" = Some fzero ∧
  strip " a b  " = "a b".
Proof. vm_compute. split_and!; reflexivity. Qed.

(** [s.get(k, default) or "0"] and the like: the empty string is false. *)
Definition or_else (s t : string) : string := if bool_decide (s = "") then t else s.
