(* ===== verification/FloatFacts.v ===== *)
(** Floats stay floats, and rounding to four decimals is monotone.

    The operations of [PyFloat] return canonical binary64 values
    ([valid]), the only ones a Python float can have.  On canonical values the
    order is the order of the numbers, so that clamping a result to an interval
    and rounding it to four decimals, as the code does everywhere, stays in the
    interval. *)

From stdpp Require Import base list.
From Stdlib Require Import ZArith Lia Floats.SpecFloat.
From S2P Require Import Prelude PyFloat.

Abbreviation fexp64 := (fexp 53 1024).

(** The binary64 values. *)
Definition valid (x : float) : Prop := valid_binary 53 1024 x = true.

(** * Canonical results *)

Lemma fexp64_eq e : fexp64 e = Z.max (e - 53) (-1074).
Proof. reflexivity. Qed.

Lemma Zdigits2_log2 m : 0 < m → Zdigits2 m = Z.log2 m + 1.
Proof.
  destruct m as [|p|p]; try lia. intros _. cbn [Zdigits2]. induction p as [p IH|p IH|].
  - cbn [digits2_pos]. rewrite Pos2Z.inj_xI, Z.log2_succ_double by lia. lia.
  - cbn [digits2_pos]. rewrite Pos2Z.inj_xO, Z.log2_double by lia. lia.
  - reflexivity.
Qed.

Lemma Zdigits2_0 : Zdigits2 0 = 0.
Proof. reflexivity. Qed.

Lemma Zdigits2_bounds m : 0 < m → 2 ^ (Zdigits2 m - 1) ≤ m < 2 ^ Zdigits2 m.
Proof.
  intros Hm. rewrite (Zdigits2_log2 m Hm). replace (Z.log2 m + 1 - 1) with (Z.log2 m) by lia.
  pose proof (Z.log2_spec m Hm). lia.
Qed.

Lemma Zdigits2_pos m : 0 < m → 0 < Zdigits2 m.
Proof. intros Hm. rewrite (Zdigits2_log2 m Hm). pose proof (Z.log2_nonneg m). lia. Qed.

Lemma Zdigits2_ge m d : 0 < m → 0 ≤ d → 2 ^ d ≤ m → d + 1 ≤ Zdigits2 m.
Proof. intros Hm Hd H. rewrite (Zdigits2_log2 m Hm). apply Z.log2_le_pow2 in H; lia. Qed.

Lemma Zdigits2_mono m n : 0 ≤ m ≤ n → Zdigits2 m ≤ Zdigits2 n.
Proof.
  intros H. destruct (decide (m = 0)) as [->|]; [|rewrite !Zdigits2_log2 by lia; pose proof (Z.log2_le_mono m n); lia].
  rewrite Zdigits2_0. destruct (decide (n = 0)) as [->|]; [done|]. pose proof (Zdigits2_pos n). lia.
Qed.

Lemma Zdigits2_shr m k : 0 ≤ m → 0 ≤ k → 0 < m / 2 ^ k → Zdigits2 (m / 2 ^ k) = Zdigits2 m - k.
Proof.
  intros Hm Hk H. assert (0 < m). { destruct (decide (m = 0)) as [->|]; [|lia]. by rewrite Z.div_0_l in H by lia. }
  rewrite !Zdigits2_log2, <- Z.shiftr_div_pow2 by (rewrite ?Z.shiftr_div_pow2; lia).
  rewrite Z.log2_shiftr by done. enough (k ≤ Z.log2 m) by lia.
  apply Z.log2_le_pow2; [lia|]. destruct (Z.le_gt_cases (2 ^ k) m); [done|]. rewrite Z.div_small in H; lia.
Qed.

Lemma shr_1_m r : 0 ≤ shr_m r → shr_m (shr_1 r) = shr_m r / 2.
Proof.
  destruct r as [[|[p|p|]|p] b s]; cbn; intros H; try done; try lia.
  - rewrite Pos2Z.inj_xI, Z.mul_comm, Z.add_comm. change 1 with (1 mod 2) at 1.
    rewrite Z.div_add by lia. reflexivity.
  - rewrite Pos2Z.inj_xO, Z.mul_comm, Z.div_mul; lia.
Qed.

Lemma shr_iter n r : 0 ≤ shr_m r → shr_m (iter_pos shr_1 n r) = shr_m r / 2 ^ Zpos n.
Proof.
  revert r. induction n as [n IH|n IH|]; intros r Hr; cbn [iter_pos].
  - assert (0 ≤ shr_m (shr_1 r)) as H1 by (rewrite shr_1_m by done; apply Z.div_pos; lia).
    assert (0 ≤ shr_m (iter_pos shr_1 n (shr_1 r))) as H2
      by (rewrite IH by done; apply Z.div_pos; lia).
    rewrite IH, IH, shr_1_m, !Z.div_div by (done || lia). f_equal.
    rewrite Pos2Z.inj_xI, Z.pow_add_r, Z.pow_1_r by lia. rewrite <- (Z.pow_twice_r 2 (Zpos n)). ring.
  - assert (0 ≤ shr_m (iter_pos shr_1 n r)) by (rewrite IH by done; apply Z.div_pos; lia).
    rewrite IH, IH, Z.div_div by (done || lia). by rewrite Pos2Z.inj_xO, <- Z.pow_twice_r.
  - by apply shr_1_m.
Qed.

(** A mantissa with enough digits for its exponent, and after a shift a
    canonical one. *)
Definition enough (m e : Z) : Prop := 0 ≤ m ∧ e ≤ fexp64 (Zdigits2 m + e).

Lemma shr_fexp_canon m e l r e' :
  enough m e → shr_fexp 53 1024 m e l = (r, e') →
  enough (shr_m r) e' ∧ (0 < shr_m r → e' = fexp64 (Zdigits2 (shr_m r) + e')).
Proof.
  intros [Hm He] Hs. unfold shr_fexp, shr in Hs. rewrite !fexp64_eq in *.
  assert (shr_m (shr_record_of_loc m l) = m) as Hr by by destruct l as [|[]].
  assert (e' = Z.max (Zdigits2 m + e - 53) (-1074) ∧ shr_m r = m / 2 ^ (e' - e)) as [Ee Em].
  { destruct (Z.max _ _ - e) as [|p|p] eqn:E in Hs; simplify_eq/=; try lia.
    - split; [lia|]. rewrite Hr, Z.sub_diag, Z.pow_0_r, Z.div_1_r. done.
    - split; [lia|]. rewrite shr_iter by lia. rewrite Hr. do 2 f_equal. lia. }
  assert (0 ≤ shr_m r) as Hr0 by (rewrite Em; apply Z.div_pos; lia).
  destruct (decide (shr_m r = 0)) as [E0|].
  - split; [|lia]. split; [done|]. rewrite E0, Zdigits2_0, fexp64_eq.
    destruct (decide (m = 0)) as [->|]; [rewrite Zdigits2_0 in *; lia|].
    enough (Zdigits2 m ≤ e' - e) by lia. destruct (Z.le_gt_cases (Zdigits2 m) (e' - e)); [done|exfalso].
    pose proof (Zdigits2_bounds m ltac:(lia)). pose proof (Z.pow_le_mono_r 2 (e' - e) (Zdigits2 m - 1)).
    rewrite Em in E0. apply Z.div_small_iff in E0; lia.
  - assert (Zdigits2 (shr_m r) = Zdigits2 m - (e' - e)) as Ed
      by (rewrite Em in *; apply Zdigits2_shr; lia).
    unfold enough. rewrite !fexp64_eq. lia.
Qed.

Lemma round_up_le m l : 0 ≤ m → m ≤ round_nearest_even m l ≤ m + 1.
Proof. intros. destruct l as [|[]]; cbn; try lia. destruct (Z.even m); lia. Qed.

Lemma binary_round_aux_valid s m e l : enough m e → valid (binary_round_aux 53 1024 s m e l).
Proof.
  intros H. unfold binary_round_aux. destruct (shr_fexp 53 1024 m e l) as [r e1] eqn:E1.
  destruct (shr_fexp_canon _ _ _ _ _ H E1) as [[H0 H1] _].
  set (m2 := round_nearest_even _ _). assert (enough m2 e1) as H2.
  { pose proof (round_up_le (shr_m r) (loc_of_shr_record r) H0) as Hb. fold m2 in Hb.
    pose proof (Zdigits2_mono (shr_m r) m2 ltac:(lia)). split; [lia|]. rewrite ?fexp64_eq in *. lia. }
  destruct (shr_fexp 53 1024 m2 e1 loc_Exact) as [r2 e2] eqn:E2.
  destruct (shr_fexp_canon _ _ _ _ _ H2 E2) as [[H3 _] H4].
  destruct (shr_m r2) as [|p|p] eqn:Ep; [done| |done].
  destruct (e2 <=? 1024 - 53) eqn:El; [|done]. unfold valid, valid_binary, bounded, canonical_mantissa.
  rewrite El, andb_true_r. apply Z.eqb_eq. symmetry. by apply H4.
Qed.

Lemma binary_round_aux_number s m e l : enough m e → is_nan (binary_round_aux 53 1024 s m e l) = false.
Proof.
  intros H. unfold binary_round_aux. destruct (shr_fexp 53 1024 m e l) as [r e1] eqn:E1.
  destruct (shr_fexp_canon _ _ _ _ _ H E1) as [[H0 H1] _].
  set (m2 := round_nearest_even _ _). assert (enough m2 e1) as H2.
  { pose proof (round_up_le (shr_m r) (loc_of_shr_record r) H0) as Hb. fold m2 in Hb.
    pose proof (Zdigits2_mono (shr_m r) m2 ltac:(lia)). split; [lia|]. rewrite ?fexp64_eq in *. lia. }
  destruct (shr_fexp 53 1024 m2 e1 loc_Exact) as [r2 e2] eqn:E2.
  destruct (shr_fexp_canon _ _ _ _ _ H2 E2) as [[H3 _] _].
  destruct (shr_m r2) as [|p|p]; [done| |lia]. by destruct (e2 <=? 1024 - 53).
Qed.

Lemma valid_finite s m e : valid (S754_finite s m e) →
  e = fexp64 (Zdigits2 (Zpos m) + e) ∧ e ≤ 971.
Proof.
  unfold valid, valid_binary, bounded, canonical_mantissa. intros [H1 H2]%andb_true_iff.
  apply Z.eqb_eq in H1. apply Z.leb_le in H2. cbn [Zdigits2]. lia.
Qed.

Lemma Zdigits2_mul_pow m d : 0 < m → 0 ≤ d → Zdigits2 (m * 2 ^ d) = Zdigits2 m + d.
Proof.
  intros Hm Hd. pose proof (Z.pow_pos_nonneg 2 d).
  rewrite !Zdigits2_log2, Z.log2_mul_pow2 by lia. lia.
Qed.

Lemma binary_round_enough m e mz ez :
  shl_align m e (fexp64 (Zpos (digits2_pos m) + e)) = (mz, ez) → enough (Zpos mz) ez.
Proof.
  intros E. split; [lia|]. unfold shl_align in E.
  change (Zpos (digits2_pos m)) with (Zdigits2 (Zpos m)) in E.
  destruct (_ - e) as [|p|p] eqn:Ed in E; injection E as <- <-; [lia..|].
  replace (Zpos (Pos.iter xO m p)) with (Zpos m * 2 ^ Zpos p).
  - rewrite Zdigits2_mul_pow by lia. rewrite ?fexp64_eq in *. change (Zpos (digits2_pos m)) with (Zdigits2 (Zpos m)). lia.
  - change (Pos.iter xO m p) with (shift_pos p m). rewrite shift_pos_correct, Z.mul_comm. done.
Qed.

Lemma binary_round_valid s m e : valid (binary_round 53 1024 s m e).
Proof.
  unfold binary_round. destruct (shl_align _ _ _) as [mz ez] eqn:E.
  by eapply binary_round_aux_valid, binary_round_enough.
Qed.

Lemma binary_normalize_number m e s : is_nan (binary_normalize 53 1024 m e s) = false.
Proof.
  destruct m; [done|..]; cbn; unfold binary_round; destruct (shl_align _ _ _) as [mz ez] eqn:E;
    by eapply binary_round_aux_number, binary_round_enough.
Qed.

Lemma binary_normalize_valid m e s : valid (binary_normalize 53 1024 m e s).
Proof. destruct m; [done|apply binary_round_valid..]. Qed.

Lemma of_Z_valid z : valid (of_Z z).
Proof. apply binary_normalize_valid. Qed.

Lemma fneg_valid x : valid x → valid (fneg x).
Proof. by destruct x. Qed.

Lemma fabs_valid x : valid x → valid (fabs x).
Proof. by destruct x. Qed.

Lemma fadd_valid x y : valid x → valid y → valid (fadd x y).
Proof.
  intros Hx Hy. destruct x as [[]|[]| |sx mx ex], y as [[]|[]| |sy my ey]; try done.
  apply binary_normalize_valid.
Qed.

Lemma fsub_valid x y : valid x → valid y → valid (fsub x y).
Proof.
  intros Hx Hy. destruct x as [[]|[]| |sx mx ex], y as [[]|[]| |sy my ey]; try done.
  apply binary_normalize_valid.
Qed.

Lemma fmul_enough s mx ex my ey :
  valid (S754_finite s mx ex) → valid (S754_finite s my ey) → enough (Zpos (mx * my)) (ex + ey).
Proof.
  intros Hx%valid_finite Hy%valid_finite. split; [lia|].
  rewrite Pos2Z.inj_mul. pose proof (Zdigits2_log2 (Zpos mx * Zpos my) eq_refl).
  pose proof (Z.log2_mul_below (Zpos mx) (Zpos my) ltac:(lia) ltac:(lia)).
  pose proof (Zdigits2_log2 (Zpos mx) ltac:(lia)). pose proof (Zdigits2_log2 (Zpos my) ltac:(lia)).
  pose proof (Z.log2_nonneg (Zpos mx)). pose proof (Z.log2_nonneg (Zpos my)).
  rewrite ?fexp64_eq in *. lia.
Qed.

Lemma fmul_valid x y : valid x → valid y → valid (fmul x y).
Proof.
  intros Hx Hy. destruct x as [[]|[]| |sx mx ex], y as [[]|[]| |sy my ey]; try done.
  apply binary_round_aux_valid. by apply (fmul_enough false).
Qed.

Lemma fdiv_enough mx ex my ey q e' l :
  SFdiv_core_binary 53 1024 (Zpos mx) ex (Zpos my) ey = (q, e', l) → enough q e'.
Proof.
  intros E. unfold SFdiv_core_binary in E.
  set (d1 := Zdigits2 (Zpos mx)) in *. set (d2 := Zdigits2 (Zpos my)) in *.
  set (e0 := Z.min _ _) in *. set (m' := match _ with Zpos _ => _ | Z0 => _ | Zneg _ => _ end) in *.
  assert (0 ≤ ex - ey - e0) as Hs by lia. assert (m' = Zpos mx * 2 ^ (ex - ey - e0)) as Em.
  { unfold m'. destruct (ex - ey - e0) eqn:Es; [lia|by rewrite Z.shiftl_mul_pow2 by lia|lia]. }
  pose proof (Z.div_eucl_eq m' (Zpos my) ltac:(lia)) as Hq.
  pose proof (Z.mod_pos_bound m' (Zpos my) ltac:(lia)) as Hr.
  unfold Z.modulo in Hr. destruct (Z.div_eucl m' (Zpos my)) as [q0 r0].
  injection E as <- <- _. pose proof (Z.pow_pos_nonneg 2 (ex - ey - e0) ltac:(lia) Hs).
  assert (0 ≤ q0) by nia. split; [done|].
  assert (d1 + (ex - ey - e0) - d2 ≤ Zdigits2 q0) as Hd.
  { assert (m' < 2 ^ (Zdigits2 q0 + d2)) as Hlt.
    { assert (q0 + 1 ≤ 2 ^ Zdigits2 q0) as Hb1.
      { destruct (decide (q0 = 0)) as [->|]; [done|]. pose proof (Zdigits2_bounds q0). lia. }
      assert (0 ≤ Zdigits2 q0) by (pose proof (Zdigits2_mono 0 q0 ltac:(lia)); rewrite Zdigits2_0 in *; lia).
      pose proof (Zdigits2_bounds (Zpos my) ltac:(lia)) as Hb2. fold d2 in Hb2.
      pose proof (Zdigits2_pos (Zpos my) ltac:(lia)) as Hp2. fold d2 in Hp2.
      rewrite Z.pow_add_r by lia. nia. }
    assert (Zdigits2 m' = d1 + (ex - ey - e0)) as Hm' by (rewrite Em; apply Zdigits2_mul_pow; lia).
    pose proof (Zdigits2_bounds m' ltac:(nia)) as [Hlo _]. rewrite Hm' in Hlo.
    destruct (Z.le_gt_cases (Zdigits2 q0 + d2) (d1 + (ex - ey - e0) - 1)) as [Hle|]; [exfalso|lia].
    apply (Z.pow_le_mono_r 2) in Hle; lia. }
  unfold e0 in *. rewrite ?fexp64_eq in *. lia.
Qed.

(** The quotient of any two numbers is rounded correctly, canonical or not. *)
Lemma fdiv_valid x y : valid (fdiv x y).
Proof.
  destruct x as [[]|[]| |sx mx ex], y as [[]|[]| |sy my ey]; try done.
  unfold fdiv, SFdiv. destruct (SFdiv_core_binary _ _ _ _ _ _) as [[q e'] l] eqn:E.
  by eapply binary_round_aux_valid, fdiv_enough.
Qed.

(** ** Results that are numbers *)

Definition finite_float (x : float) : Prop := match x with S754_zero _ | S754_finite _ _ _ => True | _ => False end.
Definition nonzero_float (x : float) : Prop := match x with S754_finite _ _ _ => True | _ => False end.

Lemma fsub_number x y : finite_float x → is_nan y = false → is_nan (fsub x y) = false.
Proof. destruct x as [[]|[]| |sx mx ex], y as [[]|[]| |sy my ey]; try done. intros _ _. apply binary_normalize_number. Qed.

Lemma fdiv_number x y : is_nan x = false → nonzero_float y → is_nan (fdiv x y) = false.
Proof.
  destruct x as [[]|[]| |sx mx ex], y as [[]|[]| |sy my ey]; try done. intros _ _.
  unfold fdiv, SFdiv. destruct (SFdiv_core_binary _ _ _ _ _ _) as [[q e'] l] eqn:E.
  by eapply binary_round_aux_number, fdiv_enough.
Qed.

Lemma fmul_number x y : valid x → valid y → is_nan x = false → nonzero_float y → is_nan (fmul x y) = false.
Proof.
  destruct x as [[]|[]| |sx mx ex], y as [[]|[]| |sy my ey]; try done. intros Hx Hy _ _.
  eapply binary_round_aux_number, (fmul_enough false); [exact Hx|exact Hy].
Qed.

Lemma dec_valid m k : valid (dec m k).
Proof. apply fdiv_valid. Qed.

Lemma round_to_valid k x : valid x → valid (round_to k x).
Proof.
  intros Hx. destruct x as [| | |s m e]; try done. unfold round_to. destruct (if _ : bool then _ else _); try done. apply fdiv_valid.
Qed.

Lemma fmax_valid x y : valid x → valid y → valid (fmax x y).
Proof. unfold fmax. by destruct (flt x y). Qed.
Lemma fmin_valid x y : valid x → valid y → valid (fmin x y).
Proof. unfold fmin. by destruct (flt y x). Qed.

Lemma foldl_fadd_valid l x : valid x → Forall valid l → valid (foldl fadd x l).
Proof. intros Hx Hl. revert x Hx. induction Hl; intros; cbn; [done|]. auto using fadd_valid. Qed.
Lemma fsum_valid l : Forall valid l → valid (fsum l).
Proof. by apply foldl_fadd_valid. Qed.

#[export] Hint Resolve of_Z_valid fneg_valid fabs_valid fadd_valid fsub_valid fmul_valid fdiv_valid
  dec_valid round_to_valid fmax_valid fmin_valid fsum_valid : py.

(** * Clamping *)

(** [max(lo, min(hi, x))] *)
Definition clamp (lo hi x : float) : float := fmax lo (fmin hi x).

(** A clamped value lies in the interval, whatever it was: a NaN becomes [hi]. *)
Lemma clamp_bounds lo hi x :
  fle lo hi = true → fle lo (clamp lo hi x) = true ∧ fle (clamp lo hi x) hi = true.
Proof.
  intros H. destruct (fle_nan _ _ H) as [Hlo Hhi]. unfold clamp, fmin, fmax.
  destruct (flt x hi) eqn:E1.
  - destruct (flt lo x) eqn:E2; [split; by apply flt_le|]. split; [by apply fle_refl|done].
  - destruct (flt lo hi) eqn:E2; [split; [by apply flt_le|by apply fle_refl]|].
    split; [by apply fle_refl|done].
Qed.

Lemma clamp_nan lo hi x : is_nan x = true → flt lo hi = true → clamp lo hi x = hi.
Proof. intros Hx Hlt. unfold clamp, fmin, fmax. rewrite (flt_nan_l x) by done. by rewrite Hlt. Qed.

Lemma clamp_valid lo hi x : valid lo → valid hi → valid x → valid (clamp lo hi x).
Proof. unfold clamp. auto with py. Qed.

(** * Rounding is monotone *)

Lemma fle_neg x y : fle (fneg x) (fneg y) = fle y x.
Proof.
  destruct x as [[]|[]| |[] m e], y as [[]|[]| |[] m' e']; try done; unfold fle, SFleb, fneg; cbn;
    rewrite (Z.compare_antisym e e'); destruct (e ?= e'); cbn; try done;
    change (PosDef.Pos.compare_cont Eq ?a ?b) with (a ?= b)%positive;
    rewrite (Pos.compare_antisym m' m); by destruct (m' ?= m)%positive.
Qed.

Lemma round_to_neg k x : round_to k (fneg x) = fneg (round_to k x).
Proof.
  destruct x as [| | |s m e]; try done. unfold round_to, fneg at 1. cbn [SFopp].
  destruct (if _ : bool then _ else _) as [|n|n]; try done.
  unfold fdiv, fneg. destruct (of_Z _) as [s'|s'| |s' m' e'] eqn:E; cbn; try done; try by destruct s, s'.
  unfold SFdiv_core_binary. destruct (Z.div_eucl _ _) as [q r]. unfold binary_round_aux.
  destruct (shr_fexp _ _ _ _ _) as [r1 e1]. destruct (shr_fexp _ _ _ _ _) as [r2 e2].
  destruct (shr_m r2); [by destruct s, s'| |done]. destruct (e2 <=? _); by destruct s, s'.
Qed.

Lemma div_half_even_mono a b c d :
  0 < b → 0 < d → a * d ≤ c * b → div_half_even a b ≤ div_half_even c d.
Proof.
  intros Hb Hd Hle. unfold div_half_even.
  pose proof (Z.div_mod a b ltac:(lia)) as Ha. pose proof (Z.mod_pos_bound a b Hb).
  pose proof (Z.div_mod c d ltac:(lia)) as Hc. pose proof (Z.mod_pos_bound c d Hd).
  set (q1 := a / b) in *. set (r1 := a mod b) in *. set (q2 := c / d) in *. set (r2 := c mod d) in *.
  assert (q1 ≤ q2) as Hq by (apply Z.div_le_lower_bound || idtac; nia).
  destruct (Z.compare_spec (2 * r1) b) as [E1|E1|E1], (Z.compare_spec (2 * r2) d) as [E2|E2|E2];
    try lia; destruct (Z.even q1) eqn:P1; destruct (Z.even q2) eqn:P2; try lia;
    (destruct (decide (q1 = q2)) as [Eq|]; [rewrite Eq in *; try congruence; exfalso; nia|lia]).
Qed.

(** A canonical number of magnitude at most one. *)
Lemma unit_magnitude s m e :
  valid (S754_finite s m e) → fle (fabs (S754_finite s m e)) (of_Z 1) = true →
  e < 0 ∧ Zpos m ≤ 2 ^ (- e).
Proof.
  intros Hv%valid_finite Hle. rewrite fexp64_eq in Hv. pose proof (Zdigits2_bounds (Zpos m) eq_refl) as [_ Hm].
  apply fle_key in Hle; [|done..]. change (fkey (of_Z 1)) with (1, -52, 4503599627370496) in Hle.
  unfold key_lt in Hle. cbn [fabs SFabs fkey fst snd] in Hle.
  destruct (decide (e = -52)) as [->|]; [split; lia|]. split; [lia|].
  pose proof (Z.pow_le_mono_r 2 (Zdigits2 (Zpos m)) (- e) ltac:(lia)). lia.
Qed.

Lemma fle_magnitude m e m' e' :
  valid (S754_finite false m e) → valid (S754_finite false m' e') →
  fle (S754_finite false m e) (S754_finite false m' e') = true → e < 0 → e' < 0 →
  Zpos m * 2 ^ (- e') ≤ Zpos m' * 2 ^ (- e).
Proof.
  intros Hv%valid_finite Hv'%valid_finite Hle He He'. rewrite !fexp64_eq in *.
  pose proof (Zdigits2_bounds (Zpos m) eq_refl) as [_ Hm].
  pose proof (Zdigits2_bounds (Zpos m') eq_refl) as [Hm' _].
  apply fle_key in Hle; [|done..]. unfold key_lt in Hle. cbn [fkey fst snd] in Hle.
  destruct (decide (e = e')) as [->|]; [nia|]. assert (e < e') by lia.
  assert (Zpos m < 2 ^ 53) by (pose proof (Z.pow_le_mono_r 2 (Zdigits2 (Zpos m)) 53 ltac:(lia) ltac:(lia)); lia).
  assert (2 ^ 52 ≤ Zpos m') by (pose proof (Z.pow_le_mono_r 2 52 (Zdigits2 (Zpos m') - 1) ltac:(lia) ltac:(lia)); lia).
  replace (- e) with (- e' + (e' - e)) by lia. rewrite Z.pow_add_r by lia.
  assert (2 ≤ 2 ^ (e' - e)) by (pose proof (Z.pow_le_mono_r 2 1 (e' - e) ltac:(lia) ltac:(lia)); lia).
  pose proof (Z.pow_pos_nonneg 2 (- e') ltac:(lia) ltac:(lia)).
  assert (Zpos m ≤ Zpos m' * 2 ^ (e' - e)) by (clear - H H0 H1 H2; change (2 ^ 53) with (2 * 2 ^ 52) in *; nia).
  nia.
Qed.

(** The float nearest to [n / 10000] *)
Definition ten_thousandths (n : Z) : float :=
  match n with
  | Zpos p => fdiv (S754_finite false p 0) (of_Z (10 ^ 4))
  | _ => fzero
  end.

(** The table from [x = ten_thousandths i] upwards is increasing. *)
Fixpoint increasing_from (fuel : nat) (i : Z) (x : float) : bool :=
  match fuel with
  | O => true
  | S fuel' => let y := ten_thousandths (i + 1) in fle x y && increasing_from fuel' (i + 1) y
  end.

Lemma ten_thousandths_table : increasing_from (Z.to_nat 10000) 0 fzero = true.
Proof. vm_compute. reflexivity. Qed.

Lemma increasing_from_step fuel i j :
  increasing_from fuel i (ten_thousandths i) = true → i ≤ j < i + Z.of_nat fuel →
  fle (ten_thousandths j) (ten_thousandths (j + 1)) = true.
Proof.
  revert i. induction fuel as [|fuel IH]; intros i H Hj; [lia|].
  cbn [increasing_from] in H. apply andb_true_iff in H as [H1 H2].
  destruct (decide (i = j)) as [->|]; [done|]. apply (IH (i + 1)); [done|lia].
Qed.

Lemma ten_thousandths_step i : 0 ≤ i < 10000 → fle (ten_thousandths i) (ten_thousandths (i + 1)) = true.
Proof. intros Hi. by apply (increasing_from_step _ 0 i ten_thousandths_table). Qed.

Lemma ten_thousandths_mono a b :
  0 ≤ a ≤ b → b ≤ 10000 → fle (ten_thousandths a) (ten_thousandths b) = true.
Proof.
  intros [Ha Hab]. revert b Hab. refine (Zlt_lower_bound_ind (λ b, b ≤ 10000 → fle (ten_thousandths a) (ten_thousandths b) = true) a _).
  intros b IH Hab Hb.
  destruct (decide (a = b)) as [->|].
  - apply fle_refl. destruct (decide (b = 10000)) as [->|]; [reflexivity|].
    eapply proj1, fle_nan, ten_thousandths_step. lia.
  - eapply fle_trans; [apply (IH (b - 1)); lia|]. replace b with (b - 1 + 1) at 2 by lia.
    apply ten_thousandths_step. lia.
Qed.

(** [round(x, 4)] of a number in the unit interval *)
Lemma round_to_4_unit m e :
  valid (S754_finite false m e) → fle (S754_finite false m e) (of_Z 1) = true →
  let n := div_half_even (Zpos m * 10 ^ 4) (2 ^ (- e)) in
  e < 0 ∧ 0 ≤ n ≤ 10000 ∧ round_to 4 (S754_finite false m e) = ten_thousandths n.
Proof.
  intros Hv Hle n. destruct (unit_magnitude false m e Hv Hle) as [He Hm].
  pose proof (Z.pow_pos_nonneg 2 (- e) ltac:(lia) ltac:(lia)) as Hp.
  assert (0 ≤ n ≤ 10000) as Hn.
  { change 10000 with (div_half_even (10 ^ 4) 1). change 0 with (div_half_even 0 1).
    unfold n. split; apply div_half_even_mono; lia. }
  split_and!; [done|lia|lia|]. unfold round_to. rewrite (proj2 (Z.ltb_lt e 0) He). fold n.
  destruct n; [done|done|lia].
Qed.

Lemma unit_cases x :
  fle fzero x = true → fle x (of_Z 1) = true →
  (∃ s, x = S754_zero s) ∨ ∃ m e, x = S754_finite false m e.
Proof. destruct x as [s|[]| |[] m e]; try done; eauto. Qed.

(** On the numbers of the unit interval [round(_, 4)] is monotone. *)
Lemma round_to_4_mono x y :
  valid x → valid y → fle fzero x = true → fle x y = true → fle y (of_Z 1) = true →
  fle (round_to 4 x) (round_to 4 y) = true.
Proof.
  intros Hx Hy H0 Hxy H1.
  destruct (unit_cases y) as [[s ->]|(m' & e' & ->)]; [by eauto using fle_trans|done| |].
  - destruct (unit_cases x) as [[s' ->]|(m & e & ->)]; [done|by eauto using fle_trans|done|done].
  - destruct (round_to_4_unit m' e' Hy H1) as (He' & Hn' & ->).
    destruct (unit_cases x) as [[s' ->]|(m & e & ->)]; [done|by eauto using fle_trans| |].
    + eapply (fle_trans _ fzero); [done|]. apply (ten_thousandths_mono 0); lia.
    + destruct (round_to_4_unit m e Hx) as (He & Hn & ->); [by eauto using fle_trans|].
      apply ten_thousandths_mono; [|lia]. split; [lia|].
      apply div_half_even_mono; try (apply Z.pow_pos_nonneg; lia).
      pose proof (fle_magnitude m e m' e' Hx Hy Hxy He He'). nia.
Qed.

(** A value clamped to [[lo, hi]] and rounded to four decimals stays between
    the rounded ends. *)
Lemma round_to_4_clamp lo hi x :
  valid lo → valid hi → valid x → fle fzero lo = true → fle lo hi = true → fle hi (of_Z 1) = true →
  fle (round_to 4 lo) (round_to 4 (clamp lo hi x)) = true ∧
  fle (round_to 4 (clamp lo hi x)) (round_to 4 hi) = true.
Proof.
  intros Hl Hh Hx H0 Hle H1. destruct (clamp_bounds lo hi x Hle) as [Hc1 Hc2].
  pose proof (clamp_valid lo hi x Hl Hh Hx).
  split; apply round_to_4_mono; eauto using fle_trans.
Qed.

(** The symmetric interval: [round(max(-1.0, min(1.0, x)), 4)]. *)
Lemma round_to_4_signed x :
  valid x → fle (of_Z (-1)) x = true → fle x (of_Z 1) = true →
  fle (of_Z (-1)) (round_to 4 x) = true ∧ fle (round_to 4 x) (of_Z 1) = true.
Proof.
  intros Hx Hlo Hhi. destruct (fle fzero x) eqn:E.
  - pose proof (round_to_4_mono fzero x eq_refl Hx eq_refl E Hhi) as Ha.
    pose proof (round_to_4_mono x (of_Z 1) Hx eq_refl E Hhi eq_refl) as Hb.
    split; [|done]. by apply (fle_trans _ (round_to 4 fzero)).
  - assert (x = fneg (fneg x)) as -> by by rewrite fneg_involutive. rewrite round_to_neg.
    set (y := fneg x) in *. assert (valid y) as Hy by by apply fneg_valid.
    assert (fle fzero y = true ∧ fle y (of_Z 1) = true) as [Hy0 Hy1].
    { split; [|by change (of_Z 1) with (fneg (of_Z (-1))); unfold y; rewrite fle_neg].
      unfold y. clear - E Hlo. destruct x as [[]|[]| |[] m e]; done. }
    pose proof (round_to_4_mono fzero y eq_refl Hy eq_refl Hy0 Hy1) as Ha.
    pose proof (round_to_4_mono y (of_Z 1) Hy eq_refl Hy0 Hy1 eq_refl) as Hb.
    change (of_Z (-1)) with (fneg (of_Z 1)). change (of_Z 1) with (fneg (of_Z (-1))) at 2.
    rewrite !fle_neg. split; [done|].
    eapply (fle_trans _ (round_to 4 fzero)); [done|done].
Qed.

(** * Rounding does not pass a float *)

(** [m * 2^e] on a common scale, for the exponents of products of floats *)
Definition scaled_value (m e : Z) : Z := m * 2 ^ (e + 3000).

Lemma scaled_shift m e k : 0 ≤ k → -3000 ≤ e → scaled_value (m * 2 ^ k) e = scaled_value m (e + k).
Proof.
  intros. unfold scaled_value. replace (e + k + 3000) with (k + (e + 3000)) by lia.
  rewrite (Z.pow_add_r 2 k (e + 3000)) by lia. ring.
Qed.

Lemma scaled_div m e k : 0 ≤ m → 0 ≤ k → -3000 ≤ e → scaled_value (m / 2 ^ k) (e + k) ≤ scaled_value m e.
Proof.
  intros Hm Hk He. rewrite <- scaled_shift by done. unfold scaled_value. apply Z.mul_le_mono_nonneg_r.
  - apply Z.pow_nonneg. lia.
  - rewrite Z.mul_comm. apply Z.mul_div_le, Z.pow_pos_nonneg; lia.
Qed.

(** A larger number has no fewer digits before the point. *)
Lemma scaled_digits m e m' e' :
  0 < m → 0 < m' → -3000 ≤ e → -3000 ≤ e' → scaled_value m e ≤ scaled_value m' e' →
  Zdigits2 m + e ≤ Zdigits2 m' + e'.
Proof.
  intros Hm Hm' He He' H. unfold scaled_value in H.
  pose proof (Zdigits2_mono (m * 2 ^ (e + 3000)) (m' * 2 ^ (e' + 3000))) as Hd.
  rewrite !Zdigits2_mul_pow in Hd by lia. pose proof (Z.pow_pos_nonneg 2 (e + 3000) ltac:(lia) ltac:(lia)).
  specialize (Hd ltac:(nia)). lia.
Qed.

(** The bits shifted out of an exact number: some are set if the record says so. *)
Lemma shr_iter_inexact n r :
  0 ≤ shr_m r → loc_of_shr_record (iter_pos shr_1 n r) ≠ loc_Exact →
  loc_of_shr_record r ≠ loc_Exact ∨ shr_m r mod 2 ^ Zpos n ≠ 0.
Proof.
  assert (∀ r, 0 ≤ shr_m r → loc_of_shr_record (shr_1 r) ≠ loc_Exact →
    loc_of_shr_record r ≠ loc_Exact ∨ shr_m r mod 2 ≠ 0) as H1.
  { intros [[|[p|p|]|p] [] []]; cbn; intros ? Hl; try (by left); try lia; try done; right;
      try (rewrite Pos2Z.inj_xI, Z.mul_comm, Z.add_comm, Z.mod_add by lia; done); done. }
  assert (∀ a b m, 0 ≤ a → 0 ≤ b → 0 ≤ m → (m / 2 ^ a) mod 2 ^ b ≠ 0 → m mod 2 ^ (a + b) ≠ 0) as Hup.
  { intros a b m Ha Hb Hm Hne E. apply Hne. apply Z.mod_divide in E as [q ->]; [|pose proof (Z.pow_pos_nonneg 2 (a + b)); lia].
    rewrite Z.pow_add_r by lia. rewrite (Z.mul_comm (2 ^ a)), Z.mul_assoc, Z.div_mul
      by (pose proof (Z.pow_pos_nonneg 2 a); lia). apply Z.mod_mul. pose proof (Z.pow_pos_nonneg 2 b). lia. }
  assert (∀ a b m, 0 ≤ a → 0 ≤ b → 0 ≤ m → m mod 2 ^ a ≠ 0 → m mod 2 ^ (a + b) ≠ 0) as Hlow.
  { intros a b m Ha Hb Hm Hne E. apply Hne. apply Z.mod_divide in E as [q ->]; [|pose proof (Z.pow_pos_nonneg 2 (a + b)); lia].
    rewrite Z.pow_add_r, (Z.mul_comm (2 ^ a)), Z.mul_assoc by lia. apply Z.mod_mul. pose proof (Z.pow_pos_nonneg 2 a). lia. }
  revert r. induction n as [n IH|n IH|]; intros r Hr; cbn [iter_pos].
  - intros Hl. assert (0 ≤ shr_m (shr_1 r)) as Hr1 by (rewrite shr_1_m by done; apply Z.div_pos; lia).
    assert (0 ≤ shr_m (iter_pos shr_1 n (shr_1 r))) as Hr2 by (rewrite shr_iter by done; apply Z.div_pos; lia).
    replace (Zpos n~1) with (1 + (Zpos n + Zpos n)) by lia.
    destruct (IH _ Hr2 Hl) as [Hl2|Hm2]; [destruct (IH _ Hr1 Hl2) as [Hl1|Hm1]|].
    + destruct (H1 r Hr Hl1) as [|Hm]; [by left|right]. apply (Hlow 1 (Zpos n + Zpos n)); [lia|lia|done|exact Hm].
    + right. rewrite shr_1_m in Hm1 by done. rewrite Z.add_assoc. apply Hlow; try lia. apply Hup; try lia. done.
    + right. rewrite shr_iter, shr_1_m in Hm2 by done. apply (Hup 1); [lia..|].
      apply (Hup (Zpos n)); [lia|lia|apply Z.div_pos; lia|exact Hm2].
  - intros Hl. assert (0 ≤ shr_m (iter_pos shr_1 n r)) as Hr2 by (rewrite shr_iter by done; apply Z.div_pos; lia).
    replace (Zpos n~0) with (Zpos n + Zpos n) by lia.
    destruct (IH _ Hr2 Hl) as [Hl2|Hm2]; [destruct (IH _ Hr Hl2) as [|Hm]; [by left|right; apply Hlow; done]|].
    right. rewrite shr_iter in Hm2 by done. by apply Hup.
  - intros Hl. destruct (H1 r Hr Hl) as [|Hm]; [by left|by right].
Qed.

(** The shift of an exact number to the exponent of its float *)
Lemma shr_fexp_exact m e r e1 :
  enough m e → shr_fexp 53 1024 m e loc_Exact = (r, e1) →
  e ≤ e1 ∧ e1 = Z.max (Zdigits2 m + e - 53) (-1074) ∧ shr_m r = m / 2 ^ (e1 - e) ∧
  (loc_of_shr_record r ≠ loc_Exact → m mod 2 ^ (e1 - e) ≠ 0).
Proof.
  intros [Hm Hen] E. rewrite fexp64_eq in Hen. unfold shr_fexp, shr in E. rewrite fexp64_eq in E.
  destruct (Z.max _ _ - e) as [|p|p] eqn:Ek in E; injection E as <- <-; cbn [shr_record_of_loc]; try lia.
  - cbn [shr_m]. split_and!; [lia|lia|by rewrite Z.sub_diag, Z.pow_0_r, Z.div_1_r|done].
  - replace (e + Zpos p - e) with (Zpos p) by lia. split_and!; [lia|lia|rewrite shr_iter; [done|cbn; lia]|].
    intros Hl. apply shr_iter_inexact in Hl; [|cbn; lia]. by destruct Hl.
Qed.

(** Rounding up does not pass a multiple of the unit that is beyond. *)
Lemma round_up_bounded m e e1 r M E :
  0 ≤ m → -3000 ≤ e → e ≤ e1 → e1 ≤ E → shr_m r = m / 2 ^ (e1 - e) →
  (loc_of_shr_record r ≠ loc_Exact → m mod 2 ^ (e1 - e) ≠ 0) →
  scaled_value m e ≤ scaled_value M E →
  scaled_value (round_nearest_even (shr_m r) (loc_of_shr_record r)) e1 ≤ scaled_value M E.
Proof.
  intros Hm He Hk HeE Em Ex Hle. set (m2 := round_nearest_even _ _).
  pose proof (Z.pow_pos_nonneg 2 (e1 - e) ltac:(lia) ltac:(lia)) as Hp.
  assert (0 ≤ shr_m r) as Hr0 by (rewrite Em; apply Z.div_pos; lia).
  pose proof (scaled_div m e (e1 - e) Hm ltac:(lia) He) as Hdiv.
  replace (e + (e1 - e)) with e1 in Hdiv by lia. rewrite <- Em in Hdiv.
  pose proof (round_up_le (shr_m r) (loc_of_shr_record r) Hr0) as Hu. fold m2 in Hu.
  destruct (decide (m2 = shr_m r)) as [Eq|Hne]; [rewrite Eq; lia|].
  assert (m2 = shr_m r + 1) as Eup by lia. rewrite Eup.
  assert (m mod 2 ^ (e1 - e) ≠ 0) as Hmod.
  { apply Ex. intros Hx. apply Hne. unfold m2. by rewrite Hx. }
  replace E with (e1 + (E - e1)) in Hle |- * by lia. rewrite <- scaled_shift in Hle |- * by lia.
  assert (shr_m r < M * 2 ^ (E - e1)) as Hlt.
  2: { unfold scaled_value. apply Z.mul_le_mono_nonneg_r; [apply Z.pow_nonneg; lia|lia]. }
  pose proof (Z.div_mod m (2 ^ (e1 - e)) ltac:(lia)) as Hdm. pose proof (Z.mod_pos_bound m _ Hp) as Hmb.
  assert (shr_m r * 2 ^ (e1 - e) < m) as H1 by (rewrite Em; lia).
  assert (m ≤ M * 2 ^ (E - e1) * 2 ^ (e1 - e)) as H2; [|nia].
  replace e1 with (e + (e1 - e)) in Hle at 2 by lia. rewrite <- scaled_shift in Hle by lia.
  unfold scaled_value in Hle. apply Z.mul_le_mono_pos_r in Hle; [done|apply Z.pow_pos_nonneg; lia].
Qed.

(** An exact number that is at most the float [M * 2^E] is rounded to at most that. *)
Lemma binary_round_aux_le m e M E :
  enough m e → 0 < m → -3000 ≤ e → valid (S754_finite false M E) →
  scaled_value m e ≤ scaled_value (Zpos M) E →
  match binary_round_aux 53 1024 false m e loc_Exact with
  | S754_zero _ => True
  | S754_finite s m' e' => s = false ∧ -3000 ≤ e' ∧ scaled_value (Zpos m') e' ≤ scaled_value (Zpos M) E
  | _ => False
  end.
Proof.
  intros Hen Hm He HB%valid_finite Hle. rewrite fexp64_eq in HB. unfold binary_round_aux.
  destruct (shr_fexp 53 1024 m e loc_Exact) as [r e1] eqn:E1.
  destruct (shr_fexp_canon _ _ _ _ _ Hen E1) as [[Hr0 Hr1] _].
  destruct (shr_fexp_exact _ _ _ _ Hen E1) as (Hk & Ee & Em & Ex).
  assert (Zdigits2 m + e ≤ Zdigits2 (Zpos M) + E) as Hd by (apply scaled_digits; lia).
  pose proof (round_up_bounded m e e1 r (Zpos M) E ltac:(lia) He Hk ltac:(lia) Em Ex Hle) as Hm2.
  pose proof (round_up_le (shr_m r) (loc_of_shr_record r) Hr0) as Hu.
  set (m2 := round_nearest_even _ _) in *. assert (enough m2 e1) as H2.
  { pose proof (Zdigits2_mono (shr_m r) m2 ltac:(lia)). split; [lia|]. rewrite fexp64_eq in *. lia. }
  destruct (shr_fexp 53 1024 m2 e1 loc_Exact) as [r2 e2] eqn:E2.
  destruct (shr_fexp_exact _ _ _ _ H2 E2) as (Hk2 & Ee2 & Em2 & _).
  pose proof (Z.pow_pos_nonneg 2 (e2 - e1) ltac:(lia) ltac:(lia)) as Hp2.
  pose proof (scaled_div m2 e1 (e2 - e1) ltac:(lia) ltac:(lia) ltac:(lia)) as Hdiv2.
  replace (e1 + (e2 - e1)) with e2 in Hdiv2 by lia. rewrite <- Em2 in Hdiv2.
  destruct (shr_m r2) as [|p|p] eqn:Ep; [done| |pose proof (Z.div_pos m2 _ ltac:(lia) Hp2); lia].
  assert (0 < m2) by (destruct (decide (m2 = 0)) as [E0|]; [rewrite E0, Z.div_0_l in Em2; lia|lia]).
  assert (Zdigits2 m2 + e1 ≤ Zdigits2 (Zpos M) + E) by (apply scaled_digits; lia).
  rewrite (proj2 (Z.leb_le e2 (1024 - 53))) by lia. split_and!; [done|lia|lia].
Qed.

(** * Integers as floats *)

(** Up to 2^53 an integer is its float. *)
Lemma of_Z_exact n : 0 < n < 2 ^ 53 →
  ∃ m e, of_Z n = S754_finite false m e ∧ -1074 ≤ e ≤ 0 ∧ Zpos m = n * 2 ^ (- e).
Proof.
  intros Hn. destruct n as [|p|p]; try lia. unfold of_Z, binary_normalize, binary_round.
  change (Zpos (digits2_pos p)) with (Zdigits2 (Zpos p)). rewrite Z.add_0_r, fexp64_eq.
  pose proof (Zdigits2_bounds (Zpos p) ltac:(lia)) as Hb. pose proof (Zdigits2_pos (Zpos p) ltac:(lia)).
  assert (Zdigits2 (Zpos p) ≤ 53) as Hd.
  { destruct (Z.le_gt_cases (Zdigits2 (Zpos p)) 53); [done|].
    pose proof (Z.pow_le_mono_r 2 53 (Zdigits2 (Zpos p) - 1)). lia. }
  set (d := Zdigits2 (Zpos p)) in *. replace (Z.max (d - 53) (-1074)) with (d - 53) by lia.
  set (al := shl_align p 0 (d - 53)).
  assert (∃ q, al = (q, d - 53) ∧ Zpos q = Zpos p * 2 ^ (53 - d)) as (q & Eal & Eq).
  { unfold al, shl_align. rewrite Z.sub_0_r. destruct (d - 53) as [|k|k] eqn:Ek; [|lia|].
    - exists p. split; [done|]. replace (53 - d) with 0 by lia. lia.
    - eexists. split; [done|]. change (Pos.iter xO p k) with (shift_pos k p).
      rewrite shift_pos_correct. replace (53 - d) with (Zpos k) by lia. rewrite Z.mul_comm. done. }
  rewrite Eal. assert (Zdigits2 (Zpos q) = 53) as Hq by (rewrite Eq, Zdigits2_mul_pow by lia; fold d; lia).
  assert (fexp64 (Zdigits2 (Zpos q) + (d - 53)) = d - 53) as Hf by (rewrite Hq, fexp64_eq; lia).
  unfold binary_round_aux, shr_fexp. rewrite Hf, Z.sub_diag. cbn [shr shr_record_of_loc shr_m loc_of_shr_record round_nearest_even].
  rewrite Hf, Z.sub_diag. cbn [shr shr_record_of_loc shr_m].
  rewrite (proj2 (Z.leb_le (d - 53) (1024 - 53))) by lia.
  exists q, (d - 53). split_and!; [done|lia|lia|]. by replace (- (d - 53)) with (53 - d) by lia.
Qed.

(** A share of at most everything of [n] things, rounded down, is at most [n]. *)
Lemma trunc_share n x :
  0 < n < 2 ^ 53 → valid x → fle fzero x = true → fle x (of_Z 1) = true →
  ∃ k, trunc (of_Z n * x)%pyf = Some k ∧ 0 ≤ k ≤ n.
Proof.
  intros Hn Hx H0 H1. destruct (of_Z_exact n Hn) as (M & E & EM & HE & HM). rewrite EM.
  destruct (unit_cases x H0 H1) as [[s ->]|(m & e & ->)]; [exists 0; split; [done|lia]|].
  destruct (unit_magnitude false m e Hx H1) as [He Hm].
  pose proof (of_Z_valid n) as HvM. rewrite EM in HvM.
  pose proof (fmul_enough false M E m e HvM Hx) as Hen.
  pose proof (valid_finite _ _ _ Hx) as [Hfe _]. rewrite fexp64_eq in Hfe.
  assert (scaled_value (Zpos (M * m)) (E + e) ≤ scaled_value (Zpos M) E) as Hprod.
  { rewrite Pos2Z.inj_mul. unfold scaled_value. replace (E + 3000) with (- e + (E + e + 3000)) by lia.
    rewrite (Z.pow_add_r 2 (- e)) by lia. pose proof (Z.pow_pos_nonneg 2 (E + e + 3000) ltac:(lia) ltac:(lia)). nia. }
  pose proof (binary_round_aux_le (Zpos (M * m)) (E + e) M E Hen ltac:(lia) ltac:(lia) HvM Hprod) as Hle.
  change (fmul (S754_finite false M E) (S754_finite false m e)) with
    (binary_round_aux 53 1024 false (Zpos (M * m)) (E + e) loc_Exact).
  destruct (binary_round_aux _ _ _ _ _ _) as [s|s| |s m' e']; [exists 0; split; [done|lia]|done|done|].
  destruct Hle as (-> & He' & Hle). eexists. split; [done|]. cbn [cond_Zopp].
  assert (scaled_value (Zpos M) E = n * 2 ^ 3000) as Hv.
  { rewrite HM. rewrite scaled_shift by lia. unfold scaled_value. do 2 f_equal. lia. }
  rewrite Hv in Hle. unfold scaled_value in Hle. destruct (Z.leb_spec 0 e') as [Hpos|Hneg].
  - pose proof (Z.pow_pos_nonneg 2 e' ltac:(lia) Hpos).
    rewrite Z.pow_add_r, Z.mul_assoc in Hle by lia. apply Z.mul_le_mono_pos_r in Hle; [lia|reflexivity].
  - pose proof (Z.pow_pos_nonneg 2 (- e') ltac:(lia) ltac:(lia)) as Hp.
    replace 3000 with (- e' + (e' + 3000)) in Hle at 2 by lia. rewrite (Z.pow_add_r 2 (- e')), Z.mul_assoc in Hle by lia.
    apply Z.mul_le_mono_pos_r in Hle; [|apply Z.pow_pos_nonneg; lia].
    split; [apply Z.div_pos; lia|]. apply Z.div_le_upper_bound; lia.
Qed.
