(* ===== verification/Constants.v ===== *)
(** String enumerations ([class X(str, Enum)]) and the ones every component
    shares (backend/config/constants.py). *)

From stdpp Require Import base option list countable strings.
From S2P Require Import Prelude.

(** * The interface of a [str, Enum] class

    [value] is the member's string; [X(raw)] looks a member up by its value. *)
Class StrEnum (A : Type) := {
  value : A → string;
  members : list A;
  members_complete : ∀ a, a ∈ members;
  value_inj : Inj (=) (=) value;
}.
#[global] Existing Instance value_inj.

Section StrEnum.
Context {A : Type} `{StrEnum A}.

Fixpoint first_by_value (s : string) (l : list A) : option A :=
  match l with
  | [] => None
  | a :: l' => if bool_decide (value a = s) then Some a else first_by_value s l'
  end.

(** [X(raw)]; [None] is the [ValueError]. *)
Definition of_value (s : string) : option A := first_by_value s members.

Lemma first_by_value_Some s l a : first_by_value s l = Some a → value a = s.
Proof. induction l; cbn; [done|]. case_bool_decide; [congruence|done]. Qed.

Lemma of_value_Some s a : of_value s = Some a → value a = s.
Proof. apply first_by_value_Some. Qed.

Lemma of_value_value a : of_value (value a) = Some a.
Proof.
  unfold of_value. pose proof (members_complete a) as Ha. induction Ha as [l|b l Hb IH]; cbn.
  - by rewrite bool_decide_true.
  - case_bool_decide as E; [|done]. apply value_inj in E. by subst.
Qed.

Lemma of_value_None s : of_value s = None ↔ ∀ a, value a ≠ s.
Proof.
  split.
  - intros Hn a <-. by rewrite of_value_value in Hn.
  - intros Hne. destruct (of_value s) eqn:E; [|done]. by apply of_value_Some, Hne in E.
Qed.
End StrEnum.


(** Proves the two laws of an enumeration by inspection of its members. *)
Ltac solve_enum_complete := intros []; repeat (first [left | right]).
Ltac solve_enum_inj := intros [] []; cbn; intros; try done; congruence.

Inductive Market := KRX | NYSE | NASDAQ | AMEX.
#[global] Instance Market_eq_dec : EqDecision Market.
Proof. solve_decision. Defined.
#[global] Program Instance Market_enum : StrEnum Market := {|
  value m := match m with KRX => "KRX" | NYSE => "NYSE" | NASDAQ => "NASDAQ" | AMEX => "AMEX" end;
  members := [KRX; NYSE; NASDAQ; AMEX];
|}.
Next Obligation. solve_enum_complete. Qed.
Next Obligation. solve_enum_inj. Qed.

Inductive OrderSide := BUY | SELL.
#[global] Instance OrderSide_eq_dec : EqDecision OrderSide.
Proof. solve_decision. Defined.
#[global] Program Instance OrderSide_enum : StrEnum OrderSide := {|
  value s := match s with BUY => "BUY" | SELL => "SELL" end;
  members := [BUY; SELL];
|}.
Next Obligation. solve_enum_complete. Qed.
Next Obligation. solve_enum_inj. Qed.

Inductive OrderType := MARKET | LIMIT | TWAP | VWAP.
#[global] Instance OrderType_eq_dec : EqDecision OrderType.
Proof. solve_decision. Defined.
#[global] Program Instance OrderType_enum : StrEnum OrderType := {|
  value t := match t with MARKET => "MARKET" | LIMIT => "LIMIT" | TWAP => "TWAP" | VWAP => "VWAP" end;
  members := [MARKET; LIMIT; TWAP; VWAP];
|}.
Next Obligation. solve_enum_complete. Qed.
Next Obligation. solve_enum_inj. Qed.

Inductive OrderStatus := PENDING | SUBMITTED | PARTIAL | FILLED | CANCELLED | FAILED.
#[global] Instance OrderStatus_eq_dec : EqDecision OrderStatus.
Proof. solve_decision. Defined.
#[global] Program Instance OrderStatus_enum : StrEnum OrderStatus := {|
  value s := match s with
    | PENDING => "PENDING" | SUBMITTED => "SUBMITTED" | PARTIAL => "PARTIAL"
    | FILLED => "FILLED" | CANCELLED => "CANCELLED" | FAILED => "FAILED" end;
  members := [PENDING; SUBMITTED; PARTIAL; FILLED; CANCELLED; FAILED];
|}.
Next Obligation. solve_enum_complete. Qed.
Next Obligation. solve_enum_inj. Qed.
#[global] Instance OrderStatus_countable : Countable OrderStatus :=
  inj_countable value of_value of_value_value.

Inductive TradingMode := LIVE | DEMO | BACKTEST.
#[global] Instance TradingMode_eq_dec : EqDecision TradingMode.
Proof. solve_decision. Defined.
#[global] Program Instance TradingMode_enum : StrEnum TradingMode := {|
  value m := match m with LIVE => "LIVE" | DEMO => "DEMO" | BACKTEST => "BACKTEST" end;
  members := [LIVE; DEMO; BACKTEST];
|}.
Next Obligation. solve_enum_complete. Qed.
Next Obligation. solve_enum_inj. Qed.

Inductive Country := KR | US.
#[global] Instance Country_eq_dec : EqDecision Country.
Proof. solve_decision. Defined.

Inductive StrategyType := FACTOR | MEAN_REVERSION | TREND_FOLLOWING | STAT_ARB | RISK_PARITY | ML_SIGNAL.
#[global] Instance StrategyType_eq_dec : EqDecision StrategyType.
Proof. solve_decision. Defined.
#[global] Program Instance StrategyType_enum : StrEnum StrategyType := {|
  value t := match t with
    | FACTOR => "FACTOR" | MEAN_REVERSION => "MEAN_REVERSION" | TREND_FOLLOWING => "TREND_FOLLOWING"
    | STAT_ARB => "STAT_ARB" | RISK_PARITY => "RISK_PARITY" | ML_SIGNAL => "ML_SIGNAL" end;
  members := [FACTOR; MEAN_REVERSION; TREND_FOLLOWING; STAT_ARB; RISK_PARITY; ML_SIGNAL];
|}.
Next Obligation. solve_enum_complete. Qed.
Next Obligation. solve_enum_inj. Qed.
