(* ===== verification/OrderState.v ===== *)
(** The order state machine: backend/core/order_executor/order_state_machine.py.

    [VALID_ORDER_TRANSITIONS] is the transition map; [assert_order_transition]
    and [assert_can_cancel] count every rejection under its two state labels
    and raise [InvalidOrderTransition]. *)

From stdpp Require Import base option list gmap strings.
From S2P Require Import Prelude Constants.

Record InvalidOrderTransition := {
  from_state : option OrderStatus;
  to_state : OrderStatus;
  exc_order_id : option string;
}.

Definition VALID_ORDER_TRANSITIONS : gmap OrderStatus (gset OrderStatus) :=
  {[ PENDING := {[SUBMITTED; CANCELLED; FAILED]};
     SUBMITTED := {[PARTIAL; FILLED; CANCELLED; FAILED]};
     PARTIAL := {[FILLED; CANCELLED; FAILED]};
     FILLED := ∅;
     CANCELLED := ∅;
     FAILED := ∅ ]}.

Definition TERMINAL_ORDER_STATES : gset OrderStatus := {[FILLED; CANCELLED; FAILED]}.

Definition CANCELLABLE_ORDER_STATES : gset OrderStatus := {[PENDING; SUBMITTED; PARTIAL]}.

Definition is_terminal_order_state (status : OrderStatus) : bool :=
  bool_decide (status ∈ TERMINAL_ORDER_STATES).

Definition can_transition_order (from to : OrderStatus) : bool :=
  bool_decide (to ∈ default ∅ (VALID_ORDER_TRANSITIONS !! from)).

(** The counter [aqts_order_state_transition_rejects_total], by its labels. *)
Abbreviation Rejects := (gmap (string * string) Z).

Definition inc_reject (from to : OrderStatus) (c : Rejects) : Rejects :=
  <[(value from, value to) := default 0 (c !! (value from, value to)) + 1]> c.

Definition assert_order_transition (from to : OrderStatus) (order_id : option string) :
    M Rejects InvalidOrderTransition unit :=
  if negb (can_transition_order from to) then
    modify (inc_reject from to) ;;
    raise {| from_state := Some from; to_state := to; exc_order_id := order_id |}
  else mret tt.

Definition assert_can_cancel (current_status : OrderStatus) (order_id : option string) :
    M Rejects InvalidOrderTransition unit :=
  if bool_decide (current_status ∉ CANCELLABLE_ORDER_STATES) then
    modify (inc_reject current_status CANCELLED) ;;
    raise {| from_state := Some current_status; to_state := CANCELLED; exc_order_id := order_id |}
  else mret tt.

(** [Err raw] is the [ValueError] for an unknown status. *)
Definition parse_order_status (raw : string) : result string OrderStatus :=
  match of_value raw with
  | Some s => Ok s
  | None => Err raw
  end.

(** * Lifecycles *)

Definition transition (s t : OrderStatus) : Prop := can_transition_order s t = true.

(** The statuses a sequence of accepted transitions goes through. *)
Fixpoint run_transitions (s : OrderStatus) (ts : list OrderStatus) (oid : option string) :
    M Rejects InvalidOrderTransition OrderStatus :=
  match ts with
  | [] => mret s
  | t :: ts' => assert_order_transition s t oid ;; run_transitions t ts' oid
  end.

(** How many transitions an order in this status can still make. *)
Definition budget (s : OrderStatus) : nat :=
  match s with PENDING => 3 | SUBMITTED => 2 | PARTIAL => 1 | _ => 0 end.

Lemma can_transition_budget s t :
  can_transition_order s t = true → (budget t < budget s)%nat.
Proof. destruct s, t; vm_compute; intros; try done; lia. Qed.

Lemma terminal_no_successor s t :
  is_terminal_order_state s = true → can_transition_order s t = false.
Proof. destruct s, t; vm_compute; done. Qed.

Lemma nonterminal_has_successor s :
  is_terminal_order_state s = false → ∃ t, can_transition_order s t = true.
Proof. destruct s; intros H; [exists SUBMITTED|exists FILLED|exists FILLED|..]; try done. Qed.

Lemma assert_order_transition_ok s t oid c :
  can_transition_order s t = true → assert_order_transition s t oid c = (Ok tt, c).
Proof. intros H. unfold assert_order_transition. by rewrite H. Qed.

Lemma assert_order_transition_err s t oid c :
  can_transition_order s t = false →
  assert_order_transition s t oid c =
    (Err {| from_state := Some s; to_state := t; exc_order_id := oid |}, inc_reject s t c).
Proof. intros H. unfold assert_order_transition. by rewrite H. Qed.

Lemma run_transitions_ok ts s oid c s' c' :
  run_transitions s ts oid c = (Ok s', c') →
  c' = c ∧ (length ts + budget s' ≤ budget s)%nat ∧ steps transition s s'.
Proof.
  revert s. induction ts as [|t ts IH]; intros s; cbn.
  { intros [= -> ->]. split_and!; [done|lia|constructor]. }
  unfold mbind, M_bind.
  destruct (can_transition_order s t) eqn:E.
  - rewrite assert_order_transition_ok by done. intros H.
    apply IH in H as (-> & Hb & Hs). apply can_transition_budget in E as E'.
    split_and!; [done|lia|]. econstructor; [|exact Hs]. exact E.
  - rewrite assert_order_transition_err by done. done.
Qed.

(** An order's life is finite and monotone: when a sequence of transitions
    is accepted from a status, it has at most three elements, no rejection is
    counted, and an order that reached FILLED, CANCELLED or FAILED accepts
    nothing further. *)
Theorem order_lifecycle (s s' : OrderStatus) (ts : list OrderStatus) (oid : option string)
    (c c' : Rejects) (H : run_transitions s ts oid c = (Ok s', c')) :
  (length ts ≤ 3)%nat ∧ c' = c ∧ steps transition s s' ∧
  (is_terminal_order_state s = true → ts = [] ∧ s' = s).
Proof.
  pose proof (run_transitions_ok _ _ _ _ _ _ H) as (-> & Hb & Hs).
  split_and!; [destruct s; cbn in Hb; lia|done|done|].
  intros Ht. destruct ts as [|t ts]; [by injection H as ->|].
  assert (budget s = 0)%nat as Hz by (by destruct s). cbn in Hb. lia.
Qed.

Lemma order_lifecycle_witness :
  run_transitions PENDING [SUBMITTED; PARTIAL; FILLED] None ∅ = (Ok FILLED, ∅) ∧
  (length [SUBMITTED; PARTIAL; FILLED] ≤ 3)%nat.
Proof.
  split; [reflexivity|].
  apply (order_lifecycle PENDING FILLED [SUBMITTED; PARTIAL; FILLED] None ∅ ∅). reflexivity.
Defined.

(** The cancel guard and the transition map agree: [assert_can_cancel] is
    [assert_order_transition] to CANCELLED, with the same outcome, the same
    exception and the same counter increment, for every status. *)
Theorem can_cancel_is_transition (s : OrderStatus) (oid : option string) (c : Rejects) :
  assert_can_cancel s oid c = assert_order_transition s CANCELLED oid c.
Proof. destruct s; reflexivity. Qed.

(** Parsing a status read from the database is strict and inverts
    [OrderStatus.value]: exactly the six values are accepted, each as the
    status it names. *)
Theorem parse_order_status_roundtrip (raw : string) (s : OrderStatus) :
  parse_order_status raw = Ok s ↔ raw = value s.
Proof.
  unfold parse_order_status. split.
  - case_match; [|done]. intros [= ->]. symmetry. by apply of_value_Some.
  - intros ->. by rewrite of_value_value.
Qed.
