(* ===== verification/PipelineState.v ===== *)
(** The investment pipeline's state machine: backend/core/state_machine.py. *)

From stdpp Require Import base option list gmap strings.
From S2P Require Import Prelude Constants.

Inductive PipelineState :=
  | IDLE | COLLECTING | ANALYZING | CONSTRUCTING | VALIDATING
  | TRADING | RECONCILING | COMPLETED | HALTED | ERROR.
#[global] Instance PipelineState_eq_dec : EqDecision PipelineState.
Proof. solve_decision. Defined.
#[global] Program Instance PipelineState_enum : StrEnum PipelineState := {|
  value s := match s with
    | IDLE => "IDLE" | COLLECTING => "COLLECTING" | ANALYZING => "ANALYZING"
    | CONSTRUCTING => "CONSTRUCTING" | VALIDATING => "VALIDATING" | TRADING => "TRADING"
    | RECONCILING => "RECONCILING" | COMPLETED => "COMPLETED" | HALTED => "HALTED"
    | ERROR => "ERROR" end;
  members := [IDLE; COLLECTING; ANALYZING; CONSTRUCTING; VALIDATING;
              TRADING; RECONCILING; COMPLETED; HALTED; ERROR];
|}.
Next Obligation. solve_enum_complete. Qed.
Next Obligation. solve_enum_inj. Qed.
#[global] Instance PipelineState_countable : Countable PipelineState :=
  inj_countable value of_value of_value_value.

Definition VALID_TRANSITIONS : gmap PipelineState (gset PipelineState) :=
  {[ IDLE := {[COLLECTING]};
     COLLECTING := {[ANALYZING; ERROR; HALTED]};
     ANALYZING := {[CONSTRUCTING; COMPLETED; IDLE; ERROR; HALTED]};
     CONSTRUCTING := {[VALIDATING; ERROR; HALTED]};
     VALIDATING := {[TRADING; IDLE; ERROR; HALTED]};
     TRADING := {[RECONCILING; HALTED; ERROR]};
     RECONCILING := {[COMPLETED; HALTED; ERROR]};
     COMPLETED := {[IDLE]};
     HALTED := {[IDLE]};
     ERROR := {[IDLE; HALTED]} ]}.

(** The message of [InvalidTransitionError] names both states. *)
Inductive InvalidTransitionError := Rejected (old target : PipelineState).

Module PipelineStateMachine.

Record t := { _state : PipelineState; _history : list (PipelineState * option string) }.

Definition init (initial_state : PipelineState) : t :=
  {| _state := initial_state; _history := [(initial_state, None)] |}.

Definition can_transition (m : t) (target : PipelineState) : bool :=
  bool_decide (target ∈ default ∅ (VALID_TRANSITIONS !! m.(_state))).

(** [self._state = s; self._history.append((s, reason))] *)
Definition enter (s : PipelineState) (reason : string) (m : t) : t :=
  {| _state := s; _history := m.(_history) ++ [(s, Some reason)] |}.

Definition transition (target : PipelineState) (reason : string) :
    M t InvalidTransitionError PipelineState :=
  m ← get;
  if negb (can_transition m target) then raise (Rejected m.(_state) target)
  else modify (enter target reason) ;; gets _state.

Definition halt (reason : string) : M t InvalidTransitionError PipelineState :=
  m ← get;
  if can_transition m HALTED then transition HALTED reason
  else modify (enter HALTED ("FORCED: " +:+ reason)) ;; gets _state.

Definition reset (reason : string) : M t InvalidTransitionError PipelineState :=
  m ← get;
  if can_transition m IDLE then transition IDLE reason
  else modify (enter IDLE ("FORCED RESET: " +:+ reason)) ;; gets _state.

(** The three public mutators, as requests of a client. *)
Inductive request := Transition (target : PipelineState) (reason : string)
  | Halt (reason : string) | Reset (reason : string).

Definition serve (r : request) : M t InvalidTransitionError PipelineState :=
  match r with
  | Transition target reason => transition target reason
  | Halt reason => halt reason
  | Reset reason => reset reason
  end.

Definition run (rs : list request) (m : t) : t := run_ops (λ r m, after (serve r) m) rs m.

(** ** What the history promises *)

Definition edge (s s' : PipelineState) : bool :=
  bool_decide (s' ∈ default ∅ (VALID_TRANSITIONS !! s)).

(** A step of the history is an edge of the map, or one of the two forced
    entries, which say so in their reason. *)
Definition logged (a b : PipelineState * option string) : Prop :=
  edge a.1 b.1 = true
  ∨ (b.1 = HALTED ∧ ∃ r, b.2 = Some ("FORCED: " +:+ r))
  ∨ (b.1 = IDLE ∧ ∃ r, b.2 = Some ("FORCED RESET: " +:+ r)).

Definition wf (m : t) : Prop :=
  (∃ reason, last m.(_history) = Some (m.(_state), reason)) ∧ chained logged m.(_history).

Lemma enter_wf s reason m :
  wf m → (∀ r, logged (m.(_state), r) (s, Some reason)) → wf (enter s reason m).
Proof.
  intros [[r Hl] Hc] Hlog. split.
  - exists (Some reason). cbn. by rewrite last_snoc.
  - cbn. eapply chained_snoc; [done|done|]. apply Hlog.
Qed.

Lemma transition_spec target reason m :
  transition target reason m =
    if can_transition m target then (Ok target, enter target reason m)
    else (Err (Rejected m.(_state) target), m).
Proof. unfold transition. run_m. by destruct (can_transition m target). Qed.

Lemma halt_spec reason m :
  halt reason m =
    (Ok HALTED, enter HALTED (if can_transition m HALTED then reason else "FORCED: " +:+ reason) m).
Proof.
  unfold halt. unfold mbind at 1, M_bind at 1, get at 1. cbn beta iota.
  destruct (can_transition m HALTED) eqn:E; [|done]. by rewrite transition_spec, E.
Qed.

Lemma reset_spec reason m :
  reset reason m =
    (Ok IDLE,
     enter IDLE (if can_transition m IDLE then reason else "FORCED RESET: " +:+ reason) m).
Proof.
  unfold reset. unfold mbind at 1, M_bind at 1, get at 1. cbn beta iota.
  destruct (can_transition m IDLE) eqn:E; [|done]. by rewrite transition_spec, E.
Qed.

Lemma serve_wf r m : wf m → wf (after (serve r) m).
Proof.
  intros Hm. unfold after. destruct r as [target reason|reason|reason]; cbn [serve].
  - rewrite transition_spec. destruct (can_transition m target) eqn:E; [|done].
    apply enter_wf; [done|]. intros r. left. exact E.
  - rewrite halt_spec. apply enter_wf; [done|]. intros r.
    destruct (can_transition m HALTED) eqn:E; [by left|]. right; left. split; [done|by eexists].
  - rewrite reset_spec. apply enter_wf; [done|]. intros r.
    destruct (can_transition m IDLE) eqn:E; [by left|]. right; right. split; [done|by eexists].
Qed.

Lemma init_wf s : wf (init s).
Proof. split; [by exists None|done]. Qed.

Lemma serve_grows r m : ∃ l, _history (after (serve r) m) = _history m ++ l.
Proof.
  unfold after. destruct r as [target reason|reason|reason]; cbn [serve].
  - rewrite transition_spec. destruct (can_transition _ _); cbn; [eauto|].
    exists []. by rewrite app_nil_r.
  - rewrite halt_spec. cbn. eauto.
  - rewrite reset_spec. cbn. eauto.
Qed.

(** Whatever requests a client makes, the history is an append-only account
    of the machine: it ends in the current state, and each of its steps is an
    edge of VALID_TRANSITIONS or an entry into HALTED/IDLE marked as forced. *)
Theorem history_accounts_for_state (s0 : PipelineState) (rs rs' : list request) :
  let m := run rs (init s0) in
  (∃ reason, last m.(_history) = Some (m.(_state), reason)) ∧
  chained logged m.(_history) ∧
  ∃ l, _history (run rs' m) = m.(_history) ++ l.
Proof.
  intros m. assert (wf m) as [Hl Hc] by (apply (run_ops_invariant (λ r m, after (serve r) m) wf serve_wf), init_wf).
  split_and!; [done|done|]. generalize m. clear. unfold run, run_ops.
  induction rs' as [|r rs' IH]; intros m; cbn; [exists []; by rewrite app_nil_r|].
  destruct (serve_grows r m) as [l Hl]. destruct (IH (after (serve r) m)) as [l' Hl'].
  rewrite Hl', Hl. exists (l ++ l'). by rewrite app_assoc.
Qed.

(** The emergency stop always works and nothing trades past it: from any
    state [halt] reaches HALTED, [reset] reaches IDLE, an illegal transition
    leaves the machine untouched, and from HALTED no accepted transition leads
    anywhere but IDLE. *)
Theorem halt_and_reset_total (m : t) (target : PipelineState) (reason : string) :
  (after (halt reason) m).(_state) = HALTED ∧
  (after (reset reason) m).(_state) = IDLE ∧
  (is_ok (outcome (transition target reason) m) = false → after (transition target reason) m = m) ∧
  (m.(_state) = HALTED → is_ok (outcome (transition target reason) m) = true → target = IDLE).
Proof.
  unfold outcome, after. rewrite halt_spec, reset_spec, transition_spec.
  split_and!; [done|done|by destruct (can_transition m target)|].
  unfold can_transition. intros ->. destruct target; vm_compute; done.
Qed.

Lemma halt_and_reset_total_witness :
  let m := {| _state := HALTED; _history := [] |} in
  is_ok (outcome (transition TRADING "go") m) = false ∧ after (transition TRADING "go") m = m.
Proof.
  intros m. split; [reflexivity|].
  apply (halt_and_reset_total m TRADING "go"). reflexivity.
Defined.

End PipelineStateMachine.
