(* ===== verification/Ledger.v ===== *)
(** The position ledger: backend/core/portfolio_ledger.py and its SQL
    repository, backend/db/repositories/portfolio_positions.py.

    [Book] is the abstract specification, a finite map from tickers to
    quantities.  [LedgerRepository] is the contract the ledger relies on
    (the [Protocol] of the same name); [SqlPortfolioLedgerRepository]
    discharges it for a database whose statements and commits can fail.
    A commit that fails has done nothing; one that is done and whose acknowledgement is
    lost is not modelled. *)

From stdpp Require Import base option list gmap strings.
From S2P Require Import Prelude PyFloat Constants.

Inductive LedgerExn :=
  | ValueError_ticker
  | ValueError_quantity (quantity : float)
  | LedgerInvariantError (ticker : string) (current delta new_qty : float)
  | RepositoryError.

(** [not s.strip()]: only ASCII or Unicode white space (UTF-8 bytes). *)
Fixpoint is_blank (s : string) : bool :=
  match s with
  | "" => true
  | String a s1 =>
      match Ascii.N_of_ascii a with
      | 9 | 10 | 11 | 12 | 13 | 28 | 29 | 30 | 31 | 32 => is_blank s1
      | 194 => match s1 with
          | String b s2 => match Ascii.N_of_ascii b with 133 | 160 => is_blank s2 | _ => false end
          | _ => false end
      | 225 => match s1 with
          | String b (String c s3) => match Ascii.N_of_ascii b, Ascii.N_of_ascii c with
              | 154, 128 => is_blank s3 | _, _ => false end
          | _ => false end
      | 226 => match s1 with
          | String b (String c s3) => match Ascii.N_of_ascii b, Ascii.N_of_ascii c with
              | 128, (128 | 129 | 130 | 131 | 132 | 133 | 134 | 135 | 136 | 137 | 138
                      | 168 | 169 | 175) => is_blank s3
              | 129, 159 => is_blank s3
              | _, _ => false end
          | _ => false end
      | 227 => match s1 with
          | String b (String c s3) => match Ascii.N_of_ascii b, Ascii.N_of_ascii c with
              | 128, 128 => is_blank s3 | _, _ => false end
          | _ => false end
      | _ => false
      end%N
  end.

(** * Specification: the book *)

Module Book.

(** The book after a signed fill, or the refusal to go short. *)
Definition apply (ticker : string) (delta : float) (b : gmap string float) :
    result LedgerExn (float * gmap string float) :=
  let current := default fzero (b !! ticker) in
  let new_qty := (current + delta)%pyf in
  if (new_qty <? fzero)%pyf then Err (LedgerInvariantError ticker current delta new_qty)
  else Ok (new_qty, if (new_qty =? fzero)%pyf then delete ticker b else <[ticker := new_qty]> b).

(** Long only, and no zero rows. *)
Definition long_only (b : gmap string float) : Prop :=
  map_Forall (λ _ q, (q <? fzero)%pyf = false ∧ (q =? fzero)%pyf = false) b.

Lemma apply_long_only ticker delta b q b' :
  long_only b → apply ticker delta b = Ok (q, b') → long_only b'.
Proof.
  unfold apply. intros Hb. case_match eqn:Hneg; [done|]. intros [= <- <-].
  case_match eqn:Hz; [by apply map_Forall_delete|]. by apply map_Forall_insert_2.
Qed.

Lemma apply_other ticker delta b q b' t :
  apply ticker delta b = Ok (q, b') → t ≠ ticker → b' !! t = b !! t.
Proof.
  unfold apply. case_match; [done|]. intros [= <- <-] Ht.
  case_match; [by rewrite lookup_delete_ne|by rewrite lookup_insert_ne].
Qed.

End Book.

(** * The repository contract *)

Class LedgerRepository (R : Type) := {
  load_all : M R LedgerExn (gmap string float);
  apply_delta : string → float → M R LedgerExn float;
  (** the persistent positions *)
  view : R → gmap string float;
  load_all_spec r :
    (∃ r', load_all r = (Ok (filter (λ tq, (fzero <? tq.2)%pyf = true) (view r)), r') ∧ view r' = view r)
    ∨ (∃ r', load_all r = (Err RepositoryError, r') ∧ view r' = view r);
  apply_delta_spec ticker delta r :
    (∃ q r', apply_delta ticker delta r = (Ok q, r') ∧
       Book.apply ticker delta (view r) = Ok (q, view r'))
    ∨ (∃ e r', apply_delta ticker delta r = (Err e, r') ∧ view r' = view r ∧
       (e = RepositoryError ∨ Book.apply ticker delta (view r) = Err e));
}.

(** * PortfolioLedger *)

Module PortfolioLedger.
Section Ledger.
Context {R : Type} `{LedgerRepository R}.

Record t := {
  _positions : gmap string float;
  _repository : option R;
  _hydrated : bool;
}.

Definition init (repository : option R) : t :=
  {| _positions := ∅; _repository := repository; _hydrated := false |}.

Definition set_positions (p : gmap string float) (l : t) : t :=
  {| _positions := p; _repository := l.(_repository); _hydrated := l.(_hydrated) |}.
Definition set_hydrated (b : bool) (l : t) : t :=
  {| _positions := l.(_positions); _repository := l.(_repository); _hydrated := b |}.
Definition set_repository (r : R) (l : t) : t :=
  {| _positions := l.(_positions); _repository := Some r; _hydrated := l.(_hydrated) |}.

(** A call of the injected repository. *)
Definition call_repository {A} (r : R) (m : M R LedgerExn A) : M t LedgerExn A := λ l,
  let '(res, r') := m r in (res, set_repository r' l).

Definition hydrate : M t LedgerExn unit :=
  l ← get;
  match l.(_repository) with
  | None => modify (set_hydrated true)
  | Some r =>
      loaded ← call_repository r load_all;
      modify (set_positions (filter (λ tq, (fzero <? tq.2)%pyf = true) loaded)) ;;
      modify (set_hydrated true)
  end.

Definition record_fill (ticker : string) (side : OrderSide) (quantity : float) :
    M t LedgerExn unit :=
  if is_blank ticker then raise ValueError_ticker else
  if (quantity <=? fzero)%pyf then raise (ValueError_quantity quantity) else
  let delta := match side with BUY => quantity | SELL => fneg quantity end in
  l ← get;
  new_qty ← match l.(_repository) with
    | Some r => call_repository r (apply_delta ticker delta)
    | None =>
        let current := default fzero (l.(_positions) !! ticker) in
        let new_qty := (current + delta)%pyf in
        if (new_qty <? fzero)%pyf then raise (LedgerInvariantError ticker current delta new_qty)
        else mret new_qty
    end;
  if (new_qty =? fzero)%pyf then modify (λ l, set_positions (delete ticker l.(_positions)) l)
  else modify (λ l, set_positions (<[ticker := new_qty]> l.(_positions)) l).

Definition get_positions (l : t) : gmap string float :=
  filter (λ tq, (tq.2 =? fzero)%pyf = false) l.(_positions).

Definition reset (l : t) : t := set_hydrated false (set_positions ∅ l).

(** ** What the ledger promises *)

(** The accepted fills of a request stream. *)
Definition fill := (string * OrderSide * float)%type.
Definition record (f : fill) (l : t) : t := let '(ticker, side, q) := f in after (record_fill ticker side q) l.

Definition signed (side : OrderSide) (q : float) : float :=
  match side with BUY => q | SELL => fneg q end.

(** The cache is what the repository holds. *)
Definition synced (l : t) : Prop :=
  match l.(_repository) with Some r => l.(_positions) = view r | None => True end.

Definition valid_request (ticker : string) (q : float) : bool :=
  negb (is_blank ticker) && negb (q <=? fzero)%pyf.

Lemma record_fill_invalid ticker side q l :
  valid_request ticker q = false →
  ∃ e, record_fill ticker side q l = (Err e, l).
Proof.
  unfold valid_request, record_fill. destruct (is_blank ticker); [by eexists|].
  destruct (q <=? fzero)%pyf; [by eexists|done].
Qed.

(** The one case analysis every property below rests on. *)
Lemma record_fill_cases ticker side q l :
  valid_request ticker q = true → synced l →
  (∃ nq b', Book.apply ticker (signed side q) l.(_positions) = Ok (nq, b') ∧
     outcome (record_fill ticker side q) l = Ok tt ∧
     (after (record_fill ticker side q) l).(_positions) = b' ∧
     synced (after (record_fill ticker side q) l))
  ∨ (∃ e, outcome (record_fill ticker side q) l = Err e ∧
     (after (record_fill ticker side q) l).(_positions) = l.(_positions) ∧
     synced (after (record_fill ticker side q) l) ∧
     (e = RepositoryError ∧ l.(_repository) ≠ None
      ∨ Book.apply ticker (signed side q) l.(_positions) = Err e)).
Proof.
  unfold valid_request. intros Hv Hs. bool_hyps. unfold record_fill, outcome, after.
  rewrite H0, H1. destruct l as [pos [r|] hyd]; cbn in Hs; run_m.
  - unfold call_repository. subst pos. fold (signed side q). cbn [_repository].
    destruct (apply_delta_spec ticker (signed side q) r)
      as [(nq & r' & -> & Hb)|(e & r' & -> & Hr' & He)]; cbn.
    + left. exists nq, (view r'). pose proof Hb as Hb'. unfold Book.apply in Hb'.
      case_match; [done|]. injection Hb' as <- Hv. rewrite <- Hv in *.
      destruct (_ =? fzero)%pyf; by split_and!.
    + right. exists e. unfold synced. cbn. split_and!; try done.
      destruct He as [->|He]; [by left|by right].
  - fold (signed side q). cbn [_positions _repository]. unfold Book.apply.
    destruct (_ <? fzero)%pyf eqn:Hneg; cbn.
    + right. eexists. split_and!; try done. by right.
    + left. destruct (_ =? fzero)%pyf eqn:Hz; eexists _, _; split_and!; done.
Qed.

Lemma record_fill_synced ticker side q l :
  synced l → synced (after (record_fill ticker side q) l).
Proof.
  intros Hs. destruct (valid_request ticker q) eqn:Hv.
  - by destruct (record_fill_cases ticker side q l Hv Hs)
      as [(? & ? & _ & _ & _ & ?)|(? & _ & _ & ? & _)].
  - destruct (record_fill_invalid ticker side q l Hv) as [e He]. unfold after. by rewrite He.
Qed.

Lemma record_fill_long_only ticker side q l :
  synced l → Book.long_only l.(_positions) →
  Book.long_only (after (record_fill ticker side q) l).(_positions).
Proof.
  intros Hs Hl. destruct (valid_request ticker q) eqn:Hv.
  - destruct (record_fill_cases ticker side q l Hv Hs)
      as [(? & b' & Hb & _ & -> & _)|(? & _ & -> & _)]; [|done].
    by eapply Book.apply_long_only.
  - destruct (record_fill_invalid ticker side q l Hv) as [e He]. unfold after. by rewrite He.
Qed.

Lemma get_positions_id l : Book.long_only l.(_positions) → get_positions l = l.(_positions).
Proof. intros Hl. apply map_filter_id. intros t q Ht. by apply (Hl t q). Qed.

(** C11. [record_fill] refines the book, in memory and over any repository that
    keeps the contract: from a ledger in step with its repository it either
    succeeds, and cache and database both become the book after the fill, or
    raises, and both are what they were. *)
Theorem record_fill_refines_book (ticker : string) (side : OrderSide) (q : float) (l : t)
    (Hs : synced l) :
  let l' := after (record_fill ticker side q) l in
  synced l' ∧
  match outcome (record_fill ticker side q) l with
  | Ok _ => ∃ nq, Book.apply ticker (signed side q) l.(_positions) = Ok (nq, l'.(_positions))
  | Err _ => l'.(_positions) = l.(_positions)
  end.
Proof.
  intros l'. split; [by apply record_fill_synced|]. subst l'.
  destruct (valid_request ticker q) eqn:Hv.
  - destruct (record_fill_cases ticker side q l Hv Hs)
      as [(nq & b' & Hb & -> & -> & _)|(e & -> & -> & _)]; [by exists nq|done].
  - destruct (record_fill_invalid ticker side q l Hv) as [e He]. unfold outcome, after. by rewrite He.
Qed.

(** Long-only: over any stream of fills, accepted or refused, no position
    of the ledger is ever negative or a zero row, the ledger stays in step
    with its repository, and [get_positions] reports every position held. *)
Theorem ledger_long_only (fs : list fill) (l : t)
    (Hs : synced l) (Hl : Book.long_only l.(_positions)) :
  let l' := run_ops record fs l in
  synced l' ∧ Book.long_only l'.(_positions) ∧ get_positions l' = l'.(_positions).
Proof.
  intros l'.
  assert (synced l' ∧ Book.long_only l'.(_positions)) as [? ?].
  { apply (run_ops_invariant record (λ l, synced l ∧ Book.long_only l.(_positions))); [|done].
    intros [[ticker side] q] s [? ?]. cbn.
    split; [by apply record_fill_synced|by apply record_fill_long_only]. }
  split_and!; [done|done|by apply get_positions_id].
Qed.

Lemma hydrate_synced l :
  match l.(_repository) with
  | Some r => map_Forall (λ _ q, (fzero <? q)%pyf = true) (view r)
  | None => True
  end →
  outcome hydrate l = Ok tt → synced (after hydrate l) ∧ (after hydrate l).(_hydrated) = true.
Proof.
  destruct l as [pos [r|] hyd]; cbn; unfold hydrate, outcome, after; run_m; cbn [_repository]; [|done].
  intros Hpos. unfold call_repository.
  destruct (load_all_spec r) as [(r' & -> & Hr')|(r' & -> & Hr')]; cbn; [|done].
  intros _. split; [|done]. unfold synced. cbn.
  assert (filter (λ tq, (fzero <? tq.2)%pyf = true) (view r) = view r) as E.
  { apply map_filter_id. intros t q Ht. by apply (Hpos t q). }
  by rewrite !E.
Qed.
End Ledger.
Arguments t R : clear implicits.
End PortfolioLedger.

(** * SqlPortfolioLedgerRepository *)

Module SqlPortfolioLedgerRepository.

(** The table [portfolio_positions] (primary key [ticker]) and the fate of the
    coming round trips: [true] is a statement or commit that fails. *)
Record Db := { rows : gmap string float; faults : list bool }.

Definition next_fault (d : Db) : bool * Db :=
  match d.(faults) with
  | [] => (false, d)
  | f :: fs => (f, {| rows := d.(rows); faults := fs |})
  end.

Definition round_trip : M Db LedgerExn unit := λ d,
  let '(f, d') := next_fault d in if f then (Err RepositoryError, d') else (Ok tt, d').

Definition select {A} (query : gmap string float → A) : M Db LedgerExn A :=
  round_trip ;; gets (λ d, query d.(rows)).
Definition execute (stmt : gmap string float → gmap string float) : M Db LedgerExn unit :=
  round_trip ;; modify (λ d, {| rows := stmt d.(rows); faults := d.(faults) |}).

(** [async with session.begin()]: an exception inside rolls back, and so does
    a commit that fails. *)
Definition begin {A} (m : M Db LedgerExn A) : M Db LedgerExn A := λ d,
  match (a ← m; round_trip ;; mret a) d with
  | (Ok a, d') => (Ok a, d')
  | (Err e, d') => (Err e, {| rows := d.(rows); faults := d'.(faults) |})
  end.

(** [SELECT ticker, quantity ... WHERE quantity > 0] *)
Definition load_all : M Db LedgerExn (gmap string float) :=
  select (filter (λ tq, (fzero <? tq.2)%pyf = true)).

(** The DELETE, INSERT or UPDATE of the transaction. *)
Definition write_row (ticker : string) (row : option float) (new_qty : float) : M Db LedgerExn unit :=
  if (new_qty =? fzero)%pyf then
    when (bool_decide (is_Some row)) (execute (delete ticker))
  else if bool_decide (row = None) then
    execute (λ table, <[ticker := new_qty]> table)
  else
    execute (alter (λ _, new_qty) ticker).

Definition apply_delta (ticker : string) (delta : float) : M Db LedgerExn float :=
  begin (
    row ← select (lookup ticker);
    let current := default fzero row in
    let new_qty := (current + delta)%pyf in
    if (new_qty <? fzero)%pyf then
      raise (LedgerInvariantError ticker current delta new_qty)
    else
      write_row ticker row new_qty ;;
      mret new_qty).

Lemma round_trip_cases d :
  (∃ d', round_trip d = (Ok tt, d') ∧ d'.(rows) = d.(rows))
  ∨ (∃ d', round_trip d = (Err RepositoryError, d') ∧ d'.(rows) = d.(rows)).
Proof.
  unfold round_trip, next_fault. destruct d as [r [|[] fs]]; cbn; eauto.
Qed.

Lemma execute_cases stmt d :
  (∃ d', execute stmt d = (Ok tt, d') ∧ d'.(rows) = stmt d.(rows))
  ∨ (∃ d', execute stmt d = (Err RepositoryError, d')).
Proof.
  unfold execute. run_m. destruct (round_trip_cases d) as [(d' & -> & Hd)|(d' & -> & _)].
  - left. eexists. split; [done|]. cbn. by rewrite Hd.
  - right. by eexists.
Qed.

Lemma begin_cases {A} (m : M Db LedgerExn A) d :
  (∃ a d1 d2, m d = (Ok a, d1) ∧ begin m d = (Ok a, d2) ∧ d2.(rows) = d1.(rows))
  ∨ (∃ e d2, begin m d = (Err e, d2) ∧ d2.(rows) = d.(rows) ∧
       (e = RepositoryError ∨ ∃ d1, m d = (Err e, d1))).
Proof.
  unfold begin. run_m. destruct (m d) as [[a|e] d1].
  - destruct (round_trip_cases d1) as [(d2 & -> & Hd)|(d2 & -> & _)]; [left|right].
    + by exists a, d1, d2.
    + eexists _, _. split_and!; [done|done|by left].
  - right. eexists _, _. split_and!; [done|done|eauto].
Qed.

Lemma write_row_cases ticker new_qty d :
  (∃ d', write_row ticker (d.(rows) !! ticker) new_qty d = (Ok tt, d') ∧
     d'.(rows) = if (new_qty =? fzero)%pyf then delete ticker d.(rows)
                 else <[ticker := new_qty]> d.(rows))
  ∨ (∃ d', write_row ticker (d.(rows) !! ticker) new_qty d = (Err RepositoryError, d')).
Proof.
  unfold write_row. destruct (new_qty =? fzero)%pyf.
  - case_bool_decide as Hrow; [apply execute_cases|]. left. exists d. split; [done|].
    rewrite delete_id; [done|]. by apply eq_None_not_Some.
  - case_bool_decide as Hrow; [apply execute_cases|].
    destruct (execute_cases (alter (λ _, new_qty) ticker) d) as [(d' & -> & Hd)|]; [left|by right].
    exists d'. split; [done|]. rewrite Hd. destruct (rows d !! ticker) as [q|] eqn:E; [|done].
    apply map_eq. intros t. rewrite lookup_alter, lookup_insert.
    case_decide; subst; [by rewrite E|done].
Qed.

Lemma apply_delta_cases ticker delta d :
  (∃ q d', apply_delta ticker delta d = (Ok q, d') ∧
     Book.apply ticker delta d.(rows) = Ok (q, d'.(rows)))
  ∨ (∃ e d', apply_delta ticker delta d = (Err e, d') ∧ d'.(rows) = d.(rows) ∧
     (e = RepositoryError ∨ Book.apply ticker delta d.(rows) = Err e)).
Proof.
  unfold apply_delta, Book.apply.
  match goal with |- context[begin ?m] => destruct (begin_cases m d)
    as [(q & d1 & d2 & Hm & -> & Hd)|(e & d2 & -> & Hd & [->|[d1 Hm]])] end.
  - left. exists q, d2. split; [done|]. rewrite Hd. revert Hm. unfold select. run_m.
    destruct (round_trip_cases d) as [(d' & -> & Hr)|(d' & -> & _)]; [|done].
    rewrite <- Hr. destruct (_ <? fzero)%pyf; [done|].
    edestruct (write_row_cases ticker) as [(d3 & -> & Hd3)|(d3 & ->)]; [|done].
    intros [= <- <-]. by rewrite Hd3.
  - right. eexists _, _. split_and!; [done|done|by left].
  - right. eexists _, _. split_and!; [done|done|]. revert Hm. unfold select. run_m.
    destruct (round_trip_cases d) as [(d' & -> & Hr)|(d' & -> & _)]; [|intros [= <- _]; by left].
    rewrite <- Hr. destruct (_ <? fzero)%pyf; [intros [= <- _]; by right|].
    edestruct (write_row_cases ticker) as [(d3 & -> & Hd3)|(d3 & ->)]; [done|].
    intros [= <- _]. by left.
Qed.

#[export] Program Instance repository : LedgerRepository Db := {|
  Ledger.load_all := load_all;
  Ledger.apply_delta := apply_delta;
  view := rows;
  apply_delta_spec := apply_delta_cases;
|}.
Next Obligation.
  intros d. unfold load_all, select. run_m.
  destruct (round_trip_cases d) as [(d' & -> & Hr)|(d' & -> & Hr)]; [left|right]; exists d';
    rewrite ?Hr; done.
Qed.

(** A fill is one atomic transaction: whatever statement or commit fails,
    [apply_delta] either leaves exactly the table of the book after the fill
    and returns the new quantity, or raises and leaves the table as it was;
    without faults it fails only where the book refuses to go short. *)
Theorem apply_delta_atomic (ticker : string) (delta : float) (d : Db) :
  let d' := after (apply_delta ticker delta) d in
  match outcome (apply_delta ticker delta) d with
  | Ok q => Book.apply ticker delta d.(rows) = Ok (q, d'.(rows))
  | Err e => d'.(rows) = d.(rows) ∧
      (d.(faults) = [] → Book.apply ticker delta d.(rows) = Err e)
  end.
Proof.
  unfold outcome, after.
  destruct (apply_delta_cases ticker delta d) as [(q & d' & -> & Hb)|(e & d' & E & Hd & He)]; [done|].
  rewrite E. cbn. split; [done|]. intros Hf. destruct He as [->|He]; [|done]. exfalso.
  destruct d as [tb fs]. cbn in Hf. subst fs. revert E. clear.
  unfold apply_delta, begin, write_row, select, execute, round_trip. run_m. cbn.
  destruct (_ <? fzero)%pyf; [done|]. destruct (_ =? fzero)%pyf.
  - case_bool_decide; done.
  - case_bool_decide; done.
Qed.

End SqlPortfolioLedgerRepository.

(** * Witnesses and consequences *)

Module LedgerWitness.
Import PortfolioLedger SqlPortfolioLedgerRepository.

Definition empty_db : Db := {| rows := ∅; faults := [] |}.
Definition fresh : t Db := init (Some empty_db).

Lemma record_fill_refines_book_witness :
  synced fresh ∧
  outcome (record_fill "005930" BUY (of_Z 10)) fresh = Ok tt ∧
  (after (record_fill "005930" BUY (of_Z 10)) fresh).(_positions) = {[ "005930" := of_Z 10 ]} ∧
  synced (after (record_fill "005930" BUY (of_Z 10)) fresh).
Proof.
  split; [reflexivity|split; [vm_compute; reflexivity|split; [vm_compute; reflexivity|]]].
  exact (proj1 (record_fill_refines_book "005930" BUY (of_Z 10) fresh eq_refl)).
Defined.

Lemma ledger_long_only_witness :
  let fs := [("005930", BUY, of_Z 10); ("005930", SELL, of_Z 15); ("005930", SELL, of_Z 10)] in
  Book.long_only (run_ops record fs fresh).(_positions).
Proof.
  intros fs. exact (proj1 (proj2 (ledger_long_only fs fresh eq_refl (map_Forall_empty _)))).
Defined.

(** The cache follows the fills of its own process only: when a second process
    (the API and the scheduler each configure a ledger over the same table)
    sells, the first one's cache disagrees with the database, although no call
    failed anywhere. *)
Theorem second_process_leaves_cache_stale :
  let a := after (record_fill "005930" BUY (of_Z 10)) fresh in
  let db1 := {| rows := {[ "005930" := of_Z 10 ]}; faults := [] |} in
  let b := after hydrate (init (Some db1)) in
  let b' := after (record_fill "005930" SELL (of_Z 4)) b in
  a.(_repository) = Some db1 ∧ synced a ∧ synced b' ∧
  outcome (record_fill "005930" SELL (of_Z 4)) b = Ok tt ∧
  b'.(_positions) = {[ "005930" := of_Z 6 ]} ∧
  get_positions a = {[ "005930" := of_Z 10 ]}.
Proof. cbv zeta. refine (conj _ (conj _ (conj _ (conj _ (conj _ _))))); vm_compute; reflexivity. Qed.

End LedgerWitness.
