(* ===== verification/Breaker.v ===== *)
(** The circuit breaker around external services: backend/core/circuit_breaker.py.

    Every lock-protected section of the code is one step.  [__call__] and the
    context manager take the lock on entry ([_check_state]) and again on exit
    ([_record_success]/[_record_failure]); between the two any number of other
    calls can enter and leave, so the system below is a step relation over the
    breaker and the number of calls in flight.  [time.monotonic()] reads an
    arbitrary clock, one value per read. *)

From stdpp Require Import base option list gmap strings.
From S2P Require Import Prelude PyFloat Constants.

Inductive CircuitState := CLOSED | OPEN | HALF_OPEN.
#[global] Instance CircuitState_eq_dec : EqDecision CircuitState.
Proof. solve_decision. Defined.

Record CircuitStats := {
  total_calls : Z;
  total_failures : Z;
  consecutive_failures : Z;
  last_failure_time : float;
  last_success_time : float;
  state_changed_at : float;
  half_open_calls : Z;
}.

Inductive CircuitBreakerError := BreakerOpen (breaker_name : string) (remaining_seconds : float).

Module CircuitBreaker.
Section Breaker.
(** The constructor's arguments, the exception classes, and the clock. *)
Context {Exn : Type} (name : string) (failure_threshold : Z) (recovery_timeout : float)
  (half_open_max_calls : Z) (excluded : Exn → bool) (clock : nat → float).

Record t := { _state : CircuitState; _stats : CircuitStats; reads : nat }.

Definition init (t0 : float) : t := {|
  _state := CLOSED;
  _stats := {| total_calls := 0; total_failures := 0; consecutive_failures := 0;
    last_failure_time := fzero; last_success_time := fzero; state_changed_at := t0;
    half_open_calls := 0 |};
  reads := 0 |}.

Definition Op (A : Type) := M t CircuitBreakerError A.

Definition monotonic : Op float := λ b,
  (Ok (clock b.(reads)), {| _state := b.(_state); _stats := b.(_stats); reads := S b.(reads) |}).

Definition put_state (s : CircuitState) : Op unit :=
  modify (λ b, {| _state := s; _stats := b.(_stats); reads := b.(reads) |}).
Definition put_stats (f : CircuitStats → CircuitStats) : Op unit :=
  modify (λ b, {| _state := b.(_state); _stats := f b.(_stats); reads := b.(reads) |}).

Definition set_changed_at (x : float) (s : CircuitStats) : CircuitStats := {|
  total_calls := s.(total_calls); total_failures := s.(total_failures);
  consecutive_failures := s.(consecutive_failures); last_failure_time := s.(last_failure_time);
  last_success_time := s.(last_success_time); state_changed_at := x;
  half_open_calls := s.(half_open_calls) |}.
Definition set_half_open_calls (n : Z) (s : CircuitStats) : CircuitStats := {|
  total_calls := s.(total_calls); total_failures := s.(total_failures);
  consecutive_failures := s.(consecutive_failures); last_failure_time := s.(last_failure_time);
  last_success_time := s.(last_success_time); state_changed_at := s.(state_changed_at);
  half_open_calls := n |}.
Definition count_call (s : CircuitStats) : CircuitStats := {|
  total_calls := s.(total_calls) + 1; total_failures := s.(total_failures);
  consecutive_failures := s.(consecutive_failures); last_failure_time := s.(last_failure_time);
  last_success_time := s.(last_success_time); state_changed_at := s.(state_changed_at);
  half_open_calls := s.(half_open_calls) |}.
Definition count_success (now : float) (s : CircuitStats) : CircuitStats := {|
  total_calls := s.(total_calls) + 1; total_failures := s.(total_failures);
  consecutive_failures := 0; last_failure_time := s.(last_failure_time);
  last_success_time := now; state_changed_at := s.(state_changed_at);
  half_open_calls := s.(half_open_calls) |}.
Definition count_failure (now : float) (s : CircuitStats) : CircuitStats := {|
  total_calls := s.(total_calls) + 1; total_failures := s.(total_failures) + 1;
  consecutive_failures := s.(consecutive_failures) + 1; last_failure_time := now;
  last_success_time := s.(last_success_time); state_changed_at := s.(state_changed_at);
  half_open_calls := s.(half_open_calls) |}.

Definition _transition_to (new_state : CircuitState) : Op unit :=
  put_state new_state ;;
  now ← monotonic;
  put_stats (set_changed_at now) ;;
  when (bool_decide (new_state = HALF_OPEN)) (put_stats (set_half_open_calls 0)).

(** The [state] property: reading it performs the timed transition. *)
Definition state : Op CircuitState :=
  b ← get;
  (if bool_decide (b.(_state) = OPEN) then
     now ← monotonic;
     let elapsed := (now - b.(_stats).(state_changed_at))%pyf in
     when (elapsed >=? recovery_timeout)%pyf (_transition_to HALF_OPEN)
   else mret tt) ;;
  gets _state.

Definition _record_success : Op unit :=
  now ← monotonic;
  put_stats (count_success now) ;;
  b ← get;
  when (bool_decide (b.(_state) = HALF_OPEN)) (
    put_stats (λ s, set_half_open_calls (s.(half_open_calls) + 1) s) ;;
    b ← get;
    when (half_open_max_calls <=? b.(_stats).(half_open_calls)) (_transition_to CLOSED)).

Definition _record_failure (exc : Exn) : Op unit :=
  if excluded exc then put_stats count_call else
  now ← monotonic;
  put_stats (count_failure now) ;;
  b ← get;
  if bool_decide (b.(_state) = HALF_OPEN) then _transition_to OPEN
  else when (bool_decide (b.(_state) = CLOSED) &&
             (failure_threshold <=? b.(_stats).(consecutive_failures))) (_transition_to OPEN).

Definition _check_state : Op unit :=
  current_state ← state;
  (if bool_decide (current_state = OPEN) then
     now ← monotonic;
     b ← get;
     let elapsed := (now - b.(_stats).(state_changed_at))%pyf in
     let remaining := fmax fzero (recovery_timeout - elapsed)%pyf in
     raise (BreakerOpen name remaining)
   else mret tt) ;;
  b ← get;
  when (bool_decide (current_state = HALF_OPEN) &&
        (half_open_max_calls <=? b.(_stats).(half_open_calls)))
    (raise (BreakerOpen name fzero)).

Definition __aenter__ : Op unit := _check_state.

Definition __aexit__ (exc_val : option Exn) : Op unit :=
  match exc_val with
  | Some exc => _record_failure exc
  | None => _record_success
  end.

(** ** The system: the breaker and the calls in flight *)

Definition system := (t * nat)%type.

Inductive step : system → system → Prop :=
  | step_admitted b b' n :
      __aenter__ b = (Ok tt, b') → step (b, n) (b', S n)
  | step_rejected b b' n e :
      __aenter__ b = (Err e, b') → step (b, n) (b', n)
  | step_done b b' n r exc :
      __aexit__ exc b = (r, b') → step (b, S n) (b', n)
  | step_observed b b' n s :
      state b = (Ok s, b') → step (b, n) (b', n).

(** ** The operations, branch by branch *)

Definition timed_out (b : t) : bool :=
  (recovery_timeout <=? clock b.(reads) - b.(_stats).(state_changed_at))%pyf.

(** The breaker as the [state] property leaves it. *)
Definition observed (b : t) : t :=
  if bool_decide (b.(_state) = OPEN) then
    if timed_out b then
      {| _state := HALF_OPEN;
         _stats := set_half_open_calls 0 (set_changed_at (clock (S b.(reads))) b.(_stats));
         reads := S (S b.(reads)) |}
    else {| _state := OPEN; _stats := b.(_stats); reads := S b.(reads) |}
  else b.

Lemma state_spec b : state b = (Ok (observed b).(_state), observed b).
Proof.
  destruct b as [[] st r]; unfold state, observed, timed_out; run_m; eval_decides; try done.
  unfold _transition_to, put_state, put_stats, monotonic. run_m. eval_decides.
  by destruct (recovery_timeout <=? _)%pyf.
Qed.

Lemma check_state_spec b :
  _check_state b =
    let b' := observed b in
    match b'.(_state) with
    | CLOSED => (Ok tt, b')
    | OPEN => (Err (BreakerOpen name (fmax fzero
          (recovery_timeout - (clock b'.(reads) - b'.(_stats).(state_changed_at)))%pyf)),
        {| _state := OPEN; _stats := b'.(_stats); reads := S b'.(reads) |})
    | HALF_OPEN =>
        if half_open_max_calls <=? b'.(_stats).(half_open_calls)
        then (Err (BreakerOpen name fzero), b') else (Ok tt, b')
    end.
Proof.
  unfold _check_state, mbind at 1, M_bind at 1. rewrite state_spec. cbv zeta.
  destruct (observed b) as [[] st r]; cbn; unfold monotonic; run_m; eval_decides; try done.
  by destruct (half_open_max_calls <=? half_open_calls st).
Qed.

(** The state after a call ends. *)
Definition exit_state (exc_val : option Exn) (b : t) : CircuitState :=
  match exc_val, b.(_state) with
  | None, HALF_OPEN =>
      if half_open_max_calls <=? b.(_stats).(half_open_calls) + 1 then CLOSED else HALF_OPEN
  | None, s => s
  | Some e, s =>
      if excluded e then s else
      match s with
      | HALF_OPEN => OPEN
      | CLOSED => if failure_threshold <=? b.(_stats).(consecutive_failures) + 1 then OPEN else CLOSED
      | OPEN => OPEN
      end
  end.

Definition exit_calls (exc_val : option Exn) (b : t) : Z :=
  match exc_val, b.(_state) with
  | None, HALF_OPEN => b.(_stats).(half_open_calls) + 1
  | _, _ => b.(_stats).(half_open_calls)
  end.

Lemma aexit_spec exc_val b :
  ∃ b', __aexit__ exc_val b = (Ok tt, b') ∧
    b'.(_state) = exit_state exc_val b ∧
    b'.(_stats).(half_open_calls) = exit_calls exc_val b ∧
    b'.(_stats).(total_calls) = b.(_stats).(total_calls) + 1 ∧
    (b'.(_stats).(total_failures), b'.(_stats).(consecutive_failures)) =
      match exc_val with
      | None => (b.(_stats).(total_failures), 0)
      | Some e => if excluded e then (b.(_stats).(total_failures), b.(_stats).(consecutive_failures))
                  else (b.(_stats).(total_failures) + 1, b.(_stats).(consecutive_failures) + 1)
      end.
Proof.
  unfold exit_state, exit_calls, __aexit__, _record_success, _record_failure, _transition_to,
    put_state, put_stats, monotonic.
  destruct b as [s st r], exc_val as [e|]; run_m; eval_decides.
  - destruct (excluded e); [destruct s; eexists; split_and!; done|].
    destruct s; eval_decides; [|eexists; split_and!; done..].
    destruct (failure_threshold <=? _); eexists; split_and!; done.
  - destruct s; eval_decides; [eexists; split_and!; done..|].
    destruct (half_open_max_calls <=? _); eexists; split_and!; done.
Qed.

(** ** Invariant *)

Definition wf (b : t) : Prop :=
  (b.(_state) = CLOSED → b.(_stats).(consecutive_failures) < failure_threshold) ∧
  (b.(_state) = HALF_OPEN → b.(_stats).(half_open_calls) < half_open_max_calls) ∧
  0 ≤ b.(_stats).(consecutive_failures) ≤ b.(_stats).(total_failures) ∧
  b.(_stats).(total_failures) ≤ b.(_stats).(total_calls).

Section Limits.
Hypothesis threshold_pos : 1 ≤ failure_threshold.
Hypothesis half_open_pos : 1 ≤ half_open_max_calls.

Lemma observed_wf b : wf b → wf (observed b).
Proof.
  unfold wf, observed. destruct b as [[] st r]; eval_decides; try done.
  destruct (timed_out _); cbn; intros (_ & _ & ? & ?); split_and!; intros; try done; lia.
Qed.

Lemma check_state_wf b : wf b → wf (after _check_state b).
Proof.
  intros Hw%observed_wf. unfold after. rewrite check_state_spec. cbv zeta.
  destruct (_state (observed b)) eqn:E; cbn; [done| |].
  - unfold wf in *. rewrite E in Hw. cbn. destruct Hw as (_ & _ & [? ?] & ?). by split_and!.
  - by destruct (half_open_max_calls <=? _).
Qed.

Lemma aexit_wf exc_val b : wf b → wf (after (__aexit__ exc_val) b).
Proof.
  intros (Hc & Hh & Hf & Ht). destruct (aexit_spec exc_val b) as (b' & E & Hs & Hcalls & Htc & Hn).
  unfold after. rewrite E. cbn. unfold wf. rewrite Hs, Hcalls, Htc. unfold exit_state, exit_calls.
  destruct exc_val as [e|]; [destruct (excluded e)|]; injection Hn as -> ->;
    destruct (_state b); repeat case_match; bool_hyps; split_and!;
    intros; try done; try specialize (Hc eq_refl); try specialize (Hh eq_refl); lia.
Qed.

Lemma step_wf s s' : step s s' → wf s.1 → wf s'.1.
Proof.
  destruct 1 as [b b' n H|b b' n e H|b b' n r exc H|b b' n s H]; cbn; intros Hw.
  - apply check_state_wf in Hw. unfold after in Hw. unfold __aenter__ in H. by rewrite H in Hw.
  - apply check_state_wf in Hw. unfold after in Hw. unfold __aenter__ in H. by rewrite H in Hw.
  - apply (aexit_wf exc) in Hw. unfold after in Hw. by rewrite H in Hw.
  - rewrite state_spec in H. injection H as _ <-. by apply observed_wf.
Qed.

Lemma reachable_wf t0 s : steps step (init t0, 0%nat) s → wf s.1.
Proof.
  intros H. apply (steps_invariant step (λ s, wf s.1) step_wf _ _ H).
  unfold wf. cbn. split_and!; intros; try done; lia.
Qed.

(** C22. However calls interleave, and whatever the clock reads: a closed
    breaker has seen fewer consecutive failures than the threshold, a
    half-open one fewer successes than its quota, and the failure counters
    are consistent. *)
Theorem breaker_invariant (t0 : float) (b : t) (n : nat)
    (H : steps step (init t0, 0%nat) (b, n)) :
  (b.(_state) = CLOSED → b.(_stats).(consecutive_failures) < failure_threshold) ∧
  (b.(_state) = HALF_OPEN → b.(_stats).(half_open_calls) < half_open_max_calls) ∧
  0 ≤ b.(_stats).(consecutive_failures) ≤ b.(_stats).(total_failures) ∧
  b.(_stats).(total_failures) ≤ b.(_stats).(total_calls).
Proof. exact (reachable_wf t0 (b, n) H). Qed.

(** The half-open quota counts completed successes only, so it never turns
    a call away: in every reachable half-open state the next call is admitted
    and leaves the breaker as it was, whatever the number already in flight. *)
Theorem half_open_admits_every_call (t0 : float) (b : t) (n : nat)
    (H : steps step (init t0, 0%nat) (b, n)) (Hs : b.(_state) = HALF_OPEN) :
  ∀ k, steps step (init t0, 0%nat) (b, (n + k)%nat).
Proof.
  assert (step_any : ∀ m, step (b, m) (b, S m)).
  { intros m. constructor. unfold __aenter__. rewrite check_state_spec. cbv zeta.
    destruct (reachable_wf t0 (b, n) H) as (_ & Hh & _). specialize (Hh Hs). cbn in Hh.
    unfold observed. rewrite Hs. eval_decides. rewrite Hs.
    destruct (half_open_max_calls <=? _) eqn:E; [bool_hyps; lia|done]. }
  intros k. induction k as [|k IH]; [by rewrite Nat.add_0_r|].
  eapply steps_trans; [exact IH|]. rewrite Nat.add_succ_r. econstructor; [apply step_any|constructor].
Qed.

(** The breaker's promises: while OPEN and before the recovery timeout
    every call is refused and nothing but the clock moves; once the timeout has
    elapsed the next call is admitted as a trial; and the breaker opens only
    when a counted failure ends, in HALF_OPEN or at the threshold. *)
Theorem breaker_contract (b b' : t) (n n' : nat) :
  (b.(_state) = OPEN → timed_out b = false →
    is_ok (outcome __aenter__ b) = false ∧
    (after __aenter__ b).(_state) = OPEN ∧ (after __aenter__ b).(_stats) = b.(_stats)) ∧
  (b.(_state) = OPEN → timed_out b = true →
    outcome __aenter__ b = Ok tt ∧ (after __aenter__ b).(_state) = HALF_OPEN ∧
    (after __aenter__ b).(_stats).(half_open_calls) = 0) ∧
  (step (b, n) (b', n') → b.(_state) ≠ OPEN → b'.(_state) = OPEN →
    n = S n' ∧ b'.(_stats).(total_failures) = b.(_stats).(total_failures) + 1 ∧
    b'.(_stats).(consecutive_failures) = b.(_stats).(consecutive_failures) + 1 ∧
    (b.(_state) = HALF_OPEN ∨ failure_threshold ≤ b'.(_stats).(consecutive_failures))).
Proof.
  unfold outcome, after, __aenter__. rewrite check_state_spec. unfold observed. split_and!.
  - intros -> ->. eval_decides. done.
  - intros -> ->. eval_decides. destruct (half_open_max_calls <=? 0) eqn:E; bool_hyps; [lia|done].
  - intros Hstep Hne Ho. inversion Hstep as [?? m H|?? m e H|?? m r exc H|?? m s H]; subst.
    + unfold __aenter__ in H. rewrite check_state_spec in H. unfold observed in H.
      rewrite bool_decide_false in H by done. repeat case_match; simplify_eq; congruence.
    + unfold __aenter__ in H. rewrite check_state_spec in H. unfold observed in H.
      rewrite bool_decide_false in H by done. repeat case_match; simplify_eq; congruence.
    + destruct (aexit_spec exc b) as (b1 & E & Hs & _ & _ & Hn). rewrite H in E.
      injection E as _ ->. rewrite Ho in Hs. unfold exit_state in Hs.
      destruct exc as [e|]; [destruct (excluded e)|]; repeat case_match; try done;
        injection Hn as -> ->; bool_hyps; split_and!; try done; try lia; auto.
    + rewrite state_spec in H. unfold observed in H. rewrite bool_decide_false in H by done.
      by simplify_eq.
Qed.
End Limits.
End Breaker.
End CircuitBreaker.

(** * Witnesses: [kis_breaker] has threshold 5, 60 s, 2 trial calls. *)

Module BreakerWitness.
Import CircuitBreaker.

(** One failure opens it; sixty seconds later it is on trial. *)
Definition clock (i : nat) : float := of_Z (100 * Z.of_nat i).
Definition enter := __aenter__ "demo" (of_Z 60) 2 clock.
Definition exit := __aexit__ (Exn:=unit) 1 2 (λ _, false) clock.
Definition failed : t := after (exit (Some tt)) (after enter (init fzero)).
Definition trial : t := after enter failed.
Abbreviation demo_step := (step (Exn:=unit) "demo" 1 (of_Z 60) 2 (λ _, false) clock).

Lemma trial_reachable : steps demo_step (init fzero, 0%nat) (trial, 1%nat).
Proof.
  apply (steps_cons _ _ (after enter (init fzero), 1%nat)); [apply step_admitted; vm_compute; reflexivity|].
  apply (steps_cons _ _ (failed, 0%nat)); [apply (step_done _ _ _ _ _ _ _ _ _ (Ok tt) (Some tt)); vm_compute; reflexivity|].
  apply (steps_cons _ _ (trial, 1%nat)); [apply step_admitted; vm_compute; reflexivity|]. constructor.
Defined.

Lemma breaker_invariant_witness :
  trial.(_state) = HALF_OPEN ∧ trial.(_stats).(half_open_calls) < 2.
Proof.
  split; [vm_compute; reflexivity|].
  exact (proj1 (proj2 (breaker_invariant "demo" 1 (of_Z 60) 2 (λ _ : unit, false) clock
    ltac:(lia) ltac:(lia) fzero trial 1 trial_reachable)) ltac:(vm_compute; reflexivity)).
Defined.

Lemma half_open_admits_every_call_witness :
  steps demo_step (init fzero, 0%nat) (trial, 101%nat).
Proof.
  exact (half_open_admits_every_call "demo" 1 (of_Z 60) 2 (λ _ : unit, false) clock
    ltac:(lia) ltac:(lia) fzero trial 1 trial_reachable ltac:(vm_compute; reflexivity) 100%nat).
Defined.

Lemma breaker_contract_witness :
  failed.(_state) = OPEN ∧ outcome enter failed = Ok tt ∧ (after enter failed).(_state) = HALF_OPEN.
Proof.
  split; [vm_compute; reflexivity|].
  destruct (breaker_contract "demo" 1 (of_Z 60) 2 (λ _ : unit, false) clock ltac:(lia)
    failed failed 0 0) as (_ & H & _).
  destruct (H ltac:(vm_compute; reflexivity) ltac:(vm_compute; reflexivity)) as (? & ? & _).
  by split.
Defined.

End BreakerWitness.
