(* ===== verification/Guard.v ===== *)
(** The trading guard: backend/core/trading_guard.py, with the reason codes the
    executor derives from its messages (backend/core/order_executor/executor.py,
    [_map_guard_reason_code]).

    The time stamp [last_updated] is left out; [initial_capital_krw] is an
    integer below 2^53, so the state's copies of it are exact floats. *)

From stdpp Require Import base option list strings.
From S2P Require Import Prelude PyFloat PyFormat Constants.

(** The settings the guard reads (backend/config/settings.py). *)
Record RiskManagementSettings := {
  initial_capital_krw : Z;
  daily_loss_limit_krw : Z;
  max_order_amount_krw : Z;
  consecutive_loss_limit : Z;
  max_drawdown : float;
}.
Record Credential := { app_key : string; app_secret : string; account_no : string }.
Record GuardSettings := {
  trading_mode : TradingMode;
  is_production : bool;
  active_credential : Credential;
  live_app_key : string;
  demo_app_key : string;
  risk : RiskManagementSettings;
}.
Definition is_live (s : GuardSettings) : bool := bool_decide (s.(trading_mode) = LIVE).

Record TradingGuardState := {
  is_active : bool;
  kill_switch_on : bool;
  kill_switch_reason : string;
  daily_realized_pnl : float;
  daily_order_count : Z;
  consecutive_losses : Z;
  current_drawdown : float;
  peak_portfolio_value : float;
  current_portfolio_value : float;
  (** the gauge TRADING_GUARD_KILL_SWITCH_ACTIVE *)
  kill_switch_gauge : Z;
}.

Record PreOrderCheckResult := { allowed : bool; reason : string; warnings : list string }.
Definition denied (why : string) : PreOrderCheckResult :=
  {| allowed := false; reason := why; warnings := [] |}.
Definition permitted (ws : list string) : PreOrderCheckResult :=
  {| allowed := true; reason := ""; warnings := ws |}.

(** PORTFOLIO_CONSTRAINTS (backend/config/constants.py) *)
Definition max_single_weight : float := dec 20 2.
Definition max_sector_weight : float := dec 40 2.

Module TradingGuard.
Section Guard.
Context (settings : GuardSettings).

Abbreviation t := TradingGuardState (only parsing).
Definition Act (A : Type) := M t Empty_set A.

Definition init : t := {|
  is_active := true; kill_switch_on := false; kill_switch_reason := "";
  daily_realized_pnl := fzero; daily_order_count := 0; consecutive_losses := 0;
  current_drawdown := fzero;
  peak_portfolio_value := of_Z settings.(risk).(initial_capital_krw);
  current_portfolio_value := of_Z settings.(risk).(initial_capital_krw);
  kill_switch_gauge := 0 |}.

Definition set_kill_switch (on : bool) (why : string) (s : t) : t := {|
  is_active := s.(is_active); kill_switch_on := on; kill_switch_reason := why;
  daily_realized_pnl := s.(daily_realized_pnl); daily_order_count := s.(daily_order_count);
  consecutive_losses := s.(consecutive_losses); current_drawdown := s.(current_drawdown);
  peak_portfolio_value := s.(peak_portfolio_value);
  current_portfolio_value := s.(current_portfolio_value);
  kill_switch_gauge := if on then 1 else 0 |}.
Definition set_drawdown (dd : float) (s : t) : t := {|
  is_active := s.(is_active); kill_switch_on := s.(kill_switch_on);
  kill_switch_reason := s.(kill_switch_reason);
  daily_realized_pnl := s.(daily_realized_pnl); daily_order_count := s.(daily_order_count);
  consecutive_losses := s.(consecutive_losses); current_drawdown := dd;
  peak_portfolio_value := s.(peak_portfolio_value);
  current_portfolio_value := s.(current_portfolio_value);
  kill_switch_gauge := s.(kill_switch_gauge) |}.

Definition _activate_kill_switch (why : string) : Act unit := modify (set_kill_switch true why).
Definition activate_kill_switch (why : string) : Act unit := _activate_kill_switch why.
Definition deactivate_kill_switch : Act unit := modify (set_kill_switch false "").

(** f"{x:,.0f}" *)
Definition won (x : float) : string := fmt_fixed true 0 x.

Definition verify_environment : PreOrderCheckResult :=
  if is_live settings && negb settings.(is_production) then
    denied "LIVE 모드는 production 환경에서만 허용됩니다."
  else if is_live settings then
    let cred := settings.(active_credential) in
    if bool_decide (cred.(app_key) = "") || bool_decide (cred.(app_secret) = "") then
      denied "LIVE 모드 API 키가 설정되지 않았습니다."
    else if bool_decide (cred.(account_no) = "") then
      denied "LIVE 모드 계좌번호가 설정되지 않았습니다."
    else if bool_decide (settings.(live_app_key) = settings.(demo_app_key)) &&
            negb (bool_decide (settings.(live_app_key) = "")) then
      permitted ["LIVE와 DEMO API 키가 동일합니다. 확인해 주세요."]
    else permitted []
  else permitted [].

Definition verify_capital (current_balance : float) : PreOrderCheckResult :=
  let min_capital := (of_Z settings.(risk).(initial_capital_krw) * dec 1 1)%pyf in
  if (current_balance <? min_capital)%pyf then
    denied ("잔고 부족: " +:+ won current_balance +:+ "원 < " +:+ "최소 요구 자본금 " +:+
      won min_capital +:+ "원")
  else permitted [].

Definition check_daily_loss_limit : Act PreOrderCheckResult :=
  s ← get;
  if fleZ s.(daily_realized_pnl) (- settings.(risk).(daily_loss_limit_krw)) then
    _activate_kill_switch ("일일 손실 한도 도달: " +:+ won s.(daily_realized_pnl) +:+ "원") ;;
    mret (denied ("일일 손실 한도 초과: " +:+ won s.(daily_realized_pnl) +:+ "원"))
  else mret (permitted []).

Definition drawdown (s : t) : float :=
  ((s.(peak_portfolio_value) - s.(current_portfolio_value)) / s.(peak_portfolio_value))%pyf.

Definition check_max_drawdown : Act PreOrderCheckResult :=
  s ← get;
  if (s.(peak_portfolio_value) >? fzero)%pyf then
    let dd := drawdown s in
    modify (set_drawdown dd) ;;
    if (dd >=? settings.(risk).(max_drawdown))%pyf then
      _activate_kill_switch ("최대 낙폭 한도 도달: " +:+ fmt_percent 2 dd) ;;
      mret (denied ("MDD 한도 초과: " +:+ fmt_percent 2 dd +:+ " >= " +:+
        fmt_percent 2 settings.(risk).(max_drawdown)))
    else mret (permitted [])
  else mret (permitted []).

Definition check_consecutive_losses : Act PreOrderCheckResult :=
  s ← get;
  if settings.(risk).(consecutive_loss_limit) <=? s.(consecutive_losses) then
    _activate_kill_switch ("연속 손실 한도 도달: " +:+ fmt_int s.(consecutive_losses) +:+ "회") ;;
    mret (denied ("연속 손실 한도 초과: " +:+ fmt_int s.(consecutive_losses) +:+ "회 >= " +:+
      fmt_int settings.(risk).(consecutive_loss_limit) +:+ "회"))
  else mret (permitted []).

Definition killed (s : t) : PreOrderCheckResult :=
  denied ("Kill Switch 활성화됨: " +:+ s.(kill_switch_reason)).

(** [for name, check_fn in checks: ... return the first denial] *)
Fixpoint run_checks (checks : list (Act PreOrderCheckResult)) (all_warnings : list string) :
    Act PreOrderCheckResult :=
  match checks with
  | [] => mret (permitted all_warnings)
  | check_fn :: checks' =>
      result ← check_fn;
      if negb result.(allowed) then mret result
      else run_checks checks' (all_warnings ++ result.(warnings))
  end.

Definition run_all_checks : Act PreOrderCheckResult :=
  run_checks [mret verify_environment; check_daily_loss_limit; check_max_drawdown;
              check_consecutive_losses] [].

Definition amount_exceeded (order_amount : float) : PreOrderCheckResult :=
  denied ("주문 금액 초과: " +:+ won order_amount +:+ "원 > " +:+ "한도 " +:+
    won (of_Z settings.(risk).(max_order_amount_krw)) +:+ "원").

Definition check_pre_order (ticker : string) (side : OrderSide) (quantity : Z)
    (limit_price : option float) : Act PreOrderCheckResult :=
  s ← get;
  if s.(kill_switch_on) then mret (killed s) else
  base ← run_all_checks;
  if negb base.(allowed) then mret base else
  match side, limit_price with
  | BUY, Some price =>
      if (price >? fzero)%pyf then
        let order_amount := (price * of_Z quantity)%pyf in
        if fgtZ order_amount settings.(risk).(max_order_amount_krw)
        then mret (amount_exceeded order_amount)
        else mret (permitted base.(warnings))
      else mret (permitted base.(warnings))
  | _, _ => mret (permitted base.(warnings))
  end.

Definition pre_order_check (order_amount_krw : float) (ticker : string) (side : OrderSide)
    (new_position_weight new_sector_weight : float) : Act PreOrderCheckResult :=
  s ← get;
  if s.(kill_switch_on) then mret (killed s) else
  check ← check_daily_loss_limit;
  if negb check.(allowed) then mret check else
  check ← check_max_drawdown;
  if negb check.(allowed) then mret check else
  check ← check_consecutive_losses;
  if negb check.(allowed) then mret check else
  match side with
  | BUY =>
      if fgtZ order_amount_krw settings.(risk).(max_order_amount_krw) then
        mret (amount_exceeded order_amount_krw)
      else if (new_position_weight >? max_single_weight)%pyf then
        mret (denied ("종목 비중 초과: " +:+ ticker +:+ " " +:+ fmt_percent 1 new_position_weight
          +:+ " > " +:+ fmt_percent 1 max_single_weight))
      else if (new_sector_weight >? max_sector_weight)%pyf then
        mret (permitted ["섹터 비중 경고: " +:+ fmt_percent 1 new_sector_weight +:+ " > " +:+
          fmt_percent 1 max_sector_weight])
      else mret (permitted [])
  | SELL => mret (permitted [])
  end.

Definition record_trade_result (pnl portfolio_value : float) : Act unit :=
  modify (λ s, {|
    is_active := s.(is_active); kill_switch_on := s.(kill_switch_on);
    kill_switch_reason := s.(kill_switch_reason);
    daily_realized_pnl := (s.(daily_realized_pnl) + pnl)%pyf;
    daily_order_count := s.(daily_order_count) + 1;
    consecutive_losses := if (pnl <? fzero)%pyf then s.(consecutive_losses) + 1 else 0;
    current_drawdown := s.(current_drawdown);
    peak_portfolio_value :=
      if (portfolio_value >? s.(peak_portfolio_value))%pyf
      then portfolio_value else s.(peak_portfolio_value);
    current_portfolio_value := portfolio_value;
    kill_switch_gauge := s.(kill_switch_gauge) |}).

Definition reset_daily_state : Act unit :=
  modify (λ s, {|
    is_active := s.(is_active); kill_switch_on := s.(kill_switch_on);
    kill_switch_reason := s.(kill_switch_reason);
    daily_realized_pnl := fzero; daily_order_count := 0;
    consecutive_losses := s.(consecutive_losses); current_drawdown := s.(current_drawdown);
    peak_portfolio_value := s.(peak_portfolio_value);
    current_portfolio_value := s.(current_portfolio_value);
    kill_switch_gauge := s.(kill_switch_gauge) |}).
End Guard.
End TradingGuard.

(** OrderExecutor._map_guard_reason_code *)
Definition _map_guard_reason_code (reason : string) : string :=
  if contains "Kill Switch" reason then "kill_switch"
  else if contains "일일 손실" reason then "daily_loss"
  else if contains "MDD" reason || contains "낙폭" reason then "max_drawdown"
  else if contains "연속 손실" reason then "consecutive_losses"
  else if contains "주문 금액" reason then "order_amount"
  else if contains "LIVE 모드" reason || contains "production" reason then "environment"
  else if contains "잔고" reason then "capital"
  else "other".

(** * Decisions *)

Module TradingGuardFacts.
Import TradingGuard.
Section Facts.
Context (settings : GuardSettings).

Definition loss_trips (s : TradingGuardState) : bool :=
  fleZ s.(daily_realized_pnl) (- settings.(risk).(daily_loss_limit_krw)).
Definition drawdown_trips (s : TradingGuardState) : bool :=
  (s.(peak_portfolio_value) >? fzero)%pyf && (drawdown s >=? settings.(risk).(max_drawdown))%pyf.
Definition streak_trips (s : TradingGuardState) : bool :=
  settings.(risk).(consecutive_loss_limit) <=? s.(consecutive_losses).
Definition trips (s : TradingGuardState) : bool :=
  loss_trips s || drawdown_trips s || streak_trips s.
Definition oversized (side : OrderSide) (quantity : Z) (limit_price : option float) : bool :=
  match side, limit_price with
  | BUY, Some price => (price >? fzero)%pyf &&
      fgtZ (price * of_Z quantity)%pyf settings.(risk).(max_order_amount_krw)
  | _, _ => false
  end.

(** What a check may write: the switch, its gauge and the drawdown it saw. *)
Definition same_books (s s' : TradingGuardState) : Prop :=
  s'.(daily_realized_pnl) = s.(daily_realized_pnl) ∧
  s'.(daily_order_count) = s.(daily_order_count) ∧
  s'.(consecutive_losses) = s.(consecutive_losses) ∧
  s'.(peak_portfolio_value) = s.(peak_portfolio_value) ∧
  s'.(current_portfolio_value) = s.(current_portfolio_value).

Definition noted (s : TradingGuardState) : TradingGuardState :=
  if (s.(peak_portfolio_value) >? fzero)%pyf then set_drawdown (drawdown s) s else s.

Definition loss_message (s : TradingGuardState) : string :=
  "일일 손실 한도 초과: " +:+ won s.(daily_realized_pnl) +:+ "원".
Definition drawdown_message (s : TradingGuardState) : string :=
  "MDD 한도 초과: " +:+ fmt_percent 2 (drawdown s) +:+ " >= " +:+
    fmt_percent 2 settings.(risk).(max_drawdown).
Definition streak_message (s : TradingGuardState) : string :=
  "연속 손실 한도 초과: " +:+ fmt_int s.(consecutive_losses) +:+ "회 >= " +:+
    fmt_int settings.(risk).(consecutive_loss_limit) +:+ "회".

Lemma check_daily_loss_spec s :
  check_daily_loss_limit settings s =
    if loss_trips s
    then (Ok (denied (loss_message s)),
          set_kill_switch true ("일일 손실 한도 도달: " +:+ won s.(daily_realized_pnl) +:+ "원") s)
    else (Ok (permitted []), s).
Proof. unfold check_daily_loss_limit, loss_trips, _activate_kill_switch. run_m. by case_match. Qed.

Lemma check_max_drawdown_spec s :
  check_max_drawdown settings s =
    if drawdown_trips s
    then (Ok (denied (drawdown_message s)),
          set_kill_switch true ("최대 낙폭 한도 도달: " +:+ fmt_percent 2 (drawdown s)) (noted s))
    else (Ok (permitted []), noted s).
Proof.
  unfold check_max_drawdown, drawdown_trips, noted, _activate_kill_switch. run_m.
  destruct (peak_portfolio_value s >? fzero)%pyf; [|done]. cbn. by case_match.
Qed.

Lemma check_consecutive_spec s :
  check_consecutive_losses settings s =
    if streak_trips s
    then (Ok (denied (streak_message s)),
          set_kill_switch true ("연속 손실 한도 도달: " +:+ fmt_int s.(consecutive_losses) +:+ "회") s)
    else (Ok (permitted []), s).
Proof. unfold check_consecutive_losses, streak_trips, _activate_kill_switch. run_m. by case_match. Qed.

Lemma noted_streak s : streak_trips (noted s) = streak_trips s.
Proof. unfold noted. by destruct (_ >? _)%pyf. Qed.
Lemma noted_streak_message s : streak_message (noted s) = streak_message s.
Proof. unfold noted. by destruct (_ >? _)%pyf. Qed.
Lemma noted_same_books s : same_books s (noted s).
Proof. unfold noted. destruct (_ >? _)%pyf; by split_and!. Qed.
Lemma noted_switch s : (noted s).(kill_switch_on) = s.(kill_switch_on).
Proof. unfold noted. by destruct (_ >? _)%pyf. Qed.
Lemma noted_gauge s : (noted s).(kill_switch_gauge) = s.(kill_switch_gauge).
Proof. unfold noted. by destruct (_ >? _)%pyf. Qed.

Definition environment_ok : bool := (verify_environment settings).(allowed).

Lemma verify_environment_cases :
  environment_ok = true ∧ (∃ ws, verify_environment settings = permitted ws)
  ∨ environment_ok = false ∧
    verify_environment settings = denied (verify_environment settings).(reason) ∧
    _map_guard_reason_code (verify_environment settings).(reason) = "environment".
Proof.
  unfold environment_ok, verify_environment.
  repeat case_match; (left; split; [done|by eexists]) || (right; split_and!; vm_compute; reflexivity).
Qed.

(** The message of the denial and the code it stands for, or [None]. *)
Definition verdict (side : OrderSide) (quantity : Z) (limit_price : option float)
    (s : TradingGuardState) : option (string * string) :=
  if s.(kill_switch_on) then Some ((killed s).(reason), "kill_switch")
  else if negb environment_ok then Some ((verify_environment settings).(reason), "environment")
  else if loss_trips s then Some (loss_message s, "daily_loss")
  else if drawdown_trips s then Some (drawdown_message s, "max_drawdown")
  else if streak_trips s then Some (streak_message s, "consecutive_losses")
  else match limit_price with
  | Some price =>
      if oversized side quantity limit_price
      then Some ((amount_exceeded settings (price * of_Z quantity)%pyf).(reason), "order_amount")
      else None
  | None => None
  end.

Definition gauge_ok (s : TradingGuardState) : Prop :=
  s.(kill_switch_gauge) = if s.(kill_switch_on) then 1 else 0.

Lemma run_all_checks_spec s :
  s.(kill_switch_on) = false → gauge_ok s →
  ∃ s', run_all_checks settings s =
      (Ok (if negb environment_ok then verify_environment settings
           else if loss_trips s then denied (loss_message s)
           else if drawdown_trips s then denied (drawdown_message s)
           else if streak_trips s then denied (streak_message s)
           else permitted (verify_environment settings).(warnings)), s') ∧
    same_books s s' ∧ s'.(kill_switch_on) = environment_ok && trips s ∧ gauge_ok s'.
Proof.
  intros Hk Hg. pose proof (noted_same_books s) as Hn. pose proof (noted_switch s) as Hsw.
  pose proof (noted_gauge s) as Hga. unfold same_books in *. destruct_and!.
  unfold run_all_checks, trips, gauge_ok in *. rewrite Hk in Hg, Hsw.
  destruct verify_environment_cases as [[-> [ws Hws]]|(-> & Hws & _)].
  2: { exists s. cbn. rewrite Hws. run_m. cbn. rewrite Hk. by split_and!. }
  cbn [run_checks]. run_m. rewrite Hws. cbn. rewrite check_daily_loss_spec.
  destruct (loss_trips s); cbn; [eexists; by split_and!|].
  rewrite check_max_drawdown_spec. destruct (drawdown_trips s); cbn; [eexists; by split_and!|].
  rewrite check_consecutive_spec, noted_streak, noted_streak_message.
  destruct (streak_trips s); cbn; eexists;
    (split; [by rewrite ?app_nil_r|]); cbn; split_and!; try done; congruence || by rewrite Hga, Hsw.
Qed.

Lemma check_pre_order_spec ticker side quantity limit_price s :
  gauge_ok s →
  ∃ s', check_pre_order settings ticker side quantity limit_price s =
      (Ok (match verdict side quantity limit_price s with
           | Some (message, _) => denied message
           | None => permitted (verify_environment settings).(warnings)
           end), s') ∧
    same_books s s' ∧
    s'.(kill_switch_on) = s.(kill_switch_on) || environment_ok && trips s ∧ gauge_ok s' ∧
    (s.(kill_switch_on) = true → s' = s).
Proof.
  intros Hg. unfold check_pre_order, verdict. run_m.
  destruct (s.(kill_switch_on)) eqn:Hk; [exists s; by split_and!|].
  destruct (run_all_checks_spec s Hk Hg) as (s' & -> & Hb & Hs' & Hg').
  exists s'. rewrite orb_false_l. split_and!; try done. unfold oversized.
  destruct verify_environment_cases as [[-> [ws Hws]]|(-> & Hws & _)]; cbn.
  2: by rewrite Hws.
  destruct (loss_trips s); [done|]. destruct (drawdown_trips s); [done|].
  destruct (streak_trips s); [done|]. cbn.
  destruct side, limit_price as [price|]; try done.
  destruct (price >? fzero)%pyf; [|done]. cbn. by destruct (fgtZ _ _).
Qed.

(** C10. [check_pre_order] lets an order through exactly when the kill switch is
    off, the environment is fit, no loss, drawdown or streak limit is reached
    and a priced BUY is within the amount limit; it never touches the books,
    and the kill switch is on afterwards exactly when it was on before or one
    of the three breakers tripped. *)
Theorem check_pre_order_decides (ticker : string) (side : OrderSide) (quantity : Z)
    (limit_price : option float) (s : TradingGuardState) (Hg : gauge_ok s) :
  let m := check_pre_order settings ticker side quantity limit_price in
  ∃ r, outcome m s = Ok r ∧
    (r.(allowed) = true ↔
       s.(kill_switch_on) = false ∧ environment_ok = true ∧ trips s = false ∧
       oversized side quantity limit_price = false) ∧
    same_books s (after m s) ∧ gauge_ok (after m s) ∧
    (after m s).(kill_switch_on) = s.(kill_switch_on) || environment_ok && trips s.
Proof.
  intros m. unfold outcome, after, m.
  destruct (check_pre_order_spec ticker side quantity limit_price s Hg)
    as (s' & -> & Hb & Hk & Hg' & _).
  eexists. split; [done|]. split_and!; [|done..]. unfold verdict, trips, oversized.
  destruct (s.(kill_switch_on)), environment_ok, (loss_trips s), (drawdown_trips s),
    (streak_trips s), side, limit_price; cbn; repeat case_match; split; intros; destruct_and?; by split_and?.
Qed.

(** ** The kill switch is a latch *)

Inductive guard_op :=
  | CheckPreOrder (ticker : string) (side : OrderSide) (quantity : Z) (limit_price : option float)
  | CheckDailyLoss | CheckMaxDrawdown | CheckConsecutive | RunAllChecks
  | RecordTrade (pnl portfolio_value : float)
  | ResetDaily
  | Activate (why : string).

Definition perform (op : guard_op) (s : TradingGuardState) : TradingGuardState :=
  match op with
  | CheckPreOrder ticker side quantity limit_price =>
      after (check_pre_order settings ticker side quantity limit_price) s
  | CheckDailyLoss => after (check_daily_loss_limit settings) s
  | CheckMaxDrawdown => after (check_max_drawdown settings) s
  | CheckConsecutive => after (check_consecutive_losses settings) s
  | RunAllChecks => after (run_all_checks settings) s
  | RecordTrade pnl v => after (record_trade_result pnl v) s
  | ResetDaily => after reset_daily_state s
  | Activate why => after (activate_kill_switch why) s
  end.

Definition latched (s : TradingGuardState) : Prop :=
  s.(kill_switch_on) = true ∧ gauge_ok s.

Lemma run_all_checks_latched s : latched s → latched (after (run_all_checks settings) s).
Proof.
  intros [Hk Hg]. unfold latched, gauge_ok, after, run_all_checks in *. cbn [run_checks]. run_m.
  destruct (allowed (verify_environment settings)); cbn; [|done].
  rewrite check_daily_loss_spec. destruct (loss_trips s); cbn; [done|].
  rewrite check_max_drawdown_spec. destruct (drawdown_trips s); cbn; [done|].
  rewrite check_consecutive_spec. destruct (streak_trips _); cbn; [done|].
  by rewrite noted_gauge, noted_switch.
Qed.

Lemma perform_latched op s : latched s → latched (perform op s).
Proof.
  intros [Hk Hg]. destruct op; cbn [perform]; try by apply run_all_checks_latched.
  - destruct (check_pre_order_spec ticker side quantity limit_price s Hg)
      as (s' & E & _ & _ & _ & Hs). unfold after. rewrite E. cbn. by rewrite Hs.
  - unfold after. rewrite check_daily_loss_spec. by destruct (loss_trips s).
  - unfold after. rewrite check_max_drawdown_spec. unfold latched, gauge_ok in *.
    destruct (drawdown_trips s); cbn; [done|]. by rewrite noted_gauge, noted_switch.
  - unfold after. rewrite check_consecutive_spec. by destruct (streak_trips s).
  - done.
  - done.
  - done.
Qed.

(** Once the kill switch is on, nothing but [deactivate_kill_switch] turns
    it off: whatever checks, trades, daily resets and activations follow, every
    order is refused with the reason code [kill_switch], and the refusal
    changes nothing. *)
Theorem kill_switch_latches (ops : list guard_op) (s : TradingGuardState)
    (ticker : string) (side : OrderSide) (quantity : Z) (limit_price : option float)
    (Hk : s.(kill_switch_on) = true) (Hg : gauge_ok s) :
  let s' := run_ops perform ops s in
  s'.(kill_switch_on) = true ∧ gauge_ok s' ∧
  ∃ r, check_pre_order settings ticker side quantity limit_price s' = (Ok r, s') ∧
    r.(allowed) = false ∧ _map_guard_reason_code r.(reason) = "kill_switch".
Proof.
  intros s'. assert (latched s') as [Hk' Hg'].
  { by apply (run_ops_invariant perform latched perform_latched). }
  split_and!; [done|done|].
  destruct (check_pre_order_spec ticker side quantity limit_price s' Hg')
    as (s2 & E & _ & _ & _ & Hs). rewrite (Hs Hk') in E. rewrite E. eexists. split; [done|].
  unfold verdict. rewrite Hk'. cbn. split; [done|]. unfold killed. cbn.
  unfold _map_guard_reason_code.
  change ("Kill Switch 활성화됨: " +:+ ?r) with ("Kill Switch" +:+ (" 활성화됨: " +:+ r)).
  by rewrite contains_prefix.
Qed.

(** ** The messages and their codes *)

Lemma won_number x : number_text (won x).
Proof. apply fmt_fixed_number. Qed.

(** Searches a keyword in a message, stepping over its formatted numbers. *)
Ltac message_side :=
  match goal with
  | |- keyword _ = true => vm_compute; reflexivity
  | |- number_text _ => auto using won_number with py
  end.
Ltac search_message :=
  repeat (first [rewrite contains_number by message_side | rewrite contains_number_end by message_side]);
  vm_compute; reflexivity.

Lemma loss_message_code s : _map_guard_reason_code (loss_message s) = "daily_loss".
Proof. unfold _map_guard_reason_code, loss_message. search_message. Qed.

Lemma drawdown_message_code s : _map_guard_reason_code (drawdown_message s) = "max_drawdown".
Proof. unfold _map_guard_reason_code, drawdown_message. search_message. Qed.

Lemma streak_message_code s : _map_guard_reason_code (streak_message s) = "consecutive_losses".
Proof. unfold _map_guard_reason_code, streak_message. search_message. Qed.

Lemma amount_message_code x :
  _map_guard_reason_code (amount_exceeded settings x).(reason) = "order_amount".
Proof.
  unfold _map_guard_reason_code, amount_exceeded. cbn [reason denied].
  change ("원 > " +:+ "한도 " +:+ ?r) with ("원 > 한도 " +:+ r). search_message.
Qed.

(** The metric label of a refusal is the limit that refused: whatever
    amounts, percentages and counts are printed into the message, its
    keywords classify it as the check that produced it. *)
Theorem refusal_reason_code (ticker : string) (side : OrderSide) (quantity : Z)
    (limit_price : option float) (s : TradingGuardState) (r : PreOrderCheckResult)
    (Hg : gauge_ok s)
    (H : outcome (check_pre_order settings ticker side quantity limit_price) s = Ok r)
    (Hr : r.(allowed) = false) :
  _map_guard_reason_code r.(reason) =
    if s.(kill_switch_on) then "kill_switch"
    else if negb environment_ok then "environment"
    else if loss_trips s then "daily_loss"
    else if drawdown_trips s then "max_drawdown"
    else if streak_trips s then "consecutive_losses"
    else "order_amount".
Proof.
  destruct (check_pre_order_spec ticker side quantity limit_price s Hg) as (s' & E & _).
  unfold outcome in H. rewrite E in H. cbn in H. injection H as <-. revert Hr. unfold verdict.
  destruct (s.(kill_switch_on)).
  { intros _. cbn. unfold _map_guard_reason_code.
    change ("Kill Switch 활성화됨: " +:+ ?r) with ("Kill Switch" +:+ (" 활성화됨: " +:+ r)).
    by rewrite contains_prefix. }
  destruct verify_environment_cases as [[-> _]|(-> & _ & Henv)]; [|intros _; exact Henv].
  cbn [negb]. destruct (loss_trips s); [intros _; apply loss_message_code|].
  destruct (drawdown_trips s); [intros _; apply drawdown_message_code|].
  destruct (streak_trips s); [intros _; apply streak_message_code|].
  destruct limit_price as [price|]; [|done].
  destruct (oversized side quantity (Some price)); [intros _; apply amount_message_code|done].
Qed.

(** ** Trade statistics *)

Definition trade := (float * float)%type.
Definition record (tr : trade) (s : TradingGuardState) : TradingGuardState :=
  after (record_trade_result tr.1 tr.2) s.

(** The losing streak at the end of a history, given the streak before it. *)
Fixpoint streak (trs : list trade) (before : Z) : Z :=
  match trs with
  | [] => before
  | tr :: trs' => streak trs' (if (tr.1 <? fzero)%pyf then before + 1 else 0)
  end.

(** The statistics the limits are checked against: after a run of trades the
    order count is exact, [consecutive_losses] is the length of the final
    losing streak, the peak bounds every portfolio value seen (NaN excepted)
    and is one of them, and the kill switch is left alone. *)
Theorem trade_statistics (trs : list trade) (s : TradingGuardState)
    (Hp : is_nan s.(peak_portfolio_value) = false) :
  let s' := run_ops record trs s in
  s'.(daily_order_count) = s.(daily_order_count) + Z.of_nat (length trs) ∧
  s'.(consecutive_losses) = streak trs s.(consecutive_losses) ∧
  (∀ v, v ∈ s.(peak_portfolio_value) :: trs.*2 → is_nan v = false →
     (v <=? s'.(peak_portfolio_value))%pyf = true) ∧
  s'.(peak_portfolio_value) ∈ s.(peak_portfolio_value) :: trs.*2 ∧
  s'.(kill_switch_on) = s.(kill_switch_on) ∧
  s'.(daily_realized_pnl) = foldl fadd s.(daily_realized_pnl) trs.*1.
Proof.
  unfold run_ops. revert s Hp. induction trs as [|[pnl v] trs IH]; intros s Hp;
    rewrite ?fmap_cons; cbn [foldl length streak fst snd fmap list_fmap].
  { split_and!; [lia|done| |left|done|done].
    intros v ->%list_elem_of_singleton Hv. by apply fle_refl. }
  set (s1 := record (pnl, v) s).
  assert (is_nan s1.(peak_portfolio_value) = false) as Hp1.
  { subst s1. cbn. destruct (_ >? _)%pyf eqn:E; [|done]. by apply flt_nan in E as [_ ?]. }
  destruct (IH s1 Hp1) as (Hc & Hs & Hub & Hin & Hk & Hpnl). split_and!.
  - rewrite Hc. subst s1. cbn. lia.
  - by rewrite Hs.
  - assert ((s1.(peak_portfolio_value) <=? (foldl (λ s i, record i s) s1 trs).(peak_portfolio_value))%pyf
      = true) as Hs1 by (by apply Hub; [left|]).
    intros w [->|[->|Hw]%elem_of_cons]%elem_of_cons Hn.
    + refine (fle_trans _ _ _ _ Hs1). subst s1. cbn.
      destruct (_ >? _)%pyf eqn:E; [by apply flt_le|by apply fle_refl].
    + refine (fle_trans _ _ _ _ Hs1). subst s1. cbn.
      destruct (_ >? _)%pyf eqn:E; [by apply fle_refl|]. rewrite fle_not_lt by done. by rewrite E.
    + apply Hub; [by right|done].
  - apply elem_of_cons in Hin as [->|?]; [|by do 2 right]. subst s1. cbn.
    destruct (_ >? _)%pyf; [right; left|left].
  - by rewrite Hk.
  - by rewrite Hpnl.
Qed.
End Facts.
End TradingGuardFacts.

(** * Witnesses: the default limits, in DEMO mode *)

Module GuardWitness.
Import TradingGuard TradingGuardFacts.

Definition demo : GuardSettings := {|
  trading_mode := DEMO; is_production := false;
  active_credential := {| app_key := "k"; app_secret := "s"; account_no := "1" |};
  live_app_key := "live"; demo_app_key := "demo";
  risk := {| initial_capital_krw := 50000000; daily_loss_limit_krw := 5000000;
    max_order_amount_krw := 10000000; consecutive_loss_limit := 5; max_drawdown := dec 15 2 |} |}.

Definition after_loss : TradingGuardState :=
  run_ops record [(of_Z (-6000000), of_Z 44000000)] (init demo).

Lemma check_pre_order_decides_witness :
  gauge_ok after_loss ∧
  ∃ r, outcome (check_pre_order demo "005930" BUY 10 (Some (of_Z 70000))) after_loss = Ok r ∧
    r.(allowed) = false.
Proof.
  split; [reflexivity|].
  destruct (check_pre_order_decides demo "005930" BUY 10 (Some (of_Z 70000)) after_loss eq_refl)
    as (r & Hr & Ha & _).
  exists r. split; [exact Hr|]. destruct (allowed r); [|reflexivity].
  destruct (proj1 Ha eq_refl) as (_ & _ & Ht & _). vm_compute in Ht. discriminate.
Defined.

Lemma kill_switch_latches_witness :
  (run_ops (perform demo) [ResetDaily; RecordTrade (of_Z 1) (of_Z 2)]
    (set_kill_switch true "drill" (init demo))).(kill_switch_on) = true.
Proof.
  exact (proj1 (kill_switch_latches demo [ResetDaily; RecordTrade (of_Z 1) (of_Z 2)]
    (set_kill_switch true "drill" (init demo)) "005930" BUY 1 None eq_refl eq_refl)).
Defined.

Lemma refusal_reason_code_witness :
  ∃ r, outcome (check_pre_order demo "005930" BUY 10 None) after_loss = Ok r ∧
    _map_guard_reason_code r.(reason) = "daily_loss".
Proof.
  eexists. split; [vm_compute; reflexivity|].
  rewrite (refusal_reason_code demo "005930" BUY 10 None after_loss _ eq_refl
    ltac:(vm_compute; reflexivity) eq_refl).
  vm_compute. reflexivity.
Defined.

Lemma trade_statistics_witness :
  (run_ops record [(of_Z 1, of_Z 2); (of_Z (-1), of_Z 1); (of_Z (-1), of_Z 0)] (init demo))
    .(consecutive_losses) = 2.
Proof.
  rewrite (proj1 (proj2 (trade_statistics [(of_Z 1, of_Z 2); (of_Z (-1), of_Z 1); (of_Z (-1), of_Z 0)]
    (init demo) eq_refl))). vm_compute. reflexivity.
Defined.

End GuardWitness.
