(* ===== verification/PriceGuard.v ===== *)
(** Quote freshness, pre-trade price and post-trade slippage guards:
    backend/core/order_executor/price_guard.py.

    Time is in microseconds.  A guard runs over the list of the Prometheus
    increments it makes, in order. *)

From stdpp Require Import base option list strings.
From S2P Require Import Prelude PyFloat Constants.

Record Quote := {
  q_ticker : string;
  q_market : Market;
  price : float;
  fetched_at : Z;
  tz_aware : bool;
}.

Record PriceGuardConfig := {
  max_quote_age_seconds : float;
  max_pre_trade_deviation_pct : float;
  max_post_trade_slippage_pct : float;
}.
Definition default_config : PriceGuardConfig := {|
  max_quote_age_seconds := dec 5 0;
  max_pre_trade_deviation_pct := dec 2 2;
  max_post_trade_slippage_pct := dec 1 2 |}.

Inductive PriceGuardExn :=
  | StaleQuoteError (ticker : string) (age_seconds limit_seconds : float)
  | PriceDeviationError (ticker : string) (side : OrderSide)
      (reference_price order_price deviation_pct limit_pct : float)
  | QuoteFetchError (ticker : string) (why : string)
  | GuardValueError (why : string).

(** [Quote.__post_init__] *)
Definition quote_post_init (q : Quote) : result PriceGuardExn Quote :=
  if (q.(price) <=? fzero)%pyf then Err (GuardValueError "Quote.price must be > 0")
  else if negb q.(tz_aware) then Err (GuardValueError "Quote.fetched_at must be timezone-aware")
  else Ok q.

(** [PriceGuardConfig.__post_init__] *)
Definition config_post_init (c : PriceGuardConfig) : result PriceGuardExn PriceGuardConfig :=
  if (c.(max_quote_age_seconds) <=? fzero)%pyf then
    Err (GuardValueError "max_quote_age_seconds must be > 0")
  else if (c.(max_pre_trade_deviation_pct) <=? fzero)%pyf then
    Err (GuardValueError "max_pre_trade_deviation_pct must be > 0")
  else if (c.(max_post_trade_slippage_pct) <=? fzero)%pyf then
    Err (GuardValueError "max_post_trade_slippage_pct must be > 0")
  else Ok c.

Inductive Metric :=
  | STALE_QUOTE_REJECTS (market : Market)
  | PRE_TRADE_PRICE_REJECTS (side : OrderSide) (market : Market)
  | POST_TRADE_SLIPPAGE_ALERTS (critical : bool) (market : Market)
  | QUOTE_FETCH_FAILURES (market : Market) (why : string).

Abbreviation Guarded := (M (list Metric) PriceGuardExn).
Definition inc (m : Metric) : Guarded unit := modify (λ ms, ms ++ [m]).

(** A quote source: it returns a constructed quote, or raises [QuoteFetchError]
    ([Err (Some reason)]) or any other exception ([Err None]). *)
Abbreviation QuoteProvider := (string → Market → result (option string) Quote).

Definition StaticQuoteProvider (quotes : list ((string * Market) * Quote)) : QuoteProvider :=
  λ ticker market,
    match list_find (λ kq, kq.1 = (ticker, market)) quotes with
    | Some (_, (_, q)) => Ok q
    | None => Err (Some ("no static quote for (" +:+ ticker +:+ "," +:+ value market +:+ ")"))
    end.

Definition compute_deviation_pct (reference candidate : float) : result PriceGuardExn float :=
  if (reference <=? fzero)%pyf then Err (GuardValueError "reference must be > 0")
  else Ok (fabs (candidate - reference) / reference)%pyf.

(** [timedelta.total_seconds()] *)
Definition total_seconds (us : Z) : float := (of_Z us / of_Z 1000000)%pyf.

Definition assert_quote_fresh (quote : Quote) (max_age_seconds : float) (now : Z) : Guarded unit :=
  if (max_age_seconds <=? fzero)%pyf then raise (GuardValueError "max_age_seconds must be > 0") else
  if negb quote.(tz_aware) then
    raise (GuardValueError "quote.fetched_at must be timezone-aware") else
  let age := total_seconds (now - quote.(fetched_at)) in
  if (age <? fzero)%pyf then
    inc (STALE_QUOTE_REJECTS quote.(q_market)) ;;
    raise (StaleQuoteError quote.(q_ticker) age max_age_seconds)
  else if (age >? max_age_seconds)%pyf then
    inc (STALE_QUOTE_REJECTS quote.(q_market)) ;;
    raise (StaleQuoteError quote.(q_ticker) age max_age_seconds)
  else mret tt.

Definition reject_price (ticker : string) (market : Market) (side : OrderSide)
    (reference_price order_price max_deviation_pct : float) : Guarded unit :=
  deviation ← lift_result (compute_deviation_pct reference_price order_price);
  inc (PRE_TRADE_PRICE_REJECTS side market) ;;
  raise (PriceDeviationError ticker side reference_price order_price deviation max_deviation_pct).

Definition assert_pre_trade_price (ticker : string) (market : Market) (side : OrderSide)
    (reference_price order_price max_deviation_pct : float) : Guarded unit :=
  if (max_deviation_pct <=? fzero)%pyf then raise (GuardValueError "max_deviation_pct must be > 0") else
  if (reference_price <=? fzero)%pyf || (order_price <=? fzero)%pyf then
    raise (GuardValueError "reference_price and order_price must be > 0") else
  match side with
  | BUY =>
      let upper := (reference_price * (of_Z 1 + max_deviation_pct))%pyf in
      if (order_price >? upper)%pyf
      then reject_price ticker market side reference_price order_price max_deviation_pct
      else mret tt
  | SELL =>
      let lower := (reference_price * (of_Z 1 - max_deviation_pct))%pyf in
      if (order_price <? lower)%pyf
      then reject_price ticker market side reference_price order_price max_deviation_pct
      else mret tt
  end.

Definition check_post_trade_slippage (ticker : string) (market : Market) (side : OrderSide)
    (reference_price fill_price max_slippage_pct : float) : Guarded bool :=
  if (max_slippage_pct <=? fzero)%pyf then raise (GuardValueError "max_slippage_pct must be > 0") else
  if (reference_price <=? fzero)%pyf || (fill_price <=? fzero)%pyf then mret false else
  deviation ← lift_result (compute_deviation_pct reference_price fill_price);
  if bool_decide (side = BUY) && (fill_price <=? reference_price)%pyf then mret false else
  if bool_decide (side = SELL) && (fill_price >=? reference_price)%pyf then mret false else
  if (deviation <=? max_slippage_pct)%pyf then mret false else
  let critical := (deviation >? of_Z 2 * max_slippage_pct)%pyf in
  inc (POST_TRADE_SLIPPAGE_ALERTS critical market) ;;
  mret true.

Definition fetch_and_validate_quote (provider : QuoteProvider) (ticker : string) (market : Market)
    (max_age_seconds : float) (now : Z) : Guarded Quote :=
  quote ← match provider ticker market with
    | Ok q => mret q
    | Err (Some why) =>
        inc (QUOTE_FETCH_FAILURES market "provider_error") ;; raise (QuoteFetchError ticker why)
    | Err None =>
        inc (QUOTE_FETCH_FAILURES market "unexpected") ;;
        raise (QuoteFetchError ticker "unexpected provider error")
    end;
  if bool_decide (quote.(q_ticker) ≠ ticker) || bool_decide (quote.(q_market) ≠ market) then
    inc (QUOTE_FETCH_FAILURES market "identity_mismatch") ;;
    raise (QuoteFetchError ticker "quote identity mismatch")
  else
    assert_quote_fresh quote max_age_seconds now ;;
    mret quote.

(** * Properties *)

Definition fresh (q : Quote) (max_age_seconds : float) (now : Z) : bool :=
  let age := total_seconds (now - q.(fetched_at)) in
  negb (age <? fzero)%pyf && negb (age >? max_age_seconds)%pyf.

Lemma assert_quote_fresh_spec q limit now ms :
  (limit <=? fzero)%pyf = false → q.(tz_aware) = true →
  assert_quote_fresh q limit now ms =
    if fresh q limit now then (Ok tt, ms)
    else (Err (StaleQuoteError q.(q_ticker) (total_seconds (now - q.(fetched_at))) limit),
          ms ++ [STALE_QUOTE_REJECTS q.(q_market)]).
Proof.
  intros Hl Htz. unfold assert_quote_fresh, fresh, inc. rewrite Hl, Htz. run_m.
  destruct (_ <? fzero)%pyf; [done|]. cbn. by destruct (_ >? limit)%pyf.
Qed.

Lemma assert_quote_fresh_ok q limit now ms ms' :
  assert_quote_fresh q limit now ms = (Ok tt, ms') → fresh q limit now = true ∧ ms' = ms.
Proof.
  unfold assert_quote_fresh, fresh, inc. run_m. destruct (limit <=? fzero)%pyf; [done|].
  destruct q.(tz_aware); [|done]. destruct (_ <? fzero)%pyf; [done|]. cbn.
  destruct (_ >? limit)%pyf; [done|]. by intros [= <-].
Qed.

Lemma fetch_ok (provider : QuoteProvider) ticker market limit now ms q ms' :
  fetch_and_validate_quote provider ticker market limit now ms = (Ok q, ms') →
  provider ticker market = Ok q ∧ q.(q_ticker) = ticker ∧ q.(q_market) = market ∧
  fresh q limit now = true.
Proof.
  unfold fetch_and_validate_quote, inc. run_m.
  destruct (provider ticker market) as [q'|[why|]]; [|done..].
  destruct (bool_decide (q_ticker q' ≠ ticker)) eqn:Ht; [done|].
  destruct (bool_decide (q_market q' ≠ market)) eqn:Hm; [done|]. cbn [orb].
  apply bool_decide_eq_false, dec_stable in Ht, Hm.
  destruct (assert_quote_fresh q' limit now ms) as [[[]|e] ms1] eqn:E; [|done].
  apply assert_quote_fresh_ok in E as [? _]. by intros [= -> _].
Qed.

(** On the safe side of the pre-trade band *)
Definition within_band (side : OrderSide) (reference px limit : float) : bool :=
  match side with
  | BUY => negb (px >? reference * (of_Z 1 + limit))%pyf
  | SELL => negb (px <? reference * (of_Z 1 - limit))%pyf
  end.

Lemma pre_trade_ok ticker market side reference px limit ms ms' :
  assert_pre_trade_price ticker market side reference px limit ms = (Ok tt, ms') →
  within_band side reference px limit = true.
Proof.
  unfold assert_pre_trade_price, within_band, reject_price, inc. run_m.
  destruct (limit <=? fzero)%pyf; [done|]. destruct (_ || _); [done|].
  destruct side; destruct (_ <? _)%pyf; cbn; try done; by destruct (compute_deviation_pct _ _).
Qed.

(** Blind trading is impossible: a quote that gets through is for the asked
    ticker and market and neither stale nor from the future, no metric moves;
    otherwise exactly one failure is counted and an exception reaches the
    caller, whatever the provider answers. *)
Theorem fetched_quote_is_valid (provider : QuoteProvider) (ticker : string) (market : Market)
    (limit : float) (now : Z) (ms : list Metric)
    (Hl : (limit <=? fzero)%pyf = false)
    (Hp : ∀ t m q, provider t m = Ok q → quote_post_init q = Ok q) :
  let m := fetch_and_validate_quote provider ticker market limit now in
  match outcome m ms with
  | Ok q => after m ms = ms ∧ provider ticker market = Ok q ∧ q.(q_ticker) = ticker ∧
      q.(q_market) = market ∧ fresh q limit now = true ∧ (q.(price) <=? fzero)%pyf = false
  | Err _ => ∃ metric, after m ms = ms ++ [metric]
  end.
Proof.
  intros m. subst m. unfold fetch_and_validate_quote, outcome, after, inc.
  destruct (provider ticker market) as [q|[why|]] eqn:Eq; [|cbn; by eexists..].
  apply Hp in Eq as Hq. unfold quote_post_init in Hq.
  destruct (q.(price) <=? fzero)%pyf eqn:Hprice; [done|].
  destruct q.(tz_aware) eqn:Htz; [|done].
  run_m. destruct (bool_decide (q_ticker q ≠ ticker)) eqn:Ht; [by eexists|].
  destruct (bool_decide (q_market q ≠ market)) eqn:Hm; [by eexists|]. cbn [orb].
  apply bool_decide_eq_false, dec_stable in Ht, Hm. rewrite assert_quote_fresh_spec by done.
  destruct (fresh q limit now) eqn:Hf; cbn; [by split_and!|by eexists].
Qed.

Lemma fetched_quote_is_valid_witness :
  let q := {| q_ticker := "005930"; q_market := KRX; price := of_Z 70000; fetched_at := 1000000;
              tz_aware := true |} in
  outcome (fetch_and_validate_quote (λ _ _, Ok q) "005930" KRX (dec 5 0) 3000000) [] = Ok q ∧
  fresh q (dec 5 0) 3000000 = true.
Proof.
  intros q.
  assert (outcome (fetch_and_validate_quote (λ _ _, Ok q) "005930" KRX (dec 5 0) 3000000) [] = Ok q)
    as E by (vm_compute; reflexivity).
  split; [exact E|].
  pose proof (fetched_quote_is_valid (λ _ _, Ok q) "005930" KRX (dec 5 0) 3000000 []
    ltac:(vm_compute; reflexivity)
    ltac:(intros ? ? ? [= <-]; vm_compute; reflexivity)) as H.
  cbv zeta in H. rewrite E in H. apply H.
Defined.

(** The price guards block and warn on the adverse side only: with sane
    parameters [assert_pre_trade_price] refuses exactly the orders beyond the
    band on their own side, counting each, and [check_post_trade_slippage]
    alerts exactly on fills worse than the reference by more than the limit. *)
Theorem price_guards_decide (ticker : string) (market : Market) (side : OrderSide)
    (reference px limit : float) (ms : list Metric)
    (Hl : (limit <=? fzero)%pyf = false) (Hr : (reference <=? fzero)%pyf = false)
    (Hp : (px <=? fzero)%pyf = false) :
  let pre := assert_pre_trade_price ticker market side reference px limit in
  let post := check_post_trade_slippage ticker market side reference px limit in
  let beyond := negb (within_band side reference px limit) in
  let adverse := match side with
    | BUY => negb (px <=? reference)%pyf | SELL => negb (px >=? reference)%pyf end in
  let deviation := (fabs (px - reference) / reference)%pyf in
  is_ok (outcome pre ms) = negb beyond ∧
  after pre ms = (if beyond then ms ++ [PRE_TRADE_PRICE_REJECTS side market] else ms) ∧
  outcome post ms = Ok (adverse && negb (deviation <=? limit)%pyf) ∧
  after post ms = (if adverse && negb (deviation <=? limit)%pyf then
    ms ++ [POST_TRADE_SLIPPAGE_ALERTS (deviation >? of_Z 2 * limit)%pyf market] else ms).
Proof.
  intros pre post beyond adverse deviation. subst pre post beyond adverse deviation.
  unfold within_band, assert_pre_trade_price, check_post_trade_slippage, reject_price, compute_deviation_pct, inc.
  rewrite Hl, Hr, Hp. run_m. cbn. destruct side; eval_decides.
  - destruct (px >? _)%pyf, (px <=? reference)%pyf; cbn; try done; by destruct (_ <=? limit)%pyf.
  - destruct (px <? _)%pyf, (px >=? reference)%pyf; cbn; try done; by destruct (_ <=? limit)%pyf.
Qed.

Lemma price_guards_decide_witness :
  is_ok (outcome (assert_pre_trade_price "005930" KRX BUY (of_Z 100) (of_Z 103) (dec 2 2)) []) = false.
Proof.
  rewrite (proj1 (price_guards_decide "005930" KRX BUY (of_Z 100) (of_Z 103) (dec 2 2) []
    ltac:(vm_compute; reflexivity) ltac:(vm_compute; reflexivity) ltac:(vm_compute; reflexivity))).
  vm_compute. reflexivity.
Defined.
