(* ===== verification/Executor.v ===== *)
(** The order executor: backend/core/order_executor/executor.py, with the order
    contract of backend/contracts (order.py, converters.py).

    The broker is the KIS HTTP API: an arbitrary state [W] with an operation to
    obtain a token and one to place an order, each of which may fail.  The
    database writes of [_store_order] and of the audit log can fail too; both
    are swallowed by the code, so a failure only shows in the event log.
    Sleeps are left out; they let other tasks run, which use other state. *)

From stdpp Require Import base option list gmap strings.
From S2P Require Import Prelude PyFloat PyFormat Constants Ledger Guard PriceGuard.

(** * Data *)

Record OrderRequest := {
  ticker : string;
  market : Market;
  side : OrderSide;
  quantity : Z;
  order_type : OrderType;
  limit_price : option float;
  req_reason : string;
}.

(** Broker order numbers, and the identifiers the executor makes up from a
    prefix and a fresh UUID or time stamp. *)
Inductive OrderId := BrokerId (no : string) | Generated (prefix : string) (n : nat).
#[global] Instance OrderId_eq_dec : EqDecision OrderId.
Proof. solve_decision. Defined.

Definition id_text (i : OrderId) : string :=
  match i with BrokerId no => no | Generated prefix n => prefix +:+ fmt_int (Z.of_nat n) end.

Record OrderResult := {
  order_id : OrderId;
  res_ticker : string;
  res_market : Market;
  res_side : OrderSide;
  res_quantity : Z;
  filled_quantity : Z;
  avg_price : float;
  status : OrderStatus;
  res_order_type : OrderType;
  error : bool;  (** [error_message] is not empty *)
}.

(** The calls [place_kr_order] (integer price) and [place_us_order]. *)
Inductive BrokerOrder :=
  | PlaceKr (ticker : string) (side : OrderSide) (quantity : Z) (price : Z) (ord_type : string)
  | PlaceUs (ticker : string) (side : OrderSide) (quantity : Z) (price : float).
Definition ordered_quantity (o : BrokerOrder) : Z :=
  match o with PlaceKr _ _ q _ _ => q | PlaceUs _ _ q _ => q end.

(** [api_result]: the fields the executor reads, absent ones at their default. *)
Record ApiResult := { api_order_id : string; filled_qty : Z; api_avg_price : float }.

(** What [get_kr_order_detail] reports of an order, absent fields at their
    default (["BUY"], ["KRX"]). *)
Record OrderDetail := { detail_ticker : string; detail_side : string; detail_market : string }.

(** The KIS client: its state and the calls the executor makes. *)
Record KISClient (W : Type) := {
  has_valid_token : W → bool;
  get_access_token : M W unit unit;
  place_order : BrokerOrder → M W unit ApiResult;
  get_kr_order_detail : OrderId → M W unit OrderDetail;
  cancel_kr_order : OrderId → M W unit unit;
}.
Arguments has_valid_token {W} _ _.
Arguments get_access_token {W} _.
Arguments place_order {W} _ _.
Arguments get_kr_order_detail {W} _ _.
Arguments cancel_kr_order {W} _ _.

Inductive ExecExn :=
  | ContractViolation
  | TradingGuardBlocked (reason reason_code : string)
  | OrderValueError
  | PriceGuardFailed (e : PriceGuardExn)
  | KISAPIError
  | LedgerFailed (e : LedgerExn).

(** What the executor does to the outside, in order. *)
Inductive Event :=
  | Submitted (o : BrokerOrder)
  | DryRecorded (r : OrderRequest)
  | Cancelled (id : OrderId)
  | PollStarted (id : OrderId)
  | GuardBlock (reason_code : string)
  | Stored (r : OrderResult) (ok : bool)
  | Audited (id : OrderId) (ok : bool).

(** * The order contract *)

(** [order_request_to_contract]: does [OrderIntent] validate? *)
Definition order_request_to_contract (r : OrderRequest) : bool :=
  (1 <=? py_len r.(ticker)) && (py_len r.(ticker) <=? 20) && negb (is_blank r.(ticker)) &&
  (0 <? r.(quantity)) &&
  match r.(limit_price) with Some p => (fzero <? p)%pyf | None => true end &&
  (py_len r.(req_reason) <=? 500) &&
  negb (bool_decide (r.(order_type) = LIMIT) && bool_decide (r.(limit_price) = None)).

Module OrderExecutor.
Section Executor.
Context {R : Type} `{LedgerRepository R}.
(** The constructor's configuration *)
Context (settings : GuardSettings) (dry_run is_backtest : bool)
  (quote_provider : option QuoteProvider) (price_guard_config : PriceGuardConfig).
(** The broker *)
Context {W : Type} (kis : KISClient W).

Record World := {
  guard : TradingGuardState;
  ledger : PortfolioLedger.t R;
  metrics : list Metric;
  broker : W;
  clock : Z;
  next_id : nat;
  db_faults : list bool;
  log : list Event;
}.

Abbreviation Exec := (M World ExecExn).

Definition set_guard (x : TradingGuardState) (w : World) : World := {|
  guard := x; ledger := w.(ledger); metrics := w.(metrics); broker := w.(broker);
  clock := w.(clock); next_id := w.(next_id); db_faults := w.(db_faults); log := w.(log) |}.
Definition set_ledger (x : PortfolioLedger.t R) (w : World) : World := {|
  guard := w.(guard); ledger := x; metrics := w.(metrics); broker := w.(broker);
  clock := w.(clock); next_id := w.(next_id); db_faults := w.(db_faults); log := w.(log) |}.
Definition set_metrics (x : list Metric) (w : World) : World := {|
  guard := w.(guard); ledger := w.(ledger); metrics := x; broker := w.(broker);
  clock := w.(clock); next_id := w.(next_id); db_faults := w.(db_faults); log := w.(log) |}.
Definition set_broker (x : W) (w : World) : World := {|
  guard := w.(guard); ledger := w.(ledger); metrics := w.(metrics); broker := x;
  clock := w.(clock); next_id := w.(next_id); db_faults := w.(db_faults); log := w.(log) |}.
Definition emit_event (e : Event) (w : World) : World := {|
  guard := w.(guard); ledger := w.(ledger); metrics := w.(metrics); broker := w.(broker);
  clock := w.(clock); next_id := w.(next_id); db_faults := w.(db_faults); log := w.(log) ++ [e] |}.

Definition emit (e : Event) : Exec unit := modify (emit_event e).

(** A fresh identifier *)
Definition generate (prefix : string) : Exec OrderId := λ w,
  (Ok (Generated prefix w.(next_id)), {|
    guard := w.(guard); ledger := w.(ledger); metrics := w.(metrics); broker := w.(broker);
    clock := w.(clock); next_id := S w.(next_id); db_faults := w.(db_faults); log := w.(log) |}).

(** The fate of the next database session *)
Definition db_session : Exec bool := λ w,
  (Ok (match w.(db_faults) with f :: _ => negb f | [] => true end), {|
    guard := w.(guard); ledger := w.(ledger); metrics := w.(metrics); broker := w.(broker);
    clock := w.(clock); next_id := w.(next_id); db_faults := tail w.(db_faults); log := w.(log) |}).

Definition on_guard {A} (m : M TradingGuardState Empty_set A) : Exec A :=
  zoom guard set_guard (with_err (λ e : Empty_set, match e with end) m).
Definition on_metrics {A} (m : M (list Metric) PriceGuardExn A) : Exec A :=
  zoom metrics set_metrics (with_err PriceGuardFailed m).
Definition on_broker {A} (m : M W unit A) : Exec A :=
  zoom broker set_broker (with_err (λ _, KISAPIError) m).

(** A KIS order call: it leaves a trace whether or not it returns. *)
Definition submit (o : BrokerOrder) : Exec ApiResult :=
  emit (Submitted o) ;; on_broker (kis.(place_order) o).

(** The token check before an order call *)
Definition ensure_token : Exec unit :=
  w ← get;
  if negb (kis.(has_valid_token) w.(broker)) then on_broker kis.(get_access_token) else mret tt.

Definition _start_settlement_polling (r : OrderResult) : Exec unit := emit (PollStarted r.(order_id)).

Definition make_result (req : OrderRequest) (id : OrderId) (filled : Z) (px : float)
    (st : OrderStatus) : OrderResult := {|
  order_id := id; res_ticker := req.(ticker); res_market := req.(market); res_side := req.(side);
  res_quantity := req.(quantity); filled_quantity := filled; avg_price := px; status := st;
  res_order_type := MARKET; error := false |}.

Definition _execute_market_order (req : OrderRequest) : Exec OrderResult :=
  if dry_run then
    emit (DryRecorded req) ;;
    id ← generate "DRY_";
    mret (make_result req id req.(quantity) fzero FILLED)
  else
    result ← (if is_backtest then
        id ← generate "MOCK_";
        mret (make_result req id req.(quantity) (of_Z 100) FILLED)
      else
        ensure_token ;;
        api ← submit (if bool_decide (req.(market) = KRX)
                      then PlaceKr req.(ticker) req.(side) req.(quantity) 0 "01"
                      else PlaceUs req.(ticker) req.(side) req.(quantity) (of_Z 0));
        id ← (if bool_decide (api.(api_order_id) = "") then generate "KIS_"
              else mret (BrokerId api.(api_order_id)));
        mret (make_result req id api.(filled_qty) api.(api_avg_price) SUBMITTED));
    when (bool_decide (result.(status) = SUBMITTED)) (_start_settlement_polling result) ;;
    mret result.

(** [int(q * 0.5)] for an integer quantity *)
Definition half (q : Z) : Exec Z :=
  match trunc (of_Z q * dec 5 1)%pyf with Some n => mret n | None => raise OrderValueError end.

Definition _execute_limit_order (req : OrderRequest) : Exec OrderResult :=
  match req.(limit_price) with
  | None => raise OrderValueError
  | Some lp =>
    if (lp <=? fzero)%pyf then raise OrderValueError else
    if dry_run then
      emit (DryRecorded req) ;;
      id ← generate "DRY_";
      filled ← half req.(quantity);
      mret (make_result req id filled lp PARTIAL)
    else
      result ← (if is_backtest then
          id ← generate "MOCK_";
          filled ← half req.(quantity);
          mret (make_result req id filled lp PARTIAL)
        else
          ensure_token ;;
          api ← (if bool_decide (req.(market) = KRX) then
              match trunc lp with
              | Some p => submit (PlaceKr req.(ticker) req.(side) req.(quantity) p "00")
              | None => raise OrderValueError
              end
            else submit (PlaceUs req.(ticker) req.(side) req.(quantity) lp));
          mret (make_result req (BrokerId api.(api_order_id)) api.(filled_qty) api.(api_avg_price)
            SUBMITTED));
      when (bool_decide (result.(status) = SUBMITTED)) (_start_settlement_polling result) ;;
      mret result
  end.

(** * Sliced execution *)

(** A slice: the parent order with its own quantity, at market. *)
Definition sub_request (req : OrderRequest) (q : Z) (why : string) : OrderRequest := {|
  ticker := req.(ticker); market := req.(market); side := req.(side); quantity := q;
  order_type := MARKET; limit_price := None; req_reason := why |}.

(** The accumulators of a sliced execution *)
Record Slices := { total_filled : Z; total_cost : float; carryover : Z }.
Definition no_slices : Slices := {| total_filled := 0; total_cost := fzero; carryover := 0 |}.

(** A slice at market, whose failure is logged and skipped. *)
Definition try_slice (req : OrderRequest) (q : Z) (why : string) : Exec (option OrderResult) :=
  try_except
    (result ← _execute_market_order (sub_request req q why);
     mret (Some result))
    (λ _ : ExecExn, mret None).

(** f"TWAP {i+1}/{num_intervals}" + (f" retry-{attempt}" if attempt > 0 else "") *)
Definition twap_reason (i num_intervals attempt : nat) : string :=
  "TWAP " +:+ fmt_int (Z.of_nat i + 1) +:+ "/" +:+ fmt_int (Z.of_nat num_intervals) +:+
  (if bool_decide (attempt = O) then "" else " retry-" +:+ fmt_int (Z.of_nat attempt)).

(** The retry loop of one slice: filled quantity and cost so far, the number of
    attempts left and made. *)
Fixpoint twap_attempts (req : OrderRequest) (why : nat → string) (slice_qty : Z)
    (attempts attempt : nat) (filled : Z) (cost : float) : Exec (Z * float) :=
  match attempts with
  | O => mret (filled, cost)
  | S attempts' =>
      let remaining := slice_qty - filled in
      if remaining <=? 0 then mret (filled, cost) else
      r ← try_slice req remaining (why attempt);
      match r with
      | Some result =>
          twap_attempts req why slice_qty attempts' (S attempt) (filled + result.(filled_quantity))
            (cost + of_Z result.(filled_quantity) * result.(avg_price))%pyf
      | None => twap_attempts req why slice_qty attempts' (S attempt) filled cost
      end
  end.

(** [for i in range(num_intervals)]; [left] intervals remain. *)
Fixpoint twap_slices (req : OrderRequest) (num_intervals : nat) (base_qty remainder : Z)
    (retries left : nat) (a : Slices) : Exec Slices :=
  match left with
  | O => mret a
  | S left' =>
      let slice_qty := base_qty + a.(carryover) + (if bool_decide (left' = O) then remainder else 0) in
      if slice_qty <=? 0 then twap_slices req num_intervals base_qty remainder retries left' a else
      '(filled, cost) ← twap_attempts req (twap_reason (num_intervals - left) num_intervals) slice_qty
        (S retries) 0 0 a.(total_cost);
      twap_slices req num_intervals base_qty remainder retries left' {|
        total_filled := a.(total_filled) + filled; total_cost := cost;
        carryover := slice_qty - filled |}
  end.

Definition sliced_result (req : OrderRequest) (id : OrderId) (a : Slices) : OrderResult :=
  make_result req id a.(total_filled)
    (if 0 <? a.(total_filled) then (a.(total_cost) / of_Z a.(total_filled))%pyf else fzero)
    (if req.(quantity) <=? a.(total_filled) then FILLED
     else if 0 <? a.(total_filled) then PARTIAL else FAILED).

Definition _execute_twap_order (num_intervals max_retry_per_slice : nat) (req : OrderRequest) :
    Exec OrderResult :=
  let n := Z.of_nat num_intervals in
  a ← twap_slices req num_intervals (req.(quantity) / n) (req.(quantity) mod n)
        max_retry_per_slice num_intervals no_slices;
  id ← generate "TWAP_";
  mret (sliced_result req id a).

Definition VWAP_VOLUME_PROFILE : list float :=
  [dec 22 2; dec 12 2; dec 10 2; dec 10 2; dec 16 2; dec 30 2].

(** [profile.index(max(profile))]: the first of the largest. *)
Fixpoint index_of_max (l : list float) (best : float) (best_i i : nat) : nat :=
  match l with
  | [] => best_i
  | x :: l' => if (x >? best)%pyf then index_of_max l' x i (S i) else index_of_max l' best best_i (S i)
  end.
Definition argmax (l : list float) : nat :=
  match l with [] => 0 | x :: l' => index_of_max l' x 0 1 end.

(** The normalised profile used for [num_intervals] slices. *)
Definition vwap_profile (num_intervals : nat) (volume_profile : list float) : list float :=
  let profile := if bool_decide (volume_profile = []) then VWAP_VOLUME_PROFILE else volume_profile in
  let profile := if bool_decide (length profile ≠ num_intervals)
    then replicate num_intervals (of_Z 1 / of_Z (Z.of_nat num_intervals))%pyf else profile in
  let profile_sum := fsum profile in
  if (profile_sum >? fzero)%pyf then (λ p, p / profile_sum)%pyf <$> profile else profile.

(** [[max(1, round(quantity * p)) for p in profile]], corrected at the largest
    weight so that the sum is the quantity; [None] is a failed [round]. *)
Definition vwap_quantities (q : Z) (profile : list float) : option (list Z) :=
  rounded ← mapM (λ p, round (of_Z q * p)%pyf) profile;
  let slice_quantities := Z.max 1 <$> rounded in
  let diff := q - sumZ slice_quantities in
  Some (alter (λ x, x + diff) (argmax profile) slice_quantities).

(** f"VWAP {i+1}/{num_intervals} ({profile[i]:.0%})" *)
Definition vwap_reason (i num_intervals : nat) (p : float) : string :=
  "VWAP " +:+ fmt_int (Z.of_nat i + 1) +:+ "/" +:+ fmt_int (Z.of_nat num_intervals) +:+ " (" +:+
  fmt_percent 0 p +:+ ")".

(** The loop over the slices and their weights, [i] the index of the next. *)
Fixpoint vwap_slices (req : OrderRequest) (num_intervals i : nat) (quantities : list (Z * float))
    (a : Slices) : Exec Slices :=
  match quantities with
  | [] => mret a
  | (q, p) :: quantities' =>
      let slice_qty := q + a.(carryover) in
      if slice_qty <=? 0 then vwap_slices req num_intervals (S i) quantities' a else
      r ← try_slice req slice_qty (vwap_reason i num_intervals p);
      vwap_slices req num_intervals (S i) quantities' (match r with
        | Some result => {|
            total_filled := a.(total_filled) + result.(filled_quantity);
            total_cost := (a.(total_cost) + of_Z result.(filled_quantity) * result.(avg_price))%pyf;
            carryover := slice_qty - result.(filled_quantity) |}
        | None => {| total_filled := a.(total_filled); total_cost := a.(total_cost);
            carryover := slice_qty |}
        end)
  end.

Definition _execute_vwap_order (num_intervals : nat) (volume_profile : list float)
    (req : OrderRequest) : Exec OrderResult :=
  let profile := vwap_profile num_intervals volume_profile in
  match vwap_quantities req.(quantity) profile with
  | None => raise OrderValueError
  | Some quantities =>
      a ← vwap_slices req num_intervals 0 (zip quantities profile) no_slices;
      id ← generate "VWAP_";
      mret (sliced_result req id a)
  end.

(** * execute_order *)

Definition _validate_order (req : OrderRequest) : Exec unit :=
  if req.(quantity) <=? 0 then raise OrderValueError else
  match req.(order_type), req.(limit_price) with
  | LIMIT, None => raise OrderValueError
  | LIMIT, Some p => if (p <=? fzero)%pyf then raise OrderValueError else mret tt
  | _, _ => mret tt
  end.

Definition _store_order (r : OrderResult) : Exec unit :=
  ok ← db_session; emit (Stored r ok).

(** Guard, quote and price checks of a live order: the reference quote. *)
Definition price_checks (req : OrderRequest) : Exec (option Quote) :=
  if negb dry_run && negb is_backtest then
    match quote_provider with
    | None => raise (PriceGuardFailed (QuoteFetchError req.(ticker)
        "live OrderExecutor requires a quote_provider; refusing to trade blind"))
    | Some provider =>
        w ← get;
        quote ← on_metrics (fetch_and_validate_quote provider req.(ticker) req.(market)
          price_guard_config.(max_quote_age_seconds) w.(clock));
        match req.(order_type), req.(limit_price) with
        | LIMIT, Some p => on_metrics (assert_pre_trade_price req.(ticker) req.(market) req.(side)
            quote.(price) p price_guard_config.(max_pre_trade_deviation_pct))
        | _, _ => mret tt
        end ;;
        mret (Some quote)
    end
  else mret None.

Definition dispatch (req : OrderRequest) : Exec OrderResult :=
  match req.(order_type) with
  | MARKET => _execute_market_order req
  | LIMIT => _execute_limit_order req
  | TWAP => _execute_twap_order 6 2 req
  | VWAP => _execute_vwap_order 6 [] req
  end.

Definition guard_check (req : OrderRequest) : Exec unit :=
  r ← on_guard (TradingGuard.check_pre_order settings req.(ticker) req.(side) req.(quantity)
        req.(limit_price));
  if negb r.(allowed) then
    let code := _map_guard_reason_code r.(reason) in
    emit (GuardBlock code) ;;
    raise (TradingGuardBlocked r.(reason) code)
  else mret tt.

Definition slippage_check (req : OrderRequest) (reference_quote : option Quote) (r : OrderResult) :
    Exec unit :=
  match reference_quote with
  | Some q =>
      if (0 <? r.(filled_quantity)) && (r.(avg_price) >? fzero)%pyf then
        on_metrics (check_post_trade_slippage req.(ticker) req.(market) req.(side) q.(price)
          r.(avg_price) price_guard_config.(max_post_trade_slippage_pct)) ;;
        mret tt
      else mret tt
  | None => mret tt
  end.

Definition ledger_update (req : OrderRequest) (r : OrderResult) : Exec unit :=
  if (bool_decide (r.(status) = FILLED) || bool_decide (r.(status) = PARTIAL)) &&
     (0 <? r.(filled_quantity)) then
    try_except
      (zoom ledger set_ledger
        (PortfolioLedger.record_fill req.(ticker) req.(side) (of_Z r.(filled_quantity))))
      (λ e, match e with
            | LedgerInvariantError _ _ _ _ => mret tt
            | _ => raise (LedgerFailed e)
            end)
  else mret tt.

(** The checks that precede the broker *)
Definition admission (req : OrderRequest) : Exec (option Quote) :=
  (if order_request_to_contract req then mret tt else raise ContractViolation) ;;
  guard_check req ;;
  _validate_order req ;;
  price_checks req.

(** What follows an execution *)
Definition settlement (req : OrderRequest) (reference_quote : option Quote) (r : OrderResult) :
    Exec OrderResult :=
  slippage_check req reference_quote r ;;
  ledger_update req r ;;
  _store_order r ;;
  ok ← db_session; emit (Audited r.(order_id) ok) ;;
  mret r.

Definition execute_body (req : OrderRequest) : Exec OrderResult :=
  reference_quote ← admission req;
  result ← dispatch req;
  settlement req reference_quote result.

Definition failed_result (req : OrderRequest) (id : OrderId) : OrderResult := {|
  order_id := id; res_ticker := req.(ticker); res_market := req.(market); res_side := req.(side);
  res_quantity := req.(quantity); filled_quantity := 0; avg_price := fzero; status := FAILED;
  res_order_type := req.(order_type); error := true |}.

Definition execute_order (req : OrderRequest) : Exec OrderResult :=
  try_except (execute_body req) (λ e,
    id ← generate "FAIL_";
    _store_order (failed_result req id) ;;
    raise e).

(** [results.append(...)] over a list of requests; a failure becomes a FAILED
    result without an order number. *)
Fixpoint execute_each (reqs : list OrderRequest) : Exec (list OrderResult) :=
  match reqs with
  | [] => mret []
  | req :: reqs' =>
      r ← try_except (execute_order req) (λ _ : ExecExn, mret {|
        order_id := BrokerId ""; res_ticker := req.(ticker); res_market := req.(market);
        res_side := req.(side); res_quantity := req.(quantity); filled_quantity := 0;
        avg_price := fzero; status := FAILED; res_order_type := MARKET; error := true |});
      rs ← execute_each reqs';
      mret (r :: rs)
  end.

Definition execute_batch_orders (requests : list OrderRequest) : Exec (list OrderResult) :=
  let sell_orders := filter (λ r, r.(side) = SELL) requests in
  let buy_orders := filter (λ r, r.(side) = BUY) requests in
  sells ← execute_each sell_orders;
  buys ← execute_each buy_orders;
  mret (sells ++ buys).

(** * _handle_unfilled *)

Definition parse_side (s : string) : OrderSide := default BUY (of_value s).
Definition parse_market (s : string) : Market := default KRX (of_value s).

Definition _handle_unfilled (id : OrderId) (remaining_qty : Z) : Exec OrderResult :=
  let result tk mk sd filled px st err oid := {|
    order_id := oid; res_ticker := tk; res_market := mk; res_side := sd;
    res_quantity := remaining_qty; filled_quantity := filled; avg_price := px; status := st;
    res_order_type := MARKET; error := err |} in
  try_except
    (if is_backtest then
       mret (result ("MOCK_" +:+ id_text id) KRX BUY remaining_qty (of_Z 100) FILLED false id)
     else
       order_detail ← on_broker (kis.(get_kr_order_detail) id);
       let ticker := order_detail.(detail_ticker) in
       let side := parse_side order_detail.(detail_side) in
       let market_type := parse_market order_detail.(detail_market) in
       if bool_decide (ticker = "") then raise OrderValueError else
       try_except (emit (Cancelled id) ;; on_broker (kis.(cancel_kr_order) id))
         (λ _ : ExecExn, mret tt) ;;
       api ← submit (if bool_decide (market_type = KRX)
                     then PlaceKr ticker side remaining_qty 0 "01"
                     else PlaceUs ticker side remaining_qty (of_Z 0));
       mret (result ticker market_type side api.(filled_qty) api.(api_avg_price) SUBMITTED false
         (if bool_decide (api.(api_order_id) = "") then id else BrokerId api.(api_order_id))))
    (λ _ : ExecExn, mret (result "" KRX BUY 0 fzero FAILED true id)).

(** * Effects

    [effects Q m]: [m] leaves the ledger and the database alone and its events satisfy [Q]. *)

Definition effects {A} (Q : Event → Prop) (m : Exec A) : Prop := ∀ w,
  ((after m w).(ledger), (after m w).(db_faults)) = (w.(ledger), w.(db_faults)) ∧
  ∃ evs, (after m w).(log) = w.(log) ++ evs ∧ Forall Q evs.

Lemma effects_weaken {A} (P Q : Event → Prop) (m : Exec A) :
  (∀ e, P e → Q e) → effects P m → effects Q m.
Proof.
  intros HPQ Hm w. destruct (Hm w) as (Hl & evs & He & HP). split; [done|].
  exists evs. split; [done|]. by eapply Forall_impl.
Qed.

Lemma effects_silent {A} (Q : Event → Prop) (m : Exec A) :
  (∀ w, ((after m w).(ledger), (after m w).(db_faults)) = (w.(ledger), w.(db_faults)) ∧ (after m w).(log) = w.(log)) → effects Q m.
Proof. intros Hm w. destruct (Hm w) as [-> ->]. split; [done|]. exists []. by rewrite app_nil_r. Qed.

Lemma effects_ret {A} (Q : Event → Prop) (a : A) : effects Q (mret a).
Proof. by apply effects_silent. Qed.

Lemma effects_raise {A} (Q : Event → Prop) e : effects (A:=A) Q (raise e).
Proof. by apply effects_silent. Qed.

Lemma effects_get (Q : Event → Prop) : effects Q get.
Proof. by apply effects_silent. Qed.

Lemma effects_generate (Q : Event → Prop) p : effects Q (generate p).
Proof. by apply effects_silent. Qed.

Lemma effects_on_guard {A} (Q : Event → Prop) (m : M TradingGuardState Empty_set A) : effects Q (on_guard m).
Proof. apply effects_silent. intros w. unfold on_guard. run_m. by destruct (m _) as [[?|[]] ?]. Qed.

Lemma effects_on_metrics {A} (Q : Event → Prop) (m : M (list Metric) PriceGuardExn A) :
  effects Q (on_metrics m).
Proof. apply effects_silent. intros w. unfold on_metrics. run_m. by destruct (m _) as [[?|?] ?]. Qed.

Lemma effects_on_broker {A} (Q : Event → Prop) (m : M W unit A) : effects Q (on_broker m).
Proof. apply effects_silent. intros w. unfold on_broker. run_m. by destruct (m _) as [[?|?] ?]. Qed.

Lemma effects_emit (Q : Event → Prop) e : Q e → effects Q (emit e).
Proof. intros He w. split; [done|]. exists [e]. split; [done|]. by constructor. Qed.

Lemma effects_bind {A B} (Q : Event → Prop) (m : Exec A) (k : A → Exec B) :
  effects Q m → (∀ a, effects Q (k a)) → effects Q (m ≫= k).
Proof.
  intros Hm Hk w. specialize (Hm w). unfold after, mbind, M_bind in *.
  destruct (m w) as [[a|e] w'] eqn:E; [|done]. specialize (Hk a w').
  destruct Hm as (Hl & evs & He & HQ), Hk as (Hl' & evs' & He' & HQ'). unfold after in *. cbn in *.
  split; [congruence|]. exists (evs ++ evs'). rewrite He', He, app_assoc. split; [done|].
  by apply Forall_app.
Qed.

Lemma effects_try {A} (Q : Event → Prop) (m : Exec A) (h : ExecExn → Exec A) :
  effects Q m → (∀ e, effects Q (h e)) → effects Q (try_except m h).
Proof.
  intros Hm Hk w. specialize (Hm w). unfold after, try_except in *.
  destruct (m w) as [[a|e] w'] eqn:E; [done|]. specialize (Hk e w').
  destruct Hm as (Hl & evs & He & HQ), Hk as (Hl' & evs' & He' & HQ'). unfold after in *. cbn in *.
  split; [congruence|]. exists (evs ++ evs'). rewrite He', He, app_assoc. split; [done|].
  by apply Forall_app.
Qed.

Lemma effects_when (Q : Event → Prop) (b : bool) (m : Exec unit) :
  (b = true → effects Q m) → effects Q (when b m).
Proof. destruct b; [auto|]. intros _. apply effects_ret. Qed.

Create HintDb eff discriminated.
#[local] Hint Resolve effects_ret effects_raise effects_get effects_generate
  effects_on_guard effects_on_metrics effects_on_broker effects_emit effects_bind effects_try
  effects_when : eff.

(** Walks through a method's body. *)
Ltac effects_walk :=
  repeat first
    [ progress intros
    | apply effects_bind | apply effects_try | apply effects_when
    | apply effects_emit; cbn; solve [auto]
    | case_match
    | solve [eauto with eff] ].

(** ** What each part of an order may do *)

Definition live : Prop := dry_run = false ∧ is_backtest = false.

Definition execution_event (e : Event) : Prop :=
  match e with
  | Submitted _ => live
  | DryRecorded _ | PollStarted _ => True
  | _ => False
  end.

Lemma market_effects req : effects execution_event (_execute_market_order req).
Proof.
  unfold _execute_market_order, submit, ensure_token, _start_settlement_polling.
  destruct dry_run eqn:Hd; [effects_walk|]. destruct is_backtest eqn:Hb; effects_walk;
    apply effects_emit; by cbn.
Qed.

Lemma half_effects Q q : effects Q (half q).
Proof. unfold half. effects_walk. Qed.
#[local] Hint Resolve market_effects half_effects : eff.

Lemma limit_effects req : effects execution_event (_execute_limit_order req).
Proof.
  unfold _execute_limit_order, submit, ensure_token, _start_settlement_polling.
  destruct dry_run eqn:Hd; [effects_walk|]. destruct is_backtest eqn:Hb; effects_walk;
    apply effects_emit; by cbn.
Qed.

Lemma try_slice_effects req q why : effects execution_event (try_slice req q why).
Proof. unfold try_slice. effects_walk. Qed.
#[local] Hint Resolve limit_effects try_slice_effects : eff.

Lemma twap_attempts_effects req why q n k filled cost :
  effects execution_event (twap_attempts req why q n k filled cost).
Proof. revert k filled cost. induction n as [|n IH]; intros; cbn [twap_attempts]; effects_walk. Qed.
#[local] Hint Resolve twap_attempts_effects : eff.

Lemma twap_slices_effects req n base rem retries left a :
  effects execution_event (twap_slices req n base rem retries left a).
Proof. revert a. induction left as [|left IH]; intros; cbn [twap_slices]; effects_walk. Qed.

Lemma vwap_slices_effects req n i qs a : effects execution_event (vwap_slices req n i qs a).
Proof. revert i a. induction qs as [|[q p] qs IH]; intros; cbn [vwap_slices]; effects_walk. Qed.
#[local] Hint Resolve twap_slices_effects vwap_slices_effects : eff.

Lemma twap_effects n k req : effects execution_event (_execute_twap_order n k req).
Proof. unfold _execute_twap_order. apply effects_bind; effects_walk. Qed.

Lemma vwap_effects n l req : effects execution_event (_execute_vwap_order n l req).
Proof.
  unfold _execute_vwap_order. destruct (vwap_quantities _ _); [|apply effects_raise].
  apply effects_bind; effects_walk.
Qed.

Lemma dispatch_effects req : effects execution_event (dispatch req).
Proof.
  unfold dispatch. destruct req.(order_type).
  - apply market_effects.
  - apply limit_effects.
  - apply twap_effects.
  - apply vwap_effects.
Qed.

Definition guard_event (e : Event) : Prop := match e with GuardBlock _ => True | _ => False end.

Lemma admission_effects req : effects guard_event (admission req).
Proof. unfold admission, guard_check, _validate_order, price_checks. effects_walk. Qed.

Lemma slippage_effects Q req q r : effects Q (slippage_check req q r).
Proof. unfold slippage_check. effects_walk. Qed.

(** ** What an admitted order has passed *)

Definition admitted (req : OrderRequest) (w : World) (reference : option Quote) : Prop :=
  order_request_to_contract req = true ∧
  (∃ r, outcome (TradingGuard.check_pre_order settings req.(ticker) req.(side) req.(quantity)
          req.(limit_price)) w.(guard) = Ok r ∧ r.(allowed) = true) ∧
  0 < req.(quantity) ∧
  (live → ∃ provider q,
    quote_provider = Some provider ∧ reference = Some q ∧
    provider req.(ticker) req.(market) = Ok q ∧
    q.(q_ticker) = req.(ticker) ∧ q.(q_market) = req.(market) ∧
    fresh q price_guard_config.(max_quote_age_seconds) w.(clock) = true ∧
    ∀ p, req.(order_type) = LIMIT → req.(limit_price) = Some p →
      within_band req.(side) q.(price) p price_guard_config.(max_pre_trade_deviation_pct) = true).

Lemma guard_check_ok req w w1 :
  guard_check req w = (Ok tt, w1) →
  w1.(clock) = w.(clock) ∧
  ∃ r, outcome (TradingGuard.check_pre_order settings req.(ticker) req.(side) req.(quantity)
         req.(limit_price)) w.(guard) = Ok r ∧ r.(allowed) = true.
Proof.
  unfold guard_check, on_guard, emit. run_m.
  destruct (TradingGuard.check_pre_order _ _ _ _ _ _) as [[r|[]] g]; cbn.
  destruct r.(allowed) eqn:Hr; [|done]. intros [= <-]. eauto.
Qed.

Lemma price_checks_ok req w q w1 :
  price_checks req w = (Ok q, w1) → live → ∃ provider q',
    quote_provider = Some provider ∧ q = Some q' ∧
    provider req.(ticker) req.(market) = Ok q' ∧
    q'.(q_ticker) = req.(ticker) ∧ q'.(q_market) = req.(market) ∧
    fresh q' price_guard_config.(max_quote_age_seconds) w.(clock) = true ∧
    ∀ p, req.(order_type) = LIMIT → req.(limit_price) = Some p →
      within_band req.(side) q'.(price) p price_guard_config.(max_pre_trade_deviation_pct) = true.
Proof.
  intros E [Hd Hb]. revert E. unfold price_checks. rewrite Hd, Hb. cbn [negb andb].
  destruct quote_provider as [provider|]; [|done]. unfold on_metrics. run_m.
  destruct (fetch_and_validate_quote _ _ _ _ _ _) as [[q'|e] ms] eqn:Ef; [|done].
  apply fetch_ok in Ef as (Hp & Ht & Hm & Hf). intros E. exists provider, q'.
  assert (q = Some q' ∧ ∀ p, req.(order_type) = LIMIT → req.(limit_price) = Some p →
    within_band req.(side) q'.(price) p price_guard_config.(max_pre_trade_deviation_pct) = true)
    as [-> Hband]; [|by split_and!].
  revert E. destruct req.(order_type); try (intros [= <- _]; by split).
  destruct req.(limit_price) as [p|]; [|intros [= <- _]; by split]. cbn.
  destruct (assert_pre_trade_price _ _ _ _ _ _ _) as [[[]|e] ms'] eqn:Ea; [|done].
  intros [= <- _]. split; [done|]. intros p' _ [= <-]. by eapply pre_trade_ok.
Qed.

Lemma admission_ok req w q w1 : admission req w = (Ok q, w1) → admitted req w q.
Proof.
  unfold admission, admitted. intros E. destruct (order_request_to_contract req); [|done].
  revert E. unfold mbind, M_bind, mret, M_ret.
  destruct (guard_check req w) as [[[]|e] w2] eqn:Eg; [|done].
  apply guard_check_ok in Eg as [<- Hg].
  destruct (_validate_order req w2) as [[[]|e] w3] eqn:Ev; [|done]. intros Ep.
  assert (0 < req.(quantity) ∧ w3 = w2) as [Hq ->].
  { revert Ev. unfold _validate_order. destruct (_ <=? 0) eqn:Eq; [done|]. bool_hyps.
    destruct req.(order_type), req.(limit_price); try destruct (_ <=? fzero)%pyf; cbn;
      by intros [= <-]. }
  split_and!; [done|done|done|]. by eapply price_checks_ok.
Qed.

(** ** The shape of [execute_order] *)

(** Everything before the row of the result is written *)
Definition body_main (req : OrderRequest) : Exec OrderResult :=
  reference_quote ← admission req;
  r ← dispatch req;
  slippage_check req reference_quote r ;;
  ledger_update req r ;;
  mret r.

Definition db_ok (w : World) : bool := match w.(db_faults) with f :: _ => negb f | [] => true end.
Definition db_next (w : World) : World := after db_session w.

Lemma execute_order_unfold req w :
  execute_order req w =
  match body_main req w with
  | (Ok r, w1) =>
      let w2 := emit_event (Stored r (db_ok w1)) (db_next w1) in
      (Ok r, emit_event (Audited r.(order_id) (db_ok w2)) (db_next w2))
  | (Err e, w1) =>
      let w2 := after (generate "FAIL_") w1 in
      (Err e, emit_event (Stored (failed_result req (Generated "FAIL_" w1.(next_id))) (db_ok w2))
                (db_next w2))
  end.
Proof.
  unfold execute_order, execute_body, body_main, settlement, try_except, mbind, M_bind.
  destruct (admission req w) as [[q|e] w1]; [|done].
  destruct (dispatch req w1) as [[r|e] w2]; [|done].
  destruct (slippage_check req q r w2) as [[[]|e] w3]; [|done].
  by destruct (ledger_update req r w3) as [[[]|e] w4].
Qed.

Lemma ledger_update_log req r w : (after (ledger_update req r) w).(log) = w.(log).
Proof.
  unfold ledger_update, after. destruct (_ && _); [|done]. run_m.
  destruct (PortfolioLedger.record_fill _ _ _ _) as [[[]|[]] l]; done.
Qed.

Lemma ledger_update_db req r w : (after (ledger_update req r) w).(db_faults) = w.(db_faults).
Proof.
  unfold ledger_update, after. destruct (_ && _); [|done]. run_m.
  destruct (PortfolioLedger.record_fill _ _ _ _) as [[[]|[]] l]; done.
Qed.

(** [record_fill] moves the ledger exactly for fills, and only its own refusal
    to go short is swallowed. *)
Definition counts (r : OrderResult) : bool :=
  (bool_decide (r.(status) = FILLED) || bool_decide (r.(status) = PARTIAL)) &&
  (0 <? r.(filled_quantity)).

Definition fill_of (req : OrderRequest) (r : OrderResult) : M (PortfolioLedger.t R) LedgerExn unit :=
  PortfolioLedger.record_fill req.(ticker) req.(side) (of_Z r.(filled_quantity)).

Lemma ledger_update_spec req r w :
  (after (ledger_update req r) w).(ledger) =
    (if counts r then after (fill_of req r) w.(ledger) else w.(ledger)) ∧
  match outcome (ledger_update req r) w with
  | Ok _ => True
  | Err e => ∃ e', e = LedgerFailed e' ∧ counts r = true ∧ outcome (fill_of req r) w.(ledger) = Err e'
  end.
Proof.
  unfold ledger_update, counts, fill_of. destruct (_ && _); [|done]. run_m.
  destruct (PortfolioLedger.record_fill _ _ _ _) as [[[]|[]] l]; cbn; eauto.
Qed.

Lemma effects_run {A} Q (m : Exec A) w x w1 :
  effects Q m → m w = (x, w1) →
  (w1.(ledger), w1.(db_faults)) = (w.(ledger), w.(db_faults)) ∧ ∃ evs, w1.(log) = w.(log) ++ evs ∧ Forall Q evs.
Proof. intros Hm E. specialize (Hm w). unfold after in Hm. by rewrite E in Hm. Qed.

(** An order's events before its row: guard blocks, and, once admitted, what
    the execution does. *)
Lemma body_main_effects req w :
  ∃ evs1 evs2, (after (body_main req) w).(log) = w.(log) ++ evs1 ++ evs2 ∧
    Forall guard_event evs1 ∧ Forall execution_event evs2 ∧
    (evs2 = [] ∨ ∃ q, admitted req w q).
Proof.
  unfold body_main, after, mbind, M_bind.
  destruct (admission req w) as [[q|e] w1] eqn:Ea; pose proof Ea as Eb;
    apply (effects_run guard_event) in Eb as (_ & evs1 & E1 & H1); try apply admission_effects;
    [|exists evs1, []; rewrite app_nil_r; by eauto].
  apply admission_ok in Ea.
  destruct (dispatch req w1) as [x w2] eqn:Ed.
  apply (effects_run execution_event) in Ed as (_ & evs2 & E2 & H2); [|apply dispatch_effects].
  assert (w2.(log) = w.(log) ++ evs1 ++ evs2) as Elog by (by rewrite E2, E1, app_assoc).
  exists evs1, evs2. split_and!; [|done|done|eauto].
  destruct x as [r|e]; [|done].
  destruct (slippage_check req q r w2) as [y w3] eqn:Es.
  apply (effects_run (λ _, False)) in Es as (_ & evs3 & E3 & H3); [|apply slippage_effects].
  destruct evs3 as [|? ?]; [|by inversion H3]. rewrite app_nil_r in E3.
  destruct y as [[]|e]; [|cbn; congruence].
  pose proof (ledger_update_log req r w3) as E4. unfold after in E4.
  destruct (ledger_update req r w3) as [[[]|e] w4]; cbn in *; congruence.
Qed.

Lemma body_main_ledger req w :
  match body_main req w with
  | (Ok r, w1) => w1.(ledger) = if counts r then after (fill_of req r) w.(ledger) else w.(ledger)
  | (Err e, w1) => w1.(ledger) = w.(ledger) ∨
      ∃ r e', e = LedgerFailed e' ∧ counts r = true ∧ outcome (fill_of req r) w.(ledger) = Err e' ∧
        w1.(ledger) = after (fill_of req r) w.(ledger)
  end.
Proof.
  unfold body_main, mbind, M_bind.
  destruct (admission req w) as [[q|e] w1] eqn:E1; apply (effects_run guard_event) in E1 as [[= L1 D1] _];
    try apply admission_effects; [|by left].
  destruct (dispatch req w1) as [[r|e] w2] eqn:E2; apply (effects_run execution_event) in E2 as [[= L2 D2] _];
    try apply dispatch_effects; [|left; congruence].
  destruct (slippage_check req q r w2) as [[[]|e] w3] eqn:E3;
    apply (effects_run (λ _, True)) in E3 as [[= L3 D3] _]; try apply slippage_effects; [|left; congruence].
  rewrite <- L1, <- L2, <- L3. destruct (ledger_update_spec req r w3) as [L4 O4].
  unfold after, outcome in L4, O4. destruct (ledger_update req r w3) as [[[]|e] w4]; [done|].
  cbn in *. destruct O4 as (e' & -> & Hc & He). rewrite Hc in L4. right. exists r, e'. by split_and!.
Qed.

(** Until then no session with the database has been opened. *)
Lemma body_main_db req w : (after (body_main req) w).(db_faults) = w.(db_faults).
Proof.
  unfold body_main, after, mbind, M_bind.
  destruct (admission req w) as [[q|e] w1] eqn:E1; apply (effects_run guard_event) in E1 as [[= L1 D1] _];
    try apply admission_effects; [|done].
  destruct (dispatch req w1) as [[r|e] w2] eqn:E2; apply (effects_run execution_event) in E2 as [[= L2 D2] _];
    try apply dispatch_effects; [|cbn; congruence].
  destruct (slippage_check req q r w2) as [[[]|e] w3] eqn:E3;
    apply (effects_run (λ _, True)) in E3 as [[= L3 D3] _]; try apply slippage_effects; [|cbn; congruence].
  pose proof (ledger_update_db req r w3) as D4. unfold after in D4.
  destruct (ledger_update req r w3) as [[[]|e] w4]; cbn in *; congruence.
Qed.

(** * Properties *)

Definition is_submission (e : Event) : bool := match e with Submitted _ => true | _ => false end.
(** The INSERTs that were tried, with what became of them *)
Definition inserts (evs : list Event) : list (OrderResult * bool) :=
  omap (λ e, match e with Stored r ok => Some (r, ok) | _ => None end) evs.

(** Their rows *)
Definition rows (evs : list Event) : list OrderResult :=
  omap (λ e, match e with Stored r _ => Some r | _ => None end) evs.

(** The table [orders], whose order numbers are unique: an INSERT is refused when the
    number is there, or when its session fails; either is only logged. *)
Definition insert_order (t : list OrderResult) (e : Event) : list OrderResult :=
  match e with
  | Stored r true => if bool_decide (r.(order_id) ∈ order_id <$> t) then t else t ++ [r]
  | _ => t
  end.
Definition write_rows (t : list OrderResult) (evs : list Event) : list OrderResult := foldl insert_order t evs.

Lemma write_rows_none t evs : inserts evs = [] → write_rows t evs = t.
Proof. revert t. induction evs as [|[] evs IH]; intros t Hi; cbn in *; try done; by apply IH. Qed.

Lemma write_rows_one row (P : Prop) `{!Decision P} rest evs t : inserts evs = [] → inserts rest = [] →
  write_rows t (evs ++ Stored row (negb (bool_decide P)) :: rest) =
  if bool_decide (P ∨ row.(order_id) ∈ order_id <$> t) then t else t ++ [row].
Proof.
  intros H1 H2. unfold write_rows at 1. rewrite foldl_app. pose proof (write_rows_none t evs H1) as E. unfold write_rows in E. rewrite E.
  cbn [foldl]. etrans; [by apply write_rows_none|]. cbn [insert_order].
  destruct (decide P) as [Hp|Hp].
  - rewrite (bool_decide_true P) by done. cbn [negb]. by rewrite bool_decide_true by auto.
  - rewrite (bool_decide_false P) by done. cbn [negb]. repeat case_bool_decide; tauto || done.
Qed.

Lemma db_ok_head w1 w : w1.(db_faults) = w.(db_faults) → db_ok w1 = negb (bool_decide (head w.(db_faults) = Some true)).
Proof. unfold db_ok. intros ->. by destruct w.(db_faults) as [|[] ?]. Qed.

(** C1. No unchecked order reaches the broker.  Whatever [execute_order] is
    asked and whatever fails on the way, an order submission among its effects
    means that it runs live and that the order passed, in this order: the
    contract, the trading guard as it stood, the quantity check, a quote of the
    same ticker and market that is neither stale nor from the future, and, for
    a limit order, the price band around that quote. *)
Theorem broker_orders_are_admitted (req : OrderRequest) (w : World) :
  ∃ evs, (after (execute_order req) w).(log) = w.(log) ++ evs ∧
    (existsb is_submission evs = true → live ∧ ∃ q, admitted req w q).
Proof.
  destruct (body_main_effects req w) as (evs1 & evs2 & E & H1 & H2 & Hadm).
  assert (existsb is_submission (evs1 ++ evs2) = true → live ∧ ∃ q, admitted req w q) as Hs.
  { rewrite existsb_app. intros [Hx|Hx]%orb_true_iff; apply existsb_exists in Hx as (e & Hin & He);
      apply list_elem_of_In in Hin.
    - rewrite Forall_forall in H1. apply H1 in Hin. by destruct e.
    - rewrite Forall_forall in H2. pose proof (H2 _ Hin) as Hl. destruct e; try done.
      destruct Hadm as [->|Hadm]; [by apply not_elem_of_nil in Hin|done]. }
  unfold after in *. rewrite execute_order_unfold.
  destruct (body_main req w) as [[r|e] w1]; cbn in *; rewrite E, <- !app_assoc; eexists;
    (split; [done|]); rewrite !app_assoc, !existsb_app, ?orb_false_r; cbn; rewrite ?orb_false_r;
    rewrite <- existsb_app; done.
Qed.

(** C9. One row per order.  Each call tries one INSERT into [orders]: of the
    result it returns, or of a FAILED row with nothing filled when it raises.
    The table then has that row and no other new one, exactly when the session
    of that INSERT does not fail and no row has its order number; otherwise the
    table is as it was, and the call ends as if it had been written.  The
    ledger moves exactly by the filled quantity of a FILLED or PARTIAL result;
    a call that raises leaves it alone unless the ledger itself raised. *)
Theorem one_row_per_order (req : OrderRequest) (w : World) :
  let w' := after (execute_order req) w in
  let session_fails := head w.(db_faults) = Some true in
  ∃ evs row, w'.(log) = w.(log) ++ evs ∧ inserts evs = [(row, negb (bool_decide session_fails))] ∧
    (∀ table, write_rows table evs =
      if bool_decide (session_fails ∨ row.(order_id) ∈ order_id <$> table) then table else table ++ [row]) ∧
    match outcome (execute_order req) w with
    | Ok r => row = r ∧
        w'.(ledger) = if counts r then after (fill_of req r) w.(ledger) else w.(ledger)
    | Err e => row.(status) = FAILED ∧ row.(filled_quantity) = 0 ∧ row.(res_ticker) = req.(ticker) ∧
        (w'.(ledger) = w.(ledger) ∨
         ∃ r e', e = LedgerFailed e' ∧ counts r = true ∧ outcome (fill_of req r) w.(ledger) = Err e')
    end.
Proof.
  destruct (body_main_effects req w) as (evs1 & evs2 & E & H1 & H2 & _).
  assert (inserts (evs1 ++ evs2) = []) as Hrows.
  { assert (Forall (λ e, guard_event e ∨ execution_event e) (evs1 ++ evs2)) as Hev
      by (apply Forall_app; split; (eapply Forall_impl; [eassumption|]; auto)).
    revert Hev. generalize (evs1 ++ evs2). induction 1 as [|[] l [?|?]]; cbn in *; done. }
  pose proof (body_main_ledger req w) as HL. pose proof (body_main_db req w) as HD.
  cbv zeta. unfold after, outcome in *. rewrite execute_order_unfold.
  destruct (body_main req w) as [[r|e] w1]; cbn in HD, E, HL |- *; rewrite E, <- !app_assoc; eexists _, _;
    (split; [done|]); rewrite app_assoc, (db_ok_head _ w) by done.
  - split; [unfold inserts in *; by rewrite omap_app, Hrows|]. split; [|by split].
    intros table. by apply write_rows_one.
  - split; [unfold inserts in *; by rewrite omap_app, Hrows|]. split; [intros table; by apply (write_rows_one _ _ [])|].
    split_and!; [done..|]. destruct HL as [->|(r & e' & ? & ? & ? & _)]; [by left|right].
    by exists r, e'.
Qed.

(** ** Sliced execution *)

(** A broker that reports fills between nothing and the ordered quantity *)
Definition fills_within : Prop := ∀ o,
  returns (λ api, 0 ≤ api.(filled_qty) ∧ api.(filled_qty) ≤ ordered_quantity o) (kis.(place_order) o).

Lemma submit_within o :
  fills_within → returns (λ api, 0 ≤ api.(filled_qty) ∧ api.(filled_qty) ≤ ordered_quantity o) (submit o).
Proof.
  intros Hf w. unfold submit, on_broker, emit. run_m. specialize (Hf o w.(broker)).
  unfold outcome in Hf. cbn. by destruct (place_order kis o w.(broker)) as [[?|?] ?].
Qed.

Lemma market_fill_within req :
  fills_within → 0 ≤ req.(quantity) →
  returns (λ r, 0 ≤ r.(filled_quantity) ∧ r.(filled_quantity) ≤ req.(quantity))
    (_execute_market_order req).
Proof.
  intros Hf Hq. unfold _execute_market_order. destruct dry_run.
  { apply returns_seq, returns_then. intros id. apply returns_ret. cbn. lia. }
  apply returns_bind with (Q := λ r, 0 ≤ r.(filled_quantity) ∧ r.(filled_quantity) ≤ req.(quantity)).
  - destruct is_backtest.
    { apply returns_then. intros id. apply returns_ret. cbn. lia. }
    apply returns_seq. eapply returns_bind; [by apply submit_within|].
    intros api Hapi. apply returns_then. intros id. apply returns_ret.
    by destruct (bool_decide (req.(market) = KRX)).
  - intros r Hr. apply returns_seq. by apply returns_ret.
Qed.

Lemma try_slice_within req q why :
  fills_within → 0 ≤ q →
  yields (λ x, match x with Some r => 0 ≤ r.(filled_quantity) ∧ r.(filled_quantity) ≤ q | None => True end)
    (try_slice req q why).
Proof.
  intros Hf Hq. unfold try_slice. apply yields_try; [|intros e; by apply yields_ret].
  eapply returns_bind; [by apply market_fill_within|]. intros r Hr. by apply returns_ret.
Qed.

Lemma twap_attempts_within req why q n k filled cost :
  fills_within → 0 ≤ filled ∧ filled ≤ q →
  yields (λ x, 0 ≤ x.1 ∧ x.1 ≤ q) (twap_attempts req why q n k filled cost).
Proof.
  intros Hf. revert k filled cost. induction n as [|n IH]; intros k filled cost Hr;
    cbn [twap_attempts]; [by apply yields_ret|].
  destruct (_ <=? 0) eqn:Hq; [by apply yields_ret|]. bool_hyps.
  eapply yields_bind; [apply try_slice_within; [done|lia]|].
  intros [r|] Hfill; apply IH; lia.
Qed.

Lemma twap_slices_conserve req n base rem retries left a :
  fills_within → 0 ≤ base → 0 ≤ rem → 0 ≤ a.(carryover) → 0 ≤ a.(total_filled) →
  yields (λ a', 0 ≤ a'.(carryover) ∧ 0 ≤ a'.(total_filled) ∧
      a'.(total_filled) + a'.(carryover) =
        a.(total_filled) + a.(carryover) + Z.of_nat left * base + (if bool_decide (left = O) then 0 else rem))
    (twap_slices req n base rem retries left a).
Proof.
  intros Hf Hb Hrem. revert a. induction left as [|left IH]; intros a Hc Ht; cbn [twap_slices].
  { apply yields_ret. rewrite bool_decide_true by done. lia. }
  destruct (_ <=? 0) eqn:Hq; bool_hyps.
  - eapply yields_weaken; [|by apply IH]. cbn beta. intros a' (? & ? & E).
    rewrite E. rewrite (bool_decide_false (S left = O)) by done. revert Hq E. case_bool_decide; intros; lia.
  - eapply yields_bind; [apply twap_attempts_within; [done|lia]|]. intros [filled cost]. cbn [fst].
    intros [? ?]. eapply yields_weaken; [|apply IH; cbn; lia]. cbn. intros a' (? & ? & E).
    rewrite E. rewrite (bool_decide_false (S left = O)) by done. case_bool_decide; lia.
Qed.

Lemma vwap_slices_conserve req n i qs a :
  fills_within → Forall (Z.le 0) qs.*1 → 0 ≤ a.(carryover) → 0 ≤ a.(total_filled) →
  yields (λ a', 0 ≤ a'.(carryover) ∧ 0 ≤ a'.(total_filled) ∧
      a'.(total_filled) + a'.(carryover) = a.(total_filled) + a.(carryover) + sumZ qs.*1)
    (vwap_slices req n i qs a).
Proof.
  intros Hf. revert i a. induction qs as [|[q p] qs IH]; intros i a Hqs Hc Ht;
    cbn [vwap_slices]; cbn in *; [|apply Forall_cons_1 in Hqs as [Hq Hqs]].
  { apply yields_ret. lia. }
  destruct (_ <=? 0) eqn:Hle; bool_hyps.
  - eapply yields_weaken; [|by apply IH]. cbn beta. lia.
  - eapply yields_bind; [apply try_slice_within; [done|lia]|].
    intros [r|] Hfill; (eapply yields_weaken; [|apply IH; cbn; try done; lia]); cbn; lia.
Qed.

(** The result of a conserved execution *)
Definition conserved (req : OrderRequest) (r : OrderResult) : Prop :=
  r.(res_quantity) = req.(quantity) ∧ 0 ≤ r.(filled_quantity) ∧ r.(filled_quantity) ≤ req.(quantity) ∧
  (r.(status) = FILLED ↔ r.(filled_quantity) = req.(quantity)) ∧
  (r.(status) = FAILED ↔ r.(filled_quantity) = 0) ∧
  r.(status) ∈ [FILLED; PARTIAL; FAILED].

Lemma sliced_conserved req id a :
  0 < req.(quantity) → 0 ≤ a.(carryover) → 0 ≤ a.(total_filled) →
  a.(total_filled) + a.(carryover) = req.(quantity) → conserved req (sliced_result req id a).
Proof.
  intros Hq Hc Ht E. unfold conserved, sliced_result. cbn.
  destruct (_ <=? _) eqn:H1; bool_hyps; [|destruct (0 <? _) eqn:H2; bool_hyps];
    split_and!; try lia; try (split; [done|lia]); try (split; [lia|done]); try (split; [done||lia|try done; lia]);
    set_solver.
Qed.

Lemma index_of_max_lt l best bi i : (bi < i)%nat → (index_of_max l best bi i < i + length l)%nat.
Proof.
  revert best bi i. induction l as [|x l IH]; intros best bi i Hlt; cbn; [lia|].
  destruct (x >? best)%pyf.
  - specialize (IH x i (S i)). lia.
  - specialize (IH best bi (S i)). lia.
Qed.

Lemma argmax_lt l : l ≠ [] → (argmax l < length l)%nat.
Proof. destruct l as [|x l]; [done|]. intros _. apply (index_of_max_lt l x 0 1). lia. Qed.

Lemma vwap_quantities_sum q profile qs :
  profile ≠ [] → vwap_quantities q profile = Some qs → sumZ qs = q ∧ length qs = length profile.
Proof.
  intros Hp. unfold vwap_quantities. destruct (mapM _ profile) as [rounded|] eqn:E; [|done].
  apply length_mapM in E. cbn. set (l := Z.max 1 <$> rounded). intros [= <-].
  assert (length l = length profile) as Hl by (subst l; by rewrite length_fmap).
  rewrite length_alter. split; [|done].
  destruct (lookup_lt_is_Some_2 l (argmax profile)) as [x Hx].
  { rewrite Hl. by apply argmax_lt. }
  assert (alter (λ x, x + (q - sumZ l)) (argmax profile) l =
    <[argmax profile := x + (q - sumZ l)]> l) as ->.
  { apply list_eq. intros i. destruct (decide (i = argmax profile)) as [->|Hi].
    - rewrite list_lookup_alter_eq, list_lookup_insert_eq, Hx by (by eapply lookup_lt_Some). done.
    - by rewrite list_lookup_alter_ne, list_lookup_insert_ne by done. }
  rewrite (sumZ_insert _ _ _ x Hx). lia.
Qed.

Lemma vwap_profile_length n l : (0 < n)%nat → length (vwap_profile n l) = n.
Proof.
  intros Hn. unfold vwap_profile.
  set (p := if bool_decide (l = []) then VWAP_VOLUME_PROFILE else l). clearbody p.
  assert (length (if bool_decide (length p ≠ n)
    then replicate n (of_Z 1 / of_Z (Z.of_nat n))%pyf else p) = n) as Hlen.
  { destruct (decide (length p = n)).
    - by rewrite bool_decide_false by auto.
    - by rewrite bool_decide_true, length_replicate by done. }
  destruct (_ >? _)%pyf; [by rewrite length_fmap|done].
Qed.

(** C16. Sliced execution conserves the order.  With a broker that fills each
    accepted order between nothing and its quantity, a positive quantity and at least
    one interval, and however many calls fail, TWAP never raises and never fills more
    than the order; the status is FILLED exactly for a complete fill and FAILED exactly
    for none.  VWAP's slice quantities, when they exist, add up to the order, and when
    none of them is negative the same holds of it; of a small order one can be, and
    then VWAP buys too much ([vwap_overbuys_small_orders]). *)
Theorem sliced_orders_conserve (req : OrderRequest) (num_intervals retries : nat) (l : list float)
    (Hf : fills_within) (Hq : 0 < req.(quantity)) (Hn : (0 < num_intervals)%nat) :
  yields (conserved req) (_execute_twap_order num_intervals retries req) ∧
  ∀ qs, vwap_quantities req.(quantity) (vwap_profile num_intervals l) = Some qs →
    sumZ qs = req.(quantity) ∧
    (Forall (Z.le 0) qs → yields (conserved req) (_execute_vwap_order num_intervals l req)).
Proof.
  split; [|intros qs Hqs; pose proof (vwap_profile_length num_intervals l Hn) as Hlen;
    destruct (vwap_quantities_sum _ _ _ ltac:(intros E; rewrite E in Hlen; cbn in Hlen; lia) Hqs)
      as [Hsum Hlen']; split; [done|intros Hpos]].
  - unfold _execute_twap_order. set (n := Z.of_nat num_intervals).
    pose proof (Z.div_mod req.(quantity) n ltac:(lia)) as Hdiv.
    pose proof (Z.mod_pos_bound req.(quantity) n ltac:(lia)).
    pose proof (Z.div_pos req.(quantity) n ltac:(lia) ltac:(lia)).
    eapply yields_bind; [apply twap_slices_conserve; cbn; try done; lia|].
    rewrite (bool_decide_false (num_intervals = O)) by lia. cbn. intros a (Hc & Ht & E).
    intros w. cbn. apply sliced_conserved; [lia..|]. subst n. nia.
  - unfold _execute_vwap_order. rewrite Hqs. eapply yields_bind.
    { apply vwap_slices_conserve; [done| |done..].
      by rewrite fst_zip by lia. }
    rewrite fst_zip by lia. cbn. intros a (Hc & Ht & E) w. cbn. apply sliced_conserved; lia.
Qed.

(** ** Orders that are accepted but not yet filled *)

Definition submitted (evs : list Event) : Z :=
  sumZ (omap (λ e, match e with Submitted o => Some (ordered_quantity o) | _ => None end) evs).

(** [m] returns, its result satisfies [P], and it orders [n] shares. *)
Definition orders {A} (P : A → Prop) (n : Z) (m : Exec A) : Prop := ∀ w,
  ∃ a w' evs, m w = (Ok a, w') ∧ P a ∧ w'.(log) = w.(log) ++ evs ∧ submitted evs = n.

Lemma orders_ret {A} (P : A → Prop) a : P a → orders P 0 (mret a).
Proof. intros Ha w. exists a, w, []. rewrite app_nil_r. by split_and!. Qed.

Lemma orders_bind {A B} (Q : A → Prop) (P : B → Prop) n1 n2 n (m : Exec A) (k : A → Exec B) :
  orders Q n1 m → (∀ a, Q a → orders P n2 (k a)) → n = n1 + n2 → orders P n (m ≫= k).
Proof.
  intros Hm Hk -> w. destruct (Hm w) as (a & w1 & evs1 & E1 & Ha & L1 & <-).
  destruct (Hk a Ha w1) as (b & w2 & evs2 & E2 & Hb & L2 & <-).
  exists b, w2, (evs1 ++ evs2). split_and!; [|done|by rewrite L2, L1, app_assoc|].
  - unfold mbind, M_bind. by rewrite E1.
  - unfold submitted. by rewrite omap_app, sumZ_app.
Qed.

(** A broker that accepts every order and reports nothing filled yet: so does
    KIS, whose answer to an order has no [filled_qty]. *)
Definition accepts_unfilled : Prop :=
  live ∧ (∀ b, kis.(has_valid_token) b = true) ∧
  ∀ o, yields (λ api, api.(filled_qty) = 0) (kis.(place_order) o).

Lemma market_unfilled req :
  accepts_unfilled → orders (λ r, r.(filled_quantity) = 0) req.(quantity) (_execute_market_order req).
Proof.
  intros ([Hd Hb] & Ht & Ho) w. unfold _execute_market_order, submit, ensure_token, on_broker, emit,
    _start_settlement_polling. rewrite Hd, Hb. run_m. cbn. rewrite Ht. cbn.
  set (o := if bool_decide _ then _ else _).
  assert (ordered_quantity o = req.(quantity)) as Hq by (by subst o; destruct (bool_decide _)).
  clearbody o. specialize (Ho o w.(broker)). unfold outcome in Ho.
  destruct (kis.(place_order) o w.(broker)) as [[api|e] b]; [|done]. cbn in *.
  destruct (bool_decide (api_order_id api = "")); cbn; eexists _, _, [Submitted o; PollStarted _];
    (split; [reflexivity|]); cbn; rewrite <- app_assoc; (split_and!; [done|done|]); unfold submitted; cbn; lia.
Qed.

Lemma try_slice_unfilled req q why :
  accepts_unfilled → orders (λ x, ∃ r, x = Some r ∧ r.(filled_quantity) = 0) q (try_slice req q why).
Proof.
  intros Ha w. destruct (market_unfilled (sub_request req q why) Ha w) as (r & w' & evs & E & Hr & L & S').
  exists (Some r), w', evs. split_and!; [|by exists r|done|done].
  unfold try_slice, try_except, mbind, M_bind. by rewrite E.
Qed.

Lemma twap_attempts_unfilled req why q n k cost :
  accepts_unfilled → 0 < q →
  orders (λ x, x.1 = 0) (Z.of_nat n * q) (twap_attempts req why q n k 0 cost).
Proof.
  intros Ha Hq. revert k cost. induction n as [|n IH]; intros k cost; cbn [twap_attempts];
    [by apply orders_ret|].
  rewrite (proj2 (Z.leb_gt _ _)) by lia. eapply orders_bind; [by apply try_slice_unfilled| |].
  - intros x (r & -> & ->). apply IH.
  - lia.
Qed.

(** What [left] slices order when nothing ever fills *)
Fixpoint unfilled_total (base rem carry : Z) (tries left : nat) : Z :=
  match left with
  | O => 0
  | S left' =>
      let q := base + carry + (if bool_decide (left' = O) then rem else 0) in
      if q <=? 0 then unfilled_total base rem carry tries left'
      else Z.of_nat tries * q + unfilled_total base rem q tries left'
  end.

Lemma twap_slices_unfilled req n base rem retries left a :
  accepts_unfilled → a.(total_filled) = 0 →
  orders (λ a', a'.(total_filled) = 0) (unfilled_total base rem a.(carryover) (S retries) left)
    (twap_slices req n base rem retries left a).
Proof.
  intros Ha. revert a. induction left as [|left IH]; intros a Ht; cbn [twap_slices unfilled_total];
    [by apply orders_ret|].
  destruct (_ <=? 0) eqn:Hq; [by apply IH|]. bool_hyps.
  eapply orders_bind; [by apply twap_attempts_unfilled| |reflexivity].
  intros [filled cost]. cbn. intros ->.
  set (q := base + a.(carryover) + _). rewrite <- (Z.sub_0_r q) at 1.
  apply (IH {| total_filled := a.(total_filled) + 0; total_cost := cost; carryover := q - 0 |}).
  cbn. lia.
Qed.

(** TWAP takes an order that the broker accepted but has not filled yet for
    an unfilled one: against such a broker it reports FAILED with nothing
    filled after having ordered 63 (q / 6) + 3 (q mod 6) shares, more than ten
    times the request, for each of which a settlement poll is running. *)
Theorem twap_resubmits_unfilled (req : OrderRequest) (w : World)
    (Ha : accepts_unfilled) (Hq : 0 < req.(quantity)) :
  ∃ r w' evs, _execute_twap_order 6 2 req w = (Ok r, w') ∧ w'.(log) = w.(log) ++ evs ∧
    r.(status) = FAILED ∧ r.(filled_quantity) = 0 ∧
    submitted evs = 63 * (req.(quantity) / 6) + 3 * (req.(quantity) mod 6).
Proof.
  set (b := req.(quantity) / 6). set (m := req.(quantity) mod 6).
  pose proof (Z.div_mod req.(quantity) 6 ltac:(done)) as Hdiv.
  pose proof (Z.mod_pos_bound req.(quantity) 6 ltac:(done)) as Hm. fold b m in Hdiv, Hm.
  destruct (twap_slices_unfilled req 6 b m 2 6 no_slices Ha eq_refl w)
    as (a & w1 & evs & E & Ht & L & Hs).
  eexists _, _, evs. unfold _execute_twap_order. unfold mbind, M_bind.
  change (Z.of_nat 6) with 6. fold b m. rewrite E. split; [reflexivity|]. cbn.
  rewrite Ht. rewrite (proj2 (Z.leb_gt _ _)) by lia. split_and!; [done..|].
  rewrite Hs. assert (0 ≤ b) as Hb0 by (apply Z.div_pos; lia). clear -Hdiv Hm Hb0 Hq.
  cbn [unfilled_total carryover no_slices]. eval_decides.
  repeat (destruct (_ <=? 0) eqn:?; bool_hyps; cbn); lia.
Qed.

(** ** Batches *)

Definition about (req : OrderRequest) (r : OrderResult) : Prop :=
  (r.(res_ticker), r.(res_market), r.(res_side), r.(res_quantity)) =
  (req.(ticker), req.(market), req.(side), req.(quantity)).

Lemma market_about req : returns (about req) (_execute_market_order req).
Proof.
  unfold _execute_market_order. destruct dry_run.
  { apply returns_seq, returns_then. intros id. by apply returns_ret. }
  apply returns_bind with (Q := about req); [|intros r Hr; by apply returns_seq, returns_ret].
  destruct is_backtest; [|apply returns_seq, returns_then; intros api];
    apply returns_then; intros id; by apply returns_ret.
Qed.

Lemma limit_about req : returns (about req) (_execute_limit_order req).
Proof.
  unfold _execute_limit_order. destruct req.(limit_price) as [lp|]; [|apply returns_raise].
  destruct (_ <=? _)%pyf; [apply returns_raise|]. destruct dry_run.
  { apply returns_seq, returns_then. intros id. apply returns_then. intros q. by apply returns_ret. }
  apply returns_bind with (Q := about req); [|intros r Hr; by apply returns_seq, returns_ret].
  destruct is_backtest; [|apply returns_seq, returns_then; intros api; by apply returns_ret].
  apply returns_then; intros id. apply returns_then. intros q. by apply returns_ret.
Qed.

Lemma dispatch_about req : returns (about req) (dispatch req).
Proof.
  unfold dispatch. destruct req.(order_type); [apply market_about|apply limit_about|..];
    unfold _execute_twap_order, _execute_vwap_order.
  - apply returns_then. intros a. apply returns_then. intros id. by apply returns_ret.
  - destruct (vwap_quantities _ _); [|apply returns_raise].
    apply returns_then. intros a. apply returns_then. intros id. by apply returns_ret.
Qed.

Lemma execute_order_about req : returns (about req) (execute_order req).
Proof.
  assert (returns (about req) (execute_body req)) as Hb.
  { unfold execute_body, settlement. apply returns_then. intros q.
    eapply returns_bind; [apply dispatch_about|]. intros r Hr.
    do 3 apply returns_seq. apply returns_then. intros ok. by apply returns_seq, returns_ret. }
  intros w. specialize (Hb w). unfold execute_order, try_except, outcome in *.
  by destruct (execute_body req w) as [[r|e] w1].
Qed.

Lemma execute_each_yields reqs : yields (Forall2 about reqs) (execute_each reqs).
Proof.
  induction reqs as [|req reqs IH]; cbn [execute_each]; [by apply yields_ret|].
  apply yields_bind with (Q := about req).
  - apply yields_try; [apply execute_order_about|]. intros e. by apply yields_ret.
  - intros r Hr. eapply yields_bind; [apply IH|]. intros rs Hrs. apply yields_ret. by constructor.
Qed.

(** A batch never raises.  It answers every request with exactly one result
    that carries its ticker, market, side and quantity, sells before buys, each
    side in the order of the requests; no order of the batch is lost or made up
    whatever fails. *)
Theorem batch_answers_every_request (reqs : list OrderRequest) :
  yields (λ rs, Forall2 about (filter (λ r, r.(side) = SELL) reqs ++
                               filter (λ r, r.(side) = BUY) reqs) rs ∧ length rs = length reqs)
    (execute_batch_orders reqs).
Proof.
  assert (length (filter (λ r, r.(side) = SELL) reqs ++ filter (λ r, r.(side) = BUY) reqs) =
          length reqs) as Hl.
  { rewrite length_app. induction reqs as [|r reqs IH]; [done|]. rewrite !filter_cons.
    destruct r.(side) eqn:Es; repeat case_decide; simplify_eq; cbn; lia. }
  unfold execute_batch_orders. eapply yields_bind; [apply execute_each_yields|]. intros sells Hs.
  eapply yields_bind; [apply execute_each_yields|]. intros buys Hb. apply yields_ret.
  assert (Forall2 about (filter (λ r, r.(side) = SELL) reqs ++ filter (λ r, r.(side) = BUY) reqs)
    (sells ++ buys)) as Hall by by apply Forall2_app.
  split; [done|]. rewrite <- Hl. symmetry. by eapply Forall2_length.
Qed.
End Executor.
Arguments World R W : clear implicits.
End OrderExecutor.

(** * Witnesses *)

Module ExecutorWitness.
Import OrderExecutor SqlPortfolioLedgerRepository.

(** Brokers that fill everything at 100, or nothing yet *)
Definition kis_filling (k : Z) : KISClient unit := {|
  has_valid_token := λ _, true;
  get_access_token := mret tt;
  place_order := λ o, mret {| api_order_id := "1"; filled_qty := k * ordered_quantity o;
                              api_avg_price := of_Z 100 |};
  get_kr_order_detail := λ _, raise tt;
  cancel_kr_order := λ _, raise tt |}.

Definition order (ot : OrderType) (q : Z) : OrderRequest := {|
  ticker := "005930"; market := KRX; side := BUY; quantity := q; order_type := ot;
  limit_price := None; req_reason := "" |}.

Definition idle_guard : TradingGuardState := {|
  is_active := true; kill_switch_on := false; kill_switch_reason := "";
  daily_realized_pnl := fzero; daily_order_count := 0; consecutive_losses := 0;
  current_drawdown := fzero; peak_portfolio_value := fzero; current_portfolio_value := fzero;
  kill_switch_gauge := 0 |}.

Definition world : World Db unit := {|
  guard := idle_guard; OrderExecutor.ledger := PortfolioLedger.init None; metrics := []; broker := tt;
  clock := 0; next_id := 0; db_faults := []; log := [] |}.

(** A broker that refuses quantities that are not positive, as KIS does, and
    fills the rest completely *)
Definition kis_strict : KISClient unit := {|
  has_valid_token := λ _, true;
  get_access_token := mret tt;
  place_order := λ o, if 0 <? ordered_quantity o
    then mret {| api_order_id := "1"; filled_qty := ordered_quantity o; api_avg_price := of_Z 100 |}
    else raise tt;
  get_kr_order_detail := λ _, raise tt;
  cancel_kr_order := λ _, raise tt |}.

Lemma kis_strict_within : fills_within kis_strict.
Proof. intros o b. cbn. destruct (0 <? _) eqn:E; [|done]. bool_hyps. cbn. lia. Qed.

Lemma sliced_orders_conserve_witness :
  fills_within kis_strict ∧
  yields (conserved (order TWAP 10))
    (_execute_twap_order (R:=Db) false false kis_strict 6 2 (order TWAP 10)) ∧
  sumZ [132; 72; 60; 60; 96; 180] = 600.
Proof.
  split; [exact kis_strict_within|split].
  - exact (proj1 (sliced_orders_conserve false false kis_strict (order TWAP 10) 6 2 []
      kis_strict_within eq_refl ltac:(lia))).
  - exact (proj1 (proj2 (sliced_orders_conserve (R:=Db) false false kis_strict (order VWAP 600) 6 2 []
      kis_strict_within eq_refl ltac:(lia)) _ ltac:(vm_compute; reflexivity))).
Defined.

Lemma unfilled_accepted : accepts_unfilled false false (kis_filling 0).
Proof. by split_and!. Qed.

Lemma twap_resubmits_unfilled_witness :
  ∃ r w' evs, _execute_twap_order (R:=Db) false false (kis_filling 0) 6 2 (order TWAP 600) world
      = (Ok r, w') ∧ w'.(log) = world.(log) ++ evs ∧
    r.(status) = FAILED ∧ r.(filled_quantity) = 0 ∧ submitted evs = 6300.
Proof.
  exact (twap_resubmits_unfilled false false (kis_filling 0) (order TWAP 600) world
    unfilled_accepted eq_refl).
Defined.

(** VWAP gives each slice at least one share and takes the excess from the
    largest one, which can become negative and is then skipped: an order for
    one share buys five from a broker that fills what it is asked to. *)
Theorem vwap_overbuys_small_orders :
  vwap_quantities 1 (vwap_profile 6 []) = Some [1; 1; 1; 1; 1; -4] ∧
  rmap filled_quantity (outcome (_execute_vwap_order (R:=Db) false false kis_strict 6 [] (order VWAP 1)) world)
    = Ok 5.
Proof. split; vm_compute; reflexivity. Qed.

End ExecutorWitness.
