(* ===== verification/Settlement.v ===== *)
(** Settlement of submitted orders: backend/core/order_executor/
    settlement_poller.py and ws_execution_handler.py, the execution notices of
    backend/core/data_collector/kis_websocket.py, and the cancel route of
    backend/api/routes/orders.py, over the table [orders].

    Every [await] is a point where other tasks run: [interleave n] is what they
    do to the table at the n-th one, an arbitrary function.  A database session
    can fail, as the list of coming faults says. *)

From stdpp Require Import base option list gmap sorting strings.
From S2P Require Import Prelude PyFloat PyFormat PyParse Constants OrderState.

(** The columns of [orders] that these tasks read or write; the price is kept
    as the float that is written. *)
Record OrderRow := {
  row_ticker : string;
  row_market : string;
  row_status : string;
  row_filled_quantity : Z;
  row_filled_price : float;
  row_filled_at : option Z;
  row_created_at : Z;
}.
Abbreviation Table := (gmap string OrderRow).

Inductive SettleExn :=
  | UnknownStatus (raw : string)
  | TransitionRejected (e : InvalidOrderTransition)
  | DbError
  | NumberError
  | BrokerDown.

(** A row of a KIS answer: its fields by name *)
Abbreviation CcldRecord := (gmap string string).
Definition field (k dflt : string) (rec : CcldRecord) : string := default dflt (rec !! k).

Record RealtimeExecutionNotice := {
  order_no : string;
  notice_ticker : string;
  filled_qty : Z;
  filled_price : float;
  order_qty : Z;
  is_filled : bool;
  is_rejected : bool;
}.

Definition _safe_str (fields : list string) (i : nat) : string :=
  match fields !! i with Some s => strip s | None => "" end.
Definition _safe_float (fields : list string) (i : nat) : float :=
  match fields !! i with Some s => default fzero (py_float s) | None => fzero end.
Definition _safe_int (fields : list string) (i : nat) : Z :=
  match fields !! i with Some s => default 0 (py_int s) | None => 0 end.

(** [RealtimeExecutionNotice(raw_fields, is_overseas)] *)
Definition parse_notice (raw : list string) (is_overseas : bool) : RealtimeExecutionNotice :=
  if is_overseas then {|
    order_no := _safe_str raw 2; notice_ticker := _safe_str raw 7; filled_qty := _safe_int raw 8;
    filled_price := _safe_float raw 9; order_qty := _safe_int raw 15;
    is_filled := bool_decide (_safe_str raw 12 = "2");
    is_rejected := bool_decide (_safe_str raw 11 = "1") |}
  else {|
    order_no := _safe_str raw 2; notice_ticker := _safe_str raw 8; filled_qty := _safe_int raw 9;
    filled_price := _safe_float raw 10; order_qty := _safe_int raw 16;
    is_filled := bool_decide (_safe_str raw 13 = "2");
    is_rejected := bool_decide (_safe_str raw 12 = "1") |}.

(** * Matching broker records *)

Fixpoint _match_ccld_record (records : list CcldRecord) (order_id ticker : string) :
    option CcldRecord :=
  match records with
  | [] => None
  | rec :: records' =>
      let kis_order_no := field "ODNO" "" rec in
      let kis_ticker := field "PDNO" "" rec in
      if negb (bool_decide (order_id = "")) && negb (bool_decide (kis_order_no = "")) &&
         bool_decide (order_id = kis_order_no) then Some rec
      else if bool_decide (kis_ticker = ticker) then Some rec
      else _match_ccld_record records' order_id ticker
  end.

(** [int(record.get(k, "0") or "0")] *)
Definition int_field (k : string) (rec : CcldRecord) : option Z := py_int (or_else (field k "0" rec) "0").
Definition float_field (k : string) (rec : CcldRecord) : option float :=
  py_float (or_else (field k "0" rec) "0").

Definition _parse_ccld_status (rec : CcldRecord) (market : string) : option (OrderStatus * Z * float) :=
  let kr := bool_decide (market = "KRX") in
  ord_qty ← int_field (if kr then "ORD_QTY" else "FT_ORD_QTY") rec;
  ccld_qty ← int_field (if kr then "TOT_CCLD_QTY" else "FT_CCLD_QTY") rec;
  avg_price ← float_field (if kr then "AVG_PRVS" else "FT_CCLD_UNPR3") rec;
  Some (if ccld_qty <=? 0 then (SUBMITTED, 0, fzero)
        else if ord_qty <=? ccld_qty then (FILLED, ccld_qty, avg_price)
        else (PARTIAL, ccld_qty, avg_price)).

(** * Statements *)

Definition set_fill (new_status : OrderStatus) (qty : Z) (px : float) (filled_at : option Z)
    (r : OrderRow) : OrderRow := {|
  row_ticker := r.(row_ticker); row_market := r.(row_market); row_status := value new_status;
  row_filled_quantity := qty; row_filled_price := px;
  row_filled_at := match filled_at with Some t => Some t | None => r.(row_filled_at) end;
  row_created_at := r.(row_created_at) |}.

(** [UPDATE orders SET ... WHERE order_id = :order_id AND status = :current_status],
    and whether a row was updated *)
Definition update_where (order_id current : string) (new_status : OrderStatus) (qty : Z) (px : float)
    (filled_at : option Z) (t : Table) : Table * bool :=
  match t !! order_id with
  | Some r =>
      if bool_decide (r.(row_status) = current)
      then (<[order_id := set_fill new_status qty px filled_at r]> t, true)
      else (t, false)
  | None => (t, false)
  end.

(** [UPDATE orders SET status = 'CANCELLED' WHERE order_id = :order_id] *)
Definition set_cancelled (r : OrderRow) : OrderRow := {|
  row_ticker := r.(row_ticker); row_market := r.(row_market); row_status := "CANCELLED";
  row_filled_quantity := r.(row_filled_quantity); row_filled_price := r.(row_filled_price);
  row_filled_at := r.(row_filled_at); row_created_at := r.(row_created_at) |}.
Definition update_cancelled (order_id : string) (t : Table) : Table := alter set_cancelled order_id t.

(** [ORDER BY created_at] *)
Definition older (a b : string * OrderRow) : Prop := a.2.(row_created_at) ≤ b.2.(row_created_at).
#[global] Instance older_dec a b : Decision (older a b).
Proof. unfold older. apply _. Defined.
Definition by_created (t : Table) : list (string * OrderRow) := merge_sort older (map_to_list t).

Definition select_submitted (today : Z → bool) (t : Table) : list (string * OrderRow) :=
  filter (λ kr, kr.2.(row_status) = "SUBMITTED" ∧ today kr.2.(row_created_at) = true) (by_created t).

(** [... WHERE ticker = :ticker AND status = 'SUBMITTED' ORDER BY created_at DESC LIMIT 1] *)
Definition newest_submitted (ticker : string) (t : Table) : option (string * OrderRow) :=
  last (filter (λ kr, kr.2.(row_ticker) = ticker ∧ kr.2.(row_status) = "SUBMITTED") (by_created t)).

Module SettlementPoller.
Section Settlement.
Context {W : Type} (inquire_kr_daily_ccld inquire_us_ccld : M W unit (list CcldRecord)).
Context (interleave : nat → Table → Table) (today : Z → bool) (now : Z).

Record World := {
  orders : Table;
  rejects : Rejects;
  kis : W;
  faults : list bool;
  ticks : nat;
}.

Abbreviation Settle := (M World SettleExn).

Definition set_orders (t : Table) (w : World) : World := {|
  orders := t; rejects := w.(rejects); kis := w.(kis); faults := w.(faults); ticks := w.(ticks) |}.
Definition set_rejects (c : Rejects) (w : World) : World := {|
  orders := w.(orders); rejects := c; kis := w.(kis); faults := w.(faults); ticks := w.(ticks) |}.
Definition set_kis (b : W) (w : World) : World := {|
  orders := w.(orders); rejects := w.(rejects); kis := b; faults := w.(faults); ticks := w.(ticks) |}.

(** An [await]: the other tasks run. *)
Definition pause : Settle unit := modify (λ w, {|
  orders := interleave w.(ticks) w.(orders); rejects := w.(rejects); kis := w.(kis);
  faults := w.(faults); ticks := S w.(ticks) |}).

(** One statement in its own transaction; a failure leaves the table alone. *)
Definition execute {A} (stmt : Table → Table * A) : Settle A := λ w,
  let '(r, t) := match w.(faults) with
    | true :: _ => (Err DbError, w.(orders))
    | _ => let '(t, a) := stmt w.(orders) in (Ok a, t)
    end in
  (r, {| orders := t; rejects := w.(rejects); kis := w.(kis); faults := tail w.(faults);
         ticks := w.(ticks) |}).
Definition session {A} (stmt : Table → Table * A) : Settle A := pause ;; execute stmt.
Definition query {A} (q : Table → A) : Settle A := session (λ t, (t, q t)).

Definition parse_status (raw : string) : Settle OrderStatus :=
  match parse_order_status raw with Ok s => mret s | Err e => raise (UnknownStatus e) end.

(** [response.get("output1", [])]; a failed inquiry is an empty answer. *)
Definition _fetch_kis_ccld_records (market : string) : Settle (list CcldRecord) :=
  pause ;;
  try_except
    (zoom kis set_kis (with_err (λ _, BrokerDown)
      (if bool_decide (market = "KRX") then inquire_kr_daily_ccld else inquire_us_ccld)))
    (λ _ : SettleExn, mret []).

(** The guards of [_update_order_status]: is there anything to write? *)
Definition update_guard (order_id current_status_str : string) (new_status : OrderStatus) : Settle bool :=
  current_status ← parse_status current_status_str;
  if is_terminal_order_state current_status then mret false
  else if bool_decide (current_status = new_status) && bool_decide (new_status = SUBMITTED)
  then mret false
  else
    zoom rejects set_rejects (with_err TransitionRejected
      (assert_order_transition current_status new_status (Some order_id))) ;;
    mret true.

Definition _update_order_status (order_id current_status_str : string) (new_status : OrderStatus)
    (filled_quantity : Z) (filled_price : float) : Settle bool :=
  go ← update_guard order_id current_status_str new_status;
  if go : bool then
    session (update_where order_id current_status_str new_status filled_quantity filled_price
      (if bool_decide (new_status = FILLED) then Some now else None))
  else mret false.

Definition parse_ccld (rec : CcldRecord) (market : string) : Settle (OrderStatus * Z * float) :=
  match _parse_ccld_status rec market with Some x => mret x | None => raise NumberError end.

(** One attempt after its sleep: [true] is a [return]. *)
Definition poll_attempt (order_id ticker market : string) : Settle bool :=
  row ← query (λ t, row_status <$> t !! order_id);
  match row with
  | None => mret true
  | Some current_status =>
      current ← parse_status current_status;
      if is_terminal_order_state current then mret true else
      records ← _fetch_kis_ccld_records market;
      match _match_ccld_record records order_id ticker with
      | Some matched =>
          '(new_status, filled_qty, filled_price) ← parse_ccld matched market;
          if negb (bool_decide (new_status = SUBMITTED)) then
            _update_order_status order_id current_status new_status filled_qty filled_price ;;
            mret true
          else mret false
      | None => mret false
      end
  end.

(** [for attempt in range(1, max_retries + 1)] *)
Fixpoint poll_after_execution (order_id ticker market : string) (max_retries : nat) : Settle unit :=
  match max_retries with
  | O => mret tt
  | S n =>
      pause ;;
      finished ← try_except (poll_attempt order_id ticker market) (λ _ : SettleExn, mret false);
      if finished : bool then mret tt else poll_after_execution order_id ticker market n
  end.

Record Stats := { checked : Z; updated : Z; errors : Z }.
Definition count_checked (s : Stats) : Stats :=
  {| checked := s.(checked) + 1; updated := s.(updated); errors := s.(errors) |}.
Definition count_updated (s : Stats) : Stats :=
  {| checked := s.(checked); updated := s.(updated) + 1; errors := s.(errors) |}.
Definition count_error (s : Stats) : Stats :=
  {| checked := s.(checked); updated := s.(updated); errors := s.(errors) + 1 |}.

(** [market_records]: the answers fetched so far, by market *)
Abbreviation Cache := (gmap string (list CcldRecord)).

Definition cached_records (market_key : string) (cache : Cache) : Settle (list CcldRecord * Cache) :=
  match cache !! market_key with
  | Some records => mret (records, cache)
  | None =>
      records ← _fetch_kis_ccld_records market_key;
      mret (records, <[market_key := records]> cache)
  end.

(** The update of one order, given the records: was a row updated? *)
Definition reconcile_one (order_id : string) (r : OrderRow) (records : list CcldRecord) : Settle bool :=
  match _match_ccld_record records order_id r.(row_ticker) with
  | Some matched =>
      '(new_status, filled_qty, filled_price) ← parse_ccld matched r.(row_market);
      if negb (bool_decide (new_status = SUBMITTED)) then
        _update_order_status order_id r.(row_status) new_status filled_qty filled_price
      else mret false
  | None => mret false
  end.

Fixpoint reconcile_loop (rows : list (string * OrderRow)) (cache : Cache) (stats : Stats) : Settle Stats :=
  match rows with
  | [] => mret stats
  | (order_id, r) :: rows' =>
      let stats := count_checked stats in
      let market_key := if bool_decide (r.(row_market) = "KRX") then "KRX" else "US" in
      '(records, cache) ← cached_records market_key cache;
      stats ← try_except
        (updated ← reconcile_one order_id r records;
         mret (if updated : bool then count_updated stats else stats))
        (λ _ : SettleExn, mret (count_error stats));
      reconcile_loop rows' cache stats
  end.

Definition reconcile_all_submitted : Settle Stats :=
  submitted_orders ← query (select_submitted today);
  reconcile_loop submitted_orders ∅ {| checked := 0; updated := 0; errors := 0 |}.

(** * Execution notices *)

Definition _find_order_by_kis_order_no (kis_order_no ticker : string) : Settle (option (string * string)) :=
  row ← query (λ t, t !! kis_order_no);
  match row with
  | Some r => mret (Some (kis_order_no, r.(row_status)))
  | None =>
      row ← query (newest_submitted ticker);
      mret ((λ kr : string * OrderRow, (kr.1, kr.2.(row_status))) <$> row)
  end.

Definition handle_execution_notice (notice : RealtimeExecutionNotice) : Settle unit :=
  if negb notice.(is_filled) then mret tt else
  if notice.(is_rejected) then mret tt else
  order_row ← _find_order_by_kis_order_no notice.(order_no) notice.(notice_ticker);
  match order_row with
  | None => mret tt
  | Some (order_id, current_status) =>
      let update s := _update_order_status order_id current_status s notice.(filled_qty) notice.(filled_price) in
      if (0 <? notice.(order_qty)) && (notice.(order_qty) <=? notice.(filled_qty)) then
        update FILLED ;; mret tt
      else if 0 <? notice.(filled_qty) then update PARTIAL ;; mret tt
      else mret tt
  end.

(** * Cancelling *)

Inductive CancelResponse :=
  | Cancelled
  | NotFound
  | OrderStoreUnavailable
  | InvalidTransition (current : option OrderStatus) (target : OrderStatus)
  | AuditUnavailable
  | CancelFailed.

(** [try: assert_can_cancel except InvalidOrderTransition] *)
Definition cancel_guard (order_id : string) (current : OrderStatus) :
    Settle (option InvalidOrderTransition) :=
  zoom rejects set_rejects (try_except
    (assert_can_cancel current (Some order_id) ;; mret None)
    (λ e : InvalidOrderTransition, mret (Some e))).

(** [audit_ok]: does the strict audit record of the cancellation get written? *)
Definition cancel_order (audit_ok : bool) (order_id : string) : M World Empty_set CancelResponse :=
  try_except
    (row ← query (λ t, row_status <$> t !! order_id);
     match row with
     | None => mret NotFound
     | Some current_status_raw =>
         match parse_order_status current_status_raw with
         | Err _ => mret OrderStoreUnavailable
         | Ok current_status =>
             refused ← cancel_guard order_id current_status;
             match refused with
             | Some e => mret (InvalidTransition e.(from_state) e.(to_state))
             | None =>
                 session (λ t, (update_cancelled order_id t, tt)) ;;
                 pause ;;
                 mret (if audit_ok then Cancelled else AuditUnavailable)
             end
         end
     end)
    (λ _ : SettleExn, mret CancelFailed).

(** * What the tasks do to the table *)

(** [tracks R m]: the table moves by steps of [R], whatever [m] returns. *)
Definition tracks {E A} (R : Table → Table → Prop) (m : M World E A) : Prop :=
  ∀ w, steps R w.(orders) (after m w).(orders).

Lemma tracks_silent {E A} R (m : M World E A) :
  (∀ w, (after m w).(orders) = w.(orders)) → tracks R m.
Proof. intros Hm w. rewrite Hm. constructor. Qed.

Lemma tracks_weaken {E A} (R R' : Table → Table → Prop) (m : M World E A) :
  (∀ t t', R t t' → R' t t') → tracks R m → tracks R' m.
Proof. intros HR Hm w. specialize (Hm w). induction Hm; econstructor; eauto. Qed.

Lemma tracks_bind {E A B} R (m : M World E A) (k : A → M World E B) :
  tracks R m → (∀ a, tracks R (k a)) → tracks R (m ≫= k).
Proof.
  intros Hm Hk w. specialize (Hm w). unfold after, mbind, M_bind in *.
  destruct (m w) as [[a|e] w1]; [|done]. eapply steps_trans; [exact Hm|]. apply (Hk a w1).
Qed.

Lemma tracks_try {E E' A} R (m : M World E A) (h : E → M World E' A) :
  tracks R m → (∀ e, tracks R (h e)) → tracks R (try_except m h).
Proof.
  intros Hm Hk w. specialize (Hm w). unfold after, try_except in *.
  destruct (m w) as [[a|e] w1]; [done|]. eapply steps_trans; [exact Hm|]. apply (Hk e w1).
Qed.

Lemma tracks_ret {E A} R (a : A) : tracks (E:=E) R (mret a).
Proof. by apply tracks_silent. Qed.

Lemma tracks_raise {E A} R (e : E) : tracks (A:=A) R (raise e).
Proof. by apply tracks_silent. Qed.

Lemma tracks_rejects {E A} (R : Table → Table → Prop) (m : M (gmap (string * string) Z) E A) :
  tracks R (zoom rejects set_rejects m).
Proof. apply tracks_silent. intros w. unfold zoom, after. by destruct (m _). Qed.

Lemma tracks_kis {E A} (R : Table → Table → Prop) (m : M W E A) : tracks R (zoom kis set_kis m).
Proof. apply tracks_silent. intros w. unfold zoom, after. by destruct (m _). Qed.

(** Other tasks *)
Definition interferes (t t' : Table) : Prop := ∃ n, t' = interleave n t.

(** A legal status update of one order *)
Definition cas_step (order_id : string) (t t' : Table) : Prop := ∃ r s s' qty px filled_at,
  t !! order_id = Some r ∧ parse_order_status r.(row_status) = Ok s ∧ transition s s' ∧
  t' = <[order_id := set_fill s' qty px filled_at r]> t.

Definition settles (P : string → Prop) (t t' : Table) : Prop :=
  interferes t t' ∨ ∃ order_id, P order_id ∧ cas_step order_id t t'.

Lemma tracks_pause P : tracks (settles P) pause.
Proof. intros w. eapply steps_cons; [|constructor]. left. by exists w.(ticks). Qed.

Lemma tracks_query {A} P (q : Table → A) : tracks (settles P) (query q).
Proof.
  apply tracks_bind; [apply tracks_pause|]. intros _. apply tracks_silent. intros w.
  unfold execute, after. by destruct w.(faults) as [|[] ?].
Qed.

Lemma tracks_fetch P market : tracks (settles P) (_fetch_kis_ccld_records market).
Proof.
  apply tracks_bind; [apply tracks_pause|]. intros _.
  apply tracks_try; [apply tracks_kis|intros; apply tracks_ret].
Qed.

Lemma tracks_parse P raw : tracks (settles P) (parse_status raw).
Proof. apply tracks_silent. intros w. unfold parse_status. by destruct (parse_order_status raw). Qed.

Lemma tracks_guard P order_id raw s : tracks (settles P) (update_guard order_id raw s).
Proof.
  apply tracks_bind; [apply tracks_parse|]. intros cur.
  destruct (is_terminal_order_state cur); [apply tracks_ret|]. destruct (_ && _); [apply tracks_ret|].
  apply tracks_bind; [apply tracks_rejects|]. intros _. apply tracks_ret.
Qed.

Lemma update_guard_ok order_id raw s w w1 :
  update_guard order_id raw s w = (Ok true, w1) →
  w1 = w ∧ ∃ cur, parse_order_status raw = Ok cur ∧ transition cur s.
Proof.
  unfold update_guard, parse_status. destruct (parse_order_status raw) as [cur|]; [|done].
  run_m. destruct (is_terminal_order_state cur); [done|]. destruct (_ && _); [done|].
  destruct (can_transition_order cur s) eqn:Ht.
  - rewrite assert_order_transition_ok by done. intros [= <-]. split; [by destruct w|]. by exists cur.
  - by rewrite assert_order_transition_err.
Qed.

Lemma tracks_update (P : string → Prop) order_id raw s qty px :
  P order_id → tracks (settles P) (_update_order_status order_id raw s qty px).
Proof.
  intros HP w. unfold _update_order_status, after, mbind, M_bind.
  pose proof (tracks_guard P order_id raw s w) as Hg. unfold after in Hg.
  destruct (update_guard order_id raw s w) as [[[]|e] w1] eqn:E; [|done..].
  apply update_guard_ok in E as (-> & cur & Hcur & Ht). clear Hg.
  unfold session, execute, mbind, M_bind, pause, modify. cbn.
  eapply steps_cons; [left; by exists w.(ticks)|].
  destruct w.(faults) as [|[] fs]; try (by constructor);
    unfold update_where; destruct (interleave _ _ !! order_id) as [r|] eqn:Hr; try (by constructor);
    case_bool_decide; subst; try (by constructor); cbn;
    (eapply steps_cons; [|constructor]); right; exists order_id; (split; [done|]);
    by exists r, cur, s, qty, px, (if bool_decide (s = FILLED) then Some now else None).
Qed.

Create HintDb settle discriminated.
#[local] Hint Resolve tracks_ret tracks_raise tracks_pause tracks_query tracks_fetch tracks_parse
  tracks_guard tracks_update tracks_rejects tracks_kis : settle.

Ltac tracks_walk :=
  repeat first
    [ progress intros
    | solve [eauto with settle]
    | apply tracks_bind | apply tracks_try
    | case_match ].

Lemma tracks_parse_ccld P rec market : tracks (settles P) (parse_ccld rec market).
Proof. unfold parse_ccld. tracks_walk. Qed.
#[local] Hint Resolve tracks_parse_ccld : settle.

Lemma tracks_attempt order_id ticker market :
  tracks (settles (eq order_id)) (poll_attempt order_id ticker market).
Proof. unfold poll_attempt. tracks_walk. Qed.
#[local] Hint Resolve tracks_attempt : settle.

Lemma tracks_poll order_id ticker market n :
  tracks (settles (eq order_id)) (poll_after_execution order_id ticker market n).
Proof. induction n as [|n IH]; cbn [poll_after_execution]; tracks_walk. Qed.

Lemma tracks_reconcile_one (P : string → Prop) order_id r records :
  P order_id → tracks (settles P) (reconcile_one order_id r records).
Proof. intros HP. unfold reconcile_one. tracks_walk. Qed.
#[local] Hint Resolve tracks_reconcile_one : settle.

Lemma tracks_cached P key cache : tracks (settles P) (cached_records key cache).
Proof. unfold cached_records. tracks_walk. Qed.
#[local] Hint Resolve tracks_cached : settle.

Lemma tracks_reconcile_loop (P : string → Prop) rows cache stats :
  Forall P rows.*1 → tracks (settles P) (reconcile_loop rows cache stats).
Proof.
  revert cache stats. induction rows as [|[oid r] rows IH]; intros cache stats HP;
    cbn [reconcile_loop]; [apply tracks_ret|]. apply Forall_cons_1 in HP as [HP HPs].
  apply tracks_bind; [apply tracks_cached|]. intros [records cache'].
  apply tracks_bind; [|intros; by apply IH]. apply tracks_try; tracks_walk.
Qed.

Lemma tracks_notice notice : tracks (settles (λ _, True)) (handle_execution_notice notice).
Proof. unfold handle_execution_notice, _find_order_by_kis_order_no. tracks_walk. Qed.

(** ** Settlement respects the order life cycle *)

Definition row_step (r r' : OrderRow) : Prop := ∃ s s',
  parse_order_status r.(row_status) = Ok s ∧ parse_order_status r'.(row_status) = Ok s' ∧
  transition s s'.

(** Every order is still there, and its row is the same or has gone through
    legal transitions. *)
Definition advances (t t' : Table) : Prop := ∀ order_id r,
  t !! order_id = Some r → ∃ r', t' !! order_id = Some r' ∧ steps row_step r r'.

Lemma advances_refl t : advances t t.
Proof. intros oid r Hr. exists r. split; [done|constructor]. Qed.

Lemma advances_trans t1 t2 t3 : advances t1 t2 → advances t2 t3 → advances t1 t3.
Proof.
  intros H1 H2 oid r Hr. destruct (H1 oid r Hr) as (r' & Hr' & S1).
  destruct (H2 oid r' Hr') as (r'' & Hr'' & S2). exists r''. split; [done|]. by eapply steps_trans.
Qed.

Lemma parse_value s : parse_order_status (value s) = Ok s.
Proof. by destruct s. Qed.

Lemma cas_step_advances order_id t t' : cas_step order_id t t' → advances t t'.
Proof.
  intros (r & s & s' & qty & px & fa & Hr & Hs & Ht & ->) oid r0 Hr0.
  destruct (decide (oid = order_id)) as [->|Hne].
  - simplify_eq. eexists. rewrite lookup_insert_eq. split; [done|].
    eapply steps_cons; [|constructor]. exists s, s'. split_and!; [done| |done].
    apply parse_value.
  - rewrite lookup_insert_ne by done. exists r0. split; [done|constructor].
Qed.

Lemma settles_advance P t t' :
  (∀ n t, advances t (interleave n t)) → steps (settles P) t t' → advances t t'.
Proof.
  intros Henv. induction 1 as [t|t1 t2 t3 [[n ->]|(oid & _ & Hc)] _ IH]; [apply advances_refl|..].
  - by eapply advances_trans.
  - eapply advances_trans; [by eapply cas_step_advances|done].
Qed.

(** The tasks that settle orders *)
Inductive settle_task :=
  | Poll (order_id ticker market : string) (max_retries : nat)
  | Update (order_id current : string) (new_status : OrderStatus) (qty : Z) (px : float)
  | Notice (raw : list string) (is_overseas : bool)
  | Reconcile.

Definition perform (task : settle_task) (w : World) : World :=
  match task with
  | Poll order_id ticker market n => after (poll_after_execution order_id ticker market n) w
  | Update order_id current s qty px => after (_update_order_status order_id current s qty px) w
  | Notice raw overseas => after (handle_execution_notice (parse_notice raw overseas)) w
  | Reconcile => after reconcile_all_submitted w
  end.

Lemma perform_settles task w : steps (settles (λ _, True)) w.(orders) (perform task w).(orders).
Proof.
  destruct task; cbn [perform].
  - apply (tracks_weaken (settles (eq order_id))); [|apply tracks_poll].
    intros t t' [H|(oid & _ & H)]; [by left|right; by exists oid].
  - by apply tracks_update.
  - apply tracks_notice.
  - unfold reconcile_all_submitted. apply tracks_bind; [apply tracks_query|]. intros rows.
    apply tracks_reconcile_loop. by apply Forall_forall.
Qed.

(** C3. Settlement respects the order life cycle.  Polls, execution notices,
    status updates and the reconciliation sweep, in any number and order, with
    other tasks running at every await and any session or inquiry failing, lose
    no order and move each row only along legal transitions, provided those
    other tasks do; then a FILLED, CANCELLED or FAILED row is never touched again.
    The tasks named here may be such other tasks, since they do.  [cancel_order]
    does not: it writes without checking again ([cancel_overwrites_fill]). *)
Theorem settlement_respects_lifecycle (tasks : list settle_task) (w : World)
    (Henv : ∀ n t, advances t (interleave n t)) :
  let t' := (run_ops perform tasks w).(orders) in
  advances w.(orders) t' ∧
  ∀ order_id r s, w.(orders) !! order_id = Some r → parse_order_status r.(row_status) = Ok s →
    is_terminal_order_state s = true → t' !! order_id = Some r.
Proof.
  intros t'. assert (advances w.(orders) t') as Hadv.
  { apply (run_ops_invariant perform (λ w', advances w.(orders) w'.(orders))); [|apply advances_refl].
    intros task w' Hw'. eapply advances_trans; [exact Hw'|].
    eapply settles_advance; [done|apply perform_settles]. }
  split; [done|]. intros oid r s Hr Hs Hterm. destruct (Hadv oid r Hr) as (r' & Hr' & Hsteps).
  destruct Hsteps as [r|r r1 r2 (s1 & s2 & E1 & _ & Ht) _]; [done|].
  assert (s1 = s) as -> by congruence. unfold transition in Ht.
  by rewrite (terminal_no_successor s s2 Hterm) in Ht.
Qed.

(** ** One status update *)

(** A status update decides on the status the caller saw and writes with a
    compare-and-swap on it: an unknown status raises, a terminal one and
    SUBMITTED to SUBMITTED are skipped, an illegal transition (also PARTIAL to
    PARTIAL, a second partial fill) raises and is counted, and otherwise exactly
    this row is written, if it still has the status seen when the write runs. *)
Theorem update_order_status_decides (order_id raw : string) (new_status : OrderStatus) (qty : Z)
    (px : float) (w : World) :
  let m := _update_order_status order_id raw new_status qty px in
  let w' := after m w in
  let t := interleave w.(ticks) w.(orders) in
  match parse_order_status raw with
  | Err _ => outcome m w = Err (UnknownStatus raw) ∧ w' = w
  | Ok current =>
      if is_terminal_order_state current ||
         bool_decide (current = SUBMITTED ∧ new_status = SUBMITTED) then
        outcome m w = Ok false ∧ w' = w
      else if negb (can_transition_order current new_status) then
        outcome m w = Err (TransitionRejected {| from_state := Some current; to_state := new_status;
          exc_order_id := Some order_id |}) ∧
        w' = set_rejects (inc_reject current new_status w.(rejects)) w
      else if default false (head w.(faults)) then outcome m w = Err DbError ∧ w'.(orders) = t
      else
        let hit := bool_decide (row_status <$> t !! order_id = Some raw) in
        outcome m w = Ok hit ∧ w'.(rejects) = w.(rejects) ∧
        w'.(orders) = if hit then
          alter (set_fill new_status qty px (if bool_decide (new_status = FILLED) then Some now else None))
            order_id t
        else t
  end.
Proof.
  cbv zeta. unfold _update_order_status, update_guard, parse_status, parse_order_status.
  destruct (of_value raw) as [current|] eqn:Hraw; [|by destruct w].
  destruct (is_terminal_order_state current) eqn:Hterm; [unfold outcome, after; run_m; rewrite Hterm; by destruct w|].
  cbn [orb]. assert (bool_decide (current = SUBMITTED ∧ new_status = SUBMITTED) =
    bool_decide (current = new_status) && bool_decide (new_status = SUBMITTED)) as ->
    by (destruct current, new_status; reflexivity).
  run_m. rewrite Hterm. destruct (_ && _) eqn:Hsame; [by destruct w|].
  destruct (can_transition_order current new_status) eqn:Ht; cbn [negb].
  2: { rewrite assert_order_transition_err by done. done. }
  rewrite assert_order_transition_ok by done. unfold session, execute, pause, update_where. run_m. cbn.
  destruct w as [t c b fs n]; cbn. destruct fs as [|[] fs]; cbn; [|done|];
    (destruct (interleave n t !! order_id) as [r|] eqn:Hr; cbn;
      [|rewrite bool_decide_false by done; done]);
    (destruct (decide (row_status r = raw)) as [->|Hne];
      [rewrite (bool_decide_true (raw = raw)), (bool_decide_true (Some raw = Some raw)) by done
      |rewrite (bool_decide_false (row_status r = raw)), (bool_decide_false (Some _ = Some _)) by congruence;
       done]);
    (split_and!; [done|done|]); cbn;
    (apply map_eq; intros oid; rewrite lookup_insert, lookup_alter; repeat case_decide; simplify_eq; rewrite ?Hr; done).
Qed.

(** ** Polling one order *)

(** Only other tasks move the table. *)
Definition others : Table → Table → Prop := settles (λ _, False).

(** [m] leaves the table to the other tasks, or its last move is one legal
    update of the order, after which it returns an [a] with [fin a]. *)
Definition one_write {A} (order_id : string) (fin : A → bool) (m : Settle A) : Prop := ∀ w,
  steps others w.(orders) (after m w).(orders) ∨
  ∃ t a, steps others w.(orders) t ∧ cas_step order_id t (after m w).(orders) ∧
    outcome m w = Ok a ∧ fin a = true.

Lemma one_write_others {A} order_id fin (m : Settle A) : tracks others m → one_write order_id fin m.
Proof. intros Hm w. left. apply Hm. Qed.

Lemma one_write_bind {A B} order_id fin (m : Settle A) (k : A → Settle B) :
  tracks others m → (∀ a, one_write order_id fin (k a)) → one_write order_id fin (m ≫= k).
Proof.
  intros Hm Hk w. specialize (Hm w). unfold one_write, after, outcome, mbind, M_bind in *.
  destruct (m w) as [[a|e] w1]; cbn in *; [|by left].
  destruct (Hk a w1) as [H|(t & b & H & Hc & E & Hf)]; [left|right].
  - by eapply steps_trans.
  - exists t, b. split; [by eapply steps_trans|done].
Qed.

Lemma one_write_update order_id raw s qty px :
  one_write order_id (λ b, b) (_update_order_status order_id raw s qty px).
Proof.
  intros w. unfold _update_order_status, after, outcome, mbind, M_bind.
  pose proof (tracks_guard (λ _, False) order_id raw s w) as Hg. unfold after in Hg.
  destruct (update_guard order_id raw s w) as [[[]|e] w1] eqn:E; [|by left..].
  apply update_guard_ok in E as (-> & cur & Hcur & Ht). clear Hg.
  assert (steps others w.(orders) (interleave w.(ticks) w.(orders))) as Hs.
  { eapply steps_cons; [|constructor]. left. by exists w.(ticks). }
  unfold session, execute, mbind, M_bind, pause, modify, update_where. cbn.
  destruct w.(faults) as [|[] fs]; cbn; try (by left);
    (destruct (interleave _ _ !! order_id) as [r|] eqn:Hr; [|by left]);
    (case_bool_decide; [|by left]); subst; right;
    exists (interleave w.(ticks) w.(orders)), true; (split_and!; [done| |done|done]);
    by exists r, cur, s, qty, px, (if bool_decide (s = FILLED) then Some now else None).
Qed.

Lemma one_write_then {A B} order_id fin fin' (m : Settle A) (k : A → B) :
  one_write order_id fin m → (∀ a, fin' (k a) = true) → one_write order_id fin' (a ← m; mret (k a)).
Proof.
  intros Hm Hk w. destruct (Hm w) as [H|(t & a & H & Hc & E & _)]; unfold after, outcome, mbind, M_bind in *;
    destruct (m w) as [[b|e] w1]; cbn in *; simplify_eq; [by left..|].
  right. exists t, (k a). by split_and!.
Qed.

Lemma one_write_attempt order_id ticker market :
  one_write order_id (λ b, b) (poll_attempt order_id ticker market).
Proof.
  unfold poll_attempt. apply one_write_bind; [apply tracks_query|]. intros [raw|];
    [|apply one_write_others, tracks_ret].
  apply one_write_bind; [apply tracks_parse|]. intros cur.
  destruct (is_terminal_order_state cur); [apply one_write_others, tracks_ret|].
  apply one_write_bind; [apply tracks_fetch|]. intros records.
  destruct (_match_ccld_record records order_id ticker) as [rec|]; [|apply one_write_others, tracks_ret].
  apply one_write_bind; [apply tracks_parse_ccld|]. intros [[s qty] px].
  destruct (negb _); [|apply one_write_others, tracks_ret].
  eapply one_write_then; [apply one_write_update|done].
Qed.

(** A settlement poll never raises, whatever fails, and writes at most once:
    the table moves by the other tasks only, except that the poll's last action
    can be one legal transition of its own order. *)
Theorem poll_writes_once (order_id ticker market : string) (max_retries : nat) (w : World) :
  let m := poll_after_execution order_id ticker market max_retries in
  outcome m w = Ok tt ∧
  (steps others w.(orders) (after m w).(orders) ∨
   ∃ t, steps others w.(orders) t ∧ cas_step order_id t (after m w).(orders)).
Proof.
  cbv zeta. revert w. induction max_retries as [|n IH]; intros w; cbn [poll_after_execution].
  { split; [done|]. left. constructor. }
  pose proof (tracks_pause (λ _, False) w) as Hp. pose proof (one_write_attempt order_id ticker market) as Ha.
  unfold outcome, after, mbind, M_bind, try_except in *. cbn [pause modify] in *.
  set (w1 := {| orders := interleave _ _ |}) in *. specialize (Ha w1). unfold after, outcome in Ha. cbn in Hp.
  assert (∀ w2, steps others w1.(orders) w2.(orders) → ∀ x,
    x = poll_after_execution order_id ticker market n w2 →
    x.1 = Ok tt ∧ (steps others w.(orders) x.2.(orders) ∨
      ∃ t, steps others w.(orders) t ∧ cas_step order_id t x.2.(orders))) as Hrest.
  { intros w2 Hs x ->. destruct (IH w2) as [E [H|(t & H & Hc)]]; (split; [done|]).
    - left. eapply steps_trans; [exact Hp|]. by eapply steps_trans.
    - right. exists t. split; [|done]. eapply steps_trans; [exact Hp|]. by eapply steps_trans. }
  destruct (poll_attempt order_id ticker market w1) as [[[]|e] w2]; cbn in *.
  - split; [done|]. destruct Ha as [H|(t & a & H & Hc & _)]; [left|right].
    + by eapply steps_trans.
    + exists t. split; [|done]. by eapply steps_trans.
  - destruct Ha as [H|(t & a & _ & _ & E & Hf)]; [by eapply Hrest|by simplify_eq].
  - destruct Ha as [H|(t & a & _ & _ & E & _)]; [by eapply Hrest|done].
Qed.

(** ** Reconciliation of the submitted orders *)

(** What the broker's records say of an order: nothing new, a fill, or numbers
    that cannot be read. *)
Definition verdict (order_id : string) (r : OrderRow) (records : list CcldRecord) :
    result unit (option (OrderStatus * Z * float)) :=
  match _match_ccld_record records order_id r.(row_ticker) with
  | None => Ok None
  | Some matched =>
      match _parse_ccld_status matched r.(row_market) with
      | None => Err tt
      | Some (SUBMITTED, _, _) => Ok None
      | Some fill => Ok (Some fill)
      end
  end.

Definition settle_row (v : result unit (option (OrderStatus * Z * float))) (r : OrderRow) : OrderRow :=
  match v with
  | Ok (Some (s, qty, px)) => set_fill s qty px (if bool_decide (s = FILLED) then Some now else None) r
  | _ => r
  end.

Definition tally (v : result unit (option (OrderStatus * Z * float))) (s : Stats) : Stats :=
  let s := count_checked s in
  match v with Ok (Some _) => count_updated s | Ok None => s | Err _ => count_error s end.

Lemma parse_ccld_status_cases rec market s qty px :
  _parse_ccld_status rec market = Some (s, qty, px) → s = SUBMITTED ∨ s = FILLED ∨ s = PARTIAL.
Proof.
  unfold _parse_ccld_status. cbv zeta.
  generalize (int_field (if bool_decide (market = "KRX") then "ORD_QTY" else "FT_ORD_QTY") rec).
  generalize (int_field (if bool_decide (market = "KRX") then "TOT_CCLD_QTY" else "FT_CCLD_QTY") rec).
  generalize (float_field (if bool_decide (market = "KRX") then "AVG_PRVS" else "FT_CCLD_UNPR3") rec).
  intros [p|] [c|] [o|]; cbn; try done.
  destruct (c <=? 0); [intros [= <- _ _]; auto|]. destruct (o <=? c); intros [= <- _ _]; auto.
Qed.

Section Quiet.
Context (Hquiet : ∀ n t, interleave n t = t).
Context (kr us : result unit (list CcldRecord)).
Context (Hkr : ∀ b, outcome inquire_kr_daily_ccld b = kr) (Hus : ∀ b, outcome inquire_us_ccld b = us).

Definition answer (r : result unit (list CcldRecord)) : list CcldRecord :=
  match r with Ok l => l | Err _ => [] end.
Definition records_for (key : string) : list CcldRecord :=
  answer (if bool_decide (key = "KRX") then kr else us).

(** [w'] differs from [w] in the table at most, and nothing will fail. *)
Definition calm (t : Table) (w : World) : Prop := w.(orders) = t ∧ w.(faults) = [].

Lemma fetch_calm market t w :
  calm t w → ∃ w', _fetch_kis_ccld_records market w = (Ok (records_for market), w') ∧ calm t w'.
Proof.
  intros [Ho Hf]. unfold _fetch_kis_ccld_records, pause, records_for. run_m. cbn. rewrite Hquiet, Ho.
  destruct (bool_decide (market = "KRX"));
    [specialize (Hkr w.(kis)); unfold outcome in Hkr; destruct (inquire_kr_daily_ccld w.(kis)) as [[l|e] b]
    |specialize (Hus w.(kis)); unfold outcome in Hus; destruct (inquire_us_ccld w.(kis)) as [[l|e] b]];
    cbn in *; subst; eexists; (split; [reflexivity|by split]).
Qed.

Lemma cached_calm key cache t w :
  calm t w → (∀ k l, cache !! k = Some l → l = records_for k) →
  ∃ cache' w', cached_records key cache w = (Ok (records_for key, cache'), w') ∧ calm t w' ∧
    (∀ k l, cache' !! k = Some l → l = records_for k).
Proof.
  intros Hw Hc. unfold cached_records. destruct (cache !! key) as [l|] eqn:E.
  - exists cache, w. by rewrite (Hc key l E).
  - unfold mbind, M_bind. destruct (fetch_calm key t w Hw) as (w' & -> & Hw'). eexists _, w'.
    split; [reflexivity|]. split; [done|]. intros k l. rewrite lookup_insert.
    case_decide; [by intros [= <-]; subst|apply Hc].
Qed.

Lemma update_calm order_id r s qty px t w :
  calm t w → t !! order_id = Some r → r.(row_status) = "SUBMITTED" → s = FILLED ∨ s = PARTIAL →
  ∃ w', _update_order_status order_id "SUBMITTED" s qty px w = (Ok true, w') ∧
    calm (<[order_id := settle_row (Ok (Some (s, qty, px))) r]> t) w'.
Proof.
  intros [Ho Hf] Hr Hs Hs'.
  assert (update_guard order_id "SUBMITTED" s w = (Ok true, w)) as Hg
    by (unfold update_guard; run_m; destruct w, Hs' as [->| ->]; reflexivity).
  unfold _update_order_status, mbind, M_bind. rewrite Hg.
  unfold session, execute, pause, modify, mbind, M_bind, update_where; cbn.
  rewrite Hf, Hquiet, Ho. cbn. rewrite Hr, bool_decide_true by done. by eexists.
Qed.

Lemma reconcile_one_calm order_id r records t w :
  calm t w → t !! order_id = Some r → r.(row_status) = "SUBMITTED" →
  ∃ x w', reconcile_one order_id r records w = (x, w') ∧
    calm (<[order_id := settle_row (verdict order_id r records) r]> t) w' ∧
    match verdict order_id r records with
    | Ok None => x = Ok false | Ok (Some _) => x = Ok true | Err _ => x = Err NumberError end.
Proof.
  intros [Ho Hf] Hr Hs. unfold reconcile_one, verdict, parse_ccld.
  assert (<[order_id := r]> t = t) as Hid by by apply insert_id.
  destruct (_match_ccld_record records order_id r.(row_ticker)) as [rec|]; cbn [settle_row];
    [|by exists (Ok false), w; rewrite Hid].
  destruct (_parse_ccld_status rec r.(row_market)) as [[[s qty] px]|] eqn:Ep; cbn [settle_row];
    [|by exists (Err NumberError), w; rewrite Hid].
  apply parse_ccld_status_cases in Ep as [->|Hs']; [exists (Ok false), w; cbn; by rewrite Hid|].
  destruct (update_calm order_id r s qty px t w) as (w' & E & Hw'); [by split|done..|].
  exists (Ok true), w'. unfold mbind, M_bind, mret, M_ret. rewrite Hs.
  destruct Hs' as [->| ->]; rewrite bool_decide_false by done; cbn beta iota delta [negb]; by rewrite E.
Qed.

(** The orders to reconcile, with their rows *)
Definition pending (rows : list (string * OrderRow)) (t : Table) : Prop :=
  NoDup rows.*1 ∧ Forall (λ ir, t !! ir.1 = Some ir.2 ∧ ir.2.(row_status) = "SUBMITTED") rows.

Definition key_of (r : OrderRow) : string := if bool_decide (r.(row_market) = "KRX") then "KRX" else "US".
Definition verdict_of (ir : string * OrderRow) : result unit (option (OrderStatus * Z * float)) :=
  verdict ir.1 ir.2 (records_for (key_of ir.2)).

Lemma reconcile_loop_calm rows cache stats t w :
  calm t w → pending rows t → (∀ k l, cache !! k = Some l → l = records_for k) →
  ∃ t' w', reconcile_loop rows cache stats w = (Ok (foldl (λ s ir, tally (verdict_of ir) s) stats rows), w') ∧
    calm t' w' ∧
    ∀ oid, t' !! oid = match list_to_map (M:=gmap string OrderRow) rows !! oid with
      | Some r => Some (settle_row (verdict_of (oid, r)) r)
      | None => t !! oid end.
Proof.
  revert cache stats t w. induction rows as [|[oid r] rows IH]; intros cache stats t w Hw [Hnd Hrows] Hc;
    cbn [reconcile_loop foldl].
  { exists t, w. by rewrite list_to_map_nil. }
  apply Forall_cons_1 in Hrows as [[Hr Hs] Hrows]. apply NoDup_cons in Hnd as [Hni Hnd]. cbn in *.
  fold (key_of r). unfold mbind, M_bind.
  destruct (cached_calm (key_of r) cache t w Hw Hc) as (cache' & w1 & -> & Hw1 & Hc'). cbn.
  destruct (reconcile_one_calm oid r (records_for (key_of r)) t w1 Hw1 Hr Hs) as (x & w2 & E & Hw2 & Hx).
  change (verdict oid r (records_for (key_of r))) with (verdict_of (oid, r)) in *.
  destruct (IH cache' (tally (verdict_of (oid, r)) stats) _ w2 Hw2) as (t' & w' & E' & Hw' & Hl); [|done|].
  { split; [done|]. rewrite Forall_forall in *. intros ir Hin. destruct (Hrows ir Hin) as [? ?].
    split; [|done]. rewrite lookup_insert_ne; [done|]. intros ->. apply Hni. by apply (list_elem_of_fmap_2 fst). }
  exists t', w'. split_and!.
  - unfold try_except, mbind, M_bind, mret, M_ret. rewrite E, <- E'. unfold tally.
    destruct (verdict_of (oid, r)) as [[f|]|e]; by subst x.
  - done.
  - intros k. rewrite Hl. destruct (decide (k = oid)) as [->|Hne].
    + rewrite lookup_insert_eq. rewrite not_elem_of_list_to_map_1 by done. by rewrite lookup_insert_eq.
    + by rewrite !lookup_insert_ne by done.
Qed.

Lemma by_created_spec t oid r : (oid, r) ∈ by_created t ↔ t !! oid = Some r.
Proof. unfold by_created. by rewrite merge_sort_Permutation, elem_of_map_to_list. Qed.

Lemma select_submitted_spec t oid r :
  (oid, r) ∈ select_submitted today t ↔
  t !! oid = Some r ∧ r.(row_status) = "SUBMITTED" ∧ today r.(row_created_at) = true.
Proof. unfold select_submitted. rewrite list_elem_of_filter, by_created_spec. cbn. tauto. Qed.

Lemma select_submitted_NoDup t : NoDup (select_submitted today t).*1.
Proof.
  apply NoDup_fmap_2_strong.
  - intros [k r] [k' r'] H1 H2. cbn. intros <-.
    apply select_submitted_spec in H1 as [H1 _], H2 as [H2 _]. congruence.
  - apply NoDup_filter. unfold by_created. rewrite merge_sort_Permutation. apply NoDup_map_to_list.
Qed.

Lemma reconcile_calm t w :
  calm t w → ∃ t' w',
    reconcile_all_submitted w = (Ok (foldl (λ s ir, tally (verdict_of ir) s)
      {| checked := 0; updated := 0; errors := 0 |} (select_submitted today t)), w') ∧ calm t' w' ∧
    ∀ oid, t' !! oid = (λ r,
      if bool_decide (r.(row_status) = "SUBMITTED") && today r.(row_created_at)
      then settle_row (verdict_of (oid, r)) r else r) <$> t !! oid.
Proof.
  intros [Ho Hf]. unfold reconcile_all_submitted, query, session, execute, pause, modify, mbind, M_bind. cbn.
  rewrite Hf, Hquiet, Ho. cbn. match goal with |- context [reconcile_loop _ _ _ ?w0] => set (w1 := w0) end.
  destruct (reconcile_loop_calm (select_submitted today t) ∅ {| checked := 0; updated := 0; errors := 0 |} t w1)
    as (t' & w' & E & Hw' & Hl); [by split| |done|].
  { split; [apply select_submitted_NoDup|]. apply Forall_forall. intros [oid r] Hin.
    by apply select_submitted_spec in Hin as (? & ? & _). }
  exists t', w'. split; [exact E|]. split; [done|]. intros oid. rewrite Hl.
  destruct (list_to_map (select_submitted today t) !! oid) as [r|] eqn:Em.
  - apply elem_of_list_to_map_2, select_submitted_spec in Em as (-> & Hs & Ht). cbn.
    by rewrite bool_decide_true, Ht by done.
  - apply not_elem_of_list_to_map_2 in Em. destruct (t !! oid) as [r|] eqn:Er; [|done]. cbn.
    destruct (bool_decide (row_status r = "SUBMITTED") && today (row_created_at r)) eqn:Hb; [|done].
    exfalso. apply Em. apply andb_true_iff in Hb as [Hs Ht]. apply bool_decide_eq_true in Hs.
    apply (list_elem_of_fmap_2 fst _ (oid, r)). by apply select_submitted_spec.
Qed.
End Quiet.

Definition is_settled (v : result unit (option (OrderStatus * Z * float))) : bool := match v with Ok (Some _) => true | _ => false end.

(** Each order is counted once as checked, and as updated or as an error by its verdict. *)
Lemma tally_counts verdicts s :
  foldl (λ s v, tally v s) s verdicts = {|
    checked := s.(checked) + Z.of_nat (length verdicts);
    updated := s.(updated) + Z.of_nat (length (filter (λ v, is_settled v = true) verdicts));
    errors := s.(errors) + Z.of_nat (length (filter (λ v, is_ok v = false) verdicts)) |}.
Proof.
  revert s. induction verdicts as [|v vs IH]; intros s; [destruct s; cbn; f_equal; lia|]. cbn [foldl]. rewrite IH.
  rewrite !filter_cons. unfold tally. destruct v as [[f|]|e]; cbn [is_settled is_ok]; repeat (case_decide; try done); cbn; f_equal; lia.
Qed.

(** C17. The reconciliation sweep computes what it should.  While no other task
    touches the table, the database does not fail and each inquiry gives the same
    answer whenever it is made (records, of which some may be unreadable, or a
    failure), the sweep turns each order that is SUBMITTED and of today into what
    the broker's records of its market say of it and leaves every other row alone.
    It returns how many orders it looked at, how many of them the records settle
    and of how many they cannot be read. *)
Theorem reconcile_settles (kr us : result unit (list CcldRecord)) (w : World)
    (Hquiet : ∀ n t, interleave n t = t)
    (Hkr : ∀ b, outcome inquire_kr_daily_ccld b = kr) (Hus : ∀ b, outcome inquire_us_ccld b = us)
    (Hfaults : w.(faults) = []) :
  let due r := bool_decide (r.(row_status) = "SUBMITTED") && today r.(row_created_at) in
  let w' := after reconcile_all_submitted w in
  let verdicts := verdict_of kr us <$> select_submitted today w.(orders) in
  (∀ order_id, w'.(orders) !! order_id =
    (λ r, if due r then settle_row (verdict_of kr us (order_id, r)) r else r) <$> w.(orders) !! order_id) ∧
  outcome reconcile_all_submitted w = Ok {|
    checked := Z.of_nat (length verdicts);
    updated := Z.of_nat (length (filter (λ v, is_settled v = true) verdicts));
    errors := Z.of_nat (length (filter (λ v, is_ok v = false) verdicts)) |}.
Proof.
  intros due. destruct (reconcile_calm Hquiet kr us Hkr Hus w.(orders) w) as (t' & w' & E & [Ht' _] & Hl); [by split|].
  unfold after, outcome. rewrite E. cbn. split; [intros oid; rewrite Ht'; apply Hl|].
  rewrite <- (foldl_fmap (λ s v, tally v s) _ _ (verdict_of kr us)). by rewrite tally_counts.
Qed.

(** ** Cancelling an order *)

(** Cancelling, branch by branch: a missing order is not found, an unknown
    status is a store failure, a status that admits no cancellation is refused
    and counted, each leaving the table to the other tasks; otherwise the row
    becomes CANCELLED, and stays so even when the audit record fails.  The
    status is checked on the table [t1] and written on the table [t2] that the
    other tasks leave by then. *)
Theorem cancel_order_decides (audit_ok : bool) (order_id : string) (w : World)
    (Hfaults : w.(faults) = []) :
  let m := cancel_order audit_ok order_id in
  let w' := after m w in
  let t1 := interleave w.(ticks) w.(orders) in
  let t2 := interleave (S w.(ticks)) t1 in
  match t1 !! order_id with
  | None => outcome m w = Ok NotFound ∧ w'.(orders) = t1
  | Some r =>
      match parse_order_status r.(row_status) with
      | Err _ => outcome m w = Ok OrderStoreUnavailable ∧ w'.(orders) = t1
      | Ok s =>
          if can_transition_order s CANCELLED then
            outcome m w = Ok (if audit_ok then Cancelled else AuditUnavailable) ∧
            w'.(rejects) = w.(rejects) ∧
            w'.(orders) = interleave (S (S w.(ticks))) (update_cancelled order_id t2)
          else
            outcome m w = Ok (InvalidTransition (Some s) CANCELLED) ∧ w'.(orders) = t1 ∧
            w'.(rejects) = inc_reject s CANCELLED w.(rejects)
      end
  end.
Proof.
  cbv zeta. destruct w as [t c b fs n]. cbn in Hfaults. subst fs. cbn.
  unfold cancel_order, query, session, execute, pause, cancel_guard. run_m. cbn.
  destruct (interleave n t !! order_id) as [r|] eqn:Hr; [|done]. cbn.
  destruct (parse_order_status (row_status r)) as [s|]; [|done]. cbn.
  destruct s; (split; [reflexivity|split; reflexivity]).
Qed.
End Settlement.
Arguments World W : clear implicits.
End SettlementPoller.

(** * Which record is an order's *)

Definition hits (order_id ticker : string) (rec : CcldRecord) : Prop :=
  (order_id ≠ "" ∧ field "ODNO" "" rec = order_id) ∨ field "PDNO" "" rec = ticker.

Lemma match_cons rec records order_id ticker :
  (hits order_id ticker rec → _match_ccld_record (rec :: records) order_id ticker = Some rec) ∧
  (¬ hits order_id ticker rec →
    _match_ccld_record (rec :: records) order_id ticker = _match_ccld_record records order_id ticker).
Proof.
  unfold hits. cbn. set (no := field "ODNO" "" rec). set (tk := field "PDNO" "" rec).
  destruct (decide (tk = ticker)) as [Ht|Ht];
    [rewrite (bool_decide_true (tk = ticker)) by done|rewrite (bool_decide_false (tk = ticker)) by done];
    (destruct (decide (order_id = "")) as [Ho|Ho];
      [rewrite (bool_decide_true (order_id = "")) by done|rewrite (bool_decide_false (order_id = "")) by done]);
    (destruct (decide (no = "")) as [Hn|Hn];
      [rewrite (bool_decide_true (no = "")) by done|rewrite (bool_decide_false (no = "")) by done]);
    (destruct (decide (order_id = no)) as [Hm|Hm];
      [rewrite (bool_decide_true (order_id = no)) by done|rewrite (bool_decide_false (order_id = no)) by done]);
    cbn; split; intros H; try done; exfalso; try (apply H; by auto); destruct H as [[? ?]|?]; congruence.
Qed.

Lemma match_ext records o1 o2 ticker :
  Forall (λ r, hits o1 ticker r ↔ hits o2 ticker r) records →
  _match_ccld_record records o1 ticker = _match_ccld_record records o2 ticker.
Proof.
  induction 1 as [|rec records Hrec _ IH]; [done|].
  destruct (match_cons rec records o1 ticker) as [Y1 N1], (match_cons rec records o2 ticker) as [Y2 N2].
  assert (Decision (hits o1 ticker rec)) as Hdec by (unfold hits; apply _).
  destruct (decide (hits o1 ticker rec)) as [H|H].
  - rewrite Y1 by done. symmetry. by apply Y2, Hrec.
  - rewrite N1, N2 by tauto. exact IH.
Qed.

(** The record taken for an order is the first one with its number or its
    ticker, and there is none exactly when no record has either.  Hence an
    earlier record of the ticker wins over the record with the order's own
    number, and all orders of a ticker whose numbers the broker does not list,
    such as the generated ones, are given the same record. *)
Theorem match_ccld_record_first (records : list CcldRecord) (order_id ticker : string) :
  match _match_ccld_record records order_id ticker with
  | Some rec => ∃ before rest, records = before ++ rec :: rest ∧ hits order_id ticker rec ∧
      Forall (λ r, ¬ hits order_id ticker r) before
  | None => Forall (λ r, ¬ hits order_id ticker r) records
  end ∧
  ∀ other, Forall (λ r, field "ODNO" "" r ≠ order_id ∧ field "ODNO" "" r ≠ other) records →
    _match_ccld_record records order_id ticker = _match_ccld_record records other ticker.
Proof.
  split.
  - induction records as [|rec records IH]; [by constructor|].
    destruct (match_cons rec records order_id ticker) as [Hyes Hno].
    assert (Decision (hits order_id ticker rec)) as Hdec by (unfold hits; apply _).
    destruct (decide (hits order_id ticker rec)) as [H|H].
    { rewrite Hyes by done. exists [], records. by split_and!. }
    rewrite Hno by done. destruct (_match_ccld_record records order_id ticker) as [r|]; [|by constructor].
    destruct IH as (before & rest & -> & Hr & Hb). exists (rec :: before), rest.
    split_and!; [done|done|by constructor].
  - intros other Hall. apply match_ext. eapply Forall_impl; [exact Hall|]. intros r [H1 H2].
    unfold hits. naive_solver.
Qed.

(** * Witnesses *)

Module SettlementWitness.
Import SettlementPoller.

Definition row (st : string) (q : Z) : OrderRow := {|
  row_ticker := "005930"; row_market := "KRX"; row_status := st; row_filled_quantity := q;
  row_filled_price := fzero; row_filled_at := None; row_created_at := 0 |}.

Definition world (t : Table) : World unit := {|
  orders := t; rejects := ∅; kis := tt; faults := []; ticks := 0 |}.

Definition no_records : M unit unit (list CcldRecord) := mret [].
Definition filled_record : CcldRecord :=
  {[ "ODNO" := "A1"; "PDNO" := "005930"; "ORD_QTY" := "10"; "TOT_CCLD_QTY" := "10";
     "AVG_PRVS" := "70000" ]}.
Definition one_record : M unit unit (list CcldRecord) := mret [filled_record].

Lemma settlement_respects_lifecycle_witness :
  advances {[ "A1" := row "SUBMITTED" 0 ]}
    (run_ops (perform one_record no_records (λ _ t, t) (λ _, true) 5)
      [Poll "A1" "005930" "KRX" 5; Update "A1" "FILLED" PARTIAL 3 fzero; Reconcile]
      (world {[ "A1" := row "SUBMITTED" 0 ]})).(orders).
Proof.
  exact (proj1 (settlement_respects_lifecycle one_record no_records (λ _ t, t) (λ _, true) 5
    [Poll "A1" "005930" "KRX" 5; Update "A1" "FILLED" PARTIAL 3 fzero; Reconcile]
    (world {[ "A1" := row "SUBMITTED" 0 ]}) (λ _ t, advances_refl t))).
Defined.

Lemma reconcile_settles_witness :
  (after (reconcile_all_submitted one_record no_records (λ _ t, t) (λ _, true) 5)
    (world {[ "A1" := row "SUBMITTED" 0 ]})).(orders) !! "A1" =
  Some (set_fill FILLED 10 (of_Z 70000) (Some 5) (row "SUBMITTED" 0)).
Proof.
  rewrite (proj1 (reconcile_settles one_record no_records (λ _ t, t) (λ _, true) 5 (Ok [filled_record]) (Ok [])
    (world {[ "A1" := row "SUBMITTED" 0 ]}) (λ _ _, eq_refl) (λ _, eq_refl) (λ _, eq_refl) eq_refl)).
  vm_compute. reflexivity.
Defined.

Lemma cancel_order_decides_witness :
  outcome (cancel_order (λ _ t, t) true "A1") (world {[ "A1" := row "FILLED" 10 ]}) =
  Ok (InvalidTransition (Some FILLED) CANCELLED).
Proof.
  exact (proj1 (cancel_order_decides (λ _ t, t) true "A1" (world {[ "A1" := row "FILLED" 10 ]}) eq_refl)).
Defined.

(** The fill that arrives between the two statements of a cancellation *)
Definition fill_meanwhile (n : nat) (t : Table) : Table :=
  if bool_decide (n = 1%nat)
  then (update_where "A1" "SUBMITTED" FILLED 10 (of_Z 70000) (Some 5) t).1 else t.

(** Cancelling races with settlement.  The write of [cancel_order] does not
    check the status again: when a legal fill arrives between its two
    statements, the order is reported cancelled and its FILLED row, ten shares
    filled, is overwritten with CANCELLED, which no transition allows. *)
Theorem cancel_overwrites_fill :
  let t := {[ "A1" := row "SUBMITTED" 0 ]} in
  let m := cancel_order fill_meanwhile true "A1" in
  let t' := (after m (world t)).(orders) in
  (∀ n u, advances u (fill_meanwhile n u)) ∧
  outcome m (world t) = Ok Cancelled ∧
  row_status <$> fill_meanwhile 1 t !! "A1" = Some "FILLED" ∧
  row_status <$> t' !! "A1" = Some "CANCELLED" ∧
  row_filled_quantity <$> t' !! "A1" = Some 10 ∧
  can_transition_order FILLED CANCELLED = false.
Proof.
  cbv zeta. split; [|split_and!; vm_compute; reflexivity].
  intros n u. unfold fill_meanwhile, update_where. case_bool_decide; [|apply advances_refl].
  destruct (u !! "A1") as [r|] eqn:Hr; [|apply advances_refl].
  case_bool_decide as Hs; [|apply advances_refl]. apply (cas_step_advances "A1").
  exists r, SUBMITTED, FILLED, 10, (of_Z 70000), (Some 5). by rewrite Hs.
Qed.
End SettlementWitness.
