(* ===== verification/Idempotency.v ===== *)
(** Order idempotency stores: backend/core/idempotency/order_idempotency.py and
    db_store.py.

    [OrderIdempotencyStore] is the [Protocol] of the same name, of which all four
    stores are instances.  [StoreLaws] states over a [view], the entries that are
    live under each storage key, what one expects of such a store;
    [InMemoryOrderIdempotencyStore] and [RedisOrderIdempotencyStore] discharge it.
    The PostgreSQL store and the two-tier store built from it do not: their
    [store_result] may raise a conflict after the order has run
    ([two_tier_durability]).

    A stored value is the claim marker or a record; its JSON text, which never
    is the marker and decodes to the record it encodes, is not modelled.  Time
    is in microseconds.  The Prometheus counters are left out. *)

From stdpp Require Import base option list gmap strings.
From Stdlib Require Import Ascii.
From S2P Require Import Prelude PyFormat.

Definition KEY_PREFIX : string := "aqts:order_idem".
Definition DEFAULT_CLAIM_TTL_SECONDS : Z := 30.
Definition DEFAULT_RESULT_TTL_SECONDS : Z := 24 * 3600.
Definition seconds (n : Z) : Z := n * 1000000.

Inductive IdemExn :=
  | IdempotencyStoreUnavailable (op : string)
  | IdempotencyConflict (key : string)
  | IdempotencyInProgress (key : string).

Record OrderIdempotencyRecord (B : Type) := {
  fingerprint : string;
  status_code : Z;
  body : B;
  created_at : Z;
}.
Arguments fingerprint {B} _.
Arguments status_code {B} _.
Arguments body {B} _.
Arguments created_at {B} _.

(** A live value: [_CLAIM_MARKER] or a serialized record *)
Inductive Entry (B : Type) :=
  | Claim
  | Stored (r : OrderIdempotencyRecord B).
Arguments Claim {B}.
Arguments Stored {B} r.

Definition _build_key (user_id route idempotency_key : string) : string :=
  KEY_PREFIX +:+ ":" +:+ user_id +:+ ":" +:+ route +:+ ":" +:+ idempotency_key.

(** ** The storage key *)

Fixpoint no_colon (s : string) : bool :=
  match s with "" => true | String a s' => negb (Ascii.eqb a ":"%char) && no_colon s' end.

Lemma colon_split (a a' s s' : string) :
  no_colon a = true → no_colon a' = true → a +:+ ":" +:+ s = a' +:+ ":" +:+ s' → a = a' ∧ s = s'.
Proof.
  revert a'. induction a as [|c a IH]; intros [|c' a'] Ha Ha' E; rewrite ?append_cons, ?append_nil in E.
  - by injection E.
  - injection E as <- _. done.
  - injection E as -> _. done.
  - injection E as <- E. cbn in Ha, Ha'. apply andb_true_iff in Ha as [_ Ha], Ha' as [_ Ha'].
    destruct (IH a' Ha Ha' E) as [-> ->]. done.
Qed.

Lemma append_inj_l (p s s' : string) : p +:+ s = p +:+ s' → s = s'.
Proof. induction p as [|c p IH]; rewrite ?append_cons, ?append_nil; [done|]. intros [= E]. by apply IH. Qed.

(** Distinct requests have distinct keys as long as user ids and routes have no
    colon; the idempotency key itself is free. *)
Lemma build_key_inj u r k u' r' k' :
  no_colon u = true → no_colon u' = true → no_colon r = true → no_colon r' = true →
  _build_key u r k = _build_key u' r' k' → u = u' ∧ r = r' ∧ k = k'.
Proof.
  unfold _build_key. intros Hu Hu' Hr Hr' E.
  apply append_inj_l, append_inj_l in E. apply colon_split in E as [-> E]; [|done..].
  by apply colon_split in E as [-> ->].
Qed.

(** * The store interface *)

Section Interface.
Context {B : Type}.
Abbreviation View := (gmap string (Entry B)).

(** Some of the live entries may have expired. *)
Definition aged (l v : View) : Prop := ∀ k e, l !! k = Some e → v !! k = Some e.

Definition has_result (v : View) (k : string) (r : OrderIdempotencyRecord B) : Prop :=
  v !! k = Some (Stored r).

Class OrderIdempotencyStore (S : Type) := {
  lookup : string → string → string → M S IdemExn (option (OrderIdempotencyRecord B));
  try_claim : string → string → string → string → M S IdemExn unit;
  store_result : string → string → string → string → Z → B → M S IdemExn unit;
  release_claim : string → string → string → M S IdemExn unit;
}.

Class StoreLaws (S : Type) `{!OrderIdempotencyStore S} := {
  view : S → View;
  (** A lookup finds exactly the live result. *)
  lookup_law : ∀ u r k s, ∃ l, aged l (view s) ∧
    match lookup u r k s with
    | (Ok x, s') => view s' = l ∧ ∀ rec, x = Some rec ↔ has_result l (_build_key u r k) rec
    | (Err e, s') => view s' = l ∧ ∃ op, e = IdempotencyStoreUnavailable op
    end;
  (** A claim succeeds on a free key, which it then occupies, or on a result of
      the same request, and is refused on claims and other results. *)
  try_claim_law : ∀ u r k fp s, ∃ l, aged l (view s) ∧
    let rk := _build_key u r k in
    match try_claim u r k fp s with
    | (Ok _, s') => (l !! rk = None ∧ view s' = <[rk := Claim]> l) ∨
        (∃ rec, has_result l rk rec ∧ rec.(fingerprint) = fp ∧ view s' = l)
    | (Err (IdempotencyConflict _), s') => ∃ rec, has_result l rk rec ∧ rec.(fingerprint) ≠ fp ∧ view s' = l
    | (Err (IdempotencyInProgress _), s') => is_Some (view s !! rk) ∧ view s' = l
    | (Err (IdempotencyStoreUnavailable _), s') =>
        view s' = l ∨ (l !! rk = None ∧ view s' = <[rk := Claim]> l)
    end;
  (** A result overwrites whatever is there. *)
  store_result_law : ∀ u r k fp code b s, ∃ l, aged l (view s) ∧
    let rk := _build_key u r k in
    match store_result u r k fp code b s with
    | (Ok _, s') => ∃ t, view s' =
        <[rk := Stored {| fingerprint := fp; status_code := code; body := b; created_at := t |}]> l
    | (Err e, s') => (∃ op, e = IdempotencyStoreUnavailable op) ∧
        (view s' = l ∨ ∃ t, view s' =
          <[rk := Stored {| fingerprint := fp; status_code := code; body := b; created_at := t |}]> l)
    end;
  (** Only a claim is released; a result stays. *)
  release_claim_law : ∀ u r k s, ∃ l, aged l (view s) ∧
    let rk := _build_key u r k in
    match release_claim u r k s with
    | (Ok _, s') => view s' = match l !! rk with Some Claim => delete rk l | _ => l end
    | (Err e, s') => (∃ op, e = IdempotencyStoreUnavailable op) ∧
        (view s' = l ∨ (l !! rk = Some Claim ∧ view s' = delete rk l))
    end;
}.

Lemma aged_refl (v : View) : aged v v.
Proof. by intros k e. Qed.

Lemma aged_trans (v1 v2 v3 : View) : aged v1 v2 → aged v2 v3 → aged v1 v3.
Proof. intros H1 H2 k e Hk. by apply H2, H1. Qed.
End Interface.
Arguments OrderIdempotencyStore B S : clear implicits.
Arguments StoreLaws B S {_}.

(** * InMemoryOrderIdempotencyStore *)

Module InMemoryOrderIdempotencyStore.
Section InMemory.
Context {B : Type} (claim_ttl result_ttl : Z).

(** [_data], and the clock *)
Record t := { _data : gmap string (Entry B * Z); now : Z }.
Abbreviation Op := (M t IdemExn).

Definition set_data (d : gmap string (Entry B * Z)) (s : t) : t := {| _data := d; now := s.(now) |}.
Definition put (k : string) (e : Entry B) (ttl : Z) : Op unit :=
  modify (λ s, set_data (<[k := (e, s.(now) + seconds ttl)]> s.(_data)) s).

Definition _get_live (k : string) : Op (option (Entry B)) :=
  s ← get;
  match s.(_data) !! k with
  | None => mret None
  | Some (raw, expires_at) =>
      if expires_at <? s.(now) then modify (set_data (delete k s.(_data))) ;; mret None
      else mret (Some raw)
  end.

Definition lookup (u r k : string) : Op (option (OrderIdempotencyRecord B)) :=
  raw ← _get_live (_build_key u r k);
  mret (match raw with Some (Stored rec) => Some rec | _ => None end).

Definition try_claim (u r k fp : string) : Op unit :=
  s ← get;
  let redis_key := _build_key u r k in
  match s.(_data) !! redis_key with
  | Some (raw, expires_at) =>
      if s.(now) <=? expires_at then
        match raw with
        | Claim => raise (IdempotencyInProgress k)
        | Stored existing =>
            if bool_decide (existing.(fingerprint) = fp) then mret tt else raise (IdempotencyConflict k)
        end
      else put redis_key Claim claim_ttl
  | None => put redis_key Claim claim_ttl
  end.

Definition store_result (u r k fp : string) (code : Z) (b : B) : Op unit :=
  s ← get;
  put (_build_key u r k)
    (Stored {| fingerprint := fp; status_code := code; body := b; created_at := s.(now) |}) result_ttl.

Definition release_claim (u r k : string) : Op unit :=
  s ← get;
  let redis_key := _build_key u r k in
  match s.(_data) !! redis_key with
  | Some (Claim, _) => modify (set_data (delete redis_key s.(_data)))
  | _ => mret tt
  end.

(** The entries that have not expired *)
Definition view (s : t) : gmap string (Entry B) :=
  omap (λ ee : Entry B * Z, if s.(now) <=? ee.2 then Some ee.1 else None) s.(_data).

Lemma view_lookup s k :
  view s !! k = (s.(_data) !! k) ≫= λ ee, if s.(now) <=? ee.2 then Some ee.1 else None.
Proof. unfold view. apply lookup_omap. Qed.

Lemma view_put k e ttl s :
  0 ≤ ttl → view (set_data (<[k := (e, s.(now) + seconds ttl)]> s.(_data)) s) = <[k := e]> (view s).
Proof.
  intros Httl. unfold view. cbn. rewrite omap_insert. cbn.
  rewrite (proj2 (Z.leb_le _ _)) by (unfold seconds; lia). done.
Qed.

Lemma view_delete k s : view (set_data (delete k s.(_data)) s) = delete k (view s).
Proof. unfold view. cbn. apply omap_delete. Qed.

Lemma lookup_spec u r k s :
  ∃ s', lookup u r k s = (Ok (match view s !! _build_key u r k with Some (Stored rec) => Some rec | _ => None end), s')
    ∧ view s' = view s ∧ s'.(now) = s.(now).
Proof.
  unfold lookup, _get_live. run_m. rewrite view_lookup. set (rk := _build_key u r k).
  destruct (s.(_data) !! rk) as [[raw ex]|] eqn:E; cbn; [|by eexists].
  destruct (ex <? s.(now)) eqn:Hex; bool_hyps.
  - rewrite (proj2 (Z.leb_gt _ _)) by lia. cbn. eexists. split; [done|]. split; [|done].
    rewrite view_delete. apply delete_id. rewrite view_lookup, E. cbn.
    by rewrite (proj2 (Z.leb_gt _ _)) by lia.
  - rewrite (proj2 (Z.leb_le _ _)) by lia. by eexists.
Qed.

Context (Hclaim : 0 ≤ claim_ttl) (Hresult : 0 ≤ result_ttl).

Lemma try_claim_spec u r k fp s :
  let rk := _build_key u r k in
  match view s !! rk with
  | None => ∃ s', try_claim u r k fp s = (Ok tt, s') ∧ view s' = <[rk := Claim]> (view s) ∧
      s'.(_data) = <[rk := (Claim, s.(now) + seconds claim_ttl)]> s.(_data) ∧ s'.(now) = s.(now)
  | Some Claim => try_claim u r k fp s = (Err (IdempotencyInProgress k), s)
  | Some (Stored rec) => try_claim u r k fp s =
      (if bool_decide (rec.(fingerprint) = fp) then Ok tt else Err (IdempotencyConflict k), s)
  end.
Proof.
  intros rk. subst rk. unfold try_claim, put. run_m. rewrite view_lookup. set (rk := _build_key u r k).
  destruct (s.(_data) !! rk) as [[raw ex]|] eqn:E; cbn.
  - destruct (s.(now) <=? ex); cbn; [destruct raw as [|rec]; [done|by destruct (bool_decide _)]|].
    eexists. split; [done|]. by rewrite view_put.
  - eexists. split; [done|]. by rewrite view_put.
Qed.

Lemma store_result_spec u r k fp code b s :
  let rk := _build_key u r k in
  let rec := {| fingerprint := fp; status_code := code; body := b; created_at := s.(now) |} in
  ∃ s', store_result u r k fp code b s = (Ok tt, s') ∧ view s' = <[rk := Stored rec]> (view s) ∧
    s'.(_data) = <[rk := (Stored rec, s.(now) + seconds result_ttl)]> s.(_data) ∧ s'.(now) = s.(now).
Proof. unfold store_result, put. run_m. eexists. split; [done|]. by rewrite view_put. Qed.

Lemma release_claim_spec u r k s :
  let rk := _build_key u r k in
  ∃ s', release_claim u r k s = (Ok tt, s') ∧ s'.(now) = s.(now) ∧
    view s' = match view s !! rk with Some Claim => delete rk (view s) | _ => view s end.
Proof.
  intros rk. subst rk. unfold release_claim. run_m. rewrite view_lookup. set (rk := _build_key u r k).
  destruct (s.(_data) !! rk) as [[[|rec] ex]|] eqn:E; cbn; eexists; (split; [reflexivity|]);
    (split; [done|]); try done.
  - rewrite view_delete. destruct (s.(now) <=? ex) eqn:Hle; [done|]. cbn. apply delete_id.
    by rewrite view_lookup, E; cbn; rewrite Hle.
  - by destruct (s.(now) <=? ex).
Qed.
End InMemory.
Arguments t B : clear implicits.
End InMemoryOrderIdempotencyStore.

Definition in_memory_ops {B} (claim_ttl result_ttl : Z) : OrderIdempotencyStore B (InMemoryOrderIdempotencyStore.t B) := {|
  lookup := InMemoryOrderIdempotencyStore.lookup;
  try_claim := InMemoryOrderIdempotencyStore.try_claim claim_ttl;
  store_result := InMemoryOrderIdempotencyStore.store_result result_ttl;
  release_claim := InMemoryOrderIdempotencyStore.release_claim;
|}.

#[export] Program Instance in_memory_store {B} (claim_ttl result_ttl : Z)
    (Hclaim : 0 ≤ claim_ttl) (Hresult : 0 ≤ result_ttl) :
    StoreLaws B (InMemoryOrderIdempotencyStore.t B) (OrderIdempotencyStore0 := in_memory_ops claim_ttl result_ttl) := {|
  view := InMemoryOrderIdempotencyStore.view;
|}.
Next Obligation.
  intros B ct rt Hc Hr u r k s. exists (InMemoryOrderIdempotencyStore.view s). split; [apply aged_refl|]. cbn [lookup try_claim store_result release_claim in_memory_ops].
  destruct (InMemoryOrderIdempotencyStore.lookup_spec u r k s) as (s' & -> & Hv & _). split; [done|].
  intros rec. unfold has_result. destruct (_ !! _) as [[|rec']|]; naive_solver.
Qed.
Next Obligation.
  intros B ct rt Hc Hr u r k fp s. exists (InMemoryOrderIdempotencyStore.view s). split; [apply aged_refl|]. cbn [lookup try_claim store_result release_claim in_memory_ops].
  cbv zeta. pose proof (InMemoryOrderIdempotencyStore.try_claim_spec ct Hc u r k fp s) as H. cbv zeta in H.
  destruct (InMemoryOrderIdempotencyStore.view s !! _build_key u r k) as [[|rec]|] eqn:E.
  - rewrite H. by split.
  - rewrite H. case_bool_decide; [right|]; by exists rec.
  - destruct H as (s' & -> & Hv & _). by left.
Qed.
Next Obligation.
  intros B ct rt Hc Hr u r k fp code b s. exists (InMemoryOrderIdempotencyStore.view s). split; [apply aged_refl|]. cbn [lookup try_claim store_result release_claim in_memory_ops].
  destruct (InMemoryOrderIdempotencyStore.store_result_spec rt Hr u r k fp code b s) as (s' & -> & Hv & _).
  by eexists.
Qed.
Next Obligation.
  intros B ct rt Hc Hr u r k s. exists (InMemoryOrderIdempotencyStore.view s). split; [apply aged_refl|]. cbn [lookup try_claim store_result release_claim in_memory_ops].
  by destruct (InMemoryOrderIdempotencyStore.release_claim_spec u r k s) as (s' & -> & _ & Hv).
Qed.

(** * RedisOrderIdempotencyStore *)

(** The Redis client, as the commands document themselves: every command sees
    the keys that have not expired by then, SET NX and SETEX are atomic, and a
    command whose reply is lost may or may not have run. *)
Class RedisClient (B R : Type) := {
  redis_get : string → M R unit (option (Entry B));
  redis_set_nx : string → Entry B → Z → M R unit bool;
  redis_setex : string → Z → Entry B → M R unit unit;
  redis_delete : string → M R unit unit;
  live : R → gmap string (Entry B);
  get_law : ∀ k s, ∃ l, aged l (live s) ∧
    match redis_get k s with
    | (Ok v, s') => live s' = l ∧ v = l !! k
    | (Err _, s') => live s' = l
    end;
  set_nx_law : ∀ k v ttl s, ∃ l, aged l (live s) ∧
    match redis_set_nx k v ttl s with
    | (Ok true, s') => l !! k = None ∧ live s' = <[k := v]> l
    | (Ok false, s') => is_Some (l !! k) ∧ live s' = l
    | (Err _, s') => live s' = l ∨ (l !! k = None ∧ live s' = <[k := v]> l)
    end;
  setex_law : ∀ k ttl v s, ∃ l, aged l (live s) ∧
    match redis_setex k ttl v s with
    | (Ok _, s') => live s' = <[k := v]> l
    | (Err _, s') => live s' = l ∨ live s' = <[k := v]> l
    end;
  delete_law : ∀ k s, ∃ l, aged l (live s) ∧
    match redis_delete k s with
    | (Ok _, s') => live s' = delete k l
    | (Err _, s') => live s' = l ∨ live s' = delete k l
    end;
}.

Module RedisOrderIdempotencyStore.
Section Redis.
Context {B R : Type} `{!RedisClient B R} (claim_ttl result_ttl : Z) (clock : R → Z).
Abbreviation Op := (M R IdemExn).

(** [except RedisError as e: raise self._fail(op, e)] *)
Definition command {A} (op : string) (m : M R unit A) : Op A :=
  with_err (λ _, IdempotencyStoreUnavailable op) m.

Definition lookup (u r k : string) : Op (option (OrderIdempotencyRecord B)) :=
  raw ← command "lookup" (redis_get (_build_key u r k));
  mret (match raw with Some (Stored rec) => Some rec | _ => None end).

Definition try_claim (u r k fp : string) : Op unit :=
  let redis_key := _build_key u r k in
  ok ← command "try_claim" (redis_set_nx redis_key Claim claim_ttl);
  if ok : bool then mret tt else
  raw ← command "try_claim_get" (redis_get redis_key);
  match raw with
  | None =>
      ok2 ← command "try_claim_retry" (redis_set_nx redis_key Claim claim_ttl);
      if ok2 : bool then mret tt else raise (IdempotencyInProgress k)
  | Some Claim => raise (IdempotencyInProgress k)
  | Some (Stored existing) =>
      if bool_decide (existing.(fingerprint) = fp) then mret tt else raise (IdempotencyConflict k)
  end.

Definition store_result (u r k fp : string) (code : Z) (b : B) : Op unit :=
  s ← get;
  command "store_result" (redis_setex (_build_key u r k) result_ttl
    (Stored {| fingerprint := fp; status_code := code; body := b; created_at := clock s |})).

Definition release_claim (u r k : string) : Op unit :=
  let redis_key := _build_key u r k in
  raw ← command "release_claim" (redis_get redis_key);
  match raw with
  | Some Claim => command "release_claim" (redis_delete redis_key)
  | _ => mret tt
  end.

Definition redis_ops : OrderIdempotencyStore B R := {|
  Idempotency.lookup := lookup;
  Idempotency.try_claim := try_claim;
  Idempotency.store_result := store_result;
  Idempotency.release_claim := release_claim;
|}.

#[export] Program Instance redis_store : StoreLaws B R (OrderIdempotencyStore0 := redis_ops) := {|
  view := live;
|}.
Next Obligation.
  intros u r k s. cbn [Idempotency.lookup redis_ops]. unfold lookup, command. run_m.
  destruct (get_law (_build_key u r k) s) as (l & Hl & H). exists l. split; [done|].
  destruct (redis_get (_build_key u r k) s) as [[raw|e] s']; [|by eauto].
  destruct H as [Hv ->]. split; [done|]. intros rec. unfold has_result.
  destruct (l !! _) as [[|rec']|]; naive_solver.
Qed.
Next Obligation.
  intros u r k fp s. cbv zeta. cbn [Idempotency.try_claim redis_ops]. unfold try_claim, command. run_m. set (rk := _build_key u r k).
  destruct (set_nx_law rk Claim claim_ttl s) as (l & Hl & H).
  destruct (redis_set_nx rk Claim claim_ttl s) as [[[]|e] s1]; [by exists l; eauto| |by exists l; eauto].
  destruct H as [[e1 He1] H1]. assert (is_Some (live s !! rk)) as Hsome by (exists e1; by apply Hl).
  destruct (get_law rk s1) as (l2 & Hl2 & H2). rewrite H1 in Hl2.
  assert (aged l2 (live s)) as Hl2' by by eapply aged_trans.
  destruct (redis_get rk s1) as [[raw|e] s2]; [|exists l2; by eauto]. destruct H2 as [H2 ->].
  destruct (l2 !! rk) as [[|rec]|] eqn:Erk; [by exists l2| |].
  - exists l2. split; [done|]. unfold has_result. case_bool_decide; [right|]; by exists rec.
  - destruct (set_nx_law rk Claim claim_ttl s2) as (l3 & Hl3 & H3). rewrite H2 in Hl3.
    assert (aged l3 (live s)) as Hl3' by by eapply aged_trans.
    exists l3. split; [done|]. destruct (redis_set_nx rk Claim claim_ttl s2) as [[[]|e] s3]; [by left| |done].
    destruct H3 as [_ H3]. done.
Qed.
Next Obligation.
  intros u r k fp code b s. cbv zeta. cbn [Idempotency.store_result redis_ops]. unfold store_result, command. run_m. cbn.
  match goal with |- context [redis_setex ?rk ?ttl ?v s] => destruct (setex_law rk ttl v s) as (l & Hl & H);
    destruct (redis_setex rk ttl v s) as [[[]|e] s1] end; exists l; (split; [done|]).
  - by exists (clock s).
  - split; [by eexists|]. destruct H as [H|H]; [by left|right; by exists (clock s)].
Qed.
Next Obligation.
  intros u r k s. cbv zeta. cbn [Idempotency.release_claim redis_ops]. unfold release_claim, command. run_m. set (rk := _build_key u r k).
  destruct (get_law rk s) as (l & Hl & H).
  destruct (redis_get rk s) as [[raw|e] s1]; [|exists l; eauto]. destruct H as [H ->].
  destruct (l !! rk) as [[|rec]|] eqn:E; [|exists l; by rewrite E..].
  destruct (delete_law rk s1) as (l2 & Hl2 & H2). rewrite H in Hl2. exists l2.
  split; [by eapply aged_trans|].
  assert (l2 !! rk = Some Claim ∨ l2 !! rk = None) as [E2|E2].
  { destruct (l2 !! rk) as [e|] eqn:E2; [|by right]. apply Hl2 in E2. left. congruence. }
  - rewrite E2. destruct (redis_delete rk s1) as [[[]|e] s2]; [done|]. split; [by eexists|].
    destruct H2 as [H2|H2]; [by left|by right].
  - rewrite E2. destruct (redis_delete rk s1) as [[[]|e] s2]; rewrite ?delete_id in H2 by done; [done|].
    split; [by eexists|]. left. by destruct H2.
Qed.
End Redis.
End RedisOrderIdempotencyStore.

(** * PgOrderIdempotencyStore *)

Module PgOrderIdempotencyStore.
Section Pg.
Context {B : Type} (result_ttl : Z).

(** The table [order_idempotency_keys], unique on (user, route, key), with the
    expiry of each row; [true] in [faults] is a database error. *)
Record t := {
  rows : gmap (string * string * string) (OrderIdempotencyRecord B * option Z);
  faults : list bool;
  now : Z;
}.
Abbreviation Op := (M t IdemExn).

(** One transaction; a failure is [_fail(op, exc)]. *)
Definition transaction {A} (op : string)
    (f : gmap (string * string * string) (OrderIdempotencyRecord B * option Z) →
         gmap (string * string * string) (OrderIdempotencyRecord B * option Z) * A) : Op A := λ s,
  let '(r, d) := match s.(faults) with
    | true :: _ => (Err (IdempotencyStoreUnavailable ("db_" +:+ op)), s.(rows))
    | _ => let '(d, a) := f s.(rows) in (Ok a, d)
    end in
  (r, {| rows := d; faults := tail s.(faults); now := s.(now) |}).

Definition lookup (u r k : string) : Op (option (OrderIdempotencyRecord B)) :=
  row ← transaction "lookup" (λ d, (d, d !! (u, r, k)));
  s ← get;
  mret (match row with
    | None => None
    | Some (rec, Some expires_at) => if expires_at <? s.(now) then None else Some rec
    | Some (rec, None) => Some rec
    end).

Definition try_claim (u r k fp : string) : Op unit :=
  existing ← lookup u r k;
  match existing with
  | None => mret tt
  | Some rec => if bool_decide (rec.(fingerprint) ≠ fp) then raise (IdempotencyConflict k) else mret tt
  end.

Definition store_result (u r k fp : string) (code : Z) (b : B) : Op unit :=
  s ← get;
  let row := ({| fingerprint := fp; status_code := code; body := b; created_at := s.(now) |},
              Some (s.(now) + seconds result_ttl)) in
  inserted ← transaction "store_result" (λ d,
    match d !! (u, r, k) with
    | None => (<[(u, r, k) := row]> d, true)
    | Some _ => (d, false)  (** [IntegrityError] *)
    end);
  if inserted : bool then mret tt else
  existing ← lookup u r k;
  match existing with
  | None => raise (IdempotencyInProgress k)
  | Some rec => if bool_decide (rec.(fingerprint) ≠ fp) then raise (IdempotencyConflict k) else mret tt
  end.

Definition release_claim (u r k : string) : Op unit := mret tt.

Definition pg_ops : OrderIdempotencyStore B t := {|
  Idempotency.lookup := lookup;
  Idempotency.try_claim := try_claim;
  Idempotency.store_result := store_result;
  Idempotency.release_claim := release_claim;
|}.
End Pg.
Arguments t B : clear implicits.
End PgOrderIdempotencyStore.

(** * TwoTierOrderIdempotencyStore *)

Module TwoTierOrderIdempotencyStore.
Section TwoTier.
Context {B R : Type} `{!OrderIdempotencyStore B R} (result_ttl : Z).

Definition t : Type := R * PgOrderIdempotencyStore.t B.
Abbreviation Op := (M t IdemExn).

Definition redis {A} (m : M R IdemExn A) : Op A := zoom fst (λ r s, (r, s.2)) m.
Definition db {A} (m : M (PgOrderIdempotencyStore.t B) IdemExn A) : Op A := zoom snd (λ d s, (s.1, d)) m.

(** [except IdempotencyStoreUnavailable: pass] *)
Definition tolerate (m : Op unit) : Op unit :=
  try_except m (λ e, match e with IdempotencyStoreUnavailable _ => mret tt | _ => raise e end).

Definition lookup (u r k : string) : Op (option (OrderIdempotencyRecord B)) :=
  record ← redis (Idempotency.lookup u r k);
  match record with
  | Some rec => mret (Some rec)
  | None =>
      record ← db (PgOrderIdempotencyStore.lookup u r k);
      match record with
      | None => mret None
      | Some rec =>
          tolerate (redis (Idempotency.store_result u r k rec.(fingerprint) rec.(status_code) rec.(body))) ;;
          mret (Some rec)
      end
  end.

Definition try_claim (u r k fp : string) : Op unit :=
  db (PgOrderIdempotencyStore.try_claim u r k fp) ;;
  redis (Idempotency.try_claim u r k fp).

Definition store_result (u r k fp : string) (code : Z) (b : B) : Op unit :=
  db (PgOrderIdempotencyStore.store_result result_ttl u r k fp code b) ;;
  tolerate (redis (Idempotency.store_result u r k fp code b)).

Definition release_claim (u r k : string) : Op unit :=
  redis (Idempotency.release_claim u r k) ;;
  db (PgOrderIdempotencyStore.release_claim u r k).

Definition two_tier_ops : OrderIdempotencyStore B t := {|
  Idempotency.lookup := lookup;
  Idempotency.try_claim := try_claim;
  Idempotency.store_result := store_result;
  Idempotency.release_claim := release_claim;
|}.

(** What follows is over a lawful hot tier. *)
Context `{!StoreLaws B R}.

(** ** Durability *)

(** The database at a later time, without pending errors *)
Definition at_time (time : Z) (d : PgOrderIdempotencyStore.t B) : PgOrderIdempotencyStore.t B := {|
  PgOrderIdempotencyStore.rows := d.(PgOrderIdempotencyStore.rows);
  PgOrderIdempotencyStore.faults := []; PgOrderIdempotencyStore.now := time |}.

Lemma redis_miss u r k s x s' :
  (∀ rec, view s !! _build_key u r k ≠ Some (Stored rec)) →
  Idempotency.lookup u r k s = (Ok x, s') → x = None.
Proof.
  intros Hmiss E. destruct (lookup_law u r k s) as (l & Hl & H). rewrite E in H. destruct H as [_ H].
  destruct x as [rec|]; [|done]. exfalso. apply (Hmiss rec). apply Hl. by apply H.
Qed.

Lemma tolerate_law (m : Op unit) s :
  (∀ e s', m s = (Err e, s') → ∃ op, e = IdempotencyStoreUnavailable op) → outcome (tolerate m) s = Ok tt.
Proof.
  intros Hm. unfold tolerate, outcome, try_except. destruct (m s) as [[[]|e] s'] eqn:E; [done|].
  by destruct (Hm e s' eq_refl) as [op ->].
Qed.

Lemma store_tolerated u r k fp code b s :
  outcome (tolerate (redis (Idempotency.store_result u r k fp code b))) s = Ok tt.
Proof.
  apply tolerate_law. intros e s'. unfold redis, zoom.
  destruct (store_result_law u r k fp code b s.1) as (l & _ & H).
  destruct (Idempotency.store_result u r k fp code b s.1) as [[[]|e'] r']; [done|].
  intros [= <- _]. apply H.
Qed.

Lemma lookup_from_db u r k rec s :
  (∀ rec, view s.1 !! _build_key u r k ≠ Some (Stored rec)) → s.2.(PgOrderIdempotencyStore.faults) = [] →
  (∃ ex, s.2.(PgOrderIdempotencyStore.rows) !! (u, r, k) = Some (rec, Some ex) ∧
     s.2.(PgOrderIdempotencyStore.now) ≤ ex) →
  outcome (lookup u r k) s = Ok (Some rec) ∨ ∃ op, outcome (lookup u r k) s = Err (IdempotencyStoreUnavailable op).
Proof.
  intros Hmiss Hf (ex & Hrow & Hex). unfold lookup, outcome, redis, zoom, mbind, M_bind.
  destruct (lookup_law u r k s.1) as (l & _ & Hlaw).
  destruct (Idempotency.lookup u r k s.1) as [[x|e] r'] eqn:E; cbn.
  2: { right. destruct Hlaw as [_ [op ->]]. by exists op. }
  apply redis_miss in E as ->; [|done].
  unfold db, zoom, PgOrderIdempotencyStore.lookup, PgOrderIdempotencyStore.transaction, mbind, M_bind, get. cbn.
  rewrite Hf, Hrow. cbn. rewrite (proj2 (Z.ltb_ge _ _)) by lia. cbn.
  left. pose proof (store_tolerated u r k rec.(fingerprint) rec.(status_code) rec.(body)) as Ht.
  unfold outcome in Ht. unfold redis, zoom in Ht.
  match goal with |- context [tolerate ?m ?s1] => specialize (Ht s1); destruct (tolerate m s1) as [[[]|e] s2] end;
    cbn in *; done.
Qed.

(** Durability of results, and what it costs.  Once [store_result] has
    succeeded for a key that the database did not have, every lookup until the
    row expires finds that result, or reports an unavailable store, even if the
    Redis tier has lost everything in between.  A row that has expired is never
    removed: its key looks free to [lookup] and to [try_claim], but
    [store_result], after the order has run, raises [IdempotencyInProgress]. *)
Theorem two_tier_durability (u r k fp : string) (code : Z) (b : B) (s : t) :
  let d := s.2 in
  let row := d.(PgOrderIdempotencyStore.rows) !! (u, r, k) in
  let s' := after (store_result u r k fp code b) s in
  (row = None → outcome (store_result u r k fp code b) s = Ok tt →
   ∀ lost time, view lost !! _build_key u r k = None →
     time ≤ d.(PgOrderIdempotencyStore.now) + seconds result_ttl →
     let found := outcome (lookup u r k) (lost, at_time time s'.2) in
     (∃ rec, found = Ok (Some rec) ∧ rec.(fingerprint) = fp ∧ rec.(status_code) = code ∧ rec.(body) = b) ∨
     (∃ op, found = Err (IdempotencyStoreUnavailable op))) ∧
  (∀ rec ex, row = Some (rec, Some ex) → ex < d.(PgOrderIdempotencyStore.now) →
   d.(PgOrderIdempotencyStore.faults) = [] →
   outcome (PgOrderIdempotencyStore.lookup u r k) d = Ok None ∧
   outcome (PgOrderIdempotencyStore.try_claim u r k fp) d = Ok tt ∧
   outcome (store_result u r k fp code b) s = Err (IdempotencyInProgress k)).
Proof.
  intros d row s'. subst d row s'. split.
  - intros Hrow Hok lost time Hlost Htime found.
    set (rec := {| fingerprint := fp; status_code := code; body := b;
      created_at := s.2.(PgOrderIdempotencyStore.now) |}).
    assert ((after (store_result u r k fp code b) s).2.(PgOrderIdempotencyStore.rows) !! (u, r, k) =
      Some (rec, Some (s.2.(PgOrderIdempotencyStore.now) + seconds result_ttl))) as Hin.
    { revert Hok. unfold after, outcome, store_result, db, zoom, PgOrderIdempotencyStore.store_result,
        PgOrderIdempotencyStore.transaction, mbind, M_bind, get. cbn.
      destruct s.2.(PgOrderIdempotencyStore.faults) as [|[] fs]; cbn; [|done|]; rewrite Hrow; cbn;
        unfold tolerate, redis, zoom, try_except; cbn;
        (destruct (Idempotency.store_result u r k fp code b s.1) as [[[]|[op| |]] r']; cbn;
         intros Hok; try done; by rewrite lookup_insert_eq). }
    destruct (lookup_from_db u r k rec (lost, at_time time (after (store_result u r k fp code b) s).2))
      as [H|H]; cbn [fst snd at_time PgOrderIdempotencyStore.rows PgOrderIdempotencyStore.faults
        PgOrderIdempotencyStore.now]; [by intros ? ?; congruence|done|eauto| |by right].
    left. exists rec. by split_and!.
  - intros rec ex Hrow Hex Hf. unfold outcome, store_result, db, zoom, PgOrderIdempotencyStore.try_claim,
      PgOrderIdempotencyStore.store_result, PgOrderIdempotencyStore.lookup,
      PgOrderIdempotencyStore.transaction, mbind, M_bind, get. cbn. rewrite Hf. cbn. rewrite !Hrow. cbn.
    rewrite (proj2 (Z.ltb_lt _ _)) by lia. cbn. rewrite ?Hrow. cbn. rewrite (proj2 (Z.ltb_lt _ _)) by lia. done.
Qed.
End TwoTier.
End TwoTierOrderIdempotencyStore.

(** * Witnesses *)

Module IdempotencyWitness.
Import TwoTierOrderIdempotencyStore.

Lemma ttl_nonneg : 0 ≤ DEFAULT_CLAIM_TTL_SECONDS.
Proof. vm_compute. discriminate. Qed.
Lemma result_ttl_nonneg : 0 ≤ DEFAULT_RESULT_TTL_SECONDS.
Proof. vm_compute. discriminate. Qed.

#[local] Instance hot_ops : OrderIdempotencyStore Z (InMemoryOrderIdempotencyStore.t Z) :=
  in_memory_ops DEFAULT_CLAIM_TTL_SECONDS DEFAULT_RESULT_TTL_SECONDS.
#[local] Instance hot_tier : StoreLaws Z (InMemoryOrderIdempotencyStore.t Z) :=
  in_memory_store DEFAULT_CLAIM_TTL_SECONDS DEFAULT_RESULT_TTL_SECONDS ttl_nonneg result_ttl_nonneg.

Definition hot : InMemoryOrderIdempotencyStore.t Z :=
  {| InMemoryOrderIdempotencyStore._data := ∅; InMemoryOrderIdempotencyStore.now := 0 |}.
Definition tiers : Type := InMemoryOrderIdempotencyStore.t Z * PgOrderIdempotencyStore.t Z.
Definition stores : tiers := (hot,
  {| PgOrderIdempotencyStore.rows := ∅; PgOrderIdempotencyStore.faults := []; PgOrderIdempotencyStore.now := 0 |}).
Definition stored : tiers :=
  after (TwoTierOrderIdempotencyStore.store_result DEFAULT_RESULT_TTL_SECONDS "u" "r" "k" "fp" 200 7) stores.

Lemma two_tier_durability_witness :
  let found := outcome (TwoTierOrderIdempotencyStore.lookup "u" "r" "k") (hot, at_time (seconds 60) stored.2) in
  (∃ rec, found = Ok (Some rec) ∧ rec.(fingerprint) = "fp" ∧ rec.(status_code) = 200 ∧ rec.(body) = 7) ∨
  (∃ op, found = Err (IdempotencyStoreUnavailable op)).
Proof.
  exact (proj1 (two_tier_durability (R:=InMemoryOrderIdempotencyStore.t Z)
    (OrderIdempotencyStore0:=hot_ops) DEFAULT_RESULT_TTL_SECONDS "u" "r" "k" "fp" 200 7 stores)
    eq_refl ltac:(vm_compute; reflexivity) hot (seconds 60) eq_refl ltac:(vm_compute; discriminate)).
Defined.
End IdempotencyWitness.
