(* ===== verification/Orders.v ===== *)
(** The order routes: backend/api/routes/orders.py ([create_order],
    [create_batch_orders]), with the strict audit record of
    backend/db/repositories/audit_log.py.

    Both handlers have the same body around their own execution, written once
    as [idempotent_route].  They are stated over any idempotency store and any
    order executor; [compute_request_fingerprint], a SHA-256 of the canonical
    JSON of the request, is an arbitrary function of the request. *)

From stdpp Require Import base option list gmap strings.
From S2P Require Import Prelude PyFloat PyFormat PyParse Constants Ledger Guard PriceGuard Executor.
From S2P Require Import Idempotency.

(** * Schemas *)

Record OrderCreateRequest := {
  b_ticker : string;
  b_market : string;
  b_side : string;
  b_quantity : Z;
  b_order_type : string;
  b_limit_price : option float;
  b_reason : option string;
}.

(** [OrderResponse]; of the fill time only its presence is kept. *)
Record OrderResponse := {
  r_order_id : OrderId;
  r_ticker : string;
  r_market : string;
  r_side : string;
  r_quantity : Z;
  r_order_type : string;
  r_status : string;
  r_filled_price : option float;
  r_filled_at : bool;
  r_reason : string;
}.

Inductive ApiBody :=
  | OrderBody (r : OrderResponse)
  | BatchBody (results : list OrderResponse) (total success_count fail_count : Z).

(** What the client sees: a successful body, [success=False], an HTTP error
    with its status and code, or an exception no handler catches. *)
Inductive Http :=
  | Replied (b : ApiBody)
  | Unsuccessful
  | HttpError (status : Z) (error_code : string)
  | Uncaught (e : IdemExn).

Inductive RouteExn :=
  | AuditWriteFailure
  | Failure.

Definition _order_result_to_response (result : OrderResult) (order_type reason : string) :
    OrderResponse := {|
  r_order_id := result.(order_id);
  r_ticker := result.(res_ticker);
  r_market := value result.(res_market);
  r_side := value result.(res_side);
  r_quantity := result.(res_quantity);
  r_order_type := order_type;
  r_status := value result.(status);
  r_filled_price := if (result.(avg_price) >? fzero)%pyf then Some result.(avg_price) else None;
  r_filled_at := bool_decide (result.(status) = FILLED);
  r_reason := reason |}.

(** [OrderRequest(ticker=..., market=Market(...), ...)]; [None] is a [ValueError]. *)
Definition to_order_request (o : OrderCreateRequest) : option OrderRequest :=
  m ← of_value o.(b_market);
  s ← of_value o.(b_side);
  t ← of_value o.(b_order_type);
  Some {| ticker := o.(b_ticker); market := m; side := s; quantity := o.(b_quantity);
          order_type := t; limit_price := o.(b_limit_price); req_reason := default "" o.(b_reason) |}.

Definition _IDEMPOTENCY_KEY_MAX_LEN : Z := 128.

Definition _validate_idempotency_key (header : option string) : Http + string :=
  match header with
  | None => inl (HttpError 400 "IDEMPOTENCY_KEY_REQUIRED")
  | Some v =>
      let key := strip v in
      if bool_decide (key = "") then inl (HttpError 400 "IDEMPOTENCY_KEY_REQUIRED")
      else if _IDEMPOTENCY_KEY_MAX_LEN <? py_len key then inl (HttpError 400 "IDEMPOTENCY_KEY_TOO_LONG")
      else inr key
  end.

Definition _raise_idempotency_http (e : IdemExn) : Http :=
  match e with
  | IdempotencyConflict _ => HttpError 422 "IDEMPOTENCY_CONFLICT"
  | IdempotencyInProgress _ => HttpError 409 "IDEMPOTENCY_IN_PROGRESS"
  | IdempotencyStoreUnavailable _ => HttpError 503 "IDEMPOTENCY_STORE_UNAVAILABLE"
  end.
Definition _raise_audit_unavailable : Http := HttpError 503 "AUDIT_UNAVAILABLE".

(** What a request does, in order *)
Inductive RouteEvent :=
  | Claimed
  | AuditRequested (ok : bool)
  | Executed (o : list OrderRequest)
  | AuditCreated (ok : bool)
  | Released
  | ResultStored.

Module OrderRoutes.
Section Routes.
Context {S : Type} `{!OrderIdempotencyStore ApiBody S}.
(** The executor behind the routes *)
Context {X : Type} (execute_order : OrderRequest → M X ExecExn OrderResult)
  (execute_batch_orders : list OrderRequest → M X ExecExn (list OrderResult)).
Context (order_fingerprint : OrderCreateRequest → string)
  (batch_fingerprint : list OrderCreateRequest → string).

Record World := {
  store : S;
  exec : X;
  audit_faults : list bool;  (** [true]: the strict audit write fails *)
  trace : list RouteEvent;
}.

Definition set_store (x : S) (w : World) : World :=
  {| store := x; exec := w.(exec); audit_faults := w.(audit_faults); trace := w.(trace) |}.
Definition set_exec (x : X) (w : World) : World :=
  {| store := w.(store); exec := x; audit_faults := w.(audit_faults); trace := w.(trace) |}.
Definition happened (e : RouteEvent) (w : World) : World :=
  {| store := w.(store); exec := w.(exec); audit_faults := w.(audit_faults); trace := w.(trace) ++ [e] |}.

Definition on_store {E A} (m : M S E A) : M World E A := zoom store set_store m.
Definition emit {E} (e : RouteEvent) : M World E unit := modify (happened e).

Definition log_strict (event : bool → RouteEvent) : M World RouteExn unit := λ w,
  let failed := default false (head w.(audit_faults)) in
  (if failed then Err AuditWriteFailure else Ok tt,
   {| store := w.(store); exec := w.(exec); audit_faults := tail w.(audit_faults);
      trace := w.(trace) ++ [event (negb failed)] |}).

(** [try: store.release_claim(...) except IdempotencyStoreUnavailable: pass] *)
Definition release (u r k : string) : M World IdemExn unit :=
  try_except (on_store (release_claim u r k) ;; emit Released)
    (λ e, match e with IdempotencyStoreUnavailable _ => mret tt | _ => raise e end).

(** The part of a handler inside its second [try] *)
Abbreviation Execution := (M World RouteExn ApiBody).

(** A handler ends by returning a response, or by raising one. *)
Definition to_response (m : M World IdemExn Http) : M World Empty_set Http :=
  try_except m (λ e, mret (Uncaught e)).

Definition after_claim (u route key fp : string) (run : Execution) : M World IdemExn Http :=
  requested ← try_except (log_strict AuditRequested ;; mret true) (λ _, mret false);
  if negb requested then release u route key ;; mret _raise_audit_unavailable else
  result ← try_except (b ← run; mret (inl b)) (λ e : RouteExn, mret (inr e));
  match result with
  | inr AuditWriteFailure => release u route key ;; mret _raise_audit_unavailable
  | inr Failure => release u route key ;; mret Unsuccessful
  | inl api_body =>
      try_except (on_store (store_result u route key fp 200 api_body) ;; emit ResultStored)
        (λ e, match e with IdempotencyStoreUnavailable _ => mret tt | _ => raise e end) ;;
      mret (Replied api_body)
  end.

Definition idempotent_route (route : string) (user_id : string) (header : option string) (fp : string)
    (run : Execution) : M World Empty_set Http :=
  match _validate_idempotency_key header with
  | inl e => mret e
  | inr key =>
      to_response (
        found ← try_except (x ← on_store (lookup user_id route key); mret (inr x)) (λ e, mret (inl e));
        match found with
        | inl e => mret (_raise_idempotency_http e)
        | inr (Some existing) =>
            if bool_decide (existing.(fingerprint) ≠ fp)
            then mret (_raise_idempotency_http (IdempotencyConflict key))
            else mret (Replied existing.(body))
        | inr None =>
            claim ← try_except (on_store (try_claim user_id route key fp) ;; mret None)
                      (λ e, mret (Some e));
            match claim with
            | Some e => mret (_raise_idempotency_http e)
            | None => emit Claimed ;; after_claim user_id route key fp run
            end
        end)
  end.

(** ** POST /api/orders *)

Definition create_order_run (o : OrderCreateRequest) : Execution :=
  match to_order_request o with
  | None => raise Failure
  | Some order_req =>
      emit (Executed [order_req]) ;;
      result ← zoom exec set_exec (with_err (λ _, Failure) (execute_order order_req));
      log_strict AuditCreated ;;
      mret (OrderBody (_order_result_to_response result o.(b_order_type) (default "" o.(b_reason))))
  end.

Definition create_order (user_id : string) (header : option string) (o : OrderCreateRequest) :
    M World Empty_set Http :=
  idempotent_route "POST /api/orders" user_id header (order_fingerprint o) (create_order_run o).

(** ** POST /api/orders/batch *)

Definition is_success (r : OrderResult) : bool :=
  bool_decide (r.(status) = FILLED) || bool_decide (r.(status) = PARTIAL).
Definition is_failure (r : OrderResult) : bool :=
  negb (is_success r) && bool_decide (r.(status) = FAILED).
Definition count {A} (p : A → bool) (l : list A) : Z := Z.of_nat (length (filter (λ x, p x = true) l)).

Definition batch_responses (results : list OrderResult) (orders : list OrderCreateRequest) :
    list OrderResponse :=
  zip_with (λ result orig, _order_result_to_response result orig.(b_order_type) (default "" orig.(b_reason)))
    results orders.

Definition create_batch_run (orders : list OrderCreateRequest) : Execution :=
  match mapM to_order_request orders with
  | None => raise Failure
  | Some order_requests =>
      emit (Executed order_requests) ;;
      results ← zoom exec set_exec (with_err (λ _, Failure) (execute_batch_orders order_requests));
      log_strict AuditCreated ;;
      let zipped := zip results orders in
      mret (BatchBody (batch_responses results orders) (Z.of_nat (length zipped))
        (count is_success zipped.*1) (count is_failure zipped.*1))
  end.

Definition create_batch_orders (user_id : string) (header : option string)
    (orders : list OrderCreateRequest) : M World Empty_set Http :=
  idempotent_route "POST /api/orders/batch" user_id header (batch_fingerprint orders)
    (create_batch_run orders).

(** * The life of a request *)

Definition execution_trace (r : result RouteExn ApiBody) (evs : list RouteEvent) : Prop :=
  match r with
  | Ok _ => ∃ o, evs = [Executed o; AuditCreated true]
  | Err AuditWriteFailure => ∃ o, evs = [Executed o; AuditCreated false]
  | Err Failure => evs = [] ∨ ∃ o, evs = [Executed o]
  end.

(** An execution leaves such a trace and does not touch the store. *)
Definition executes (run : Execution) : Prop := ∀ w,
  (after run w).(store) = w.(store) ∧
  ∃ evs, (after run w).(trace) = w.(trace) ++ evs ∧ execution_trace (outcome run w) evs.

Lemma executes_order o : executes (create_order_run o).
Proof.
  intros w. unfold create_order_run. destruct (to_order_request o) as [req|];
    [|split; [done|]; exists []; rewrite app_nil_r; split; [done|]; by left].
  unfold emit, log_strict. run_m. cbn.
  destruct (execute_order req w.(exec)) as [[r|e] x]; cbn;
    [destruct (default false (head w.(audit_faults))); cbn|];
    (split; [done|]); eexists; rewrite <- ?app_assoc; (split; [reflexivity|]); cbn; eauto.
Qed.

Lemma executes_batch os : executes (create_batch_run os).
Proof.
  intros w. unfold create_batch_run. destruct (mapM to_order_request os) as [reqs|];
    [|split; [done|]; exists []; rewrite app_nil_r; split; [done|]; by left].
  unfold emit, log_strict. run_m. cbn.
  destruct (execute_batch_orders reqs w.(exec)) as [[r|e] x]; cbn;
    [destruct (default false (head w.(audit_faults))); cbn|];
    (split; [done|]); eexists; rewrite <- ?app_assoc; (split; [reflexivity|]); cbn; eauto.
Qed.








(** ** Over a lawful store *)

Section Lawful.
Context `{!StoreLaws ApiBody S}.






End Lawful.

(** The two handlers *)
Inductive handler := CreateOrder (o : OrderCreateRequest) | CreateBatch (os : list OrderCreateRequest).

Definition handle (h : handler) (u : string) (header : option string) : M World Empty_set Http :=
  match h with
  | CreateOrder o => create_order u header o
  | CreateBatch os => create_batch_orders u header os
  end.
Definition route_of (h : handler) : string :=
  match h with CreateOrder _ => "POST /api/orders" | CreateBatch _ => "POST /api/orders/batch" end.
Definition fingerprint_of (h : handler) : string :=
  match h with CreateOrder o => order_fingerprint o | CreateBatch os => batch_fingerprint os end.
Definition run_of (h : handler) : Execution :=
  match h with CreateOrder o => create_order_run o | CreateBatch os => create_batch_run os end.

Lemma executes_run h : executes (run_of h).
Proof. destruct h; [apply executes_order|apply executes_batch]. Qed.

Lemma handle_unfold h u header :
  handle h u header = idempotent_route (route_of h) u header (fingerprint_of h) (run_of h).
Proof. by destruct h. Qed.


Lemma release_not_replied u r k (http : Http) w b :
  outcome (release u r k ;; mret http) w = Ok (Replied b) → http = Replied b.
Proof.
  unfold outcome, mbind, M_bind. destruct (release u r k w) as [[[]|e] w']; [by intros [= ->]|done].
Qed.

Lemma after_claim_replied u route key fp run w b :
  executes run → outcome (after_claim u route key fp run) w = Ok (Replied b) →
  (after (after_claim u route key fp run) w).(store) = after (store_result u route key fp 200 b) w.(store).
Proof.
  intros Hrun. unfold after_claim. unfold outcome, after.
  unfold mbind, M_bind, mret, M_ret, try_except. unfold log_strict.
  destruct (default false (head w.(audit_faults))); cbn.
  - intros H. apply (release_not_replied u route key _ _ b) in H. done.
  - set (w1 := {| store := _; exec := _; audit_faults := _; trace := _ |}).
    destruct (Hrun w1) as [Hs _]. unfold after in Hs.
    destruct (run w1) as [[b'|[]] w2]; cbn in *.
    + unfold on_store, emit, zoom, modify. rewrite Hs.
      destruct (store_result u route key fp 200 b' w.(store)) as [[[]|e] s] eqn:E; cbn.
      * intros [= ->]. by rewrite E.
      * destruct e; cbn; [|done..]. intros [= ->]. by rewrite E.
    + intros H. by apply (release_not_replied u route key _ _ b) in H.
    + intros H. by apply (release_not_replied u route key _ _ b) in H.
Qed.
End Routes.
Arguments World S X : clear implicits.
End OrderRoutes.

(** * Retries and concurrent requests, over the in-memory store *)

Module OrderIdempotency.
Import OrderRoutes InMemoryOrderIdempotencyStore.

Section InMemory.
Context (claim_ttl result_ttl : Z) (Hclaim : 0 ≤ claim_ttl) (Hresult : 0 ≤ result_ttl).
#[local] Instance the_store : OrderIdempotencyStore ApiBody (t ApiBody) := in_memory_ops claim_ttl result_ttl.
Context {X : Type} (execute_order : OrderRequest → M X ExecExn OrderResult)
  (execute_batch_orders : list OrderRequest → M X ExecExn (list OrderResult)).
Context (order_fingerprint : OrderCreateRequest → string)
  (batch_fingerprint : list OrderCreateRequest → string).

Abbreviation handle := (handle execute_order execute_batch_orders order_fingerprint batch_fingerprint).
Abbreviation fp_of := (fingerprint_of order_fingerprint batch_fingerprint).
Abbreviation World := (World (t ApiBody) X).

(** Time passes for this key; other keys may change. *)
Definition later (rk : string) (w w' : World) (time : Z) : Prop :=
  w'.(store).(_data) !! rk = w.(store).(_data) !! rk ∧ w'.(store).(now) = time.

(** A request that took the claim and was answered has its answer stored for
    [result_ttl] from the time of the request. *)
Lemma success_stored h u header w b key :
  _validate_idempotency_key header = inr key →
  outcome (handle h u header) w = Ok (Replied b) →
  (after (handle h u header) w).(trace) ≠ w.(trace) →
  ∃ rec, rec.(fingerprint) = fp_of h ∧ rec.(body) = b ∧
    (after (handle h u header) w).(store).(_data) !! _build_key u (route_of h) key =
      Some (Stored rec, w.(store).(now) + seconds result_ttl).
Proof.
  intros Hkey. rewrite handle_unfold.
  set (fp := fp_of h). set (route := route_of h).
  pose proof (executes_run execute_order execute_batch_orders (S:=t ApiBody) h) as Hrun.
  generalize dependent (run_of execute_order execute_batch_orders (S:=t ApiBody) h). intros run Hrun.
  unfold idempotent_route. rewrite Hkey.
  unfold to_response, outcome, after, on_store. unfold mbind, M_bind, mret, M_ret, try_except, zoom.
  destruct (lookup_spec u route key w.(store)) as (s1 & E1 & Hv1 & Hn1).
  cbn [Idempotency.lookup the_store in_memory_ops]. rewrite E1.
  set (rk := _build_key u route key) in *.
  pose proof (try_claim_spec claim_ttl Hclaim u route key fp s1) as Hc. cbv zeta in Hc. fold rk in Hc.
  rewrite Hv1 in Hc. cbn [Idempotency.try_claim the_store in_memory_ops].
  destruct (view w.(store) !! rk) as [[|rec]|]; cbn.
  - rewrite Hc. done.
  - destruct (bool_decide (rec.(fingerprint) ≠ fp)); cbn; intros Heq Hne; [done|]. by destruct Hne.
  - destruct Hc as (s2 & -> & _ & _ & Hn2). unfold emit, modify. cbn.
    match goal with |- context [after_claim u route key fp run ?w0] => set (w2 := w0) end.
    pose proof (after_claim_replied u route key fp run w2 b Hrun) as Hr. unfold outcome, after in Hr.
    destruct (after_claim u route key fp run w2) as [[http|e] w3]; cbn in *; [|done].
    intros [= ->] _. rewrite Hr by done. subst w2. cbn.
    destruct (store_result_spec result_ttl Hresult u route key fp 200 b s2) as (s3 & -> & _ & Hd & _). cbn.
    eexists {| fingerprint := fp; status_code := 200; body := b; created_at := s2.(now) |}.
    rewrite Hd, lookup_insert_eq, Hn2, Hn1. by split_and!.
Qed.

(** C8. A retry is replayed.  Once a request has been executed and answered, every
    later request with the same key on the same route is, until the result
    expires, answered from the store without executing anything: with the same
    body when it is the same request, with 422 when it is another one. *)
Theorem retry_replays (h h' : handler) (u : string) (header header' : option string) (key : string)
    (w w2 : World) (b : ApiBody) (time : Z)
    (Hkey : _validate_idempotency_key header = inr key)
    (Hkey' : _validate_idempotency_key header' = inr key)
    (Hroute : route_of h' = route_of h)
    (Hok : outcome (handle h u header) w = Ok (Replied b))
    (Hfresh : (after (handle h u header) w).(trace) ≠ w.(trace))
    (Hlater : later (_build_key u (route_of h) key) (after (handle h u header) w) w2 time)
    (Htime : time ≤ w.(store).(now) + seconds result_ttl) :
  let m := handle h' u header' in
  outcome m w2 = Ok (if bool_decide (fp_of h' = fp_of h) then Replied b
                     else HttpError 422 "IDEMPOTENCY_CONFLICT") ∧
  (after m w2).(trace) = w2.(trace) ∧ (after m w2).(exec) = w2.(exec) ∧
  view (after m w2).(store) = view w2.(store).
Proof.
  destruct (success_stored h u header w b key Hkey Hok Hfresh) as (rec & Hfp & Hb & Hd).
  destruct Hlater as [Hl Hnow]. rewrite Hd in Hl. cbv zeta.
  rewrite handle_unfold, Hroute. unfold idempotent_route. rewrite Hkey'.
  destruct (lookup_spec u (route_of h) key w2.(store)) as (s1 & E1 & Hv1 & _).
  assert (view w2.(store) !! _build_key u (route_of h) key = Some (Stored rec)) as Hv.
  { rewrite view_lookup, Hl. cbn. by rewrite Hnow, (proj2 (Z.leb_le _ _)) by lia. }
  rewrite Hv in E1.
  unfold to_response, outcome, after, on_store. unfold mbind, M_bind, mret, M_ret, try_except, zoom.
  cbn [Idempotency.lookup the_store in_memory_ops]. rewrite E1. cbn. rewrite Hfp, <- Hb.
  destruct (decide (fp_of h' = fp_of h)) as [E|E].
  - rewrite (bool_decide_true (fp_of h' = fp_of h)), (bool_decide_false (fp_of h ≠ _)) by (try done; by intros []).
    by split_and!.
  - rewrite (bool_decide_false (fp_of h' = fp_of h)), (bool_decide_true (fp_of h ≠ _)) by congruence.
    by split_and!.
Qed.

(** ** Concurrent requests for one key *)

Context (u route key : string).
Abbreviation rk := (_build_key u route key).

(** The store, and the requests that hold the claim, with its expiry.  Between
    [lookup] and [try_claim] a handler does not await, so both are one step of
    a single process. *)
Record Sys := { mem : t ApiBody; running : gmap nat Z }.

Inductive sys_step : Sys → Sys → Prop :=
  | step_begin s i fp m1 m2 :
      s.(running) !! i = None →
      lookup u route key s.(mem) = (Ok None, m1) →
      try_claim claim_ttl u route key fp m1 = (Ok tt, m2) →
      sys_step s {| mem := m2; running := <[i := s.(mem).(now) + seconds claim_ttl]> s.(running) |}
  | step_finish s i ex fp b :
      s.(running) !! i = Some ex →
      sys_step s {| mem := after (store_result result_ttl u route key fp 200 b) s.(mem);
                    running := delete i s.(running) |}
  | step_fail s i ex :
      s.(running) !! i = Some ex →
      sys_step s {| mem := after (release_claim u route key) s.(mem);
                    running := delete i s.(running) |}
  | step_tick s time :
      s.(mem).(now) ≤ time →
      sys_step s {| mem := {| _data := s.(mem).(_data); now := time |}; running := s.(running) |}
  | step_other s d :
      d !! rk = s.(mem).(_data) !! rk →
      sys_step s {| mem := set_data d s.(mem); running := s.(running) |}.

(** Every running request finishes before its claim expires. *)
Definition timely (s : Sys) : Prop := map_Forall (λ _ ex, s.(mem).(now) ≤ ex) s.(running).
Definition timely_step (s s' : Sys) : Prop := sys_step s s' ∧ timely s'.

Definition exclusive (s : Sys) : Prop :=
  s.(running) = ∅ ∨
  ∃ i ex, s.(running) = {[ i := ex ]} ∧ s.(mem).(_data) !! rk = Some (Claim, ex) ∧ s.(mem).(now) ≤ ex.

Lemma exclusive_step s s' : timely_step s s' → exclusive s → exclusive s'.
Proof.
  intros [Hstep Ht] Hex. destruct Hstep as [s i fp m1 m2 Hi Hl Hc|s i ex fp b Hi|s i ex Hi|s time Hle|s d Hd].
  - destruct (lookup_spec u route key s.(mem)) as (m1' & E & Hv & Hn). rewrite E in Hl. injection Hl as Hnone <-.
    pose proof (try_claim_spec claim_ttl Hclaim u route key fp m1') as H. cbv zeta in H. rewrite Hc in H.
    destruct Hex as [->|(j & ex & _ & Hd & Hle)].
    + right. exists i, (s.(mem).(now) + seconds claim_ttl). cbn. split; [by rewrite insert_empty|].
      destruct (view m1' !! rk) as [[|rec]|] eqn:Ev; [done| |].
      * exfalso. rewrite Hv in Ev. by rewrite Ev in Hnone.
      * destruct H as (m2' & [= <-] & _ & Hd & Hn'). rewrite Hd, lookup_insert_eq, Hn', Hn.
        split; [done|]. unfold seconds. lia.
    + exfalso. rewrite Hv, view_lookup, Hd in H. cbn in H. by rewrite (proj2 (Z.leb_le _ _)) in H by lia.
  - left. cbn. destruct Hex as [E|(j & ex' & E & _)]; rewrite E in *; [by rewrite lookup_empty in Hi|].
    apply lookup_singleton_Some in Hi as [<- _]. apply delete_singleton_eq.
  - left. cbn. destruct Hex as [E|(j & ex' & E & _)]; rewrite E in *; [by rewrite lookup_empty in Hi|].
    apply lookup_singleton_Some in Hi as [<- _]. apply delete_singleton_eq.
  - destruct Hex as [E|(j & ex & E & Hd & _)]; [by left|right]. exists j, ex. split_and!; [done|done|].
    cbn in *. apply (Ht j). cbn. rewrite E. apply lookup_singleton_eq.
  - destruct Hex as [E|(j & ex & E & Hd' & Hle)]; [by left|right]. exists j, ex. cbn. by rewrite Hd.
Qed.

(** C4. At most one execution per key.  However requests, failures, time and the
    rest of the store interleave, the claim lets at most one request of a key
    run at a time, as long as every request finishes before its claim expires. *)
Theorem one_execution_at_a_time (s0 s : Sys)
    (Hstart : s0.(running) = ∅) (Hsteps : steps timely_step s0 s) :
  (size s.(running) ≤ 1)%nat.
Proof.
  assert (exclusive s) as [E|(i & ex & E & _)]
    by (eapply (steps_invariant timely_step exclusive); [apply exclusive_step|done|by left]); rewrite E.
  - rewrite map_size_empty. lia.
  - rewrite map_size_singleton. lia.
Qed.
End InMemory.
End OrderIdempotency.

(** * Witnesses and findings *)

Module OrdersWitness.
Import OrderIdempotency InMemoryOrderIdempotencyStore.

Definition empty_store : t ApiBody := {| _data := ∅; now := 0 |}.
Definition idle : Sys := {| mem := empty_store; running := ∅ |}.
Definition key : string := "k".
Definition route : string := "POST /api/orders".
Definition claim_seconds := DEFAULT_CLAIM_TTL_SECONDS.
Definition result_seconds := DEFAULT_RESULT_TTL_SECONDS.
Definition step := sys_step claim_seconds result_seconds "u" route key.

(** The state after the first request has begun *)
Definition first_running : Sys := {|
  mem := after (try_claim claim_seconds "u" route key "fp") empty_store;
  running := {[ 0%nat := seconds claim_seconds ]} |}.

Lemma first_begins : step idle first_running.
Proof.
  assert (first_running = {| mem := (after (try_claim claim_seconds "u" route key "fp") empty_store);
    running := <[0%nat := idle.(mem).(now) + seconds claim_seconds]> idle.(running) |}) as -> by reflexivity.
  eapply step_begin with (fp := "fp"); [reflexivity|vm_compute; reflexivity|vm_compute; reflexivity].
Qed.

Lemma one_execution_at_a_time_witness :
  (size first_running.(running) ≤ 1)%nat.
Proof.
  refine (one_execution_at_a_time claim_seconds result_seconds _ "u" route key idle first_running eq_refl _).
  - vm_compute. discriminate.
  - eapply steps_cons; [|constructor]. split; [exact first_begins|].
    intros i ex Hi. unfold first_running in Hi. cbn [running] in Hi.
    apply lookup_singleton_Some in Hi as [_ <-]. vm_compute. discriminate.
Defined.

(** A broker that always answers, and the second request an hour later *)
Definition accepted : OrderResult := {|
  order_id := BrokerId "A1"; res_ticker := "005930"; res_market := KRX; res_side := BUY;
  res_quantity := 10; filled_quantity := 10; avg_price := of_Z 70000; status := FILLED;
  res_order_type := MARKET; error := false |}.
Definition always (o : OrderRequest) : M unit ExecExn OrderResult := mret accepted.
Definition never (os : list OrderRequest) : M unit ExecExn (list OrderResult) := raise KISAPIError.
Definition a_request : OrderCreateRequest := {|
  b_ticker := "005930"; b_market := "KRX"; b_side := "BUY"; b_quantity := 10;
  b_order_type := "MARKET"; b_limit_price := None; b_reason := None |}.
Definition start : OrderRoutes.World (t ApiBody) unit := {|
  OrderRoutes.store := empty_store; OrderRoutes.exec := tt; OrderRoutes.audit_faults := [];
  OrderRoutes.trace := [] |}.

Lemma ttls_nonneg : 0 ≤ claim_seconds ∧ 0 ≤ result_seconds.
Proof. vm_compute. split; discriminate. Qed.

#[local] Instance witness_store : OrderIdempotencyStore ApiBody (t ApiBody) :=
  the_store claim_seconds result_seconds.
Definition post (header : option string) : M (OrderRoutes.World (t ApiBody) unit) Empty_set Http :=
  OrderRoutes.handle always never b_ticker (λ _, "") (OrderRoutes.CreateOrder a_request) "u" header.
Definition reply : ApiBody := OrderBody (_order_result_to_response accepted "MARKET" "").

(** An hour later *)
Definition an_hour_later : OrderRoutes.World (t ApiBody) unit :=
  let w := after (post (Some "k")) start in
  OrderRoutes.set_store {| _data := w.(OrderRoutes.store).(_data); now := seconds 3600 |} w.

Lemma retry_replays_witness :
  outcome (post (Some "k")) start = Ok (Replied reply) ∧
  outcome (post (Some " k ")) an_hour_later = Ok (Replied reply).
Proof.
  split; [vm_compute; reflexivity|].
  exact (proj1 (retry_replays claim_seconds result_seconds (proj1 ttls_nonneg) (proj2 ttls_nonneg)
    always never b_ticker (λ _, "") (OrderRoutes.CreateOrder a_request) (OrderRoutes.CreateOrder a_request)
    "u" (Some "k") (Some " k ") "k" start an_hour_later reply (seconds 3600)
    ltac:(vm_compute; reflexivity) ltac:(vm_compute; reflexivity) eq_refl
    ltac:(vm_compute; reflexivity) ltac:(vm_compute; discriminate)
    ltac:(split; vm_compute; reflexivity) ltac:(vm_compute; discriminate))).
Defined.

(** Two ways to execute an order twice.  A claim lives for 30 seconds, but
    five pauses of 300 seconds lie in a TWAP or VWAP execution: one second after
    the claim has expired, a retry of the same request begins while the first
    is still running.  And a process that looked the key up before another one
    claimed it gets the claim after the other one has stored its result. *)
Theorem idempotent_orders_can_run_twice :
  (∃ s, steps step idle s ∧ size s.(running) = 2%nat ∧ s.(mem).(now) < seconds ((6 - 1) * 300)) ∧
  (let late := after (lookup "u" route key) empty_store in
   let first := after (lookup "u" route key ;; try_claim claim_seconds "u" route key "fp" ;;
     store_result result_seconds "u" route key "fp" 200 (BatchBody [] 0 0 0)) late in
   outcome (lookup "u" route key) empty_store = Ok None ∧
   outcome (try_claim claim_seconds "u" route key "fp") first = Ok tt).
Proof.
  split; [|split; vm_compute; reflexivity].
  set (expired := {| mem := {| _data := first_running.(mem).(_data); now := seconds 31 |};
    running := first_running.(running) |}).
  exists {| mem := after (try_claim claim_seconds "u" route key "fp")
                     (after (lookup "u" route key) expired.(mem));
            running := <[1%nat := expired.(mem).(now) + seconds claim_seconds]> expired.(running) |}.
  split; [|split; vm_compute; reflexivity].
  eapply steps_cons; [exact first_begins|].
  eapply steps_cons; [apply (step_tick _ _ _ _ _ first_running (seconds 31)); vm_compute; discriminate|].
  eapply steps_cons; [|constructor].
  eapply step_begin with (fp := "fp"); [reflexivity|vm_compute; reflexivity|vm_compute; reflexivity].
Qed.
End OrdersWitness.
