(* ===== verification/Reconcile.v ===== *)
(** Position reconciliation: backend/core/reconciliation.py,
    reconciliation_providers.py and reconciliation_runner.py.

    A Python dict is an association list in insertion order, since the totals
    are floating-point sums in that order.  The order of [mismatches], which
    follows a Python set, is not modelled; time stamps are left out. *)

From stdpp Require Import base option list sets strings.
From Stdlib Require Import Floats.SpecFloat.
From S2P Require Import Prelude PyFloat PyDict PyFormat PyParse Constants Guard.

(** * Position maps *)

Abbreviation PositionMap := (list (string * float)).

Definition quantity_of (k : string) (d : PositionMap) : float := default fzero (dict_get k d).

(** * ReconciliationEngine *)

Record Mismatch := { m_ticker : string; broker_qty : float; internal_qty : float; difference : float }.
Record ReconciliationResult := {
  matched : bool;
  mismatches : list Mismatch;
  broker_total : float;
  internal_total : float;
}.

(** [abs(broker_qty - internal_qty) > 1e-6] *)
Definition differs (broker internal : PositionMap) (ticker : string) : bool :=
  (fabs (quantity_of ticker broker - quantity_of ticker internal) >? dec 1 6)%pyf.

Definition mismatch (broker internal : PositionMap) (ticker : string) : Mismatch := {|
  m_ticker := ticker; broker_qty := quantity_of ticker broker;
  internal_qty := quantity_of ticker internal;
  difference := (quantity_of ticker broker - quantity_of ticker internal)%pyf |}.

Definition all_tickers (broker internal : PositionMap) : list string :=
  remove_dups (broker.*1 ++ internal.*1).

Module ReconciliationEngine.
Definition t : Type := option ReconciliationResult.  (** [_last_result] *)

Definition reconcile (broker internal : PositionMap) : M t Empty_set ReconciliationResult :=
  let ms := mismatch broker internal <$>
    filter (λ tk, differs broker internal tk = true) (all_tickers broker internal) in
  let result := {|
    matched := bool_decide (ms = []);
    mismatches := ms;
    broker_total := fsum broker.*2;
    internal_total := fsum internal.*2 |} in
  modify (λ _, Some result) ;;
  mret result.

(** [None] is the [ValueError] for a negative balance. *)
Definition reconcile_balance (broker_balance internal_balance tolerance : float) : option bool :=
  if (broker_balance <? fzero)%pyf || (internal_balance <? fzero)%pyf then None
  else Some (fabs (broker_balance - internal_balance) <=? tolerance)%pyf.

Definition get_mismatches (s : t) : list Mismatch :=
  match s with Some r => r.(mismatches) | None => [] end.
End ReconciliationEngine.

#[global] Instance Mismatch_eq_dec : EqDecision Mismatch.
Proof. solve_decision. Defined.

(** * KISBrokerPositionProvider *)

(** Decoded JSON, as far as the provider looks into it; [JOther] is a list or
    an object where a scalar is expected, or the other way round. *)
Inductive JScalar := JStr (s : string) | JNum (x : float) | JOther.
Inductive JRow := JRowObject (fields : list (string * option JScalar)) | JRowOther.
Inductive JRows := JAbsent | JList (rows : list JRow) | JNotList.
Inductive JResponse := JObject (output1 : JRows) | JNotObject.

Inductive ParseError :=
  | UpstreamError
  | UnexpectedResponse
  | NotAList
  | RowNotObject (idx : nat)
  | MissingField (idx : nat)
  | NonNumericQuantity (idx : nat)
  | NegativeQuantity (idx : nat).

(** [row.get(k)]: an absent field and a null are both [None]. *)
Fixpoint row_get (k : string) (fields : list (string * option JScalar)) : option JScalar :=
  match fields with
  | [] => None
  | (k', v) :: fields' => if bool_decide (k = k') then v else row_get k fields'
  end.

Module KISBrokerPositionProvider.
Section Provider.
(** [str(x)] for what is not a string *)
Context (py_str : JScalar → string).
Context (quantity_field ticker_field : string).

Definition to_float (v : JScalar) : option float :=
  match v with JStr s => py_float s | JNum x => Some x | JOther => None end.
Definition to_str (v : JScalar) : string := match v with JStr s => s | _ => py_str v end.

(** One row: the position it holds, if any *)
Definition parse_row (idx : nat) (row : JRow) : result ParseError (option (string * float)) :=
  match row with
  | JRowOther => Err (RowNotObject idx)
  | JRowObject fields =>
      match row_get ticker_field fields, row_get quantity_field fields with
      | Some ticker, Some qty_raw =>
          match to_float qty_raw with
          | None => Err (NonNumericQuantity idx)
          | Some qty =>
              if (qty <? fzero)%pyf then Err (NegativeQuantity idx)
              else if (qty =? fzero)%pyf then Ok None
              else Ok (Some (strip (to_str ticker), qty))
          end
      | _, _ => Err (MissingField idx)
      end
  end.

Fixpoint parse_rows (idx : nat) (rows : list JRow) (positions : PositionMap) :
    result ParseError PositionMap :=
  match rows with
  | [] => Ok positions
  | row :: rows' =>
      match parse_row idx row with
      | Err e => Err e
      | Ok None => parse_rows (S idx) rows' positions
      | Ok (Some (ticker, qty)) => parse_rows (S idx) rows' (dict_set ticker qty positions)
      end
  end.

Definition _parse (response : JResponse) : result ParseError PositionMap :=
  match response with
  | JNotObject => Err UnexpectedResponse
  | JObject JAbsent => Ok []
  | JObject JNotList => Err NotAList
  | JObject (JList rows) => parse_rows 0 rows []
  end.

(** [get_kr_balance()] answers or raises. *)
Definition get_positions (answer : option JResponse) : result ParseError PositionMap :=
  match answer with Some r => _parse r | None => Err UpstreamError end.
End Provider.
End KISBrokerPositionProvider.

(** * ReconciliationRunner *)

Inductive RunMetric := RunsError | RunsMatched | RunsMismatch (count : Z) | LedgerDiff (x : float).

Module ReconciliationRunner.
Section Runner.
(** [__post_init__] refuses a negative threshold. *)
Context (mismatch_threshold : Z).

Record World := {
  engine : ReconciliationEngine.t;
  guard : TradingGuardState;
  metrics : list RunMetric;
}.

Definition set_guard (g : TradingGuardState) (w : World) : World :=
  {| engine := w.(engine); guard := g; metrics := w.(metrics) |}.
Definition set_engine (e : ReconciliationEngine.t) (w : World) : World :=
  {| engine := e; guard := w.(guard); metrics := w.(metrics) |}.
Definition observe {E} (m : RunMetric) : M World E unit :=
  modify (λ w, {| engine := w.(engine); guard := w.(guard); metrics := w.(metrics) ++ [m] |}).

Definition kill_reason (mismatch_count : Z) (diff_abs : float) : string :=
  "Reconciliation mismatch: " +:+ fmt_int mismatch_count +:+ "건 " +:+ "(임계 " +:+
  fmt_int mismatch_threshold +:+ ") ledger_diff=" +:+ fmt_fixed false 2 diff_abs.

(** One cycle, given what the two providers answer *)
Definition run {E} (broker internal : result E PositionMap) : M World E ReconciliationResult :=
  positions ← try_except
    (b ← lift_result broker; i ← lift_result internal; mret (b, i))
    (λ exc, observe RunsError ;; raise exc);
  result ← zoom engine set_engine
    (with_err (λ e : Empty_set, match e with end) (ReconciliationEngine.reconcile positions.1 positions.2));
  let diff_abs := fabs (result.(broker_total) - result.(internal_total))%pyf in
  observe (LedgerDiff diff_abs) ;;
  let mismatch_count := Z.of_nat (length result.(mismatches)) in
  if result.(matched) then observe RunsMatched ;; mret result else
  observe (RunsMismatch mismatch_count) ;;
  when (mismatch_threshold <? mismatch_count)
    (zoom guard set_guard (with_err (λ e : Empty_set, match e with end)
      (TradingGuard.activate_kill_switch (kill_reason mismatch_count diff_abs)))) ;;
  mret result.
End Runner.
End ReconciliationRunner.

(** * Properties *)

Lemma elem_of_all_tickers tk b i : tk ∈ all_tickers b i ↔ tk ∈ b.*1 ∨ tk ∈ i.*1.
Proof. unfold all_tickers. rewrite elem_of_remove_dups. apply elem_of_app. Qed.

(** A ticker that nobody holds does not differ. *)
Lemma differs_known b i tk : differs b i tk = true → tk ∈ all_tickers b i.
Proof.
  intros Hd. rewrite elem_of_all_tickers.
  destruct (decide (tk ∈ b.*1)) as [|Hb]; [by left|]. destruct (decide (tk ∈ i.*1)) as [|Hi]; [by right|].
  exfalso. unfold differs, quantity_of in Hd. rewrite !dict_get_None in Hd by done. by vm_compute in Hd.
Qed.

Lemma reconcile_mismatches b i s :
  ∃ r, ReconciliationEngine.reconcile b i s = (Ok r, Some r) ∧
    r.(matched) = bool_decide (r.(mismatches) = []) ∧ NoDup (m_ticker <$> r.(mismatches)) ∧
    (∀ m, m ∈ r.(mismatches) ↔ differs b i m.(m_ticker) = true ∧ m = mismatch b i m.(m_ticker)).
Proof.
  unfold ReconciliationEngine.reconcile. run_m. eexists. split; [reflexivity|]. cbn.
  split; [done|]. split.
  - rewrite <- list_fmap_compose. rewrite (list_fmap_ext _ id) by done.
    rewrite list_fmap_id. apply NoDup_filter. apply NoDup_remove_dups.
  - intros m. rewrite list_elem_of_fmap. split.
    + intros (tk & -> & Hin). apply list_elem_of_filter in Hin as [Hd _]. done.
    + intros [Hd Hm]. exists m.(m_ticker). split; [done|]. apply list_elem_of_filter.
      split; [done|]. by apply differs_known.
Qed.

Module ReconcileFacts.
Import ReconciliationRunner.

(** Reconciliation finds exactly the tickers whose quantities differ by more
    than 1e-6, each once, and turns the kill switch on exactly when there are
    more of them than the threshold: with the default threshold 0, when there
    is any.  A provider failure is counted and raised and leaves the guard as
    it was. *)
Theorem reconciliation_guards {E} (threshold : Z) (broker internal : result E PositionMap) (w : World) :
  let m := run threshold broker internal in
  let w' := after m w in
  match broker, internal with
  | Ok b, Ok i => ∃ r, outcome m w = Ok r ∧ w'.(engine) = Some r ∧
      NoDup (m_ticker <$> r.(mismatches)) ∧
      (∀ mm, mm ∈ r.(mismatches) ↔ differs b i mm.(m_ticker) = true ∧ mm = mismatch b i mm.(m_ticker)) ∧
      r.(matched) = bool_decide (r.(mismatches) = []) ∧
      let count := Z.of_nat (length r.(mismatches)) in
      w'.(guard) =
        if negb r.(matched) && (threshold <? count)
        then TradingGuard.set_kill_switch true
               (kill_reason threshold count (fabs (r.(broker_total) - r.(internal_total)))%pyf) w.(guard)
        else w.(guard)
  | Ok _, Err e | Err e, _ => outcome m w = Err e ∧ w'.(guard) = w.(guard) ∧
      w'.(metrics) = w.(metrics) ++ [RunsError]
  end.
Proof.
  intros m. subst m. unfold run, observe, outcome, after. unfold lift_result.
  destruct broker as [b|e], internal as [i|e']; run_m; try done.
  destruct (reconcile_mismatches b i w.(engine)) as (r & Er & Hm & Hnd & Hin).
  cbn [fst snd]. rewrite Er. cbn. exists r. destruct r.(matched) eqn:Ematched; cbn; [by split_and!|].
  destruct (threshold <? _); cbn; by split_and!.
Qed.

Section Parse.
Context (py_str : JScalar → string) (quantity_field ticker_field : string).
Abbreviation parse_row := (KISBrokerPositionProvider.parse_row py_str quantity_field ticker_field).
Abbreviation parse_rows := (KISBrokerPositionProvider.parse_rows py_str quantity_field ticker_field).

(** The positions of the rows, in order *)
Definition held (rows : list JRow) : list (string * float) :=
  omap (λ row, match parse_row 0 row with Ok (Some x) => Some x | _ => None end) rows.

Lemma parse_row_idx idx row x : parse_row idx row = Ok x → parse_row 0 row = Ok x.
Proof.
  unfold KISBrokerPositionProvider.parse_row. destruct row as [fields|]; [|done].
  destruct (row_get ticker_field fields), (row_get quantity_field fields) as [q|]; try done.
  destruct (KISBrokerPositionProvider.to_float q) as [x'|]; [|done]. by destruct (x' <? fzero)%pyf.
Qed.

Lemma parse_row_positive row tk q :
  parse_row 0 row = Ok (Some (tk, q)) → (q <? fzero)%pyf = false ∧ (q =? fzero)%pyf = false.
Proof.
  unfold KISBrokerPositionProvider.parse_row. destruct row as [fields|]; [|done].
  destruct (row_get ticker_field fields), (row_get quantity_field fields) as [q'|]; try done.
  destruct (KISBrokerPositionProvider.to_float q') as [x'|]; [|done].
  destruct (x' <? fzero)%pyf eqn:E1; [done|]. destruct (x' =? fzero)%pyf eqn:E2; [done|].
  intros [= _ <-]. done.
Qed.

Definition last_of (k : string) (l : list (string * float)) (d : PositionMap) : option float :=
  match last (filter (λ tq, tq.1 = k) l) with Some tq => Some tq.2 | None => dict_get k d end.

Lemma last_of_cons k tk q l d : last_of k ((tk, q) :: l) d = last_of k l (dict_set tk q d).
Proof.
  unfold last_of. rewrite filter_cons, dict_get_set. case_decide as H; cbn in H.
  - subst. rewrite bool_decide_true by done. rewrite last_cons. by destruct (last _) as [[? ?]|].
  - by rewrite bool_decide_false by congruence.
Qed.

Lemma parse_rows_spec idx rows d d' :
  parse_rows idx rows d = Ok d' → NoDup d.*1 →
  NoDup d'.*1 ∧ (∀ k, dict_get k d' = last_of k (held rows) d) ∧
  Forall (λ row, is_ok (parse_row 0 row) = true) rows.
Proof.
  revert idx d. induction rows as [|row rows IH]; intros idx d; cbn [KISBrokerPositionProvider.parse_rows].
  { intros [= <-] Hnd. by split_and!. }
  destruct (parse_row idx row) as [[[tk q]|]|e] eqn:E; [..|done]; apply parse_row_idx in E; intros Hp Hnd.
  - destruct (IH _ _ Hp (dict_set_NoDup tk q d Hnd)) as (H1 & H2 & H3). split_and!; [done| |].
    + intros k. rewrite H2. unfold held. cbn. rewrite E. by rewrite last_of_cons.
    + constructor; [by rewrite E|done].
  - destruct (IH _ _ Hp Hnd) as (H1 & H2 & H3). split_and!; [done| |].
    + intros k. rewrite H2. unfold held. cbn. by rewrite E.
    + constructor; [by rewrite E|done].
Qed.

(** The broker's balance is read strictly.  When it is accepted, every row
    was valid, each ticker appears once, with the quantity of its last row that
    is not zero, and no quantity is negative or zero.  A quantity that is not a
    number is accepted, though, and then never differs from any other one. *)
Theorem broker_balance_is_strict (answer : option JResponse) (d : PositionMap)
    (Hok : KISBrokerPositionProvider.get_positions py_str quantity_field ticker_field answer = Ok d) :
  NoDup d.*1 ∧
  (∀ tk q, dict_get tk d = Some q → (q <? fzero)%pyf = false ∧ (q =? fzero)%pyf = false ∧
     (is_nan q = true → ∀ internal, differs d internal tk = false)) ∧
  (d = [] ∨ ∃ rows, answer = Some (JObject (JList rows)) ∧
     Forall (λ row, is_ok (parse_row 0 row) = true) rows ∧
     ∀ tk, dict_get tk d = snd <$> last (filter (λ tq, tq.1 = tk) (held rows))).
Proof.
  destruct answer as [[[|rows|]|]|]; try done; cbn in Hok.
  { injection Hok as <-. split_and!; [constructor|done|by left]. }
  destruct (parse_rows_spec 0 rows [] d Hok ltac:(constructor)) as (H1 & H2 & H3).
  assert (∀ tk, dict_get tk d = snd <$> last (filter (λ tq, tq.1 = tk) (held rows))) as Hget.
  { intros tk. rewrite H2. unfold last_of. by destruct (last _). }
  split_and!; [done| |right; exists rows; by split_and!].
  intros tk q Hq. assert (q = quantity_of tk d) as Eq by (unfold quantity_of; by rewrite Hq).
  pose proof Hq as Hq'. rewrite Hget in Hq'. destruct (last (filter _ (held rows))) as [[tk' q']|] eqn:El; [|done].
  cbn in Hq'. injection Hq' as ->.
  apply last_Some_elem_of, list_elem_of_filter in El as [_ El].
  unfold held in El. apply list_elem_of_omap in El as (row & _ & Hrow).
  destruct (parse_row 0 row) as [[x|]|e] eqn:E; try done. injection Hrow as ->.
  apply parse_row_positive in E as [Hn Hz]. split_and!; [done|done|].
  intros Hnan internal. unfold differs. rewrite <- Eq. by destruct q.
Qed.
End Parse.
End ReconcileFacts.

Module ReconcileWitness.
Definition balance : option JResponse := Some (JObject (JList [
  JRowObject [("pdno", Some (JStr "005930 ")); ("hldg_qty", Some (JStr "100"))];
  JRowObject [("pdno", Some (JStr "000660")); ("hldg_qty", Some (JStr "0"))];
  JRowObject [("pdno", Some (JStr "035420")); ("hldg_qty", Some (JStr "nan"))]])).

Lemma broker_balance_is_strict_witness :
  NoDup ([("005930", of_Z 100); ("035420", S754_nan)] : PositionMap).*1 ∧
  differs [("005930", of_Z 100); ("035420", S754_nan)] [("035420", of_Z 7)] "035420" = false.
Proof.
  pose proof (ReconcileFacts.broker_balance_is_strict (λ _, "") "hldg_qty" "pdno" balance
    [("005930", of_Z 100); ("035420", S754_nan)] ltac:(vm_compute; reflexivity)) as (H1 & H2 & _).
  split; [exact H1|]. exact (proj2 (proj2 (H2 "035420" S754_nan eq_refl)) eq_refl _).
Defined.
End ReconcileWitness.
