(* ===== verification/Calendar.v ===== *)
(** Dates and the trading calendar: backend/core/market_calendar.py.

    A date is its proleptic Gregorian ordinal, as [date.toordinal()], a time of
    day is in microseconds, and a [datetime] has the UTC offset of its zone.
    The year caches of the NYSE sets are left out: they hold what they would be
    computed as. *)

From stdpp Require Import base option list sorting.
From S2P Require Import Prelude.

(** * Dates *)

Definition is_leap (y : Z) : bool :=
  (y mod 4 =? 0) && (negb (y mod 100 =? 0) || (y mod 400 =? 0)).

Definition days_before_year (y : Z) : Z :=
  let p := y - 1 in p * 365 + p / 4 - p / 100 + p / 400.
Definition days_before_month (y m : Z) : Z :=
  nth (Z.to_nat (m - 1)) [0; 31; 59; 90; 120; 151; 181; 212; 243; 273; 304; 334] 0 +
  (if (2 <? m) && is_leap y then 1 else 0).

(** [date(y, m, d)] *)
Definition date (y m d : Z) : Z := days_before_year y + days_before_month y m + d.

(** [d.weekday()]: Monday is 0. *)
Definition weekday (d : Z) : Z := (d + 6) mod 7.

(** [d.year] *)
Definition year (d : Z) : Z :=
  let n := d - 1 in
  let n400 := n / 146097 in
  let n := n mod 146097 in
  let n100 := n / 36524 in
  let n := n mod 36524 in
  let n4 := n / 1461 in
  let n := n mod 1461 in
  let n1 := n / 365 in
  let y := n400 * 400 + 1 + n100 * 100 + n4 * 4 + n1 in
  if (n1 =? 4) || (n100 =? 4) then y - 1 else y.

Example date_examples :
  date 1 1 1 = 1 ∧ date 2026 7 3 = 739800 ∧ weekday (date 2026 7 3) = 4 ∧
  forallb (λ y, (year (date y 1 1) =? y) && (year (date y 12 31) =? y)) (seqZ 1 4000) = true.
Proof. vm_compute. split_and!; reflexivity. Qed.

(** [d.month], [d.day] *)
Definition month (d : Z) : Z :=
  Z.of_nat (length (List.filter (λ m, date (year d) m 1 <=? d) (seqZ 1 12))).
Definition day (d : Z) : Z := d - date (year d) (month d) 1 + 1.

Example month_day_examples :
  forallb (λ d, date (year d) (month d) (day d) =? d) (seqZ (date 2023 12 1) 1200) = true ∧
  (month (date 2024 2 29), day (date 2024 2 29)) = (2, 29).
Proof. vm_compute. split; reflexivity. Qed.

(** [time(h, m)] *)
Definition time (h m : Z) : Z := (h * 60 + m) * 60000000.
Definition day_us : Z := 24 * 60 * 60000000.

(** A zone-aware [datetime] *)
Record datetime := { dt_date : Z; dt_time : Z; utc_offset : Z }.

(** [dt.astimezone(tz)] for a zone with a fixed offset *)
Definition astimezone (tz : Z) (dt : datetime) : datetime :=
  let us := dt.(dt_time) - dt.(utc_offset) + tz in
  {| dt_date := dt.(dt_date) + us / day_us; dt_time := us mod day_us; utc_offset := tz |}.

Definition KST : Z := 9 * 60 * 60000000.
Definition EST : Z := -5 * 60 * 60000000.
Definition EDT : Z := -4 * 60 * 60000000.

(** [class Market] of this module *)
Inductive CalMarket := CAL_KRX | CAL_NYSE.
#[global] Instance CalMarket_eq_dec : EqDecision CalMarket.
Proof. solve_decision. Defined.

(** MARKET_HOURS *)
Record Hours := { h_open : Z; h_close : Z; h_early_close : option Z; h_tz : Z }.
Definition MARKET_HOURS (m : CalMarket) : Hours :=
  match m with
  | CAL_KRX => {| h_open := time 9 0; h_close := time 15 30; h_early_close := None; h_tz := KST |}
  | CAL_NYSE => {| h_open := time 9 30; h_close := time 16 0; h_early_close := Some (time 13 0); h_tz := EST |}
  end.

(** * Holidays *)

Definition KR_HOLIDAYS : list Z :=
  [
    date 2025 1 1; date 2025 1 28; date 2025 1 29; date 2025 1 30; date 2025 3 1; date 2025 5 5;
    date 2025 5 6; date 2025 6 6; date 2025 8 15; date 2025 10 3; date 2025 10 6;
    date 2025 10 7; date 2025 10 8; date 2025 10 9; date 2025 12 25; date 2026 1 1;
    date 2026 2 16; date 2026 2 17; date 2026 2 18; date 2026 3 1; date 2026 5 5;
    date 2026 5 24; date 2026 6 6; date 2026 8 15; date 2026 9 24; date 2026 9 25;
    date 2026 9 26; date 2026 10 3; date 2026 10 9; date 2026 12 25].

Definition _nth_weekday (y m wd n : Z) : Z :=
  let first := date y m 1 in
  let offset := (wd - weekday first) mod 7 in
  first + offset + 7 * (n - 1).

Definition _last_weekday (y m wd : Z) : Z :=
  let last_day := if m =? 12 then date (y + 1) 1 1 - 1 else date y (m + 1) 1 - 1 in
  last_day - (weekday last_day - wd) mod 7.

Definition _observed_holiday (d : Z) : Z :=
  if weekday d =? 5 then d - 1 else if weekday d =? 6 then d + 1 else d.

Definition _calculate_easter (y : Z) : Z :=
  let a := y mod 19 in
  let b := y / 100 in
  let c := y mod 100 in
  let d := b / 4 in
  let e := b mod 4 in
  let f := (b + 8) / 25 in
  let g := (b - f + 1) / 3 in
  let h := (19 * a + b - d - g + 15) mod 30 in
  let i := c / 4 in
  let k := c mod 4 in
  let l := (32 + 2 * e + 2 * i - h - k) mod 7 in
  let m := (a + 11 * h + 22 * l) / 451 in
  let month := (h + l - 7 * m + 114) / 31 in
  let day := (h + l - 7 * m + 114) mod 31 + 1 in
  date y month day.

Definition get_nyse_holidays (y : Z) : list Z :=
  [_observed_holiday (date y 1 1); _observed_holiday (date y 7 4); _observed_holiday (date y 12 25);
   _observed_holiday (date y 6 19); _nth_weekday y 1 0 3; _nth_weekday y 2 0 3; _last_weekday y 5 0;
   _nth_weekday y 9 0 1; _nth_weekday y 11 3 4; _calculate_easter y - 2].

Definition get_nyse_early_close_dates (y : Z) : list Z :=
  let jul3 := date y 7 3 in
  let dec24 := date y 12 24 in
  (if weekday jul3 <? 5 then [jul3] else []) ++ [_nth_weekday y 11 3 4 + 1] ++
  (if weekday dec24 <? 5 then [dec24] else []).

Definition mem (d : Z) (l : list Z) : bool := existsb (Z.eqb d) l.

(** * MarketCalendar *)

Module MarketCalendar.

Definition is_trading_day (d : Z) (market : CalMarket) : bool :=
  if 5 <=? weekday d then false else
  match market with
  | CAL_KRX => negb (mem d KR_HOLIDAYS)
  | CAL_NYSE => negb (mem d (get_nyse_holidays (year d)))
  end.

Definition is_holiday (d : Z) (market : CalMarket) : bool :=
  if 5 <=? weekday d then false else
  match market with
  | CAL_KRX => mem d KR_HOLIDAYS
  | CAL_NYSE => mem d (get_nyse_holidays (year d))
  end.

Definition is_early_close (d : Z) (market : CalMarket) : bool :=
  match market with CAL_KRX => false | CAL_NYSE => mem d (get_nyse_early_close_dates (year d)) end.

(** [while not p(candidate): candidate += step]; [None] when the fuel is not enough. *)
Fixpoint search (fuel : nat) (p : Z → bool) (step candidate : Z) : option Z :=
  match fuel with
  | O => None
  | S fuel' => if p candidate then Some candidate else search fuel' p step (candidate + step)
  end.

Definition next_trading_day (fuel : nat) (d : Z) (market : CalMarket) : option Z :=
  search fuel (λ c, is_trading_day c market) 1 (d + 1).
Definition prev_trading_day (fuel : nat) (d : Z) (market : CalMarket) : option Z :=
  search fuel (λ c, is_trading_day c market) (-1) (d - 1).

Definition trading_days_between (start end_ : Z) (market : CalMarket) : list Z :=
  filter (λ d, is_trading_day d market = true) (seqZ start (end_ - start + 1)).
Definition trading_day_count (start end_ : Z) (market : CalMarket) : Z :=
  Z.of_nat (length (trading_days_between start end_ market)).

Definition get_close_time (d : Z) (market : CalMarket) : Z :=
  let hours := MARKET_HOURS market in
  if is_early_close d market then default hours.(h_close) hours.(h_early_close) else hours.(h_close).

Definition is_market_open (dt : datetime) (market : CalMarket) : bool :=
  if negb (is_trading_day dt.(dt_date) market) then false else
  let hours := MARKET_HOURS market in
  let local_time := (astimezone hours.(h_tz) dt).(dt_time) in
  let close_time := get_close_time dt.(dt_date) market in
  (hours.(h_open) <=? local_time) && (local_time <=? close_time).

Definition get_holidays (y : Z) (market : CalMarket) : list Z :=
  match market with
  | CAL_KRX => merge_sort Z.le (filter (λ d, year d = y) KR_HOLIDAYS)
  | CAL_NYSE => merge_sort Z.le (remove_dups (get_nyse_holidays y))
  end.

Definition is_dst (d : Z) : bool :=
  let dst_start := _nth_weekday (year d) 3 6 2 in
  let dst_end := _nth_weekday (year d) 11 6 1 in
  (dst_start <=? d) && (d <? dst_end).

Definition get_market_tz (d : Z) (market : CalMarket) : Z :=
  if bool_decide (market = CAL_NYSE) && is_dst d then EDT else (MARKET_HOURS market).(h_tz).
End MarketCalendar.

(** * Properties *)

Module CalendarFacts.
Import MarketCalendar.

Lemma search_spec p step fuel c :
  match search fuel p step c with
  | Some n => ∃ k : nat, (k < fuel)%nat ∧ n = c + step * Z.of_nat k ∧ p n = true ∧
      ∀ j : nat, (j < k)%nat → p (c + step * Z.of_nat j) = false
  | None => ∀ j : nat, (j < fuel)%nat → p (c + step * Z.of_nat j) = false
  end.
Proof.
  revert c. induction fuel as [|fuel IH]; intros c; cbn; [lia|].
  destruct (p c) eqn:Hc.
  - exists 0%nat. split_and!; [lia|lia|done|lia].
  - specialize (IH (c + step)). destruct (search fuel p step (c + step)) as [n|].
    + destruct IH as (k & Hk & -> & Hp & Hj). exists (S k). split_and!; [lia|lia|exact Hp|].
      intros [|j] Hlt; [by rewrite Z.mul_0_r, Z.add_0_r|].
      replace (c + step * Z.of_nat (S j)) with (c + step + step * Z.of_nat j) by lia. apply Hj. lia.
    + intros [|j] Hlt; [by rewrite Z.mul_0_r, Z.add_0_r|].
      replace (c + step * Z.of_nat (S j)) with (c + step + step * Z.of_nat j) by lia. apply IH. lia.
Qed.

(** There is a trading day within [n] days after (before) [d]. *)
Definition soon (p : Z → bool) (step : Z) (n : nat) (d : Z) : bool :=
  match search n p step (d + step) with Some _ => true | None => false end.

Lemma kr_holidays_range d : mem d KR_HOLIDAYS = true → date 2025 1 1 ≤ d ∧ d ≤ date 2026 12 25.
Proof.
  intros Hm. apply existsb_exists in Hm as (x & Hx & ->%Z.eqb_eq).
  assert (forallb (λ x, (date 2025 1 1 <=? x) && (x <=? date 2026 12 25)) KR_HOLIDAYS = true) as H
    by (vm_compute; reflexivity).
  rewrite forallb_forall in H. apply H in Hx. bool_hyps. done.
Qed.

Lemma krx_weekday d : weekday d < 5 → d < date 2025 1 1 ∨ date 2026 12 25 < d → is_trading_day d CAL_KRX = true.
Proof.
  intros Hw Hd. unfold is_trading_day. rewrite (proj2 (Z.leb_gt _ _)) by lia.
  destruct (mem d KR_HOLIDAYS) eqn:Hm; [|done]. apply kr_holidays_range in Hm. lia.
Qed.

Lemma weekday_near d : weekday d < 5 ∨ weekday (d + 1) < 5 ∨ weekday (d + 2) < 5.
Proof. unfold weekday. Z.to_euclidean_division_equations. lia. Qed.

(** Around the listed years the search is checked day by day; elsewhere three
    days in a row are enough. *)
Lemma krx_soon step d : step = 1 ∨ step = -1 → soon (λ c, is_trading_day c CAL_KRX) step 10 d = true.
Proof.
  intros Hstep.
  assert (∀ j, 0 ≤ j → j < 10 → is_trading_day (d + step + step * j) CAL_KRX = true →
    soon (λ c, is_trading_day c CAL_KRX) step 10 d = true) as Hin.
  { intros j Hj0 Hj Hp. unfold soon.
    pose proof (search_spec (λ c, is_trading_day c CAL_KRX) step 10 (d + step)) as H.
    destruct (search _ _ _ _); [done|]. specialize (H (Z.to_nat j) ltac:(lia)). cbn beta in H.
    rewrite Z2Nat.id in H by lia. congruence. }
  destruct (decide (date 2025 1 1 - 12 ≤ d ∧ d ≤ date 2026 12 25 + 12)) as [Hr|Hr].
  - assert (forallb (λ d, soon (λ c, is_trading_day c CAL_KRX) 1 10 d &&
                          soon (λ c, is_trading_day c CAL_KRX) (-1) 10 d)
              (seqZ (date 2025 1 1 - 12) (date 2026 12 25 - date 2025 1 1 + 25)) = true) as H
      by (vm_compute; reflexivity).
    rewrite forallb_forall in H. specialize (H d). rewrite andb_true_iff in H.
    destruct Hstep as [-> | ->]; apply H, list_elem_of_In, elem_of_seqZ; lia.
  - assert (date 2025 1 1 ≤ date 2026 12 25) by (vm_compute; discriminate).
    assert (∀ j, 0 ≤ j → j < 10 → weekday (d + step + step * j) < 5 →
      soon (λ c, is_trading_day c CAL_KRX) step 10 d = true) as Hw.
    { intros j Hj0 Hj Hwd. apply (Hin j Hj0 Hj), krx_weekday; [done|]. destruct Hstep as [-> | ->]; lia. }
    destruct Hstep as [-> | ->].
    + destruct (weekday_near (d + 1)) as [H1|[H1|H1]]; [apply (Hw 0)|apply (Hw 1)|apply (Hw 2)]; try lia;
        (eapply Z.le_lt_trans; [|exact H1]); apply Z.eq_le_incl; f_equal; lia.
    + destruct (weekday_near (d - 3)) as [H1|[H1|H1]]; [apply (Hw 2)|apply (Hw 1)|apply (Hw 0)]; try lia;
        (eapply Z.le_lt_trans; [|exact H1]); apply Z.eq_le_incl; f_equal; lia.
Qed.

Lemma nyse_soon step d :
  step = 1 ∨ step = -1 → date 2020 1 1 ≤ d → d ≤ date 2030 12 31 →
  soon (λ c, is_trading_day c CAL_NYSE) step 10 d = true.
Proof.
  intros Hstep Hlo Hhi.
  assert (forallb (λ d, soon (λ c, is_trading_day c CAL_NYSE) 1 10 d &&
                        soon (λ c, is_trading_day c CAL_NYSE) (-1) 10 d)
            (seqZ (date 2020 1 1) (date 2030 12 31 - date 2020 1 1 + 1)) = true) as H
    by (vm_compute; reflexivity).
  rewrite forallb_forall in H. specialize (H d). rewrite andb_true_iff in H.
  destruct Hstep as [-> | ->]; apply H, list_elem_of_In, elem_of_seqZ; lia.
Qed.

(** The dates for which the searches are shown to end *)
Definition covered (market : CalMarket) (d : Z) : Prop :=
  match market with CAL_KRX => True | CAL_NYSE => date 2020 1 1 ≤ d ∧ d ≤ date 2030 12 31 end.

Lemma market_soon market step d :
  step = 1 ∨ step = -1 → covered market d → soon (λ c, is_trading_day c market) step 10 d = true.
Proof. destruct market; [intros; by apply krx_soon|intros ? [??]; by apply nyse_soon]. Qed.

Lemma search_fuel p step c n f f' :
  search f p step c = Some n → (f ≤ f')%nat → search f' p step c = Some n.
Proof.
  revert c f'. induction f as [|f IH]; intros c [|f'] H Hf; cbn in *; try done; [lia|].
  destruct (p c); [done|]. apply IH; [done|lia].
Qed.

Lemma no_trading_days market a n :
  (∀ x, a ≤ x → x < a + n → is_trading_day x market = false) →
  filter (λ d, is_trading_day d market = true) (seqZ a n) = [].
Proof.
  intros Hall. assert (Forall (λ x, is_trading_day x market = false) (seqZ a n)) as H.
  { apply Forall_forall. intros x Hx%elem_of_seqZ. apply Hall; lia. }
  induction H as [|x l Hx _ IH]; [done|]. rewrite filter_cons, Hx. by rewrite IH.
Qed.

(** The trading-day searches end and find the nearest trading days, within
    ten days: for every date on the Korean calendar, for the years 2020 to 2030
    on the New York one.  Between the previous and the next one there is no
    other trading day than possibly the date itself, and
    [trading_days_between] counts exactly these. *)
Theorem trading_day_search (market : CalMarket) (d : Z) (Hd : covered market d) :
  ∃ next prev,
    (∀ fuel, (10 ≤ fuel)%nat → next_trading_day fuel d market = Some next ∧
       prev_trading_day fuel d market = Some prev) ∧
    is_trading_day next market = true ∧ is_trading_day prev market = true ∧
    prev < d ∧ d < next ∧
    (∀ x, prev < x → x < next → x ≠ d → is_trading_day x market = false) ∧
    trading_days_between prev next market = prev :: (if is_trading_day d market then [d] else []) ++ [next].
Proof.
  pose proof (market_soon market 1 d ltac:(by left) Hd) as Hn.
  pose proof (market_soon market (-1) d ltac:(by right) Hd) as Hp.
  set (p := λ c, is_trading_day c market) in *.
  unfold soon in Hn, Hp.
  pose proof (search_spec p 1 10 (d + 1)) as Sn. pose proof (search_spec p (-1) 10 (d + -1)) as Sp.
  destruct (search 10 p 1 (d + 1)) as [next|] eqn:En; [|done].
  destruct (search 10 p (-1) (d + -1)) as [prev|] eqn:Ep; [|done].
  destruct Sn as (k & Hk & Enext & Pn & Bn), Sp as (k' & Hk' & Eprev & Pp & Bp).
  exists next, prev. split.
  { intros fuel Hf. unfold next_trading_day, prev_trading_day. split; by eapply search_fuel. }
  assert (∀ x, prev < x → x < next → x ≠ d → p x = false) as Hbetween.
  { intros x H1 H2 H3. destruct (decide (d < x)).
    - specialize (Bn (Z.to_nat (x - d - 1)) ltac:(lia)). rewrite Z2Nat.id in Bn by lia.
      replace x with (d + 1 + 1 * (x - d - 1)) by lia. done.
    - specialize (Bp (Z.to_nat (d - x - 1)) ltac:(lia)). rewrite Z2Nat.id in Bp by lia.
      replace x with (d + -1 + -1 * (d - x - 1)) by lia. done. }
  split_and!; [done|done|lia|lia|done|].
  unfold trading_days_between.
  replace (next - prev + 1) with (1 + ((d - prev - 1) + (1 + ((next - d - 1) + 1)))) by lia.
  rewrite !seqZ_app by lia. rewrite !filter_app.
  replace (prev + 1 + (d - prev - 1)) with d by lia. replace (d + 1 + (next - d - 1)) with next by lia.
  rewrite (no_trading_days market (prev + 1)), (no_trading_days market (d + 1))
    by (intros x H1 H2; apply Hbetween; lia).
  assert (∀ a, seqZ a 1 = [a]) as H1 by (intros a; unfold seqZ; cbn; f_equal; lia).
  rewrite !H1, !filter_cons, filter_nil, !app_nil_l. fold (p prev) (p next). rewrite Pp, Pn.
  change (is_trading_day d market) with (p d). by destruct (p d).
Qed.

Lemma trading_day_search_witness :
  ∃ next prev, prev < date 2026 2 15 ∧ date 2026 2 15 < next ∧ is_trading_day next CAL_KRX = true.
Proof.
  destruct (trading_day_search CAL_KRX (date 2026 2 15) I) as (next & prev & _ & Hn & _ & H1 & H2 & _).
  exists next, prev. exact (conj H1 (conj H2 Hn)).
Defined.

(** [is_market_open] reads the New York clock without daylight saving time,
    which [get_market_tz] knows: whatever the zone of its argument, on a trading
    day of the summer it says open from 10:30 to 17:00 New York time instead of
    09:30 to 16:00, the first hour of trading being closed and the hour after
    the close open. *)
Theorem nyse_hours_ignore_dst (dt : datetime) (Hday : is_trading_day dt.(dt_date) CAL_NYSE = true)
    (Hdst : is_dst dt.(dt_date) = true) (Hfull : is_early_close dt.(dt_date) CAL_NYSE = false)
    (Hlocal : (astimezone EDT dt).(dt_date) = dt.(dt_date)) :
  let new_york := (astimezone (get_market_tz dt.(dt_date) CAL_NYSE) dt).(dt_time) in
  time 9 30 ≤ new_york → new_york ≤ time 17 0 →
  is_market_open dt CAL_NYSE = (time 10 30 <=? new_york).
Proof.
  intros new_york Hlo Hhi. assert (new_york = (astimezone EDT dt).(dt_time)) as E
    by (subst new_york; unfold get_market_tz; by rewrite Hdst).
  rewrite E in *. clear new_york E. unfold is_market_open, get_close_time. rewrite Hday, Hfull. cbn [negb].
  cbn [h_open h_close h_tz MARKET_HOURS].
  assert ((astimezone EST dt).(dt_time) = (astimezone EDT dt).(dt_time) - time 1 0) as ->.
  { revert Hlo Hhi Hlocal. unfold astimezone, EDT, EST, time, day_us. cbn.
    generalize (dt_time dt - utc_offset dt). intros z. Z.to_euclidean_division_equations. lia. }
  unfold time in *.
  set (l := (astimezone EDT dt).(dt_time)) in *. clearbody l.
  assert ((l - (1 * 60 + 0) * 60000000 <=? (16 * 60 + 0) * 60000000) = true) as -> by lia.
  rewrite andb_true_r.
  destruct (_ <=? l - _) eqn:E1, (_ <=? l) eqn:E2; bool_hyps; try done; lia.
Qed.

Lemma nyse_hours_ignore_dst_witness :
  let ten := {| dt_date := date 2026 7 1; dt_time := time 10 0; utc_offset := EDT |} in
  is_market_open ten CAL_NYSE = false.
Proof.
  exact (nyse_hours_ignore_dst {| dt_date := date 2026 7 1; dt_time := time 10 0; utc_offset := EDT |}
    eq_refl eq_refl eq_refl eq_refl ltac:(vm_compute; discriminate) ltac:(vm_compute; discriminate)).
Defined.
End CalendarFacts.
