(* ===== verification/Scheduler.v ===== *)
(** The trading scheduler: backend/core/trading_scheduler.py, with the Redis
    idempotency keys of backend/core/scheduler_idempotency.py.

    [iteration] is one turn of [_scheduler_loop].  The clock readings that
    decide anything, the outcomes of the handlers and the Redis failures are
    streams of the environment; heartbeats and elapsed times are left out.
    A Redis key is kept with the moment it expires. *)

From Stdlib Require Import Ascii Sorting.Sorted.
From stdpp Require Import base option list gmap strings.
From S2P Require Import Prelude PyFormat Constants Calendar.

(** * The scheduler's own calendar *)

Definition KR_HOLIDAYS_2026 : list Z :=
  [
    date 2026 1 1; date 2026 2 16; date 2026 2 17; date 2026 2 18; date 2026 3 1; date 2026 5 5;
    date 2026 5 24; date 2026 6 6; date 2026 8 15; date 2026 9 24; date 2026 9 25;
    date 2026 9 26; date 2026 10 3; date 2026 10 9; date 2026 12 25].
Definition KR_HOLIDAYS_2025 : list Z :=
  [
    date 2025 1 1; date 2025 1 28; date 2025 1 29; date 2025 1 30; date 2025 3 1; date 2025 5 5;
    date 2025 5 6; date 2025 6 6; date 2025 8 15; date 2025 10 3; date 2025 10 6;
    date 2025 10 7; date 2025 10 8; date 2025 10 9; date 2025 12 25].
Definition ALL_HOLIDAYS : list Z := KR_HOLIDAYS_2025 ++ KR_HOLIDAYS_2026.

Definition is_trading_day (d : Z) : bool :=
  if 5 <=? weekday d then false else if mem d ALL_HOLIDAYS then false else true.
Definition next_trading_day (fuel : nat) (d : Z) : option Z :=
  MarketCalendar.search fuel is_trading_day 1 (d + 1).

(** * Schedule and state *)

Inductive ScheduleEventType := PRE_MARKET | MARKET_OPEN | MIDDAY_CHECK | MARKET_CLOSE | POST_MARKET.
#[global] Instance ScheduleEventType_eq_dec : EqDecision ScheduleEventType.
Proof. solve_decision. Defined.
Definition event_value (e : ScheduleEventType) : string :=
  match e with
  | PRE_MARKET => "PRE_MARKET" | MARKET_OPEN => "MARKET_OPEN" | MIDDAY_CHECK => "MIDDAY_CHECK"
  | MARKET_CLOSE => "MARKET_CLOSE" | POST_MARKET => "POST_MARKET"
  end.

Record ScheduleEvent := { event_type : ScheduleEventType; scheduled_time : Z }.

Definition DEFAULT_SCHEDULE : list ScheduleEvent := [
  {| event_type := PRE_MARKET; scheduled_time := time 8 30 |};
  {| event_type := MARKET_OPEN; scheduled_time := time 9 0 |};
  {| event_type := MIDDAY_CHECK; scheduled_time := time 11 30 |};
  {| event_type := MARKET_CLOSE; scheduled_time := time 15 30 |};
  {| event_type := POST_MARKET; scheduled_time := time 16 0 |} ].

Inductive SchedulerStatus := IDLE | RUNNING | PAUSED | STOPPED | ERROR.
#[global] Instance SchedulerStatus_eq_dec : EqDecision SchedulerStatus.
Proof. solve_decision. Defined.

(** The fields that steer the loop; of the executed events their types, of the
    errors their number. *)
Record SchedulerState := {
  status : SchedulerStatus;
  current_date : option Z;
  last_event : option ScheduleEventType;
  next_event : option ScheduleEventType;
  executed_today : list string;
  errors_today : Z;
  total_trading_days : Z;
}.

(** A moment of the KST clock: date and time of day *)
Definition Moment : Type := Z * Z.
Definition moment_us (m : Moment) : Z := m.1 * day_us + m.2.

(** [d.isoformat()] *)
Definition zero_pad (width : nat) (n : Z) : string :=
  pad_left (width - String.length (fmt_int n)) (fmt_int n).
Definition isoformat (d : Z) : string :=
  zero_pad 4 (year d) +:+ "-" +:+ zero_pad 2 (month d) +:+ "-" +:+ zero_pad 2 (day d).

(** [s.split(":")] *)
Fixpoint split_colon (s : string) : list string :=
  match s with
  | "" => [""]
  | String a s' =>
      if bool_decide (a = ":"%char) then "" :: split_colon s'
      else match split_colon s' with
           | p :: ps => String a p :: ps
           | [] => [String a ""]
           end
  end.

(** What the scheduler does, in order: [NewDay] is the line it logs when a
    trading day starts, [Due] its decision to execute an event of that day. *)
Inductive SchedEvent :=
  | NewDay (today : Z)
  | Due (e : ScheduleEventType) (today : Z) (at_ : Moment)
  | Ran (e : ScheduleEventType) (ok : bool)
  | Skipped (e : ScheduleEventType)
  | Slept (us : Z).

(** The [RuntimeError] of [start] *)
Inductive SchedError := NotDemoMode.

Module TradingScheduler.
Section Scheduler.
Context (schedule : list ScheduleEvent).

Record World := {
  state : SchedulerState;
  _running : bool;
  clock : list Moment;
  handlers : list bool;      (** [false]: the handler raises *)
  redis : gmap string Z;     (** the keys scheduler:executed:... and when they expire *)
  redis_faults : list bool;  (** [true]: the command fails *)
  log : list SchedEvent;
}.

Abbreviation Sched := (M World SchedError).

Definition set_state (s : SchedulerState) (w : World) : World := {|
  state := s; _running := w.(_running); clock := w.(clock); handlers := w.(handlers);
  redis := w.(redis); redis_faults := w.(redis_faults); log := w.(log) |}.
Definition update (f : SchedulerState → SchedulerState) : Sched unit :=
  modify (λ w, set_state (f w.(state)) w).
Definition set_running (b : bool) : Sched unit := modify (λ w, {|
  state := w.(state); _running := b; clock := w.(clock); handlers := w.(handlers);
  redis := w.(redis); redis_faults := w.(redis_faults); log := w.(log) |}).
Definition emit (e : SchedEvent) : Sched unit := modify (λ w, {|
  state := w.(state); _running := w.(_running); clock := w.(clock); handlers := w.(handlers);
  redis := w.(redis); redis_faults := w.(redis_faults); log := w.(log) ++ [e] |}).

(** The next reading of the clock; the last one stays. *)
Definition next_clock (c : list Moment) : list Moment :=
  match c with _ :: (_ :: _) as ms => ms | ms => ms end.
Definition now_kst : Sched Moment := λ w,
  (Ok (default (0, 0) (head w.(clock))), {|
    state := w.(state); _running := w.(_running);
    clock := next_clock w.(clock);
    handlers := w.(handlers); redis := w.(redis); redis_faults := w.(redis_faults); log := w.(log) |}).

Definition run_handler : Sched bool := λ w,
  (Ok (default true (head w.(handlers))), {|
    state := w.(state); _running := w.(_running); clock := w.(clock); handlers := tail w.(handlers);
    redis := w.(redis); redis_faults := w.(redis_faults); log := w.(log) |}).

(** One Redis command; [None] when it fails *)
Definition redis_command {A} (f : gmap string Z → gmap string Z * A) : Sched (option A) := λ w,
  let '(x, r) := if default false (head w.(redis_faults)) then (None, w.(redis))
                 else let '(r, a) := f w.(redis) in (Some a, r) in
  (Ok x, {| state := w.(state); _running := w.(_running); clock := w.(clock);
            handlers := w.(handlers); redis := r; redis_faults := tail w.(redis_faults); log := w.(log) |}).

(** ** scheduler_idempotency.py *)

Definition _build_key (event_type : string) (on_date : Z) : string :=
  "scheduler:executed:" +:+ isoformat on_date +:+ ":" +:+ event_type.

Definition _ttl_until_next_midnight_kst (now : Moment) : Z :=
  let next_midnight := (now.1 + 1, time 0 0) in
  let seconds := Z.quot (moment_us next_midnight - moment_us now) 1000000 in
  Z.max seconds 60.

Definition mark_executed (event_type : string) (on_date : Z) : Sched bool :=
  let key := _build_key event_type on_date in
  now ← now_kst;
  let ttl := _ttl_until_next_midnight_kst now in
  r ← redis_command (λ s, (<[key := moment_us now + ttl * 1000000]> s, tt));
  mret (match r with Some _ => true | None => false end).

(** The key is there and has not expired. *)
Definition live (r : gmap string Z) (key : string) (now : Moment) : bool :=
  match r !! key with Some expiry => moment_us now <? expiry | None => false end.

Definition is_executed (event_type : string) (on_date : Z) : Sched bool :=
  now ← now_kst;
  r ← redis_command (λ s, (s, live s (_build_key event_type on_date) now));
  mret (default false r).

(** The scan of the keys [scheduler:executed:<date>:*] in one command: a failure
    halfway, which keeps the pages already read, is left out. *)
Definition load_executed_for_date (on_date : Z) : Sched (list string) :=
  now ← now_kst;
  r ← redis_command (λ s, (s,
    List.filter (λ k, String.prefix (_build_key "" on_date) k && live s k now) (map_to_list s).*1));
  mret (match r with
        | Some keys => remove_dups (omap (λ key,
            let parts := split_colon key in
            if (4 <=? length parts)%nat then last parts else None) keys)
        | None => []
        end).

Definition clear_for_date (on_date : Z) : Sched Z :=
  now ← now_kst;
  r ← redis_command (λ s,
    let matching := base.filter (λ kv : string * Z,
      String.prefix (_build_key "" on_date) kv.1 && live s kv.1 now = true) s in
    (s ∖ matching, Z.of_nat (size matching)));
  mret (default 0 r).

(** ** The loop *)

Definition new_day (today : Z) (s : SchedulerState) : SchedulerState := {|
  status := s.(status); current_date := Some today; last_event := s.(last_event);
  next_event := s.(next_event); executed_today := []; errors_today := 0;
  total_trading_days := s.(total_trading_days) + 1 |}.
Definition set_next (e : option ScheduleEventType) (s : SchedulerState) : SchedulerState := {|
  status := s.(status); current_date := s.(current_date); last_event := s.(last_event);
  next_event := e; executed_today := s.(executed_today); errors_today := s.(errors_today);
  total_trading_days := s.(total_trading_days) |}.
Definition add_executed (e : ScheduleEventType) (last : option ScheduleEventType) (s : SchedulerState) :
    SchedulerState := {|
  status := s.(status); current_date := s.(current_date); last_event := last;
  next_event := s.(next_event); executed_today := s.(executed_today) ++ [event_value e];
  errors_today := s.(errors_today); total_trading_days := s.(total_trading_days) |}.
Definition add_error (s : SchedulerState) : SchedulerState := {|
  status := s.(status); current_date := s.(current_date); last_event := s.(last_event);
  next_event := s.(next_event); executed_today := s.(executed_today);
  errors_today := s.(errors_today) + 1; total_trading_days := s.(total_trading_days) |}.

Fixpoint find_pending (events : list ScheduleEvent) (executed : list string) (current_time : Z) :
    option ScheduleEvent :=
  match events with
  | [] => None
  | event :: events' =>
      if bool_decide (event_value event.(event_type) ∈ executed) then find_pending events' executed current_time
      else if current_time <=? event.(scheduled_time) then Some event
      else if negb (bool_decide (event_value event.(event_type) ∈ executed)) then Some event
      else find_pending events' executed current_time
  end.
Definition _find_next_event (now : Moment) : Sched (option ScheduleEvent) :=
  w ← get; mret (find_pending schedule w.(state).(executed_today) now.2).

Definition _execute_event (event : ScheduleEvent) : Sched bool :=
  start_time ← now_kst;
  let e := event.(event_type) in
  already ← is_executed (event_value e) start_time.1;
  if already : bool then
    w ← get;
    when (negb (bool_decide (event_value e ∈ w.(state).(executed_today))))
      (update (add_executed e w.(state).(last_event))) ;;
    emit (Skipped e) ;;
    mret true
  else
    ok ← run_handler;
    emit (Ran e ok) ;;
    if ok : bool then
      update (add_executed e (Some e)) ;;
      mark_executed (event_value e) start_time.1 ;;
      mret true
    else update add_error ;; mret false.

Definition sleep (us : Z) : Sched unit := emit (Slept us).

(** The wait for the next trading day's 08:00, at most an hour at a time *)
Definition sleep_until_next_day (now : Moment) : Sched unit :=
  match next_trading_day 10 now.1 with
  | Some next_td =>
      let wait := moment_us (next_td, time 8 0) - moment_us now in
      when (0 <? wait) (sleep (Z.min wait (3600 * 1000000)))
  | None => mret tt
  end.

Definition start_day (today : Z) : Sched unit :=
  w ← get;
  when (negb (bool_decide (w.(state).(current_date) = Some today)))
    (update (new_day today) ;; emit (NewDay today)).

(** The part of the loop body from the choice of the next event *)
Definition run_next (now : Moment) : Sched unit :=
  let today := now.1 in
  next ← _find_next_event now;
  match next with
  | Some event =>
      let event_time := (today, event.(scheduled_time)) in
      let wait := moment_us event_time - moment_us now in
      update (set_next (Some event.(event_type))) ;;
      if 0 <? wait then
        sleep (Z.min wait (60 * 1000000)) ;;
        now ← now_kst;
        if moment_us now <? moment_us event_time then mret tt
        else emit (Due event.(event_type) today now) ;; _execute_event event ;; mret tt
      else emit (Due event.(event_type) today now) ;; _execute_event event ;; mret tt
  | None => update (set_next None) ;; sleep_until_next_day now
  end.

Definition iteration : Sched unit :=
  now ← now_kst;
  let today := now.1 in
  if negb (is_trading_day today) then sleep_until_next_day now else
  start_day today ;;
  w ← get;
  if bool_decide (w.(state).(status) = PAUSED) then sleep (60 * 1000000) else run_next now.

(** [while self._running], [n] turns at most *)
Fixpoint _scheduler_loop (n : nat) : Sched unit :=
  match n with
  | O => mret tt
  | S n' => w ← get; if w.(_running) then iteration ;; _scheduler_loop n' else mret tt
  end.

(** ** Control *)

Definition set_status (x : SchedulerStatus) (s : SchedulerState) : SchedulerState := {|
  status := x; current_date := s.(current_date); last_event := s.(last_event);
  next_event := s.(next_event); executed_today := s.(executed_today);
  errors_today := s.(errors_today); total_trading_days := s.(total_trading_days) |}.
Definition restore (executed_types : list string) (today : Z) (s : SchedulerState) : SchedulerState :=
  if bool_decide (executed_types = []) then s else {|
    status := s.(status); current_date := Some today; last_event := s.(last_event);
    next_event := s.(next_event); executed_today := executed_types;
    errors_today := s.(errors_today); total_trading_days := s.(total_trading_days) |}.

Definition start (demo : bool) : Sched unit :=
  w ← get;
  if w.(_running) then mret tt else
  if negb demo then raise NotDemoMode else
  set_running true ;;
  update (set_status RUNNING) ;;
  started_at ← now_kst;
  executed_types ← load_executed_for_date started_at.1;
  update (restore executed_types started_at.1).
Definition stop : Sched unit := set_running false ;; update (set_status STOPPED).
Definition pause : Sched unit := update (set_status PAUSED).
Definition resume : Sched unit := w ← get; when w.(_running) (update (set_status RUNNING)).

(** [None]: the schedule has no such event. *)
Definition run_event_now (et : ScheduleEventType) : Sched (option bool) :=
  match List.find (λ e, bool_decide (e.(event_type) = et)) schedule with
  | None => mret None
  | Some event => r ← _execute_event event; mret (Some r)
  end.
End Scheduler.
End TradingScheduler.

(** * Properties *)

Module SchedulerFacts.
Import TradingScheduler.

(** ** The calendar *)

Lemma is_trading_day_krx d : is_trading_day d = MarketCalendar.is_trading_day d CAL_KRX.
Proof.
  unfold is_trading_day, MarketCalendar.is_trading_day. destruct (5 <=? weekday d); [done|].
  change ALL_HOLIDAYS with KR_HOLIDAYS. by destruct (mem d KR_HOLIDAYS).
Qed.

Lemma search_ext p q step fuel c :
  (∀ x, p x = q x) → MarketCalendar.search fuel p step c = MarketCalendar.search fuel q step c.
Proof. intros H. revert c. induction fuel as [|f IH]; intros c; cbn; [done|]. rewrite H. by destruct (q c). Qed.

Lemma next_trading_day_krx fuel d : next_trading_day fuel d = MarketCalendar.next_trading_day fuel d CAL_KRX.
Proof. apply search_ext, is_trading_day_krx. Qed.

Lemma next_trading_day_found d : is_Some (next_trading_day 10 d).
Proof.
  rewrite next_trading_day_krx. unfold MarketCalendar.next_trading_day.
  pose proof (CalendarFacts.market_soon CAL_KRX 1 d ltac:(by left) I) as H. unfold CalendarFacts.soon in H.
  by destruct (MarketCalendar.search _ _ _ _).
Qed.

(** ** The next event *)

Section Facts.
Context (schedule : list ScheduleEvent).
Definition values : list string := (λ ev, event_value ev.(event_type)) <$> schedule.

Lemma event_value_inj : Inj (=) (=) event_value.
Proof. by intros [] []. Qed.

Lemma find_pending_skip pre events executed t :
  (∀ ev, ev ∈ pre → event_value ev.(event_type) ∈ executed) →
  find_pending (pre ++ events) executed t = find_pending events executed t.
Proof.
  induction pre as [|ev pre IH]; intros Hin; [done|]. cbn [find_pending app].
  rewrite bool_decide_true by (apply Hin; by left). apply IH. intros x Hx. apply Hin. by right.
Qed.

Lemma find_pending_head ev events executed t :
  event_value ev.(event_type) ∉ executed → find_pending (ev :: events) executed t = Some ev.
Proof. intros H. cbn [find_pending]. rewrite bool_decide_false by done. by destruct (t <=? _). Qed.

Lemma find_pending_prefix k t :
  NoDup values → find_pending schedule (take k values) t = schedule !! k.
Proof.
  intros Hnd. rewrite <- (take_drop k schedule) at 1. rewrite find_pending_skip.
  2:{ intros ev Hev. unfold values. rewrite <- fmap_take. 
    by apply (list_elem_of_fmap_2 (λ ev, event_value ev.(event_type))). }
  destruct (schedule !! k) as [ev|] eqn:E.
  - rewrite (drop_S _ _ _ E). apply find_pending_head. intros (i & Hi)%list_elem_of_lookup.
    apply lookup_take_Some in Hi as [Hi Hlt].
    assert (values !! k = Some (event_value ev.(event_type))) as Hk
      by (unfold values; by rewrite list_lookup_fmap, E).
    pose proof (NoDup_lookup _ _ _ _ Hnd Hi Hk). lia.
  - apply lookup_ge_None in E. by rewrite drop_ge.
Qed.

Lemma find_pending_new events executed t ev :
  find_pending events executed t = Some ev → ev ∈ events ∧ event_value ev.(event_type) ∉ executed.
Proof.
  induction events as [|x l IH]; [done|]. cbn [find_pending]. case_bool_decide as Hin.
  - intros H. destruct (IH H) as [??]. split; [by right|done].
  - intros H. assert (x = ev) as -> by (cbn in H; destruct (t <=? _); congruence). split; [by left|done].
Qed.

(** ** What one step adds *)

(** What an iteration leaves alone *)
Definition stays (w w' : World) : Prop :=
  w'.(clock) `suffix_of` w.(clock) ∧ (w.(clock) ≠ [] → w'.(clock) ≠ []) ∧
  w'.(handlers) `suffix_of` w.(handlers) ∧ w'.(redis_faults) `suffix_of` w.(redis_faults) ∧
  w'.(_running) = w.(_running) ∧ w'.(state).(status) = w.(state).(status).

Lemma next_clock_suffix c : next_clock c `suffix_of` c ∧ (c ≠ [] → next_clock c ≠ []).
Proof. destruct c as [|a [|b c]]; (split; [|done]); try done. by apply suffix_cons_r. Qed.

Lemma stays_trans w1 w2 w3 : stays w1 w2 → stays w2 w3 → stays w1 w3.
Proof.
  intros (?&?&?&?&?&?) (?&?&?&?&?&?). split_and!; [by etrans|by auto|by etrans|by etrans|by etrans|by etrans].
Qed.

Lemma suffix_tail {A} (l : list A) : tail l `suffix_of` l.
Proof. destruct l; [done|]. by apply suffix_cons_r. Qed.

(** The event that [_execute_event] ends in and what it counts as executed *)
Definition outcome_of (e : ScheduleEventType) (x : SchedEvent) : Prop :=
  x = Ran e true ∨ x = Ran e false ∨ x = Skipped e.
Definition done_event (x : SchedEvent) : option string :=
  match x with
  | Ran e true | Skipped e => Some (event_value e)
  | _ => None
  end.

Lemma bind_ok {A B} (m : M World SchedError A) (k : A → M World SchedError B) w a w' :
  m w = (Ok a, w') → (m ≫= k) w = k a w'.
Proof. intros H. unfold mbind, M_bind. by rewrite H. Qed.

Definition same_redis (w w' : World) : Prop :=
  w'.(redis) = w.(redis) ∧ w'.(redis_faults) = w.(redis_faults).

Lemma same_redis_trans w1 w2 w3 : same_redis w1 w2 → same_redis w2 w3 → same_redis w1 w3.
Proof. intros [??] [??]. split; by etrans. Qed.

(** [w'] differs from [w] in nothing but the clock, the handlers and Redis. *)
Definition quiet (w w' : World) : Prop :=
  stays w w' ∧ w'.(state) = w.(state) ∧ w'.(log) = w.(log).

Lemma is_executed_run v d w :
  ∃ w', is_executed v d w =
    (Ok (negb (default false (head w.(redis_faults))) &&
         live w.(redis) (_build_key v d) (default (0, 0) (head w.(clock)))), w') ∧
    quiet w w' ∧ w'.(handlers) = w.(handlers) ∧ w'.(redis) = w.(redis).
Proof.
  destruct w as [s run c hs r fs lg]. destruct (next_clock_suffix c) as [??].
  pose proof (suffix_tail fs).
  unfold is_executed, redis_command, now_kst. run_m. cbn.
  destruct (default false (head fs)); cbn; (eexists; split; [done|]); by repeat split.
Qed.

(** At most the key of [v] and [d] changes. *)
Definition marks (v : string) (d : Z) (w w' : World) : Prop :=
  w'.(redis) = w.(redis) ∨ ∃ k, w'.(redis) = <[_build_key v d := k]> w.(redis).

Lemma mark_executed_run v d w :
  ∃ b w', mark_executed v d w = (Ok b, w') ∧ quiet w w' ∧ marks v d w w'.
Proof.
  destruct w as [s run c hs r fs lg]. destruct (next_clock_suffix c) as [??].
  pose proof (suffix_tail fs).
  unfold mark_executed, redis_command, now_kst. run_m. cbn.
  destruct (default false (head fs)); cbn; (eexists _, _; split; [done|]);
    (split; [by repeat split|]); [by left|right; by eexists].
Qed.

Lemma execute_event_effect ev w :
  event_value ev.(event_type) ∉ w.(state).(executed_today) →
  ∃ x r w', _execute_event ev w = (Ok r, w') ∧ outcome_of ev.(event_type) x ∧ stays w w' ∧
    w'.(log) = w.(log) ++ [x] ∧ w'.(state).(current_date) = w.(state).(current_date) ∧
    w'.(state).(executed_today) = w.(state).(executed_today) ++ option_list (done_event x) ∧
    (x = Ran ev.(event_type) false → head w.(handlers) = Some false) ∧
    (live w.(redis) (_build_key (event_value ev.(event_type)) (default (0, 0) (head w.(clock))).1)
       (default (0, 0) (head (next_clock w.(clock)))) = true →
     default false (head w.(redis_faults)) = false → x = Skipped ev.(event_type)) ∧
    marks (event_value ev.(event_type)) (default (0, 0) (head w.(clock))).1 w w'.
Proof.
  intros Hnew. set (e := ev.(event_type)) in *. unfold _execute_event. fold e.
  assert (∃ w1, now_kst w = (Ok (default (0, 0) (head w.(clock))), w1) ∧ quiet w w1 ∧
    w1.(handlers) = w.(handlers) ∧ w1.(redis) = w.(redis) ∧ w1.(redis_faults) = w.(redis_faults) ∧
    w1.(clock) = next_clock w.(clock)) as (w1 & E1 & (S1 & St1 & L1) & H1 & R1 & F1 & C1).
  { eexists. split; [done|]. destruct (next_clock_suffix w.(clock)) as [??]. by repeat split. }
  rewrite (bind_ok _ _ _ _ _ E1). clear E1.
  destruct (is_executed_run (event_value e) (default (0, 0) (head w.(clock))).1 w1)
    as (w2 & E2 & (S2 & St2 & L2) & H2 & R2).
  rewrite (bind_ok _ _ _ _ _ E2), R1, F1, C1. clear E2. rewrite <- St1, <- St2 in Hnew |- *.
  rewrite <- L1, <- L2. assert (stays w w2) as S12 by by eapply stays_trans.
  assert (w2.(handlers) = w.(handlers)) as Hh by congruence.
  assert (w2.(redis) = w.(redis)) as Hr by congruence. clear S1 S2 St1 St2 L1 L2 H1 H2 R1 R2 F1 C1.
  destruct (_ && _) eqn:Halready.
  - exists (Skipped e). unfold update, emit. run_m. rewrite bool_decide_false by done. cbn.
    eexists _, _. split; [done|]. split; [by right; right|]. split; [done|]. cbn. split_and!; try done. by left.
  - pose proof (suffix_tail w2.(handlers)) as Ht.
    assert (live w.(redis) (_build_key (event_value e) (default (0, 0) (head w.(clock))).1)
       (default (0, 0) (head (next_clock w.(clock)))) = true →
     default false (head w.(redis_faults)) = false → ∀ x, x = Skipped e) as Hlive.
    { intros E1 E2. rewrite E1, E2 in Halready. done. }
    set (d := (default (0, 0) (head w.(clock))).1) in *.
    rewrite (bind_ok run_handler _ _ _ _ eq_refl). unfold emit.
    rewrite (bind_ok (modify _) _ _ _ _ eq_refl). cbn [state _running clock handlers redis redis_faults log].
    destruct (default true (head w2.(handlers))) eqn:Eok.
    + unfold update. rewrite (bind_ok (modify _) _ _ _ _ eq_refl). cbn.
      match goal with |- ∃ _ _ _, (mark_executed _ _ ≫= _) ?w3 = _ ∧ _ =>
        destruct (mark_executed_run (event_value e) d w3) as (b & w4 & E4 & (S4 & St4 & L4) & K4) end.
      exists (Ran e true), true, w4. rewrite (bind_ok _ _ _ _ _ E4), St4, L4. cbn.
      unfold marks in K4. cbn in K4. rewrite Hr in K4. split_and!; try done; [by left| |by auto].
      eapply stays_trans; [done|]. eapply stays_trans; [|done]. by repeat split.
    + exists (Ran e false), false. eexists. split; [done|]. cbn. rewrite app_nil_r.
      split_and!; try done; [by right; left| | |by auto|by left].
      * eapply stays_trans; [done|]. by repeat split.
      * intros _. rewrite <- Hh. by destruct (head w2.(handlers)) as [[]|].
Qed.

(** ** One turn of the loop *)

Definition sleeps (l : list SchedEvent) : Prop := Forall (λ x, ∃ us, x = Slept us) l.

Lemma sleep_until_effect now w :
  ∃ sl w', sleep_until_next_day now w = (Ok tt, w') ∧ sleeps sl ∧ stays w w' ∧
    w'.(log) = w.(log) ++ sl ∧ w'.(state) = w.(state) ∧ same_redis w w'.
Proof.
  unfold sleep_until_next_day. destruct (next_trading_day_found now.1) as [n ->]. unfold sleep, emit.
  destruct (0 <? _).
  - eexists [_]. eexists. split; [done|]. split; [repeat constructor; by eexists|]. by repeat split.
  - exists []. eexists. split; [done|]. rewrite app_nil_r. split; [constructor|]. by repeat split.
Qed.

(** [_execute_event] ran, on the Redis and the handlers of [w]. *)
Definition ran_in (ev : ScheduleEvent) (w w' : World) : Prop :=
  ∃ w1 r, stays w w1 ∧ same_redis w w1 ∧ w1.(handlers) = w.(handlers) ∧
    (event_value ev.(event_type) ∉ w1.(state).(executed_today)) ∧ _execute_event ev w1 = (Ok r, w').

Lemma ran_in_weaken ev w0 w w' :
  stays w0 w → same_redis w0 w → w.(handlers) = w0.(handlers) → ran_in ev w w' → ran_in ev w0 w'.
Proof.
  intros Hs [R F] H (w1 & r & S1 & [R1 F1] & H1 & N1 & E). exists w1, r. unfold same_redis.
  split_and!; try done; try congruence. by eapply stays_trans.
Qed.

(** An event decided at [at_] and executed, with its outcome [x] *)
Lemma due_effect ev today at_ w :
  event_value ev.(event_type) ∉ w.(state).(executed_today) →
  ∃ x w', (emit (Due ev.(event_type) today at_) ;; _execute_event ev ;; mret tt) w = (Ok tt, w') ∧
    outcome_of ev.(event_type) x ∧ stays w w' ∧
    w'.(log) = w.(log) ++ [Due ev.(event_type) today at_; x] ∧
    w'.(state).(current_date) = w.(state).(current_date) ∧
    w'.(state).(executed_today) = w.(state).(executed_today) ++ option_list (done_event x) ∧
    (x = Ran ev.(event_type) false → head w.(handlers) = Some false) ∧ ran_in ev w w'.
Proof.
  intros Hnew. unfold emit. rewrite (bind_ok (modify _) _ _ _ _ eq_refl).
  match goal with |- ∃ _ _, (_execute_event _ ≫= _) ?w1 = _ ∧ _ =>
    destruct (execute_event_effect ev w1 Hnew) as (x & r & w' & E & Ho & Hs & Hl & Hc & He & Hf & _);
    assert (ran_in ev w w') as Hran by (exists w1, r; by repeat split) end.
  exists x, w'. rewrite (bind_ok _ _ _ _ _ E). cbn in *. rewrite Hl, <- app_assoc. cbn.
  destruct Hs as (?&?&?&?&?&?). by repeat split.
Qed.

Lemma run_next_effect now w :
  ∃ w', run_next schedule now w = (Ok tt, w') ∧ stays w w' ∧
    w'.(state).(current_date) = w.(state).(current_date) ∧
    match find_pending schedule w.(state).(executed_today) now.2 with
    | None => ∃ sl, sleeps sl ∧ w'.(log) = w.(log) ++ sl ∧
        w'.(state).(executed_today) = w.(state).(executed_today) ∧ same_redis w w'
    | Some ev =>
        (∃ us, moment_us now < moment_us (now.1, ev.(scheduled_time)) ∧
           w'.(log) = w.(log) ++ [Slept us] ∧
           w'.(state).(executed_today) = w.(state).(executed_today) ∧ same_redis w w') ∨
        (∃ sl at_ x, sleeps sl ∧ (moment_us (now.1, ev.(scheduled_time)) ≤ moment_us now → sl = []) ∧
           moment_us (now.1, ev.(scheduled_time)) ≤ moment_us at_ ∧ outcome_of ev.(event_type) x ∧
           w'.(log) = w.(log) ++ sl ++ [Due ev.(event_type) now.1 at_; x] ∧
           w'.(state).(executed_today) = w.(state).(executed_today) ++ option_list (done_event x) ∧
           (x = Ran ev.(event_type) false → head w.(handlers) = Some false) ∧ ran_in ev w w')
    end.
Proof.
  unfold run_next, _find_next_event.
  destruct (find_pending schedule w.(state).(executed_today) now.2) as [ev|] eqn:Ef.
  - apply find_pending_new in Ef as Hnew. destruct Hnew as [_ Hnew].
    rewrite (bind_ok (w0 ← get; _) _ _ _ _ (f_equal (λ o, (Ok o, w)) Ef)). cbn beta iota zeta.
    unfold update, sleep. rewrite (bind_ok (modify _) _ _ _ _ eq_refl). destruct (0 <? _) eqn:Ew; bool_hyps.
    + rewrite (bind_ok (emit _) _ _ _ _ eq_refl).
      rewrite (bind_ok now_kst _ _ _ _ eq_refl). cbn [clock set_state].
      set (at_ := default (0, 0) (head w.(clock))). destruct (next_clock_suffix w.(clock)) as [??].
      destruct (moment_us at_ <? _) eqn:Ea; bool_hyps.
      * eexists. split; [done|]. split; [by repeat split|]. split; [done|]. left. cbn.
        eexists. split; [lia|done].
      * match goal with |- ∃ _, (emit _ ;; _) ?w1 = _ ∧ _ =>
          destruct (due_effect ev now.1 at_ w1 Hnew) as (x & w' & E & Ho & Hs & Hl & Hc & He & Hf & Hran) end.
        apply ran_in_weaken with (w0 := w) in Hran; [|by repeat split..].
        exists w'. rewrite E. split; [done|].
        split; [eapply stays_trans; [|exact Hs]; by repeat split|]. split; [done|]. right.
        eexists [_], at_, x. rewrite Hl. cbn. rewrite <- app_assoc.
        split_and!; try done; [repeat constructor; by eexists|lia].
    + match goal with |- ∃ _, (emit _ ;; _) ?w1 = _ ∧ _ =>
        destruct (due_effect ev now.1 now w1 Hnew) as (x & w' & E & Ho & Hs & Hl & Hc & He & Hf & Hran) end.
      apply ran_in_weaken with (w0 := w) in Hran; [|by repeat split..].
      exists w'. rewrite E. cbn in *. split; [done|]. split; [done|]. split; [done|]. right.
      exists [], now, x. split_and!; try done; [constructor|lia].
  - rewrite (bind_ok (w0 ← get; _) _ _ _ _ (f_equal (λ o, (Ok o, w)) Ef)). cbn beta iota zeta.
    unfold update. rewrite (bind_ok (modify _) _ _ _ _ eq_refl).
    match goal with |- ∃ _, sleep_until_next_day _ ?w1 = _ ∧ _ =>
      destruct (sleep_until_effect now w1) as (sl & w' & E & Hsl & Hs & Hl & Hst & HR) end.
    exists w'. rewrite E, Hst. cbn. split; [done|]. split; [done|]. split; [done|]. by exists sl.
Qed.

Definition opened (today : Z) (w : World) : list string :=
  if bool_decide (w.(state).(current_date) = Some today) then w.(state).(executed_today) else [].
Definition day_line (today : Z) (w : World) : list SchedEvent :=
  if bool_decide (w.(state).(current_date) = Some today) then [] else [NewDay today].

Lemma start_day_effect today w :
  ∃ w', start_day today w = (Ok tt, w') ∧ w'.(clock) = w.(clock) ∧ w'.(handlers) = w.(handlers) ∧
    w'.(_running) = w.(_running) ∧ w'.(state).(status) = w.(state).(status) ∧
    w'.(state).(current_date) = Some today ∧ w'.(state).(executed_today) = opened today w ∧
    w'.(log) = w.(log) ++ day_line today w ∧ same_redis w w'.
Proof.
  unfold start_day, opened, day_line, update, emit. run_m. case_bool_decide as Hd; cbn.
  - eexists. rewrite app_nil_r. by repeat split.
  - eexists. by repeat split.
Qed.

Lemma iteration_effect w :
  let now := default (0, 0) (head w.(clock)) in
  ∃ w', iteration schedule w = (Ok tt, w') ∧ stays w w' ∧
    if is_trading_day now.1 then
      w'.(state).(current_date) = Some now.1 ∧
      ((∃ sl, sleeps sl ∧ w'.(log) = w.(log) ++ day_line now.1 w ++ sl ∧
         w'.(state).(executed_today) = opened now.1 w ∧ same_redis w w' ∧
         (w.(state).(status) = PAUSED ∨
          match find_pending schedule (opened now.1 w) now.2 with
          | Some ev => moment_us now < moment_us (now.1, ev.(scheduled_time))
          | None => True
          end)) ∨
       (∃ ev sl at_ x, sleeps sl ∧ find_pending schedule (opened now.1 w) now.2 = Some ev ∧
          moment_us (now.1, ev.(scheduled_time)) ≤ moment_us at_ ∧ outcome_of ev.(event_type) x ∧
          w'.(log) = w.(log) ++ day_line now.1 w ++ sl ++ [Due ev.(event_type) now.1 at_; x] ∧
          w'.(state).(executed_today) = opened now.1 w ++ option_list (done_event x) ∧
          (x = Ran ev.(event_type) false → head w.(handlers) = Some false) ∧ ran_in ev w w'))
    else ∃ sl, sleeps sl ∧ w'.(log) = w.(log) ++ sl ∧ w'.(state) = w.(state) ∧ same_redis w w'.
Proof.
  intros now. unfold iteration. rewrite (bind_ok now_kst _ _ _ _ eq_refl). fold now.
  destruct (next_clock_suffix w.(clock)) as [Hsuf Hne].
  match goal with |- context [start_day now.1 ;; _] => idtac end.
  match goal with |- ∃ _, ?m ?v = _ ∧ _ => set (w0 := v) end.
  assert (stays w w0) as S0 by by repeat split.
  destruct (is_trading_day now.1); cbn [negb].
  2:{ destruct (sleep_until_effect now w0) as (sl & w' & E & Hsl & Hs & Hl & Hst & HR).
      exists w'. split; [done|]. split; [by eapply stays_trans|]. by exists sl. }
  destruct (start_day_effect now.1 w0) as (w1 & E1 & C1 & H1 & R1 & St1 & D1 & X1 & L1 & [Re1 F1]).
  rewrite (bind_ok _ _ _ _ _ E1). rewrite (bind_ok get _ _ _ _ eq_refl).
  change (opened now.1 w0) with (opened now.1 w) in X1. change (day_line now.1 w0) with (day_line now.1 w) in L1.
  assert (stays w w1) as S1.
  { eapply stays_trans; [exact S0|]. unfold stays. by rewrite C1, H1, R1, St1, F1. }
  assert (same_redis w w1) as SR by by split.
  case_bool_decide as Hp.
  - eexists. split; [done|]. cbn. split; [eapply stays_trans; [exact S1|by repeat split]|]. split; [done|].
    left. eexists [_]. rewrite L1, <- app_assoc. split_and!; try done; [repeat constructor; by eexists|]. left. exact (eq_trans (eq_sym St1) Hp).
  - destruct (run_next_effect now w1) as (w' & E & S' & D' & Hcase). rewrite X1 in Hcase.
    exists w'. split; [done|]. split; [by eapply stays_trans|]. split; [by rewrite D'|].
    rewrite L1 in Hcase. destruct (find_pending _ _ _) as [ev|] eqn:Ef.
    + destruct Hcase as [(us & Hus & Hl & He & HR)|(sl & at_ & x & Hsl & _ & Hd & Ho & Hl & He & Hh & Hran)].
      * left. exists [Slept us]. rewrite Hl, <- app_assoc.
        split_and!; try done; [repeat constructor; by eexists|by eapply same_redis_trans|by right].
      * right. exists ev, sl, at_, x. rewrite Hl, <- app_assoc. apply ran_in_weaken with (w0 := w) in Hran; [|done..].
        rewrite H1 in Hh. done.
    + destruct Hcase as (sl & Hsl & Hl & He & HR). left. exists sl. rewrite Hl, <- app_assoc.
      split_and!; try done; [by eapply same_redis_trans|by right].
Qed.

(** ** The days of a log *)

(** The trading days of a log, the last one first, each with what it executed *)
Definition add_day (acc : list (Z * list string)) (x : SchedEvent) : list (Z * list string) :=
  match x, acc with
  | NewDay d, _ => (d, []) :: acc
  | _, (d, l) :: acc' => (d, l ++ option_list (done_event x)) :: acc'
  | _, [] => []
  end.
Definition days (l : list SchedEvent) : list (Z * list string) := foldl add_day [] l.

(** Every execution follows the decision to execute that event, taken for a
    trading day and not before its time on that day. *)
Fixpoint executions_due (l : list SchedEvent) : Prop :=
  match l with
  | [] => True
  | Due e today at_ :: x :: l' =>
      is_trading_day today = true ∧ outcome_of e x ∧
      (∃ ev, ev ∈ schedule ∧ ev.(event_type) = e ∧
         moment_us (today, ev.(scheduled_time)) ≤ moment_us at_) ∧
      executions_due l'
  | NewDay _ :: l' | Slept _ :: l' => executions_due l'
  | _ => False
  end.

Lemma executions_due_app l1 l2 : executions_due l1 → executions_due l2 → executions_due (l1 ++ l2).
Proof.
  intros H1 H2. remember (length l1) as n eqn:Hn. revert l1 Hn H1.
  induction n as [n IH] using lt_wf_ind. intros [|x l1] Hn H1; [done|].
  destruct x; cbn in *; try done; try (by eapply (IH (length l1)); [lia|..]).
  destruct l1 as [|y l1]; [done|]. destruct H1 as (?&?&?&H1). cbn. split_and!; try done.
  eapply (IH (length l1)); [cbn in *; lia|done|done].
Qed.

Lemma executions_due_sleeps l : sleeps l → executions_due l.
Proof. intros H. induction H as [|x l [us ->] _ IH]; done. Qed.

Lemma add_day_sleeps sl acc : sleeps sl → foldl add_day acc sl = acc.
Proof.
  intros H. revert acc. induction H as [|x l [us ->] _ IH]; intros acc; [done|]. cbn. rewrite IH.
  destruct acc as [|[??]]; cbn; by rewrite ?app_nil_r.
Qed.

Lemma days_after l sl tl : sleeps sl → days (l ++ sl ++ tl) = foldl add_day (days l) tl.
Proof. intros H. unfold days. by rewrite !foldl_app, (add_day_sleeps sl). Qed.

(** ** The invariant of the loop *)

Definition prefix_day (p : Z * list string) : Prop := p.2 `prefix_of` values.
Definition tracks (w : World) : Prop :=
  match days w.(log) with
  | (d, l) :: _ => w.(state).(current_date) = Some d ∧ w.(state).(executed_today) = l
  | [] => w.(state).(current_date) = None
  end.
Definition loop_inv (w : World) : Prop :=
  tracks w ∧ Forall prefix_day (days w.(log)) ∧ executions_due w.(log).
(** The clock never goes back to an earlier date. *)
Definition forward (c : list Moment) : Prop := StronglySorted (λ m m' : Moment, m.1 ≤ m'.1) c.
Definition dates_inv (w : World) : Prop :=
  forward w.(clock) ∧ StronglySorted (λ p q : Z * list string, q.1 < p.1) (days w.(log)) ∧
  ∀ p, head (days w.(log)) = Some p → Forall (λ m : Moment, p.1 ≤ m.1) w.(clock).

Lemma days_day_line today w :
  tracks w →
  days (w.(log) ++ day_line today w) =
    (today, opened today w) ::
    (if bool_decide (w.(state).(current_date) = Some today) then tail (days w.(log)) else days w.(log)).
Proof.
  unfold tracks, days, day_line, opened. rewrite foldl_app. intros Ht. case_bool_decide as Hd; cbn.
  - destruct (foldl add_day [] w.(log)) as [|[d l] r]; [congruence|]. destruct Ht as [Ht <-]. cbn. congruence.
  - by destruct (foldl add_day [] w.(log)) as [|[d l] r].
Qed.

Lemma prefix_step k (ex : list string) t ev x :
  NoDup values → ex = take k values → find_pending schedule ex t = Some ev → outcome_of ev.(event_type) x →
  ex ++ option_list (done_event x) `prefix_of` values.
Proof.
  intros Hnd -> Hf Ho. rewrite find_pending_prefix in Hf by done.
  assert (values !! k = Some (event_value ev.(event_type))) as Hk by (unfold values; by rewrite list_lookup_fmap, Hf).
  destruct Ho as [-> | [-> | ->]]; cbn; rewrite ?app_nil_r; try apply prefix_take;
    rewrite <- (take_S_r _ _ _ Hk); apply prefix_take.
Qed.

Lemma prefix_is_take {A} (l l' : list A) : l `prefix_of` l' → l = take (length l) l'.
Proof. intros [k ->]. by rewrite take_app_length. Qed.

Lemma loop_inv_iteration w :
  NoDup values → loop_inv w → ∃ w', iteration schedule w = (Ok tt, w') ∧ stays w w' ∧ loop_inv w' ∧
    (dates_inv w → dates_inv w').
Proof.
  intros Hnd (Ht & Hp & Hdue). destruct (iteration_effect w) as (w' & E & Hs & Hcase). cbn zeta in *.
  exists w'. split; [done|]. split; [done|]. set (now := default (0, 0) (head w.(clock))) in *.
  assert (forward w.(clock) → forward w'.(clock)) as Hfw.
  { destruct Hs as ([pre Hpre] & _). unfold forward. rewrite Hpre. clear. induction pre; [done|]. cbn. inversion 1; auto. }
  assert (∀ P, Forall P w.(clock) → Forall P w'.(clock)) as Hsub.
  { intros P. destruct Hs as ([pre Hpre] & _). rewrite Hpre, Forall_app. tauto. }
  destruct (is_trading_day now.1) eqn:Htd.
  2:{ destruct Hcase as (sl & Hsl & Hl & Hst & _). unfold loop_inv, dates_inv, tracks, days in *.
      rewrite Hl, foldl_app, (add_day_sleeps sl), Hst by done. split.
      - split_and!; try done. by apply executions_due_app, executions_due_sleeps.
      - intros (? & ? & Hh). split_and!; auto. }
  destruct Hcase as [Hd Hcase].
  set (rest := if bool_decide (w.(state).(current_date) = Some now.1) then tail (days w.(log)) else days w.(log)).
  assert (Forall prefix_day rest) as Hrest.
  { unfold rest. case_bool_decide; [|done]. by apply Forall_tail. }
  assert (opened now.1 w `prefix_of` values) as Hop.
  { unfold opened. case_bool_decide as Hc; [|apply prefix_nil]. unfold tracks in Ht.
    destruct (days w.(log)) as [|[d l] r]; [congruence|]. destruct Ht as [_ ->]. by inversion Hp. }
  assert (∃ ex', w'.(state).(executed_today) = ex' ∧ ex' `prefix_of` values ∧
    days w'.(log) = (now.1, ex') :: rest ∧ executions_due w'.(log)) as (ex' & Hex & Hpre & Hdays & Hdue').
  { assert (executions_due (day_line now.1 w)) as Hdl by (unfold day_line; by case_bool_decide).
    destruct Hcase as [(sl & Hsl & Hl & He & _)|(ev & sl & at_ & x & Hsl & Hf & Hat & Ho & Hl & He & _)];
      (eexists; split; [exact He|]); rewrite Hl; unfold days.
    - rewrite <- (app_nil_r sl), app_assoc, days_after, days_day_line by done. split_and!; try done.
      rewrite app_nil_r. apply executions_due_app; [by apply executions_due_app|by apply executions_due_sleeps].
    - rewrite app_assoc, days_after, days_day_line by done. cbn [foldl add_day]. rewrite app_nil_r.
      pose proof (find_pending_new _ _ _ _ Hf) as [Hin _]. split_and!.
      + by eapply (prefix_step (length (opened now.1 w))); [|apply prefix_is_take| |].
      + by destruct Ho as [-> | [-> | ->]].
      + apply executions_due_app; [by apply executions_due_app|].
        apply executions_due_app; [by apply executions_due_sleeps|]. cbn. split_and!; try done. by exists ev. }
  unfold loop_inv, tracks. rewrite Hdays. split; [split_and!; try done; by constructor|].
  intros (Hf & Hss & Hhd). unfold dates_inv. rewrite Hdays.
  assert (Forall (λ m : Moment, now.1 ≤ m.1) w.(clock)) as Hnow.
  { unfold now in Htd |- *. unfold forward in Hf. destruct w.(clock) as [|m c]; [done|]. cbn.
    inversion Hf; subst. by constructor; [lia|]. }
  split; [by apply Hfw|]. split.
  - unfold rest. case_bool_decide as Hc.
    + unfold tracks in Ht. destruct (days w.(log)) as [|[d l] r]; [constructor; constructor|].
      destruct Ht as [Hcd _]. replace d with now.1 in * by congruence. inversion Hss; subst. by constructor.
    + constructor; [done|]. destruct (days w.(log)) as [|[d l] r] eqn:Ed; [constructor|].
      unfold tracks in Ht. rewrite Ed in Ht. destruct Ht as [Hcd _].
      assert (d < now.1) as Hlt.
      { specialize (Hhd _ eq_refl). unfold now in Htd, Hc |- *.
        destruct w.(clock) as [|m c]; [done|]. inversion Hhd; subst. cbn in *. 
        assert (d ≠ m.1) by congruence. lia. }
      inversion Hss as [|? ? Hr Hall]; subst. constructor; [done|].
      eapply Forall_impl; [exact Hall|]. cbn. intros q. lia.
  - intros p [= <-]. by apply Hsub.
Qed.

Lemma loop_inv_loop n w :
  NoDup values → loop_inv w → ∃ w', _scheduler_loop schedule n w = (Ok tt, w') ∧ loop_inv w' ∧
    (dates_inv w → dates_inv w').
Proof.
  intros Hnd. revert w. induction n as [|n IH]; intros w Hw; [by exists w|].
  cbn [_scheduler_loop]. rewrite (bind_ok get _ _ _ _ eq_refl).
  destruct w.(_running); [|by exists w].
  destruct (loop_inv_iteration w Hnd Hw) as (w1 & E1 & _ & H1 & D1). rewrite (bind_ok _ _ _ _ _ E1).
  destruct (IH w1 H1) as (w2 & E2 & H2 & D2). exists w2. auto.
Qed.

(** C20. However the clock, the handlers and Redis behave, the loop of a fresh
    scheduler executes on each trading day the events of the schedule in their
    order, none twice, leaving out at most a tail (an event counts as executed
    when its handler returned or Redis had it as executed); it
    executes an event only after deciding to, for a trading day and not before
    the event's time on that day.  If the dates the clock shows never go back,
    no trading day is started twice. *)
Theorem schedule_in_order_once (n : nat) (w : World) (Hnd : NoDup values)
  (Hdate : w.(state).(current_date) = None) (Hlog : w.(log) = []) :
  ∃ w', _scheduler_loop schedule n w = (Ok tt, w') ∧
    Forall (λ p, p.2 `prefix_of` values) (days w'.(log)) ∧ executions_due w'.(log) ∧
    (forward w.(clock) → StronglySorted (λ p q, q.1 < p.1) (days w'.(log))).
Proof.
  destruct (loop_inv_loop n w Hnd) as (w' & E & (_ & Hp & Hdue) & HD).
  { unfold loop_inv, tracks. by rewrite Hlog. }
  exists w'. split_and!; try done. intros Hf. apply HD. unfold dates_inv. rewrite Hlog. cbn.
  split_and!; [done|constructor|done].
Qed.

(** ** A day that goes well *)

Definition past (m : Moment) : Prop := Forall (λ ev, ev.(scheduled_time) ≤ m.2) schedule.

(** The clock stands at [m] on a trading day, the handlers return, and the first
    [k] events are done. *)
Definition on_track (m : Moment) (k : nat) (w : World) : Prop :=
  w.(clock) = [m] ∧ w.(_running) = true ∧ w.(state).(status) ≠ PAUSED ∧
  Forall (λ b, b = true) w.(handlers) ∧ opened m.1 w = take k values.

Lemma on_track_iteration m k w :
  NoDup values → is_trading_day m.1 = true → past m → (k < length schedule)%nat → on_track m k w →
  ∃ w', iteration schedule w = (Ok tt, w') ∧ on_track m (S k) w'.
Proof.
  intros Hnd Htd Hpast Hk (Hc & Hr & Hst & Hh & Ho).
  destruct (iteration_effect w) as (w' & E & (Sc & Sn & Sh & _ & Sr & Ss) & Hcase). rewrite Hc in Hcase. cbn in Hcase.
  rewrite Htd, Ho, find_pending_prefix in Hcase by done. destruct Hcase as [Hd Hcase].
  destruct (lookup_lt_is_Some_2 schedule k Hk) as [ev Hev]. rewrite Hev in Hcase.
  exists w'. split; [done|]. unfold on_track. rewrite Sr, Ss. split_and!; try done.
  - rewrite Hc in Sc, Sn. destruct w'.(clock) as [|a [|b c]]; [by destruct Sn| |].
    + apply suffix_cons_inv in Sc as [?|Sc]; [done|]. by apply suffix_nil_inv in Sc.
    + apply suffix_length in Sc. cbn in Sc. lia.
  - destruct Sh as [pre Hpre]. rewrite Hpre in Hh. by apply Forall_app in Hh as [_ ?].
  - unfold opened. rewrite bool_decide_true by done.
    destruct Hcase as [(sl & _ & _ & _ & _ & [Hp|Hlt])|(ev' & sl & at_ & x & _ & [= <-] & _ & Hx & _ & He & Hf & _)].
    + done.
    + unfold past in Hpast. rewrite Forall_lookup in Hpast. specialize (Hpast _ _ Hev).
      unfold moment_us in Hlt. cbn in Hlt. lia.
    + rewrite He. erewrite take_S_r by (unfold values; by rewrite list_lookup_fmap, Hev). f_equal.
      destruct Hx as [-> | [-> | ->]]; try done. exfalso. specialize (Hf eq_refl).
      destruct w.(handlers); [done|]. cbn in Hf. inversion Hh. congruence.
Qed.

(** Whatever Redis answers or fails to answer: once the clock is past the
    times of the schedule, a running scheduler whose handlers return catches up
    with the whole rest of the day's schedule, one event per turn. *)
Theorem late_scheduler_catches_up (m : Moment) (k : nat) (w : World) (Hnd : NoDup values)
  (Htd : is_trading_day m.1 = true) (Hpast : past m) (Hw : on_track m k w) (Hk : (k ≤ length schedule)%nat) :
  ∃ w', _scheduler_loop schedule (length schedule - k) w = (Ok tt, w') ∧ opened m.1 w' = values.
Proof.
  remember (length schedule - k)%nat as n eqn:En. revert k w Hw Hk En. induction n as [|n IH]; intros k w Hw Hk En.
  - exists w. split; [done|]. destruct Hw as (_ & _ & _ & _ & ->). apply take_ge. unfold values.
    rewrite length_fmap. lia.
  - cbn [_scheduler_loop]. rewrite (bind_ok get _ _ _ _ eq_refl).
    replace w.(_running) with true by (symmetry; apply Hw).
    destruct (on_track_iteration m k w) as (w1 & E1 & H1); [done..|lia|done|].
    rewrite (bind_ok _ _ _ _ _ E1). apply (IH (S k)); [done|lia..].
Qed.

(** ** A handler that keeps raising *)

Fixpoint failing_turns (n : nat) (e : ScheduleEventType) (m : Moment) : list SchedEvent :=
  match n with O => [] | S n' => Due e m.1 m :: Ran e false :: failing_turns n' e m end.

Lemma iteration_fails m ev w :
  is_trading_day m.1 = true → w.(clock) = [m] → w.(state).(status) ≠ PAUSED →
  w.(state).(current_date) = Some m.1 →
  find_pending schedule w.(state).(executed_today) m.2 = Some ev → ev.(scheduled_time) ≤ m.2 →
  live w.(redis) (_build_key (event_value ev.(event_type)) m.1) m = false →
  head w.(handlers) = Some false →
  iteration schedule w = (Ok tt, {|
    state := add_error (set_next (Some ev.(event_type)) w.(state)); _running := w.(_running);
    clock := [m]; handlers := tail w.(handlers); redis := w.(redis);
    redis_faults := tail w.(redis_faults);
    log := w.(log) ++ [Due ev.(event_type) m.1 m; Ran ev.(event_type) false] |}).
Proof.
  intros Htd Hc Hst Hd Hf Hle Hl Hh. destruct w as [s run c hs r fs lg]. cbn in *. subst c.
  unfold iteration. rewrite (bind_ok now_kst _ _ _ _ eq_refl). cbn [default head clock]. cbn. rewrite Htd. cbn [negb].
  unfold start_day. run_m. cbn. rewrite (bool_decide_true (_ = Some _)) by done. cbn.
  rewrite bool_decide_false by done. unfold run_next, _find_next_event, update. run_m. cbn.
  rewrite Hf. cbn. rewrite (proj2 (Z.ltb_ge _ _)) by (unfold moment_us; cbn; lia).
  unfold _execute_event, is_executed, redis_command, run_handler, now_kst, emit, update. run_m. cbn.
  destruct (default false (head fs)); cbn; rewrite ?Hl; cbn; rewrite Hh; cbn; by rewrite <- app_assoc.
Qed.

(** When the handler of the next due event keeps raising, the loop runs it
    again and again without any sleep in between, and no later event of the day
    gets its turn. *)
Theorem failing_event_starves_the_day (n : nat) (m : Moment) (ev : ScheduleEvent) (w : World)
  (Htd : is_trading_day m.1 = true) (Hclock : w.(clock) = [m]) (Hrun : w.(_running) = true)
  (Hst : w.(state).(status) ≠ PAUSED) (Hdate : w.(state).(current_date) = Some m.1)
  (Hnext : find_pending schedule w.(state).(executed_today) m.2 = Some ev) (Hdue : ev.(scheduled_time) ≤ m.2)
  (Hkey : live w.(redis) (_build_key (event_value ev.(event_type)) m.1) m = false)
  (Hraise : w.(handlers) = replicate n false) :
  ∃ w', _scheduler_loop schedule n w = (Ok tt, w') ∧
    w'.(log) = w.(log) ++ failing_turns n ev.(event_type) m ∧
    w'.(state).(executed_today) = w.(state).(executed_today) ∧
    w'.(state).(errors_today) = w.(state).(errors_today) + Z.of_nat n.
Proof.
  revert w Hclock Hrun Hst Hdate Hnext Hkey Hraise. induction n as [|n IH]; intros w Hc Hr Hst Hd Hn Hl Hh.
  - exists w. cbn. rewrite app_nil_r. split_and!; [done..|lia].
  - cbn [_scheduler_loop]. rewrite (bind_ok get _ _ _ _ eq_refl), Hr.
    rewrite (bind_ok _ _ _ _ _ (iteration_fails m ev w Htd Hc Hst Hd Hn Hdue Hl ltac:(by rewrite Hh))).
    edestruct IH as (w' & E & Hlog & He & Herr); [| | | | | | |exists w'; split; [exact E|]]; try done.
    + by rewrite Hh.
    + rewrite Hlog, He, Herr. cbn. rewrite <- app_assoc. split_and!; [done..|lia].
Qed.

(** ** Restarts *)

Lemma split_colon_cons s : ∃ p ps, split_colon s = p :: ps.
Proof.
  destruct s as [|a s]; [by eexists _, _|]. cbn. case_bool_decide; [by eexists _, _|].
  destruct (split_colon s); by eexists _, _.
Qed.

Lemma split_colon_app s1 s2 : split_colon (s1 +:+ String ":" s2) = split_colon s1 ++ split_colon s2.
Proof.
  induction s1 as [|a s1 IH]; [done|].
  change (String a s1 +:+ String ":" s2) with (String a (s1 +:+ String ":" s2)). cbn [split_colon]. rewrite IH. case_bool_decide; [done|].
  destruct (split_colon_cons s1) as (p & ps & ->). done.
Qed.

Lemma prefix_append s1 s2 : String.prefix s1 (s1 +:+ s2) = true.
Proof. induction s1 as [|a s1 IH]; [by destruct s2|].
  change (String a s1 +:+ s2) with (String a (s1 +:+ s2)). unfold String.prefix; fold String.prefix.
  destruct (Ascii.ascii_dec a a) as [_|Hn]; [exact IH|by destruct Hn].
Qed.

Lemma event_key_split e d :
  let parts := split_colon (_build_key (event_value e) d) in
  (4 ≤ length parts)%nat ∧ last parts = Some (event_value e).
Proof.
  unfold _build_key. cbn zeta. change (":" +:+ event_value e) with (String ":" (event_value e)).
  rewrite append_assoc, split_colon_app.
  assert (split_colon (event_value e) = [event_value e]) as -> by by destruct e.
  rewrite length_app, last_snoc. split; [|done].
  change ("scheduler:executed:" +:+ isoformat d) with ("scheduler" +:+ String ":" ("executed" +:+ String ":" (isoformat d))).
  rewrite !split_colon_app. change (split_colon "scheduler") with ["scheduler"]. change (split_colon "executed") with ["executed"].
  destruct (split_colon_cons (isoformat d)) as (p & ps & ->). rewrite !length_app. cbn. lia.
Qed.

Lemma event_key_prefix v d : String.prefix (_build_key "" d) (_build_key v d) = true.
Proof.
  unfold _build_key. rewrite (append_assoc _ (isoformat d) (":" +:+ "")), (append_assoc _ (isoformat d) (":" +:+ v)).
  change (":" +:+ v) with ((":" +:+ "") +:+ v). rewrite (append_assoc _ (":" +:+ "") v). apply prefix_append.
Qed.

Lemma event_key_inj v v' d : _build_key v d = _build_key v' d → v = v'.
Proof. unfold _build_key. intros H. by simplify_eq. Qed.

Lemma live_until_expiry r k x m : r !! k = Some x → moment_us m < x → live r k m = true.
Proof. intros H Hm. unfold live. rewrite H. by apply Z.ltb_lt. Qed.

Lemma loaded_has_live_keys e d w x :
  w.(redis) !! _build_key (event_value e) d = Some x → moment_us (default (0, 0) (head w.(clock))) < x →
  default false (head w.(redis_faults)) = false →
  ∃ l w', load_executed_for_date d w = (Ok l, w') ∧ event_value e ∈ l ∧ quiet w w'.
Proof.
  intros Hk Hx Hf. destruct w as [s run c hs r fs lg]. cbn in *. destruct (next_clock_suffix c) as [??].
  pose proof (suffix_tail fs).
  unfold load_executed_for_date, redis_command, now_kst. run_m. cbn. rewrite Hf. cbn.
  eexists _, _. split; [done|]. split; [|by repeat split].
  apply elem_of_remove_dups, list_elem_of_omap. exists (_build_key (event_value e) d). split.
  - apply list_elem_of_In, filter_In. split.
    + apply list_elem_of_In, list_elem_of_fmap. exists (_build_key (event_value e) d, x). split; [done|].
      by apply elem_of_map_to_list.
    + rewrite event_key_prefix. cbn. by eapply live_until_expiry.
  - destruct (event_key_split e d) as [H4 Hlast]. apply Nat.leb_le in H4.
    change ((if (4 <=? length (split_colon (_build_key (event_value e) d)))%nat
             then last (split_colon (_build_key (event_value e) d)) else None) = Some (event_value e)).
    by rewrite H4.
Qed.

(** The key written at [m0] lives through the day, but for its last second. *)
Lemma ttl_lasts m0 m :
  m.1 = m0.1 → m.2 ≤ day_us - 1000000 →
  moment_us m < moment_us m0 + _ttl_until_next_midnight_kst m0 * 1000000.
Proof.
  unfold _ttl_until_next_midnight_kst, moment_us, time, day_us. cbn [fst snd]. intros -> H.
  Z.to_euclidean_division_equations. lia.
Qed.

Section Restart.
Context (d : Z) (e : ScheduleEventType) (x : Z).

(** All that is left of the day: the clock shows only it, before the key expires. *)
Definition same_day (c : list Moment) : Prop := c ≠ [] ∧ Forall (λ m, m.1 = d ∧ moment_us m < x) c.
Definition remembers (w : World) : Prop :=
  (w.(state).(current_date) = Some d ∧ event_value e ∈ w.(state).(executed_today)) ∨
  (w.(redis) !! _build_key (event_value e) d = Some x ∧ Forall (λ f, f = false) w.(redis_faults)).
Definition restart_inv (w : World) : Prop :=
  same_day w.(clock) ∧ remembers w ∧ ∀ ok, Ran e ok ∉ w.(log).

Lemma same_day_head c : same_day c → (default (0, 0) (head c)).1 = d ∧ moment_us (default (0, 0) (head c)) < x.
Proof. intros [Hn H]. destruct c; [done|]. by inversion H. Qed.

Lemma same_day_stays w w' : stays w w' → same_day w.(clock) → same_day w'.(clock).
Proof.
  intros ([pre Hp] & Hn & _) [Hc H]. split; [by apply Hn|]. rewrite Hp in H. by apply Forall_app in H as [_ ?].
Qed.

Lemma same_day_next c : same_day c → same_day (next_clock c).
Proof. intros [Hn H]. destruct c as [|a [|b c]]; [done|done|]. split; [done|]. by inversion H. Qed.

(** An execution while the key is there and Redis answers *)
Lemma run_with_key ev w w' :
  ran_in ev w w' → same_day w.(clock) → w.(redis) !! _build_key (event_value e) d = Some x →
  Forall (λ f, f = false) w.(redis_faults) →
  (ev.(event_type) = e → last w'.(log) = Some (Skipped e)) ∧
  (ev.(event_type) ≠ e → w'.(redis) !! _build_key (event_value e) d = Some x) ∧
  Forall (λ f, f = false) w'.(redis_faults).
Proof.
  intros (w1 & r & S1 & [R1 F1] & _ & Hnew & E) Hday Hk Hf. apply (same_day_stays _ _ S1) in Hday.
  destruct (execute_event_effect ev w1 Hnew) as (y & r' & w2 & E2 & _ & S2 & Hl & _ & _ & _ & Hlive & Hmark).
  rewrite E in E2. injection E2 as _ <-. rewrite Hl, last_snoc, F1, R1 in *.
  destruct (same_day_head _ Hday) as [Hday1 _].
  destruct (same_day_head _ (same_day_next _ Hday)) as [_ Hday2]. rewrite Hday1 in *. split_and!.
  - intros <-. f_equal. apply Hlive; [by eapply live_until_expiry|]. by destruct Hf.
  - intros Hne. destruct Hmark as [-> | [k ->]]; rewrite R1; [done|]. rewrite lookup_insert_ne; [done|].
    intros Heq%event_key_inj. by apply event_value_inj in Heq.
  - destruct S2 as (_ & _ & _ & [pre Hp] & _). rewrite F1 in Hp. rewrite Hp in Hf. by apply Forall_app in Hf as [_ ?].
Qed.

Lemma not_ran_sleeps sl ok : sleeps sl → Ran e ok ∉ sl.
Proof. intros Hs Hin. unfold sleeps in Hs. rewrite Forall_forall in Hs. by destruct (Hs _ Hin). Qed.

Lemma not_ran_day_line today w ok : Ran e ok ∉ day_line today w.
Proof. unfold day_line. case_bool_decide; by rewrite ?list_elem_of_singleton || apply not_elem_of_nil. Qed.

Lemma restart_inv_iteration w :
  restart_inv w → ∃ w', iteration schedule w = (Ok tt, w') ∧ restart_inv w'.
Proof.
  intros (Hday & Hrem & Hlog). destruct (iteration_effect w) as (w' & E & S & Hcase). cbn zeta in Hcase.
  exists w'. split; [done|]. destruct (same_day_head _ Hday) as [Hd _]. rewrite Hd in Hcase.
  split; [by eapply same_day_stays|]. destruct (is_trading_day d).
  2:{ destruct Hcase as (sl & Hsl & Hl & Hst & [Hr Hf]). unfold remembers. rewrite Hl, Hst, Hr, Hf.
      split; [done|]. intros ok [?|?]%elem_of_app; [by eapply Hlog|by eapply not_ran_sleeps]. }
  destruct Hcase as [Hcd [(sl & Hsl & Hl & He & [Hr Hf] & _)|
    (ev & sl & at_ & y & Hsl & Hnext & _ & Ho & Hl & He & _ & Hran)]].
  - split.
    + destruct Hrem as [[Hd0 Hin]|Hk]; [left|right; by rewrite Hr, Hf]. split; [done|].
      rewrite He. unfold opened. by rewrite bool_decide_true.
    + rewrite Hl. intros ok [?|[?|?]%elem_of_app]%elem_of_app;
        [by eapply Hlog|by eapply not_ran_day_line|by eapply not_ran_sleeps].
  - assert (last w'.(log) = Some y) as Hlast.
    { rewrite Hl. change [Due ev.(event_type) d at_; y] with ([Due ev.(event_type) d at_] ++ [y]).
      by rewrite !app_assoc, last_snoc. }
    apply find_pending_new in Hnext as [_ Hnew].
    assert (remembers w' ∧ ∀ ok, y ≠ Ran e ok) as [Hrem' Hy].
    { destruct Hrem as [[Hd0 Hin]|[Hk Hfs]].
      - unfold opened in *. rewrite bool_decide_true in * by done. split.
        + left. split; [done|]. rewrite He. apply elem_of_app. by left.
        + intros ok ->. destruct Ho as [Ho|[Ho|Ho]]; by simplify_eq.
      - destruct (run_with_key ev w w' Hran Hday Hk Hfs) as (H1 & H2 & H3).
        destruct (decide (ev.(event_type) = e)) as [Heq|Hne].
        + rewrite (H1 Heq) in Hlast. injection Hlast as <-. split; [|done]. left. split; [done|].
          rewrite He. apply elem_of_app. right. by left.
        + split; [right; auto|]. intros ok ->. destruct Ho as [Ho|[Ho|Ho]]; congruence. }
    split; [done|]. rewrite Hl. intros ok Hin. rewrite !elem_of_app, !elem_of_cons in Hin.
    destruct Hin as [?|[?|[?|[?|[?|?%not_elem_of_nil]]]]];
      [by eapply Hlog|by eapply not_ran_day_line|by eapply not_ran_sleeps|done|by eapply Hy|done].
Qed.

Lemma restart_inv_loop n w :
  restart_inv w → ∃ w', _scheduler_loop schedule n w = (Ok tt, w') ∧ restart_inv w'.
Proof.
  revert w. induction n as [|n IH]; intros w Hw; [by exists w|].
  cbn [_scheduler_loop]. rewrite (bind_ok get _ _ _ _ eq_refl). destruct w.(_running); [|by exists w].
  destruct (restart_inv_iteration w Hw) as (w1 & E1 & H1). rewrite (bind_ok _ _ _ _ _ E1). by apply IH.
Qed.
End Restart.

Lemma load_fails d w :
  default false (head w.(redis_faults)) = true →
  ∃ w', load_executed_for_date d w = (Ok [], w') ∧ quiet w w' ∧ w'.(redis) = w.(redis) ∧
    w'.(redis_faults) = tail w.(redis_faults).
Proof.
  intros Hf. destruct w as [s run c hs r fs lg]. cbn in *. destruct (next_clock_suffix c) as [??].
  pose proof (suffix_tail fs).
  unfold load_executed_for_date, redis_command, now_kst. run_m. cbn. rewrite Hf. cbn.
  eexists. split; [done|]. by repeat split.
Qed.

Lemma start_remembers d e x w :
  w.(_running) = false → w.(log) = [] → same_day d x w.(clock) →
  w.(redis) !! _build_key (event_value e) d = Some x →
  head w.(redis_faults) = Some false ∨ Forall (λ f, f = false) (tail w.(redis_faults)) →
  ∃ w', start true w = (Ok tt, w') ∧ restart_inv d e x w'.
Proof.
  intros Hrun Hlog Hday Hk Hred. unfold start. rewrite (bind_ok get _ _ _ _ eq_refl), Hrun. cbn [negb].
  unfold update, set_running. rewrite !(bind_ok (modify _) _ _ _ _ eq_refl), (bind_ok now_kst _ _ _ _ eq_refl).
  destruct (same_day_head _ _ _ Hday) as [Hd _]. cbn [state _running clock handlers redis redis_faults log set_state].
  rewrite Hd. set (s := set_status _ _).
  match goal with |- ∃ _, (_ ≫= _) ?w1 = _ ∧ _ => set (v := w1) end.
  assert (same_day d x v.(clock)) as Hv by by apply same_day_next.
  destruct (default false (head w.(redis_faults))) eqn:Hf.
  - destruct (load_fails d v Hf) as (w' & E & (Hs & St & Lg) & Hr & Hfs).
    rewrite (bind_ok _ _ _ _ _ E). eexists. split; [done|]. cbn. unfold restart_inv, remembers. cbn.
    split; [by eapply same_day_stays|]. split; [|by rewrite Lg; cbn; rewrite Hlog; intros ok ?%not_elem_of_nil].
    right. rewrite Hr, Hfs. split; [done|]. destruct Hred as [Hred|Hred]; [by rewrite Hred in Hf|done].
  - destruct (same_day_head _ _ _ Hv) as [_ Hx].
    destruct (loaded_has_live_keys e d v x Hk Hx Hf) as (l & w' & E & Hin & Hs & St & Lg).
    rewrite (bind_ok _ _ _ _ _ E). eexists. split; [done|]. unfold restart_inv, remembers. cbn.
    split; [by eapply same_day_stays|]. split; [|by rewrite Lg; cbn; rewrite Hlog; intros ok ?%not_elem_of_nil].
    left. unfold restore. rewrite bool_decide_false by (intros ->; by apply not_elem_of_nil in Hin). done.
Qed.

(** An event that [mark_executed] has recorded on a day is not run again
    when the scheduler is started anew on that day (up to its last second), if
    only one of the two safeguards works: the loading of the keys at the start,
    or the question before each execution. *)
Theorem restart_does_not_repeat (n : nat) (e : ScheduleEventType) (m0 : Moment) (w : World)
  (Hstopped : w.(_running) = false) (Hlog : w.(log) = []) (Hclock : w.(clock) ≠ [])
  (Hday : Forall (λ m, m.1 = m0.1 ∧ m.2 ≤ day_us - 1000000) w.(clock))
  (Hkey : w.(redis) !! _build_key (event_value e) m0.1 =
          Some (moment_us m0 + _ttl_until_next_midnight_kst m0 * 1000000))
  (Hredis : head w.(redis_faults) = Some false ∨ Forall (λ f, f = false) (tail w.(redis_faults))) :
  ∃ w', (start true ;; _scheduler_loop schedule n) w = (Ok tt, w') ∧ ∀ ok, Ran e ok ∉ w'.(log).
Proof.
  set (x := moment_us m0 + _ttl_until_next_midnight_kst m0 * 1000000) in *.
  assert (same_day m0.1 x w.(clock)) as Hsd.
  { split; [done|]. eapply Forall_impl; [exact Hday|]. intros m [H1 H2]. split; [done|]. by apply ttl_lasts. }
  destruct (start_remembers m0.1 e x w) as (w1 & E1 & H1); [done..|].
  rewrite (bind_ok _ _ _ _ _ E1). destruct (restart_inv_loop _ _ _ n w1 H1) as (w' & E & _ & _ & Hlog').
  by exists w'.
Qed.
End Facts.

(** ** Instances *)

Definition fresh : SchedulerState := {|
  status := RUNNING; current_date := None; last_event := None; next_event := None; executed_today := [];
  errors_today := 0; total_trading_days := 0 |}.
Definition world (running : bool) (c : list Moment) (hs : list bool) (r : gmap string Z) (fs : list bool) : World := {|
  state := fresh; _running := running; clock := c; handlers := hs; redis := r; redis_faults := fs; log := [] |}.

Lemma default_nodup : NoDup (values DEFAULT_SCHEDULE).
Proof. apply (bool_decide_unpack _). vm_compute. done. Qed.

Definition monday : Z := date 2026 4 6.
Definition two_days : list Moment := [
  (monday, time 8 29); (monday, time 8 30); (monday, time 8 30); (monday, time 9 0); (monday, time 9 0);
  (monday + 1, time 8 0); (monday + 1, time 8 30); (monday + 1, time 8 30)].

Lemma two_days_forward : forward two_days.
Proof. unfold forward, two_days. repeat constructor; cbn; lia. Qed.

Lemma schedule_in_order_once_witness :
  ∃ w', _scheduler_loop DEFAULT_SCHEDULE 9 (world true two_days [true; false] ∅ []) = (Ok tt, w') ∧
    Forall (λ p, p.2 `prefix_of` values DEFAULT_SCHEDULE) (days w'.(log)) ∧
    executions_due DEFAULT_SCHEDULE w'.(log) ∧ StronglySorted (λ p q, q.1 < p.1) (days w'.(log)).
Proof.
  destruct (schedule_in_order_once DEFAULT_SCHEDULE 9 (world true two_days [true; false] ∅ []) default_nodup
    eq_refl eq_refl) as (w' & E & H1 & H2 & H3).
  exists w'. split; [exact E|]. split; [exact H1|]. split; [exact H2|]. exact (H3 two_days_forward).
Defined.

Example two_days_run :
  days (after (_scheduler_loop DEFAULT_SCHEDULE 9) (world true two_days [true; false] ∅ [])).(log) =
    [(monday + 1, ["PRE_MARKET"]); (monday, ["PRE_MARKET"])].
Proof. vm_compute. reflexivity. Qed.

Definition evening : Moment := (monday, time 17 0).

Lemma late_scheduler_catches_up_witness :
  ∃ w', _scheduler_loop DEFAULT_SCHEDULE 5 (world true [evening] [] ∅ [true; true]) = (Ok tt, w') ∧
    opened monday w' = values DEFAULT_SCHEDULE.
Proof.
  apply (late_scheduler_catches_up DEFAULT_SCHEDULE evening 0 (world true [evening] [] ∅ [true; true]) default_nodup).
  - vm_compute. reflexivity.
  - unfold past. repeat constructor; vm_compute; discriminate.
  - unfold on_track. split; [reflexivity|]. split; [reflexivity|]. split; [discriminate|]. split; [constructor|].
    reflexivity.
  - lia.
Defined.

(** The day has started; the handler of its first event raises every time. *)
Lemma failing_event_starves_the_day_witness :
  let ev := {| event_type := PRE_MARKET; scheduled_time := time 8 30 |} in
  ∃ w', _scheduler_loop DEFAULT_SCHEDULE 3
      (set_state (new_day monday fresh) (world true [evening] [false; false; false] ∅ [])) = (Ok tt, w') ∧
    w'.(log) = [Due PRE_MARKET monday evening; Ran PRE_MARKET false; Due PRE_MARKET monday evening;
                Ran PRE_MARKET false; Due PRE_MARKET monday evening; Ran PRE_MARKET false] ∧
    w'.(state).(executed_today) = [] ∧ w'.(state).(errors_today) = 3.
Proof.
  intros ev. apply (failing_event_starves_the_day DEFAULT_SCHEDULE 3 evening ev
    (set_state (new_day monday fresh) (world true [evening] [false; false; false] ∅ [])));
    try reflexivity; vm_compute; discriminate.
Defined.

(** The key was written at 08:31; the scheduler starts again at 12:00, the
    loading fails. *)
Definition after_restart : World :=
  world false [(monday, time 12 0)] []
    {[_build_key "PRE_MARKET" monday :=
        moment_us (monday, time 8 31) + _ttl_until_next_midnight_kst (monday, time 8 31) * 1000000]}
    [true; false; false; false; false].

Lemma restart_does_not_repeat_witness :
  ∃ w', (start true ;; _scheduler_loop DEFAULT_SCHEDULE 4) after_restart = (Ok tt, w') ∧
    ∀ ok, Ran PRE_MARKET ok ∉ w'.(log).
Proof.
  apply (restart_does_not_repeat DEFAULT_SCHEDULE 4 PRE_MARKET (monday, time 8 31) after_restart).
  - reflexivity.
  - reflexivity.
  - discriminate.
  - repeat constructor; vm_compute; discriminate.
  - apply lookup_singleton_eq.
  - right. repeat constructor.
Defined.

Example after_restart_run :
  (after (start true ;; _scheduler_loop DEFAULT_SCHEDULE 3) after_restart).(log) =
    [NewDay monday; Due PRE_MARKET monday (monday, time 12 0); Skipped PRE_MARKET;
     Due MARKET_OPEN monday (monday, time 12 0); Ran MARKET_OPEN true;
     Due MIDDAY_CHECK monday (monday, time 12 0); Ran MIDDAY_CHECK true].
Proof. vm_compute. reflexivity. Qed.
End SchedulerFacts.
