(* ===== verification/Tasks.v ===== *)
(** Cooperative tasks: [async] functions that run interleaved.

    A [task] is a tree of awaited actions, each with a continuation for its
    answer or its exception; between two awaits a task runs alone.  A pool of
    tasks over a shared state takes turns in any order.  [wp] is a weakest
    precondition with a ghost token per task, over an invariant of the state
    and all the tokens; [pool_inv] is kept by every turn. *)

From stdpp Require Import base option list strings.
From S2P Require Import Prelude.

Section Tasks.
Context {action : Type} {answer : action → Type}.

Inductive task (A : Type) : Type :=
  | Ret (a : A)
  | Raise (e : string)
  | Await (a : action) (k : result string (answer a) → task A).
Arguments Ret {A} a.
Arguments Raise {A} e.
Arguments Await {A} a k.

Fixpoint bind {A B} (f : A → task B) (t : task A) : task B :=
  match t with
  | Ret a => f a
  | Raise e => Raise e
  | Await a k => Await a (λ r, bind f (k r))
  end.
#[global] Instance task_ret : MRet task := λ A a, Ret a.
#[global] Instance task_bind : MBind task := λ A B f t, bind f t.

(** [await a] *)
Definition await (a : action) : task (answer a) :=
  Await a (λ r, match r with Ok x => Ret x | Err e => Raise e end).

(** [try: t except Exception as e: h e] *)
Fixpoint catch {A} (t : task A) (h : string → task A) : task A :=
  match t with
  | Ret a => Ret a
  | Raise e => h e
  | Await a k => Await a (λ r, catch (k r) h)
  end.

(** The outcome of [t] as a value, for a [try] around a part of a body *)
Definition attempt {A} (t : task A) : task (result string A) :=
  catch (bind (λ a, Ret (Ok a)) t) (λ e, Ret (Err e)).

(** ** Weakest preconditions with tokens *)

Section Logic.
Context {State Oracle Token : Type}.
Context (perform : ∀ a, Oracle → State → result string (answer a) * State).
Context (allowed : Token → action → Prop).
Context (I : State → list Token → Prop).

Fixpoint wp {A} (h : Token) (t : task A) (Q : A → Token → Prop) (E : Token → Prop) : Prop :=
  match t with
  | Ret a => Q a h
  | Raise _ => E h
  | Await a k => allowed h a ∧ ∀ s hs i o, I s hs → hs !! i = Some h →
      ∃ h', I (perform a o s).2 (<[i:=h']> hs) ∧ wp h' (k (perform a o s).1) Q E
  end.

Lemma wp_mono {A} h (t : task A) (Q Q' : A → Token → Prop) (E E' : Token → Prop) :
  (∀ a h, Q a h → Q' a h) → (∀ h, E h → E' h) → wp h t Q E → wp h t Q' E'.
Proof.
  intros HQ HE. revert h. induction t as [a|e|a k IH]; intros h; cbn; [auto..|].
  intros [Ha H]. split; [done|]. intros s hs i o Hs Hi. destruct (H s hs i o Hs Hi) as (h' & ? & ?).
  exists h'. auto.
Qed.

Lemma wp_bind {A B} h (t : task A) (f : A → task B) Q E :
  wp h t (λ a h', wp h' (f a) Q E) E → wp h (t ≫= f) Q E.
Proof.
  revert h. induction t as [a|e|a k IH]; intros h; cbn; [auto..|].
  intros [Ha H]. split; [done|]. intros s hs i o Hs Hi. destruct (H s hs i o Hs Hi) as (h' & ? & ?).
  exists h'. split; [done|]. by apply IH.
Qed.

Lemma wp_catch {A} h (t : task A) (g : string → task A) Q E :
  wp h t Q (λ h', ∀ e, wp h' (g e) Q E) → wp h (catch t g) Q E.
Proof.
  revert h. induction t as [a|e|a k IH]; intros h; cbn; [auto..|].
  intros [Ha H]. split; [done|]. intros s hs i o Hs Hi. destruct (H s hs i o Hs Hi) as (h' & ? & ?).
  exists h'. split; [done|]. by apply IH.
Qed.

Lemma wp_attempt {A} h (t : task A) (Q : result string A → Token → Prop) E :
  wp h t (λ a h', Q (Ok a) h') (λ h', ∀ e, Q (Err e) h') → wp h (attempt t) Q E.
Proof.
  intros H. apply wp_catch, (wp_bind _ t). revert H. apply wp_mono; [done|]. intros h' He e. apply He.
Qed.

Lemma wp_await h a (Q : answer a → Token → Prop) E :
  allowed h a →
  (∀ s hs i o, I s hs → hs !! i = Some h → ∃ h', I (perform a o s).2 (<[i:=h']> hs) ∧
     match (perform a o s).1 with Ok x => Q x h' | Err _ => E h' end) →
  wp h (await a) Q E.
Proof.
  intros Ha H. split; [done|]. intros s hs i o Hs Hi. destruct (H s hs i o Hs Hi) as (h' & ? & Hr).
  exists h'. split; [done|]. by destruct (perform a o s).1.
Qed.

Lemma wp_for_each {A} (f : A → task unit) (l : list A) h :
  (∀ x, wp h (f x) (λ _ h', h' = h) (λ h', h' = h)) →
  wp h (foldr (λ x t, bind (λ _, t) (f x)) (Ret tt) l) (λ _ h', h' = h) (λ h', h' = h).
Proof.
  intros Hf. induction l as [|x l IH]; [done|]. cbn [foldr]. apply (wp_bind h (f x)).
  generalize (Hf x). apply wp_mono; [by intros _ h' ->|done].
Qed.

(** ** Pools *)

Definition pool : Type := State * list (task unit).

(** One turn of the [i]-th task *)
Definition turn (i : nat) (o : Oracle) (p : pool) : pool :=
  match p.2 !! i with
  | Some (Await a k) => let '(r, s') := perform a o p.1 in (s', <[i := k r]> p.2)
  | _ => p
  end.

Definition harmless (h : Token) (t : task unit) : Prop := wp h t (λ _ _, True) (λ _, True).
Definition pool_ok (hs : list Token) (p : pool) : Prop := I p.1 hs ∧ Forall2 harmless hs p.2.
Definition pool_inv (p : pool) : Prop := ∃ hs, pool_ok hs p.

(** A turn keeps the pool in order; a task that has returned keeps its token. *)
Lemma turn_ok hs i o p :
  pool_ok hs p → ∃ hs', pool_ok hs' (turn i o p) ∧
    ∀ j x, p.2 !! j = Some (Ret x) → hs' !! j = hs !! j ∧ (turn i o p).2 !! j = Some (Ret x).
Proof.
  intros [Hs Hall]. unfold turn. destruct (p.2 !! i) as [[| |a k]|] eqn:Ei; try by exists hs.
  destruct (Forall2_lookup_r _ _ _ _ _ Hall Ei) as (h & Hi & [_ Hwp]).
  destruct (Hwp p.1 hs i o Hs Hi) as (h' & Hs' & Hk).
  destruct (perform a o p.1) as [r s'] eqn:Ep. exists (<[i:=h']> hs). split; [split; [done|by apply Forall2_insert]|].
  intros j x Hj. assert (i ≠ j) by (intros ->; congruence). cbn. by rewrite !list_lookup_insert_ne.
Qed.

Lemma turn_inv i o p : pool_inv p → pool_inv (turn i o p).
Proof. intros [hs Hp]. destruct (turn_ok hs i o p Hp) as (hs' & ? & _). by exists hs'. Qed.

Lemma pool_allowed hs p i a k :
  pool_ok hs p → p.2 !! i = Some (Await a k) → ∃ h, hs !! i = Some h ∧ allowed h a.
Proof.
  intros [_ Hall] Hi. destruct (Forall2_lookup_r _ _ _ _ _ Hall Hi) as (h & Hh & [Ha _]). eauto.
Qed.
End Logic.
End Tasks.

Arguments task {action} answer A.
Arguments Ret {action answer A} a.
Arguments Raise {action answer A} e.
Arguments Await {action answer A} a k.
