(* ===== verification/Alerts.v ===== *)
(** Alert delivery: backend/core/notification/alert_manager.py over its MongoDB
    collection, retry_policy.py, and the sending of telegram_notifier.py.

    Every [await] on the collection or on a channel is an action of a task
    ([Tasks]), so that any number of requests, retry loops and notifiers run
    interleaved.  An action of the database can fail before it took effect or
    after it; a dispatch can fail after the message has gone out.  Times are in
    microseconds; the metadata of an alert, the texts of the templates and the
    list used without a database are left out. *)

From stdpp Require Import base option list gmap strings sorting.
From S2P Require Import Prelude PyFormat Constants Tasks.

Inductive AlertType :=
  DAILY_REPORT | WEEKLY_REPORT | MONTHLY_REPORT | EMERGENCY_REBALANCING | SYSTEM_ERROR.
#[global] Instance AlertType_eq_dec : EqDecision AlertType.
Proof. solve_decision. Defined.
#[global] Program Instance AlertType_enum : StrEnum AlertType := {|
  value t := match t with
    | DAILY_REPORT => "DAILY_REPORT" | WEEKLY_REPORT => "WEEKLY_REPORT"
    | MONTHLY_REPORT => "MONTHLY_REPORT" | EMERGENCY_REBALANCING => "EMERGENCY_REBALANCING"
    | SYSTEM_ERROR => "SYSTEM_ERROR" end;
  members := [DAILY_REPORT; WEEKLY_REPORT; MONTHLY_REPORT; EMERGENCY_REBALANCING; SYSTEM_ERROR];
|}.
Next Obligation. solve_enum_complete. Qed.
Next Obligation. solve_enum_inj. Qed.

Inductive AlertLevel := INFO | WARNING | ERROR | CRITICAL.
#[global] Instance AlertLevel_eq_dec : EqDecision AlertLevel.
Proof. solve_decision. Defined.
#[global] Program Instance AlertLevel_enum : StrEnum AlertLevel := {|
  value l := match l with
    | INFO => "INFO" | WARNING => "WARNING" | ERROR => "ERROR" | CRITICAL => "CRITICAL" end;
  members := [INFO; WARNING; ERROR; CRITICAL];
|}.
Next Obligation. solve_enum_complete. Qed.
Next Obligation. solve_enum_inj. Qed.

Inductive AlertStatus := PENDING | SENDING | SENT | FAILED | DEAD | READ.
#[global] Instance AlertStatus_eq_dec : EqDecision AlertStatus.
Proof. solve_decision. Defined.

(** A document of the collection: [Alert.to_dict], its texts not yet parsed *)
Record AlertDoc := {
  doc_id : string;
  doc_alert_type : string;
  doc_level : string;
  doc_title : string;
  doc_message : string;
  doc_status : AlertStatus;
  doc_created_at : Z;
  doc_sent_at : option Z;
  doc_read_at : option Z;
  doc_send_attempts : Z;
  doc_last_send_error : option string;
  doc_last_send_attempt_at : option Z;
  doc_last_send_status_code : option Z;
}.
#[global] Instance AlertDoc_eq_dec : EqDecision AlertDoc.
Proof. solve_decision. Defined.

Record Alert := {
  alert_type : AlertType;
  level : AlertLevel;
  title : string;
  message : string;
  id : string;
  status : AlertStatus;
  created_at : Z;
  sent_at : option Z;
  read_at : option Z;
  send_attempts : Z;
  last_send_error : option string;
  last_send_attempt_at : option Z;
  last_send_status_code : option Z;
}.

Definition to_dict (a : Alert) : AlertDoc := {|
  doc_id := a.(id); doc_alert_type := value a.(alert_type); doc_level := value a.(level);
  doc_title := a.(title); doc_message := a.(message); doc_status := a.(status);
  doc_created_at := a.(created_at); doc_sent_at := a.(sent_at); doc_read_at := a.(read_at);
  doc_send_attempts := a.(send_attempts); doc_last_send_error := a.(last_send_error);
  doc_last_send_attempt_at := a.(last_send_attempt_at);
  doc_last_send_status_code := a.(last_send_status_code) |}.

(** ** retry_policy.py *)

Definition MAX_SEND_ATTEMPTS : Z := 3.
Definition RETRY_BACKOFF_SECONDS (n : Z) : option Z :=
  if n =? 1 then Some 60 else if n =? 2 then Some 300 else if n =? 3 then Some 900 else None.
Definition backoff_seconds_for (attempts : Z) : Z :=
  if attempts <=? 0 then 60 else default 900 (RETRY_BACKOFF_SECONDS attempts).

Definition MAX_ALERT_ERROR_LEN : nat := 500.

(** * The awaited actions *)

Record DispatchResult := { success : bool; channels_tried : list string }.

Inductive Action :=
  | Now
  | UpdateOne (alert_id : string) (where_status : option AlertStatus) (set : AlertDoc → AlertDoc)
  | UpdateUnread (set : AlertDoc → AlertDoc)
  | Upsert (d : AlertDoc)
  | FindOne (alert_id : string)
  | FindFailed (max_attempts limit : Z)
  | FindPending (limit : Z)
  | RouterDispatch (a : Alert)
  | SendText (alert_id text : string).

Definition answer (a : Action) : Type :=
  match a with
  | Now => Z
  | UpdateOne _ _ _ | UpdateUnread _ => Z  (** [modified_count] *)
  | Upsert _ => unit
  | FindOne _ => option AlertDoc
  | FindFailed _ _ | FindPending _ => list AlertDoc
  | RouterDispatch _ => DispatchResult
  | SendText _ _ => bool
  end.

Abbreviation Task := (task answer).
Abbreviation await := (@Tasks.await Action answer).

(** The collection; the ids that were ever drawn; the messages that went out;
    the changes of status, in order *)
Record Store := {
  docs : gmap string AlertDoc;
  used : gset string;
  sends : list string;
  moves : list (AlertStatus * AlertStatus);
}.

(** The environment's part of an action: whether it fails, before or after its
    effect, the time, and what a channel says *)
Inductive Fate := Works | Fails | Lost.
Record Oracle := { fate : Fate; time_now : Z; router_says : DispatchResult; channel_says : bool }.

Definition put_doc (k : string) (old new : AlertDoc) (s : Store) : Store := {|
  docs := <[k := new]> s.(docs); used := s.(used); sends := s.(sends);
  moves := s.(moves) ++ [(old.(doc_status), new.(doc_status))] |}.

(** [update_one({"id": ..., "status": ...}, set)] *)
Definition update_one (k : string) (st : option AlertStatus) (set : AlertDoc → AlertDoc) (s : Store) : Z * Store :=
  match s.(docs) !! k with
  | Some d =>
      if match st with Some x => bool_decide (d.(doc_status) = x) | None => true end
      then (if bool_decide (set d = d) then 0 else 1, put_doc k d (set d) s)
      else (0, s)
  | None => (0, s)
  end.

(** [update_many({"status": {"$ne": "READ"}}, set)] *)
Definition update_unread (set : AlertDoc → AlertDoc) (s : Store) : Z * Store :=
  let unread := filter (λ kd, kd.2.(doc_status) ≠ READ) (map_to_list s.(docs)) in
  (Z.of_nat (length unread), foldr (λ kd, put_doc kd.1 kd.2 (set kd.2)) s unread).

Definition by_attempt (d d' : AlertDoc) : Prop :=
  default (-1) d.(doc_last_send_attempt_at) ≤ default (-1) d'.(doc_last_send_attempt_at).
Definition newest_first (d d' : AlertDoc) : Prop := d'.(doc_created_at) ≤ d.(doc_created_at).
#[global] Instance by_attempt_dec : RelDecision by_attempt.
Proof. intros d d'. unfold by_attempt. apply _. Defined.
#[global] Instance newest_first_dec : RelDecision newest_first.
Proof. intros d d'. unfold newest_first. apply _. Defined.
Definition find_failed (max_attempts limit : Z) (s : Store) : list AlertDoc :=
  take (Z.to_nat limit) (merge_sort by_attempt
    (filter (λ d, d.(doc_status) = FAILED ∧ d.(doc_send_attempts) < max_attempts ∧ 0 < d.(doc_send_attempts))
       (map_to_list s.(docs)).*2)).
Definition find_pending (limit : Z) (s : Store) : list AlertDoc :=
  take (Z.to_nat limit) (merge_sort newest_first
    (filter (λ d, d.(doc_status) = PENDING) (map_to_list s.(docs)).*2)).

Definition log_send (k : string) (s : Store) : Store := {|
  docs := s.(docs); used := s.(used); sends := s.(sends) ++ [k]; moves := s.(moves) |}.
Definition upsert (d : AlertDoc) (s : Store) : Store := {|
  docs := <[d.(doc_id) := d]> s.(docs); used := s.(used); sends := s.(sends); moves := s.(moves) |}.

Definition effect (a : Action) (o : Oracle) (s : Store) : answer a * Store :=
  match a with
  | Now => (o.(time_now), s)
  | UpdateOne k st set => update_one k st set s
  | UpdateUnread set => update_unread set s
  | Upsert d => (tt, upsert d s)
  | FindOne k => (s.(docs) !! k, s)
  | FindFailed max_attempts limit => (find_failed max_attempts limit s, s)
  | FindPending limit => (find_pending limit s, s)
  | RouterDispatch a => (o.(router_says), log_send a.(id) s)
  | SendText k _ => (o.(channel_says), log_send k s)
  end.

Definition perform (a : Action) (o : Oracle) (s : Store) : result string (answer a) * Store :=
  match a, o.(fate) with
  | Now, _ | _, Works => let '(x, s') := effect a o s in (Ok x, s')
  | _, Lost => (Err "connection lost", (effect a o s).2)
  | _, Fails => (Err "connection refused", s)
  end.

(** * AlertManager *)

Module AlertManager.

(** The [$set] and [$inc] of each update *)
Definition claim_set (now : Z) (d : AlertDoc) : AlertDoc := {|
  doc_id := d.(doc_id); doc_alert_type := d.(doc_alert_type); doc_level := d.(doc_level);
  doc_title := d.(doc_title); doc_message := d.(doc_message); doc_status := SENDING;
  doc_created_at := d.(doc_created_at); doc_sent_at := d.(doc_sent_at); doc_read_at := d.(doc_read_at);
  doc_send_attempts := d.(doc_send_attempts) + 1; doc_last_send_error := d.(doc_last_send_error);
  doc_last_send_attempt_at := Some now; doc_last_send_status_code := d.(doc_last_send_status_code) |}.
Definition sent_set (now : Z) (d : AlertDoc) : AlertDoc := {|
  doc_id := d.(doc_id); doc_alert_type := d.(doc_alert_type); doc_level := d.(doc_level);
  doc_title := d.(doc_title); doc_message := d.(doc_message); doc_status := SENT;
  doc_created_at := d.(doc_created_at); doc_sent_at := Some now; doc_read_at := d.(doc_read_at);
  doc_send_attempts := d.(doc_send_attempts); doc_last_send_error := None;
  doc_last_send_attempt_at := d.(doc_last_send_attempt_at);
  doc_last_send_status_code := d.(doc_last_send_status_code) |}.
Definition failed_set (new_status : AlertStatus) (error : string) (code : option Z) (now : Z) (d : AlertDoc) : AlertDoc := {|
  doc_id := d.(doc_id); doc_alert_type := d.(doc_alert_type); doc_level := d.(doc_level);
  doc_title := d.(doc_title); doc_message := d.(doc_message); doc_status := new_status;
  doc_created_at := d.(doc_created_at); doc_sent_at := d.(doc_sent_at); doc_read_at := d.(doc_read_at);
  doc_send_attempts := d.(doc_send_attempts); doc_last_send_error := Some error;
  doc_last_send_attempt_at := Some now; doc_last_send_status_code := code |}.
Definition read_set (now : Z) (d : AlertDoc) : AlertDoc := {|
  doc_id := d.(doc_id); doc_alert_type := d.(doc_alert_type); doc_level := d.(doc_level);
  doc_title := d.(doc_title); doc_message := d.(doc_message); doc_status := READ;
  doc_created_at := d.(doc_created_at); doc_sent_at := d.(doc_sent_at); doc_read_at := Some now;
  doc_send_attempts := d.(doc_send_attempts); doc_last_send_error := d.(doc_last_send_error);
  doc_last_send_attempt_at := d.(doc_last_send_attempt_at);
  doc_last_send_status_code := d.(doc_last_send_status_code) |}.
Definition pending_set (d : AlertDoc) : AlertDoc := {|
  doc_id := d.(doc_id); doc_alert_type := d.(doc_alert_type); doc_level := d.(doc_level);
  doc_title := d.(doc_title); doc_message := d.(doc_message); doc_status := PENDING;
  doc_created_at := d.(doc_created_at); doc_sent_at := d.(doc_sent_at); doc_read_at := d.(doc_read_at);
  doc_send_attempts := d.(doc_send_attempts); doc_last_send_error := d.(doc_last_send_error);
  doc_last_send_attempt_at := d.(doc_last_send_attempt_at);
  doc_last_send_status_code := d.(doc_last_send_status_code) |}.

(** [alert_id] is the id drawn by [uuid4] and [now] the time at the creation. *)
Definition create_alert (ty : AlertType) (lv : AlertLevel) (ttl msg alert_id : string) (now : Z) : Alert := {|
  alert_type := ty; level := lv; title := if bool_decide (ttl = "") then "[" +:+ value ty +:+ "]" else ttl;
  message := msg; id := alert_id; status := PENDING; created_at := now; sent_at := None;
  read_at := None; send_attempts := 0; last_send_error := None; last_send_attempt_at := None;
  last_send_status_code := None |}.

Definition save_alert (a : Alert) : Task unit := await (Upsert (to_dict a)).

Definition claim_for_sending (alert_id : string) : Task bool :=
  now ← await Now;
  n ← await (UpdateOne alert_id (Some PENDING) (claim_set now));
  mret (n =? 1).

Definition mark_sent_by_id (alert_id : string) : Task bool :=
  now ← await Now;
  n ← await (UpdateOne alert_id (Some SENDING) (sent_set now));
  mret (n =? 1).

Definition mark_failed_with_retry (alert_id error : string) (code : option Z) (max_attempts : Z) : Task AlertStatus :=
  let truncated_error := String.substring 0 MAX_ALERT_ERROR_LEN error in
  now ← await Now;
  doc ← await (FindOne alert_id);
  match doc with
  | None => mret FAILED
  | Some d =>
      let new_status := if max_attempts <=? d.(doc_send_attempts) then DEAD else FAILED in
      await (UpdateOne alert_id None (failed_set new_status truncated_error code now)) ;;
      mret new_status
  end.

(** [str(l)] for a list of channel names *)
Fixpoint join_names (l : list string) : string :=
  match l with
  | [] => ""
  | [x] => "'" +:+ x +:+ "'"
  | x :: l' => "'" +:+ x +:+ "', " +:+ join_names l'
  end.

Definition _dispatch_via_router (a : Alert) : Task unit :=
  catch (
    claimed ← claim_for_sending a.(id);
    if negb claimed then mret tt else
    result ← attempt (await (RouterDispatch a));
    match result with
    | Err exc => mark_failed_with_retry a.(id) exc None MAX_SEND_ATTEMPTS ;; mret tt
    | Ok r =>
        if r.(success) then mark_sent_by_id a.(id) ;; mret tt
        else mark_failed_with_retry a.(id)
               ("all channels failed: [" +:+ join_names r.(channels_tried) +:+ "]") None MAX_SEND_ATTEMPTS ;;
             mret tt
    end)
  (λ _, mret tt).

Definition create_and_persist_alert (router : bool) (a : Alert) : Task unit :=
  save_alert a ;;
  if router then _dispatch_via_router a else mret tt.

Definition mark_alert_read (alert_id : string) : Task bool :=
  now ← await Now;
  n ← await (UpdateOne alert_id None (read_set now));
  mret (0 <? n).

Definition mark_all_read : Task Z :=
  now ← await Now;
  await (UpdateUnread (read_set now)).

Definition _is_ready (current max_attempts : Z) (d : AlertDoc) : bool :=
  let attempts := d.(doc_send_attempts) in
  if negb ((0 <? attempts) && (attempts <? max_attempts)) then false else
  match d.(doc_last_send_attempt_at) with
  | None => true
  | Some last_dt =>
      let wait_s := default 900 (RETRY_BACKOFF_SECONDS attempts) in
      wait_s * 1000000 <=? current - last_dt
  end.

Definition find_retriable_alerts (max_attempts limit : Z) : Task (list AlertDoc) :=
  current ← await Now;
  docs ← await (FindFailed max_attempts limit);
  mret (List.filter (_is_ready current max_attempts) docs).

Definition requeue_failed_to_pending (alert_id : string) : Task bool :=
  n ← await (UpdateOne alert_id (Some FAILED) pending_set);
  mret (n =? 1).

Definition _alert_from_doc (d : AlertDoc) : option Alert :=
  match of_value d.(doc_alert_type), of_value d.(doc_level) with
  | Some ty, Some lv => Some {|
      alert_type := ty; level := lv; title := d.(doc_title); message := d.(doc_message);
      id := d.(doc_id); status := d.(doc_status); created_at := d.(doc_created_at);
      sent_at := None; read_at := None; send_attempts := d.(doc_send_attempts);
      last_send_error := d.(doc_last_send_error);
      last_send_attempt_at := d.(doc_last_send_attempt_at);
      last_send_status_code := d.(doc_last_send_status_code) |}
  | _, _ => None
  end.

Record Stats := { dispatched : Z; skipped : Z; dead : Z }.
Definition no_stats : Stats := {| dispatched := 0; skipped := 0; dead := 0 |}.
Definition add_skipped (st : Stats) : Stats :=
  {| dispatched := st.(dispatched); skipped := st.(skipped) + 1; dead := st.(dead) |}.
Definition add_dispatched (died : bool) (st : Stats) : Stats :=
  {| dispatched := st.(dispatched) + 1; skipped := st.(skipped); dead := st.(dead) + (if died then 1 else 0) |}.

(** One turn of the loop over the candidates *)
Definition retry_one (d : AlertDoc) (st : Stats) : Task Stats :=
  if bool_decide (d.(doc_id) = "") then mret (add_skipped st) else
  requeued ← requeue_failed_to_pending d.(doc_id);
  if negb requeued then mret (add_skipped st) else
  match _alert_from_doc d with
  | None => mret (add_skipped st)
  | Some a =>
      _dispatch_via_router a ;;
      post ← await (FindOne d.(doc_id));
      mret (add_dispatched (match post with Some p => bool_decide (p.(doc_status) = DEAD) | None => false end) st)
  end.
Fixpoint retry_each (candidates : list AlertDoc) (st : Stats) : Task Stats :=
  match candidates with
  | [] => mret st
  | d :: rest => st' ← retry_one d st; retry_each rest st'
  end.

Definition dispatch_retriable_alerts (router : bool) (max_attempts limit : Z) : Task Stats :=
  if negb router then mret no_stats else
  candidates ← find_retriable_alerts max_attempts limit;
  retry_each candidates no_stats.
End AlertManager.

(** * TelegramNotifier *)

Module TelegramNotifier.
Import AlertManager.

Definition ALERT_LEVEL_PRIORITY (l : AlertLevel) : Z :=
  match l with INFO => 0 | WARNING => 1 | ERROR => 2 | CRITICAL => 3 end.
Definition FILTER_LEVEL_MAP (s : string) : Z :=
  if bool_decide (s = "IMPORTANT") then 1 else if bool_decide (s = "ERROR") then 2 else 0.
Definition _should_send (alert_level : string) (l : AlertLevel) : bool :=
  FILTER_LEVEL_MAP alert_level <=? ALERT_LEVEL_PRIORITY l.

(** [_format_alert] is an argument: the text of the message. *)
Definition dispatch_alert (alert_level text : string) (a : Alert) : Task bool :=
  claim_for_sending a.(id) ;;
  if negb (_should_send alert_level a.(level)) then mark_sent_by_id a.(id) ;; mret true else
  ok ← await (SendText a.(id) text);
  if ok : bool then mark_sent_by_id a.(id) ;; mret true
  else mark_failed_with_retry a.(id) "Telegram send_message failed" None MAX_SEND_ATTEMPTS ;; mret false.

Definition blank_line : string := String (Ascii.ascii_of_nat 10) (String (Ascii.ascii_of_nat 10) "").

Record Counts := { sent : Z; failed : Z; filtered : Z }.

Fixpoint pending_each (alert_level : string) (pending : list AlertDoc) (c : Counts) : Task Counts :=
  match pending with
  | [] => mret c
  | d :: rest =>
      let lv := default INFO (of_value d.(doc_level)) in
      if negb (_should_send alert_level lv) then
        pending_each alert_level rest {| sent := c.(sent); failed := c.(failed); filtered := c.(filtered) + 1 |}
      else
      claimed ← claim_for_sending d.(doc_id);
      if negb claimed then pending_each alert_level rest c else
      ok ← await (SendText d.(doc_id) ("<b>" +:+ d.(doc_title) +:+ "</b>" +:+ blank_line +:+ d.(doc_message)));
      if ok : bool then
        mark_sent_by_id d.(doc_id) ;;
        pending_each alert_level rest {| sent := c.(sent) + 1; failed := c.(failed); filtered := c.(filtered) |}
      else
        mark_failed_with_retry d.(doc_id) "Telegram batch send_message failed" None MAX_SEND_ATTEMPTS ;;
        pending_each alert_level rest {| sent := c.(sent); failed := c.(failed) + 1; filtered := c.(filtered) |}
  end.
Definition dispatch_pending_alerts (alert_level : string) : Task Counts :=
  pending ← await (FindPending 100);
  pending_each alert_level pending {| sent := 0; failed := 0; filtered := 0 |}.
End TelegramNotifier.

(** * The running system *)

Module AlertSystem.
Import AlertManager TelegramNotifier.

(** What starts a task: an event with its fresh id, the retry loop, the two
    routes that mark alerts as read, the Telegram batch *)
(** What runs: every path that claims an alert before sending it, and the operator's
    requests.  [dispatch_alert] ignores the answer of its claim and is left out. *)
Inductive Entry :=
  | Create (ty : AlertType) (lv : AlertLevel) (ttl msg alert_id : string) (now : Z)
  | Retry (max_attempts limit : Z)
  | ReadOne (alert_id : string)
  | ReadAll
  | SendPending (alert_level : string).

Definition entry_task (router : bool) (e : Entry) : Task unit :=
  match e with
  | Create ty lv ttl msg k now => create_and_persist_alert router (create_alert ty lv ttl msg k now)
  | Retry max_attempts limit => dispatch_retriable_alerts router max_attempts limit ;; mret tt
  | ReadOne k => mark_alert_read k ;; mret tt
  | ReadAll => mark_all_read ;; mret tt
  | SendPending l => dispatch_pending_alerts l ;; mret tt
  end.

Definition draw (k : string) (s : Store) : Store := {|
  docs := s.(docs); used := {[k]} ∪ s.(used); sends := s.(sends); moves := s.(moves) |}.

Abbreviation Pool := (pool (answer := answer) (State := Store)).

(** [uuid4] does not draw an id twice. *)
Definition enter (router : bool) (e : Entry) (p : Pool) : Pool :=
  match e with
  | Create _ _ _ _ k _ =>
      if bool_decide (k ∈ p.1.(used)) then p else (draw k p.1, p.2 ++ [entry_task router e])
  | _ => (p.1, p.2 ++ [entry_task router e])
  end.

(** A restart of the process leaves the collection and one finished task. *)
Inductive Play := Enter (e : Entry) | Turn (i : nat) (o : Oracle) | Restart.
Definition play (router : bool) (x : Play) (p : Pool) : Pool :=
  match x with
  | Enter e => enter router e p
  | Turn i o => turn perform i o p
  | Restart => (p.1, [Ret tt])
  end.

Definition empty_store : Store := {| docs := ∅; used := ∅; sends := []; moves := [] |}.
Definition initial : Pool := (empty_store, []).

(** ** The invariant *)

(** A change of status the class documents, or the one that it does not *)
Definition documented (x y : AlertStatus) : Prop :=
  y = READ ∨ (x = PENDING ∧ y = SENDING) ∨ (x = SENDING ∧ (y = SENT ∨ y = FAILED ∨ y = DEAD)) ∨
  (x = FAILED ∧ y = PENDING).
Definition reopened (x y : AlertStatus) : Prop := x = READ ∧ (y = FAILED ∨ y = DEAD).
Definition edge (m : AlertStatus * AlertStatus) : Prop := documented m.1 m.2 ∨ reopened m.1 m.2.

(** What a task holds: the id it has drawn; an alert it has claimed; one it has
    sent out, with the attempts it has read *)
Inductive Token := Nothing | Fresh (k : string) | Claimed (k : string) | Out (k : string) (n : option Z).
Definition token_id (h : Token) : option string :=
  match h with Nothing => None | Fresh k | Claimed k | Out k _ => Some k end.

Definition times_sent (k : string) (s : Store) : Z := Z.of_nat (length (filter (k =.) s.(sends))).

Definition in_flight (x : AlertStatus) : Prop := x = SENDING ∨ x = READ.
Definition retriable (x : AlertStatus) : Prop := x = PENDING ∨ x = FAILED.

Definition doc_ok (s : Store) (k : string) (d : AlertDoc) : Prop :=
  k ∈ s.(used) ∧ times_sent k s ≤ d.(doc_send_attempts) ∧ d.(doc_send_attempts) ≤ 3 ∧
  (retriable d.(doc_status) → d.(doc_send_attempts) ≤ 2).
Definition held (s : Store) (h : Token) : Prop :=
  match h with
  | Nothing => True
  | Fresh k => k ∈ s.(used) ∧ s.(docs) !! k = None
  | Claimed k => ∃ d, s.(docs) !! k = Some d ∧ in_flight d.(doc_status) ∧
      times_sent k s + 1 ≤ d.(doc_send_attempts)
  | Out k n => ∃ d, s.(docs) !! k = Some d ∧ in_flight d.(doc_status) ∧
      match n with Some a => d.(doc_send_attempts) = a | None => True end
  end.

Record inv (s : Store) (hs : list Token) : Prop := {
  inv_docs : ∀ k d, s.(docs) !! k = Some d → doc_ok s k d;
  inv_sends : ∀ k, k ∈ s.(sends) → is_Some (s.(docs) !! k);
  inv_held : ∀ i h, hs !! i = Some h → held s h;
  inv_unique : ∀ i j h h' k, hs !! i = Some h → hs !! j = Some h' →
    token_id h = Some k → token_id h' = Some k → i = j;
  inv_moves : Forall edge s.(moves);
}.

Definition allowed (h : Token) (a : Action) : Prop :=
  match a with
  | RouterDispatch al => h = Claimed al.(id)
  | SendText k _ => h = Claimed k
  | _ => True
  end.

Abbreviation safe := (wp perform allowed inv).

Lemma times_sent_put k k' d d' s : times_sent k (put_doc k' d d' s) = times_sent k s.
Proof. done. Qed.

(** Changing what the [i]-th task holds *)
Lemma inv_token s hs i h h' :
  inv s hs → hs !! i = Some h → held s h' →
  (∀ k, token_id h' = Some k → token_id h = Some k ∨
     ∀ j x, hs !! j = Some x → token_id x ≠ Some k) →
  inv s (<[i := h']> hs).
Proof.
  intros [Hd Hs Hh Hu Hm] Hi Hh' Hid. split; try done.
  - intros j x [[<- [-> _]]|[_ Hj]]%list_lookup_insert_Some; [done|by eapply Hh].
  - assert (∀ j x k, j ≠ i → hs !! j = Some x → token_id x = Some k → token_id h' ≠ Some k) as Hother.
    { intros j x k Hne Hj Hx Hk. destruct (Hid k Hk) as [Hk'|Hno]; [|by eapply Hno].
      apply Hne. by eapply Hu. }
    intros j j' x x' k Hj Hj' Hx Hx'.
    apply list_lookup_insert_Some in Hj as [[-> [-> _]]|[Hne Hj]];
      apply list_lookup_insert_Some in Hj' as [[-> [-> _]]|[Hne' Hj']]; try done.
    + exfalso. by eapply (Hother j' x').
    + exfalso. by eapply (Hother j x).
    + by eapply Hu.
Qed.

Lemma inv_release s hs i h : inv s hs → hs !! i = Some h → inv s (<[i := Nothing]> hs).
Proof. intros Hs Hi. by eapply inv_token. Qed.

(** An update of one document *)
Lemma inv_put s hs k d d' :
  inv s hs → s.(docs) !! k = Some d → doc_ok s k d' → edge (d.(doc_status), d'.(doc_status)) →
  (∀ i h, hs !! i = Some h → token_id h = Some k →
     in_flight d'.(doc_status) ∧ d'.(doc_send_attempts) = d.(doc_send_attempts)) →
  inv (put_doc k d d' s) hs.
Proof.
  intros [Hd Hs Hh Hu Hm] Hk Hok He Hheld. split; try done.
  - cbn. intros k' x [[<- <-]|[Hne Hx]]%lookup_insert_Some; [done|by apply Hd].
  - intros k' Hk'. cbn. destruct (decide (k = k')) as [->|Hne].
    + rewrite lookup_insert_eq. by eexists.
    + rewrite lookup_insert_ne by done. by apply Hs.
  - intros i h Hi. pose proof (Hh i h Hi) as Hhi. specialize (Hheld i h Hi).
    destruct h as [|k'|k'|k' n]; cbn in *; [done| | |].
    + destruct Hhi as [? Hnone]. split; [done|]. rewrite lookup_insert_ne; [done|]. by intros ->; rewrite Hk in Hnone.
    + destruct Hhi as (x & Hx & Hf & Ht). destruct (decide (k = k')) as [->|Hne].
      * rewrite lookup_insert_eq. destruct (Hheld eq_refl) as [? Ha]. rewrite Hk in Hx. injection Hx as <-.
        exists d'. rewrite Ha. done.
      * rewrite lookup_insert_ne by done. by exists x.
    + destruct Hhi as (x & Hx & Hf & Ht). destruct (decide (k = k')) as [->|Hne].
      * rewrite lookup_insert_eq. destruct (Hheld eq_refl) as [? Ha]. rewrite Hk in Hx. injection Hx as <-.
        exists d'. rewrite Ha. done.
      * rewrite lookup_insert_ne by done. by exists x.
  - cbn. apply Forall_app. split; [done|]. by constructor.
Qed.

(** ** The actions keep it *)

Abbreviation idle := (λ _ (h : Token), h = Nothing).
Definition gone (h : Token) : Prop := h = Nothing.

Lemma inv_same s hs i h : inv s hs → hs !! i = Some h → inv s (<[i := h]> hs).
Proof. intros ? ?. by rewrite list_insert_id. Qed.

Lemma safe_await h a (Q : answer a → Token → Prop) :
  allowed h a →
  (∀ s hs i o, inv s hs → hs !! i = Some h →
     ∃ h', inv (effect a o s).2 (<[i := h']> hs) ∧ Q (effect a o s).1 h') →
  safe h (await a) Q gone.
Proof.
  intros Ha H. apply wp_await; [done|]. intros s hs i o Hs Hi.
  destruct (H s hs i o Hs Hi) as (h' & Hs' & HQ).
  assert (inv (effect a o s).2 (<[i := Nothing]> hs)) as Hlost.
  { rewrite <- (list_insert_insert_eq hs i Nothing h'). eapply inv_release; [done|].
    apply list_lookup_insert_eq. by eapply lookup_lt_Some. }
  unfold perform. destruct (effect a o s) as [x s'] eqn:Ee. cbn in *.
  assert (∃ h'0, inv s' (<[i:=h'0]> hs) ∧ Q x h'0) as Hworks by by exists h'.
  assert (∃ h'0, inv s' (<[i:=h'0]> hs) ∧ gone h'0) as Hlost' by by exists Nothing.
  assert (∃ h'0, inv s (<[i:=h'0]> hs) ∧ gone h'0) as Hfails by (exists Nothing; split; [by eapply inv_release|done]).
  destruct a; cbn in Ee |- *; destruct (o.(fate)); cbn; rewrite ?Ee; done || by simplify_eq/=.
Qed.

Lemma safe_seq {A B} h (t : Task A) (f : A → Task B) (Q1 : A → Token → Prop) (Q : B → Token → Prop) :
  safe h t Q1 gone → (∀ a h', Q1 a h' → safe h' (f a) Q gone) → safe h (t ≫= f) Q gone.
Proof. intros H Hf. apply wp_bind. revert H. apply wp_mono; auto. Qed.

Lemma safe_now h : safe h (await Now) (λ _ h', h' = h) gone.
Proof. apply safe_await; [done|]. intros s hs i o Hs Hi. exists h. split; [by apply inv_same|done]. Qed.

(** Nobody holds an alert that is not in flight. *)
Lemma not_held s hs k d i h :
  inv s hs → s.(docs) !! k = Some d → ¬ in_flight d.(doc_status) → hs !! i = Some h → token_id h ≠ Some k.
Proof.
  intros Hs Hk Hf Hi Hid. pose proof (inv_held _ _ Hs i h Hi) as Hh.
  destruct h; cbn in *; simplify_eq/=; [destruct Hh as [_ ?]; congruence| |];
    destruct Hh as (x & Hx & Hin & _); rewrite Hk in Hx; by simplify_eq.
Qed.

Lemma safe_update_free h k x set (Q : Z → Token → Prop) :
  ¬ in_flight x →
  (∀ d, d.(doc_status) = x → edge (x, (set d).(doc_status)) ∧ set d ≠ d ∧
     d.(doc_send_attempts) ≤ (set d).(doc_send_attempts)) →
  (∀ s d, d.(doc_status) = x → doc_ok s k d → doc_ok s k (set d)) →
  (Q 0 h) →
  (∀ s hs i d, inv (put_doc k d (set d) s) hs → hs !! i = Some h → d.(doc_status) = x →
     times_sent k s ≤ d.(doc_send_attempts) → (∀ j y, hs !! j = Some y → token_id y ≠ Some k) →
     ∃ h', inv (put_doc k d (set d) s) (<[i := h']> hs) ∧ Q 1 h') →
  safe h (await (UpdateOne k (Some x) set)) Q gone.
Proof.
  intros Hx Hset Hok HQ0 HQ1. apply safe_await; [done|]. intros s hs i o Hs Hi. cbn. unfold update_one.
  destruct (s.(docs) !! k) as [d|] eqn:Hk; [|exists h; split; [by apply inv_same|done]].
  case_bool_decide as Hst; [|exists h; split; [by apply inv_same|done]]. subst x.
  destruct (Hset d eq_refl) as (He & Hne & Hle). rewrite bool_decide_false by done. cbn.
  pose proof (inv_docs _ _ Hs k d Hk) as Hd.
  assert (∀ j y, hs !! j = Some y → token_id y ≠ Some k) as Hfree by (intros; by eapply not_held).
  apply HQ1; [|done|done|apply Hd|done]. apply inv_put; [done..|by apply Hok|done|].
  intros j y Hj Hid. by destruct (Hfree j y Hj).
Qed.

Lemma safe_claim k :
  safe Nothing (claim_for_sending k) (λ (b : bool) h, h = if b then Claimed k else Nothing) gone.
Proof.
  eapply safe_seq; [apply safe_now|]. intros now h ->. apply wp_bind. apply safe_update_free.
  - by intros [?|?].
  - intros d Hd. split_and!; [left; right; left; done| |cbn; lia]. intros Heq. apply (f_equal doc_status) in Heq.
    cbn in Heq. congruence.
  - intros s d Hd (Hu & Ht & Ha & Hr). specialize (Hr ltac:(by left)). split_and!; cbn; [done|lia|lia|].
    by intros [?|?].
  - done.
  - intros s hs i d Hs Hi Hd Ht Hfree. exists (Claimed k). split; [|done]. eapply inv_token; [done..| |].
    + exists (claim_set now d). cbn. rewrite lookup_insert_eq. split_and!; [done|by left|].
      change (times_sent k _) with (times_sent k s). lia.
    + intros k' [= <-]. by right.
Qed.

Lemma safe_requeue k : safe Nothing (requeue_failed_to_pending k) idle gone.
Proof.
  apply wp_bind. apply safe_update_free.
  - by intros [?|?].
  - intros d Hd. split_and!; [left; right; right; right; done| |cbn; lia]. intros Heq.
    apply (f_equal doc_status) in Heq. cbn in Heq. congruence.
  - intros s d Hd (Hu & Ht & Ha & Hr). split_and!; cbn; [done..|]. intros _. apply Hr. by right.
  - done.
  - intros s hs i d Hs Hi _ _ _. exists Nothing. split; [by apply inv_same|done].
Qed.

(** An update by the task that holds the alert, which lets go of it *)
Lemma inv_put_release s hs i k n d d' :
  inv s hs → hs !! i = Some (Out k n) → s.(docs) !! k = Some d → doc_ok s k d' →
  edge (d.(doc_status), d'.(doc_status)) → inv (put_doc k d d' s) (<[i := Nothing]> hs).
Proof.
  intros Hs Hi Hk Hok He. apply inv_put; [by eapply inv_release|done..|].
  intros j y [[<- [<- _]]|[Hne Hj]]%list_lookup_insert_Some Hid; [done|].
  destruct Hne. by eapply (inv_unique _ _ Hs i j (Out k n) y k).
Qed.

Lemma safe_mark_sent k n : safe (Out k n) (mark_sent_by_id k) idle gone.
Proof.
  eapply safe_seq; [apply safe_now|]. intros now h ->. eapply (safe_seq _ _ _ idle); [|done].
  apply safe_await; [done|]. intros s hs i o Hs Hi. cbn. unfold update_one. exists Nothing.
  destruct (s.(docs) !! k) as [d|] eqn:Hk; [|split; [by eapply inv_release|done]].
  case_bool_decide as Hst; [|split; [by eapply inv_release|done]]. cbn. split; [|done].
  eapply inv_put_release; [done..| |].
  - destruct (inv_docs _ _ Hs k d Hk) as (?&?&?&?). split_and!; cbn; [done..|]. by intros [?|?].
  - left. right. right. left. cbn. auto.
Qed.

Lemma safe_mark_failed k n error code : safe (Out k n) (mark_failed_with_retry k error code MAX_SEND_ATTEMPTS) idle gone.
Proof.
  unfold mark_failed_with_retry. eapply safe_seq; [apply safe_now|]. intros now h ->.
  eapply (safe_seq _ _ _ (λ doc h, match doc with Some d => h = Out k (Some d.(doc_send_attempts)) | None => h = Nothing end)).
  { apply safe_await; [done|]. intros s hs i o Hs Hi. cbn.
    destruct (inv_held _ _ Hs i _ Hi) as (d & Hk & Hf & Hn). rewrite Hk.
    exists (Out k (Some d.(doc_send_attempts))). split; [|done]. eapply inv_token; [done..| |by left].
    by exists d. }
  intros [d|] h ->; [|done]. eapply (safe_seq _ _ _ idle); [|done]. set (new_status := if _ <=? _ then DEAD else FAILED).
  apply safe_await; [done|]. intros s hs i o Hs Hi. cbn. unfold update_one. exists Nothing.
  destruct (inv_held _ _ Hs i _ Hi) as (d' & Hk & Hf & Hn). rewrite Hk. cbn. split; [|done].
  eapply inv_put_release; [done..| |].
  - destruct (inv_docs _ _ Hs k d' Hk) as (?&?&?&?). split_and!; cbn; [done..|].
    subst new_status. unfold MAX_SEND_ATTEMPTS. rewrite Hn. case_match; bool_hyps; [by intros [?|?]|lia].
  - cbn. unfold edge, documented, reopened. cbn. subst new_status.
    destruct Hf as [-> | ->]; case_match; [left|left|right|right]; auto 8.
Qed.

Lemma inv_out s hs i k : inv s hs → hs !! i = Some (Claimed k) → inv s (<[i := Out k None]> hs).
Proof.
  intros Hs Hi. destruct (inv_held _ _ Hs i _ Hi) as (d & Hk & Hf & Ht).
  eapply inv_token; [done..| |by left]. by exists d.
Qed.

(** A claimed message goes out. *)
Lemma inv_send s hs i k :
  inv s hs → hs !! i = Some (Claimed k) → inv (log_send k s) (<[i := Out k None]> hs).
Proof.
  intros Hs Hi. destruct (inv_held _ _ Hs i _ Hi) as (d & Hk & Hf & Ht).
  assert (∀ k', times_sent k' (log_send k s) = times_sent k' s + (if decide (k' = k) then 1 else 0)) as Hc.
  { intros k'. unfold times_sent, log_send. cbn. rewrite filter_app, length_app. cbn.
    case_decide; cbn; lia. }
  pose proof (inv_out _ _ _ _ Hs Hi) as Hs'. destruct Hs' as [Hd Hsn Hh Hu Hm]. split; try done.
  - intros k' d' Hk'. destruct (Hd k' d' Hk') as (?&?&?&?). split_and!; try done. rewrite Hc.
    case_decide; [|lia]. subst k'. cbn in Hk'. rewrite Hk in Hk'. injection Hk' as <-. done.
  - intros k' [?|?%list_elem_of_singleton]%elem_of_app; [by apply Hsn|]. subst k'. by exists d.
  - intros j h Hj. specialize (Hh j h Hj). destruct h as [|k'|k'|k' n]; try done. destruct Hh as (x & Hx & ? & ?).
    exists x. split_and!; try done. rewrite Hc, decide_False; [lia|]. intros ->.
    assert (i = j) as <-.
    { eapply (Hu i j); [apply list_lookup_insert_eq; by eapply lookup_lt_Some|done|done|done]. }
    rewrite list_lookup_insert_eq in Hj by (by eapply lookup_lt_Some). done.
Qed.

Lemma safe_dispatch (al : Alert) :
  safe (Claimed al.(id)) (attempt (await (RouterDispatch al))) (λ _ h, h = Out al.(id) None) gone.
Proof.
  apply wp_attempt, wp_await; [done|]. intros s hs i o Hs Hi. exists (Out al.(id) None). unfold perform.
  destruct (o.(fate)); cbn; (split; [|done]); by apply inv_send || by apply inv_out.
Qed.

Lemma safe_dispatch_via_router al : safe Nothing (_dispatch_via_router al) idle gone.
Proof.
  apply wp_catch. eapply wp_mono; [intros a h Hh; exact Hh|intros h Hh e; exact Hh|].
  eapply safe_seq; [apply safe_claim|]. intros [] h ->; cbn [negb]; [|done].
  eapply safe_seq; [apply safe_dispatch|]. intros [r|e] h ->.
  - destruct (r.(success)); (eapply safe_seq; [apply safe_mark_sent || apply safe_mark_failed|done]).
  - eapply safe_seq; [apply safe_mark_failed|done].
Qed.

Lemma safe_save al :
  al.(status) = PENDING → al.(send_attempts) = 0 → safe (Fresh al.(id)) (save_alert al) idle gone.
Proof.
  intros Hst Ha. apply safe_await; [done|]. intros s hs i o Hs Hi. exists Nothing. split; [|done]. cbn.
  pose proof (inv_held _ _ Hs i _ Hi) as [Hu Hnone]. pose proof (inv_release _ _ _ _ Hs Hi) as Hr.
  assert (times_sent al.(id) s = 0) as H0.
  { unfold times_sent. destruct (filter _ s.(sends)) as [|k l] eqn:Ef; [done|].
    assert (k ∈ filter (al.(id) =.) s.(sends)) as Hin by (rewrite Ef; by left).
    apply list_elem_of_filter in Hin as [<- Hin]. apply (inv_sends _ _ Hs) in Hin as [? Hk]. congruence. }
  destruct Hr as [Hd Hsn Hh Huq Hm]. split; try done; cbn.
  - intros k d [[<- <-]|[Hne Hk]]%lookup_insert_Some; [|by apply Hd].
    split; [exact Hu|]. split; [exact (Z.eq_le_incl _ _ (eq_trans H0 (eq_sym Ha)))|].
    cbn. rewrite Ha. split; lia.
  - intros k Hk. destruct (decide (al.(id) = k)) as [<-|Hne]; [rewrite lookup_insert_eq; by eexists|].
    rewrite lookup_insert_ne by done. by apply Hsn.
  - intros j h Hj. specialize (Hh j h Hj). destruct h as [|k|k|k n]; cbn in Hh |- *; [done| | |].
    + destruct Hh as [? Hn]. split; [done|]. rewrite lookup_insert_ne; [done|]. intros <-.
      apply list_lookup_insert_Some in Hj as [[_ [? _]]|[Hne Hj]]; [done|]. destruct Hne.
      by eapply (inv_unique _ _ Hs i j _ _ al.(id)).
    + destruct Hh as (x & Hx & ?). exists x. rewrite lookup_insert_ne; [done|]. intros <-. congruence.
    + destruct Hh as (x & Hx & ?). exists x. rewrite lookup_insert_ne; [done|]. intros <-. congruence.
Qed.

Lemma safe_read_set k : safe Nothing (mark_alert_read k) idle gone.
Proof.
  eapply safe_seq; [apply safe_now|]. intros now h ->. eapply (safe_seq _ _ _ idle); [|done].
  apply safe_await; [done|]. intros s hs i o Hs Hi. exists Nothing. cbn. unfold update_one.
  destruct (s.(docs) !! k) as [d|] eqn:Hk; [|split; [by apply inv_same|done]]. cbn. split; [|done].
  rewrite list_insert_id by done. destruct (inv_docs _ _ Hs k d Hk) as (?&?&?&?).
  apply inv_put; [done..| | |].
  - split_and!; cbn; [done..|]. by intros [?|?].
  - left. by left.
  - intros j y Hj _. split; [by right|done].
Qed.

Lemma safe_read_all : safe Nothing mark_all_read idle gone.
Proof.
  eapply safe_seq; [apply safe_now|]. intros now h ->.
  apply safe_await; [done|]. intros s hs i o Hs Hi. exists Nothing. cbn. split; [|done].
  rewrite list_insert_id by done. unfold update_unread. cbn. set (unread := filter _ _).
  assert (Forall (λ kd, s.(docs) !! kd.1 = Some kd.2) unread) as Hall.
  { apply Forall_forall. intros [k d] Hin. apply list_elem_of_filter in Hin as [_ Hin].
    by apply elem_of_map_to_list in Hin. }
  assert (NoDup unread.*1) as Hnd.
  { apply (sublist_NoDup _ (map_to_list s.(docs)).*1); [apply NoDup_fst_map_to_list|].
    apply fmap_sublist, sublist_filter. }
  clearbody unread. clear Hi.
  assert (inv (foldr (λ kd, put_doc kd.1 kd.2 (read_set now kd.2)) s unread) hs ∧
    ∀ k, k ∉ unread.*1 → (foldr (λ kd, put_doc kd.1 kd.2 (read_set now kd.2)) s unread).(docs) !! k = s.(docs) !! k)
    as [? _]; [|done].
  induction unread as [|[k d] l IH]; [done|]. inversion Hall; subst. rewrite fmap_cons in Hnd.
  apply NoDup_cons in Hnd as [Hnin Hnd]. destruct IH as [IHi IHd]; [done..|]. cbn in *. split.
  - pose proof (IHd k Hnin) as Hk. rewrite H1 in Hk. destruct (inv_docs _ _ IHi k d Hk) as (?&?&?&?).
    apply inv_put; [done..| | |].
    + split_and!; cbn; [done..|]. by intros [?|?].
    + left. by left.
    + intros j y Hj _. split; [by right|done].
  - intros k' Hk'. apply not_elem_of_cons in Hk' as [? ?]. rewrite lookup_insert_ne by done. by apply IHd.
Qed.

(** ** The tasks keep it *)

Lemma safe_find a : allowed Nothing a → (∀ o s, (effect a o s).2 = s) → safe Nothing (await a) idle gone.
Proof.
  intros Ha He. apply safe_await; [done|]. intros s hs i o Hs Hi. exists Nothing. rewrite He.
  split; [by apply inv_same|done].
Qed.

Lemma safe_retry_one d st : safe Nothing (retry_one d st) idle gone.
Proof.
  unfold retry_one. destruct (bool_decide _); [done|]. eapply safe_seq; [apply safe_requeue|].
  intros [] h ->; cbn [negb]; [|done]. destruct (_alert_from_doc d) as [a|]; [|done].
  eapply safe_seq; [apply safe_dispatch_via_router|]. intros [] h ->.
  eapply safe_seq; [by apply safe_find|]. by intros post h ->.
Qed.

Lemma safe_retry_each l st : safe Nothing (retry_each l st) idle gone.
Proof.
  revert st. induction l as [|d l IH]; intros st; [done|]. cbn [retry_each].
  eapply safe_seq; [apply safe_retry_one|]. intros st' h ->. apply IH.
Qed.

Lemma safe_retry router max_attempts limit :
  safe Nothing (dispatch_retriable_alerts router max_attempts limit) idle gone.
Proof.
  unfold dispatch_retriable_alerts, find_retriable_alerts. destruct router; cbn [negb]; [|done].
  eapply (safe_seq _ _ _ idle).
  - eapply safe_seq; [apply safe_now|]. intros now h ->. eapply safe_seq; [by apply safe_find|]. by intros l h ->.
  - intros l h ->. apply safe_retry_each.
Qed.

Lemma safe_send_text k text : safe (Claimed k) (await (SendText k text)) (λ _ h, h = Out k None) gone.
Proof.
  apply safe_await; [done|]. intros s hs i o Hs Hi. exists (Out k None). split; [by apply inv_send|done].
Qed.

Lemma safe_pending_each l ds c : safe Nothing (pending_each l ds c) idle gone.
Proof.
  revert c. induction ds as [|d ds IH]; intros c; [done|]. cbn [pending_each]. case_match; [apply IH|].
  eapply safe_seq; [apply safe_claim|]. intros [] h ->; cbn [negb]; [|apply IH].
  eapply safe_seq; [apply safe_send_text|]. intros [] h ->;
    (eapply safe_seq; [apply safe_mark_sent || apply safe_mark_failed|]); intros x h ->; apply IH.
Qed.

Definition entry_token (e : Entry) : Token :=
  match e with Create _ _ _ _ k _ => Fresh k | _ => Nothing end.

Lemma safe_entry router e : safe (entry_token e) (entry_task router e) idle gone.
Proof.
  destruct e as [ty lv ttl msg k now|max_attempts limit|k| |l]; cbn [entry_token entry_task].
  - unfold create_and_persist_alert. change k with (create_alert ty lv ttl msg k now).(id) at 1.
    eapply safe_seq; [by apply safe_save|]. intros [] h ->. destruct router; [apply safe_dispatch_via_router|done].
  - eapply safe_seq; [apply safe_retry|done].
  - eapply safe_seq; [apply safe_read_set|done].
  - eapply safe_seq; [apply safe_read_all|done].
  - eapply (safe_seq _ _ _ idle); [|by intros x h ->]. eapply safe_seq; [by apply safe_find|]. intros ds h ->.
    apply safe_pending_each.
Qed.

Abbreviation ok_with := (pool_ok perform allowed inv).
Abbreviation ok_pool := (pool_inv perform allowed inv).

(** A task may come in with the token [h]. *)
Lemma enter_pool hs p s t h :
  ok_with hs p → harmless perform allowed inv h t → inv s (hs ++ [h]) → ok_with (hs ++ [h]) (s, p.2 ++ [t]).
Proof. intros [Hs Hall] Ht Hin. split; [done|]. cbn. apply Forall2_app; [done|]. by constructor. Qed.

Lemma inv_join s hs h :
  inv s hs → held s h → (∀ k i x, token_id h = Some k → hs !! i = Some x → token_id x ≠ Some k) →
  inv s (hs ++ [h]).
Proof.
  intros [Hd Hs Hh Hu Hm] Hheld Hnew. split; try done.
  - intros i x [Hi|[_ [_ <-]%list_lookup_singleton_Some]]%lookup_app_Some; [by eapply Hh|done].
  - intros i j x x' k [Hi|[Hi [Hi' <-]%list_lookup_singleton_Some]]%lookup_app_Some
      [Hj|[Hj [Hj' <-]%list_lookup_singleton_Some]]%lookup_app_Some Hx Hx'; [by eapply Hu| | |lia].
    + by destruct (Hnew k i x).
    + by destruct (Hnew k j x').
Qed.

Lemma enter_ok router e hs p : ok_with hs p → ∃ l, ok_with (hs ++ l) (enter router e p).
Proof.
  intros Hp. assert (∀ t, harmless perform allowed inv Nothing t → ∃ l, ok_with (hs ++ l) (p.1, p.2 ++ [t])) as Hin.
  { intros t Ht. exists [Nothing]. apply enter_pool; [done..|]. apply inv_join; [apply Hp|done|done]. }
  assert (harmless perform allowed inv (entry_token e) (entry_task router e)) as Ht
    by (eapply wp_mono; [| |exact (safe_entry router e)]; done).
  destruct e as [ty lv ttl msg k now|max_attempts limit|k| |l]; cbn [enter]; try by apply Hin.
  case_bool_decide as Hk; [exists []; by rewrite app_nil_r|]. exists [Fresh k]. apply enter_pool; [done..|].
  destruct Hp as [Hs _]. apply inv_join.
  - destruct Hs as [Hd Hsn Hh Hu Hm]. split; try done; cbn.
    + intros k' d Hk'. destruct (Hd k' d Hk') as (?&?&?&?). split_and!; try done.
      apply elem_of_union. by right.
    + intros i h Hi. specialize (Hh i h Hi). destruct h as [|k'|k'|k' n]; try done.
      destruct Hh. split; [|done]. apply elem_of_union. by right.
  - split; [apply elem_of_union; left; by apply elem_of_singleton|]. cbn. apply eq_None_not_Some. intros [d Hd].
    by destruct (inv_docs _ _ Hs k d Hd).
  - intros k' i h [= <-] Hi Hid. pose proof (inv_held _ _ Hs i h Hi) as Hh.
    destruct h; cbn in *; simplify_eq; [by destruct Hh| |]; destruct Hh as (d & Hd & _);
      by destruct (inv_docs _ _ Hs _ d Hd).
Qed.

Lemma inv_alone s hs h : inv s hs → held s h → inv s [h].
Proof.
  intros [Hd Hs Hh Hu Hm] Hheld. split; try done.
  - by intros i x [_ <-]%list_lookup_singleton_Some.
  - intros i j x x' k [-> _]%list_lookup_singleton_Some [-> _]%list_lookup_singleton_Some. done.
Qed.

(** After a restart the finished task may be given any token. *)
Lemma restart_ok hs p h : ok_with hs p → held p.1 h → ok_with [h] (p.1, [Ret tt]).
Proof. intros [Hs _] Hh. split; [by eapply inv_alone|]. by constructor. Qed.

Lemma play_ok router x p : ok_pool p → ok_pool (play router x p).
Proof.
  intros [hs Hp]. destruct x as [e|i o|]; cbn [play].
  - destruct (enter_ok router e hs p Hp) as [l ?]. by eexists.
  - apply turn_inv. by exists hs.
  - exists [Nothing]. by eapply restart_ok.
Qed.

Lemma reachable_ok router plays : ok_pool (run_ops (play router) plays initial).
Proof.
  apply run_ops_invariant; [intros; by apply play_ok|].
  exists []. split; [|constructor]. split; try done; by intros k ?%not_elem_of_nil.
Qed.

(** The [i]-th task is about to send the alert [k] out. *)
Definition about_to_send (p : Pool) (i : nat) (k : string) : Prop :=
  ∃ a cont, p.2 !! i = Some (Await a cont) ∧
    match a with RouterDispatch al => al.(id) = k | SendText k' _ => k' = k | _ => False end.

Definition sending_id (t : Task unit) : option string :=
  match t with
  | Await (RouterDispatch al) _ => Some al.(id)
  | Await (SendText k _) _ => Some k
  | _ => None
  end.

Lemma sending_id_sends p i k : p.2 !! i ≫= sending_id = Some k → about_to_send p i k.
Proof.
  destruct (p.2 !! i) as [[x|e|a cont]|] eqn:E; try done. cbn. intros Hk. exists a, cont. split; [done|].
  destruct a; by simplify_eq/=.
Qed.

Lemma about_to_send_claimed hs p i k : ok_with hs p → about_to_send p i k → hs !! i = Some (Claimed k).
Proof.
  intros Hp (a & cont & Hi & Ha). destruct (pool_allowed _ _ _ _ _ i a cont Hp Hi) as (h & Hh & Hallow).
  destruct a; cbn in *; by simplify_eq.
Qed.

(** C21. However many of the tasks of [Entry] run interleaved (creation with its
    dispatch, retry loop, Telegram batch, requests of the operator), and whatever fails
    or restarts: an alert goes out at most three times, and not more often than its
    [send_attempts] says; no two tasks are about to send the same alert out; and every
    change of a status is one the class documents, but for alerts marked as read while
    they were being sent, which can go back to FAILED or DEAD.  All of these tasks claim
    an alert before they send it; [TelegramNotifier.dispatch_alert] is not among them,
    as it sends whether its claim succeeded or not ([unclaimed_sending]). *)
Theorem alert_delivery (router : bool) (plays : list Play) :
  let p := run_ops (play router) plays initial in
  (∀ k, times_sent k p.1 ≤ 3) ∧
  (∀ k d, p.1.(docs) !! k = Some d → times_sent k p.1 ≤ d.(doc_send_attempts) ∧ d.(doc_send_attempts) ≤ 3) ∧
  (∀ i j k, about_to_send p i k → about_to_send p j k → i = j) ∧
  Forall edge p.1.(moves).
Proof.
  intros p. destruct (reachable_ok router plays) as [hs Hp]. fold p in Hp.
  pose proof Hp as [Hs _]. split_and!.
  - intros k. destruct (p.1.(docs) !! k) as [d|] eqn:Hk.
    + destruct (inv_docs _ _ Hs k d Hk) as (_&?&?&_). lia.
    + unfold times_sent. destruct (filter _ _) as [|k' l] eqn:Ef; [done|].
      assert (k' ∈ filter (k =.) p.1.(sends)) as Hin by (rewrite Ef; by left).
      apply list_elem_of_filter in Hin as [<- Hin]. apply (inv_sends _ _ Hs) in Hin as [? ?]. congruence.
  - intros k d Hk. by destruct (inv_docs _ _ Hs k d Hk) as (_&?&?&_).
  - intros i j k Hi Hj. by eapply (inv_unique _ _ Hs i j); [by eapply about_to_send_claimed..| |].
  - apply Hs.
Qed.

(** ** Alerts left behind *)

(** The finished task of the restart holds [h]. *)
Definition parked (h : Token) (p : Pool) : Prop :=
  ∃ hs, ok_with hs p ∧ hs !! 0%nat = Some h ∧ p.2 !! 0%nat = Some (Ret tt).

Lemma parked_play router x h p : parked h p → parked h (play router x p).
Proof.
  intros (hs & Hp & Hh & Ht). destruct x as [e|i o|]; cbn [play].
  - destruct (enter_ok router e hs p Hp) as [l Hl]. exists (hs ++ l). split; [done|].
    assert ((enter router e p).2 !! 0%nat = Some (Ret tt)) as ->.
    { destruct e; cbn; [case_bool_decide; [done|]|..]; by apply lookup_app_l_Some. }
    by rewrite (lookup_app_l_Some _ _ _ _ Hh).
  - destruct (turn_ok perform allowed inv hs i o p Hp) as (hs' & Hp' & Hkeep). exists hs'.
    destruct (Hkeep 0%nat tt Ht) as [-> ->]. done.
  - exists [h]. split; [|done]. eapply restart_ok; [done|]. destruct Hp as [Hs _]. by eapply inv_held.
Qed.

(** An alert that is SENDING when the process goes down is never sent
    again, whatever runs afterwards: it stays SENDING until somebody reads it,
    since only FAILED alerts are taken up again. *)
Theorem restart_strands_sending (router : bool) (before later : list Play) (k : string) (d : AlertDoc)
  (Hk : (run_ops (play router) before initial).1.(docs) !! k = Some d) (Hd : d.(doc_status) = SENDING) :
  let p := run_ops (play router) (before ++ Restart :: later) initial in
  (∀ i, ¬ about_to_send p i k) ∧
  ∃ d', p.1.(docs) !! k = Some d' ∧ in_flight d'.(doc_status) ∧ d'.(doc_send_attempts) = d.(doc_send_attempts).
Proof.
  intros p. set (p0 := run_ops (play router) before initial) in *.
  assert (parked (Out k (Some d.(doc_send_attempts))) p) as (hs & Hp & Hh & _).
  { unfold p. rewrite run_ops_app. fold p0.
    change (run_ops (play router) (Restart :: later) p0) with (run_ops (play router) later (p0.1, [Ret tt])).
    apply (run_ops_invariant (play router)); [intros; by apply parked_play|]. destruct (reachable_ok router before) as [hs Hp]. exists [Out k (Some d.(doc_send_attempts))].
    split; [|done]. eapply restart_ok; [exact Hp|]. exists d. split; [done|]. split; [by left|done]. }
  pose proof Hp as [Hs _]. split.
  - intros i Hi. pose proof (about_to_send_claimed _ _ _ _ Hp Hi) as Hc.
    assert (0%nat = i) as <- by by eapply (inv_unique _ _ Hs). congruence.
  - exact (inv_held _ _ Hs 0%nat _ Hh).
Qed.

(** ** Runs *)

Definition works (now : Z) (ok : bool) : Oracle :=
  {| fate := Works; time_now := now; router_says := {| success := ok; channels_tried := ["telegram"] |};
     channel_says := ok |}.
Definition turns (n : nat) (i : nat) (o : Oracle) : list Play := replicate n (Turn i o).

(** Created and claimed *)
Definition claimed_a : list Play :=
  Enter (Create SYSTEM_ERROR ERROR "title" "text" "a" 0) :: turns 3 0 (works 1000000 true).

Lemma restart_strands_sending_witness :
  ∃ d, (run_ops (play true) claimed_a initial).1.(docs) !! "a" = Some d ∧ d.(doc_status) = SENDING ∧
    let p := run_ops (play true) (claimed_a ++ Restart :: [Enter (Retry 3 100)]) initial in
    (∀ i, ¬ about_to_send p i "a") ∧
    ∃ d', p.1.(docs) !! "a" = Some d' ∧ in_flight d'.(doc_status) ∧ d'.(doc_send_attempts) = d.(doc_send_attempts).
Proof.
  eexists. split; [vm_compute; reflexivity|]. split; [reflexivity|].
  apply (restart_strands_sending true claimed_a [Enter (Retry 3 100)] "a"); [vm_compute; reflexivity|reflexivity].
Defined.

(** Read by the operator while it is being sent; then the sending fails; then
    the retry loop takes it up. *)
Definition read_a : list Play := claimed_a ++ Enter (ReadOne "a") :: turns 2 1 (works 2000000 true).
Definition failed_a : list Play := turns 4 0 (works 3000000 false).
Definition retried_a : list Play := Enter (Retry 3 100) :: turns 6 2 (works 90000000 true).

(** An alert that has been read does not stay so: when the sending that was
    under way fails afterwards, it turns FAILED, and the retry loop sends it
    out again. *)
Theorem read_alert_is_sent_again :
  let p1 := run_ops (play true) read_a initial in
  let p2 := run_ops (play true) (failed_a ++ retried_a) p1 in
  doc_status <$> p1.1.(docs) !! "a" = Some READ ∧ times_sent "a" p1.1 = 0 ∧
  doc_status <$> p2.1.(docs) !! "a" = Some SENDING ∧ times_sent "a" p2.1 = 2.
Proof. vm_compute. split_and!; reflexivity. Qed.

(** A task has claimed an alert and is about to send it out; [dispatch_alert] called
    with the same alert does not get the claim and is about to send it all the same. *)
Theorem unclaimed_sending :
  let p1 := run_ops (play true) claimed_a initial in
  let direct := TelegramNotifier.dispatch_alert "ALL" "text" (create_alert SYSTEM_ERROR ERROR "title" "text" "a" 0) in
  let p2 := run_ops (play true) (turns 2 1 (works 2000000 true)) (p1.1, p1.2 ++ [direct ;; mret tt]) in
  about_to_send p2 0 "a" ∧ about_to_send p2 1 "a".
Proof. split; apply sending_id_sends; vm_compute; reflexivity. Qed.
End AlertSystem.
