(* ===== verification/Channels.v ===== *)
(** The notification channels and their cascade: core/notification/fallback_notifier.py,
    telegram_adapter.py, telegram_transport.py, and their wiring in main.py.

    The clock, the Telegram API, the file system and the logger are operations of
    a world that may fail at will.  Texts are lists of code points, [_format_alert]
    gives the text of an alert, and [json.dumps] of a record is the record.  Times
    are microseconds since the day with ordinal 0. *)

From stdpp Require Import base option list sets gmap strings sorting.
From Stdlib Require Import ZArith Lia.
From S2P Require Import Prelude PyFloat PyDict PyFormat Constants Tasks Calendar Alerts.

(** * Channel health *)

Module ChannelHealth.
Inductive ChannelStatus := ACTIVE | DEGRADED | DOWN.
#[global] Instance ChannelStatus_eq_dec : EqDecision ChannelStatus.
Proof. solve_decision. Defined.

Record ChannelHealth := {
  channel_name : string;
  total_sent : Z;
  total_failed : Z;
  consecutive_failures : Z;
  last_success_at : option Z;
  last_failure_at : option Z;
  status : ChannelStatus;
}.
Definition new (name : string) : ChannelHealth := {|
  channel_name := name; total_sent := 0; total_failed := 0; consecutive_failures := 0;
  last_success_at := None; last_failure_at := None; status := ACTIVE |}.

Definition DEGRADED_THRESHOLD : Z := 2.
Definition DOWN_THRESHOLD : Z := 5.

Definition record_success (now : Z) (h : ChannelHealth) : ChannelHealth := {|
  channel_name := h.(channel_name); total_sent := h.(total_sent) + 1; total_failed := h.(total_failed);
  consecutive_failures := 0; last_success_at := Some now; last_failure_at := h.(last_failure_at);
  status := ACTIVE |}.

Definition record_failure (now : Z) (h : ChannelHealth) : ChannelHealth :=
  let n := h.(consecutive_failures) + 1 in {|
  channel_name := h.(channel_name); total_sent := h.(total_sent); total_failed := h.(total_failed) + 1;
  consecutive_failures := n; last_success_at := h.(last_success_at); last_failure_at := Some now;
  status := if DOWN_THRESHOLD <=? n then DOWN
            else if DEGRADED_THRESHOLD <=? n then DEGRADED else h.(status) |}.

Definition success_rate (h : ChannelHealth) : float :=
  let total := h.(total_sent) + h.(total_failed) in
  if total =? 0 then of_Z 1 else fdiv (of_Z h.(total_sent)) (of_Z total).

(** The status is the one of the failures in a row. *)
Definition consistent (h : ChannelHealth) : Prop :=
  0 ≤ h.(total_sent) ∧ 0 ≤ h.(consecutive_failures) ≤ h.(total_failed) ∧
  h.(status) = if 5 <=? h.(consecutive_failures) then DOWN
               else if 2 <=? h.(consecutive_failures) then DEGRADED else ACTIVE.

Lemma new_consistent name : consistent (new name).
Proof. by repeat split. Qed.
Lemma record_success_consistent now h : consistent h → consistent (record_success now h).
Proof. intros (?&?&?). repeat split; cbn; done || lia. Qed.
Lemma record_failure_consistent now h : consistent h → consistent (record_failure now h).
Proof.
  intros (?&?&Hst). unfold consistent, record_failure. cbn [total_sent total_failed consecutive_failures status].
  unfold DOWN_THRESHOLD, DEGRADED_THRESHOLD. repeat split; [lia..|].
  destruct (5 <=? consecutive_failures h + 1) eqn:E5; [done|].
  destruct (2 <=? consecutive_failures h + 1) eqn:E2; [done|]. rewrite Hst. bool_hyps.
  by rewrite !(proj2 (Z.leb_gt _ _)) by lia.
Qed.
#[export] Hint Resolve new_consistent record_success_consistent record_failure_consistent : py.
End ChannelHealth.

(** * Texts *)

Abbreviation text := (list Z).
Definition newline : Z := 10.

(** [s.lstrip("\n")] *)
Fixpoint lstrip (s : text) : text :=
  match s with
  | c :: s' => if c =? newline then lstrip s' else s
  | [] => []
  end.

(** [s.rfind("\n")] *)
Fixpoint rfind (s : text) : option nat :=
  match s with
  | [] => None
  | c :: s' => match rfind s' with
               | Some i => Some (S i)
               | None => if c =? newline then Some 0%nat else None
               end
  end.

Section Split.
Context (max_length : nat).

Fixpoint split_loop (fuel : nat) (s : text) : list text :=
  match fuel, s with
  | S fuel', _ :: _ =>
      if (length s <=? max_length)%nat then [s] else
      let split_idx := default max_length (rfind (take max_length s)) in
      take split_idx s :: split_loop fuel' (lstrip (drop split_idx s))
  | _, _ => []
  end.

(** Every turn of the loop shortens the text, so that its length is fuel enough. *)
Definition split_message (s : text) : list text :=
  if (length s <=? max_length)%nat then [s] else split_loop (length s) s.

Lemma lstrip_gap s : ∃ n, s = repeat newline n ++ lstrip s.
Proof.
  induction s as [|c s [n IH]]; cbn; [by exists 0%nat|]. destruct (c =? newline) eqn:E.
  - apply Z.eqb_eq in E as ->. exists (S n). cbn. by rewrite <- IH.
  - by exists 0%nat.
Qed.
Lemma lstrip_length s : (length (lstrip s) ≤ length s)%nat.
Proof. destruct (lstrip_gap s) as [n E]. rewrite E at 2. rewrite length_app. lia. Qed.
Lemma rfind_some s i : rfind s = Some i → s !! i = Some newline.
Proof.
  revert i. induction s as [|c s IH]; intros i; cbn; [done|]. destruct (rfind s) as [j|] eqn:Ej.
  - intros [= <-]. by apply IH.
  - destruct (c =? newline) eqn:E; [|done]. apply Z.eqb_eq in E as ->. by intros [= <-].
Qed.

(** A turn of the loop, with its cut *)
Lemma split_turn (s : text) :
  (0 < max_length < length s)%nat →
  let i := default max_length (rfind (take max_length s)) in
  (i ≤ max_length)%nat ∧ (length (lstrip (drop i s)) < length s)%nat.
Proof.
  intros Hmax i. subst i. destruct (rfind _) as [j|] eqn:Ej; cbn.
  - apply rfind_some in Ej. pose proof (lookup_lt_Some _ _ _ Ej) as Hj. rewrite length_take in Hj.
    split; [lia|]. rewrite lookup_take in Ej by lia.
    rewrite (drop_S s newline j) by (by destruct (decide (j < max_length)%nat)). cbn.
    pose proof (lstrip_length (drop (S j) s)). rewrite length_drop in *. lia.
  - split; [lia|]. pose proof (lstrip_length (drop max_length s)). rewrite length_drop in *. lia.
Qed.

(** A text put together from chunks and the numbers of newlines behind each *)
Definition rejoin (chunks : list text) (gaps : list nat) : text :=
  concat (zip_with (λ c g, c ++ repeat newline g) chunks gaps).

Definition starts_line (s : text) : Prop := head s = Some newline.
Lemma lstrip_starts s : ¬ starts_line (lstrip s).
Proof.
  unfold starts_line. induction s as [|c s IH]; cbn; [done|]. destruct (c =? newline) eqn:E; [done|].
  cbn. intros [= ->]. done.
Qed.

Lemma split_loop_faithful fuel s :
  (0 < max_length)%nat → (length s ≤ fuel)%nat →
  ∃ gaps, length gaps = length (split_loop fuel s) ∧ s = rejoin (split_loop fuel s) gaps ∧
    Forall (λ c, (length c ≤ max_length)%nat) (split_loop fuel s) ∧
    (¬ starts_line s → Forall (.≠ []) (split_loop fuel s)).
Proof.
  intros Hmax. revert s. induction fuel as [|fuel IH]; intros s Hf; [destruct s; [by exists []|cbn in Hf; lia]|].
  destruct s as [|c s]; [by exists []|]. cbn [split_loop]. set (t := c :: s) in *.
  destruct (length t <=? max_length)%nat eqn:El.
  - apply Nat.leb_le in El. exists [0%nat]. cbn [length rejoin zip_with concat repeat]. rewrite !app_nil_r.
    repeat split; [by constructor|]. intros _. constructor; [done|constructor].
  - apply Nat.leb_gt in El. destruct (split_turn t) as [Hi Hless]; [lia|].
    set (i := default max_length (rfind (take max_length t))) in *.
    destruct (IH (lstrip (drop i t))) as (gaps&Hg&Ht&Hb&Hne); [cbn in Hf; subst t; cbn in *; lia|].
    destruct (lstrip_gap (drop i t)) as [n En]. exists (n :: gaps). repeat split.
    + cbn. by rewrite Hg.
    + unfold rejoin. cbn [zip_with concat]. fold (rejoin (split_loop fuel (lstrip (drop i t))) gaps).
      rewrite <- Ht, <- app_assoc, <- En. by rewrite take_drop.
    + constructor; [rewrite length_take; lia|done].
    + intros Hs. constructor; [|by apply Hne, lstrip_starts]. intros E%(f_equal length). rewrite length_take in E.
      cbn in E. assert (i = 0%nat) as E0 by lia. clear -Hs E0 Hmax. subst i. destruct (rfind _) as [j|] eqn:Ej; [|cbn in E0; lia].
      cbn in E0. subst j. apply rfind_some in Ej. destruct max_length; [lia|]. cbn in Ej. apply Hs. unfold starts_line. cbn. congruence.
Qed.

(** No chunk is too long, and putting the chunks together again with the newlines
    that were cut away gives the text. *)
Lemma split_message_faithful s :
  (0 < max_length)%nat →
  ∃ gaps, length gaps = length (split_message s) ∧ s = rejoin (split_message s) gaps ∧
    Forall (λ c, (length c ≤ max_length)%nat) (split_message s) ∧
    (¬ starts_line s → s ≠ [] → Forall (.≠ []) (split_message s)).
Proof.
  intros Hmax. unfold split_message. destruct (length s <=? max_length)%nat eqn:El.
  - apply Nat.leb_le in El. exists [0%nat]. cbn. rewrite !app_nil_r. repeat split; [by constructor|].
    intros _ Hs. constructor; [done|constructor].
  - destruct (split_loop_faithful (length s) s) as (gaps&?&?&?&?); [done..|]. exists gaps. auto.
Qed.
End Split.

Definition TELEGRAM_MAX_LENGTH : nat := 4096.

(** * The outside world *)

Record FileLine := { line_alert : AlertDoc; fallback_channel : string; written_at : Z }.

Class Platform (W : Type) := {
  utcnow : W → Z * W;
  (** [asyncio.sleep], in milliseconds *)
  sleep : Z → W → W;
  (** one request to sendMessage: the status of its answer *)
  post : text → W → result string Z * W;
  (** [log_dir.mkdir(parents=True, exist_ok=True)] *)
  mkdir : W → result string unit * W;
  (** [exists] and [stat().st_size] of a file in [log_dir] *)
  stat : string → W → result string (option Z) * W;
  append_line : string → FileLine → W → result string unit * W;
  (** the line a logger writes for an alert, at a level *)
  log : AlertLevel → Alert → W → result string unit * W;
}.

(** [strftime] with [%Y-%m-%d] and [%H%M%S] *)
Definition pad (width : nat) (n : Z) : string :=
  let s := fmt_int n in String.concat "" (repeat "0" (width - String.length s)) +:+ s.
Definition strftime_day (now : Z) : string :=
  let d := now / day_us in pad 4 (year d) +:+ "-" +:+ pad 2 (month d) +:+ "-" +:+ pad 2 (day d).
Definition strftime_time (now : Z) : string :=
  let s := now mod day_us / 1000000 in pad 2 (s / 3600) +:+ pad 2 (s / 60 mod 60) +:+ pad 2 (s mod 60).

(** * The channels *)

Record Channel (W : Type) := {
  name : string;
  is_available : M W string bool;
  send : Alert → M W string bool;
}.
Arguments name {W} _. Arguments is_available {W} _. Arguments send {W} _ _.

Section Channels.
Context {W : Type} `{P : Platform W}.
Abbreviation IO := (M W string).

Definition now_utc : IO Z := λ w, let '(t, w') := utcnow w in (Ok t, w').
Definition io {A} (f : W → result string A * W) : IO A := f.
Definition asleep (s : Z) : IO unit := λ w, (Ok tt, sleep s w).

(** ** TelegramTransport *)

Record TelegramTransport := { bot_token : string; chat_id : string; max_retries : Z }.
Definition is_configured (t : TelegramTransport) : bool :=
  bool_decide (t.(bot_token) ≠ "") && bool_decide (t.(chat_id) ≠ "").

(** [for attempt in range(1, max_retries + 1)], of which [left] turns are left *)
Fixpoint attempts_from (max_retries : Z) (left : nat) (attempt : Z) (chunk : text) : IO bool :=
  match left with
  | O => mret false
  | S left' =>
      ok ← try_except (status ← io (post chunk); mret (status =? 200)) (λ _, mret false);
      if ok : bool then mret true else
      when (attempt <? max_retries) (asleep (1000 * attempt)) ;;
      attempts_from max_retries left' (attempt + 1) chunk
  end.
Definition _send_single (t : TelegramTransport) (chunk : text) : IO bool :=
  attempts_from t.(max_retries) (Z.to_nat t.(max_retries)) 1 chunk.

Fixpoint send_chunks (t : TelegramTransport) (chunks : list text) : IO bool :=
  match chunks with
  | [] => mret true
  | chunk :: rest =>
      success ← _send_single t chunk;
      if negb success then mret false else
      when (match rest with [] => false | _ => true end) (asleep 500) ;;
      send_chunks t rest
  end.
Definition send_text (t : TelegramTransport) (s : text) : IO bool :=
  send_chunks t (split_message TELEGRAM_MAX_LENGTH s).

(** ** TelegramChannelAdapter *)

Definition TelegramChannelAdapter (format_alert : Alert → text) (t : TelegramTransport) (alert_level : string) : Channel W := {|
  name := "telegram";
  is_available := mret (is_configured t);
  send a := if negb (TelegramNotifier._should_send alert_level a.(level)) then mret true
            else send_text t (format_alert a) |}.

(** ** FileNotifier *)

Definition FileNotifier (max_file_size_mb : Z) : Channel W := {|
  name := "file";
  is_available := try_except (io mkdir ;; mret true) (λ _, mret false);
  send a := try_except (
      io mkdir ;;
      now ← now_utc;
      let filepath := "alerts_" +:+ strftime_day now +:+ ".jsonl" in
      size ← io (stat filepath);
      filepath ← (if match size with Some n => max_file_size_mb * 1024 * 1024 <=? n | None => false end
                  then now' ← now_utc;
                       mret ("alerts_" +:+ strftime_day now +:+ "_" +:+ strftime_time now' +:+ ".jsonl")
                  else mret filepath);
      written ← now_utc;
      io (append_line filepath {| line_alert := to_dict a; fallback_channel := "file"; written_at := written |}) ;;
      mret true)
    (λ _, mret false) |}.

(** ** ConsoleNotifier *)

Definition ConsoleNotifier : Channel W := {|
  name := "console";
  is_available := mret true;
  send a := try_except (io (log a.(level) a) ;; mret true) (λ _, mret false) |}.

(** * NotificationRouter *)

Record DispatchResult := {
  success : bool;
  channel_used : string;
  fallback_used : bool;
  all_failed : bool;
  channels_tried : list string;
}.

(** [dispatched] is what ALERT_DISPATCH_TOTAL counted. *)
Record Router := {
  _channels : list (Channel W);
  _health : list (string * ChannelHealth.ChannelHealth);
  dispatched : list (string * bool);
  world : W;
}.
Abbreviation Op := (M Router string).

Definition with_health h (r : Router) : Router := {|
  _channels := r.(_channels); _health := h; dispatched := r.(dispatched); world := r.(world) |}.
Definition with_dispatched d (r : Router) : Router := {|
  _channels := r.(_channels); _health := r.(_health); dispatched := d; world := r.(world) |}.
Definition with_world w (r : Router) : Router := {|
  _channels := r.(_channels); _health := r.(_health); dispatched := r.(dispatched); world := w |}.
Definition outside {A} (m : IO A) : Op A := zoom world with_world m.

Definition NotificationRouter (channels : list (Channel W)) (w : W) : Router := {|
  _channels := channels;
  _health := foldl (λ h c, dict_set c.(name) (ChannelHealth.new c.(name)) h) [] channels;
  dispatched := []; world := w |}.

Definition add_channel (c : Channel W) (r : Router) : Router := {|
  _channels := r.(_channels) ++ [c];
  _health := dict_set c.(name) (ChannelHealth.new c.(name)) r.(_health);
  dispatched := r.(dispatched); world := r.(world) |}.

(** [record_success] or [record_failure] on the health of a channel, if it has one *)
Definition record_outcome (ok : bool) (ch_name : string) : Op unit :=
  health ← gets (λ r, dict_get ch_name r.(_health));
  match health with
  | None => mret tt
  | Some h =>
      now ← outside now_utc;
      modify (λ r, with_health (dict_set ch_name
        ((if ok then ChannelHealth.record_success else ChannelHealth.record_failure) now h) r.(_health)) r)
  end.

Fixpoint try_channels (a : Alert) (first : string) (l : list (Channel W)) (tried : list string) : Op DispatchResult :=
  match l with
  | [] => mret {| success := false; channel_used := "none"; fallback_used := false;
                  all_failed := true; channels_tried := tried |}
  | channel :: rest =>
      let ch_name := channel.(name) in
      let tried := tried ++ [ch_name] in
      available ← outside channel.(is_available);
      if negb available then record_outcome false ch_name ;; try_channels a first rest tried else
      ok ← try_except (outside (channel.(send) a)) (λ _, mret false);
      modify (λ r, with_dispatched (r.(dispatched) ++ [(ch_name, ok)]) r) ;;
      record_outcome ok ch_name ;;
      if ok : bool then
        mret {| success := true; channel_used := ch_name; fallback_used := bool_decide (ch_name ≠ first);
                all_failed := false; channels_tried := tried |}
      else try_channels a first rest tried
  end.

Definition dispatch (a : Alert) : Op DispatchResult :=
  channels ← gets _channels;
  try_channels a (match channels with c :: _ => c.(name) | [] => "" end) channels [].

Definition get_channel_status (ch_name : string) (r : Router) : option ChannelHealth.ChannelHealth :=
  dict_get ch_name r.(_health).

(** ** The cascade a dispatch is meant to be

    The channels are asked in order until one delivers; between two of them the
    clock may be read. *)

Inductive Verdict := Unavailable | Refused | Delivered.
#[global] Instance Verdict_eq_dec : EqDecision Verdict.
Proof. solve_decision. Defined.

Inductive asked (a : Alert) (c : Channel W) (w : W) : Verdict → W → Prop :=
  | is_unavailable w' : c.(is_available) w = (Ok false, w') → asked a c w Unavailable w'
  | has_delivered w1 w' : c.(is_available) w = (Ok true, w1) → c.(send) a w1 = (Ok true, w') → asked a c w Delivered w'
  | has_refused w1 r w' : c.(is_available) w = (Ok true, w1) → c.(send) a w1 = (r, w') → r ≠ Ok true →
      asked a c w Refused w'.
Definition ticked (w w' : W) : Prop := w' = w ∨ w' = (utcnow w).2.

Inductive cascade (a : Alert) : list (Channel W) → W → list Verdict → W → Prop :=
  | cascade_end w : cascade a [] w [] w
  | cascade_stop c l w w1 w2 : asked a c w Delivered w1 → ticked w1 w2 → cascade a (c :: l) w [Delivered] w2
  | cascade_next c l w v w1 w2 vs w3 : v ≠ Delivered → asked a c w v w1 → ticked w1 w2 →
      cascade a l w2 vs w3 → cascade a (c :: l) w (v :: vs) w3.

(** What a dispatch answers to the verdicts of the channels *)
Definition report (first : string) (tried names : list string) (vs : list Verdict) : DispatchResult :=
  let used := tried ++ take (length vs) names in
  if bool_decide (Delivered ∈ vs)
  then {| success := true; channel_used := default "" (last used);
          fallback_used := bool_decide (default "" (last used) ≠ first); all_failed := false; channels_tried := used |}
  else {| success := false; channel_used := "none"; fallback_used := false; all_failed := true; channels_tried := used |}.

(** What it counts *)
Definition counted (names : list string) (vs : list Verdict) : list (string * bool) :=
  omap (λ nv : string * Verdict, match nv.2 with
    | Unavailable => None | Refused => Some (nv.1, false) | Delivered => Some (nv.1, true) end) (zip names vs).

(** How the healths change: those who delivered succeeded, the others failed. *)
Definition told (ok : bool) (n : string) (names : list string) (vs : list Verdict) : Z :=
  Z.of_nat (length (filter (λ nv : string * Verdict, nv.1 = n ∧ bool_decide (nv.2 = Delivered) = ok) (zip names vs))).
Definition healths_follow (names : list string) (vs : list Verdict)
    (h h' : list (string * ChannelHealth.ChannelHealth)) : Prop :=
  h'.*1 = h.*1 ∧ ∀ n x, dict_get n h = Some x → ∃ y, dict_get n h' = Some y ∧
    y.(ChannelHealth.total_sent) = x.(ChannelHealth.total_sent) + told true n names vs ∧
    y.(ChannelHealth.total_failed) = x.(ChannelHealth.total_failed) + told false n names vs ∧
    (ChannelHealth.consistent x → ChannelHealth.consistent y).

Lemma healths_follow_refl names h : healths_follow names [] h h.
Proof.
  split; [done|]. intros n x Hx. exists x. unfold told. destruct names; cbn; rewrite !Z.add_0_r; auto.
Qed.

Lemma told_cons ok n m v names vs :
  told ok n (m :: names) (v :: vs) =
  (if bool_decide (m = n ∧ bool_decide (v = Delivered) = ok) then 1 else 0) + told ok n names vs.
Proof.
  unfold told. cbn [zip zip_with]. rewrite filter_cons. cbn [fst snd].
  case_decide as E; [rewrite (bool_decide_true _ E)|rewrite (bool_decide_false _ E)]; cbn [length]; lia.
Qed.

Lemma record_outcome_runs v m (r : Router) :
  ∃ h' w', record_outcome (bool_decide (v = Delivered)) m r = (Ok tt, with_world w' (with_health h' r)) ∧
    ticked r.(world) w' ∧ (∀ names vs h2, healths_follow names vs h' h2 → healths_follow (m :: names) (v :: vs) r.(_health) h2).
Proof.
  unfold record_outcome, outside, now_utc. run_m. destruct (dict_get m r.(_health)) as [x|] eqn:Hx.
  - destruct (utcnow r.(world)) as [t w'] eqn:Et. cbn.
    set (y := (if bool_decide (v = Delivered) then ChannelHealth.record_success else ChannelHealth.record_failure) t x).
    exists (dict_set m y r.(_health)), w'. split; [done|]. split; [right; by rewrite Et|].
    intros names vs h2 [Hk Hh]. split.
    + rewrite Hk. apply dict_set_keys_same. apply dec_stable. intros Hn. apply dict_get_none in Hn. congruence.
    + intros n y' Hy. rewrite !told_cons. destruct (decide (n = m)) as [->|Hne].
      * rewrite Hx in Hy. injection Hy as <-. destruct (Hh m y) as (z&Hz&Hs&Hf&Hc); [by rewrite dict_get_set, bool_decide_true|]. subst y.
        exists z. split; [done|]. destruct (decide (v = Delivered)) as [->|Hv].
        -- rewrite (bool_decide_true (Delivered = Delivered)) in * by done. cbn in Hs, Hf, Hc.
           rewrite (bool_decide_true (m = m ∧ true = true)), (bool_decide_false (m = m ∧ true = false)) by naive_solver.
           split; [lia|]. split; [lia|]. intros Hx'. by apply Hc, ChannelHealth.record_success_consistent.
        -- rewrite (bool_decide_false (v = Delivered)) in * by done. cbn in Hs, Hf, Hc.
           rewrite (bool_decide_false (m = m ∧ false = true)), (bool_decide_true (m = m ∧ false = false)) by naive_solver.
           split; [lia|]. split; [lia|]. intros Hx'. by apply Hc, ChannelHealth.record_failure_consistent.
      * destruct (Hh n y') as (z&Hz&Hs&Hf&Hc); [by rewrite dict_get_set, bool_decide_false|].
        exists z. rewrite !(bool_decide_false (m = n ∧ _)) by naive_solver. auto.
  - exists r.(_health), r.(world). split; [by destruct r|]. split; [by left|]. intros names vs h2 [Hk Hh].
    split; [done|]. intros n y Hy. rewrite !told_cons. rewrite !(bool_decide_false (m = n ∧ _)) by naive_solver.
    destruct (Hh n y Hy) as (z&?&?&?&?). exists z. auto.
Qed.

Lemma report_step first tried m names v vs :
  v ≠ Delivered → report first (tried ++ [m]) names vs = report first tried (m :: names) (v :: vs).
Proof.
  intros Hv. unfold report. cbn [take length]. rewrite <- app_assoc. cbn.
  rewrite (bool_decide_ext (Delivered ∈ vs) (Delivered ∈ v :: vs)); [done|].
  rewrite elem_of_cons. naive_solver.
Qed.

(** A turn of the loop *)
Lemma try_channels_turn a first c l tried (r : Router) b :
  (c.(is_available) r.(world)).1 = Ok b →
  ∃ v w1 w2 h1, asked a c r.(world) v w1 ∧ ticked w1 w2 ∧
    (∀ names vs h2, healths_follow names vs h1 h2 → healths_follow (c.(name) :: names) (v :: vs) r.(_health) h2) ∧
    let r1 := with_world w2 (with_dispatched (r.(dispatched) ++ counted [c.(name)] [v]) (with_health h1 r)) in
    try_channels a first (c :: l) tried r =
      if bool_decide (v = Delivered) then (Ok (report first tried [c.(name)] [v]), r1)
      else try_channels a first l (tried ++ [c.(name)]) r1.
Proof.
  intros Hb. cbn [try_channels]. unfold outside. destruct (c.(is_available) r.(world)) as [x w1] eqn:E1. cbn in Hb. subst x.
  run_m. rewrite E1. destruct b; cbn [negb].
  - destruct (c.(send) a w1) as [x w2] eqn:E2. cbn [world with_world]. rewrite E2.
    set (v := if decide (x = Ok true) then Delivered else Refused).
    assert (asked a c r.(world) v w2) as Hask.
    { subst v. case_decide; [subst x|]; econstructor; done. }
    set (r2 := with_dispatched (r.(dispatched) ++ [(c.(name), bool_decide (v = Delivered))]) (with_world w2 r)).
    destruct (record_outcome_runs v c.(name) r2) as (h1&w3&Hrec&Htick&Hfol).
    exists v, w2, w3, h1. split; [done|]. split; [done|]. split; [done|]. cbn zeta.
    assert (counted [c.(name)] [v] = [(c.(name), bool_decide (v = Delivered))]) as -> by (subst v; by case_decide).
    assert ((match x with Ok b => b | Err _ => false end) = bool_decide (v = Delivered)) as Hok
      by (subst v; by destruct x as [[]|]).
    clearbody v. destruct x as [ok|e]; cbn in Hok; subst; [|rewrite Hok];
      change (with_dispatched _ (with_world w2 (with_world w1 r))) with r2; rewrite Hrec.
    + case_bool_decide as Hv; [subst v; unfold report; cbn; by rewrite last_snoc|done].
    + by case_bool_decide.
  - destruct (record_outcome_runs Unavailable c.(name) (with_world w1 r)) as (h1&w3&Hrec&Htick&Hfol).
    exists Unavailable, w1, w3, h1. split; [by constructor|]. split; [done|]. split; [done|].
    change (bool_decide (Unavailable = Delivered)) with false in *. rewrite Hrec. unfold counted. cbn. by rewrite app_nil_r.
Qed.

Lemma counted_cons n v names vs : counted (n :: names) (v :: vs) = counted [n] [v] ++ counted names vs.
Proof. by destruct v. Qed.

Lemma try_channels_cascade a first l : ∀ tried (r : Router),
  (∀ c w, c ∈ l → ∃ b, (c.(is_available) w).1 = Ok b) →
  ∃ vs w' h', cascade a l r.(world) vs w' ∧ healths_follow (name <$> l) vs r.(_health) h' ∧
    try_channels a first l tried r =
      (Ok (report first tried (name <$> l) vs),
       with_world w' (with_dispatched (r.(dispatched) ++ counted (name <$> l) vs) (with_health h' r))).
Proof.
  induction l as [|c l IH]; intros tried r Hav.
  - exists [], r.(world), r.(_health). split; [constructor|]. split; [apply healths_follow_refl|].
    unfold report, counted. cbn. rewrite !app_nil_r. by destruct r.
  - destruct (Hav c r.(world)) as [b Hb]; [set_solver|].
    destruct (try_channels_turn a first c l tried r b Hb) as (v&w1&w2&h1&Hask&Htick&Hfol&->).
    destruct (decide (v = Delivered)) as [->|Hv].
    + rewrite bool_decide_true by done. exists [Delivered], w2, h1. split; [by econstructor|].
      split; [apply Hfol, healths_follow_refl|]. unfold counted, report. cbn. by destruct l.
    + rewrite bool_decide_false by done.
      edestruct IH as (vs&w'&h'&Hc&Hh&Hrun); [intros; apply Hav; set_solver|]. rewrite Hrun.
      exists (v :: vs), w', h'. split; [by econstructor|]. split; [by apply Hfol|]. rewrite (report_step _ _ _ _ v) by done.
      cbn [fmap list_fmap]. unfold with_world, with_dispatched, with_health.
      cbn [_channels _health dispatched world]. by rewrite <- app_assoc, <- counted_cons.
Qed.

(** A dispatch asks the channels in order until one delivers, whatever the
    channels do in between: its answer is success with that channel exactly when
    one delivered, it lists the channels that were asked, every request is counted
    once, and every channel's health moves by exactly its own successes and
    failures, staying consistent. *)
Theorem dispatch_cascades (a : Alert) (r : Router) :
  (∀ c w, c ∈ r.(_channels) → ∃ b, (c.(is_available) w).1 = Ok b) →
  ∃ vs w' h', let names := name <$> r.(_channels) in
    cascade a r.(_channels) r.(world) vs w' ∧ healths_follow names vs r.(_health) h' ∧
    dispatch a r = (Ok (report (default "" (head names)) [] names vs),
                    with_world w' (with_dispatched (r.(dispatched) ++ counted names vs) (with_health h' r))).
Proof.
  intros Hav. unfold dispatch. run_m.
  destruct (try_channels_cascade a (match r.(_channels) with c :: _ => c.(name) | [] => "" end) r.(_channels) [] r Hav)
    as (vs&w'&h'&Hc&Hh&->).
  exists vs, w', h'. split; [done|]. split; [done|]. by destruct r.(_channels).
Qed.

(** * The router of main.py *)

Section Wiring.
Context (format_alert : Alert → text) (t : TelegramTransport) (alert_level : string).
(** The console's logger does not fail. *)
Context (Hlog : ∀ lv a w, is_ok (log (W:=W) lv a w).1 = true).

Definition wired_channels : list (Channel W) :=
  [TelegramChannelAdapter format_alert t alert_level; FileNotifier 50; ConsoleNotifier].
Definition wired (w : W) : Router := foldl (λ r c, add_channel c r) (NotificationRouter [] w) wired_channels.

Lemma wired_available c w : c ∈ wired_channels → ∃ b, (c.(is_available) w).1 = Ok b.
Proof.
  unfold wired_channels. rewrite !elem_of_cons, elem_of_nil. intros [->|[->|[->|[]]]]; cbn; [by eexists| |by eexists].
  run_m. destruct (io mkdir w) as [[[]|e] w1]; cbn; by eexists.
Qed.

Lemma cascade_ends a l c w vs w' :
  (∀ w v w1, asked a c w v w1 → v = Delivered) → cascade a (l ++ [c]) w vs w' → Delivered ∈ vs.
Proof.
  intros Hc. revert w vs. induction l as [|c' l IH]; intros w vs; cbn; intros H; inversion H; subst; set_solver.
Qed.

Lemma console_delivers a w v w1 : asked a ConsoleNotifier w v w1 → v = Delivered.
Proof.
  pose proof (Hlog a.(level) a w) as Hl. intros H. inversion H as [w' E|w2 w' E E'|w2 x w' E E' Hx]; subst; [done..|].
  cbn in E. injection E as <-. cbn in E'. unfold io in E'. run_m. destruct (log a.(level) a w) as [[[]|e] w3]; naive_solver.
Qed.

Lemma wired_dispatch_delivers a (r : Router) :
  r.(_channels) = wired_channels →
  ∃ d r', dispatch a r = (Ok d, r') ∧ r'.(_channels) = wired_channels ∧ d.(success) = true ∧
    ∃ n, d.(channels_tried) = take n ["telegram"; "file"; "console"].
Proof.
  intros Hr. destruct (try_channels_cascade a "telegram" r.(_channels) [] r) as (vs&w'&h'&Hc&Hh&Hrun).
  { rewrite Hr. intros; by apply wired_available. }
  eexists _, _. unfold dispatch. run_m. rewrite Hr in Hrun, Hc |- *. cbn [wired_channels name TelegramChannelAdapter].
  rewrite Hrun. split; [done|]. split; [done|]. unfold report.
  rewrite bool_decide_true by (eapply (cascade_ends a [_; _]); [apply console_delivers|exact Hc]).
  split; [done|]. by exists (length vs).
Qed.

(** ** Behind the alert manager *)

Definition to_alerts (d : DispatchResult) : Alerts.DispatchResult := {|
  Alerts.success := d.(success); Alerts.channels_tried := d.(channels_tried) |}.

(** One task by itself, its [n]th action with the [n]th oracle *)
Fixpoint run_task {A} (t : Alerts.Task A) (o : nat → Oracle) (n : nat) (s : Store) : result string A * Store :=
  match t with
  | Ret a => (Ok a, s)
  | Raise e => (Err e, s)
  | Await act k => let '(x, s') := perform act (o n) s in run_task (k x) o (S n) s'
  end.

Lemma run_await {A} act (k : Prelude.result string (answer act) → Alerts.Task A) o n s :
  (o n).(fate) = Works →
  run_task (Await act k) o n s = run_task (k (Ok (effect act (o n) s).1)) o (S n) (effect act (o n) s).2.
Proof.
  intros Hf. cbn. unfold perform. destruct act; rewrite ?Hf; cbn; repeat case_match; try congruence; by simplify_eq/=.
Qed.

Lemma find_failed_status d max_attempts limit s : d ∈ find_failed max_attempts limit s → d.(doc_status) = FAILED.
Proof.
  unfold find_failed. intros Hin%elem_of_take. destruct Hin as (i&Hi%list_elem_of_lookup_2&_). 
  rewrite (merge_sort_Permutation by_attempt) in Hi. apply list_elem_of_filter in Hi. by destruct Hi as [(?&?&?) _].
Qed.

Lemma update_one_hits k x set d s :
  s.(docs) !! k = Some d → d.(doc_status) = x → (set d).(doc_status) ≠ x →
  update_one k (Some x) set s = (1, put_doc k d (set d) s).
Proof.
  intros Hd Hx Hn. unfold update_one. rewrite Hd, bool_decide_true by done.
  rewrite bool_decide_false; [done|]. intros E. by rewrite E in Hn.
Qed.

(** With the router of main.py and a working logger no alert ever fails: while
    the database answers, an alert that is created ends as SENT after one attempt,
    also when Telegram is down and the file cannot be written, so that the retry
    loop never sees it. *)
Theorem fallbacks_count_as_sent (a : Alert) (r : Router) (s : Store) (o : nat → Oracle) :
  r.(_channels) = wired_channels → a.(Alerts.status) = PENDING →
  (∀ n, (o n).(fate) = Works ∧ ∃ d r', dispatch a r = (Ok d, r') ∧ (o n).(router_says) = to_alerts d) →
  let s' := (run_task (AlertManager.create_and_persist_alert true a) o 0 s).2 in
  ∃ d, s'.(docs) !! a.(id) = Some d ∧ d.(doc_status) = SENT ∧ d.(doc_send_attempts) = a.(send_attempts) + 1 ∧
    ∀ max_attempts limit, d ∉ find_failed max_attempts limit s'.
Proof.
  intros Hr Hp Ho. assert (∀ n, (o n).(fate) = Works) as Hf by apply Ho.
  assert (∀ n, (o n).(router_says).(Alerts.success) = true) as Hs.
  { intros n. destruct (Ho n) as (_&d&r'&Hd&->). destruct (wired_dispatch_delivers a r Hr) as (d'&r2&Hd'&_&Hok&_).
    rewrite Hd in Hd'. by injection Hd' as -> ->. }
  unfold AlertManager.create_and_persist_alert, AlertManager.save_alert, AlertManager._dispatch_via_router,
    AlertManager.claim_for_sending, AlertManager.mark_sent_by_id. cbn -[run_task]. 
  rewrite run_await by done. cbn -[run_task update_one].
  rewrite run_await by done. cbn -[run_task update_one].
  rewrite run_await by done. cbn -[run_task update_one].
  rewrite (update_one_hits _ _ _ (to_dict a)) by (done || apply lookup_insert_eq). cbn -[run_task update_one].
  rewrite run_await by done. cbn -[run_task update_one]. rewrite Hs. cbn -[run_task update_one].
  rewrite run_await by done. cbn -[run_task update_one].
  rewrite run_await by done. cbn -[run_task update_one].
  erewrite update_one_hits by (done || apply lookup_insert_eq). cbn. 
  eexists. rewrite lookup_insert_eq. split; [done|]. split; [done|].
  split; [done|].
  intros max_attempts limit Hin. by apply find_failed_status in Hin.
Qed.
End Wiring.
End Channels.


(** * Runs *)

Module ChannelRuns.
(** A world in which Telegram answers with 502 and the disk may be full *)
Record World := { time_passed : Z; requests : list text; full_disk : bool; written : list (string * Z); logged : list string }.
Definition tick (n : Z) (w : World) : World := {|
  time_passed := w.(time_passed) + n; requests := w.(requests); full_disk := w.(full_disk);
  written := w.(written); logged := w.(logged) |}.
#[global] Instance outage : Platform World := {|
  utcnow w := (w.(time_passed) * 1000, tick 1 w);
  sleep ms w := tick ms w;
  post s w := (Ok 502, {| time_passed := w.(time_passed); requests := w.(requests) ++ [s]; full_disk := w.(full_disk);
                          written := w.(written); logged := w.(logged) |});
  mkdir w := (Ok tt, w);
  stat f w := (Ok None, w);
  append_line f l w := if w.(full_disk) then (Err "ENOSPC", w) else
    (Ok tt, {| time_passed := w.(time_passed); requests := w.(requests); full_disk := w.(full_disk);
               written := w.(written) ++ [(f, l.(written_at))]; logged := w.(logged) |});
  log lv a w := (Ok tt, {| time_passed := w.(time_passed); requests := w.(requests); full_disk := w.(full_disk);
                           written := w.(written); logged := w.(logged) ++ [a.(title)] |}) |}.

Definition bot : TelegramTransport := {| bot_token := "token"; chat_id := "chat"; max_retries := 3 |}.
Definition letters (s : string) : text := Z.of_N ∘ Ascii.N_of_ascii <$> String.list_ascii_of_string s.
Definition by_title (a : Alert) : text := letters a.(title).
Definition alarm : Alert := AlertManager.create_alert SYSTEM_ERROR ERROR "down" "broker unreachable" "alert-1" 0.
(** 2026-03-02, whose ordinal is 739677 *)
Definition start (full : bool) : World := {| time_passed := 739677 * 86400000; requests := []; full_disk := full; written := []; logged := [] |}.
Definition router (full : bool) : Router := wired by_title bot "ALL" (start full).

Example file_takes_over :
  let '(d, r) := dispatch alarm (router false) in
  (∃ x, d = Ok x ∧ x.(channels_tried) = ["telegram"; "file"] ∧ x.(fallback_used) = true) ∧
  length r.(world).(requests) = 3%nat ∧ r.(world).(written) = [("alerts_2026-03-02.jsonl", (739677 * 86400000 + 3002) * 1000)] ∧
  ChannelHealth.status <$> get_channel_status "telegram" r = Some ChannelHealth.ACTIVE.
Proof. vm_compute. eauto 10. Qed.

Example five_outages_are_down :
  ChannelHealth.status <$> get_channel_status "telegram" (Nat.iter 5 (λ r, (dispatch alarm r).2) (router true)) = Some ChannelHealth.DOWN.
Proof. by vm_compute. Qed.

(** A filtered alert counts as delivered by Telegram: it reaches no channel. *)
Example filtered_is_delivered :
  let '(d, r) := dispatch alarm (wired by_title bot "ERROR" (start false)) in
  let '(d', r') := dispatch (AlertManager.create_alert DAILY_REPORT INFO "report" "" "alert-2" 0) (wired by_title bot "ERROR" (start false)) in
  (∃ x, d' = Ok x ∧ x.(channel_used) = "telegram") ∧ r'.(world) = tick 1 (start false) ∧ length r.(world).(requests) = 3%nat.
Proof. vm_compute. eauto. Qed.

Example chunks_of_a_long_text :
  split_message 10 (letters "a line" ++ newline :: letters "another line") =
  [letters "a line"; letters "another li"; letters "ne"].
Proof. reflexivity. Qed.

Lemma dispatch_cascades_witness :
  ∃ vs w' h', let r := router true in let names := name <$> r.(_channels) in
    cascade alarm r.(_channels) r.(world) vs w' ∧ healths_follow names vs r.(_health) h' ∧
    dispatch alarm r = (Ok (report (default "" (head names)) [] names vs),
                        with_world w' (with_dispatched (r.(dispatched) ++ counted names vs) (with_health h' r))).
Proof. apply (dispatch_cascades alarm (router true)). intros c w Hc. exact (wired_available by_title bot "ALL" c w Hc). Defined.

Definition steady (full : bool) (n : nat) : Oracle := {|
  fate := Works; time_now := 0;
  router_says := match (dispatch alarm (router full)).1 with Ok d => to_alerts d | Err _ => {| Alerts.success := false; Alerts.channels_tried := [] |} end;
  channel_says := false |}.
Definition empty_store : Store := {| docs := ∅; used := ∅; sends := []; moves := [] |}.

Lemma logger_works lv a w : is_ok (log (W:=World) lv a w).1 = true.
Proof. done. Qed.

Lemma fallbacks_count_as_sent_witness :
  let s' := (run_task (AlertManager.create_and_persist_alert true alarm) (steady true) 0 empty_store).2 in
  ∃ d, s'.(docs) !! "alert-1" = Some d ∧ d.(doc_status) = SENT ∧ d.(doc_send_attempts) = 1 ∧
    ∀ max_attempts limit, d ∉ find_failed max_attempts limit s'.
Proof.
  apply (fallbacks_count_as_sent (W:=World) by_title bot "ALL" logger_works alarm (router true)); [reflexivity|reflexivity|].
  intros n. destruct (wired_dispatch_delivers by_title bot "ALL" logger_works alarm (router true) eq_refl) as (d&r'&E&_).
  split; [reflexivity|]. exists d, r'. split; [exact E|]. unfold steady. cbn [router_says]. by rewrite E.
Defined.
End ChannelRuns.
