(* ===== verification/Auth.v ===== *)
(** Authentication and access control: backend/api/middleware/auth.py,
    token_revocation.py and rbac.py, the routes of api/routes/auth.py and
    users.py, and the tables of db/models/user.py.

    [Server] holds the tables as committed, the copy the request's session works
    on, and the revocation store; [in_session] is the dependency
    [get_db_session], which commits what is left when a handler returns and
    rolls back when it raises.  Requests run one after the other, and the clock
    stands still during one.  Times are in microseconds.

    JSON Web Tokens, bcrypt, SHA-256 and TOTP are parameters, with the laws the
    code relies on.  Serialized responses and the listing routes are left out,
    and so are the login rate limit and the texts of the audit records. *)

From stdpp Require Import base option list gmap strings pretty.
From S2P Require Import Prelude PyFormat.

(** * Token revocation *)

(** [RevocationBackendUnavailable] *)
Inductive RevocationBackendUnavailable := revocation_failed (op : string).

Definition seconds_us (n : Z) : Z := n * 1000000.

(** The Protocol [TokenRevocationStore].  [until] is the moment an entry goes
    away.  An entry that is to be found at a time is found there, and what is
    found is there; a call that fails can have been carried out. *)
Class TokenRevocationStore (R : Type) := {
  revoke : Z → string → Z → M R RevocationBackendUnavailable unit;
  is_revoked : Z → string → M R RevocationBackendUnavailable bool;
  until : R → string → option Z;
  revoke_law : ∀ now j ttl s,
    let s' := after (revoke now j ttl) s in
    (∀ j', j' ≠ j → until s' j' = until s j') ∧
    (until s' j = until s j ∨ until s' j = Some (now + seconds_us ttl)) ∧
    (0 < ttl → is_ok (outcome (revoke now j ttl) s) = true → until s' j = Some (now + seconds_us ttl));
  is_revoked_law : ∀ now j s,
    let s' := after (is_revoked now j) s in
    (∀ j' e, now < e → until s j' = Some e → until s' j' = Some e) ∧
    match outcome (is_revoked now j) s with
    | Ok b => (∀ e, until s j = Some e → now < e → b = true) ∧
        (until s j = None → b = false)
    | Err _ => True
    end;
}.

Module InMemoryTokenRevocationStore.
Record Store := { _blacklist : gset string; _expiry : gmap string Z }.

(** [self._expiry.get(jti, 0.0)] is 0 only for an entry without expiry. *)
Definition revoke (now : Z) (jti : string) (ttl_seconds : Z) : M Store RevocationBackendUnavailable unit :=
  if ttl_seconds <=? 0 then mret tt else
  modify (λ s, {| _blacklist := {[jti]} ∪ s.(_blacklist);
                  _expiry := <[jti := now + seconds_us ttl_seconds]> s.(_expiry) |}).

Definition is_revoked (now : Z) (jti : string) : M Store RevocationBackendUnavailable bool :=
  s ← get;
  if negb (bool_decide (jti ∈ s.(_blacklist))) then mret false else
  let exp := default 0 (s.(_expiry) !! jti) in
  if negb (exp =? 0) && (exp <? now) then
    modify (λ s, {| _blacklist := s.(_blacklist) ∖ {[jti]}; _expiry := delete jti s.(_expiry) |}) ;;
    mret false
  else mret true.

Definition until (s : Store) (j : string) : option Z :=
  if bool_decide (j ∈ s.(_blacklist)) then Some (default 0 (s.(_expiry) !! j)) else None.
End InMemoryTokenRevocationStore.

(** A Redis server: the expiry of each key, and the fate of the commands to come:
    carried out, not carried out, carried out but the answer lost. *)
Module RedisTokenRevocationStore.
Inductive Fate := Works | Fails | Lost.
Record Redis := { keys : gmap string Z; fates : list Fate }.
Definition _prefix : string := "aqts:revoked:".
Definition _key (jti : string) : string := _prefix +:+ jti.

Definition command {A} (op : string) (f : gmap string Z → A * gmap string Z) : M Redis RevocationBackendUnavailable A :=
  λ r, let rest := {| keys := (f r.(keys)).2; fates := tail r.(fates) |} in
  match head r.(fates) with
  | None | Some Works => (Ok (f r.(keys)).1, rest)
  | Some Fails => (Err (revocation_failed op), {| keys := r.(keys); fates := tail r.(fates) |})
  | Some Lost => (Err (revocation_failed op), rest)
  end.

Definition revoke (now : Z) (jti : string) (ttl_seconds : Z) : M Redis RevocationBackendUnavailable unit :=
  if ttl_seconds <=? 0 then mret tt else
  command "revoke" (λ ks, (tt, <[_key jti := now + seconds_us ttl_seconds]> ks)).

(** EXISTS does not see a key whose time has come. *)
Definition is_revoked (now : Z) (jti : string) : M Redis RevocationBackendUnavailable bool :=
  command "is_revoked" (λ ks, (match ks !! _key jti with Some e => now <? e | None => false end, ks)).

Definition until (r : Redis) (j : string) : option Z := r.(keys) !! _key j.
End RedisTokenRevocationStore.

Section MemoryLaws.
Import InMemoryTokenRevocationStore.

Lemma memory_until_revoke now j ttl s j' :
  until (after (revoke now j ttl) s) j' =
  if decide (j' = j ∧ 0 < ttl) then Some (now + seconds_us ttl) else until s j'.
Proof.
  unfold revoke, after. destruct (Z.leb_spec ttl 0) as [Ht|Ht]; cbn.
  - rewrite decide_False; [done|lia].
  - unfold until. cbn. destruct (decide (j' = j)) as [->|Hj].
    + rewrite bool_decide_true by set_solver. rewrite lookup_insert_eq, decide_True; done.
    + rewrite decide_False by tauto. rewrite lookup_insert_ne by done.
      erewrite bool_decide_ext; [done|]. set_solver.
Qed.

#[global] Program Instance memory_store : TokenRevocationStore Store := {|
  Auth.revoke := revoke; Auth.is_revoked := is_revoked; Auth.until := until |}.
Next Obligation.
  intros now j ttl s. cbn zeta. rewrite !memory_until_revoke. split_and!.
  - intros j' Hj. rewrite memory_until_revoke, decide_False; [done|tauto].
  - destruct (decide _); auto.
  - intros Ht _. by rewrite decide_True.
Qed.
Next Obligation.
  intros now j s. cbn zeta. unfold is_revoked, after, outcome, until. run_m.
  repeat case_bool_decide; cbn; [|by split; [auto|split; [intros ? [=]|]]].
  set (e := default 0 (s.(_expiry) !! j)).
  destruct (Z.eqb_spec e 0); cbn; [by split; [|split]|].
  destruct (Z.ltb_spec e now); cbn; [|by split; [|split]].
  split; [|split; [intros e' [= <-]; lia|done]].
  intros j' e' He Hj'. case_bool_decide; [|done]. injection Hj' as Hj'.
  assert (j' ≠ j) by (intros ->; unfold e in *; lia).
  rewrite bool_decide_true by set_solver. by rewrite lookup_delete_ne, Hj' by done.
Qed.
End MemoryLaws.

Section RedisLaws.
Import RedisTokenRevocationStore.

Lemma key_inj j j' : _key j = _key j' → j = j'.
Proof. unfold _key, _prefix. intros E. by injection E. Qed.

#[global] Program Instance redis_store : TokenRevocationStore Redis := {|
  Auth.revoke := revoke; Auth.is_revoked := is_revoked; Auth.until := until |}.
Next Obligation.
  intros now j ttl r. cbn zeta. unfold revoke, outcome, after.
  destruct (Z.leb_spec ttl 0); cbn.
  { split; [done|]. split; [by left|lia]. }
  assert (∀ j', j' ≠ j → <[_key j := now + seconds_us ttl]> r.(keys) !! _key j' = r.(keys) !! _key j') as Hne.
  { intros j' Hj. apply lookup_insert_ne. intros E. by apply key_inj in E. }
  unfold command, until. destruct (head r.(fates)) as [[]|]; cbn; rewrite ?lookup_insert_eq; split_and!; auto; done.
Qed.
Next Obligation.
  intros now j r. cbn zeta. unfold is_revoked, command, until, outcome, after.
  destruct (head r.(fates)) as [[]|]; cbn; (split; [done|]); try done;
    (split; [intros e -> ?; by apply Z.ltb_lt|by intros ->]).
Qed.
End RedisLaws.

(** * The libraries *)

(** The claims of a token; they are texts, but for the role version, which can
    be any JSON value, and the expiry in seconds. *)
Inductive Json := JInt (z : Z) | JOther.
Record Claims := {
  sub : option string;
  uid : option string;
  role : option string;
  rv : option Json;
  exp : option Z;
  jti : option string;
  type : option string;
}.

Definition expired (now : Z) (c : Claims) : Prop := match c.(exp) with Some e => e < now / 1000000 | None => False end.

(** python-jose.  A decoded token has a valid signature and has not expired;
    what [encode] signs decodes with the same key until then; the unverified
    claims are the ones that decoding yields. *)
Class Jwt (T : Type) := {
  encode : string → string → Claims → T;
  decode : Z → string → T → option Claims;
  unverified_kid : T → option (option string);
  unverified_claims : T → option Claims;
  decode_not_expired : ∀ now k t c, decode now k t = Some c → ¬ expired now c;
  decode_encode : ∀ now k kid c, ¬ expired now c → decode now k (encode k kid c) = Some c;
  kid_encode : ∀ k kid c, unverified_kid (encode k kid c) = Some (Some kid);
  decode_unverified : ∀ now k t c, decode now k t = Some c → unverified_claims t = Some c;
}.

(** passlib, pyotp, uuid and hashlib; a natural number stands for the randomness
    drawn. *)
Class Crypto := {
  bcrypt_hash : nat → string → string;
  bcrypt_verify : string → string → bool;
  random_base32 : nat → string;
  totp_verify : Z → string → string → bool;
  uuid4 : nat → string;
  sha256_hex : string → string;
  uuid4_text : ∀ n, uuid4 n ≠ "";
}.

(** [settings.dashboard] *)
Record DashboardSettings := {
  secret_key : string;
  previous_secret_key : option string;
  access_token_expire_hours : Z;
  refresh_token_expire_days : Z;
}.

(** * The tables *)

Record User := {
  id : string;
  username : string;
  email : option string;
  password_hash : string;
  role_id : Z;
  role_version : Z;
  is_active : bool;
  is_locked : bool;
  failed_login_attempts : Z;
  totp_secret : option string;
  totp_enabled : bool;
  last_login_at : option Z;
}.

Record Tables := { users : gmap string User; roles : gmap Z string; audit_logs : list string }.

Definition with_users (f : gmap string User → gmap string User) (t : Tables) : Tables :=
  {| users := f t.(users); roles := t.(roles); audit_logs := t.(audit_logs) |}.
Definition with_audit (a : string) (t : Tables) : Tables :=
  {| users := t.(users); roles := t.(roles); audit_logs := t.(audit_logs) ++ [a] |}.

(** The unique columns *)
Definition distinct (u u' : User) : Prop :=
  u.(username) ≠ u'.(username) ∧ (u.(email) = None ∨ u.(email) ≠ u'.(email)).
#[global] Instance distinct_dec u u' : Decision (distinct u u').
Proof. unfold distinct. apply _. Defined.
Definition consistent (t : Tables) : bool :=
  bool_decide (map_Forall (λ k u, map_Forall (λ k' u', k = k' ∨ distinct u u') t.(users)) t.(users)).

Definition set_login_failure (u : User) : User := {|
  id := u.(id); username := u.(username); email := u.(email); password_hash := u.(password_hash);
  role_id := u.(role_id); role_version := u.(role_version); is_active := u.(is_active);
  is_locked := u.(is_locked) || (5 <=? u.(failed_login_attempts) + 1);
  failed_login_attempts := u.(failed_login_attempts) + 1; totp_secret := u.(totp_secret);
  totp_enabled := u.(totp_enabled); last_login_at := u.(last_login_at) |}.
Definition set_login_success (now : Z) (u : User) : User := {|
  id := u.(id); username := u.(username); email := u.(email); password_hash := u.(password_hash);
  role_id := u.(role_id); role_version := u.(role_version); is_active := u.(is_active);
  is_locked := u.(is_locked); failed_login_attempts := 0; totp_secret := u.(totp_secret);
  totp_enabled := u.(totp_enabled); last_login_at := Some now |}.
Definition set_totp (secret : option string) (enabled : bool) (u : User) : User := {|
  id := u.(id); username := u.(username); email := u.(email); password_hash := u.(password_hash);
  role_id := u.(role_id); role_version := u.(role_version); is_active := u.(is_active);
  is_locked := u.(is_locked); failed_login_attempts := u.(failed_login_attempts); totp_secret := secret;
  totp_enabled := enabled; last_login_at := u.(last_login_at) |}.
Definition set_attributes (new_email : option string) (new_active : option bool) (u : User) : User := {|
  id := u.(id); username := u.(username);
  email := match new_email with Some e => Some e | None => u.(email) end;
  password_hash := u.(password_hash); role_id := u.(role_id); role_version := u.(role_version);
  is_active := default u.(is_active) new_active; is_locked := u.(is_locked);
  failed_login_attempts := u.(failed_login_attempts); totp_secret := u.(totp_secret);
  totp_enabled := u.(totp_enabled); last_login_at := u.(last_login_at) |}.
Definition set_role (new_role : Z) (u : User) : User := {|
  id := u.(id); username := u.(username); email := u.(email); password_hash := u.(password_hash);
  role_id := new_role;
  role_version := if bool_decide (u.(role_id) = new_role) then u.(role_version) else u.(role_version) + 1;
  is_active := u.(is_active); is_locked := u.(is_locked);
  failed_login_attempts := u.(failed_login_attempts); totp_secret := u.(totp_secret);
  totp_enabled := u.(totp_enabled); last_login_at := u.(last_login_at) |}.
Definition set_password (hash : string) (u : User) : User := {|
  id := u.(id); username := u.(username); email := u.(email); password_hash := hash;
  role_id := u.(role_id); role_version := u.(role_version); is_active := u.(is_active);
  is_locked := false; failed_login_attempts := 0; totp_secret := u.(totp_secret);
  totp_enabled := u.(totp_enabled); last_login_at := u.(last_login_at) |}.
Definition set_locked (b : bool) (u : User) : User := {|
  id := u.(id); username := u.(username); email := u.(email); password_hash := u.(password_hash);
  role_id := u.(role_id); role_version := u.(role_version); is_active := u.(is_active);
  is_locked := b; failed_login_attempts := 0; totp_secret := u.(totp_secret);
  totp_enabled := u.(totp_enabled); last_login_at := u.(last_login_at) |}.

(** * The server *)

Inductive Exn :=
  | HTTPException (status_code : Z) (detail : string)
  | DatabaseError
  | AttributeError
  | Unavailable (e : RevocationBackendUnavailable).

Record APIResponse (A : Type) := { success : bool; data : option A; message : string }.
Arguments success {A} _.
Arguments data {A} _.
Arguments message {A} _.
Definition refused {A} (m : string) : APIResponse A := {| success := false; data := None; message := m |}.
Definition answered {A} (a : A) (m : string) : APIResponse A := {| success := true; data := Some a; message := m |}.

(** The Authorization header: its scheme and what follows *)
Record Header (T : Type) := { scheme : string; credentials : T }.
Arguments scheme {T} _.
Arguments credentials {T} _.

(** [faults]: which of the database's actions to come fail *)
Record Server (R : Type) := {
  committed : Tables;
  working : Tables;
  revocations : R;
  clock : Z;
  faults : list bool;
  draws : nat;
}.
Arguments committed {R} _.
Arguments working {R} _.
Arguments revocations {R} _.
Arguments clock {R} _.
Arguments faults {R} _.
Arguments draws {R} _.

Section Session.
Context {R : Type}.
Abbreviation Op := (M (Server R) Exn).

Definition set_tables (c w : Tables) (s : Server R) : Server R := {|
  committed := c; working := w; revocations := s.(revocations); clock := s.(clock);
  faults := s.(faults); draws := s.(draws) |}.
Definition set_revocations (r : R) (s : Server R) : Server R := {|
  committed := s.(committed); working := s.(working); revocations := r; clock := s.(clock);
  faults := s.(faults); draws := s.(draws) |}.
Definition set_faults (l : list bool) (s : Server R) : Server R := {|
  committed := s.(committed); working := s.(working); revocations := s.(revocations);
  clock := s.(clock); faults := l; draws := s.(draws) |}.
Definition drawn (s : Server R) : Server R := {|
  committed := s.(committed); working := s.(working); revocations := s.(revocations);
  clock := s.(clock); faults := s.(faults); draws := S s.(draws) |}.
Definition pass (dt : Z) (s : Server R) : Server R := {|
  committed := s.(committed); working := s.(working); revocations := s.(revocations);
  clock := s.(clock) + dt; faults := s.(faults); draws := s.(draws) |}.

Definition draw {A} (f : nat → A) : Op A := n ← gets draws; modify drawn ;; mret (f n).

Definition db_action : Op unit :=
  s ← get;
  modify (set_faults (tail s.(faults))) ;;
  if default false (head s.(faults)) then raise DatabaseError else mret tt.
Definition query {A} (f : Tables → A) : Op A := db_action ;; gets (f ∘ working).
Definition change (f : Tables → Tables) : Op unit := modify (λ s, set_tables s.(committed) (f s.(working)) s).
Definition set_user (u : User) : Op unit := change (with_users (insert u.(id) u)).
Definition commit : Op unit :=
  db_action ;;
  s ← get;
  if consistent s.(working) then modify (λ s, set_tables s.(working) s.(working) s) else raise DatabaseError.
Definition rollback : Op unit := modify (λ s, set_tables s.(committed) s.(committed) s).

(** [get_db_session] around a handler *)
Definition in_session {A} (handler : Op A) : Op A :=
  rollback ;;
  try_except (a ← handler; commit ;; mret a) (λ e, rollback ;; raise e).

(** [AuditLogger.log]: fail-open *)
Definition audit_log (action_type : string) : Op unit :=
  try_except (db_action ;; change (with_audit action_type) ;; commit) (λ _, rollback).

Definition find_user (user_id : string) (t : Tables) : option User := t.(users) !! user_id.
Definition find_username (name : string) (t : Tables) : option User :=
  head (filter (λ u, u.(username) = name) (map_to_list t.(users)).*2).
Definition find_role (name : string) (t : Tables) : option Z :=
  fst <$> head (filter (λ r, r.2 = name) (map_to_list t.(roles))).
Definition role_name (u : User) (t : Tables) : option string := t.(roles) !! u.(role_id).
End Session.

Section Service.
Context {R T : Type} {store : TokenRevocationStore R} {jwt : Jwt T} {crypto : Crypto} (settings : DashboardSettings).
Abbreviation Op := (M (Server R) Exn).

Definition unauthorized {A} (detail : string) : Op A := raise (HTTPException 401 detail).

(** The revocation store, its failures seen as [f] *)
Definition revocation {A} (f : RevocationBackendUnavailable → Exn) (m : Z → M R RevocationBackendUnavailable A) : Op A :=
  now ← gets clock;
  with_err f (zoom revocations set_revocations (m now)).

Definition _compute_kid (key : string) : string := String.substring 0 8 (sha256_hex key).

(** * AuthService *)

Definition no_claims (name user_id role_name : string) (version : Z) : Claims := {|
  sub := Some name; uid := Some user_id; role := Some role_name; rv := Some (JInt version);
  exp := None; jti := None; type := None |}.
Definition stamp (now lifetime : Z) (token_id token_type : string) (c : Claims) : Claims := {|
  sub := c.(sub); uid := c.(uid); role := c.(role); rv := c.(rv);
  exp := Some ((now + seconds_us lifetime) / 1000000); jti := Some token_id; type := Some token_type |}.

Definition sign (c : Claims) : T := encode settings.(secret_key) (_compute_kid settings.(secret_key)) c.
Definition create_access_token (c : Claims) : Op T :=
  now ← gets clock;
  token_id ← draw uuid4;
  mret (sign (stamp now (settings.(access_token_expire_hours) * 3600) token_id "access" c)).
Definition create_refresh_token (c : Claims) : Op T :=
  now ← gets clock;
  token_id ← draw uuid4;
  mret (sign (stamp now (settings.(refresh_token_expire_days) * 86400) token_id "refresh" c)).

Definition _resolve_key_for_verification (token : T) : string :=
  let current_key := settings.(secret_key) in
  match unverified_kid token with
  | None | Some None => current_key
  | Some (Some token_kid) =>
      if bool_decide (token_kid = _compute_kid current_key) then current_key else
      match settings.(previous_secret_key) with
      | Some previous_key =>
          if negb (bool_decide (previous_key = "")) && bool_decide (token_kid = _compute_kid previous_key)
          then previous_key else current_key
      | None => current_key
      end
  end.

(** [if jti:] and the like: a text that is there and not empty *)
Definition text (o : option string) : option string :=
  match o with Some s => if bool_decide (s = "") then None else Some s | None => None end.

Definition verify_token (token : T) : Op Claims :=
  now ← gets clock;
  match decode now (_resolve_key_for_verification token) token with
  | None => unauthorized "Invalid authentication credentials"
  | Some payload =>
      match text payload.(jti) with
      | None => mret payload
      | Some j =>
          revoked ← revocation (λ _, HTTPException 503 "Session store unavailable") (λ now, is_revoked now j);
          if revoked : bool then unauthorized "Token has been revoked" else mret payload
      end
  end.

Definition token_ttl (now_ts : Z) (payload : Claims) : Z :=
  match payload.(exp) with
  | Some e => Z.max (e - now_ts + 60) 60
  | None => settings.(refresh_token_expire_days) * 86400
  end.
(** [None] is a text that is no token. *)
Definition revoke_token (token : option T) : Op (option string) :=
  match token ≫= unverified_claims with
  | None => mret None
  | Some payload =>
      match text payload.(jti) with
      | None => mret None
      | Some j =>
          revocation Unavailable (λ now, revoke now j (token_ttl (now / 1000000) payload)) ;;
          mret (Some j)
      end
  end.

Definition authenticate (name password : string) (totp_code : option string) : Op (T * T) :=
  user ← try_except (query (find_username name)) (λ _, raise (HTTPException 500 "Database error"));
  match user with
  | None => unauthorized "Invalid username or password"
  | Some u =>
      if negb u.(is_active) then unauthorized "User account is inactive" else
      if u.(is_locked) then raise (HTTPException 403 "User account is locked. Contact administrator.") else
      if negb (bcrypt_verify password u.(password_hash)) then
        set_user (set_login_failure u) ;;
        commit ;;
        unauthorized "Invalid username or password"
      else
      now ← gets clock;
      (if u.(totp_enabled) then
         match text totp_code with
         | None => unauthorized "TOTP code required"
         | Some code =>
             match text u.(totp_secret) with
             | Some secret => if totp_verify now secret code then mret tt else unauthorized "Invalid TOTP code"
             | None => unauthorized "Invalid TOTP code"
             end
         end
       else mret tt) ;;
      set_user (set_login_success now u) ;;
      commit ;;
      t ← gets working;
      match role_name u t with
      | None => raise AttributeError
      | Some r =>
          access ← create_access_token (no_claims u.(username) u.(id) r u.(role_version));
          refresh ← create_refresh_token (no_claims u.(username) u.(id) r u.(role_version));
          mret (access, refresh)
      end
  end.

Record AuthenticatedUser := { au_id : string; au_username : string; au_role : string }.

(** [HTTPBearer(auto_error=False)] accepts the scheme in any case. *)
Definition lower_ascii (a : Ascii.ascii) : Ascii.ascii :=
  let n := Ascii.nat_of_ascii a in
  if (Nat.leb 65 n && Nat.leb n 90)%bool then Ascii.ascii_of_nat (n + 32) else a.
Fixpoint lower (s : string) : string :=
  match s with "" => "" | String a s' => String (lower_ascii a) (lower s') end.
Definition bearer (h : option (Header T)) : option T :=
  match h with
  | Some h => if bool_decide (lower h.(scheme) = "bearer") then Some h.(credentials) else None
  | None => None
  end.

Definition get_current_user (h : option (Header T)) : Op AuthenticatedUser :=
  match bearer h with
  | None => unauthorized "Not authenticated"
  | Some token =>
      payload ← verify_token token;
      let token_role := default "viewer" payload.(role) in
      match text payload.(sub), text payload.(uid) with
      | Some _, Some user_id =>
          user ← try_except (query (λ t, u ← find_user user_id t; Some (u, role_name u t)))
                   (λ _, raise (HTTPException 503 "User store unavailable"));
          match user with
          | None => unauthorized "User no longer exists"
          | Some (u, current_role) =>
              if negb u.(is_active) then unauthorized "User account is inactive" else
              if u.(is_locked) then raise (HTTPException 403 "User account is locked. Contact administrator.") else
              match current_role with
              | None => unauthorized "User role missing"
              | Some r =>
                  if negb (bool_decide (r = token_role))
                  then unauthorized "User role has changed; please re-authenticate" else
                  match payload.(rv) with
                  | Some (JInt v) =>
                      if v =? u.(role_version)
                      then mret {| au_id := u.(id); au_username := u.(username); au_role := r |}
                      else unauthorized "ROLE_VERSION_MISMATCH"
                  | _ => unauthorized "ROLE_VERSION_MISMATCH"
                  end
              end
          end
      | _, _ => unauthorized "Invalid authentication credentials"
      end
  end.

(** * rbac.py *)

Definition require_roles (allowed_roles : list string) (h : option (Header T)) : Op AuthenticatedUser :=
  current_user ← get_current_user h;
  if bool_decide (current_user.(au_role) ∈ allowed_roles) then mret current_user
  else raise (HTTPException 403 "Insufficient permissions for this action").
Definition require_viewer := require_roles ["viewer"; "operator"; "admin"].
Definition require_operator := require_roles ["operator"; "admin"].
Definition require_admin := require_roles ["admin"].

(** * api/routes/auth.py *)

Record TokenResponse := { access_token : T; new_refresh_token : T; expires_in : Z }.

Definition login (name password : string) (totp_code : option string) : Op (APIResponse TokenResponse) :=
  try_except
    (tokens ← authenticate name password totp_code;
     audit_log "LOGIN_SUCCESS" ;;
     mret (answered {| access_token := tokens.1; new_refresh_token := tokens.2;
                       expires_in := settings.(access_token_expire_hours) * 3600 |} "logged in"))
    (λ e, audit_log "LOGIN_FAILED" ;; raise e).

Definition refresh_token (token : T) : Op (APIResponse TokenResponse) :=
  payload ← verify_token token;
  if negb (bool_decide (payload.(type) = Some "refresh")) then unauthorized "INVALID_TOKEN_TYPE" else
  match payload.(rv) with
  | Some (JInt token_rv) =>
      db_user ← try_except
        (query (λ t, u ← payload.(uid) ≫= λ i, find_user i t; Some (u, role_name u t)))
        (λ _, raise (HTTPException 503 "USER_STORE_UNAVAILABLE"));
      match db_user with
      | Some (u, Some r) =>
          if negb (u.(role_version) =? token_rv) then unauthorized "ROLE_VERSION_MISMATCH" else
          new_access ← create_access_token (no_claims u.(username) u.(id) r u.(role_version));
          new_refresh ← create_refresh_token (no_claims u.(username) u.(id) r u.(role_version));
          mret (answered {| access_token := new_access; new_refresh_token := new_refresh;
                            expires_in := settings.(access_token_expire_hours) * 3600 |} "refreshed")
      | _ => unauthorized "ROLE_VERSION_MISMATCH"
      end
  | _ => unauthorized "ROLE_VERSION_MISMATCH"
  end.

(** [auth_header.replace("Bearer ", "")]: what is left of a header of any other
    spelling still has a space and is no token. *)
Definition logout_token (h : option (Header T)) : option T :=
  match h with
  | Some h => if bool_decide (h.(scheme) = "Bearer") then Some h.(credentials) else None
  | None => None
  end.
Definition logout (h : option (Header T)) : Op (APIResponse (option string)) :=
  get_current_user h ;;
  revoked ← revoke_token (logout_token h);
  audit_log "LOGIN_LOGOUT" ;;
  mret (answered revoked "logged out").

Definition mfa_enroll (h : option (Header T)) : Op (APIResponse string) :=
  current_user ← get_current_user h;
  secret ← draw random_base32;
  user ← query (find_user current_user.(au_id));
  match user with
  | Some u => set_user (set_totp (Some secret) u.(totp_enabled) u) ;; commit
  | None => mret tt
  end ;;
  mret (answered secret "TOTP secret generated").

Definition mfa_verify (h : option (Header T)) (code : string) : Op (APIResponse bool) :=
  current_user ← get_current_user h;
  now ← gets clock;
  user ← query (find_user current_user.(au_id));
  match user with
  | Some u =>
      match text u.(totp_secret) with
      | None => mret (refused "TOTP enrollment not started. Call /mfa/enroll first.")
      | Some secret =>
          if negb (totp_verify now secret code) then mret (refused "Invalid TOTP code") else
          set_user (set_totp u.(totp_secret) true u) ;;
          commit ;;
          audit_log "MFA_ENROLLED" ;;
          mret (answered true "enabled")
      end
  | None => mret (refused "TOTP enrollment not started. Call /mfa/enroll first.")
  end.

Definition mfa_disable (h : option (Header T)) (password : string) : Op (APIResponse bool) :=
  current_user ← get_current_user h;
  user ← query (find_user current_user.(au_id));
  match user with
  | Some u =>
      if negb (bcrypt_verify password u.(password_hash)) then mret (refused "Incorrect password") else
      set_user (set_totp None false u) ;;
      commit ;;
      audit_log "MFA_DISABLED" ;;
      mret (answered false "disabled")
  | None => mret (refused "User not found")
  end.

(** * api/routes/users.py *)

(** [except Exception: raise_api_error(500, USER_STORE_UNAVAILABLE, ...)] *)
Definition guarded {A} (m : Op A) : Op A := try_except m (λ _, raise (HTTPException 500 "USER_STORE_UNAVAILABLE")).

(** INSERT: the primary key is unique, too. *)
Definition insert_user (u : User) : Op unit :=
  taken ← gets (λ s, bool_decide (is_Some (s.(working).(users) !! u.(id))));
  if taken : bool then raise DatabaseError else set_user u.

Definition create_user (h : option (Header T)) (name password : string) (mail : option string) (role_wanted : string)
  : Op (APIResponse string) :=
  require_admin h ;;
  guarded (
    found_role ← query (find_role role_wanted);
    match found_role with
    | None => mret (refused "Invalid role")
    | Some r =>
        existing ← query (find_username name);
        match existing with
        | Some _ => mret (refused "Username already exists")
        | None =>
            new_id ← draw uuid4;
            hash ← draw (λ n, bcrypt_hash n password);
            insert_user {| id := new_id; username := name; email := mail; password_hash := hash; role_id := r;
                           role_version := 0; is_active := true; is_locked := false; failed_login_attempts := 0;
                           totp_secret := None; totp_enabled := false; last_login_at := None |} ;;
            commit ;;
            audit_log "USER_CREATED" ;;
            mret (answered new_id "User created successfully")
        end
    end).

Definition update_user (h : option (Header T)) (user_id : string) (new_email : option string)
    (new_active : option bool) (new_role : option string) : Op (APIResponse unit) :=
  require_admin h ;;
  guarded (
    user ← query (find_user user_id);
    match user with
    | None => mret (refused "User not found")
    | Some u =>
        let u1 := set_attributes new_email new_active u in
        set_user u1 ;;
        role_found ← match new_role with
          | None => mret (Some u1)
          | Some name => found ← query (find_role name); mret (r ← found; Some (set_role r u1))
          end;
        match role_found with
        | None => mret (refused "Invalid role")
        | Some u2 =>
            set_user u2 ;;
            match new_role, new_email, new_active with
            | None, None, None => mret tt
            | _, _, _ => commit ;; audit_log "USER_UPDATED"
            end ;;
            mret (answered tt "User updated")
        end
    end).

Definition reset_password (h : option (Header T)) (user_id new_password : string) : Op (APIResponse bool) :=
  require_admin h ;;
  guarded (
    user ← query (find_user user_id);
    match user with
    | None => mret (refused "User not found")
    | Some u =>
        hash ← draw (λ n, bcrypt_hash n new_password);
        set_user (set_password hash u) ;;
        commit ;;
        audit_log "PASSWORD_RESET" ;;
        mret (answered true "Password reset successfully")
    end).

Definition lock_user (h : option (Header T)) (user_id : string) (lock : bool) : Op (APIResponse bool) :=
  require_admin h ;;
  guarded (
    user ← query (find_user user_id);
    match user with
    | None => mret (refused "User not found")
    | Some u =>
        set_user (set_locked lock u) ;;
        commit ;;
        audit_log (if lock then "USER_LOCKED" else "USER_UNLOCKED") ;;
        mret (answered lock "done")
    end).

Definition delete_user (h : option (Header T)) (user_id : string) : Op (APIResponse bool) :=
  current_user ← require_admin h;
  guarded (
    user ← query (find_user user_id);
    match user with
    | None => mret (refused "User not found")
    | Some u =>
        if bool_decide (u.(id) = current_user.(au_id)) then mret (refused "Cannot delete your own account") else
        set_user (set_attributes None (Some false) u) ;;
        commit ;;
        audit_log "USER_DELETED" ;;
        mret (answered true "User deleted (deactivated) successfully")
    end).

(** * Runs *)

Inductive Request :=
  | Login (name password : string) (totp_code : option string)
  | Refresh (token : T)
  | Logout (h : option (Header T))
  | Call (h : option (Header T)) (allowed_roles : list string)
  | MfaEnroll (h : option (Header T))
  | MfaVerify (h : option (Header T)) (code : string)
  | MfaDisable (h : option (Header T)) (password : string)
  | CreateUser (h : option (Header T)) (name password : string) (mail : option string) (role_wanted : string)
  | UpdateUser (h : option (Header T)) (user_id : string) (new_email : option string)
      (new_active : option bool) (new_role : option string)
  | ResetPassword (h : option (Header T)) (user_id new_password : string)
  | LockUser (h : option (Header T)) (user_id : string) (lock : bool)
  | DeleteUser (h : option (Header T)) (user_id : string)
  | Wait (dt : N).

(** A request, its response forgotten *)
Definition serve (r : Request) (s : Server R) : Server R :=
  match r with
  | Login name password totp_code => after (in_session (login name password totp_code)) s
  | Refresh token => after (in_session (refresh_token token)) s
  | Logout h => after (in_session (logout h)) s
  | Call h allowed_roles => after (in_session (require_roles allowed_roles h)) s
  | MfaEnroll h => after (in_session (mfa_enroll h)) s
  | MfaVerify h code => after (in_session (mfa_verify h code)) s
  | MfaDisable h password => after (in_session (mfa_disable h password)) s
  | CreateUser h name password mail role_wanted => after (in_session (create_user h name password mail role_wanted)) s
  | UpdateUser h user_id new_email new_active new_role =>
      after (in_session (update_user h user_id new_email new_active new_role)) s
  | ResetPassword h user_id new_password => after (in_session (reset_password h user_id new_password)) s
  | LockUser h user_id lock => after (in_session (lock_user h user_id lock)) s
  | DeleteUser h user_id => after (in_session (delete_user h user_id)) s
  | Wait dt => pass (Z.of_N dt) s
  end.

(** * Invariants of the server

    [U] holds of every user, [K] of the clock and the revocation store, whatever
    requests come in; [A] holds of the tokens that are logged out. *)

Section Invariants.
Context (U : User → Prop) (K : Z → R → Prop) (A : T → Prop) (pinned : option string).
Context (U_failure : ∀ u, U u → u.(is_locked) = false → U (set_login_failure u))
  (U_success : ∀ now u, U u → U (set_login_success now u))
  (U_totp : ∀ x b u, U u → U (set_totp x b u))
  (U_attributes : ∀ e a u, U u → U (set_attributes e a u))
  (U_role : ∀ r u, U u → U (set_role r u))
  (U_password : ∀ p u, U u → U (set_password p u))
  (U_locked : ∀ b u, U u → U (set_locked b u))
  (U_new : ∀ u, pinned ≠ Some u.(id) → u.(role_version) = 0 → u.(failed_login_attempts) = 0 → U u)
  (K_revoked : ∀ now j r, K now r → K now (after (is_revoked now j) r))
  (K_revoke : ∀ t c j now r, A t → unverified_claims t = Some c → text c.(jti) = Some j →
     K now r → K now (after (revoke now j (token_ttl (now / 1000000) c)) r))
  (K_wait : ∀ now dt r, 0 ≤ dt → K now r → K (now + dt) r).

Definition users_ok (t : Tables) : Prop :=
  (∀ k u, t.(users) !! k = Some u → u.(id) = k ∧ U u) ∧ (∀ k, pinned = Some k → is_Some (t.(users) !! k)).
Definition server_ok (s : Server R) : Prop :=
  users_ok s.(committed) ∧ users_ok s.(working) ∧ K s.(clock) s.(revocations).

Abbreviation keep := (keeps server_ok).
Abbreviation anything := (λ _, True).

Lemma keep_action : keep anything db_action.
Proof.
  unfold db_action. eapply (keeps_bind _ _ _ anything); [by apply keeps_gets|intros s _].
  eapply (keeps_bind _ _ _ anything); [by apply keeps_modify|intros _ _].
  case_match; [apply keeps_raise|by apply keeps_ret].
Qed.

Lemma keep_query {B} (f : Tables → B) (Q : B → Prop) : (∀ t, users_ok t → Q (f t)) → keep Q (query f).
Proof.
  intros HQ. eapply keeps_bind; [apply keep_action|intros _ _].
  apply keeps_gets. intros s (_&Hw&_). by apply HQ.
Qed.

Lemma keep_change f : (∀ t, users_ok t → users_ok (f t)) → keep anything (change f).
Proof. intros Hf. apply keeps_modify. intros s (Hc&Hw&HK). split_and!; [done|by apply Hf|done]. Qed.

Lemma users_ok_insert u t : U u → users_ok t → users_ok (with_users (insert u.(id) u) t).
Proof.
  intros Hu [Hall Hpin]. split; cbn.
  - intros k u' Hk. destruct (decide (u.(id) = k)) as [<-|Hne].
    + rewrite lookup_insert_eq in Hk. by simplify_eq.
    + rewrite lookup_insert_ne in Hk by done. by apply Hall.
  - intros k Hk. destruct (decide (u.(id) = k)) as [<-|Hne].
    + rewrite lookup_insert_eq. by eexists.
    + rewrite lookup_insert_ne by done. by apply Hpin.
Qed.

Lemma keep_set_user u : U u → keep anything (set_user u).
Proof. intros Hu. apply keep_change. intros t. by apply users_ok_insert. Qed.

Lemma keep_insert_user u : u.(role_version) = 0 → u.(failed_login_attempts) = 0 → keep anything (insert_user u).
Proof.
  intros Hv Hf s Hs. unfold insert_user. run_m. case_bool_decide as Hin; cbn; [done|].
  apply keep_set_user; [|done]. apply U_new; [|done..]. intros Hp.
  destruct Hs as (_&[_ Hpin]&_). by apply Hin, Hpin.
Qed.

Lemma keep_commit : keep anything commit.
Proof.
  unfold commit. eapply keeps_bind; [apply keep_action|intros _ _].
  intros s Hs. run_m. destruct (consistent s.(working)); [|done].
  destruct Hs as (_&Hw&HK). by split_and!.
Qed.

Lemma keep_rollback : keep anything rollback.
Proof. apply keeps_modify. intros s (Hc&_&HK). by split_and!. Qed.

Lemma keep_audit a : keep anything (audit_log a).
Proof.
  apply keeps_try; [|intros _; apply keep_rollback].
  eapply keeps_bind; [apply keep_action|intros _ _].
  eapply keeps_bind; [by apply keep_change|intros _ _]. apply keep_commit.
Qed.

Lemma keep_draw {B} (f : nat → B) : keep anything (draw f).
Proof.
  eapply (keeps_bind _ _ _ anything); [by apply keeps_gets|intros n _].
  eapply keeps_bind; [by apply keeps_modify|intros _ _]. by apply keeps_ret.
Qed.

Lemma keep_revocation {B} f (m : Z → M R RevocationBackendUnavailable B) :
  (∀ now r, K now r → K now (after (m now) r)) → keep anything (revocation f m).
Proof.
  intros Hm s (Hc&Hw&HK). split; [|done]. specialize (Hm _ _ HK). unfold revocation, after in *. run_m.
  by destruct (m s.(clock) s.(revocations)) as [[b|e] r']; split_and!.
Qed.

Definition holds_U (o : option User) : Prop := ∀ u, o = Some u → U u.

Lemma keep_find k : keep holds_U (query (find_user k)).
Proof. apply keep_query. intros t [Hall _] u Hu. by apply (Hall k u Hu). Qed.

Lemma keep_find_username name : keep holds_U (query (find_username name)).
Proof.
  apply keep_query. intros t [Hall _] u Hu. unfold find_username in Hu. apply head_Some_elem_of in Hu.
  apply list_elem_of_filter in Hu as [_ Hu]. apply list_elem_of_fmap in Hu as ([k u'] & -> & Hin).
  apply elem_of_map_to_list in Hin. by apply (Hall k u' Hin).
Qed.

Lemma keep_read {B} (f : Tables → B) : keep anything (query f).
Proof. by apply keep_query. Qed.

Lemma keep_clock : keep anything (gets (E:=Exn) clock).
Proof. by apply keeps_gets. Qed.

Lemma keep_working : keep anything (gets (E:=Exn) working).
Proof. by apply keeps_gets. Qed.

(** Takes a handler apart; the users it reads satisfy [U]. *)
Ltac keep_known :=
  first [apply keep_find | apply keep_find_username | apply keep_read | apply keep_clock | apply keep_working
    | apply keep_commit | apply keep_rollback | apply keep_audit | apply keep_draw | apply keeps_raise
    | apply keeps_try; [first [apply keep_find | apply keep_find_username]|intros ?; apply keeps_raise]
    | by apply keeps_ret | by auto].
Ltac solve_U :=
  repeat match goal with
  | |- U (set_login_failure _) => apply U_failure; [|assumption]
  | |- U (set_login_success _ _) => apply U_success
  | |- U (set_totp _ _ _) => apply U_totp
  | |- U (set_attributes _ _ _) => apply U_attributes
  | |- U (set_role _ _) => apply U_role
  | |- U (set_password _ _) => apply U_password
  | |- U (set_locked _ _) => apply U_locked
  | H : holds_U ?o, E : ?o = Some ?u |- U ?u => exact (H u E)
  end.
Ltac keep_step :=
  lazymatch goal with
  | |- keeps _ _ (_ ≫= _) =>
      first [eapply keeps_bind; [solve [keep_known]|intros ? ?]
        | eapply (keeps_bind _ _ _ anything); [|intros ? _]]
  | |- keeps _ _ (try_except _ _) => apply keeps_try; [|intros ?]
  | |- keeps _ _ (match ?x with _ => _ end) => destruct x eqn:?
  | |- keeps _ _ (when _ _) => apply keeps_when
  | |- keeps _ _ (set_user _) => apply keep_set_user; solve_U
  | _ => solve [keep_known]
  end.
Ltac keep_all := unfold unauthorized, guarded; repeat keep_step.

Lemma keep_verify token : keep anything (verify_token token).
Proof.
  unfold verify_token. keep_all. apply keep_revocation. intros. by apply K_revoked.
Qed.

Lemma keep_current_user h : keep anything (get_current_user h).
Proof. unfold get_current_user. pose proof keep_verify. keep_all. Qed.

Lemma keep_roles allowed_roles h : keep anything (require_roles allowed_roles h).
Proof. unfold require_roles. pose proof keep_current_user. keep_all. Qed.

Lemma keep_access c : keep anything (create_access_token c).
Proof. unfold create_access_token. keep_all. Qed.
Lemma keep_refresh c : keep anything (create_refresh_token c).
Proof. unfold create_refresh_token. keep_all. Qed.

Lemma keep_authenticate name password code : keep anything (authenticate name password code).
Proof.
  unfold authenticate. pose proof keep_access. pose proof keep_refresh. keep_all.
Qed.

Lemma keep_login name password code : keep anything (login name password code).
Proof. unfold login. pose proof keep_authenticate. keep_all. Qed.

Lemma keep_refresh_token token : keep anything (refresh_token token).
Proof. unfold refresh_token. pose proof keep_access. pose proof keep_refresh. pose proof keep_verify. keep_all. Qed.

Lemma keep_logout h : (∀ t, logout_token h = Some t → A t) → keep anything (logout h).
Proof.
  intros HA. unfold logout, revoke_token. pose proof keep_current_user. keep_all.
  apply keep_revocation. intros now r.
  lazymatch goal with E : logout_token h ≫= _ = Some ?c |- _ =>
    apply bind_Some in E as (t & Ht & Hc); apply (K_revoke t); auto end.
Qed.

Lemma keep_mfa_enroll h : keep anything (mfa_enroll h).
Proof. unfold mfa_enroll. pose proof keep_current_user. keep_all. Qed.
Lemma keep_mfa_verify h code : keep anything (mfa_verify h code).
Proof. unfold mfa_verify. pose proof keep_current_user. keep_all. Qed.
Lemma keep_mfa_disable h password : keep anything (mfa_disable h password).
Proof. unfold mfa_disable. pose proof keep_current_user. keep_all. Qed.

Lemma keep_create_user h name password mail role_wanted : keep anything (create_user h name password mail role_wanted).
Proof.
  unfold create_user, require_admin. pose proof keep_roles. keep_all. by apply keep_insert_user.
Qed.
Lemma keep_update_user h user_id e a r : keep anything (update_user h user_id e a r).
Proof.
  unfold update_user, guarded. eapply keeps_bind; [apply keep_roles|intros _ _].
  apply keeps_try; [|intros ?; apply keeps_raise].
  eapply keeps_bind; [apply keep_find|intros [u|] Hu]; [|by apply keeps_ret]. specialize (Hu u eq_refl).
  keep_step; [by apply keep_set_user, U_attributes|].
  eapply (keeps_bind _ _ _ holds_U); [|intros role_found Hrole; keep_all].
  destruct r as [name|]; [|apply keeps_ret; intros ? [= <-]; by apply U_attributes].
  eapply keeps_bind; [apply keep_read|intros found _]. apply keeps_ret. intros u2 Hu2.
  destruct found; simplify_eq/=. by apply U_role, U_attributes.
Qed.
Lemma keep_reset_password h user_id password : keep anything (reset_password h user_id password).
Proof. unfold reset_password, require_admin. pose proof keep_roles. keep_all. Qed.
Lemma keep_lock_user h user_id lock : keep anything (lock_user h user_id lock).
Proof. unfold lock_user, require_admin. pose proof keep_roles. keep_all. Qed.
Lemma keep_delete_user h user_id : keep anything (delete_user h user_id).
Proof. unfold delete_user, require_admin. pose proof keep_roles. keep_all. Qed.

Lemma session_ok {B} (handler : Op B) s :
  keep anything handler → server_ok s → server_ok (after (in_session handler) s).
Proof.
  intros Hh Hs. unfold in_session. eapply keeps_preserves; [|done].
  eapply keeps_bind; [apply keep_rollback|intros _ _]. keep_all.
Qed.

Definition logged_out (r : Request) : option T := match r with Logout h => logout_token h | _ => None end.

Lemma serve_ok r s : (∀ t, logged_out r = Some t → A t) → server_ok s → server_ok (serve r s).
Proof.
  intros HA Hs. destruct r; cbn [serve].
  1: apply session_ok, Hs; apply keep_login.
  1: apply session_ok, Hs; apply keep_refresh_token.
  1: apply session_ok, Hs; by apply keep_logout.
  1: apply session_ok, Hs; apply keep_roles.
  1: apply session_ok, Hs; apply keep_mfa_enroll.
  1: apply session_ok, Hs; apply keep_mfa_verify.
  1: apply session_ok, Hs; apply keep_mfa_disable.
  1: apply session_ok, Hs; apply keep_create_user.
  1: apply session_ok, Hs; apply keep_update_user.
  1: apply session_ok, Hs; apply keep_reset_password.
  1: apply session_ok, Hs; apply keep_lock_user.
  1: apply session_ok, Hs; apply keep_delete_user.
  destruct Hs as (?&?&?). split_and!; [done..|]. apply K_wait; [lia|done].
Qed.

Lemma run_ok l s : Forall (λ r, ∀ t, logged_out r = Some t → A t) l → server_ok s → server_ok (run_ops serve l s).
Proof.
  unfold run_ops. intros Hl. revert s. induction Hl as [|r l Hr Hl IH]; intros s Hs; cbn; [done|].
  by apply IH, serve_ok.
Qed.
End Invariants.

(** ** Access *)

(** What [verify_token] demands of a token *)
Definition valid_token (s : Server R) (t : T) (c : Claims) : Prop :=
  decode s.(clock) (_resolve_key_for_verification t) t = Some c ∧
  ∀ j, text c.(jti) = Some j → outcome (is_revoked s.(clock) j) s.(revocations) = Ok false.

Definition refusal (codes : list Z) (e : Exn) : Prop := ∃ code d, e = HTTPException code d ∧ code ∈ codes.

Lemma refusal_intro codes code d : code ∈ codes → refusal codes (HTTPException code d).
Proof. intros Hx. by exists code, d. Qed.
Ltac by_refusal := apply refusal_intro; set_solver.

(** [verify_token] leaves the tables alone, and its refusals are 401 or 503. *)
Lemma verify_token_cases t s :
  let '(r, s') := verify_token t s in
  s' = set_revocations s'.(revocations) s ∧
  match r with
  | Ok c => valid_token s t c
  | Err e => (∀ c, ¬ valid_token s t c) ∧ refusal [401; 503] e
  end.
Proof.
  unfold verify_token, valid_token, revocation, unauthorized. run_m.
  destruct (decode _ _ _) as [c|].
  2:{ split; [by destruct s|]. split; [by intros c [[=] _]|by_refusal]. }
  destruct (text c.(jti)) as [j|] eqn:Ej.
  2:{ split; [by destruct s|]. split; [done|]. intros j. by rewrite Ej. }
  destruct (is_revoked s.(clock) j s.(revocations)) as [r r'] eqn:Er.
  destruct r as [[]|e]; cbn; (split; [done|]).
  1, 3: split; [|by_refusal]; intros c' [[= <-] Hx]; specialize (Hx j Ej); by rewrite Er in Hx.
  split; [done|]. intros j' Hj'. assert (j' = j) as -> by congruence. by rewrite Er.
Qed.

(** Who a request speaks for *)
Definition speaks_for (s : Server R) (h : option (Header T)) (u : User) (r : string) : Prop :=
  ∃ t c user_id, bearer h = Some t ∧ valid_token s t c ∧ is_Some (text c.(sub)) ∧ text c.(uid) = Some user_id ∧
    default false (head s.(faults)) = false ∧ s.(working).(users) !! user_id = Some u ∧
    u.(is_active) = true ∧ u.(is_locked) = false ∧
    role_name u s.(working) = Some r ∧ default "viewer" c.(role) = r ∧ c.(rv) = Some (JInt u.(role_version)).

Definition undisturbed (s s' : Server R) : Prop := s'.(committed) = s.(committed) ∧ s'.(working) = s.(working).

Ltac refuse Hrefuse Hdet :=
  apply Hrefuse; [let u := fresh in let r := fresh in let Hx := fresh in
    intros u r Hx; destruct (Hdet u r Hx) as ([? ?]&?&?&?&?&?&?&?&?&?); congruence | by_refusal].

Lemma get_current_user_cases h s :
  let '(r, s') := get_current_user h s in
  undisturbed s s' ∧
  match r with
  | Ok au => ∃ u, speaks_for s h u au.(au_role) ∧ au.(au_id) = u.(id) ∧ au.(au_username) = u.(username)
  | Err e => (∀ u r, ¬ speaks_for s h u r) ∧ refusal [401; 403; 503] e
  end.
Proof.
  unfold get_current_user, unauthorized. destruct (bearer h) as [t|] eqn:Eb.
  2:{ run_m. split; [done|]. split; [|by_refusal]. intros u r (t&?&?&?&_). congruence. }
  pose proof (verify_token_cases t s) as Hv. run_m. destruct (verify_token t s) as [[c|e] s'].
  2:{ destruct Hv as (->&Hno&code&d&->&Hc). split; [done|]. split; [|by_refusal].
      intros u r (t'&c&?&?&?&_). simplify_eq. by apply (Hno c). }
  destruct Hv as (Hs&Hv).
  assert (∀ u r, speaks_for s h u r → is_Some (text c.(sub)) ∧ default false (head s.(faults)) = false ∧
    ∃ k, text c.(uid) = Some k ∧ s.(working).(users) !! k = Some u ∧ u.(is_active) = true ∧ u.(is_locked) = false ∧
    role_name u s.(working) = Some r ∧ default "viewer" c.(role) = r ∧ c.(rv) = Some (JInt u.(role_version))) as Hdet.
  { intros u r (t'&c'&k&Ht&[Hd _]&?). simplify_eq. destruct Hv as [Hd' _]. assert (c' = c) as -> by congruence.
    destruct_and!. split_and!; [done..|]. by exists k. }
  assert (undisturbed s s') as Hu by by rewrite Hs.
  assert (s'.(faults) = s.(faults)) as Hfaults by by rewrite Hs.
  assert (s'.(working) = s.(working)) as Hwork by by rewrite Hs.
  assert (∀ e, (∀ u r, speaks_for s h u r → False) → refusal [401; 403; 503] e →
     undisturbed s s' ∧ (∀ u r, ¬ speaks_for s h u r) ∧ refusal [401; 403; 503] e) as Hrefuse.
  { intros e Hno He. split; [done|]. by split. }
  destruct (text c.(sub)) as [n|] eqn:En; [|refuse Hrefuse Hdet].
  destruct (text c.(uid)) as [k|] eqn:Ek; [|refuse Hrefuse Hdet].
  unfold query, db_action. run_m. rewrite Hfaults.
  destruct (default false (head s.(faults))) eqn:Ef; [refuse Hrefuse Hdet|].
  unfold find_user. cbn. rewrite Hwork.
  destruct (s.(working).(users) !! k) as [u|] eqn:Eu; cbn; [|refuse Hrefuse Hdet].
  destruct (is_active u) eqn:Ea; cbn; [|refuse Hrefuse Hdet].
  destruct (is_locked u) eqn:El; cbn; [refuse Hrefuse Hdet|].
  unfold role_name in *. destruct (s.(working).(roles) !! _) as [r|] eqn:Er; [|refuse Hrefuse Hdet].
  case_bool_decide as Hrole; cbn; [|refuse Hrefuse Hdet].
  destruct (c.(rv)) as [[v|]|] eqn:Erv; cbn; [|refuse Hrefuse Hdet..].
  destruct (Z.eqb_spec v u.(role_version)) as [->|Hne]; cbn; [|refuse Hrefuse Hdet].
  split; [done|]. exists u. split; [|done]. exists t, c, k. rewrite En. by split_and!.
Qed.

(** C6. Who gets past [require_roles]: exactly the requests whose bearer token has
    a valid signature, has not expired or been revoked, and names a user who
    exists, is active and unlocked and whose role and role version are now what
    the token says, if the role is among the allowed ones.  Everybody else gets a
    401, 403 or 503, and the tables stay as they are. *)
Theorem access_is_checked (allowed_roles : list string) (h : option (Header T)) (s : Server R) :
  let '(r, s') := require_roles allowed_roles h s in
  undisturbed s s' ∧
  match r with
  | Ok au => ∃ u, speaks_for s h u au.(au_role) ∧ au.(au_role) ∈ allowed_roles ∧
      au.(au_id) = u.(id) ∧ au.(au_username) = u.(username)
  | Err e => (∀ u r, speaks_for s h u r → r ∉ allowed_roles) ∧ refusal [401; 403; 503] e
  end.
Proof.
  pose proof (get_current_user_cases h s) as Hc. unfold require_roles. run_m.
  destruct (get_current_user h s) as [[au|e] s1].
  - destruct Hc as (Hu&u&Hs&?&?). case_bool_decide as Hin; (split; [done|]); [by exists u|].
    split; [|by_refusal]. intros u' r Hs'.
    destruct Hs as (t&c&k&Ht&[Hd _]&_&Hk&_&Hu1&_&_&Hr&_), Hs' as (t'&c'&k'&Ht'&[Hd' _]&_&Hk'&_&Hu2&_&_&Hr'&_).
    congruence.
  - destruct Hc as (Hu&Hno&He). split; [done|]. split; [|done]. intros u r Hs. by destruct (Hno u r).
Qed.

(** ** Refreshing *)

Definition refreshable (s : Server R) (t : T) (u : User) (r : string) : Prop :=
  ∃ c, valid_token s t c ∧ c.(type) = Some "refresh" ∧ c.(rv) = Some (JInt u.(role_version)) ∧
    default false (head s.(faults)) = false ∧ (c.(uid) ≫= λ k, s.(working).(users) !! k) = Some u ∧
    role_name u s.(working) = Some r.

(** The pair of tokens drawn with the numbers [n] and [n + 1] *)
Definition tokens_of (u : User) (r : string) (now : Z) (n : nat) : T * T :=
  let c := no_claims u.(username) u.(id) r u.(role_version) in
  (sign (stamp now (settings.(access_token_expire_hours) * 3600) (uuid4 n) "access" c),
   sign (stamp now (settings.(refresh_token_expire_days) * 86400) (uuid4 (S n)) "refresh" c)).

Ltac no_refresh Hrefuse Hdet :=
  apply Hrefuse; [let u := fresh in let r := fresh in let Hx := fresh in
    intros u r Hx; destruct (Hdet u r Hx) as (?&?&?&?&?); congruence | by_refusal].

(** The refresh route answers exactly the valid tokens of type refresh whose
    role version is the user's, with two new tokens for the user as the tables
    have it now; whether the user is active or locked does not matter.  The
    other requests get a 401 or a 503. *)
Theorem refresh_decides (t : T) (s : Server R) :
  let '(x, s') := refresh_token t s in
  undisturbed s s' ∧
  match x with
  | Ok resp => ∃ u r, refreshable s t u r ∧
      let tokens := tokens_of u r s.(clock) s.(draws) in
      resp.(data) = Some {| access_token := tokens.1; new_refresh_token := tokens.2;
                            expires_in := settings.(access_token_expire_hours) * 3600 |}
  | Err e => (∀ u r, ¬ refreshable s t u r) ∧ refusal [401; 503] e
  end.
Proof.
  unfold refresh_token, unauthorized. pose proof (verify_token_cases t s) as Hv. run_m.
  destruct (verify_token t s) as [[c|e] s'].
  2:{ destruct Hv as (->&Hno&He). split; [done|]. split; [|done]. intros u r (c&Hc&_). by apply (Hno c). }
  destruct Hv as (Hs&Hv).
  assert (∀ u r, refreshable s t u r → c.(type) = Some "refresh" ∧ c.(rv) = Some (JInt u.(role_version)) ∧
    default false (head s.(faults)) = false ∧ (c.(uid) ≫= λ k, s.(working).(users) !! k) = Some u ∧
    role_name u s.(working) = Some r) as Hdet.
  { intros u r (c'&[Hd _]&Hc'). destruct Hv as [Hd' _]. by assert (c = c') as -> by congruence. }
  assert (∃ x, s' = set_revocations x s) as [x ->] by eauto. clear Hs. set (s' := set_revocations x s).
  assert (∀ e, (∀ u r, refreshable s t u r → False) → refusal [401; 503] e →
     undisturbed s s' ∧ (∀ u r, ¬ refreshable s t u r) ∧ refusal [401; 503] e) as Hrefuse by (by split).
  case_bool_decide as Htype; cbn; [|no_refresh Hrefuse Hdet].
  destruct (c.(rv)) as [[v|]|] eqn:Erv; [|no_refresh Hrefuse Hdet..].
  unfold query, db_action. run_m. cbn. destruct (default false (head s.(faults))) eqn:Ef; [no_refresh Hrefuse Hdet|].
  unfold find_user. destruct (c.(uid)) as [k|] eqn:Ek; cbn in *; [|no_refresh Hrefuse Hdet].
  destruct (s.(working).(users) !! k) as [u|] eqn:Eu; cbn; [|no_refresh Hrefuse Hdet].
  destruct (role_name u s.(working)) as [r|] eqn:Er; cbn; [|no_refresh Hrefuse Hdet].
  destruct (Z.eqb_spec u.(role_version) v) as [<-|Hne]; cbn; [|no_refresh Hrefuse Hdet].
  split; [done|]. exists u, r. split; [|done]. exists c. rewrite Ek. by split_and!.
Qed.

(** ** Successful steps of a handler *)

Lemma action_Ok s x (s' : Server R) : db_action s = (Ok x, s') → undisturbed s s' ∧ s' = set_faults (tail s.(faults)) s.
Proof. unfold db_action. run_m. destruct (default _ _); [done|]. by intros [= _ <-]. Qed.

Lemma query_Ok {B} (f : Tables → B) (s s' : Server R) x :
  query f s = (Ok x, s') → x = f s.(working) ∧ undisturbed s s'.
Proof.
  unfold query. intros Hq. apply bind_Ok in Hq as (y & s1 & [Hs _]%action_Ok & [= <- <-]).
  destruct Hs as [? Hw]. cbn. by rewrite Hw.
Qed.

Lemma commit_Ok (s s' : Server R) x :
  commit s = (Ok x, s') → s'.(committed) = s.(working) ∧ s'.(working) = s.(working).
Proof.
  unfold commit. intros Hq. apply bind_Ok in Hq as (y & s1 & [[_ Hw] _]%action_Ok & Hc). revert Hc. run_m.
  destruct (consistent _); [|done]. intros [= _ <-]. by rewrite <- Hw.
Qed.

Lemma draw_Ok {B} (f : nat → B) (s s' : Server R) x : draw f s = (Ok x, s') → x = f s.(draws) ∧ undisturbed s s'.
Proof. unfold draw. run_m. by intros [= <- <-]. Qed.

Lemma roles_Ok allowed_roles h s au s' : require_roles allowed_roles h s = (Ok au, s') → undisturbed s s'.
Proof. intros Hq. pose proof (access_is_checked allowed_roles h s) as Ha. rewrite Hq in Ha. by destruct Ha. Qed.

(** ** Role changes *)

Definition keyed (t : Tables) : Prop := ∀ k u, t.(users) !! k = Some u → u.(id) = k.
Definition outdates (user_id : string) (v : Z) (u : User) : Prop := u.(id) = user_id → v < u.(role_version).
Abbreviation outdated user_id v := (server_ok (outdates user_id v) (λ _ _, True) (Some user_id)).

Lemma outdated_run user_id v l s : outdated user_id v s → outdated user_id v (run_ops serve l s).
Proof.
  apply (run_ok _ _ (λ _, True)); unfold outdates; cbn; try done; try (intros; by auto).
  - intros r u Hu E. specialize (Hu E). case_bool_decide; lia.
  - intros u Hne _ _ E. congruence.
  - apply Forall_true. intros r t _. done.
Qed.

(** A role change that is answered with success has been committed. *)
Lemma update_user_outdates h user_id e a name resp s s' :
  keyed s.(committed) →
  in_session (update_user h user_id e a (Some name)) s = (Ok resp, s') → resp.(success) = true →
  ∃ u r, s.(committed).(users) !! user_id = Some u ∧ find_role name s.(committed) = Some r ∧
    (u.(role_id) ≠ r → outdated user_id u.(role_version) s').
Proof.
  intros Hk Hrun Hsucc. unfold in_session in Hrun.
  apply bind_Ok in Hrun as ([] & s0 & [= <-] & Hrun). apply (try_Ok _ (λ e, e)) in Hrun.
  apply bind_Ok in Hrun as (resp' & s9 & Hrun & Hend).
  apply bind_Ok in Hend as ([] & s10 & Hend & [= -> <-]).
  unfold update_user, guarded in Hrun.
  apply bind_Ok in Hrun as (au & s1 & [Hc1 Hw1]%roles_Ok & Hrun).
  apply (try_raise_Ok _ (λ _, _)) in Hrun.
  apply bind_Ok in Hrun as (o & s2 & [-> [Hc2 Hw2]]%query_Ok & Hrun).
  rewrite Hw1 in Hrun. cbn in Hrun. unfold find_user in Hrun.
  destruct (s.(committed).(users) !! user_id) as [u|] eqn:Eu; [|injection Hrun as <- _; done].
  assert (u.(id) = user_id) as Hid by by apply Hk.
  apply bind_Ok in Hrun as ([] & s3 & [= <-] & Hrun).
  apply bind_Ok in Hrun as (o & s4 & Hrole & Hrun).
  apply bind_Ok in Hrole as (found & s5 & [Hfound [Hc3 Hw3]]%query_Ok & [= <- <-]).
  cbn in Hfound, Hc3, Hw3. rewrite Hw2, Hw1 in Hfound, Hw3. cbn in Hfound, Hw3.
  change (find_role name _) with (find_role name s.(committed)) in Hfound.
  destruct found as [r|]; cbn in Hrun; [|injection Hrun as <- _; done].
  exists u, r. split_and!; [done..|]. intros Hne.
  apply bind_Ok in Hrun as ([] & s6 & [= <-] & Hrun).
  apply bind_Ok in Hrun as ([] & s7 & Hrun & [= <- <-]).
  apply bind_Ok in Hrun as ([] & s8 & [Hc4 Hw4]%commit_Ok & Haudit).
  assert (outdated user_id u.(role_version) s8) as Hs8.
  { assert (users_ok (outdates user_id u.(role_version)) (Some user_id) s8.(working)) as Hok.
    { rewrite Hw4. cbn. rewrite Hw3. cbn. split.
      - intros k u' Hk'. destruct (decide (k = user_id)) as [->|Hk2].
        + cbn in Hk'. rewrite Hid, lookup_insert_eq in Hk'. injection Hk' as <-. split; [done|].
          intros _. cbn. rewrite bool_decide_false by done. lia.
        + cbn in Hk'. rewrite Hid, !lookup_insert_ne in Hk' by done. specialize (Hk k u' Hk'). split; [done|].
          intros E. congruence.
      - intros k [= <-]. cbn. rewrite Hid, lookup_insert_eq. by eexists. }
    split; [|by split]. by rewrite Hc4, <- Hw4. }
  assert (server_ok (outdates user_id u.(role_version)) (λ _ _, True) (Some user_id) s7) as Hs7.
  { replace s7 with (after (audit_log "USER_UPDATED") s8) by (unfold after; by rewrite Haudit).
    by apply keep_audit. }
  replace s10 with (after commit s7) by (unfold after; by rewrite Hend). by apply keep_commit.
Qed.

Lemma bearer_credentials sc (t t' : T) : bearer (Some {| scheme := sc; credentials := t |}) = Some t' → t' = t.
Proof. cbn. case_bool_decide; congruence. Qed.

Lemma session_Ok {B} (m : Op B) s :
  is_ok (outcome (in_session m) s) = true → ∃ a s1, m (set_tables s.(committed) s.(committed) s) = (Ok a, s1).
Proof.
  unfold outcome. destruct (in_session m s) as [[a|e] s2] eqn:E; [intros _|done]. unfold in_session in E.
  apply bind_Ok in E as ([] & s0 & [= <-] & E). apply (try_Ok _ (λ e, e)) in E.
  apply bind_Ok in E as (a' & s1 & E & _). by exists a', s1.
Qed.

(** C15. When an administrator has changed a user's role, every token that was
    issued to the user before, access or refresh, is refused from then on,
    whatever is requested afterwards and for as long as the server runs.  This
    also holds when the user gets the old role back. *)
Theorem role_change_ends_sessions
  (h : option (Header T)) (user_id name : string) (new_email : option string) (new_active : option bool)
  (s s1 : Server R) (resp : APIResponse unit) (u : User) (r : Z) (later : list Request)
  (t : T) (c : Claims) (v : Z)
  (Hkeyed : keyed s.(committed))
  (Hrun : in_session (update_user h user_id new_email new_active (Some name)) s = (Ok resp, s1))
  (Hsucc : resp.(success) = true)
  (Hu : s.(committed).(users) !! user_id = Some u)
  (Hr : find_role name s.(committed) = Some r) (Hne : u.(role_id) ≠ r)
  (Hc : unverified_claims t = Some c) (Huid : c.(uid) = Some user_id) (Hrv : c.(rv) = Some (JInt v))
  (Hv : v ≤ u.(role_version)) :
  let s' := run_ops serve later s1 in
  (∀ allowed_roles sc, is_ok (outcome (in_session (require_roles allowed_roles (Some {| scheme := sc; credentials := t |}))) s') = false) ∧
  is_ok (outcome (in_session (refresh_token t)) s') = false.
Proof.
  destruct (update_user_outdates _ _ _ _ _ _ _ _ Hkeyed Hrun Hsucc) as (u'&r'&Hu'&Hr'&Hout).
  assert (u' = u) as -> by congruence. assert (r' = r) as -> by congruence.
  intros s'. assert (outdated user_id u.(role_version) s') as (Hcom&_&_) by by apply outdated_run, Hout.
  assert (∀ u2, s'.(committed).(users) !! user_id = Some u2 → v < u2.(role_version)) as Hlt.
  { intros u2 Hu2. destruct Hcom as [Hall _]. destruct (Hall _ _ Hu2) as [Hid Ho]. specialize (Ho Hid). lia. }
  assert (∀ now k c', decode now k t = Some c' → c' = c) as Hdec.
  { intros now k c' Hd%decode_unverified. congruence. }
  split; [intros allowed_roles sc|]; apply not_true_is_false; intros (x & s2 & Hx)%session_Ok.
  - match type of Hx with require_roles ?a ?h ?s = _ => pose proof (access_is_checked a h s) as Ha end.
    rewrite Hx in Ha. destruct Ha as (_&u2&(t'&c'&k&->%bearer_credentials&[Hd _]&_&Hk&_&Hu2&_&_&_&_&Hrv')&_).
    apply Hdec in Hd as ->. rewrite Huid in Hk. cbn in Hk, Hu2. case_bool_decide; [done|]. injection Hk as <-.
    specialize (Hlt _ Hu2). assert (v = u2.(role_version)) by congruence. lia.
  - match type of Hx with refresh_token ?t ?s = _ => pose proof (refresh_decides t s) as Ha end.
    rewrite Hx in Ha. destruct Ha as (_&u2&r2&(c'&[Hd _]&_&Hrv'&_&Hu2&_)&_).
    apply Hdec in Hd as ->. rewrite Huid in Hu2. cbn in Hu2.
    specialize (Hlt _ Hu2). assert (v = u2.(role_version)) by congruence. lia.
Qed.

(** ** Logging out *)

Lemma text_Some o x : text o = Some x ↔ o = Some x ∧ x ≠ "".
Proof. destruct o as [y|]; cbn; [case_bool_decide|]; naive_solver. Qed.

(** The token expires at second [e], or the store knows it as revoked till after. *)
Definition revoked_beyond (j : string) (e now : Z) (r : R) : Prop :=
  seconds_us (e + 60) ≤ now ∨ ∃ x, until r j = Some x ∧ seconds_us (e + 60) ≤ x.
Definition same_expiry (c : Claims) (t : T) : Prop :=
  ∀ c', unverified_claims t = Some c' → c'.(jti) = c.(jti) → c'.(exp) = c.(exp).
Abbreviation out_of_use j e := (server_ok (λ _, True) (revoked_beyond j e) None).

Lemma token_ttl_covers now c e : c.(exp) = Some e → seconds_us (e + 60) ≤ now + seconds_us (token_ttl (now / 1000000) c).
Proof.
  intros He. unfold token_ttl, seconds_us. rewrite He.
  pose proof (Z.mul_div_le now 1000000 ltac:(lia)). lia.
Qed.

Lemma revoked_beyond_revoke now j e c j' r :
  (j' = j → c.(exp) = Some e) →
  revoked_beyond j e now r → revoked_beyond j e now (after (revoke now j' (token_ttl (now / 1000000) c)) r).
Proof.
  intros Hj [Hx|(x&Hx&Hle)]; [by left|]. right.
  destruct (revoke_law now j' (token_ttl (now / 1000000) c) r) as (Hother&Hthis&_).
  destruct (decide (j = j')) as [<-|Hne]; [|by exists x; rewrite Hother].
  destruct Hthis as [Heq|Heq]; rewrite Heq; [by exists x|].
  eexists; split; [done|]. by apply token_ttl_covers, Hj.
Qed.

Lemma revoked_beyond_is_revoked now j e j' r :
  revoked_beyond j e now r → revoked_beyond j e now (after (is_revoked now j') r).
Proof.
  intros [Hx|(x&Hx&Hle)]; [by left|]. destruct (is_revoked_law now j' r) as (Hold&_).
  destruct (Z.lt_ge_cases now x) as [Hlt|Hge]; [right|left; lia]. exists x. split; [by apply Hold|done].
Qed.

Lemma out_of_use_run j e c l s :
  text c.(jti) = Some j → c.(exp) = Some e →
  Forall (λ r, ∀ t, logged_out r = Some t → same_expiry c t) l →
  out_of_use j e s → out_of_use j e (run_ops serve l s).
Proof.
  intros Hj He. apply run_ok; try done.
  - intros. by apply revoked_beyond_is_revoked.
  - intros t c' j' now r Ht Hc' Hj'. apply revoked_beyond_revoke. intros ->.
    rewrite <- He. apply Ht; [done|]. apply text_Some in Hj as [-> _], Hj' as [-> _]. done.
  - intros now dt r Hdt [Hx|Hx]; [left; lia|by right].
Qed.

(** A token out of use is not valid. *)
Lemma out_of_use_invalid j e c c' t s :
  out_of_use j e s → unverified_claims t = Some c → text c.(jti) = Some j → c.(exp) = Some e →
  ¬ valid_token s t c'.
Proof.
  intros (_&_&HK) Hc Hj He [Hd Hrev]. pose proof (decode_not_expired _ _ _ _ Hd) as Hexp.
  apply decode_unverified in Hd. assert (c' = c) as -> by congruence. specialize (Hrev j Hj).
  unfold expired in Hexp. rewrite He in Hexp. unfold revoked_beyond, seconds_us in HK.
  assert (s.(clock) < (e + 1) * 1000000) by (pose proof (Z.mul_succ_div_gt s.(clock) 1000000 ltac:(lia)); lia).
  destruct HK as [?|(x&Hx&Hle)]; [lia|]. destruct (is_revoked_law s.(clock) j s.(revocations)) as (_&Hlaw).
  rewrite Hrev in Hlaw. destruct Hlaw as [Hlaw _]. specialize (Hlaw x Hx ltac:(lia)). done.
Qed.

Lemma revoke_token_Ok t c j e x s s' :
  unverified_claims t = Some c → text c.(jti) = Some j → c.(exp) = Some e →
  revoke_token (Some t) s = (Ok x, s') →
  s'.(committed) = s.(committed) ∧ s'.(working) = s.(working) ∧ revoked_beyond j e s'.(clock) s'.(revocations).
Proof.
  intros Hc Hj He. unfold revoke_token. cbn. rewrite Hc, Hj. unfold revocation. run_m.
  set (ttl := token_ttl _ _). destruct (revoke_law s.(clock) j ttl s.(revocations)) as (_&_&Hlaw).
  unfold after, outcome in Hlaw. destruct (revoke s.(clock) j ttl s.(revocations)) as [[[]|er] r']; [|done].
  intros [= _ <-]. split_and!; [done..|]. cbn in *. right. eexists. split.
  - apply Hlaw; [|done]. unfold ttl, token_ttl. rewrite He. lia.
  - by apply token_ttl_covers.
Qed.

Lemma logout_Ok t c j e resp s s1 :
  unverified_claims t = Some c → text c.(jti) = Some j → c.(exp) = Some e → keyed s.(committed) →
  in_session (logout (Some {| scheme := "Bearer"; credentials := t |})) s = (Ok resp, s1) → out_of_use j e s1.
Proof.
  intros Hc Hj He Hkeyed Hrun. unfold in_session in Hrun.
  apply bind_Ok in Hrun as ([] & s0 & [= <-] & Hrun). apply (try_Ok _ (λ e, e)) in Hrun.
  apply bind_Ok in Hrun as (resp' & s7 & Hrun & Hend).
  apply bind_Ok in Hend as ([] & s8 & Hend & [= -> <-]). unfold logout in Hrun.
  apply bind_Ok in Hrun as (au & s2 & Hau & Hrun).
  apply bind_Ok in Hrun as (x & s3 & Hrev & Hrun).
  apply bind_Ok in Hrun as ([] & s4 & Haudit & [= <- <-]).
  pose proof (get_current_user_cases (Some {| scheme := "Bearer"; credentials := t |}) (set_tables s.(committed) s.(committed) s)) as Hu.
  change (rollback s) with (@Ok Exn unit tt, set_tables s.(committed) s.(committed) s) in *.
  rewrite Hau in Hu. destruct Hu as [[Hc2 Hw2] _]. cbn in Hc2, Hw2.
  change (logout_token _) with (Some t) in Hrev.
  destruct (revoke_token_Ok _ _ _ _ _ _ _ Hc Hj He Hrev) as (Hc3&Hw3&HK).
  assert (users_ok (λ _, True) None s.(committed)) as Hok by (split; [by intros k u Hk; split; [apply Hkeyed|]|done]).
  assert (out_of_use j e s3) as Hs3 by (split_and!; [by rewrite Hc3, Hc2|by rewrite Hw3, Hw2|done]).
  replace s8 with (after commit s4) by (unfold after; by rewrite Hend). apply keep_commit.
  replace s4 with (after (audit_log "LOGIN_LOGOUT") s3) by (unfold after; by rewrite Haudit). by apply keep_audit.
Qed.

(** Logging out is final: once a logout with a token has succeeded, the
    token is refused by every route, the refresh route included, whatever is
    requested afterwards and however much time goes by, with any store that
    keeps the laws.  The one condition is that no other token with the same
    identifier and another expiry is logged out, which [uuid4] excludes. *)
Theorem logout_is_final
  (s s1 : Server R) (resp : APIResponse (option string)) (later : list Request)
  (t : T) (c : Claims) (j : string) (e : Z)
  (Hkeyed : keyed s.(committed))
  (Hrun : in_session (logout (Some {| scheme := "Bearer"; credentials := t |})) s = (Ok resp, s1))
  (Hc : unverified_claims t = Some c) (Hj : text c.(jti) = Some j) (He : c.(exp) = Some e)
  (Hlater : Forall (λ r, ∀ t', logged_out r = Some t' → same_expiry c t') later) :
  let s' := run_ops serve later s1 in
  (∀ allowed_roles sc, is_ok (outcome (in_session (require_roles allowed_roles (Some {| scheme := sc; credentials := t |}))) s') = false) ∧
  is_ok (outcome (in_session (refresh_token t)) s') = false.
Proof.
  intros s'. assert (out_of_use j e s') as Hs'.
  { apply (out_of_use_run j e c); [done..|]. by eapply logout_Ok. }
  assert (∀ c', ¬ valid_token (set_tables s'.(committed) s'.(committed) s') t c') as Hno.
  { intros c'. eapply out_of_use_invalid; [|done..]. destruct Hs' as (?&_&?). by split_and!. }
  split; [intros allowed_roles sc|]; apply not_true_is_false; intros (x & s2 & Hx)%session_Ok.
  - match type of Hx with require_roles ?a ?h ?s = _ => pose proof (access_is_checked a h s) as Ha end.
    rewrite Hx in Ha. destruct Ha as (_&u2&(t'&c'&k&->%bearer_credentials&Hv&_)&_). by destruct (Hno c').
  - match type of Hx with refresh_token ?t ?s = _ => pose proof (refresh_decides t s) as Ha end.
    rewrite Hx in Ha. destruct Ha as (_&u2&r2&(c'&Hv&_)&_). by destruct (Hno c').
Qed.

(** ** Wrong passwords *)

Definition calm (s : Server R) : Prop := Forall (λ b, b = false) s.(faults).

Lemma calm_head s : calm s → default false (head s.(faults)) = false.
Proof. unfold calm. by intros [|b l ->]. Qed.
Lemma calm_tail l : Forall (λ b : bool, b = false) l → Forall (λ b, b = false) (tail l).
Proof. by intros [|b l' _ Hl]. Qed.

Lemma action_calm s : calm s → db_action s = (Ok tt, set_faults (tail s.(faults)) s).
Proof. intros Hs. unfold db_action. run_m. by rewrite calm_head. Qed.
Lemma query_calm {B} (f : Tables → B) s : calm s → query f s = (Ok (f s.(working)), set_faults (tail s.(faults)) s).
Proof. intros Hs. unfold query. run_m. by rewrite action_calm. Qed.
Lemma commit_calm s :
  calm s → consistent s.(working) = true →
  commit s = (Ok tt, set_tables s.(working) s.(working) (set_faults (tail s.(faults)) s)).
Proof. intros Hs Hc. unfold commit. run_m. rewrite action_calm by done. cbn. by rewrite Hc. Qed.

Lemma consistent_spec t :
  consistent t = true ↔ ∀ k k' u u', t.(users) !! k = Some u → t.(users) !! k' = Some u' → k = k' ∨ distinct u u'.
Proof. unfold consistent. rewrite bool_decide_eq_true. unfold map_Forall. naive_solver. Qed.

Lemma consistent_insert t k u u' :
  t.(users) !! k = Some u → u'.(username) = u.(username) → u'.(email) = u.(email) →
  consistent t = true → consistent (with_users (insert k u') t) = true.
Proof.
  rewrite !consistent_spec. intros Hu Hn He Hall k1 k2 u1 u2. cbn.
  assert (∀ k3 u3, <[k:=u']> t.(users) !! k3 = Some u3 →
    ∃ u4, t.(users) !! k3 = Some u4 ∧ u3.(username) = u4.(username) ∧ u3.(email) = u4.(email)) as Hold.
  { intros k3 u3. destruct (decide (k = k3)) as [<-|Hne]; [rewrite lookup_insert_eq; intros [= <-]; by exists u|].
    rewrite lookup_insert_ne by done. intros H3. by exists u3. }
  intros (v1&Hv1&Hn1&He1)%Hold (v2&Hv2&Hn2&He2)%Hold.
  destruct (Hall k1 k2 v1 v2 Hv1 Hv2) as [?|[??]]; [by left|right]. unfold distinct. by rewrite Hn1, Hn2, He1, He2.
Qed.

Lemma find_username_spec t name u :
  keyed t → consistent t = true →
  find_username name t = Some u ↔ t.(users) !! u.(id) = Some u ∧ u.(username) = name.
Proof.
  intros Hk Hc. unfold find_username. split.
  - intros Hu%head_Some_elem_of. apply list_elem_of_filter in Hu as [Hn Hu].
    apply list_elem_of_fmap in Hu as ([k u'] & -> & Hin). apply elem_of_map_to_list in Hin. cbn in *.
    by rewrite (Hk _ _ Hin).
  - intros [Hu Hn].
    assert (u ∈ filter (λ u, u.(username) = name) (map_to_list t.(users)).*2) as Hin.
    { apply list_elem_of_filter. split; [done|]. apply list_elem_of_fmap. exists (u.(id), u). split; [done|].
      by apply elem_of_map_to_list. }
    destruct (filter _ _) as [|u' l] eqn:Ef; [by apply elem_of_nil in Hin|]. cbn. f_equal.
    assert (u' ∈ filter (λ u, u.(username) = name) (map_to_list t.(users)).*2) as Hin' by (rewrite Ef; by left).
    apply list_elem_of_filter in Hin' as [Hn' Hin']. apply list_elem_of_fmap in Hin' as ([k u2] & -> & Hin2).
    apply elem_of_map_to_list in Hin2. cbn in *. rewrite consistent_spec in Hc.
    destruct (Hc _ _ _ _ Hu Hin2) as [<-|[Hd _]]; congruence.
Qed.

Lemma audit_calm x s :
  calm s → consistent s.(working) = true →
  let '(r, s') := audit_log x s in
  r = Ok tt ∧ calm s' ∧ s'.(working).(users) = s.(working).(users) ∧ s'.(committed) = s'.(working).
Proof.
  intros Hs Hc. unfold audit_log. run_m. rewrite action_calm by done. unfold change. run_m.
  rewrite commit_calm; [|by apply calm_tail|done]. cbn. split_and!; [done| |done..]. by apply calm_tail, calm_tail.
Qed.

(** A wrong password in a server without faults *)
Lemma login_wrong name password code s u :
  calm s → keyed s.(committed) → consistent s.(committed) = true →
  find_username name s.(committed) = Some u → u.(is_active) = true → u.(is_locked) = false →
  bcrypt_verify password u.(password_hash) = false →
  let '(r, s') := in_session (login name password code) s in
  (∃ d, r = Err (HTTPException 401 d)) ∧ calm s' ∧
  s'.(committed).(users) = <[u.(id) := set_login_failure u]> s.(committed).(users).
Proof.
  intros Hs Hk Hc Hu Ha Hl Hp. destruct (proj1 (find_username_spec _ _ _ Hk Hc) Hu) as [Hin Hn].
  unfold in_session, login, authenticate, rollback, unauthorized, set_user, change. run_m.
  rewrite query_calm by done. cbn. rewrite Hu, Ha, Hl, Hp. cbn.
  rewrite commit_calm; [|by apply calm_tail|by eapply consistent_insert].
  match goal with |- context [audit_log ?x ?s0] => pose proof (audit_calm x s0) as Hx; destruct (audit_log x s0) as [r s2] end.
  destruct Hx as (->&Hs2&Hw2&Hc2); [by apply calm_tail, calm_tail|by eapply consistent_insert|].
  cbn. split; [by eexists|]. split; [done|]. by rewrite Hc2, Hw2.
Qed.

Definition healthy (s : Server R) : Prop := calm s ∧ keyed s.(committed) ∧ consistent s.(committed) = true.

Lemma keyed_insert t u : keyed t → keyed (with_users (insert u.(id) u) t).
Proof.
  intros Hk k u'. cbn. destruct (decide (u.(id) = k)) as [<-|Hne].
  - rewrite lookup_insert_eq. by intros [= <-].
  - rewrite lookup_insert_ne by done. apply Hk.
Qed.

Lemma consistent_users t t' : t.(users) = t'.(users) → consistent t = consistent t'.
Proof. intros E. unfold consistent. by rewrite E. Qed.

Lemma healthy_wrong name password code s u :
  healthy s → s.(committed).(users) !! u.(id) = Some u → u.(username) = name → u.(is_active) = true →
  u.(is_locked) = false → bcrypt_verify password u.(password_hash) = false →
  let s' := serve (Login name password code) s in
  healthy s' ∧ s'.(committed).(users) !! u.(id) = Some (set_login_failure u).
Proof.
  intros (Hs&Hk&Hc) Hu Hn Ha Hl Hp. cbn. unfold after.
  pose proof (login_wrong name password code s u Hs Hk Hc) as Hw.
  destruct (in_session _ s) as [r s']. destruct Hw as (_&Hs'&Hu'); [by apply find_username_spec|done..|].
  cbn. rewrite Hu', lookup_insert_eq. split; [|done]. split_and!; [done| |].
  - intros k u'. rewrite Hu'. by apply (keyed_insert s.(committed) (set_login_failure u) Hk).
  - rewrite (consistent_users _ (with_users (insert u.(id) (set_login_failure u)) s.(committed))) by done.
    by eapply consistent_insert.
Qed.

(** A locked user stays locked, and the right password does not help. *)
Lemma healthy_locked name password code s u :
  healthy s → s.(committed).(users) !! u.(id) = Some u → u.(username) = name → u.(is_active) = true →
  u.(is_locked) = true →
  let s' := serve (Login name password code) s in
  healthy s' ∧ s'.(committed).(users) !! u.(id) = Some u ∧ ∃ d, outcome (in_session (login name password code)) s = Err (HTTPException 403 d).
Proof.
  intros (Hs&Hk&Hc) Hu Hn Ha Hl. cbn. unfold after, outcome.
  unfold in_session, login, authenticate, rollback, unauthorized. run_m.
  rewrite query_calm by done. cbn. rewrite (proj2 (find_username_spec _ name u Hk Hc)) by done. rewrite Ha, Hl. cbn.
  match goal with |- context [audit_log ?x ?s0] => pose proof (audit_calm x s0) as Hx; destruct (audit_log x s0) as [r s2] end.
  destruct Hx as (->&Hs2&Hw2&Hc2); [by apply calm_tail|done|]. cbn in *.
  assert (s2.(committed).(users) = s.(committed).(users)) as E by by rewrite Hc2.
  split_and!; [|by rewrite E|by eexists]. split_and!; [done| |].
  - intros k u'. cbn. rewrite E. apply Hk.
  - rewrite <- Hc. by apply consistent_users.
Qed.

Definition below_five (u : User) : Prop := u.(is_locked) = false → 0 ≤ u.(failed_login_attempts) < 5.
Abbreviation logins name l := (map (λ a, Login name a.1 a.2) l).

Lemma wrong_passwords (name : string) l u s :
  healthy s → s.(committed).(users) !! u.(id) = Some u → u.(username) = name → u.(is_active) = true →
  Forall (λ a : string * option string, bcrypt_verify a.1 u.(password_hash) = false) l →
  (u.(is_locked) = false → u.(failed_login_attempts) < 5) →
  let s' := run_ops serve (logins name l) s in
  healthy s' ∧ ∃ u', s'.(committed).(users) !! u'.(id) = Some u' ∧ u'.(username) = name ∧ u'.(is_active) = true ∧
    u'.(password_hash) = u.(password_hash) ∧ u'.(id) = u.(id) ∧
    (u'.(is_locked) = false → u.(is_locked) = false ∧
       u'.(failed_login_attempts) = u.(failed_login_attempts) + Z.of_nat (length l) ∧ u'.(failed_login_attempts) < 5).
Proof.
  revert u s. induction l as [|[p c] l IH]; intros u s Hs Hu Hn Ha Hp H5.
  - split; [done|]. exists u. split_and!; [done..|]. intros Hl. cbn. split; [done|]. split; [lia|auto].
  - apply Forall_cons in Hp as [Hp1 Hp]. cbn. unfold run_ops. cbn. fold (run_ops serve (logins name l)).
    destruct (u.(is_locked)) eqn:El.
    + destruct (healthy_locked name p c s u) as (Hs'&Hu'&_); [done..|].
      destruct (IH u _ Hs' Hu' Hn Ha Hp) as (Hs2&u2&?&?&?&?&?&H2); [by rewrite El|]. split; [done|]. exists u2.
      split_and!; [done..|]. intros Hl. destruct (H2 Hl). congruence.
    + destruct (healthy_wrong name p c s u) as (Hs'&Hu'); [done..|].
      destruct (IH (set_login_failure u) _ Hs' Hu' Hn Ha Hp) as (Hs2&u2&?&?&?&?&?&H2).
      { cbn. rewrite El. cbn. intros ?%Z.leb_gt. lia. }
      split; [done|]. exists u2. split_and!; [done..|]. intros Hl. destruct (H2 Hl) as (?&?&?). cbn in *.
      split; [done|]. split; lia.
Qed.

Lemma below_five_run requests s k u :
  s.(working) = s.(committed) → keyed s.(committed) → (∀ k u, s.(committed).(users) !! k = Some u → below_five u) →
  (run_ops serve requests s).(committed).(users) !! k = Some u → below_five u.
Proof.
  intros Hw Hk Hall Hu. assert (users_ok below_five None s.(committed)) as Hok.
  { split; [intros k' u' Hu'; split; [by apply Hk|by eapply Hall]|done]. }
  assert (server_ok below_five (λ _ _, True) None (run_ops serve requests s)) as ([Hc _]&_); [|by apply (Hc k u)].
  apply (run_ok _ _ (λ _, True)); unfold below_five; cbn; try done; try (intros; lia).
  - intros u' Hu' Hl. specialize (Hu' Hl). rewrite Hl. cbn. rewrite Z.leb_gt. lia.
  - apply Forall_true. done.
  - split_and!; [done|by rewrite Hw|done].
Qed.

(** Five wrong passwords in a row lock an account, and then the right one is
    refused, too: 403 until an administrator unlocks the account or resets the
    password.  And whatever is requested, an account that is not locked has
    fewer than five failed attempts on record. *)
Theorem five_wrong_passwords_lock
  (s : Server R) (u : User) (tries : list (string * option string)) (requests : list Request)
  (Hs : healthy s) (Hidle : s.(working) = s.(committed)) (Hall : ∀ k u, s.(committed).(users) !! k = Some u → below_five u)
  (Hu : s.(committed).(users) !! u.(id) = Some u) (Ha : u.(is_active) = true)
  (Hwrong : Forall (λ a, bcrypt_verify a.1 u.(password_hash) = false) tries)
  (Hfive : (5 <= length tries)%nat) :
  let s' := run_ops serve (map (λ a, Login u.(username) a.1 a.2) tries) s in
  (∃ u', s'.(committed).(users) !! u.(id) = Some u' ∧ u'.(is_locked) = true) ∧
  (∀ password code, ∃ d, outcome (in_session (login u.(username) password code)) s' = Err (HTTPException 403 d)) ∧
  (∀ k u', (run_ops serve requests s).(committed).(users) !! k = Some u' → below_five u').
Proof.
  intros s'. pose proof (Hall _ _ Hu) as Hb.
  destruct (wrong_passwords u.(username) tries u s) as (Hs'&u'&Hu'&Hn'&Ha'&_&Hid&Hl'); [done..|by apply Hb|].
  assert (u'.(is_locked) = true) as Hlock.
  { destruct (u'.(is_locked)) eqn:E; [done|]. destruct (Hl' eq_refl) as (Hl&?&?). specialize (Hb Hl). lia. }
  split_and!.
  - exists u'. by rewrite <- Hid.
  - intros p c. by destruct (healthy_locked u.(username) p c s' u') as (_&_&?).
  - intros k u2 Hk. apply (below_five_run requests s) in Hk; [done|done| |done]. apply Hs.
Qed.

(** ** Sessions *)

(** The same but for the audit records and the faults to come *)
Definition same_but_audit (s s' : Server R) : Prop :=
  s'.(working).(users) = s.(working).(users) ∧ s'.(working).(roles) = s.(working).(roles) ∧
  s'.(clock) = s.(clock) ∧ s'.(revocations) = s.(revocations).

Lemma audit_same x s : s.(committed) = s.(working) → same_but_audit s (after (audit_log x) s).
Proof.
  intros E. unfold same_but_audit, after, audit_log, commit, change, rollback, db_action. run_m.
  destruct (default false (head s.(faults))); cbn; [by rewrite E|].
  destruct (default false _); cbn; [by rewrite E|]. destruct (consistent _); cbn; [done|by rewrite E].
Qed.

Lemma authenticate_Ok name password code s tokens s' :
  authenticate name password code s = (Ok tokens, s') →
  ∃ u r, find_username name s.(working) = Some u ∧ u.(is_active) = true ∧ u.(is_locked) = false ∧
    bcrypt_verify password u.(password_hash) = true ∧
    (u.(totp_enabled) = true → ∃ c secret, code = Some c ∧ u.(totp_secret) = Some secret ∧ totp_verify s.(clock) secret c = true) ∧
    role_name u s.(working) = Some r ∧ tokens = tokens_of u r s.(clock) s.(draws) ∧
    s'.(working) = with_users (insert u.(id) (set_login_success s.(clock) u)) s.(working) ∧
    s'.(committed) = s'.(working) ∧ s'.(clock) = s.(clock) ∧ s'.(revocations) = s.(revocations).
Proof.
  unfold authenticate, unauthorized. intros Hrun.
  apply bind_Ok in Hrun as (o & s1 & Hq%(try_raise_Ok _ (λ _, _)) & Hrun).
  assert (s1 = set_faults (tail s.(faults)) s ∧ o = find_username name s.(working)) as [-> ->].
  { unfold query in Hq. apply bind_Ok in Hq as (x & s2 & [_ ->]%action_Ok & [= <- <-]). done. }
  destruct (find_username name s.(working)) as [u|] eqn:Eu; [|done].
  destruct (is_active u) eqn:Ea; [|done]. destruct (is_locked u) eqn:El; [done|].
  destruct (bcrypt_verify password (password_hash u)) eqn:Ep; cbn [negb] in Hrun.
  2:{ apply bind_Ok in Hrun as ([] & s2 & _ & Hrun). by apply bind_Ok in Hrun as ([] & s3 & _ & [=]). }
  apply bind_Ok in Hrun as (now & s2 & [= <- <-] & Hrun).
  apply bind_Ok in Hrun as ([] & s3 & Htotp & Hrun).
  assert (s3 = set_faults (tail s.(faults)) s ∧ (u.(totp_enabled) = true → ∃ c secret, code = Some c ∧
    u.(totp_secret) = Some secret ∧ totp_verify s.(clock) secret c = true)) as [-> Hcode].
  { destruct (totp_enabled u); [|by injection Htotp as <-].
    destruct (text code) as [c|] eqn:Ec; [|done]. destruct (text (totp_secret u)) as [x|] eqn:Ex; [|done].
    cbn in Htotp. destruct (totp_verify _ _ _) eqn:Ev; [|done]. injection Htotp as <-. split; [done|]. intros _.
    apply text_Some in Ec as [-> _], Ex as [-> _]. by exists c, x. }
  apply bind_Ok in Hrun as ([] & s4 & [= <-] & Hrun).
  apply bind_Ok in Hrun as ([] & s5 & Hcommit & Hrun).
  assert (s5.(clock) = s.(clock) ∧ s5.(revocations) = s.(revocations) ∧ s5.(draws) = s.(draws)) as (Hk5&Hr5&Hd5).
  { unfold commit in Hcommit. apply bind_Ok in Hcommit as ([] & s6 & [_ ->]%action_Ok & Hc). revert Hc. run_m.
    destruct (consistent _); [|done]. by intros [= <-]. }
  apply commit_Ok in Hcommit as [Hc5 Hw5]. cbn in Hc5, Hw5.
  apply bind_Ok in Hrun as (t & s6 & [= <- <-] & Hrun). exists u.
  destruct (role_name u s5.(working)) as [r|] eqn:Er; [|done]. exists r.
  rewrite Hw5 in Er. revert Hrun. unfold create_access_token, create_refresh_token, draw. run_m. intros [= <- <-].
  cbn. rewrite Hk5, Hd5, Hw5, Hc5, Hr5. by split_and!.
Qed.

(** A token this server signed is checked with the key it was signed with. *)
Lemma sign_valid c s :
  ¬ expired s.(clock) c →
  (∀ j, text c.(jti) = Some j → outcome (is_revoked s.(clock) j) s.(revocations) = Ok false) →
  valid_token s (sign c) c.
Proof.
  intros Hexp Hrev. split; [|done]. unfold sign, _resolve_key_for_verification.
  rewrite kid_encode, bool_decide_true by done. by apply decode_encode.
Qed.

Lemma stamp_not_expired now dt lifetime i ty c : dt ≤ seconds_us lifetime → ¬ expired (now + dt) (stamp now lifetime i ty c).
Proof. unfold expired, stamp. cbn. intros Hdt. apply Z.le_ngt, Z.div_le_mono; lia. Qed.

(** What is left of a login once its session has been closed *)
Lemma login_Ok name password code s resp s1 :
  in_session (login name password code) s = (Ok resp, s1) →
  ∃ u r, find_username name s.(committed) = Some u ∧ u.(is_active) = true ∧ u.(is_locked) = false ∧
    role_name u s.(committed) = Some r ∧
    resp.(data) = Some {| access_token := (tokens_of u r s.(clock) s.(draws)).1;
      new_refresh_token := (tokens_of u r s.(clock) s.(draws)).2;
      expires_in := settings.(access_token_expire_hours) * 3600 |} ∧
    s1.(clock) = s.(clock) ∧ s1.(working).(roles) = s.(committed).(roles) ∧
    s1.(working).(users) !! u.(id) = Some (set_login_success s.(clock) u).
Proof.
  intros Hrun. unfold in_session in Hrun.
  apply bind_Ok in Hrun as ([] & s0 & [= <-] & Hrun). apply (try_Ok _ (λ e, e)) in Hrun.
  apply bind_Ok in Hrun as (resp' & s7 & Hrun & Hend).
  apply bind_Ok in Hend as ([] & s8 & Hend & [= -> <-]).
  apply (try_Ok _ (λ e, e)) in Hrun.
  apply bind_Ok in Hrun as (tokens & s2 & (u&r&Hu&Ha&Hl&_&_&Hr&->&Hw2&Hc2&Hk2&_)%authenticate_Ok & Hrun).
  apply bind_Ok in Hrun as ([] & s3 & Haudit & [= <- <-]).
  pose proof (audit_same "LOGIN_SUCCESS" s2 Hc2) as (Hu3&Hr3&Hk3&_). unfold after in *. rewrite Haudit in *. cbn in Hu3, Hr3, Hk3.
  assert (s8.(clock) = s3.(clock)) as Hk8.
  { unfold commit in Hend. apply bind_Ok in Hend as ([] & s6 & [_ ->]%action_Ok & Hc). revert Hc. run_m.
    destruct (consistent _); [|done]. by intros [= <-]. }
  apply commit_Ok in Hend as [_ Hw8]. exists u, r. split_and!; [done..| | |].
  - by rewrite Hk8, Hk3, Hk2.
  - by rewrite Hw8, Hr3, Hw2.
  - by rewrite Hw8, Hu3, Hw2; cbn; rewrite lookup_insert_eq.
Qed.

(** A session opens the API: what a login hands out is accepted, with the name
    and the role of the user, until it expires, as long as nobody revokes it and
    the user's row stays as it is.  This holds of both tokens: [get_current_user]
    does not look at the type, so the refresh token, which lives for days, opens
    every route like the access token. *)
Theorem login_opens_api
  (name password : string) (code : option string) (s s1 : Server R) (resp : APIResponse TokenResponse)
  (tokens : TokenResponse) (lifetime dt : Z) (t : T) (n : nat)
  (Hrun : in_session (login name password code) s = (Ok resp, s1)) (Hdata : resp.(data) = Some tokens)
  (Hkeyed : keyed s.(committed)) (Hconsistent : consistent s.(committed) = true)
  (Hname : name ≠ "") (Hids : ∀ k, is_Some (s.(committed).(users) !! k) → k ≠ "")
  (Ht : t = tokens.(access_token) ∧ lifetime = settings.(access_token_expire_hours) * 3600 ∧ n = s.(draws) ∨
        t = tokens.(new_refresh_token) ∧ lifetime = settings.(refresh_token_expire_days) * 86400 ∧ n = S s.(draws))
  (Hdt : dt ≤ seconds_us lifetime) (Hdb : default false (head s1.(faults)) = false)
  (Hfree : outcome (is_revoked (s1.(clock) + dt) (uuid4 n)) s1.(revocations) = Ok false) :
  ∃ u r, find_username name s.(committed) = Some u ∧ role_name u s.(committed) = Some r ∧
    outcome (get_current_user (Some {| scheme := "Bearer"; credentials := t |})) (pass dt s1) =
      Ok {| au_id := u.(id); au_username := name; au_role := r |}.
Proof.
  apply login_Ok in Hrun as (u&r&Hu&Ha&Hl&Hr&Hresp&Hclock&Hroles&Hrow). exists u, r. split; [done|]. split; [done|].
  destruct (proj1 (find_username_spec _ _ _ Hkeyed Hconsistent) Hu) as [Hin Hn].
  rewrite Hdata in Hresp. injection Hresp as ->.
  assert (∃ ty, t = sign (stamp s.(clock) lifetime (uuid4 n) ty (no_claims u.(username) u.(id) r u.(role_version)))) as [ty ->].
  { destruct Ht as [(->&->&->)|(->&->&->)]; by eexists. }
  assert (u.(id) ≠ "") as Hid by (by apply Hids).
  set (c := stamp _ _ _ _ _).
  assert (valid_token (pass dt s1) (sign c) c) as Hv.
  { apply sign_valid; cbn [clock pass revocations].
    { rewrite Hclock. unfold c. by apply stamp_not_expired. }
    by intros j [[= <-] _]%text_Some. }
  set (h := Some {| scheme := "Bearer"; credentials := sign c |}).
  assert (speaks_for (pass dt s1) h (set_login_success s.(clock) u) r) as Hspeaks.
  { exists (sign c), c, u.(id). split_and!; cbn; try done.
    - rewrite bool_decide_false by congruence. by eexists.
    - by rewrite bool_decide_false.
    - unfold role_name. cbn. by rewrite Hroles. }
  pose proof (get_current_user_cases h (pass dt s1)) as Hg. unfold outcome.
  destruct (get_current_user h (pass dt s1)) as [[au|e] s']; destruct Hg as [_ Hg].
  2:{ destruct Hg as [Hno _]. by apply Hno in Hspeaks. }
  cbn. destruct Hg as (u2&(t2&c2&k2&Ht2%bearer_credentials&[Hd2 _]&_&Hk2&_&Hu2&_&_&Hr2&_)&Hid2&Hn2). subst t2.
  destruct Hv as [Hd _]. assert (c2 = c) as -> by congruence.
  unfold c in Hk2. cbn in Hk2. rewrite bool_decide_false in Hk2 by done. injection Hk2 as <-.
  cbn in Hu2. rewrite Hrow in Hu2. injection Hu2 as <-. unfold role_name in Hr, Hr2. cbn in Hr2. rewrite Hroles in Hr2.
  destruct au; cbn in *. f_equal. f_equal; congruence.
Qed.

(** ** Updates that were refused *)

(** [update_user] with an unknown role answers "Invalid role" and writes no
    audit record, but the e-mail address and the activation it had set by then
    are committed by [get_db_session]. *)
Theorem refused_update_is_kept
  (h : option (Header T)) (user_id name mail : string) (active : bool) (s s1 : Server R) (resp : APIResponse unit)
  (u : User)
  (Hrun : in_session (update_user h user_id (Some mail) (Some active) (Some name)) s = (Ok resp, s1))
  (Hkeyed : keyed s.(committed)) (Hu : s.(committed).(users) !! user_id = Some u)
  (Hname : find_role name s.(committed) = None) :
  resp = refused "Invalid role" ∧ s1.(committed).(audit_logs) = s.(committed).(audit_logs) ∧
  ∃ u1, s1.(committed).(users) !! user_id = Some u1 ∧ u1.(email) = Some mail ∧ u1.(is_active) = active.
Proof.
  unfold in_session in Hrun.
  apply bind_Ok in Hrun as ([] & s0 & [= <-] & Hrun). apply (try_Ok _ (λ e, e)) in Hrun.
  apply bind_Ok in Hrun as (resp' & s9 & Hrun & Hend).
  apply bind_Ok in Hend as ([] & s10 & [Hc10 _]%commit_Ok & [= -> <-]).
  unfold update_user, guarded in Hrun.
  apply bind_Ok in Hrun as (au & s2 & [Hc1 Hw1]%roles_Ok & Hrun).
  apply (try_raise_Ok _ (λ _, _)) in Hrun.
  apply bind_Ok in Hrun as (o & s3 & [-> [Hc2 Hw2]]%query_Ok & Hrun).
  rewrite Hw1 in Hrun. cbn in Hrun. unfold find_user in Hrun. rewrite Hu in Hrun.
  assert (u.(id) = user_id) as Hid by by apply Hkeyed.
  apply bind_Ok in Hrun as ([] & s4 & [= <-] & Hrun).
  apply bind_Ok in Hrun as (o & s5 & Hrole & Hrun).
  apply bind_Ok in Hrole as (found & s6 & [Hfound [Hc3 Hw3]]%query_Ok & [= <- <-]).
  cbn in Hfound, Hc3, Hw3. rewrite Hw2, Hw1 in Hfound, Hw3. cbn in Hfound, Hw3.
  change (find_role name _) with (find_role name s.(committed)) in Hfound.
  rewrite Hname in Hfound. subst found. cbn in Hrun. injection Hrun as <- <-.
  rewrite Hc10, Hw3. cbn. rewrite Hid, lookup_insert_eq. split; [done|]. split; [done|]. by eexists.
Qed.
End Service.

(** * A small instance *)

Module AuthWitness.
Import InMemoryTokenRevocationStore.

Record Token := { signed_with : string; kid_header : string; payload : Claims }.

#[export] Instance expired_dec now c : Decision (expired now c).
Proof. unfold expired. destruct c.(exp); apply _. Defined.
#[export] Program Instance plain_jwt : Jwt Token := {|
  encode k kid c := {| signed_with := k; kid_header := kid; payload := c |};
  decode now k t := if bool_decide (t.(signed_with) = k ∧ ¬ expired now t.(payload)) then Some t.(payload) else None;
  unverified_kid t := Some (Some t.(kid_header));
  unverified_claims t := Some t.(payload) |}.
Next Obligation. intros now k t c. cbn. case_bool_decide; [|done]. intros [= <-]. tauto. Qed.
Next Obligation. intros now k kid c Hc. cbn. by rewrite bool_decide_true. Qed.
Next Obligation. done. Qed.
Next Obligation. intros now k t c. cbn. by case_bool_decide. Qed.

#[export] Program Instance plain_crypto : Crypto := {|
  bcrypt_hash _ p := p; bcrypt_verify p h := bool_decide (p = h); random_base32 _ := "SECRET";
  totp_verify _ s c := bool_decide (s = c); uuid4 n := "id-" +:+ pretty n; sha256_hex k := k |}.
Next Obligation. done. Qed.

Definition settings : DashboardSettings :=
  {| secret_key := "key"; previous_secret_key := None; access_token_expire_hours := 24; refresh_token_expire_days := 7 |}.

Definition person (i n p : string) (r : Z) : User := {|
  id := i; username := n; email := None; password_hash := p; role_id := r; role_version := 0; is_active := true;
  is_locked := false; failed_login_attempts := 0; totp_secret := None; totp_enabled := false; last_login_at := None |}.
Definition root_user := person "1" "root" "admin-pw" 1.
Definition bob := person "2" "bob" "bob-pw" 2.
Definition tables : Tables := {|
  users := {["1" := root_user; "2" := bob]};
  roles := {[1 := "admin"; 2 := "operator"; 3 := "viewer"]}; audit_logs := [] |}.
Definition server : Server Store := {|
  committed := tables; working := tables; revocations := {| _blacklist := ∅; _expiry := ∅ |};
  clock := 0; faults := []; draws := 0 |}.

Abbreviation serving := (in_session (R:=Store)).
Definition claims_of (u : User) (r : string) (i ty : string) (lifetime : Z) : Claims :=
  stamp 0 lifetime i ty (no_claims u.(username) u.(id) r u.(role_version)).
Definition token (c : Claims) : Token := sign settings c.
Definition bearing (c : Claims) : option (Header Token) := Some {| scheme := "Bearer"; credentials := token c |}.
Definition root_claims := claims_of root_user "admin" "a" "access" 86400.
Definition bob_claims := claims_of bob "operator" "b" "refresh" 604800.

Lemma tables_keyed : keyed tables.
Proof.
  intros k u Hk. unfold tables in Hk. cbn in Hk.
  rewrite lookup_insert_Some, lookup_singleton_Some in Hk.
  destruct Hk as [[<- <-]|[_ [<- <-]]]; done.
Qed.

(** Bob is made a viewer; then nothing but reads. *)
Definition demote := serving (update_user settings (bearing root_claims) "2" None None (Some "viewer")).
Lemma role_change_ends_sessions_witness :
  ∃ s1 resp, demote server = (Ok resp, s1) ∧
  let s' := run_ops (serve settings) [Call (bearing bob_claims) ["viewer"]; Wait 5] s1 in
  (∀ roles sc, is_ok (outcome (serving (require_roles settings roles (Some {| scheme := sc; credentials := token bob_claims |}))) s') = false) ∧
  is_ok (outcome (serving (refresh_token settings (token bob_claims))) s') = false.
Proof.
  destruct (demote server) as [[resp|e] s1] eqn:E; [|exfalso; vm_compute in E; discriminate].
  exists s1, resp. split; [done|].
  apply (role_change_ends_sessions settings (bearing root_claims) "2" "viewer" None None server s1 resp bob 3
    [Call (bearing bob_claims) ["viewer"]; Wait 5] (token bob_claims) bob_claims 0).
  - apply tables_keyed.
  - exact E.
  - vm_compute in E. injection E as <- _. reflexivity.
  - reflexivity.
  - vm_compute. reflexivity.
  - done.
  - reflexivity.
  - reflexivity.
  - reflexivity.
  - cbn. lia.
Defined.

Definition leave := serving (logout settings (bearing root_claims)).
Lemma logout_is_final_witness :
  ∃ s1 resp, leave server = (Ok resp, s1) ∧
  let s' := run_ops (serve settings) [Wait 5; Logout (bearing bob_claims)] s1 in
  (∀ roles sc, is_ok (outcome (serving (require_roles settings roles (Some {| scheme := sc; credentials := token root_claims |}))) s') = false) ∧
  is_ok (outcome (serving (refresh_token settings (token root_claims))) s') = false.
Proof.
  destruct (leave server) as [[resp|e] s1] eqn:E; [|exfalso; vm_compute in E; discriminate].
  exists s1, resp. split; [done|].
  apply (logout_is_final settings server s1 resp [Wait 5; Logout (bearing bob_claims)] (token root_claims) root_claims "a" 86400).
  - apply tables_keyed.
  - exact E.
  - reflexivity.
  - reflexivity.
  - reflexivity.
  - repeat constructor; intros t; cbn; [done|]. intros [= <-] c [= <-] [=].
Defined.

Definition guesses : list (string * option string) := replicate 5 ("guess", None).
Lemma five_wrong_passwords_lock_witness :
  let s' := run_ops (serve settings) (map (λ a, Login "bob" a.1 a.2) guesses) server in
  (∃ u', s'.(committed).(users) !! "2" = Some u' ∧ u'.(is_locked) = true) ∧
  (∀ password code, ∃ d, outcome (serving (login settings "bob" password code)) s' = Err (HTTPException 403 d)) ∧
  (∀ k u', (run_ops (serve settings) [Login "bob" "guess" None] server).(committed).(users) !! k = Some u' → below_five u').
Proof.
  apply (five_wrong_passwords_lock settings server bob guesses [Login "bob" "guess" None]).
  - split; [constructor|]. split; [apply tables_keyed|vm_compute; reflexivity].
  - reflexivity.
  - intros k u Hk. assert (u.(failed_login_attempts) = 0) as Hf.
    { cbn in Hk. rewrite lookup_insert_Some, lookup_singleton_Some in Hk. by destruct Hk as [[_ <-]|[_ [_ <-]]]. }
    intros _. rewrite Hf. lia.
  - reflexivity.
  - reflexivity.
  - repeat constructor.
  - cbn. lia.
Defined.

(** Three days later, with the refresh token *)
Definition sign_in := serving (login settings "bob" "bob-pw" None).
Lemma login_opens_api_witness :
  ∃ s1 resp tokens, sign_in server = (Ok resp, s1) ∧ resp.(data) = Some tokens ∧
  ∃ u r, find_username "bob" tables = Some u ∧ role_name u tables = Some r ∧
    outcome (get_current_user settings (Some {| scheme := "Bearer"; credentials := tokens.(new_refresh_token) |}))
      (pass (seconds_us (3 * 86400)) s1) = Ok {| au_id := u.(id); au_username := "bob"; au_role := r |}.
Proof.
  destruct (sign_in server) as [[resp|e] s1] eqn:E; [|exfalso; vm_compute in E; discriminate].
  destruct (resp.(data)) as [tokens|] eqn:Ed; [|exfalso; vm_compute in E; injection E as <- <-; discriminate].
  exists s1, resp, tokens. split; [done|]. split; [done|].
  apply (login_opens_api settings "bob" "bob-pw" None server s1 resp tokens (7 * 86400) (seconds_us (3 * 86400))
    tokens.(new_refresh_token) 1 E Ed).
  - apply tables_keyed.
  - vm_compute. reflexivity.
  - done.
  - intros k [u Hk]. cbn in Hk. rewrite lookup_insert_Some, lookup_singleton_Some in Hk.
    by destruct Hk as [[<- _]|[_ [<- _]]].
  - right. done.
  - vm_compute. discriminate.
  - vm_compute in E. injection E as _ <-. reflexivity.
  - vm_compute in E. injection E as _ <-. reflexivity.
Defined.

Definition mistyped := serving (update_user settings (bearing root_claims) "2" (Some "b@x") (Some false) (Some "viewr")).
Lemma refused_update_is_kept_witness :
  ∃ s1 resp, mistyped server = (Ok resp, s1) ∧
  resp = refused "Invalid role" ∧ s1.(committed).(audit_logs) = [] ∧
  ∃ u1, s1.(committed).(users) !! "2" = Some u1 ∧ u1.(email) = Some "b@x" ∧ u1.(is_active) = false.
Proof.
  destruct (mistyped server) as [[resp|e] s1] eqn:E; [|exfalso; vm_compute in E; discriminate].
  exists s1, resp. split; [done|].
  apply (refused_update_is_kept settings (bearing root_claims) "2" "viewr" "b@x" false server s1 resp bob E).
  - apply tables_keyed.
  - reflexivity.
  - vm_compute. reflexivity.
Defined.
End AuthWitness.
