(* ===== verification/Handlers.v ===== *)
(** The handlers of the trading day: backend/core/scheduler_handlers.py, with the
    report of daily_reporter.py.

    A handler is a function of the [World] it shares with the others (the Redis
    keys, the audit records, the reports that went out, the realtime manager)
    and of an [Env], the answers of the services it calls: the broker's balance,
    the database, Redis, Telegram, the collectors.  It returns the fields of its
    result dict.  A time is in microseconds since ordinal 0, Korean time; the
    Redis keys of snapshots and reports are keyed by the day's ordinal, whose
    text [YYYY-MM-DD] is not modelled.  JSON floats come back as they were
    written.  The texts of messages and reports are left out, and so are the best
    and worst positions of a report. *)

From stdpp Require Import base option list gmap strings.
From Stdlib Require Import ZArith Lia Floats.SpecFloat.
From S2P Require Import Prelude PyFloat PyFormat PyParse Constants Guard Calendar.

(** * daily_reporter.py *)

Record TradeRecord := {
  tr_ticker : string;
  tr_side : string;
  tr_quantity : Z;
  tr_price : float;
  tr_amount : float;
  tr_pnl : option float;
}.

Record PositionSnapshot := {
  ps_ticker : string;
  ps_name : string;
  ps_quantity : Z;
  ps_avg_price : float;
  ps_current_price : float;
  ps_market_value : float;
  ps_pnl : float;
  ps_pnl_percent : float;
  ps_weight : float;
}.

Record DailyReport := {
  report_date : Z;
  portfolio_value_start : float;
  portfolio_value_end : float;
  daily_pnl : float;
  daily_return_pct : float;
  cumulative_pnl : float;
  cumulative_return_pct : float;
  total_trades : Z;
  buy_trades : Z;
  sell_trades : Z;
  total_buy_amount : float;
  total_sell_amount : float;
  winning_trades : Z;
  losing_trades : Z;
  positions : list PositionSnapshot;
  report_cash_balance : float;
  total_positions : Z;
  max_drawdown_today : float;
  report_consecutive_losses : Z;
}.

Definition count {A} (f : A → bool) (l : list A) : Z := Z.of_nat (length (filter (λ x, f x = true) l)).

Module DailyReporter.
(** With [report_date] and [initial_capital] given; [percent]: the change in
    percent of a base that is positive *)
Definition percent (change base : float) : float :=
  if (base >? fzero)%pyf then (change / base * of_Z 100)%pyf else fzero.
Definition is_side (side : string) (t : TradeRecord) : bool := bool_decide (t.(tr_side) = side).
Definition generate_report (today : Z) (initial_capital value_start value_end : float)
    (trades : list TradeRecord) (held : list PositionSnapshot) (cash : float)
    (drawdown : float) (losses : Z) : DailyReport :=
  let pnl := (value_end - value_start)%pyf in
  let cumulative := (value_end - initial_capital)%pyf in
  let amounts side := fsum (tr_amount <$> filter (λ t, is_side side t = true) trades) in
  {| report_date := today;
     portfolio_value_start := value_start; portfolio_value_end := value_end;
     daily_pnl := pnl; daily_return_pct := round_to 2 (percent pnl value_start);
     cumulative_pnl := cumulative; cumulative_return_pct := round_to 2 (percent cumulative initial_capital);
     total_trades := Z.of_nat (length trades);
     buy_trades := count (is_side "BUY") trades; sell_trades := count (is_side "SELL") trades;
     total_buy_amount := amounts "BUY"; total_sell_amount := amounts "SELL";
     winning_trades := count (λ t, match t.(tr_pnl) with Some x => (x >? fzero)%pyf | None => false end) trades;
     losing_trades := count (λ t, match t.(tr_pnl) with Some x => (x <? fzero)%pyf | None => false end) trades;
     positions := held; report_cash_balance := cash; total_positions := Z.of_nat (length held);
     max_drawdown_today := drawdown; report_consecutive_losses := losses |}.
End DailyReporter.

(** * The broker's balance *)

(** [get_kr_balance]: the rows of output1 and output2, or the text of an exception *)
Definition Row : Type := list (string * string).
Record Balance := { output1 : list Row; output2 : list Row }.

Fixpoint field (k : string) (r : Row) : option string :=
  match r with
  | [] => None
  | (k', v) :: r' => if bool_decide (k = k') then Some v else field k r'
  end.
(** [int(p.get(k, 0))] and [float(p.get(k, 0))]; [None] is the exception. *)
Definition int_field (k : string) (r : Row) : option Z :=
  match field k r with Some t => py_int t | None => Some 0 end.
Definition float_field (k : string) (r : Row) : option float :=
  match field k r with Some t => py_float t | None => Some fzero end.
Definition text_field (k : string) (r : Row) : string := default "" (field k r).

Record Holding := {
  h_ticker : string;
  h_name : string;
  h_quantity : Z;
  h_avg_price : float;
  h_current_price : float;
  h_eval_amount : float;
  h_pnl_amount : float;
  h_pnl_percent : float;
}.

Record Snapshot := {
  snap_date : Z;
  snap_value : float;
  snap_cash : float;
  snap_positions : list Holding;
}.
(** What a snapshot's key holds: a JSON object, or something else *)
Inductive Stored := Json (s : Snapshot) | Garbage.

(** * World and environment *)

Record World := {
  snapshots : gmap Z (Stored * Z);
  saved_reports : gmap Z (DailyReport * Z);
  audit : list string;
  sent : list DailyReport;
  realtime : bool;
}.

Record Env := {
  now : Z;
  kis : result string Balance;
  redis_get_works : bool;
  redis_set_works : bool;
  (** today's executed orders, by side and one by one *)
  trade_stats_rows : result string (list (string * Z * float));
  trade_rows : result string (list (string * string * option Z * option float));
  audit_works : bool;
  reconcile_all_submitted : result string (Z * Z);
  telegram : result string bool;
  (** the active universe by country, and whether the realtime manager starts *)
  universe : result string (list (string * list string));
  realtime_starts : result string bool;
  (** what the collectors and the health check of the morning say *)
  ohlcv_collection : result string string;
  news_collection : result string string;
  economic_collection : result string string;
  health_check : result string (string * bool);
  (** the ensemble's outcome for a ticker *)
  ensemble_run : string → string → result string string;
}.
Definition today (e : Env) : Z := e.(now) / day_us.

Section Handlers.
Context (settings : GuardSettings).

Definition set_snapshot (d : Z) (v : Stored * Z) (w : World) : World := {|
  snapshots := <[d := v]> w.(snapshots); saved_reports := w.(saved_reports); audit := w.(audit);
  sent := w.(sent); realtime := w.(realtime) |}.
Definition set_report (d : Z) (v : DailyReport * Z) (w : World) : World := {|
  snapshots := w.(snapshots); saved_reports := <[d := v]> w.(saved_reports); audit := w.(audit);
  sent := w.(sent); realtime := w.(realtime) |}.
Definition add_audit (a : string) (w : World) : World := {|
  snapshots := w.(snapshots); saved_reports := w.(saved_reports); audit := w.(audit) ++ [a];
  sent := w.(sent); realtime := w.(realtime) |}.
Definition add_sent (r : DailyReport) (w : World) : World := {|
  snapshots := w.(snapshots); saved_reports := w.(saved_reports); audit := w.(audit);
  sent := w.(sent) ++ [r]; realtime := w.(realtime) |}.
Definition set_realtime (b : bool) (w : World) : World := {|
  snapshots := w.(snapshots); saved_reports := w.(saved_reports); audit := w.(audit);
  sent := w.(sent); realtime := b |}.

(** [redis.get]: nothing once the key has expired *)
Definition get_snapshot (t d : Z) (w : World) : option Stored :=
  '(v, expires) ← w.(snapshots) !! d;
  if t <? expires then Some v else None.

(** * handle_market_close *)

(** The local variables a [try] block leaves behind when it is left in its middle *)
Record Locals := { value_end : float; cash_balance : float; positions_data : list Holding }.
Definition no_locals : Locals := {| value_end := fzero; cash_balance := fzero; positions_data := [] |}.

Definition parse_error : string := "ValueError".
Definition checked {A} (o : option A) : M Locals string A :=
  match o with Some a => mret a | None => raise parse_error end.

Definition read_holding (p : Row) (qty : Z) : M Locals string Holding :=
  avg ← checked (float_field "pchs_avg_pric" p);
  price ← checked (float_field "prpr" p);
  amount ← checked (float_field "evlu_amt" p);
  pnl ← checked (float_field "evlu_pfls_amt" p);
  pct ← checked (float_field "evlu_pfls_rt" p);
  mret {| h_ticker := text_field "pdno" p; h_name := text_field "prdt_name" p; h_quantity := qty;
          h_avg_price := avg; h_current_price := price; h_eval_amount := amount; h_pnl_amount := pnl;
          h_pnl_percent := pct |}.
Definition read_position (p : Row) : M Locals string unit :=
  qty ← checked (int_field "hldg_qty" p);
  if qty <=? 0 then mret tt else
  h ← read_holding p qty;
  modify (λ l, {| value_end := l.(value_end); cash_balance := l.(cash_balance);
                  positions_data := l.(positions_data) ++ [h] |}).
Definition read_summary (rows : list Row) : M Locals string unit :=
  match rows with
  | [] => mret tt
  | row :: _ =>
      value ← checked (float_field "tot_evlu_amt" row);
      modify (λ l, {| value_end := value; cash_balance := l.(cash_balance); positions_data := l.(positions_data) |}) ;;
      cash ← checked (float_field "dnca_tot_amt" row);
      modify (λ l, {| value_end := l.(value_end); cash_balance := cash; positions_data := l.(positions_data) |})
  end.
Definition read_balance (answer : result string Balance) : M Locals string unit :=
  balance ← lift_result answer;
  read_summary balance.(output2) ;;
  for_each read_position balance.(output1).

Record CloseResult := {
  kis_error : option string;
  final : Locals;
  trade_stats : result string (list (string * Z * float));
  snapshot_saved : option bool;
  snapshot_skip_reason : option string;
}.

(** [result.get("kis_error")] is false for an exception without a text. *)
Definition truthy (o : option string) : bool :=
  match o with Some t => negb (bool_decide (t = "")) | None => false end.

Definition all_zero (value cash : float) (held : list Holding) : bool :=
  (value =? fzero)%pyf && (cash =? fzero)%pyf && match held with [] => true | _ => false end.

Definition snapshot_ttl : Z := 86400 * 30 * 1000000.
Definition handle_market_close (e : Env) (w : World) : CloseResult * World :=
  let w := set_realtime false w in
  let '(r, l) := read_balance e.(kis) no_locals in
  let kis_error := match r with Ok _ => None | Err t => Some t end in
  let snapshot_is_empty := all_zero l.(value_end) l.(cash_balance) l.(positions_data) in
  let skip := truthy kis_error || snapshot_is_empty in
  let snapshot := {| snap_date := today e; snap_value := l.(value_end); snap_cash := l.(cash_balance);
                     snap_positions := l.(positions_data) |} in
  let w := if negb skip && e.(redis_set_works)
    then set_snapshot (today e) (Json snapshot, e.(now) + snapshot_ttl) w else w in
  let w := if e.(audit_works) then add_audit "MARKET_CLOSE" w else w in
  ({| kis_error := kis_error; final := l; trade_stats := e.(trade_stats_rows);
      snapshot_saved := if skip then Some false else if e.(redis_set_works) then Some true else None;
      snapshot_skip_reason :=
        if skip then Some (if truthy kis_error then "kis_error" else "empty_response") else None |}, w).

(** * handle_post_market *)

Inductive Skip := SnapshotReadException | SnapshotMissingOrEmpty | StartNonpositive.
Inductive PostResult := Skipped (why : Skip) | Reported (r : DailyReport).

(** What the two snapshots give: the start value and today's closing data;
    [None] is an exception while reading. *)
Definition start_value (t d : Z) (w : World) : float :=
  let previous := match get_snapshot t (d - 1) w with
    | Some (Json s) => s.(snap_value) | _ => fzero end in
  if (previous >? fzero)%pyf then previous else of_Z settings.(risk).(initial_capital_krw).
Definition read_snapshots (e : Env) (w : World) : option (float * Locals) :=
  if negb e.(redis_get_works) then None else
  match get_snapshot e.(now) (today e) w with
  | Some Garbage => None
  | Some (Json s) =>
      Some (start_value e.(now) (today e) w,
            {| value_end := s.(snap_value); cash_balance := s.(snap_cash); positions_data := s.(snap_positions) |})
  | None => Some (start_value e.(now) (today e) w, no_locals)
  end.

Definition trade_record (row : string * string * option Z * option float) : TradeRecord :=
  let '(ticker, side, qty, price) := row in
  let q := default 0 qty in
  let p := default fzero price in
  {| tr_ticker := ticker; tr_side := side; tr_quantity := q; tr_price := p; tr_amount := (of_Z q * p)%pyf;
     tr_pnl := None |}.
Definition position_snapshot (total : float) (h : Holding) : PositionSnapshot :=
  let weight := if (total >? fzero)%pyf then (h.(h_eval_amount) / total)%pyf else fzero in
  {| ps_ticker := h.(h_ticker); ps_name := h.(h_name); ps_quantity := h.(h_quantity); ps_avg_price := h.(h_avg_price);
     ps_current_price := h.(h_current_price); ps_market_value := h.(h_eval_amount); ps_pnl := h.(h_pnl_amount);
     ps_pnl_percent := h.(h_pnl_percent); ps_weight := round_to 4 weight |}.

(** The last part: [TradingGuard()] is an instance of its own. *)
Definition daily_report (e : Env) (start : float) (l : Locals) : DailyReport :=
  let trades := match e.(trade_rows) with Ok rows => trade_record <$> rows | Err _ => [] end in
  let guard := TradingGuard.init settings in
  DailyReporter.generate_report (today e) (of_Z settings.(risk).(initial_capital_krw)) start l.(value_end)
    trades (position_snapshot l.(value_end) <$> l.(positions_data)) l.(cash_balance)
    guard.(current_drawdown) guard.(consecutive_losses).
Definition report_ttl : Z := 86400 * 90 * 1000000.
Definition send_report (e : Env) (r : DailyReport) (w : World) : World :=
  let w := match e.(telegram) with Ok true => add_sent r w | _ => w end in
  if e.(redis_set_works) then set_report (today e) (r, e.(now) + report_ttl) w else w.

Definition handle_post_market (e : Env) (w : World) : PostResult * World :=
  match read_snapshots e w with
  | None => (Skipped SnapshotReadException, w)
  | Some (start, l) =>
      if all_zero l.(value_end) l.(cash_balance) l.(positions_data) then (Skipped SnapshotMissingOrEmpty, w) else
      if (l.(value_end) >? fzero)%pyf && (start <=? fzero)%pyf then (Skipped StartNonpositive, w) else
      let report := daily_report e start l in
      (Reported report, send_report e report w)
  end.

(** * handle_midday_check *)

Record LossAlert := { la_ticker : string; la_name : string; la_pnl_pct : float; la_pnl_amt : float }.
(** [total_eval] has no value when the broker did not answer. *)
Record MiddayLocals := { total_eval : option float; midday_cash : float; positions_count : Z; loss_tickers : list LossAlert }.
Definition set_total (x : float) (l : MiddayLocals) : MiddayLocals := {|
  total_eval := Some x; midday_cash := l.(midday_cash); positions_count := l.(positions_count); loss_tickers := l.(loss_tickers) |}.

Definition mchecked {A} (o : option A) : M MiddayLocals string A :=
  match o with Some a => mret a | None => raise parse_error end.
Fixpoint count_held (rows : list Row) : M MiddayLocals string Z :=
  match rows with
  | [] => mret 0
  | p :: rows' =>
      qty ← mchecked (int_field "hldg_qty" p);
      n ← count_held rows';
      mret (if 0 <? qty then n + 1 else n)
  end.
Definition check_loss (p : Row) : M MiddayLocals string unit :=
  qty ← mchecked (int_field "hldg_qty" p);
  if qty <=? 0 then mret tt else
  amt ← mchecked (float_field "evlu_pfls_amt" p);
  pct ← mchecked (float_field "evlu_pfls_rt" p);
  when (pct <? of_Z (-5))%pyf
    (modify (λ l, {| total_eval := l.(total_eval); midday_cash := l.(midday_cash); positions_count := l.(positions_count);
       loss_tickers := l.(loss_tickers) ++ [{| la_ticker := text_field "pdno" p; la_name := text_field "prdt_name" p;
         la_pnl_pct := round_to 2 pct; la_pnl_amt := amt |}] |})).
Definition midday_balance (answer : result string Balance) : M MiddayLocals string unit :=
  balance ← lift_result answer;
  n ← count_held balance.(output1);
  modify (set_total fzero) ;;
  match balance.(output2) with
  | [] => mret tt
  | row :: _ =>
      value ← mchecked (float_field "tot_evlu_amt" row);
      modify (set_total value) ;;
      cash ← mchecked (float_field "dnca_tot_amt" row);
      modify (λ l, {| total_eval := l.(total_eval); midday_cash := cash; positions_count := l.(positions_count);
                      loss_tickers := l.(loss_tickers) |})
  end ;;
  modify (λ l, {| total_eval := l.(total_eval); midday_cash := l.(midday_cash); positions_count := n;
                  loss_tickers := l.(loss_tickers) |}) ;;
  for_each check_loss balance.(output1).

Record MiddayResult := {
  midday_kis_error : option string;
  midday_locals : MiddayLocals;
  reported_drawdown : option float;
  dd_warning : bool;
  guard_error : bool;
}.

Definition set_current (x : float) (g : TradingGuardState) : TradingGuardState := {|
  is_active := g.(is_active); kill_switch_on := g.(kill_switch_on); kill_switch_reason := g.(kill_switch_reason);
  daily_realized_pnl := g.(daily_realized_pnl); daily_order_count := g.(daily_order_count);
  consecutive_losses := g.(consecutive_losses); current_drawdown := g.(current_drawdown);
  peak_portfolio_value := if (g.(peak_portfolio_value) =? fzero)%pyf then x else g.(peak_portfolio_value);
  current_portfolio_value := x; kill_switch_gauge := g.(kill_switch_gauge) |}.

(** The drawdown check of a guard of its own; the second component is that guard
    afterwards, which nobody sees again. *)
Definition midday_drawdown (total : float) : option float * bool * TradingGuardState :=
  let g := set_current total (TradingGuard.init settings) in
  let g := after (TradingGuard.check_max_drawdown settings) g in
  (Some (round_to 4 g.(current_drawdown)), (g.(current_drawdown) >? dec 15 2)%pyf, g).

Definition handle_midday_check (e : Env) (w : World) : MiddayResult * World :=
  let '(r, l) := midday_balance e.(kis)
    {| total_eval := None; midday_cash := fzero; positions_count := 0; loss_tickers := [] |} in
  let kis_error := match r with Ok _ => None | Err t => Some t end in
  ({| midday_kis_error := kis_error; midday_locals := l;
      reported_drawdown := match l.(total_eval) with
        | Some x => if (x >? fzero)%pyf then (midday_drawdown x).1.1 else None | None => None end;
      dd_warning := match l.(total_eval) with
        | Some x => (x >? fzero)%pyf && (midday_drawdown x).1.2 | None => false end;
      guard_error := match l.(total_eval) with Some _ => false | None => true end |}, w).

(** * handle_pre_market and handle_market_open *)

Record PreMarketResult := {
  pm_ohlcv : result string string;
  pm_news : result string string;
  pm_economic : result string string;
  pm_health : result string (string * bool);
  pm_daily_reset : TradingGuardState;
}.
(** Each step by itself: an exception is noted and the next one runs.  The guard
    that is reset is one made for the purpose. *)
Definition handle_pre_market (e : Env) (w : World) : PreMarketResult * World :=
  ({| pm_ohlcv := e.(ohlcv_collection); pm_news := e.(news_collection); pm_economic := e.(economic_collection);
      pm_health := e.(health_check);
      pm_daily_reset := after TradingGuard.reset_daily_state (TradingGuard.init settings) |}, w).

Fixpoint run_tickers (e : Env) (country : string) (tickers : list string) : list (string * result string string) :=
  match tickers with
  | [] => []
  | t :: rest => (t, e.(ensemble_run) t country) :: run_tickers e country rest
  end.
Fixpoint run_countries (e : Env) (grouped : list (string * list string)) : list (string * result string string) :=
  match grouped with
  | [] => []
  | (country, tickers) :: rest => run_tickers e country tickers ++ run_countries e rest
  end.

Record OpenResult := {
  total_tickers : option Z;
  succeeded : Z;
  failed : Z;
  ensemble_results : list (string * result string string);
  realtime_result : option (result string bool);
}.
Definition tickers_of (country : string) (grouped : list (string * list string)) : list string :=
  flat_map (λ g, if bool_decide (g.1 = country) then g.2 else []) grouped.

(** The manager is kept also when it did not start. *)
Definition _start_realtime_quotes (e : Env) (w : World) : result string bool * World :=
  match e.(universe) with
  | Err t => (Err t, w)
  | Ok grouped =>
      match tickers_of "KR" grouped with
      | [] => (Ok false, w)
      | _ => (e.(realtime_starts), set_realtime true w)
      end
  end.
Definition handle_market_open (e : Env) (w : World) : OpenResult * World :=
  match e.(universe) with
  | Ok grouped =>
      let runs := run_countries e grouped in
      match runs with
      | [] => ({| total_tickers := Some 0; succeeded := 0; failed := 0; ensemble_results := []; realtime_result := None |}, w)
      | _ =>
          let '(rt, w') := _start_realtime_quotes e w in
          ({| total_tickers := Some (Z.of_nat (length runs));
              succeeded := count (λ r, is_ok r.2) runs; failed := count (λ r, negb (is_ok r.2)) runs;
              ensemble_results := runs; realtime_result := Some rt |}, w')
      end
  | Err _ =>
      let '(rt, w') := _start_realtime_quotes e w in
      ({| total_tickers := None; succeeded := 0; failed := 0; ensemble_results := []; realtime_result := Some rt |}, w')
  end.

(** * A day after the other *)

Inductive Handler := PreMarket | MarketOpen | MiddayCheck | MarketClose | PostMarket.
Definition handle (he : Handler * Env) (w : World) : World :=
  match he.1 with
  | PreMarket => (handle_pre_market he.2 w).2
  | MarketOpen => (handle_market_open he.2 w).2
  | MiddayCheck => (handle_midday_check he.2 w).2
  | MarketClose => (handle_market_close he.2 w).2
  | PostMarket => (handle_post_market he.2 w).2
  end.
Definition morning : World := {| snapshots := ∅; saved_reports := ∅; audit := []; sent := []; realtime := false |}.
End Handlers.

(** * What the reports say *)

Module HandlerFacts.
Section Facts.
Context (settings : GuardSettings).

(** Reading a balance fails only with the text of a parse error, unless the
    broker did not answer, which leaves nothing behind. *)
Definition parse_only {A} (m : M Locals string A) : Prop := ∀ s e, outcome m s = Err e → e = parse_error.

Lemma parse_only_ret {A} (a : A) : parse_only (mret a).
Proof. by intros s e. Qed.
Lemma parse_only_modify f : parse_only (modify f).
Proof. by intros s e. Qed.
Lemma parse_only_checked {A} (o : option A) : parse_only (checked o).
Proof. destruct o; [apply parse_only_ret|]. by intros s e [= <-]. Qed.
Lemma parse_only_bind {A B} (m : M Locals string A) (k : A → M Locals string B) :
  parse_only m → (∀ a, parse_only (k a)) → parse_only (m ≫= k).
Proof.
  intros Hm Hk s e. unfold outcome, mbind, M_bind. specialize (Hm s). unfold outcome in Hm.
  destruct (m s) as [[a|e'] s']; cbn in *; [apply Hk|]. intros [= <-]. by apply Hm.
Qed.
Ltac parse_steps :=
  repeat (first [apply parse_only_checked | apply parse_only_ret | apply parse_only_modify
    | apply parse_only_bind; [|intros ?]]).

Lemma parse_only_position p : parse_only (read_position p).
Proof. unfold read_position, read_holding. parse_steps. case_match; parse_steps. Qed.
Lemma parse_only_positions rows : parse_only (for_each read_position rows).
Proof.
  induction rows as [|p rows IH]; cbn; [apply parse_only_ret|].
  apply parse_only_bind; [apply parse_only_position|done].
Qed.
Lemma parse_only_summary rows : parse_only (read_summary rows).
Proof. destruct rows; cbn; parse_steps. Qed.

Lemma read_balance_cases answer :
  match read_balance answer no_locals with
  | (Ok _, _) => is_ok answer = true
  | (Err t, l) => t = parse_error ∨ l = no_locals
  end.
Proof.
  unfold read_balance. destruct answer as [b|t]; [|by right].
  set (m := read_summary b.(output2) ;; for_each read_position b.(output1)).
  assert (parse_only m) as Hp.
  { apply parse_only_bind; [apply parse_only_summary|intros _; apply parse_only_positions]. }
  specialize (Hp no_locals). unfold outcome in Hp.
  change ((lift_result (Ok b) ≫= _) no_locals) with (m no_locals).
  destruct (m no_locals) as [[[]|t] l]; [done|left]. by apply Hp.
Qed.

(** ** The snapshots *)

(** The snapshot a closing on day [d] saves: the broker has answered, with a
    readable balance that is not all zero. *)
Definition closing (d : Z) (s : Snapshot) (e : Env) : Prop :=
  today e = d ∧ e.(redis_set_works) = true ∧ is_ok e.(kis) = true ∧
  all_zero s.(snap_value) s.(snap_cash) s.(snap_positions) = false ∧
  read_balance e.(kis) no_locals =
    (Ok tt, {| value_end := s.(snap_value); cash_balance := s.(snap_cash); positions_data := s.(snap_positions) |}).

Definition closed (l : list (Handler * Env)) (d : Z) (s : Snapshot) : Prop := ∃ e, (MarketClose, e) ∈ l ∧ closing d s e.
Definition snapshots_ok (l : list (Handler * Env)) (w : World) : Prop :=
  ∀ d v expires, w.(snapshots) !! d = Some (v, expires) → ∃ s, v = Json s ∧ closed l d s.

Lemma snapshots_ok_mono l l' w w' :
  l ⊆ l' → w'.(snapshots) = w.(snapshots) → snapshots_ok l w → snapshots_ok l' w'.
Proof.
  intros Hl Hw H d v ex. rewrite Hw. intros Hv. destruct (H d v ex Hv) as (s&->&e&He&Hc).
  exists s. split; [done|]. exists e. split; [by apply Hl|done].
Qed.

Lemma close_snapshots l e w :
  snapshots_ok l w → snapshots_ok (l ++ [(MarketClose, e)]) (handle_market_close e w).2.
Proof.
  intros Hw. assert (l ⊆ l ++ [(MarketClose, e)]) as Hl by set_solver.
  unfold handle_market_close. pose proof (read_balance_cases e.(kis)) as Hr.
  destruct (read_balance e.(kis) no_locals) as [r loc] eqn:Er.
  set (err := match r with Ok _ => None | Err t => Some t end).
  set (skip := truthy err || all_zero loc.(value_end) loc.(cash_balance) loc.(positions_data)).
  assert (snapshots_ok (l ++ [(MarketClose, e)])
    (if negb skip && e.(redis_set_works) then set_snapshot (today e)
       (Json {| snap_date := today e; snap_value := loc.(value_end); snap_cash := loc.(cash_balance);
                snap_positions := loc.(positions_data) |}, e.(now) + snapshot_ttl) (set_realtime false w)
     else set_realtime false w)) as Hs.
  2:{ cbn. destruct (audit_works e); [|done]. by eapply snapshots_ok_mono; [reflexivity| |exact Hs]. }
  destruct (negb skip && e.(redis_set_works)) eqn:Esave; [|by eapply snapshots_ok_mono].
  intros d v ex. cbn. destruct (decide (today e = d)) as [<-|Hne].
  2:{ rewrite lookup_insert_ne by done. apply (snapshots_ok_mono l _ w w Hl eq_refl Hw). }
  rewrite lookup_insert_eq. intros [= <- _]. eexists. split; [done|]. exists e. split; [set_solver|].
  apply andb_true_iff in Esave as [Hskip Hredis]. apply negb_true_iff, orb_false_iff in Hskip as [Herr Hzero].
  assert (r = Ok tt) as ->.
  { destruct r as [[]|t]; [done|]. unfold err in Herr. cbn in Herr. destruct Hr as [Ht | Hl0]; subst; [done|].
    by destruct (negb _). }
  split_and!; [done..|]. rewrite Er. by destruct loc.
Qed.

Lemma post_snapshots e w : (handle_post_market settings e w).2.(snapshots) = w.(snapshots).
Proof.
  unfold handle_post_market, send_report. repeat (case_match; cbn; try done).
Qed.
Lemma open_snapshots e w : (handle_market_open e w).2.(snapshots) = w.(snapshots).
Proof. unfold handle_market_open, _start_realtime_quotes. repeat (case_match; cbn; simplify_eq; try done). Qed.

Lemma handled_snapshots l : snapshots_ok l (run_ops (handle settings) l morning).
Proof.
  induction l as [|[h e] l IH] using rev_ind; [done|]. rewrite run_ops_app. cbn.
  unfold run_ops in IH |- *. cbn. set (w := foldl _ _ l) in *.
  destruct h; cbn; [..|by apply close_snapshots|].
  all: eapply (snapshots_ok_mono l); [set_solver| |exact IH].
  - done.
  - apply open_snapshots.
  - unfold handle_midday_check. by destruct (midday_balance _ _).
  - apply post_snapshots.
Qed.

Lemma get_snapshot_closed l t d w v :
  snapshots_ok l w → get_snapshot t d w = Some v → ∃ s, v = Json s ∧ closed l d s.
Proof.
  intros Hw. unfold get_snapshot. destruct (w.(snapshots) !! d) as [[v' ex]|] eqn:E; [|done]. cbn.
  case_match; [|done]. intros [= <-]. by apply (Hw d v' ex).
Qed.

(** The value a day's report starts from *)
Definition starts_from (l : list (Handler * Env)) (d : Z) (x : float) : Prop :=
  (∃ s, closed l (d - 1) s ∧ x = s.(snap_value) ∧ (x >? fzero)%pyf = true) ∨
  x = of_Z settings.(risk).(initial_capital_krw).

Lemma start_value_from l t d w : snapshots_ok l w → starts_from l d (start_value settings t d w).
Proof.
  intros Hw. unfold start_value. destruct (get_snapshot t (d - 1) w) as [v|] eqn:E.
  - destruct (get_snapshot_closed l t (d - 1) w v Hw E) as (s&->&Hs).
    destruct (s.(snap_value) >? fzero)%pyf eqn:Hpos; [left; by exists s|by right].
  - by right.
Qed.

(** C19. A daily report is never made up.  Whatever the handlers met with, day
    after day: a report that goes out states the values, the cash and the
    positions of a closing of the same day, at which the broker answered, the
    balance could be read and was not all zero; it starts from the value saved
    the day before or from the initial capital, never from nothing; it sends and
    saves nothing else.  When one of these is missing, no report goes out and
    nothing changes.  Drawdown and losing streak are those of a new guard: 0. *)
Theorem reports_are_grounded (l : list (Handler * Env)) (e : Env) :
  let w := run_ops (handle settings) l morning in
  match handle_post_market settings e w with
  | (Reported r, w') =>
      (∃ s, closed l (today e) s ∧
        r.(report_date) = today e ∧ r.(portfolio_value_end) = s.(snap_value) ∧
        r.(report_cash_balance) = s.(snap_cash) ∧ r.(total_positions) = Z.of_nat (length s.(snap_positions))) ∧
      starts_from l (today e) r.(portfolio_value_start) ∧
      ((r.(portfolio_value_end) >? fzero)%pyf = true → (r.(portfolio_value_start) <=? fzero)%pyf = false) ∧
      r.(max_drawdown_today) = fzero ∧ r.(report_consecutive_losses) = 0 ∧
      w' = send_report e r w
  | (Skipped _, w') => w' = w
  end.
Proof.
  intros w. pose proof (handled_snapshots l) as Hw. fold w in Hw.
  unfold handle_post_market, read_snapshots. destruct (redis_get_works e); [|done]. cbn.
  destruct (get_snapshot e.(now) (today e) w) as [v|] eqn:Ev; [|done].
  destruct (get_snapshot_closed l _ _ w v Hw Ev) as (s&->&Hs). cbn.
  destruct (all_zero _ _ _); [done|]. destruct (_ && _) eqn:Esane; [done|]. split_and!; try done.
  - exists s. split_and!; [done..|]. cbn. by rewrite length_fmap.
  - by apply start_value_from.
  - cbn. intros Hpos. by rewrite Hpos in Esane.
Qed.

(** The day before is the calendar day before: after a day without a closing,
    such as every Monday, a report measures the day's profit from the initial
    capital, not from the last closing. *)
Theorem monday_starts_from_initial_capital (l : list (Handler * Env)) (e : Env) (r : DailyReport)
  (Hno : ∀ e', (MarketClose, e') ∈ l → today e' ≠ today e - 1)
  (Hr : (handle_post_market settings e (run_ops (handle settings) l morning)).1 = Reported r) :
  r.(portfolio_value_start) = of_Z settings.(risk).(initial_capital_krw) ∧
  r.(daily_pnl) = (r.(portfolio_value_end) - of_Z settings.(risk).(initial_capital_krw))%pyf.
Proof.
  revert Hr. unfold handle_post_market, read_snapshots. pose proof (handled_snapshots l) as Hw.
  set (w := run_ops _ l morning) in *.
  assert (start_value settings e.(now) (today e) w = of_Z settings.(risk).(initial_capital_krw)) as Hstart.
  { destruct (start_value_from l e.(now) (today e) w Hw) as [(s&(e'&Hin&Hd&_)&_)|?]; [|done]. by destruct (Hno e' Hin). }
  destruct (redis_get_works e); [|done]. destruct (get_snapshot _ (today e) w) as [[s|]|]; cbn; [|done|].
  all: destruct (all_zero _ _ _); [done|]; destruct (_ && _); [done|]; cbn; intros [= <-]; by rewrite <- Hstart.
Qed.
End Facts.
End HandlerFacts.

(** * Two days *)

Module HandlerRuns.
Definition demo : GuardSettings := {|
  trading_mode := DEMO; is_production := false;
  active_credential := {| app_key := ""; app_secret := ""; account_no := "" |};
  live_app_key := ""; demo_app_key := "";
  risk := {| initial_capital_krw := 50000000; daily_loss_limit_krw := 5000000; max_order_amount_krw := 10000000;
             consecutive_loss_limit := 5; max_drawdown := dec 20 2 |} |}.

Definition holding_row : Row := [("pdno", "005930"); ("hldg_qty", "10"); ("prpr", "70000"); ("evlu_amt", "700000")].
Definition summary (value cash : string) : Row := [("tot_evlu_amt", value); ("dnca_tot_amt", cash)].
(** Everything works; the broker answers [b] on day [d]. *)
Definition fine (d : Z) (b : Balance) : Env := {|
  now := d * day_us + time 15 30; kis := Ok b; redis_get_works := true; redis_set_works := true;
  trade_stats_rows := Ok []; trade_rows := Ok []; audit_works := true; reconcile_all_submitted := Ok (0, 0);
  telegram := Ok true; universe := Ok []; realtime_starts := Ok true; ohlcv_collection := Ok "";
  news_collection := Ok ""; economic_collection := Ok ""; health_check := Ok ("healthy", true);
  ensemble_run _ _ := Ok "" |}.

Definition monday : Z := date 2026 4 6.
Definition friday : list (Handler * Env) :=
  [(MarketClose, fine (monday - 3) {| output1 := [holding_row]; output2 := [summary "60000000" "0"] |})].
Definition closing_monday : list (Handler * Env) :=
  [(MarketClose, fine monday {| output1 := [holding_row]; output2 := [summary "60100000" "0"] |})].

(** 60 million on Friday, 60.1 on Monday: the report says 10.1 million. *)
Lemma monday_starts_from_initial_capital_witness :
  ∃ r, (handle_post_market demo (fine monday {| output1 := []; output2 := [] |})
         (run_ops (handle demo) (friday ++ closing_monday) morning)).1 = Reported r ∧
    r.(daily_pnl) = of_Z 10100000 ∧
    (r.(portfolio_value_start) = of_Z 50000000 ∧ r.(daily_pnl) = (r.(portfolio_value_end) - of_Z 50000000)%pyf).
Proof.
  eexists. split; [vm_compute; reflexivity|]. split; [vm_compute; reflexivity|].
  apply (HandlerFacts.monday_starts_from_initial_capital demo (friday ++ closing_monday) (fine monday {| output1 := []; output2 := [] |})).
  - intros e' He. unfold friday, closing_monday in He. cbn in He.
    apply list_elem_of_In in He. cbn in He. destruct He as [[= <-]|[[= <-]|[]]]; vm_compute; discriminate.
  - vm_compute. reflexivity.
Defined.

(** The safety net has a hole: when the broker lists positions but no summary,
    the closing saves a value of 0, which is not all zero, and the report of the
    day goes out with a loss of 100 percent. *)
Theorem phantom_loss_report :
  let tuesday := fine (monday + 1) {| output1 := [holding_row]; output2 := [] |} in
  let w := run_ops (handle demo) (closing_monday ++ [(MarketClose, tuesday); (PostMarket, tuesday)]) morning in
  ∃ r, w.(sent) = [r] ∧ r.(portfolio_value_start) = of_Z 60100000 ∧ r.(portfolio_value_end) = fzero ∧
    r.(daily_return_pct) = of_Z (-100) ∧ r.(total_positions) = 1.
Proof. eexists. vm_compute. split_and!; reflexivity. Qed.
End HandlerRuns.
