(* ===== verification/Gates.v ===== *)
(** The quality gates of the investment pipeline: backend/core/gates/,
    core/gate_registry.py and core/fallback_handler.py.

    A gate is handed [Any]; [Data A] lists what [isinstance] tells apart: no
    value, a list, a dict (of which only the number of entries matters, since a
    dict has none of the attributes the gates read) and a single object.  An
    attribute read with [getattr(x, name, None)] or guarded by [hasattr] is an
    [option].  Keyword arguments are arguments here; their defaults are the
    [default_]... records.  The [context], [timestamp] and [decision_id] of a
    result are left out: nothing reads them back. *)

From stdpp Require Import base option list gmap strings.
From Stdlib Require Import ZArith Lia Floats.SpecFloat.
From S2P Require Import Prelude PyFloat PyFormat Constants PipelineState.

(** * gates/base.py *)

Inductive GateDecision := PASS | BLOCK.
#[global] Instance GateDecision_eq_dec : EqDecision GateDecision.
Proof. solve_decision. Defined.

Inductive GateSeverity := INFO | WARNING | SEVERE | CRITICAL.
#[global] Instance GateSeverity_eq_dec : EqDecision GateSeverity.
Proof. solve_decision. Defined.

Record GateResult := {
  gr_gate_id : string;
  decision : GateDecision;
  reason : string;
  severity : GateSeverity;
}.
#[global] Instance GateResult_eq_dec : EqDecision GateResult.
Proof. solve_decision. Defined.

(** What the pipeline's code can raise. *)
Inductive PyExc :=
  | ValidationError
  | ValueError (message : string)
  | Transition (e : InvalidTransitionError)
  | Service (what : string).

Definition Eval := result PyExc GateResult.

(** [GateResult(...)]: pydantic refuses a reason of more than 500 characters. *)
Definition mk_result (g : GateResult) : Eval :=
  if 500 <? py_len g.(reason) then Err ValidationError else Ok g.

Definition _pass (gate_id r : string) : Eval :=
  mk_result {| gr_gate_id := gate_id; decision := PASS; reason := r; severity := INFO |}.
Definition _block (gate_id r : string) (s : GateSeverity) : Eval :=
  mk_result {| gr_gate_id := gate_id; decision := BLOCK; reason := r; severity := s |}.

Inductive Data (A : Type) := NoData | Items (l : list A) | Mapping (entries : nat) | Single (a : A).
Arguments NoData {A}.
Arguments Items {A} l.
Arguments Mapping {A} entries.
Arguments Single {A} a.

(** [data if isinstance(data, list) else [data]], a dict being an object with
    no attribute the gates read ([blank]). *)
Definition as_list {A} (blank : A) (d : Data A) : list A :=
  match d with
  | NoData => []
  | Items l => l
  | Mapping _ => [blank]
  | Single a => [a]
  end.

Definition count (n : nat) : string := fmt_int (Z.of_nat n).

(** * The gates *)

Module DataGate.
Definition gate_id : string := "DataGate".

Record kwargs := {
  max_consecutive_missing : Z;
  outlier_ratio_max : float;
  outlier_ratio : float;
}.
Definition default_kwargs : kwargs :=
  {| max_consecutive_missing := 3; outlier_ratio_max := dec 5 2; outlier_ratio := fzero |}.

(** A record's attribute [consecutive_missing]. *)
Definition missing := option Z.

Fixpoint first_over (limit : Z) (records : list missing) : option Z :=
  match records with
  | [] => None
  | Some n :: rest => if limit <? n then Some n else first_over limit rest
  | None :: rest => first_over limit rest
  end.

Definition evaluate (k : kwargs) (data : Data missing) : Eval :=
  match data with
  | NoData | Items [] | Mapping O => _block gate_id "데이터가 비어 있습니다" CRITICAL
  | _ =>
      let records := as_list None data in
      match first_over k.(max_consecutive_missing) records with
      | Some n =>
          _block gate_id ("연속 결측 " +:+ fmt_int n +:+ "일 > 한도 " +:+
                          fmt_int k.(max_consecutive_missing) +:+ "일") SEVERE
      | None =>
          if (k.(outlier_ratio) >? k.(outlier_ratio_max))%pyf then
            _block gate_id ("이상치 비율 " +:+ fmt_percent 2 k.(outlier_ratio) +:+ " > 임계값 " +:+
                            fmt_percent 2 k.(outlier_ratio_max)) WARNING
          else _pass gate_id ("데이터 품질 검증 통과 (" +:+ count (length records) +:+ "건)")
      end
  end.
End DataGate.

Module FactorGate.
Definition gate_id : string := "FactorGate".

(** The attributes the gate looks for on a vector. *)
Record vector := {
  factor_value : option float;
  factor_momentum : option float;
  factor_quality : option float;
  factor_low_vol : option float;
  factor_size : option float;
  tech_rsi : option float;
  sentiment : option float;
}.
Definition blank : vector :=
  {| factor_value := None; factor_momentum := None; factor_quality := None;
     factor_low_vol := None; factor_size := None; tech_rsi := None; sentiment := None |}.

Definition has_any (v : vector) : bool :=
  existsb (λ f : vector → option float, bool_decide (f v ≠ None))
    [factor_value; factor_momentum; factor_quality; factor_low_vol; factor_size; tech_rsi; sentiment].

(** [n / d] of two counts *)
Definition ratio (n d : nat) : float :=
  if bool_decide (d = 0%nat) then fzero else (of_Z (Z.of_nat n) / of_Z (Z.of_nat d))%pyf.

Definition evaluate (min_coverage : float) (data : Data vector) : Eval :=
  match data with
  | NoData | Items [] => _block gate_id "팩터 벡터가 없습니다" CRITICAL
  | _ =>
      let vectors := as_list blank data in
      let total := length vectors in
      let valid := length (List.filter has_any vectors) in
      let coverage := ratio valid total in
      if (coverage <? min_coverage)%pyf then
        _block gate_id ("팩터 커버리지 " +:+ fmt_percent 1 coverage +:+ " < 최소 " +:+
                        fmt_percent 1 min_coverage) SEVERE
      else _pass gate_id ("팩터 검증 통과 (커버리지 " +:+ fmt_percent 1 coverage +:+ ", " +:+
                          count valid +:+ "/" +:+ count total +:+ "건)")
  end.
Definition default_min_coverage : float := dec 5 1.
End FactorGate.

Module SignalGate.
Definition gate_id : string := "SignalGate".

(** [direction.value] where the signal has a direction, else its [value]. *)
Record signal := { direction : option string; value : option float }.
Definition blank : signal := {| direction := None; value := None |}.

Definition active (hold_threshold : float) (s : signal) : bool :=
  match s.(direction) with
  | Some d => negb (bool_decide (d = "HOLD"))
  | None => match s.(value) with Some v => (fabs v >? hold_threshold)%pyf | None => false end
  end.

Definition evaluate (hold_threshold : float) (data : Data signal) : Eval :=
  match data with
  | NoData | Items [] => _block gate_id "시그널이 없습니다" CRITICAL
  | _ =>
      let signals := as_list blank data in
      let total := length signals in
      let active_count := length (List.filter (active hold_threshold) signals) in
      if bool_decide (active_count = 0%nat) then
        _block gate_id ("모든 시그널이 HOLD (" +:+ count total +:+ "건)") WARNING
      else _pass gate_id ("시그널 검증 통과 (활성 " +:+ count active_count +:+ "/" +:+ count total +:+ "건)")
  end.
Definition default_hold_threshold : float := dec 5 2.
End SignalGate.

Module EnsembleGate.
Definition gate_id : string := "EnsembleGate".

(** Weights by strategy, in the order of the dict. *)
Abbreviation weights := (list (string * float)).
Inductive data := NoWeights | Weights (w : weights) | HasWeights (w : weights) | Other.

(** [max(d.values())] and [max(d, key=d.get)]: the first of the largest. *)
Fixpoint max_from (best : string * float) (rest : weights) : string * float :=
  match rest with
  | [] => best
  | x :: rest' => max_from (if flt best.2 x.2 then x else best) rest'
  end.

Definition evaluate (max_single_strategy_weight : float) (d : data) : Eval :=
  match d with
  | NoWeights => _block gate_id "앙상블 결과가 없습니다" CRITICAL
  | Other => _block gate_id "앙상블 데이터 형식 불일치" SEVERE
  | Weights [] | HasWeights [] => _block gate_id "앙상블 가중치가 비어 있습니다" CRITICAL
  | Weights (w :: ws) | HasWeights (w :: ws) =>
      let weight_sum := fsum (w :: ws).*2 in
      let top := max_from w ws in
      if (fabs (weight_sum - of_Z 1) >? dec 1 2)%pyf then
        _block gate_id ("가중치 합 " +:+ fmt_fixed false 4 weight_sum +:+ " ≠ 1.0") SEVERE
      else if (top.2 >? max_single_strategy_weight)%pyf then
        _block gate_id ("전략 '" +:+ top.1 +:+ "' 가중치 " +:+ fmt_percent 2 top.2 +:+ " > 한도 " +:+
                        fmt_percent 2 max_single_strategy_weight) WARNING
      else _pass gate_id ("앙상블 검증 통과 (" +:+ count (S (length ws)) +:+ "개 전략)")
  end.
Definition default_max_weight : float := dec 6 1.
End EnsembleGate.

Module PortfolioGate.
Definition gate_id : string := "PortfolioGate".

Record position := { ticker : option string; target_weight : option float }.
Record portfolio := { positions : list position; cash_weight : option float }.
Definition weight (p : position) : float := default fzero p.(target_weight).

Definition first_heavy (limit : float) (ps : list position) : option position :=
  find (λ p, (weight p >? limit)%pyf) ps.

Definition evaluate (max_single_weight : float) (data : option portfolio) : Eval :=
  match data with
  | None => _block gate_id "포트폴리오가 없습니다" CRITICAL
  | Some d =>
      let total := (fsum (weight <$> d.(positions)) + default fzero d.(cash_weight))%pyf in
      if (fabs (total - of_Z 1) >? dec 1 2)%pyf then
        _block gate_id ("비중 합 불일치: " +:+ fmt_fixed false 4 total) SEVERE
      else match first_heavy max_single_weight d.(positions) with
      | Some p =>
          _block gate_id (default "?" p.(ticker) +:+ " 비중 " +:+ fmt_percent 2 (weight p) +:+
                          " > 한도 " +:+ fmt_percent 2 max_single_weight) WARNING
      | None => _pass gate_id ("포트폴리오 검증 통과 (" +:+ count (length d.(positions)) +:+ "종목)")
      end
  end.
Definition default_max_single_weight : float := dec 20 2.
End PortfolioGate.

Module TradingGuardGate.
Definition gate_id : string := "TradingGuardGate".

(** A guard result: a dict or an object with [approved] and [reason], or any
    other value, of which the truth value and [str] are used. *)
Inductive verdict := Verdict (approved : bool) (reason : string) | Value (truth : bool) (text : string).

(** [self._guard]: absent, or an object with or without [validate]. *)
Inductive guard := NoGuard | Validates (validate : result PyExc (option verdict)) | Plain.

Definition decide_on (v : verdict) : Eval :=
  let '(is_approved, r) := match v with Verdict a r => (a, r) | Value a r => (a, r) end in
  if is_approved then _pass gate_id "TradingGuard 승인"
  else _block gate_id ("TradingGuard 거부: " +:+ r) SEVERE.

Definition evaluate (g : guard) (guard_result : option verdict) : Eval :=
  let missing := _block gate_id "TradingGuard 결과를 얻을 수 없습니다" CRITICAL in
  match g with
  | NoGuard =>
      match guard_result with
      | None => _block gate_id "TradingGuard가 설정되지 않았습니다" CRITICAL
      | Some v => decide_on v
      end
  | Validates validate => rbind validate (λ r, match r with Some v => decide_on v | None => missing end)
  | Plain => match guard_result with Some v => decide_on v | None => missing end
  end.
End TradingGuardGate.

Module ReconGate.
Definition gate_id : string := "ReconGate".

(** [broker_balance] (only whether it is there), and the mismatches. *)
Record recon := { broker_balance : bool; mismatches : nat }.

Definition evaluate (data : option recon) : Eval :=
  match data with
  | None => _block gate_id "대사 데이터가 없습니다" CRITICAL
  | Some d =>
      if negb d.(broker_balance) then _block gate_id "브로커 잔고 정보를 받지 못했습니다" CRITICAL
      else if bool_decide (d.(mismatches) ≠ 0%nat) then
        _block gate_id ("대사 불일치 " +:+ count d.(mismatches) +:+ "건 발견") SEVERE
      else _pass gate_id "브로커 대사 일치 확인"
  end.
End ReconGate.

Module ExecutionGate.
Definition gate_id : string := "ExecutionGate".

Record execution := { submitted : bool; error : option string; broker_order_id : option string }.

Definition evaluate (data : option execution) : Eval :=
  match data with
  | None => _block gate_id "실행 결과가 없습니다" CRITICAL
  | Some d =>
      let e := default "" d.(error) in
      if negb (bool_decide (e = "")) then _block gate_id ("주문 실행 오류: " +:+ e) SEVERE
      else if negb d.(submitted) then _block gate_id "주문이 브로커에 전송되지 않았습니다" SEVERE
      else _pass gate_id ("주문 실행 성공 (ID: " +:+ default "None" d.(broker_order_id) +:+ ")")
  end.
End ExecutionGate.

Module FillGate.
Definition gate_id : string := "FillGate".

Record fill := { status : string; requested_quantity : Z; filled_quantity : Z }.

Definition evaluate (min_fill_ratio : float) (data : option fill) : Eval :=
  match data with
  | None => _block gate_id "체결 데이터가 없습니다" CRITICAL
  | Some d =>
      if bool_decide (d.(status) = "FAILED") then _block gate_id "주문 체결 실패 (FAILED)" SEVERE
      else if bool_decide (d.(status) = "CANCELLED") && (d.(filled_quantity) =? 0) then
        _block gate_id "주문 전량 취소" WARNING
      else
        let fill_ratio := if 0 <? d.(requested_quantity)
          then (of_Z d.(filled_quantity) / of_Z d.(requested_quantity))%pyf else fzero in
        if ((min_fill_ratio >? fzero) && (fill_ratio <? min_fill_ratio))%pyf%bool then
          _block gate_id ("체결 비율 " +:+ fmt_percent 1 fill_ratio +:+ " < 최소 " +:+
                          fmt_percent 1 min_fill_ratio) WARNING
        else _pass gate_id ("체결 검증 통과 (" +:+ fmt_int d.(filled_quantity) +:+ "/" +:+
               fmt_int d.(requested_quantity) +:+ ", " +:+ fmt_percent 1 fill_ratio +:+ ")")
  end.
End FillGate.

(** * gate_registry.py *)

Module GateRegistry.
Section Registry.
(** The data and the keyword arguments the gates take. *)
Context {D K : Type}.

Record Gate := { g_id : string; g_evaluate : option D → option K → Eval }.

Record t := { _gates : gmap string Gate; _execution_order : list string }.

Definition init : t := {| _gates := ∅; _execution_order := [] |}.

Definition register (g : Gate) (r : t) : t :=
  {| _gates := <[g.(g_id) := g]> r.(_gates);
     _execution_order := if bool_decide (g.(g_id) ∈ r.(_execution_order)) then r.(_execution_order)
                         else r.(_execution_order) ++ [g.(g_id)] |}.

(** [list.remove]: the first occurrence *)
Fixpoint remove_first (x : string) (l : list string) : list string :=
  match l with
  | [] => []
  | y :: l' => if bool_decide (x = y) then l' else y :: remove_first x l'
  end.

Definition unregister (gate_id : string) (r : t) : t :=
  {| _gates := delete gate_id r.(_gates);
     _execution_order := remove_first gate_id r.(_execution_order) |}.

Definition lookup (gate_id : string) (r : t) : option Gate := r.(_gates) !! gate_id.
Definition gate_ids (r : t) : list string := r.(_execution_order).
Definition len (r : t) : nat := size r.(_gates).

Definition evaluate_single (gate_id : string) (data : option D) (k : option K) (r : t) : Eval :=
  match lookup gate_id r with
  | None => Err (ValueError ("등록되지 않은 Gate: " +:+ gate_id))
  | Some g => g.(g_evaluate) data k
  end.

(** The loop of [evaluate_all] over the execution order. *)
Fixpoint evaluate_from (r : t) (data_map : gmap string D) (stop_on_block : bool)
    (kwargs : gmap string K) (order : list string) : result PyExc (list GateResult) :=
  match order with
  | [] => Ok []
  | id :: rest =>
      match lookup id r with
      | None => evaluate_from r data_map stop_on_block kwargs rest
      | Some g =>
          rbind (g.(g_evaluate) (data_map !! id) (kwargs !! id)) (λ res,
            if stop_on_block && bool_decide (res.(decision) = BLOCK) then Ok [res]
            else rmap (cons res) (evaluate_from r data_map stop_on_block kwargs rest))
      end
  end.

Definition evaluate_all (data_map : gmap string D) (stop_on_block : bool)
    (kwargs : gmap string K) (r : t) : result PyExc (list GateResult) :=
  evaluate_from r data_map stop_on_block kwargs r.(_execution_order).

(** Requests of a client. *)
Inductive request := Register (g : Gate) | Unregister (gate_id : string).
Definition serve (q : request) (r : t) : t :=
  match q with Register g => register g r | Unregister id => unregister id r end.

(** ** What the registry promises *)

(** The order lists each registered gate once, under its own id. *)
Definition wf (r : t) : Prop :=
  NoDup r.(_execution_order) ∧
  (∀ id, id ∈ r.(_execution_order) ↔ is_Some (r.(_gates) !! id)) ∧
  map_Forall (λ id g, g.(g_id) = id) r.(_gates).

Lemma remove_first_notin x l : x ∉ l → remove_first x l = l.
Proof.
  induction l as [|y l IH]; [done|]. cbn. intros Hx. case_bool_decide; [set_solver|].
  f_equal. apply IH. set_solver.
Qed.

Lemma remove_first_NoDup x l : NoDup l → NoDup (remove_first x l) ∧ ∀ y, y ∈ remove_first x l ↔ y ∈ l ∧ y ≠ x.
Proof.
  induction 1 as [|z l Hz Hl [IH1 IH2]]; cbn; [split; [apply NoDup_nil_2|set_solver]|].
  case_bool_decide as E; subst; [set_solver|]. split; [apply NoDup_cons_2; set_solver|set_solver].
Qed.

Lemma register_wf g r : wf r → wf (register g r).
Proof.
  intros (Hn & Hk & Hi). split_and!; cbn.
  - case_bool_decide; [done|]. apply NoDup_app. split_and!; [done|set_solver|by apply NoDup_singleton].
  - intros id. rewrite lookup_insert_is_Some'. specialize (Hk id). case_bool_decide; [|set_solver].
    split; [set_solver|]. intros [<-|Hs]; set_solver.
  - by apply map_Forall_insert_2.
Qed.

Lemma unregister_wf id r : wf r → wf (unregister id r).
Proof.
  intros (Hn & Hk & Hi). destruct (remove_first_NoDup id _ Hn) as [Hn' Hr]. split_and!; cbn.
  - done.
  - intros id'. rewrite Hr, lookup_delete_is_Some, Hk. set_solver.
  - by apply map_Forall_delete.
Qed.

Lemma registry_serve_wf q r : wf r → wf (serve q r).
Proof. destruct q; [apply register_wf|apply unregister_wf]. Qed.

Lemma registry_init_wf : wf init.
Proof. split_and!; cbn; [apply NoDup_nil_2| |apply map_Forall_empty]. intros id. rewrite lookup_empty. split; [set_solver|by intros []]. Qed.

(** The results up to the first BLOCK, that one included. *)
Fixpoint upto_block (l : list GateResult) : list GateResult :=
  match l with
  | [] => []
  | g :: l' => if bool_decide (g.(decision) = BLOCK) then [g] else g :: upto_block l'
  end.

Lemma evaluate_from_upto r dm kw order l :
  evaluate_from r dm false kw order = Ok l → evaluate_from r dm true kw order = Ok (upto_block l).
Proof.
  revert l. induction order as [|id order IH]; intros l; cbn; [by intros [= <-]|].
  destruct (lookup id r) as [g|]; [|apply IH].
  destruct (g_evaluate g _ _) as [res|e]; cbn; [|done].
  destruct (evaluate_from r dm false kw order) as [l'|e]; cbn; [|done]. intros [= <-]. cbn.
  case_bool_decide; [done|]. by rewrite (IH l' eq_refl).
Qed.

Lemma evaluate_from_shape r dm kw order l :
  evaluate_from r dm true kw order = Ok l →
  ∃ passed rest, l = passed ++ rest ∧ Forall (λ g, decision g = PASS) passed ∧
    (rest = [] ∨ ∃ g, rest = [g] ∧ decision g = BLOCK).
Proof.
  revert l. induction order as [|id order IH]; intros l; cbn.
  { intros [= <-]. exists [], []. eauto. }
  destruct (lookup id r) as [g|]; [|apply IH].
  destruct (g_evaluate g _ _) as [res|e]; cbn; [|done]. case_bool_decide as Hb.
  { intros [= <-]. exists [], [res]. eauto 6. }
  destruct (evaluate_from r dm true kw order) as [l'|e]; cbn; [|done]. intros [= <-].
  destruct (IH l' eq_refl) as (passed & rest & -> & Hp & Hr). exists (res :: passed), rest.
  split_and!; [done| |done]. constructor; [|done]. by destruct (decision res).
Qed.

(** After any registrations and removals the registry is well formed: its
    execution order lists every registered gate exactly once, under the gate's own
    id.  On such a registry [evaluate_all] that stops on a BLOCK returns exactly the
    results of the full evaluation up to and including the first BLOCK, whenever the
    full evaluation succeeds; and it always returns passes with at most one BLOCK,
    in the last place. *)
Theorem evaluate_all_stops_at_block (qs : list request) (dm : gmap string D) (kw : gmap string K) :
  let r := run_ops serve qs init in
  wf r ∧
  (∀ l, evaluate_all dm false kw r = Ok l → evaluate_all dm true kw r = Ok (upto_block l)) ∧
  (∀ l, evaluate_all dm true kw r = Ok l →
     ∃ passed rest, l = passed ++ rest ∧ Forall (λ g, decision g = PASS) passed ∧
       (rest = [] ∨ ∃ g, rest = [g] ∧ decision g = BLOCK)).
Proof.
  intros r. split_and!.
  - apply (run_ops_invariant serve wf registry_serve_wf), registry_init_wf.
  - intros l. apply evaluate_from_upto.
  - intros l. apply evaluate_from_shape.
Qed.
End Registry.
Arguments Gate : clear implicits.
Arguments t : clear implicits.
Arguments request : clear implicits.
End GateRegistry.

(** * fallback_handler.py *)

Module FallbackHandler.

Definition DEFAULT_FALLBACKS : gmap string PipelineState :=
  {[ "DataGate" := IDLE; "FactorGate" := IDLE; "SignalGate" := IDLE; "EnsembleGate" := IDLE;
     "PortfolioGate" := IDLE; "TradingGuardGate" := IDLE;
     "ReconGate" := HALTED; "ExecutionGate" := HALTED; "FillGate" := HALTED ]}.

(** [self._fallbacks] after [__init__] *)
Definition fallbacks (custom_fallbacks : option (gmap string PipelineState)) : gmap string PipelineState :=
  match custom_fallbacks with None => DEFAULT_FALLBACKS | Some c => c ∪ DEFAULT_FALLBACKS end.

(** The callback's exceptions are swallowed and its effect is its own. *)
Definition handle (fb : gmap string PipelineState) (g : GateResult) :
    M PipelineStateMachine.t InvalidTransitionError PipelineState :=
  if bool_decide (g.(decision) = PASS) then gets PipelineStateMachine._state
  else
    let why := g.(gr_gate_id) +:+ ": " +:+ g.(reason) in
    (if bool_decide (default IDLE (fb !! g.(gr_gate_id)) = HALTED) then PipelineStateMachine.halt why
     else PipelineStateMachine.reset why) ;;
    gets PipelineStateMachine._state.
End FallbackHandler.
