(* ===== verification/Ensemble.v ===== *)
(** The strategy ensemble: backend/core/strategy_ensemble/engine.py, the
    threshold, calibration and routing classes of regime.py, and
    ENSEMBLE_DEFAULT_WEIGHTS of config/constants.py.

    A dict of weights is an association list in the dict's order, its keys
    distinct.  The detector of market regimes works on price tables of pandas and
    is not modelled: what it returns is an argument, [None] standing for an
    analysis without a price table of sixty rows, the only case the pipeline
    uses.  [np.log1p] is a parameter.  Reads of Redis and of the table
    strategy_weights are answers of an [Env]; writes, whose failures the code
    swallows, are logged as attempts. *)

From stdpp Require Import base option list gmap strings.
From Stdlib Require Import ZArith Lia Floats.SpecFloat.
From S2P Require Import Prelude PyFloat PyDict FloatFacts Constants.

(** * Weights *)

Abbreviation weights := (list (string * float)).

(** [{k: f(v) for k, v in d.items()}] *)
Definition dict_map (f : float → float) (d : weights) : weights := prod_map id f <$> d.

Definition values (d : weights) : list float := d.*2.

(** * config/constants.py *)

Inductive RiskProfile := CONSERVATIVE | BALANCED | AGGRESSIVE | DIVIDEND.
#[global] Instance RiskProfile_eq_dec : EqDecision RiskProfile.
Proof. solve_decision. Defined.
#[global] Program Instance RiskProfile_enum : StrEnum RiskProfile := {|
  value p := match p with
    | CONSERVATIVE => "CONSERVATIVE" | BALANCED => "BALANCED"
    | AGGRESSIVE => "AGGRESSIVE" | DIVIDEND => "DIVIDEND" end;
  members := [CONSERVATIVE; BALANCED; AGGRESSIVE; DIVIDEND];
|}.
Next Obligation. solve_enum_complete. Qed.
Next Obligation. solve_enum_inj. Qed.

(** Weights in percent, by strategy value. *)
Definition ENSEMBLE_DEFAULT_WEIGHTS (p : RiskProfile) : weights :=
  let row f mr tf rp ml s :=
    [("FACTOR", dec f 2); ("MEAN_REVERSION", dec mr 2); ("TREND_FOLLOWING", dec tf 2);
     ("RISK_PARITY", dec rp 2); ("ML_SIGNAL", dec ml 2); ("SENTIMENT", dec s 2)] in
  match p with
  | CONSERVATIVE => row 25 10 15 30 0 20
  | BALANCED => row 25 10 20 20 0 25
  | AGGRESSIVE => row 15 15 30 10 0 30
  | DIVIDEND => row 35 5 10 25 0 25
  end.

(** * regime.py *)

Inductive MarketRegime := TRENDING_UP | TRENDING_DOWN | SIDEWAYS | HIGH_VOLATILITY | CRISIS.
#[global] Instance MarketRegime_eq_dec : EqDecision MarketRegime.
Proof. solve_decision. Defined.

Record RegimeInfo := {
  regime : MarketRegime;
  regime_confidence : float;
  volatility_percentile : float;
  trend_strength : float;
}.

Definition one : float := of_Z 1.
Lemma one_valid : valid one.
Proof. reflexivity. Qed.
Lemma zero_valid : valid fzero.
Proof. reflexivity. Qed.
#[export] Hint Resolve one_valid zero_valid clamp_valid : py.

Module DynamicThreshold.
Definition REGIME_THRESHOLDS (r : MarketRegime) : float :=
  match r with
  | TRENDING_UP => dec 20 2
  | TRENDING_DOWN => dec 20 2
  | SIDEWAYS => dec 30 2
  | HIGH_VOLATILITY => dec 40 2
  | CRISIS => dec 50 2
  end.
Definition VOL_ADJUSTMENT_FACTOR : float := dec 15 2.

Definition compute (r : RegimeInfo) : float * float :=
  let base := REGIME_THRESHOLDS r.(regime) in
  let vol_adj := ((r.(volatility_percentile) - dec 5 1) * VOL_ADJUSTMENT_FACTOR)%pyf in
  let adjusted := (base + vol_adj)%pyf in
  let blended := (adjusted * r.(regime_confidence) + dec 30 2 * (one - r.(regime_confidence)))%pyf in
  let final := fmax (dec 10 2) (fmin (dec 50 2) blended) in
  (round_to 4 final, round_to 4 final).

(** The action for a signal between two thresholds. *)
Definition action_of (signal buy_threshold sell_threshold : float) : string :=
  if (signal >? buy_threshold)%pyf then "BUY"
  else if (signal <? fneg sell_threshold)%pyf then "SELL"
  else "HOLD".

Definition classify_action (signal : float) (r : RegimeInfo) : string :=
  let '(buy_threshold, sell_threshold) := compute r in
  action_of signal buy_threshold sell_threshold.
End DynamicThreshold.

Module ConfidenceCalibrator.
Definition DISAGREEMENT_PENALTY : float := dec 3 1.
Definition VOLATILITY_PENALTY : float := dec 2 1.
Definition EXTREME_THRESHOLD : float := dec 85 2.
Definition MIN_STRATEGIES : Z := 3.

Definition of_nat (n : nat) : float := of_Z (Z.of_nat n).

Definition _compute_disagreement (signals : list float) : float :=
  if bool_decide (length signals ≤ 1)%nat then fzero
  else
    let positive := length (List.filter (λ s, (s >? dec 5 2)%pyf) signals) in
    let negative := length (List.filter (λ s, (s <? fneg (dec 5 2))%pyf) signals) in
    (of_nat (Nat.min positive negative) / of_nat (length signals) * of_Z 2)%pyf.

Definition calibrate (log1p : float → float) (raw_confidence : float) (component_signals : weights)
    (r : RegimeInfo) : float :=
  match component_signals with
  | [] => fmax fzero (fmin (raw_confidence * dec 5 1)%pyf one)
  | _ =>
      let signal_values := values component_signals in
      let disagreement := _compute_disagreement signal_values in
      let c1 := (raw_confidence * (one - disagreement * DISAGREEMENT_PENALTY))%pyf in
      let vol_penalty := (fmax fzero (r.(volatility_percentile) - dec 5 1) * VOLATILITY_PENALTY)%pyf in
      let c2 := (c1 * (one - vol_penalty))%pyf in
      let c3 := if bool_decide (r.(regime) = HIGH_VOLATILITY) then (c2 * dec 85 2)%pyf else c2 in
      let c4 := if (c3 >? EXTREME_THRESHOLD)%pyf then
          let excess := (c3 - EXTREME_THRESHOLD)%pyf in
          let compressed := (EXTREME_THRESHOLD +
            excess * log1p excess / log1p (one - EXTREME_THRESHOLD))%pyf in
          fmin compressed (dec 95 2)
        else c3 in
      let n_strategies := Z.of_nat (length signal_values) in
      let c5 := if n_strategies <? MIN_STRATEGIES
        then (c4 * (of_Z n_strategies / of_Z MIN_STRATEGIES))%pyf else c4 in
      round_to 4 (fmax fzero (fmin one c5))
  end.
End ConfidenceCalibrator.

Module RegimeWeightRouter.
Definition REGIME_MULTIPLIERS (r : MarketRegime) : weights :=
  let row f mr tf rp ml s :=
    [("FACTOR", dec f 1); ("MEAN_REVERSION", dec mr 1); ("TREND_FOLLOWING", dec tf 1);
     ("RISK_PARITY", dec rp 1); ("ML_SIGNAL", dec ml 1); ("SENTIMENT", dec s 1)] in
  match r with
  | TRENDING_UP => row 8 5 15 9 10 12
  | TRENDING_DOWN => row 7 6 14 13 10 11
  | SIDEWAYS => row 12 15 6 10 10 10
  | HIGH_VOLATILITY => row 7 8 7 18 10 6
  | CRISIS => row 3 2 15 20 5 3
  end.

(** [total = sum(d.values()); if total > 0: {k: f(v, total) ...}] *)
Definition normalise (f : float → float → float) (d : weights) : weights :=
  let total := fsum (values d) in
  if (total >? fzero)%pyf then dict_map (λ v, f v total) d else d.

Definition adjust_weights (base_weights : weights) (r : RegimeInfo) : weights :=
  let multipliers := REGIME_MULTIPLIERS r.(regime) in
  let blend '(strategy, weight) :=
    if (weight <=? fzero)%pyf then (strategy, fzero)
    else
      let mult := default one (dict_get strategy multipliers) in
      let blended_mult := (mult * r.(regime_confidence) + one * (one - r.(regime_confidence)))%pyf in
      (strategy, (weight * blended_mult)%pyf) in
  let adjusted := normalise fdiv (blend <$> base_weights) in
  let floored := (λ '(k, v),
    if ((default fzero (dict_get k base_weights) >? fzero) && (v <? dec 3 2))%pyf%bool
    then (k, dec 3 2) else (k, v)) <$> adjusted in
  normalise (λ v total, round_to 4 (v / total)%pyf) floored.
End RegimeWeightRouter.

(** * engine.py *)

Record StrategySignalInput := {
  strategy : string;
  sig_value : float;
  sig_confidence : float;
  sig_reason : string;
}.

Record EnsembleSignal := {
  ens_ticker : string;
  final_signal : float;
  final_confidence : float;
  component_signals : weights;
  weights_used : weights;
  risk_profile : RiskProfile;
  ens_regime : MarketRegime;
  buy_threshold : float;
  sell_threshold : float;
  raw_confidence : float;
}.

Definition action (s : EnsembleSignal) : string :=
  DynamicThreshold.action_of s.(final_signal) s.(buy_threshold) s.(sell_threshold).

(** Answers of the stores: a dict, or [None] for nothing, an empty reply or a
    failure, which the engine treats alike. *)
Record Env := {
  _get_cached_weights : option weights;
  _load_weights_from_db : option weights;
}.

Inductive Effect :=
  | CacheWeights (w : weights)
  | SaveWeights (w : weights)
  | LogUpdate (old_weights new_weights : weights) (method : string)
  | StoreSignal (s : EnsembleSignal).

Record Engine := {
  _risk_profile : RiskProfile;
  _weights : option weights;
  effects : list Effect;
}.

Definition Engine_init (p : RiskProfile) : Engine := {| _risk_profile := p; _weights := None; effects := [] |}.

Definition no_ohlcv : RegimeInfo :=
  {| regime := SIDEWAYS; regime_confidence := dec 3 1; volatility_percentile := dec 5 1;
     trend_strength := fzero |}.

Module StrategyEnsembleEngine.
Section Engine.
Context (log1p : float → float).

Abbreviation Run A := (M Engine Empty_set A).

Definition set_weights (w : weights) (s : Engine) : Engine :=
  {| _risk_profile := s.(_risk_profile); _weights := Some w; effects := s.(effects) |}.
Definition emit (e : Effect) : Run unit :=
  modify (λ s, {| _risk_profile := s.(_risk_profile); _weights := s.(_weights);
                  effects := s.(effects) ++ [e] |}).

(** [if d:] *)
Definition truthy (d : option weights) : option weights :=
  match d with Some [] => None | _ => d end.

Definition get_weights (env : Env) : Run weights :=
  s ← get;
  match truthy s.(_weights) with
  | Some w => mret w
  | None =>
      match truthy env.(_get_cached_weights) with
      | Some cached => modify (set_weights cached) ;; mret cached
      | None =>
          match truthy env.(_load_weights_from_db) with
          | Some db_weights =>
              modify (set_weights db_weights) ;; emit (CacheWeights db_weights) ;; mret db_weights
          | None =>
              let d := ENSEMBLE_DEFAULT_WEIGHTS s.(_risk_profile) in
              modify (set_weights d) ;; mret d
          end
      end
  end.

(** [{sig.strategy: sig for sig in signals}.get(key)] *)
Definition last_signal (key : string) (signals : list StrategySignalInput) : option StrategySignalInput :=
  find (λ s, bool_decide (s.(strategy) = key)) (reverse signals).

Record Sums := {
  weighted_sum : float;
  confidence_sum : float;
  total_weight : float;
  components : weights;
}.

(** The body of the loop over the routed weights *)
Definition accumulate (signals : list StrategySignalInput) (acc : Sums) (kw : string * float) : Sums :=
  let '(strategy_key, weight) := kw in
  if (weight <=? fzero)%pyf then acc
  else match last_signal strategy_key signals with
  | None => acc
  | Some sig =>
      let adjusted_value := (sig.(sig_value) * sig.(sig_confidence))%pyf in
      {| weighted_sum := (acc.(weighted_sum) + adjusted_value * weight)%pyf;
         confidence_sum := (acc.(confidence_sum) + sig.(sig_confidence) * weight)%pyf;
         total_weight := (acc.(total_weight) + weight)%pyf;
         components := acc.(components) ++ [(strategy_key, round_to 4 sig.(sig_value))] |}
  end.

Definition no_sums : Sums :=
  {| weighted_sum := fzero; confidence_sum := fzero; total_weight := fzero; components := [] |}.

(** The signal built from routed weights *)
Definition combine (ticker : string) (p : RiskProfile) (signals : list StrategySignalInput)
    (routed : weights) (r : RegimeInfo) : EnsembleSignal :=
  let t := foldl (accumulate signals) no_sums routed in
  let '(f, c) :=
    if (t.(total_weight) >? fzero)%pyf
    then (t.(weighted_sum) / t.(total_weight), t.(confidence_sum) / t.(total_weight))%pyf
    else (fzero, fzero) in
  let f := fmax (of_Z (-1)) (fmin one f) in
  let c := fmax fzero (fmin one c) in
  let calibrated := ConfidenceCalibrator.calibrate log1p c t.(components) r in
  let '(b, s) := DynamicThreshold.compute r in
  {| ens_ticker := ticker; final_signal := round_to 4 f; final_confidence := round_to 4 calibrated;
     component_signals := t.(components);
     weights_used := dict_map (round_to 4) (List.filter (λ kv, (kv.2 >? fzero)%pyf) routed);
     risk_profile := p; ens_regime := r.(regime);
     buy_threshold := b; sell_threshold := s; raw_confidence := round_to 4 c |}.

Definition empty_signal (ticker : string) (p : RiskProfile) : EnsembleSignal :=
  {| ens_ticker := ticker; final_signal := fzero; final_confidence := fzero;
     component_signals := []; weights_used := []; risk_profile := p; ens_regime := SIDEWAYS;
     buy_threshold := dec 3 1; sell_threshold := dec 3 1; raw_confidence := fzero |}.

(** [detected]: what the detector says of a price table of sixty rows or more *)
Definition generate_ensemble_signal (env : Env) (ticker : string) (signals : list StrategySignalInput)
    (detected : option RegimeInfo) : Run EnsembleSignal :=
  w ← get_weights env;
  p ← gets _risk_profile;
  match signals with
  | [] => mret (empty_signal ticker p)
  | _ =>
      let r := default no_ohlcv detected in
      let result := combine ticker p signals (RegimeWeightRouter.adjust_weights w r) r in
      emit (StoreSignal result) ;;
      mret result
  end.

(** [generate_batch_signals], a detector's answer for each ticker *)
Fixpoint generate_batch_signals (env : Env) (l : list (string * list StrategySignalInput))
    (detected : string → option RegimeInfo) : Run (list (string * EnsembleSignal)) :=
  match l with
  | [] => mret []
  | (ticker, signals) :: rest =>
      result ← generate_ensemble_signal env ticker signals (detected ticker);
      results ← generate_batch_signals env rest detected;
      mret ((ticker, result) :: results)
  end.

Definition positive (d : weights) : weights := List.filter (λ kv, (kv.2 >? fzero)%pyf) d.

(** [raw_weight] clipped to 5% .. 40%, before the weights are normalised *)
Definition clip (raw : float) : float := fmax (dec 5 2) (fmin (dec 40 2) raw).

Definition new_weights_of (old_weights : weights) (performances : list (string * float)) (method : string) : weights :=
  let unrounded :=
    if bool_decide (method = "equal") then
      let n := Z.of_nat (Nat.max (length (positive old_weights)) 1) in
      dict_map (λ v, if (v >? fzero)%pyf then (one / of_Z n)%pyf else fzero) old_weights
    else
      let positive_sharpes := (λ '(k, _), (k, fmax (default fzero (dict_get k performances)) fzero)) <$>
        List.filter (λ kv : string * float, negb (kv.2 <=? fzero)%pyf) old_weights in
      let total := fsum (values positive_sharpes) in
      let chosen :=
        if (total <? dec 1 10)%pyf then
          let n := Z.of_nat (Nat.max (length positive_sharpes) 1) in
          dict_map (λ _, (one / of_Z n)%pyf) positive_sharpes
        else
          let clipped := dict_map (λ s, clip (s / total)%pyf) positive_sharpes in
          let total_new := fsum (values clipped) in
          dict_map (λ v, (v / total_new)%pyf) clipped in
      foldl (λ d '(key, _), if bool_decide (is_Some (dict_get key d)) then d else dict_set key fzero d)
        chosen old_weights in
  dict_map (round_to 4) unrounded.

Definition recalibrate_weights (env : Env) (performances : list (string * float)) (method : string) :
    Run weights :=
  old_weights ← get_weights env;
  let new_weights := new_weights_of old_weights performances method in
  emit (SaveWeights new_weights) ;;
  emit (CacheWeights new_weights) ;;
  emit (LogUpdate old_weights new_weights method) ;;
  modify (set_weights new_weights) ;;
  mret new_weights.

(** The public operations, as requests *)
Inductive request :=
  | Generate (ticker : string) (signals : list StrategySignalInput) (detected : option RegimeInfo)
  | Recalibrate (performances : list (string * float)) (method : string).
Definition serve (env : Env) (q : request) : Run unit :=
  match q with
  | Generate ticker signals detected => generate_ensemble_signal env ticker signals detected ;; mret tt
  | Recalibrate performances method => recalibrate_weights env performances method ;; mret tt
  end.
End Engine.
End StrategyEnsembleEngine.

(** * What the engine promises *)

Module EnsembleFacts.
Section Facts.
Context (log1p : float → float) (log1p_valid : ∀ x, valid (log1p x)).
Import StrategyEnsembleEngine.

Definition between (lo hi x : float) : Prop := valid x ∧ fle lo x = true ∧ fle x hi = true.

Definition valid_info (r : RegimeInfo) : Prop :=
  valid r.(regime_confidence) ∧ valid r.(volatility_percentile).
Definition valid_signal (s : StrategySignalInput) : Prop := valid s.(sig_value) ∧ valid s.(sig_confidence).
Definition valid_weights (w : weights) : Prop := Forall valid (values w).

(** Every number of a signal is a float in its documented range. *)
Definition signal_ok (s : EnsembleSignal) : Prop :=
  between (of_Z (-1)) one s.(final_signal) ∧
  between fzero one s.(final_confidence) ∧
  between fzero one s.(raw_confidence) ∧
  between (dec 10 2) (dec 50 2) s.(buy_threshold) ∧
  s.(sell_threshold) = s.(buy_threshold) ∧
  action s ∈ ["BUY"; "SELL"; "HOLD"].

Lemma between_round_unit x : valid x → between fzero one (round_to 4 (clamp fzero one x)).
Proof.
  intros Hx. split; [auto with py|].
  exact (round_to_4_clamp fzero one x eq_refl eq_refl Hx eq_refl eq_refl eq_refl).
Qed.

Lemma between_unit_round x : between fzero one x → between fzero one (round_to 4 x).
Proof.
  intros (Hv & Hlo & Hhi). split; [auto with py|].
  split; [apply (round_to_4_mono fzero x)|apply (round_to_4_mono x one)]; done.
Qed.

Lemma between_signed x : valid x → between (of_Z (-1)) one (round_to 4 (clamp (of_Z (-1)) one x)).
Proof.
  intros Hx. destruct (clamp_bounds (of_Z (-1)) one x eq_refl) as [Hlo Hhi].
  assert (valid (clamp (of_Z (-1)) one x)) as Hv by (apply clamp_valid; done).
  split; [auto with py|]. by apply round_to_4_signed.
Qed.

Lemma compute_between r :
  valid_info r → between (dec 10 2) (dec 50 2) (DynamicThreshold.compute r).1 ∧
  (DynamicThreshold.compute r).2 = (DynamicThreshold.compute r).1.
Proof.
  intros [Hc Hv]. split; [|done]. unfold DynamicThreshold.compute, DynamicThreshold.VOL_ADJUSTMENT_FACTOR.
  cbn [fst]. set (b := fadd _ _). assert (valid b) as Hb.
  { unfold b, DynamicThreshold.REGIME_THRESHOLDS, one. destruct (regime r); auto 12 with py. }
  split; [apply round_to_valid, clamp_valid; auto with py|].
  change (fmax _ _) with (clamp (dec 10 2) (dec 50 2) b).
  exact (round_to_4_clamp (dec 10 2) (dec 50 2) b eq_refl eq_refl Hb eq_refl eq_refl eq_refl).
Qed.

Lemma calibrate_between c comps r :
  valid c → valid_info r → between fzero one (ConfidenceCalibrator.calibrate log1p c comps r).
Proof.
  intros Hc [_ Hv]. unfold ConfidenceCalibrator.calibrate. destruct comps as [|kv comps].
  - unfold one. set (x := fmul c _). assert (valid x) as Hx by (unfold x; auto with py).
    split; [auto with py|]. unfold fmax, fmin.
    destruct (flt (of_Z 1) x) eqn:E1; [done|]. destruct (flt fzero x) eqn:E2; [|done].
    destruct (flt_nan _ _ E2) as [_ Hn]. split; [by apply flt_le|]. by rewrite fle_not_lt, E1.
  - set (vs := values _). apply between_round_unit.
    assert (valid (ConfidenceCalibrator._compute_disagreement vs)) as Hd.
    { unfold ConfidenceCalibrator._compute_disagreement, ConfidenceCalibrator.of_nat.
      case_bool_decide; [done|]. auto with py. }
    unfold ConfidenceCalibrator.DISAGREEMENT_PENALTY, ConfidenceCalibrator.VOLATILITY_PENALTY,
      ConfidenceCalibrator.EXTREME_THRESHOLD, one.
    set (c2 := fmul (fmul c _) _). assert (valid c2) as H2 by (unfold c2; auto 12 with py).
    set (c3 := if bool_decide _ then _ else _).
    assert (valid c3) as H3 by (unfold c3; case_bool_decide; auto with py).
    set (c4 := if flt _ c3 then _ else _).
    assert (valid c4) as H4 by (unfold c4; destruct (flt _ c3); auto 12 with py).
    destruct (_ <? _); auto with py.
Qed.

Lemma action_one_of s b t : DynamicThreshold.action_of s b t ∈ ["BUY"; "SELL"; "HOLD"].
Proof. unfold DynamicThreshold.action_of. destruct (flt b s); [set_solver|]. destruct (flt s _); set_solver. Qed.

Lemma combine_ok ticker p signals routed r :
  valid_info r → signal_ok (combine log1p ticker p signals routed r).
Proof.
  intros Hr. unfold combine. set (t := foldl _ _ _).
  destruct (compute_between r Hr) as [Hb Hs]. destruct (DynamicThreshold.compute r) as [b s'].
  cbn [fst snd] in *. subst s'.
  set (fc := if flt fzero _ then _ else _). destruct fc as [f c] eqn:E.
  assert (valid f ∧ valid c) as [Hf Hc].
  { unfold fc in E. destruct (flt fzero (total_weight t)); injection E as <- <-; auto with py. }
  unfold signal_ok. cbn -[between]. split_and!.
  - by apply between_signed.
  - apply between_unit_round, calibrate_between; [|done]. apply (clamp_valid fzero one); auto with py.
  - by apply between_round_unit.
  - done.
  - done.
  - apply action_one_of.
Qed.

(** C30. Whatever the stores answer, whatever the weights and the signals are
    (NaN and infinities included), [generate_ensemble_signal] returns: a signal
    whose final value is a float in [-1, 1], whose confidences are in [0, 1] and
    whose two thresholds are equal and between 0.10 and 0.50, with one of the three
    actions; unless no signal was given, its last effect is the attempt to record exactly
    that signal. *)
Theorem ensemble_signal_well_typed (env : Env) (ticker : string) (signals : list StrategySignalInput)
    (detected : option RegimeInfo) (s : Engine)
    (Hr : match detected with Some r => valid_info r | None => True end) :
  ∃ sig s', generate_ensemble_signal log1p env ticker signals detected s = (Ok sig, s') ∧
    signal_ok sig ∧ is_Some s'.(_weights) ∧
    (signals ≠ [] → last s'.(effects) = Some (StoreSignal sig)).
Proof.
  assert (∃ w s1, get_weights env s = (Ok w, s1) ∧ is_Some s1.(_weights)) as (w & s1 & Hw & Hs1).
  { unfold get_weights. run_m. destruct (truthy (_weights s)) as [w|] eqn:E.
    - eexists _, _. split; [done|]. destruct (_weights s); [done|discriminate].
    - destruct (truthy (_get_cached_weights env)); [by eauto|].
      destruct (truthy (_load_weights_from_db env)); by eauto. }
  unfold generate_ensemble_signal. unfold mbind at 1, M_bind at 1. rewrite Hw. run_m.
  destruct signals as [|sg signals].
  - eexists _, _. split_and!; [done| |done|done].
    unfold signal_ok, between. cbn. split_and!; try done. apply action_one_of.
  - eexists _, _. split_and!; [done| |done|].
    + apply combine_ok. destruct detected; [done|]. by split.
    + intros _. cbn. by rewrite last_snoc.
Qed.

(** ** A NaN signal *)

Lemma fadd_nan_l x y : is_nan x = true → is_nan (fadd x y) = true.
Proof. by destruct x. Qed.
Lemma fadd_nan_r x y : is_nan y = true → is_nan (fadd x y) = true.
Proof. by destruct x as [| | |], y. Qed.
Lemma fmul_nan_l x y : is_nan x = true → is_nan (fmul x y) = true.
Proof. by destruct x. Qed.
Lemma fdiv_nan_l x y : is_nan x = true → is_nan (fdiv x y) = true.
Proof. by destruct x. Qed.

Lemma accumulate_nan signals l acc :
  is_nan acc.(weighted_sum) = true → is_nan (foldl (accumulate signals) acc l).(weighted_sum) = true.
Proof.
  revert acc. induction l as [|[k w] l IH]; intros acc Hn; cbn; [done|]. apply IH.
  destruct (fle w fzero); [done|]. destruct (last_signal k signals); [|done]. by apply fadd_nan_l.
Qed.

Lemma accumulate_nan_signal signals l acc k w sig :
  (k, w) ∈ l → fle w fzero = false → last_signal k signals = Some sig → is_nan sig.(sig_value) = true →
  is_nan (foldl (accumulate signals) acc l).(weighted_sum) = true.
Proof.
  intros [l1 [l2 ->]]%list_elem_of_split Hw Hs Hn. rewrite foldl_app. cbn [foldl]. apply accumulate_nan.
  unfold accumulate. rewrite Hw, Hs. cbn. by apply fadd_nan_r, fmul_nan_l, fmul_nan_l.
Qed.

(** The weight of the strategies that have a signal, in terms of which they are *)
Definition weight_present (present : string → bool) (t : float) (kw : string * float) : float :=
  if fle kw.2 fzero then t else if present kw.1 then fadd t kw.2 else t.

Lemma total_weight_present signals l acc :
  (foldl (accumulate signals) acc l).(total_weight) =
  foldl (weight_present (λ k, bool_decide (is_Some (last_signal k signals)))) acc.(total_weight) l.
Proof.
  revert acc. induction l as [|[k w] l IH]; intros acc; cbn [foldl]; [done|]. rewrite IH. f_equal.
  unfold accumulate, weight_present. cbn [fst snd]. destruct (fle w fzero); [done|].
  destruct (last_signal k signals) eqn:E; by rewrite ?bool_decide_true, ?bool_decide_false by (by eexists || by intros []).
Qed.

Lemma default_weight_present (present : string → bool) p :
  present "SENTIMENT" = true →
  flt fzero (foldl (weight_present present) fzero
    (RegimeWeightRouter.adjust_weights (ENSEMBLE_DEFAULT_WEIGHTS p) no_ohlcv)) = true.
Proof.
  intros HS. destruct p;
    match goal with |- context [RegimeWeightRouter.adjust_weights ?a ?b] =>
      let v := eval vm_compute in (RegimeWeightRouter.adjust_weights a b) in
      replace (RegimeWeightRouter.adjust_weights a b) with v by (vm_compute; reflexivity) end;
    cbn [foldl]; unfold weight_present; cbn [fst snd]; rewrite HS;
    destruct (present "FACTOR"), (present "MEAN_REVERSION"), (present "TREND_FOLLOWING"),
      (present "RISK_PARITY"), (present "ML_SIGNAL"); vm_compute; reflexivity.
Qed.

(** A sentiment signal that is NaN, whatever the other strategies say, is
    turned into the strongest buy: with the default weights of any profile the final
    value is +1.0 and the action BUY. *)
Theorem nan_sentiment_buys (env : Env) (ticker : string) (signals : list StrategySignalInput)
    (sig : StrategySignalInput) (p : RiskProfile)
    (Hc : env.(_get_cached_weights) = None) (Hd : env.(_load_weights_from_db) = None)
    (Hs : last_signal "SENTIMENT" signals = Some sig) (Hn : is_nan sig.(sig_value) = true) :
  ∃ r s', generate_ensemble_signal log1p env ticker signals None (Engine_init p) = (Ok r, s') ∧
    r.(final_signal) = one ∧ action r = "BUY".
Proof.
  unfold generate_ensemble_signal, get_weights. run_m. rewrite Hc, Hd. cbn.
  destruct signals as [|sg signals]; [done|]. eexists _, _. split; [done|].
  set (l := sg :: signals) in *. set (routed := RegimeWeightRouter.adjust_weights _ _).
  assert (∃ w, ("SENTIMENT", w) ∈ routed ∧ fle w fzero = false) as (w & Hw & Hpos).
  { unfold routed. destruct p; eexists; (split; [apply list_elem_of_In; vm_compute; eauto 12|reflexivity]). }
  pose proof (accumulate_nan_signal l routed no_sums _ w sig Hw Hpos Hs Hn) as Hnan.
  assert (flt fzero (total_weight (foldl (accumulate l) no_sums routed)) = true) as Ht.
  { rewrite total_weight_present. set (present := λ k, bool_decide _).
    assert (present "SENTIMENT" = true) as HS by (unfold present; apply bool_decide_eq_true; by eexists).
    clearbody present. clear - HS. by apply default_weight_present. }
  unfold combine, action. rewrite Ht. cbn [fst snd]. set (x := fdiv _ _).
  change (fmax (of_Z (-1)) (fmin one x)) with (clamp (of_Z (-1)) one x).
  rewrite (clamp_nan (of_Z (-1)) one x); [by split|by apply fdiv_nan_l|done].
Qed.
End Facts.
End EnsembleFacts.

Module EnsembleRuns.
Import StrategyEnsembleEngine.

(** A logarithm that is a float everywhere *)
Definition flat (x : float) : float := fzero.

Definition nothing_stored : Env := {| _get_cached_weights := None; _load_weights_from_db := None |}.
Definition says (s : string) (v c : float) : StrategySignalInput :=
  {| strategy := s; sig_value := v; sig_confidence := c; sig_reason := "" |}.
Definition crisis : RegimeInfo :=
  {| regime := CRISIS; regime_confidence := dec 8 1; volatility_percentile := one; trend_strength := fneg one |}.

Lemma ensemble_signal_well_typed_witness :
  ∃ sig s', generate_ensemble_signal flat nothing_stored "005930"
      [says "FACTOR" S754_nan one; says "SENTIMENT" (dec 5 1) (S754_infinity false)] (Some crisis)
      (Engine_init BALANCED) = (Ok sig, s') ∧ EnsembleFacts.signal_ok sig ∧ is_Some s'.(_weights) ∧
    ([says "FACTOR" S754_nan one; says "SENTIMENT" (dec 5 1) (S754_infinity false)] ≠ [] →
     last s'.(effects) = Some (StoreSignal sig)).
Proof.
  apply (EnsembleFacts.ensemble_signal_well_typed flat (λ _, eq_refl)). split; reflexivity.
Defined.

Lemma nan_sentiment_buys_witness :
  ∃ r s', generate_ensemble_signal flat nothing_stored "005930"
      [says "TREND_FOLLOWING" (fneg one) one; says "SENTIMENT" S754_nan (dec 2 1)] None
      (Engine_init CONSERVATIVE) = (Ok r, s') ∧ r.(final_signal) = one ∧ action r = "BUY".
Proof.
  apply (EnsembleFacts.nan_sentiment_buys flat) with (sig := says "SENTIMENT" S754_nan (dec 2 1));
    reflexivity.
Defined.

(** One strategy with a Sharpe ratio of 2, the others without: the clip to
    40% is undone by the normalisation that follows it. *)
Example one_strategy_takes_two_thirds :
  dict_get "FACTOR" (new_weights_of (ENSEMBLE_DEFAULT_WEIGHTS BALANCED) [("FACTOR", of_Z 2)] "sharpe")
  = Some (dec 6667 4).
Proof. vm_compute. reflexivity. Qed.
End EnsembleRuns.
