(* ===== verification/Pipeline.v ===== *)
(** The investment decision pipeline: backend/core/pipeline.py, and the route
    POST /pipeline of api/routes/system.py that runs it.

    The services a run calls (news, sentiment, opinion, the dynamic ensemble's
    runner, the stores of the ensemble engine) are the fields of an [Env], which
    answer or raise as they like.  The list [gate_results] of a run is a field of
    the state.  What is not used by any decision, texts of articles, reasons and
    reports, is left out. *)

From stdpp Require Import base option list gmap strings.
From Stdlib Require Import ZArith Lia Ascii Floats.SpecFloat.
From S2P Require Import Prelude PyFloat PyDict FloatFacts PyFormat PyParse Constants PipelineState Gates Ensemble.

(** A quantitative signal (core/quant_engine/signal_generator.py) *)
Record QuantSignal := {
  qs_strategy : StrategyType;
  qs_value : float;
  qs_confidence : float;
  qs_reason : string;
}.

Record QuantSummary := {
  composite_score : float;
  trend_signal : float;
  mean_rev_signal : float;
  risk_parity_signal : float;
}.

(** ai_analyzer/sentiment.py *)
Record SentimentResult := { score : float; confidence : float }.
Definition sentiment_to_signal_value (s : SentimentResult) : float := round_to 4 s.(score).

(** ai_analyzer/opinion.py *)
Inductive OpinionAction := OpStrongBuy | OpBuy | OpHold | OpSell | OpStrongSell.
Record InvestmentOpinion := { op_action : OpinionAction; conviction : float }.
Definition opinion_to_signal_value (o : InvestmentOpinion) : float :=
  let raw := match o.(op_action) with
    | OpStrongBuy => one
    | OpBuy => dec 5 1
    | OpHold => fzero
    | OpSell => fneg (dec 5 1)
    | OpStrongSell => fneg one
    end in
  round_to 4 (raw * o.(conviction))%pyf.

(** What the runner of the dynamic ensemble returns *)
Record RunnerResult := { rr_weights : weights; rr_signal : float }.

Abbreviation Article := string.

(** What a gate of the pipeline is handed *)
Inductive GateData := DArticles (l : list Article) | DInputs (l : list StrategySignalInput) | DWeights (w : weights).

Abbreviation Registry := (GateRegistry.t GateData unit).

(** Articles are dicts and have none of the attributes the gates read. *)
Definition data_for_data_gate (d : option GateData) : Data DataGate.missing :=
  match d with
  | None => NoData
  | Some (DArticles l) => Items ((λ _, None) <$> l)
  | Some (DInputs l) => Items ((λ _, None) <$> l)
  | Some (DWeights w) => Mapping (length w)
  end.
Definition data_for_factor_gate (d : option GateData) : Data FactorGate.vector :=
  match d with
  | None => NoData
  | Some (DArticles l) => Items ((λ _, FactorGate.blank) <$> l)
  | Some (DInputs l) => Items ((λ _, FactorGate.blank) <$> l)
  | Some (DWeights w) => Mapping (length w)
  end.
Definition data_for_signal_gate (d : option GateData) : Data SignalGate.signal :=
  match d with
  | None => NoData
  | Some (DArticles l) => Items ((λ _, SignalGate.blank) <$> l)
  | Some (DInputs l) => Items ((λ s, {| SignalGate.direction := None; SignalGate.value := Some s.(sig_value) |}) <$> l)
  | Some (DWeights w) => Mapping (length w)
  end.
Definition data_for_ensemble_gate (d : option GateData) : EnsembleGate.data :=
  match d with
  | None => EnsembleGate.NoWeights
  | Some (DWeights w) => EnsembleGate.Weights w
  | Some _ => EnsembleGate.Other
  end.

(** [_build_default_gate_registry], each gate with its default arguments *)
Definition default_registry : Registry :=
  let gate id (f : option GateData → Eval) := GateRegistry.register
    {| GateRegistry.g_id := id; GateRegistry.g_evaluate := λ d _, f d |} in
  gate EnsembleGate.gate_id (λ d, EnsembleGate.evaluate EnsembleGate.default_max_weight (data_for_ensemble_gate d))
  (gate SignalGate.gate_id (λ d, SignalGate.evaluate SignalGate.default_hold_threshold (data_for_signal_gate d))
  (gate FactorGate.gate_id (λ d, FactorGate.evaluate FactorGate.default_min_coverage (data_for_factor_gate d))
  (gate DataGate.gate_id (λ d, DataGate.evaluate DataGate.default_kwargs (data_for_data_gate d))
   GateRegistry.init))).

Record PipelineResult := {
  ensemble_signal : option EnsembleSignal;
  dynamic_ensemble : option RunnerResult;
  gate_results : list GateResult;
  final_state : PipelineState;
  blocked : bool;
  blocked_by : option string;
}.

(** [self], and the list of the run's gate results *)
Record Pipe := {
  _sm : PipelineStateMachine.t;
  _registry : Registry;
  _fallbacks : gmap string PipelineState;
  _ensemble : Engine;
  _gate_results : list GateResult;
}.

Record Env := {
  get_articles_for_ticker : string → result PyExc (list Article);
  analyze_ticker : string → list Article → bool → result PyExc SentimentResult;
  generate_stock_opinion : string → SentimentResult → QuantSummary → list Article → bool →
    result PyExc InvestmentOpinion;
  ensemble_stores : string → Ensemble.Env;
  run_dynamic : string → result PyExc RunnerResult;
}.

Module InvestmentDecisionPipeline.
Section Pipeline.
Context (log1p : float → float).

Abbreviation Run A := (M Pipe PyExc A).

Definition init (p : RiskProfile) : Pipe :=
  {| _sm := PipelineStateMachine.init IDLE; _registry := default_registry;
     _fallbacks := FallbackHandler.fallbacks None; _ensemble := Engine_init p; _gate_results := [] |}.

Definition set_sm (m : PipelineStateMachine.t) (s : Pipe) : Pipe :=
  {| _sm := m; _registry := s.(_registry); _fallbacks := s.(_fallbacks); _ensemble := s.(_ensemble);
     _gate_results := s.(_gate_results) |}.
Definition set_ensemble (e : Engine) (s : Pipe) : Pipe :=
  {| _sm := s.(_sm); _registry := s.(_registry); _fallbacks := s.(_fallbacks); _ensemble := e;
     _gate_results := s.(_gate_results) |}.
Definition set_results (l : list GateResult) (s : Pipe) : Pipe :=
  {| _sm := s.(_sm); _registry := s.(_registry); _fallbacks := s.(_fallbacks); _ensemble := s.(_ensemble);
     _gate_results := l |}.

(** A call on the state machine *)
Definition sm {A} (m : M PipelineStateMachine.t InvalidTransitionError A) : Run A :=
  with_err Transition (zoom _sm set_sm m).

Definition state : Run PipelineState := gets (λ s, s.(_sm).(PipelineStateMachine._state)).

(** A call on the ensemble engine, which does not raise *)
Definition no_exc (e : Empty_set) : PyExc := match e with end.
Definition engine {A} (m : M Engine Empty_set A) : Run A := with_err no_exc (zoom _ensemble set_ensemble m).

Definition _evaluate_gate (gate_id : string) (data : GateData) : Run (option GateResult) :=
  gate ← gets (λ s, GateRegistry.lookup gate_id s.(_registry));
  match gate with
  | None => mret None
  | Some g =>
      res ← lift_result (g.(GateRegistry.g_evaluate) (Some data) None);
      modify (λ s, set_results (s.(_gate_results) ++ [res]) s) ;;
      if bool_decide (res.(decision) = BLOCK) then
        fb ← gets _fallbacks;
        sm (FallbackHandler.handle fb res) ;;
        mret (Some res)
      else mret None
  end.

Definition blocked_result (by_ : string) : Run PipelineResult :=
  l ← gets _gate_results;
  st ← state;
  mret {| ensemble_signal := None; dynamic_ensemble := None; gate_results := l; final_state := st;
          blocked := true; blocked_by := Some by_ |}.

Definition _summarize_quant_signals (signals : option (list QuantSignal)) (composite : float) : QuantSummary :=
  foldl (λ acc s, match s.(qs_strategy) with
    | TREND_FOLLOWING => {| composite_score := composite; trend_signal := s.(qs_value);
        mean_rev_signal := acc.(mean_rev_signal); risk_parity_signal := acc.(risk_parity_signal) |}
    | MEAN_REVERSION => {| composite_score := composite; trend_signal := acc.(trend_signal);
        mean_rev_signal := s.(qs_value); risk_parity_signal := acc.(risk_parity_signal) |}
    | RISK_PARITY => {| composite_score := composite; trend_signal := acc.(trend_signal);
        mean_rev_signal := acc.(mean_rev_signal); risk_parity_signal := s.(qs_value) |}
    | _ => acc end)
    {| composite_score := composite; trend_signal := fzero; mean_rev_signal := fzero; risk_parity_signal := fzero |}
    (default [] signals).

Definition _build_ensemble_inputs (quant_signals : option (list QuantSignal)) (s : SentimentResult)
    (o : InvestmentOpinion) : list StrategySignalInput :=
  let sentiment_value := sentiment_to_signal_value s in
  let opinion_value := opinion_to_signal_value o in
  let combined_sentiment := (sentiment_value * dec 6 1 + opinion_value * dec 4 1)%pyf in
  let combined_confidence := (s.(confidence) * dec 6 1 + o.(conviction) * dec 4 1)%pyf in
  ((λ q, {| strategy := value q.(qs_strategy); sig_value := q.(qs_value);
            sig_confidence := q.(qs_confidence); sig_reason := q.(qs_reason) |}) <$> default [] quant_signals)
  ++ [{| strategy := "SENTIMENT";
         sig_value := round_to 4 (fmax (of_Z (-1)) (fmin one combined_sentiment));
         sig_confidence := round_to 4 (fmax fzero (fmin one combined_confidence));
         sig_reason := "" |}].

Definition run_full_analysis (env : Env) (ticker : string) (quant_signals : option (list QuantSignal))
    (composite : float) (force_refresh : bool) : Run PipelineResult :=
  modify (set_results []) ;;
  sm (PipelineStateMachine.reset "파이프라인 시작") ;;
  sm (PipelineStateMachine.transition COLLECTING ("종목 " +:+ ticker +:+ " 분석 시작")) ;;
  articles ← lift_result (env.(get_articles_for_ticker) ticker);
  block ← _evaluate_gate "DataGate" (DArticles articles);
  if block is Some _ then blocked_result "DataGate"
  else
    sm (PipelineStateMachine.transition ANALYZING "데이터 수집 완료, 분석 시작") ;;
    sentiment ← lift_result (env.(analyze_ticker) ticker articles force_refresh);
    let quant_summary := _summarize_quant_signals quant_signals composite in
    opinion ← lift_result (env.(generate_stock_opinion) ticker sentiment quant_summary
                             (take 5 articles) force_refresh);
    let ensemble_inputs := _build_ensemble_inputs quant_signals sentiment opinion in
    block ← _evaluate_gate "SignalGate" (DInputs ensemble_inputs);
    if block is Some _ then blocked_result "SignalGate"
    else
      signal ← engine (StrategyEnsembleEngine.generate_ensemble_signal log1p
                         (env.(ensemble_stores) ticker) ticker ensemble_inputs None);
      block ← _evaluate_gate "EnsembleGate" (DWeights signal.(weights_used));
      if block is Some _ then blocked_result "EnsembleGate"
      else
        sm (PipelineStateMachine.transition COMPLETED (ticker +:+ " 분석 사이클 완료")) ;;
        l ← gets _gate_results;
        mret {| ensemble_signal := Some signal; dynamic_ensemble := None; gate_results := l;
                final_state := COMPLETED; blocked := false; blocked_by := None |}.

(** An entry of [quant_data]: the signals and the score, each with its default *)
Abbreviation QuantData := (list (string * (option (list QuantSignal) * option float))).

(** The results of a batch: a dict keyed by the ticker; a ticker whose analysis
    raises is skipped. *)
Fixpoint batch (analyze : string → Run PipelineResult) (results : list (string * PipelineResult))
    (tickers : list string) : Run (list (string * PipelineResult)) :=
  match tickers with
  | [] => mret results
  | ticker :: rest =>
      r ← try_except (Some <$> analyze ticker) (λ _, mret None);
      batch analyze (match r with Some x => dict_set ticker x results | None => results end) rest
  end.

Definition run_batch_analysis (env : Env) (tickers : list string) (quant_data : QuantData)
    (force_refresh : bool) : Run (list (string * PipelineResult)) :=
  batch (λ ticker,
    let td := default (None, None) (dict_get ticker quant_data) in
    run_full_analysis env ticker td.1 (default (of_Z 50) td.2) force_refresh) [] tickers.

Definition recalibrate_ensemble_weights (stores : Ensemble.Env) (performances : list (string * float)) :
    Run weights :=
  engine (StrategyEnsembleEngine.recalibrate_weights stores performances "sharpe").

Definition run_dynamic_ensemble (env : Env) (ticker : string) : Run PipelineResult :=
  modify (set_results []) ;;
  sm (PipelineStateMachine.reset "동적 앙상블 시작") ;;
  sm (PipelineStateMachine.transition ANALYZING ("종목 " +:+ ticker +:+ " 동적 앙상블 분석")) ;;
  try_except
    (result ← lift_result (env.(run_dynamic) ticker);
     block ← _evaluate_gate "EnsembleGate" (DWeights result.(rr_weights));
     if block is Some _ then blocked_result "EnsembleGate"
     else
       sm (PipelineStateMachine.transition COMPLETED (ticker +:+ " 동적 앙상블 완료")) ;;
       l ← gets _gate_results;
       mret {| ensemble_signal := None; dynamic_ensemble := Some result; gate_results := l;
               final_state := COMPLETED; blocked := false; blocked_by := None |})
    (λ e : PyExc,
      sm (PipelineStateMachine.transition ERROR (ticker +:+ " 동적 앙상블 실패")) ;;
      l ← gets _gate_results;
      mret {| ensemble_signal := None; dynamic_ensemble := None; gate_results := l;
              final_state := ERROR; blocked := true; blocked_by := Some "DynamicEnsemble:Error" |}).

Definition run_dynamic_ensemble_batch (env : Env) (tickers : list string) : Run (list (string * PipelineResult)) :=
  batch (run_dynamic_ensemble env) [] tickers.

(** ** The route *)

(** [s.split(",")] *)
Fixpoint split_commas (s : string) : list string :=
  match s with
  | "" => [""]
  | String a s' =>
      if Ascii.eqb a "," then "" :: split_commas s'
      else match split_commas s' with
           | t :: ts => String a t :: ts
           | [] => [String a ""]
           end
  end.

Definition ticker_list (tickers : string) : list string :=
  List.filter (λ t, negb (bool_decide (t = ""))) (strip <$> split_commas tickers).

Record TickerReport := {
  tr_blocked : bool;
  tr_blocked_by : string;
  tr_signal : option float;
  tr_action : option string;
  tr_confidence : option float;
}.
Record RouteData := { requested : list string; succeeded : nat; blocked_count : nat; reports : list (string * TickerReport) }.

Definition report (r : PipelineResult) : TickerReport :=
  if r.(blocked) then
    {| tr_blocked := true; tr_blocked_by := default "" r.(blocked_by); tr_signal := None;
       tr_action := None; tr_confidence := None |}
  else
    {| tr_blocked := false; tr_blocked_by := ""; tr_signal := final_signal <$> r.(ensemble_signal);
       tr_action := action <$> r.(ensemble_signal); tr_confidence := final_confidence <$> r.(ensemble_signal) |}.

(** The response's data, [None] for [success=False]; a pipeline is built for
    each request, and a failing audit record fails the request. *)
Definition run_analysis_pipeline (env : Env) (audit_ok : bool) (tickers : string) (force_refresh : bool) :
    option RouteData :=
  let l := ticker_list tickers in
  match outcome (run_batch_analysis env l [] force_refresh) (init BALANCED) with
  | Err _ => None
  | Ok results =>
      if audit_ok then
        Some {| requested := l;
                succeeded := length (List.filter (λ kr, negb kr.2.(blocked)) results);
                blocked_count := length (List.filter (λ kr, kr.2.(blocked)) results);
                reports := prod_map id report <$> results |}
      else None
  end.
End Pipeline.
End InvestmentDecisionPipeline.

(** * What a run promises *)

Module PipelineFacts.
Section Facts.
Context (log1p : float → float).
Import InvestmentDecisionPipeline.
Abbreviation st s := (s.(_sm).(PipelineStateMachine._state)).

(** A gate reports under the id it is registered with. *)
Definition honest (r : Registry) : Prop :=
  ∀ id g d k res, GateRegistry.lookup id r = Some g →
    g.(GateRegistry.g_evaluate) d k = Ok res → res.(gr_gate_id) = id.

Definition registered (r : Registry) (ids : list string) : list string :=
  List.filter (λ id, bool_decide (is_Some (GateRegistry.lookup id r))) ids.

#[local] Arguments registered : simpl never.

(** Where a BLOCK of a gate leaves the state machine *)
Definition fallback_state (fb : gmap string PipelineState) (g : GateResult) : PipelineState :=
  if bool_decide (default IDLE (fb !! g.(gr_gate_id)) = HALTED) then HALTED else IDLE.

Lemma handle_block fb g m :
  decision g = BLOCK →
  ∃ why, FallbackHandler.handle fb g m =
    (Ok (fallback_state fb g), PipelineStateMachine.enter (fallback_state fb g) why m).
Proof.
  intros Hb. unfold FallbackHandler.handle, fallback_state. rewrite Hb. cbn [bool_decide].
  rewrite bool_decide_false by done. unfold mbind, M_bind. case_bool_decide.
  - rewrite PipelineStateMachine.halt_spec. by eexists.
  - rewrite PipelineStateMachine.reset_spec. by eexists.
Qed.

Lemma registered_one r id : registered r [id] = if GateRegistry.lookup id r is Some _ then [id] else [].
Proof. unfold registered. cbn. destruct (GateRegistry.lookup id r); [by rewrite bool_decide_true by eauto|by rewrite bool_decide_false by (by intros [])]. Qed.

(** A gate's step: what it adds to the results and does to the machine. *)
Lemma evaluate_gate_spec id d s (Hh : honest s.(_registry)) :
  match _evaluate_gate id d s with
  | (Err _, s') => s' = s
  | (Ok None, s') => ∃ new, s' = set_results (s.(_gate_results) ++ new) s ∧
      Forall (λ g, decision g = PASS) new ∧ gr_gate_id <$> new = registered s.(_registry) [id]
  | (Ok (Some g), s') => ∃ why, decision g = BLOCK ∧ gr_gate_id g = id ∧ registered s.(_registry) [id] = [id] ∧
      s' = set_sm (PipelineStateMachine.enter (fallback_state s.(_fallbacks) g) why s.(_sm))
             (set_results (s.(_gate_results) ++ [g]) s)
  end.
Proof.
  unfold _evaluate_gate. unfold mbind at 1, M_bind at 1, gets at 1. rewrite registered_one.
  destruct (GateRegistry.lookup id (_registry s)) as [g|] eqn:Eg.
  2: { exists []. rewrite app_nil_r. by destruct s. }
  unfold mbind at 1, M_bind at 1, lift_result at 1.
  destruct (GateRegistry.g_evaluate g (Some d) None) as [res|e] eqn:Er; [|done].
  pose proof (Hh _ _ _ _ _ Eg Er) as Hid. unfold mbind at 1, M_bind at 1, modify at 1.
  case_bool_decide as Hb.
  - destruct (handle_block (_fallbacks s) res (_sm s) Hb) as [why Hw].
    unfold mbind, M_bind, gets, sm, with_err, zoom. cbn -[FallbackHandler.handle]. rewrite Hw. by exists why.
  - exists [res]. split; [done|]. split; [|by cbn; rewrite Hid]. constructor; [|done]. by destruct (decision res).
Qed.

Lemma transition_edge m a b reason :
  PipelineStateMachine._state m = a → PipelineStateMachine.edge a b = true →
  PipelineStateMachine.transition b reason m = (Ok b, PipelineStateMachine.enter b reason m).
Proof.
  intros Ha He. rewrite PipelineStateMachine.transition_spec. unfold PipelineStateMachine.can_transition.
  rewrite Ha. unfold PipelineStateMachine.edge in He. by rewrite He.
Qed.

(** The gates [todo] are evaluated from [s] on with the result [res]: either all
    registered ones passed, or those up to a BLOCK, which is the last. *)
Definition verdict (todo : list string) (s : Pipe) (res : PipelineResult) (s' : Pipe) : Prop :=
  res.(gate_results) = s'.(_gate_results) ∧ res.(final_state) = st s' ∧
  ∃ new left, s'.(_gate_results) = s.(_gate_results) ++ new ∧
    registered s.(_registry) todo = (gr_gate_id <$> new) ++ left ∧
    ((res.(blocked) = false ∧ left = [] ∧ Forall (λ g, decision g = PASS) new ∧
      res.(blocked_by) = None ∧ is_Some res.(ensemble_signal) ∧ st s' = COMPLETED) ∨
     (res.(blocked) = true ∧ ∃ passed g, new = passed ++ [g] ∧
      Forall (λ g, decision g = PASS) passed ∧ decision g = BLOCK ∧
      res.(blocked_by) = Some g.(gr_gate_id) ∧ res.(ensemble_signal) = None ∧
      st s' = fallback_state s.(_fallbacks) g)).

(** What a run promises from [s] on: a verdict, or an exception in mid-run. *)
Definition promises (todo : list string) (m : M Pipe PyExc PipelineResult) (s : Pipe) : Prop :=
  match m s with
  | (Ok res, s') => verdict todo s res s'
  | (Err _, s') => st s' ∈ [COLLECTING; ANALYZING]
  end.

Lemma registered_cons r id todo : registered r (id :: todo) = registered r [id] ++ registered r todo.
Proof. unfold registered. cbn. by destruct (bool_decide _). Qed.

Lemma verdict_gate id todo d k s :
  honest s.(_registry) → st s ∈ [COLLECTING; ANALYZING] →
  (∀ new, promises todo k (set_results (s.(_gate_results) ++ new) s)) →
  promises (id :: todo) (block ← _evaluate_gate id d; if block is Some _ then blocked_result id else k) s.
Proof.
  intros Hh Hst Hk. unfold promises. unfold mbind at 1, M_bind at 1.
  pose proof (evaluate_gate_spec id d s Hh) as Hg.
  destruct (_evaluate_gate id d s) as [[[g|]|e] s1]; [| |by subst].
  - destruct Hg as (why & Hb & Hid & Hr & ->). unfold blocked_result, state. run_m. cbn.
    split_and!; [done|done|]. exists [g], (registered s.(_registry) todo). cbn.
    rewrite registered_cons, Hr, Hid. split_and!; [done|done|]. right. split; [done|].
    exists [], g. split_and!; try done. by rewrite Hid.
  - destruct Hg as (new & -> & Hp & Hids). specialize (Hk new). unfold promises in Hk.
    destruct (k _) as [[res|e] s']; [|done]. destruct Hk as (H1 & H2 & new' & left & H3 & H4 & H5). cbn in *.
    split_and!; [done|done|]. exists (new ++ new'), left.
    rewrite registered_cons, <- Hids, H4, fmap_app, !app_assoc. split_and!; [done|done|].
    destruct H5 as [(?&?&?&?&?&?)|(?&passed&g&->&?&?&?&?&?)]; [left|right].
    + split_and!; try done. by apply Forall_app.
    + split; [done|]. exists (new ++ passed), g. rewrite app_assoc. split_and!; try done. by apply Forall_app.
Qed.

(** Steps that leave registry, fallbacks and results alone. *)
Lemma promises_bind A todo (m : M Pipe PyExc A) k s a s1 :
  m s = (Ok a, s1) → s1.(_registry) = s.(_registry) → s1.(_fallbacks) = s.(_fallbacks) →
  s1.(_gate_results) = s.(_gate_results) → promises todo (k a) s1 → promises todo (m ≫= k) s.
Proof.
  intros Hm Hr Hf Hg Hk. unfold promises in *. unfold mbind, M_bind. rewrite Hm.
  destruct (k a s1) as [[res|e] s']; [|done]. unfold verdict in *. by rewrite Hr, Hf, Hg in Hk.
Qed.

Lemma promises_service A todo (r : result PyExc A) k s :
  st s ∈ [COLLECTING; ANALYZING] → (∀ a, promises todo (k a) s) → promises todo (lift_result r ≫= k) s.
Proof. intros Hs Hk. unfold promises, mbind, M_bind, lift_result. destruct r as [a|e]; [apply Hk|done]. Qed.

Lemma sm_transition a b reason s :
  st s = a → PipelineStateMachine.edge a b = true →
  sm (PipelineStateMachine.transition b reason) s =
    (Ok b, set_sm (PipelineStateMachine.enter b reason s.(_sm)) s).
Proof. intros Ha He. unfold sm, with_err, zoom. by rewrite (transition_edge _ a). Qed.

Lemma engine_spec env ticker signals s :
  ∃ sig e, engine (StrategyEnsembleEngine.generate_ensemble_signal log1p env ticker signals None) s =
    (Ok sig, set_ensemble e s).
Proof.
  unfold engine, with_err, zoom.
  destruct (StrategyEnsembleEngine.generate_ensemble_signal _ _ _ _ _ _) as [[sig|[]] e]. eauto.
Qed.

Lemma collecting : COLLECTING ∈ [COLLECTING; ANALYZING].
Proof. by left. Qed.
Lemma analyzing : ANALYZING ∈ [COLLECTING; ANALYZING].
Proof. by right; left. Qed.

Lemma full_analysis_promises (env : Env) (ticker : string) (quant : option (list QuantSignal))
    (composite : float) (force : bool) (s : Pipe) (Hh : honest s.(_registry)) :
  promises ["DataGate"; "SignalGate"; "EnsembleGate"]
    (run_full_analysis log1p env ticker quant composite force) (set_results [] s).
Proof.
  unfold run_full_analysis. eapply promises_bind; [done|done|done|done|]. cbn beta.
  eapply promises_bind; [unfold sm, with_err, zoom; by rewrite PipelineStateMachine.reset_spec|done|done|done|].
  eapply promises_bind; [by apply (sm_transition IDLE)|done|done|done|].
  apply promises_service; [exact collecting|]. intros articles. apply verdict_gate; [exact Hh|exact collecting|]. intros new.
  eapply promises_bind; [by apply (sm_transition COLLECTING)|done|done|done|].
  apply promises_service; [exact analyzing|]. intros sentiment.
  apply promises_service; [exact analyzing|]. intros opinion. apply verdict_gate; [exact Hh|exact analyzing|]. intros new'.
  match goal with |- promises _ (engine (StrategyEnsembleEngine.generate_ensemble_signal _ ?e _ ?i _) ≫= _) ?s0 =>
    destruct (engine_spec e ticker i s0) as (sig & en & Hen) end.
  eapply promises_bind; [exact Hen|done|done|done|]. apply verdict_gate; [exact Hh|exact analyzing|]. intros new''.
  eapply promises_bind; [by apply (sm_transition ANALYZING)|done|done|done|].
  eapply promises_bind; [done|done|done|done|]. cbn. split_and!; [done|done|]. exists [], [].
  rewrite app_nil_r. split_and!; [done|done|]. left. split_and!; try done.
Qed.

(** ** The default registry *)

Lemma _pass_id id r res : _pass id r = Ok res → gr_gate_id res = id.
Proof. unfold _pass, mk_result. destruct (_ <? _); [done|]. by intros [= <-]. Qed.
Lemma _block_id id r sv res : _block id r sv = Ok res → gr_gate_id res = id.
Proof. unfold _block, mk_result. destruct (_ <? _); [done|]. by intros [= <-]. Qed.

Ltac gate_id :=
  repeat match goal with |- context [match ?x with _ => _ end] => destruct x end;
  first [apply _pass_id | apply _block_id].

Lemma data_gate_id k d res : DataGate.evaluate k d = Ok res → gr_gate_id res = "DataGate".
Proof. unfold DataGate.evaluate. gate_id. Qed.
Lemma factor_gate_id k d res : FactorGate.evaluate k d = Ok res → gr_gate_id res = "FactorGate".
Proof. unfold FactorGate.evaluate. gate_id. Qed.
Lemma signal_gate_id k d res : SignalGate.evaluate k d = Ok res → gr_gate_id res = "SignalGate".
Proof. unfold SignalGate.evaluate. gate_id. Qed.
Lemma ensemble_gate_id k d res : EnsembleGate.evaluate k d = Ok res → gr_gate_id res = "EnsembleGate".
Proof. unfold EnsembleGate.evaluate. gate_id. Qed.

Lemma default_honest : honest default_registry.
Proof.
  intros id g d k res Hl Hr.
  unfold default_registry, GateRegistry.lookup, GateRegistry.register in Hl. cbn in Hl.
  repeat (apply lookup_insert_Some in Hl as [[<- <-]|[_ Hl]];
    [first [by eapply data_gate_id|by eapply factor_gate_id|by eapply signal_gate_id|by eapply ensemble_gate_id]|]).
  by rewrite lookup_empty in Hl.
Qed.

(** ** What the state machine does not stop *)

(** A pipeline whose registry and fallbacks are the built-in ones *)
Definition built_in (s : Pipe) : Prop :=
  s.(_registry) = default_registry ∧ s.(_fallbacks) = FallbackHandler.fallbacks None.

Lemma built_in_analysis (env : Env) (ticker : string) (quant : option (list QuantSignal))
    (composite : float) (force : bool) (s : Pipe) (Hs : built_in s) :
  st (after (run_full_analysis log1p env ticker quant composite force) s) ∈ [IDLE; COMPLETED; COLLECTING; ANALYZING] ∧
  ∀ res, outcome (run_full_analysis log1p env ticker quant composite force) s = Ok res →
    if res.(blocked) then res.(final_state) = IDLE else res.(final_state) = COMPLETED.
Proof.
  destruct Hs as [Hr Hf].
  assert (run_full_analysis log1p env ticker quant composite force s =
    run_full_analysis log1p env ticker quant composite force (set_results [] s)) as E by done.
  pose proof (full_analysis_promises env ticker quant composite force s) as Hp.
  unfold after, outcome. rewrite E. unfold promises in Hp.
  destruct (run_full_analysis _ _ _ _ _ _ _) as [[res|e] s']; cbn.
  2: { split; [|done]. specialize (Hp ltac:(rewrite Hr; apply default_honest)). set_solver. }
  destruct (Hp ltac:(rewrite Hr; apply default_honest)) as (_ & Hst & new & left & _ & Hreg & Hv).
  destruct Hv as [(Hb & _ & _ & _ & _ & Hc)|(Hb & passed & g & -> & _ & _ & _ & _ & Hc)].
  - rewrite Hc in *. split; [set_solver|]. intros ? [= <-]. by rewrite Hb, Hst.
  - assert (fallback_state (_fallbacks s) g = IDLE) as Hi.
    { rewrite Hf. assert (gr_gate_id g ∈ ["DataGate"; "SignalGate"; "EnsembleGate"]) as Hg.
      { cbn [_registry set_results] in Hreg. rewrite Hr in Hreg.
        change (registered _ _) with ["DataGate"; "SignalGate"; "EnsembleGate"] in Hreg.
        rewrite Hreg, fmap_app. cbn. set_solver. }
      unfold fallback_state. rewrite !list_elem_of_In in Hg. cbn in Hg.
      destruct Hg as [<-|[<-|[<-|[]]]]; reflexivity. }
    cbn [_fallbacks set_results] in Hc. rewrite Hi in Hc. rewrite Hc in *. split; [set_solver|].
    intros ? [= <-]. by rewrite Hb, Hst.
Qed.

(** C29. One analysis, for any services, any state machine it finds and any
    registry whose gates report under their own id: if a service or a gate raises,
    the machine stays in COLLECTING or ANALYZING.  Otherwise the results are those of
    the registered ones among DataGate, SignalGate and EnsembleGate, in this order:
    all of them, all PASS, with a signal and the machine in COMPLETED; or those up to
    the first BLOCK, which names the result and leaves the machine in IDLE, or in
    HALTED where the fallback table says so.  With the built-in registry and table an
    emergency stop does not outlast the analysis: from any state, HALTED included, the
    machine ends in IDLE, COMPLETED, COLLECTING or ANALYZING. *)
Theorem full_analysis_decides (env : Env) (ticker : string) (quant : option (list QuantSignal))
    (composite : float) (force : bool) (s : Pipe) (Hh : honest s.(_registry)) :
  let analysis := run_full_analysis log1p env ticker quant composite force in
  promises ["DataGate"; "SignalGate"; "EnsembleGate"] analysis (set_results [] s) ∧
  (built_in s →
    st (after analysis s) ∈ [IDLE; COMPLETED; COLLECTING; ANALYZING] ∧
    ∀ res, outcome analysis s = Ok res →
      if res.(blocked) then res.(final_state) = IDLE else res.(final_state) = COMPLETED).
Proof. intros analysis. split; [by apply full_analysis_promises|apply built_in_analysis]. Qed.

(** The dynamic ensemble never runs: the machine is reset to IDLE, which allows
    no transition but to COLLECTING, so that [run_dynamic_ensemble] raises before it
    calls anything, for every ticker and every state of the pipeline; the batch skips
    every ticker and returns an empty dict. *)
Theorem dynamic_ensemble_never_runs (env : Env) (s : Pipe) :
  (∀ ticker, outcome (run_dynamic_ensemble env ticker) s = Err (Transition (Rejected IDLE ANALYZING)) ∧
     st (after (run_dynamic_ensemble env ticker) s) = IDLE) ∧
  ∀ tickers, outcome (run_dynamic_ensemble_batch env tickers) s = Ok [].
Proof.
  assert (∀ ticker s, ∃ m, PipelineStateMachine._state m = IDLE ∧
    run_dynamic_ensemble env ticker s =
      (Err (Transition (Rejected IDLE ANALYZING)), set_sm m (set_results [] s))) as Hd.
  { intros ticker s0. unfold run_dynamic_ensemble, sm, with_err, zoom, modify. unfold mbind, M_bind.
    rewrite PipelineStateMachine.reset_spec. cbn -[PipelineStateMachine.transition].
    rewrite PipelineStateMachine.transition_spec. eexists. refine (conj _ eq_refl). done. }
  split.
  - intros ticker. destruct (Hd ticker s) as (m & Hm & E). unfold outcome, after. by rewrite E.
  - intros tickers. unfold run_dynamic_ensemble_batch, outcome. revert s.
    induction tickers as [|t ts IH]; intros s; [done|]. cbn [batch]. destruct (Hd t s) as (m & Hm & E).
    unfold mbind, M_bind, try_except, fmap, M_map. rewrite E. apply IH.
Qed.

(** ** Weights the ensemble gate refuses *)

(** The built-in registry, and an engine that has the weights [w] *)
Definition weighs (w : weights) (s : Pipe) : Prop :=
  s.(_registry) = default_registry ∧ s.(_ensemble).(_weights) = Some w.

Lemma keeps_sm w A (m : M PipelineStateMachine.t InvalidTransitionError A) :
  keeps (weighs w) (λ _, True) (sm m).
Proof. intros s Hs. unfold after, outcome, sm, with_err, zoom. by destruct (m (_sm s)) as [[a|e] m']. Qed.

Lemma keeps_service w A (r : result PyExc A) : keeps (weighs w) (λ _, True) (lift_result r).
Proof. intros s Hs. by split. Qed.

Lemma keeps_evaluate_gate w id d : keeps (weighs w) (λ _, True) (_evaluate_gate id d).
Proof.
  unfold _evaluate_gate. apply (keeps_bind _ _ _ (λ _, True)); [by apply keeps_gets|].
  intros [g|] _; [|by apply keeps_ret].
  apply (keeps_bind _ _ _ (λ _, True)); [apply keeps_service|]. intros res _.
  apply (keeps_bind _ _ _ (λ _, True)); [by apply keeps_modify|]. intros _ _.
  case_bool_decide; [|by apply keeps_ret].
  apply (keeps_bind _ _ _ (λ _, True)); [by apply keeps_gets|]. intros fb _.
  apply (keeps_bind _ _ _ (λ _, True)); [apply keeps_sm|]. intros _ _. by apply keeps_ret.
Qed.

Lemma keeps_blocked w id : keeps (weighs w) (λ res, blocked res = true) (blocked_result id).
Proof. intros s Hs. split; [done|]. by intros ? [= <-]. Qed.

Lemma keeps_stop A w id (m : M Pipe PyExc (option A)) k :
  keeps (weighs w) (λ _, True) m → keeps (weighs w) (λ res, blocked res = true) k →
  keeps (weighs w) (λ res, blocked res = true) (b ← m; if b is Some _ then blocked_result id else k).
Proof.
  intros Hm Hk. apply (keeps_bind _ _ _ (λ _, True)); [done|].
  intros [b|] _; [apply keeps_blocked|done].
Qed.

(** The weights an analysis without price table reports *)
Definition reported (w : weights) : weights :=
  dict_map (round_to 4) (List.filter (λ kv, (kv.2 >? fzero)%pyf) (RegimeWeightRouter.adjust_weights w no_ohlcv)).

Lemma keeps_generate w env ticker sg signals :
  w ≠ [] →
  keeps (weighs w) (λ sig, sig.(weights_used) = reported w)
    (engine (StrategyEnsembleEngine.generate_ensemble_signal log1p env ticker (signals ++ [sg]) None)).
Proof.
  intros Hw s [Hr He]. unfold after, outcome, engine, with_err, zoom.
  unfold StrategyEnsembleEngine.generate_ensemble_signal, StrategyEnsembleEngine.get_weights,
    mbind, M_bind, get, gets. rewrite He. unfold StrategyEnsembleEngine.truthy. destruct w as [|kv w]; [done|].
  destruct (signals ++ [sg]) as [|sg' l] eqn:E; [by destruct signals|].
  cbn. split; [done|]. intros ? [= <-]. unfold StrategyEnsembleEngine.combine.
  destruct (if flt _ _ then _ else _). by destruct (DynamicThreshold.compute _).
Qed.

Lemma refused_weights_block w g env ticker quant composite force :
  w ≠ [] → EnsembleGate.evaluate EnsembleGate.default_max_weight (EnsembleGate.Weights (reported w)) = Ok g →
  decision g = BLOCK →
  keeps (weighs w) (λ res, blocked res = true) (run_full_analysis log1p env ticker quant composite force).
Proof.
  intros Hw Hg Hb. unfold run_full_analysis.
  apply (keeps_bind _ _ _ (λ _, True)); [by apply keeps_modify|]. intros _ _.
  apply (keeps_bind _ _ _ (λ _, True)); [apply keeps_sm|]. intros _ _.
  apply (keeps_bind _ _ _ (λ _, True)); [apply keeps_sm|]. intros _ _.
  apply (keeps_bind _ _ _ (λ _, True)); [apply keeps_service|]. intros articles _.
  apply keeps_stop; [apply keeps_evaluate_gate|].
  apply (keeps_bind _ _ _ (λ _, True)); [apply keeps_sm|]. intros _ _.
  apply (keeps_bind _ _ _ (λ _, True)); [apply keeps_service|]. intros sentiment _.
  apply (keeps_bind _ _ _ (λ _, True)); [apply keeps_service|]. intros opinion _.
  apply keeps_stop; [apply keeps_evaluate_gate|].
  eapply keeps_bind; [by apply keeps_generate|]. intros sig Hsig. cbn beta in Hsig. rewrite Hsig.
  apply (keeps_bind _ _ _ is_Some); [|intros ? [b ->]; apply keeps_blocked].
  intros s [Hr He]. split; [by apply keeps_evaluate_gate|]. unfold _evaluate_gate, outcome.
  unfold mbind at 1, M_bind at 1, gets at 1. rewrite Hr.
  change (GateRegistry.lookup "EnsembleGate" default_registry) with
    (Some {| GateRegistry.g_id := "EnsembleGate"; GateRegistry.g_evaluate := λ d (_ : option unit),
       EnsembleGate.evaluate EnsembleGate.default_max_weight (data_for_ensemble_gate d) |}).
  cbn [GateRegistry.g_evaluate data_for_ensemble_gate]. rewrite Hg.
  intros o. unfold mbind, M_bind, lift_result, modify, gets. rewrite bool_decide_true by done.
  unfold sm, with_err, zoom. destruct (handle_block (_fallbacks s) g (_sm s) Hb) as [why Hh].
  cbn -[FallbackHandler.handle]. rewrite Hh. cbn. intros [= <-]. by eexists.
Qed.

(** A recalibration can stop every later analysis.  The weights are clipped to
    40% before they are normalised, not after: one strategy with a Sharpe ratio of 2
    beside four without takes two thirds, which the ensemble gate refuses.  From then
    on no analysis of the pipeline, of whatever ticker and whatever the services say,
    ends without a BLOCK. *)
Theorem recalibration_blocks_analyses (env : Env) (ticker : string) (quant : option (list QuantSignal))
    (composite : float) (force : bool) (res : PipelineResult) :
  let stores := {| _get_cached_weights := None; _load_weights_from_db := None |} in
  let s := after (recalibrate_ensemble_weights stores [("FACTOR", of_Z 2)]) (init BALANCED) in
  outcome (run_full_analysis log1p env ticker quant composite force) s = Ok res → res.(blocked) = true.
Proof.
  intros stores s. set (w := StrategyEnsembleEngine.new_weights_of (ENSEMBLE_DEFAULT_WEIGHTS BALANCED)
    [("FACTOR", of_Z 2)] "sharpe").
  assert (weighs w s) as Hs by (split; reflexivity).
  assert (match EnsembleGate.evaluate EnsembleGate.default_max_weight (EnsembleGate.Weights (reported w)) with
    Ok g => bool_decide (decision g = BLOCK) | Err _ => false end = true) as Hg by (vm_compute; reflexivity).
  destruct (EnsembleGate.evaluate _ _) as [g|] eqn:E; [|done]. apply bool_decide_eq_true in Hg.
  assert (w ≠ []) as Hw by (intros E'; vm_compute in E'; discriminate).
  clearbody w s. intros Ho. exact (proj2 (refused_weights_block w g env ticker quant composite force Hw E Hg s Hs) res Ho).
Qed.
End Facts.
End PipelineFacts.

Module PipelineRuns.
Import InvestmentDecisionPipeline.

(** Services that answer every request *)
Definition calm : Env :=
  {| get_articles_for_ticker := λ _, Ok ["headline"];
     analyze_ticker := λ _ _ _, Ok {| score := dec 6 1; confidence := dec 8 1 |};
     generate_stock_opinion := λ _ _ _ _ _, Ok {| op_action := OpBuy; conviction := dec 7 1 |};
     ensemble_stores := λ _, EnsembleRuns.nothing_stored;
     run_dynamic := λ t, Err (Service t) |}.
Definition halted : Pipe := set_sm (PipelineStateMachine.init HALTED) (init BALANCED).

Lemma full_analysis_decides_witness :
  PipelineFacts.promises ["DataGate"; "SignalGate"; "EnsembleGate"]
    (run_full_analysis EnsembleRuns.flat calm "005930" None (of_Z 50) false) (set_results [] halted) ∧
  (PipelineFacts.built_in halted →
    PipelineStateMachine._state
      (_sm (after (run_full_analysis EnsembleRuns.flat calm "005930" None (of_Z 50) false) halted))
      ∈ [IDLE; COMPLETED; COLLECTING; ANALYZING] ∧
    ∀ res, outcome (run_full_analysis EnsembleRuns.flat calm "005930" None (of_Z 50) false) halted = Ok res →
      if res.(blocked) then res.(final_state) = IDLE else res.(final_state) = COMPLETED).
Proof. apply PipelineFacts.full_analysis_decides. apply PipelineFacts.default_honest. Defined.

(** The analysis of the route, on its built-in pipeline: completed, and the
    stopped pipeline is running again. *)
Example calm_run :
  (λ d, (requested d, succeeded d, blocked_count d, (tr_action ∘ snd) <$> reports d)) <$>
    run_analysis_pipeline EnsembleRuns.flat calm true " 005930,,AAPL " false
  = Some (["005930"; "AAPL"], 2%nat, 0%nat, [Some "BUY"; Some "BUY"]) ∧
  PipelineStateMachine._state
    (_sm (after (run_full_analysis EnsembleRuns.flat calm "005930" None (of_Z 50) false) halted)) = COMPLETED.
Proof. split; vm_compute; reflexivity. Qed.

Lemma recalibration_blocks_analyses_witness :
  let s := after (recalibrate_ensemble_weights EnsembleRuns.nothing_stored [("FACTOR", of_Z 2)]) (init BALANCED) in
  match outcome (run_full_analysis EnsembleRuns.flat calm "AAPL" None (of_Z 50) false) s with
  | Ok res => res.(blocked) = true
  | Err _ => False
  end.
Proof.
  intros s. destruct (outcome _ s) as [res|e] eqn:E.
  - exact (PipelineFacts.recalibration_blocks_analyses EnsembleRuns.flat calm "AAPL" None (of_Z 50) false res E).
  - vm_compute in E. discriminate.
Defined.
End PipelineRuns.
