(* ===== verification/Rebalancing.v ===== *)
(** Rebalancing: backend/core/portfolio_manager/rebalancing.py, and the
    construction of target portfolios of construction.py.

    The optimizer of scipy is a parameter: for a list of signals, the solution it
    finds or [None].  So is the order in which Python iterates over a set of
    tickers.  Order executor, Telegram and the history table are behind [World];
    the executor is an arbitrary computation that may raise.  A dict of weights is
    the association list of [Ensemble]; sorting is by insertion, which agrees with
    Python's stable sort on keys that are numbers. *)

From stdpp Require Import base option list gmap sets strings.
From Stdlib Require Import ZArith Lia Sorted Floats.SpecFloat.
From S2P Require Import Prelude PyFloat PyDict FloatFacts PyFormat Constants Executor Ensemble.

(** What the code raises *)
Inductive Exn := KeyError (key : string) | ZeroDivision | IntOfFloat | ExecutorExn (message : string).

(** [sorted(l, key=...)]: a stable insertion sort, [before x y] when x's key is
    strictly smaller *)
Section Sort.
Context {A : Type} (before : A → A → bool).
Fixpoint insert_sorted (x : A) (l : list A) : list A :=
  match l with
  | [] => [x]
  | y :: l' => if before x y then x :: y :: l' else y :: insert_sorted x l'
  end.
Definition sort_by (l : list A) : list A := foldl (λ acc x, insert_sorted x acc) [] l.

Lemma insert_sorted_perm x l : insert_sorted x l ≡ₚ x :: l.
Proof.
  induction l as [|y l IH]; cbn; [done|]. destruct (before x y); [done|]. rewrite IH. apply Permutation_swap.
Qed.
Lemma sort_by_perm l : sort_by l ≡ₚ l.
Proof.
  unfold sort_by. enough (∀ acc, foldl (λ acc x, insert_sorted x acc) acc l ≡ₚ l ++ acc) as H
    by by rewrite H, app_nil_r.
  induction l as [|x l IH]; intros acc; cbn; [done|]. rewrite IH, insert_sorted_perm.
  by rewrite Permutation_middle.
Qed.

(** For an order that [before] decides, the result is sorted. *)
Lemma sort_by_sorted (R : A → A → Prop) `{!Transitive R} l :
  (∀ x y, before x y = true → R x y) → (∀ x y, before x y = false → R y x) → StronglySorted R (sort_by l).
Proof.
  intros Ht Hf. unfold sort_by. enough (∀ acc, StronglySorted R acc →
    StronglySorted R (foldl (λ acc x, insert_sorted x acc) acc l)) as H by (apply H; constructor).
  induction l as [|x l IH]; intros acc Hacc; cbn; [done|]. apply IH. clear IH.
  induction Hacc as [|y l' Hl' IH Hy]; cbn; [repeat constructor|]. destruct (before x y) eqn:E.
  - constructor; [by constructor|]. constructor; [by apply Ht|]. eapply Forall_impl; [done|]. intros z Hz. etrans; [by apply Ht|done].
  - constructor; [done|]. rewrite insert_sorted_perm. constructor; [by apply Hf|done].
Qed.
End Sort.

(** * Portfolio construction *)

Record TargetAllocation := {
  al_ticker : string;
  al_market : Market;
  target_weight : float;
  current_weight : float;
  signal_score : float;
  sector : string;
}.

Record TargetPortfolio := {
  allocations : list TargetAllocation;
  total_value : float;
  cash_ratio : float;
  optimization_method : string;
}.

Definition CASH_RATIO_MIN (p : RiskProfile) : float :=
  match p with
  | CONSERVATIVE => dec 15 2
  | BALANCED => dec 5 2
  | AGGRESSIVE => fzero
  | DIVIDEND => dec 10 2
  end.
Definition USD_WEIGHT_HARD_CAP : float := dec 60 2.

(** [self.constraints], PORTFOLIO_CONSTRAINTS by default *)
Record Constraints := { max_single_weight : float; max_sector_weight : float; min_positions : Z }.
Definition PORTFOLIO_CONSTRAINTS : Constraints :=
  {| max_single_weight := dec 20 2; max_sector_weight := dec 40 2; min_positions := 5 |}.

Module PortfolioConstructionEngine.
Section Construction.
Context (minimize : list (string * float) → option (list float)).
Context (risk_profile : RiskProfile) (constraints : Constraints).

Definition _signal_proportional_weights (signals : weights) (max_weight : float) : weights :=
  let positive_signals := dict_map (λ s, fmax s fzero) signals in
  let total := fsum (values positive_signals) in
  if (total <? dec 1 10)%pyf then
    dict_map (λ _, (one / of_Z (Z.of_nat (length signals)))%pyf) signals
  else
    let w := dict_map (λ s, fmin (s / total)%pyf max_weight) positive_signals in
    let total_weights := fsum (values w) in
    dict_map (λ v, (v / total_weights)%pyf) w.

Definition _mean_variance_optimize (signals : weights) : weights :=
  match signals with
  | [] => []
  | _ =>
      match minimize signals with
      | Some x => zip signals.*1 x
      | None => _signal_proportional_weights signals constraints.(max_single_weight)
      end
  end.

Definition is_us (market_info : list (string * Market)) (t : string) : bool :=
  match dict_get t market_info with Some m => negb (bool_decide (m = KRX)) | None => false end.

(** [if us_total <= cap or us_total < 1e-10: return weights]; when the scaled
    down weight is freed and there is Korean weight, it goes there pro rata. *)
Definition _apply_currency_cap (w : weights) (market_info : list (string * Market)) : weights :=
  let us t v := is_us market_info t && (v >? fzero)%pyf in
  let kr t v := negb (us t v) && (v >? fzero)%pyf in
  let us_total := fsum (values (List.filter (λ kv, us kv.1 kv.2) w)) in
  let cap := USD_WEIGHT_HARD_CAP in
  if ((us_total <=? cap) || (us_total <? dec 1 10))%pyf%bool then w
  else
    let scale := (cap / us_total)%pyf in
    let freed := foldl (λ acc kv, (acc + (kv.2 - kv.2 * scale))%pyf) fzero (List.filter (λ kv, us kv.1 kv.2) w) in
    let kr_total := fsum (values (List.filter (λ kv, kr kv.1 kv.2) w)) in
    (λ '(t, v),
       if us t v then (t, (v * scale)%pyf)
       else if kr t v && (kr_total >? fzero)%pyf && (freed >? fzero)%pyf
            then (t, (v + freed * (v / kr_total))%pyf)
       else (t, v)) <$> w.

(** [sector_weights.get(sector, 0.0) + weight] over the dict *)
Definition sector_totals (w : weights) (sector_info : list (string * string)) : weights :=
  foldl (λ acc '(t, v),
    let s := default "UNKNOWN" (dict_get t sector_info) in
    dict_set s (default fzero (dict_get s acc) + v)%pyf acc) [] w.

(** [for ticker in sector_tickers: constrained[ticker] *= scale] *)
Fixpoint scale_tickers (scale : float) (tickers : list string) (w : weights) : result Exn weights :=
  match tickers with
  | [] => Ok w
  | t :: rest =>
      match dict_get t w with
      | None => Err (KeyError t)
      | Some v => scale_tickers scale rest (dict_set t (v * scale)%pyf w)
      end
  end.

Fixpoint cap_sectors (sector_info : list (string * string)) (totals : weights) (w : weights) : result Exn weights :=
  match totals with
  | [] => Ok w
  | (s, total) :: rest =>
      if (total >? constraints.(max_sector_weight))%pyf then
        let sector_tickers := (List.filter (λ ts, bool_decide (ts.2 = s)) sector_info).*1 in
        rbind (scale_tickers (constraints.(max_sector_weight) / total)%pyf sector_tickers w)
          (cap_sectors sector_info rest)
      else cap_sectors sector_info rest w
  end.

(** Tickers without weight get one, the best ranked first, until there are
    [min_positions] positions. *)
Fixpoint fill_positions (missing : Z) (min_weight : float) (ranked : list string) (w : weights) : weights :=
  match ranked with
  | [] => w
  | t :: rest =>
      if (default fzero (dict_get t w) <? dec 1 4)%pyf && (0 <? missing)
      then fill_positions (missing - 1) min_weight rest (dict_set t min_weight w)
      else fill_positions missing min_weight rest w
  end.

Definition _apply_constraints (w : weights) (sector_info : list (string * string)) : result Exn weights :=
  let single := dict_map (λ v, if (v >? constraints.(max_single_weight))%pyf
                               then constraints.(max_single_weight) else v) w in
  rbind (cap_sectors sector_info (sector_totals single sector_info) single) (λ capped,
    let active_count := Z.of_nat (length (List.filter (λ kv, (kv.2 >? dec 1 4)%pyf) capped)) in
    let filled :=
      if active_count <? constraints.(min_positions) then
        let min_weight := (one / of_Z (constraints.(min_positions) * 2))%pyf in
        let ranked := (sort_by (λ a b, flt (fneg a.2) (fneg b.2)) w).*1 in
        fill_positions (constraints.(min_positions) - active_count) min_weight ranked capped
      else capped in
    let total := fsum (values filled) in
    Ok (if (total >? fzero)%pyf then dict_map (λ v, (v / total)%pyf) filled else filled)).

(** [construct] with its default method *)
Definition construct (ensemble_signals current_portfolio : weights) (seed_capital : float)
    (sector_info : option (list (string * string))) (market_info : option (list (string * Market))) :
    result Exn TargetPortfolio :=
  let sectors := default [] sector_info in
  let markets := match market_info with
    | Some ((_ :: _) as m) => m
    | _ => (λ t, (t, NYSE)) <$> ensemble_signals.*1
    end in
  let w1 := _mean_variance_optimize ensemble_signals in
  let w2 := _apply_currency_cap w1 markets in
  rmap (λ w3,
    let min_cash := CASH_RATIO_MIN risk_profile in
    let total_weight := fsum (values w3) in
    let cash := fmax min_cash (one - total_weight)%pyf in
    let w4 := if ((total_weight >? one - min_cash) && (min_cash >? fzero))%pyf%bool
      then dict_map (λ v, (v * ((one - min_cash) / total_weight))%pyf) w3 else w3 in
    {| allocations := (λ '(t, v),
         {| al_ticker := t; al_market := default NYSE (dict_get t markets); target_weight := v;
            current_weight := default fzero (dict_get t current_portfolio);
            signal_score := default fzero (dict_get t ensemble_signals);
            sector := default "" (dict_get t sectors) |})
         <$> List.filter (λ kv, (kv.2 >? dec 1 4)%pyf) w4;
       total_value := seed_capital; cash_ratio := cash; optimization_method := "mean_variance" |})
    (_apply_constraints w2 sectors).

(** ** What the constraints promise *)

Lemma dict_map_keys f (d : weights) : (dict_map f d).*1 = d.*1.
Proof. unfold dict_map. rewrite <- list_fmap_compose. by apply list_fmap_ext. Qed.

Lemma scale_tickers_keys scale l w :
  match scale_tickers scale l w with
  | Ok w' => w'.*1 = w.*1 ∧ ∀ t, t ∈ l → t ∈ w.*1
  | Err e => ∃ t, e = KeyError t ∧ t ∈ l ∧ t ∉ w.*1
  end.
Proof.
  revert w. induction l as [|t l IH]; intros w; cbn; [split; [done|set_solver]|].
  destruct (dict_get t w) as [v|] eqn:E.
  - assert (t ∈ w.*1) as Ht by (destruct (decide (t ∈ w.*1)) as [|Hn]; [done|by apply dict_get_none in Hn; congruence]).
    specialize (IH (dict_set t (v * scale)%pyf w)). rewrite (dict_set_keys_same t _ w Ht) in IH.
    destruct (scale_tickers _ _ _) as [w'|e]; [split; [apply IH|]|].
    + intros t' [->|Ht']%elem_of_cons; [done|]. by apply IH.
    + destruct IH as (t' & ? & ? & ?). exists t'. split_and!; [done|by right|done].
  - apply dict_get_none in E. exists t. split_and!; [done|by left|done].
Qed.

(** The sectors over the cap, and their tickers *)
Definition over_cap (totals : weights) (s : string) : Prop :=
  ∃ total, (s, total) ∈ totals ∧ flt constraints.(max_sector_weight) total = true.

Lemma cap_sectors_keys sector_info totals w :
  match cap_sectors sector_info totals w with
  | Ok w' => w'.*1 = w.*1 ∧ ∀ s t, over_cap totals s → (t, s) ∈ sector_info → t ∈ w.*1
  | Err e => ∃ s t, e = KeyError t ∧ over_cap totals s ∧ (t, s) ∈ sector_info ∧ t ∉ w.*1
  end.
Proof.
  revert w. induction totals as [|[s total] totals IH]; intros w; cbn.
  { split; [done|]. intros s t (total & Hs & _). by apply elem_of_nil in Hs. }
  assert (∀ s', over_cap totals s' → over_cap ((s, total) :: totals) s') as Hr
    by (intros s' (x & ? & ?); exists x; split; [by right|done]).
  assert (∀ t, t ∈ (List.filter (λ ts, bool_decide (ts.2 = s)) sector_info).*1 ↔ (t, s) ∈ sector_info) as Hf.
  { intros t. rewrite list_elem_of_fmap. setoid_rewrite list_elem_of_In. setoid_rewrite filter_In. split.
    - intros ([t' s'] & -> & Hin & Hb). apply bool_decide_eq_true in Hb. cbn in *. by subst.
    - intros Hin. exists (t, s). split_and!; [done|done|]. by apply bool_decide_eq_true. }
  destruct (flt _ total) eqn:E.
  - set (l := (List.filter _ _).*1) in *. pose proof (scale_tickers_keys (constraints.(max_sector_weight) / total)%pyf l w) as Hs.
    destruct (scale_tickers _ l w) as [w1|e]; cbn.
    + destruct Hs as [Hk Hl]. specialize (IH w1). rewrite Hk in IH.
      destruct (cap_sectors _ _ w1) as [w'|e]; [split; [apply IH|]|].
      * intros s' t (x & [[= -> ->]|Hx]%elem_of_cons & Hc) Ht; [by apply Hl, Hf|].
        eapply (proj2 IH); [by exists x|done].
      * destruct IH as (s' & t & ? & ? & ?). exists s', t. auto.
    + destruct Hs as (t & ? & ? & ?). exists s, t. split_and!; [done| |by apply Hf|done].
      exists total. split; [by left|done].
  - specialize (IH w). destruct (cap_sectors _ _ w) as [w'|e].
    + split; [apply IH|]. intros s' t (x & [[= -> ->]|Hx]%elem_of_cons & Hc) Ht; [congruence|].
      eapply (proj2 IH); [by exists x|done].
    + destruct IH as (s' & t & ? & ? & ?). exists s', t. auto.
Qed.

Lemma fill_positions_keys n m l w : (∀ t, t ∈ l → t ∈ w.*1) → (fill_positions n m l w).*1 = w.*1.
Proof.
  revert n w. induction l as [|t l IH]; intros n w Hl; cbn; [done|].
  assert (t ∈ w.*1) as Ht by (apply Hl; by left).
  assert (∀ x, x ∈ l → x ∈ w.*1) as Hl' by (intros x Hx; apply Hl; by right).
  destruct (_ && _); [|by apply IH]. rewrite IH; [by apply dict_set_keys_same|].
  by rewrite dict_set_keys_same.
Qed.

(** The constraints of a portfolio raise a [KeyError] exactly when some sector
    exceeds its cap and the sector table names a ticker of it that has no weight;
    the rebalancing route passes the table of the whole universe.  Otherwise they
    return weights for the same tickers. *)
Theorem sector_cap_decides (w : weights) (sector_info : list (string * string)) :
  let single := dict_map (λ v, if (v >? constraints.(max_single_weight))%pyf
                               then constraints.(max_single_weight) else v) w in
  match _apply_constraints w sector_info with
  | Ok w' => w'.*1 = w.*1 ∧
      ∀ s t, over_cap (sector_totals single sector_info) s → (t, s) ∈ sector_info → t ∈ w.*1
  | Err e => ∃ s t, e = KeyError t ∧ over_cap (sector_totals single sector_info) s ∧
      (t, s) ∈ sector_info ∧ t ∉ w.*1
  end.
Proof.
  intros single. unfold _apply_constraints. fold single.
  pose proof (cap_sectors_keys sector_info (sector_totals single sector_info) single) as H.
  assert (single.*1 = w.*1) as Hs by apply dict_map_keys. rewrite Hs in H.
  destruct (cap_sectors _ _ single) as [capped|e]; cbn; [|done]. destruct H as [Hk Hc]. split; [|done].
  set (filled := if _ <? _ then _ else _). assert (filled.*1 = w.*1) as Hf.
  { unfold filled. destruct (_ <? _); [|done]. rewrite fill_positions_keys; [done|].
    intros t. rewrite Hk. by rewrite sort_by_perm. }
  destruct (flt _ _); by rewrite ?dict_map_keys.
Qed.
End Construction.
End PortfolioConstructionEngine.

(** * The rebalancing engine *)

Inductive InvestmentStyle := DISCRETIONARY | ADVISORY.
Inductive RebalancingFrequency := MONTHLY | BIMONTHLY | QUARTERLY.
Inductive RebalancingType := SCHEDULED | EMERGENCY | MANUAL.

(** The fields of the investor's profile the engine reads *)
Record InvestorProfile := {
  pr_style : InvestmentStyle;
  seed_amount : float;
  loss_tolerance : float;
  rebalancing_frequency : RebalancingFrequency;
}.

Record RebalancingOrder := {
  ro_ticker : string;
  ro_market : Market;
  ro_action : OrderSide;
  ro_quantity : Z;
  ro_order_type : OrderType;
  ro_reason : string;
}.

(** The summaries of a result only go into the history table. *)
Record RebalancingResult := {
  rb_orders : list RebalancingOrder;
  rb_type : RebalancingType;
  trigger_reason : string;
}.

(** Notifications; their texts are left out. *)
Inductive Message :=
  | Recommendation (r : RebalancingResult)
  | Completed (total : Z) (succeeded failed : option Z)
  | EmergencyNotice (r : RebalancingResult)
  | OrderFailure (failed : list OrderResult).

Module RebalancingEngine.
Section Engine.
(** The executor with its state, absent when the engine was built without one *)
Context {X : Type} (execute_order : option (OrderRequest → M X string OrderResult)).
Context (telegram : bool) (profile : InvestorProfile).
(** Iteration over a set of strings *)
Context (iterate : gset string → list string).
Context (construct : weights → weights → float → result Exn TargetPortfolio).

Record World := {
  executor : X;
  outbox : list Message;
  history : list RebalancingResult;
}.

Abbreviation Run A := (M World Exn A).

Definition set_executor (x : X) (w : World) : World :=
  {| executor := x; outbox := w.(outbox); history := w.(history) |}.

(** [if self._telegram: await send_text(...)]; a failure is swallowed. *)
Definition send (m : Message) : Run unit :=
  modify (λ w, {| executor := w.(executor);
                  outbox := if telegram then w.(outbox) ++ [m] else w.(outbox);
                  history := w.(history) |}).

(** The INSERT is attempted; a failure is swallowed. *)
Definition _record_rebalancing (r : RebalancingResult) : Run unit :=
  modify (λ w, {| executor := w.(executor); outbox := w.(outbox); history := w.(history) ++ [r] |}).

(** ** When *)

(** [t]: seconds since midnight, 09:30 being 34200; [last]: days since the last
    scheduled rebalancing, if there was one; day of the month and weekday. *)
Definition _is_first_business_day_of_month (day weekday : Z) : bool :=
  (1 <=? day) && (day <=? 3) && (weekday <? 5).

Definition check_scheduled_rebalancing (t : Z) (last : option Z) (day weekday : Z) : bool :=
  if t <? 34200 then false
  else match last with
  | None => _is_first_business_day_of_month day weekday
  | Some days_elapsed =>
      match profile.(rebalancing_frequency) with
      | MONTHLY => 30 <=? days_elapsed
      | BIMONTHLY => 60 <=? days_elapsed
      | QUARTERLY => 90 <=? days_elapsed
      end
  end.

(** A seed amount of zero is a caught [ZeroDivisionError]. *)
Definition _calculate_portfolio_loss (portfolio_values : weights) : float :=
  let total_value := fsum (values portfolio_values) in
  if (total_value <=? fzero)%pyf then fzero
  else if (profile.(seed_amount) =? fzero)%pyf then fzero
  else
    let current_loss_pct := ((total_value - profile.(seed_amount)) / profile.(seed_amount))%pyf in
    fmin fzero current_loss_pct.

Definition check_emergency_trigger (portfolio_values : weights) : option string :=
  let loss_pct := _calculate_portfolio_loss portfolio_values in
  if (loss_pct >? profile.(loss_tolerance))%pyf then
    Some ("Emergency: Portfolio loss " +:+ fmt_fixed false 2 (loss_pct * of_Z 100)%pyf +:+
          "% exceeds tolerance " +:+ fmt_fixed false 2 (profile.(loss_tolerance) * of_Z 100)%pyf +:+ "%")
  else None.

(** ** What *)

Definition _generate_defensive_portfolio (current_portfolio : weights) : TargetPortfolio :=
  {| allocations := (λ '(t, w),
       {| al_ticker := t; al_market := KRX; target_weight := (w * dec 3 1)%pyf; current_weight := w;
          signal_score := fneg (dec 5 1); sector := "" |})
       <$> List.filter (λ kv, (kv.2 >? dec 1 3)%pyf) current_portfolio;
     total_value := profile.(seed_amount); cash_ratio := dec 7 1; optimization_method := "defensive" |}.

(** [{a.ticker: f(a) for a in allocations}.get(t)] *)
Definition last_allocation (t : string) (l : list TargetAllocation) : option TargetAllocation :=
  find (λ a, bool_decide (a.(al_ticker) = t)) (reverse l).

(** The order for one ticker: [Ok None] when there is none. *)
Definition order_for (current_portfolio : weights) (target : TargetPortfolio) (seed_capital : float)
    (t : string) : result Exn (option RebalancingOrder) :=
  let a := last_allocation t target.(allocations) in
  let current := default fzero (dict_get t current_portfolio) in
  let wanted := default fzero (target_weight <$> a) in
  let weight_diff := (wanted - current)%pyf in
  if (fabs weight_diff <? dec 1 3)%pyf then Ok None
  else
    let side := if (weight_diff >? fzero)%pyf then BUY else SELL in
    match trunc (fabs weight_diff * seed_capital / of_Z 1000)%pyf with
    | None => Err IntOfFloat
    | Some quantity =>
        Ok (if 0 <? quantity then
              Some {| ro_ticker := t; ro_market := default NYSE (al_market <$> a); ro_action := side;
                      ro_quantity := quantity; ro_order_type := MARKET;
                      ro_reason := "Rebalance " +:+ value side +:+ ": " +:+
                        fmt_fixed false 1 (current * of_Z 100)%pyf +:+ "% → " +:+
                        fmt_fixed false 1 (wanted * of_Z 100)%pyf +:+ "%" |}
            else None)
    end.

Fixpoint orders_for (current_portfolio : weights) (target : TargetPortfolio) (seed_capital : float)
    (tickers : list string) : result Exn (list RebalancingOrder) :=
  match tickers with
  | [] => Ok []
  | t :: rest =>
      rbind (order_for current_portfolio target seed_capital t) (λ o,
        rmap (app (option_list o)) (orders_for current_portfolio target seed_capital rest))
  end.

Definition all_tickers (current_portfolio : weights) (target : TargetPortfolio) : gset string :=
  list_to_set current_portfolio.*1 ∪ list_to_set (al_ticker <$> target.(allocations)).

Definition _generate_rebalancing_orders (current_portfolio : weights) (target : TargetPortfolio)
    (seed_capital : float) : result Exn (list RebalancingOrder) :=
  rmap (sort_by (λ a b, - Z.abs a.(ro_quantity) <? - Z.abs b.(ro_quantity)))
    (orders_for current_portfolio target seed_capital (iterate (all_tickers current_portfolio target))).

(** ** How *)

Definition request_of (o : RebalancingOrder) : OrderRequest :=
  {| ticker := o.(ro_ticker); market := o.(ro_market); side := o.(ro_action); quantity := o.(ro_quantity);
     order_type := o.(ro_order_type); limit_price := None; req_reason := o.(ro_reason) |}.

Definition failed_result (o : RebalancingOrder) (message : string) : OrderResult :=
  {| order_id := BrokerId ""; res_ticker := o.(ro_ticker); res_market := o.(ro_market);
     res_side := o.(ro_action); res_quantity := o.(ro_quantity); filled_quantity := 0; avg_price := fzero;
     status := FAILED; res_order_type := o.(ro_order_type); error := negb (bool_decide (message = "")) |}.

(** One order: an exception of the executor is a FAILED result. *)
Definition execute_one (exec : OrderRequest → M X string OrderResult) (o : RebalancingOrder) : Run OrderResult :=
  try_except (zoom executor set_executor (exec (request_of o)))
    (λ message, mret (failed_result o message)).

Fixpoint execute_group (exec : OrderRequest → M X string OrderResult) (l : list RebalancingOrder) :
    Run (list OrderResult) :=
  match l with
  | [] => mret []
  | o :: rest =>
      r ← execute_one exec o;
      rs ← execute_group exec rest;
      mret (r :: rs)
  end.

Definition sells_first (orders : list RebalancingOrder) : list RebalancingOrder :=
  List.filter (λ o, bool_decide (o.(ro_action) = SELL)) orders ++
  List.filter (λ o, bool_decide (o.(ro_action) = BUY)) orders.

Definition _execute_orders (orders : list RebalancingOrder) : Run (list OrderResult) :=
  match execute_order with
  | None => mret []
  | Some exec =>
      results ← execute_group exec (sells_first orders);
      let failed := List.filter (λ r, bool_decide (r.(status) = FAILED)) results in
      when (negb (bool_decide (failed = []))) (send (OrderFailure failed)) ;;
      mret results
  end.

Definition completed_message (r : RebalancingResult) (order_results : list OrderResult) : Message :=
  let total := Z.of_nat (length r.(rb_orders)) in
  match order_results with
  | [] => Completed total None None
  | _ =>
      let succeeded := Z.of_nat (length (List.filter (λ x, negb (bool_decide (x.(status) = FAILED))) order_results)) in
      Completed total (Some succeeded) (Some (total - succeeded))
  end.

Definition _handle_rebalancing_by_style (r : RebalancingResult) : Run unit :=
  match profile.(pr_style) with
  | DISCRETIONARY =>
      order_results ← _execute_orders r.(rb_orders);
      send (completed_message r order_results)
  | ADVISORY => send (Recommendation r)
  end.

Definition _handle_emergency_rebalancing_by_style (r : RebalancingResult) : Run unit :=
  send (EmergencyNotice r) ;;
  match profile.(pr_style) with
  | DISCRETIONARY => _execute_orders r.(rb_orders) ;; mret tt
  | ADVISORY => mret tt
  end.

Definition frequency_value (f : RebalancingFrequency) : string :=
  match f with MONTHLY => "MONTHLY" | BIMONTHLY => "BIMONTHLY" | QUARTERLY => "QUARTERLY" end.

Definition execute_scheduled_rebalancing (ensemble_signals current_portfolio : weights) (seed_capital : float) :
    Run RebalancingResult :=
  target ← lift_result (construct ensemble_signals current_portfolio seed_capital);
  orders ← lift_result (_generate_rebalancing_orders current_portfolio target seed_capital);
  let r := {| rb_orders := orders; rb_type := SCHEDULED;
              trigger_reason := "Scheduled rebalancing (" +:+ frequency_value profile.(rebalancing_frequency) +:+ ")" |} in
  _handle_rebalancing_by_style r ;;
  _record_rebalancing r ;;
  mret r.

Definition execute_emergency_rebalancing (current_portfolio portfolio_values : weights) (reason : string) :
    Run RebalancingResult :=
  let target := _generate_defensive_portfolio current_portfolio in
  orders ← lift_result (_generate_rebalancing_orders current_portfolio target (fsum (values portfolio_values)));
  let r := {| rb_orders := orders; rb_type := EMERGENCY; trigger_reason := reason |} in
  _handle_emergency_rebalancing_by_style r ;;
  _record_rebalancing r ;;
  mret r.

(** * What the engine promises *)

Lemma fmin_zero_le x : fle (fmin fzero x) fzero = true.
Proof. unfold fmin. destruct (flt x fzero) eqn:E; [by apply flt_le|done]. Qed.

(** The emergency trigger of the profile never fires: the loss is the smaller of
    zero and a percentage, and it is compared with a tolerance, which the API only
    accepts from 0 to 1, as if losses were positive.  However much the portfolio has
    lost, there is no trigger. *)
Theorem emergency_trigger_never_fires (portfolio_values : weights)
    (Ht : fle fzero profile.(loss_tolerance) = true) :
  check_emergency_trigger portfolio_values = None.
Proof.
  unfold check_emergency_trigger. assert (fle (_calculate_portfolio_loss portfolio_values) fzero = true) as Hl.
  { unfold _calculate_portfolio_loss. destruct (fle (fsum _) fzero); [done|]. destruct (feq _ _); [done|].
    apply fmin_zero_le. }
  destruct (flt _ _) eqn:E; [exfalso|done].
  pose proof (flt_le_trans _ _ _ E Hl) as Hlt.
  pose proof (fle_lt_trans _ _ _ Ht Hlt) as H0. by rewrite flt_irrefl in H0.
Qed.

(** ** Orders *)

Context (iterate_perm : ∀ s, iterate s ≡ₚ elements s).

(** An order says what it should: a market order for a positive quantity of a
    ticker of the current or the target portfolio, in the direction of the change
    of its weight. *)
Definition order_ok (current : weights) (target : TargetPortfolio) (o : RebalancingOrder) : Prop :=
  0 < o.(ro_quantity) ∧ o.(ro_order_type) = MARKET ∧ o.(ro_ticker) ∈ all_tickers current target ∧
  let wanted := default fzero (target_weight <$> last_allocation o.(ro_ticker) target.(allocations)) in
  let diff := (wanted - default fzero (dict_get o.(ro_ticker) current))%pyf in
  fle (dec 1 3) (fabs diff) = true ∧
  (o.(ro_action) = BUY ↔ flt fzero diff = true).

Lemma order_for_ok current target seed t o :
  t ∈ all_tickers current target →
  order_for current target seed t = Ok (Some o) → o.(ro_ticker) = t ∧ order_ok current target o.
Proof.
  intros Ht. unfold order_for.
  set (wanted := default fzero _). set (diff := fsub wanted _).
  destruct (flt (fabs diff) (dec 1 3)) eqn:E; [done|].
  destruct (trunc _) as [q|] eqn:Eq; [|done]. destruct (Z.ltb_spec 0 q); [|done]. intros [= <-]. cbn.
  split; [done|]. unfold order_ok. cbn [ro_quantity ro_order_type ro_ticker ro_action]. cbv zeta.
  fold wanted. fold diff. do 3 (split; [done|]). split; [|by destruct (flt fzero diff)].
  assert (is_nan diff = false) as Hn.
  { by destruct diff. }
  rewrite fle_not_lt by (done || by destruct diff). by rewrite E.
Qed.

Lemma orders_for_ok current target seed l os :
  (∀ t, t ∈ l → t ∈ all_tickers current target) → NoDup l →
  orders_for current target seed l = Ok os →
  Forall (order_ok current target) os ∧ NoDup (ro_ticker <$> os) ∧ ∀ t, t ∈ ro_ticker <$> os → t ∈ l.
Proof.
  revert os. induction l as [|t l IH]; intros os Hl Hd; cbn; [intros [= <-]|].
  { split_and!; [done|apply NoDup_nil_2|set_solver]. }
  apply NoDup_cons in Hd as [Ht Hd].
  assert (t ∈ all_tickers current target) as Htt by (apply Hl; by left).
  assert (∀ x, x ∈ l → x ∈ all_tickers current target) as Hl' by (intros x Hx; apply Hl; by right).
  clear Hl. destruct (order_for _ _ _ t) as [o|] eqn:E; [|done]. cbn.
  destruct (orders_for _ _ _ l) as [os'|] eqn:E'; [|done]. cbn. intros [= <-].
  destruct (IH os' Hl' Hd eq_refl) as (H1 & H2 & H3).
  clear IH Hl'. destruct o as [o|]; cbn; [|split_and!; [done|done|set_solver]].
  destruct (order_for_ok _ _ _ _ _ Htt E) as [<- Ho].
  split_and!; [by constructor|apply NoDup_cons_2; [|done]|]; set_solver.
Qed.

Lemma orders_generated current target seed os :
  _generate_rebalancing_orders current target seed = Ok os →
  Forall (order_ok current target) os ∧ NoDup (ro_ticker <$> os).
Proof.
  unfold _generate_rebalancing_orders. destruct (orders_for _ _ _ _) as [l|] eqn:E; [|done]. intros [= <-].
  assert (NoDup (iterate (all_tickers current target))) as Hd by (rewrite iterate_perm; apply NoDup_elements).
  apply orders_for_ok in E as (H1 & H2 & _); [|intros t; rewrite iterate_perm; by rewrite elem_of_elements|done].
  rewrite sort_by_perm. done.
Qed.

(** ** Execution *)

(** The executor after the orders, one after the other *)
Definition traded (exec : OrderRequest → M X string OrderResult) (l : list RebalancingOrder) (x : X) : X :=
  foldl (λ x o, after (exec (request_of o)) x) x l.

Lemma sells_first_perm l : sells_first l ≡ₚ l.
Proof.
  unfold sells_first. induction l as [|o l IH]; [done|]. cbn [List.filter].
  destruct (ro_action o); repeat case_bool_decide; try congruence; cbn.
  - by rewrite <- Permutation_middle, IH.
  - by rewrite IH.
Qed.

(** What becomes of each order: the answer of the executor, or a FAILED result *)
Fixpoint answers (exec : OrderRequest → M X string OrderResult) (l : list RebalancingOrder) (x : X) : list OrderResult :=
  match l with
  | [] => []
  | o :: l => (match (exec (request_of o) x).1 with Ok r => r | Err m => failed_result o m end)
              :: answers exec l (after (exec (request_of o)) x)
  end.

Lemma answers_length exec l x : length (answers exec l x) = length l.
Proof. revert x. induction l as [|o l IH]; intros x; cbn; [done|]. by rewrite IH. Qed.

Lemma execute_group_spec exec l w :
  execute_group exec l w = (Ok (answers exec l w.(executor)), set_executor (traded exec l w.(executor)) w).
Proof.
  revert w. induction l as [|o l IH]; intros w; cbn [execute_group]; [by destruct w|].
  unfold mbind at 1, M_bind at 1. unfold execute_one, try_except, zoom.
  assert (traded exec (o :: l) (executor w) = traded exec l (after (exec (request_of o)) (executor w))) as -> by done.
  cbn [answers]. unfold after. destruct (exec (request_of o) (executor w)) as [[r|m] x]; cbn;
    unfold mbind, M_bind; by rewrite (IH (set_executor x w)).
Qed.

(** What the orders do to the executor, and their results: nothing for an advisory
    investor or without an executor *)
Definition execution (l : list RebalancingOrder) (x : X) : X * list OrderResult :=
  match profile.(pr_style), execute_order with
  | DISCRETIONARY, Some exec => (traded exec (sells_first l) x, answers exec (sells_first l) x)
  | _, _ => (x, [])
  end.

Definition rejected (rs : list OrderResult) : list OrderResult :=
  List.filter (λ r, bool_decide (r.(status) = FAILED)) rs.
Definition warning (rs : list OrderResult) : list Message :=
  match rejected rs with [] => [] | bad => [OrderFailure bad] end.

(** The messages of a rebalancing.  An advisory investor gets the recommendation.  A
    discretionary one is told of the orders that failed, if any did, and then of the
    whole; in an emergency of the whole first. *)
Definition notices (r : RebalancingResult) (rs : list OrderResult) : list Message :=
  let n := Z.of_nat (length r.(rb_orders)) in
  let bad := Z.of_nat (length (rejected rs)) in
  if negb telegram then [] else
  match r.(rb_type), profile.(pr_style) with
  | EMERGENCY, _ => EmergencyNotice r :: warning rs
  | _, ADVISORY => [Recommendation r]
  | _, DISCRETIONARY =>
      warning rs ++ [match rs with [] => Completed n None None | _ => Completed n (Some (n - bad)) (Some bad) end]
  end.

Lemma succeeded_or_rejected rs :
  length (List.filter (λ x, negb (bool_decide (x.(status) = FAILED))) rs) = (length rs - length (rejected rs))%nat.
Proof.
  unfold rejected. induction rs as [|r rs IH]; [done|]. cbn [List.filter].
  pose proof (List.filter_length_le (λ r, bool_decide (r.(status) = FAILED)) rs).
  destruct (bool_decide _); cbn; lia.
Qed.

Lemma rejected_length rs : (length (rejected rs) ≤ length rs)%nat.
Proof. apply List.filter_length_le. Qed.

Lemma completed_message_counts r rs :
  rs = [] ∨ length rs = length r.(rb_orders) →
  completed_message r rs =
    let n := Z.of_nat (length r.(rb_orders)) in let bad := Z.of_nat (length (rejected rs)) in
    match rs with [] => Completed n None None | _ => Completed n (Some (n - bad)) (Some bad) end.
Proof.
  intros [->|Hl]; [done|]. unfold completed_message. rewrite succeeded_or_rejected. rewrite <- Hl.
  pose proof (rejected_length rs). destruct rs as [|r' rs]; [done|]. cbv zeta. f_equal; f_equal; lia.
Qed.

(** The world after messages *)
Definition told (l : list Message) (w : World) : World :=
  {| executor := w.(executor); outbox := w.(outbox) ++ (if telegram then l else []); history := w.(history) |}.

Lemma send_told m w : send m w = (Ok tt, told [m] w).
Proof. unfold send, told, modify. destruct telegram; [done|]. by rewrite app_nil_r. Qed.

Lemma told_told l l' w : told l' (told l w) = told (l ++ l') w.
Proof. unfold told. cbn. f_equal. destruct telegram; rewrite <- ?app_assoc; [done|by rewrite !app_nil_r]. Qed.

Lemma told_none w : told [] w = w.
Proof. unfold told. destruct w, telegram; by rewrite app_nil_r. Qed.

Definition both_sides (l : list RebalancingOrder) (w : World) : World * list OrderResult :=
  match execute_order with
  | Some exec => let rs := answers exec (sells_first l) w.(executor) in
      (told (warning rs) (set_executor (traded exec (sells_first l) w.(executor)) w), rs)
  | None => (w, [])
  end.

Lemma execute_orders_spec l w :
  _execute_orders l w = (Ok (both_sides l w).2, (both_sides l w).1).
Proof.
  unfold _execute_orders, both_sides. destruct execute_order as [exec|]; [|done].
  unfold mbind at 1, M_bind at 1. rewrite execute_group_spec. unfold mbind, M_bind, when, warning. cbv zeta.
  fold (rejected (answers exec (sells_first l) (executor w))).
  destruct (rejected _) as [|x bad]; cbn [negb bool_decide]; [by rewrite told_none|].
  rewrite bool_decide_false by done. cbn [negb]. by rewrite send_told.
Qed.

(** The world after a rebalancing *)
Definition rebalanced (r : RebalancingResult) (w : World) : World :=
  let '(x, rs) := execution r.(rb_orders) w.(executor) in
  {| executor := x; outbox := w.(outbox) ++ notices r rs; history := w.(history) |}.

Lemma told_is l w x h :
  told l {| executor := x; outbox := w.(outbox); history := h |} =
  {| executor := x; outbox := w.(outbox) ++ (if telegram then l else []); history := h |}.
Proof. done. Qed.

Lemma handle_by_style_spec r w :
  r.(rb_type) = SCHEDULED → _handle_rebalancing_by_style r w = (Ok tt, rebalanced r w).
Proof.
  intros Ht. unfold _handle_rebalancing_by_style, rebalanced, execution, notices. rewrite Ht.
  destruct (pr_style profile); [|by rewrite send_told; unfold told; destruct telegram].
  unfold mbind, M_bind. rewrite execute_orders_spec, send_told. unfold both_sides.
  destruct execute_order as [exec|]; cbn [fst snd].
  - rewrite told_told, completed_message_counts; [by unfold told, set_executor; cbn; destruct telegram|].
    right. rewrite answers_length. by rewrite sells_first_perm.
  - rewrite completed_message_counts by by left. by unfold told; cbn; destruct telegram.
Qed.

Lemma handle_emergency_by_style_spec r w :
  r.(rb_type) = EMERGENCY → _handle_emergency_rebalancing_by_style r w = (Ok tt, rebalanced r w).
Proof.
  intros Ht. unfold _handle_emergency_rebalancing_by_style, rebalanced, execution, notices. rewrite Ht.
  unfold mbind at 1, M_bind at 1. rewrite send_told.
  destruct (pr_style profile); [|by unfold told; cbn; destruct telegram].
  unfold mbind, M_bind. rewrite execute_orders_spec. unfold both_sides.
  destruct execute_order as [exec|]; cbn [fst snd]; unfold told, set_executor; cbn; destruct telegram; cbn;
    rewrite <- ?app_assoc, ?app_nil_r; done.
Qed.

(** A rebalancing either fails before anything happened, or executes its orders,
    tells of them and is recorded. *)
Definition rebalances (current : weights) (target : result Exn TargetPortfolio) (w : World)
    (run : result Exn RebalancingResult * World) : Prop :=
  match run with
  | (Err _, w') => w' = w
  | (Ok r, w') => ∃ t, target = Ok t ∧
      Forall (order_ok current t) r.(rb_orders) ∧ NoDup (ro_ticker <$> r.(rb_orders)) ∧
      sells_first r.(rb_orders) ≡ₚ r.(rb_orders) ∧
      w'.(executor) = (execution r.(rb_orders) w.(executor)).1 ∧
      w'.(outbox) = w.(outbox) ++ notices r (execution r.(rb_orders) w.(executor)).2 ∧
      w'.(history) = w.(history) ++ [r]
  end.

(** C36. A scheduled or emergency rebalancing that raises has done nothing: nothing is
    traded, recorded or sent.  Otherwise its orders are sound with respect to the
    portfolio before and the target (a positive quantity, one order per ticker, in the
    direction of the change), one record is added to the history, and for a
    discretionary investor every order is given to the executor exactly once, the
    sells before the buys, whatever the executor answers or raises; for an advisory
    investor, or without an executor, nothing is traded.  The messages are those of
    [notices], with the exact counts of the results: one, two when an order of a
    discretionary investor failed, none without Telegram. *)
Theorem rebalancing_executes (signals current portfolio_values : weights) (seed : float) (reason : string) (w : World) :
  rebalances current (construct signals current seed) w (execute_scheduled_rebalancing signals current seed w) ∧
  rebalances current (Ok (_generate_defensive_portfolio current)) w
    (execute_emergency_rebalancing current portfolio_values reason w).
Proof.
  split.
  - unfold execute_scheduled_rebalancing, rebalances, lift_result. unfold mbind at 1, M_bind at 1.
    destruct (construct signals current seed) as [t|e]; [|done]. unfold mbind at 1, M_bind at 1.
    destruct (_generate_rebalancing_orders current t seed) as [os|e] eqn:E; [|done].
    destruct (orders_generated _ _ _ _ E) as [H1 H2]. unfold mbind at 1, M_bind at 1.
    set (r := {| rb_orders := os |}). rewrite (handle_by_style_spec r w) by done.
    unfold rebalanced. destruct (execution _ _) as [x rs] eqn:Ex. cbn. exists t.
    change os with (rb_orders r). rewrite Ex. split_and!; try done. apply sells_first_perm.
  - unfold execute_emergency_rebalancing, rebalances, lift_result. unfold mbind at 1, M_bind at 1.
    destruct (_generate_rebalancing_orders _ _ _) as [os|e] eqn:E; [|done].
    destruct (orders_generated _ _ _ _ E) as [H1 H2]. unfold mbind at 1, M_bind at 1.
    set (r := {| rb_orders := os |}). rewrite (handle_emergency_by_style_spec r w) by done.
    unfold rebalanced. destruct (execution _ _) as [x rs] eqn:Ex. cbn. eexists.
    change os with (rb_orders r). rewrite Ex. split_and!; try done. apply sells_first_perm.
Qed.
End Engine.
End RebalancingEngine.

Module RebalancingRuns.
Import RebalancingEngine.

(** An executor that keeps its requests and refuses one ticker *)
Definition broker (r : OrderRequest) : M (list OrderRequest) string OrderResult := λ l,
  if bool_decide (ticker r = "BAD") then (Err "refused", l ++ [r])
  else (Ok {| order_id := BrokerId "1"; res_ticker := ticker r; res_market := market r; res_side := side r;
              res_quantity := quantity r; filled_quantity := quantity r; avg_price := of_Z 70000;
              status := FILLED; res_order_type := order_type r; error := false |}, l ++ [r]).

Definition investor (s : InvestmentStyle) : InvestorProfile :=
  {| pr_style := s; seed_amount := of_Z 50000000; loss_tolerance := dec 10 2; rebalancing_frequency := MONTHLY |}.

Definition start : World (X:=list OrderRequest) := {| executor := []; outbox := []; history := [] |}.

Lemma emergency_trigger_never_fires_witness :
  _calculate_portfolio_loss (investor ADVISORY) [("005930", of_Z 5000000)] = dec (-9) 1 ∧
  check_emergency_trigger (investor ADVISORY) [("005930", of_Z 5000000)] = None.
Proof. split; [reflexivity|]. apply emergency_trigger_never_fires. reflexivity. Defined.

(** A target of 20% in one stock *)
Definition one_stock (signals current : weights) (seed : float) : result Exn TargetPortfolio :=
  Ok {| allocations := [{| al_ticker := "005930"; al_market := KRX; target_weight := dec 2 1;
                           current_weight := fzero; signal_score := one; sector := "TECH" |}];
        total_value := seed; cash_ratio := dec 8 1; optimization_method := "mean_variance" |}.

Lemma rebalancing_executes_witness :
  rebalances (Some broker) true (investor DISCRETIONARY) [("BAD", dec 1 1)]
    (one_stock [("005930", one)] [("BAD", dec 1 1)] (of_Z 50000000)) start
    (execute_scheduled_rebalancing (Some broker) true (investor DISCRETIONARY) elements one_stock
       [("005930", one)] [("BAD", dec 1 1)] (of_Z 50000000) start) ∧
  rebalances (Some broker) true (investor DISCRETIONARY) [("BAD", dec 1 1)]
    (Ok (_generate_defensive_portfolio (investor DISCRETIONARY) [("BAD", dec 1 1)])) start
    (execute_emergency_rebalancing (Some broker) true (investor DISCRETIONARY) elements
       [("BAD", dec 1 1)] [("BAD", of_Z 5000000)] "" start).
Proof. apply rebalancing_executes. reflexivity. Defined.

(** The quantities do not depend on prices: a fifth of 50 million won is 10000
    shares of anything.  At 70000 won a share that is 700 million.  The refused
    sale is a failed result; the purchase goes on. *)
Example a_fifth_is_ten_thousand_shares :
  let w := after (execute_scheduled_rebalancing (Some broker) true (investor DISCRETIONARY) elements one_stock
    [("005930", one)] [("BAD", dec 1 1)] (of_Z 50000000)) start in
  ((λ r, (ticker r, side r, quantity r)) <$> w.(executor)) = [("BAD", SELL, 5000); ("005930", BUY, 10000)] ∧
  10000 * 70000 = 700000000.
Proof. vm_compute. split; reflexivity. Qed.

(** The emergency sale of an American stock is sent to the Korean exchange. *)
Example emergency_sells_in_korea :
  let w := after (execute_emergency_rebalancing (Some broker) true (investor DISCRETIONARY) elements
    [("AAPL", one)] [("AAPL", of_Z 5000000)] "") start in
  ((λ r, (ticker r, market r, side r, quantity r)) <$> w.(executor)) = [("AAPL", KRX, SELL, 3500)].
Proof. vm_compute. reflexivity. Qed.

(** Three signals of one sector and a fourth stock of it in the universe *)
Example universe_breaks_the_cap :
  PortfolioConstructionEngine.construct (λ l, Some (replicate (length l) (dec 3 1))) BALANCED PORTFOLIO_CONSTRAINTS
    [("A", one); ("B", one); ("C", one)] [] (of_Z 50000000)
    (Some [("A", "TECH"); ("B", "TECH"); ("C", "TECH"); ("D", "TECH")]) None = Err (KeyError "D").
Proof. vm_compute. reflexivity. Qed.

(** The cap of 20% is applied before the normalisation: of two stocks, each gets
    half. *)
Example cap_before_normalisation :
  (λ p, (λ a, (al_ticker a, round_to 3 (target_weight a))) <$> p.(allocations)) <$>
    match PortfolioConstructionEngine.construct (λ l, Some [dec 5 1; dec 5 1]) AGGRESSIVE PORTFOLIO_CONSTRAINTS
      [("A", one); ("B", one)] [] (of_Z 50000000) (Some [("A", "TECH"); ("B", "BIO")]) None with
    | Ok p => Some p | Err _ => None end
  = Some [("A", dec 5 1); ("B", dec 5 1)].
Proof. vm_compute. reflexivity. Qed.
End RebalancingRuns.
