(* ===== verification/RebalancingRoute.v ===== *)
(** The rebalancing request and its background task: trigger_rebalancing and
    _run_rebalancing_background of backend/api/routes/system.py, with is_executed
    and mark_executed of core/scheduler_idempotency.py, as tasks that run
    interleaved over one Redis.

    [Prepare] stands for the steps between the lock and the background task
    (audit, profile, signals, positions): it answers whether there is something to
    do, or raises; the portfolio it hands on is [portfolio_inputs].  The rebalancing
    itself (of the file Rebalancing) takes time: [Begin] starts it, [Finish] ends it, and other tasks run in between.  Status updates
    swallow their failures and decide nothing. *)

From stdpp Require Import base option list strings.
From Stdlib Require Import Lia.
From S2P Require Import Prelude PyFloat PyDict Constants Ensemble Tasks.

Inductive Action := IsExecuted | Acquire | Delete | Prepare | Begin | Finish | MarkExecuted.
Definition answer (a : Action) : Type :=
  match a with IsExecuted | Acquire | Prepare => bool | _ => unit end.

Abbreviation Task A := (task answer A).
Abbreviation await := (@Tasks.await Action answer).

(** [rebalancing:lock], the mark of the day, and how many rebalancings began *)
Record State := { lock : bool; executed : bool; begun : nat }.

Record Oracle := {
  expired : bool;  (** the lock's 300 seconds have passed *)
  fails : bool;    (** the call to Redis or the preparation raises *)
  crashes : bool;  (** the rebalancing raises *)
  says : bool;     (** there are a profile and signals *)
}.

Definition set_lock (b : bool) (s : State) : State :=
  {| lock := b; executed := s.(executed); begun := s.(begun) |}.

Definition perform (a : Action) (o : Oracle) (s0 : State) : result string (answer a) * State :=
  let s := if o.(expired) then set_lock false s0 else s0 in
  let swallowed := (Ok tt, s) in
  match a return result string (answer a) * State with
  | IsExecuted => (Ok (if o.(fails) then false else s.(executed)), s)
  | Acquire =>
      if o.(fails) then (Err "redis", s)
      else if s.(lock) then (Ok false, s) else (Ok true, set_lock true s)
  | Delete => if o.(fails) then (Err "redis", s) else (Ok tt, set_lock false s)
  | Prepare => if o.(fails) then (Err "prepare", s) else (Ok o.(says), s)
  | Begin => (Ok tt, {| lock := s.(lock); executed := s.(executed); begun := S s.(begun) |})
  | Finish => if o.(crashes) then (Err "rebalancing", s) else swallowed
  | MarkExecuted =>
      if o.(fails) then swallowed
      else (Ok tt, {| lock := s.(lock); executed := true; begun := s.(begun) |})
  end.

(** [try: await redis.delete(...) except Exception: pass] *)
Definition release : Task unit := catch (await Delete) (λ _, Ret tt).

Definition _run_rebalancing_background : Task unit :=
  attempt (await Begin ≫= λ _, await Finish ≫= λ _, await MarkExecuted) ≫= λ _, release.

(** ** The portfolio *)

(** Rows of the position query, tickers of the universe: the current weights, and
    the sectors and markets unless there are none.  The universe's rows are read
    after the weights are computed; a failing query leaves what is there. *)
Record UniverseRow := { u_ticker : string; u_sector : option string; u_market : string }.

Definition position_weights (rows : list (string * float)) : weights :=
  let total_pos_value := fsum (values rows) in
  if (total_pos_value >? fzero)%pyf then dict_map (λ v, (v / total_pos_value)%pyf) rows else [].

Definition sector_of (r : UniverseRow) (d : list (string * string)) : list (string * string) :=
  match r.(u_sector) with Some s => if bool_decide (s = "") then d else dict_set r.(u_ticker) s d | None => d end.
Definition market_of (r : UniverseRow) (d : list (string * Market)) : list (string * Market) :=
  match of_value r.(u_market) with Some m => dict_set r.(u_ticker) m d | None => d end.
Definition nonempty {A} (l : list A) : option (list A) := match l with [] => None | _ => Some l end.

Definition portfolio_inputs (positions : result string (list (string * float))) (universe : result string (list UniverseRow)) :
    weights * option (list (string * string)) * option (list (string * Market)) :=
  match positions with
  | Err _ => ([], None, None)
  | Ok rows =>
      let current_portfolio := position_weights rows in
      match universe with
      | Err _ => (current_portfolio, None, None)
      | Ok us => (current_portfolio, nonempty (foldl (λ d r, sector_of r d) [] us),
                  nonempty (foldl (λ d r, market_of r d) [] us))
      end
  end.

(** A position is valued at what was paid less what was received.  Ten shares bought
    at 100 and nine sold at 200 are worth -800, and the weights are -400% and 500%. *)
Example sold_at_a_profit_weighs_less_than_nothing :
  position_weights [("A", of_Z (10 * 100 - 9 * 200)); ("B", of_Z 1000)] = [("A", of_Z (-4)); ("B", of_Z 5)].
Proof. vm_compute. reflexivity. Qed.

(** ** The tasks *)

(** The part under the lock, its [finally], and the task it starts *)
Definition under_lock : Task unit :=
  attempt (await Prepare) ≫= λ r,
  match r with
  | Ok true => _run_rebalancing_background
  | Ok false => release
  | Err e => release ≫= λ _, Raise e
  end.

Definition trigger_rebalancing (force : bool) : Task unit :=
  catch
    ((if force then Ret false else await IsExecuted) ≫= λ already_ran,
     if already_ran : bool then Ret tt
     else await Acquire ≫= λ lock_acquired,
          if lock_acquired : bool then under_lock else Ret tt)
    (λ _, release).

Abbreviation Pool := (pool (answer := answer) (State := State)).

(** A request enters, or the [i]-th task takes its turn. *)
Inductive Play := Request (force : bool) | Turn (i : nat) (o : Oracle).
Definition play (m : Play) (p : Pool) : Pool :=
  match m with
  | Request force => (p.1, p.2 ++ [trigger_rebalancing force])
  | Turn i o => turn perform i o p
  end.
Definition initial : Pool := ({| lock := false; executed := false; begun := 0 |}, []).

(** The task is in the middle of a rebalancing. *)
Definition rebalancing (t : Task unit) : bool :=
  match t with Await Finish _ => true | _ => false end.

Module RouteFacts.

(** The lock outlives its task, and neither Redis nor the preparation fails.  The
    rebalancing itself may. *)
Definition calm (m : Play) : Prop :=
  match m with Request _ => True | Turn _ o => o.(expired) = false ∧ o.(fails) = false end.

Definition hush (o : Oracle) : Oracle := {| expired := false; fails := false; crashes := o.(crashes); says := o.(says) |}.
Definition perform_calm (a : Action) (o : Oracle) (s : State) : result string (answer a) * State :=
  perform a (hush o) s.

(** Does the task hold the lock?  At most one does, and then the lock is set. *)
Definition allowed (holds : bool) (a : Action) : Prop :=
  match a with Finish => holds = true | _ => True end.
Definition inv (s : State) (hs : list bool) : Prop :=
  ∀ i, hs !! i = Some true → s.(lock) = true ∧ ∀ j, hs !! j = Some true → i = j.

Abbreviation wp := (Tasks.wp perform_calm allowed inv).

Lemma inv_same_lock s s' hs : lock s' = lock s → inv s hs → inv s' hs.
Proof. unfold inv. by intros ->. Qed.

Lemma inv_insert_same s hs i h : hs !! i = Some h → inv s hs → inv s (<[i:=h]> hs).
Proof. intros Hi. by rewrite list_insert_id. Qed.

Lemma inv_unlock s hs i : hs !! i = Some true → inv s hs → inv (set_lock false s) (<[i:=false]> hs).
Proof.
  intros Hi Hs j Hj. exfalso. destruct (decide (i = j)) as [<-|Hne].
  - rewrite list_lookup_insert_eq in Hj; [done|by eapply lookup_lt_Some].
  - rewrite list_lookup_insert_ne in Hj by done. destruct (Hs i Hi) as [_ Hu]. by apply Hne, Hu.
Qed.

Lemma inv_acquire s hs i : lock s = false → inv s hs → hs !! i = Some false → inv (set_lock true s) (<[i:=true]> hs).
Proof.
  intros Hl Hs Hi. assert (∀ j, hs !! j ≠ Some true) as Hn.
  { intros j Hj. destruct (Hs j Hj). congruence. }
  assert (∀ j, <[i:=true]> hs !! j = Some true → j = i) as Hu.
  { intros j Hj. destruct (decide (i = j)) as [|Hne]; [done|].
    rewrite list_lookup_insert_ne in Hj by done. by apply Hn in Hj. }
  intros j Hj. split; [done|]. intros k Hk. by rewrite (Hu j Hj), (Hu k Hk).
Qed.

Lemma wp_release_held Q E : Q tt false → wp true release Q E.
Proof.
  intros HQ. apply wp_catch, wp_await; [done|]. intros s hs i o Hs Hi. exists false.
  split; [by apply inv_unlock|done].
Qed.

Lemma wp_step h a (Q : answer a → bool → Prop) (E : bool → Prop) :
  allowed h a → a ≠ Delete → a ≠ Acquire →
  (∀ x, Q x h) → E h → wp h (await a) Q E.
Proof.
  intros Ha Hd Hq HQ HE. apply wp_await; [done|]. intros s hs i o Hs Hi. exists h.
  rewrite list_insert_id by done.
  split; [|by destruct (perform_calm a o s).1]. eapply inv_same_lock; [|exact Hs].
  destruct a; try done. unfold perform_calm. cbn. by destruct (crashes o).
Qed.

Lemma wp_background Q E : Q tt false → wp true _run_rebalancing_background Q E.
Proof.
  intros HQ. apply wp_bind, wp_attempt.
  assert (∀ r : result string unit, wp true release Q E) as Hr by (intros _; by apply wp_release_held).
  apply wp_bind, wp_step; [done..| |by intros e; apply (Hr (Err e))].
  intros _. apply wp_bind, wp_step; [done..| |by intros e; apply (Hr (Err e))].
  intros _. apply wp_step; [done..| |by intros e; apply (Hr (Err e))].
  by intros x; apply (Hr (Ok x)).
Qed.

Lemma wp_under_lock Q E : Q tt false → wp true under_lock Q E.
Proof.
  intros HQ. apply wp_bind, wp_attempt, wp_await; [done|]. intros s hs i o Hs Hi. exists true.
  rewrite list_insert_id by done. split; [done|]. cbn. destruct (says o); [by apply wp_background|by apply wp_release_held].
Qed.

Lemma wp_trigger force : wp false (trigger_rebalancing force) (λ _ _, True) (λ _, True).
Proof.
  apply wp_catch, wp_bind.
  assert (∀ b : bool, wp false
    (if b then Ret tt else await Acquire ≫= λ ok : bool, if ok then under_lock else Ret tt)
    (λ _ _, True) (λ h, ∀ e : string, wp h release (λ _ _, True) (λ _, True))) as Hrest.
  { intros [|]; [done|]. apply wp_bind. apply (wp_await perform_calm allowed inv false Acquire); [done|]. intros s hs i o Hs Hi. cbn.
    destruct (lock s) eqn:El; cbn.
    - exists false. by rewrite list_insert_id.
    - exists true. split; [by apply inv_acquire|]. by apply wp_under_lock. }
  destruct force; [apply (Hrest false)|].
  apply (wp_await perform_calm allowed inv false IsExecuted); [done|]. intros s hs i o Hs Hi.
  exists false. rewrite list_insert_id by done. split; [done|]. apply Hrest.
Qed.

Abbreviation ok_pool := (pool_inv perform_calm allowed inv).

Lemma calm_turn i o p : calm (Turn i o) → turn perform i o p = turn perform_calm i o p.
Proof. intros [He Hf]. unfold turn, perform_calm, hush. destruct o as [e f c s]. cbn in *. by subst. Qed.

Lemma request_ok force p : ok_pool p → ok_pool (play (Request force) p).
Proof.
  intros (hs & Hs & Hall). exists (hs ++ [false]). split.
  - intros i Hi. assert (∀ j, (hs ++ [false]) !! j = Some true → hs !! j = Some true) as Hold.
    { intros j [Hj|[_ Hj]]%lookup_app_Some; [done|]. by destruct (j - length hs)%nat. }
    destruct (Hs i (Hold i Hi)) as [Hl Hu]. split; [done|]. intros j Hj. by apply Hu, Hold.
  - apply Forall2_app; [done|]. constructor; [apply wp_trigger|constructor].
Qed.

Lemma calm_ok plays p : Forall calm plays → ok_pool p → ok_pool (run_ops play plays p).
Proof.
  intros Hc. revert p. induction Hc as [|m plays Hm _ IH]; intros p Hp; [done|].
  unfold run_ops in *. cbn. apply IH. destruct m as [force|i o]; [by apply request_ok|].
  cbn. rewrite (calm_turn _ _ _ Hm). by apply turn_inv.
Qed.

(** C37. However many requests arrive and however they and the background tasks
    interleave, whichever rebalancings raise: as long as the lock outlives the
    rebalancing it was taken for and neither Redis nor a preparation fails, at most one
    rebalancing is under way, and the lock is set meanwhile. *)
Theorem one_rebalancing_at_a_time (plays : list Play) (Hc : Forall calm plays) :
  let p := run_ops play plays initial in
  ∀ i j t u, p.2 !! i = Some t → p.2 !! j = Some u → rebalancing t = true → rebalancing u = true →
    i = j ∧ p.1.(lock) = true.
Proof.
  intros p i j t u Hi Hj Ht Hu.
  destruct (calm_ok plays initial Hc) as [hs Hp].
  { exists []. split; [by intros ?|constructor]. }
  assert (∀ i t, p.2 !! i = Some t → rebalancing t = true → hs !! i = Some true) as Hh.
  { intros i' t' Hi' Ht'. destruct t' as [| |[] k]; try done.
    destruct (pool_allowed _ _ _ _ _ _ _ _ Hp Hi') as (h & Hh & Ha). cbn in Ha. by subst. }
  destruct Hp as [Hs _]. destruct (Hs i (Hh i t Hi Ht)) as [Hl Huniq]. split; [by eapply Huniq, Hh|done].
Qed.
End RouteFacts.

Module RouteRuns.

Definition fine : Oracle := {| expired := false; fails := false; crashes := false; says := true |}.
(** The rebalancing raises. *)
Definition broken : Oracle := {| expired := false; fails := false; crashes := true; says := true |}.
Definition raising : Oracle := {| expired := false; fails := true; crashes := false; says := true |}.
Definition late : Oracle := {| expired := true; fails := false; crashes := false; says := true |}.

Definition steps_of (i n : nat) (o : Oracle) : list Play := replicate n (Turn i o).

(** The first rebalancing raises and its task releases the lock; the second request,
    which was waiting, then rebalances. *)
Lemma one_rebalancing_at_a_time_witness :
  let first := [Request false; Request true] ++ steps_of 0 4 fine in
  let plays := first ++ steps_of 0 2 broken ++ steps_of 1 3 fine in
  rebalancing <$> (run_ops play first initial).2 = [true; false] ∧
  let p := run_ops play plays initial in
  rebalancing <$> p.2 = [false; true] ∧ p.1.(begun) = 2%nat ∧ p.1.(executed) = false ∧
  ∀ i j t u, p.2 !! i = Some t → p.2 !! j = Some u → rebalancing t = true → rebalancing u = true →
    i = j ∧ p.1.(lock) = true.
Proof.
  intros first plays. split; [reflexivity|]. intros p. do 3 (split; [reflexivity|]).
  apply (RouteFacts.one_rebalancing_at_a_time plays). repeat constructor.
Defined.

(** The three ways around the lock.  The request's own error handler deletes a
    lock it does not hold: after a request whose preparation raises, two others run
    their rebalancings at the same time.  A rebalancing longer than the 300 seconds
    of the lock is joined by the next.  And the mark of the day is read before the
    lock is taken: without any failure, a request that read it before another one
    finished rebalances a second time on the same day, without [force]. *)
Theorem rebalancing_lock_is_not_enough :
  (let p := run_ops play ([Request false; Request false; Request false] ++
     steps_of 0 2 fine ++ [Turn 0 raising] ++ [Turn 0 fine] ++ steps_of 1 2 fine ++ [Turn 0 fine] ++
     steps_of 2 2 fine ++ steps_of 1 2 fine ++ steps_of 2 2 fine) initial in
   rebalancing <$> p.2 = [false; true; true]) ∧
  (let p := run_ops play ([Request false; Request false] ++ steps_of 0 4 fine ++
     [Turn 1 fine; Turn 1 late] ++ steps_of 1 2 fine) initial in
   rebalancing <$> p.2 = [true; true]) ∧
  (let p := run_ops play ([Request false; Request false] ++ [Turn 1 fine] ++ steps_of 0 7 fine ++
     steps_of 1 6 fine) initial in
   p.1.(begun) = 2%nat ∧ p.1.(executed) = true ∧ p.2 = [Ret tt; Ret tt]).
Proof. vm_compute. repeat split; reflexivity. Qed.
End RouteRuns.
