(* ===== verification/EmergencyMonitor.v ===== *)
(** The emergency monitor: backend/core/emergency_monitor.py.  The application does
    not start it yet; the class is complete.

    One iteration of the monitoring loop is a step of [Monitor], given an [Env]: the
    time, what balances, database and Telegram answer, the state of the guard.  The
    order executor is an arbitrary computation that may raise.  Times are in
    microseconds.  The platform's [pow(x, 2.0)] is a parameter; texts of messages
    are left out. *)

From stdpp Require Import base option list strings.
From Stdlib Require Import ZArith Lia Floats.SpecFloat.
From S2P Require Import Prelude PyFloat FloatFacts PyFormat PyParse Constants Executor Rebalancing.

(** What the code raises and catches *)
Inductive Raised := BadNumber | BadMarket | ServiceDown | DbDown.

Record PositionSnapshot := {
  p_ticker : string;
  p_market : Market;
  p_quantity : Z;
  avg_purchase_price : float;
  current_price : float;
}.

Definition purchase_value (p : PositionSnapshot) : float := (of_Z p.(p_quantity) * p.(avg_purchase_price))%pyf.
Definition current_value (p : PositionSnapshot) : float := (of_Z p.(p_quantity) * p.(current_price))%pyf.
Definition pnl (p : PositionSnapshot) : float := (current_value p - purchase_value p)%pyf.
Definition pnl_percent (p : PositionSnapshot) : float :=
  if (purchase_value p <=? fzero)%pyf then fzero else (pnl p / purchase_value p)%pyf.

Record PortfolioLossReport := {
  total_purchase_value : float;
  total_current_value : float;
  total_pnl : float;
  loss_percent : float;
  user_threshold : float;
  algo_threshold : float;
  user_triggered : bool;
  algo_triggered : bool;
  worst_positions : list PositionSnapshot;
}.
Definition is_triggered (r : PortfolioLossReport) : bool := r.(user_triggered) || r.(algo_triggered).

Record EmergencyMonitorState := {
  is_running : bool;
  is_paused : bool;
  last_check_at : option Z;
  check_count : Z;
  trigger_count : Z;
  last_trigger_at : option Z;
  cooldown_until : option Z;
}.

(** An item of a balance, its strings with the defaults of [item.get] *)
Record BalanceItem := { pdno : string; hldg_qty : string; pchs_avg_pric : string; prpr : string }.

(** A row of portfolio_holdings with a positive quantity *)
Record HoldingRow := {
  row_ticker : string;
  row_market : option string;
  row_quantity : Z;
  row_avg_price : float;
  row_current_price : option float;
}.

(** A sell order of the monitor *)
Record DefensiveOrder := {
  do_ticker : string;
  do_market : Market;
  do_quantity : Z;
  do_reason : string;
  estimated_amount : float;
}.

(** The client's balances: [None] for a falsy answer or one without [output1]. *)
Record Env := {
  now : Z;  (** [datetime.now] at the top of the iteration *)
  later : Z;  (** and when the cooldown is set *)
  kst_weekday : Z;
  kst_time : Z;  (** microseconds since midnight in Seoul *)
  kill_switch_on : bool;
  kr_balance : result Raised (option (list BalanceItem));
  us_balance : result Raised (option (list BalanceItem));
  holdings : result Raised (list HoldingRow);
}.

Inductive Note := EmergencyAlert (r : PortfolioLossReport) (orders : list DefensiveOrder) | ErrorAlert.

Module EmergencyRebalancingMonitor.
Section Monitor.
Context (square : float → option float).  (** [None]: an [OverflowError] *)
Context {X : Type} (execute_order : option (OrderRequest → M X string OrderResult)).
(** Is there a broker client?  [STOP_LOSS_PERCENT], and the style of the investor *)
Context (has_kis : bool) (stop_loss_percent : float) (investment_style : InvestmentStyle).

Record Monitor := {
  _state : EmergencyMonitorState;
  executor : X;
  notes : list Note;
  records : list (PortfolioLossReport * list DefensiveOrder);
}.

Abbreviation Run A := (M Monitor Raised A).

Definition CHECK_INTERVAL_SECONDS : Z := 300.
Definition COOLDOWN : Z := 30 * 60 * 1000000.
Definition MARKET_OPEN : Z := 9 * 3600 * 1000000.
Definition MARKET_CLOSE : Z := (15 * 3600 + 30 * 60) * 1000000.
Definition DEFENSIVE_STOCK_RATIO : float := dec 3 1.

Definition set_state (s : EmergencyMonitorState) (m : Monitor) : Monitor :=
  {| _state := s; executor := m.(executor); notes := m.(notes); records := m.(records) |}.
Definition set_executor (x : X) (m : Monitor) : Monitor :=
  {| _state := m.(_state); executor := x; notes := m.(notes); records := m.(records) |}.
Definition note (n : Note) : Run unit :=
  modify (λ m, {| _state := m.(_state); executor := m.(executor); notes := m.(notes) ++ [n]; records := m.(records) |}).
Definition record (r : PortfolioLossReport) (l : list DefensiveOrder) : Run unit :=
  modify (λ m, {| _state := m.(_state); executor := m.(executor); notes := m.(notes);
                  records := m.(records) ++ [(r, l)] |}).

(** ** Control *)

Definition start (m : Monitor) : Monitor :=
  let s := m.(_state) in
  if s.(is_running) then m
  else set_state {| is_running := true; is_paused := false; last_check_at := s.(last_check_at);
    check_count := s.(check_count); trigger_count := s.(trigger_count);
    last_trigger_at := s.(last_trigger_at); cooldown_until := s.(cooldown_until) |} m.

Definition set_flags (running paused : bool) (m : Monitor) : Monitor :=
  let s := m.(_state) in
  set_state {| is_running := running; is_paused := paused; last_check_at := s.(last_check_at);
    check_count := s.(check_count); trigger_count := s.(trigger_count);
    last_trigger_at := s.(last_trigger_at); cooldown_until := s.(cooldown_until) |} m.
Definition stop (m : Monitor) : Monitor := set_flags false m.(_state).(is_paused) m.
Definition pause (m : Monitor) : Monitor := set_flags m.(_state).(is_running) true m.
Definition resume (m : Monitor) : Monitor := set_flags m.(_state).(is_running) false m.

Definition _is_market_hours (env : Env) : bool :=
  if 5 <=? env.(kst_weekday) then false
  else (MARKET_OPEN <=? env.(kst_time)) && (env.(kst_time) <=? MARKET_CLOSE).

Definition _is_in_cooldown (env : Env) (s : EmergencyMonitorState) : bool :=
  match s.(cooldown_until) with None => false | Some t => env.(now) <? t end.

(** ** Positions *)

(** [float(text)] and [int(text)]; the American quantity is [int(float(text))]. *)
Definition num {A} (o : option A) : result Raised A := match o with Some a => Ok a | None => Err BadNumber end.

Definition read_item (us : bool) (i : BalanceItem) : result Raised (option PositionSnapshot) :=
  rbind (if us then rbind (num (py_float i.(hldg_qty))) (λ f, num (trunc f)) else num (py_int i.(hldg_qty))) (λ qty,
    if qty <=? 0 then Ok None
    else rbind (num (py_float i.(pchs_avg_pric))) (λ avg,
         rbind (num (py_float i.(prpr))) (λ cur,
           Ok (Some {| p_ticker := i.(pdno); p_market := if us then NYSE else KRX; p_quantity := qty;
                       avg_purchase_price := avg; current_price := cur |})))).

Fixpoint read_items (us : bool) (l : list BalanceItem) : result Raised (list PositionSnapshot) :=
  match l with
  | [] => Ok []
  | i :: rest => rbind (read_item us i) (λ p, rmap (app (option_list p)) (read_items us rest))
  end.

(** A missing or zero current price is replaced by the purchase price. *)
Definition read_row (r : HoldingRow) : result Raised PositionSnapshot :=
  let price := match r.(row_current_price) with
    | Some p => if (p =? fzero)%pyf then None else Some p
    | None => None end in
  match (match r.(row_market) with None | Some "" => Some KRX | Some s => of_value s end) with
  | None => Err BadMarket
  | Some m => Ok {| p_ticker := r.(row_ticker); p_market := m; p_quantity := r.(row_quantity);
                    avg_purchase_price := r.(row_avg_price);
                    current_price := default r.(row_avg_price) price |}
  end.

Fixpoint read_rows (l : list HoldingRow) : result Raised (list PositionSnapshot) :=
  match l with
  | [] => Ok []
  | r :: rest => rbind (read_row r) (λ p, rmap (cons p) (read_rows rest))
  end.

(** Any failure is the [RuntimeError] its caller turns into an empty list. *)
Definition _load_positions_from_db (env : Env) : list PositionSnapshot :=
  match rbind env.(holdings) read_rows with Ok l => l | Err _ => [] end.

Definition read_balance (us : bool) (b : result Raised (option (list BalanceItem))) : result Raised (list PositionSnapshot) :=
  rbind b (λ o, match o with Some items => read_items us items | None => Ok [] end).

Definition _fetch_current_positions (env : Env) : list PositionSnapshot :=
  if negb has_kis then _load_positions_from_db env
  else
    match rbind (read_balance false env.(kr_balance)) (λ kr,
            rmap (app kr) (read_balance true env.(us_balance))) with
    | Ok l => l
    | Err _ => _load_positions_from_db env
    end.

(** ** Losses and thresholds *)

(** [math.sqrt] of a negative number is a [ValueError]. *)
Definition py_sqrt (x : float) : result Raised float :=
  if (x <? fzero)%pyf then Err BadNumber else Ok (SFsqrt 53 1024 x).

Definition _calculate_algo_threshold (positions : list PositionSnapshot) : result Raised float :=
  let total_value := fsum (current_value <$> positions) in
  if bool_decide (positions = []) || (total_value <=? fzero)%pyf then Ok stop_loss_percent
  else
    let weight p := (current_value p / total_value)%pyf in
    let portfolio_return := fsum ((λ p, (pnl_percent p * weight p)%pyf) <$> positions) in
    rmap (λ volatility,
      let dynamic_threshold := fneg (of_Z 2 * volatility)%pyf in
      fmax (dec (-25) 2) (fmin (dec (-5) 2) dynamic_threshold))
    (match positions with
     | [p] => Ok (fabs (pnl_percent p) * dec 1 1 + dec 5 2)%pyf
     | _ =>
         let term p := (λ sq, (sq * weight p)%pyf) <$> square (pnl_percent p - portfolio_return)%pyf in
         rbind (num (mapM term positions)) (λ terms, py_sqrt (fsum terms))
     end).

Definition _calculate_loss (positions : list PositionSnapshot) : result Raised PortfolioLossReport :=
  let total_purchase := fsum (purchase_value <$> positions) in
  let total_current := fsum (current_value <$> positions) in
  let total := (total_current - total_purchase)%pyf in
  let loss_pct := if (total_purchase >? fzero)%pyf then (total / total_purchase)%pyf else fzero in
  rmap (λ algo,
    {| total_purchase_value := total_purchase; total_current_value := total_current; total_pnl := total;
       loss_percent := loss_pct; user_threshold := stop_loss_percent; algo_threshold := algo;
       user_triggered := if (stop_loss_percent <? fzero)%pyf then (loss_pct <=? stop_loss_percent)%pyf else false;
       algo_triggered := if (algo <? fzero)%pyf then (loss_pct <=? algo)%pyf else false;
       worst_positions := take 3 (sort_by (λ a b, flt (pnl_percent a) (pnl_percent b)) positions) |})
    (_calculate_algo_threshold positions).

(** ** Reaction *)

Fixpoint defensive_orders (positions : list PositionSnapshot) : result Raised (list DefensiveOrder) :=
  match positions with
  | [] => Ok []
  | p :: rest =>
      rbind (num (trunc (of_Z p.(p_quantity) * (of_Z 1 - DEFENSIVE_STOCK_RATIO))%pyf)) (λ sell_qty,
        rmap (λ os, if sell_qty <=? 0 then os else
          {| do_ticker := p.(p_ticker); do_market := p.(p_market); do_quantity := sell_qty;
             do_reason := "비상 리밸런싱: " +:+ fmt_percent 2 (pnl_percent p) +:+ " 손실, " +:+
               fmt_int p.(p_quantity) +:+ "주 중 " +:+ fmt_int sell_qty +:+ "주 매도";
             estimated_amount := (of_Z sell_qty * p.(current_price))%pyf |} :: os) (defensive_orders rest))
  end.

Definition _generate_defensive_orders (positions : list PositionSnapshot) : result Raised (list DefensiveOrder) :=
  rmap (sort_by (λ a b, flt (fneg a.(estimated_amount)) (fneg b.(estimated_amount)))) (defensive_orders positions).

Definition request_of (o : DefensiveOrder) : OrderRequest :=
  {| ticker := o.(do_ticker); market := o.(do_market); side := SELL; quantity := o.(do_quantity);
     order_type := MARKET; limit_price := None; req_reason := o.(do_reason) |}.

(** The results are not used. *)
Definition _execute_defensive_orders (orders : list DefensiveOrder) : Run unit :=
  match execute_order with
  | None => mret tt
  | Some exec => for_each (λ o,
      try_except (zoom executor set_executor (exec (request_of o) ;; mret tt)) (λ _ : string, mret tt)) orders
  end.

Definition _handle_trigger (env : Env) (report : PortfolioLossReport) (positions : list PositionSnapshot) : Run unit :=
  modify (λ m, let s := m.(_state) in
    set_state {| is_running := s.(is_running); is_paused := s.(is_paused); last_check_at := s.(last_check_at);
      check_count := s.(check_count); trigger_count := s.(trigger_count) + 1;
      last_trigger_at := Some env.(now); cooldown_until := s.(cooldown_until) |} m) ;;
  try_except
    (orders ← lift_result (_generate_defensive_orders positions);
     (match investment_style with
      | DISCRETIONARY => _execute_defensive_orders orders
      | ADVISORY => mret tt
      end) ;;
     note (EmergencyAlert report orders) ;;
     record report orders ;;
     modify (λ m, let s := m.(_state) in
       set_state {| is_running := s.(is_running); is_paused := s.(is_paused); last_check_at := s.(last_check_at);
         check_count := s.(check_count); trigger_count := s.(trigger_count);
         last_trigger_at := s.(last_trigger_at); cooldown_until := Some (env.(later) + COOLDOWN) |} m))
    (λ _ : Raised, note ErrorAlert).

(** [None]: no positions, or an exception *)
Definition run_check (env : Env) : Run (option PortfolioLossReport) :=
  try_except
    (let positions := _fetch_current_positions env in
     if bool_decide (positions = []) then mret None
     else
       report ← lift_result (_calculate_loss positions);
       modify (λ m, let s := m.(_state) in
         set_state {| is_running := s.(is_running); is_paused := s.(is_paused); last_check_at := Some env.(now);
           check_count := s.(check_count) + 1; trigger_count := s.(trigger_count);
           last_trigger_at := s.(last_trigger_at); cooldown_until := s.(cooldown_until) |} m) ;;
       when (is_triggered report) (_handle_trigger env report positions) ;;
       mret (Some report))
    (λ _ : Raised, mret None).

(** One iteration of [_monitor_loop], after its sleep *)
Definition iteration (env : Env) : Run unit :=
  m ← get;
  let s := m.(_state) in
  if negb s.(is_running) || s.(is_paused) || env.(kill_switch_on) || negb (_is_market_hours env)
     || _is_in_cooldown env s then mret tt
  else run_check env ;; mret tt.

(** * What the monitor promises *)

Lemma bind_eval {S E A B} (m : M S E A) (k : A → M S E B) s a s1 :
  m s = (Ok a, s1) → (m ≫= k) s = k a s1.
Proof. unfold mbind, M_bind. by intros ->. Qed.

(** The conditions under which an iteration looks at the portfolio at all *)
Definition awake (env : Env) (s : EmergencyMonitorState) : Prop :=
  s.(is_running) = true ∧ s.(is_paused) = false ∧ env.(kill_switch_on) = false ∧
  _is_market_hours env = true ∧ match s.(cooldown_until) with None => True | Some t => t ≤ env.(now) end.

(** The executor after the sales *)
Definition sold (l : list DefensiveOrder) (x : X) : X :=
  match execute_order with
  | Some exec => foldl (λ x o, after (exec (request_of o)) x) x l
  | None => x
  end.

Lemma threshold_between positions t :
  _calculate_algo_threshold positions = Ok t →
  t = stop_loss_percent ∨ (fle (dec (-25) 2) t = true ∧ fle t (dec (-5) 2) = true).
Proof.
  unfold _calculate_algo_threshold. destruct (_ || _); [intros [= <-]; by left|].
  set (v := match positions with [] => _ | _ => _ end). destruct v as [x|e]; [|done].
  intros [= <-]. right. by apply (clamp_bounds (dec (-25) 2) (dec (-5) 2)).
Qed.

(** What is sold of a position: a positive part of it *)
Definition part_of (positions : list PositionSnapshot) (o : DefensiveOrder) : Prop :=
  ∃ p, p ∈ positions ∧ o.(do_ticker) = p.(p_ticker) ∧ o.(do_market) = p.(p_market) ∧
    0 < o.(do_quantity) ≤ p.(p_quantity).

Lemma defensive_orders_part positions l :
  Forall (λ p, 0 < p.(p_quantity) < 2 ^ 53) positions → defensive_orders positions = Ok l →
  Forall (part_of positions) l.
Proof.
  intros Hp. revert l. induction Hp as [|p positions Hq _ IH]; intros l; cbn; [by intros [= <-]|].
  destruct (trunc_share p.(p_quantity) (of_Z 1 - DEFENSIVE_STOCK_RATIO)%pyf Hq eq_refl eq_refl eq_refl) as (k & -> & Hk).
  cbn. destruct (defensive_orders positions) as [l'|]; [|done]. intros [= <-].
  assert (Forall (part_of (p :: positions)) l') as Hl'.
  { eapply Forall_impl; [by apply IH|]. intros o (p' & ? & ?). exists p'. split; [by right|done]. }
  destruct (k <=? 0) eqn:E; [done|]. constructor; [|done]. exists p. apply Z.leb_gt in E. cbn. split_and!; [by left|done|done|lia|lia].
Qed.

Lemma generated_part positions l :
  Forall (λ p, 0 < p.(p_quantity) < 2 ^ 53) positions → _generate_defensive_orders positions = Ok l →
  Forall (part_of positions) l.
Proof.
  unfold _generate_defensive_orders. destruct (defensive_orders positions) as [l'|] eqn:E; [|done].
  intros Hp [= <-]. rewrite sort_by_perm. by apply defensive_orders_part.
Qed.

Lemma execute_defensive_spec l m :
  _execute_defensive_orders l m = (Ok tt, set_executor (sold l m.(executor)) m).
Proof.
  unfold _execute_defensive_orders, sold. destruct execute_order as [exec|]; [|by destruct m].
  revert m. induction l as [|o l IH]; intros m; [by destruct m|]. cbn [for_each foldl].
  unfold mbind at 1, M_bind at 1. unfold try_except, zoom, after.
  unfold mbind at 1, M_bind at 1. destruct (exec (request_of o) (executor m)) as [[r|e] x]; cbn; by rewrite IH.
Qed.

(** What a check does to the monitor: nothing, one more check, or a trigger. *)
Definition checked (env : Env) (m : Monitor) : Monitor :=
  set_state {| is_running := m.(_state).(is_running); is_paused := m.(_state).(is_paused);
    last_check_at := Some env.(now); check_count := m.(_state).(check_count) + 1;
    trigger_count := m.(_state).(trigger_count); last_trigger_at := m.(_state).(last_trigger_at);
    cooldown_until := m.(_state).(cooldown_until) |} m.

Definition reacts (env : Env) (m m' : Monitor) : Prop :=
  ∃ report orders, _calculate_loss (_fetch_current_positions env) = Ok report ∧ is_triggered report = true ∧
    m'.(_state).(trigger_count) = m.(_state).(trigger_count) + 1 ∧
    ((m'.(executor) = m.(executor) ∧ m'.(notes) = m.(notes) ++ [ErrorAlert] ∧ m'.(records) = m.(records)) ∨
     (_generate_defensive_orders (_fetch_current_positions env) = Ok orders ∧
      m'.(executor) = match investment_style with DISCRETIONARY => sold orders m.(executor) | ADVISORY => m.(executor) end ∧
      m'.(notes) = m.(notes) ++ [EmergencyAlert report orders] ∧ m'.(records) = m.(records) ++ [(report, orders)] ∧
      m'.(_state).(cooldown_until) = Some (env.(later) + COOLDOWN))).

Lemma handle_trigger_spec env report positions m :
  ∃ m', _handle_trigger env report positions m = (Ok tt, m') ∧
    m'.(_state).(trigger_count) = m.(_state).(trigger_count) + 1 ∧
    ((m'.(executor) = m.(executor) ∧ m'.(notes) = m.(notes) ++ [ErrorAlert] ∧ m'.(records) = m.(records)) ∨
     ∃ orders, _generate_defensive_orders positions = Ok orders ∧
      m'.(executor) = match investment_style with DISCRETIONARY => sold orders m.(executor) | ADVISORY => m.(executor) end ∧
      m'.(notes) = m.(notes) ++ [EmergencyAlert report orders] ∧ m'.(records) = m.(records) ++ [(report, orders)] ∧
      m'.(_state).(cooldown_until) = Some (env.(later) + COOLDOWN)).
Proof.
  unfold _handle_trigger, lift_result, note, record. unfold mbind at 1, M_bind at 1. cbn [modify].
  unfold try_except. destruct (_generate_defensive_orders positions) as [orders|e].
  - unfold mbind at 1, M_bind at 1. destruct investment_style.
    + unfold mbind at 1, M_bind at 1. rewrite execute_defensive_spec. eexists. split; [done|].
      split; [done|]. right. by exists orders.
    + eexists. split; [done|]. split; [done|]. right. by exists orders.
  - eexists. split; [done|]. split; [done|]. by left.
Qed.

Lemma run_check_spec env m :
  after (run_check env) m = m ∨ after (run_check env) m = checked env m ∨ reacts env m (after (run_check env) m).
Proof.
  unfold run_check, after, try_except. cbv zeta. case_bool_decide; [by left|].
  destruct (_calculate_loss (_fetch_current_positions env)) as [report|e] eqn:E; [|by left].
  rewrite (bind_eval _ _ m report m) by done. rewrite (bind_eval _ _ m tt (checked env m)) by done.
  unfold when. destruct (is_triggered report) eqn:Et; [|right; by left].
  destruct (handle_trigger_spec env report (_fetch_current_positions env) (checked env m)) as (m' & Em & Ht & Hcases).
  rewrite (bind_eval _ _ _ _ _ Em). cbn [mret M_ret fst snd].
  right; right. destruct Hcases as [(H1 & H2 & H3)|(orders & H1 & H2 & H3 & H4 & H5)].
  - exists report, []. split_and!; [done|done|done|]. by left.
  - exists report, orders. split_and!; [done|done|done|]. by right.
Qed.

Lemma iteration_spec env m :
  after (iteration env) m = m ∨
  (awake env m.(_state) ∧
   (after (iteration env) m = checked env m ∨ reacts env m (after (iteration env) m))).
Proof.
  set (s := _state m). set (quiet := negb s.(is_running) || s.(is_paused) || env.(kill_switch_on)
    || negb (_is_market_hours env) || _is_in_cooldown env s).
  assert (after (iteration env) m = if quiet then m else after (run_check env) m) as ->.
  { unfold iteration, after. rewrite (bind_eval _ _ m m m) by done. fold s. fold quiet. destruct quiet; [done|].
    unfold mbind, M_bind. by destruct (run_check env m) as [[r|e] m']. }
  destruct quiet eqn:Eg; [by left|]. unfold quiet in Eg. bool_hyps.
  assert (awake env s) as Ha.
  { split_and!; try done. unfold _is_in_cooldown in *. destruct (cooldown_until s); [|done]. by apply Z.ltb_ge. }
  destruct (run_check_spec env m) as [?|?]; [by left|by right].
Qed.

(** Operations of the monitor's owner, [run_check] called by hand among them, and the
    iterations of its loop *)
Inductive operation := Tick (env : Env) | Manual (env : Env) | Start | Stop | Pause | Resume.
Definition operate (o : operation) (m : Monitor) : Monitor :=
  match o with
  | Tick env => after (iteration env) m
  | Manual env => after (run_check env) m
  | Start => start m
  | Stop => stop m
  | Pause => pause m
  | Resume => resume m
  end.

(** What leaves a cooldown until [t] alone: anything but a check by hand, before [t] *)
Definition cooling (t : Z) (o : operation) : Prop :=
  match o with Tick env => env.(now) < t | Manual _ => False | _ => True end.

(** An operation that looks at the portfolio of [env]: the loop does so when it is
    awake, a check by hand always. *)
Lemma operate_spec o m m' :
  m' = operate o m →
  match o with
  | Tick env => m' = m ∨ (awake env m.(_state) ∧ (m' = checked env m ∨ reacts env m m'))
  | Manual env => m' = m ∨ m' = checked env m ∨ reacts env m m'
  | _ => m'.(executor) = m.(executor) ∧ m'.(records) = m.(records)
  end.
Proof.
  intros ->. destruct o as [env|env| | | |]; cbn; [apply iteration_spec|apply run_check_spec| | | |]; try done.
  unfold start. by destruct (is_running _).
Qed.

Lemma cooled_down o m t :
  m.(_state).(cooldown_until) = Some t → cooling t o →
  let m' := operate o m in
  m'.(_state).(cooldown_until) = Some t ∧ m'.(executor) = m.(executor) ∧ m'.(records) = m.(records) ∧
  m'.(_state).(trigger_count) = m.(_state).(trigger_count).
Proof.
  intros Hc Ho. destruct o as [env|env| | | |]; cbn in *; try done.
  - destruct (iteration_spec env m) as [->|[(_&_&_&_&Ha) _]]; [done|]. rewrite Hc in Ha. lia.
  - unfold start. by destruct (is_running _).
Qed.

(** The portfolio an operation looks at *)
Definition looks_at (o : operation) (env : Env) : Prop := o = Tick env ∨ o = Manual env.

(** C35. An iteration of the monitor's loop acts only while the monitor runs, is not
    paused, the kill switch is off, the Korean market is open and the cooldown has
    passed; a [run_check] called by hand looks at none of these.  In either, what is
    handed to the executor are sales, only for a discretionary investor, only when a
    threshold was crossed, and of each position at most what is held.  The threshold
    of the algorithm lies between -25% and -5%, or is the configured one.  And after a
    reaction that went through, nothing is sold or recorded for thirty minutes, however
    often the loop comes round and whoever starts, stops, pauses or resumes the
    monitor, as long as nobody checks by hand. *)
Theorem monitor_reacts_within_limits (o : operation) (env : Env) (m : Monitor)
    (Hlook : looks_at o env)
    (Hq : Forall (λ p, 0 < p.(p_quantity) < 2 ^ 53) (_fetch_current_positions env)) :
  let m' := operate o m in
  (o = Tick env → m' = m ∨ awake env m.(_state)) ∧
  (m'.(executor) = m.(executor) ∨
   ∃ report orders, _calculate_loss (_fetch_current_positions env) = Ok report ∧ is_triggered report = true ∧
     investment_style = DISCRETIONARY ∧ m'.(executor) = sold orders m.(executor) ∧
     Forall (part_of (_fetch_current_positions env)) orders ∧
     (report.(algo_threshold) = stop_loss_percent ∨
      (fle (dec (-25) 2) report.(algo_threshold) = true ∧ fle report.(algo_threshold) (dec (-5) 2) = true))) ∧
  (m'.(records) ≠ m.(records) → ∀ os, Forall (cooling (env.(later) + COOLDOWN)) os →
   let m'' := run_ops operate os m' in
   m''.(executor) = m'.(executor) ∧ m''.(records) = m'.(records) ∧
   m''.(_state).(trigger_count) = m'.(_state).(trigger_count)).
Proof.
  intros m'. pose proof (operate_spec o m m' eq_refl) as Hs. clearbody m'.
  assert ((o = Tick env → m' = m ∨ awake env m.(_state)) ∧ (m' = m ∨ m' = checked env m ∨ reacts env m m'))
    as [Ha Hcases] by (destruct Hlook as [-> | ->]; naive_solver).
  split; [done|]. destruct Hcases as [->|[->|(report & orders & Hl & Ht & Hn & Hc)]];
    [split; [by left|done]..|]. split.
  - destruct Hc as [(-> & _)|(Hg & -> & _)]; [by left|]. destruct investment_style; [right|by left].
    exists report, orders. split_and!; try done; [by eapply generated_part|].
    unfold _calculate_loss in Hl. destruct (_calculate_algo_threshold _) as [t|] eqn:Et; [|done].
    injection Hl as <-. by apply threshold_between in Et.
  - intros Hne os Hos. destruct Hc as [(_ & _ & Hr)|(_ & _ & _ & _ & Hcd)]; [done|].
    clear - Hos Hcd. rename m' into m0. revert m0 Hcd. induction Hos as [|o os Ho _ IH]; intros m0 Hcd; [done|].
    destruct (cooled_down o m0 _ Hcd Ho) as (H1 & H2 & H3 & H4).
    destruct (IH (operate o m0) H1) as (H5 & H6 & H7). unfold run_ops in *. cbn. rewrite H5, H6, H7. done.
Qed.
End Monitor.
End EmergencyRebalancingMonitor.

(** * Runs *)

Module MonitorRuns.
Import EmergencyRebalancingMonitor.

Definition times (x : float) : option float := Some (x * x)%pyf.

(** An executor that keeps its requests *)
Definition fills (r : OrderRequest) : M (list OrderRequest) string OrderResult := λ l,
  (Ok {| order_id := BrokerId "1"; res_ticker := ticker r; res_market := market r; res_side := side r;
         res_quantity := quantity r; filled_quantity := quantity r; avg_price := of_Z 70000;
         status := FILLED; res_order_type := order_type r; error := false |}, l ++ [r]).

Definition fresh : Monitor (X:=list OrderRequest) :=
  start {| _state := {| is_running := false; is_paused := false; last_check_at := None; check_count := 0;
    trigger_count := 0; last_trigger_at := None; cooldown_until := None |};
    executor := []; notes := []; records := [] |}.

Definition minute : Z := 60 * 1000000.

(** Ten in the morning of a Wednesday, [t] minutes after the start *)
Definition wednesday (t : Z) (kr us : list BalanceItem) : Env :=
  {| now := t * minute; later := t * minute + 1; kst_weekday := 2; kst_time := (600 + t) * minute;
     kill_switch_on := false; kr_balance := Ok (Some kr); us_balance := Ok (Some us); holdings := Err DbDown |}.

Definition item (t q a p : string) : BalanceItem := {| pdno := t; hldg_qty := q; pchs_avg_pric := a; prpr := p |}.

(** 100 shares bought at 100,000 won, now at 80,000 *)
Definition falling : list BalanceItem := [item "005930" "100" "100000" "80000"].

Abbreviation iterate style := (iteration times (Some fills) true (dec (-10) 2) style).
Abbreviation sales m := ((λ r, (ticker r, quantity r)) <$> m.(executor)).

Abbreviation does := (operate times (Some fills) true (dec (-10) 2) DISCRETIONARY).

Lemma monitor_reacts_within_limits_witness :
  let env := wednesday 0 falling [] in let m' := does (Tick env) fresh in
  sales m' = [("005930", 70)] ∧
  let m'' := run_ops does [Tick (wednesday 5 falling []); Stop; Start; Tick (wednesday 10 falling [])] m' in
  m''.(executor) = m'.(executor) ∧ m''.(records) = m'.(records) ∧
  m''.(_state).(trigger_count) = m'.(_state).(trigger_count).
Proof.
  cbv zeta. split; [vm_compute; reflexivity|].
  edestruct (monitor_reacts_within_limits times (Some fills) true (dec (-10) 2) DISCRETIONARY
    (Tick (wednesday 0 falling [])) (wednesday 0 falling []) fresh) as (_ & _ & H).
  - by left.
  - refine (bool_decide_unpack _ _). vm_compute. exact I.
  - apply H; [vm_compute; discriminate|].
    repeat first [exact I | apply Forall_nil_2 | apply Forall_cons_2 | reflexivity].
Defined.

(** A check by hand passes the pause, the cooldown and the kill switch: a minute
    after a reaction, paused and with the kill switch on, it sells again. *)
Theorem manual_check_passes_the_guards :
  let halted := {| now := minute; later := minute + 1; kst_weekday := 2; kst_time := 601 * minute;
    kill_switch_on := true; kr_balance := Ok (Some [item "005930" "30" "100000" "80000"]);
    us_balance := Ok (Some []); holdings := Err DbDown |} in
  let m := run_ops does [Tick (wednesday 0 falling []); Pause] fresh in
  sales (does (Tick halted) m) = [("005930", 70)] ∧
  sales (does (Manual halted) m) = [("005930", 70); ("005930", 21)].
Proof. vm_compute. split; reflexivity. Qed.

(** The loss in per cent is that of the prices: selling does not change it.  While the
    price stays where it is, the monitor sells 70% of the rest every half hour. *)
Example sells_again_and_again :
  sales (run_ops (operate times (Some fills) true (dec (-10) 2) DISCRETIONARY)
    [Tick (wednesday 0 falling []); Tick (wednesday 31 [item "005930" "30" "100000" "80000"] []);
     Tick (wednesday 62 [item "005930" "9" "100000" "80000"] []); Tick (wednesday 93 [item "005930" "3" "100000" "80000"] [])]
    fresh) = [("005930", 70); ("005930", 21); ("005930", 6); ("005930", 2)].
Proof. vm_compute. reflexivity. Qed.

(** An advisory investor's positions are not sold. *)
Example advisory_is_told :
  let m := after (iterate ADVISORY (wednesday 0 falling [])) fresh in
  m.(executor) = [] ∧ length m.(notes) = 1%nat ∧ length m.(records) = 1%nat.
Proof. vm_compute. repeat split. Qed.

(** Won and dollars are added as they are: half of 100,000 dollars is lost and the
    report shows a loss of less than 0.5%. *)
Example lost_dollars_are_not_seen :
  let m := after (iterate DISCRETIONARY (wednesday 0
    [item "005930" "100" "100000" "100000"] [item "AAPL" "500" "200" "100"])) fresh in
  m.(executor) = [] ∧ m.(records) = [] ∧ m.(_state).(check_count) = 1.
Proof. vm_compute. repeat split. Qed.

(** A price the broker does not give is zero, a loss of 100%. *)
Example missing_price_sells :
  sales (after (iterate DISCRETIONARY (wednesday 0 [item "005930" "100" "100000" "0"] [])) fresh) = [("005930", 70)].
Proof. vm_compute. reflexivity. Qed.

(** A price of zero in the database is replaced by the purchase price: no loss. *)
Example zero_in_the_database_is_no_loss :
  rmap loss_percent
  (_calculate_loss times (dec (-10) 2)
    (_load_positions_from_db
      {| now := 0; later := 0; kst_weekday := 2; kst_time := 0; kill_switch_on := false; kr_balance := Err ServiceDown;
         us_balance := Err ServiceDown; holdings := Ok [{| row_ticker := "005930"; row_market := Some "KRX";
           row_quantity := 100; row_avg_price := of_Z 100000; row_current_price := Some fzero |}] |}))
  = Ok fzero.
Proof. vm_compute. reflexivity. Qed.
End MonitorRuns.
