(* ===== verification/Backtest.v ===== *)
(** The backtest's simulation: BacktestConfig, TradeRecord, [_simulate], the trade
    statistics of [_calculate_metrics], [recommend_weights] and [_max_consecutive]
    of backend/core/backtest_engine/engine.py.

    A simulation runs over [n] dates, numbered from 0, and one set of columns.
    What the code asks of pandas and numpy is a parameter: the price table
    ([prices i t], NaN for a missing price), the signals of a date without the
    missing ones, the descending sort, the sum of a series, the range of recent
    prices, the realised volatility and the detected regime. *)

From stdpp Require Import base option list sets strings.
From Stdlib Require Import ZArith Lia Floats.SpecFloat.
From S2P Require Import Prelude PyFloat PyDict FloatFacts Constants Ensemble.

Definition TRANSACTION_COSTS (c : Country) : float * float * float :=
  match c with
  | KR => (dec 15 5, dec 23 4, dec 1 3)
  | US => (dec 1 3, fzero, dec 1 3)
  end.

Record BacktestConfig := {
  initial_capital : float;
  country : Country;
  commission_rate : option float;
  tax_rate : option float;
  slippage_rate : option float;
  stop_loss_pct : option float;
  stop_loss_atr_multiplier : option float;
  trailing_stop_atr_multiplier : option float;
  max_drawdown_limit : option float;
  drawdown_cooldown_days : Z;
  safe_asset_annual_return : float;
  dd_cushion_start : option float;
  dd_cushion_floor : float;
  vol_target : option float;
  vol_lookback : Z;
  gradual_reentry_days : Z;
  use_dynamic_threshold : bool;
}.

Record Costs := { commission : float; tax : float; slippage : float }.
Definition get_costs (c : BacktestConfig) : Costs :=
  let '(dc, dt, ds) := TRANSACTION_COSTS c.(country) in
  {| commission := default dc c.(commission_rate); tax := default dt c.(tax_rate);
     slippage := default ds c.(slippage_rate) |}.

Record Position := { p_quantity : Z; avg_price : float; peak_price : float }.

Record TradeRecord := {
  t_date : nat;
  t_ticker : string;
  t_side : OrderSide;
  t_quantity : Z;
  t_price : float;
  t_cost : float;
  t_pnl : float;
}.

(** The local variables of [_simulate] *)
Record Sim := {
  cash : float;
  positions : list (string * Position);
  peak_value : float;
  cooldown_remaining : Z;
  reentry_remaining : Z;
  equity_history : list float;
  trade_records : list TradeRecord;
}.

(** [int(x)] of a NaN or an infinity *)
Inductive Exn := BadQuantity.

Module BacktestEngine.
Section Engine.
Context (config : BacktestConfig).
Context (prices : nat → string → float) (signals : nat → weights).
Context (descending : weights → weights) (series_sum : list float → float).
(** [recent_prices.max() - recent_prices.min()] of the rows up to a date *)
Context (high_low : nat → nat → string → float).
(** From the equity so far: [None] with fewer than five returns *)
Context (realized_vol : Z → list float → option float).
Context (detect : nat → RegimeInfo).
Context (pow : float → float → float).

Definition costs : Costs := get_costs config.

Definition set_cash (x : float) (s : Sim) : Sim :=
  {| cash := x; positions := s.(positions); peak_value := s.(peak_value); cooldown_remaining := s.(cooldown_remaining);
     reentry_remaining := s.(reentry_remaining); equity_history := s.(equity_history); trade_records := s.(trade_records) |}.
Definition set_peak (x : float) (s : Sim) : Sim :=
  {| cash := s.(cash); positions := s.(positions); peak_value := x; cooldown_remaining := s.(cooldown_remaining);
     reentry_remaining := s.(reentry_remaining); equity_history := s.(equity_history); trade_records := s.(trade_records) |}.
Definition set_cooldown (n : Z) (s : Sim) : Sim :=
  {| cash := s.(cash); positions := s.(positions); peak_value := s.(peak_value); cooldown_remaining := n;
     reentry_remaining := s.(reentry_remaining); equity_history := s.(equity_history); trade_records := s.(trade_records) |}.
Definition set_reentry (n : Z) (s : Sim) : Sim :=
  {| cash := s.(cash); positions := s.(positions); peak_value := s.(peak_value); cooldown_remaining := s.(cooldown_remaining);
     reentry_remaining := n; equity_history := s.(equity_history); trade_records := s.(trade_records) |}.
Definition set_positions (p : list (string * Position)) (s : Sim) : Sim :=
  {| cash := s.(cash); positions := p; peak_value := s.(peak_value); cooldown_remaining := s.(cooldown_remaining);
     reentry_remaining := s.(reentry_remaining); equity_history := s.(equity_history); trade_records := s.(trade_records) |}.
Definition trade (c : float) (p : list (string * Position)) (t : TradeRecord) (s : Sim) : Sim :=
  {| cash := c; positions := p; peak_value := s.(peak_value); cooldown_remaining := s.(cooldown_remaining);
     reentry_remaining := s.(reentry_remaining); equity_history := s.(equity_history);
     trade_records := s.(trade_records) ++ [t] |}.
(** [equity_history[date] = value] *)
Definition close (value : float) (s : Sim) : Sim :=
  {| cash := s.(cash); positions := s.(positions); peak_value := s.(peak_value); cooldown_remaining := s.(cooldown_remaining);
     reentry_remaining := s.(reentry_remaining); equity_history := s.(equity_history) ++ [value];
     trade_records := s.(trade_records) |}.

Abbreviation Run A := (M Sim Exn A).

(** [not pd.isna(price) and price > 0] *)
Definition priced (x : float) : bool := negb (is_nan x) && (x >? fzero)%pyf.

(** Cash and the positions at the prices of the date; a position without a price
    counts nothing. *)
Definition portfolio_value (i : nat) (s : Sim) : float :=
  foldl (λ v '(t, p), if priced (prices i t) then (v + of_Z p.(p_quantity) * prices i t)%pyf else v)
    s.(cash) s.(positions).

(** ** Sales *)

(** The record of the sale of a whole position *)
Definition sale (i : nat) (t : string) (p : Position) : TradeRecord :=
  let effective_price := (prices i t * (of_Z 1 - costs.(slippage)))%pyf in
  let quantity := p.(p_quantity) in
  let gross_proceeds := (effective_price * of_Z quantity)%pyf in
  let total_cost := (gross_proceeds * costs.(commission) + gross_proceeds * costs.(tax))%pyf in
  let net_proceeds := (gross_proceeds - total_cost)%pyf in
  {| t_date := i; t_ticker := t; t_side := SELL; t_quantity := quantity; t_price := effective_price;
     t_cost := total_cost; t_pnl := (net_proceeds - p.(avg_price) * of_Z quantity)%pyf |}.

Definition net_proceeds (r : TradeRecord) : float := (r.(t_price) * of_Z r.(t_quantity) - r.(t_cost))%pyf.

Definition sell (i : nat) (t : string) (p : Position) : Run unit :=
  modify (λ s, let r := sale i t p in
    trade (s.(cash) + net_proceeds r)%pyf (dict_del t s.(positions)) r s).

(** The loop over [list(positions.keys())] of the three exits *)
Definition exits (i : nat) (rule : string → Position → float → bool) : Run unit :=
  s ← get;
  for_each (λ '(t, p), when (priced (prices i t) && rule t p (prices i t)) (sell i t p)) s.(positions).

Definition liquidate (i : nat) : Run unit := exits i (λ _ _ _, true).

Definition lookback (i : nat) : nat := Nat.min i 20.

Definition stop_loss (i : nat) (t : string) (p : Position) (current_price : float) : bool :=
  let base := match config.(stop_loss_pct) with
    | Some x => if (x =? fzero)%pyf then dec 15 2 else x
    | None => dec 15 2 end in
  let stop_threshold := match config.(stop_loss_atr_multiplier) with
    | Some multiplier =>
        if (5 <=? lookback i)%nat then
          let atr := (high_low (lookback i) i t / of_Z (Z.of_nat (lookback i)))%pyf in
          let atr_pct := if (p.(avg_price) >? fzero)%pyf then (atr / p.(avg_price))%pyf else fzero in
          fmax (atr_pct * multiplier)%pyf (dec 5 2)
        else base
    | None => base end in
  let loss_pct := ((current_price - p.(avg_price)) / p.(avg_price))%pyf in
  (loss_pct <? fneg stop_threshold)%pyf.

Definition trailing_stop (multiplier : float) (i : nat) (t : string) (p : Position) (current_price : float) : bool :=
  let peak := p.(peak_price) in
  if (peak <=? p.(avg_price))%pyf then false
  else
    let trailing_threshold :=
      if (5 <=? lookback i)%nat then
        let atr := (high_low (lookback i) i t / of_Z (Z.of_nat (lookback i)))%pyf in
        let atr_pct := if (peak >? fzero)%pyf then (atr / peak)%pyf else fzero in
        fmax (atr_pct * multiplier)%pyf (dec 5 2)
      else dec 10 2 in
    let drop_from_peak := ((current_price - peak) / peak)%pyf in
    (drop_from_peak <? fneg trailing_threshold)%pyf.

(** The day's highs *)
Definition update_peaks (i : nat) : Run unit :=
  modify (λ s, set_positions ((λ '(t, p), (t,
    if priced (prices i t)
    then {| p_quantity := p.(p_quantity); avg_price := p.(avg_price); peak_price := fmax p.(peak_price) (prices i t) |}
    else p)) <$> s.(positions)) s).

(** The regime, if the thresholds follow it *)
Definition current_regime_info (i : nat) : option RegimeInfo :=
  if config.(use_dynamic_threshold) && (60 <=? i)%nat then Some (detect i) else None.

Definition thresholds (i : nat) : float * float :=
  match current_regime_info i with
  | Some r => let '(bt, st) := DynamicThreshold.compute r in (bt, fneg st)
  | None => (dec 3 1, fneg (dec 3 1))
  end.

Definition sell_on_signal (i : nat) (t : string) : Run unit :=
  s ← get;
  match dict_get t s.(positions) with
  | Some p => when ((0 <? p.(p_quantity)) && priced (prices i t)) (sell i t p)
  | None => mret tt
  end.

(** ** Purchases *)

Definition buy (i : nat) (available_cash total_signal : float) (o : string * float) : Run unit :=
  let '(t, sig) := o in
  s ← get;
  match dict_get t s.(positions) with
  | Some _ => mret tt
  | None =>
      let target_amount := (available_cash * (sig / total_signal))%pyf in
      when (priced (prices i t))
        (let effective_price := (prices i t * (of_Z 1 + costs.(slippage)))%pyf in
         match trunc (target_amount / effective_price)%pyf with
         | None => raise BadQuantity
         | Some quantity =>
             when (0 <? quantity)
               (let gross_cost := (effective_price * of_Z quantity)%pyf in
                let fee := (gross_cost * costs.(commission))%pyf in
                let total_cost := (gross_cost + fee)%pyf in
                when (negb (total_cost >? s.(cash))%pyf)
                  (modify (trade (s.(cash) - total_cost)%pyf
                    (dict_set t {| p_quantity := quantity; avg_price := effective_price; peak_price := effective_price |}
                       s.(positions))
                    {| t_date := i; t_ticker := t; t_side := BUY; t_quantity := quantity; t_price := effective_price;
                       t_cost := fee; t_pnl := fzero |})))
         end)
  end.

Definition vol_scaled (i : nat) (s : Sim) (available_cash : float) : float :=
  match config.(vol_target) with
  | Some target =>
      if (config.(vol_lookback) <=? Z.of_nat i) && (config.(vol_lookback) <=? Z.of_nat (length s.(equity_history))) then
        match realized_vol config.(vol_lookback) s.(equity_history) with
        | Some v =>
            if (v >? fzero)%pyf
            then (available_cash * fmax (fmin (target / v) (dec 15 1)) (dec 1 1))%pyf
            else available_cash
        | None => available_cash
        end
      else available_cash
  | None => available_cash
  end.

Definition regime_scaled (i : nat) (available_cash : float) : float :=
  match current_regime_info i with
  | Some r => if bool_decide (r.(regime) = CRISIS) then (available_cash * dec 20 2)%pyf else available_cash
  | None => available_cash
  end.

Definition reentry_scaled (s : Sim) (available_cash : float) : float :=
  if 0 <? s.(reentry_remaining) then
    let progress := (of_Z 1 - of_Z s.(reentry_remaining) / of_Z config.(gradual_reentry_days))%pyf in
    (available_cash * fmax progress (dec 1 1))%pyf
  else available_cash.

Definition cushioned (current_dd available_cash : float) : float :=
  match config.(dd_cushion_start) with
  | Some cushion_start =>
      if ((current_dd <? fzero) && (fabs current_dd >? cushion_start))%pyf%bool then
        let hard_limit := default (cushion_start * of_Z 2)%pyf config.(max_drawdown_limit) in
        let progress := fmin ((fabs current_dd - cushion_start) / fmax (hard_limit - cushion_start) (dec 1 6))%pyf (of_Z 1) in
        (available_cash * (of_Z 1 - progress * (of_Z 1 - config.(dd_cushion_floor))))%pyf
      else available_cash
  | None => available_cash
  end.

Definition buy_all (i : nat) (current_dd : float) (buy_signals : weights) : Run unit :=
  let total_signal := series_sum (values buy_signals) in
  when (negb (bool_decide (buy_signals = [])) && (total_signal >? fzero)%pyf)
    (s ← get;
     let cash1 := regime_scaled i (vol_scaled i s (s.(cash) * dec 95 2)%pyf) in
     let available_cash := cushioned current_dd (reentry_scaled s cash1) in
     when (0 <? s.(reentry_remaining)) (modify (set_reentry (s.(reentry_remaining) - 1))) ;;
     for_each (buy i available_cash total_signal) buy_signals).

(** ** Days *)

(** A day of the cooldown: cash earns the safe return, positions are not looked at. *)
Definition safe_factor : float :=
  let daily_safe_return := (pow (of_Z 1 + config.(safe_asset_annual_return)) (of_Z 1 / of_Z 252) - of_Z 1)%pyf in
  (of_Z 1 + daily_safe_return)%pyf.

Definition cooldown_day : Run unit :=
  modify (λ s,
    let c := (s.(cash) * safe_factor)%pyf in
    let left := s.(cooldown_remaining) - 1 in
    let s1 := set_cooldown left (set_cash c s) in
    let s2 := if left =? 0 then
        let s' := set_peak c s1 in
        if 0 <? config.(gradual_reentry_days) then set_reentry config.(gradual_reentry_days) s' else s'
      else s1 in
    close c s2).

(** The day the drawdown passes its limit *)
Definition stop_day (i : nat) : Run unit :=
  modify (set_cooldown config.(drawdown_cooldown_days)) ;;
  liquidate i ;;
  modify (λ s, close s.(cash) s).

Definition trading_day (i : nat) (current_dd : float) : Run unit :=
  update_peaks i ;;
  when (bool_decide (is_Some config.(stop_loss_pct)) || bool_decide (is_Some config.(stop_loss_atr_multiplier)))
    (exits i (stop_loss i)) ;;
  match config.(trailing_stop_atr_multiplier) with
  | Some multiplier => exits i (trailing_stop multiplier i)
  | None => mret tt
  end ;;
  let '(buy_threshold, sell_threshold) := thresholds i in
  let buy_signals := descending (List.filter (λ o, (o.2 >? buy_threshold)%pyf) (signals i)) in
  let sell_signals := List.filter (λ o, (o.2 <? sell_threshold)%pyf) (signals i) in
  for_each (sell_on_signal i) (sell_signals.*1) ;;
  buy_all i current_dd buy_signals ;;
  modify (λ s, close (portfolio_value i s) s).

Definition drawdown (peak value : float) : float :=
  if (peak >? fzero)%pyf then ((value - peak) / peak)%pyf else fzero.

Definition day (i : nat) : Run unit :=
  s ← get;
  let value := portfolio_value i s in
  let peak := fmax s.(peak_value) value in
  let current_dd := drawdown peak value in
  modify (set_peak peak) ;;
  match config.(max_drawdown_limit) with
  | Some limit =>
      if 0 <? s.(cooldown_remaining) then cooldown_day
      else if (current_dd <? fneg limit)%pyf then stop_day i
      else trading_day i current_dd
  | None => trading_day i current_dd
  end.

Definition start : Sim :=
  {| cash := config.(initial_capital); positions := []; peak_value := config.(initial_capital);
     cooldown_remaining := 0; reentry_remaining := 0; equity_history := []; trade_records := [] |}.

Definition _simulate (n : nat) : result Exn unit * Sim := for_each day (seq 0 n) start.

(** * What a simulation accounts for *)

(** The books kept by hand: a trade, or a day of rest, on which the cash earns the safe return *)
Inductive Entry := Trade (t : TradeRecord) | Rest.
Definition Book : Type := list (string * (Z * float)).

(** A purchase needs a free ticker, a positive quantity and the cash.  A sale is of
    the whole quantity held, and its profit is over the price that was paid. *)
Definition enter (e : Entry) (cb : float * Book) : option (float * Book) :=
  let '(c, b) := cb in
  match e with
  | Rest => Some ((c * safe_factor)%pyf, b)
  | Trade t =>
      let gross := (t.(t_price) * of_Z t.(t_quantity))%pyf in
      match t.(t_side), dict_get t.(t_ticker) b with
      | BUY, None =>
          let total := (gross + t.(t_cost))%pyf in
          if (0 <? t.(t_quantity)) && negb (total >? c)%pyf
          then Some ((c - total)%pyf, b ++ [(t.(t_ticker), (t.(t_quantity), t.(t_price)))]) else None
      | SELL, Some (q, avg) =>
          if bool_decide (t.(t_quantity) = q) && bool_decide (t.(t_pnl) = (net_proceeds t - avg * of_Z q)%pyf)
          then Some ((c + net_proceeds t)%pyf, dict_del t.(t_ticker) b) else None
      | _, _ => None
      end
  end.

Definition enter_all (es : list Entry) (o : option (float * Book)) : option (float * Book) := foldl (λ o e, o ≫= enter e) o es.
Definition books (es : list Entry) : option (float * Book) := enter_all es (Some (config.(initial_capital), [])).

Definition trade_of (e : Entry) : option TradeRecord := match e with Trade t => Some t | Rest => None end.
Definition held (p : Position) : Z * float := (p.(p_quantity), p.(avg_price)).
Definition holdings (s : Sim) : Book := prod_map id held <$> s.(positions).

(** A trade of the day [i]: at that day's price, moved by the slippage, with the fee and, for
    a sale, the tax *)
Definition dealt (i : nat) (t : TradeRecord) : Prop :=
  t.(t_date) = i ∧ priced (prices i t.(t_ticker)) = true ∧
  let gross := (t.(t_price) * of_Z t.(t_quantity))%pyf in
  match t.(t_side) with
  | BUY => t.(t_price) = (prices i t.(t_ticker) * (of_Z 1 + costs.(slippage)))%pyf ∧ t.(t_cost) = (gross * costs.(commission))%pyf
  | SELL => t.(t_price) = (prices i t.(t_ticker) * (of_Z 1 - costs.(slippage)))%pyf ∧
      t.(t_cost) = (gross * costs.(commission) + gross * costs.(tax))%pyf
  end.
Definition dealt_entry (i : nat) (e : Entry) : Prop := ∃ t, e = Trade t ∧ dealt i t.

(** What a day [i] has done since its state was [s0]: trades of the day *)
Definition dealing (i : nat) (s0 s : Sim) : Prop :=
  NoDup s.(positions).*1 ∧ ∃ es, enter_all es (Some (s0.(cash), holdings s0)) = Some (s.(cash), holdings s) ∧
    s.(trade_records) = s0.(trade_records) ++ omap trade_of es ∧ Forall (dealt_entry i) es.

Lemma dealing_start i s : NoDup s.(positions).*1 → dealing i s s.
Proof. intros Hs. split; [done|]. exists []. by rewrite app_nil_r. Qed.

(** One more trade *)
Lemma dealing_trade i s0 t s s' :
  dealing i s0 s → enter (Trade t) (s.(cash), holdings s) = Some (s'.(cash), holdings s') → NoDup s'.(positions).*1 →
  s'.(trade_records) = s.(trade_records) ++ [t] → dealt i t → dealing i s0 s'.
Proof.
  intros (_ & es & Hb & Ht & Hd) He Hp Htr Hdt. split; [done|]. exists (es ++ [Trade t]). split_and!.
  - unfold enter_all in *. by rewrite foldl_app, Hb.
  - by rewrite omap_app, Htr, Ht, <- app_assoc.
  - apply Forall_app. split; [done|]. constructor; [by exists t|constructor].
Qed.

(** No trade: the other variables *)
Lemma dealing_same i s0 s s' :
  dealing i s0 s → s'.(cash) = s.(cash) → holdings s' = holdings s → s'.(trade_records) = s.(trade_records) → dealing i s0 s'.
Proof.
  intros (Hd & es & Hb & Ht & Hn) Hc Hh Htr. split.
  - assert (∀ s, s.(positions).*1 = (holdings s).*1) as Hk.
    { intros s1. unfold holdings. rewrite <- list_fmap_compose. by apply list_fmap_ext. }
    by rewrite Hk, Hh, <- Hk.
  - exists es. by rewrite Hc, Hh, Htr.
Qed.

Lemma sell_dealing i s0 t p s :
  dealing i s0 s → dict_get t s.(positions) = Some p → priced (prices i t) = true → dealing i s0 (after (sell i t p) s).
Proof.
  intros Hs Hp Hpr. eapply (dealing_trade i s0 _ s); [done| |by apply dict_del_NoDup, Hs|reflexivity|by split_and!].
  cbn. unfold holdings. rewrite dict_get_fmap, Hp. cbn. rewrite !bool_decide_true by done. cbn.
  by rewrite dict_del_fmap.
Qed.

(** The exits sell positions of a snapshot; what is left of it is still there. *)
Lemma exits_loop_dealing i s0 rule l s :
  dealing i s0 s → NoDup l.*1 → (∀ t p, (t, p) ∈ l → dict_get t s.(positions) = Some p) →
  dealing i s0 (after (for_each (λ '(t, p), when (priced (prices i t) && rule t p (prices i t)) (sell i t p)) l) s).
Proof.
  revert s. induction l as [|[t p] l IH]; intros s Hs Hl Hin; [done|]. cbn in Hl. apply NoDup_cons in Hl as [Hni Hl].
  cbn [for_each]. unfold after, when. destruct (priced (prices i t) && _) eqn:Ep.
  - apply andb_true_iff in Ep as [Ep _]. unfold sell at 1. cbn [mbind M_bind modify]. unfold mbind, M_bind, modify.
    apply IH; [by apply (sell_dealing i s0 t p); [|apply Hin; left|]|done|]. intros t' p' Hin'. cbn.
    assert (t' ≠ t) as Hne by (intros ->; apply Hni, list_elem_of_fmap; by exists (t, p')).
    rewrite dict_get_del by apply Hs. rewrite bool_decide_false by done. apply Hin. by right.
  - apply IH; [done|done|]. intros t' p' Hin'. apply Hin. by right.
Qed.

Lemma exits_dealing i s0 rule : preserves (dealing i s0) (exits i rule).
Proof.
  intros s Hs. unfold exits. apply exits_loop_dealing; [done|apply Hs|]. intros t p Hin.
  apply dict_get_of_elem; [apply Hs|done].
Qed.

Lemma sell_on_signal_dealing i s0 t : preserves (dealing i s0) (sell_on_signal i t).
Proof.
  intros s Hs. unfold sell_on_signal, after, mbind, M_bind, get. destruct (dict_get t s.(positions)) as [p|] eqn:E; [|done].
  unfold when. destruct (_ && _) eqn:Ep; [|done]. apply andb_true_iff in Ep as [_ Ep]. by apply sell_dealing.
Qed.

Lemma buy_dealing i s0 available total o : preserves (dealing i s0) (buy i available total o).
Proof.
  intros s Hs. destruct o as [t sig]. unfold buy, after, mbind, M_bind, get.
  destruct (dict_get t s.(positions)) as [p|] eqn:E; [done|]. unfold when at 1. destruct (priced _) eqn:Ep; [|done].
  destruct (trunc _) as [q|]; [|done]. unfold when at 1. destruct (0 <? q) eqn:Eq; [|done].
  unfold when. destruct (negb _) eqn:En; [|done].
  eapply (dealing_trade i s0 _ s); [done| |by apply dict_set_NoDup, Hs|reflexivity|by split_and!].
  cbn. unfold holdings. rewrite dict_get_fmap, E. cbn. rewrite Eq, En. cbn. by rewrite (dict_set_new t), fmap_app.
Qed.

Lemma for_each_preserves {A} (P : Sim → Prop) (f : A → Run unit) l : (∀ x, preserves P (f x)) → preserves P (for_each f l).
Proof. intros Hf. induction l as [|x l IH]; cbn; [apply preserves_ret|]. apply preserves_bind; auto. Qed.

Lemma update_peaks_dealing i s0 : preserves (dealing i s0) (update_peaks i).
Proof.
  apply preserves_modify. intros s Hs. apply (dealing_same i s0 s); [done|done| |done].
  unfold holdings. cbn. rewrite <- list_fmap_compose. apply list_fmap_ext. intros _ [t p] _. cbn. by destruct (priced _).
Qed.

Lemma cooldown_day_spec s :
  let s' := after cooldown_day s in
  s'.(cash) = (s.(cash) * safe_factor)%pyf ∧ s'.(positions) = s.(positions) ∧ s'.(trade_records) = s.(trade_records) ∧
  s'.(cooldown_remaining) = s.(cooldown_remaining) - 1 ∧ s'.(equity_history) = s.(equity_history) ++ [s'.(cash)] ∧
  s'.(peak_value) = if s.(cooldown_remaining) =? 1 then s'.(cash) else s.(peak_value).
Proof.
  unfold after, cooldown_day, modify. cbn.
  replace (s.(cooldown_remaining) =? 1) with (s.(cooldown_remaining) - 1 =? 0)
    by (destruct (Z.eqb_spec (s.(cooldown_remaining) - 1) 0), (Z.eqb_spec s.(cooldown_remaining) 1); lia || done).
  destruct (_ =? 0); [|done]. by destruct (0 <? _).
Qed.

(** Is the day that begins in [s] a day of rest? *)
Definition rests (s : Sim) : bool := bool_decide (is_Some config.(max_drawdown_limit)) && (0 <? s.(cooldown_remaining)).

Lemma day_eq i s :
  day i s =
  (let current_dd := drawdown (fmax s.(peak_value) (portfolio_value i s)) (portfolio_value i s) in
   match config.(max_drawdown_limit) with
   | Some limit =>
       if 0 <? s.(cooldown_remaining) then cooldown_day
       else if (current_dd <? fneg limit)%pyf then stop_day i
       else trading_day i current_dd
   | None => trading_day i current_dd
   end) (set_peak (fmax s.(peak_value) (portfolio_value i s)) s).
Proof. reflexivity. Qed.

(** A day of rest is one entry; any other day has trades of the day and nothing else. *)
Lemma day_entries i s : NoDup s.(positions).*1 →
  let s' := after (day i) s in
  NoDup s'.(positions).*1 ∧ ∃ es, enter_all es (Some (s.(cash), holdings s)) = Some (s'.(cash), holdings s') ∧
    s'.(trade_records) = s.(trade_records) ++ omap trade_of es ∧ (if rests s then es = [Rest] else Forall (dealt_entry i) es).
Proof.
  intros Hs. cbv zeta.
  assert (∀ f, (∀ s, cash (f s) = cash s ∧ positions (f s) = positions s ∧ trade_records (f s) = trade_records s) →
    preserves (dealing i s) (E:=Exn) (modify f)) as Hmod.
  { intros f Hf. apply preserves_modify. intros s1 Hs1. destruct (Hf s1) as (H1 & H2 & H3).
    apply (dealing_same i s s1); [done|done|by unfold holdings; rewrite H2|done]. }
  assert (∀ dd, preserves (dealing i s) (trading_day i dd)) as Htrade.
  { intros dd. unfold trading_day. apply preserves_bind; [apply update_peaks_dealing|intros _].
    apply preserves_bind; [apply preserves_when; intros _; apply exits_dealing|intros _].
    apply preserves_bind; [destruct (trailing_stop_atr_multiplier _); [apply exits_dealing|apply preserves_ret]|intros _].
    destruct (thresholds i) as [b st].
    apply preserves_bind; [apply for_each_preserves, sell_on_signal_dealing|intros _].
    apply preserves_bind; [|intros _; by apply Hmod]. unfold buy_all. apply preserves_when. intros _.
    apply preserves_bind; [apply preserves_get|intros s1]. apply preserves_bind; [apply preserves_when; intros _; by apply Hmod|intros _].
    apply for_each_preserves, buy_dealing. }
  assert (preserves (dealing i s) (stop_day i)) as Hstop.
  { unfold stop_day, liquidate. apply preserves_bind; [by apply Hmod|intros _].
    apply preserves_bind; [apply exits_dealing|intros _; by apply Hmod]. }
  set (s1 := set_peak (fmax s.(peak_value) (portfolio_value i s)) s).
  assert (dealing i s s1) as Hs1 by (apply (dealing_same i s s); [by apply dealing_start|done..]).
  unfold after. rewrite (day_eq i s). fold s1. unfold rests. cbv zeta.
  destruct (max_drawdown_limit config) as [limit|]; cbn [is_Some].
  - rewrite (bool_decide_true (is_Some (Some limit))) by done. cbn [andb]. destruct (0 <? cooldown_remaining s).
    + destruct (cooldown_day_spec s1) as (H1 & H2 & H3 & _). unfold after in H1, H2, H3. split; [by rewrite H2|].
      exists [Rest]. unfold holdings. rewrite H1, H2, H3, app_nil_r. by split_and!.
    + destruct (_ <? _)%pyf; [by apply Hstop|by apply Htrade].
  - rewrite bool_decide_false by by intros [? ?]. by apply Htrade.
Qed.

Lemma simulate_step n :
  _simulate (S n) = match _simulate n with (Ok _, s) => day n s | (Err e, s) => (Err e, s) end.
Proof.
  unfold _simulate. rewrite seq_S. cbn [Nat.add]. generalize (seq 0 n) start. intros l. induction l as [|x l IH]; intros s.
  - cbn [app for_each]. unfold mbind, M_bind, mret, M_ret. by destruct (day n s) as [[[]|e] s'].
  - cbn [app for_each]. unfold mbind, M_bind. destruct (day x s) as [[[]|e] s']; [apply IH|done].
Qed.

Lemma enter_all_app es1 es2 o : enter_all (es1 ++ es2) o = enter_all es2 (enter_all es1 o).
Proof. unfold enter_all. by rewrite foldl_app. Qed.

(** C23. The simulated investor's books balance: whatever the prices, the signals and the
    configuration, the trade records and the days of rest account for the simulation day
    by day.  A day that begins in a cooldown has one entry, the safe asset's daily return
    on the cash, and no trade; any other day has trades of its own date, at its prices
    with slippage, fee and tax, and no interest.  Entered one after the other they give
    exactly the cash and the positions of the simulation: no purchase of a ticker that
    is held, of nothing, or for more than the cash; every sale of exactly what was
    bought, with the profit over what was paid.  Every day of a simulation that does
    not raise is there. *)
Theorem simulation_is_accounted (n : nat) :
  let s := (_simulate n).2 in
  ∃ days : list (list Entry),
    books (concat days) = Some (s.(cash), holdings s) ∧ omap trade_of (concat days) = s.(trade_records) ∧
    (∀ i es, days !! i = Some es → if rests (_simulate i).2 then es = [Rest] else Forall (dealt_entry i) es) ∧
    (length days ≤ n)%nat ∧ ((_simulate n).1 = Ok tt → length days = n).
Proof.
  cbv zeta. enough (NoDup (_simulate n).2.(positions).*1 ∧ ∃ days : list (list Entry),
    books (concat days) = Some ((_simulate n).2.(cash), holdings (_simulate n).2) ∧ omap trade_of (concat days) = (_simulate n).2.(trade_records) ∧
    (∀ i es, days !! i = Some es → if rests (_simulate i).2 then es = [Rest] else Forall (dealt_entry i) es) ∧
    (length days ≤ n)%nat ∧ ((_simulate n).1 = Ok tt → length days = n)) as Hall by apply Hall.
  induction n as [|n (Hnd & days & Hb & Ht & Hdays & Hlen & Hall)].
  { split; [constructor|]. exists []. split_and!; done. }
  rewrite simulate_step. destruct (_simulate n) as [[[]|e] s] eqn:E; cbn [fst snd] in *.
  - specialize (Hall eq_refl). destruct (day_entries n s Hnd) as (Hnd' & es & He & Htr & Hes). unfold after in *.
    split; [done|]. exists (days ++ [es]). rewrite concat_app, length_app. cbn [concat length]. rewrite app_nil_r.
    split_and!; [unfold books in *; by rewrite enter_all_app, Hb, He|by rewrite omap_app, Ht, Htr| |lia|lia].
    intros i es' [Hi|[Hi Hx]]%lookup_app_Some; [by apply Hdays|]. apply list_lookup_singleton_Some in Hx as [Hx <-].
    assert (i = n) as -> by lia. by rewrite E.
  - split; [done|]. exists days. split_and!; [done..|lia|done].
Qed.

(** * The drawdown stop *)

(** The day is one on which the drawdown stop acts. *)
Definition stops (limit : float) (i : nat) (s : Sim) : Prop :=
  config.(max_drawdown_limit) = Some limit ∧ s.(cooldown_remaining) ≤ 0 ∧
  let value := portfolio_value i s in
  flt (drawdown (fmax s.(peak_value) value) value) (fneg limit) = true.

Lemma liquidate_spec i s :
  Forall (λ tp, priced (prices i tp.1) = true) s.(positions) →
  ∃ s', liquidate i s = (Ok tt, s') ∧ s'.(positions) = [] ∧ s'.(cooldown_remaining) = s.(cooldown_remaining) ∧
    s'.(peak_value) = s.(peak_value) ∧ s'.(equity_history) = s.(equity_history) ∧
    s'.(trade_records) = s.(trade_records) ++ ((λ tp, sale i tp.1 tp.2) <$> s.(positions)) ∧
    (s.(positions) = [] → s' = s).
Proof.
  intros Hp. unfold liquidate, exits. unfold mbind at 1, M_bind at 1. unfold get.
  assert (∀ l, s.(positions) = l → l = s.(positions)) as Hl by done. specialize (Hl _ eq_refl).
  revert Hp. remember s.(positions) as l eqn:El. clear Hl. revert s El.
  induction l as [|[t p] l IH]; intros s El Hp.
  - exists s. rewrite app_nil_r. by split_and!.
  - apply Forall_cons in Hp as [Hp Hl]. cbn in Hp. cbn [for_each]. rewrite Hp. cbn [andb when].
    set (s1 := after (sell i t p) s).
    assert (s1.(positions) = l) as E1 by (cbn; rewrite <- El; cbn; by rewrite bool_decide_true).
    destruct (IH s1 (eq_sym E1) Hl) as (s' & E & H1 & H2 & H3 & H4 & H5 & _).
    exists s'. unfold mbind at 1, M_bind at 1. unfold sell at 1, modify at 1. change (trade _ _ _ s) with s1.
    split; [exact E|]. split_and!; try done. rewrite H5. cbn. by rewrite <- app_assoc.
Qed.

Lemma stop_day_spec limit i s :
  stops limit i s → Forall (λ tp, priced (prices i tp.1) = true) s.(positions) →
  ∃ s', day i s = (Ok tt, s') ∧ s'.(positions) = [] ∧ s'.(cooldown_remaining) = config.(drawdown_cooldown_days) ∧
    s'.(peak_value) = fmax s.(peak_value) (portfolio_value i s) ∧
    s'.(trade_records) = s.(trade_records) ++ ((λ tp, sale i tp.1 tp.2) <$> s.(positions)) ∧
    s'.(equity_history) = s.(equity_history) ++ [s'.(cash)] ∧ (s.(positions) = [] → s'.(cash) = s.(cash)).
Proof.
  intros (Hl & Hc & Hd) Hp. unfold day. unfold mbind at 1, M_bind at 1, get. cbv zeta in Hd |- *.
  unfold mbind at 1, M_bind at 1, modify at 1. rewrite Hl, (proj2 (Z.ltb_ge _ _)), Hd by done.
  unfold stop_day. unfold mbind at 1, M_bind at 1, modify at 1.
  set (s1 := set_cooldown _ _). destruct (liquidate_spec i s1 Hp) as (s' & E & H1 & H2 & H3 & H4 & H5 & H6).
  unfold mbind at 1, M_bind at 1. rewrite E. unfold modify. eexists. split; [done|]. cbn.
  rewrite H4. split_and!; try done. intros He. by rewrite (H6 He).
Qed.

Lemma rest_day_spec limit i s :
  config.(max_drawdown_limit) = Some limit → 0 < s.(cooldown_remaining) → s.(positions) = [] →
  ∃ s', day i s = (Ok tt, s') ∧ s'.(positions) = [] ∧ s'.(cash) = (s.(cash) * safe_factor)%pyf ∧
    s'.(trade_records) = s.(trade_records) ∧ s'.(cooldown_remaining) = s.(cooldown_remaining) - 1 ∧
    s'.(equity_history) = s.(equity_history) ++ [s'.(cash)] ∧
    (s.(cooldown_remaining) = 1 → s'.(peak_value) = s'.(cash)).
Proof.
  intros Hl Hc Hp. unfold day. unfold mbind at 1, M_bind at 1, get. cbv zeta.
  unfold mbind at 1, M_bind at 1, modify at 1. rewrite Hl, (proj2 (Z.ltb_lt _ _)) by done.
  set (s1 := set_peak _ s). exists (after cooldown_day s1). split; [done|].
  destruct (cooldown_day_spec s1) as (H1 & H2 & H3 & H4 & H5 & H6).
  split_and!; try done; [by rewrite H2|]. intros E. rewrite H6. change (cooldown_remaining s1) with (cooldown_remaining s). by rewrite E.
Qed.

(** The cash after [j] days of rest *)
Definition rested (j : nat) (c : float) : float := Nat.iter j (λ c, (c * safe_factor)%pyf) c.

Lemma for_each_app {A} (f : A → Run unit) l1 l2 s s1 :
  for_each f l1 s = (Ok tt, s1) → for_each f (l1 ++ l2) s = for_each f l2 s1.
Proof.
  revert s. induction l1 as [|x l1 IH]; intros s; cbn; [by intros [= ->]|].
  unfold mbind, M_bind. destruct (f x s) as [[[]|e] s']; [apply IH|done].
Qed.

Lemma rest_spec limit s k :
  config.(max_drawdown_limit) = Some limit → s.(cooldown_remaining) = Z.of_nat k → s.(positions) = [] →
  ∀ i j, (j ≤ k)%nat → ∃ s', for_each day (seq i j) s = (Ok tt, s') ∧ s'.(positions) = [] ∧
    s'.(cash) = rested j s.(cash) ∧ s'.(trade_records) = s.(trade_records) ∧
    s'.(cooldown_remaining) = Z.of_nat (k - j) ∧
    s'.(equity_history) = s.(equity_history) ++ ((λ m, rested (S m) s.(cash)) <$> seq 0 j) ∧
    ((0 < k)%nat → j = k → s'.(peak_value) = s'.(cash)).
Proof.
  intros Hl Hk Hp i j. induction j as [|j IH]; intros Hj.
  - exists s. rewrite app_nil_r, Nat.sub_0_r. split_and!; try done. lia.
  - destruct IH as (s1 & E & H1 & H2 & H3 & H4 & H5 & _); [lia|].
    destruct (rest_day_spec limit (i + j) s1 Hl ltac:(lia) H1) as (s' & E' & G1 & G2 & G3 & G4 & G5 & G6).
    exists s'. rewrite seq_S, (for_each_app _ _ _ _ _ E). cbn [for_each]. unfold mbind, M_bind. rewrite E'.
    split; [done|]. split_and!; [done|by rewrite G2, H2|congruence|lia| |].
    + rewrite G5, H5, <- app_assoc, seq_S, fmap_app. cbn. by rewrite G2, H2.
    + intros Hk0 Ej. apply G6. lia.
Qed.

Lemma no_drawdown c limit : flt limit fzero = false → flt (drawdown c c) (fneg limit) = false.
Proof.
  intros Hl. unfold drawdown. assert (flt fzero (fneg limit) = false) as H0 by (revert Hl; by destruct limit as [[]|[]| |[] m e]).
  destruct c as [[]|[]| |[] m e]; try done. change (flt fzero (S754_finite false m e)) with true. cbv iota.
  assert (fsub (S754_finite false m e) (S754_finite false m e) = fzero) as ->.
  { unfold fsub, SFsub. by rewrite Z.sub_diag. }
  done.
Qed.

(** The drawdown stop.  On a day on which the portfolio has fallen from its peak by
    more than the limit, and every position has a price, everything is sold and
    nothing is bought.  Then, whatever prices and signals come, there is no trade for
    the days of the cooldown, while the cash earns the safe return day by day.  And
    when the rest is over the peak is the cash itself, so that the next day is a
    trading day. *)
Theorem drawdown_stop_rests (limit : float) (i k : nat) (s : Sim) (Hs : stops limit i s)
    (Hp : Forall (λ tp, priced (prices i tp.1) = true) s.(positions))
    (Hk : config.(drawdown_cooldown_days) = Z.of_nat k) (Hk0 : (0 < k)%nat) :
  let s1 := after (day i) s in
  s1.(positions) = [] ∧
  s1.(trade_records) = s.(trade_records) ++ ((λ tp, sale i tp.1 tp.2) <$> s.(positions)) ∧
  ∀ j, (j ≤ k)%nat → let s2 := after (for_each day (seq (S i) j)) s1 in
    s2.(positions) = [] ∧ s2.(trade_records) = s1.(trade_records) ∧ s2.(cash) = rested j s1.(cash) ∧
    s2.(equity_history) = s.(equity_history) ++ s1.(cash) :: ((λ m, rested (S m) s1.(cash)) <$> seq 0 j) ∧
    (j = k → s2.(cooldown_remaining) = 0 ∧ s2.(peak_value) = s2.(cash) ∧
       (flt limit fzero = false → ¬ stops limit (S i + k) s2)).
Proof.
  destruct (stop_day_spec limit i s Hs Hp) as (s1 & E & H1 & H2 & H3 & H4 & H5 & H6).
  assert (after (day i) s = s1) as -> by (unfold after; by rewrite E).
  cbv zeta. split_and!; [done|done|]. intros j Hj. pose proof Hs as (Hl & _).
  destruct (rest_spec limit s1 k Hl ltac:(lia) H1 (S i) j Hj) as (s2 & E2 & G1 & G2 & G3 & G4 & G5 & G6).
  assert (after (for_each day (seq (S i) j)) s1 = s2) as -> by (unfold after; by rewrite E2).
  split_and!; try done; [by rewrite G5, H5, <- app_assoc|].
  intros ->. specialize (G6 Hk0 eq_refl). split_and!; [lia|done|]. intros Hn (_ & _ & Hd). cbv zeta in Hd.
  unfold portfolio_value in Hd. rewrite G1, G6 in Hd. cbn [foldl] in Hd.
  assert (fmax (cash s2) (cash s2) = cash s2) as Em by (unfold fmax; by case_match).
  rewrite Em, no_drawdown in Hd by done. done.
Qed.

(** Without a cooldown the drawdown stop is final: the peak is reset only at the end
    of a cooldown.  Once everything is sold and the cash is below the limit, the
    stop acts every day and nothing is ever bought again, however the market
    recovers. *)
Theorem no_cooldown_never_trades_again (limit : float) (i n : nat) (s : Sim)
    (Hk : config.(drawdown_cooldown_days) ≤ 0) (Hp : s.(positions) = []) (Hs : stops limit i s) :
  let s' := after (for_each day (seq i n)) s in
  s'.(trade_records) = s.(trade_records) ∧ s'.(positions) = [] ∧
  s'.(equity_history) = s.(equity_history) ++ replicate n s.(cash).
Proof.
  revert i s Hp Hs. induction n as [|n IH]; intros i s Hp Hs; [by rewrite app_nil_r|].
  destruct (stop_day_spec limit i s Hs) as (s1 & E & H1 & H2 & H3 & H4 & H5 & H6); [by rewrite Hp|].
  specialize (H6 Hp). rewrite Hp, app_nil_r in H4.
  assert (portfolio_value i s = cash s) as Ev by (unfold portfolio_value; by rewrite Hp).
  cbn [seq for_each]. unfold after, mbind, M_bind. rewrite E. fold (after (for_each day (seq (S i) n)) s1).
  destruct (IH (S i) s1 H1) as (G1 & G2 & G3).
  { destruct Hs as (Hl & _ & Hd). split_and!; [done|lia|]. rewrite Ev in *. unfold portfolio_value. rewrite H1, H3, H6. cbn [foldl].
    assert (fmax (fmax (peak_value s) (cash s)) (cash s) = fmax (peak_value s) (cash s)) as ->; [|exact Hd].
    unfold fmax. destruct (flt (peak_value s) (cash s)) eqn:Ef; [by case_match|by rewrite Ef]. }
  rewrite G1, H4. split_and!; [done|done|]. rewrite G3, H5, H6, <- app_assoc. done.
Qed.
End Engine.
End BacktestEngine.

(** * Statistics of the trades *)

Fixpoint max_consecutive_from (max_count current : Z) (l : list bool) : Z :=
  match l with
  | [] => max_count
  | true :: l' => max_consecutive_from (Z.max max_count (current + 1)) (current + 1) l'
  | false :: l' => max_consecutive_from max_count 0 l'
  end.
Definition _max_consecutive (l : list bool) : Z := max_consecutive_from 0 0 l.

Record TradeStats := {
  total_trades : Z;
  win_rate : float;
  profit_factor : float;
  avg_trade_return : float;
  max_consecutive_losses : Z;
}.

(** The counting part of [_calculate_metrics] *)
Definition trade_stats (initial : float) (trade_records : list TradeRecord) : TradeStats :=
  let sell_trades := List.filter (λ t, bool_decide (t.(t_side) = SELL)) trade_records in
  let n := Z.of_nat (length sell_trades) in
  let wins := (λ t, (t.(t_pnl) >? fzero)%pyf) in
  let losses := (λ t, (t.(t_pnl) <=? fzero)%pyf) in
  let winning_trades := List.filter wins sell_trades in
  let losing_trades := List.filter losses sell_trades in
  let total_profit := fsum (t_pnl <$> winning_trades) in
  let total_loss := fabs (fsum (t_pnl <$> losing_trades)) in
  {| total_trades := n;
     win_rate := (of_Z (Z.of_nat (length winning_trades)) / of_Z (Z.max n 1))%pyf;
     profit_factor := (total_profit / fmax total_loss (of_Z 1))%pyf;
     avg_trade_return := if 0 <? n then (fsum (t_pnl <$> sell_trades) / of_Z n / initial)%pyf else fzero;
     max_consecutive_losses := _max_consecutive (losses <$> sell_trades) |}.

(** Weights of the strategies by their Sharpe ratios, in the results' order *)
Definition recommend_weights (results : list (string * float)) (method : string) : weights :=
  let equal := foldl (λ d '(name, _), dict_set name (of_Z 1 / of_Z (Z.of_nat (length results)))%pyf d) [] results in
  if bool_decide (results = []) then []
  else if bool_decide (method = "equal") then equal
  else
    let sharpes := foldl (λ d '(name, sharpe), dict_set name (fmax sharpe fzero) d) [] results in
    let total := fsum (values sharpes) in
    if (total <? dec 1 10)%pyf then equal else dict_map (λ x, (x / total)%pyf) sharpes.

(** The longest run: [k] in a row are found exactly up to the number returned. *)
Definition has_run (k : nat) (l : list bool) : Prop := ∃ a b, l = a ++ replicate k true ++ b.

Lemma max_consecutive_from_mono l m m' c : m ≤ m' → max_consecutive_from m c l ≤ max_consecutive_from m' c l ∧ m ≤ max_consecutive_from m c l.
Proof. revert m m' c. induction l as [|[] l IH]; cbn; intros m m' c H; [lia| |by apply IH].
  destruct (IH (Z.max m (c + 1)) (Z.max m' (c + 1)) (c + 1) ltac:(lia)). lia.
Qed.

Lemma has_run_cons k b l : has_run k l → has_run k (b :: l).
Proof. intros (x & y & ->). by exists (b :: x), y. Qed.

Lemma has_run_le k k' l : (k' ≤ k)%nat → has_run k l → has_run k' l.
Proof.
  intros Hk (x & y & ->). exists x, (replicate (k - k') true ++ y). rewrite app_assoc with (l := replicate k' true).
  rewrite <- replicate_add. by replace (k' + (k - k'))%nat with k by lia.
Qed.

Lemma has_run_app_r k l' l : has_run k l → has_run k (l' ++ l).
Proof. intros H. induction l'; [done|]. by apply has_run_cons. Qed.

(** A run longer than what is before a [false] is behind it. *)
Lemma has_run_split c k l : (c < k)%nat → has_run k (replicate c true ++ false :: l) → has_run k l.
Proof.
  intros Hk (x & y & E). destruct (Nat.le_gt_cases (length x) c) as [Hx|Hx].
  - exfalso. assert ((replicate c true ++ false :: l) !! c = Some false) as H1
      by (rewrite lookup_app_r, length_replicate, Nat.sub_diag by (rewrite length_replicate; lia); done).
    assert ((x ++ replicate k true ++ y) !! c = Some true) as H2
      by (rewrite lookup_app_r, lookup_app_l by (rewrite ?length_replicate; lia); apply lookup_replicate_2; lia).
    congruence.
  - exists (drop (S c) x), y. rewrite <- drop_app_le, <- E by lia.
    rewrite drop_app_ge by (rewrite length_replicate; lia). by rewrite length_replicate, Nat.sub_succ_l, Nat.sub_diag by lia.
Qed.

(** With [c] before the list, all of them [true] *)
Lemma max_consecutive_from_spec l c m (k : nat) : Z.of_nat c ≤ m → 0 ≤ m →
  Z.of_nat k ≤ max_consecutive_from m (Z.of_nat c) l ↔ Z.of_nat k ≤ m ∨ has_run k (replicate c true ++ l).
Proof.
  revert c m. induction l as [|[] l IH]; intros c m Hc Hm; cbn [max_consecutive_from].
  - rewrite app_nil_r. split; [by left|]. intros [|(x & y & E)]; [done|]. apply (f_equal length) in E.
    rewrite !length_app, !length_replicate in E. lia.
  - replace (Z.of_nat c + 1) with (Z.of_nat (S c)) by lia. rewrite IH by lia.
    replace (replicate (S c) true ++ l) with (replicate c true ++ true :: l)
      by (rewrite replicate_S_end, <- app_assoc; done).
    split; (intros [H|H]; [|by right]); [|left; lia].
    destruct (Z.le_gt_cases (Z.of_nat k) m); [by left|right]. apply (has_run_le (S c)); [lia|].
    exists [], l. by rewrite replicate_S_end, <- app_assoc.
  - rewrite (IH 0%nat) by lia. cbn [replicate app]. split; (intros [H|H]; [by left|]).
    + right. by apply has_run_app_r, has_run_cons.
    + destruct (Z.le_gt_cases (Z.of_nat k) m); [by left|right]. apply (has_run_split c k l); [lia|done].
Qed.

(** The statistic of consecutive losses is the length of the longest losing streak. *)
Lemma max_consecutive_is_longest_run (l : list bool) (k : nat) : Z.of_nat k ≤ _max_consecutive l ↔ has_run k l.
Proof.
  unfold _max_consecutive. rewrite (max_consecutive_from_spec l 0) by lia. cbn. split; [intros [H|H]; [|done]|by right].
  assert (k = 0%nat) as -> by lia. exists [], l. done.
Qed.

(** * Runs *)

Module BacktestRuns.
Import BacktestEngine.

Definition plain : BacktestConfig :=
  {| initial_capital := of_Z 1000000; country := KR; commission_rate := None; tax_rate := None; slippage_rate := None;
     stop_loss_pct := None; stop_loss_atr_multiplier := None; trailing_stop_atr_multiplier := None;
     max_drawdown_limit := None; drawdown_cooldown_days := 20; safe_asset_annual_return := dec 3 2;
     dd_cushion_start := None; dd_cushion_floor := dec 25 2; vol_target := None; vol_lookback := 20;
     gradual_reentry_days := 0; use_dynamic_threshold := false |}.

Definition limited (limit : float) (days : Z) : BacktestConfig :=
  {| initial_capital := of_Z 1000000; country := KR; commission_rate := None; tax_rate := None; slippage_rate := None;
     stop_loss_pct := None; stop_loss_atr_multiplier := None; trailing_stop_atr_multiplier := None;
     max_drawdown_limit := Some limit; drawdown_cooldown_days := days; safe_asset_annual_return := dec 3 2;
     dd_cushion_start := None; dd_cushion_floor := dec 25 2; vol_target := None; vol_lookback := 20;
     gradual_reentry_days := 0; use_dynamic_threshold := false |}.

Definition stopped_out : BacktestConfig :=
  {| initial_capital := of_Z 1000000; country := KR; commission_rate := None; tax_rate := None; slippage_rate := None;
     stop_loss_pct := Some (dec 15 2); stop_loss_atr_multiplier := None; trailing_stop_atr_multiplier := None;
     max_drawdown_limit := None; drawdown_cooldown_days := 20; safe_asset_annual_return := dec 3 2;
     dd_cushion_start := None; dd_cushion_floor := dec 25 2; vol_target := None; vol_lookback := 20;
     gradual_reentry_days := 0; use_dynamic_threshold := false |}.

(** Prices in a table by date; a missing entry is a missing price. *)
Definition table (rows : list (list (string * Z))) (i : nat) (t : string) : float :=
  match dict_get t (default [] (rows !! i)) with Some p => of_Z p | None => S754_nan end.
Definition daily (l : list weights) (i : nat) : weights := default [] (l !! i).
Definition calm : RegimeInfo :=
  {| regime := SIDEWAYS; regime_confidence := one; volatility_percentile := dec 5 1; trend_strength := fzero |}.

Definition simulate_on (c : BacktestConfig) (rows : list (list (string * Z))) (sig : list weights) : result Exn unit * Sim :=
  _simulate c (table rows) (daily sig) id fsum (λ _ _ _, fzero) (λ _ _, None) (λ _, calm) (λ x _, x) (length rows).
Definition trades (r : result Exn unit * Sim) : list (nat * string * OrderSide * Z) :=
  (λ t, (t_date t, t_ticker t, t_side t, t_quantity t)) <$> r.2.(trade_records).

(** A position without a price counts nothing: a day without a quote is a loss of
    everything, and the drawdown stop sells the rest of the portfolio. *)
Example missing_quote_stops :
  trades (simulate_on (limited (dec 20 2) 20)
    [[("A", 1000); ("B", 1000)]; [("B", 1000)]; [("A", 1000); ("B", 1000)]]
    [[("A", dec 5 1); ("B", dec 5 1)]; []; []]) =
  [(0%nat, "A", BUY, 474); (0%nat, "B", BUY, 474); (1%nat, "B", SELL, 474)].
Proof. vm_compute. reflexivity. Qed.

(** What the stop could not sell is not in the equity of the days of rest. *)
Example unpriced_position_leaves_the_equity :
  let s := (simulate_on (limited (dec 20 2) 20)
    [[("A", 1000)]; []; [("A", 1000)]] [[("A", dec 5 1)]; []; []]).2 in
  length s.(positions) = 1%nat ∧ (λ x, round_to 0 x) <$> s.(equity_history) <> [] ∧
  (λ x, (x <? of_Z 60000)%pyf) <$> s.(equity_history) = [false; true; true].
Proof. vm_compute. repeat split. discriminate. Qed.

(** A ticker that was stopped out is bought again on the same day. *)
Example stopped_out_and_bought_back :
  trades (simulate_on stopped_out [[("A", 1000)]; [("A", 800)]] [[("A", dec 5 1)]; [("A", dec 5 1)]]) =
  [(0%nat, "A", BUY, 949); (1%nat, "A", SELL, 949); (1%nat, "A", BUY, 956)].
Proof. vm_compute. reflexivity. Qed.

(** A fall from 1000 to 500 and back, with a rest of two days *)
Definition fall : list (list (string * Z)) := [[("A", 1000)]; [("A", 500)]; [("A", 1000)]; [("A", 2000)]; [("A", 2000)]].
Definition every_day (c : BacktestConfig) (i : nat) : M Sim Exn unit :=
  day c (table fall) (λ _, [("A", dec 5 1)]) id fsum (λ _ _ _, fzero) (λ _ _, None) (λ _, calm) (λ x _, x) i.
Definition bought (c : BacktestConfig) : Sim := after (every_day c 0) (BacktestEngine.start c).

Lemma drawdown_stop_rests_witness :
  let c := limited (dec 20 2) 2 in let s1 := after (every_day c 1) (bought c) in
  length (bought c).(positions) = 1%nat ∧ s1.(positions) = [] ∧
  (after (for_each (every_day c) (seq 2 2)) s1).(trade_records) = s1.(trade_records).
Proof.
  cbv zeta. split; [vm_compute; reflexivity|].
  destruct (drawdown_stop_rests (limited (dec 20 2) 2) (table fall) (λ _, [("A", dec 5 1)]) id fsum (λ _ _ _, fzero)
    (λ _ _, None) (λ _, calm) (λ x _, x) (dec 20 2) 1 2 (bought (limited (dec 20 2) 2))) as (H1 & _ & H3).
  - split; [reflexivity|]. split; [vm_compute; discriminate|]. vm_compute. reflexivity.
  - vm_compute. repeat constructor.
  - reflexivity.
  - lia.
  - split; [exact H1|]. destruct (H3 2%nat ltac:(lia)) as (_ & H & _). exact H.
Defined.

Lemma no_cooldown_never_trades_again_witness :
  let c := limited (dec 20 2) 0 in let s := after (every_day c 1) (bought c) in
  s.(positions) = [] ∧ (after (for_each (every_day c) (seq 2 3)) s).(trade_records) = s.(trade_records).
Proof.
  cbv zeta. split; [vm_compute; reflexivity|].
  destruct (no_cooldown_never_trades_again (limited (dec 20 2) 0) (table fall) (λ _, [("A", dec 5 1)]) id fsum (λ _ _ _, fzero)
    (λ _ _, None) (λ _, calm) (λ x _, x) (dec 20 2) 2 3 (after (every_day (limited (dec 20 2) 0) 1) (bought (limited (dec 20 2) 0)))) as (H & _).
  - vm_compute. discriminate.
  - vm_compute. reflexivity.
  - split; [reflexivity|]. split; [vm_compute; discriminate|]. vm_compute. reflexivity.
  - exact H.
Defined.
End BacktestRuns.
