(* ===== verification/Oos.v ===== *)
(** Out-of-sample validation: backend/core/oos/gate_evaluator.py, walk_forward.py,
    job_manager.py and the records of models.py.

    Dates are the positions of the date index.  Parameters are the backtest of a
    window (an exception is [Err]), numpy's mean and variance, the regime metrics of
    a window, and the digest of the parameters of a run.  The texts of the reasons
    are left out, their values are kept. *)

From stdpp Require Import base option list sets strings.
From Stdlib Require Import ZArith Lia Sorted Floats.SpecFloat.
From S2P Require Import Prelude PyFloat PyDict FloatFacts Rebalancing.

Inductive OOSStatus := PENDING | RUNNING | PASS | REVIEW | FAIL | ERROR.
#[global] Instance OOSStatus_eq_dec : EqDecision OOSStatus.
Proof. solve_decision. Defined.

Inductive GateResult := GatePASS | GateREVIEW | GateFAIL.
#[global] Instance GateResult_eq_dec : EqDecision GateResult.
Proof. solve_decision. Defined.

(** Metrics of a backtest, as far as the gates use them *)
Record WindowMetrics := {
  cagr : float;
  mdd : float;
  sharpe_ratio : float;
  calmar_ratio : float;
  total_return : float;
}.
Definition no_metrics : WindowMetrics :=
  {| cagr := fzero; mdd := fzero; sharpe_ratio := fzero; calmar_ratio := fzero; total_return := fzero |}.

(** First and last position of the training and of the test period *)
Record Window := { train_start : nat; train_end : nat; test_start : nat; test_end : nat }.

(** The regime metrics: by regime, what [metrics.get("max_drawdown")] gives *)
Record OOSWindowResult := {
  window_index : nat;
  window : Window;
  metrics : WindowMetrics;
  regime_metrics : list (string * option float);
}.

Inductive Reason :=
  | WorstMdd (worst limit : float)
  | LowSharpe (avg minimum : float)
  | LowCalmar (avg minimum : float)
  | RegimeMdd (index : nat) (regime : string) (value limit : float)
  | SharpeVariance (variance limit : float)
  | PositiveWindows (ratio minimum : float).

Record Gate := { result_of : GateResult; reasons : list Reason }.
Record Verdict := { gate_a : Gate; gate_b : Gate; gate_c : Gate; overall : GateResult; all_reasons : list Reason }.

Module GateEvaluator.
Section Gates.
(** [self.thresholds.get(key)] *)
Context (thresholds : string → option float).
Definition threshold (key : string) (d : float) : float := default d (thresholds key).

Definition _evaluate_gate_a (worst_mdd : float) : Gate :=
  let mdd_limit := threshold "mdd_hard_limit" (dec 25 2) in
  if (fabs worst_mdd >? mdd_limit)%pyf
  then {| result_of := GateFAIL; reasons := [WorstMdd worst_mdd mdd_limit] |}
  else {| result_of := GatePASS; reasons := [] |}.

(** The regimes of a window beyond the limit *)
Definition bad_regimes (regime_worst : float) (w : OOSWindowResult) : list Reason :=
  omap (λ '(regime, m), let regime_mdd := fabs (default fzero m) in
    if (regime_mdd >? regime_worst)%pyf then Some (RegimeMdd w.(window_index) regime regime_mdd regime_worst) else None)
    w.(regime_metrics).

Definition _evaluate_gate_b (windows : list OOSWindowResult) (avg_sharpe avg_calmar : float) : Gate :=
  let min_sharpe := threshold "min_sharpe_ratio" (dec 3 1) in
  let min_calmar := threshold "min_calmar_ratio" (dec 2 1) in
  let regime_worst := threshold "regime_worst_mdd" (dec 30 2) in
  let rs := (if (avg_sharpe <? min_sharpe)%pyf then [LowSharpe avg_sharpe min_sharpe] else []) ++
            (if (avg_calmar <? min_calmar)%pyf then [LowCalmar avg_calmar min_calmar] else []) ++
            (windows ≫= bad_regimes regime_worst) in
  let review_count := length rs in
  {| result_of := if (3 <=? review_count)%nat then GateFAIL else if (0 <? review_count)%nat then GateREVIEW else GatePASS;
     reasons := rs |}.

Definition positive_ratio (windows : list OOSWindowResult) : float :=
  let positive_count := length (List.filter (λ w, (w.(metrics).(total_return) >? fzero)%pyf) windows) in
  (of_Z (Z.of_nat positive_count) / of_Z (Z.of_nat (length windows)))%pyf.

Definition _evaluate_gate_c (windows : list OOSWindowResult) (sharpe_variance : float) : Gate :=
  let max_var := threshold "max_window_variance" (dec 5 1) in
  let min_positive := threshold "min_positive_windows_ratio" (dec 5 1) in
  let rs := (if (sharpe_variance >? max_var)%pyf then [SharpeVariance sharpe_variance max_var] else []) ++
            (if bool_decide (windows = []) then [] else
             if (positive_ratio windows <? min_positive)%pyf then [PositiveWindows (positive_ratio windows) min_positive] else []) in
  {| result_of := match rs with [] => GatePASS | _ => GateREVIEW end; reasons := rs |}.

Definition evaluate_all (windows : list OOSWindowResult) (avg_sharpe avg_calmar worst_mdd sharpe_variance : float) : Verdict :=
  let a := _evaluate_gate_a worst_mdd in
  let b := _evaluate_gate_b windows avg_sharpe avg_calmar in
  let c := _evaluate_gate_c windows sharpe_variance in
  let results := [a.(result_of); b.(result_of); c.(result_of)] in
  {| gate_a := a; gate_b := b; gate_c := c;
     overall := if bool_decide (GateFAIL ∈ results) then GateFAIL
                else if bool_decide (GateREVIEW ∈ results) then GateREVIEW else GatePASS;
     all_reasons := a.(reasons) ++ b.(reasons) ++ c.(reasons) |}.
End Gates.
End GateEvaluator.

Record OOSRun := {
  run_id : string;
  status : OOSStatus;
  started_at : Z;
  windows : list OOSWindowResult;
  avg_sharpe : float;
  avg_calmar : float;
  worst_mdd : float;
  sharpe_variance : float;
  passed_windows : nat;
  overall_gate : option GateResult;  (** [None]: the empty string *)
  gate_reasons : list Reason;
  error_code : string;
}.

Module WalkForwardEngine.
Section Engine.
Context (thresholds : string → option float).
(** [BacktestEngine.run] on the rows of the test period; [Ok None]: no rows *)
Context (backtest : Window → result string (option WindowMetrics)).
Context (regimes_of : Window → list (string * option float)).
Context (mean var : list float → float).

(** The loop of [_split_windows]; without [fuel], [None] *)
Fixpoint split_from (fuel len train_days test_days start_idx : nat) : option (list Window) :=
  match fuel with
  | O => None
  | S fuel' =>
      if (start_idx + (train_days + test_days) <=? len)%nat then
        let train_end_idx := (start_idx + train_days - 1)%nat in
        let test_start_idx := (train_end_idx + 1)%nat in
        let test_end_idx := (test_start_idx + test_days - 1)%nat in
        if (len <=? test_end_idx)%nat then Some []
        else cons {| train_start := start_idx; train_end := train_end_idx; test_start := test_start_idx; test_end := test_end_idx |}
               <$> split_from fuel' len train_days test_days (start_idx + test_days)
      else Some []
  end.

Definition _split_windows (fuel len train_months test_months : nat) : option (list Window) :=
  if (len =? 0)%nat then Some []
  else
    let train_days := (train_months * 21)%nat in
    let test_days := (test_months * 21)%nat in
    if (len <? train_days + test_days)%nat then Some []
    else split_from fuel len train_days test_days 0.

(** An exception of the backtest leaves the zeros of a new result. *)
Definition _run_single_window (index : nat) (w : Window) : OOSWindowResult :=
  match backtest w with
  | Ok (Some m) => {| window_index := index; window := w; metrics := m; regime_metrics := regimes_of w |}
  | _ => {| window_index := index; window := w; metrics := no_metrics; regime_metrics := [] |}
  end.

(** [min(l)] *)
Definition py_min (l : list float) : float := match l with [] => fzero | x :: l' => foldl fmin x l' end.

Definition new_run (id : string) (now : Z) : OOSRun :=
  {| run_id := id; status := RUNNING; started_at := now; windows := []; avg_sharpe := fzero; avg_calmar := fzero;
     worst_mdd := fzero; sharpe_variance := fzero; passed_windows := 0; overall_gate := None; gate_reasons := [];
     error_code := "" |}.

Definition fail_run (code : string) (r : OOSRun) : OOSRun :=
  {| run_id := r.(run_id); status := ERROR; started_at := r.(started_at); windows := r.(windows); avg_sharpe := r.(avg_sharpe);
     avg_calmar := r.(avg_calmar); worst_mdd := r.(worst_mdd); sharpe_variance := r.(sharpe_variance);
     passed_windows := r.(passed_windows); overall_gate := r.(overall_gate); gate_reasons := r.(gate_reasons);
     error_code := code |}.

(** [_aggregate_results] and the verdict *)
Definition judge (r : OOSRun) (ws : list OOSWindowResult) : OOSRun :=
  let column f := f <$> (metrics <$> ws) in
  let sharpe := round_to 4 (mean (column sharpe_ratio)) in
  let calmar := round_to 4 (mean (column calmar_ratio)) in
  let worst := round_to 4 (py_min (column mdd)) in
  let variance := round_to 6 (var (column sharpe_ratio)) in
  let v := GateEvaluator.evaluate_all thresholds ws sharpe calmar worst variance in
  {| run_id := r.(run_id);
     status := match v.(overall) with GatePASS => PASS | GateREVIEW => REVIEW | GateFAIL => FAIL end;
     started_at := r.(started_at); windows := ws; avg_sharpe := sharpe; avg_calmar := calmar; worst_mdd := worst;
     sharpe_variance := variance;
     passed_windows := length (List.filter (λ w, (w.(metrics).(total_return) >? fzero)%pyf) ws);
     overall_gate := Some v.(overall); gate_reasons := v.(all_reasons); error_code := "" |}.

Definition run (fuel : nat) (id : string) (now : Z) (len train_months test_months : nat) : option OOSRun :=
  let oos_run := new_run id now in
  (λ ws, match ws with
   | [] => fail_run "INSUFFICIENT_DATA" oos_run
   | _ => judge oos_run (imap _run_single_window ws)
   end) <$> _split_windows fuel len train_months test_months.
End Engine.
End WalkForwardEngine.

(** ** Jobs *)

Record Request := { strategy_version : string; train_months : nat; test_months : nat; tickers : list string }.

Module OOSJobManager.
Section Manager.
(** [md5(json.dumps(...))[:12]] *)
Context (digest : string → nat → nat → list string → string).
(** What the engine makes of a request, its data, an id and the time *)
Context {Data : Type} (engine : Request → Data → string → Z → OOSRun).

Record t := { _runs : list (string * OOSRun); _param_index : list (string * string) }.
Definition init : t := {| _runs := []; _param_index := [] |}.

Definition _compute_param_hash (r : Request) : string :=
  digest r.(strategy_version) r.(train_months) r.(test_months) (sort_by String.ltb r.(tickers)).

Definition get_run (m : t) (id : string) : option OOSRun := dict_get id m.(_runs).

(** [sorted(runs, key=started_at, reverse=True)]: equal keys stay in their order. *)
Definition by_start (m : t) : list OOSRun := sort_by (λ a b, b.(started_at) <? a.(started_at)) (m.(_runs).*2).

Definition get_latest (m : t) : option OOSRun := head (by_start m).

Definition deploy_allowed (m : t) : bool :=
  match get_latest m with
  | None => false
  | Some latest => bool_decide (latest.(overall_gate) = Some GatePASS)
  end.

Definition find_existing_run (m : t) (r : Request) : option OOSRun :=
  match dict_get (_compute_param_hash r) m.(_param_index) with
  | Some existing_id =>
      if bool_decide (existing_id = "") then None
      else match dict_get existing_id m.(_runs) with
           | Some existing => if bool_decide (existing.(status) ∈ [RUNNING; PENDING; PASS; REVIEW]) then Some existing else None
           | None => None
           end
  | None => None
  end.

Definition submit_run (r : Request) (data : Data) (id : string) (now : Z) (m : t) : OOSRun * t :=
  match find_existing_run m r with
  | Some existing => (existing, m)
  | None =>
      let result := engine r data id now in
      (result, {| _runs := dict_set result.(run_id) result m.(_runs);
                  _param_index := dict_set (_compute_param_hash r) result.(run_id) m.(_param_index) |})
  end.

(** [list_runs], as the runs themselves *)
Definition list_runs (limit : nat) (m : t) : list OOSRun := take limit (by_start m).
End Manager.
End OOSJobManager.

(** * What the gates promise *)

Module OosFacts.
Section Gates.
Context (thresholds : string → option float).
Abbreviation evaluate_all := (GateEvaluator.evaluate_all thresholds).
Abbreviation threshold := (GateEvaluator.threshold thresholds).

Lemma gate_results_decide (a b c : GateResult) :
  let o := if bool_decide (GateFAIL ∈ [a; b; c]) then GateFAIL else if bool_decide (GateREVIEW ∈ [a; b; c]) then GateREVIEW else GatePASS in
  (o = GateFAIL ↔ a = GateFAIL ∨ b = GateFAIL ∨ c = GateFAIL) ∧ (o = GatePASS ↔ a = GatePASS ∧ b = GatePASS ∧ c = GatePASS).
Proof. destruct a, b, c; vm_compute; intuition congruence. Qed.

Lemma positive_length {A} (l : list A) : (0 <? length l)%nat = true ↔ l ≠ [].
Proof. rewrite Nat.ltb_lt. destruct l; cbn; split; (lia || done). Qed.

(** The verdict of the out-of-sample gates.  It is FAIL exactly when the worst drawdown
    is over the hard limit or there are three or more doubts about Sharpe ratio,
    Calmar ratio and the drawdowns of regimes; it is PASS exactly when there is no
    reason against at all, and then no figure is on the wrong side of its
    threshold. *)
Theorem verdict_decides (ws : list OOSWindowResult) (sharpe calmar worst variance : float) :
  let v := evaluate_all ws sharpe calmar worst variance in
  (v.(overall) = GateFAIL ↔
     (fabs worst >? threshold "mdd_hard_limit" (dec 25 2))%pyf = true ∨ (3 ≤ length v.(gate_b).(reasons))%nat) ∧
  (v.(overall) = GatePASS ↔ v.(all_reasons) = []) ∧
  (v.(overall) = GatePASS →
     (fabs worst >? threshold "mdd_hard_limit" (dec 25 2))%pyf = false ∧
     (sharpe <? threshold "min_sharpe_ratio" (dec 3 1))%pyf = false ∧
     (calmar <? threshold "min_calmar_ratio" (dec 2 1))%pyf = false ∧
     (variance >? threshold "max_window_variance" (dec 5 1))%pyf = false ∧
     (ws ≠ [] → (GateEvaluator.positive_ratio ws <? threshold "min_positive_windows_ratio" (dec 5 1))%pyf = false) ∧
     Forall (λ w, Forall (λ m, (fabs (default fzero m.2) >? threshold "regime_worst_mdd" (dec 30 2))%pyf = false) w.(regime_metrics)) ws).
Proof.
  set (v := evaluate_all _ _ _ _ _).
  destruct (gate_results_decide v.(gate_a).(result_of) v.(gate_b).(result_of) v.(gate_c).(result_of)) as [Hf Hp].
  change (if bool_decide _ then _ else _) with v.(overall) in Hf, Hp.
  assert (v.(gate_a).(result_of) = GateFAIL ↔ (fabs worst >? threshold "mdd_hard_limit" (dec 25 2))%pyf = true) as Ha.
  { unfold v. cbn. unfold GateEvaluator._evaluate_gate_a. by destruct (flt _ _). }
  assert (v.(gate_a).(result_of) = GatePASS ↔ v.(gate_a).(reasons) = []) as Ha'.
  { unfold v. cbn. unfold GateEvaluator._evaluate_gate_a. by destruct (flt _ _). }
  assert ((v.(gate_b).(result_of) = GateFAIL ↔ (3 ≤ length v.(gate_b).(reasons))%nat) ∧
          (v.(gate_b).(result_of) = GatePASS ↔ v.(gate_b).(reasons) = [])) as [Hb Hb'].
  { unfold v. cbn [gate_b evaluate_all GateEvaluator._evaluate_gate_b result_of reasons]. set (rs := _ ++ _ ++ _).
    destruct (Nat.leb_spec 3 (length rs)); [split; [done|]; split; [done|intros ->; cbn in *; lia]|].
    destruct (0 <? length rs)%nat eqn:E.
    - apply positive_length in E. split; (split; [done|]); [lia|by intros].
    - split; split; try done; [lia|]. intros _. by destruct rs. }
  assert (v.(gate_c).(result_of) ≠ GateFAIL ∧ (v.(gate_c).(result_of) = GatePASS ↔ v.(gate_c).(reasons) = [])) as [Hc Hc'].
  { unfold v. cbn [gate_c evaluate_all GateEvaluator._evaluate_gate_c result_of reasons]. by destruct (_ ++ _). }
  assert (v.(overall) = GatePASS ↔ v.(all_reasons) = []) as Hall.
  { rewrite Hp, Ha', Hb', Hc'. unfold v. cbn [all_reasons evaluate_all gate_a gate_b gate_c]. rewrite !app_nil. tauto. }
  split; [tauto|]. split; [done|]. intros E. apply Hall in E. unfold v in E.
  cbn [all_reasons evaluate_all GateEvaluator._evaluate_gate_b GateEvaluator._evaluate_gate_c reasons] in E.
  apply app_nil in E as [E1 E]. apply app_nil in E as [E2 E3]. apply app_nil in E2 as [E4 E2]. apply app_nil in E2 as [E5 E6].
  apply app_nil in E3 as [E7 E8]. unfold GateEvaluator._evaluate_gate_a in E1.
  assert (∀ b (x : Reason), (if b : bool then [x] else []) = [] → b = false) as Hif by by intros [].
  split_and!; [|by eapply Hif|by eapply Hif|by eapply Hif| |].
  - unfold threshold, GateEvaluator.threshold in *. by destruct (flt _ (fabs worst)).
  - intros Hw. rewrite bool_decide_false in E8 by done. by eapply Hif.
  - apply Forall_forall. intros w Hw. apply Forall_forall. intros [regime m] Hm. cbn [snd].
    destruct (flt _ (fabs (default fzero m))) eqn:Ef; [exfalso|done].
    assert (RegimeMdd w.(window_index) regime (fabs (default fzero m)) (threshold "regime_worst_mdd" (dec 30 2)) ∈ ([] : list Reason)) as Hin.
    { rewrite <- E6. apply list_elem_of_bind. exists w. split; [|done]. unfold GateEvaluator.bad_regimes.
      apply list_elem_of_omap. exists (regime, m). split; [done|]. cbn. by rewrite Ef. }
    by apply elem_of_nil in Hin.
Qed.
End Gates.

(** ** The windows *)

(** The [j]-th window of training and test days *)
Definition nth_window (train_days test_days j : nat) : Window :=
  {| train_start := j * test_days; train_end := j * test_days + train_days - 1;
     test_start := j * test_days + train_days; test_end := j * test_days + train_days + test_days - 1 |}.

Definition window_count (len train_days test_days : nat) : nat :=
  if (len <? train_days + test_days)%nat then 0 else (len - (train_days + test_days)) / test_days + 1.

Lemma split_from_spec len train_days test_days :
  (0 < train_days)%nat → (0 < test_days)%nat → ∀ n j fuel, (j + n = window_count len train_days test_days)%nat → (n < fuel)%nat →
  WalkForwardEngine.split_from fuel len train_days test_days (j * test_days) =
    Some (nth_window train_days test_days <$> seq j n).
Proof.
  intros Htr Hte. unfold window_count.
  pose proof (Nat.div_mod_eq (len - (train_days + test_days)) test_days) as Hd.
  pose proof (Nat.mod_upper_bound (len - (train_days + test_days)) test_days ltac:(lia)) as Hm.
  set (q := ((len - (train_days + test_days)) / test_days)%nat) in *. set (r := (_ mod _)%nat) in *.
  intros n. induction n as [|n IH]; intros j fuel Hj Hf; (destruct fuel as [|fuel]; [lia|]); cbn [WalkForwardEngine.split_from].
  - rewrite (proj2 (Nat.leb_gt _ _)); [done|]. destruct (Nat.ltb_spec len (train_days + test_days)); [nia|].
    rewrite Nat.add_0_r in Hj. rewrite Hj. nia.
  - destruct (Nat.ltb_spec len (train_days + test_days)); [lia|].
    assert (j * test_days + (train_days + test_days) ≤ len)%nat as Hle by (assert (j ≤ q)%nat by lia; nia).
    rewrite (proj2 (Nat.leb_le _ _)) by done. rewrite (proj2 (Nat.leb_gt len _)) by lia.
    replace (j * test_days + test_days)%nat with (S j * test_days)%nat by lia. rewrite IH by lia. cbn.
    do 2 f_equal. unfold nth_window. f_equal; lia.
Qed.

Lemma split_windows_spec len train_months test_months fuel :
  (0 < train_months)%nat → (0 < test_months)%nat → (len < fuel)%nat →
  WalkForwardEngine._split_windows fuel len train_months test_months =
    Some (nth_window (train_months * 21) (test_months * 21) <$> seq 0 (window_count len (train_months * 21) (test_months * 21))).
Proof.
  intros Htr Hte Hf. unfold WalkForwardEngine._split_windows.
  set (train_days := (train_months * 21)%nat). set (test_days := (test_months * 21)%nat).
  assert (0 < train_days ∧ 0 < test_days)%nat as [Ht0 He0] by lia.
  destruct (Nat.eqb_spec len 0) as [->|]; [unfold window_count; by rewrite (proj2 (Nat.ltb_lt _ _)) by lia|].
  destruct (Nat.ltb_spec len (train_days + test_days)) as [|Hle]; [unfold window_count; by rewrite (proj2 (Nat.ltb_lt _ _)) by lia|].
  apply (split_from_spec len train_days test_days Ht0 He0 _ 0 fuel); [lia|].
  unfold window_count. rewrite (proj2 (Nat.ltb_ge _ _)) by lia.
  pose proof (Nat.div_le_mono (len - (train_days + test_days)) (len - 2) test_days).
  pose proof (Nat.div_le_upper_bound (len - (train_days + test_days)) test_days (len - (train_days + test_days)) ltac:(lia)). nia.
Qed.

(** The walk-forward split ends and tiles the data: for positive numbers of months
    (the request demands them) it returns, whatever the number of dates, exactly the
    windows that fit.  Each test period starts on the day after its training period, and
    the next one on the day after it; none goes beyond the data, and what is left
    behind the last one is too short for another. *)
Theorem windows_tile (len train_months test_months fuel : nat)
    (Htr : (0 < train_months)%nat) (Hte : (0 < test_months)%nat) (Hf : (len < fuel)%nat) :
  let train_days := (train_months * 21)%nat in let test_days := (test_months * 21)%nat in
  let ws := nth_window train_days test_days <$> seq 0 (window_count len train_days test_days) in
  WalkForwardEngine._split_windows fuel len train_months test_months = Some ws ∧
  (∀ j w, ws !! j = Some w → w.(test_start) = S w.(train_end) ∧ (w.(train_start) ≤ w.(train_end))%nat ∧
     (w.(test_start) ≤ w.(test_end) < len)%nat ∧
     (∀ w', ws !! S j = Some w' → w'.(test_start) = S w.(test_end))) ∧
  (len < train_days + test_days + window_count len train_days test_days * test_days)%nat.
Proof.
  split; [by apply split_windows_spec|]. set (train_days := (train_months * 21)%nat). set (test_days := (test_months * 21)%nat).
  assert (0 < train_days ∧ 0 < test_days)%nat as [Ht0 He0] by lia.
  pose proof (Nat.div_mod_eq (len - (train_days + test_days)) test_days) as Hd.
  pose proof (Nat.mod_upper_bound (len - (train_days + test_days)) test_days ltac:(lia)) as Hm.
  unfold window_count. destruct (Nat.ltb_spec len (train_days + test_days)) as [|Hle]; [split; [done|lia]|].
  set (q := ((len - (train_days + test_days)) / test_days)%nat) in *. split; [|nia].
  intros j w (i & -> & [-> Hi]%lookup_seq)%list_lookup_fmap_Some. cbn.
  assert (j * test_days ≤ q * test_days)%nat by (apply Nat.mul_le_mono_r; lia). split_and!; [lia..|].
  intros w' (i' & -> & [-> _]%lookup_seq)%list_lookup_fmap_Some. cbn. lia.
Qed.

(** With no months of test the loop would not end. *)
Lemma no_test_months_never_end (len train_months fuel : nat) :
  (0 < train_months * 21 ≤ len)%nat → WalkForwardEngine._split_windows fuel len train_months 0 = None.
Proof.
  intros H. unfold WalkForwardEngine._split_windows. rewrite (proj2 (Nat.eqb_neq _ _)), (proj2 (Nat.ltb_ge _ _)) by lia.
  induction fuel as [|fuel IH]; [done|]. cbn [WalkForwardEngine.split_from].
  rewrite (proj2 (Nat.leb_le _ _)), (proj2 (Nat.leb_gt _ _)) by lia. change (0 + 0 * 21)%nat with 0%nat. by rewrite IH.
Qed.

(** ** Runs *)

Section Run.
Context (thresholds : string → option float) (backtest : Window → result string (option WindowMetrics)).
Context (regimes_of : Window → list (string * option float)) (mean var : list float → float).
Abbreviation run := (WalkForwardEngine.run thresholds backtest regimes_of mean var).

Lemma evaluated_windows ws :
  window <$> imap (WalkForwardEngine._run_single_window backtest regimes_of) ws = ws.
Proof.
  apply list_eq. intros i. rewrite list_lookup_fmap, list_lookup_imap. destruct (ws !! i) as [w|]; [|done]. cbn.
  unfold WalkForwardEngine._run_single_window. by destruct (backtest w) as [[m|]|].
Qed.

Lemma judged r ws :
  let r' := WalkForwardEngine.judge thresholds mean var r ws in
  r'.(status) ∈ [PASS; REVIEW; FAIL] ∧ (r'.(status) = PASS ↔ r'.(overall_gate) = Some GatePASS).
Proof.
  unfold WalkForwardEngine.judge. cbn [status overall_gate]. set (v := GateEvaluator.evaluate_all _ _ _ _ _ _).
  destruct (overall v); split; (set_solver || by split).
Qed.

(** An out-of-sample run always ends in a verdict or in an error, never running.  With
    too few dates for one window it is the error INSUFFICIENT_DATA.  Otherwise every
    window that fits was tested, in order; the status is the verdict of the gates on
    the rounded averages of these windows, PASS exactly when theirs is.  A window whose
    backtest raised is not an error: it counts with zeros. *)
Theorem out_of_sample_run (id : string) (now : Z) (len train_months test_months fuel : nat)
    (Htr : (0 < train_months)%nat) (Hte : (0 < test_months)%nat) (Hf : (len < fuel)%nat) :
  ∃ r, run fuel id now len train_months test_months = Some r ∧ r.(run_id) = id ∧ r.(started_at) = now ∧
    let n := window_count len (train_months * 21) (test_months * 21) in
    (n = 0%nat → r.(status) = ERROR ∧ r.(error_code) = "INSUFFICIENT_DATA" ∧ r.(overall_gate) = None) ∧
    (n ≠ 0%nat → window <$> r.(windows) = nth_window (train_months * 21) (test_months * 21) <$> seq 0 n ∧
       (let v := GateEvaluator.evaluate_all thresholds r.(windows) r.(avg_sharpe) r.(avg_calmar) r.(worst_mdd) r.(sharpe_variance) in
        r.(overall_gate) = Some v.(overall) ∧ r.(gate_reasons) = v.(all_reasons)) ∧
       r.(worst_mdd) = round_to 4 (WalkForwardEngine.py_min (mdd <$> (metrics <$> r.(windows)))) ∧
       r.(status) ∈ [PASS; REVIEW; FAIL] ∧ (r.(status) = PASS ↔ r.(overall_gate) = Some GatePASS) ∧
       ∀ w e, w ∈ r.(windows) → backtest w.(window) = Err e → w.(metrics) = no_metrics).
Proof.
  unfold WalkForwardEngine.run. rewrite split_windows_spec by done.
  set (n := window_count _ _ _). cbn [fmap option_fmap option_map]. destruct n as [|n'].
  { eexists. split; [done|]. split_and!; done. }
  cbn [seq fmap list_fmap]. set (l := nth_window _ _ 0 :: _). eexists. split; [done|]. split_and!; [done|done|done|]. intros _.
  set (ws := imap _ l). destruct (judged (WalkForwardEngine.new_run id now) ws) as [H1 H2].
  split_and!; [apply evaluated_windows|done|done|done|done|done|]. intros w e Hw He. change (w ∈ ws) in Hw. unfold ws in Hw.
  apply elem_of_lookup_imap in Hw as (i & x & -> & _). revert He. unfold WalkForwardEngine._run_single_window.
  destruct (backtest x) as [[m|]|] eqn:E; cbn; congruence.
Qed.
End Run.

(** ** Jobs *)

Section Jobs.
Context (digest : string → nat → nat → list string → string).
Context {Data : Type} (engine : Request → Data → string → Z → OOSRun).
Abbreviation manager := (OOSJobManager.t).
Abbreviation submit_run := (OOSJobManager.submit_run digest engine).
Abbreviation find_existing_run := (OOSJobManager.find_existing_run digest).

Record Submission := { s_request : Request; s_data : Data; s_id : string; s_now : Z }.
Definition submit (x : Submission) (m : manager) : manager := (submit_run x.(s_request) x.(s_data) x.(s_id) x.(s_now) m).2.
Definition result_at (x : Submission) : OOSRun := engine x.(s_request) x.(s_data) x.(s_id) x.(s_now).

(** Ids are new, and the engine returns a run of the id it was given. *)
Definition fresh (m : manager) (x : Submission) : Prop :=
  dict_get x.(s_id) m.(OOSJobManager._runs) = None ∧ (result_at x).(run_id) = x.(s_id).

Lemma find_existing_iff m r run :
  find_existing_run m r = Some run ↔ ∃ id,
    dict_get (OOSJobManager._compute_param_hash digest r) m.(OOSJobManager._param_index) = Some id ∧ id ≠ "" ∧
    dict_get id m.(OOSJobManager._runs) = Some run ∧ run.(status) ∈ [RUNNING; PENDING; PASS; REVIEW].
Proof.
  unfold OOSJobManager.find_existing_run. split.
  - destruct (dict_get _ _) as [id|]; [|done]. case_bool_decide as Hid; [done|].
    destruct (dict_get id _) as [x|] eqn:E; [|done]. case_bool_decide; [|done]. intros [= <-]. by exists id.
  - intros (id & -> & Hid & -> & Hs). by rewrite bool_decide_false, bool_decide_true.
Qed.

Lemma submit_keeps_existing m x r run :
  fresh m x → find_existing_run m r = Some run → find_existing_run (submit x m) r = Some run.
Proof.
  intros [Hf Hid] Hr. pose proof Hr as Hr'. unfold submit, OOSJobManager.submit_run.
  destruct (find_existing_run m x.(s_request)) as [y|] eqn:E; [done|]. cbn. fold (result_at x). rewrite Hid.
  apply find_existing_iff in Hr as (id & H1 & H2 & H3 & H4). apply find_existing_iff. exists id. cbn.
  rewrite !dict_get_set. rewrite (bool_decide_false (id = _)) by congruence. rewrite bool_decide_false; [done|].
  intros Eh. unfold OOSJobManager.find_existing_run in E, Hr'. rewrite <- Eh in E. congruence.
Qed.

(** Idempotency of validation runs.  Once a request has a run that passed, is to be
    reviewed or still runs, the same request — the same version, months and tickers —
    is answered by that run, and nothing is run or stored, whatever other requests
    came in between.  The data of the request does not matter: new prices do not lead
    to a new verdict. *)
Theorem resubmission_replays (m : manager) (others : list Submission) (x : Submission) (run : OOSRun)
    (Hr : find_existing_run m x.(s_request) = Some run)
    (Hf : ∀ before y after, others = before ++ y :: after → fresh (run_ops submit before m) y) :
  let m' := run_ops submit others m in
  submit_run x.(s_request) x.(s_data) x.(s_id) x.(s_now) m' = (run, m').
Proof.
  cbv zeta. assert (find_existing_run (run_ops submit others m) x.(s_request) = Some run) as H.
  - induction others as [|y others IH] using rev_ind; [done|]. rewrite run_ops_app. apply submit_keeps_existing.
    + by apply (Hf others y []).
    + apply IH. intros before z after ->. apply (Hf before z (after ++ [y])). by rewrite <- app_assoc.
  - unfold OOSJobManager.submit_run. by rewrite H.
Qed.

Lemma latest_is_latest m run :
  OOSJobManager.get_latest m = Some run →
  run ∈ m.(OOSJobManager._runs).*2 ∧ ∀ other, other ∈ m.(OOSJobManager._runs).*2 → other.(started_at) ≤ run.(started_at).
Proof.
  unfold OOSJobManager.get_latest, OOSJobManager.by_start. set (l := m.(OOSJobManager._runs).*2).
  set (before := λ a b : OOSRun, started_at b <? started_at a). intros Hh.
  assert (StronglySorted (λ a b, started_at b ≤ started_at a) (sort_by before l)) as Hs.
  { apply sort_by_sorted; [intros a b c; lia|unfold before; intros a b; rewrite ?Z.ltb_lt, ?Z.ltb_ge; lia..]. }
  pose proof (sort_by_perm before l) as Hp. destruct (sort_by before l) as [|a rest]; [done|]. injection Hh as ->.
  apply StronglySorted_inv in Hs as [_ Hs]. split; [rewrite <- Hp; by left|]. intros other. rewrite <- Hp.
  intros [->|Ho]%elem_of_cons; [done|]. by eapply Forall_forall in Hs.
Qed.

(** Deployment is allowed only by the verdict of the latest run.  From the start of
    the process, whatever was submitted: when deployment is allowed, some submission's
    run has the overall verdict PASS, and no run started after it. *)
Theorem deployment_needs_a_pass (submissions : list Submission) :
  let m := run_ops submit submissions OOSJobManager.init in
  OOSJobManager.deploy_allowed m = true →
  ∃ x, x ∈ submissions ∧ (result_at x).(overall_gate) = Some GatePASS ∧ (result_at x) ∈ m.(OOSJobManager._runs).*2 ∧
    ∀ other, other ∈ m.(OOSJobManager._runs).*2 → other.(started_at) ≤ (result_at x).(started_at).
Proof.
  cbv zeta. set (m := run_ops submit submissions _). unfold OOSJobManager.deploy_allowed.
  destruct (OOSJobManager.get_latest m) as [run|] eqn:E; [|done]. intros Hg%bool_decide_eq_true.
  apply latest_is_latest in E as [Hin Hmax]. enough (∃ x, x ∈ submissions ∧ run = result_at x) as (x & Hx & ->) by by exists x.
  clear Hg Hmax. revert Hin. unfold m. induction submissions as [|y l IH] using rev_ind; [by intros ?%elem_of_nil|].
  rewrite run_ops_app. cbn. unfold submit, OOSJobManager.submit_run at 1.
  assert (run ∈ (OOSJobManager._runs (run_ops submit l OOSJobManager.init)).*2 → ∃ x, x ∈ l ++ [y] ∧ run = result_at x) as Hold.
  { intros (x & Hx & ->)%IH. exists x. split; [set_solver|done]. }
  destruct (find_existing_run _ _); cbn; [done|]. intros Hin. apply dict_set_values in Hin as [->|Hin]; [|by apply Hold].
  exists y. split; [set_solver|done].
Qed.
End Jobs.
End OosFacts.

(** * Runs *)

Module OosRuns.
Import OosFacts.

(** The section oos_gate of config/operational_thresholds.yaml *)
Definition configured (key : string) : option float :=
  dict_get key [("mdd_hard_limit", dec 40 2); ("max_turnover", of_Z 5); ("min_sharpe_ratio", dec 2 1);
    ("min_calmar_ratio", dec 1 1); ("regime_worst_mdd", dec 35 2); ("max_window_variance", of_Z 5);
    ("min_positive_windows_ratio", dec 5 1)].

Definition good : WindowMetrics :=
  {| cagr := dec 3 1; mdd := fneg (dec 1 1); sharpe_ratio := of_Z 2; calmar_ratio := of_Z 3; total_return := dec 5 2 |}.
Definition mean (l : list float) : float := (fsum l / of_Z (Z.of_nat (length l)))%pyf.
Definition var (l : list float) : float := mean ((λ x, (x - mean l) * (x - mean l))%pyf <$> l).

(** Every second window raises. *)
Definition half_raise (w : Window) : result string (option WindowMetrics) :=
  if Nat.even (w.(train_start) / 63) then Ok (Some good) else Err "no data".
Definition run_of (backtest : Window → result string (option WindowMetrics)) (id : string) (now : Z) : OOSRun :=
  default (WalkForwardEngine.new_run id now)
    (WalkForwardEngine.run configured backtest (λ _, []) mean var 1000 id now 756 24 3).

Lemma windows_tile_witness :
  WalkForwardEngine._split_windows 757 756 24 3 = Some (nth_window 504 63 <$> seq 0 4) ∧
  window_count 756 504 63 = 4%nat ∧ (756 < 504 + 63 + window_count 756 504 63 * 63)%nat.
Proof.
  destruct (windows_tile 756 24 3 757) as (H & _ & H2); [lia..|]. split; [exact H|]. split; [vm_compute; reflexivity|exact H2].
Defined.

Lemma out_of_sample_run_witness :
  ∃ r, WalkForwardEngine.run configured half_raise (λ _, []) mean var 1000 "a" 5 756 24 3 = Some r ∧ r.(run_id) = "a" ∧
    window <$> r.(windows) = nth_window 504 63 <$> seq 0 4.
Proof.
  destruct (out_of_sample_run configured half_raise (λ _, []) mean var "a" 5 756 24 3 1000) as (r & H1 & H2 & _ & _ & H3); [lia..|].
  exists r. split; [exact H1|]. split; [exact H2|]. exact (proj1 (H3 ltac:(discriminate))).
Defined.

(** Half of the backtests raised, and the run passes. *)
Example passes_with_half_the_windows_failing :
  let r := run_of half_raise "a" 5 in
  r.(status) = PASS ∧ length (List.filter (λ w, (w.(metrics).(total_return) >? fzero)%pyf) r.(windows)) = 2%nat ∧ length r.(windows) = 4%nat.
Proof. vm_compute. repeat split. Qed.

(** A figure that is not a number is never on the wrong side of its threshold. *)
Example not_a_number_passes :
  (GateEvaluator.evaluate_all configured [] S754_nan S754_nan S754_nan S754_nan).(overall) = GatePASS.
Proof. vm_compute. reflexivity. Qed.

(** Requests for two versions; the digest joins them with the tickers. *)
Definition joined (v : string) (a b : nat) (l : list string) : string := v +:+ String.concat "," l.
Definition request (v : string) : Request := {| strategy_version := v; train_months := 24; test_months := 3; tickers := ["005930"] |}.
Definition engine (r : Request) (data : bool) (id : string) (now : Z) : OOSRun :=
  run_of (λ _, if data then Ok (Some good) else Err "no data") id now.
Definition submission (v : string) (data : bool) (id : string) (now : Z) : Submission :=
  {| s_request := request v; s_data := data; s_id := id; s_now := now |}.

(** The second submission has data on which the strategy fails. *)
Lemma resubmission_replays_witness :
  let m := submit joined engine (submission "1" true "a" 5) OOSJobManager.init in
  let m' := run_ops (submit joined engine) [submission "2" true "b" 6] m in
  OOSJobManager.submit_run joined engine (request "1") false "c" 7 m' = (engine (request "1") true "a" 5, m').
Proof.
  apply (resubmission_replays joined engine _ [submission "2" true "b" 6] (submission "1" false "c" 7)).
  - vm_compute. reflexivity.
  - intros before y after E. destruct before as [|z [|]]; [|discriminate..]. injection E as <- _. split; vm_compute; reflexivity.
Defined.

Lemma deployment_needs_a_pass_witness :
  let l := [submission "1" false "a" 5; submission "2" true "b" 6] in
  ∃ x, x ∈ l ∧ (result_at engine x).(overall_gate) = Some GatePASS.
Proof.
  destruct (deployment_needs_a_pass joined engine [submission "1" false "a" 5; submission "2" true "b" 6]) as (x & H1 & H2 & _).
  - vm_compute. reflexivity.
  - exists x. exact (conj H1 H2).
Defined.
End OosRuns.
