(* ===== verification/KisClient.v ===== *)
(** The KIS OpenAPI transport: the settings of backend/config/settings.py that choose
    the credentials and admit the WebSocket address, and the token manager and the REST
    client of backend/core/data_collector/kis_client.py.

    The network, the clocks and the retry controller (tenacity) are parameters; the
    controller's documented behaviour is the class [Tenacity].  Texts of the messages the
    program makes up itself are left out ([JNull]).  [sent] is a ghost
    record of every request that left.  Times are microseconds. *)

From stdpp Require Import base option list strings.
From Stdlib Require Import ZArith Lia Ascii Floats.SpecFloat.
From S2P Require Import Prelude PyFloat PyDict PyFormat PyParse Constants Calendar.

(** * JSON values *)

Inductive JValue :=
  | JNull
  | JBool (b : bool)
  | JInt (z : Z)
  | JFloat (x : float)
  | JStr (s : string)
  | JArray (items : list JValue)
  | JObject (fields : list (string * JValue)).

(** [if v] *)
Definition truthy (v : JValue) : bool :=
  match v with
  | JNull => false
  | JBool b => b
  | JInt z => negb (z =? 0)
  | JFloat x => negb (feq x fzero)
  | JStr s => negb (bool_decide (s = ""))
  | JArray items => negb (bool_decide (length items = 0%nat))
  | JObject fields => negb (bool_decide (length fields = 0%nat))
  end.
(** [v == s] for a text [s] *)
Definition is_str (v : JValue) (s : string) : bool :=
  match v with JStr t => bool_decide (t = s) | _ => false end.

(** * Exceptions *)

Inductive exc :=
  | KISAPIError (code message : JValue)
  | HTTPStatusError (status : Z) (text : string)
  | HTTPError (class_name text : string)  (** the other exceptions of httpx *)
  | RetryError (last_attempt : exc)
  | OtherException (class_name text : string).

(** [int(v)] *)
Definition py_int_of (v : JValue) : result exc Z :=
  match v with
  | JBool b => Ok (if b then 1 else 0)
  | JInt z => Ok z
  | JFloat x => match trunc x with Some z => Ok z | None => Err (OtherException "ValueError" "") end
  | JStr s => match py_int s with Some z => Ok z | None => Err (OtherException "ValueError" "") end
  | _ => Err (OtherException "TypeError" "")
  end.
(** [v[k]] and [v.get(k)] of decoded JSON *)
Definition subscript (v : JValue) (k : string) : result exc JValue :=
  match v with
  | JObject fields => match dict_get k fields with Some x => Ok x | None => Err (OtherException "KeyError" k) end
  | _ => Err (OtherException "TypeError" "")
  end.
Definition get_or (v : JValue) (k : string) (d : JValue) : result exc JValue :=
  match v with
  | JObject fields => Ok (default d (dict_get k fields))
  | _ => Err (OtherException "AttributeError" "")
  end.

Lemma decoding_errors (v : JValue) (k : string) (d : JValue) e :
  py_int_of v = Err e ∨ subscript v k = Err e ∨ get_or v k d = Err e → ∃ c t, e = OtherException c t.
Proof. intros [H|[H|H]]; destruct v; cbn in H; repeat case_match; simplify_eq; eauto. Qed.

(** * KISSettings *)

Record KISCredential := {
  app_key : string;
  app_secret : string;
  account_no : string;
  account_prod : string;
  base_url : string;
  websocket_url : string;
}.
(** [KISCredential()] *)
Definition no_credential : KISCredential := {|
  app_key := ""; app_secret := ""; account_no := ""; account_prod := "01"; base_url := ""; websocket_url := "" |}.

Record KISSettings := {
  trading_mode : TradingMode;
  live : KISCredential;  (** the [live_...] fields *)
  demo : KISCredential;  (** the [demo_...] fields *)
  api_retry_count : Z;
  token_retry_count : Z;
  token_retry_max_wait : Z;
  ws_insecure_allow : string;
  ws_exception_ticket : string;
  ws_exception_expires_at : string;
}.

Module Settings.
Definition is_live (s : KISSettings) : bool := bool_decide (s.(trading_mode) = LIVE).
Definition is_demo (s : KISSettings) : bool := bool_decide (s.(trading_mode) = DEMO).
Definition is_backtest (s : KISSettings) : bool := bool_decide (s.(trading_mode) = BACKTEST).
Definition active_credential (s : KISSettings) : KISCredential :=
  if is_live s then s.(live) else if is_demo s then s.(demo) else no_credential.

Definition _parse_ws_insecure_allow (raw : string) : option bool :=
  let normalized := lower (strip raw) in
  if bool_decide (normalized = "true") then Some true
  else if bool_decide (normalized = "false") then Some false
  else None.

(** [datetime.strptime(s, "%Y-%m-%d")]: the fields as the format's regular
    expression takes them, nothing left over, and a date that exists. *)
Definition two (a b : ascii) : option Z :=
  match digit_value a, digit_value b with Some x, Some y => Some (x * 10 + y) | _, _ => None end.
Definition year_field (s : string) : option (Z * string) :=
  match s with
  | String a (String b (String c (String d rest))) =>
      match two a b, two c d with Some x, Some y => Some (x * 100 + y, rest) | _, _ => None end
  | _ => None
  end.
Definition short_field (lead : Z) (s : string) : option (Z * string) :=
  match s with
  | String a rest => match digit_value a with Some x => if lead <=? x then Some (x, rest) else None | None => None end
  | "" => None
  end.
(** [1[0-2]|0[1-9]|[1-9]] *)
Definition month_field (s : string) : option (Z * string) :=
  match s with
  | String a (String b rest) =>
      match two a b with
      | Some x => if (1 <=? x) && (x <=? 12) then Some (x, rest) else short_field 1 s
      | None => short_field 1 s
      end
  | _ => short_field 1 s
  end.
(** [3[0-1]|[1-2]\d|0[1-9]|[1-9]| [1-9]] *)
Definition day_field (s : string) : option (Z * string) :=
  match s with
  | String " " rest => short_field 1 rest
  | String a (String b rest) =>
      match two a b with
      | Some x => if (1 <=? x) && (x <=? 31) then Some (x, rest) else short_field 1 s
      | None => short_field 1 s
      end
  | _ => short_field 1 s
  end.
Definition days_in_month (y m : Z) : Z :=
  if m =? 12 then 31 else days_before_month y (m + 1) - days_before_month y m.
Definition strptime_date (s : string) : option Z :=
  match year_field s with
  | Some (y, String "-" s') =>
      match month_field s' with
      | Some (m, String "-" s'') =>
          match day_field s'' with
          | Some (d, "") => if (1 <=? y) && (d <=? days_in_month y m) then Some (date y m d) else None
          | _ => None
          end
      | _ => None
      end
  | _ => None
  end.

Inductive Refusal :=
  | SchemeNotAllowed
  | InvalidFlag  (** the [ValueError] of [_parse_ws_insecure_allow] *)
  | Insecure
  | NoTicket
  | NoExpiry
  | BadExpiry
  | Expired.

(** Microseconds of 23:59:59 UTC on day [d] *)
Definition end_of_day (d : Z) : Z := d * day_us + (time 23 59 + 59000000).

(** [now]: microseconds UTC, day 0 as in [date] *)
Definition validate_websocket_security (s : KISSettings) (environment : string) (now : Z) : result Refusal unit :=
  let is_production := bool_decide (environment = "production") in
  let ws_url := (active_credential s).(websocket_url) in
  if bool_decide (ws_url = "") then Ok tt
  else if negb (starts_with "ws://" ws_url || starts_with "wss://" ws_url) then Err SchemeNotAllowed
  else if starts_with "wss://" ws_url then Ok tt
  else if negb (is_production && is_live s) then Ok tt
  else
    match _parse_ws_insecure_allow s.(ws_insecure_allow) with
    | None => Err InvalidFlag
    | Some insecure_allow =>
        if negb insecure_allow then Err Insecure
        else if bool_decide (strip s.(ws_exception_ticket) = "") then Err NoTicket
        else if bool_decide (strip s.(ws_exception_expires_at) = "") then Err NoExpiry
        else
          match strptime_date (strip s.(ws_exception_expires_at)) with
          | None => Err BadExpiry
          | Some d => if end_of_day d <? now then Err Expired else Ok tt
          end
    end.

Example strptime_examples :
  strptime_date "2026-06-30" = Some (date 2026 6 30) ∧ strptime_date "2026-6-3" = Some (date 2026 6 3) ∧
  strptime_date "2026-02-29" = None ∧ strptime_date "2024-02-29" = Some (date 2024 2 29) ∧
  strptime_date "2026-12- 5" = Some (date 2026 12 5) ∧ strptime_date "2026-13-01" = None ∧
  strptime_date "2026-1-32" = None ∧ strptime_date "26-01-01" = None ∧ strptime_date "2026-01-011" = None ∧
  strptime_date "0000-01-01" = None ∧ strptime_date "2026-12-31" = Some (date 2026 12 31).
Proof. vm_compute. split_and!; reflexivity. Qed.
End Settings.

(** * The network *)

Record Headers := { authorization : JValue; h_appkey : string; h_appsecret : string; h_tr_id : string }.
Record Request := {
  method : string;
  url : string;
  headers : option Headers;
  params : option (list (string * string));
  body : option (list (string * string));
}.
(** [json]: the outcome of [response.json()] *)
Record Response := { status_code : Z; text : string; json : result exc JValue }.

Class Network (W : Type) := {
  http : Request → W → result exc Response * W;
  now : W → Z;
  monotonic : W → Z;
  sleep : Z → W → W;
}.

(** The token manager, the request clock of the client, and the network they live in *)
Record Client (W : Type) := {
  net : W;
  _access_token : JValue;
  _token_expires_at : option Z;
  _websocket_key : JValue;
  _last_request_time : Z;
  sent : list Request;
}.
Arguments net {W} _.
Arguments _access_token {W} _.
Arguments _token_expires_at {W} _.
Arguments _websocket_key {W} _.
Arguments _last_request_time {W} _.
Arguments sent {W} _.

(** [KISClient()] with its [KISTokenManager()] *)
Definition new_client {W} (w : W) : Client W := {|
  net := w; _access_token := JNull; _token_expires_at := None; _websocket_key := JNull;
  _last_request_time := 0; sent := [] |}.
Definition on_net {W} (f : W → W) (c : Client W) : Client W := {|
  net := f c.(net); _access_token := c.(_access_token); _token_expires_at := c.(_token_expires_at);
  _websocket_key := c.(_websocket_key); _last_request_time := c.(_last_request_time); sent := c.(sent) |}.
Definition set_access_token {W} (v : JValue) (c : Client W) : Client W := {|
  net := c.(net); _access_token := v; _token_expires_at := c.(_token_expires_at);
  _websocket_key := c.(_websocket_key); _last_request_time := c.(_last_request_time); sent := c.(sent) |}.
Definition set_expires_at {W} (t : Z) (c : Client W) : Client W := {|
  net := c.(net); _access_token := c.(_access_token); _token_expires_at := Some t;
  _websocket_key := c.(_websocket_key); _last_request_time := c.(_last_request_time); sent := c.(sent) |}.
Definition set_websocket_key {W} (v : JValue) (c : Client W) : Client W := {|
  net := c.(net); _access_token := c.(_access_token); _token_expires_at := c.(_token_expires_at);
  _websocket_key := v; _last_request_time := c.(_last_request_time); sent := c.(sent) |}.
Definition set_last_request_time {W} (t : Z) (c : Client W) : Client W := {|
  net := c.(net); _access_token := c.(_access_token); _token_expires_at := c.(_token_expires_at);
  _websocket_key := c.(_websocket_key); _last_request_time := t; sent := c.(sent) |}.

(** * tenacity *)

Record wait_exponential := { multiplier : Z; wait_min : Z; wait_max : Z }.

(** [@retry(stop=stop_after_attempt(stop), wait=wait)]: a call in its [attempt]-th
    attempt.  The controller runs the body, returns what it returns, and on an
    exception raises [RetryError] when the attempts are used up and otherwise waits
    and runs the body again. *)
Class Tenacity (W : Type) := {
  pause : wait_exponential → Z → W → W;
  retrying {A} : Z → wait_exponential → Z → M (Client W) exc A → M (Client W) exc A;
  retrying_ok {A} stop wait attempt (f : M (Client W) exc A) s a s' :
    f s = (Ok a, s') → retrying stop wait attempt f s = (Ok a, s');
  retrying_stop {A} stop wait attempt (f : M (Client W) exc A) s e s' :
    f s = (Err e, s') → stop ≤ attempt → retrying stop wait attempt f s = (Err (RetryError e), s');
  retrying_again {A} stop wait attempt (f : M (Client W) exc A) s e s' :
    f s = (Err e, s') → attempt < stop →
    retrying stop wait attempt f s = retrying stop wait (attempt + 1) f (on_net (pause wait attempt) s');
}.

(** The same course as a loop over the attempts that are left after this one *)
Fixpoint attempts {W A} (pauses : Z → W → W) (left : nat) (attempt : Z) (f : M (Client W) exc A) : M (Client W) exc A :=
  λ s, match f s with
  | (Ok a, s') => (Ok a, s')
  | (Err e, s') =>
      match left with
      | O => (Err (RetryError e), s')
      | S left' => attempts pauses left' (attempt + 1) f (on_net (pauses attempt) s')
      end
  end.

Lemma retrying_attempts {W} `{Tenacity W} {A} stop wait (f : M (Client W) exc A) left attempt s :
  left = Z.to_nat (stop - attempt) →
  retrying stop wait attempt f s = attempts (pause wait) left attempt f s.
Proof.
  revert attempt s. induction left as [|left IH]; intros attempt s Hl; cbn; destruct (f s) as [[a|e] s'] eqn:Ef;
    try by apply retrying_ok.
  - apply retrying_stop; [done|lia].
  - rewrite (retrying_again _ _ _ _ _ _ _ Ef) by lia. apply IH. lia.
Qed.

Section Transport.
Context {W : Type} `{Network W} `{Tenacity W}.
(** [str(exc)], [json.loads(text)] ([None] is its error) and [str(x)] of a float *)
Context (str_exc : exc → string) (json_loads : string → option JValue) (str_float : float → string).
Context (settings : KISSettings).

Abbreviation Api := (M (Client W) exc).

Definition send (r : Request) : Api Response := λ s,
  let '(a, w) := http r s.(net) in
  (a, {| net := w; _access_token := s.(_access_token); _token_expires_at := s.(_token_expires_at);
         _websocket_key := s.(_websocket_key); _last_request_time := s.(_last_request_time);
         sent := s.(sent) ++ [r] |}).
Definition raise_for_status (r : Response) : Api unit :=
  if (200 <=? r.(status_code)) && (r.(status_code) <? 300) then mret tt
  else raise (HTTPStatusError r.(status_code) r.(text)).

Definition credential : KISCredential := Settings.active_credential settings.
Definition post_json (path : string) (fields : list (string * string)) : Request := {|
  method := "POST"; url := credential.(base_url) +:+ path; headers := None; params := None; body := Some fields |}.

(** ** KISTokenManager *)

(** [datetime.now() < self._token_expires_at - timedelta(minutes=10)] *)
Definition margin : Z := 10 * 60000000.
Definition has_valid_token (s : Client W) : bool :=
  truthy s.(_access_token) &&
  match s.(_token_expires_at) with Some t => now s.(net) <? t - margin | None => false end.

Definition exc_class (e : exc) : string :=
  match e with
  | KISAPIError _ _ => "KISAPIError" | HTTPStatusError _ _ => "HTTPStatusError"
  | RetryError _ => "RetryError" | HTTPError c _ | OtherException c _ => c
  end.
Definition _parse_kis_error_body (t : string) : option JValue * option JValue :=
  match json_loads t with
  | Some (JObject fields) => (dict_get "error_code" fields, dict_get "error_description" fields)
  | _ => (None, None)
  end.
(** [x or d] *)
Definition or_str (x : option JValue) (d : string) : JValue :=
  match x with Some v => if truthy v then v else JStr d | None => JStr d end.
Definition _wrap_token_issue_error (e : exc) : exc :=
  match e with
  | HTTPStatusError status t =>
      let '(err_code, err_desc) := _parse_kis_error_body t in
      KISAPIError (or_str err_code ("HTTP" +:+ fmt_int status)) (or_str err_desc ("HTTP " +:+ fmt_int status))
  | _ => KISAPIError (JStr (exc_class e)) (JStr (str_exc e))
  end.

Definition token_request : Request := post_json "/oauth2/tokenP"
  [("grant_type", "client_credentials"); ("appkey", credential.(app_key)); ("appsecret", credential.(app_secret))].
Definition _do_issue : Api JValue :=
  response ← send token_request;
  raise_for_status response;;
  lift_result response.(json).
Definition _issue_token : Api unit :=
  data ← try_except
    (retrying settings.(token_retry_count)
       {| multiplier := 2; wait_min := 2; wait_max := settings.(token_retry_max_wait) |} 1 _do_issue)
    (λ e, match e with
     | RetryError original => raise (_wrap_token_issue_error original)
     | HTTPStatusError _ _ | HTTPError _ _ => raise (_wrap_token_issue_error e)
     | _ => raise e
     end);
  token ← lift_result (subscript data "access_token");
  modify (set_access_token token);;
  v ← lift_result (get_or data "expires_in" (JInt 86400));
  expires_in ← lift_result (py_int_of v);
  modify (λ s, set_expires_at (now s.(net) + expires_in * 1000000) s).

Definition get_access_token : Api JValue :=
  if Settings.is_backtest settings then raise (KISAPIError (JStr "BACKTEST") JNull)
  else
    valid ← gets has_valid_token;
    if (valid : bool) then gets _access_token else _issue_token;; gets _access_token.

Definition approval_request : Request := post_json "/oauth2/Approval"
  [("grant_type", "client_credentials"); ("appkey", credential.(app_key)); ("secretkey", credential.(app_secret))].
Definition _do_approve : Api JValue :=
  response ← send approval_request;
  raise_for_status response;;
  lift_result response.(json).
Definition get_websocket_key : Api JValue :=
  if Settings.is_backtest settings then raise (KISAPIError (JStr "BACKTEST") JNull)
  else
    key ← gets _websocket_key;
    if truthy key then mret key
    else
      data ← retrying settings.(api_retry_count) {| multiplier := 1; wait_min := 2; wait_max := 10 |} 1 _do_approve;
      key ← lift_result (subscript data "approval_key");
      modify (set_websocket_key key);;
      gets _websocket_key.

(** [jittered_token_issue] (kis_startup.py); [delay] is the random jitter. *)
Definition jittered_token_issue (jitter_max_seconds delay : Z) : Api unit :=
  (if 0 <? jitter_max_seconds then modify (on_net (sleep delay)) else mret tt);;
  modify (λ s, {| net := s.(net); _access_token := JNull; _token_expires_at := None; _websocket_key := JNull;
                  _last_request_time := s.(_last_request_time); sent := s.(sent) |});;
  get_access_token;;
  mret tt.

(** ** KISClient *)

Definition _get_tr_id (live_id demo_id : string) : string :=
  if Settings.is_live settings then live_id else demo_id.
Definition _ensure_not_backtest : Api unit :=
  when (Settings.is_backtest settings) (raise (KISAPIError (JStr "BACKTEST") JNull)).
Definition _get_auth_headers (tr_id : string) : Api Headers :=
  token ← get_access_token;
  mret {| authorization := token; h_appkey := credential.(app_key);
          h_appsecret := credential.(app_secret); h_tr_id := tr_id |}.

Definition _min_interval : Z := 50000.
Definition _rate_limit_wait : Api unit :=
  now' ← gets (λ s, monotonic s.(net));
  last ← gets _last_request_time;
  let elapsed := now' - last in
  when (elapsed <? _min_interval) (modify (on_net (sleep (_min_interval - elapsed))));;
  modify (λ s, set_last_request_time (monotonic s.(net)) s).

(** [if method == "GET": ... elif method == "POST": ... else: raise] *)
Definition dispatch (meth path : string) (hs : Headers) (ps fields : option (list (string * string))) : Api Response :=
  if bool_decide (meth = "GET") then
    send {| method := "GET"; url := credential.(base_url) +:+ path; headers := Some hs; params := ps; body := None |}
  else if bool_decide (meth = "POST") then
    send {| method := "POST"; url := credential.(base_url) +:+ path; headers := Some hs; params := None; body := fields |}
  else raise (OtherException "ValueError" "Unsupported HTTP method").
Definition _do_request (meth path tr_id : string) (params body : option (list (string * string))) : Api JValue :=
  _rate_limit_wait;;
  hs ← _get_auth_headers tr_id;
  response ← dispatch meth path hs params body;
  raise_for_status response;;
  data ← lift_result response.(json);
  rt_cd ← lift_result (get_or data "rt_cd" JNull);
  if truthy rt_cd && negb (is_str rt_cd "0") then
    error_msg ← lift_result (get_or data "msg1" (JStr "Unknown KIS API error"));
    raise (KISAPIError rt_cd error_msg)
  else mret data.
Definition _request (meth path tr_id : string) (params body : option (list (string * string))) : Api JValue :=
  _ensure_not_backtest;;
  retrying settings.(api_retry_count) {| multiplier := 1; wait_min := 2; wait_max := 10 |} 1
    (_do_request meth path tr_id params body).

Definition GET (path tr_id : string) (ps : list (string * string)) : Api JValue := _request "GET" path tr_id (Some ps) None.
Definition POST (path tr_id : string) (fields : list (string * string)) : Api JValue := _request "POST" path tr_id None (Some fields).
Definition account : list (string * string) :=
  [("CANO", credential.(account_no)); ("ACNT_PRDT_CD", credential.(account_prod))].

Definition get_kr_stock_price (ticker : string) : Api JValue :=
  GET "/uapi/domestic-stock/v1/quotations/inquire-price" "FHKST01010100"
    [("FID_COND_MRKT_DIV_CODE", "J"); ("FID_INPUT_ISCD", ticker)].
Definition get_kr_stock_daily (ticker start_date end_date period : string) : Api JValue :=
  GET "/uapi/domestic-stock/v1/quotations/inquire-daily-itemchartprice" "FHKST03010100"
    [("FID_COND_MRKT_DIV_CODE", "J"); ("FID_INPUT_ISCD", ticker); ("FID_INPUT_DATE_1", start_date);
     ("FID_INPUT_DATE_2", end_date); ("FID_PERIOD_DIV_CODE", period); ("FID_ORG_ADJ_PRC", "0")].
Definition get_us_stock_price (ticker exchange : string) : Api JValue :=
  GET "/uapi/overseas-price/v1/quotations/price" "HHDFS00000300"
    [("AUTH", ""); ("EXCD", exchange); ("SYMB", ticker)].
Definition get_us_stock_daily (ticker period : string) (count : Z) (exchange : string) : Api JValue :=
  GET "/uapi/overseas-price/v1/quotations/dailyprice" "HHDFS76240000"
    [("AUTH", ""); ("EXCD", exchange); ("SYMB", ticker); ("GUBN", "0"); ("BYMD", ""); ("MODP", "1")].

Definition place_kr_order (ticker side : string) (quantity price : Z) (order_type : string) : Api JValue :=
  let tr_id := if bool_decide (side = "BUY") then _get_tr_id "TTTC0802U" "VTTC0802U"
               else _get_tr_id "TTTC0801U" "VTTC0801U" in
  POST "/uapi/domestic-stock/v1/trading/order-cash" tr_id
    (account ++ [("PDNO", ticker); ("ORD_DVSN", order_type); ("ORD_QTY", fmt_int quantity); ("ORD_UNPR", fmt_int price)]).
Definition place_us_order (ticker side : string) (quantity : Z) (price : float) (exchange : string) : Api JValue :=
  let tr_id := if bool_decide (side = "BUY") then _get_tr_id "TTTS0308U" "VTTS0308U"
               else _get_tr_id "TTTS0307U" "VTTS0307U" in
  let order_dvsn := if flt fzero price then "00" else "32" in
  POST "/uapi/overseas-stock/v1/trading/order" tr_id
    (account ++ [("OVRS_EXCG_CD", exchange); ("PDNO", ticker); ("ORD_DVSN", order_dvsn);
                 ("ORD_QTY", fmt_int quantity); ("OVRS_ORD_UNPR", str_float price)]).

Definition inquire_kr_daily_ccld (start_date end_date order_dv ccld_dv fk nk : string) : Api JValue :=
  GET "/uapi/domestic-stock/v1/trading/inquire-daily-ccld" (_get_tr_id "TTTC8001R" "VTTC8001R")
    (account ++ [("INQR_STRT_DT", start_date); ("INQR_END_DT", end_date); ("SLL_BUY_DVSN_CD", order_dv);
     ("INQR_DVSN", "00"); ("PDNO", ""); ("CCLD_DVSN", ccld_dv); ("ORD_GNO_BRNO", ""); ("ODNO", "");
     ("INQR_DVSN_3", "00"); ("INQR_DVSN_1", ""); ("CTX_AREA_FK100", fk); ("CTX_AREA_NK100", nk)]).
Definition inquire_us_ccld (start_date end_date order_dv ccld_dv fk nk : string) : Api JValue :=
  GET "/uapi/overseas-stock/v1/trading/inquire-ccld" (_get_tr_id "TTTS3035R" "VTTS3035R")
    (account ++ [("PDNO", ""); ("ORD_STRT_DT", start_date); ("ORD_END_DT", end_date); ("SLL_BUY_DVSN_CD", order_dv);
     ("CCLD_NCCS_DVSN", ccld_dv); ("OVRS_EXCG_CD", ""); ("SORT_SQN", "DS"); ("ORD_DT", ""); ("ORD_GNO_BRNO", "");
     ("ODNO", ""); ("CTX_AREA_FK200", fk); ("CTX_AREA_NK200", nk)]).
Definition get_kr_balance : Api JValue :=
  GET "/uapi/domestic-stock/v1/trading/inquire-balance" (_get_tr_id "TTTC8434R" "VTTC8434R")
    (account ++ [("AFHR_FLPR_YN", "N"); ("OFL_YN", ""); ("INQR_DVSN", "02"); ("UNPR_DVSN", "01");
     ("FUND_STTL_ICLD_YN", "N"); ("FNCG_AMT_AUTO_RDPT_YN", "N"); ("PRCS_DVSN", "00");
     ("CTX_AREA_FK100", ""); ("CTX_AREA_NK100", "")]).
Definition get_us_balance : Api JValue :=
  GET "/uapi/overseas-stock/v1/trading/inquire-balance" (_get_tr_id "TTTS3012R" "VTTS3012R")
    (account ++ [("OVRS_EXCG_CD", "NASD"); ("TR_CRCY_CD", "USD"); ("CTX_AREA_FK200", ""); ("CTX_AREA_NK200", "")]).
Definition get_exchange_rate : Api JValue :=
  GET "/uapi/overseas-stock/v1/trading/inquire-present-balance" "CTRP6504R"
    (account ++ [("OVRS_EXCG_CD", "NASD"); ("TR_CRCY_CD", "USD")]).

(** ** Properties *)

(** A request of [_do_request] with the token [t], and whether [data] is no refusal *)
Definition api_request (meth path tr_id : string) (params body : option (list (string * string))) (t : JValue) : Request := {|
  method := meth; url := credential.(base_url) +:+ path;
  headers := Some {| authorization := t; h_appkey := credential.(app_key); h_appsecret := credential.(app_secret);
                     h_tr_id := tr_id |};
  params := if bool_decide (meth = "GET") then params else None;
  body := if bool_decide (meth = "GET") then None else body |}.
Lemma dispatch_send meth path tr_id ps fields t :
  meth = "GET" ∨ meth = "POST" →
  dispatch meth path {| authorization := t; h_appkey := credential.(app_key);
    h_appsecret := credential.(app_secret); h_tr_id := tr_id |} ps fields = send (api_request meth path tr_id ps fields t).
Proof. unfold dispatch. by intros [-> | ->]. Qed.
Definition accepted (data : JValue) : Prop :=
  ∃ rt_cd, get_or data "rt_cd" JNull = Ok rt_cd ∧ (truthy rt_cd = false ∨ rt_cd = JStr "0").

(** One attempt: some token requests, and then the request itself or nothing *)
Definition round (rq : JValue → Request) (x : nat * option JValue) : list Request :=
  replicate x.1 token_request ++ match x.2 with Some t => [rq t] | None => [] end.

Definition tries (stop : Z) : nat := S (Z.to_nat (stop - 1)).

(** A retried body that sends one round per attempt *)
Lemma attempts_rounds {A X} (rd : X → list Request) (good : X → A → Prop) (Inv : X → Prop) (f : Api A) pauses left attempt s :
  (∀ s, ∃ x, (f s).2.(sent) = s.(sent) ++ rd x ∧ Inv x ∧ ∀ a, (f s).1 = Ok a → good x a) →
  ∃ xs, (attempts pauses left attempt f s).2.(sent) = s.(sent) ++ concat (rd <$> xs) ∧
    (0 < length xs ≤ S left)%nat ∧ Forall Inv xs ∧
    match (attempts pauses left attempt f s).1 with
    | Ok a => ∃ x, last xs = Some x ∧ good x a
    | Err e => length xs = S left ∧ ∃ e', e = RetryError e'
    end.
Proof.
  intros Hf. revert attempt s. induction left as [|left IH]; intros attempt s; cbn;
    destruct (Hf s) as (x & Hx & Hi & Hg); destruct (f s) as [[a|e] s'] eqn:Ef; cbn in *.
  - exists [x]. cbn. rewrite app_nil_r. split_and!; [done|lia|lia|by constructor|eauto].
  - exists [x]. cbn. rewrite app_nil_r. split_and!; [done|lia|lia|by constructor|done|eauto].
  - exists [x]. cbn. rewrite app_nil_r. split_and!; [done|lia|lia|by constructor|eauto].
  - destruct (IH (attempt + 1) (on_net (pauses attempt) s')) as (xs & Hxs & Hlen & Hi' & Hr).
    exists (x :: xs). cbn. rewrite Hxs. cbn. rewrite Hx, app_assoc. split_and!; [done|lia|lia|by constructor|].
    destruct (attempts pauses left (attempt + 1) f (on_net (pauses attempt) s')).1.
    + destruct Hr as (y & Hy & Hgood). exists y. split; [|done]. destruct xs; [done|]. done.
    + destruct Hr as [Hr ?]. split; [lia|done].
Qed.

Lemma raise_for_status_spec r s :
  raise_for_status r s = (if (200 <=? r.(status_code)) && (r.(status_code) <? 300) then Ok tt
                          else Err (HTTPStatusError r.(status_code) r.(text)), s).
Proof. unfold raise_for_status. by case_match. Qed.

(** [_do_issue]: one token request, whatever comes back; the rest of the client stays. *)
Lemma do_issue_spec s : ∃ r w, _do_issue s = (r, {| net := w; _access_token := s.(_access_token);
  _token_expires_at := s.(_token_expires_at); _websocket_key := s.(_websocket_key);
  _last_request_time := s.(_last_request_time); sent := s.(sent) ++ [token_request] |}).
Proof.
  unfold _do_issue, mbind, M_bind, send. destruct (http token_request s.(net)) as [[r|e] w]; [|eauto].
  rewrite raise_for_status_spec. case_match; [|eauto]. unfold lift_result. eauto.
Qed.

Definition same_but_net (s s' : Client W) : Prop :=
  s'.(_access_token) = s.(_access_token) ∧ s'.(_token_expires_at) = s.(_token_expires_at) ∧
  s'.(_websocket_key) = s.(_websocket_key) ∧ s'.(_last_request_time) = s.(_last_request_time).

Lemma attempts_same {A} (f : Api A) pauses left attempt s :
  (∀ s, same_but_net s (f s).2) → same_but_net s (attempts pauses left attempt f s).2.
Proof.
  intros Hf. revert attempt s. induction left as [|left IH]; intros attempt s; cbn;
    pose proof (Hf s) as H1; destruct (f s) as [[a|e] s']; cbn in *; try done.
  destruct (IH (attempt + 1) (on_net (pauses attempt) s')) as (E1 & E2 & E3 & E4).
  destruct H1 as (F1 & F2 & F3 & F4). repeat split; cbn in *; congruence.
Qed.

(** [_issue_token] keeps the old token unless an answer with a new one arrives. *)
Lemma issue_token_spec s :
  ∃ k, (_issue_token s).2.(sent) = s.(sent) ++ replicate k token_request ∧
    (0 < k ≤ tries settings.(token_retry_count))%nat ∧
    (_issue_token s).2.(_last_request_time) = s.(_last_request_time) ∧
    match (_issue_token s).1 with
    | Ok _ => ∃ data token v n, subscript data "access_token" = Ok token ∧
        get_or data "expires_in" (JInt 86400) = Ok v ∧ py_int_of v = Ok n ∧
        (_issue_token s).2.(_access_token) = token ∧
        (_issue_token s).2.(_token_expires_at) = Some (now (_issue_token s).2.(net) + n * 1000000)
    | Err e => (_issue_token s).2.(_token_expires_at) = s.(_token_expires_at) ∧
        ((_issue_token s).2.(_access_token) = s.(_access_token) ∨
         ∃ c t, e = OtherException c t) ∧ (∀ e', e ≠ RetryError e')
    end.
Proof.
  set (wt := {| multiplier := 2; wait_min := 2; wait_max := settings.(token_retry_max_wait) |}).
  destruct (attempts_rounds (λ _ : unit, [token_request]) (λ _ _, True) (λ _, True) _do_issue (pause wt)
    (Z.to_nat (settings.(token_retry_count) - 1)) 1 s) as (xs & Hxs & Hlen & _ & Hr).
  { intros s0. exists tt. destruct (do_issue_spec s0) as (r & w & ->). done. }
  pose proof (attempts_same _do_issue (pause wt) (Z.to_nat (settings.(token_retry_count) - 1)) 1 s) as Hsame.
  exists (length xs). assert (concat ((λ _ : unit, [token_request]) <$> xs) = replicate (length xs) token_request) as Hcat.
  { clear. induction xs; [done|]. cbn. by f_equal. }
  rewrite Hcat in Hxs. unfold _issue_token, try_except, mbind, M_bind. fold wt.
  rewrite (retrying_attempts _ _ _ _ _ _ eq_refl).
  destruct (attempts _ _ _ _ s) as [[data|e] s'] eqn:Ea; cbn in Hxs, Hr, Hsame.
  - destruct Hsame as (E1 & E2 & E3 & E4). { intros s0. destruct (do_issue_spec s0) as (r & w & ->). done. }
    unfold lift_result. destruct (subscript data "access_token") as [token|e] eqn:Et; cbn.
    + destruct (get_or data "expires_in" (JInt 86400)) as [v|e] eqn:Ev; cbn.
      * destruct (py_int_of v) as [n|e] eqn:En; cbn.
        -- split_and!; [done|lia|unfold tries; lia|done|]. exists data, token, v, n. done.
        -- destruct (decoding_errors v "" JNull e) as (c & t & ->); [auto|].
           split_and!; [done|lia|unfold tries; lia|done|done|eauto|done].
      * destruct (decoding_errors data "expires_in" (JInt 86400) e) as (c & t & ->); [auto|].
        split_and!; [done|lia|unfold tries; lia|done|done|eauto|done].
    + destruct (decoding_errors data "access_token" JNull e) as (c & t & ->); [auto|].
      split_and!; [done|lia|unfold tries; lia|done|done|by left|done].
  - destruct Hr as [_ [e' ->]].
    destruct Hsame as (E1 & E2 & E3 & E4). { intros s0. destruct (do_issue_spec s0) as (r & w & ->). done. }
    unfold raise; cbn. split_and!; [done|lia|unfold tries; lia|done|done|by left|].
    intros e0 H1. unfold _wrap_token_issue_error in H1. repeat case_match; simplify_eq.
Qed.

Lemma get_access_token_sends s :
  ∃ k, (get_access_token s).2.(sent) = s.(sent) ++ replicate k token_request ∧
    (k ≤ tries settings.(token_retry_count))%nat ∧
    (get_access_token s).2.(_last_request_time) = s.(_last_request_time).
Proof.
  unfold get_access_token. case_match; [exists 0%nat; cbn; rewrite app_nil_r; split_and!; [done|lia|done]|].
  unfold mbind, M_bind. cbn. destruct (has_valid_token s).
  - exists 0%nat. cbn. rewrite app_nil_r. split_and!; [done|lia|done].
  - destruct (issue_token_spec s) as (k & Hk & Hb & Hl & _). exists k.
    destruct (_issue_token s) as [[[]|e] s']; cbn in *; split_and!; done || lia.
Qed.

Lemma rate_limit_wait_spec s : ∃ w t, _rate_limit_wait s = (Ok tt, set_last_request_time t (on_net (λ _, w) s)).
Proof.
  unfold _rate_limit_wait, when, mbind, M_bind. cbn.
  destruct (_ <? _); cbn; [by eexists _, _|]. exists s.(net). eexists. by destruct s.
Qed.

Lemma do_request_round meth path tr_id ps fields s :
  meth = "GET" ∨ meth = "POST" →
  ∃ x, (_do_request meth path tr_id ps fields s).2.(sent) =
       s.(sent) ++ round (api_request meth path tr_id ps fields) x ∧
    (x.1 ≤ tries settings.(token_retry_count))%nat ∧
    ∀ data, (_do_request meth path tr_id ps fields s).1 = Ok data → is_Some x.2 ∧ accepted data.
Proof.
  intros Hm. unfold _do_request. unfold mbind, M_bind.
  destruct (rate_limit_wait_spec s) as (w & tm & ->). set (s1 := set_last_request_time _ _).
  destruct (get_access_token_sends s1) as (k & Hk & Hb & _). unfold _get_auth_headers, mbind, M_bind.
  destruct (get_access_token s1) as [[t|e] s2] eqn:Eg; cbn in Hk.
  2: { exists (k, None). unfold round. cbn. rewrite app_nil_r. done. }
  exists (k, Some t). cbn [mret M_ret]. unfold round. cbn. rewrite dispatch_send by done.
  set (rq := api_request _ _ _ _ _ _).
  unfold send. destruct (http rq s2.(net)) as [[r|e] w']; cbn; [|by rewrite Hk, <- app_assoc].
  rewrite raise_for_status_spec.
  case_match; cbn; [|by rewrite Hk, <- app_assoc].
  unfold lift_result. destruct r.(json) as [data|e]; cbn; [|by rewrite Hk, <- app_assoc].
  destruct (get_or data "rt_cd" JNull) as [rt|e] eqn:Er; cbn; [|by rewrite Hk, <- app_assoc].
  destruct (truthy rt && negb (is_str rt "0")) eqn:Eb; cbn.
  - destruct (get_or data "msg1" _); cbn; by rewrite Hk, <- app_assoc.
  - rewrite Hk, <- app_assoc. split_and!; [done|done|]. intros ? [= <-]. split; [done|]. exists rt. split; [done|].
    apply andb_false_iff in Eb as [?|Eb]; [by left|right]. apply negb_false_iff in Eb.
    destruct rt; cbn in Eb; try done. by apply bool_decide_eq_true in Eb as ->.
Qed.

(** A call that is not blocked, as a course of rounds *)
Lemma request_rounds meth path tr_id ps fields s :
  meth = "GET" ∨ meth = "POST" → Settings.is_backtest settings = false →
  ∃ xs, (_request meth path tr_id ps fields s).2.(sent) =
      s.(sent) ++ concat (round (api_request meth path tr_id ps fields) <$> xs) ∧
    (0 < length xs ≤ tries settings.(api_retry_count))%nat ∧
    Forall (λ x, (x.1 ≤ tries settings.(token_retry_count))%nat) xs ∧
    match (_request meth path tr_id ps fields s).1 with
    | Ok data => ∃ x, last xs = Some x ∧ is_Some x.2 ∧ accepted data
    | Err e => length xs = tries settings.(api_retry_count) ∧ ∃ e', e = RetryError e'
    end.
Proof.
  intros Hm Hb. unfold _request, _ensure_not_backtest, when. rewrite Hb. unfold mbind, M_bind. cbn.
  rewrite (retrying_attempts _ _ _ _ _ _ eq_refl).
  apply (attempts_rounds _ (λ x data, is_Some x.2 ∧ accepted data)
    (λ x, (x.1 ≤ tries settings.(token_retry_count))%nat)).
  intros s0. by apply do_request_round.
Qed.

Lemma request_blocked meth path tr_id ps fields s :
  Settings.is_backtest settings = true →
  _request meth path tr_id ps fields s = (Err (KISAPIError (JStr "BACKTEST") JNull), s).
Proof. intros Hb. unfold _request, _ensure_not_backtest, when. by rewrite Hb. Qed.

(** One call of the client *)
Inductive ApiCall :=
  | KrPrice (ticker : string)
  | KrDaily (ticker start_date end_date period : string)
  | UsPrice (ticker exchange : string)
  | UsDaily (ticker period : string) (count : Z) (exchange : string)
  | KrOrder (ticker side : string) (quantity price : Z) (order_type : string)
  | UsOrder (ticker side : string) (quantity : Z) (price : float) (exchange : string)
  | KrCcld (start_date end_date order_dv ccld_dv fk nk : string)
  | UsCcld (start_date end_date order_dv ccld_dv fk nk : string)
  | KrBalance
  | UsBalance
  | ExchangeRate.
Definition call (c : ApiCall) : Api JValue :=
  match c with
  | KrPrice t => get_kr_stock_price t
  | KrDaily t a b p => get_kr_stock_daily t a b p
  | UsPrice t x => get_us_stock_price t x
  | UsDaily t p n x => get_us_stock_daily t p n x
  | KrOrder t d q p o => place_kr_order t d q p o
  | UsOrder t d q p x => place_us_order t d q p x
  | KrCcld a b o c f n => inquire_kr_daily_ccld a b o c f n
  | UsCcld a b o c f n => inquire_us_ccld a b o c f n
  | KrBalance => get_kr_balance
  | UsBalance => get_us_balance
  | ExchangeRate => get_exchange_rate
  end.
Definition is_order (c : ApiCall) : bool := match c with KrOrder _ _ _ _ _ | UsOrder _ _ _ _ _ => true | _ => false end.

(** A request of the mode in force: the credential's host, keys and account *)
Definition of_mode (r : Request) : Prop :=
  starts_with credential.(base_url) r.(url) = true ∧
  match r.(headers) with
  | Some h => h.(h_appkey) = credential.(app_key) ∧ h.(h_appsecret) = credential.(app_secret)
  | None => r = token_request
  end ∧
  (∀ v, dict_get "CANO" (default [] r.(params)) = Some v ∨ dict_get "CANO" (default [] r.(body)) = Some v →
     v = credential.(account_no)).
(** An order's transaction id: real orders have a T in front, the demo account's a V. *)
Definition of_order_id (r : Request) : Prop :=
  ∀ h, r.(headers) = Some h →
    starts_with (if Settings.is_live settings then "T" else "V") h.(h_tr_id) = true.


Lemma starts_with_app p t : starts_with p (p +:+ t) = true.
Proof. induction p as [|a p IH]; [done|]. rewrite append_cons. cbn [starts_with]. by rewrite Ascii.eqb_refl. Qed.

Lemma api_request_of_mode meth path tr_id ps fields t :
  (∀ v, dict_get "CANO" (default [] ps) = Some v ∨ dict_get "CANO" (default [] fields) = Some v → v = credential.(account_no)) →
  of_mode (api_request meth path tr_id ps fields t).
Proof.
  intros Hv. split; [apply starts_with_app|]. split; [done|]. intros v. unfold api_request; cbn.
  case_bool_decide; cbn; intros [?|?]; (done || by apply Hv; auto).
Qed.
Lemma token_request_of_mode : of_mode token_request.
Proof. split; [apply starts_with_app|]. split; [done|]. by intros v [?|?]. Qed.

(** Every call is one [_request]. *)
Lemma call_request c : ∃ meth path tr_id ps fields,
  (meth = "GET" ∨ meth = "POST") ∧ call c = _request meth path tr_id ps fields ∧
  (∀ t, of_mode (api_request meth path tr_id ps fields t)) ∧
  (is_order c = true → ∀ t, of_order_id (api_request meth path tr_id ps fields t)).
Proof.
  destruct c; eexists _, _, _, _, _; (split_and!; [|reflexivity| |]; [by auto| |]);
    first [intros ?; apply api_request_of_mode; intros v [Hv|Hv]; vm_compute in Hv;
      first [discriminate Hv|injection Hv as <-; reflexivity]|discriminate|idtac];
    intros _ t h [= <-]; cbn; unfold _get_tr_id; case_bool_decide; by destruct (Settings.is_live settings).
Qed.

(** C5. A call follows the mode. *)
Theorem calls_follow_the_mode (c : ApiCall) (s : Client W) :
  ∃ (rq : JValue → Request) (xs : list (nat * option JValue)),
    (call c s).2.(sent) = s.(sent) ++ concat (round rq <$> xs) ∧
    (∀ t, of_mode (rq t)) ∧ of_mode token_request ∧
    (is_order c = true → ∀ t, of_order_id (rq t)) ∧
    if Settings.is_backtest settings
    then xs = [] ∧ (call c s).1 = Err (KISAPIError (JStr "BACKTEST") JNull)
    else (0 < length xs ≤ tries settings.(api_retry_count))%nat ∧
         Forall (λ x, (x.1 ≤ tries settings.(token_retry_count))%nat) xs ∧
         match (call c s).1 with
         | Ok data => ∃ x, last xs = Some x ∧ is_Some x.2 ∧ accepted data
         | Err e => length xs = tries settings.(api_retry_count) ∧ ∃ e', e = RetryError e'
         end.
Proof.
  destruct (call_request c) as (meth & path & tr_id & ps & fields & Hm & -> & Hmode & Hid).
  exists (api_request meth path tr_id ps fields).
  destruct (Settings.is_backtest settings) eqn:Hb.
  - exists []. rewrite request_blocked by done. cbn. rewrite app_nil_r. split_and!; auto using token_request_of_mode.
  - destruct (request_rounds meth path tr_id ps fields s Hm Hb) as (xs & Hxs & Hlen & Htok & Hr).
    exists xs. destruct Hlen. split_and!; auto using token_request_of_mode.
Qed.

(** ** Orders and lost answers *)

(** With a valid token an attempt sends the one request and no other; unanswered, it fails. *)
Lemma unanswered_round meth path tr_id ps fields s t :
  meth = "GET" ∨ meth = "POST" → Settings.is_backtest settings = false →
  truthy s.(_access_token) = true → s.(_token_expires_at) = Some t →
  (∀ w, now w < t - margin) → (∀ r w, is_ok (http r w).1 = false) →
  ∃ e s', _do_request meth path tr_id ps fields s = (Err e, s') ∧
    s'.(sent) = s.(sent) ++ [api_request meth path tr_id ps fields s.(_access_token)] ∧
    s'.(_access_token) = s.(_access_token) ∧ s'.(_token_expires_at) = Some t.
Proof.
  intros Hm Hb Htok Hexp Hnow Hlost. unfold _do_request, mbind, M_bind.
  destruct (rate_limit_wait_spec s) as (w & tm & ->). set (s1 := set_last_request_time _ _).
  unfold _get_auth_headers, get_access_token, mbind, M_bind. rewrite Hb. cbn. unfold has_valid_token. cbn.
  rewrite Htok, Hexp. cbn. rewrite (proj2 (Z.ltb_lt _ _) (Hnow w)). cbn.
  rewrite dispatch_send by done. unfold send. cbn. set (rq := api_request _ _ _ _ _ _).
  pose proof (Hlost rq w) as Hl. destruct (http rq w) as [[?|e] w']; [done|]. by eexists _, _.
Qed.

(** Without answers every attempt sends the same request. *)
Lemma lost_request_repeats path tr_id fields s t :
  Settings.is_backtest settings = false → truthy s.(_access_token) = true → s.(_token_expires_at) = Some t →
  (∀ w, now w < t - margin) → (∀ r w, is_ok (http r w).1 = false) →
  (_request "POST" path tr_id None fields s).2.(sent) =
    s.(sent) ++ replicate (tries settings.(api_retry_count)) (api_request "POST" path tr_id None fields s.(_access_token)) ∧
  ∃ e, (_request "POST" path tr_id None fields s).1 = Err (RetryError e).
Proof.
  intros Hmode Htoken Hexpiry Hnow Hlost. unfold _request, _ensure_not_backtest, when. rewrite Hmode. unfold mbind, M_bind. cbn.
  rewrite (retrying_attempts _ _ _ _ _ _ eq_refl). unfold tries.
  generalize {| multiplier := 1; wait_min := 2; wait_max := 10 |} as wt. intros wt.
  generalize (Z.to_nat (settings.(api_retry_count) - 1)) as left. intros left.
  generalize 1 as attempt. remember s.(_access_token) as tok eqn:Etok. intros attempt.
  revert s attempt Etok Htoken Hexpiry. induction left as [|left IH]; intros s attempt -> Htoken Hexpiry;
    destruct (unanswered_round "POST" path tr_id None fields s t) as (e & s' & Hf & Hsent & Ha & Hx); auto;
    cbn [attempts]; rewrite Hf; cbn.
  - by rewrite Hsent; eauto.
  - destruct (IH (on_net (pause wt attempt) s') (attempt + 1)) as (Hs & Hr);
      cbn; try congruence.
    rewrite Hs. cbn. rewrite Hsent, <- app_assoc. done.
Qed.

(** An order whose answers are lost is sent again. *)
Theorem lost_answers_repeat_the_order (ticker side : string) (quantity price : Z) (order_type : string) (s : Client W) (t : Z)
  (Hmode : Settings.is_backtest settings = false)
  (Htoken : truthy s.(_access_token) = true) (Hexpiry : s.(_token_expires_at) = Some t)
  (Hnow : ∀ w, now w < t - margin) (Hlost : ∀ r w, is_ok (http r w).1 = false) :
  ∃ order, order.(method) = "POST" ∧
    dict_get "ORD_QTY" (default [] order.(body)) = Some (fmt_int quantity) ∧
    (place_kr_order ticker side quantity price order_type s).2.(sent) =
      s.(sent) ++ replicate (tries settings.(api_retry_count)) order ∧
    ∃ e, (place_kr_order ticker side quantity price order_type s).1 = Err (RetryError e).
Proof.
  unfold place_kr_order, POST. set (tr := if bool_decide (side = "BUY") then _ else _).
  set (path := "/uapi/domestic-stock/v1/trading/order-cash"). set (fields := Some (account ++ _)).
  exists (api_request "POST" path tr None fields s.(_access_token)). split; [done|]. split; [by vm_compute|].
  by apply (lost_request_repeats path tr fields s t).
Qed.

(** The token that is handed out. *)
Theorem access_token_is_current (s : Client W) :
  if Settings.is_backtest settings then get_access_token s = (Err (KISAPIError (JStr "BACKTEST") JNull), s)
  else if has_valid_token s then get_access_token s = (Ok s.(_access_token), s)
  else ∃ k, (get_access_token s).2.(sent) = s.(sent) ++ replicate k token_request ∧
    (0 < k ≤ tries settings.(token_retry_count))%nat ∧
    match get_access_token s with
    | (Ok token, s') => s'.(_access_token) = token ∧ ∃ data v seconds,
        subscript data "access_token" = Ok token ∧ get_or data "expires_in" (JInt 86400) = Ok v ∧
        py_int_of v = Ok seconds ∧ s'.(_token_expires_at) = Some (now s'.(net) + seconds * 1000000)
    | (Err e, s') => s'.(_token_expires_at) = s.(_token_expires_at) ∧ (∀ e', e ≠ RetryError e') ∧
        (s'.(_access_token) = s.(_access_token) ∨ ∃ c t, e = OtherException c t)
    end.
Proof.
  unfold get_access_token. destruct (Settings.is_backtest settings); [done|].
  unfold mbind, M_bind. cbn. destruct (has_valid_token s); [done|].
  destruct (issue_token_spec s) as (k & Hsent & Hk & _ & Hr). exists k.
  destruct (_issue_token s) as [[[]|e] s']; cbn in *; (split; [done|]); (split; [lia|]).
  - destruct Hr as (data & token & v & n & Hd & Hv & Hn & Ht & He). split; [done|]. exists data, v, n. by rewrite Ht.
  - destruct Hr as (? & ? & ?). done.
Qed.
End Transport.

(** ** The WebSocket address *)

(** Unencrypted live trading needs an exception in force. *)
Theorem unencrypted_live_needs_an_exception (s : KISSettings) (environment : string) (now : Z) :
  let ws_url := (Settings.active_credential s).(websocket_url) in
  Settings.validate_websocket_security s environment now = Ok tt ↔
    ws_url = "" ∨ starts_with "wss://" ws_url = true ∨
    starts_with "ws://" ws_url = true ∧
      (environment ≠ "production" ∨ s.(trading_mode) ≠ LIVE ∨
       Settings._parse_ws_insecure_allow s.(ws_insecure_allow) = Some true ∧
       strip s.(ws_exception_ticket) ≠ "" ∧ strip s.(ws_exception_expires_at) ≠ "" ∧
       ∃ d, Settings.strptime_date (strip s.(ws_exception_expires_at)) = Some d ∧ now ≤ Settings.end_of_day d).
Proof.
  intros url. unfold Settings.validate_websocket_security. fold url. unfold Settings.is_live.
  case_bool_decide as Hu; [by split; auto|].
  destruct (starts_with "ws://" url) eqn:Ews, (starts_with "wss://" url) eqn:Ewss; cbn; try by split; auto.
  - case_bool_decide as He; cbn; [|naive_solver].
    case_bool_decide as Hl; cbn; [|naive_solver].
    split.
    + intros Hok. right; right. split; [done|]. right; right. repeat case_match; simplify_eq.
      match goal with b : bool |- _ => destruct b end; [|done].
      repeat match goal with Hx : bool_decide _ = false |- _ => apply bool_decide_eq_false in Hx end.
      split_and!; try done. eexists. split; [done|]. by apply Z.ltb_ge.
    + intros [?|[?|(_ & [?|[?|(Hf & Ht & Hx & d & Hd & Hn)]])]]; try congruence.
      rewrite Hf. cbn. rewrite !bool_decide_eq_false_2 by done. rewrite Hd. by rewrite (proj2 (Z.ltb_ge _ _) Hn).
  - split; [done|]. intros [?|[?|[? _]]]; congruence.
Qed.

(** * A retry controller, and runs *)

Section Looping.
Context {W A : Type} (pauses : Z → W → W) (f : M (Client W) exc A).
Lemma attempts_ok left attempt s a s' : f s = (Ok a, s') → attempts pauses left attempt f s = (Ok a, s').
Proof. intros Hf. destruct left; cbn; by rewrite Hf. Qed.
Lemma attempts_stop attempt s e s' : f s = (Err e, s') → attempts pauses 0 attempt f s = (Err (RetryError e), s').
Proof. intros Hf. cbn. by rewrite Hf. Qed.
Lemma attempts_again left attempt s e s' :
  f s = (Err e, s') → attempts pauses (S left) attempt f s = attempts pauses left (attempt + 1) f (on_net (pauses attempt) s').
Proof. intros Hf. cbn. by rewrite Hf. Qed.
End Looping.

(** The controller with the loop as its course; waiting only passes time. *)
#[global] Program Instance looping {W} (waiting : wait_exponential → Z → W → W) : Tenacity W := {|
  pause := waiting;
  retrying A stop wait attempt f := attempts (waiting wait) (Z.to_nat (stop - attempt)) attempt f;
|}.
Next Obligation. intros. cbn. by apply attempts_ok. Qed.
Next Obligation.
  intros W waiting A stop wait attempt f s e s' Hf Hs. cbn.
  replace (Z.to_nat (stop - attempt)) with 0%nat by lia. by apply attempts_stop.
Qed.
Next Obligation.
  intros W waiting A stop wait attempt f s e s' Hf Hs. cbn.
  replace (Z.to_nat (stop - attempt)) with (S (Z.to_nat (stop - (attempt + 1)))) by lia.
  exact (attempts_again (waiting wait) f _ _ _ e _ Hf).
Qed.

Module KisRuns.
(** A broker: its clock, the orders it took, and how it answers them *)
Record Broker := { broker_time : Z; booked : list Request; answering : Request → result exc Response }.
Definition ok_json (v : JValue) : result exc Response := Ok {| status_code := 200; text := ""; json := Ok v |}.
Definition token_answer (seconds : Z) : result exc Response :=
  ok_json (JObject [("access_token", JStr "tok"); ("expires_in", JInt seconds)]).
Definition is_token (r : Request) : bool := bool_decide (r.(headers) = None).
Definition broker_http (r : Request) (b : Broker) : result exc Response * Broker :=
  (b.(answering) r,
   {| broker_time := b.(broker_time); booked := if is_token r then b.(booked) else b.(booked) ++ [r]; answering := b.(answering) |}).
#[local] Instance broker_network : Network Broker := {|
  http := broker_http; now := broker_time; monotonic := broker_time;
  sleep d b := {| broker_time := b.(broker_time) + d; booked := b.(booked); answering := b.(answering) |} |}.
Definition waiting (x : wait_exponential) (attempt : Z) (b : Broker) : Broker :=
  {| broker_time := b.(broker_time) + Z.max x.(wait_min) (Z.min (x.(multiplier) * 2 ^ (attempt - 1)) x.(wait_max)) * 1000000;
     booked := b.(booked); answering := b.(answering) |}.
#[local] Instance broker_retry : Tenacity Broker := looping waiting.

Definition keys (name url : string) : KISCredential := {|
  app_key := name +:+ "-key"; app_secret := name +:+ "-secret"; account_no := name +:+ "-account";
  account_prod := "01"; base_url := url; websocket_url := "ws://ops.koreainvestment.com:21000" |}.
Definition defaults (mode : TradingMode) : KISSettings := {|
  trading_mode := mode; live := keys "live" "https://openapi.koreainvestment.com:9443";
  demo := keys "demo" "https://openapivts.koreainvestment.com:29443";
  api_retry_count := 3; token_retry_count := 5; token_retry_max_wait := 60;
  ws_insecure_allow := "false"; ws_exception_ticket := ""; ws_exception_expires_at := "" |}.

Definition no_text (e : exc) : string := "".
Definition no_json (t : string) : option JValue := None.
Definition order (mode : TradingMode) : M (Client Broker) exc JValue :=
  place_kr_order no_text no_json (defaults mode) "005930" "BUY" 10 0 "01".
Definition start (answering : Request → result exc Response) : Client Broker :=
  new_client {| broker_time := 1000000000; booked := []; answering := answering |}.
Definition quantities (c : Client Broker) : list (option string * option string) :=
  (λ r, (dict_get "ORD_QTY" (default [] r.(body)), h_tr_id <$> r.(headers))) <$> c.(net).(booked).

(** The broker takes the order, the answer is lost on the way: three orders are booked. *)
Example lost_answer_books_three_orders :
  let c := order LIVE (start (λ r, if is_token r then token_answer 86400 else Err (HTTPError "ReadTimeout" ""))) in
  quantities c.2 = [(Some "10", Some "TTTC0802U"); (Some "10", Some "TTTC0802U"); (Some "10", Some "TTTC0802U")] ∧
  c.1 = Err (RetryError (HTTPError "ReadTimeout" "")).
Proof. vm_compute. split; reflexivity. Qed.

(** A refusal is retried like a lost answer, and the caller sees a [RetryError]. *)
Example refusals_are_repeated :
  let c := order DEMO (start (λ r, if is_token r then token_answer 86400 else
    ok_json (JObject [("rt_cd", JStr "7"); ("msg1", JStr "no cash")]))) in
  quantities c.2 = [(Some "10", Some "VTTC0802U"); (Some "10", Some "VTTC0802U"); (Some "10", Some "VTTC0802U")] ∧
  c.1 = Err (RetryError (KISAPIError (JStr "7") (JStr "no cash"))).
Proof. vm_compute. split; reflexivity. Qed.

Example accepted_at_once :
  let c := order LIVE (start (λ r, if is_token r then token_answer 86400 else ok_json (JObject [("rt_cd", JStr "0")]))) in
  length c.2.(sent) = 2%nat ∧ length c.2.(net).(booked) = 1%nat ∧ is_ok c.1 = true ∧
  is_ok (order BACKTEST (start (λ _, Err (HTTPError "" "")))).1 = false.
Proof. vm_compute. split_and!; reflexivity. Qed.

(** Without a token an order costs up to fifteen token requests. *)
Example refused_tokens :
  let c := order LIVE (start (λ r, Ok {| status_code := 403; text := ""; json := Ok JNull |})) in
  length c.2.(sent) = 15%nat ∧ c.1 = Err (RetryError (KISAPIError (JStr "HTTP403") (JStr "HTTP 403"))).
Proof. vm_compute. split; reflexivity. Qed.

(** A token answer without a usable lifetime leaves the new token behind the old expiry. *)
Example token_with_bad_lifetime :
  let c := get_access_token no_text no_json (defaults LIVE) (start (λ _,
    ok_json (JObject [("access_token", JStr "tok"); ("expires_in", JStr "soon")]))) in
  c.1 = Err (OtherException "ValueError" "") ∧ c.2.(_access_token) = JStr "tok" ∧ c.2.(_token_expires_at) = None.
Proof. vm_compute. split_and!; reflexivity. Qed.

(** The default live address is unencrypted. *)
Example default_live_address_is_refused :
  Settings.validate_websocket_security (defaults LIVE) "production" 0 = Err Settings.Insecure ∧
  Settings.validate_websocket_security (defaults LIVE) "development" 0 = Ok tt ∧
  Settings.validate_websocket_security (defaults DEMO) "production" 0 = Ok tt.
Proof. vm_compute. split_and!; reflexivity. Qed.

Definition deaf : Network unit := {| http _ w := (Err (HTTPError "ReadTimeout" ""), w); now _ := 0; monotonic _ := 0; sleep _ w := w |}.
Definition idle : Tenacity unit := looping (λ _ _ w, w).
Lemma lost_answers_repeat_the_order_witness :
  let s := {| net := tt; _access_token := JStr "tok"; _token_expires_at := Some 86400000000; _websocket_key := JNull;
              _last_request_time := 0; sent := [] |} in
  ∃ order, order.(method) = "POST" ∧ dict_get "ORD_QTY" (default [] order.(body)) = Some (fmt_int 10) ∧
    (place_kr_order (H:=deaf) (H0:=idle) no_text no_json (defaults LIVE) "005930" "BUY" 10 0 "01" s).2.(sent) =
      replicate 3 order ∧
    ∃ e, (place_kr_order (H:=deaf) (H0:=idle) no_text no_json (defaults LIVE) "005930" "BUY" 10 0 "01" s).1 =
      Err (RetryError e).
Proof.
  apply (lost_answers_repeat_the_order (H:=deaf) (H0:=idle) no_text no_json (defaults LIVE) "005930" "BUY" 10 0 "01"
    {| net := tt; _access_token := JStr "tok"; _token_expires_at := Some 86400000000; _websocket_key := JNull;
       _last_request_time := 0; sent := [] |} 86400000000); reflexivity.
Defined.
End KisRuns.
