(* ===== verification/ExchangeRate.v ===== *)
(** Exchange rates: core/portfolio_manager/exchange_rate.py, over the KIS client of
    [KisClient], the FRED service, one key of Redis and the table exchange_rates,
    and the hourly loop of scheduler_main.py.

    Redis, FRED and the database are operations of the world the network lives in
    and may fail at any time.  What is cached is the decoded JSON of the rate. *)

From stdpp Require Import base option list sets gmap strings.
From Stdlib Require Import ZArith Lia.
From S2P Require Import Prelude PyFloat PyDict PyFormat PyParse Constants Calendar KisClient.

Record ExchangeRate := { pair : string; rate : float; source : string; fetched_at : Z }.

Definition CACHE_KEY : string := "exchange_rate:USD_KRW".
Definition MARKET_HOURS_START : Z := time 9 0.
Definition MARKET_HOURS_END : Z := time 15 30.
Definition MARKET_HOURS_TTL : Z := 300.
Definition OFF_HOURS_TTL : Z := 86400.

(** [float(v)] of decoded JSON *)
Definition py_float_of (v : JValue) : result exc float :=
  match v with
  | JBool b => Ok (of_Z (if b then 1 else 0))
  | JInt z => match of_Z z with
              | SpecFloat.S754_infinity _ => Err (OtherException "OverflowError" "")
              | x => Ok x
              end
  | JFloat x => Ok x
  | JStr s => match py_float s with Some x => Ok x | None => Err (OtherException "ValueError" "") end
  | _ => Err (OtherException "TypeError" "")
  end.

(** [d.get(k, 0)] as a float *)
Definition float_at (d : JValue) (k : string) : result exc float := rbind (get_or d k (JInt 0)) py_float_of.

(** The rate in an answer of [get_exchange_rate] *)
Definition kis_rate (answer : JValue) : result exc float :=
  rbind (get_or answer "output2" (JArray [])) (λ output2,
  rbind (match output2 with JArray (x :: _) => float_at x "frst_bltn_exrt" | _ => Ok fzero end) (λ r0,
  rbind (if fleZ r0 0 then rbind (get_or answer "output1" answer) (λ output1, float_at output1 "exrt") else Ok r0) (λ r1,
  rbind (if fleZ r1 0 then float_at answer "exchange_rate" else Ok r1) (λ r2,
  if fleZ r2 0 then Err (OtherException "ValueError" "invalid rate") else Ok r2)))).

(** The rate in an answer of FRED *)
Definition fred_rate (answer : JValue) : result exc float :=
  rbind (get_or answer "observations" (JArray [])) (λ observations,
  if negb (truthy observations) then Err (OtherException "ValueError" "no data") else
  rbind (match observations with
         | JArray (x :: _) => subscript x "value"
         | JObject _ => Err (OtherException "KeyError" "0")
         | _ => Err (OtherException "TypeError" "")
         end) (λ v,
  rbind (py_float_of v) (λ r,
  if fleZ r 0 then Err (OtherException "ValueError" "invalid rate") else Ok r))).

Lemma kis_rate_positive answer r : kis_rate answer = Ok r → fleZ r 0 = false.
Proof.
  unfold kis_rate, rbind. intros H. repeat (case_match; simplify_eq/=; try done).
Qed.
Lemma fred_rate_positive answer r : fred_rate answer = Ok r → fleZ r 0 = false.
Proof. unfold fred_rate, rbind. intros H. repeat (case_match; simplify_eq/=; try done). Qed.

(** * The outside world *)

Class Services (W : Type) := {
  redis_answers : W → bool;
  fred_get : string → W → result exc Response * W;
  session_commits : W → bool;
}.

Record Rates (W : Type) := {
  kis : Client W;
  (** the value under [CACHE_KEY] and when it expires *)
  redis : option (ExchangeRate * Z);
  (** the rows of exchange_rates by time and pair, with rate and source *)
  rows : gmap (Z * string) (float * string);
}.
Arguments kis {W} _. Arguments redis {W} _. Arguments rows {W} _.

Section ExchangeRateManager.
Context {W : Type} `{Network W} `{Tenacity W} `{Services W}.
Context (str_exc : exc → string) (json_loads : string → option JValue) (str_float : float → string).
Context (settings : KISSettings) (fred_api_key : string).

Abbreviation Fx := (M (Rates W) exc).

Definition set_kis (c : Client W) (s : Rates W) : Rates W := {| kis := c; redis := s.(redis); rows := s.(rows) |}.
Definition set_redis r (s : Rates W) : Rates W := {| kis := s.(kis); redis := r; rows := s.(rows) |}.
Definition set_rows r (s : Rates W) : Rates W := {| kis := s.(kis); redis := s.(redis); rows := r |}.
Definition with_kis {A} (m : M (Client W) exc A) : Fx A := zoom kis set_kis m.
Definition time_now (s : Rates W) : Z := now s.(kis).(net).
Definition utcnow : Fx Z := gets time_now.

Definition fetch_from_kis : Fx float :=
  answer ← with_kis (get_exchange_rate str_exc json_loads settings);
  lift_result (kis_rate answer).

Definition fetch_from_fred : Fx float :=
  if bool_decide (fred_api_key = "") then raise (OtherException "ValueError" "FRED_API_KEY") else
  response ← with_kis (λ c, let '(a, w) := fred_get fred_api_key c.(net) in (a, on_net (λ _, w) c));
  with_kis (raise_for_status response) ;;
  data ← lift_result response.(json);
  lift_result (fred_rate data).

Definition _is_market_hours (now : Z) : bool :=
  let kst := now + KST in
  bool_decide (weekday (kst / day_us) < 5) && (MARKET_HOURS_START <=? kst mod day_us) &&
  (kst mod day_us <=? MARKET_HOURS_END).
Definition ttl_at (now : Z) : Z := if _is_market_hours now then MARKET_HOURS_TTL else OFF_HOURS_TTL.

(** The pair asked for is not looked at. *)
Definition _get_cached_rate (_ : string) : Fx (option ExchangeRate) := gets (λ s,
  if negb (redis_answers s.(kis).(net)) then None else
  match s.(redis) with
  | Some (r, expires) =>
      if time_now s <? expires
      then Some {| pair := r.(pair); rate := r.(rate); source := "CACHE"; fetched_at := r.(fetched_at) |}
      else None
  | None => None
  end).

Definition _cache_rate (r : ExchangeRate) : Fx unit := modify (λ s,
  if redis_answers s.(kis).(net)
  then set_redis (Some (r, time_now s + ttl_at (time_now s) * 1000000)) s else s).

(** An upsert on time and pair; its failure is only logged. *)
Definition _store_rate_to_db (r : ExchangeRate) : Fx unit := modify (λ s,
  if session_commits s.(kis).(net)
  then set_rows (<[(r.(fetched_at), r.(pair)) := (r.(rate), r.(source))]> s.(rows)) s else s).

(** The rate of a source that has answered *)
Definition new_rate (pair source : string) (persist : bool) (r : float) : Fx ExchangeRate :=
  t ← utcnow;
  let d := {| pair := pair; rate := r; source := source; fetched_at := t |} in
  _cache_rate d ;;
  when persist (_store_rate_to_db d) ;;
  mret d.

Definition get_current_rate (pair : string) (persist : bool) : Fx ExchangeRate :=
  cached ← _get_cached_rate pair;
  match cached with
  | Some d => when persist (_store_rate_to_db d) ;; mret d
  | None =>
      try_except (r ← fetch_from_kis; new_rate pair "KIS" persist r) (λ _,
      r ← fetch_from_fred;
      new_rate pair "FRED" persist r)
  end.

Definition convert_to_krw (usd_amount : float) : Fx float :=
  d ← get_current_rate "USD/KRW" false;
  mret (fmul usd_amount d.(rate)).

Record PortfolioValue := { krw_holdings : list float; cash_krw : float; usd_holdings : list float; cash_usd : float }.

Definition get_portfolio_krw_value (p : PortfolioValue) : Fx float :=
  let total := fadd (fadd fzero (fsum p.(krw_holdings))) p.(cash_krw) in
  let usd_value := fsum p.(usd_holdings) in
  total ← (if fgtZ usd_value 0 then krw ← convert_to_krw usd_value; mret (fadd total krw) else mret total);
  if fgtZ p.(cash_usd) 0 then krw ← convert_to_krw p.(cash_usd); mret (fadd total krw) else mret total.

(** ** Every rate comes from a source and is recent *)

Definition sources : list string := ["KIS"; "FRED"].

(** What was fetched: a positive rate (or NaN) from one of the sources *)
Definition fetched (r : ExchangeRate) : Prop := fleZ r.(rate) 0 = false ∧ r.(source) ∈ sources.

(** The cache holds a fetched rate for the time of the hour it was fetched in, and
    every row is a fetched rate, perhaps under the source CACHE. *)
Definition cache_ok (s : Rates W) : Prop :=
  ∀ r e, s.(redis) = Some (r, e) → fetched r ∧ e = r.(fetched_at) + ttl_at r.(fetched_at) * 1000000.
Definition rows_ok (s : Rates W) : Prop :=
  ∀ k r src, s.(rows) !! k = Some (r, src) → fleZ r 0 = false ∧ (src ∈ sources ∨ src = "CACHE").
Definition rates_ok (s : Rates W) : Prop := cache_ok s ∧ rows_ok s.

(** What is handed out in a state: fresh from a source, or cached and in its time *)
Definition served (s : Rates W) (d : ExchangeRate) : Prop :=
  fleZ d.(rate) 0 = false ∧
  (d.(source) ∈ sources ∧ d.(fetched_at) = time_now s ∨
   d.(source) = "CACHE" ∧ time_now s < d.(fetched_at) + ttl_at d.(fetched_at) * 1000000).

Lemma with_kis_keeps {A} (m : M (Client W) exc A) : preserves rates_ok (with_kis m).
Proof. intros s Hs. unfold after, with_kis, zoom. by destruct (m s.(kis)) as [x c]. Qed.

Lemma fetch_from_kis_spec s :
  (∀ r, outcome fetch_from_kis s = Ok r → fleZ r 0 = false) ∧ (rates_ok s → rates_ok (after fetch_from_kis s)).
Proof.
  split.
  - intros r. unfold fetch_from_kis, outcome, with_kis. run_m.
    destruct (get_exchange_rate _ _ _ _) as [[v|e] c]; cbn; [apply kis_rate_positive|done].
  - apply preserves_bind; [apply with_kis_keeps|]. intros v s' Hs'. exact Hs'.
Qed.
Lemma fetch_from_fred_spec s :
  (∀ r, outcome fetch_from_fred s = Ok r → fleZ r 0 = false) ∧ (rates_ok s → rates_ok (after fetch_from_fred s)).
Proof.
  unfold fetch_from_fred. case_bool_decide; [done|]. split.
  - intros r. unfold outcome, with_kis. run_m. destruct (fred_get _ _) as [[v|e] w]; cbn; [|done].
    destruct (raise_for_status v _) as [[[]|e] c]; cbn; [|done]. destruct (json v); cbn; [apply fred_rate_positive|done].
  - repeat (apply preserves_bind; [apply with_kis_keeps|intros ?]).
    apply preserves_bind; [by intros s' ?|]. intros ? s' Hs'. exact Hs'.
Qed.

Lemma store_rows_ok r s : fleZ r.(rate) 0 = false → r.(source) ∈ sources ∨ r.(source) = "CACHE" →
  rates_ok s → rates_ok (after (_store_rate_to_db r) s).
Proof.
  intros Hr Hsrc [Hc Hrows]. unfold after, _store_rate_to_db. run_m. destruct (session_commits _); [|done].
  split; [exact Hc|]. intros k x src. cbn. rewrite lookup_insert_Some. intros [(_&[= <- <-])|(_&Hk)]; [done|]. by eapply Hrows.
Qed.

Lemma new_rate_spec p src persist r s :
  fleZ r 0 = false → src ∈ sources → rates_ok s →
  ∃ d s', new_rate p src persist r s = (Ok d, s') ∧ served s' d ∧ rates_ok s' ∧ d.(pair) = p.
Proof.
  intros Hr Hsrc [Hc Hrows]. unfold new_rate, utcnow. run_m.
  set (d := {| pair := p; rate := r; source := src; fetched_at := time_now s |}).
  assert (∃ s1, _cache_rate d s = (Ok tt, s1) ∧ s1.(kis) = s.(kis) ∧ rates_ok s1) as (s1&Hcache&Hk&Hs1).
  { unfold _cache_rate. run_m. eexists. split; [done|]. destruct (redis_answers _); [|done]. split; [done|].
    split; [|exact Hrows]. intros r' e [= <- <-]. done. }
  rewrite Hcache. exists d. destruct persist; cbn [when].
  - destruct (_store_rate_to_db d s1) as [x s2] eqn:Es. assert (x = Ok tt) as -> by (unfold _store_rate_to_db in Es; run_m; congruence).
    assert (s2.(kis) = s.(kis)) as Hk2.
    { unfold _store_rate_to_db in Es. run_m. injection Es as <-. by destruct (session_commits _). }
    exists s2. split; [done|]. split; [|split; [|done]].
    + split; [done|]. left. unfold time_now. by rewrite Hk2.
    + replace s2 with (after (_store_rate_to_db d) s1) by (unfold after; by rewrite Es). apply store_rows_ok; cbn; auto.
  - exists s1. split; [done|]. split; [|done]. split; [done|]. left. unfold time_now. by rewrite Hk.
Qed.

Lemma get_cached_rate_spec p s :
  rates_ok s → ∃ c, _get_cached_rate p s = (Ok c, s) ∧
    ∀ d, c = Some d → served s d ∧ fleZ d.(rate) 0 = false ∧ d.(source) = "CACHE".
Proof.
  intros [Hc _]. unfold _get_cached_rate. run_m. eexists. split; [done|]. intros d.
  destruct (redis_answers _); cbn; [|done]. destruct s.(redis) as [[r e]|] eqn:Er; [|done].
  destruct (Hc r e Er) as [[Hr Hs] ->]. destruct (time_now s <? _) eqn:Et; [|done]. intros [= <-].
  split; [|done]. split; [done|]. right. cbn. split; [done|]. by apply Z.ltb_lt.
Qed.

Lemma store_keeps_time d s : ∃ s', _store_rate_to_db d s = (Ok tt, s') ∧ s'.(kis) = s.(kis) ∧ s'.(redis) = s.(redis).
Proof. unfold _store_rate_to_db. run_m. eexists. split; [done|]. by destruct (session_commits _). Qed.

(** A source that has answered, or not *)
Lemma from_source_spec (fetch : Fx float) src p persist s :
  src ∈ sources → rates_ok s →
  (∀ r, outcome fetch s = Ok r → fleZ r 0 = false) → (rates_ok s → rates_ok (after fetch s)) →
  let '(x, s') := (r ← fetch; new_rate p src persist r) s in
  rates_ok s' ∧ ∀ d, x = Ok d → served s' d ∧ d.(pair) = p.
Proof.
  intros Hsrc Hs Hr Hk. specialize (Hk Hs). unfold outcome, after in *. run_m. destruct (fetch s) as [[r|e] s1]; cbn in *; [|done].
  destruct (new_rate_spec p src persist r s1) as (d&s'&->&?&?&?); [by apply Hr|done..|]. split; [done|]. by intros ? [= <-].
Qed.

Lemma get_current_rate_spec p persist s :
  rates_ok s →
  let '(x, s') := get_current_rate p persist s in rates_ok s' ∧ ∀ d, x = Ok d → served s' d.
Proof.
  intros Hs. unfold get_current_rate. destruct (get_cached_rate_spec p s Hs) as (c&Hc&Hd).
  unfold mbind at 1, M_bind at 1. rewrite Hc. destruct c as [d|].
  - destruct (Hd d eq_refl) as (Hserved&Hr&Hsrc). unfold mbind, M_bind, mret, M_ret. destruct persist; cbn [when].
    + destruct (store_keeps_time d s) as (s'&Hst&Hk&_). rewrite Hst. split.
      * replace s' with (after (_store_rate_to_db d) s) by (unfold after; by rewrite Hst). apply store_rows_ok; auto.
      * intros ? [= <-]. unfold served, time_now in *. by rewrite Hk.
    + split; [done|]. by intros ? [= <-].
  - unfold try_except. destruct (fetch_from_kis_spec s) as [K1 K2].
    pose proof (from_source_spec fetch_from_kis "KIS" p persist s ltac:(set_solver) Hs K1 K2) as Hkis.
    destruct ((r ← fetch_from_kis; new_rate p "KIS" persist r) s) as [[d|e] s1]; destruct Hkis as [Hs1 Hd1].
    + split; [done|]. intros ? [= <-]. by destruct (Hd1 d eq_refl).
    + destruct (fetch_from_fred_spec s1) as [F1 F2].
      pose proof (from_source_spec fetch_from_fred "FRED" p persist s1 ltac:(set_solver) Hs1 F1 F2) as Hfred.
      destruct ((r ← fetch_from_fred; new_rate p "FRED" persist r) s1) as [x s2]. destruct Hfred as [? Hd2].
      split; [done|]. intros d Hx. by destruct (Hd2 d Hx).
Qed.

(** ** The requests for rates, in any order and at any times *)

Inductive RateOp :=
  | GetRate (pair : string) (persist : bool)
  | Convert (usd_amount : float)
  | ValueOf (p : PortfolioValue)
  | Elsewhere (f : W → W)  (** the world goes on, its clock too *)
  | LoseCache.

(** The states in which a rate was handed out, and the rate *)
Definition rate_op (op : RateOp) (s : Rates W) : option ExchangeRate * Rates W :=
  match op with
  | GetRate p persist =>
      let '(x, s') := get_current_rate p persist s in (match x with Ok d => Some d | Err _ => None end, s')
  | Convert x => (None, (convert_to_krw x s).2)
  | ValueOf p => (None, (get_portfolio_krw_value p s).2)
  | Elsewhere f => (None, set_kis (on_net f s.(kis)) s)
  | LoseCache => (None, set_redis None s)
  end.

Lemma get_current_rate_keeps p persist : preserves rates_ok (get_current_rate p persist).
Proof.
  intros s Hs. pose proof (get_current_rate_spec p persist s Hs) as Hspec. unfold after.
  destruct (get_current_rate p persist s). by destruct Hspec.
Qed.
Lemma convert_keeps x : preserves rates_ok (convert_to_krw x).
Proof. apply preserves_bind; [apply get_current_rate_keeps|intros; auto with py]. Qed.

Lemma rate_op_ok op s :
  rates_ok s → let '(d, s') := rate_op op s in rates_ok s' ∧ ∀ r, d = Some r → served s' r.
Proof.
  intros Hs. destruct op as [p persist|x|p|f|]; cbn.
  - pose proof (get_current_rate_spec p persist s Hs) as Hspec. destruct (get_current_rate p persist s) as [[d|e] s'].
    + split; [apply Hspec|]. intros r [= <-]. by apply Hspec.
    + by split; [apply Hspec|].
  - split; [|done]. by apply convert_keeps.
  - split; [|done]. revert s Hs. change (preserves rates_ok (get_portfolio_krw_value p)). unfold get_portfolio_krw_value.
    apply preserves_bind; [|intros total]; apply preserves_if; intros _; auto with py;
      (apply preserves_bind; [apply convert_keeps|intros; auto with py]).
  - done.
  - split; [|done]. split; [by intros r e|apply Hs].
Qed.

Fixpoint rate_ops (ops : list RateOp) (s : Rates W) : list (ExchangeRate * Z) * Rates W :=
  match ops with
  | [] => ([], s)
  | op :: rest =>
      let '(d, s1) := rate_op op s in
      let '(l, s2) := rate_ops rest s1 in
      (match d with Some r => [(r, time_now s1)] | None => [] end ++ l, s2)
  end.

(** However rates are asked for, whatever fails and whenever the cache is lost:
    every rate that is handed out came from KIS or FRED, is not zero or below, and
    was fetched at that very moment or is still in the time the hour of its fetch
    gave it, which is at most a day; every stored row has such a rate. *)
Theorem rates_are_grounded (ops : list RateOp) (c : Client W) :
  let '(l, s') := rate_ops ops {| kis := c; redis := None; rows := ∅ |} in
  rows_ok s' ∧
  Forall (λ '(d, t), fleZ d.(rate) 0 = false ∧
    (d.(source) ∈ sources ∧ d.(fetched_at) = t ∨
     d.(source) = "CACHE" ∧ t < d.(fetched_at) + ttl_at d.(fetched_at) * 1000000 ∧ t < d.(fetched_at) + day_us)) l.
Proof.
  assert (∀ s, rates_ok s → let '(l, s') := rate_ops ops s in rows_ok s' ∧ Forall (λ '(d, t),
    ∃ s, t = time_now s ∧ served s d) l) as Hops.
  { induction ops as [|op ops IH]; intros s Hs; cbn; [by split; [apply Hs|]|].
    pose proof (rate_op_ok op s Hs) as Hop. destruct (rate_op op s) as [d s1]. destruct Hop as [Hs1 Hd].
    specialize (IH s1 Hs1). destruct (rate_ops ops s1) as [l s2]. destruct IH as [? Hl]. split; [done|].
    destruct d as [r|]; [|done]. constructor; [eauto|done]. }
  specialize (Hops {| kis := c; redis := None; rows := ∅ |}). destruct (rate_ops ops _) as [l s'].
  destruct Hops as [Hr Hl]; [split; [done|intros k r src Hk; cbn in Hk; by rewrite lookup_empty in Hk]|]. split; [done|].
  eapply Forall_impl; [exact Hl|]. intros [d t] (s&->&Hrate&Hsrc). split; [done|].
  destruct Hsrc as [?|[? Ht]]; [by left|right]. split; [done|]. split; [done|].
  unfold ttl_at, MARKET_HOURS_TTL, OFF_HOURS_TTL, day_us in *. destruct (_is_market_hours _); lia.
Qed.

Lemma new_rate_up p src r s :
  redis_answers s.(kis).(net) = true → session_commits s.(kis).(net) = true →
  let d := {| pair := p; rate := r; source := src; fetched_at := time_now s |} in
  new_rate p src true r s =
    (Ok d, set_rows (<[(d.(fetched_at), p) := (r, src)]> s.(rows))
             (set_redis (Some (d, d.(fetched_at) + ttl_at d.(fetched_at) * 1000000)) s)).
Proof.
  intros Hr Hd d. unfold new_rate, utcnow, _cache_rate, _store_rate_to_db. run_m. rewrite Hr. cbn [when].
  cbn. by rewrite Hd.
Qed.

(** What a request without a cached rate leaves behind when it succeeds *)
Lemma fresh_rate_stored p d s s' :
  (∀ w, redis_answers w = true) → (∀ w, session_commits w = true) →
  get_current_rate p true s = (Ok d, s') → d.(source) ≠ "CACHE" →
  d.(pair) = p ∧ s'.(redis) = Some (d, d.(fetched_at) + ttl_at d.(fetched_at) * 1000000) ∧
  s'.(rows) !! (d.(fetched_at), p) = Some (d.(rate), d.(source)).
Proof.
  intros Hr Hd Hrun Hsrc. unfold get_current_rate in Hrun. apply bind_Ok in Hrun as (c&s1&Hc&Hrun).
  destruct c as [d'|].
  { unfold _get_cached_rate in Hc. run_m. destruct (negb _); [done|]. destruct (redis s) as [[r e]|]; [|done].
    destruct (time_now s <? e); [|done]. by simplify_eq/=. }
  assert (∀ src r s3, new_rate p src true r s3 = (Ok d, s') → d.(pair) = p ∧
    s'.(redis) = Some (d, d.(fetched_at) + ttl_at d.(fetched_at) * 1000000) ∧
    s'.(rows) !! (d.(fetched_at), p) = Some (d.(rate), d.(source))) as Hnew.
  { intros src r s3 Hn. rewrite new_rate_up in Hn by done. cbn zeta in Hn. injection Hn as <- <-. cbn.
    by rewrite lookup_insert_eq. }
  unfold try_except in Hrun. destruct ((r ← fetch_from_kis; new_rate p "KIS" true r) s1) as [[d'|e] s2] eqn:Ek.
  - injection Hrun as -> ->. apply bind_Ok in Ek as (r&s3&_&Hn). by eapply Hnew.
  - apply bind_Ok in Hrun as (r&s3&_&Hn). by eapply Hnew.
Qed.

(** While Redis and the database answer, a fetched rate answers every request
    until its time is over: under the pair it was fetched for, whatever pair is asked
    for; and persisting such an answer overwrites the source of the stored row. *)
Theorem cached_rate_answers_every_pair (p q : string) (d : ExchangeRate) (s s' : Rates W) (c : Client W) :
  (∀ w : W, redis_answers w = true) → (∀ w : W, session_commits w = true) →
  get_current_rate p true s = (Ok d, s') → d.(source) ≠ "CACHE" →
  now c.(net) < d.(fetched_at) + ttl_at d.(fetched_at) * 1000000 →
  s'.(rows) !! (d.(fetched_at), p) = Some (d.(rate), d.(source)) ∧
  ∃ s2, get_current_rate q true (set_kis c s') =
      (Ok {| pair := p; rate := d.(rate); source := "CACHE"; fetched_at := d.(fetched_at) |}, s2) ∧
    s2.(rows) !! (d.(fetched_at), p) = Some (d.(rate), "CACHE").
Proof.
  intros Hr Hd Hrun Hsrc Ht. destruct (fresh_rate_stored p d s s' Hr Hd Hrun Hsrc) as (Hp&Hredis&Hrow).
  split; [done|]. unfold get_current_rate, _get_cached_rate. run_m. cbn. rewrite Hr, Hredis. cbn. unfold time_now. cbn.
  rewrite (proj2 (Z.ltb_lt _ _) Ht). unfold _store_rate_to_db. run_m. cbn. rewrite Hd, Hp. eexists. split; [done|].
  cbn. by rewrite lookup_insert_eq.
Qed.
End ExchangeRateManager.

(** * Runs *)

Lemma ran {S E A} (m : M S E A) s a : outcome m s = Ok a → m s = (Ok a, after m s).
Proof. unfold outcome, after. destruct (m s). cbn. by intros ->. Qed.

Module RateRuns.
Import KisRuns.
#[local] Existing Instances broker_network broker_retry.
#[local] Instance all_up : Services Broker := {|
  redis_answers _ := true;
  fred_get _ b := (ok_json (JObject [("observations", JArray [JObject [("value", JStr "1350.5")]])]), b);
  session_commits _ := true |}.

(** 2026-03-03, a Tuesday with the ordinal 739678, at [h]:[m] in Seoul *)
Definition seoul (h m : Z) : Z := 739678 * day_us + time h m - KST.
Definition at_ (t : Z) (b : Broker) : Broker := {| broker_time := t; booked := b.(booked); answering := b.(answering) |}.
Definition present_balance (r : Request) : result exc Response :=
  if is_token r then token_answer 86400 else
  ok_json (JObject [("rt_cd", JStr "0"); ("output2", JArray [JObject [("frst_bltn_exrt", JStr "1380.50")]])]).
Definition desk (answering : Request → result exc Response) (t : Z) : Rates Broker := {|
  kis := new_client {| broker_time := t; booked := []; answering := answering |}; redis := None; rows := ∅ |}.
Definition ask (p : string) : M (Rates Broker) exc ExchangeRate := get_current_rate no_text no_json (defaults LIVE) "fred-key" p true.
Definition go_on (t : Z) (s : Rates Broker) : Rates Broker := set_kis (on_net (at_ t) s.(kis)) s.

Example from_kis :
  outcome (ask "USD/KRW") (desk present_balance (seoul 10 0)) =
  Ok {| pair := "USD/KRW"; rate := dec 138050 2; source := "KIS"; fetched_at := seoul 10 0 |}.
Proof. by vm_compute. Qed.

Example fred_stands_in :
  rmap (λ d, (d.(rate), d.(source))) (outcome (ask "USD/KRW") (desk (λ r, Err (HTTPError "ReadTimeout" "")) (seoul 10 0))) =
  Ok (dec 13505 1, "FRED").
Proof. by vm_compute. Qed.

(** The lifetime is the one of the hour of the fetch: a rate of the minute before the
    opening serves the whole trading day. *)
Example early_rate_serves_all_day :
  let s := after (ask "USD/KRW") (desk present_balance (seoul 8 59)) in
  rmap (λ d, (d.(source), d.(fetched_at))) (outcome (ask "USD/KRW") (go_on (seoul 15 20) s)) = Ok ("CACHE", seoul 8 59).
Proof. by vm_compute. Qed.

Example market_hours : _is_market_hours (seoul 9 0) = true ∧ _is_market_hours (seoul 15 30) = true ∧
  _is_market_hours (seoul 15 31) = false ∧ _is_market_hours (seoul 10 0 - 2 * day_us) = false.
Proof. by vm_compute. Qed.

(** FRED reports a holiday as a point. *)
Example holiday_of_fred : fred_rate (JObject [("observations", JArray [JObject [("value", JStr ".")]])]) = Err (OtherException "ValueError" "").
Proof. by vm_compute. Qed.

Lemma redis_up (b : Broker) : redis_answers b = true.
Proof. done. Qed.
Lemma database_up (b : Broker) : session_commits b = true.
Proof. done. Qed.

Definition krw_rate : ExchangeRate := {| pair := "USD/KRW"; rate := dec 138050 2; source := "KIS"; fetched_at := seoul 10 0 |}.
Definition asked_at_ten : Rates Broker := 
  after (get_current_rate no_text no_json (defaults LIVE) "fred-key" "USD/KRW" true) (desk present_balance (seoul 10 0)).
Lemma asked :
  get_current_rate no_text no_json (defaults LIVE) "fred-key" "USD/KRW" true (desk present_balance (seoul 10 0)) =
  (Ok krw_rate, asked_at_ten).
Proof. unfold asked_at_ten. apply ran. by vm_compute. Qed.
Definition later : Client Broker := on_net (at_ (seoul 10 4)) asked_at_ten.(kis).

Lemma cached_rate_answers_every_pair_witness :
  asked_at_ten.(rows) !! (krw_rate.(fetched_at), "USD/KRW") = Some (krw_rate.(rate), krw_rate.(source)) ∧
  ∃ s2, get_current_rate no_text no_json (defaults LIVE) "fred-key" "EUR/KRW" true (set_kis later asked_at_ten) =
      (Ok {| pair := "USD/KRW"; rate := krw_rate.(rate); source := "CACHE"; fetched_at := krw_rate.(fetched_at) |}, s2) ∧
    s2.(rows) !! (krw_rate.(fetched_at), "USD/KRW") = Some (krw_rate.(rate), "CACHE").
Proof.
  apply (cached_rate_answers_every_pair no_text no_json (defaults LIVE) "fred-key" "USD/KRW" "EUR/KRW" krw_rate
    (desk present_balance (seoul 10 0)) asked_at_ten later redis_up database_up asked); [discriminate|by vm_compute].
Defined.
End RateRuns.
