(* ===== verification/AiAnalysis.v ===== *)
(** AI analysis: core/ai_analyzer/sentiment.py and opinion.py, from the answer of the
    language model to the cached and stored result.

    The language model, Redis and the database are operations of a world and may
    fail at any time; [json.loads] and [str] are parameters.  The prompts are
    arguments: what is formatted into them decides nothing.  A cached value is the
    decoded JSON of the result. *)

From stdpp Require Import base option list sets gmap strings.
From Stdlib Require Import ZArith Lia Ascii.
From S2P Require Import Prelude PyFloat PyDict PyFormat PyParse FloatFacts Constants KisClient ExchangeRate.

Inductive OpinionAction := STRONG_BUY | BUY | HOLD | SELL | STRONG_SELL.
#[global] Instance OpinionAction_eq_dec : EqDecision OpinionAction.
Proof. solve_decision. Defined.
#[global] Program Instance OpinionAction_enum : StrEnum OpinionAction := {|
  value a := match a with
    | STRONG_BUY => "STRONG_BUY" | BUY => "BUY" | HOLD => "HOLD" | SELL => "SELL"
    | STRONG_SELL => "STRONG_SELL" end;
  members := [STRONG_BUY; BUY; HOLD; SELL; STRONG_SELL];
|}.
Next Obligation. solve_enum_complete. Qed.
Next Obligation. solve_enum_inj. Qed.

Inductive OpinionType := STOCK | SECTOR | MACRO.
#[global] Instance OpinionType_eq_dec : EqDecision OpinionType.
Proof. solve_decision. Defined.

(** [AI_CACHE_TTL], in seconds *)
Definition SCORE_TTL : Z := 3600.
Definition OPINION_TTL : Z := 14400.

(** * Data *)

Record SentimentResult := {
  s_ticker : string;
  score : float;
  confidence : float;
  summary : string;
  positive_factors : list JValue;
  negative_factors : list JValue;
  news_count : Z;
  analyzed_at : option Z;
}.
Record InvestmentOpinion := {
  ticker : option string;
  opinion_type : OpinionType;
  action : OpinionAction;
  conviction : float;
  target_weight : option float;
  reasoning : string;
  market_context : string;
  risk_factors : list JValue;
  generated_at : option Z;
}.

Definition sentiment_signal (r : SentimentResult) : float := round_to 4 r.(score).
Definition to_signal_value (o : InvestmentOpinion) : float :=
  let raw := match o.(action) with
    | STRONG_BUY => of_Z 1 | BUY => dec 5 1 | HOLD => fzero | SELL => fneg (dec 5 1) | STRONG_SELL => of_Z (-1) end in
  round_to 4 (fmul raw o.(conviction)).

(** * Reading an answer *)

(** [s.split("```")[1]] of a text behind its first fence *)
Fixpoint before_fence (s : string) : string :=
  if starts_with "```" s then "" else
  match s with "" => "" | String a s' => String a (before_fence s') end.
Fixpoint drop_chars (n : nat) (s : string) : string :=
  match n, s with S n', String _ s' => drop_chars n' s' | _, _ => s end.
Definition unfence (answer : string) : string :=
  let s := strip answer in
  if negb (starts_with "```" s) then s else
  let t := before_fence (drop_chars 3 s) in
  if starts_with "json" t then drop_chars 4 t else t.

(** [s.upper()] on ASCII letters *)
Definition upper_char (a : ascii) : ascii :=
  let n := N_of_ascii a in if (97 <=? n)%N && (n <=? 122)%N then ascii_of_N (n - 32) else a.
Fixpoint upper (s : string) : string :=
  match s with "" => "" | String a s' => String (upper_char a) (upper s') end.

(** [list(v)] of decoded JSON *)
Definition py_list (v : JValue) : result exc (list JValue) :=
  match v with
  | JArray items => Ok items
  | JObject fields => Ok (JStr <$> fields.*1)
  | JStr s => Ok ((λ a, JStr (String a "")) <$> String.list_ascii_of_string s)
  | _ => Err (OtherException "TypeError" "")
  end.

(** [max(lo, min(hi, float(data.get(k, d))))] *)
Definition clamped_at (data : JValue) (k : string) (d : JValue) (lo hi : float) : result exc float :=
  rbind (rbind (get_or data k d) py_float_of) (λ x, Ok (clamp lo hi x)).

(** The exceptions [_parse_response] turns into a neutral result *)
Definition parse_error (e : exc) : bool :=
  match e with
  | OtherException c _ => bool_decide (c ∈ ["JSONDecodeError"; "KeyError"; "IndexError"])
  | _ => false
  end.

Section Reading.
Context (json_loads : string → option JValue) (str : JValue → string).

(** [response.content[0].text], and the JSON in it *)
Definition answer_data (content : list string) : result exc JValue :=
  match content with
  | [] => Err (OtherException "IndexError" "")
  | t :: _ => match json_loads (unfence t) with
              | Some data => Ok data
              | None => Err (OtherException "JSONDecodeError" "")
              end
  end.
Definition text_at (data : JValue) (k : string) : result exc string :=
  rbind (get_or data k (JStr "")) (λ v, Ok (match v with JStr s => s | _ => str v end)).
Definition list_at (data : JValue) (k : string) : result exc (list JValue) := rbind (get_or data k (JArray [])) py_list.

Definition read_sentiment (tk : string) (content : list string) (news : Z) (now : Z) : result exc SentimentResult :=
  rbind (answer_data content) (λ data,
  rbind (clamped_at data "score" (JFloat fzero) (of_Z (-1)) (of_Z 1)) (λ sc,
  rbind (clamped_at data "confidence" (JFloat (dec 5 1)) fzero (of_Z 1)) (λ conf,
  rbind (text_at data "summary") (λ sm,
  rbind (list_at data "positive_factors") (λ pos,
  rbind (list_at data "negative_factors") (λ neg,
  Ok {| s_ticker := tk; score := sc; confidence := conf; summary := sm; positive_factors := pos;
        negative_factors := neg; news_count := news; analyzed_at := Some now |})))))).
Definition parse_sentiment (tk : string) (content : list string) (news now : Z) : result exc SentimentResult :=
  match read_sentiment tk content news now with
  | Err e => if parse_error e then
      Ok {| s_ticker := tk; score := fzero; confidence := dec 1 1; summary := "응답 파싱 실패"; positive_factors := [];
            negative_factors := []; news_count := news; analyzed_at := Some now |}
      else Err e
  | r => r
  end.

(** [data.get("action", "HOLD").upper()] as an action, [HOLD] when it is none *)
Definition read_action (data : JValue) : result exc OpinionAction :=
  rbind (get_or data "action" (JStr "HOLD")) (λ v,
  match v with
  | JStr s => Ok (default HOLD (of_value (upper s)))
  | _ => Err (OtherException "AttributeError" "upper")
  end).
Definition read_weight (data : JValue) : result exc (option float) :=
  rbind (get_or data "target_weight" JNull) (λ v,
  match v with
  | JNull => Ok None
  | _ => rbind (py_float_of v) (λ x, Ok (Some (clamp fzero (dec 20 2) x)))
  end).
Definition read_opinion (tk : option string) (ty : OpinionType) (content : list string) (now : Z) : result exc InvestmentOpinion :=
  rbind (answer_data content) (λ data,
  rbind (read_action data) (λ act,
  rbind (read_weight data) (λ weight,
  rbind (clamped_at data "conviction" (JFloat (dec 5 1)) fzero (of_Z 1)) (λ conv,
  rbind (text_at data "reasoning") (λ why,
  rbind (text_at data "market_context") (λ ctx,
  rbind (list_at data "risk_factors") (λ risks,
  Ok {| ticker := tk; opinion_type := ty; action := act; conviction := conv; target_weight := weight;
        reasoning := why; market_context := ctx; risk_factors := risks; generated_at := Some now |}))))))).
Definition neutral (tk : option string) (ty : OpinionType) (conv : float) (why : string) (now : Z) : InvestmentOpinion := {|
  ticker := tk; opinion_type := ty; action := HOLD; conviction := conv; target_weight := None; reasoning := why;
  market_context := ""; risk_factors := []; generated_at := Some now |}.
Definition parse_opinion (tk : option string) (ty : OpinionType) (content : list string) (now : Z) : result exc InvestmentOpinion :=
  match read_opinion tk ty content now with
  | Err e => if parse_error e then Ok (neutral tk ty (dec 1 1) "응답 파싱 실패" now) else Err e
  | r => r
  end.

(** * SentimentAnalyzer and OpinionGenerator *)

Context {W : Type}.
Class Outside := {
  (** [messages.create] on a prompt: the texts of the answer *)
  create : string → W → result exc (list string) * W;
  utc_now : W → Z;
  redis_up : W → bool;
  database_up : W → bool;
}.
Context `{Outside}.
(** [str(e)[:100]] *)
Context (str_exc : exc → string).

Record Ai := {
  world : W;
  sentiments : gmap string (SentimentResult * Z);  (** cached, with expiry *)
  opinions : gmap string (InvestmentOpinion * Z);
  sentiment_scores : list SentimentResult;  (** stored rows *)
  investment_opinions : list InvestmentOpinion;
  asked : list string;  (** the prompts that were sent *)
}.
Abbreviation Op := (M Ai exc).

Definition set_world w (s : Ai) : Ai := {|
  world := w; sentiments := s.(sentiments); opinions := s.(opinions); sentiment_scores := s.(sentiment_scores);
  investment_opinions := s.(investment_opinions); asked := s.(asked) |}.
Definition messages_create (prompt : string) : Op (list string) := λ s,
  let '(a, w) := create prompt s.(world) in
  (a, {| world := w; sentiments := s.(sentiments); opinions := s.(opinions); sentiment_scores := s.(sentiment_scores);
         investment_opinions := s.(investment_opinions); asked := s.(asked) ++ [prompt] |}).
Definition time_now : Op Z := gets (λ s, utc_now s.(world)).

(** A cached value in its time; what is read back has no time stamp. *)
Definition live_entry {A} (t : Z) (e : option (A * Z)) : option A :=
  match e with Some (a, expires) => if t <? expires then Some a else None | None => None end.

(** ** sentiment.py *)

Definition get_cached_sentiment (tk : string) : Op (option SentimentResult) := gets (λ s,
  if redis_up s.(world) then
    (λ r : SentimentResult, {| s_ticker := r.(s_ticker); score := r.(score); confidence := r.(confidence); summary := r.(summary);
              positive_factors := r.(positive_factors); negative_factors := r.(negative_factors);
              news_count := r.(news_count); analyzed_at := None |})
    <$> live_entry (utc_now s.(world)) (s.(sentiments) !! tk)
  else None).
Definition set_cached_sentiment (tk : string) (r : SentimentResult) : Op unit := modify (λ s,
  if redis_up s.(world) then {|
    world := s.(world); sentiments := <[tk := (r, utc_now s.(world) + SCORE_TTL * 1000000)]> s.(sentiments);
    opinions := s.(opinions); sentiment_scores := s.(sentiment_scores);
    investment_opinions := s.(investment_opinions); asked := s.(asked) |} else s).
Definition store_sentiment (r : SentimentResult) : Op unit := modify (λ s,
  if database_up s.(world) then {|
    world := s.(world); sentiments := s.(sentiments); opinions := s.(opinions);
    sentiment_scores := s.(sentiment_scores) ++ [r];
    investment_opinions := s.(investment_opinions); asked := s.(asked) |} else s).

Definition blank_sentiment (tk : string) (conf : float) (why : string) (now : Z) : SentimentResult := {|
  s_ticker := tk; score := fzero; confidence := conf; summary := why; positive_factors := []; negative_factors := [];
  news_count := 0; analyzed_at := Some now |}.

(** [prompt] is the text made of the first fifteen articles. *)
Definition analyze_ticker (tk : string) (articles : Z) (prompt : string) (force_refresh : bool) : Op SentimentResult :=
  cached ← (if force_refresh then mret None else get_cached_sentiment tk);
  match cached with
  | Some r => mret r
  | None =>
      if articles =? 0 then
        now ← time_now;
        let r := blank_sentiment tk (dec 1 1) "분석 가능한 최근 뉴스가 없습니다." now in
        set_cached_sentiment tk r ;;
        mret r
      else
        try_except (
          content ← messages_create prompt;
          now ← time_now;
          r ← lift_result (parse_sentiment tk content (Z.min articles 15) now);
          set_cached_sentiment tk r ;;
          store_sentiment r ;;
          mret r)
        (λ e, now ← time_now; mret (blank_sentiment tk fzero ("분석 실패: " +:+ str_exc e) now))
  end.

Fixpoint analyze_batch (l : list (string * (Z * string))) (force_refresh : bool) : Op (list (string * SentimentResult)) :=
  match l with
  | [] => mret []
  | (tk, (articles, prompt)) :: rest =>
      r ← analyze_ticker tk articles prompt force_refresh;
      rs ← analyze_batch rest force_refresh;
      mret ((tk, r) :: rs)
  end.

(** ** opinion.py *)

Definition get_cached_opinion (key : string) : Op (option InvestmentOpinion) := gets (λ s,
  if redis_up s.(world) then
    (λ o : InvestmentOpinion, {| ticker := o.(ticker); opinion_type := o.(opinion_type); action := o.(action); conviction := o.(conviction);
              target_weight := o.(target_weight); reasoning := o.(reasoning); market_context := o.(market_context);
              risk_factors := o.(risk_factors); generated_at := None |})
    <$> live_entry (utc_now s.(world)) (s.(opinions) !! key)
  else None).
Definition set_cached_opinion (key : string) (o : InvestmentOpinion) : Op unit := modify (λ s,
  if redis_up s.(world) then {|
    world := s.(world); sentiments := s.(sentiments);
    opinions := <[key := (o, utc_now s.(world) + OPINION_TTL * 1000000)]> s.(opinions);
    sentiment_scores := s.(sentiment_scores); investment_opinions := s.(investment_opinions); asked := s.(asked) |} else s).
Definition store_opinion (o : InvestmentOpinion) : Op unit := modify (λ s,
  if database_up s.(world) then {|
    world := s.(world); sentiments := s.(sentiments); opinions := s.(opinions); sentiment_scores := s.(sentiment_scores);
    investment_opinions := s.(investment_opinions) ++ [o]; asked := s.(asked) |} else s).

Definition _call_api (prompt : string) (tk : option string) (ty : OpinionType) : Op InvestmentOpinion :=
  try_except (
    content ← messages_create prompt;
    now ← time_now;
    lift_result (parse_opinion tk ty content now))
  (λ e, now ← time_now; mret (neutral tk ty fzero ("의견 생성 실패: " +:+ str_exc e) now)).

(** The course the three kinds of opinions share; [adjust] is what is done to a new one. *)
Definition generate (key : string) (tk : option string) (ty : OpinionType) (adjust : InvestmentOpinion → InvestmentOpinion)
    (prompt : string) (force_refresh : bool) : Op InvestmentOpinion :=
  cached ← (if force_refresh then mret None else get_cached_opinion key);
  match cached with
  | Some o => mret o
  | None =>
      o ← _call_api prompt tk ty;
      let o := adjust o in
      set_cached_opinion key o ;;
      store_opinion o ;;
      mret o
  end.

Definition generate_stock_opinion (tk prompt : string) (force_refresh : bool) : Op InvestmentOpinion :=
  generate ("stock:" +:+ tk) (Some tk) STOCK id prompt force_refresh.

(** [min(opinion.target_weight or 0.0, 0.40)] *)
Definition sector_weight (w : option float) : float :=
  let w0 := match w with Some x => if feq x fzero then fzero else x | None => fzero end in fmin w0 (dec 40 2).
Definition generate_sector_opinion (sector_name prompt : string) (force_refresh : bool) : Op InvestmentOpinion :=
  generate ("sector:" +:+ sector_name) None SECTOR (λ o, {|
    ticker := o.(ticker); opinion_type := o.(opinion_type); action := o.(action); conviction := o.(conviction);
    target_weight := Some (sector_weight o.(target_weight)); reasoning := o.(reasoning);
    market_context := "[섹터: " +:+ sector_name +:+ "] " +:+ o.(market_context);
    risk_factors := o.(risk_factors); generated_at := o.(generated_at) |}) prompt force_refresh.
Definition generate_macro_opinion (prompt : string) (force_refresh : bool) : Op InvestmentOpinion :=
  generate "macro:market" None MACRO id prompt force_refresh.

(** ** Ranges *)

Definition within (lo hi x : float) : Prop := fle lo x = true ∧ fle x hi = true.
Definition sentiment_ok (r : SentimentResult) : Prop := within (of_Z (-1)) (of_Z 1) r.(score) ∧ within fzero (of_Z 1) r.(confidence).
Definition opinion_ok (o : InvestmentOpinion) : Prop :=
  within fzero (of_Z 1) o.(conviction) ∧ match o.(target_weight) with Some x => within fzero (dec 20 2) x | None => True end.

Lemma clamped_at_within data k d lo hi x : fle lo hi = true → clamped_at data k d lo hi = Ok x → within lo hi x.
Proof. intros Hle. unfold clamped_at, rbind. intros H1. repeat case_match; simplify_eq. by apply clamp_bounds. Qed.

Lemma parse_sentiment_ok tk content news now r : parse_sentiment tk content news now = Ok r → sentiment_ok r.
Proof.
  unfold parse_sentiment. destruct (read_sentiment tk content news now) as [r'|e] eqn:E.
  - intros [= <-]. unfold read_sentiment, rbind in E. repeat case_match; simplify_eq.
    split; (eapply clamped_at_within; [|eassumption]); by vm_compute.
  - destruct (parse_error e); [|done]. intros [= <-]. repeat split; by vm_compute.
Qed.

Lemma parse_opinion_ok tk ty content now o : parse_opinion tk ty content now = Ok o → opinion_ok o.
Proof.
  unfold parse_opinion. destruct (read_opinion tk ty content now) as [o'|e] eqn:E.
  - intros [= <-]. unfold read_opinion, rbind in E. repeat case_match; simplify_eq. split; cbn.
    + eapply clamped_at_within; [|eassumption]. by vm_compute.
    + match goal with Hw : read_weight _ = Ok ?w |- _ => unfold read_weight, rbind in Hw; destruct w as [x|]; [|done] end.
      repeat case_match; simplify_eq; apply clamp_bounds; by vm_compute.
  - destruct (parse_error e); [|done]. intros [= <-]. repeat split; by vm_compute.
Qed.

Lemma neutral_ok tk ty why now : opinion_ok (neutral tk ty fzero why now).
Proof. repeat split; by vm_compute. Qed.

Lemma sector_weight_within w :
  match w with Some x => within fzero (dec 20 2) x | None => True end → within fzero (dec 20 2) (sector_weight w).
Proof.
  assert (within fzero (dec 20 2) (fmin fzero (dec 40 2))) as H0' by (split; by vm_compute).
  unfold sector_weight. destruct w as [x|]; [|done]. intros [Hlo Hhi]. destruct (feq x fzero); [done|].
  unfold fmin. destruct (flt (dec 40 2) x) eqn:E; [|done]. exfalso.
  pose proof (flt_le_trans _ _ _ E Hhi) as Hx. by vm_compute in Hx.
Qed.

(** All that is cached, stored and handed out is in range. *)
Definition ai_ok (s : Ai) : Prop :=
  map_Forall (λ _ e, sentiment_ok e.1) s.(sentiments) ∧ map_Forall (λ _ e, opinion_ok e.1) s.(opinions) ∧
  Forall sentiment_ok s.(sentiment_scores) ∧ Forall opinion_ok s.(investment_opinions).

Lemma live_entry_some {A} t (e : option (A * Z)) a : live_entry t e = Some a → ∃ x, e = Some (a, x).
Proof. destruct e as [[b x]|]; cbn; [|done]. case_match; [|done]. intros [= <-]. eauto. Qed.

Lemma cached_sentiment_keeps tk : keeps ai_ok (λ c, ∀ r, c = Some r → sentiment_ok r) (get_cached_sentiment tk).
Proof.
  apply keeps_gets. intros s (Hc&_) r. destruct (redis_up _); [|done].
  destruct (live_entry _ _) as [r'|] eqn:E; [|done]. apply live_entry_some in E as [x E]. intros [= <-]. exact (Hc tk _ E).
Qed.
Lemma cached_opinion_keeps key : keeps ai_ok (λ c, ∀ o, c = Some o → opinion_ok o) (get_cached_opinion key).
Proof.
  apply keeps_gets. intros s (_&Hc&_) o. destruct (redis_up _); [|done].
  destruct (live_entry _ _) as [o'|] eqn:E; [|done]. apply live_entry_some in E as [x E]. intros [= <-]. exact (Hc key _ E).
Qed.
Lemma set_cached_sentiment_keeps tk r : sentiment_ok r → keeps ai_ok (λ _, True) (set_cached_sentiment tk r).
Proof.
  intros Hr. apply keeps_modify. intros s (?&?&?&?). destruct (redis_up _); [|done]. split; [|done].
  by apply map_Forall_insert_2.
Qed.
Lemma set_cached_opinion_keeps key o : opinion_ok o → keeps ai_ok (λ _, True) (set_cached_opinion key o).
Proof.
  intros Ho. apply keeps_modify. intros s (?&?&?&?). destruct (redis_up _); [|done]. split; [done|]. split; [|done].
  by apply map_Forall_insert_2.
Qed.
Lemma store_sentiment_keeps r : sentiment_ok r → keeps ai_ok (λ _, True) (store_sentiment r).
Proof.
  intros Hr. apply keeps_modify. intros s (?&?&?&?). destruct (database_up _); [|done]. split; [done|]. split; [done|].
  split; [|done]. apply Forall_app. split; [done|by constructor].
Qed.
Lemma store_opinion_keeps o : opinion_ok o → keeps ai_ok (λ _, True) (store_opinion o).
Proof.
  intros Hr. apply keeps_modify. intros s (?&?&?&?). destruct (database_up _); [|done]. do 3 (split; [done|]).
  apply Forall_app. split; [done|by constructor].
Qed.
Lemma messages_create_keeps prompt : keeps ai_ok (λ _, True) (messages_create prompt).
Proof. intros s Hs. unfold after, messages_create. by destruct (create prompt s.(world)). Qed.
Lemma lift_keeps {A} (Q : A → Prop) (r : Prelude.result exc A) : (∀ a, r = Ok a → Q a) → keeps ai_ok Q (lift_result r).
Proof. intros Hr s Hs. split; [done|]. intros a Ha. by apply Hr. Qed.
Lemma time_now_keeps : keeps ai_ok (λ _, True) time_now.
Proof. by apply keeps_gets. Qed.
#[local] Hint Resolve set_cached_sentiment_keeps set_cached_opinion_keeps store_sentiment_keeps store_opinion_keeps
  messages_create_keeps time_now_keeps cached_sentiment_keeps cached_opinion_keeps : py.

Lemma analyze_ticker_keeps tk n prompt force : keeps ai_ok sentiment_ok (analyze_ticker tk n prompt force).
Proof.
  unfold analyze_ticker. eapply keeps_bind.
  { instantiate (1 := λ c, ∀ r, c = Some r → sentiment_ok r). destruct force; [by apply keeps_ret|auto with py]. }
  intros [r|] Hr; [apply keeps_ret; auto|]. destruct (n =? 0).
  - eapply keeps_bind; [apply time_now_keeps|]. intros now _.
    assert (sentiment_ok (blank_sentiment tk (dec 1 1) "분석 가능한 최근 뉴스가 없습니다." now)) as Hb by (repeat split; by vm_compute).
    eapply keeps_bind; [auto with py|]. intros _ _. by apply keeps_ret.
  - apply keeps_try.
    + eapply keeps_bind; [apply messages_create_keeps|]. intros content _.
      eapply keeps_bind; [apply time_now_keeps|]. intros now _.
      eapply keeps_bind; [apply lift_keeps, parse_sentiment_ok|]. intros r' Hr'.
      do 2 (eapply keeps_bind; [auto with py|intros _ _]). by apply keeps_ret.
    + intros e. eapply keeps_bind; [apply time_now_keeps|]. intros now _. apply keeps_ret. repeat split; by vm_compute.
Qed.

Lemma call_api_keeps prompt tk ty : keeps ai_ok opinion_ok (_call_api prompt tk ty).
Proof.
  unfold _call_api. apply keeps_try.
  - eapply keeps_bind; [apply messages_create_keeps|]. intros content _.
    eapply keeps_bind; [apply time_now_keeps|]. intros now _. apply lift_keeps, parse_opinion_ok.
  - intros e. eapply keeps_bind; [apply time_now_keeps|]. intros now _. apply keeps_ret, neutral_ok.
Qed.

Lemma generate_keeps key tk ty adjust prompt force :
  (∀ o, opinion_ok o → opinion_ok (adjust o)) → keeps ai_ok opinion_ok (generate key tk ty adjust prompt force).
Proof.
  intros Hadj. unfold generate. eapply keeps_bind.
  { instantiate (1 := λ c, ∀ o, c = Some o → opinion_ok o). destruct force; [by apply keeps_ret|auto with py]. }
  intros [o|] Ho; [apply keeps_ret; auto|]. eapply keeps_bind; [apply call_api_keeps|]. intros o Ho'.
  do 2 (eapply keeps_bind; [auto with py|intros _ _]). apply keeps_ret. auto.
Qed.

(** The requests, in any order; [Elsewhere] lets the world go on. *)
Inductive AiOp :=
  | Sentiments (l : list (string * (Z * string))) (force : bool)
  | StockOpinion (tk prompt : string) (force : bool)
  | SectorOpinion (sector prompt : string) (force : bool)
  | MacroOpinion (prompt : string) (force : bool)
  | Elsewhere (f : W → W).

(** What an operation hands out, and what it leaves behind *)
Definition ai_op (op : AiOp) (s : Ai) : (list SentimentResult * list InvestmentOpinion) * Ai :=
  let opinion (m : Op InvestmentOpinion) := match m s with (Ok o, s') => (([], [o]), s') | (Err _, s') => (([], []), s') end in
  match op with
  | Sentiments l force => match analyze_batch l force s with (Ok rs, s') => ((rs.*2, []), s') | (Err _, s') => (([], []), s') end
  | StockOpinion tk prompt force => opinion (generate_stock_opinion tk prompt force)
  | SectorOpinion sector prompt force => opinion (generate_sector_opinion sector prompt force)
  | MacroOpinion prompt force => opinion (generate_macro_opinion prompt force)
  | Elsewhere f => (([], []), set_world (f s.(world)) s)
  end.

Lemma analyze_batch_keeps l force : keeps ai_ok (λ rs : list (string * SentimentResult), Forall sentiment_ok rs.*2) (analyze_batch l force).
Proof.
  induction l as [|[tk [n prompt]] l IH]; cbn [analyze_batch]; [by apply keeps_ret|].
  eapply keeps_bind; [apply analyze_ticker_keeps|]. intros r Hr.
  eapply keeps_bind; [exact IH|]. intros rs Hrs. apply keeps_ret. by constructor.
Qed.

Lemma ai_op_ok op s : ai_ok s →
  let '((rs, os), s') := ai_op op s in ai_ok s' ∧ Forall sentiment_ok rs ∧ Forall opinion_ok os.
Proof.
  intros Hs. assert (∀ m : Op InvestmentOpinion, keeps ai_ok opinion_ok m →
    let '((rs, os), s') := match m s with (Ok o, s') => (([] : list SentimentResult, [o]), s') | (Err _, s') => (([], []), s') end in
    ai_ok s' ∧ Forall sentiment_ok rs ∧ Forall opinion_ok os) as Hop.
  { intros m Hm. destruct (Hm s Hs) as [Ha Ho]. unfold after, outcome in *. destruct (m s) as [[o|e] s']; cbn in *; auto 10. }
  destruct op; cbn.
  - destruct (analyze_batch_keeps l force s Hs) as [Ha Hr]. unfold after, outcome in *.
    destruct (analyze_batch l force s) as [[rs|e] s']; cbn in *; auto.
  - apply Hop, generate_keeps. auto.
  - apply Hop, generate_keeps. intros o [? ?]. split; [done|]. by apply sector_weight_within.
  - apply Hop, generate_keeps. auto.
  - done.
Qed.

Fixpoint ai_run (ops : list AiOp) (s : Ai) : (list SentimentResult * list InvestmentOpinion) * Ai :=
  match ops with
  | [] => (([], []), s)
  | op :: rest =>
      let '((rs, os), s1) := ai_op op s in
      let '((rs', os'), s2) := ai_run rest s1 in
      ((rs ++ rs', os ++ os'), s2)
  end.
Definition new_ai (w : W) : Ai := {|
  world := w; sentiments := ∅; opinions := ∅; sentiment_scores := []; investment_opinions := []; asked := [] |}.

(** Whatever the language model answers and whatever fails: every sentiment that
    is handed out, cached or stored has a score in [-1, 1] and a confidence in [0, 1],
    every opinion a conviction in [0, 1] and, if any, a target weight in [0, 0.20],
    sector opinions included. *)
Theorem ai_results_in_range (ops : list AiOp) (w : W) :
  let '((rs, os), s) := ai_run ops (new_ai w) in
  Forall sentiment_ok rs ∧ Forall opinion_ok os ∧ ai_ok s.
Proof.
  assert (∀ s, ai_ok s → let '((rs, os), s') := ai_run ops s in Forall sentiment_ok rs ∧ Forall opinion_ok os ∧ ai_ok s') as Hrun.
  { induction ops as [|op ops IH]; intros s Hs; cbn; [auto|]. pose proof (ai_op_ok op s Hs) as Hop.
    destruct (ai_op op s) as [[rs os] s1]. destruct Hop as (Hs1&Hrs&Hos). specialize (IH s1 Hs1).
    destruct (ai_run ops s1) as [[rs' os'] s2]. destruct IH as (?&?&?). rewrite !Forall_app. auto. }
  apply Hrun. split_and!; try done; apply map_Forall_empty.
Qed.

(** A call of the model that fails becomes an opinion: HOLD with conviction 0 is
    cached like any other, so that for four hours the key is answered with it and the
    model is not asked.  A failed sentiment leaves the cache alone. *)
Theorem failed_opinions_are_cached (tk prompt prompt' : string) (e : exc) (s : Ai) (w w2 : W)
  (Hfail : create prompt s.(world) = (Err e, w)) (Hredis : ∀ w, redis_up w = true)
  (Hmiss : s.(opinions) !! ("stock:" +:+ tk) = None)
  (Htime : utc_now w2 < utc_now w + 4 * 3600 * 1000000) :
  ∃ o, let '(r, s1) := generate_stock_opinion tk prompt false s in
    r = Ok o ∧ o.(action) = HOLD ∧ o.(conviction) = fzero ∧ s1.(asked) = s.(asked) ++ [prompt] ∧
    (∃ o', generate_stock_opinion tk prompt' false (set_world w2 s1) = (Ok o', set_world w2 s1) ∧
       o'.(action) = HOLD ∧ o'.(conviction) = fzero) ∧
    (∀ n, n ≠ 0 → (analyze_ticker tk n prompt true s).2.(sentiments) = s.(sentiments)).
Proof.
  exists (neutral (Some tk) STOCK fzero ("의견 생성 실패: " +:+ str_exc e) (utc_now w)).
  unfold generate_stock_opinion, generate, get_cached_opinion, _call_api, messages_create, set_cached_opinion, store_opinion, time_now.
  run_m. cbn. rewrite Hredis, Hmiss. cbn. rewrite Hfail. cbn. rewrite Hredis. cbn. rewrite Hredis.
  split; [done|]. split; [done|]. split; [done|].
  destruct (database_up w); cbn; (split; [done|]; split;
    [rewrite lookup_insert_eq; cbn; rewrite (proj2 (Z.ltb_lt _ _)) by (unfold OPINION_TTL; lia); by eexists|];
    intros n Hn; unfold analyze_ticker, messages_create, time_now; run_m; cbn;
    rewrite (proj2 (Z.eqb_neq _ _) Hn), Hfail; done).
Qed.
End Reading.

(** A score that is not a number becomes the most positive one. *)
Theorem nan_is_most_positive (json_loads : string → option JValue) (str : JValue → string) (tk : string) (content : list string)
  (news now : Z) (data : JValue) (r : SentimentResult) :
  answer_data json_loads content = Ok data → get_or data "score" (JFloat fzero) = Ok (JFloat SpecFloat.S754_nan) →
  read_sentiment json_loads str tk content news now = Ok r → r.(score) = of_Z 1.
Proof.
  intros Hd Hs Hr. unfold read_sentiment, rbind in Hr. rewrite Hd in Hr. unfold clamped_at at 1, rbind in Hr. rewrite Hs in Hr.
  cbn [py_float_of] in Hr. repeat case_match; simplify_eq. cbn. apply clamp_nan; by vm_compute.
Qed.

(** * Runs *)

Module AiRuns.
(** A model that has nothing to say at first and a full answer later *)
Record World := { clock : Z; answers : Prelude.result exc (list string) }.
#[local] Instance model : Outside (W:=World) := {|
  create _ w := (w.(answers), w); utc_now := clock; redis_up _ := true; database_up _ := true |}.
Definition buy_json : JValue := JObject [("action", JStr "buy"); ("conviction", JFloat (dec 9 1)); ("target_weight", JFloat (dec 35 2));
  ("reasoning", JStr "r"); ("risk_factors", JArray [])].
Definition loads (s : string) : option JValue :=
  if bool_decide (s = "BUY") then Some buy_json
  else if bool_decide (s = "NAN") then Some (JObject [("score", JFloat SpecFloat.S754_nan)]) else None.
Definition no_str (v : JValue) : string := "".
Definition no_text (e : exc) : string := "".
Definition outage : World := {| clock := 0; answers := Err (HTTPError "APITimeoutError" "") |}.
Definition works (t : Z) : World := {| clock := t; answers := Ok ["BUY"] |}.

Example fences : unfence "```json{x}``` and more" = "{x}" ∧ unfence " plain " = "plain".
Proof. by vm_compute. Qed.

(** The weight of a sector is cut to 0.20, though the prompt allows 0.40. *)
Example sector_weight_is_cut :
  rmap target_weight (outcome (generate_sector_opinion loads no_str no_text "semiconductors" "p" false) (new_ai (works 0))) = Ok (Some (dec 20 2)).
Proof. by vm_compute. Qed.

Lemma failed_opinions_are_cached_witness :
  ∃ o, let '(r, s1) := generate_stock_opinion loads no_str no_text "005930" "p" false (new_ai outage) in
    r = Ok o ∧ o.(action) = HOLD ∧ o.(conviction) = fzero ∧ s1.(asked) = ["p"] ∧
    (∃ o', generate_stock_opinion loads no_str no_text "005930" "q" false (set_world (works 60000000) s1) = (Ok o', set_world (works 60000000) s1) ∧
       o'.(action) = HOLD ∧ o'.(conviction) = fzero) ∧
    (∀ n, n ≠ 0 → (analyze_ticker loads no_str no_text "005930" n "p" true (new_ai outage)).2.(sentiments) = ∅).
Proof.
  apply (failed_opinions_are_cached loads no_str no_text "005930" "p" "q" (HTTPError "APITimeoutError" "") (new_ai outage)
    outage (works 60000000)); [reflexivity|intros; reflexivity|reflexivity|by vm_compute].
Defined.

Lemma nan_is_most_positive_witness :
  ∃ r, read_sentiment loads no_str "005930" ["NAN"] 1 0 = Ok r ∧ r.(score) = of_Z 1.
Proof.
  eexists. split; [vm_compute; reflexivity|].
  apply (nan_is_most_positive loads no_str "005930" ["NAN"] 1 0 (JObject [("score", JFloat SpecFloat.S754_nan)])); by vm_compute.
Defined.
End AiRuns.
