(* ===== verification/EnsembleConfig.v ===== *)
(** The configuration of the dynamic ensemble: config/ensemble_config_loader.py.

    The nested dicts of [_CODE_DEFAULTS] are objects that every configuration
    handed out shares, because [.copy()] copies the outer dict only; they live in a
    heap.  The dict of one regime is a value: nothing assigns into it.  The text of
    the YAML and JSON files, its writer and its reader are parameters.  Keys are
    texts, as every reader looks texts up. *)

From stdpp Require Import base option list sets gmap strings.
From Stdlib Require Import ZArith Lia Ascii.
From S2P Require Import Prelude PyFloat PyDict FloatFacts KisClient ExchangeRate.

Definition Dict := list (string * JValue).
Definition Loc := nat.
(** A dict [{"ensemble": ..., "regime_weights": ..., "risk": ...}] of references *)
Record Config := { ensemble : Loc; regime_weights : Loc; risk : Loc }.
Abbreviation Heap := (gmap Loc Dict).

Definition weights_row (tf mr rp : Z) : JValue := JObject [("TF", JFloat (dec tf 2)); ("MR", JFloat (dec mr 2)); ("RP", JFloat (dec rp 2))].
Definition default_ensemble : Dict := [
  ("adx_threshold", JInt 25); ("vol_pct_threshold", JFloat (dec 75 2)); ("perf_window", JInt 60);
  ("softmax_temperature", JFloat (of_Z 5)); ("perf_blend", JFloat (dec 3 1)); ("target_vol", JFloat (dec 25 2))].
Definition default_regime_weights : Dict := [
  ("TRENDING_UP", weights_row 55 15 30); ("TRENDING_DOWN", weights_row 40 15 45);
  ("HIGH_VOLATILITY", weights_row 20 20 60); ("SIDEWAYS", weights_row 25 45 30)].
Definition default_risk : Dict := [
  ("stop_loss_atr_multiplier", JFloat (of_Z 2)); ("trailing_stop_atr_multiplier", JFloat (of_Z 3));
  ("max_drawdown_limit", JFloat (dec 20 2)); ("drawdown_cooldown_days", JInt 20);
  ("dd_cushion_start", JFloat (dec 8 2)); ("dd_cushion_floor", JFloat (dec 25 2))].

(** [_CODE_DEFAULTS] and what its references hold when the module is loaded *)
Definition _CODE_DEFAULTS : Config := {| ensemble := 0; regime_weights := 1; risk := 2 |}%nat.
Definition module_heap : Heap := <[0%nat := default_ensemble]> (<[1%nat := default_regime_weights]> {[2%nat := default_risk]}).
(** [dict.copy()]: a new outer dict with the same references *)
Definition copy (c : Config) : Config := c.

Definition read (h : Heap) (l : Loc) : Dict := default [] (h !! l).
Definition read_key (h : Heap) (l : Loc) (k : string) : option JValue := dict_get k (read h l).

Definition Cfg := M Heap exc.

Definition TypeError : exc := OtherException "TypeError" "".
Definition ValueError : exc := OtherException "ValueError" "".

(** [k in v] *)
Definition contains (v : JValue) (k : string) : result exc bool :=
  match v with
  | JObject fields => Ok (bool_decide (k ∈ fields.*1))
  | JArray items => Ok (existsb (λ x, is_str x k) items)
  | JStr s => Ok (match String.index 0 k s with Some _ => true | None => false end)
  | _ => Err TypeError
  end.

(** * [dict.update] *)

Definition set_key (l : Loc) (k : string) (v : JValue) : Cfg unit :=
  modify (λ h, <[l := dict_set k v (read h l)]> h).

(** One element of a sequence that [update] is given *)
Definition update_item (l : Loc) (item : JValue) : Cfg unit :=
  match item with
  | JArray [JStr k; v] => set_key l k v
  | JArray [JArray _; _] | JArray [JObject _; _] => raise TypeError
  | JArray [_; _] => mret tt
  | JArray _ => raise ValueError
  | JStr (String a (String b EmptyString)) => set_key l (String a EmptyString) (JStr (String b EmptyString))
  | JObject [(k, _); (k', _)] => set_key l k (JStr k')
  | JStr _ | JObject _ => raise ValueError
  | _ => raise TypeError
  end.
Definition update (l : Loc) (v : JValue) : Cfg unit :=
  match v with
  | JObject fields => for_each (λ kv, set_key l kv.1 kv.2) fields
  | JArray items => for_each (update_item l) items
  | JStr EmptyString => mret tt
  | JStr _ => raise ValueError
  | _ => raise TypeError
  end.

(** * Loading *)

(** What the path of the configuration holds when it is read *)
Inductive File := Missing | Unreadable (e : exc) | Parsed (v : JValue).

(** [if section in yaml_config and yaml_config[section]: config[section].update(...)] *)
Definition override (yaml_config : JValue) (section : string) (l : Loc) : Cfg unit :=
  there ← lift_result (contains yaml_config section);
  if (there : bool)
  then v ← lift_result (subscript yaml_config section); when (truthy v) (update l v)
  else mret tt.

Definition override_defaults (f : File) : Cfg Config :=
  yaml ← match f with Unreadable e => raise e | Missing => mret JNull | Parsed v => mret v end;
  let yaml_config := if truthy yaml then yaml else JObject [] in
  let config := copy _CODE_DEFAULTS in
  override yaml_config "ensemble" config.(ensemble);;
  override yaml_config "regime_weights" config.(regime_weights);;
  override yaml_config "risk" config.(risk);;
  mret config.

Definition load_ensemble_config (f : File) : Cfg Config :=
  match f with
  | Missing => mret (copy _CODE_DEFAULTS)
  | _ => try_except (override_defaults f) (λ _, mret (copy _CODE_DEFAULTS))
  end.

(** * Numbers of a configuration *)

Inductive Num := NInt (z : Z) | NFloat (x : float).
Definition num_of (v : JValue) : result exc Num :=
  match v with
  | JBool b => Ok (NInt (if b then 1 else 0))
  | JInt z => Ok (NInt z)
  | JFloat x => Ok (NFloat x)
  | _ => Err TypeError
  end.
(** [a <= b], exact between an int and a float *)
Definition num_le (a b : Num) : bool :=
  match a, b with
  | NInt x, NInt y => x <=? y
  | NInt x, NFloat y => fgeZ y x
  | NFloat x, NInt y => fleZ x y
  | NFloat x, NFloat y => fle x y
  end.
Definition num_float (a : Num) : result exc float :=
  match a with NInt z => py_float_of (JInt z) | NFloat x => Ok x end.
Definition num_op (fz : Z → Z → Z) (ff : float → float → float) (a b : Num) : result exc Num :=
  match a, b with
  | NInt x, NInt y => Ok (NInt (fz x y))
  | _, _ => rbind (num_float a) (λ x, rbind (num_float b) (λ y, Ok (NFloat (ff x y))))
  end.
Definition num_add : Num → Num → result exc Num := num_op Z.add fadd.
Definition num_sub : Num → Num → result exc Num := num_op Z.sub fsub.

(** [sum(values)] *)
Definition num_sum (l : list JValue) : result exc Num :=
  foldl (λ acc v, rbind acc (λ a, rbind (num_of v) (num_add a))) (Ok (NInt 0)) l.

(** [lo <= v <= hi] *)
Definition between (lo hi : Num) (v : JValue) : result exc bool :=
  rmap (λ x, num_le lo x && num_le x hi) (num_of v).
(** [isinstance(v, int) and v >= lo] *)
Definition int_at_least (lo : Z) (v : JValue) : result exc bool :=
  Ok (match v with JInt z => lo <=? z | JBool b => lo <=? (if b then 1 else 0) | _ => false end).

(** * Validation *)

Inductive ConfigError :=
  | BadValue (section key : string)
  | InvalidRegime (regime : string)
  | NotADict (regime : string)
  | WrongKeys (regime : string)
  | BadSum (regime : string)
  | BadWeight (regime key : string).

Definition Check : Type := string * (JValue → result exc bool).
Definition ensemble_checks : list Check := [
  ("adx_threshold", between (NInt 10) (NInt 50));
  ("vol_pct_threshold", between (NFloat fzero) (NFloat (of_Z 1)));
  ("perf_window", int_at_least 5);
  ("softmax_temperature", between (NFloat (dec 1 1)) (NFloat (of_Z 50)));
  ("perf_blend", between (NFloat fzero) (NFloat (of_Z 1)));
  ("target_vol", between (NFloat (dec 1 2)) (NFloat (of_Z 1)))].
Definition risk_checks : list Check := [
  ("stop_loss_atr_multiplier", between (NFloat (dec 5 1)) (NFloat (of_Z 10)));
  ("trailing_stop_atr_multiplier", between (NFloat (dec 5 1)) (NFloat (of_Z 10)));
  ("max_drawdown_limit", between (NFloat (dec 5 2)) (NFloat (dec 5 1)));
  ("drawdown_cooldown_days", int_at_least 1);
  ("dd_cushion_start", between (NFloat (dec 1 2)) (NFloat (dec 3 1)));
  ("dd_cushion_floor", between (NFloat (dec 1 1)) (NFloat (dec 9 1)))].
Definition valid_regimes : list string := ["TRENDING_UP"; "TRENDING_DOWN"; "HIGH_VOLATILITY"; "SIDEWAYS"].
Definition required_keys : list string := ["TF"; "MR"; "RP"].

(** The errors of [f x] for each [x], in order *)
Fixpoint collect {A} (f : A → result exc (list ConfigError)) (l : list A) : result exc (list ConfigError) :=
  match l with
  | [] => Ok []
  | x :: l' => rbind (f x) (λ es, rmap (app es) (collect f l'))
  end.

Definition check_key (section : string) (v : JValue) (c : Check) : result exc (list ConfigError) :=
  rbind (contains v c.1) (λ there,
  if (there : bool) then rbind (subscript v c.1) (λ x, rmap (λ ok, if (ok : bool) then [] else [BadValue section c.1]) (c.2 x))
  else Ok []).

Definition same_keys (fields : Dict) : bool :=
  bool_decide (Forall (λ k, k ∈ required_keys) fields.*1) && bool_decide (Forall (λ k, k ∈ fields.*1) required_keys).

Definition check_weight (regime : string) (kv : string * JValue) : result exc (list ConfigError) :=
  rmap (λ ok, if (ok : bool) then [] else [BadWeight regime kv.1]) (between (NFloat fzero) (NFloat (of_Z 1)) kv.2).

(** [abs(total - 1.0) > 1e-6] *)
Definition off_one (total : Num) : result exc bool :=
  rbind (num_sub total (NFloat (of_Z 1))) (λ d, rmap (λ x, flt (dec 1 6) (fabs x)) (num_float d)).

Definition check_regime (rw : string * JValue) : result exc (list ConfigError) :=
  let '(regime, weights) := rw in
  if negb (bool_decide (regime ∈ valid_regimes)) then Ok [InvalidRegime regime] else
  match weights with
  | JObject fields =>
      if negb (same_keys fields) then Ok [WrongKeys regime] else
      rbind (num_sum fields.*2) (λ total, rbind (off_one total) (λ off,
      rmap (app (if (off : bool) then [BadSum regime] else [])) (collect (check_weight regime) fields)))
  | _ => Ok [NotADict regime]
  end.

Definition items (v : JValue) : result exc Dict :=
  match v with JObject fields => Ok fields | _ => Err (OtherException "AttributeError" "") end.

Definition validate_ensemble_config (config : JValue) : result exc (list ConfigError) :=
  rbind (get_or config "ensemble" (JObject [])) (λ e,
  rbind (collect (check_key "ensemble" e) ensemble_checks) (λ es1,
  rbind (get_or config "regime_weights" (JObject [])) (λ rw,
  rbind (rbind (items rw) (collect check_regime)) (λ es2,
  rbind (get_or config "risk" (JObject [])) (λ r,
  rmap (λ es3, es1 ++ es2 ++ es3) (collect (check_key "risk" r) risk_checks)))))).

(** * From the parameters of the optimiser *)

Definition regime_map : list (string * string) := [
  ("w_trending_up", "TRENDING_UP"); ("w_trending_down", "TRENDING_DOWN");
  ("w_high_vol", "HIGH_VOLATILITY"); ("w_sideways", "SIDEWAYS")].

Fixpoint gather {A} (f : A → result exc Dict) (l : list A) : result exc Dict :=
  match l with
  | [] => Ok []
  | x :: l' => rbind (f x) (λ kvs, rmap (app kvs) (gather f l'))
  end.

(** [if key in params: config[section][key] = params[key]] *)
Definition pick (params : JValue) (key : string) : result exc Dict :=
  rbind (contains params key) (λ there,
  if (there : bool) then rmap (λ v, [(key, v)]) (subscript params key) else Ok []).

(** The weights of one regime: [max(1.0 - tf_val - mr_val, 0.0)] for the third *)
Definition regime_row (tf_val mr_val : JValue) : result exc JValue :=
  rbind (num_of tf_val) (λ a, rbind (num_sub (NFloat (of_Z 1)) a) (λ d,
  rbind (num_of mr_val) (λ b, rbind (num_sub d b) (λ d', rbind (num_float d') (λ rp,
  rbind (num_float a) (λ tf, rbind (num_float b) (λ mr,
  Ok (JObject [("TF", JFloat (round_to 4 tf)); ("MR", JFloat (round_to 4 mr)); ("RP", JFloat (round_to 4 (fmax rp fzero)))])))))))).

Definition pick_regime (params : JValue) (pn : string * string) : result exc Dict :=
  let '(prefix, regime_name) := pn in
  rbind (contains params (prefix +:+ "_tf")) (λ t1,
  rbind (if (t1 : bool) then contains params (prefix +:+ "_mr") else Ok false) (λ t2,
  if (t2 : bool)
  then rbind (subscript params (prefix +:+ "_tf")) (λ tf_val, rbind (subscript params (prefix +:+ "_mr")) (λ mr_val,
       rmap (λ row, [(regime_name, row)]) (regime_row tf_val mr_val)))
  else Ok [])).

Definition _convert_hyperopt_params_to_config (params : JValue) : result exc JValue :=
  rbind (gather (pick params) ensemble_checks.*1) (λ e,
  rbind (gather (pick_regime params) regime_map) (λ rw,
  rmap (λ r, JObject [("ensemble", JObject e); ("regime_weights", JObject rw); ("risk", JObject r)])
    (gather (pick params) risk_checks.*1))).

(** * What a sequence of loads leaves *)

Inductive Section_ := Ensemble | Regimes | Risk.
Definition section_name (s : Section_) : string :=
  match s with Ensemble => "ensemble" | Regimes => "regime_weights" | Risk => "risk" end.
Definition section_loc (c : Config) (s : Section_) : Loc :=
  match s with Ensemble => c.(ensemble) | Regimes => c.(regime_weights) | Risk => c.(risk) end.
Definition code_default (s : Section_) : Dict :=
  match s with Ensemble => default_ensemble | Regimes => default_regime_weights | Risk => default_risk end.

(** A file whose sections, where they are given, are dicts with distinct keys *)
Definition regular (f : File) : Prop :=
  match f with
  | Parsed v => truthy v = true → ∃ top, v = JObject top ∧ ∀ s x, dict_get (section_name s) top = Some x →
      truthy x = false ∨ ∃ fields, x = JObject fields ∧ NoDup fields.*1
  | _ => True
  end.
(** What a file says of a key *)
Definition assigned (f : File) (s : Section_) (k : string) : option JValue :=
  match f with
  | Parsed (JObject top) => match dict_get (section_name s) top with Some (JObject fields) => dict_get k fields | _ => None end
  | _ => None
  end.
#[global] Arguments assigned : simpl never.
#[global] Arguments read_key : simpl never.
(** What the last file that mentions the key says *)
Definition last_assigned (files : list File) (s : Section_) (k : string) : option JValue :=
  foldl (λ acc f, match assigned f s k with Some v => Some v | None => acc end) None files.

Definition loads (files : list File) (h : Heap) : Heap := foldl (λ h f, after (load_ensemble_config f) h) h files.

Lemma read_key_set l k v h l' k' :
  read_key (after (set_key l k v) h) l' k' = if bool_decide (l' = l ∧ k' = k) then Some v else read_key h l' k'.
Proof.
  unfold read_key, set_key, read. run_m. cbn [snd]. destruct (decide (l' = l)) as [->|Hl].
  - rewrite lookup_insert_eq. cbn. rewrite dict_get_set. repeat case_bool_decide; naive_solver.
  - rewrite lookup_insert_ne by done. rewrite bool_decide_false by naive_solver. done.
Qed.

Lemma update_object l fields h : NoDup fields.*1 →
  outcome (update l (JObject fields)) h = Ok tt ∧
  ∀ l' k, read_key (after (update l (JObject fields)) h) l' k =
    match (if bool_decide (l' = l) then dict_get k fields else None) with Some v => Some v | None => read_key h l' k end.
Proof.
  unfold update. revert h. induction fields as [|[k v] fields IH]; intros h Hnd.
  - split; [done|]. intros l' k'. by case_bool_decide.
  - apply NoDup_cons in Hnd as [Hk Hnd]. cbn [for_each fst snd].
    destruct (IH (after (set_key l k v) h) Hnd) as [Ho Hr]. unfold outcome, after, mbind, M_bind in *.
    assert ((set_key l k v h).1 = Ok tt) as E1 by done. destruct (set_key l k v h) as [r h1] eqn:E. cbn in E1. subst r.
    cbn in Ho, Hr |- *. split; [done|]. intros l' k'. rewrite Hr.
    pose proof (read_key_set l k v h l' k') as Hs. unfold after in Hs. rewrite E in Hs. cbn in Hs. rewrite Hs.
    destruct (decide (l' = l)) as [->|Hl]; [|by rewrite !(bool_decide_false (l' = l)), bool_decide_false by naive_solver].
    rewrite !(bool_decide_true (l = l)) by done. destruct (decide (k' = k)) as [->|Hkk].
    + rewrite (dict_get_None k fields) by done. rewrite !bool_decide_true by done. done.
    + rewrite (bool_decide_false (k' = k)), (bool_decide_false (l = l ∧ k' = k)) by naive_solver. done.
Qed.

(** One section of a regular file *)
Lemma override_regular top s l h :
  (∀ s x, dict_get (section_name s) top = Some x → truthy x = false ∨ ∃ fields, x = JObject fields ∧ NoDup fields.*1) →
  outcome (override (JObject top) (section_name s) l) h = Ok tt ∧
  ∀ l' k, read_key (after (override (JObject top) (section_name s) l) h) l' k =
    match (if bool_decide (l' = l) then assigned (Parsed (JObject top)) s k else None) with
    | Some v => Some v | None => read_key h l' k end.
Proof.
  intros Hreg. unfold override, assigned. cbn [contains subscript]. destruct (dict_get (section_name s) top) as [x|] eqn:E.
  - rewrite bool_decide_true by (apply dict_get_elem in E; apply list_elem_of_fmap; by eexists (_, _)).
    destruct (Hreg _ _ E) as [Hx|(fields&->&Hnd)].
    + run_m. rewrite Hx. split; [done|]. intros l' k. destruct x as [| | | | | |[|]]; try discriminate; cbn [dict_get]; by destruct (bool_decide _).
    + destruct (truthy (JObject fields)) eqn:Ht.
      * pose proof (update_object l fields h Hnd) as [Ho Hr]. run_m. rewrite Ht. done.
      * destruct fields; [|discriminate]. run_m. split; [done|]. intros l' k. cbn [dict_get]. by destruct (bool_decide _).
  - rewrite bool_decide_false by (by rewrite <-dict_get_none). split; [done|]. intros l' k. by destruct (bool_decide _).
Qed.

Lemma section_loc_inj s s' : section_loc _CODE_DEFAULTS s = section_loc _CODE_DEFAULTS s' → s = s'.
Proof. by destruct s, s'. Qed.

Lemma assigned_falsy v s k : truthy v = false → assigned (Parsed v) s k = None.
Proof. destruct v as [| | | | | |[|]]; try done. Qed.

Lemma load_regular f h : regular f →
  outcome (load_ensemble_config f) h = Ok _CODE_DEFAULTS ∧
  ∀ s k, read_key (after (load_ensemble_config f) h) (section_loc _CODE_DEFAULTS s) k =
    match assigned f s k with Some v => Some v | None => read_key h (section_loc _CODE_DEFAULTS s) k end.
Proof.
  destruct f as [|e|v]; [done..|]. intros Hreg. cbn [regular] in Hreg. unfold load_ensemble_config, override_defaults.
  assert (∃ top, (if truthy v then v else JObject []) = JObject top ∧ (∀ s x, dict_get (section_name s) top = Some x →
    truthy x = false ∨ ∃ fields, x = JObject fields ∧ NoDup fields.*1) ∧ (∀ s k, assigned (Parsed v) s k = assigned (Parsed (JObject top)) s k))
    as (top&Htop&Hsec&Has).
  { destruct (truthy v) eqn:Ht.
    - destruct (Hreg eq_refl) as (top&->&Htop). by exists top.
    - exists []. split; [done|]. split; [done|]. intros s k. by apply (assigned_falsy v s k). }
  run_m. rewrite Htop. cbn [copy].
  destruct (override_regular top Ensemble 0%nat h Hsec) as [Ho1 Hr1].
  unfold outcome, after in Ho1, Hr1. cbn [section_name] in *. destruct (override _ "ensemble" _ h) as [r1 h1]. cbn in Ho1, Hr1. subst r1. cbn.
  destruct (override_regular top Regimes 1%nat h1 Hsec) as [Ho2 Hr2].
  unfold outcome, after in Ho2, Hr2. cbn [section_name] in *. destruct (override _ "regime_weights" _ h1) as [r2 h2]. cbn in Ho2, Hr2. subst r2. cbn.
  destruct (override_regular top Risk 2%nat h2 Hsec) as [Ho3 Hr3].
  unfold outcome, after in Ho3, Hr3. cbn [section_name] in *. destruct (override _ "risk" _ h2) as [r3 h3]. cbn in Ho3, Hr3. subst r3. cbn.
  split; [done|]. intros s k. rewrite Has, Hr3, Hr2, Hr1. destruct s; cbn [section_loc _CODE_DEFAULTS ensemble regime_weights risk];
    repeat first [rewrite bool_decide_true by done | rewrite bool_decide_false by done]; done.
Qed.

Lemma load_never_fails (f : File) (h : Heap) : outcome (load_ensemble_config f) h = Ok _CODE_DEFAULTS.
Proof.
  destruct f as [|e|v]; [done..|]. unfold load_ensemble_config, override_defaults. run_m.
  repeat (case_match; simplify_eq; try done).
Qed.

Lemma read_module_heap s : read module_heap (section_loc _CODE_DEFAULTS s) = code_default s.
Proof. by destruct s. Qed.

(** Every configuration that is handed out is the same three dicts, and a key
    holds what the last file that mentioned it said, over all loads of the process,
    else the code default.  A lost or unreadable file changes nothing: it leaves the
    earlier file's values, not the code defaults. *)
Theorem loads_accumulate (files : list File) (Hfiles : Forall regular files) :
  let h := loads files module_heap in
  (∀ s k, read_key h (section_loc _CODE_DEFAULTS s) k =
    match last_assigned files s k with Some v => Some v | None => dict_get k (code_default s) end) ∧
  ∀ f, outcome (load_ensemble_config f) h = Ok _CODE_DEFAULTS ∧
    (f = Missing ∨ (∃ e, f = Unreadable e) → after (load_ensemble_config f) h = h).
Proof.
  cbv zeta. split; [|intros f; split; [apply load_never_fails|by intros [->|[e ->]]]].
  intros s k. unfold last_assigned, loads. induction files as [|f files IH] using rev_ind.
  - cbn. unfold read_key. by rewrite read_module_heap.
  - apply Forall_app in Hfiles as [Hfs Hf]. rewrite Forall_singleton in Hf. rewrite !foldl_app. cbn [foldl].
    rewrite (proj2 (load_regular f _ Hf)), (IH Hfs). by destruct (assigned f s k).
Qed.

(** * Valid configurations *)

(** The checks a key of a section must pass *)
Definition key_ok (s : Section_) (k : string) (v : JValue) : Prop :=
  match s with
  | Ensemble => ∀ ok, (k, ok) ∈ ensemble_checks → ok v = Ok true
  | Regimes => check_regime (k, v) = Ok []
  | Risk => ∀ ok, (k, ok) ∈ risk_checks → ok v = Ok true
  end.
(** The dicts the module shares hold valid values only. *)
Definition valid_live (h : Heap) : Prop :=
  ∀ s k v, read_key h (section_loc _CODE_DEFAULTS s) k = Some v → key_ok s k v.

Lemma collect_nil {A} (f : A → result exc (list ConfigError)) l :
  collect f l = Ok [] ↔ ∀ x, x ∈ l → f x = Ok [].
Proof.
  induction l as [|x l IH]; cbn; [set_solver|]. unfold rbind, rmap. split.
  - destruct (f x) as [es|] eqn:E; [|done]. destruct (collect f l) as [es'|]; [|done]. intros [= [-> ->]%app_eq_nil].
    intros y [->|Hy]%elem_of_cons; [done|]. by apply IH.
  - intros H. rewrite H by left. rewrite (proj2 IH); [done|]. intros y Hy. apply H. by right.
Qed.

Lemma check_key_nil name d k ok : check_key name (JObject d) (k, ok) = Ok [] ↔ ∀ v, dict_get k d = Some v → ok v = Ok true.
Proof.
  unfold check_key. cbn. destruct (dict_get k d) as [v|] eqn:E.
  - rewrite bool_decide_true by (apply dict_get_elem in E; apply list_elem_of_fmap; by eexists (_, _)).
    cbn. unfold rmap. destruct (ok v) as [[]|] eqn:Hv; (split; [intros [=] v' [= <-]; done|intros H]); specialize (H v eq_refl); congruence.
  - rewrite bool_decide_false by (by rewrite <-dict_get_none). done.
Qed.

(** What the three parts of the validation mean for a configuration of dicts *)
Definition section_dict (top : Dict) (s : Section_) : Dict :=
  match dict_get (section_name s) top with Some (JObject fields) => fields | _ => [] end.
Definition dicts (top : Dict) : Prop :=
  ∀ s x, dict_get (section_name s) top = Some x → ∃ fields, x = JObject fields ∧ NoDup fields.*1.

Lemma get_section top s : dicts top → get_or (JObject top) (section_name s) (JObject []) = Ok (JObject (section_dict top s)).
Proof.
  intros Hd. unfold section_dict. cbn. destruct (dict_get (section_name s) top) as [x|] eqn:E; cbn; [|done].
  by destruct (Hd _ _ E) as (fields&->&_).
Qed.

Lemma get_sections top : dicts top →
  get_or (JObject top) "ensemble" (JObject []) = Ok (JObject (section_dict top Ensemble)) ∧
  get_or (JObject top) "regime_weights" (JObject []) = Ok (JObject (section_dict top Regimes)) ∧
  get_or (JObject top) "risk" (JObject []) = Ok (JObject (section_dict top Risk)).
Proof. intros Hd. split_and!; [exact (get_section top Ensemble Hd)|exact (get_section top Regimes Hd)|exact (get_section top Risk Hd)]. Qed.

Lemma section_nodup top s : dicts top → NoDup (section_dict top s).*1.
Proof.
  intros Hd. unfold section_dict. destruct (dict_get (section_name s) top) as [x|] eqn:E; [|constructor].
  by destruct (Hd _ _ E) as (fields&->&?).
Qed.

Lemma validate_ok top : dicts top → validate_ensemble_config (JObject top) = Ok [] → ∀ s k v, dict_get k (section_dict top s) = Some v → key_ok s k v.
Proof.
  intros Hd. unfold validate_ensemble_config. destruct (get_sections top Hd) as (->&->&->). cbn [rbind items].
  unfold rbind, rmap. destruct (collect (check_key "ensemble" _) _) as [es1|] eqn:E1; [|done].
  destruct (collect check_regime _) as [es2|] eqn:E2; [|done]. destruct (collect (check_key "risk" _) _) as [es3|] eqn:E3; [|done].
  intros [= [-> [-> ->]%app_eq_nil]%app_eq_nil]. intros s k v Hk. destruct s; cbn [key_ok].
  - intros ok Hok. exact (proj1 (check_key_nil _ _ k ok) (proj1 (collect_nil _ _) E1 _ Hok) v Hk).
  - by apply (proj1 (collect_nil _ _) E2), dict_get_elem.
  - intros ok Hok. exact (proj1 (check_key_nil _ _ k ok) (proj1 (collect_nil _ _) E3 _ Hok) v Hk).
Qed.

Lemma load_valid f h : regular f → (∀ s k v, assigned f s k = Some v → key_ok s k v) →
  valid_live h → valid_live (after (load_ensemble_config f) h).
Proof.
  intros Hf Ha Hh s k v. rewrite (proj2 (load_regular f h Hf)). destruct (assigned f s k) eqn:E; [intros [= <-]; by apply Ha|apply Hh].
Qed.

Lemma defaults_valid : valid_live module_heap.
Proof.
  pose (top := [("ensemble", JObject default_ensemble); ("regime_weights", JObject default_regime_weights); ("risk", JObject default_risk)]).
  assert (dicts top) as Hd.
  { intros [] x [= <-]; eexists; (split; [done|]); apply (bool_decide_unpack _); by vm_compute. }
  intros s k v Hk. apply (validate_ok top Hd ltac:(by vm_compute)). unfold read_key in Hk. rewrite read_module_heap in Hk.
  destruct s; exact Hk.
Qed.

(** * Applying a result of the optimiser *)

Lemma gather_lookup {A} (f : A → result exc Dict) (key : A → string) l d :
  (∀ x kvs, f x = Ok kvs → kvs = [] ∨ ∃ v, kvs = [(key x, v)]) → NoDup (key <$> l) → gather f l = Ok d →
  NoDup d.*1 ∧ (∀ k, k ∈ d.*1 → k ∈ key <$> l) ∧
  ∀ x, x ∈ l → f x = Ok [] ∨ ∃ v, f x = Ok [(key x, v)] ∧ dict_get (key x) d = Some v.
Proof.
  intros Hf. revert d. induction l as [|x l IH]; cbn; intros d Hnd.
  - intros [= <-]. split; [constructor|]. set_solver.
  - apply NoDup_cons in Hnd as [Hx Hnd]. unfold rbind, rmap. destruct (f x) as [kvs|] eqn:Ef; [|done].
    destruct (gather f l) as [d'|] eqn:Eg; [|done]. intros [= <-]. destruct (IH d' Hnd eq_refl) as (Hd'&Hsub&Hget).
    destruct (Hf x kvs Ef) as [->|[v ->]]; cbn.
    + split; [done|]. split; [set_solver|]. intros y [->|Hy]%elem_of_cons; [by left|by apply Hget].
    + split; [apply NoDup_cons; split; [|done]; intros Hin; by apply Hx, Hsub|]. split; [set_solver|].
      intros y [->|Hy]%elem_of_cons; [right; exists v; by rewrite bool_decide_true|].
      destruct (Hget y Hy) as [?|(w&?&?)]; [by left|]. right. exists w. split; [done|].
      rewrite bool_decide_false; [done|]. intros E. apply Hx. rewrite <-E. apply list_elem_of_fmap. by exists y.
Qed.

Lemma pick_cases params key kvs : pick (JObject params) key = Ok kvs → kvs = [] ∨ ∃ v, kvs = [(key, v)].
Proof.
  unfold pick, rbind, rmap. cbn. case_bool_decide; [|intros [= <-]; by left].
  destruct (dict_get key params); [|done]. intros [= <-]. right. by eexists.
Qed.
Lemma pick_present params key v : dict_get key params = Some v → pick (JObject params) key = Ok [(key, v)].
Proof.
  intros E. unfold pick. cbn. rewrite bool_decide_true by (apply dict_get_elem in E; apply list_elem_of_fmap; by eexists (_, _)).
  cbn. by rewrite E.
Qed.
Lemma contains_get params k v : dict_get k params = Some v → contains (JObject params) k = Ok true.
Proof. intros E. cbn. rewrite bool_decide_true; [done|]. apply dict_get_elem in E. apply list_elem_of_fmap. by eexists (_, _). Qed.

Lemma pick_regime_cases params pn kvs : pick_regime (JObject params) pn = Ok kvs → kvs = [] ∨ ∃ v, kvs = [(pn.2, v)].
Proof.
  destruct pn as [prefix name]. unfold pick_regime, rbind, rmap. intros H.
  repeat (case_match; simplify_eq; try done); try (by left); right; by eexists.
Qed.
Lemma pick_regime_present params prefix name tf mr kvs :
  dict_get (prefix +:+ "_tf") params = Some tf → dict_get (prefix +:+ "_mr") params = Some mr →
  pick_regime (JObject params) (prefix, name) = Ok kvs → ∃ row, regime_row tf mr = Ok row ∧ kvs = [(name, row)].
Proof.
  intros Ht Hm. unfold pick_regime. rewrite (contains_get _ _ _ Ht). cbn [rbind]. rewrite (contains_get _ _ _ Hm). cbn [rbind subscript].
  rewrite Ht, Hm. cbn [rbind]. unfold rmap. destruct (regime_row tf mr) as [row|]; [|done]. intros [= <-]. by eexists.
Qed.

Lemma convert_spec params config : _convert_hyperopt_params_to_config (JObject params) = Ok config →
  ∃ top, config = JObject top ∧ dicts top ∧
    (∀ k v, k ∈ ensemble_checks.*1 → dict_get k params = Some v → dict_get k (section_dict top Ensemble) = Some v) ∧
    (∀ k v, k ∈ risk_checks.*1 → dict_get k params = Some v → dict_get k (section_dict top Risk) = Some v) ∧
    (∀ prefix name tf mr, (prefix, name) ∈ regime_map → dict_get (prefix +:+ "_tf") params = Some tf →
      dict_get (prefix +:+ "_mr") params = Some mr →
      ∃ row, regime_row tf mr = Ok row ∧ dict_get name (section_dict top Regimes) = Some row).
Proof.
  unfold _convert_hyperopt_params_to_config, rbind, rmap.
  destruct (gather (pick _) ensemble_checks.*1) as [e|] eqn:E1; [|done].
  destruct (gather (pick_regime _) _) as [rw|] eqn:E2; [|done]. destruct (gather (pick _) risk_checks.*1) as [r|] eqn:E3; [|done].
  intros [= <-].
  apply (gather_lookup _ id) in E1 as (N1&_&G1); [|apply pick_cases|rewrite list_fmap_id; apply (bool_decide_unpack _); by vm_compute].
  apply (gather_lookup _ snd) in E2 as (N2&_&G2); [|apply pick_regime_cases|apply (bool_decide_unpack _); by vm_compute].
  apply (gather_lookup _ id) in E3 as (N3&_&G3); [|apply pick_cases|rewrite list_fmap_id; apply (bool_decide_unpack _); by vm_compute].
  eexists. split; [done|]. split; [by intros [] x [= <-]; eexists|]. split_and!.
  - intros k v Hk Hv. destruct (G1 k Hk) as [H|(w&H&Hw)]; rewrite (pick_present _ _ _ Hv) in H; [done|]. by injection H as <-.
  - intros k v Hk Hv. destruct (G3 k Hk) as [H|(w&H&Hw)]; rewrite (pick_present _ _ _ Hv) in H; [done|]. by injection H as <-.
  - intros prefix name tf mr Hin Ht Hm. destruct (G2 _ Hin) as [H|(w&H&Hw)];
      destruct (pick_regime_present _ _ _ _ _ _ Ht Hm H) as (row&Hrow&Hk); [done|]. injection Hk as ->. by exists row.
Qed.

(** * Saving *)

(** The module's dicts and the file at [_ENSEMBLE_CONFIG_PATH] *)
Section Files.
Context {Text : Type} (safe_load : Text → result exc JValue) (dump : JValue → Text) (json_loads : Text → option JValue).

Record Disk := { heap : Heap; file : option Text }.
Definition set_file (t : Text) (d : Disk) : Disk := {| heap := d.(heap); file := Some t |}.
(** How a write goes: [Interrupted t e] leaves the text [t] in the opened file. *)
Inductive Write := Written | CannotOpen (e : exc) | Interrupted (t : Text) (e : exc).

Definition file_now (d : Disk) : File :=
  match d.(file) with
  | None => Missing
  | Some t => match safe_load t with Ok v => Parsed v | Err e => Unreadable e end
  end.
Definition load_from_disk : M Disk exc Config := λ d,
  let '(r, h) := load_ensemble_config (file_now d) d.(heap) in (r, {| heap := h; file := d.(file) |}).

Definition default_metadata : JValue := JObject [("last_optimized", JNull); ("oos_sharpe_baseline", JNull); ("version", JStr "1.0")].
Definition yaml_of (config metadata : JValue) : result exc JValue :=
  rbind (get_or config "ensemble" (JObject [])) (λ e,
  rbind (get_or config "regime_weights" (JObject [])) (λ rw,
  rmap (λ r, JObject [("metadata", if truthy metadata then metadata else default_metadata); ("ensemble", e); ("regime_weights", rw); ("risk", r)])
    (get_or config "risk" (JObject [])))).

Definition save_ensemble_config (config metadata : JValue) (w : Write) : M Disk exc unit :=
  errors ← lift_result (validate_ensemble_config config);
  if negb (bool_decide (length errors = 0%nat)) then raise ValueError else
  yaml_config ← lift_result (yaml_of config metadata);
  match w with
  | CannotOpen e => raise e
  | Interrupted t e => modify (set_file t);; raise e
  | Written => modify (set_file (dump yaml_config))
  end.

(** [result_file]: the text of the optimiser's result, [today] the formatted date *)
Definition apply_hyperopt_results (result_file : option Text) (today : string) (w : Write) : M Disk exc JValue :=
  match result_file with
  | None => raise (OtherException "FileNotFoundError" "")
  | Some t =>
      match json_loads t with
      | None => raise ValueError
      | Some result =>
          best_params ← lift_result (get_or result "best_params" (JObject []));
          best_value ← lift_result (get_or result "best_value" JNull);
          if negb (truthy best_params) then raise ValueError else
          config ← lift_result (_convert_hyperopt_params_to_config best_params);
          baseline ← lift_result (if truthy best_value then rmap JFloat (py_float_of best_value) else Ok JNull);
          save_ensemble_config config
            (JObject [("last_optimized", JStr today); ("oos_sharpe_baseline", baseline); ("version", JStr "1.0")]) w;;
          mret config
      end
  end.



(** * Save, then load *)

Lemma yaml_of_dicts top metadata : dicts top → ∃ md,
  yaml_of (JObject top) metadata = Ok (JObject [("metadata", md); ("ensemble", JObject (section_dict top Ensemble));
    ("regime_weights", JObject (section_dict top Regimes)); ("risk", JObject (section_dict top Risk))]).
Proof.
  intros Hd. eexists. unfold yaml_of. destruct (get_sections top Hd) as (->&->&->). reflexivity.
Qed.

Lemma save_then_load top metadata (d : Disk) :
  (∀ y, safe_load (dump y) = Ok y) → dicts top → valid_live d.(heap) →
  match save_ensemble_config (JObject top) metadata Written d with
  | (Ok _, d1) => d1.(heap) = d.(heap) ∧ ∃ d2, load_from_disk d1 = (Ok _CODE_DEFAULTS, d2) ∧ valid_live d2.(heap) ∧
      ∀ s k, read_key d2.(heap) (section_loc _CODE_DEFAULTS s) k =
        match dict_get k (section_dict top s) with
        | Some v => Some v | None => read_key d.(heap) (section_loc _CODE_DEFAULTS s) k end
  | (Err _, d1) => d1 = d
  end.
Proof.
  intros Hyaml Hd Hlive. unfold save_ensemble_config. run_m.
  destruct (validate_ensemble_config (JObject top)) as [es|e] eqn:Ev; [|done].
  destruct es; [|done]. destruct (yaml_of_dicts top metadata Hd) as [md Hy].
  change (negb (bool_decide (length (@nil ConfigError) = 0%nat))) with false. cbv beta iota. rewrite Hy. cbn. split; [done|].
  unfold load_from_disk, file_now. cbn [file set_file heap]. rewrite Hyaml.
  set (f := Parsed _). assert (regular f) as Hf.
  { intros _. eexists. split; [reflexivity|]. intros s x Hx. right. exists (section_dict top s).
    split; [destruct s; by injection Hx as <-|by apply section_nodup]. }
  assert (∀ s k, assigned f s k = dict_get k (section_dict top s)) as Hass by (intros [] k; done).
  pose proof (load_valid f d.(heap) Hf) as Hv. destruct (load_regular f d.(heap) Hf) as [Ho Hr].
  unfold outcome, after in *. destruct (load_ensemble_config f d.(heap)) as [r h]. cbn in *. subst r.
  eexists. split; [done|]. cbn. split.
  - apply Hv; [|done]. intros s k v. rewrite Hass. by apply validate_ok.
  - intros s k. by rewrite Hr, Hass.
Qed.

Lemma save_that_fails config metadata w (d : Disk) : w ≠ Written →
  ∃ e d1, save_ensemble_config config metadata w d = (Err e, d1) ∧
    (d1 = d ∨ ∃ text e', w = Interrupted text e' ∧ d1 = set_file text d).
Proof.
  intros Hw. unfold save_ensemble_config. run_m. destruct (validate_ensemble_config config) as [es|e]; [|by eauto].
  destruct (negb _); [by eauto|]. destruct (yaml_of config metadata); [|by eauto]. destruct w; [done|by eauto|]. cbn. eauto 10.
Qed.

(** C28. Applying a result of the optimiser, however the write goes, ends in one of three ways.
    It fails and the file is as it was; or it fails because the write was interrupted, and
    the file holds what was written until then, the old one being lost; or it succeeds
    and the next load makes every parameter of the result live: the parameters as they
    are, the weights of a regime as the row computed from its two parameters.  Live
    values that were within their ranges stay so.  The YAML library is assumed to read
    back what it dumps. *)
Theorem applied_results_go_live (t : Text) (result params : Dict) (today : string) (w : Write) (d : Disk)
  (Hyaml : ∀ y, safe_load (dump y) = Ok y) (Hjson : json_loads t = Some (JObject result))
  (Hbest : dict_get "best_params" result = Some (JObject params)) (Hlive : valid_live d.(heap)) :
  match apply_hyperopt_results (Some t) today w d with
  | (Err _, d1) => d1 = d ∨ ∃ text e, w = Interrupted text e ∧ d1 = set_file text d
  | (Ok config, d1) => w = Written ∧ d1.(heap) = d.(heap) ∧ ∃ d2, load_from_disk d1 = (Ok _CODE_DEFAULTS, d2) ∧ valid_live d2.(heap) ∧
      (∀ k v, k ∈ ensemble_checks.*1 → dict_get k params = Some v → read_key d2.(heap) _CODE_DEFAULTS.(ensemble) k = Some v) ∧
      (∀ k v, k ∈ risk_checks.*1 → dict_get k params = Some v → read_key d2.(heap) _CODE_DEFAULTS.(risk) k = Some v) ∧
      (∀ prefix name tf mr, (prefix, name) ∈ regime_map → dict_get (prefix +:+ "_tf") params = Some tf →
        dict_get (prefix +:+ "_mr") params = Some mr →
        ∃ row, regime_row tf mr = Ok row ∧ read_key d2.(heap) _CODE_DEFAULTS.(regime_weights) name = Some row)
  end.
Proof.
  unfold apply_hyperopt_results. rewrite Hjson. run_m. cbn [get_or]. rewrite Hbest. cbn [default id].
  destruct (truthy (JObject params)); cbn [negb]; cbv beta iota; [|by left].
  destruct (_convert_hyperopt_params_to_config (JObject params)) as [config|] eqn:Ec; [|by left].
  destruct (convert_spec params config Ec) as (top&->&Hd&He&Hr&Hw).
  match goal with |- context [if truthy ?bv then ?a else ?b] => destruct (if truthy bv then a else b) as [baseline|]; [|by left] end.
  assert (w = Written ∨ w ≠ Written) as [->|Hw'] by (destruct w; auto);
    [|destruct (save_that_fails (JObject top) (JObject [("last_optimized", JStr today); ("oos_sharpe_baseline", baseline); ("version", JStr "1.0")]) w d Hw') as (e&d1&->&H); exact H].
  pose proof (save_then_load top (JObject [("last_optimized", JStr today); ("oos_sharpe_baseline", baseline); ("version", JStr "1.0")]) d Hyaml Hd Hlive) as Hs.
  destruct (save_ensemble_config _ _ _ d) as [[[]|e] d1]; [|by left]. destruct Hs as (Hh&d2&Hl&Hv&Hread).
  split; [done|]. split; [done|]. exists d2. split; [done|]. split; [done|]. split_and!.
  - intros k v Hk Hp. specialize (Hread Ensemble k). by rewrite (He k v Hk Hp) in Hread.
  - intros k v Hk Hp. specialize (Hread Risk k). by rewrite (Hr k v Hk Hp) in Hread.
  - intros prefix name tf mr Hin Ht Hm. destruct (Hw _ _ _ _ Hin Ht Hm) as (row&Hrow&Hk). exists row. split; [done|].
    specialize (Hread Regimes name). by rewrite Hk in Hread.
Qed.
End Files.
#[global] Arguments Disk : clear implicits.
#[global] Arguments Write : clear implicits.

(** * Runs *)

Module ConfigRuns.
(** Files whose text is the value it stands for *)
Definition safe_load (y : JValue) : result exc JValue := Ok y.
Definition dump (y : JValue) : JValue := y.
Definition json_loads (y : JValue) : option JValue := Some y.

Definition ensemble_file (fields : Dict) : File := Parsed (JObject [("ensemble", JObject fields)]).
Definition calmer : File := ensemble_file [("target_vol", JFloat (dec 10 2))].
Definition new_disk : Disk JValue := {| heap := module_heap; file := None |}.

Lemma loads_accumulate_witness :
  let h := loads [calmer; Missing] module_heap in
  read_key h _CODE_DEFAULTS.(ensemble) "target_vol" = Some (JFloat (dec 10 2)) ∧
  dict_get "target_vol" (code_default Ensemble) = Some (JFloat (dec 25 2)).
Proof.
  split; [|by vm_compute]. refine (proj1 (loads_accumulate [calmer; Missing] _) Ensemble "target_vol").
  repeat constructor. intros _. eexists. split; [done|]. intros [] x Hx; [|discriminate Hx|discriminate Hx].
  injection Hx as <-. right. eexists. split; [reflexivity|]. apply NoDup_singleton.
Defined.

(** A file that fails half way is reported as unused, but its first section stays. *)
Example half_read_file_is_half_used :
  let h := after (load_ensemble_config (Parsed (JObject [("ensemble", JObject [("target_vol", JFloat (dec 10 2))]); ("regime_weights", JInt 3)]))) module_heap in
  read_key h _CODE_DEFAULTS.(ensemble) "target_vol" = Some (JFloat (dec 10 2)).
Proof. by vm_compute. Qed.

(** A file that is edited by hand is not validated. *)
Example loading_does_not_validate :
  let h := after (load_ensemble_config (ensemble_file [("target_vol", JInt (-1))])) module_heap in
  read_key h _CODE_DEFAULTS.(ensemble) "target_vol" = Some (JInt (-1)) ∧
  validate_ensemble_config (JObject [("ensemble", JObject [("target_vol", JInt (-1))])]) = Ok [BadValue "ensemble" "target_vol"].
Proof. by vm_compute. Qed.

Definition best (tf mr : float) : Dict := [("target_vol", JFloat (dec 15 2)); ("w_sideways_tf", JFloat tf); ("w_sideways_mr", JFloat mr)].
Definition result_of (params : Dict) : Dict := [("best_params", JObject params); ("best_value", JFloat (dec 12 1))].

Lemma applied_results_go_live_witness :
  ∃ config d1 d2, apply_hyperopt_results dump json_loads (Some (JObject (result_of (best (dec 20 2) (dec 50 2))))) "2026-01-02" Written new_disk
      = (Ok config, d1) ∧
    load_from_disk safe_load d1 = (Ok _CODE_DEFAULTS, d2) ∧
    read_key d2.(heap) _CODE_DEFAULTS.(ensemble) "target_vol" = Some (JFloat (dec 15 2)) ∧
    read_key d2.(heap) _CODE_DEFAULTS.(regime_weights) "SIDEWAYS" = Some (weights_row 20 50 30).
Proof.
  pose proof (applied_results_go_live safe_load dump json_loads (JObject (result_of (best (dec 20 2) (dec 50 2))))
    (result_of (best (dec 20 2) (dec 50 2))) (best (dec 20 2) (dec 50 2)) "2026-01-02" Written new_disk
    (λ _, eq_refl) eq_refl eq_refl defaults_valid) as H.
  destruct (apply_hyperopt_results dump json_loads _ _ _ new_disk) as [[config|e] d1] eqn:E; [|exfalso; vm_compute in E; discriminate E].
  destruct H as (_&_&d2&Hl&_&He&_&Hw). exists config, d1, d2. split; [reflexivity|]. split; [exact Hl|]. clear E Hl. split; [apply He; [cbn; set_solver|reflexivity]|].
  destruct (Hw "w_sideways" "SIDEWAYS" (JFloat (dec 20 2)) (JFloat (dec 50 2))) as (row&Hrow&->); [cbn; set_solver|reflexivity|reflexivity|].
  f_equal. symmetry. revert Hrow. vm_compute. congruence.
Defined.

(** Two weights with five decimals are each rounded to four, and the validation
    rejects the sum. *)
Example rounding_rejects_a_result :
  let tf := dec 33335 5 in fle (fadd tf tf) (of_Z 1) = true ∧
  outcome (apply_hyperopt_results dump json_loads (Some (JObject (result_of (best tf tf)))) "2026-01-02" Written) new_disk = Err ValueError.
Proof. by vm_compute. Qed.

(** A write that fails after the file is opened leaves neither the old nor the new one. *)
Example interrupted_write_loses_the_file :
  let d := after (apply_hyperopt_results dump json_loads (Some (JObject (result_of (best (dec 20 2) (dec 50 2))))) "2026-01-02"
    (Interrupted JNull (OtherException "OSError" ""))) {| heap := module_heap; file := Some (JObject [("version", JStr "old")]) |} in
  d.(file) = Some JNull.
Proof. by vm_compute. Qed.
End ConfigRuns.
