(* ===== verification/Series.v ===== *)
(** Columns of a price table: a pandas Series of floats as the list of its values, NaN
    for a missing one.

    Arithmetic, comparisons, masks, [fillna], [replace] and [clip] act on each value
    by itself and are written out; every Series of one computation has the index of
    the price table.  What pandas and numpy compute over windows, and their
    transcendental functions and rounding, is the interface [Pandas]. *)

From stdpp Require Import base option list strings.
From Stdlib Require Import ZArith Lia Floats.SpecFloat.
From S2P Require Import Prelude PyFloat FloatFacts KisClient.

Abbreviation Series := (list float).
Abbreviation Mask := (list bool).

Class Pandas := {
  (** [rolling(window, min_periods).mean()], [.std()], [.median()] and [.sum()] *)
  rolling_mean : Z → Z → Series → Series;
  rolling_std : Z → Series → Series;
  rolling_median : Z → Z → Series → Series;
  rolling_sum : JValue → Series → result exc Series;
  (** [ewm(alpha, min_periods, adjust=False).mean()] and the same by span *)
  ewm_alpha : float → Z → Series → Series;
  ewm_span : Z → Z → Series → Series;
  (** [expanding(min_periods).rank(pct=True)] *)
  expanding_rank : JValue → Series → result exc Series;
  shift : Z → Series → Series;
  pct_change : Z → Series → Series;
  diff : Series → Series;
  (** [max(axis=1)] of a row, [median()], [std()] *)
  row_max : list float → float;
  median : Series → float;
  std : Series → float;
  unique : list Z → list Z;
  percentile : list Z → Z → float;
  np_exp : float → float;
  np_sqrt : float → float;
  np_round : Z → float → float;
}.

(** * Operations on each value *)

Definition smap (f : float → float) (s : Series) : Series := f <$> s.
Definition szip (f : float → float → float) (s t : Series) : Series := zip_with f s t.
Definition scmp (f : float → float → bool) (s t : Series) : Mask := zip_with f s t.
Definition stest (f : float → bool) (s : Series) : Mask := f <$> s.
Definition mand (m n : Mask) : Mask := zip_with andb m n.
Definition mnot (m : Mask) : Mask := negb <$> m.
(** [s.where(m, t)] and [s.where(m, v)] for a number [v] *)
Definition where_ (s : Series) (m : Mask) (t : Series) : Series := zip_with (λ xy b, if (b : bool) then xy.1 else xy.2) (zip s t) m.
Definition where_v (s : Series) (m : Mask) (v : float) : Series := zip_with (λ x b, if (b : bool) then x else v) s m.
(** [pd.Series(v, index=dates)] *)
Definition constant (v : float) (dates : nat) : Series := replicate dates v.
Definition fill (v x : float) : float := if is_nan x then v else x.
Definition fillna (v : float) : Series → Series := smap (fill v).
(** [s.replace(0, v)] *)
Definition replace_zero (v : float) : Series → Series := smap (λ x, if feq x fzero then v else x).
Definition clip_upper (hi x : float) : float := if flt hi x then hi else x.
Definition clip_lower (lo x : float) : float := if flt x lo then lo else x.
(** [clip(lo, hi)]: a NaN stays *)
Definition clip1 (lo hi x : float) : float := clip_upper hi (clip_lower lo x).
Definition clip (lo hi : float) : Series → Series := smap (clip1 lo hi).
(** [s.iloc[:n] = v] *)
Definition set_head (n : nat) (v : float) (s : Series) : Series := replicate (n `min` length s) v ++ drop n s.
(** [s.astype(int)] *)
Fixpoint astype_int (s : Series) : result exc (list Z) :=
  match s with
  | [] => Ok []
  | x :: s' => match trunc x with
               | Some z => rmap (cons z) (astype_int s')
               | None => Err (OtherException "IntCastingNaNError" "")
               end
  end.
(** [s.iloc[-1]] *)
Definition iloc_last (s : Series) : result exc float :=
  match last s with Some x => Ok x | None => Err (OtherException "IndexError" "") end.

(** * Values at one bar *)

Create HintDb bar discriminated.

Section Bars.
Implicit Types (s t : Series) (m n : Mask) (i : nat) (x y v : float) (b c : bool).

Lemma smap_at f s i x : s !! i = Some x → smap f s !! i = Some (f x).
Proof. intros H. unfold smap. by rewrite list_lookup_fmap, H. Qed.
Lemma stest_at f s i x : s !! i = Some x → stest f s !! i = Some (f x).
Proof. intros H. unfold stest. by rewrite list_lookup_fmap, H. Qed.
Lemma szip_at f s t i x y : s !! i = Some x → t !! i = Some y → szip f s t !! i = Some (f x y).
Proof. intros H1 H2. unfold szip. by rewrite lookup_zip_with, H1; cbn; rewrite H2. Qed.
Lemma scmp_at f s t i x y : s !! i = Some x → t !! i = Some y → scmp f s t !! i = Some (f x y).
Proof. intros H1 H2. unfold scmp. by rewrite lookup_zip_with, H1; cbn; rewrite H2. Qed.
Lemma mand_at m n i b c : m !! i = Some b → n !! i = Some c → mand m n !! i = Some (b && c).
Proof. intros H1 H2. unfold mand. by rewrite lookup_zip_with, H1; cbn; rewrite H2. Qed.
Lemma mnot_at m i b : m !! i = Some b → mnot m !! i = Some (negb b).
Proof. intros H. unfold mnot. by rewrite list_lookup_fmap, H. Qed.
Lemma where_at s m t i x b y : s !! i = Some x → m !! i = Some b → t !! i = Some y →
  where_ s m t !! i = Some (if b then x else y).
Proof.
  intros H1 H2 H3. unfold where_. rewrite lookup_zip_with, lookup_zip_with, H1. cbn. rewrite H3. cbn. by rewrite H2.
Qed.
Lemma where_v_at s m v i x b : s !! i = Some x → m !! i = Some b → where_v s m v !! i = Some (if b then x else v).
Proof. intros H1 H2. unfold where_v. by rewrite lookup_zip_with, H1; cbn; rewrite H2. Qed.
Lemma constant_at v k i : (i < k)%nat → constant v k !! i = Some v.
Proof. intros H. by apply lookup_replicate_2. Qed.
Lemma fillna_at v s i x : s !! i = Some x → fillna v s !! i = Some (fill v x).
Proof. apply smap_at. Qed.
Lemma clip_at lo hi s i x : s !! i = Some x → clip lo hi s !! i = Some (clip1 lo hi x).
Proof. apply smap_at. Qed.
Lemma replace_zero_at v s i x : s !! i = Some x → replace_zero v s !! i = Some (if feq x fzero then v else x).
Proof. apply (smap_at (λ x, if feq x fzero then v else x)). Qed.
End Bars.

#[export] Hint Resolve smap_at stest_at szip_at scmp_at mand_at mnot_at where_at where_v_at constant_at
  fillna_at clip_at replace_zero_at : bar.

(** The value of a chain of operations at a bar, from the values it starts from *)
Ltac at_bar := eapply eq_trans; [typeclasses eauto 60 with bar nocore|reflexivity].

(** * Clipped values *)

Definition in_unit (x : float) : Prop := fle (of_Z (-1)) x = true ∧ fle x (of_Z 1) = true.

Lemma clip1_within lo hi x : fle lo hi = true → is_nan x = true ∨ fle lo (clip1 lo hi x) = true ∧ fle (clip1 lo hi x) hi = true.
Proof.
  intros H. destruct (fle_nan _ _ H) as [Hlo Hhi]. destruct (is_nan x) eqn:Hx; [by left|right].
  unfold clip1, clip_upper, clip_lower. destruct (flt x lo) eqn:E1.
  - destruct (flt hi lo) eqn:E2; [|split; [by apply fle_refl|done]].
    rewrite flt_not_le, H in E2 by done. done.
  - assert (fle lo x = true) as E1' by (rewrite fle_not_lt, E1 by done; done).
    destruct (flt hi x) eqn:E2; [split; [done|by apply fle_refl]|]. split; [done|]. by rewrite fle_not_lt, E2 by done.
Qed.

Lemma clip1_nan lo hi x : is_nan x = true → is_nan (clip1 lo hi x) = true.
Proof. intros Hx. unfold clip1, clip_upper, clip_lower. rewrite (flt_nan_l x) by done. by rewrite (flt_nan_r hi x). Qed.

(** [clip(-1, 1).fillna(0)] *)
Lemma clip_fill_unit x : in_unit (fill fzero (clip1 (of_Z (-1)) (of_Z 1) x)).
Proof.
  unfold fill. destruct (clip1_within (of_Z (-1)) (of_Z 1) x eq_refl) as [Hx|[H1 H2]].
  - rewrite clip1_nan by done. done.
  - destruct (fle_nan _ _ H1) as [_ ->]. done.
Qed.

Lemma set_head_forall (P : float → Prop) n v s : P v → Forall P s → Forall P (set_head n v s).
Proof. intros Hv Hs. apply Forall_app. split; [by apply Forall_replicate|by apply Forall_drop]. Qed.

(** ** Signs *)

(** Strictly a positive sign, or NaN *)
Definition positive (x : float) : Prop :=
  match x with S754_nan => True | S754_zero s | S754_infinity s | S754_finite s _ _ => s = false end.
(** No sign but [b]: a zero has none *)
Definition signed (b : bool) (x : float) : Prop :=
  match x with S754_nan | S754_zero _ => True | S754_infinity s | S754_finite s _ _ => s = b end.

Lemma positive_signed x : positive x → signed false x.
Proof. by destruct x. Qed.

Lemma round_aux_sign s m e l : let r := binary_round_aux 53 1024 s m e l in
  r = S754_nan ∨ r = S754_zero s ∨ r = S754_infinity s ∨ ∃ m' e', r = S754_finite s m' e'.
Proof.
  cbv zeta. unfold binary_round_aux. destruct (shr_fexp 53 1024 m e l) as [r1 e1]. destruct (shr_fexp _ _ _ _ _) as [r2 e2].
  destruct (shr_m r2); [by right; left| |by left].
  destruct (e2 <=? 1024 - 53); [|by right; right; left]. right; right; right. by eexists _, _.
Qed.

Lemma round_sign s m e : let r := binary_round 53 1024 s m e in
  r = S754_nan ∨ r = S754_zero s ∨ r = S754_infinity s ∨ ∃ m' e', r = S754_finite s m' e'.
Proof. unfold binary_round. destruct (shl_align _ _ _) as [mz ez]. apply round_aux_sign. Qed.

Lemma positive_round_aux m e l : positive (binary_round_aux 53 1024 false m e l).
Proof. by destruct (round_aux_sign false m e l) as [->|[->|[->|(?&?&->)]]]. Qed.
Lemma positive_normalize m e : 0 <= m → positive (binary_normalize 53 1024 m e false).
Proof. intros H. destruct m; [done| |lia]. cbn. by destruct (round_sign false p e) as [->|[->|[->|(?&?&->)]]]. Qed.
Lemma signed_round_aux b m e l : signed b (binary_round_aux 53 1024 b m e l).
Proof. by destruct (round_aux_sign b m e l) as [->|[->|[->|(?&?&->)]]]. Qed.
Lemma signed_normalize b m e : 0 <= cond_Zopp b m → signed b (binary_normalize 53 1024 m e false).
Proof.
  destruct m, b; try done; intros H; cbn in H; try lia; cbn;
    [destruct (round_sign false p e) as [->|[->|[->|(?&?&->)]]]|destruct (round_sign true p e) as [->|[->|[->|(?&?&->)]]]]; done.
Qed.

Lemma fadd_positive x y : positive x → positive y → positive (fadd x y).
Proof.
  destruct x as [[]|[]| |[] mx ex], y as [[]|[]| |[] my ey]; try done. intros _ _.
  apply positive_normalize. cbn [cond_Zopp]. lia.
Qed.
Lemma fmul_positive x y : positive x → positive y → positive (fmul x y).
Proof. destruct x as [[]|[]| |[] mx ex], y as [[]|[]| |[] my ey]; try done. intros _ _. apply positive_round_aux. Qed.
Lemma fdiv_positive x y : positive x → positive y → positive (fdiv x y).
Proof.
  destruct x as [[]|[]| |[] mx ex], y as [[]|[]| |[] my ey]; try done. intros _ _.
  unfold fdiv, SFdiv. destruct (SFdiv_core_binary _ _ _ _ _ _) as [[q e] l]. apply positive_round_aux.
Qed.
Lemma fadd_signed b x y : signed b x → signed b y → signed b (fadd x y).
Proof.
  destruct x as [[]|[]| |sx mx ex], y as [[]|[]| |sy my ey]; try done; try (by destruct b); cbn; try (by intros; subst).
  intros -> ->. apply signed_normalize. destruct b; cbn [cond_Zopp]; lia.
Qed.
Lemma fmul_signed b x y : positive x → signed b y → signed b (fmul x y).
Proof.
  intros Hx Hy. destruct x as [sx|sx| |sx mx ex], y as [sy|sy| |sy my ey]; try done; cbn in Hx, Hy; subst; try (by destruct b); try (by destruct sy).
  unfold fmul, SFmul. destruct b; apply signed_round_aux.
Qed.
Lemma fdiv_signed b x y : signed b x → positive y → signed b (fdiv x y).
Proof.
  intros Hx Hy. destruct x as [sx|sx| |sx mx ex], y as [sy|sy| |sy my ey]; try done; cbn in Hx, Hy; subst; try (by destruct b); try (by destruct sx).
  unfold fdiv, SFdiv. destruct (SFdiv_core_binary _ _ _ _ _ _) as [[q e] l]. destruct b; apply signed_round_aux.
Qed.

Lemma signed_false x : signed false x → is_nan x = true ∨ fle fzero x = true.
Proof. destruct x as [[]|[]| |[] m e]; try done; cbn; auto. Qed.
Lemma signed_true x : signed true x → is_nan x = true ∨ fle x fzero = true.
Proof. destruct x as [[]|[]| |[] m e]; try done; cbn; auto. Qed.
Lemma fle_signed x : fle fzero x = true → signed false x.
Proof. by destruct x as [[]|[]| |[] m e]. Qed.
Lemma fle_signed_true x : fle x fzero = true → signed true x.
Proof. by destruct x as [[]|[]| |[] m e]. Qed.

Lemma shl_align_fst m e e' : e' <= e → Zpos (fst (shl_align m e e')) = Zpos m * 2 ^ (e - e').
Proof.
  intros H. unfold shl_align. destruct (e' - e) as [|k|k] eqn:Ek; [|lia|].
  - cbn. replace (e - e') with 0 by lia. lia.
  - cbn [fst]. change (Pos.iter xO m k) with (shift_pos k m). rewrite shift_pos_correct. replace (e - e') with (Zpos k) by lia. by rewrite Z.mul_comm.
Qed.

(** A smaller number is a smaller multiple of the common unit. *)
Lemma aligned_le m e m' e' :
  valid (S754_finite false m e) → valid (S754_finite false m' e') →
  fle (S754_finite false m e) (S754_finite false m' e') = true →
  Zpos (fst (shl_align m e (Z.min e e'))) <= Zpos (fst (shl_align m' e' (Z.min e e'))).
Proof.
  intros Hv%valid_finite Hv'%valid_finite Hle. rewrite !fexp64_eq in *. rewrite !shl_align_fst by lia.
  pose proof (Zdigits2_bounds (Zpos m) eq_refl) as [_ Hm]. pose proof (Zdigits2_bounds (Zpos m') eq_refl) as [Hm' _].
  apply fle_key in Hle; [|done..]. unfold key_lt in Hle. cbn [fkey fst snd] in Hle.
  destruct (decide (e = e')) as [->|]; [rewrite !Z.min_id, Z.sub_diag; lia|]. assert (e < e') by lia.
  rewrite !Z.min_l, Z.sub_diag by lia.
  assert (Zpos m < 2 ^ 53) by (pose proof (Z.pow_le_mono_r 2 (Zdigits2 (Zpos m)) 53 ltac:(lia) ltac:(lia)); lia).
  assert (2 ^ 52 <= Zpos m') by (pose proof (Z.pow_le_mono_r 2 52 (Zdigits2 (Zpos m') - 1) ltac:(lia) ltac:(lia)); lia).
  assert (2 <= 2 ^ (e' - e)) by (pose proof (Z.pow_le_mono_r 2 1 (e' - e) ltac:(lia) ltac:(lia)); lia).
  change (2 ^ 53) with (2 * 2 ^ 52) in *. nia.
Qed.

(** [x - y] has no negative sign where [y <= x]. *)
Lemma fsub_positive x y : positive x → valid x → valid y → fle y x = true → positive (fsub x y).
Proof.
  destruct x as [sx|sx| |sx mx ex], y as [sy|sy| |sy my ey]; intros Hp Hx Hy Hle; cbn in Hp; subst; try done; try (by destruct sy).
  unfold fsub, SFsub. apply positive_normalize. destruct sy; cbn [cond_Zopp]; [lia|].
  rewrite (Z.min_comm ex ey). pose proof (aligned_le my ey mx ex Hy Hx Hle). lia.
Qed.

(** A number of 54 digits from 2^53 on, at the unit 2^-53, is rounded to at least 1. *)
Lemma round_above_one p : 9007199254740992 <= Zpos p < 18014398509481984 →
  fle (of_Z 1) (binary_round 53 1024 false p (-53)) = true.
Proof.
  intros Hp.
  assert (Zdigits2 (Zpos p) = 54) as Hdp.
  { pose proof (Zdigits2_ge (Zpos p) 53 ltac:(lia) ltac:(lia) ltac:(cbn; lia)). pose proof (Zdigits2_bounds (Zpos p) eq_refl) as [Hb _].
    destruct (Z.le_gt_cases (Zdigits2 (Zpos p)) 54); [lia|].
    pose proof (Z.pow_le_mono_r 2 54 (Zdigits2 (Zpos p) - 1) ltac:(lia) ltac:(lia)). change (2 ^ 54) with 18014398509481984 in *. lia. }
  unfold binary_round. change (Zpos (digits2_pos p)) with (Zdigits2 (Zpos p)). rewrite Hdp.
  change (shl_align p (-53) (fexp64 (54 + -53))) with (p, -53).
  assert (enough (Zpos p) (-53)) as Hen by (split; [lia|rewrite fexp64_eq; lia]).
  unfold binary_round_aux. destruct (shr_fexp 53 1024 (Zpos p) (-53) loc_Exact) as [r e1] eqn:E1.
  destruct (shr_fexp_exact _ _ _ _ Hen E1) as (_&Ee&Em&_). rewrite Hdp in Ee. assert (e1 = -52) as -> by lia.
  change (2 ^ (-52 - -53)) with 2 in Em. pose proof (Z.div_le_lower_bound (Zpos p) 2 4503599627370496 ltac:(lia) ltac:(lia)) as Hlow.
  pose proof (round_up_le (shr_m r) (loc_of_shr_record r) ltac:(lia)) as Hu. set (m2 := round_nearest_even _ _) in *.
  assert (4503599627370496 <= m2) as Hm2 by lia. assert (53 <= Zdigits2 m2) as Hd2 by (pose proof (Zdigits2_ge m2 52 ltac:(lia) ltac:(lia) ltac:(cbn; lia)); lia).
  destruct (shr_fexp 53 1024 m2 (-52) loc_Exact) as [r2 e2] eqn:E2.
  assert (enough m2 (-52)) as Hen2 by (split; [lia|rewrite fexp64_eq; lia]).
  destruct (shr_fexp_exact _ _ _ _ Hen2 E2) as (He2&Ee2&Em2&_).
  assert (e2 = Zdigits2 m2 - 105) as -> by lia.
  pose proof (Zdigits2_bounds m2 ltac:(lia)) as [Hbl Hbh].
  assert (4503599627370496 <= shr_m r2) as Hr2.
  { rewrite Em2. apply Z.div_le_lower_bound; [apply Z.pow_pos_nonneg; lia|].
    replace (Zdigits2 m2 - 1) with (Zdigits2 m2 - 105 - -52 + 52) in Hbl by lia. rewrite Z.pow_add_r in Hbl by lia.
    change (2 ^ 52) with 4503599627370496 in Hbl. lia. }
  assert (m2 <= 9007199254740992) by (pose proof (Z.div_lt_upper_bound (Zpos p) 2 9007199254740992 ltac:(lia) ltac:(lia)); lia).
  assert (Zdigits2 m2 <= 54).
  { destruct (Z.le_gt_cases (Zdigits2 m2) 54); [done|]. pose proof (Z.pow_le_mono_r 2 54 (Zdigits2 m2 - 1) ltac:(lia) ltac:(lia)).
    change (2 ^ 54) with 18014398509481984 in *. lia. }
  destruct (shr_m r2) as [|q|q]; [lia| |lia]. rewrite (proj2 (Z.leb_le (Zdigits2 m2 - 105) (1024 - 53))) by lia.
  change (of_Z 1) with (S754_finite false 4503599627370496 (-52)). apply fle_key; [done..|]. unfold key_lt. cbn [fkey fst snd].
  lia.
Qed.

(** [0.5 + x] of a number in [[0.5, 1)] is at least 1. *)
Lemma half_more x : valid x → fle (dec 5 1) x = true → flt x (of_Z 1) = true → fle (of_Z 1) (fadd (dec 5 1) x) = true.
Proof.
  intros Hv Hlo Hhi. destruct x as [[]|[]| |[] m e]; try done.
  change (dec 5 1) with (S754_finite false 4503599627370496 (-53)) in *.
  apply fle_key in Hlo; [|done..]. apply flt_key in Hhi; [|done..]. apply valid_finite in Hv as [Hv _]. rewrite fexp64_eq in Hv.
  change (of_Z 1) with (S754_finite false 4503599627370496 (-52)) in *. unfold key_lt in *. cbn [fkey fst snd] in Hlo, Hhi.
  pose proof (Zdigits2_bounds (Zpos m) eq_refl) as Hd.
  assert (e = -53) as ->.
  { destruct (decide (e = -52)) as [->|]; [|lia]. exfalso.
    pose proof (Z.pow_le_mono_r 2 52 (Zdigits2 (Zpos m) - 1) ltac:(lia) ltac:(lia)). change (2 ^ 52) with 4503599627370496 in *. lia. }
  assert (Zdigits2 (Zpos m) = 53) as Hd53 by lia. rewrite Hd53 in Hd. cbn in Hd.
  unfold fadd, SFadd. cbn [cond_Zopp]. rewrite Z.min_id. unfold shl_align. rewrite Z.sub_diag. cbn [fst].
  set (p := (4503599627370496 + m)%positive). change (Zpos 4503599627370496 + Zpos m) with (Zpos p).
  assert (9007199254740992 <= Zpos p < 18014398509481984) as Hp by (unfold p; lia). clearbody p.
  by apply round_above_one.
Qed.

Lemma fmul_signed_r b x y : signed b x → positive y → signed b (fmul x y).
Proof.
  intros Hx Hy. destruct x as [sx|sx| |sx mx ex], y as [sy|sy| |sy my ey]; try done; cbn in Hx, Hy; subst; try (by destruct b); try (by destruct sx).
  unfold fmul, SFmul. destruct b; apply signed_round_aux.
Qed.

#[export] Hint Resolve fadd_positive fmul_positive fdiv_positive fadd_signed fmul_signed fdiv_signed fmul_signed_r : py.

(** ** Every value of a series *)

Section Values.
Implicit Types (P Q R : float → Prop) (s t : Series).

Lemma smap_forall P Q f s : (∀ x, P x → Q (f x)) → Forall P s → Forall Q (smap f s).
Proof. intros Hf Hs. apply Forall_fmap. eapply Forall_impl; [exact Hs|done]. Qed.
Lemma szip_forall P Q R f s t : (∀ x y, P x → Q y → R (f x y)) → Forall P s → Forall Q t → Forall R (szip f s t).
Proof. intros Hf Hs. revert t. induction Hs; intros t Ht; [constructor|]. destruct Ht; constructor; auto. Qed.
Lemma where_v_forall P s m v : P v → Forall P s → Forall P (where_v s m v).
Proof. intros Hv Hs. unfold where_v. revert m.
  induction Hs; intros [|b m]; cbn; constructor; [by destruct b|auto].
Qed.
Lemma constant_forall P v dates : P v → Forall P (constant v dates).
Proof. intros Hv. by apply Forall_replicate. Qed.
Lemma fill_forall P v s : P v → Forall P s → Forall P (fillna v s).
Proof. intros Hv. apply smap_forall. intros x Hx. unfold fill. by destruct (is_nan x). Qed.
Lemma replace_zero_forall P v s : P v → Forall P s → Forall P (replace_zero v s).
Proof. intros Hv. apply smap_forall. intros x Hx. by destruct (feq x fzero). Qed.
Lemma szip_inv f s t i z : szip f s t !! i = Some z → ∃ x y, s !! i = Some x ∧ t !! i = Some y ∧ z = f x y.
Proof. intros (x&y&->&Hx&Hy)%lookup_zip_with_Some. eauto. Qed.
End Values.
