(* ===== verification/Signals.v ===== *)
(** Trading signals: core/quant_engine/signal_generator.py and vectorized_signals.py.

    [TechnicalIndicators] over the interface [Pandas], the generator that signals for
    the last bar of a price table, and the vectorised generator that feeds the live
    ensemble, whose chains of [where] are shown to decide each bar by itself.  The
    reasons and the validation of the signals that only logs are left out. *)

From stdpp Require Import base option list strings.
From Stdlib Require Import ZArith Lia Floats.SpecFloat.
From S2P Require Import Prelude PyFloat FloatFacts Constants KisClient Series.

Abbreviation NaN := S754_nan.
Definition one : float := of_Z 1.
Definition gt (x y : float) : bool := flt y x.

(** A price table; a column may be missing *)
Record Ohlcv := { close : Series; high : option Series; low : option Series; volume : option Series }.

Record Signal := { strategy : StrategyType; value : float; confidence : float }.
Definition silent (st : StrategyType) : Signal := {| strategy := st; value := fzero; confidence := fzero |}.

Section Generators.
Context {pd : Pandas}.

(** * TechnicalIndicators *)

Definition sma (series : Series) (period : Z) : Series := rolling_mean period period series.
Definition rsi (series : Series) (period : Z) : Series :=
  let delta := diff series in
  let gain := where_v delta (stest (λ x, gt x fzero) delta) fzero in
  let loss := where_v (smap fneg delta) (stest (λ x, flt x fzero) delta) fzero in
  let alpha := fdiv one (of_Z period) in
  let avg_gain := ewm_alpha alpha period gain in
  let avg_loss := ewm_alpha alpha period loss in
  let rs := szip fdiv avg_gain (replace_zero NaN avg_loss) in
  smap (λ r, fsub (of_Z 100) (fdiv (of_Z 100) (fadd one r))) rs.
(** (upper, middle, lower) *)
Definition bollinger_bands (series : Series) (period : Z) (num_std : float) : Series * Series * Series :=
  let middle := rolling_mean period period series in
  let std := rolling_std period series in
  (szip fadd middle (smap (fmul num_std) std), middle, szip fsub middle (smap (fmul num_std) std)).
(** (line, signal line, histogram) *)
Definition macd (series : Series) (fast slow signal : Z) : Series * Series * Series :=
  let macd_line := szip fsub (ewm_span fast fast series) (ewm_span slow slow series) in
  let signal_line := ewm_span signal signal macd_line in
  (macd_line, signal_line, szip fsub macd_line signal_line).
Definition true_range (h l c : Series) : Series :=
  let prev_close := shift 1 c in
  let tr1 := szip fsub h l in
  let tr2 := smap fabs (szip fsub h prev_close) in
  let tr3 := smap fabs (szip fsub l prev_close) in
  (λ t, row_max [t.1.1; t.1.2; t.2]) <$> zip (zip tr1 tr2) tr3.
Definition atr (h l c : Series) (period : Z) : Series := rolling_mean period period (true_range h l c).
Definition adx (h l c : Series) (period : Z) : Series :=
  let plus_dm := smap (clip_lower fzero) (szip fsub h (shift 1 h)) in
  let minus_dm := smap (clip_lower fzero) (szip fsub (shift 1 l) l) in
  let plus_dm := where_v plus_dm (scmp gt plus_dm minus_dm) fzero in
  let minus_dm := where_v minus_dm (scmp gt minus_dm plus_dm) fzero in
  let alpha := fdiv one (of_Z period) in
  let atr_smooth := replace_zero NaN (ewm_alpha alpha period (true_range h l c)) in
  let plus_di := szip fdiv (smap (fmul (of_Z 100)) (ewm_alpha alpha period plus_dm)) atr_smooth in
  let minus_di := szip fdiv (smap (fmul (of_Z 100)) (ewm_alpha alpha period minus_dm)) atr_smooth in
  let dx := fillna fzero (szip fdiv (smap (λ d, fmul (of_Z 100) (fabs d)) (szip fsub plus_di minus_di))
    (replace_zero NaN (szip fadd plus_di minus_di))) in
  ewm_alpha alpha period dx.

(** * SignalGenerator: the last bar *)

Definition clip_unit (x : float) : float := clip1 (of_Z (-1)) one x.

Definition generate_factor_signal (composite_score : float) : Signal :=
  let signal_value := clip_unit (fdiv (fsub composite_score (of_Z 50)) (of_Z 50)) in
  let conf := fmin (fmul (fabs signal_value) (dec 12 1)) one in
  {| strategy := FACTOR; value := np_round 4 signal_value; confidence := np_round 4 conf |}.

Definition rsi_part (current_rsi : float) : float :=
  if flt current_rsi (of_Z 30) then fdiv (fsub (of_Z 30) current_rsi) (of_Z 30)
  else if gt current_rsi (of_Z 70) then fdiv (fneg (fsub current_rsi (of_Z 70))) (of_Z 30) else fzero.
Definition bb_part (current_price bb_upper bb_middle bb_lower : float) : float :=
  let bb_range := fsub bb_upper bb_lower in
  if gt bb_range fzero then fneg (clip_unit (fdiv (fsub current_price bb_middle) (fdiv bb_range (of_Z 2)))) else fzero.
Definition generate_mean_reversion_signal (t : Ohlcv) : result exc Signal :=
  if Z.of_nat (length t.(close)) <? 30 then Ok (silent MEAN_REVERSION) else
  rbind (iloc_last t.(close)) (λ current_price,
  rbind (iloc_last (rsi t.(close) 14)) (λ current_rsi,
  let '((upper, middle), lower) := bollinger_bands t.(close) 20 (of_Z 2) in
  rbind (iloc_last upper) (λ bb_upper, rbind (iloc_last lower) (λ bb_lower, rbind (iloc_last middle) (λ bb_middle,
  if is_nan current_rsi || is_nan bb_upper then Ok (silent MEAN_REVERSION) else
  let rsi_signal := rsi_part current_rsi in
  let bb_signal := bb_part current_price bb_upper bb_middle bb_lower in
  let combined := clip_unit (fdiv (fadd rsi_signal bb_signal) (of_Z 2)) in
  let conf := if gt (fmul rsi_signal bb_signal) fzero then fmin (fmul (fabs combined) (dec 15 1)) one
              else fmul (fabs combined) (dec 5 1) in
  Ok {| strategy := MEAN_REVERSION; value := np_round 4 combined; confidence := np_round 4 conf |}))))).

Definition ma_part (ma5 ma20 ma60 : float) : float :=
  if gt ma5 ma20 && gt ma20 ma60 then fmin (fmul (fdiv (fsub ma5 ma60) ma60) (of_Z 10)) one
  else if flt ma5 ma20 && flt ma20 ma60 then fneg (fmin (fmul (fdiv (fsub ma60 ma5) ma60) (of_Z 10)) one)
  else if gt ma5 ma20 then dec 3 1 else if flt ma5 ma20 then fneg (dec 3 1) else fzero.
Definition macd_part (current_hist prev_hist : float) : float :=
  if gt current_hist fzero && gt current_hist prev_hist then dec 3 1
  else if flt current_hist fzero && flt current_hist prev_hist then fneg (dec 3 1) else fzero.
(** [s.iloc[-2]] *)
Definition iloc_last2 (s : Series) : result exc float := iloc_last (removelast s).
Definition generate_trend_following_signal (t : Ohlcv) : result exc Signal :=
  if Z.of_nat (length t.(close)) <? 65 then Ok (silent TREND_FOLLOWING) else
  rbind (iloc_last (sma t.(close) 5)) (λ ma5, rbind (iloc_last (sma t.(close) 20)) (λ ma20, rbind (iloc_last (sma t.(close) 60)) (λ ma60,
  let '(_, histogram) := macd t.(close) 12 26 9 in
  rbind (iloc_last histogram) (λ current_hist,
  rbind (if Z.of_nat (length histogram) >? 1 then iloc_last2 histogram else Ok fzero) (λ prev_hist,
  if is_nan ma60 || is_nan current_hist then Ok (silent TREND_FOLLOWING) else
  let ma_signal := ma_part ma5 ma20 ma60 in
  let macd_signal := macd_part current_hist prev_hist in
  let combined := clip_unit (fadd ma_signal macd_signal) in
  let conf := fadd (fmul (fabs ma_signal) (dec 7 1)) (fmul (fabs macd_signal) (dec 3 1)) in
  Ok {| strategy := TREND_FOLLOWING; value := np_round 4 combined; confidence := np_round 4 (fmin conf one) |}))))).

Definition tail (n : nat) (s : Series) : Series := drop (length s - n) s.
Definition dropna (s : Series) : Series := filter (λ x, is_nan x = false) s.
Definition generate_risk_parity_signal (t : Ohlcv) : Signal :=
  if Z.of_nat (length t.(close)) <? 60 then silent RISK_PARITY else
  let returns := dropna (pct_change 1 t.(close)) in
  if Z.of_nat (length returns) <? 20 then silent RISK_PARITY else
  let vol_20d := fmul (std (tail 20 returns)) (np_sqrt (of_Z 252)) in
  let vol_60d := fmul (std (tail 60 returns)) (np_sqrt (of_Z 252)) in
  if flt vol_60d (dec 1 10) then silent RISK_PARITY else
  let vol_trend := fdiv (fsub vol_60d vol_20d) vol_60d in
  let vol_level := fdiv (fsub (dec 30 2) vol_60d) (dec 30 2) in
  let signal_value := clip_unit (fadd (fmul vol_trend (dec 6 1)) (fmul vol_level (dec 4 1))) in
  let vol_stability := fsub one (fdiv (fmin (fdiv vol_20d vol_60d) (of_Z 2)) (of_Z 2)) in
  {| strategy := RISK_PARITY; value := np_round 4 signal_value; confidence := np_round 4 (fmax vol_stability (dec 1 1)) |}.

Definition generate_all_signals (t : Ohlcv) (composite_score : float) : result exc (list Signal) :=
  rbind (generate_mean_reversion_signal t) (λ mr, rbind (generate_trend_following_signal t) (λ tf,
  Ok [generate_factor_signal composite_score; mr; tf; generate_risk_parity_signal t])).

(** * VectorizedSignalGenerator: every bar *)

Definition _generate_mean_reversion (c : Series) (dates : nat) : Series :=
  let r := rsi c 14 in
  let '((bb_upper, bb_middle), bb_lower) := bollinger_bands c 20 (of_Z 2) in
  let rsi_signal := constant fzero dates in
  let rsi_signal := where_ rsi_signal (mnot (stest (λ x, flt x (of_Z 30)) r)) (smap (λ x, fdiv (fsub (of_Z 30) x) (of_Z 30)) r) in
  let rsi_signal := where_ rsi_signal (mnot (stest (λ x, gt x (of_Z 70)) r)) (smap (λ x, fdiv (fneg (fsub x (of_Z 70))) (of_Z 30)) r) in
  let bb_range := szip fsub bb_upper bb_lower in
  let bb_position := szip fdiv (szip fsub c bb_middle) (smap (λ x, fdiv x (of_Z 2)) bb_range) in
  let bb_signal := smap fneg (clip (of_Z (-1)) one bb_position) in
  let bb_signal := where_v bb_signal (stest (λ x, gt x fzero) bb_range) fzero in
  clip (of_Z (-1)) one (smap (λ x, fdiv x (of_Z 2)) (szip fadd rsi_signal bb_signal)).

(** The moving-average part of the trend signal *)
Definition ma_signal (ma_fast ma_mid ma_slow : Series) (dates : nat) : Series :=
  let s := constant fzero dates in
  let slow := replace_zero NaN ma_slow in
  let bull_aligned := mand (scmp gt ma_fast ma_mid) (scmp gt ma_mid ma_slow) in
  let spread_bull := clip fzero one (smap (λ x, fmul x (of_Z 10)) (szip fdiv (szip fsub ma_fast ma_slow) slow)) in
  let s := where_ s (mnot bull_aligned) spread_bull in
  let bear_aligned := mand (scmp flt ma_fast ma_mid) (scmp flt ma_mid ma_slow) in
  let spread_bear := smap fneg (clip (of_Z (-1)) fzero (smap (λ x, fmul x (of_Z 10)) (szip fdiv (szip fsub ma_slow ma_fast) slow))) in
  let s := where_ s (mnot bear_aligned) spread_bear in
  let mid_rising := scmp gt ma_mid (shift 5 ma_mid) in
  let mid_falling := scmp flt ma_mid (shift 5 ma_mid) in
  let early_bull := mand (mand (mand (mnot bull_aligned) (mnot bear_aligned)) (scmp gt ma_fast ma_mid)) mid_rising in
  let early_bear := mand (mand (mand (mnot bull_aligned) (mnot bear_aligned)) (scmp flt ma_fast ma_mid)) mid_falling in
  let s := where_v s (mnot early_bull) (dec 5 1) in
  let s := where_v s (mnot early_bear) (fneg (dec 5 1)) in
  let mixed := mand (mand (mand (mnot bull_aligned) (mnot bear_aligned)) (mnot early_bull)) (mnot early_bear) in
  let weak_bull := mand mixed (scmp gt ma_fast ma_mid) in
  let weak_bear := mand mixed (scmp flt ma_fast ma_mid) in
  let s := where_v s (mnot weak_bull) (dec 15 2) in
  where_v s (mnot weak_bear) (fneg (dec 15 2)).

(** The momentum part *)
Definition momentum_signal (adx_ roc_20 atr_pct : Series) (dates : nat) : Series :=
  let s := constant fzero dates in
  let trending := stest (λ x, gt x (of_Z 20)) adx_ in
  let strong_trend := stest (λ x, gt x (of_Z 30)) adx_ in
  let roc_normalized := smap (λ x, fdiv x (of_Z 3)) (clip (of_Z (-3)) (of_Z 3) (fillna fzero (szip fdiv roc_20 (replace_zero NaN atr_pct)))) in
  let up := clip fzero one roc_normalized in
  let down := clip (of_Z (-1)) fzero roc_normalized in
  let rising := stest (λ x, gt x fzero) roc_20 in
  let falling := stest (λ x, flt x fzero) roc_20 in
  let s := where_ s (mnot (mand trending rising)) (smap (λ x, fmul x (dec 4 1)) up) in
  let s := where_ s (mnot (mand trending falling)) (smap (λ x, fmul x (dec 4 1)) down) in
  let s := where_ s (mnot (mand strong_trend rising)) (smap (λ x, fmul x (dec 5 1)) up) in
  where_ s (mnot (mand strong_trend falling)) (smap (λ x, fmul x (dec 5 1)) down).

Definition vol_multiplier (vol : Series) : Series :=
  let vol_ma20 := rolling_mean 20 10 vol in
  let vol_ratio_filter := fillna one (szip fdiv vol (replace_zero NaN vol_ma20)) in
  let m := clip (dec 5 1) (dec 15 1) vol_ratio_filter in
  where_ m (stest (fle one) m) (smap (fadd (dec 5 1)) m).

Definition py_int_of_float (x : float) : result exc Z :=
  match trunc x with Some z => Ok z | None => Err (OtherException "ValueError" "") end.
Definition _adaptive_sma (series : Series) (periods : list Z) : result exc Series :=
  let unique_periods := unique periods in
  if Z.of_nat (length unique_periods) <=? 1 then
    Ok (sma series (Z.max (match unique_periods with [p] => p | _ => 20 end) 2))
  else
    rbind (py_int_of_float (percentile unique_periods 25)) (λ p_low,
    rbind (py_int_of_float (percentile unique_periods 50)) (λ p_mid,
    rbind (py_int_of_float (percentile unique_periods 75)) (λ p_high,
    let ma_low := sma series (Z.max p_low 2) in
    let ma_mid := sma series (Z.max p_mid 2) in
    let ma_high := sma series (Z.max p_high 2) in
    let result := where_ ma_mid (mnot ((λ p, p <=? p_low) <$> periods)) ma_low in
    Ok (where_ result (mnot ((λ p, p >=? p_high) <$> periods)) ma_high)))).

(** [(k * vol_ratio).clip(lo, hi).round().astype(int)] *)
Definition period_of (k lo hi : Z) (vol_ratio : Series) : result exc (list Z) :=
  astype_int (smap (np_round 0) (clip (of_Z lo) (of_Z hi) (smap (fmul (of_Z k)) vol_ratio))).

Definition _generate_trend_following (c h l : Series) (vol : option Series) (dates : nat) : result exc Series :=
  let atr_14 := atr h l c 14 in
  let atr_pct := fillna fzero (szip fdiv atr_14 c) in
  let atr_median := fillna (median atr_pct) (rolling_median 60 20 atr_pct) in
  let vol_ratio := clip (dec 5 1) (of_Z 2) (fillna one (szip fdiv atr_pct (replace_zero NaN atr_median))) in
  rbind (period_of 5 3 10 vol_ratio) (λ fast_period,
  rbind (period_of 20 10 40 vol_ratio) (λ mid_period,
  rbind (period_of 60 30 120 vol_ratio) (λ slow_period,
  rbind (_adaptive_sma c fast_period) (λ ma_fast,
  rbind (_adaptive_sma c mid_period) (λ ma_mid,
  rbind (_adaptive_sma c slow_period) (λ ma_slow,
  let roc_20 := fillna fzero (pct_change 20 c) in
  let combined := clip (of_Z (-1)) one (szip fadd
    (smap (λ x, fmul x (dec 6 1)) (ma_signal ma_fast ma_mid ma_slow dates))
    (smap (λ x, fmul x (dec 4 1)) (momentum_signal (adx h l c 14) roc_20 atr_pct dates))) in
  Ok (match vol with
      | Some v => clip (of_Z (-1)) one (szip fmul combined (vol_multiplier v))
      | None => combined
      end))))))).

Definition _generate_risk_parity (c : Series) : Series :=
  let returns := pct_change 1 c in
  let vol_20d := smap (λ x, fmul x (np_sqrt (of_Z 252))) (rolling_std 20 returns) in
  let vol_60d := smap (λ x, fmul x (np_sqrt (of_Z 252))) (rolling_std 60 returns) in
  let vol_trend := fillna fzero (szip fdiv (szip fsub vol_60d vol_20d) vol_60d) in
  let vol_level := fillna fzero (smap (λ v, fdiv (fsub (dec 30 2) v) (dec 30 2)) vol_60d) in
  clip (of_Z (-1)) one (szip fadd (smap (λ x, fmul x (dec 6 1)) vol_trend) (smap (λ x, fmul x (dec 4 1)) vol_level)).

Record Signals := { mean_reversion : Series; trend_following : Series; risk_parity : Series }.

(** The start-up window silenced, missing values silenced, four decimals *)
Definition finish (min_window : nat) (sig : Series) : Series := smap (np_round 4) (fillna fzero (set_head min_window fzero sig)).
Definition generate (min_window : nat) (t : Ohlcv) : result exc Signals :=
  let dates := length t.(close) in
  let h := default t.(close) t.(high) in
  let l := default t.(close) t.(low) in
  let mr_signal := _generate_mean_reversion t.(close) dates in
  rbind (_generate_trend_following t.(close) h l t.(volume) dates) (λ tf_signal,
  let rp_signal := _generate_risk_parity t.(close) in
  Ok {| mean_reversion := finish min_window mr_signal; trend_following := finish min_window tf_signal;
        risk_parity := finish min_window rp_signal |}).

(** * What the chains of [where] decide *)

Definition spread_up (f s : float) : float := clip1 fzero one (fmul (fdiv (fsub f s) (if feq s fzero then NaN else s)) (of_Z 10)).
Definition spread_down (f s : float) : float :=
  fneg (clip1 (of_Z (-1)) fzero (fmul (fdiv (fsub s f) (if feq s fzero then NaN else s)) (of_Z 10))).
(** The moving-average part of one bar: the three averages and the middle one five bars ago *)
Definition ma_value (f m s prev : float) : float :=
  if gt f m && gt m s then spread_up f s
  else if flt f m && flt m s then spread_down f s
  else if gt f m then (if gt m prev then dec 5 1 else dec 15 2)
  else if flt f m then (if flt m prev then fneg (dec 5 1) else fneg (dec 15 2))
  else fzero.

Lemma flt_asym x y : flt x y = true → flt y x = false.
Proof. intros H. destruct (flt y x) eqn:E; [|done]. by rewrite <- (flt_irrefl x), (flt_trans x y x). Qed.

Lemma ma_signal_at f m s dates i xf xm xs xp :
  f !! i = Some xf → m !! i = Some xm → s !! i = Some xs → shift 5 m !! i = Some xp → (i < dates)%nat →
  ma_signal f m s dates !! i = Some (ma_value xf xm xs xp).
Proof.
  intros Hf Hm Hs Hp Hi. eapply eq_trans; [unfold ma_signal; cbv zeta; typeclasses eauto 60 with bar nocore|]. f_equal.
  unfold ma_value, spread_up, spread_down, gt.
  destruct (flt xm xf) eqn:E1; [rewrite !(flt_asym _ _ E1)|destruct (flt xf xm) eqn:E2]; cbn.
  - destruct (flt xs xm) eqn:E3; cbn; [done|]. by destruct (flt xp xm).
  - destruct (flt xm xs) eqn:E3; cbn; [done|]. by destruct (flt xm xp).
  - done.
Qed.

(** ** Falling averages *)

Lemma spread_number f s : valid f → valid s → is_nan f = false → fle f s = true → flt fzero s = true → nonzero_float s →
  let q := fmul (fdiv (fsub s f) s) (of_Z 10) in positive q ∧ is_nan q = false.
Proof.
  intros Hf Hs Hn Hle Hpos Hnz. cbv zeta. assert (positive s) as Hp by (destruct s as [[]|[]| |[] ? ?]; done). split.
  - apply fmul_positive; [|done]. apply fdiv_positive; [|done]. by apply fsub_positive.
  - apply fmul_number; [by auto with py|by auto with py| |done]. apply fdiv_number; [|done].
    apply fsub_number; [by destruct s|done].
Qed.

Lemma clip_down_zero q : positive q → is_nan q = false → feq (fneg (clip1 (of_Z (-1)) fzero q)) fzero = true.
Proof. destruct q as [[]|[]| |[] m e]; done. Qed.

(** Where the fast average is below the middle one and that below the slow one,
    the vectorised signal of the averages is 0, not a sell: the clipping to [-1, 0]
    is applied before the sign is turned.  The signal for the last bar alone is
    negative or zero there. *)
Theorem falling_averages_are_silent (f m s : Series) (dates i : nat) (xf xm xs xp : float)
  (Hf : f !! i = Some xf) (Hm : m !! i = Some xm) (Hs : s !! i = Some xs) (Hprev : shift 5 m !! i = Some xp) (Hi : (i < dates)%nat)
  (Hfm : flt xf xm = true) (Hms : flt xm xs = true) (Hvf : valid xf) (Hvs : valid xs) (Hpos : flt fzero xs = true) (Hnz : nonzero_float xs) :
  ∃ v, ma_signal f m s dates !! i = Some v ∧ feq v fzero = true ∧ fle (ma_part xf xm xs) fzero = true.
Proof.
  eexists. split; [by apply ma_signal_at|]. pose proof (flt_asym _ _ Hfm) as Hfm'.
  destruct (spread_number xf xs Hvf Hvs) as [Hq Hn]; [by apply flt_nan in Hfm as []|by eapply flt_le, flt_trans|done|done|].
  unfold ma_value, ma_part, gt. rewrite Hfm, Hfm', Hms. cbn [andb]. unfold spread_down.
  assert (feq xs fzero = false) as -> by by destruct xs as [| | |[] ? ?]. split; [by apply clip_down_zero|].
  revert Hq Hn. generalize (fmul (fdiv (fsub xs xf) xs) (of_Z 10)). intros q Hq Hn. unfold fmin.
  destruct (flt one q); [done|]. destruct q as [[]|[]| |[] ? ?]; done.
Qed.

(** ** The volume filter *)

(** The multiplier of the volume filter is never below 1: a volume below its
    average strengthens the signal, by 0.5 + the ratio, where the comment announces
    that half the volume halves it. *)
Theorem volume_never_weakens (vol : Series) (i : nat) (v ma : float)
  (Hv : vol !! i = Some v) (Hma : rolling_mean 20 10 vol !! i = Some ma) :
  ∃ x, vol_multiplier vol !! i = Some x ∧ fle one x = true.
Proof.
  eexists. split; [unfold vol_multiplier; cbv zeta; typeclasses eauto 60 with bar nocore|].
  set (r := fill one _). assert (is_nan r = false) as Hr by (unfold r, fill; match goal with |- context [if is_nan ?y then _ else _] => by destruct (is_nan y) eqn:E0 end).
  assert (valid r) as Hvr by (unfold r, fill; case_match; [apply of_Z_valid|apply fdiv_valid]).
  destruct (clip1_within (dec 5 1) (dec 15 1) r eq_refl) as [|[Hlo Hhi]]; [congruence|].
  assert (valid (clip1 (dec 5 1) (dec 15 1) r)) as Hvc by (unfold clip1, clip_upper, clip_lower; repeat case_match; auto with py).
  destruct (fle one (clip1 (dec 5 1) (dec 15 1) r)) eqn:E; [exact E|]. apply half_more; [done|done|]. apply fle_nan in Hlo as [_ Hnc].
  change (of_Z 1) with one. rewrite flt_not_le, E; done.
Qed.

(** ** The range of the signals *)

Lemma finish_unit w s : (∀ x, in_unit x → in_unit (np_round 4 x)) → (∃ t, s = clip (of_Z (-1)) one t) → Forall in_unit (finish w s).
Proof.
  intros Hround [t ->]. unfold finish, fillna, smap. rewrite !Forall_fmap.
  apply set_head_forall; [by apply Hround|]. apply Forall_fmap, Forall_true. intros x. apply Hround, clip_fill_unit.
Qed.

(** C31. Whatever the prices, every value of the three signals that are fed to the
    ensemble is a number between -1 and 1, provided numpy's rounding to four digits stays
    in that range. *)
Theorem signals_in_range (min_window : nat) (t : Ohlcv) (g : Signals)
  (Hround : ∀ x, in_unit x → in_unit (np_round 4 x)) (Hg : generate min_window t = Ok g) :
  Forall in_unit g.(mean_reversion) ∧ Forall in_unit g.(trend_following) ∧ Forall in_unit g.(risk_parity).
Proof.
  unfold generate, rbind in Hg. destruct (_generate_trend_following _ _ _ _ _) as [tf|e] eqn:E; [|done]. injection Hg as <-. cbn.
  assert (∃ s, tf = clip (of_Z (-1)) one s) as Htf.
  { unfold _generate_trend_following, rbind in E. repeat (case_match; [|done]). injection E as <-. case_match; by eexists. }
  split_and!; apply finish_unit; try done; by eexists.
Qed.
End Generators.

(** * Runs *)

Module SignalRuns.
(** Windows of one bar *)
#[local] Instance one_bar : Pandas := {|
  rolling_mean _ _ s := s; rolling_std _ s := (λ _, fzero) <$> s; rolling_median _ _ s := s; rolling_sum _ s := Ok s;
  ewm_alpha _ _ s := s; ewm_span _ _ s := s; expanding_rank _ s := Ok s; shift _ s := s; pct_change _ s := (λ _, fzero) <$> s;
  diff s := (λ _, fzero) <$> s; row_max l := default NaN (head l); median s := default NaN (head s); std s := fzero;
  unique l := remove_dups l; percentile l _ := of_Z (default 1 (head l)); np_exp _ := one; np_sqrt x := x; np_round _ x := x |}.

Definition bars (l : list Z) : Series := of_Z <$> l.

Lemma falling_averages_are_silent_witness :
  ∃ v, ma_signal (bars [80]) (bars [90]) (bars [100]) 1 !! 0%nat = Some v ∧ feq v fzero = true ∧
    fle (ma_part (of_Z 80) (of_Z 90) (of_Z 100)) fzero = true.
Proof.
  apply (falling_averages_are_silent (bars [80]) (bars [90]) (bars [100]) 1 0 (of_Z 80) (of_Z 90) (of_Z 100) (of_Z 90));
    try reflexivity; try apply of_Z_valid. lia.
Defined.

(** The two generators on the same falling averages, and on rising ones *)
Example falling_and_rising :
  feq (ma_part (of_Z 80) (of_Z 90) (of_Z 100)) (of_Z (-1)) = true ∧
  ma_part (of_Z 100) (of_Z 90) (of_Z 80) = one ∧ ma_signal (bars [100]) (bars [90]) (bars [80]) 1 = [one].
Proof. by vm_compute. Qed.

Lemma volume_never_weakens_witness : ∃ x, vol_multiplier (bars [50]) !! 0%nat = Some x ∧ fle one x = true.
Proof. by apply (volume_never_weakens (bars [50]) 0 (of_Z 50) (of_Z 50)). Defined.

Definition table : Ohlcv := {| close := bars [100; 90]; high := None; low := None; volume := Some (bars [10; 20]) |}.
Lemma signals_in_range_witness : ∃ g, generate 0 table = Ok g ∧
  Forall in_unit g.(mean_reversion) ∧ Forall in_unit g.(trend_following) ∧ Forall in_unit g.(risk_parity).
Proof.
  eexists. split; [vm_compute; reflexivity|]. apply (signals_in_range 0 table); [done|vm_compute; reflexivity].
Defined.
End SignalRuns.
