(* ===== verification/Factors.v ===== *)
(** Factor scores: core/quant_engine/factor_analyzer.py.

    A table of tickers is its columns, [None] for one that is missing; columns have the
    length of the tickers.  What numpy and pandas compute over a column or a row is the
    interface [Numpy]. *)

From stdpp Require Import base option list strings.
From Stdlib Require Import ZArith Lia Floats.SpecFloat.
From S2P Require Import Prelude PyFloat PyDict FloatFacts KisClient Ensemble Series Signals.

Class Numpy := {
  nanmean : Series → float;
  nanstd : Series → float;  (** [nanstd(ddof=1)] *)
  row_mean : list float → float;  (** [mean(axis=1)] of a row: missing values are skipped *)
  log1p : float → float;
  argsort : Series → list nat;
}.

Record FactorTable := {
  ticker : list string; per : option Series; pbr : option Series; ev_ebitda : option Series; return_12m : option Series;
  return_1m : option Series; roe : option Series; roa : option Series; debt_ratio : option Series; volatility_60d : option Series;
  beta : option Series; market_cap : option Series }.
Record FactorWeights := { w_value : float; w_momentum : float; w_quality : float; w_low_vol : float; w_size : float }.
Definition DEFAULT_FACTOR_WEIGHTS (p : RiskProfile) : FactorWeights :=
  let row a b c d e := {| w_value := dec a 2; w_momentum := dec b 2; w_quality := dec c 2; w_low_vol := dec d 2; w_size := dec e 2 |} in
  match p with
  | CONSERVATIVE => row 15 10 25 35 15
  | BALANCED => row 25 20 20 20 15
  | AGGRESSIVE => row 15 35 15 10 25
  | DIVIDEND => row 30 5 35 20 10
  end.

(** The five factors of a table, and its composite *)
Record Factors := { f_value : Series; f_momentum : Series; f_quality : Series; f_low_vol : Series; f_size : Series }.
Record Scores := { s_ticker : list string; country : list string; factors : Factors; composite : Series }.

Section Analyzer.
Context {np : Numpy}.
Definition three : float := of_Z 3.

Definition _zscore_series (arr : Series) : Series :=
  let zeros := (λ _, fzero) <$> arr in
  if Z.of_nat (length (filter (λ x, is_nan x = false) arr)) <? 2 then zeros else
  let mean := nanmean arr in
  let std := nanstd arr in
  if flt std (dec 1 10) then zeros
  else smap (λ x, clip1 (fneg three) three (if is_nan x then fzero else fdiv (fsub x mean) std)) arr.

(** The position of each index in the sorted order, and its share *)
Definition rank_in (p : list nat) (i : nat) : Z := match list_find (eq i) p with Some (r, _) => Z.of_nat r | None => 0 end.
Definition ranks (arr : Series) : list Z := rank_in (argsort arr) <$> seq 0 (length arr).
Definition _scale_to_percentile (arr : Series) : Series :=
  match arr with
  | [] => []
  | [_] => [of_Z 50]
  | _ => (λ r, fmul (fdiv (of_Z r) (of_Z (Z.of_nat (length arr) - 1))) (of_Z 100)) <$> ranks arr
  end.

Definition zeros_of (t : FactorTable) : Series := (λ _, fzero) <$> t.(ticker).
(** [values.where(values > 0, nan)], inverted *)
Definition inverted (s : Series) : Series := smap (λ x, fdiv (of_Z 1) (if flt fzero x then x else NaN)) s.
(** [result[valid_cols].mean(axis=1)] *)
Definition mean_of (t : FactorTable) (cols : list (option Series)) : Series :=
  match omap id cols with
  | [] => zeros_of t
  | cs => (λ i, row_mean (omap (λ c : Series, c !! i) cs)) <$> seq 0 (length t.(ticker))
  end.

Definition calc_value_factor (t : FactorTable) : Series :=
  mean_of t (map (option_map (λ s, _zscore_series (inverted s))) [t.(per); t.(pbr); t.(ev_ebitda)]).
Definition calc_momentum_factor (t : FactorTable) : Series :=
  match t.(return_12m), t.(return_1m) with
  | Some a, Some b => _zscore_series (szip fsub a b)
  | _, _ => zeros_of t
  end.
Definition calc_quality_factor (t : FactorTable) : Series :=
  mean_of t [_zscore_series <$> t.(roe); _zscore_series <$> t.(roa); (λ s, _zscore_series (inverted s)) <$> t.(debt_ratio)].
Definition calc_low_volatility_factor (t : FactorTable) : Series :=
  mean_of t (map (option_map (λ s, _zscore_series (smap (fmul (of_Z (-1))) s))) [t.(volatility_60d); t.(beta)]).
Definition calc_size_factor (t : FactorTable) : Series :=
  match t.(market_cap) with
  | Some s => _zscore_series (smap (fmul (of_Z (-1))) (smap log1p s))
  | None => zeros_of t
  end.

(** The columns of a result, missing values filled with 0 *)
Definition factors_of (t : FactorTable) : Factors := {|
  f_value := fillna fzero (calc_value_factor t); f_momentum := fillna fzero (calc_momentum_factor t);
  f_quality := fillna fzero (calc_quality_factor t); f_low_vol := fillna fzero (calc_low_volatility_factor t);
  f_size := fillna fzero (calc_size_factor t) |}.
Definition weighted (w : FactorWeights) (f : Factors) : Series :=
  let part k s := smap (λ x, fmul x k) s in
  szip fadd (szip fadd (szip fadd (szip fadd (part w.(w_value) f.(f_value)) (part w.(w_momentum) f.(f_momentum)))
    (part w.(w_quality) f.(f_quality))) (part w.(w_low_vol) f.(f_low_vol))) (part w.(w_size) f.(f_size)).

Definition calculate_composite_scores (w : FactorWeights) (t : FactorTable) : Scores :=
  let f := factors_of t in
  {| s_ticker := t.(ticker); country := []; factors := f; composite := _scale_to_percentile (weighted w f) |}.

(** Both markets: scores within a market, then over both *)
Definition _calculate_market_factors (t : FactorTable) : Factors := factors_of t.
Definition no_factors : Factors := {| f_value := []; f_momentum := []; f_quality := []; f_low_vol := []; f_size := [] |}.
Definition concat_with (g : Series → Series) (a b : Factors) : Factors := {|
  f_value := g (a.(f_value) ++ b.(f_value)); f_momentum := g (a.(f_momentum) ++ b.(f_momentum)); f_quality := g (a.(f_quality) ++ b.(f_quality));
  f_low_vol := g (a.(f_low_vol) ++ b.(f_low_vol)); f_size := g (a.(f_size) ++ b.(f_size)) |}.
Definition calculate_cross_market_scores (w : FactorWeights) (kr_df us_df : FactorTable) : Scores :=
  let part t := match t.(ticker) with [] => no_factors | _ => _calculate_market_factors t end in
  let f := concat_with (λ s, fillna fzero (_zscore_series s)) (part kr_df) (part us_df) in
  {| s_ticker := kr_df.(ticker) ++ us_df.(ticker);
     country := ((λ _, "KR") <$> kr_df.(ticker)) ++ ((λ _, "US") <$> us_df.(ticker));
     factors := f; composite := _scale_to_percentile (weighted w f) |}.

(** * Ranks *)

(** [argsort]: the indices in an order in which no value is above a later one *)
Definition sorts : Prop := ∀ s : Series,
  argsort s ≡ₚ seq 0 (length s) ∧
  ∀ a b i j x y, (a < b)%nat → argsort s !! a = Some i → argsort s !! b = Some j → s !! i = Some x → s !! j = Some y → flt y x = false.

Lemma rank_in_at p a i : NoDup p → p !! a = Some i → rank_in p i = Z.of_nat a.
Proof.
  intros Hnd Ha. unfold rank_in. destruct (list_find (eq i) p) as [[r x]|] eqn:E.
  - apply list_find_Some in E as (Hr&<-&_). f_equal. by eapply NoDup_lookup.
  - apply list_find_None in E. rewrite Forall_forall in E. destruct (E i); [by eapply list_elem_of_lookup_2|done].
Qed.
Lemma rank_perm p n : p ≡ₚ seq 0 n → rank_in p <$> p = Z.of_nat <$> seq 0 n.
Proof.
  intros Hp. assert (NoDup p) as Hnd by (rewrite Hp; apply NoDup_seq). apply list_eq. intros a. rewrite !list_lookup_fmap.
  assert (length p = n) as Hlen by (rewrite Hp; by rewrite length_seq).
  destruct (p !! a) as [i|] eqn:E; cbn.
  - rewrite (rank_in_at p a i) by done. apply lookup_lt_Some in E. rewrite lookup_seq_lt by lia. done.
  - apply lookup_ge_None in E. rewrite lookup_seq_ge by lia. done.
Qed.

Lemma percentile_of_ranks l : (2 ≤ length l)%nat →
  _scale_to_percentile l = (λ r, fmul (fdiv (of_Z r) (of_Z (Z.of_nat (length l) - 1))) (of_Z 100)) <$> ranks l.
Proof. destruct l as [|a [|b l]]; intros H; [cbn in H; lia..|done]. Qed.

(** Composite scores are the ranks of the tickers as percentiles: every rank from the
    lowest to the highest is given once, and a ticker with a higher weighted score has a
    higher rank than one with a lower. *)
Theorem composites_are_ranks w t (Hsort : sorts) (Hn : (2 ≤ length (weighted w (factors_of t)))%nat) :
  let raw := weighted w (factors_of t) in
  let n := Z.of_nat (length raw) in
  (calculate_composite_scores w t).(composite) = (λ r, fmul (fdiv (of_Z r) (of_Z (n - 1))) (of_Z 100)) <$> ranks raw ∧
  ranks raw ≡ₚ Z.of_nat <$> seq 0 (length raw) ∧
  ∀ i j x y ri rj, raw !! i = Some x → raw !! j = Some y → flt x y = true → ranks raw !! i = Some ri → ranks raw !! j = Some rj → ri < rj.
Proof.
  intros raw n. destruct (Hsort raw) as [Hp Hs]. assert (NoDup (argsort raw)) as Hnd by (rewrite Hp; apply NoDup_seq). split_and!.
  - by apply percentile_of_ranks.
  - unfold ranks. rewrite <- (rank_perm (argsort raw) (length raw) Hp). by apply fmap_Permutation.
  - intros i j x y ri rj Hx Hy Hxy Hi Hj. unfold ranks in Hi, Hj. rewrite list_lookup_fmap in Hi, Hj.
    assert (∀ k v, raw !! k = Some v → ∃ a, argsort raw !! a = Some k) as Hat.
    { intros k v Hk. apply list_elem_of_lookup. rewrite Hp. apply elem_of_seq. apply lookup_lt_Some in Hk. lia. }
    rewrite lookup_seq_lt in Hi by (by eapply lookup_lt_Some). rewrite lookup_seq_lt in Hj by (by eapply lookup_lt_Some).
    cbn in Hi, Hj. injection Hi as <-. injection Hj as <-. destruct (Hat i x Hx) as [a Ha], (Hat j y Hy) as [b Hb].
    rewrite (rank_in_at _ a i), (rank_in_at _ b j) by done. destruct (decide (a < b)%nat); [lia|]. exfalso.
    destruct (decide (a = b)) as [->|]; [assert (i = j) as -> by congruence; assert (x = y) as -> by congruence; by rewrite flt_irrefl in Hxy|].
    rewrite (Hs b a j i y x) in Hxy; [done|lia|done..].
Qed.

(** * Scores in range *)

Definition in_three (x : float) : Prop := fle (fneg three) x = true ∧ fle x three = true.
Lemma zscore_in_three s : Forall in_three (fillna fzero (_zscore_series s)).
Proof.
  apply Forall_forall. intros x Hx. unfold fillna, smap in Hx. apply list_elem_of_fmap in Hx as (y&->&Hy).
  assert (y = fzero ∨ ∃ z, y = clip1 (fneg three) three z) as [-> |[z ->]]; [|by split|].
  { unfold _zscore_series in Hy. repeat case_match; apply list_elem_of_fmap in Hy as (v&->&_); eauto. }
  unfold fill. destruct (clip1_within (fneg three) three z eq_refl) as [Hnan|Hin]; [rewrite (clip1_nan _ _ _ Hnan); by split|].
  destruct (is_nan _); [by split|done].
Qed.

(** Over both markets every factor of every ticker is a number between -3 and 3,
    whatever the tables hold. *)
Theorem cross_market_factors_in_range w kr us :
  let f := (calculate_cross_market_scores w kr us).(factors) in
  Forall in_three f.(f_value) ∧ Forall in_three f.(f_momentum) ∧ Forall in_three f.(f_quality) ∧ Forall in_three f.(f_low_vol) ∧
  Forall in_three f.(f_size).
Proof. split_and!; apply zscore_in_three. Qed.
End Analyzer.

(** * Runs *)

Module FactorRuns.
Definition insert_index (s : Series) (i : nat) : list nat → list nat :=
  fix go l := match l with
    | [] => [i]
    | j :: l' => if flt (default NaN (s !! i)) (default NaN (s !! j)) then i :: l else j :: go l'
    end.
#[local] Instance tens : Numpy := {|
  nanmean _ := fzero; nanstd _ := of_Z 1; row_mean l := default NaN (head l); log1p x := x;
  argsort s := foldl (λ l i, insert_index s i l) [] (seq 0 (length s)) |}.
Definition table : FactorTable := {|
  ticker := ["A"; "B"; "C"]; per := Some [of_Z 10; of_Z 5; of_Z (-3)]; pbr := None; ev_ebitda := None; return_12m := Some [of_Z 1; of_Z 2; of_Z 2];
  return_1m := Some [fzero; fzero; fzero]; roe := None; roa := None; debt_ratio := None; volatility_60d := None; beta := None; market_cap := None |}.

(** Three tickers; a negative ratio counts as average. *)
Example three_tickers :
  (calculate_composite_scores (DEFAULT_FACTOR_WEIGHTS BALANCED) table).(composite) = [fzero; of_Z 100; of_Z 50].
Proof. by vm_compute. Qed.
(** Equal scores are ranked by where they stand. *)
Example equal_scores : _scale_to_percentile [of_Z 1; of_Z 1; of_Z 1] = [fzero; of_Z 50; of_Z 100].
Proof. by vm_compute. Qed.
End FactorRuns.
