(* ===== verification/DynamicEnsemble.v ===== *)
(** The dynamic ensemble: core/strategy_ensemble/dynamic_ensemble.py and runner.py.

    From the configuration and the price table to the live signal of a ticker: the
    parameters of the service, the regime of each bar, the weights adjusted by
    performance, the volatility target, and the runner that reads the table from the
    database.  A row of weights that lacks a number is an exception. *)

From stdpp Require Import base option list sorting sets gmap strings.
From Stdlib Require Import ZArith Lia Floats.SpecFloat.
From S2P Require Import Prelude PyFloat PyDict FloatFacts Constants KisClient ExchangeRate EnsembleConfig Series Signals.

Inductive DynamicRegime := TRENDING_UP | TRENDING_DOWN | HIGH_VOLATILITY | SIDEWAYS.
#[global] Instance DynamicRegime_eq_dec : EqDecision DynamicRegime.
Proof. solve_decision. Defined.
#[global] Program Instance DynamicRegime_enum : StrEnum DynamicRegime := {|
  Constants.value r := match r with
    | TRENDING_UP => "TRENDING_UP" | TRENDING_DOWN => "TRENDING_DOWN"
    | HIGH_VOLATILITY => "HIGH_VOLATILITY" | SIDEWAYS => "SIDEWAYS" end;
  members := [TRENDING_UP; TRENDING_DOWN; HIGH_VOLATILITY; SIDEWAYS];
|}.
Next Obligation. solve_enum_complete. Qed.
Next Obligation. solve_enum_inj. Qed.

Record Row := { TF : float; MR : float; RP : float }.

(** [REGIME_WEIGHTS] and [DEFAULT_PARAMS] *)
Definition REGIME_WEIGHTS (r : DynamicRegime) : JValue :=
  match r with
  | TRENDING_UP => weights_row 55 15 30
  | TRENDING_DOWN => weights_row 40 15 45
  | HIGH_VOLATILITY => weights_row 20 20 60
  | SIDEWAYS => weights_row 25 45 30
  end.
Definition DEFAULT_PARAMS : Dict := [
  ("adx_threshold", JInt 25); ("vol_pct_threshold", JFloat (dec 75 2)); ("perf_window", JInt 60);
  ("softmax_temperature", JFloat (of_Z 5)); ("perf_blend", JFloat (dec 3 1)); ("target_vol", JFloat (dec 25 2)); ("min_window", JInt 60)].

Record DynamicEnsembleResult := {
  ensemble_signal : float;
  regime : DynamicRegime;
  weights : Row;
  adx_now : float;
  vol_percentile : float;
  vol_scalar : float;
  ensemble_series : Series;
}.

(** The parameters and the weights of each regime of a service *)
Record DynamicEnsembleService := { _params : Dict; _regime_weights : DynamicRegime → JValue }.

Definition dict_update (d e : Dict) : Dict := foldl (λ d kv, dict_set kv.1 kv.2 d) d e.
Definition set_weights (r : DynamicRegime) (v : JValue) (w : DynamicRegime → JValue) : DynamicRegime → JValue :=
  λ r', if bool_decide (r' = r) then v else w r'.

(** [DynamicRegime(regime_str)]; the names that are no regime are passed over. *)
Definition regime_named (s : string) : option DynamicRegime := list_find (λ r, Constants.value r = s) members ≫= λ p, Some p.2.
Fixpoint override_weights (l : Dict) (w : DynamicRegime → JValue) : DynamicRegime → JValue :=
  match l with
  | [] => w
  | (regime_str, v) :: l' =>
      override_weights l' (match regime_named regime_str with Some r => set_weights r v w | None => w end)
  end.

(** [__init__]: the dicts of the loaded configuration are read from the heap. *)
Definition new_service (f : File) (params : Dict) : M Heap exc DynamicEnsembleService :=
  yaml_config ← load_ensemble_config f;
  h ← get;
  let base := dict_update (dict_update DEFAULT_PARAMS (read h yaml_config.(EnsembleConfig.ensemble))) params in
  mret {| _params := base; _regime_weights := override_weights (read h yaml_config.(EnsembleConfig.regime_weights)) REGIME_WEIGHTS |}.

Definition row_of (v : JValue) : result exc Row :=
  rbind (rbind (subscript v "TF") num_of) (λ a, rbind (num_float a) (λ tf,
  rbind (rbind (subscript v "MR") num_of) (λ b, rbind (num_float b) (λ mr,
  rbind (rbind (subscript v "RP") num_of) (λ c, rbind (num_float c) (λ rp, Ok {| TF := tf; MR := mr; RP := rp |})))))).
Definition number_param (p : Dict) (k : string) : result exc float := rbind (rbind (subscript (JObject p) k) num_of) num_float.

Section Service.
Context {pd : Pandas}.

(** * The regime of each bar *)

(** [_compute_adx]: like [TechnicalIndicators.adx], but both movements are compared
    before either is masked *)
Definition _compute_adx (h l c : Series) (period : Z) : Series :=
  let plus_dm := szip fsub h (shift 1 h) in
  let minus_dm := szip fsub (shift 1 l) l in
  let plus_dm := where_v plus_dm (mand (scmp gt plus_dm minus_dm) (stest (λ x, gt x fzero) plus_dm)) fzero in
  let minus_dm := where_v minus_dm (mand (scmp gt minus_dm plus_dm) (stest (λ x, gt x fzero) minus_dm)) fzero in
  let alpha := fdiv one (of_Z period) in
  let safe_atr := replace_zero NaN (ewm_alpha alpha period (true_range h l c)) in
  let plus_di := szip fdiv (smap (fmul (of_Z 100)) (ewm_alpha alpha period plus_dm)) safe_atr in
  let minus_di := szip fdiv (smap (fmul (of_Z 100)) (ewm_alpha alpha period minus_dm)) safe_atr in
  let di_sum := replace_zero NaN (szip fadd plus_di minus_di) in
  let dx := szip fdiv (smap (λ d, fmul (of_Z 100) (fabs d)) (szip fsub plus_di minus_di)) di_sum in
  fillna fzero (ewm_alpha alpha period dx).

Record Assigned := { w_tf : Series; w_mr : Series; w_rp : Series; regime_series : list DynamicRegime }.

Definition where_regime (s : list DynamicRegime) (m : Mask) (r : DynamicRegime) : list DynamicRegime :=
  zip_with (λ x b, if (b : bool) then x else r) s m.
(** One of the four blocks: the weights and the name of [r] where [m] holds *)
Definition assign (a : Assigned) (m : Mask) (row : Row) (r : DynamicRegime) : Assigned := {|
  w_tf := where_v a.(w_tf) (mnot m) row.(TF); w_mr := where_v a.(w_mr) (mnot m) row.(MR); w_rp := where_v a.(w_rp) (mnot m) row.(RP);
  regime_series := where_regime a.(regime_series) (mnot m) r |}.

Definition _assign_regime_weights (adx_ momentum vol_pct : Series) (dates : nat) (adx_threshold vol_pct_threshold : float)
    (table : DynamicRegime → JValue) : result exc Assigned :=
  rbind (row_of (table SIDEWAYS)) (λ sideways,
  let a := {| w_tf := constant sideways.(TF) dates; w_mr := constant sideways.(MR) dates; w_rp := constant sideways.(RP) dates;
              regime_series := replicate dates SIDEWAYS |} in
  let strong := stest (λ x, gt x adx_threshold) adx_ in
  let trend_up := mand strong (stest (λ x, gt x fzero) momentum) in
  rbind (row_of (table TRENDING_UP)) (λ up,
  let a := assign a trend_up up TRENDING_UP in
  let trend_down := mand (mand strong (stest (λ x, flt x fzero) momentum)) (mnot trend_up) in
  rbind (row_of (table TRENDING_DOWN)) (λ down,
  let a := assign a trend_down down TRENDING_DOWN in
  let high_vol := mand (mand (mand (stest (λ x, gt x vol_pct_threshold) vol_pct) (stest (λ x, fle x adx_threshold) adx_))
    (mnot trend_up)) (mnot trend_down) in
  rbind (row_of (table HIGH_VOLATILITY)) (λ high_row,
  Ok (assign a high_vol high_row HIGH_VOLATILITY))))).

(** * Weights and signal *)

Definition _apply_performance_adjustment (a : Assigned) (mr tf rp returns : Series) (perf_window : JValue) (temperature blend : float) :
    result exc (Series * Series * Series) :=
  rbind (rolling_sum perf_window (szip fmul mr returns)) (λ mr_sum,
  rbind (rolling_sum perf_window (szip fmul tf returns)) (λ tf_sum,
  rbind (rolling_sum perf_window (szip fmul rp returns)) (λ rp_sum,
  let exp_of s := smap np_exp (smap (λ x, fdiv x temperature) (fillna fzero s)) in
  let exp_mr := exp_of mr_sum in
  let exp_tf := exp_of tf_sum in
  let exp_rp := exp_of rp_sum in
  let exp_sum := szip fadd (szip fadd exp_mr exp_tf) exp_rp in
  let mixed w e := szip fadd (smap (λ x, fmul x (fsub one blend)) w) (smap (λ x, fmul x blend) (szip fdiv e exp_sum)) in
  Ok (mixed a.(w_tf) exp_tf, mixed a.(w_mr) exp_mr, mixed a.(w_rp) exp_rp)))).

(** The weighted signals of one ensemble, each weight divided by the total *)
Definition weighted (w_tf w_mr w_rp tf mr rp : Series) : Series * (Series * Series * Series) :=
  let w_total := szip fadd (szip fadd w_mr w_tf) w_rp in
  let w_mr := szip fdiv w_mr w_total in
  let w_tf := szip fdiv w_tf w_total in
  let w_rp := szip fdiv w_rp w_total in
  (szip fadd (szip fadd (szip fmul w_tf tf) (szip fmul w_mr mr)) (szip fmul w_rp rp), (w_tf, w_mr, w_rp)).

Definition annual_vol (returns : Series) : Series := smap (λ x, fmul x (np_sqrt (of_Z 252))) (rolling_std 20 returns).
Definition vol_scalars (returns : Series) (target_vol : float) : Series :=
  let current_vol := fillna target_vol (annual_vol returns) in
  smap (clip_upper one) (smap (fdiv target_vol) (replace_zero target_vol current_vol)).

Definition py_last {A} (l : list A) : result exc A :=
  match last l with Some x => Ok x | None => Err (OtherException "IndexError" "") end.

Definition compute (svc : DynamicEnsembleService) (c h l mr tf rp : Series) : result exc DynamicEnsembleResult :=
  let p := svc.(_params) in
  let adx_ := _compute_adx h l c 14 in
  let returns := pct_change 1 c in
  rbind (subscript (JObject p) "min_window") (λ min_window,
  rbind (rmap (fillna (dec 5 1)) (expanding_rank min_window (annual_vol returns))) (λ vol_pct,
  let momentum := fillna fzero (pct_change 20 c) in
  rbind (number_param p "adx_threshold") (λ adx_threshold,
  rbind (number_param p "vol_pct_threshold") (λ vol_pct_threshold,
  rbind (_assign_regime_weights adx_ momentum vol_pct (length c) adx_threshold vol_pct_threshold svc.(_regime_weights)) (λ a,
  rbind (subscript (JObject p) "perf_window") (λ perf_window,
  rbind (number_param p "softmax_temperature") (λ temperature,
  rbind (number_param p "perf_blend") (λ blend,
  rbind (_apply_performance_adjustment a mr tf rp returns perf_window temperature blend) (λ '((wt, wm), wr),
  let '(blended, ((nt, nm), nr)) := weighted wt wm wr tf mr rp in
  rbind (number_param p "target_vol") (λ target_vol,
  let scalars := vol_scalars returns target_vol in
  let ens := szip fmul blended scalars in
  rbind (py_last a.(regime_series)) (λ current_regime,
  rbind (py_last nm) (λ mr_now, rbind (py_last nt) (λ tf_now, rbind (py_last nr) (λ rp_now,
  rbind (py_last ens) (λ sig, rbind (py_last adx_) (λ adx_last, rbind (py_last vol_pct) (λ vp, rbind (py_last scalars) (λ vs,
  Ok {| ensemble_signal := sig; regime := current_regime; weights := {| TF := tf_now; MR := mr_now; RP := rp_now |};
        adx_now := adx_last; vol_percentile := vp; vol_scalar := vs; ensemble_series := ens |})))))))))))))))))).

(** * What the chain of blocks decides *)

(** The regime of one bar *)
Definition regime_of (adx_ momentum vol_pct adx_threshold vol_pct_threshold : float) : DynamicRegime :=
  if gt adx_ adx_threshold && gt momentum fzero then TRENDING_UP
  else if gt adx_ adx_threshold && flt momentum fzero then TRENDING_DOWN
  else if gt vol_pct vol_pct_threshold && fle adx_ adx_threshold then HIGH_VOLATILITY
  else SIDEWAYS.

Lemma where_regime_at (s : list DynamicRegime) (m : Mask) r i x (b : bool) : s !! i = Some x → m !! i = Some b → where_regime s m r !! i = Some (if b then x else r).
Proof. intros H1 H2. unfold where_regime. by rewrite lookup_zip_with, H1; cbn; rewrite H2. Qed.

(** Bar [i] of [a] is in regime [r] with the weights [row]. *)
Definition bar_is (a : Assigned) (i : nat) (r : DynamicRegime) (row : Row) : Prop :=
  a.(regime_series) !! i = Some r ∧ a.(w_tf) !! i = Some row.(TF) ∧ a.(w_mr) !! i = Some row.(MR) ∧ a.(w_rp) !! i = Some row.(RP).

Lemma assign_at a (m : Mask) row r i (b : bool) r0 row0 : m !! i = Some b → bar_is a i r0 row0 →
  bar_is (assign a m row r) i (if b then r else r0) (if b then row else row0).
Proof.
  intros Hm (H1&H2&H3&H4). unfold bar_is, assign. cbn. pose proof (mnot_at _ _ _ Hm) as Hn.
  rewrite (where_regime_at _ _ _ _ _ _ H1 Hn), (where_v_at _ _ _ _ _ _ H2 Hn), (where_v_at _ _ _ _ _ _ H3 Hn), (where_v_at _ _ _ _ _ _ H4 Hn).
  by destruct b.
Qed.

(** C12. The four masks applied one after the other decide each bar by itself: its
    regime is [regime_of] of its own values, its weights are the row of that regime.
    A strong trend without momentum is sideways even where volatility is high. *)
Theorem regimes_are_decided_bar_by_bar (adx_ momentum vol_pct : Series) (dates : nat) (thr vthr : float) (table : DynamicRegime → JValue)
  (a : Assigned) (i : nat) (x mo v : float)
  (Hrun : _assign_regime_weights adx_ momentum vol_pct dates thr vthr table = Ok a) (Hi : (i < dates)%nat)
  (Hx : adx_ !! i = Some x) (Hmo : momentum !! i = Some mo) (Hv : vol_pct !! i = Some v) :
  ∃ row, row_of (table (regime_of x mo v thr vthr)) = Ok row ∧ bar_is a i (regime_of x mo v thr vthr) row.
Proof.
  unfold _assign_regime_weights, rbind in Hrun. destruct (row_of (table SIDEWAYS)) as [r0|] eqn:E0; [|done].
  destruct (row_of (table TRENDING_UP)) as [r1|] eqn:E1; [|done]. destruct (row_of (table TRENDING_DOWN)) as [r2|] eqn:E2; [|done].
  destruct (row_of (table HIGH_VOLATILITY)) as [r3|] eqn:E3; [|done]. injection Hrun as <-.
  set (strong := stest (λ x, gt x thr) adx_). set (up := mand strong (stest (λ x, gt x fzero) momentum)).
  set (down := mand (mand strong (stest (λ x, flt x fzero) momentum)) (mnot up)).
  set (high_vol := mand (mand (mand (stest (λ x, gt x vthr) vol_pct) (stest (λ x, fle x thr) adx_)) (mnot up)) (mnot down)).
  assert (up !! i = Some (gt x thr && gt mo fzero)) as Hu by (unfold up, strong; at_bar).
  assert (down !! i = Some (gt x thr && flt mo fzero && negb (gt x thr && gt mo fzero))) as Hd by (unfold down, up, strong; at_bar).
  assert (high_vol !! i = Some (gt v vthr && fle x thr && negb (gt x thr && gt mo fzero) && negb (gt x thr && flt mo fzero && negb (gt x thr && gt mo fzero))))
    as Hh by (unfold high_vol, down, up, strong; at_bar).
  assert (bar_is {| w_tf := constant r0.(TF) dates; w_mr := constant r0.(MR) dates; w_rp := constant r0.(RP) dates;
    regime_series := replicate dates SIDEWAYS |} i SIDEWAYS r0) as Hb by (split_and!; by apply lookup_replicate_2).
  pose proof (assign_at _ _ r3 HIGH_VOLATILITY _ _ _ _ Hh (assign_at _ _ r2 TRENDING_DOWN _ _ _ _ Hd (assign_at _ _ r1 TRENDING_UP _ _ _ _ Hu Hb))) as H.
  unfold regime_of. destruct (gt x thr), (gt mo fzero), (flt mo fzero), (gt v vthr && fle x thr); cbn in H |- *; eauto.
Qed.

(** * Unanimous strategies *)

(** Weights, blend and volatility target without a negative sign, and the signs of
    what numpy computes *)
Record well_configured (svc : DynamicEnsembleService) : Prop := {
  rows_positive r row : row_of (svc.(_regime_weights) r) = Ok row → positive row.(TF) ∧ positive row.(MR) ∧ positive row.(RP);
  blend_unit blend : number_param svc.(_params) "perf_blend" = Ok blend → positive blend ∧ valid blend ∧ fle blend one = true;
  target_positive v : number_param svc.(_params) "target_vol" = Ok v → positive v;
}.
Record numpy_signs : Prop := {
  exp_positive x : positive (np_exp x);
  sqrt_positive : positive (np_sqrt (of_Z 252));
  std_positive n s : Forall positive (rolling_std n s);
}.

Definition weights_positive (w : Series * Series * Series) : Prop :=
  Forall positive w.1.1 ∧ Forall positive w.1.2 ∧ Forall positive w.2.

Lemma assigned_positive adx_ momentum vol_pct dates thr vthr table a :
  (∀ r row, row_of (table r) = Ok row → positive row.(TF) ∧ positive row.(MR) ∧ positive row.(RP)) →
  _assign_regime_weights adx_ momentum vol_pct dates thr vthr table = Ok a → weights_positive (a.(w_tf), a.(w_mr), a.(w_rp)).
Proof.
  intros Hrows Hrun. unfold _assign_regime_weights, rbind in Hrun.
  destruct (row_of (table SIDEWAYS)) as [r0|] eqn:E0; [|done]. destruct (row_of (table TRENDING_UP)) as [r1|] eqn:E1; [|done].
  destruct (row_of (table TRENDING_DOWN)) as [r2|] eqn:E2; [|done]. destruct (row_of (table HIGH_VOLATILITY)) as [r3|] eqn:E3; [|done].
  injection Hrun as <-. apply Hrows in E0 as (?&?&?), E1 as (?&?&?), E2 as (?&?&?), E3 as (?&?&?). unfold weights_positive. cbn.
  split_and!; repeat (apply where_v_forall; [done|]); by apply constant_forall.
Qed.

Lemma adjusted_positive a mr tf rp returns window temperature blend w : numpy_signs →
  positive blend → valid blend → fle blend one = true → weights_positive (a.(w_tf), a.(w_mr), a.(w_rp)) →
  _apply_performance_adjustment a mr tf rp returns window temperature blend = Ok w → weights_positive w.
Proof.
  intros Hnp Hb Hv H1 (Ht&Hm&Hr) Hrun. unfold _apply_performance_adjustment, rbind in Hrun. cbn in Ht, Hm, Hr.
  repeat (case_match; [|done]). injection Hrun as <-.
  assert (positive (fsub one blend)) as Hb' by (by apply fsub_positive).
  assert (∀ s, Forall positive (smap np_exp s)) as He by (intros s; apply Forall_fmap, Forall_true; intros x; by apply exp_positive).
  assert (∀ w e e1 e2 e3, Forall positive w → Forall positive e → Forall positive e1 → Forall positive e2 → Forall positive e3 →
    Forall positive (szip fadd (smap (λ x, fmul x (fsub one blend)) w) (smap (λ x, fmul x blend) (szip fdiv e (szip fadd (szip fadd e1 e2) e3))))) as Hmix.
  { intros. eapply szip_forall; [apply fadd_positive| |]; (eapply smap_forall; [|first [eassumption|eapply szip_forall; [apply fdiv_positive| |]]]);
      [intros; by apply fmul_positive|intros x Hx; by apply (fmul_positive x blend)|done|].
    eapply szip_forall; [apply fadd_positive| |done]. by eapply szip_forall; [apply fadd_positive| |]. }
  unfold weights_positive. cbn. split_and!; apply Hmix; auto.
Qed.

Lemma weighted_sign b wt wm wr tf mr rp i z : weights_positive (wt, wm, wr) →
  (∀ s y, s ∈ [tf; mr; rp] → s !! i = Some y → signed b y) → (weighted wt wm wr tf mr rp).1 !! i = Some z → signed b z.
Proof.
  intros (Ht&Hm&Hr) Hs Hz. cbn in Ht, Hm, Hr, Hz.
  assert (Forall positive (szip fadd (szip fadd wm wt) wr)) as Htot.
  { eapply szip_forall; [apply fadd_positive| |done]. by eapply szip_forall; [apply fadd_positive| |]. }
  assert (∀ w, Forall positive w → Forall positive (szip fdiv w (szip fadd (szip fadd wm wt) wr))) as Hn
    by (intros; by eapply szip_forall; [apply fdiv_positive| |]).
  apply szip_inv in Hz as (x12&x3&(x1&x2&Hx1&Hx2&->)%szip_inv&Hx3&->).
  apply szip_inv in Hx1 as (a1&y1&Ha1&Hy1&->). apply szip_inv in Hx2 as (a2&y2&Ha2&Hy2&->). apply szip_inv in Hx3 as (a3&y3&Ha3&Hy3&->).
  apply fadd_signed; [apply fadd_signed|]; apply fmul_signed;
    first [by eapply (Forall_lookup_1 positive); [apply Hn|eassumption] | by eapply Hs; [|eassumption]; set_solver].
Qed.

Lemma vol_scalars_positive returns v : numpy_signs → positive v → Forall positive (vol_scalars returns v).
Proof.
  intros Hnp Hv. unfold vol_scalars. eapply (smap_forall positive); [intros x Hx; unfold clip_upper; by destruct (flt one x)|].
  eapply (smap_forall positive); [intros x Hx; by apply fdiv_positive|]. apply replace_zero_forall; [done|]. apply fill_forall; [done|].
  unfold annual_vol. eapply (smap_forall positive); [intros x Hx; apply fmul_positive; [done|by apply sqrt_positive]|]. by apply std_positive.
Qed.

(** C13. Where no strategy signals against a direction at a bar, the ensemble does not
    either: with weights, blend and target that are not negative ([well_configured]), and
    numpy's exponential, root and deviations not negative ([numpy_signs]), its value there
    is a missing one, zero, or of the strategies' sign.  What is reported is the last bar. *)
Theorem unanimity_is_respected (svc : DynamicEnsembleService) (c h l mr tf rp : Series) (r : DynamicEnsembleResult) (b : bool) (i : nat) (z : float)
  (Hsvc : well_configured svc) (Hnp : numpy_signs) (Hrun : compute svc c h l mr tf rp = Ok r)
  (Hsig : ∀ s y, s ∈ [tf; mr; rp] → s !! i = Some y → signed b y) (Hz : r.(ensemble_series) !! i = Some z) :
  signed b z ∧ last r.(ensemble_series) = Some r.(ensemble_signal).
Proof.
  unfold compute, rbind in Hrun. destruct (subscript _ "min_window") as [mw|]; [|done].
  destruct (rmap _ _) as [vp|]; [|done]. destruct (number_param _ "adx_threshold") as [at_|]; [|done].
  destruct (number_param _ "vol_pct_threshold") as [vt|]; [|done].
  destruct (_assign_regime_weights _ _ _ _ _ _ _) as [a|] eqn:Ea; [|done]. destruct (subscript _ "perf_window") as [pw|]; [|done].
  destruct (number_param _ "softmax_temperature") as [te|]; [|done]. destruct (number_param _ "perf_blend") as [bl|] eqn:Eb; [|done].
  destruct (_apply_performance_adjustment _ _ _ _ _ _ _ _) as [[[wt wm] wr]|] eqn:Ew; [|done].
  destruct (weighted wt wm wr tf mr rp) as [blended [[nt nm] nr]] eqn:Eq.
  destruct (number_param _ "target_vol") as [tv|] eqn:Et; [|done]. unfold py_last in Hrun.
  repeat (case_match; [|done]; simplify_eq). cbn in Hz |- *. split; [|match goal with H : last (szip fmul blended _) = _ |- _ => exact H end].
  apply szip_inv in Hz as (x&y&Hx&Hy&->). destruct (blend_unit _ Hsvc _ Eb) as (?&?&?).
  apply fmul_signed_r.
  - eapply weighted_sign; [|exact Hsig|by rewrite Eq]. eapply adjusted_positive; [done..| |exact Ew].
    eapply assigned_positive; [by apply rows_positive|exact Ea].
  - eapply Forall_lookup_1; [apply vol_scalars_positive; [done|by eapply target_positive]|exact Hy].
Qed.

(** * DynamicEnsembleRunner *)

Record Bar := { time : Z; bar_open : float; bar_high : float; bar_low : float; bar_close : float; bar_volume : float }.
Record RunnerResult := { ticker : string; ensemble : DynamicEnsembleResult; signals : Signals; ohlcv_days : Z; country : string }.
Definition MIN_OHLCV_DAYS : Z := 200.
Definition ValueError (text : string) : exc := OtherException "ValueError" text.

(** [fetchall] of the query: the latest [limit] daily rows of the ticker in the markets *)
Definition Query : Type := string → list string → Z → result exc (list Bar).

Definition _get_market_filter (cty : string) : result exc (list string) :=
  if bool_decide (cty = "KR") then Ok ["KRX"]
  else if bool_decide (cty = "US") then Ok ["NASDAQ"; "NYSE"; "AMEX"]
  else Err (ValueError "country").

Definition before (x y : Bar) : Prop := (x.(time) ≤ y.(time))%Z.
#[local] Instance before_dec : RelDecision before.
Proof. intros x y. unfold before. apply _. Defined.
#[local] Instance before_total : Total before.
Proof. intros x y. unfold before. lia. Qed.
(** [sort_values("time")] *)
Definition sort_values (rows : list Bar) : list Bar := merge_sort before rows.

Definition _fetch_ohlcv (q : Query) (tk cty : string) (lookback_days : Z) : result exc (list Bar) :=
  rbind (_get_market_filter cty) (λ markets,
  rbind (q tk markets lookback_days) (λ rows,
  if bool_decide (rows = []) then Err (ValueError "no rows") else Ok (sort_values rows))).

Definition _compute (svc : DynamicEnsembleService) (min_window : nat) (tk : string) (ohlcv : list Bar) (cty : string) : result exc RunnerResult :=
  let c := bar_close <$> ohlcv in
  let h := bar_high <$> ohlcv in
  let l := bar_low <$> ohlcv in
  rbind (generate min_window {| close := c; high := Some h; low := Some l; volume := Some (bar_volume <$> ohlcv) |}) (λ sigs,
  rmap (λ r, {| ticker := tk; ensemble := r; signals := sigs; ohlcv_days := Z.of_nat (length ohlcv); country := cty |})
    (compute svc c h l sigs.(mean_reversion) sigs.(trend_following) sigs.(risk_parity))).

Definition run_with_ohlcv (svc : DynamicEnsembleService) (min_window : nat) (ohlcv : list Bar) (tk cty : string) : result exc RunnerResult :=
  if Z.of_nat (length ohlcv) <? MIN_OHLCV_DAYS then Err (ValueError "too few rows") else _compute svc min_window tk ohlcv cty.

(** [db]: [None] is a runner without a session *)
Definition run (svc : DynamicEnsembleService) (min_window : nat) (db : option Query) (tk cty : string) (lookback_days : Z) : result exc RunnerResult :=
  match db with
  | None => Err (ValueError "no session")
  | Some q =>
      rbind (_fetch_ohlcv q tk cty lookback_days) (λ ohlcv,
      if Z.of_nat (length ohlcv) <? MIN_OHLCV_DAYS then Err (ValueError "too few rows") else _compute svc min_window tk ohlcv cty)
  end.

Record Summary := { s_ticker : string; s_country : string; s_signal : float; s_regime : string; s_weights : Row; s_adx : float;
  s_vol_percentile : float; s_vol_scalar : float; s_days : Z }.
Definition to_summary_dict (r : RunnerResult) : Summary :=
  let e := r.(ensemble) in
  {| s_ticker := r.(ticker); s_country := r.(country); s_signal := round_to 4 e.(ensemble_signal); s_regime := Constants.value e.(regime);
     s_weights := {| TF := round_to 4 e.(weights).(TF); MR := round_to 4 e.(weights).(MR); RP := round_to 4 e.(weights).(RP) |};
     s_adx := round_to 2 e.(adx_now); s_vol_percentile := round_to 4 e.(vol_percentile); s_vol_scalar := round_to 4 e.(vol_scalar);
     s_days := r.(ohlcv_days) |}.

(** The ensemble of a ticker is computed from at least 200 bars of a known
    market, in the order of their times, and from nothing else: without a session,
    for another country, without rows or with fewer, the run is a ValueError. *)
Theorem runs_need_a_history (svc : DynamicEnsembleService) (w : nat) (db : option Query) (tk cty : string) (n : Z) :
  (∀ r, run svc w db tk cty n = Ok r → ∃ q markets rows ohlcv, db = Some q ∧ _get_market_filter cty = Ok markets ∧ q tk markets n = Ok rows ∧
      200 ≤ Z.of_nat (length rows) ∧ ohlcv ≡ₚ rows ∧ Sorted before ohlcv ∧ _compute svc w tk ohlcv cty = Ok r) ∧
  (db = None ∨ cty ∉ ["KR"; "US"] ∨ (∃ q, db = Some q ∧ ∀ markets, ∃ rows, q tk markets n = Ok rows ∧ Z.of_nat (length rows) < 200) →
    ∃ text, run svc w db tk cty n = Err (ValueError text)).
Proof.
  unfold run, _fetch_ohlcv, rbind. split.
  - intros r. destruct db as [q|]; [|done]. destruct (_get_market_filter cty) as [markets|]; [|done].
    destruct (q tk markets n) as [rows|] eqn:Eq; [|done]. case_bool_decide; [done|]. destruct (_ <? _) eqn:El; [done|]. intros Hc.
    exists q, markets, rows, (sort_values rows). apply Z.ltb_ge in El. unfold MIN_OHLCV_DAYS in El.
    assert (sort_values rows ≡ₚ rows) as Hp by apply merge_sort_Permutation. rewrite Hp in El. split_and!; try done.
    by apply (Sorted_merge_sort before).
  - intros H. destruct db as [q|]; [|by eexists]. unfold _get_market_filter.
    assert (cty ∉ ["KR"; "US"] ∨ ∀ markets, ∃ rows, q tk markets n = Ok rows ∧ Z.of_nat (length rows) < 200) as [Hc|Hr]
      by (destruct H as [H|[H|(q'&[= <-]&H)]]; [done|by left|by right]).
    + rewrite !bool_decide_false by set_solver. by eexists.
    + assert (∀ markets, ∃ text, match match q tk markets n with
          | Ok rows => if bool_decide (rows = []) then Err (ValueError "no rows") else Ok (sort_values rows)
          | Err e => Err e end with
        | Ok ohlcv => if Z.of_nat (length ohlcv) <? MIN_OHLCV_DAYS then Err (ValueError "too few rows") else _compute svc w tk ohlcv cty
        | Err e => Err e end = Err (ValueError text)) as Hm.
      { intros markets. destruct (Hr markets) as (rows&->&Hl). case_bool_decide; [by eexists|].
        assert (length (sort_values rows) = length rows) as -> by (apply Permutation_length, merge_sort_Permutation).
        rewrite (proj2 (Z.ltb_lt _ _)) by done. by eexists. }
      repeat case_bool_decide; try apply Hm. by eexists.
Qed.
End Service.

(** * Runs *)

Module EnsembleRuns.
#[local] Instance one_bar : Pandas := SignalRuns.one_bar.

Definition service : DynamicEnsembleService := {| _params := DEFAULT_PARAMS; _regime_weights := REGIME_WEIGHTS |}.
Definition falling : list float := of_Z <$> [100; 90].
Definition silent_series : list float := [fzero; fzero].
Definition selling : list float := [fneg one; fneg one].

Lemma service_ok : well_configured service.
Proof.
  split.
  - intros [] row [= <-]; cbn; split_and!; by vm_compute.
  - intros blend [= <-]. split_and!; by vm_compute.
  - intros v [= <-]. by vm_compute.
Qed.
Lemma one_bar_signs : numpy_signs (pd:=one_bar).
Proof. split; [done|done|]. intros n s. apply Forall_fmap, Forall_true. done. Qed.

(** No strategy buys, and the ensemble does not. *)
Lemma unanimity_is_respected_witness : ∃ r z, compute service falling falling falling selling silent_series selling = Ok r ∧
  r.(ensemble_series) !! 1%nat = Some z ∧ signed true z ∧ last r.(ensemble_series) = Some r.(ensemble_signal).
Proof.
  eexists. eexists. split; [vm_compute; reflexivity|]. split; [reflexivity|].
  eapply (unanimity_is_respected service falling falling falling selling silent_series selling _ true 1);
    [exact service_ok|exact one_bar_signs|vm_compute; reflexivity| |vm_compute; reflexivity].
  intros s y Hs Hy. repeat (apply elem_of_cons in Hs as [->|Hs]; [injection Hy as <-; done|]). by apply not_elem_of_nil in Hs.
Defined.

Lemma regimes_are_decided_bar_by_bar_witness :
  ∃ a row, _assign_regime_weights [of_Z 30] [fzero] [of_Z 1] 1 (of_Z 25) (dec 75 2) REGIME_WEIGHTS = Ok a ∧
    row_of (REGIME_WEIGHTS SIDEWAYS) = Ok row ∧ bar_is a 0 SIDEWAYS row.
Proof.
  eexists. pose proof (regimes_are_decided_bar_by_bar [of_Z 30] [fzero] [of_Z 1] 1 (of_Z 25) (dec 75 2) REGIME_WEIGHTS _ 0
    (of_Z 30) fzero (of_Z 1) eq_refl (Nat.lt_0_succ 0) eq_refl eq_refl eq_refl) as (row&Hr&Hb).
  exists row. split; [reflexivity|]. split; [exact Hr|exact Hb].
Defined.

Lemma runs_need_a_history_witness : ∃ text, run service 60 None "005930" "KR" 300 = Err (ValueError text).
Proof. apply (proj2 (runs_need_a_history service 60 None "005930" "KR" 300)). by left. Defined.
End EnsembleRuns.
