(* ===== verification/RlEnv.v ===== *)
(** The training environment: core/rl/environment.py, [TradingEnv.reset] and [step].

    The features of a price table, the money of an episode, its rewards and its end.
    The observation that each step also returns is a function of its state,
    [_get_observation], that nothing of the environment reads; an agent is the list of
    its actions.  The rounding to 32 bits is a parameter.  The capital is positive and
    the windows are not negative: no Python division by zero and no index from the end. *)

From stdpp Require Import base option list sets strings.
From Stdlib Require Import ZArith Lia Floats.SpecFloat.
From S2P Require Import Prelude PyFloat FloatFacts KisClient Series Signals.

(** The fields of [RLConfig] that the environment reads *)
Record RLConfig := {
  initial_capital : float; commission_rate : float; tax_rate : float; slippage_rate : float;
  max_drawdown_limit : float; lookback_window : Z; returns_window : Z; volatility_window : Z; risk_penalty : float; cost_penalty : float }.
Definition default_config : RLConfig := {|
  initial_capital := of_Z 50000000; commission_rate := dec 15 5; tax_rate := dec 23 4; slippage_rate := dec 1 3;
  max_drawdown_limit := dec 20 2; lookback_window := 60; returns_window := 5; volatility_window := 20; risk_penalty := of_Z 2; cost_penalty := one |}.

Record TradingEnv := {
  current_step : Z; episode_start_step : Z; portfolio_value : float; peak_value : float; position : float; cash : float; trade_count : Z }.
Record Info := { reward : float; drawdown : float; terminated : bool; truncated : bool }.

(** [s[i]] *)
Definition item (s : Series) (i : Z) : result exc float :=
  match s !! Z.to_nat i with Some x => Ok x | None => Err (OtherException "IndexError" "") end.

Fixpoint items (i : Z) (l : list Series) : result exc (list float) :=
  match l with [] => Ok [] | s :: l' => rbind (item s i) (λ x, rmap (cons x) (items i l')) end.

(** * What the agent observes *)

Definition max_double : float := S754_finite false (2 ^ 53 - 1) 971.
(** [np.nan_to_num(x, v)]: [v] is the argument [copy], so a missing value is 0 *)
Definition nan_to_num (x : float) : float :=
  match x with S754_nan => fzero | S754_infinity s => if s then fneg max_double else max_double | _ => x end.
Definition np_maximum (a b : float) : float := if is_nan a || is_nan b then NaN else if flt a b then b else a.
(** [np.roll(s, 1)] *)
Definition roll (s : Series) : Series := match last s with Some x => x :: removelast s | None => [] end.

Record Features := {
  returns_5d : Series; volatility_20d : Series; adx : Series; vol_percentile : Series; momentum : Series;
  mr_signal : Series; tf_signal : Series; rp_signal : Series }.

Section Observation.
Context {pd : Pandas} (float32 : float → float) (config : RLConfig).

Definition vol_percentiles (vol : Series) : Series :=
  imap (λ i v, if Z.of_nat i <? config.(volatility_window) then dec 5 1 else
    let window_vol := drop (Z.to_nat (Z.of_nat i - config.(volatility_window))) (take i vol) in
    fdiv (of_Z (Z.of_nat (length (filter (λ w, Is_true (fle v w)) window_vol)))) (of_Z (Z.of_nat (length window_vol)))) vol.

(** [_prepare_data] with [_compute_market_features] *)
Definition _prepare_data (ohlcv : Ohlcv) : result exc Features :=
  let c := ohlcv.(close) in
  rbind (generate (Z.to_nat config.(lookback_window)) ohlcv) (λ sig,
  match ohlcv.(high), ohlcv.(low) with
  | Some h, Some l =>
      let returns := fzero :: zip_with fdiv (zip_with fsub (drop 1 c) c) c in
      let vol := smap (λ x, float32 (nan_to_num x)) (rolling_std config.(volatility_window) returns) in
      let tr := szip np_maximum (szip fsub h l) (szip np_maximum (smap fabs (szip fsub h (roll c))) (smap fabs (szip fsub l (roll c)))) in
      let atr := smap nan_to_num (rolling_mean 14 14 tr) in
      let sma5 := rolling_mean 5 5 c in
      let sma20 := rolling_mean 20 20 c in
      let m := szip (λ a b, if feq b fzero then one else fdiv a b) sma5 sma20 in
      Ok {| returns_5d := smap (λ x, float32 (nan_to_num x)) (rolling_mean config.(returns_window) config.(returns_window) returns);
            volatility_20d := vol;
            adx := smap float32 (clip fzero one (szip fdiv atr c));
            vol_percentile := smap float32 (vol_percentiles vol);
            momentum := smap (λ x, float32 (clip1 (of_Z (-1)) one (fmul (fsub x one) (of_Z 10)))) m;
            mr_signal := smap float32 sig.(mean_reversion); tf_signal := smap float32 sig.(trend_following);
            rp_signal := smap float32 sig.(risk_parity) |}
  | _, _ => Err (OtherException "KeyError" "")
  end).

(** The eight features of the bar and the three of the portfolio *)
Definition _get_observation (f : Features) (e : TradingEnv) : result exc (list float) :=
  let idx := e.(current_step) in
  let portfolio_return := fdiv (fsub e.(portfolio_value) config.(initial_capital)) (fadd config.(initial_capital) (dec 1 8)) in
  let current_drawdown := fdiv (fsub e.(peak_value) e.(portfolio_value)) (fadd e.(peak_value) (dec 1 8)) in
  let cash_ratio := fdiv e.(cash) (fadd e.(portfolio_value) (dec 1 8)) in
  rmap (λ market, market ++ (float32 <$> [portfolio_return; current_drawdown; cash_ratio]))
    (items idx [f.(returns_5d); f.(volatility_20d); f.(adx); f.(vol_percentile); f.(momentum); f.(mr_signal); f.(tf_signal); f.(rp_signal)]).
End Observation.

Section Env.
Context (config : RLConfig) (close : Series).

(** [start]: the integer the generator draws from [lookback_window, max_start) *)
Definition reset (start : Z) : TradingEnv :=
  let max_start := Z.of_nat (length close) - 252 in
  let first := if max_start >? config.(lookback_window) then start else config.(lookback_window) in
  {| current_step := first; episode_start_step := first; portfolio_value := config.(initial_capital); peak_value := config.(initial_capital);
     position := fzero; cash := config.(initial_capital); trade_count := 0 |}.

Definition price_at (i : Z) : result exc float := item close i.

Definition transaction_cost (target : float) (e : TradingEnv) : float :=
  fmul (fmul (fabs (fsub target e.(position))) config.(initial_capital))
    (fadd (fadd config.(commission_rate) config.(tax_rate)) config.(slippage_rate)).

(** The cash after the cost and, when the position changes, after the purchase *)
Definition cash_after (target : float) (e : TradingEnv) : float :=
  let c := fsub e.(cash) (transaction_cost target e) in
  if negb (feq e.(position) target)
  then fsub c (fmul (fsub target e.(position)) (fsub e.(portfolio_value) c)) else c.

Definition step (action : float) (e : TradingEnv) : result exc (TradingEnv * Info) :=
  rbind (price_at e.(current_step)) (λ current_price,
  rbind (price_at (e.(current_step) + 1)) (λ next_price,
  let daily_return := fdiv (fsub next_price current_price) current_price in
  let cost := transaction_cost action e in
  let c := cash_after action e in
  let moved := negb (feq e.(position) action) in
  let stock_value := fmul (fsub e.(portfolio_value) c) (fadd one daily_return) in
  let pv := fadd c stock_value in
  let peak := if gt pv e.(peak_value) then pv else e.(peak_value) in
  let reward_scale := fdiv config.(initial_capital) (of_Z 1000000) in
  let scale := fadd (fmul reward_scale (of_Z 1000000)) (dec 1 8) in
  let pnl := fmul pv daily_return in
  let dd := fdiv (fmax fzero (fsub peak pv)) (fadd peak (dec 1 8)) in
  let dd_penalty := fmul config.(risk_penalty) (fmax fzero (fsub dd config.(max_drawdown_limit))) in
  let cost_pen := fmul config.(cost_penalty) (fdiv cost scale) in
  Ok ({| current_step := e.(current_step) + 1; episode_start_step := e.(episode_start_step); portfolio_value := pv; peak_value := peak;
         position := if moved then action else e.(position); cash := c;
         trade_count := if moved then e.(trade_count) + 1 else e.(trade_count) |},
      {| reward := fsub (fsub (fdiv pnl scale) dd_penalty) cost_pen; drawdown := dd;
         terminated := e.(current_step) >=? Z.of_nat (length close) - 2;
         truncated := gt dd (fmul config.(max_drawdown_limit) (of_Z 2)) |}))).

(** An agent plays its actions until the episode ends. *)
Fixpoint episode (actions : list float) (e : TradingEnv) : result exc (list Info * TradingEnv) :=
  match actions with
  | [] => Ok ([], e)
  | a :: rest =>
      rbind (step a e) (λ '(e', i),
      if i.(terminated) || i.(truncated) then Ok ([i], e')
      else rmap (λ '(infos, last), (i :: infos, last)) (episode rest e'))
  end.

(** * Without costs the money rests *)

(** Commission, tax and slippage are zero and the capital is a positive number. *)
Definition free_of_cost : Prop :=
  config.(commission_rate) = fzero ∧ config.(tax_rate) = fzero ∧ config.(slippage_rate) = fzero ∧
  nonzero_float config.(initial_capital) ∧ positive config.(initial_capital).
(** No overflow: every change of position, its amount and every return is finite.  A
    price of zero or a missing one makes a return infinite or NaN, and [0 * inf] turns
    the value of the portfolio into NaN. *)
Definition no_overflow (actions : list float) : Prop :=
  (∀ a b, a ∈ fzero :: actions → b ∈ fzero :: actions →
    finite_float (fsub a b) ∧ finite_float (fmul (fabs (fsub a b)) config.(initial_capital))) ∧
  (∀ i p q, close !! i = Some p → close !! S i = Some q → finite_float (fadd one (fdiv (fsub q p) p))).

Definition rests (e : TradingEnv) : Prop :=
  e.(portfolio_value) = config.(initial_capital) ∧ e.(peak_value) = config.(initial_capital) ∧ e.(cash) = config.(initial_capital).

Lemma fsub_diag_zero x : nonzero_float x → fsub x x = fzero.
Proof. destruct x as [| | |s m e]; try done. intros _. unfold fsub, SFsub. by rewrite Z.sub_diag. Qed.
Lemma fsub_zero x s : nonzero_float x → fsub x (S754_zero s) = x.
Proof. by destruct x. Qed.
Lemma fadd_zero x s : nonzero_float x → fadd x (S754_zero s) = x.
Proof. by destruct x. Qed.
Lemma fmul_zero_l x : finite_float x → ∃ s', fmul fzero x = S754_zero s'.
Proof. destruct x; try done; eauto. Qed.
Lemma fmul_zero_r x : finite_float x → ∃ s', fmul x fzero = S754_zero s'.
Proof. destruct x; try done; eauto. Qed.
Lemma fmul_positive_zero x : finite_float x → positive x → fmul x fzero = fzero.
Proof. by destruct x as [[]| | |[] ? ?]. Qed.
Lemma fabs_positive x : positive (fabs x).
Proof. by destruct x. Qed.

(** What a step reports where the money rests: a function of the prices alone *)
Definition quiet_info (i : Z) (p q : float) : Info :=
  let K := config.(initial_capital) in
  let r := fdiv (fsub q p) p in
  let scale := fadd (fmul (fdiv K (of_Z 1000000)) (of_Z 1000000)) (dec 1 8) in
  let dd := fdiv fzero (fadd K (dec 1 8)) in
  {| reward := fsub (fsub (fdiv (fmul K r) scale) (fmul config.(risk_penalty) (fmax fzero (fsub dd config.(max_drawdown_limit)))))
       (fmul config.(cost_penalty) (fdiv fzero scale));
     drawdown := dd; terminated := i >=? Z.of_nat (length close) - 2; truncated := gt dd (fmul config.(max_drawdown_limit) (of_Z 2)) |}.

Lemma step_rests a e e' i : free_of_cost → rests e → finite_float (fsub a e.(position)) →
  finite_float (fmul (fabs (fsub a e.(position))) config.(initial_capital)) →
  (∀ p q, price_at e.(current_step) = Ok p → price_at (e.(current_step) + 1) = Ok q → finite_float (fadd one (fdiv (fsub q p) p))) →
  step a e = Ok (e', i) →
  rests e' ∧ e'.(current_step) = e.(current_step) + 1 ∧ (e'.(position) = a ∨ e'.(position) = e.(position)) ∧
  ∃ p q, price_at e.(current_step) = Ok p ∧ price_at (e.(current_step) + 1) = Ok q ∧ i = quiet_info e.(current_step) p q.
Proof.
  intros (Hc&Ht&Hs&Hk&Hpos) (Hpv&Hpeak&Hcash) Hd Hamount Hr Hstep. unfold step, rbind in Hstep.
  destruct (price_at _) as [p|] eqn:Ep; [|done]. destruct (price_at (_ + 1)) as [q|] eqn:Eq; [|done]. specialize (Hr p q eq_refl eq_refl).
  assert (transaction_cost a e = fzero) as Hcost.
  { unfold transaction_cost. rewrite Hc, Ht, Hs. apply fmul_positive_zero; [done|]. apply fmul_positive; [apply fabs_positive|done]. }
  assert (cash_after a e = config.(initial_capital)) as Hafter.
  { unfold cash_after. rewrite Hcost, Hcash, Hpv, !(fsub_zero _ false), fsub_diag_zero by done.
    destruct (fmul_zero_r (fsub a e.(position)) Hd) as [s ->]. destruct (negb _); [by apply fsub_zero|done]. }
  rewrite Hcost, Hafter, Hpv, Hpeak, fsub_diag_zero in Hstep by done.
  destruct (fmul_zero_l _ Hr) as [s Hz]. rewrite Hz, fadd_zero in Hstep by done.
  assert (gt config.(initial_capital) config.(initial_capital) = false) as Hgt by apply flt_irrefl.
  rewrite Hgt, fsub_diag_zero in Hstep by done. change (fmax fzero fzero) with fzero in Hstep. injection Hstep as <- <-. split; [done|]. split; [done|].
  split; [cbn; destruct (negb _); auto|]. by exists p, q.
Qed.

Lemma price_error i x : price_at i = Err x → x = OtherException "IndexError" "".
Proof. unfold price_at, item. case_match; congruence. Qed.
Lemma step_error a e x : step a e = Err x → price_at e.(current_step) = Err x ∨ price_at (e.(current_step) + 1) = Err x.
Proof. unfold step, rbind. destruct (price_at e.(current_step)); [|intros [= <-]; by left]. destruct (price_at _); [done|intros [= <-]; by right]. Qed.

(** Two agents at the same bar with resting money *)
Lemma same_rewards acts1 acts2 all1 all2 e1 e2 : free_of_cost → no_overflow all1 → no_overflow all2 →
  length acts1 = length acts2 → acts1 ⊆ fzero :: all1 → acts2 ⊆ fzero :: all2 →
  rests e1 → rests e2 → e1.(position) ∈ fzero :: all1 → e2.(position) ∈ fzero :: all2 → e1.(current_step) = e2.(current_step) → 0 ≤ e1.(current_step) →
  rmap fst (episode acts1 e1) = rmap fst (episode acts2 e2) ∧ ∀ infos e, episode acts1 e1 = Ok (infos, e) → rests e.
Proof.
  intros Hfree [Hn1 Hp] [Hn2 _]. revert acts2 e1 e2. induction acts1 as [|a1 acts1 IH]; intros [|a2 acts2] e1 e2 Hl H1 H2 R1 R2 P1 P2 Hc Hpos; try discriminate.
  { split; [done|]. by intros ? ? [= <- <-]. }
  assert (∀ p q, price_at e1.(current_step) = Ok p → price_at (e1.(current_step) + 1) = Ok q → finite_float (fadd one (fdiv (fsub q p) p))) as Hr.
  { intros p q Ep Eq. unfold price_at, item in Ep, Eq. replace (Z.to_nat (e1.(current_step) + 1)) with (S (Z.to_nat e1.(current_step))) in Eq by lia.
    repeat case_match; simplify_eq. by eapply Hp. }
  destruct (Hn1 a1 e1.(position)) as [D1 A1]; [apply H1; by left|done|]. destruct (Hn2 a2 e2.(position)) as [D2 A2]; [apply H2; by left|done|].
  pose proof (λ e' i, step_rests a1 e1 e' i Hfree R1 D1 A1 Hr) as S1.
  assert (∀ p q, price_at e2.(current_step) = Ok p → price_at (e2.(current_step) + 1) = Ok q → finite_float (fadd one (fdiv (fsub q p) p))) as Hr2 by (by rewrite <- Hc).
  pose proof (λ e' i, step_rests a2 e2 e' i Hfree R2 D2 A2 Hr2) as S2.
  cbn [episode]. destruct (step a1 e1) as [[e1' i1]|x1] eqn:E1, (step a2 e2) as [[e2' i2]|x2] eqn:E2; cbn [rbind].
  - destruct (S1 _ _ eq_refl) as (R1'&C1&P1'&p1&q1&Ep1&Eq1&->). destruct (S2 _ _ eq_refl) as (R2'&C2&P2'&p2&q2&Ep2&Eq2&->).
    rewrite <- Hc in Ep2, Eq2. rewrite Ep1 in Ep2. rewrite Eq1 in Eq2. simplify_eq. rewrite <- Hc.
    set (i := quiet_info _ _ _).
    destruct (i.(terminated) || i.(truncated)); [split; [done|]; by intros ? ? [= <- <-]|].
    destruct (IH acts2 e1' e2') as [HI HR]; [cbn in Hl; lia|intros x Hx; apply H1; by right|intros x Hx; apply H2; by right|done|done| | |lia|lia|].
    + destruct P1' as [->| ->]; [apply H1; by left|done].
    + destruct P2' as [->| ->]; [apply H2; by left|done].
    + destruct (episode acts1 e1') as [[l1 f1]|], (episode acts2 e2') as [[l2 f2]|]; cbn in HI |- *; simplify_eq; (split; [done|]); intros ? ? [= <- <-]; by eapply HR.
  - exfalso. destruct (S1 _ _ eq_refl) as (_&_&_&p1&q1&Ep1&Eq1&_). destruct (step_error _ _ _ E2) as [E|E]; rewrite <- Hc in E; congruence.
  - exfalso. destruct (S2 _ _ eq_refl) as (_&_&_&p2&q2&Ep2&Eq2&_). destruct (step_error _ _ _ E1) as [E|E]; rewrite Hc in E; congruence.
  - split; [|done]. cbn. f_equal. destruct (step_error _ _ _ E1) as [F1|F1], (step_error _ _ _ E2) as [F2|F2]; rewrite <- Hc in F2; rewrite ?(price_error _ _ F1), ?(price_error _ _ F2); done.
Qed.

(** C34. Without trading costs the environment never meets the market.  As long as no
    price is zero or missing and nothing overflows (every return is finite, every
    change of position and its amount too), whatever prices do, the portfolio keeps its
    initial value under every agent, and two agents with as many actions get the same
    rewards, drawdowns and ends.  A position is paid for with nothing, as its value is
    computed from the cash it has not left yet. *)
Theorem training_never_meets_the_market (acts1 acts2 : list float) (start : Z)
  (Hfree : free_of_cost) (H1 : no_overflow acts1) (H2 : no_overflow acts2) (Hlen : length acts1 = length acts2) (Hstart : 0 ≤ start)
  (Hwin : 0 ≤ config.(lookback_window)) :
  rmap fst (episode acts1 (reset start)) = rmap fst (episode acts2 (reset start)) ∧
  ∀ infos e, episode acts1 (reset start) = Ok (infos, e) → e.(portfolio_value) = config.(initial_capital).
Proof.
  destruct (same_rewards acts1 acts2 acts1 acts2 (reset start) (reset start)) as [H Hr]; try done; try (by left); try (intros x Hx; by right).
  { unfold reset. cbn. by destruct (_ >? _). }
  split; [done|]. intros infos e He. by destruct (Hr infos e He).
Qed.

(** * An agent that never trades *)

(** Finite costs and a positive finite capital, and a drawdown of nothing within the limit *)
Definition sane : Prop :=
  finite_float (fadd (fadd config.(commission_rate) config.(tax_rate)) config.(slippage_rate)) ∧
  nonzero_float config.(initial_capital) ∧
  gt (fdiv fzero (fadd config.(initial_capital) (dec 1 8))) (fmul config.(max_drawdown_limit) (of_Z 2)) = false.
(** The portfolio is the initial capital, or its value is lost to a missing return. *)
Definition idle (e : TradingEnv) : Prop :=
  e.(position) = fzero ∧ e.(cash) = config.(initial_capital) ∧ e.(peak_value) = config.(initial_capital) ∧
  (e.(portfolio_value) = config.(initial_capital) ∨ e.(portfolio_value) = NaN).

Lemma fmul_zero_any s x : fmul (S754_zero s) x = NaN ∨ ∃ s', fmul (S754_zero s) x = S754_zero s'.
Proof. destruct x; cbn; eauto. Qed.
Lemma fmul_nan x : fmul NaN x = NaN.
Proof. by destruct x. Qed.
Lemma fadd_nan x : fadd x NaN = NaN.
Proof. by destruct x. Qed.

Lemma idle_step e : sane → idle e → 0 ≤ e.(current_step) → e.(current_step) + 1 < Z.of_nat (length close) →
  ∃ e' i, step fzero e = Ok (e', i) ∧ idle e' ∧ e'.(current_step) = e.(current_step) + 1 ∧
    i.(terminated) = (e.(current_step) >=? Z.of_nat (length close) - 2) ∧ i.(truncated) = false.
Proof.
  intros (Hrates&Hk&Hdd) (Hp&Hc&Hpk&Hpv) H0 Hlen. unfold step, price_at, item.
  destruct (lookup_lt_is_Some_2 close (Z.to_nat e.(current_step))) as [p Ep]; [lia|]. rewrite Ep. cbn [rbind].
  destruct (lookup_lt_is_Some_2 close (Z.to_nat (e.(current_step) + 1))) as [q Eq]; [lia|]. rewrite Eq. cbn [rbind].
  assert (∃ s, transaction_cost fzero e = S754_zero s) as [s Hcost].
  { unfold transaction_cost. rewrite Hp. change (fabs (fsub fzero fzero)) with fzero.
    destruct (fmul_zero_l config.(initial_capital)) as [s ->]; [by destruct config.(initial_capital)|].
    destruct (fadd _ _); try done; cbn; eauto. }
  assert (cash_after fzero e = config.(initial_capital)) as Hafter.
  { unfold cash_after. rewrite Hp. change (negb (feq fzero fzero)) with false. rewrite Hcost, Hc. by apply fsub_zero. }
  rewrite Hafter, Hp, Hpk. change (negb (feq fzero fzero)) with false. cbv iota.
  set (pv := fadd config.(initial_capital) _).
  assert (pv = config.(initial_capital) ∨ pv = NaN) as Hpv'.
  { unfold pv. destruct Hpv as [-> | ->].
    - rewrite fsub_diag_zero by done.
      destruct (fmul_zero_any false (fadd one (fdiv (fsub q p) p))) as [Hz|[s' Hz]]; change (S754_zero false) with fzero in Hz; rewrite Hz;
        [right; apply fadd_nan|left; by apply fadd_zero].
    - right. change (fsub NaN _) with NaN. rewrite fmul_nan. apply fadd_nan. }
  assert (gt pv config.(initial_capital) = false) as Hgt.
  { destruct Hpv' as [-> | ->]; [apply flt_irrefl|by apply flt_nan_r]. }
  assert (fmax fzero (fsub config.(initial_capital) pv) = fzero) as Hmax.
  { destruct Hpv' as [-> | ->]; [by rewrite fsub_diag_zero|]. destruct config.(initial_capital); done. }
  rewrite Hgt, Hmax. eexists _, _. split; [reflexivity|]. split_and!; try done.
Qed.

Lemma idle_episode n e : sane → idle e → 0 ≤ e.(current_step) → e.(current_step) ≤ Z.of_nat (length close) - 2 →
  Z.of_nat (length close) - 1 - e.(current_step) ≤ Z.of_nat n →
  ∃ infos e', episode (replicate n fzero) e = Ok (infos, e') ∧ idle e' ∧ e'.(current_step) = Z.of_nat (length close) - 1.
Proof.
  intros Hs. revert e. induction n as [|n IH]; intros e He H0 Hle Hn; [lia|]. cbn [replicate episode].
  destruct (idle_step e Hs He H0) as (e'&i&->&He'&Hc&Ht&Htr); [lia|]. cbn [rbind]. rewrite Ht, Htr, orb_false_r.
  destruct (Z.geb_spec e.(current_step) (Z.of_nat (length close) - 2)).
  - eexists _, _. split; [reflexivity|]. split; [done|lia].
  - destruct (IH e') as (infos&e2&->&He2&Hc2); [done|lia|lia|lia|]. cbn. eauto.
Qed.
End Env.

(** * Runs *)

Module EnvRuns.
Definition costless : RLConfig := {|
  initial_capital := of_Z 50000000; commission_rate := fzero; tax_rate := fzero; slippage_rate := fzero;
  max_drawdown_limit := dec 20 2; lookback_window := 0; returns_window := 5; volatility_window := 20; risk_penalty := of_Z 2; cost_penalty := one |}.
Definition prices : Series := of_Z <$> [100; 200; 50].

Lemma costless_free : free_of_cost costless.
Proof. by split_and!. Qed.
Lemma acts_fit a b : a ∈ [fzero; one] → b ∈ [fzero; one] → no_overflow costless prices [a; b].
Proof.
  intros Ha Hb. split.
  - intros x y Hx Hy. assert (∀ z, z ∈ [fzero; a; b] → z = fzero ∨ z = one) as Hz by set_solver.
    destruct (Hz x Hx) as [->| ->], (Hz y Hy) as [->| ->]; by vm_compute.
  - intros [|[|[|i]]] p q Hp Hq; try discriminate; injection Hp as <-; injection Hq as <-; by vm_compute.
Qed.

(** An agent that buys before the price doubles, and one that does not *)
Lemma training_never_meets_the_market_witness :
  rmap fst (episode costless prices [one; one] (reset costless prices 0)) = rmap fst (episode costless prices [fzero; fzero] (reset costless prices 0)) ∧
  ∀ infos e, episode costless prices [one; one] (reset costless prices 0) = Ok (infos, e) → e.(portfolio_value) = of_Z 50000000.
Proof.
  apply (training_never_meets_the_market costless prices [one; one] [fzero; fzero] 0 costless_free);
    [apply acts_fit; set_solver|apply acts_fit; set_solver|reflexivity|lia|apply Z.le_refl].
Defined.

(** With the default costs the stock an agent holds is worth its trading costs: a full
    position through a tenfold price gains less than seven percent. *)
Example tenfold_price :
  let cfg := {| initial_capital := of_Z 50000000; commission_rate := dec 15 5; tax_rate := dec 23 4; slippage_rate := dec 1 3;
    max_drawdown_limit := dec 20 2; lookback_window := 0; returns_window := 5; volatility_window := 20; risk_penalty := of_Z 2; cost_penalty := one |} in
  match step cfg (of_Z <$> [100; 1000; 1000]) one (reset cfg (of_Z <$> [100; 1000; 1000]) 0) with
  | Ok (e, _) => fle (of_Z 50000000) e.(portfolio_value) && fle e.(portfolio_value) (of_Z 53500000)
  | Err _ => false
  end = true.
Proof. by vm_compute. Qed.
End EnvRuns.
