(* ===== verification/RlModels.v ===== *)
(** Reinforcement-learning models: core/rl/model_registry.py, core/rl/inference.py and
    the inference that the opening of the market runs (scheduler_handlers.py).

    A version is its number ([v%03d]).  The files of a registry are a map of
    directories and a manifest; JSON text is the value it stands for.  A write that fails
    leaves the file as it was: files that are half written are left out.  Training data,
    times and counts that are only recorded are left out of the metadata, and the text
    of reasons out of signals and orders.  The policy network, its entropy and the
    database are parameters. *)

From stdpp Require Import base option list sorting sets gmap strings.
From Stdlib Require Import ZArith Lia Floats.SpecFloat.
From S2P Require Import Prelude PyFloat PyDict FloatFacts KisClient Series Signals DynamicEnsemble RlEnv.

Inductive Reason := NoReason | FirstModel | SharpeImprovement (before after : float) | ManualPromotion.
Record ModelMetadata := {
  version : Z; algorithm : string; oos_sharpe : float; config_snapshot : option (list (string * JValue)); is_champion : bool; champion_reason : Reason }.
Record Manifest := {
  versions : list Z; champion_version : option Z; champion_sharpe : option float; latest_version : option Z }.
Definition new_manifest : Manifest := {| versions := []; champion_version := None; champion_sharpe := None; latest_version := None |}.

Section Registry.
Context {Model : Type}.

(** The directory of a version, and the registry's directory *)
Record Dir := { model_file : option Model; metadata_file : option ModelMetadata }.
Record Disk := { dirs : gmap Z Dir; manifest_file : option Manifest }.
Record ModelRegistry := { _manifest : Manifest; disk : Disk }.

Definition Reg := M ModelRegistry exc.

Definition set_dirs (f : gmap Z Dir → gmap Z Dir) (r : ModelRegistry) : ModelRegistry := {|
  _manifest := r.(_manifest); disk := {| dirs := f r.(disk).(dirs); manifest_file := r.(disk).(manifest_file) |} |}.
Definition set_manifest (m : Manifest) (r : ModelRegistry) : ModelRegistry := {| _manifest := m; disk := r.(disk) |}.

(** [_load_manifest] and [__init__] *)
Definition _load_manifest (d : Disk) : Manifest := default new_manifest d.(manifest_file).
Definition open_registry (d : Disk) : ModelRegistry := {| _manifest := _load_manifest d; disk := d |}.
(** How the writes of an operation end: the metadata of the old champion, the metadata of
    the version and the manifest *)
Record Writes := { demotion : option exc; own_metadata : option exc; manifest : option exc }.
Definition all_written : Writes := {| demotion := None; own_metadata := None; manifest := None |}.
Definition written {A} (failed : option exc) (m : Reg A) : Reg A := match failed with Some e => raise e | None => m end.
Definition _save_manifest (failed : option exc) : Reg unit := written failed (modify (λ r, {|
  _manifest := r.(_manifest); disk := {| dirs := r.(disk).(dirs); manifest_file := Some r.(_manifest) |} |})).

Definition dir_of (v : Z) (r : ModelRegistry) : Dir := default {| model_file := None; metadata_file := None |} (r.(disk).(dirs) !! v).
Definition metadata (v : Z) (r : ModelRegistry) : option ModelMetadata := (dir_of v r).(metadata_file).
Definition _load_metadata (v : Z) : Reg (option ModelMetadata) := gets (metadata v).
Definition _save_metadata (failed : option exc) (v : Z) (m : ModelMetadata) : Reg unit := written failed (modify (λ r,
  set_dirs (<[v := {| model_file := (dir_of v r).(model_file); metadata_file := Some m |}]>) r)).

Definition _next_version (r : ModelRegistry) : Z := match last r.(_manifest).(versions) with None => 1 | Some v => v + 1 end.

Definition with_champion (b : bool) (why : Reason) (m : ModelMetadata) : ModelMetadata := {|
  version := m.(version); algorithm := m.(algorithm); oos_sharpe := m.(oos_sharpe); config_snapshot := m.(config_snapshot);
  is_champion := b; champion_reason := why |}.

(** Whether the new model takes over; the old champion's flag is taken away on disk. *)
Definition challenge (failed : option exc) (meta : ModelMetadata) : Reg ModelMetadata :=
  r ← get;
  match r.(_manifest).(champion_version) with
  | None => mret (with_champion true FirstModel meta)
  | Some c =>
      champion_meta ← _load_metadata c;
      match champion_meta with
      | Some old =>
          if gt meta.(oos_sharpe) old.(oos_sharpe)
          then _save_metadata failed c (with_champion false old.(champion_reason) old);;
               mret (with_champion true (SharpeImprovement old.(oos_sharpe) meta.(oos_sharpe)) meta)
          else mret meta
      | None => mret meta
      end
  end.

(** [saved]: how [model.save] ends *)
Definition register (model : Model) (alg : string) (sharpe : option float) (config : option (list (string * JValue))) (saved : option exc)
    (w : Writes) : Reg Z :=
  v ← gets _next_version;
  modify (λ r, set_dirs (<[v := dir_of v r]>) r);;
  match saved with Some e => raise e | None => mret tt end;;
  modify (λ r, set_dirs (<[v := {| model_file := Some model; metadata_file := metadata v r |}]>) r);;
  meta ← challenge w.(demotion) {| version := v; algorithm := alg; oos_sharpe := default fzero sharpe; config_snapshot := config;
    is_champion := false; champion_reason := NoReason |};
  _save_metadata w.(own_metadata) v meta;;
  modify (λ r, let m := r.(_manifest) in set_manifest {|
    versions := m.(versions) ++ [v]; latest_version := Some v;
    champion_version := if meta.(is_champion) then Some v else m.(champion_version);
    champion_sharpe := if meta.(is_champion) then Some meta.(oos_sharpe) else m.(champion_sharpe) |} r);;
  _save_manifest w.(manifest);;
  mret v.

(** [loads]: how the reader of the model file ends *)
Definition load_version (loads : Model → option exc) (v : Z) : Reg (option (Model * ModelMetadata)) :=
  d ← gets (dir_of v);
  match d.(model_file), d.(metadata_file) with
  | Some model, Some meta => match loads model with Some e => raise e | None => mret (Some (model, meta)) end
  | _, _ => mret None
  end.
Definition load_champion (loads : Model → option exc) : Reg (option (Model * ModelMetadata)) :=
  r ← get;
  match r.(_manifest).(champion_version) with None => mret None | Some v => load_version loads v end.
Definition list_versions (r : ModelRegistry) : list ModelMetadata := omap (λ v, metadata v r) (reverse r.(_manifest).(versions)).

Definition promote_to_champion (v : Z) (w : Writes) : Reg bool :=
  meta ← _load_metadata v;
  match meta with
  | None => mret false
  | Some meta =>
      r ← get;
      match r.(_manifest).(champion_version) with
      | Some old =>
          if bool_decide (old = v) then mret tt else
          old_meta ← _load_metadata old;
          match old_meta with
          | Some m => _save_metadata w.(demotion) old (with_champion false m.(champion_reason) m)
          | None => mret tt
          end
      | None => mret tt
      end;;
      _save_metadata w.(own_metadata) v (with_champion true ManualPromotion meta);;
      modify (λ r, let m := r.(_manifest) in set_manifest {|
        versions := m.(versions); latest_version := m.(latest_version); champion_version := Some v;
        champion_sharpe := Some meta.(oos_sharpe) |} r);;
      _save_manifest w.(manifest);;
      mret true
  end.

(** [list.remove]: the first occurrence *)
Fixpoint remove_first (v : Z) (l : list Z) : list Z :=
  match l with [] => [] | x :: l' => if x =? v then l' else x :: remove_first v l' end.

Definition delete_version (v : Z) (w : Writes) : Reg bool :=
  r ← get;
  if bool_decide (r.(_manifest).(champion_version) = Some v) then mret false else
  modify (set_dirs (delete v));;
  when (bool_decide (v ∈ r.(_manifest).(versions)))
    (modify (λ r, let m := r.(_manifest) in set_manifest {|
       versions := remove_first v m.(versions); latest_version := m.(latest_version);
       champion_version := m.(champion_version); champion_sharpe := m.(champion_sharpe) |} r);;
     _save_manifest w.(manifest));;
  mret true.

(** * One champion *)

Definition listed (r : ModelRegistry) : list Z := r.(_manifest).(versions).
Definition champion (r : ModelRegistry) : option Z := r.(_manifest).(champion_version).

Record registry_ok (r : ModelRegistry) : Prop := {
  saved_manifest : _load_manifest r.(disk) = r.(_manifest);
  versions_increase : StronglySorted Z.lt (listed r);
  champion_listed : match champion r with Some c => c ∈ listed r | None => listed r = [] end;
  listed_complete v : v ∈ listed r → ∃ model m, r.(disk).(dirs) !! v = Some {| model_file := Some model; metadata_file := Some m |} ∧ m.(version) = v;
  metadata_listed v m : metadata v r = Some m → v ∈ listed r;
  one_flag v m : metadata v r = Some m → m.(is_champion) = bool_decide (champion r = Some v);
  sharpe_of_champion c m : champion r = Some c → metadata c r = Some m → r.(_manifest).(champion_sharpe) = Some m.(oos_sharpe);
}.

Lemma dir_of_insert v d r x : dir_of x (set_dirs (<[v := d]>) r) = if bool_decide (x = v) then d else dir_of x r.
Proof. unfold dir_of. cbn. case_bool_decide as E; [subst; by rewrite lookup_insert_eq|by rewrite lookup_insert_ne]. Qed.
Lemma metadata_insert v d r x : metadata x (set_dirs (<[v := d]>) r) = if bool_decide (x = v) then d.(metadata_file) else metadata x r.
Proof. unfold metadata. rewrite dir_of_insert. by case_bool_decide. Qed.

Lemma sorted_snoc (l : list Z) v : StronglySorted Z.lt l → (∀ x, x ∈ l → x < v) → StronglySorted Z.lt (l ++ [v]).
Proof.
  intros Hl Hv. induction Hl as [|x l Hl IH Hx]; [by repeat constructor|]. cbn. constructor.
  - apply IH. intros y Hy. apply Hv. by right.
  - apply Forall_app. split; [done|]. constructor; [|constructor]. apply Hv. by left.
Qed.
Lemma sorted_last (l : list Z) v x : StronglySorted Z.lt l → last l = Some v → x ∈ l → x ≤ v.
Proof.
  intros Hl. revert v. induction Hl as [|y l Hl IH Hy]; intros v Hv Hx; [by apply not_elem_of_nil in Hx|].
  destruct l as [|z l]; [injection Hv as <-; apply list_elem_of_singleton in Hx; lia|].
  apply elem_of_cons in Hx as [->|Hx]; [|by apply IH].
  assert (v ∈ z :: l) by (by apply last_Some_elem_of). rewrite Forall_forall in Hy. specialize (Hy v H). lia.
Qed.
Lemma next_is_new r x : registry_ok r → x ∈ listed r → x < _next_version r.
Proof.
  intros Hok Hx. unfold _next_version. fold (listed r). destruct (last (listed r)) as [v|] eqn:E.
  - pose proof (sorted_last _ _ _ (versions_increase _ Hok) E Hx). lia.
  - apply last_None in E. rewrite E in Hx. by apply not_elem_of_nil in Hx.
Qed.

(** Adding the version [v] to a registry: the new champion, or one more model *)
Lemma enlist_ok r r' v model m : registry_ok r → (∀ x, x ∈ listed r → x < v) →
  _load_manifest r'.(disk) = r'.(_manifest) → listed r' = listed r ++ [v] →
  r'.(disk).(dirs) !! v = Some {| model_file := Some model; metadata_file := Some m |} → m.(version) = v →
  (∀ x, x ≠ v → (dir_of x r').(model_file) = (dir_of x r).(model_file) ∧
    metadata x r' = (λ old, if m.(is_champion) then with_champion false old.(champion_reason) old else old) <$> metadata x r) →
  (if m.(is_champion) then champion r' = Some v ∧ r'.(_manifest).(champion_sharpe) = Some m.(oos_sharpe)
   else champion r' = champion r ∧ r'.(_manifest).(champion_sharpe) = r.(_manifest).(champion_sharpe) ∧ is_Some (champion r)) →
  registry_ok r'.
Proof.
  intros Hok Hnew Hdisk Hl Hv Hmv Hx Hc. destruct Hok as [_ Hs Hch Hcomp Hin Hflag Hsh].
  assert (metadata v r' = Some m) as Hm by (unfold metadata, dir_of; by rewrite Hv).
  assert (v ∉ listed r) as Hnv by (intros H; specialize (Hnew v H); lia).
  split.
  - done.
  - rewrite Hl. by apply sorted_snoc.
  - destruct (is_champion m); [destruct Hc as [-> _]; rewrite Hl; set_solver|].
    destruct Hc as (->&_&[c Hcc]). rewrite Hcc in *. rewrite Hl. set_solver.
  - intros x. rewrite Hl, elem_of_app, list_elem_of_singleton. intros [H| ->]; [|by eexists _, _].
    destruct (Hx x) as [E1 E2]; [by intros ->|]. destruct (Hcomp x H) as (mo&mm&Ed&Ev). unfold metadata, dir_of in E1, E2. rewrite Ed in E1, E2. cbn in E1, E2.
    destruct (r'.(disk).(dirs) !! x) as [[a b]|] eqn:Edx; cbn in E1, E2; subst; [|done]. eexists mo, _. split; [done|]. by destruct (is_champion m).
  - intros x mm Hmm. rewrite Hl. destruct (decide (x = v)) as [->|Hne]; [set_solver|]. destruct (Hx x Hne) as [_ E2]. rewrite E2 in Hmm.
    apply fmap_Some in Hmm as (old&Hold&_). apply elem_of_app. left. by eapply Hin.
  - intros x mm Hmm. destruct (decide (x = v)) as [->|Hne].
    + rewrite Hm in Hmm. injection Hmm as <-. destruct (is_champion m) eqn:Em.
      * destruct Hc as [-> _]. by rewrite bool_decide_true.
      * destruct Hc as (->&_&_). rewrite bool_decide_false; [done|]. intros H. rewrite H in Hch. done.
    + destruct (Hx x Hne) as [_ E2]. rewrite E2 in Hmm. apply fmap_Some in Hmm as (old&Hold&->). destruct (is_champion m).
      * destruct Hc as [-> _]. cbn. rewrite bool_decide_false by congruence. done.
      * destruct Hc as (->&_&_). by apply Hflag.
  - intros c mm Hcc Hmm. destruct (is_champion m) eqn:Em.
    + destruct Hc as [Hcv Hsv]. rewrite Hcv in Hcc. injection Hcc as <-. rewrite Hm in Hmm. injection Hmm as <-. done.
    + destruct Hc as (Hcr&->&_). rewrite Hcr in Hcc. assert (c ≠ v) as Hne by (intros ->; by rewrite Hcc in Hch).
      destruct (Hx c Hne) as [_ E2]. rewrite E2 in Hmm. apply fmap_Some in Hmm as (old&Hold&->). by eapply Hsh.
Qed.

(** A directory without metadata is no version. *)
Lemma touch_ok r : registry_ok r → registry_ok (set_dirs (<[_next_version r := dir_of (_next_version r) r]>) r).
Proof.
  intros Hok. pose proof (λ x, next_is_new r x Hok) as Hnew. set (v := _next_version r) in *. destruct Hok as [Hd Hs Hch Hcomp Hin Hflag Hsh].
  assert (∀ x, metadata x (set_dirs (<[v := dir_of v r]>) r) = metadata x r) as Hm.
  { intros x. rewrite metadata_insert. case_bool_decide; by subst. }
  split; try done.
  - intros x Hx. destruct (Hcomp x Hx) as (mo&m&Ed&Ev). exists mo, m. split; [|done]. cbn. rewrite lookup_insert_ne; [done|].
    intros ->. specialize (Hnew x Hx). lia.
  - intros x m. rewrite Hm. apply Hin.
  - intros x m. rewrite Hm. apply Hflag.
  - intros c m Hc. rewrite Hm. by apply Hsh.
Qed.

Lemma challenge_none meta r : champion r = None → challenge None meta r = (Ok (with_champion true FirstModel meta), r).
Proof. intros H. unfold challenge. run_m. unfold champion in H. by rewrite H. Qed.
Lemma challenge_some meta r c old : champion r = Some c → metadata c r = Some old →
  challenge None meta r = if gt meta.(oos_sharpe) old.(oos_sharpe)
    then (Ok (with_champion true (SharpeImprovement old.(oos_sharpe) meta.(oos_sharpe)) meta),
          set_dirs (<[c := {| model_file := (dir_of c r).(model_file); metadata_file := Some (with_champion false old.(champion_reason) old) |}]>) r)
    else (Ok meta, r).
Proof.
  intros H Hm. unfold challenge, _load_metadata, _save_metadata. run_m. unfold champion in H. rewrite H, Hm. by destruct (gt _ _).
Qed.

(** The state before the challenge: the directory of the new version has its model. *)
Definition with_model (v : Z) (model : Model) (r : ModelRegistry) : ModelRegistry :=
  set_dirs (<[v := {| model_file := Some model; metadata_file := metadata v (set_dirs (<[v := dir_of v r]>) r) |}]>) (set_dirs (<[v := dir_of v r]>) r).
(** The state after it: the metadata and the manifest are written. *)
Definition enlisted (v : Z) (meta : ModelMetadata) (r : ModelRegistry) : ModelRegistry :=
  let m := {| versions := listed r ++ [v]; latest_version := Some v;
    champion_version := if meta.(is_champion) then Some v else champion r;
    champion_sharpe := if meta.(is_champion) then Some meta.(oos_sharpe) else r.(_manifest).(champion_sharpe) |} in
  {| _manifest := m; disk := {| dirs := <[v := {| model_file := (dir_of v r).(model_file); metadata_file := Some meta |}]> r.(disk).(dirs);
     manifest_file := Some m |} |}.

Lemma register_run model alg sharpe config r :
  let v := _next_version r in
  let meta := {| version := v; algorithm := alg; oos_sharpe := default fzero sharpe; config_snapshot := config; is_champion := false; champion_reason := NoReason |} in
  register model alg sharpe config None all_written r = match challenge None meta (with_model v model r) with (Ok m, r') => (Ok v, enlisted v m r') | (Err e, r') => (Err e, r') end.
Proof.
  cbv zeta. unfold register, _save_metadata, _save_manifest. run_m. fold (with_model (_next_version r) model r). by destruct (challenge _ _) as [[] ?].
Qed.

Lemma with_model_dir v model r x : dir_of x (with_model v model r) =
  if bool_decide (x = v) then {| model_file := Some model; metadata_file := metadata v r |} else dir_of x r.
Proof. unfold with_model. rewrite !dir_of_insert, metadata_insert. repeat case_bool_decide; by subst. Qed.

Lemma enlisted_dir v m r x : x ≠ v → dir_of x (enlisted v m r) = dir_of x r.
Proof. intros Hx. unfold dir_of, enlisted. cbn. by rewrite lookup_insert_ne. Qed.

(** What registering a model leaves *)
Lemma register_ok model alg sharpe config saved r : registry_ok r → registry_ok (after (register model alg sharpe config saved all_written) r).
Proof.
  intros Hok. pose proof (λ x, next_is_new r x Hok) as Hnew. destruct saved as [e|]; [by apply touch_ok|].
  pose proof Hok as [_ _ Hch Hcomp Hin Hflag _]. unfold after. rewrite register_run. cbv zeta. set (v := _next_version r) in *. set (r2 := with_model v model r).
  set (meta := {| version := v |}). assert (v ∉ listed r) as Hnv by (intros H; specialize (Hnew v H); lia).
  assert (∀ x, x ≠ v → dir_of x r2 = dir_of x r) as Hd by (intros x Hx; unfold r2; by rewrite with_model_dir, bool_decide_false).
  assert (dir_of v r2 = {| model_file := Some model; metadata_file := metadata v r |}) as Hdv by (unfold r2; by rewrite with_model_dir, bool_decide_true).
  assert (∀ x m, x ≠ v → dir_of x (enlisted v m r2) = dir_of x r) as Hde by (intros x m Hx; by rewrite enlisted_dir, Hd).
  destruct (champion r) as [c|] eqn:Ec.
  - assert (c ≠ v) as Hcv by (intros ->; done). destruct (Hcomp c Hch) as (mo&cm&Ed&Ev).
    assert (metadata c r = Some cm) as Hcm by (unfold metadata, dir_of; by rewrite Ed).
    rewrite (challenge_some _ r2 c cm) by (first [exact Ec|unfold metadata; by rewrite Hd]).
    destruct (gt _ _); cbn [snd].
    + eapply (enlist_ok r _ v model _ Hok Hnew); [done|done|cbn; rewrite lookup_insert_eq, dir_of_insert, bool_decide_false, Hdv by done; done|done| |done].
      intros x Hx. unfold metadata at 1. rewrite !enlisted_dir, !dir_of_insert by done. cbn [is_champion with_champion].
      case_bool_decide as Exc; [subst x; rewrite Hd, Hcm by done; done|]. rewrite Hd by done. split; [done|]. fold (metadata x r).
      destruct (metadata x r) as [old|] eqn:Eo; [|done]. cbn. f_equal.
      pose proof (Hflag x old Eo) as Hf. rewrite bool_decide_false in Hf by congruence. destruct old. cbn in Hf. by subst.
    + eapply (enlist_ok r _ v model _ Hok Hnew); [done|done|cbn; rewrite lookup_insert_eq, Hdv; done|done| |cbn; by eauto].
      intros x Hx. cbn [is_champion meta]. unfold metadata. rewrite Hde by done. split; [done|]. by destruct (metadata_file _).
  - rewrite (challenge_none _ r2) by done. cbn [snd].
    eapply (enlist_ok r _ v model _ Hok Hnew); [done|done|cbn; rewrite lookup_insert_eq, Hdv; done|done| |done].
    intros x Hx. unfold metadata at 1. rewrite Hde by done. split; [done|]. fold (metadata x r).
    destruct (metadata x r) as [m|] eqn:Em; [|done]. apply Hin in Em. rewrite Hch in Em. by apply not_elem_of_nil in Em.
Qed.

Lemma fresh_ok : registry_ok (open_registry {| dirs := ∅; manifest_file := None |}).
Proof.
  split; cbn; try done; [constructor|by intros v Hv%not_elem_of_nil].
Qed.

(** Which version is the champion, and nothing else, changes in a promotion. *)
Definition promoted (v : Z) (r r' : ModelRegistry) : Prop :=
  _load_manifest r'.(disk) = r'.(_manifest) ∧ listed r' = listed r ∧ champion r' = Some v ∧
  r'.(_manifest).(champion_sharpe) = oos_sharpe <$> metadata v r' ∧
  ∀ x, (dir_of x r').(model_file) = (dir_of x r).(model_file) ∧
    match metadata x r with
    | Some m => ∃ why, metadata x r' = Some (with_champion (bool_decide (x = v)) why m)
    | None => metadata x r' = None
    end.

Lemma promoted_ok v r r' : registry_ok r → is_Some (metadata v r) → promoted v r r' → registry_ok r'.
Proof.
  intros [_ Hs _ Hcomp Hin _ _] [m0 Hm0] (Hd&Hl&Hc&Hsh&Hx). split.
  - done.
  - by rewrite Hl.
  - rewrite Hc, Hl. by eapply Hin.
  - intros x. rewrite Hl. intros H. destruct (Hcomp x H) as (mo&m&Ed&Ev). destruct (Hx x) as [E1 E2].
    unfold metadata, dir_of in E1, E2. rewrite Ed in E1, E2. cbn in E1, E2. destruct E2 as [why E2].
    destruct (r'.(disk).(dirs) !! x) as [[a b]|]; cbn in E1, E2; [|done]. subst. by eexists mo, _.
  - intros x m Hm. rewrite Hl. destruct (Hx x) as [_ E2]. destruct (metadata x r) as [old|] eqn:Eo; [by eapply Hin|congruence].
  - intros x m Hm. destruct (Hx x) as [_ E2]. destruct (metadata x r) as [old|] eqn:Eo; [|congruence].
    destruct E2 as [why E2]. rewrite E2 in Hm. injection Hm as <-. rewrite Hc. cbn. apply bool_decide_ext. naive_solver.
  - intros c m Hcc Hm. rewrite Hc in Hcc. injection Hcc as <-. by rewrite Hsh, Hm.
Qed.

(** The state a promotion of [v], with the metadata [m], leaves after [r] *)
Definition crowned (v : Z) (m : ModelMetadata) (r : ModelRegistry) : ModelRegistry :=
  let mf := {| versions := listed r; latest_version := latest_version r.(_manifest); champion_version := Some v; champion_sharpe := Some m.(oos_sharpe) |} in
  {| _manifest := mf; disk := {| manifest_file := Some mf;
     dirs := <[v := {| model_file := (dir_of v r).(model_file); metadata_file := Some (with_champion true ManualPromotion m) |}]> r.(disk).(dirs) |} |}.
Lemma crowned_dir v m r x : dir_of x (crowned v m r) =
  if bool_decide (x = v) then {| model_file := (dir_of v r).(model_file); metadata_file := Some (with_champion true ManualPromotion m) |} else dir_of x r.
Proof. unfold dir_of, crowned. cbn. case_bool_decide as E; [subst; by rewrite lookup_insert_eq|by rewrite lookup_insert_ne]. Qed.

Lemma crowned_promoted v m r r1 : metadata v r = Some m → listed r1 = listed r → (∀ x, (dir_of x r1).(model_file) = (dir_of x r).(model_file)) →
  (∀ x, x ≠ v → metadata x r1 = (λ old, with_champion false old.(champion_reason) old) <$> metadata x r) → promoted v r (crowned v m r1).
Proof.
  intros Hm Hl Hmo Hx. split_and!; [done|by cbn|done| |].
  - unfold metadata. rewrite crowned_dir, bool_decide_true by done. done.
  - intros x. unfold metadata at 2 3. rewrite crowned_dir. case_bool_decide as E.
    + subst x. cbn. rewrite Hmo, Hm. eauto.
    + rewrite Hmo. split; [done|]. fold (metadata x r1). rewrite Hx by done. destruct (metadata x r); cbn; eauto.
Qed.

Lemma promote_run v r m : metadata v r = Some m → registry_ok r →
  ∃ r', promote_to_champion v all_written r = (Ok true, r') ∧ promoted v r r'.
Proof.
  intros Hm Hok. pose proof Hok as [_ _ Hch Hcomp Hin Hflag _].
  assert (∀ x, champion r ≠ Some x → metadata x r = (λ old, with_champion false old.(champion_reason) old) <$> metadata x r) as Hsame.
  { intros x Hx. destruct (metadata x r) as [old|] eqn:Ho; [|done]. cbn. f_equal.
    pose proof (Hflag x old Ho) as Hf. rewrite bool_decide_false in Hf by done. destruct old. cbn in Hf. by subst. }
  destruct (champion r) as [old|] eqn:Ec.
  2: { rewrite Hch in Hin. apply Hin in Hm. by apply not_elem_of_nil in Hm. }
  destruct (Hcomp old Hch) as (mo&om&Ed&_).
  assert (metadata old r = Some om) as Hom by (unfold metadata, dir_of; by rewrite Ed).
  set (r1 := if bool_decide (old = v) then r else
    set_dirs (<[old := {| model_file := (dir_of old r).(model_file); metadata_file := Some (with_champion false om.(champion_reason) om) |}]>) r).
  exists (crowned v m r1). split.
  - unfold promote_to_champion, _load_metadata, _save_metadata, _save_manifest. run_m. rewrite Hm. run_m. fold (champion r). rewrite Ec.
    unfold r1. case_bool_decide; run_m; [done|]. rewrite Hom. run_m. done.
  - unfold r1. apply crowned_promoted; [done|by case_bool_decide|..].
    + intros x. case_bool_decide; [done|]. rewrite dir_of_insert. by case_bool_decide; subst.
    + intros x Hx. case_bool_decide; [subst; apply Hsame; congruence|]. rewrite metadata_insert.
      case_bool_decide; [subst; by rewrite Hom|]. apply Hsame. congruence.
Qed.

Lemma promote_ok v r : registry_ok r → registry_ok (after (promote_to_champion v all_written) r).
Proof.
  intros Hok. destruct (metadata v r) as [m|] eqn:Hm.
  - destruct (promote_run v r m Hm Hok) as (r'&E&Hp). unfold after. rewrite E. eapply promoted_ok; eauto.
  - unfold promote_to_champion, _load_metadata, after. run_m. by rewrite Hm.
Qed.

Lemma remove_first_elem v l x : StronglySorted Z.lt l → x ∈ remove_first v l ↔ x ∈ l ∧ x ≠ v.
Proof.
  intros Hl. induction Hl as [|y l Hl IH Hy]; cbn; [set_solver|]. rewrite Forall_forall in Hy.
  destruct (Z.eqb_spec y v) as [->|Hne].
  - split; [|set_solver]. intros Hx. split; [set_solver|]. specialize (Hy x Hx). lia.
  - rewrite !elem_of_cons, IH. naive_solver.
Qed.
Lemma remove_first_sorted v l : StronglySorted Z.lt l → StronglySorted Z.lt (remove_first v l).
Proof.
  intros Hl. induction Hl as [|y l Hl IH Hy]; cbn; [constructor|]. destruct (y =? v); [done|]. constructor; [done|].
  rewrite Forall_forall in *. intros x Hx. apply remove_first_elem in Hx as [Hx _]; auto.
Qed.

(** Taking out a version that is not the champion *)
Lemma without_ok v r r' : registry_ok r → champion r ≠ Some v →
  _load_manifest r'.(disk) = r'.(_manifest) → StronglySorted Z.lt (listed r') → (∀ x, x ∈ listed r' ↔ x ∈ listed r ∧ x ≠ v) →
  champion r' = champion r → r'.(_manifest).(champion_sharpe) = r.(_manifest).(champion_sharpe) →
  r'.(disk).(dirs) = delete v r.(disk).(dirs) → registry_ok r'.
Proof.
  intros [_ _ Hch Hcomp Hin Hflag Hsh] Hv Hd Hs Hl Hc Hcs Hdirs.
  assert (∀ x, metadata x r' = if bool_decide (x = v) then None else metadata x r) as Hm.
  { intros x. unfold metadata, dir_of. rewrite Hdirs. case_bool_decide as E; [subst; by rewrite lookup_delete_eq|by rewrite lookup_delete_ne]. }
  split; [done|done|..].
  - rewrite Hc. destruct (champion r) as [c|]; [apply Hl; split; [done|congruence]|].
    destruct (listed r') as [|x l] eqn:E; [done|]. destruct (proj1 (Hl x)) as [Hx _]; [by left|]. rewrite Hch in Hx. by apply not_elem_of_nil in Hx.
  - intros x [Hx Hne]%Hl. rewrite Hdirs, lookup_delete_ne by done. auto.
  - intros x m. rewrite Hm. case_bool_decide; [done|]. intros Hx. apply Hl. eauto.
  - intros x m. rewrite Hm, Hc. case_bool_decide; [done|]. apply Hflag.
  - intros c m. rewrite Hm, Hc, Hcs. case_bool_decide; [done|]. apply Hsh.
Qed.

Lemma delete_ok v r : registry_ok r → registry_ok (after (delete_version v all_written) r).
Proof.
  intros Hok. unfold delete_version, after, when, _save_manifest. run_m. fold (champion r). case_bool_decide as Ec; [done|]. run_m. fold (listed r).
  case_bool_decide as El; cbn [snd]; eapply (without_ok v r); try done; try apply Hok; cbn.
  - apply remove_first_sorted, Hok.
  - intros x. apply remove_first_elem, Hok.
  - intros x. split; [|by intros []]. intros Hx. split; [done|]. by intros ->.
Qed.

(** * The life of a registry *)
Inductive RegistryOp :=
  | Register (model : Model) (algorithm : string) (sharpe : option float) (config : option (list (string * JValue))) (saved : option exc)
      (w : Writes)
  | Promote (v : Z) (w : Writes) | Delete (v : Z) (w : Writes) | Reopen.
Definition do_op (op : RegistryOp) (r : ModelRegistry) : ModelRegistry :=
  match op with
  | Register model alg sharpe config saved w => after (register model alg sharpe config saved w) r
  | Promote v w => after (promote_to_champion v w) r
  | Delete v w => after (delete_version v w) r
  | Reopen => open_registry r.(disk)
  end.
(** Every text file of the operation could be written. *)
Definition wrote (op : RegistryOp) : bool :=
  let ok w := match w with {| demotion := None; own_metadata := None; manifest := None |} => true | _ => false end in
  match op with Register _ _ _ _ _ w | Promote _ w | Delete _ w => ok w | Reopen => true end.
Definition do_ops (ops : list RegistryOp) (r : ModelRegistry) : ModelRegistry := fold_left (λ r op, do_op op r) ops r.
Definition new_registry : ModelRegistry := open_registry {| dirs := ∅; manifest_file := None |}.

Lemma reopen_same r : registry_ok r → open_registry r.(disk) = r.
Proof. intros Hok. pose proof (saved_manifest _ Hok) as E. destruct r as [m d]. cbn in E. unfold open_registry. cbn. by rewrite E. Qed.
Lemma do_op_ok op r : wrote op = true → registry_ok r → registry_ok (do_op op r).
Proof.
  intros Hw Hok. destruct op as [? ? ? ? ? [[] [] []]|? [[] [] []]|? [[] [] []]|]; try done; cbn; [by apply register_ok|by apply promote_ok|by apply delete_ok|by rewrite reopen_same].
Qed.
Lemma do_ops_ok ops r : Forall (λ op, wrote op = true) ops → registry_ok r → registry_ok (do_ops ops r).
Proof. intros Hops. revert r. induction Hops as [|op ops Hop _ IH]; intros r Hok; [done|]. cbn. by apply IH, do_op_ok. Qed.

Lemma list_versions_elem r m : registry_ok r → m ∈ list_versions r ↔ metadata m.(version) r = Some m.
Proof.
  intros Hok. unfold list_versions. rewrite list_elem_of_omap. setoid_rewrite elem_of_reverse. split.
  - intros (v&Hv&Hm). destruct (listed_complete _ Hok v Hv) as (mo&m'&Ed&Ev). pose proof Hm as Hm'.
    unfold metadata, dir_of in Hm'. rewrite Ed in Hm'. cbn in Hm'. injection Hm' as <-. by rewrite Ev.
  - intros Hm. exists m.(version). split; [by eapply (metadata_listed _ Hok)|done].
Qed.

(** C32. One champion: whatever models are registered, promoted and deleted, in whatever order, whether or not the
    models can be saved, and however often the registry is opened again, as long as the metadata and the manifest can
    be written, the versions that the registry lists have exactly one champion as soon as there is a version; it is
    the one the manifest names, with the Sharpe ratio the manifest records; and its model can be read back, with its
    metadata. *)
Theorem one_champion ops loads (Hwrote : Forall (λ op, wrote op = true) ops) :
  let r := do_ops ops new_registry in
  (∀ m, m ∈ list_versions r → (m.(is_champion) = true ↔ r.(_manifest).(champion_version) = Some m.(version))) ∧
  (list_versions r ≠ [] → ∃ m model, m ∈ list_versions r ∧ m.(is_champion) = true ∧
     r.(_manifest).(champion_sharpe) = Some m.(oos_sharpe) ∧
     load_champion loads r = (match loads model with Some e => Err e | None => Ok (Some (model, m)) end, r)).
Proof.
  intros r. assert (registry_ok r) as Hok by (apply do_ops_ok; [done|apply fresh_ok]). clearbody r. split.
  - intros m Hm%list_versions_elem; [|done]. rewrite (one_flag _ Hok _ _ Hm). unfold champion. by rewrite bool_decide_eq_true.
  - intros Hne. pose proof (champion_listed _ Hok) as Hch. unfold champion in Hch. destruct (champion_version (_manifest r)) as [c|] eqn:Ec.
    2: { exfalso. apply Hne. unfold list_versions. fold (listed r). by rewrite Hch. }
    destruct (listed_complete _ Hok c Hch) as (mo&m&Ed&Ev).
    assert (metadata c r = Some m) as Hm by (unfold metadata, dir_of; by rewrite Ed). exists m, mo. split_and!.
    + apply list_versions_elem; [done|]. by rewrite Ev.
    + rewrite (one_flag _ Hok _ _ Hm). unfold champion. rewrite Ec. by apply bool_decide_eq_true.
    + by eapply (sharpe_of_champion _ Hok).
    + unfold load_champion, load_version. run_m. rewrite Ec. run_m. unfold dir_of. rewrite Ed. cbn. by destruct (loads mo).
Qed.

(** * RLInferenceService *)

Record RLSignal := {
  ticker : string; s_position : float; confidence : float; s_returns_5d : float; s_volatility_20d : float; current_drawdown : float;
  model_version : Z; s_algorithm : string }.
Inductive Side := BUY | SELL.
Record OrderIntent := { o_ticker : string; side : Side; quantity : Z; rl_position : float; current_position_qty : Z; target_position_qty : Z }.
(** [b_model_version]: [None] is the text "none" *)
Record BatchInferenceResult := {
  signals : list (string * RLSignal); orders : list OrderIntent; b_model_version : option Z; ticker_count : Z; error_count : Z;
  errors : list (string * string) }.
Record RLInferenceService := {
  registry : ModelRegistry; rl_weight : float; ensemble_weight : float; shadow_mode : bool; min_position_change : float;
  _model : option (Model * ModelMetadata); _config : option RLConfig }.

(** [RLConfig( **snapshot)]: a name that is no field is a [TypeError].  A value that is
    no number, which [asdict] of a configuration does not write, is one too. *)
Definition RLConfig_fields : list string := [
  "initial_capital"; "commission_rate"; "tax_rate"; "slippage_rate"; "max_drawdown_limit"; "lookback_window"; "returns_window";
  "volatility_window"; "risk_penalty"; "cost_penalty"; "total_timesteps"; "learning_rate"; "batch_size"; "n_epochs"; "gamma";
  "gae_lambda"; "clip_range"; "eval_episodes"; "eval_freq"].
Definition TypeError : exc := OtherException "TypeError" "".
Definition float_field (d : list (string * JValue)) (k : string) (dflt : float) : result exc float :=
  match dict_get k d with None => Ok dflt | Some (JFloat x) => Ok x | Some (JInt z) => Ok (of_Z z) | Some _ => Err TypeError end.
Definition int_field (d : list (string * JValue)) (k : string) (dflt : Z) : result exc Z :=
  match dict_get k d with None => Ok dflt | Some (JInt z) => Ok z | Some _ => Err TypeError end.
Definition RLConfig_of (d : list (string * JValue)) : result exc RLConfig :=
  if forallb (λ kv, bool_decide (kv.1 ∈ RLConfig_fields)) d then
    let dc := default_config in
    rbind (float_field d "initial_capital" dc.(initial_capital)) (λ a, rbind (float_field d "commission_rate" dc.(commission_rate)) (λ b,
    rbind (float_field d "tax_rate" dc.(tax_rate)) (λ c, rbind (float_field d "slippage_rate" dc.(slippage_rate)) (λ e,
    rbind (float_field d "max_drawdown_limit" dc.(max_drawdown_limit)) (λ f, rbind (int_field d "lookback_window" dc.(lookback_window)) (λ g,
    rbind (int_field d "returns_window" dc.(returns_window)) (λ h, rbind (int_field d "volatility_window" dc.(volatility_window)) (λ i,
    rbind (float_field d "risk_penalty" dc.(risk_penalty)) (λ j, rbind (float_field d "cost_penalty" dc.(cost_penalty)) (λ k,
    Ok {| initial_capital := a; commission_rate := b; tax_rate := c; slippage_rate := e; max_drawdown_limit := f; lookback_window := g;
          returns_window := h; volatility_window := i; risk_penalty := j; cost_penalty := k |}))))))))))
  else Err TypeError.

Definition set_model (m : Model * ModelMetadata) (c : option RLConfig) (s : RLInferenceService) : RLInferenceService := {|
  registry := s.(registry); rl_weight := s.(rl_weight); ensemble_weight := s.(ensemble_weight); shadow_mode := s.(shadow_mode);
  min_position_change := s.(min_position_change); _model := Some m; _config := c |}.

(** The model is in place before its configuration is read. *)
Definition load_model (loads : Model → option exc) (v : option Z) (s : RLInferenceService) : bool * RLInferenceService :=
  match (match v with Some v => load_version loads v | None => load_champion loads end s.(registry)).1 with
  | Ok (Some (m, meta)) =>
      match meta.(config_snapshot) with
      | Some (kv :: d) =>
          match RLConfig_of (kv :: d) with
          | Ok c => (true, set_model (m, meta) (Some c) s)
          | Err _ => (false, set_model (m, meta) s.(_config) s)
          end
      | _ => (true, set_model (m, meta) (Some default_config) s)
      end
  | Ok None | Err _ => (false, s)
  end.

Section Inference.
Context {pd : Pandas} (float32 : float → float) (policy entropy : Model → list float → result exc float).
(** The step at which the environment of a ticker starts, as the generator draws it *)
Context (draw : string → Z).

Definition _estimate_confidence (m : Model) (obs : list float) : float :=
  match entropy m obs with Ok h => fmax fzero (fmin one (fsub one (fdiv h (of_Z 3)))) | Err _ => dec 5 1 end.

(** The observation of the last bar with the portfolio's own numbers *)
Definition observe (config : RLConfig) (tk : string) (ohlcv : Ohlcv) (pv drawdown cash_ratio : float) : result exc (list float) :=
  rbind (_prepare_data float32 config ohlcv) (λ f,
  let n_steps := Z.of_nat (length ohlcv.(close)) - config.(lookback_window) - 1 in
  rbind (episode config ohlcv.(close) (replicate (Z.to_nat n_steps) fzero) (reset config ohlcv.(close) (draw tk))) (λ '(_, env),
  rbind (_get_observation float32 config f env) (λ obs,
  rmap (λ obs, <[10%nat := float32 cash_ratio]> (<[9%nat := float32 drawdown]> obs))
    (if fgtZ pv 0 then
       if feq config.(initial_capital) fzero then Err (OtherException "ZeroDivisionError" "")
       else Ok (<[8%nat := float32 (fdiv (fsub pv config.(initial_capital)) config.(initial_capital))]> obs)
     else Ok obs)))).

Definition signal_of (tk : string) (m : Model) (meta : ModelMetadata) (obs : list float) (action : float) : result exc RLSignal :=
  rbind (item obs 0) (λ r, rbind (item obs 1) (λ v, rbind (item obs 9) (λ d,
  Ok {| ticker := tk; s_position := clip1 (of_Z (-1)) one action; confidence := _estimate_confidence m obs; s_returns_5d := r;
        s_volatility_20d := v; current_drawdown := d; model_version := meta.(version); s_algorithm := meta.(algorithm) |}))).

Definition predict (s : RLInferenceService) (tk : string) (ohlcv : Ohlcv) (pv drawdown cash_ratio : float) : option RLSignal :=
  match s.(_model) with
  | None => None
  | Some (m, meta) =>
      let config := default default_config s.(_config) in
      if Z.of_nat (length ohlcv.(close)) <? config.(lookback_window) + 10 then None else
      match rbind (observe config tk ohlcv pv drawdown cash_ratio) (λ obs, rbind (policy m obs) (signal_of tk m meta obs)) with
      | Ok sig => Some sig
      | Err _ => None
      end
  end.

(** One ticker's order, and none below the threshold *)
Definition order_of (s : RLInferenceService) (positions : list (string * Z)) (pv : float) (ohlcv_dict : list (string * Ohlcv))
    (tk : string) (sig : RLSignal) : result exc (option OrderIntent) :=
  let current_qty := default 0 (dict_get tk positions) in
  rbind (match dict_get tk ohlcv_dict with Some t => iloc_last t.(close) | None => Ok fzero end) (λ current_price,
  if fleZ current_price 0 then Ok None else
  rbind (if fgtZ current_price 0 then py_int_of_float (fdiv (fmul sig.(s_position) pv) current_price) else Ok 0) (λ target_qty,
  let qty_diff := target_qty - current_qty in
  rbind (if fgtZ current_price 0 then
           if feq pv fzero then Err (OtherException "ZeroDivisionError" "")
           else Ok (flt (fdiv (fabs (fmul (of_Z qty_diff) current_price)) pv) s.(min_position_change))
         else Ok false) (λ small,
  if small then Ok None
  else if qty_diff >? 0 then Ok (Some {| o_ticker := tk; side := BUY; quantity := qty_diff; rl_position := sig.(s_position);
                                         current_position_qty := current_qty; target_position_qty := target_qty |})
  else if qty_diff <? 0 then Ok (Some {| o_ticker := tk; side := SELL; quantity := Z.abs qty_diff; rl_position := sig.(s_position);
                                         current_position_qty := current_qty; target_position_qty := target_qty |})
  else Ok None))).
Fixpoint signals_to_orders (s : RLInferenceService) (sigs : list (string * RLSignal)) (positions : list (string * Z)) (pv : float)
    (ohlcv_dict : list (string * Ohlcv)) : result exc (list OrderIntent) :=
  match sigs with
  | [] => Ok []
  | (tk, sig) :: rest =>
      rbind (order_of s positions pv ohlcv_dict tk sig) (λ o,
      rmap (λ l, match o with Some x => x :: l | None => l end) (signals_to_orders s rest positions pv ohlcv_dict))
  end.

Definition predict_all (s : RLInferenceService) (ohlcv_dict : list (string * Ohlcv)) (pv drawdown cash_ratio : float) :
    list (string * RLSignal) * list (string * string) :=
  (omap (λ '(tk, t), pair tk <$> predict s tk t pv drawdown cash_ratio) ohlcv_dict,
   omap (λ '(tk, t), match predict s tk t pv drawdown cash_ratio with Some _ => None | None => Some (tk, "prediction_failed") end) ohlcv_dict).

Definition predict_batch (loads : Model → option exc) (s : RLInferenceService) (ohlcv_dict : list (string * Ohlcv)) (pv : float)
    (positions : option (list (string * Z))) (drawdown cash_ratio : float) : result exc BatchInferenceResult * RLInferenceService :=
  let v := (λ m, version m.2) <$> s.(_model) in
  let '(ok, s) := match s.(_model) with Some _ => (true, s) | None => load_model loads None s end in
  if negb ok then
    (Ok {| signals := []; orders := []; b_model_version := v; ticker_count := 0; error_count := Z.of_nat (length ohlcv_dict);
           errors := [("_global", "No model available")] |}, s)
  else
    let '(sigs, errs) := predict_all s ohlcv_dict pv drawdown cash_ratio in
    (rmap (λ os, {| signals := sigs; orders := os; b_model_version := v; ticker_count := Z.of_nat (length ohlcv_dict);
                    error_count := Z.of_nat (length errs); errors := errs |})
       (match positions with
        | Some ps => if s.(shadow_mode) then Ok [] else signals_to_orders s sigs ps pv ohlcv_dict
        | None => Ok []
        end), s).

(** * scheduler_handlers: the inference of the opening *)

(** Columns of market_ohlcv (001_initial_schema.py) *)
Definition market_ohlcv_columns : list string := ["time"; "ticker"; "market"; "open"; "high"; "low"; "close"; "volume"; "interval"].
(** Columns that the query names *)
Definition inference_columns : list string := ["date"; "open"; "high"; "low"; "close"; "volume"; "ticker"].
(** [execute columns ticker limit]: the rows of a SELECT of these columns, the newest first *)
Context (execute : list string → string → Z → result exc (list Bar)).

Definition to_ohlcv (rows : list Bar) : Ohlcv := {|
  Signals.close := bar_close <$> rows; high := Some (bar_high <$> rows); low := Some (bar_low <$> rows); volume := Some (bar_volume <$> rows) |}.
Definition _load_ohlcv_for_inference (tickers : list string) (lookback_days : Z) : list (string * Ohlcv) :=
  foldl (λ d tk,
    match execute inference_columns tk lookback_days with
    | Ok data => if Z.of_nat (length data) <? 100 then d else dict_set tk (to_ohlcv (sort_values data)) d
    | Err _ => d
    end) [] tickers.

Inductive SkipReason := NoChampionModel | NoOhlcvData | RlModuleNotAvailable.
Record RlSummary := {
  enabled : bool; rl_model_version : option Z; signals_count : Z; orders_count : Z; rl_error_count : option Z; skip_reason : option SkipReason;
  rl_error : option exc }.
Definition no_inference : RlSummary := {|
  enabled := false; rl_model_version := None; signals_count := 0; orders_count := 0; rl_error_count := None; skip_reason := None; rl_error := None |}.
Definition skipped (r : SkipReason) (x : RlSummary) : RlSummary := {|
  enabled := x.(enabled); rl_model_version := x.(rl_model_version); signals_count := x.(signals_count); orders_count := x.(orders_count);
  rl_error_count := x.(rl_error_count); skip_reason := Some r; rl_error := x.(rl_error) |}.

(** [imports]: whether the inference module can be imported *)
Definition _run_rl_inference (imports : bool) (d : Disk) (loads : Model → option exc) (tickers : list string) : RlSummary :=
  if negb imports then skipped RlModuleNotAvailable no_inference else
  let service := {| registry := open_registry d; rl_weight := dec 4 1; ensemble_weight := dec 6 1; shadow_mode := true;
    min_position_change := dec 5 2; _model := None; _config := None |} in
  let '(loaded, service) := load_model loads None service in
  if negb loaded then skipped NoChampionModel no_inference else
  let summary := {| enabled := true; rl_model_version := (λ m, version m.2) <$> service.(_model); signals_count := 0; orders_count := 0;
    rl_error_count := None; skip_reason := None; rl_error := None |} in
  let ohlcv_dict := _load_ohlcv_for_inference tickers 400 in
  if bool_decide (length ohlcv_dict = 0%nat) then skipped NoOhlcvData summary else
  match (predict_batch loads service ohlcv_dict (of_Z 50000000) None fzero one).1 with
  | Ok b => {| enabled := true; rl_model_version := summary.(rl_model_version); signals_count := Z.of_nat (length b.(signals));
               orders_count := Z.of_nat (length b.(orders)); rl_error_count := Some b.(error_count); skip_reason := None; rl_error := None |}
  | Err e => {| enabled := true; rl_model_version := summary.(rl_model_version); signals_count := 0; orders_count := 0;
                rl_error_count := None; skip_reason := None; rl_error := Some e |}
  end.

(** * What the inference reads and orders *)

(** The inference of the opening never reads a price: the rows are selected by a
    column [date] that the table of the prices does not have.  Where the database refuses
    a query that names an unknown column, the inference reports no signal for any registry,
    any model and any tickers, and what it skips it for is the missing data or a missing
    champion. *)
Theorem inference_at_the_opening_has_no_data imports d loads tickers
  (Hdb : ∀ columns tk n, ¬ columns ⊆ market_ohlcv_columns → ∃ e, execute columns tk n = Err e) :
  let r := _run_rl_inference imports d loads tickers in
  r.(signals_count) = 0 ∧ r.(orders_count) = 0 ∧
  r.(skip_reason) = Some (if negb imports then RlModuleNotAvailable else if r.(enabled) then NoOhlcvData else NoChampionModel).
Proof.
  assert (_load_ohlcv_for_inference tickers 400 = []) as Hnone.
  { unfold _load_ohlcv_for_inference. induction tickers as [|tk l IH]; [done|]. cbn [foldl].
    destruct (Hdb inference_columns tk 400) as [e ->]; [|done]. intros H. specialize (H "date"). set_solver. }
  unfold _run_rl_inference. rewrite Hnone. destruct imports; [|done]. cbn [negb]. destruct (load_model _ _ _) as [[] s]; done.
Qed.

(** The orders of a batch take the holdings to the targets. *)
Lemma order_of_target s positions pv ohlcv_dict tk sig o : order_of s positions pv ohlcv_dict tk sig = Ok (Some o) →
  o.(o_ticker) = tk ∧ 0 < o.(quantity) ∧ o.(current_position_qty) = default 0 (dict_get tk positions) ∧
  o.(current_position_qty) + (match o.(side) with BUY => o.(quantity) | SELL => - o.(quantity) end) = o.(target_position_qty).
Proof.
  unfold order_of. destruct (match dict_get tk ohlcv_dict with Some _ => _ | None => _ end) as [p|]; [|done]. cbn [rbind].
  destruct (fleZ p 0); [done|]. destruct (if fgtZ p 0 then _ else _) as [t|]; [|done]. cbn [rbind].
  destruct (if fgtZ p 0 then _ else _) as [[]|]; cbn [rbind]; [done| |done].
  destruct (Z.gtb_spec (t - default 0 (dict_get tk positions)) 0); [intros [= <-]; cbn; split_and!; [done|lia|done|lia]|].
  destruct (Z.ltb_spec (t - default 0 (dict_get tk positions)) 0); [|done]. intros [= <-]. cbn. split_and!; [done|lia|done|lia].
Qed.

Lemma items_length i l xs : items i l = Ok xs → length xs = length l.
Proof.
  revert xs. induction l as [|s l IH]; intros xs; cbn; [by intros [= <-]|]. destruct (item s i); [|done]. cbn.
  destruct (items i l) as [ys|]; [|done]. intros [= <-]. cbn. by rewrite (IH ys).
Qed.

(** The market features of bar [i] *)
Definition market_at (f : Features) (i : Z) : result exc (list float) :=
  items i [f.(returns_5d); f.(volatility_20d); f.(adx); f.(vol_percentile); f.(momentum); f.(mr_signal); f.(tf_signal); f.(rp_signal)].

Lemma observe_last config tk ohlcv f market pv drawdown cash_ratio : sane config → 0 ≤ config.(lookback_window) →
  config.(lookback_window) + 10 ≤ Z.of_nat (length ohlcv.(Signals.close)) →
  (config.(lookback_window) < Z.of_nat (length ohlcv.(Signals.close)) - 252 →
     config.(lookback_window) ≤ draw tk < Z.of_nat (length ohlcv.(Signals.close)) - 252) →
  _prepare_data float32 config ohlcv = Ok f → market_at f (Z.of_nat (length ohlcv.(Signals.close)) - 1) = Ok market →
  ∃ r, observe config tk ohlcv pv drawdown cash_ratio = Ok (market ++ (float32 <$> [r; drawdown; cash_ratio])) ∧
    (fgtZ pv 0 = true → r = fdiv (fsub pv config.(initial_capital)) config.(initial_capital)).
Proof.
  intros Hs Hl Hlen Hdraw Hf Hm. unfold observe. rewrite Hf. cbn [rbind]. set (c := ohlcv.(Signals.close)) in *.
  destruct (idle_episode config c (Z.to_nat (Z.of_nat (length c) - config.(lookback_window) - 1)) (reset config c (draw tk))) as (infos&e&He&_&Hcur); [done|..].
  { unfold reset. cbn. split_and!; auto. }
  1-3: unfold reset; cbn; destruct (Z.gtb_spec (Z.of_nat (length c) - 252) config.(lookback_window)); lia.
  rewrite He. cbn [rbind]. unfold _get_observation. rewrite Hcur. fold (market_at f (Z.of_nat (length c) - 1)). rewrite Hm. cbn [rmap].
  apply items_length in Hm. do 8 (destruct market as [|? market]; [done|]). destruct market; [|done].
  destruct (fgtZ pv 0); [|cbn; eexists; by split].
  destruct Hs as (_&Hk&_). assert (feq config.(initial_capital) fzero = false) as -> by (clear -Hk; by destruct (initial_capital config) as [| | |[]]).
  cbn. eexists. by split.
Qed.

(** A prediction reads the last bar.  A loaded model, with a configuration whose costs
    are finite and whose capital is not zero, answers for every price table that is long
    enough, wherever the generator starts the episode and whatever the prices are, missing
    ones and zeros included: the walk of an agent that never trades is never cut short and
    ends at the last bar, the model is given the features of that bar with the portfolio's
    own return, drawdown and share of cash, and the position is what it answers, clipped. *)
Theorem prediction_reads_the_last_bar s m meta tk ohlcv f market pv drawdown cash_ratio :
  let config := default default_config s.(_config) in
  let n := Z.of_nat (length ohlcv.(Signals.close)) in
  s.(_model) = Some (m, meta) → sane config → 0 ≤ config.(lookback_window) → config.(lookback_window) + 10 ≤ n →
  (config.(lookback_window) < n - 252 → config.(lookback_window) ≤ draw tk < n - 252) →
  _prepare_data float32 config ohlcv = Ok f → market_at f (n - 1) = Ok market → (∀ obs, ∃ a, policy m obs = Ok a) →
  ∃ r a sig, policy m (market ++ (float32 <$> [r; drawdown; cash_ratio])) = Ok a ∧
    (fgtZ pv 0 = true → r = fdiv (fsub pv config.(initial_capital)) config.(initial_capital)) ∧
    predict s tk ohlcv pv drawdown cash_ratio = Some sig ∧ sig.(s_position) = clip1 (of_Z (-1)) one a ∧
    market !! 0%nat = Some sig.(s_returns_5d) ∧ market !! 1%nat = Some sig.(s_volatility_20d).
Proof.
  intros config n Hmodel Hs Hl Hlen Hdraw Hf Hm Hpol.
  destruct (observe_last config tk ohlcv f market pv drawdown cash_ratio) as (r&Hobs&Hr); try done.
  destruct (Hpol (market ++ (float32 <$> [r; drawdown; cash_ratio]))) as [a Ha].
  apply items_length in Hm. do 8 (destruct market as [|? market]; [done|]). destruct market; [|done].
  exists r, a. unfold predict. rewrite Hmodel. fold config n. assert (n <? config.(lookback_window) + 10 = false) as -> by lia.
  rewrite Hobs. cbn [rbind]. rewrite Ha. cbn. eexists. by split_and!.
Qed.
End Inference.

Definition blend_with_ensemble (s : RLInferenceService) (rl_signal ensemble_signal : float) : float :=
  clip1 (of_Z (-1)) one (fadd (fmul s.(rl_weight) rl_signal) (fmul s.(ensemble_weight) ensemble_signal)).
End Registry.

(** * Runs *)

Module RlRuns.
#[local] Instance one_bar : Pandas := SignalRuns.one_bar.

(** Three models: the second is better, the third worse; then the first is promoted. *)
Definition life : list (RegistryOp (Model := string)) := [
  Register "a" "PPO" (Some (dec 5 1)) None None all_written; Register "b" "SAC" (Some one) None None all_written;
  Register "c" "PPO" (Some (dec 2 1)) None None all_written; Delete 2 all_written; Promote 1 all_written; Delete 2 all_written; Reopen].

Lemma one_champion_witness :
  (∀ m, m ∈ list_versions (do_ops life new_registry) → (m.(is_champion) = true ↔ (do_ops life new_registry).(_manifest).(champion_version) = Some m.(version))) ∧
  (list_versions (do_ops life new_registry) ≠ [] → ∃ m model, m ∈ list_versions (do_ops life new_registry) ∧ m.(is_champion) = true ∧
     (do_ops life new_registry).(_manifest).(champion_sharpe) = Some m.(oos_sharpe) ∧
     load_champion (λ _, None) (do_ops life new_registry) = (Ok (Some (model, m)), do_ops life new_registry)).
Proof. apply (one_champion life (λ _, None)). repeat constructor. Defined.

Example life_result :
  map (λ m, (m.(version), m.(is_champion))) (list_versions (do_ops life new_registry)) = [(3, false); (1, true)] ∧
  map (λ m, (m.(version), m.(is_champion))) (list_versions (do_ops (take 3 life) new_registry)) = [(3, false); (2, true); (1, false)].
Proof. by vm_compute. Qed.

(** Where a write fails, the files disagree: the old champion has lost its flag and the
    new one has no metadata, though the manifest still names the old one; or the new
    champion has the flag and, after a restart, the manifest names the old one and does
    not know the new version, whose number is given again. *)
Definition full : option exc := Some (OtherException "OSError" "").
Definition better (w : Writes) : list (RegistryOp (Model := string)) :=
  [Register "a" "PPO" (Some (dec 5 1)) None None all_written; Register "b" "SAC" (Some one) None None w].
Theorem failed_write_leaves_no_champion :
  let r1 := do_ops (better {| demotion := None; own_metadata := full; manifest := None |}) new_registry in
  let r2 := do_ops (better {| demotion := None; own_metadata := None; manifest := full |} ++ [Reopen]) new_registry in
  map (λ m, (m.(version), m.(is_champion))) (list_versions r1) = [(1, false)] ∧ champion r1 = Some 1 ∧
  map (λ m, (m.(version), m.(is_champion))) (list_versions r2) = [(1, false)] ∧ champion r2 = Some 1 ∧
  (λ m, m.(is_champion)) <$> metadata 2 r2 = Some true ∧ _next_version r2 = 2.
Proof. by vm_compute. Qed.

(** A first model without a Sharpe ratio is never beaten. *)
Example missing_sharpe_is_champion :
  map (λ m, (m.(version), m.(is_champion)))
    (list_versions (do_ops [Register "a" "PPO" (Some NaN) None None all_written; Register "b" "PPO" (Some (of_Z 3)) None None all_written] new_registry)) =
  [(2, false); (1, true)].
Proof. by vm_compute. Qed.

(** The number of a deleted version is given again. *)
Example version_numbers_return :
  map (λ m, (m.(version), m.(algorithm)))
    (list_versions (do_ops [Register "a" "PPO" None None None all_written; Register "b" "SAC" None None None all_written; Delete 2 all_written;
      Register "c" "PPO" None None None all_written] new_registry)) =
  [(2, "PPO"); (1, "PPO")].
Proof. by vm_compute. Qed.

(** PostgreSQL with the columns of the migration *)
Definition database (columns : list string) (tk : string) (n : Z) : result exc (list Bar) :=
  if bool_decide (columns ⊆ market_ohlcv_columns) then Ok [] else Err (OtherException "ProgrammingError" "").
Definition stored : Disk := (do_ops life new_registry).(disk).
Definition policy (_ : string) (_ : list float) : result exc float := Ok (of_Z 3).
Definition no_entropy (_ : string) (_ : list float) : result exc float := Err (OtherException "AttributeError" "").

Lemma inference_at_the_opening_has_no_data_witness :
  let r := _run_rl_inference id policy no_entropy (λ _, 0) database true stored (λ _, None) ["005930"] in
  r.(signals_count) = 0 ∧ r.(orders_count) = 0 ∧
  r.(skip_reason) = Some (if negb true then RlModuleNotAvailable else if r.(enabled) then NoOhlcvData else NoChampionModel).
Proof.
  apply (inference_at_the_opening_has_no_data id policy no_entropy (λ _, 0) database true stored (λ _, None) ["005930"]).
  intros columns tk n Hc. unfold database. rewrite bool_decide_false by done. by eexists.
Defined.

Definition service : RLInferenceService := {|
  registry := new_registry; rl_weight := dec 4 1; ensemble_weight := dec 6 1; shadow_mode := false; min_position_change := dec 5 2;
  _model := Some ("a", {| version := 1; algorithm := "PPO"; oos_sharpe := one; config_snapshot := None; is_champion := true; champion_reason := FirstModel |});
  _config := Some EnvRuns.costless |}.
Definition bars : Series := of_Z <$> [100; 101; 0; 103; 104; 105; 106; 107; 108; 109; 110; 111].
Definition table : Ohlcv := {| Signals.close := bars; high := Some bars; low := Some bars; volume := None |}.
Definition features : Features := match _prepare_data id EnvRuns.costless table with Ok f => f | Err _ =>
  {| returns_5d := []; volatility_20d := []; adx := []; vol_percentile := []; momentum := []; mr_signal := []; tf_signal := []; rp_signal := [] |} end.
Definition last_bar : list float := match market_at features 11 with Ok l => l | Err _ => [] end.

Lemma prediction_reads_the_last_bar_witness : ∃ r a sig, policy "a" (last_bar ++ (id <$> [r; fzero; one])) = Ok a ∧
    (fgtZ (of_Z 60000000) 0 = true → r = fdiv (fsub (of_Z 60000000) (of_Z 50000000)) (of_Z 50000000)) ∧
    predict id policy no_entropy (λ _, 0) service "005930" table (of_Z 60000000) fzero one = Some sig ∧ sig.(s_position) = clip1 (of_Z (-1)) one a ∧
    last_bar !! 0%nat = Some sig.(s_returns_5d) ∧ last_bar !! 1%nat = Some sig.(s_volatility_20d).
Proof.
  apply (prediction_reads_the_last_bar id policy no_entropy (λ _, 0) service "a" {| version := 1; algorithm := "PPO"; oos_sharpe := one; config_snapshot := None; is_champion := true; champion_reason := FirstModel |}
    "005930" table features last_bar (of_Z 60000000) fzero one); try reflexivity; try (vm_compute; reflexivity); try (by vm_compute).
  intros obs. by eexists.
Defined.

(** A missing price sells the whole holding, below any threshold; each ticker may buy
    for the whole portfolio; and a model whose configuration cannot be read is refused
    once and used the next time. *)
Definition signal_at (tk : string) (p : float) : string * RLSignal := (tk, {| ticker := tk; s_position := p; confidence := one; s_returns_5d := fzero;
  s_volatility_20d := fzero; current_drawdown := fzero; model_version := 1; s_algorithm := "PPO" |}).
Definition priced (x : float) : Ohlcv := {| Signals.close := [x]; high := None; low := None; volume := None |}.
Example orders_of_edges :
  rmap (map (λ o, (o.(o_ticker), o.(side), o.(quantity))))
    (signals_to_orders service [signal_at "A" one; signal_at "B" one; signal_at "C" one; signal_at "D" (fneg one)] [("C", 7); ("D", 5)] (of_Z 1000)
       [("A", priced (of_Z 10)); ("B", priced (of_Z 10)); ("C", priced NaN); ("D", priced (of_Z 10))]) =
  Ok [("A", BUY, 100); ("B", BUY, 100); ("C", SELL, 7); ("D", SELL, 105)].
Proof. by vm_compute. Qed.
Example refused_model_is_used :
  let r := do_ops [Register "a" "PPO" None (Some [("no_such_field", JInt 1)]) None all_written] new_registry in
  let s := {| registry := r; rl_weight := dec 4 1; ensemble_weight := dec 6 1; shadow_mode := true; min_position_change := dec 5 2; _model := None; _config := None |} in
  let '(loaded, s') := load_model (λ _, None) None s in
  loaded = false ∧ is_Some s'.(_model).
Proof. vm_compute. split; [done|by eexists]. Qed.
End RlRuns.
