(* ===== verification/OrderPath.v ===== *)
(** The order executor over the REST client: core/order_executor/executor.py calling
    core/data_collector/kis_client.py, and the unique order number of the table [orders]
    (db/models/order.py).

    [kis_rest] discharges the interface [KISClient] of [Executor] with the client of
    [KisClient]: what the theorems of [Executor] say of any broker is here said of
    the requests that leave. *)

From stdpp Require Import base option list sets strings.
From Stdlib Require Import ZArith Lia.
From S2P Require Import Prelude PyFloat PyDict PyFormat Constants Ledger Guard PriceGuard Executor KisClient ExchangeRate.
Import OrderExecutor.

(** * The client the executor holds *)

Section KisRest.
Context {W : Type} `{Network W} `{Tenacity W}.
Context (str_exc : exc → string) (json_loads : string → option JValue) (str_float : float → string) (str : JValue → string).
Context (settings : KISSettings).

(** What the executor reads of an answer: [api_result.get("order_id", "")],
    [int(api_result.get("filled_qty", 0))] and [float(api_result.get("avg_price", 0))] *)
Definition api_result (data : JValue) : result exc ApiResult :=
  rbind (get_or data "order_id" (JStr "")) (λ id,
  rbind (rbind (get_or data "filled_qty" (JInt 0)) py_int_of) (λ filled,
  rbind (rbind (get_or data "avg_price" (JInt 0)) py_float_of) (λ avg,
  Ok {| api_order_id := match id with JStr s => s | _ => str id end; filled_qty := filled; api_avg_price := avg |}))).

(** The order calls; the executor names no exchange, so that [place_us_order] takes its default. *)
Definition place (o : BrokerOrder) : M (Client W) exc JValue :=
  match o with
  | PlaceKr ticker side q p ord_type => place_kr_order str_exc json_loads settings ticker (value side) q p ord_type
  | PlaceUs ticker side q p => place_us_order str_exc json_loads str_float settings ticker (value side) q p "NASD"
  end.

Definition broken {A} (m : M (Client W) exc A) : M (Client W) unit A := with_err (λ _, tt) m.

(** The client has no [get_kr_order_detail] and no [cancel_kr_order]: calling them
    raises an AttributeError. *)
Definition kis_rest : KISClient (Client W) := {|
  Executor.has_valid_token := KisClient.has_valid_token;
  Executor.get_access_token := broken (KisClient.get_access_token str_exc json_loads settings ;; mret tt);
  place_order o := broken (data ← place o; lift_result (api_result data));
  get_kr_order_detail _ := raise tt;
  cancel_kr_order _ := raise tt |}.

(** ** Where the data of an answer come from *)

(** The order answers of KIS, as its documentation has them: an object with the
    fields rt_cd, msg_cd, msg1 and output. *)
Definition answers_like_kis : Prop := ∀ r w resp w' data,
  http r w = (Ok resp, w') → is_Some r.(headers) → resp.(json) = Ok data →
  ∃ fields, data = JObject fields ∧ fields.*1 ⊆ ["rt_cd"; "msg_cd"; "msg1"; "output"].

Definition no_fill : ApiResult := {| api_order_id := ""; filled_qty := 0; api_avg_price := fzero |}.

Lemma kis_answer_is_no_fill data :
  (∃ fields, data = JObject fields ∧ fields.*1 ⊆ ["rt_cd"; "msg_cd"; "msg1"; "output"]) → api_result data = Ok no_fill.
Proof.
  intros (fields&->&Hf). unfold api_result. cbn [get_or].
  rewrite !(dict_get_None _ fields) by set_solver. reflexivity.
Qed.

Lemma attempts_returns {A} (P : A → Prop) pauses left attempt (f : M (Client W) exc A) :
  returns P f → returns P (attempts pauses left attempt f).
Proof.
  intros Hf. revert attempt. induction left as [|left IH]; intros attempt s; unfold outcome; cbn;
    specialize (Hf s) as Hs; unfold outcome in Hs; destruct (f s) as [[a|e] s']; cbn in *; try done. apply IH.
Qed.

Lemma request_returns meth path tr_id ps fields :
  answers_like_kis → meth = "GET" ∨ meth = "POST" →
  returns (λ data, api_result data = Ok no_fill) (_request str_exc json_loads settings meth path tr_id ps fields).
Proof.
  intros Hkis Hm. unfold _request. apply returns_seq.
  enough (returns (λ data, api_result data = Ok no_fill) (_do_request str_exc json_loads settings meth path tr_id ps fields)) as Hdo.
  { intros s. unfold outcome. rewrite (retrying_attempts _ _ _ _ _ _ eq_refl). exact (attempts_returns _ _ _ _ _ Hdo s). }
  unfold _do_request. apply returns_seq, returns_then. intros hs s. unfold outcome.
  assert (∀ x s', KisClient.dispatch settings meth path hs ps fields s = (Ok x, s') →
    ∀ data, x.(json) = Ok data → api_result data = Ok no_fill) as Hd.
  { intros x s' Hx data Hdata. unfold KisClient.dispatch, send in Hx.
    destruct Hm as [-> | ->]; [rewrite bool_decide_true in Hx by done|rewrite bool_decide_false, bool_decide_true in Hx by done];
      destruct (http _ _) as [a w'] eqn:Eh; simplify_eq/=; by eapply kis_answer_is_no_fill, Hkis. }
  unfold mbind, M_bind. destruct (KisClient.dispatch _ _ _ _ _ _ s) as [[x|e] s'] eqn:Ex; [|done].
  rewrite raise_for_status_spec. destruct (_ && _); cbn; [|done]. unfold lift_result.
  destruct x.(json) as [data|] eqn:Ej; cbn; [|done]. destruct (get_or data "rt_cd" JNull); cbn; [|done].
  destruct (truthy _ && _); [|by eapply Hd]. by destruct (get_or data "msg1" _).
Qed.

(** An order that is accepted tells the executor neither its number nor a fill. *)
Lemma place_order_says_nothing o : answers_like_kis → returns (λ api, api = no_fill) (kis_rest.(place_order) o).
Proof.
  intros Hkis s. unfold kis_rest, broken, outcome. cbn. run_m.
  assert (returns (λ data, api_result data = Ok no_fill) (place o)) as Hp.
  { destruct o; cbn; apply request_returns; auto. }
  specialize (Hp s). unfold outcome in Hp. destruct (place o s) as [[data|e] s']; cbn in *; [|done]. by rewrite Hp.
Qed.

(** * Orders over the client *)

Section Orders.
Context {R : Type} `{LedgerRepository R}.
Context (guard_settings : GuardSettings) (quote_provider : option QuoteProvider) (price_guard_config : PriceGuardConfig).
Abbreviation Exec := (M (World R (Client W)) ExecExn).
Abbreviation execute_order := (execute_order guard_settings false false quote_provider price_guard_config kis_rest).

(** What an accepted order of one request becomes *)
Definition accepted_as (req : OrderRequest) (r : OrderResult) : Prop :=
  r.(filled_quantity) = 0 ∧ r.(status) = SUBMITTED ∧
  match req.(order_type) with
  | LIMIT => r.(order_id) = BrokerId ""
  | _ => ∃ n, r.(order_id) = Generated "KIS_" n
  end.

Lemma submit_returns o : answers_like_kis → returns (λ api, api = no_fill) (submit (R:=R) kis_rest o).
Proof.
  intros Hkis. unfold submit. apply returns_seq. intros w. unfold on_broker, outcome. run_m.
  pose proof (place_order_says_nothing o Hkis w.(broker)) as Hp. unfold outcome in Hp.
  destruct (kis_rest.(place_order) o w.(broker)) as [[api|[]] c]; done.
Qed.

Lemma execution_returns req :
  answers_like_kis → req.(order_type) = MARKET ∨ req.(order_type) = LIMIT →
  returns (accepted_as req) (OrderExecutor.dispatch (R:=R) false false kis_rest req).
Proof.
  intros Hkis Ht. unfold OrderExecutor.dispatch, accepted_as. destruct Ht as [Ht|Ht]; rewrite Ht.
  - unfold _execute_market_order. cbn [negb]. eapply returns_bind; [|intros r Hr; apply returns_seq, returns_ret, Hr].
    apply returns_seq. eapply returns_bind; [by apply submit_returns|]. intros api ->. rewrite bool_decide_true by done.
    eapply (returns_bind _ _ (λ id, ∃ n, id = Generated "KIS_" n)); [intros w; cbn; eauto|].
    intros id [n ->]. apply returns_ret. cbn. eauto.
  - unfold _execute_limit_order. destruct req.(limit_price) as [lp|]; [|apply returns_raise].
    destruct (lp <=? fzero)%pyf; [apply returns_raise|].
    eapply returns_bind; [|intros r Hr; apply returns_seq, returns_ret, Hr]. apply returns_seq.
    eapply (returns_bind _ _ (λ api, api = no_fill)).
    + destruct (bool_decide _); [|by apply submit_returns]. destruct (trunc lp); [by apply submit_returns|apply returns_raise].
    + intros api ->. by apply returns_ret.
Qed.

Lemma body_main_returns req w r w1 :
  answers_like_kis → req.(order_type) = MARKET ∨ req.(order_type) = LIMIT →
  body_main guard_settings false false quote_provider price_guard_config kis_rest req w = (Ok r, w1) →
  accepted_as req r ∧ w1.(ledger) = w.(ledger).
Proof.
  intros Hkis Ht Hrun. assert (accepted_as req r) as Hr.
  { unfold body_main in Hrun. apply bind_Ok in Hrun as (q&w2&_&Hrun). apply bind_Ok in Hrun as (r'&w3&Hd&Hrun).
    apply bind_Ok in Hrun as ([]&w4&_&Hrun). apply bind_Ok in Hrun as ([]&w5&_&Hrun). unfold mret, M_ret in Hrun. simplify_eq.
    pose proof (execution_returns req Hkis Ht w2) as Hx. unfold outcome in Hx. by rewrite Hd in Hx. }
  split; [done|].
  pose proof (body_main_ledger guard_settings false false quote_provider price_guard_config kis_rest req w) as Hl.
  rewrite Hrun in Hl. destruct Hr as (Hf&Hs&_). unfold counts in Hl. rewrite Hs, Hf, andb_false_r in Hl. exact Hl.
Qed.

(** KIS's answer to an order does not have the fields the executor reads: a live
    market or limit order that is accepted is recorded as submitted with nothing
    filled, under a number the executor makes up or under none, and the ledger stays
    as it was.  The broker's number of the order is lost. *)
Theorem broker_numbers_are_lost (req : OrderRequest) (w : World R (Client W)) r w' :
  answers_like_kis → req.(order_type) = MARKET ∨ req.(order_type) = LIMIT →
  execute_order req w = (Ok r, w') →
  r.(filled_quantity) = 0 ∧ r.(status) = SUBMITTED ∧ w'.(ledger) = w.(ledger) ∧
  match req.(order_type) with
  | LIMIT => r.(order_id) = BrokerId ""
  | _ => ∃ n, r.(order_id) = Generated "KIS_" n
  end.
Proof.
  intros Hkis Ht Hrun. rewrite execute_order_unfold in Hrun.
  destruct (body_main _ _ _ _ _ _ req w) as [[r'|e] w1] eqn:Eb; [|done]. simplify_eq/=.
  destruct (body_main_returns req w r w1 Hkis Ht Eb) as [(?&?&?) Hl]. done.
Qed.

(** ** The table orders, whose order numbers are unique *)

Definition orders_table (evs : list Event) : list OrderResult := write_rows [] evs.

Lemma insert_order_NoDup e t : NoDup (order_id <$> t) → NoDup (order_id <$> insert_order t e).
Proof.
  intros Ht. destruct e; cbn; try done. destruct ok; [|done]. case_bool_decide; [done|].
  rewrite fmap_app. apply NoDup_app. split; [done|]. split; [set_solver|]. apply NoDup_singleton.
Qed.

Lemma orders_table_NoDup evs : NoDup (order_id <$> orders_table evs).
Proof.
  unfold orders_table. assert (NoDup (order_id <$> ([] : list OrderResult))) as H0' by constructor. revert H0'.
  generalize (@nil OrderResult). induction evs as [|e evs IH]; intros t Ht; cbn; [done|]. by apply IH, insert_order_NoDup.
Qed.

Lemma orders_table_rows (P : OrderResult → Prop) evs :
  Forall (λ e, match e with Stored r _ => P r | _ => True end) evs → Forall P (orders_table evs).
Proof.
  intros He. unfold orders_table. assert (Forall P []) as H0' by constructor. revert H0'. generalize (@nil OrderResult).
  induction He as [|e evs He Hevs IH]; intros t Ht; cbn; [done|]. apply IH. destruct e; cbn; try done.
  destruct ok; [|done]. case_bool_decide; [done|]. apply Forall_app. split; [done|by constructor].
Qed.

(** The rows of limit orders *)
Definition limit_row (e : Event) : Prop :=
  match e with Stored r _ => r.(status) = SUBMITTED → r.(order_id) = BrokerId "" | _ => True end.

Lemma execute_order_rows req w :
  answers_like_kis → req.(order_type) = LIMIT →
  ∃ evs, (after (execute_order req) w).(log) = w.(log) ++ evs ∧ Forall limit_row evs.
Proof.
  intros Hkis Ht.
  destruct (body_main_effects guard_settings false false quote_provider price_guard_config kis_rest req w)
    as (evs1&evs2&E&K1&K2&_).
  assert (Forall limit_row (evs1 ++ evs2)) as Hev.
  { apply Forall_app. split; (eapply Forall_impl; [eassumption|]); by intros []. }
  unfold after in *. rewrite execute_order_unfold.
  destruct (body_main _ _ _ _ _ _ req w) as [[r|e] w1] eqn:Eb; cbn in *; rewrite E, <- !app_assoc;
    eexists; (split; [done|]); rewrite app_assoc; apply Forall_app; (split; [done|]).
  - destruct (body_main_returns req w r w1 Hkis (or_intror Ht) Eb) as [(_&_&Hid) _]. rewrite Ht in Hid.
    repeat constructor. by cbn.
  - by repeat constructor.
Qed.

Lemma execute_each_rows reqs w :
  answers_like_kis → Forall (λ req, req.(order_type) = LIMIT) reqs →
  ∃ evs, (after (execute_each guard_settings false false quote_provider price_guard_config kis_rest reqs) w).(log) = w.(log) ++ evs ∧
    Forall limit_row evs.
Proof.
  intros Hkis. revert w. induction reqs as [|req reqs IH]; intros w Hr; [exists []; by rewrite app_nil_r|].
  apply Forall_cons in Hr as [Ht Hr]. cbn [execute_each].
  destruct (execute_order_rows req w Hkis Ht) as (evs&E&Hev). unfold after, try_except, mbind, M_bind in *.
  destruct (execute_order req w) as [x w1]. cbn in E. destruct (IH w1 Hr) as (evs'&E'&Hev').
  destruct x as [a|e]; unfold mret, M_ret;
    (destruct (execute_each _ _ _ _ _ _ reqs w1) as [[ys|e'] w3]; cbn in *; exists (evs ++ evs');
     rewrite E', E, app_assoc; (split; [done|by apply Forall_app])).
Qed.

Lemma one_number_one_row t :
  NoDup (order_id <$> t) → Forall (λ r, r.(status) = SUBMITTED → r.(order_id) = BrokerId "") t →
  (length (filter (λ r, r.(status) = SUBMITTED) t) ≤ 1)%nat.
Proof.
  intros Hnd Hrows.
  assert (NoDup (order_id <$> filter (λ r, r.(status) = SUBMITTED) t)) as Hnd'.
  { induction t as [|r t IH]; [constructor|]. cbn [fmap list_fmap] in Hnd. apply NoDup_cons in Hnd as [Hn Hnd]. apply Forall_cons in Hrows as [_ Hrows].
    rewrite filter_cons. case_decide; [|by apply IH]. cbn. apply NoDup_cons. split; [|by apply IH].
    intros Hin. apply Hn. apply list_elem_of_fmap in Hin as (r'&->&Hr'%list_elem_of_filter). apply list_elem_of_fmap. naive_solver. }
  destruct (filter _ t) as [|a [|b l]] eqn:Ef; cbn; [lia|lia|]. exfalso.
  assert (∀ x, x ∈ filter (λ r, r.(status) = SUBMITTED) t → x.(order_id) = BrokerId "") as Hid.
  { intros x [Hs Hx]%list_elem_of_filter. rewrite Forall_forall in Hrows. by apply Hrows. }
  rewrite Ef in Hid. cbn in Hnd'. apply NoDup_cons in Hnd' as [Hn _]. apply Hn.
  rewrite (Hid a), <- (Hid b) by set_solver. by left.
Qed.

(** C18. However many live limit orders a batch places, whatever their outcomes and
    those of the database: at most one of them has a row as a submitted order in the
    table, whose order numbers are unique.  The others run at the broker without one. *)
Theorem limit_orders_share_one_row (reqs : list OrderRequest) (w : World R (Client W)) :
  answers_like_kis → Forall (λ req, req.(order_type) = LIMIT) reqs → w.(log) = [] →
  let w' := after (execute_batch_orders guard_settings false false quote_provider price_guard_config kis_rest reqs) w in
  (length (filter (λ r, r.(status) = SUBMITTED) (orders_table w'.(log))) ≤ 1)%nat.
Proof.
  intros Hkis Hr Hw w'.
  assert (∃ evs, w'.(log) = evs ∧ Forall limit_row evs) as (evs&->&Hev).
  { subst w'. unfold execute_batch_orders.
    set (sells := filter (λ r, r.(side) = SELL) reqs). set (buys := filter (λ r, r.(side) = BUY) reqs).
    assert (Forall (λ req, req.(order_type) = LIMIT) sells ∧ Forall (λ req, req.(order_type) = LIMIT) buys) as [Hs Hb]
      by (split; apply Forall_forall; intros x [_ Hx]%list_elem_of_filter; by apply (proj1 (Forall_forall _ _) Hr)).
    destruct (execute_each_rows sells w Hkis Hs) as (e1&E1&?). unfold after, mbind, M_bind in *.
    destruct (execute_each _ _ _ _ _ _ sells w) as [[ss|e] w1]; cbn in *; [|exists e1; by rewrite E1, Hw].
    destruct (execute_each_rows buys w1 Hkis Hb) as (e2&E2&?). unfold after in *.
    destruct (execute_each _ _ _ _ _ _ buys w1) as [[bs|e] w2]; cbn in *; exists (e1 ++ e2);
      rewrite E2, E1, Hw; (split; [done|by apply Forall_app]). }
  pose proof (orders_table_NoDup evs) as Hnd.
  assert (Forall (λ r, r.(status) = SUBMITTED → r.(order_id) = BrokerId "") (orders_table evs)) as Hrows
    by by apply orders_table_rows.
  by apply one_number_one_row.
Qed.

(** ** Orders whose answers are lost *)

Lemma place_lost o s t :
  Settings.is_backtest settings = false → truthy s.(_access_token) = true → s.(_token_expires_at) = Some t →
  (∀ w, now w < t - margin) → (∀ r w, is_ok (http r w).1 = false) →
  ∃ order s', kis_rest.(place_order) o s = (Err tt, s') ∧
    s'.(sent) = s.(sent) ++ replicate (tries settings.(api_retry_count)) order ∧ order.(method) = "POST" ∧
    dict_get "ORD_QTY" (default [] order.(body)) = Some (fmt_int (ordered_quantity o)) ∧
    dict_get "OVRS_EXCG_CD" (default [] order.(body)) = match o with PlaceUs _ _ _ _ => Some "NASD" | PlaceKr _ _ _ _ _ => None end.
Proof.
  intros Hmode Htoken Hexpiry Hnow Hlost. unfold kis_rest, broken. cbn [place_order].
  assert (∃ path tr fields, place o = _request str_exc json_loads settings "POST" path tr None (Some fields) ∧
    dict_get "ORD_QTY" fields = Some (fmt_int (ordered_quantity o)) ∧
    dict_get "OVRS_EXCG_CD" fields = match o with PlaceUs _ _ _ _ => Some "NASD" | PlaceKr _ _ _ _ _ => None end)
    as (path&tr&fields&Hplace&Hq&Hex).
  { destruct o as [tk sd q p ty|tk sd q p]; cbn [place].
    - unfold place_kr_order, POST. eexists _, _, _. split; [done|]. split; by vm_compute.
    - unfold place_us_order, POST. eexists _, _, _. split; [done|]. split; by vm_compute. }
  rewrite Hplace. destruct (lost_request_repeats str_exc json_loads settings path tr (Some fields) s t) as (Hs&e&He); [done..|].
  exists (api_request settings "POST" path tr None (Some fields) s.(_access_token)).
  unfold with_err, mbind, M_bind. destruct (_request _ _ _ _ _ _ _ _ s) as [x s']. cbn in Hs, He. subst x.
  exists s'. split; [done|]. split; [done|]. split; [done|]. done.
Qed.

Abbreviation admission := (admission guard_settings false false quote_provider price_guard_config).

Lemma admission_keeps_broker req (b : Client W) : preserves (λ w : World R (Client W), w.(broker) = b) (admission req).
Proof.
  assert (∀ A (m : M TradingGuardState Empty_set A), preserves (λ w : World R (Client W), w.(broker) = b) (on_guard m)) as Hg.
  { intros A m w Hw. unfold after, on_guard. run_m. by destruct (m _) as [[?|[]] ?]. }
  assert (∀ A (m : M (list Metric) PriceGuardExn A), preserves (λ w : World R (Client W), w.(broker) = b) (on_metrics m)) as Hm.
  { intros A m w Hw. unfold after, on_metrics. run_m. by destruct (m _) as [[?|?] ?]. }
  unfold OrderExecutor.admission, guard_check, _validate_order, price_checks, emit. cbn [negb andb].
  repeat first [ progress intros | apply preserves_bind | apply Hg | apply Hm | by apply preserves_modify | case_match
               | solve [auto with py] ].
Qed.

(** C7. A market order that was admitted and whose answers are all lost: the executor
    raises and writes a FAILED row with nothing filled, while the same order was posted
    once per attempt of the client, at the exchange NASD for every United States market. *)
Theorem lost_answer_is_a_failed_row (req : OrderRequest) (w : World R (Client W)) q t
  (Hmarket : req.(order_type) = MARKET) (Hadmitted : outcome (admission req) w = Ok q)
  (Hmode : Settings.is_backtest settings = false)
  (Htoken : truthy w.(broker).(_access_token) = true) (Hexpiry : w.(broker).(_token_expires_at) = Some t)
  (Hnow : ∀ w : W, now w < t - margin) (Hlost : ∀ r (w : W), is_ok (http r w).1 = false) :
  ∃ order evs row, let w' := after (execute_order req) w in
    outcome (execute_order req) w = Err Executor.KISAPIError ∧
    w'.(broker).(sent) = w.(broker).(sent) ++ replicate (tries settings.(api_retry_count)) order ∧
    order.(method) = "POST" ∧ dict_get "ORD_QTY" (default [] order.(body)) = Some (fmt_int req.(quantity)) ∧
    dict_get "OVRS_EXCG_CD" (default [] order.(body)) = (if bool_decide (req.(market) = KRX) then None else Some "NASD") ∧
    w'.(log) = w.(log) ++ evs ∧ rows evs = [row] ∧ row.(status) = FAILED ∧ row.(filled_quantity) = 0.
Proof.
  set (o := if bool_decide (req.(market) = KRX) then PlaceKr req.(ticker) req.(side) req.(quantity) 0 "01"
            else PlaceUs req.(ticker) req.(side) req.(quantity) (of_Z 0)).
  destruct (effects_run guard_event (admission req) w (Ok q) (after (admission req) w)) as (_&evs1&Hlog&Hev);
    [apply admission_effects|unfold after, outcome in *; by rewrite <- Hadmitted, <- surjective_pairing|].
  pose proof (admission_keeps_broker req w.(broker) w eq_refl) as Hb. set (w1 := after (admission req) w) in *.
  destruct (place_lost o w1.(broker) t) as (order&c&Hplace&Hsent&Hmeth&Hq&Hex); rewrite ?Hb; [done..|].
  assert (body_main guard_settings false false quote_provider price_guard_config kis_rest req w =
    (Err Executor.KISAPIError, set_broker c (emit_event (Submitted o) w1))) as Hmain.
  { assert (Executor.has_valid_token kis_rest w.(broker) = true) as Hvalid.
    { cbn. unfold KisClient.has_valid_token. rewrite Htoken, Hexpiry. cbn. by apply Z.ltb_lt. }
    rewrite Hb in Hplace. unfold outcome, after in *. subst w1. clear -Hvalid Hplace Hadmitted Hmarket Hb.
    revert Hvalid Hplace. generalize kis_rest. intros k Hvalid Hplace.
    unfold body_main, mbind, M_bind. destruct (admission req w) as [x w1]. cbn in *. subst x.
    unfold OrderExecutor.dispatch. rewrite Hmarket. unfold _execute_market_order, ensure_token, submit, on_broker. run_m. cbn.
    rewrite Hb, Hvalid. cbn. fold o. by rewrite Hb, Hplace. }
  exists order. unfold outcome, after. rewrite execute_order_unfold, Hmain. cbn.
  eexists _, _. split; [done|]. split; [by rewrite Hsent, Hb|]. split; [done|].
  split; [subst o; by destruct (bool_decide _)|]. split; [subst o; by destruct (bool_decide _)|].
  rewrite Hlog, <- !app_assoc. split; [done|].
  assert (rows evs1 = []) as Hrows by (clear -Hev; unfold rows; induction Hev as [|[] l]; cbn in *; done).
  unfold rows in *. by rewrite omap_app, Hrows.
Qed.
End Orders.
End KisRest.

(** * Runs *)

Module PathRuns.
Import KisRuns ExecutorWitness SqlPortfolioLedgerRepository.

(** A broker that answers as KIS does and counts the requests, and a deaf one *)
Definition odno (r : Request) : Prelude.result exc Response :=
  if is_token r then token_answer 86400 else
  ok_json (JObject [("rt_cd", JStr "0"); ("msg_cd", JStr "APBK0013"); ("msg1", JStr "ok");
                    ("output", JObject [("KRX_FWDG_ORD_ORGNO", JStr "00950"); ("ODNO", JStr "0001569157")])]).
#[local] Instance counter : Network nat := {|
  http r n := (odno r, S n); now _ := 0; monotonic n := Z.of_nat n * 1000000; sleep _ n := n |}.
#[local] Instance counter_retry : Tenacity nat := looping (λ _ _ n, n).

Definition quotes : QuoteProvider := λ ticker market, Ok {|
  q_ticker := ticker; q_market := market; PriceGuard.price := of_Z 70000; PriceGuard.fetched_at := 0; tz_aware := true |}.

Definition order_for (ot : OrderType) (m : Market) (p : option float) : OrderRequest := {|
  ticker := "005930"; market := m; side := BUY; quantity := 10; order_type := ot; limit_price := p; req_reason := "" |}.
Definition show (v : JValue) : string := "".
Definition no_float (x : float) : string := "0".
Definition valid_client (n : nat) : Client nat := {|
  net := n; _access_token := JStr "tok"; _token_expires_at := Some 86400000000; _websocket_key := JNull;
  _last_request_time := 0; sent := [] |}.
Definition at_start (s : Client nat) : World Db (Client nat) := {|
  guard := idle_guard; OrderExecutor.ledger := PortfolioLedger.init None; metrics := []; broker := s;
  OrderExecutor.clock := 0; next_id := 0; db_faults := []; log := [] |}.

Lemma counter_like_kis : answers_like_kis (W:=nat).
Proof.
  intros r w resp w' data Hr Hh Hj. cbn in Hr. unfold odno in Hr. destruct (is_token r) eqn:Et.
  - unfold is_token in Et. apply bool_decide_eq_true in Et. rewrite Et in Hh. by destruct Hh.
  - injection Hr as <- <-. cbn in Hj. injection Hj as <-. eexists. split; [done|]. set_solver.
Qed.

Abbreviation run req :=
  (execute_order GuardWitness.demo false false (Some quotes) default_config (kis_rest no_text no_json no_float show (defaults DEMO)) req).
Definition limit_order : OrderRequest := order_for LIMIT KRX (Some (of_Z 70000)).
Definition batch (reqs : list OrderRequest) : World Db (Client nat) :=
  after (execute_batch_orders GuardWitness.demo false false (Some quotes) default_config
    (kis_rest no_text no_json no_float show (defaults DEMO)) reqs) (at_start (valid_client 0)).

(** Two limit orders are at the broker; one row is in the table. *)
Example second_limit_order_has_no_row :
  let w := batch [limit_order; limit_order] in
  length w.(broker).(sent) = 2%nat ∧ length (OrderExecutor.rows w.(log)) = 2%nat ∧ length (orders_table w.(log)) = 1%nat.
Proof. vm_compute. split_and!; reflexivity. Qed.

Lemma limit_orders_share_one_row_witness :
  (length (filter (λ r, r.(status) = SUBMITTED) (orders_table (batch [limit_order; limit_order]).(log))) ≤ 1)%nat.
Proof.
  apply (limit_orders_share_one_row no_text no_json no_float show (defaults DEMO) GuardWitness.demo (Some quotes) default_config
    [limit_order; limit_order] (at_start (valid_client 0)) counter_like_kis); [by repeat constructor|reflexivity].
Defined.

Definition accepted_result : OrderResult := {|
  order_id := BrokerId ""; res_ticker := "005930"; res_market := KRX; res_side := BUY; res_quantity := 10;
  filled_quantity := 0; avg_price := fzero; status := SUBMITTED; res_order_type := MARKET; error := false |}.
Lemma limit_order_runs : run limit_order (at_start (valid_client 0)) = (Ok accepted_result, after (run limit_order) (at_start (valid_client 0))).
Proof. apply ran. by vm_compute. Qed.
Lemma broker_numbers_are_lost_witness :
  accepted_result.(filled_quantity) = 0 ∧ accepted_result.(status) = SUBMITTED ∧
  (after (run limit_order) (at_start (valid_client 0))).(OrderExecutor.ledger) = (at_start (valid_client 0)).(OrderExecutor.ledger) ∧
  accepted_result.(order_id) = BrokerId "".
Proof.
  exact (broker_numbers_are_lost no_text no_json no_float show (defaults DEMO) GuardWitness.demo (Some quotes) default_config
    limit_order (at_start (valid_client 0)) accepted_result _ counter_like_kis (or_intror eq_refl) limit_order_runs).
Defined.
End PathRuns.

(** A network without answers *)
Module LostRuns.
Import KisRuns ExecutorWitness SqlPortfolioLedgerRepository.
#[local] Instance no_answer : Network nat := {|
  http r n := (Err (HTTPError "ReadTimeout" ""), S n); now _ := 0; monotonic n := Z.of_nat n * 1000000; sleep _ n := n |}.
#[local] Instance no_answer_retry : Tenacity nat := looping (λ _ _ n, n).

Definition nyse_order : OrderRequest := PathRuns.order_for MARKET NYSE None.
Definition start_world : World Db (Client nat) := PathRuns.at_start (PathRuns.valid_client 0).
Definition rest : KISClient (Client nat) := kis_rest no_text no_json PathRuns.no_float PathRuns.show (defaults DEMO).
Definition quote_of_nyse : Quote := {|
  q_ticker := "005930"; q_market := NYSE; PriceGuard.price := of_Z 70000; PriceGuard.fetched_at := 0; tz_aware := true |}.

Lemma lost_answer_is_a_failed_row_witness :
  ∃ order evs row, let w' := after (execute_order GuardWitness.demo false false (Some PathRuns.quotes) default_config rest nyse_order) start_world in
    outcome (execute_order GuardWitness.demo false false (Some PathRuns.quotes) default_config rest nyse_order) start_world = Err Executor.KISAPIError ∧
    w'.(broker).(sent) = replicate 3 order ∧
    order.(method) = "POST" ∧ dict_get "ORD_QTY" (default [] order.(body)) = Some (fmt_int 10) ∧
    dict_get "OVRS_EXCG_CD" (default [] order.(body)) = Some "NASD" ∧
    w'.(log) = evs ∧ OrderExecutor.rows evs = [row] ∧ row.(status) = FAILED ∧ row.(filled_quantity) = 0.
Proof.
  apply (lost_answer_is_a_failed_row no_text no_json PathRuns.no_float PathRuns.show (defaults DEMO) GuardWitness.demo
    (Some PathRuns.quotes) default_config nyse_order start_world (Some quote_of_nyse) 86400000000); reflexivity.
Defined.
End LostRuns.
