(* ===== verification/KisRecovery.v ===== *)
(** Recovery of a degraded KIS connection: backend/core/data_collector/kis_recovery.py
    and the health route of main.py that drives it.

    Health calls run interleaved on one event loop.  Every stretch of code between two
    awaits is one executable definition ([enter], [locked], [created], [alerted]); the
    step relation lets any call take its next stretch at any time, the asyncio lock
    blocking those that wait for it.  [starts] (the
    attempt at start-up first), [alerts] and [recoveries] are ghost records.  Times are microseconds and never go back. *)

From stdpp Require Import base option list strings.
From Stdlib Require Import ZArith Lia.
From S2P Require Import Prelude PyFormat KisClient.

Record KISRecoveryState := {
  degraded : bool;
  next_attempt_at : option Z;
  last_error : option string;
  attempt_count : Z;
  recovery_count : Z;
  cooldown_seconds : Z;
  consecutive_failures : Z;
  alert_threshold : Z;
  alert_dispatched : bool;
}.
Definition new_state (cooldown threshold : Z) : KISRecoveryState := {|
  degraded := false; next_attempt_at := None; last_error := None; attempt_count := 0; recovery_count := 0;
  cooldown_seconds := cooldown; consecutive_failures := 0; alert_threshold := threshold; alert_dispatched := false |}.
Definition cooldown_us (s : KISRecoveryState) : Z := s.(cooldown_seconds) * 1000000.

Definition mark_degraded (error : string) (now : Z) (s : KISRecoveryState) : KISRecoveryState := {|
  degraded := true; next_attempt_at := Some (now + cooldown_us s); last_error := Some error;
  attempt_count := s.(attempt_count); recovery_count := s.(recovery_count); cooldown_seconds := s.(cooldown_seconds);
  consecutive_failures := s.(consecutive_failures); alert_threshold := s.(alert_threshold);
  alert_dispatched := s.(alert_dispatched) |}.
Definition mark_recovered (s : KISRecoveryState) : KISRecoveryState := {|
  degraded := false; next_attempt_at := None; last_error := None;
  attempt_count := s.(attempt_count); recovery_count := s.(recovery_count) + 1; cooldown_seconds := s.(cooldown_seconds);
  consecutive_failures := 0; alert_threshold := s.(alert_threshold); alert_dispatched := false |}.
Definition count_attempt (s : KISRecoveryState) : KISRecoveryState := {|
  degraded := s.(degraded); next_attempt_at := s.(next_attempt_at); last_error := s.(last_error);
  attempt_count := s.(attempt_count) + 1; recovery_count := s.(recovery_count); cooldown_seconds := s.(cooldown_seconds);
  consecutive_failures := s.(consecutive_failures); alert_threshold := s.(alert_threshold);
  alert_dispatched := s.(alert_dispatched) |}.
(** The body of the two [except] clauses: they differ in the text they record. *)
Definition record_failure (error : string) (current : Z) (s : KISRecoveryState) : KISRecoveryState := {|
  degraded := s.(degraded); next_attempt_at := Some (current + cooldown_us s); last_error := Some error;
  attempt_count := s.(attempt_count); recovery_count := s.(recovery_count); cooldown_seconds := s.(cooldown_seconds);
  consecutive_failures := s.(consecutive_failures) + 1; alert_threshold := s.(alert_threshold);
  alert_dispatched := s.(alert_dispatched) |}.
Definition set_dispatched (s : KISRecoveryState) : KISRecoveryState := {|
  degraded := s.(degraded); next_attempt_at := s.(next_attempt_at); last_error := s.(last_error);
  attempt_count := s.(attempt_count); recovery_count := s.(recovery_count); cooldown_seconds := s.(cooldown_seconds);
  consecutive_failures := s.(consecutive_failures); alert_threshold := s.(alert_threshold);
  alert_dispatched := true |}.

(** ** [try_recover_kis], stretch by stretch *)

Section Recovery.
(** The new client of [client_factory], and the texts of the errors it raises *)
Context {C : Type} (error_text : exc → string).

Inductive Call :=
  | Waiting                          (** at [async with state.lock] *)
  | Creating (current : Z)           (** at [await client_factory()] *)
  | Alerting                         (** at [await alert_callback(state)] *)
  | Returned (client : option C).

(** [not state.degraded], or before [next_attempt_at] *)
Definition not_due (now : Z) (s : KISRecoveryState) : bool :=
  negb s.(degraded) || match s.(next_attempt_at) with Some t => now <? t | None => false end.

Definition enter (now : Z) (s : KISRecoveryState) : Call := if not_due now s then Returned None else Waiting.
(** Inside the lock, up to the await of the factory *)
Definition locked (now : Z) (s : KISRecoveryState) : Call * KISRecoveryState :=
  if not_due now s then (Returned None, s) else (Creating now, count_attempt s).
(** [_maybe_dispatch_alert] up to the await of the callback *)
Definition _maybe_dispatch_alert (has_callback : bool) (s : KISRecoveryState) : bool :=
  has_callback && negb s.(alert_dispatched) && (s.(alert_threshold) <=? s.(consecutive_failures)).
Definition created (has_callback : bool) (current : Z) (r : result exc C) (s : KISRecoveryState) : Call * KISRecoveryState :=
  match r with
  | Ok client => (Returned (Some client), mark_recovered s)
  | Err e =>
      let s' := record_failure (error_text e) current s in
      (if _maybe_dispatch_alert has_callback s' then Alerting else Returned None, s')
  end.
Definition alerted (delivered : bool) (s : KISRecoveryState) : Call * KISRecoveryState :=
  (Returned None, if delivered then set_dispatched s else s).
End Recovery.
Arguments Call C : clear implicits.
Arguments Waiting {C}.
Arguments Creating {C} current.
Arguments Alerting {C}.
Arguments Returned {C} client.

(** ** The health route *)

(** [app.state] as far as the route uses it, the global client, the calls under way *)
Record App (C : Type) := {
  clock : Z;
  recovery : KISRecoveryState;
  kis_degraded : bool;
  kis_client : option C;
  lock_held : bool;
  calls : list (Call C);
  starts : list Z;
  alerts : nat;
  recoveries : nat;
}.
Arguments clock {C} _.
Arguments recovery {C} _.
Arguments kis_degraded {C} _.
Arguments kis_client {C} _.
Arguments lock_held {C} _.
Arguments calls {C} _.
Arguments starts {C} _.
Arguments alerts {C} _.
Arguments recoveries {C} _.

Inductive Health := Degraded | Healthy | NotInitialized.
Definition kis_component {C} (a : App C) : Health :=
  if a.(kis_degraded) then Degraded else match a.(kis_client) with Some _ => Healthy | None => NotInitialized end.

(** The start of [lifespan]: the token was not issued, KIS is degraded. *)
Definition degraded_start {C} (now cooldown threshold : Z) (error : string) : App C := {|
  clock := now; recovery := mark_degraded error now (new_state cooldown threshold);
  kis_degraded := true; kis_client := None; lock_held := false; calls := []; starts := [now]; alerts := 0; recoveries := 0 |}.

Section Route.
Context {C : Type} (error_text : exc → string) (has_callback is_backtest : bool).

(** A health call arrives. *)
Definition arrive (a : App C) : App C := {|
  clock := a.(clock); recovery := a.(recovery); kis_degraded := a.(kis_degraded); kis_client := a.(kis_client);
  lock_held := a.(lock_held);
  calls := a.(calls) ++ [if a.(kis_degraded) && negb is_backtest then enter a.(clock) a.(recovery) else Returned None];
  starts := a.(starts); alerts := a.(alerts); recoveries := a.(recoveries) |}.
(** Call [i] gets the free lock. *)
Definition lock_turn (i : nat) (a : App C) : App C :=
  let '(c, s) := locked a.(clock) a.(recovery) in {|
  clock := a.(clock); recovery := s; kis_degraded := a.(kis_degraded); kis_client := a.(kis_client);
  lock_held := match c with Creating _ => true | _ => false end;
  calls := <[i := c]> a.(calls);
  starts := match c with Creating t => a.(starts) ++ [t] | _ => a.(starts) end;
  alerts := a.(alerts); recoveries := a.(recoveries) |}.
(** The factory of call [i] is done; a new client replaces the global one. *)
Definition create_turn (i : nat) (current : Z) (r : result exc C) (a : App C) : App C :=
  let '(c, s) := created error_text has_callback current r a.(recovery) in {|
  clock := a.(clock); recovery := s;
  kis_degraded := match c with Returned (Some _) => false | _ => a.(kis_degraded) end;
  kis_client := match c with Returned (Some k) => Some k | _ => a.(kis_client) end;
  lock_held := match c with Alerting => true | _ => false end;
  calls := <[i := c]> a.(calls); starts := a.(starts); alerts := a.(alerts);
  recoveries := match c with Returned (Some _) => S a.(recoveries) | _ => a.(recoveries) end |}.
Definition alert_turn (i : nat) (delivered : bool) (a : App C) : App C :=
  let '(c, s) := alerted delivered a.(recovery) in {|
  clock := a.(clock); recovery := s; kis_degraded := a.(kis_degraded); kis_client := a.(kis_client);
  lock_held := false; calls := <[i := c]> a.(calls); starts := a.(starts);
  alerts := if delivered then S a.(alerts) else a.(alerts); recoveries := a.(recoveries) |}.
Definition wait (t : Z) (a : App C) : App C := {|
  clock := t; recovery := a.(recovery); kis_degraded := a.(kis_degraded); kis_client := a.(kis_client);
  lock_held := a.(lock_held); calls := a.(calls); starts := a.(starts); alerts := a.(alerts); recoveries := a.(recoveries) |}.

Inductive step : App C → App C → Prop :=
  | StepTime a t : a.(clock) ≤ t → step a (wait t a)
  | StepArrive a : step a (arrive a)
  | StepLock a i : a.(calls) !! i = Some Waiting → a.(lock_held) = false → step a (lock_turn i a)
  | StepCreate a i current r : a.(calls) !! i = Some (Creating current) → step a (create_turn i current r a)
  | StepAlert a i delivered : a.(calls) !! i = Some Alerting → step a (alert_turn i delivered a).
End Route.

(** ** Invariant *)

Definition active {C} (c : Call C) : Prop := match c with Creating _ | Alerting => True | _ => False end.
Definition spaced (cd x y : Z) : Prop := x + cd ≤ y.
Definition idle_but {C} (i : nat) (l : list (Call C)) : Prop := ∀ j c, l !! j = Some c → active c → j = i.
Definition idle {C} (l : list (Call C)) : Prop := ∀ j c, l !! j = Some c → ¬ active c.
(** The next attempt is due a cooldown after the last. *)
Definition rested {C} (a : App C) : Prop :=
  ∃ t, a.(recovery).(next_attempt_at) = Some t ∧ ∀ x, last a.(starts) = Some x → spaced (cooldown_us a.(recovery)) x t.

Definition holding {C} (a : App C) (c : Call C) : Prop :=
  match c with
  | Creating current => last a.(starts) = Some current ∧ a.(recovery).(consecutive_failures) + 2 = Z.of_nat (length a.(starts))
  | Alerting => rested a ∧ a.(recovery).(consecutive_failures) + 1 = Z.of_nat (length a.(starts)) ∧
      a.(recovery).(alert_dispatched) = false ∧ a.(recovery).(alert_threshold) ≤ a.(recovery).(consecutive_failures)
  | _ => False
  end.

Record wf {C} (cd th : Z) (a : App C) : Prop := {
  wf_cooldown : a.(recovery).(cooldown_seconds) = cd;
  wf_threshold : a.(recovery).(alert_threshold) = th;
  wf_flag : a.(kis_degraded) = a.(recovery).(degraded);
  wf_past : Forall (λ t, t ≤ a.(clock)) a.(starts);
  wf_spaced : chained (spaced (cd * 1000000)) a.(starts);
  wf_counted : a.(recovery).(attempt_count) + 1 = Z.of_nat (length a.(starts));
  wf_alerts : (0 < a.(alerts))%nat → th < Z.of_nat (length a.(starts));
  wf_degraded : a.(recovery).(degraded) = true →
    a.(recoveries) = 0%nat ∧ a.(kis_client) = None ∧ a.(alerts) = (if a.(recovery).(alert_dispatched) then 1 else 0)%nat;
  wf_recovered : a.(recovery).(degraded) = false → a.(recoveries) = 1%nat ∧ is_Some a.(kis_client) ∧ (a.(alerts) ≤ 1)%nat;
  wf_phase :
    (a.(lock_held) = false ∧ idle a.(calls) ∧
      (a.(recovery).(degraded) = true → rested a ∧ a.(recovery).(consecutive_failures) + 1 = Z.of_nat (length a.(starts)))) ∨
    (a.(lock_held) = true ∧ a.(recovery).(degraded) = true ∧
      ∃ i c, a.(calls) !! i = Some c ∧ idle_but i a.(calls) ∧ holding a c);
}.

Lemma degraded_start_wf {C} now cd th error : wf cd th (degraded_start (C:=C) now cd th error).
Proof.
  split; cbn; try done; [constructor; [lia|done]|intros; lia|]. left. split_and!; [done|done|]. intros _. split; [|done].
  eexists. split; [done|]. cbn. intros x ?. simplify_eq. unfold spaced, cooldown_us; cbn; lia.
Qed.

Lemma idle_snoc {C} (l : list (Call C)) c : idle l → ¬ active c → idle (l ++ [c]).
Proof. intros Hl Hc j c' [H|[? H]]%lookup_app_Some; [by eapply Hl|]. destruct (_ - _)%nat; by simplify_eq/=. Qed.
Lemma idle_but_snoc {C} i (l : list (Call C)) c : idle_but i l → ¬ active c → idle_but i (l ++ [c]).
Proof. intros Hl Hc j c' [H|[? H]]%lookup_app_Some; [by eapply Hl|]. destruct (_ - _)%nat; by simplify_eq/=. Qed.
Lemma idle_insert {C} i (l : list (Call C)) c : idle_but i l → ¬ active c → idle (<[i:=c]> l).
Proof. intros Hl Hc j c' [(<- & -> & _)|(Hij & Hj)]%list_lookup_insert_Some; [done|]. intros Ha. by eapply Hij, eq_sym, Hl. Qed.
Lemma idle_idle_but {C} i (l : list (Call C)) : idle l → idle_but i l.
Proof. intros Hl j c Hj Ha. by destruct (Hl j c). Qed.
Lemma idle_but_insert {C} i (l : list (Call C)) c : idle_but i l → idle_but i (<[i:=c]> l).
Proof. intros Hl j c' [(<- & -> & _)|(Hij & Hj)]%list_lookup_insert_Some Ha; [done|]. by eapply Hl. Qed.

(** A call that holds the lock is the only one that is active. *)
Lemma wf_holder {C} cd th (a : App C) i c :
  wf cd th a → a.(calls) !! i = Some c → active c →
  a.(lock_held) = true ∧ a.(recovery).(degraded) = true ∧ idle_but i a.(calls) ∧ holding a c.
Proof.
  intros Hwf Hi Hc. destruct (wf_phase _ _ _ Hwf) as [(_ & Hidle & _)|(Hl & Hd & j & c' & Hj & Hbut & Hh)].
  - by destruct (Hidle i c).
  - assert (i = j) as -> by (by eapply Hbut). simplify_eq. auto.
Qed.

Section Invariant.
Context {C : Type} (error_text : exc → string) (has_callback is_backtest : bool) (cd th : Z).

Lemma arrive_wf (a : App C) : wf cd th a → wf cd th (arrive is_backtest a).
Proof.
  intros [??????? Hd Hr Hp]. set (c := if a.(kis_degraded) && negb is_backtest then enter a.(clock) a.(recovery) else Returned (C:=C) None).
  assert (¬ active c) as Hc by (subst c; unfold enter; repeat case_match; by intros ?).
  split; cbn; try done. destruct Hp as [(Hl & Hi & Hx)|(Hl & Hdeg & i & c' & Hi & Hb & Hh)].
  - left. split_and!; [done| |done]. by apply idle_snoc.
  - right. split_and!; [done..|]. exists i, c'. split_and!; [by apply lookup_app_l_Some|by apply idle_but_snoc|done].
Qed.

Lemma wait_wf (a : App C) t : a.(clock) ≤ t → wf cd th a → wf cd th (wait t a).
Proof.
  intros Ht [??? Hp ??????]. split; cbn; try done. eapply Forall_impl; [done|]. cbn. lia.
Qed.

Lemma due_spec now s : not_due now s = false → s.(degraded) = true ∧ ∀ t, s.(next_attempt_at) = Some t → t ≤ now.
Proof.
  unfold not_due. intros [Hd Ht]%orb_false_iff. split; [by destruct s.(degraded)|].
  intros t E. rewrite E in Ht. by apply Z.ltb_ge.
Qed.

Lemma lock_turn_wf (a : App C) i :
  wf cd th a → a.(calls) !! i = Some Waiting → a.(lock_held) = false → wf cd th (lock_turn i a).
Proof.
  intros Hwf Hi Hlock. destruct (wf_phase _ _ _ Hwf) as [(_ & Hidle & Hx)|(? & _)]; [|congruence].
  unfold lock_turn, locked. destruct (not_due a.(clock) a.(recovery)) eqn:E.
  - destruct Hwf. split; cbn; try done. left. split_and!; [done| |done].
    apply idle_insert; [by apply idle_idle_but|by intros ?].
  - apply due_spec in E as [Hd Hnext]. destruct (Hx Hd) as [(t & Ht & Hrest) Hcf]. specialize (Hnext t Ht).
    destruct Hwf as [Hcd Hth Hflag Hpast Hsp Hcount Hal Hlive Hrec _].
    assert (length (a.(starts) ++ [a.(clock)]) = S (length a.(starts))) as Hlen by (rewrite length_app; cbn; lia).
    split; cbn; try done.
    + apply Forall_app. split; [done|]. constructor; [lia|done].
    + destruct (last a.(starts)) as [x|] eqn:Hlast.
      * eapply chained_snoc; [done..|]. specialize (Hrest x eq_refl). unfold spaced, cooldown_us in *. rewrite Hcd in Hrest. lia.
      * by apply last_None in Hlast as ->.
    + rewrite Hlen. lia.
    + rewrite Hlen. lia.
    + right. split_and!; [done..|]. exists i, (Creating a.(clock)).
      split_and!; [by apply list_lookup_insert_eq, lookup_lt_Some with Waiting|by apply idle_but_insert, idle_idle_but|].
      cbn. rewrite last_snoc, Hlen. split; [done|lia].
Qed.

Lemma create_turn_wf (a : App C) i current r :
  wf cd th a → a.(calls) !! i = Some (Creating current) → wf cd th (create_turn error_text has_callback i current r a).
Proof.
  intros Hwf Hi. destruct (wf_holder _ _ _ _ _ Hwf Hi I) as (Hl & Hd & Hbut & Hlast & Hcf).
  destruct Hwf as [Hcd Hth Hflag Hpast Hsp Hcount Hal Hlive Hrec _]. destruct (Hlive Hd) as (Hr0 & Hk & Hal').
  unfold create_turn, created. destruct r as [k|e].
  - split; cbn; try done.
    + intros _. split_and!; [lia|by eexists|]. rewrite Hal'. destruct a.(recovery).(alert_dispatched); lia.
    + left. split_and!; [done| |done]. apply idle_insert; [done|by intros ?].
  - set (s' := record_failure (error_text e) current a.(recovery)).
    assert (rested {| clock := a.(clock); recovery := s'; kis_degraded := a.(kis_degraded); kis_client := a.(kis_client);
      lock_held := true; calls := a.(calls); starts := a.(starts); alerts := a.(alerts); recoveries := a.(recoveries) |}) as Hrest.
    { eexists. split; [reflexivity|]. cbn. intros x Hx. unfold spaced. rewrite Hlast in Hx. simplify_eq. unfold s', cooldown_us; cbn. lia. }
    destruct (_maybe_dispatch_alert has_callback s') eqn:E; cbn; (split; cbn; try done).
    + right. split_and!; [done..|]. exists i, Alerting.
      split_and!; [by apply list_lookup_insert_eq, lookup_lt_Some with (Creating current)|by apply idle_but_insert|].
      cbn. apply andb_true_iff in E as [[_ Eo%negb_true_iff]%andb_true_iff Et%Z.leb_le].
      split_and!; [done|lia|done|done].
    + left. split_and!; [done|apply idle_insert; [done|by intros ?]|]. intros _. split; [done|]. cbn. lia.
Qed.

Lemma alert_turn_wf (a : App C) i delivered :
  wf cd th a → a.(calls) !! i = Some Alerting → wf cd th (alert_turn i delivered a).
Proof.
  intros Hwf Hi. destruct (wf_holder _ _ _ _ _ Hwf Hi I) as (Hl & Hd & Hbut & Hrest & Hcf & Hdis & Hle).
  destruct Hwf as [Hcd Hth Hflag Hpast Hsp Hcount Hal Hlive Hrec _]. destruct (Hlive Hd) as (Hr0 & Hk & Hal').
  rewrite Hdis in Hal'. unfold alert_turn, alerted.
  assert (∀ c, c = Returned None → idle (<[i:=c]> a.(calls))) as Hidle by (intros ? ->; apply idle_insert; [done|by intros ?]).
  destruct delivered; (split; cbn; try done).
  - intros _. lia.
  - intros _. by rewrite Hal'.
  - rewrite Hd. done.
  - left. split_and!; [done|by apply Hidle|done].
  - left. split_and!; [done|by apply Hidle|done].
Qed.

Lemma recovery_step_wf (a b : App C) : step error_text has_callback is_backtest a b → wf cd th a → wf cd th b.
Proof.
  intros [? t Ht|?|? i Hi Hl|? i current r Hi|? i delivered Hi] Hwf.
  - by apply wait_wf.
  - by apply arrive_wf.
  - by apply lock_turn_wf.
  - by apply create_turn_wf.
  - by apply alert_turn_wf.
Qed.

Lemma recovery_reachable_wf now error (a : App C) :
  steps (step error_text has_callback is_backtest) (degraded_start now cd th error) a → wf cd th a.
Proof. intros H. eapply steps_invariant; [apply recovery_step_wf|done|apply degraded_start_wf]. Qed.
End Invariant.

Section RecoveryFacts.
Context {C : Type} (error_text : exc → string) (has_callback is_backtest : bool) (cd th : Z).
Definition reachable (now : Z) (error : string) : App C → Prop :=
  steps (step error_text has_callback is_backtest) (degraded_start now cd th error).

(** Recovery attempts are paced. *)
Theorem recovery_is_paced (now : Z) (error : string) (a : App C) (Hrun : reachable now error a) :
  chained (λ x y, x + cd * 1000000 ≤ y) a.(starts) ∧ head a.(starts) = Some now ∧
  (∀ i j c c', a.(calls) !! i = Some c → a.(calls) !! j = Some c' → active c → active c' → i = j) ∧
  (a.(alerts) ≤ 1)%nat ∧ ((0 < a.(alerts))%nat → th < Z.of_nat (length a.(starts))) ∧
  a.(recovery).(attempt_count) + 1 = Z.of_nat (length a.(starts)) ∧
  (a.(recoveries) ≤ 1)%nat ∧ (kis_component a = Healthy ↔ a.(recoveries) = 1%nat).
Proof.
  pose proof (recovery_reachable_wf error_text has_callback is_backtest cd th _ _ _ Hrun) as Hwf. destruct (Hwf) as [???????? Hrec Hp].
  assert (head a.(starts) = Some now) as Hhead.
  { revert Hrun. clear. intros Hrun. assert (∃ l, a.(starts) = now :: l) as [l ->]; [|done].
    refine (steps_invariant _ (λ a, ∃ l, a.(starts) = now :: l) _ _ _ Hrun _); [|by exists []]. intros x y Hs [l Hl].
    destruct Hs; cbn; eauto; unfold lock_turn, create_turn, locked, created; repeat case_match; cbn; simplify_eq; rewrite ?Hl; cbn; eauto. }
  split_and!; try done.
  - intros i j c c' Hi Hj Hc Hc'. destruct (wf_holder _ _ _ _ _ Hwf Hj Hc') as (_ & _ & Hbut & _). by eapply Hbut.
  - destruct a.(recovery).(degraded) eqn:Ed; [|by apply Hrec].
    destruct (wf_degraded _ _ _ Hwf Ed) as (_ & _ & ->). case_match; lia.
  - destruct a.(recovery).(degraded) eqn:Ed; [destruct (wf_degraded _ _ _ Hwf Ed) as (-> & _)|destruct (Hrec eq_refl) as (-> & _)]; lia.
  - unfold kis_component. rewrite wf_flag0. destruct a.(recovery).(degraded) eqn:Ed.
    + destruct (wf_degraded _ _ _ Hwf Ed) as (-> & _). done.
    + destruct (Hrec eq_refl) as (-> & [k ->] & _). done.
Qed.

(** C25. One health call after the cooldown is enough. *)
Theorem recovers_when_due (now : Z) (error : string) (a : App C) (t : Z) (client : C)
  (Hrun : reachable now error a) (Hmode : is_backtest = false)
  (Hdeg : kis_component a = Degraded) (Hlock : a.(lock_held) = false)
  (Ht : a.(clock) ≤ t) (Hdue : ∀ due, a.(recovery).(next_attempt_at) = Some due → due ≤ t) :
  let n := length a.(calls) in
  let b := create_turn error_text has_callback n t (Ok client) (lock_turn n (arrive is_backtest (wait t a))) in
  reachable now error b ∧ kis_component b = Healthy ∧ b.(kis_client) = Some client ∧
  last b.(calls) = Some (Returned (Some client)) ∧ last b.(starts) = Some t.
Proof.
  pose proof (recovery_reachable_wf error_text has_callback is_backtest cd th _ _ _ Hrun) as Hwf. intros n b.
  assert (a.(recovery).(degraded) = true) as Hd.
  { rewrite <- (wf_flag _ _ _ Hwf). unfold kis_component in Hdeg. destruct a.(kis_degraded); [done|by destruct a.(kis_client)]. }
  assert (not_due t a.(recovery) = false) as Hnd.
  { unfold not_due. rewrite Hd. cbn. destruct a.(recovery).(next_attempt_at) as [d|]; [|done]. by apply Z.ltb_ge, Hdue. }
  set (a1 := wait t a). set (a2 := arrive is_backtest a1).
  assert (a2.(calls) = a.(calls) ++ [Waiting]) as Hcalls.
  { cbn. rewrite (wf_flag _ _ _ Hwf), Hd, Hmode. cbn. unfold enter. by rewrite Hnd. }
  assert (a2.(calls) !! n = Some Waiting) as Hn by (rewrite Hcalls; by apply list_lookup_middle).
  set (a3 := lock_turn n a2).
  assert (a3.(calls) = a.(calls) ++ [Creating t] ∧ a3.(starts) = a.(starts) ++ [t]) as [Hcalls3 Hst].
  { unfold a3, lock_turn, locked. cbn [recovery clock a2 arrive a1 wait]. rewrite Hnd. cbn [calls starts].
    rewrite Hcalls. split; [|done]. subst n. by rewrite insert_app_r_alt, Nat.sub_diag by lia. }
  split.
  - eapply (steps_trans _ _ _ _ Hrun). eapply steps_cons; [by apply StepTime|]. eapply steps_cons; [by apply StepArrive|].
    eapply steps_cons; [by apply (StepLock _ _ _ a2 n)|]. eapply steps_cons; [|apply steps_refl].
    apply StepCreate. fold a1 a2 a3. rewrite Hcalls3. by apply list_lookup_middle.
  - unfold b. fold a1 a2 a3. unfold create_turn, created. cbn. rewrite Hcalls3, Hst, last_snoc.
    subst n. rewrite insert_app_r_alt, Nat.sub_diag by lia. cbn. by rewrite last_snoc.
Qed.
End RecoveryFacts.

Module RecoveryRuns.
Definition text (e : exc) : string := "down".
Definition due : Z := 75000000.
Definition down : result exc unit := Err (HTTPError "ConnectError" "").
Definition begin : App unit := degraded_start 0 75 1 "down".
Definition begun : App unit := arrive false (arrive false (wait due begin)).

(** Two health calls at once: one tries, the other finds the next attempt not yet due. *)
Definition tried : App unit := lock_turn 1 (create_turn text false 0 due down (lock_turn 0 begun)).
Example one_of_two_calls_tries :
  tried.(calls) = [Returned None; Returned None] ∧ tried.(starts) = [0; due] ∧
  tried.(recovery).(next_attempt_at) = Some (2 * due) ∧ tried.(lock_held) = false ∧
  (lock_turn 0 begun).(calls) = [Creating due; Waiting] ∧ (lock_turn 0 begun).(lock_held) = true.
Proof. vm_compute. split_and!; reflexivity. Qed.

(** The failing attempt that reaches the threshold alerts once. *)
Definition told : App unit := alert_turn 0 true (create_turn text true 0 due down (lock_turn 0 begun)).
Definition later : App unit := arrive false (wait (2 * due) (lock_turn 1 told)).
Definition failed_again : App unit := create_turn text true 2 (2 * due) down (lock_turn 2 later).
Example told_once :
  told.(alerts) = 1%nat ∧ failed_again.(alerts) = 1%nat ∧ failed_again.(recovery).(consecutive_failures) = 2 ∧
  failed_again.(calls) = [Returned None; Returned None; Returned None].
Proof. vm_compute. split_and!; reflexivity. Qed.

Lemma recovery_is_paced_witness :
  let b := create_turn text true 0 due down (lock_turn 0 (arrive false (wait due begin))) in
  reachable text true false 75 1 0 "down" b ∧ length b.(starts) = 2%nat ∧
  chained (λ x y, x + 75 * 1000000 ≤ y) b.(starts).
Proof.
  assert (reachable text true false 75 1 0 "down"
    (create_turn text true 0 due down (lock_turn 0 (arrive false (wait due begin))))) as H.
  { unfold reachable, begin. eapply steps_cons; [by apply (StepTime _ _ _ _ due)|].
    eapply steps_cons; [apply StepArrive|]. eapply steps_cons; [by apply (StepLock _ _ _ _ 0)|].
    eapply steps_cons; [by apply (StepCreate _ _ _ _ 0 due down)|]. apply steps_refl. }
  split; [exact H|]. split; [reflexivity|].
  exact (proj1 (recovery_is_paced text true false 75 1 0 "down" _ H)).
Defined.

Lemma recovers_when_due_witness :
  let b := create_turn text true 0 due (Ok tt) (lock_turn 0 (arrive false (wait due begin))) in
  kis_component b = Healthy ∧ b.(starts) = [0; due].
Proof.
  destruct (recovers_when_due text true false 75 1 0 "down" begin due tt) as (_ & H & _);
    [apply steps_refl|done..|intros d E; vm_compute in E; injection E as <-; done|].
  split; [exact H|reflexivity].
Defined.
End RecoveryRuns.
