(* ===== verification/AuditChain.v ===== *)
(** The hash chain of backend/core/compliance/audit_integrity.py.

    The text [json.dumps] gives of an entry's content and the digest of a text are
    parameters, nothing is assumed of them: the theorems name the collision or the
    preimage a forger would need.  [D] is the type of the state dictionaries. *)

From stdpp Require Import base option list strings.
From Stdlib Require Import ZArith Lia Sorted.
From S2P Require Import Prelude PyDict Rebalancing.

Record AuditEntry (D : Type) := {
  entry_id : string;
  timestamp : Z;
  action_type : string;
  module : string;
  description : string;
  before_state : option D;
  after_state : option D;
  metadata : option D;
  previous_hash : string;
  entry_hash : string;
}.
Arguments entry_id {D} _.
Arguments timestamp {D} _.
Arguments action_type {D} _.
Arguments module {D} _.
Arguments description {D} _.
Arguments before_state {D} _.
Arguments after_state {D} _.
Arguments metadata {D} _.
Arguments previous_hash {D} _.
Arguments entry_hash {D} _.

(** The dictionary that [compute_hash] dumps *)
Record Content (D : Type) := {
  c_entry_id : string;
  c_timestamp : Z;
  c_action_type : string;
  c_module : string;
  c_description : string;
  c_before : option D;
  c_after : option D;
  c_previous : string;
}.
Arguments c_previous {D} _.
Arguments c_module {D} _.
Arguments c_timestamp {D} _.
Arguments c_description {D} _.
Definition content {D} (e : AuditEntry D) : Content D := {|
  c_entry_id := e.(entry_id); c_timestamp := e.(timestamp); c_action_type := e.(action_type);
  c_module := e.(module); c_description := e.(description); c_before := e.(before_state);
  c_after := e.(after_state); c_previous := e.(previous_hash) |}.

Record IntegrityResult := { valid : bool; total_entries : nat; broken_at_index : option nat }.

(** [l[:limit]] *)
Definition slice_to {A} (limit : Z) (l : list A) : list A :=
  take (Z.to_nat (if 0 <=? limit then limit else Z.of_nat (length l) + limit)) l.

Module AuditIntegrityStore.
Section Store.
Context {D : Type} (dumps : Content D → string) (sha256 : string → string).

Definition GENESIS_HASH : string := "0000000000000000000000000000000000000000000000000000000000000000".
Record t := { _entries : list (AuditEntry D); _last_hash : string }.
Definition empty : t := {| _entries := []; _last_hash := GENESIS_HASH |}.

Definition compute_hash (c : Content D) : string := sha256 (dumps c).

(** The arguments of [append], and the id and the clock it draws *)
Record Args := {
  a_action_type : string; a_module : string; a_description : string;
  a_before : option D; a_after : option D; a_metadata : option D;
  a_id : string; a_now : Z }.
Definition append (a : Args) (s : t) : t :=
  let c := {| c_entry_id := a.(a_id); c_timestamp := a.(a_now); c_action_type := a.(a_action_type);
              c_module := a.(a_module); c_description := a.(a_description); c_before := a.(a_before);
              c_after := a.(a_after); c_previous := s.(_last_hash) |} in
  let entry_hash := compute_hash c in
  {| _entries := s.(_entries) ++ [{| entry_id := a.(a_id); timestamp := a.(a_now); action_type := a.(a_action_type);
       module := a.(a_module); description := a.(a_description); before_state := a.(a_before);
       after_state := a.(a_after); metadata := a.(a_metadata); previous_hash := s.(_last_hash);
       entry_hash := entry_hash |}];
     _last_hash := entry_hash |}.

Fixpoint verify_from (total idx : nat) (expected_prev : string) (l : list (AuditEntry D)) : IntegrityResult :=
  match l with
  | [] => {| valid := true; total_entries := total; broken_at_index := None |}
  | e :: l' =>
      if negb (bool_decide (e.(previous_hash) = expected_prev)) then
        {| valid := false; total_entries := total; broken_at_index := Some idx |}
      else if negb (bool_decide (e.(entry_hash) = compute_hash (content e))) then
        {| valid := false; total_entries := total; broken_at_index := Some idx |}
      else verify_from total (S idx) e.(entry_hash) l'
  end.
Definition verify_integrity (s : t) : IntegrityResult := verify_from (length s.(_entries)) 0 GENESIS_HASH s.(_entries).

(** A filter that is on: [if arg: results = [...]] *)
Definition on_str (arg : option string) (f : string → bool) : bool :=
  match arg with Some s => if bool_decide (s = "") then true else f s | None => true end.
Definition keep (start_date end_date : option Z) (mod_ act : option string) (e : AuditEntry D) : bool :=
  match start_date with Some d => d <=? e.(timestamp) | None => true end &&
  match end_date with Some d => e.(timestamp) <=? d | None => true end &&
  on_str mod_ (λ m, bool_decide (e.(module) = m)) && on_str act (λ a, bool_decide (e.(action_type) = a)).
Definition later (a b : AuditEntry D) : bool := b.(timestamp) <? a.(timestamp).
Definition query (start_date end_date : option Z) (mod_ act : option string) (limit : Z) (s : t) : list (AuditEntry D) :=
  slice_to limit (sort_by later (List.filter (keep start_date end_date mod_ act) s.(_entries))).

Definition tally (key : AuditEntry D → string) (l : list (AuditEntry D)) : list (string * Z) :=
  foldl (λ d e, dict_set (key e) (default 0 (dict_get (key e) d) + 1) d) [] l.
Record Stats := { st_total : nat; by_module : list (string * Z); by_action : list (string * Z); chain_valid : bool }.
Definition get_stats (s : t) : Stats := {|
  st_total := length s.(_entries); by_module := tally module s.(_entries); by_action := tally action_type s.(_entries);
  chain_valid := (verify_integrity s).(valid) |}.
Definition count (s : t) : nat := length s.(_entries).

(** ** Chains *)

(** Entry by entry: linked to the hash before it, and with the hash of its content *)
Fixpoint chain (prev : string) (l : list (AuditEntry D)) : Prop :=
  match l with
  | [] => True
  | e :: l' => e.(previous_hash) = prev ∧ e.(entry_hash) = compute_hash (content e) ∧ chain e.(entry_hash) l'
  end.
Definition tip (prev : string) (l : list (AuditEntry D)) : string := default prev (entry_hash <$> last l).

Lemma chain_app prev l1 l2 : chain prev (l1 ++ l2) ↔ chain prev l1 ∧ chain (tip prev l1) l2.
Proof.
  revert prev. induction l1 as [|e l1 IH]; intros prev; cbn; [naive_solver|].
  rewrite IH. unfold tip. cbn. destruct l1; cbn; [naive_solver|]. destruct (last (a :: l1)) eqn:E; [naive_solver|].
  by apply last_None in E.
Qed.

Lemma verify_chain total idx prev l : (verify_from total idx prev l).(valid) = true ↔ chain prev l.
Proof.
  revert idx prev. induction l as [|e l IH]; intros idx prev; cbn; [done|].
  case_bool_decide as H1; cbn; [|naive_solver]. case_bool_decide as H2; cbn; [|naive_solver].
  rewrite IH. naive_solver.
Qed.

Lemma append_chain a s :
  chain GENESIS_HASH s.(_entries) → s.(_last_hash) = tip GENESIS_HASH s.(_entries) →
  chain GENESIS_HASH (append a s).(_entries) ∧ (append a s).(_last_hash) = tip GENESIS_HASH (append a s).(_entries).
Proof.
  intros Hc Hl. cbn. rewrite chain_app. split; [by rewrite <- Hl|]. unfold tip. by rewrite last_snoc.
Qed.

Lemma appends_chain l :
  let s := run_ops append l empty in
  chain GENESIS_HASH s.(_entries) ∧ s.(_last_hash) = tip GENESIS_HASH s.(_entries).
Proof.
  refine (run_ops_invariant append (λ s, chain GENESIS_HASH s.(_entries) ∧ s.(_last_hash) = tip GENESIS_HASH s.(_entries))
    _ l empty _); [|done]. intros a s [??]. by apply append_chain.
Qed.

(** The text that is hashed *)
Definition text (e : AuditEntry D) : string := dumps (content e).
(** Entries of the two logs whose texts differ and have the same digest, and an entry
    whose text has the hash of the beginning as its digest: whoever has the two logs can
    point to them. *)
Definition collision (l l' : list (AuditEntry D)) : Prop :=
  ∃ e e', e ∈ l ∧ e' ∈ l' ∧ text e ≠ text e' ∧ sha256 (text e) = sha256 (text e').
Definition genesis_preimage (l : list (AuditEntry D)) : Prop := ∃ e, e ∈ l ∧ sha256 (text e) = GENESIS_HASH.

Lemma tip_snoc prev l e : tip prev (l ++ [e]) = e.(entry_hash).
Proof. unfold tip. by rewrite last_snoc. Qed.

Lemma collision_app l1 l1' l2 l2' : collision l1 l1' → collision (l1 ++ l2) (l1' ++ l2').
Proof. intros (e & e' & He & He' & H). exists e, e'. rewrite !elem_of_app. auto. Qed.

Lemma genesis_preimage_app l1 l1' l2 l2' : genesis_preimage (l1 ++ l1') → genesis_preimage ((l1 ++ l2) ++ l1' ++ l2').
Proof. intros (e & He & H). exists e. split; [|done]. rewrite !elem_of_app in *. tauto. Qed.

Lemma genesis_preimage_last l e : sha256 (text e) = GENESIS_HASH → genesis_preimage (l ++ [e]).
Proof. intros He. exists e. split; [|done]. rewrite elem_of_app, list_elem_of_singleton. by right. Qed.

(** Two chains that end in the same hash hash the same texts, or the digest of two of them is broken. *)
Lemma chains_agree l l' :
  (∀ c c' : Content D, dumps c = dumps c' → c.(c_previous) = c'.(c_previous)) →
  chain GENESIS_HASH l → chain GENESIS_HASH l' → tip GENESIS_HASH l = tip GENESIS_HASH l' →
  Forall2 (λ e e', text e = text e') l l' ∨ collision l l' ∨ genesis_preimage (l ++ l').
Proof.
  intros Hd. revert l'. induction l as [|e l IH] using rev_ind; intros l' Hl Hl' Htip.
  - destruct l' as [|e' l' _] using rev_ind; [by left; constructor|]. right; right.
    apply chain_app in Hl' as (_ & _ & Hh & _). rewrite tip_snoc in Htip. apply genesis_preimage_last.
    change (compute_hash (content e') = GENESIS_HASH). by rewrite <- Hh.
  - apply chain_app in Hl as (Hl & Hp & Hh & _). rewrite tip_snoc in Htip.
    destruct l' as [|e' l' _] using rev_ind.
    { right; right. rewrite app_nil_r. apply genesis_preimage_last. change (compute_hash (content e) = GENESIS_HASH). by rewrite <- Hh. }
    apply chain_app in Hl' as (Hl' & Hp' & Hh' & _). rewrite tip_snoc in Htip.
    destruct (decide (text e = text e')) as [Et|Et].
    + destruct (IH l' Hl Hl') as [IH'|[Hc|Hg]].
      * rewrite <- Hp, <- Hp'. by apply Hd in Et.
      * left. by apply Forall2_app; [|constructor].
      * right; left. by apply collision_app.
      * right; right. by apply genesis_preimage_app.
    + right; left. exists e, e'. rewrite !elem_of_app, !list_elem_of_singleton. split_and!; [by right..|done|].
      change (compute_hash (content e) = compute_hash (content e')). congruence.
Qed.

(** C38. The chain is tamper evident, against the hash it ends in.  A log that [append]
    wrote verifies.  Any list of entries that verifies too and ends in the same hash has
    the same texts, entry by entry, or the two lists exhibit a break of the digest: an
    entry of each with different texts and the same digest, or an entry whose digest is
    the genesis hash. *)
Theorem chain_is_tamper_evident (log : list Args) (s' : t)
  (Hdumps : ∀ c c' : Content D, dumps c = dumps c' → c.(c_previous) = c'.(c_previous))
  (Hvalid : (verify_integrity s').(valid) = true)
  (Hlast : tip GENESIS_HASH s'.(_entries) = (run_ops append log empty).(_last_hash)) :
  let l := (run_ops append log empty).(_entries) in
  (verify_integrity (run_ops append log empty)).(valid) = true ∧
  (Forall2 (λ e e', text e = text e') l s'.(_entries) ∨ collision l s'.(_entries) ∨ genesis_preimage (l ++ s'.(_entries))).
Proof.
  destruct (appends_chain log) as [Hc Hl]. split; [by apply verify_chain|].
  apply chains_agree; [done|done|by eapply verify_chain|congruence].
Qed.

(** The first entry that breaks the chain *)
Lemma verify_finds total idx prev l k :
  (verify_from total idx prev l).(broken_at_index) = Some k →
  ∃ l1 e l2, l = l1 ++ e :: l2 ∧ k = (idx + length l1)%nat ∧ chain prev l1 ∧
    (e.(previous_hash) ≠ tip prev l1 ∨ e.(entry_hash) ≠ compute_hash (content e)).
Proof.
  revert idx prev. induction l as [|e l IH]; intros idx prev; cbn; [done|].
  case_bool_decide as H1; cbn; [case_bool_decide as H2; cbn|].
  - intros (l1 & e' & l2 & -> & -> & Hc & Hx)%IH. exists (e :: l1), e', l2. cbn.
    split_and!; [done|lia|done..|]. revert Hx. unfold tip. cbn. by destruct l1 as [|? ?]; [|destruct (last (_ :: _)) eqn:E; [|by apply last_None in E]].
  - intros [= <-]. exists [], e, l. cbn. split_and!; [done|lia|done|by right].
  - intros [= <-]. exists [], e, l. cbn. split_and!; [done|lia|done|by left].
Qed.

Definition set_metadata (f : option D → option D) (e : AuditEntry D) : AuditEntry D := {|
  entry_id := e.(entry_id); timestamp := e.(timestamp); action_type := e.(action_type); module := e.(module);
  description := e.(description); before_state := e.(before_state); after_state := e.(after_state);
  metadata := f e.(metadata); previous_hash := e.(previous_hash); entry_hash := e.(entry_hash) |}.
Definition with_entries (l : list (AuditEntry D)) (s : t) : t := {| _entries := l; _last_hash := s.(_last_hash) |}.

(** What the verification cannot see. *)
Theorem verification_is_blind_to (s : t) (n : nat) (f : option D → option D)
  (Hvalid : (verify_integrity s).(valid) = true) :
  (verify_integrity (with_entries (take n s.(_entries)) s)).(valid) = true ∧
  (verify_integrity (with_entries (set_metadata f <$> s.(_entries)) s)).(valid) = true.
Proof.
  apply verify_chain in Hvalid. split; apply verify_chain; cbn.
  - rewrite <- (take_drop n s.(_entries)) in Hvalid. by apply chain_app in Hvalid as [? _].
  - revert Hvalid. generalize GENESIS_HASH. induction s.(_entries) as [|e l IH]; intros prev; cbn; [done|].
    intros (? & ? & ?). split_and!; [done..|]. by apply IH.
Qed.

Lemma sum_dict_set (k : string) v d :
  NoDup d.*1 → sumZ (dict_set k v d).*2 = sumZ d.*2 - default 0 (dict_get k d) + v.
Proof.
  induction d as [|[k' v'] d IH]; cbn; [lia|]. intros [_ Hd]%NoDup_cons. case_bool_decide; cbn; [lia|]. rewrite IH by done. lia.
Qed.
Lemma tally_total key l : sumZ (tally key l).*2 = Z.of_nat (length l).
Proof.
  unfold tally. enough (∀ d, NoDup d.*1 → sumZ (foldl (λ d e, dict_set (key e) (default 0 (dict_get (key e) d) + 1) d) d l).*2
    = sumZ d.*2 + Z.of_nat (length l)) as H by (rewrite H; [done|constructor]).
  induction l as [|e l IH]; intros d Hd; cbn [foldl length]; [lia|].
  rewrite IH by by apply dict_set_NoDup. rewrite sum_dict_set by done. lia.
Qed.

Lemma query_sound start_date end_date m a limit s :
  StronglySorted (λ x y, y.(timestamp) ≤ x.(timestamp)) (sort_by later (List.filter (keep start_date end_date m a) s.(_entries))) ∧
  (∀ e, e ∈ query start_date end_date m a limit s → e ∈ s.(_entries) ∧ keep start_date end_date m a e = true) ∧
  (0 ≤ limit → Z.of_nat (length (query start_date end_date m a limit s)) ≤ limit) ∧
  (Z.of_nat (length s.(_entries)) ≤ limit →
   query start_date end_date m a limit s ≡ₚ List.filter (keep start_date end_date m a) s.(_entries)).
Proof.
  split_and!.
  - apply sort_by_sorted; unfold later.
    + intros x y z; lia.
    + intros x y ?%Z.ltb_lt. lia.
    + intros x y ?%Z.ltb_ge. lia.
  - intros e He. unfold query, slice_to in He. apply elem_of_take in He as (i & He%list_elem_of_lookup_2 & _).
    rewrite sort_by_perm in He. by apply list_elem_of_In, filter_In in He as [He%list_elem_of_In ?].
  - intros Hl. unfold query, slice_to. rewrite length_take. destruct (Z.leb_spec 0 limit); lia.
  - intros Hl. unfold query, slice_to. pose proof (filter_length_le (keep start_date end_date m a) s.(_entries)).
    rewrite (proj2 (Z.leb_le 0 limit)) by lia. rewrite take_ge; [apply sort_by_perm|].
    rewrite (Permutation_length (sort_by_perm _ _)). lia.
Qed.
End Store.
End AuditIntegrityStore.

Module AuditRuns.
Import AuditIntegrityStore.
Definition dump (c : Content Z) : string := c.(c_description) +:+ ";" +:+ c.(c_previous).
Definition digest (s : string) : string := "#" +:+ s.
Definition put (d : string) (now : Z) : Args (D := Z) := {|
  a_action_type := "ORDER_PLACED"; a_module := "orders"; a_description := d; a_before := None; a_after := Some 1;
  a_metadata := None; a_id := d; a_now := now |}.
Definition three : t := run_ops (append dump digest) [put "a" 1; put "b" 2; put "c" 3] empty.
Definition edit (e : AuditEntry Z) : AuditEntry Z := {|
  entry_id := e.(entry_id); timestamp := e.(timestamp); action_type := e.(action_type); module := e.(module);
  description := "x"; before_state := e.(before_state); after_state := e.(after_state); metadata := e.(metadata);
  previous_hash := e.(previous_hash); entry_hash := e.(entry_hash) |}.

Example edits_are_found :
  verify_integrity dump digest three = {| valid := true; total_entries := 3; broken_at_index := None |} ∧
  verify_integrity dump digest (with_entries (alter edit 1%nat three.(_entries)) three) =
    {| valid := false; total_entries := 3; broken_at_index := Some 1%nat |} ∧
  verify_integrity dump digest (with_entries (delete 1%nat three.(_entries)) three) =
    {| valid := false; total_entries := 2; broken_at_index := Some 1%nat |} ∧
  description <$> query (Some 2) None (Some "orders") None (-1) three = ["c"] ∧
  by_action (get_stats dump digest three) = [("ORDER_PLACED", 3)].
Proof. vm_compute. split_and!; reflexivity. Qed.

(** A dump that shows nothing but the hash before *)
Definition previous_only (c : Content Z) : string := c.(c_previous).
Definition two : t := run_ops (append previous_only digest) [put "a" 1; put "b" 2] empty.
Lemma chain_is_tamper_evident_witness :
  (verify_integrity previous_only digest two).(valid) = true ∧
  (Forall2 (λ e e', text previous_only e = text previous_only e') two.(_entries) two.(_entries) ∨
   collision previous_only digest two.(_entries) two.(_entries) ∨ genesis_preimage previous_only digest (two.(_entries) ++ two.(_entries))).
Proof.
  apply (chain_is_tamper_evident previous_only digest [put "a" 1; put "b" 2] two); [intros c c' H; exact H|reflexivity..].
Defined.

Lemma verification_is_blind_to_witness :
  (verify_integrity dump digest (with_entries (take 1 three.(_entries)) three)).(valid) = true ∧
  (verify_integrity dump digest (with_entries (set_metadata (λ _, Some 7) <$> three.(_entries)) three)).(valid) = true.
Proof. apply (verification_is_blind_to dump digest three 1 (λ _, Some 7)). reflexivity. Defined.
End AuditRuns.
