(* ===== verification/DryRun.v ===== *)
(** The dry-run engine: backend/core/dry_run/engine.py and its routes,
    backend/api/routes/dry_run.py.

    A session is an object the engine holds in its list and, while it runs, also as the
    current one: [_current_session] is the position in the list, so that both names see
    every change.  Ids and clock readings are arguments. *)

From stdpp Require Import base option list strings.
From Stdlib Require Import ZArith Lia.
From S2P Require Import Prelude PyFloat PyFormat Constants.

Inductive DryRunStatus := RUNNING | COMPLETED | FAILED.
#[global] Instance DryRunStatus_eq_dec : EqDecision DryRunStatus.
Proof. solve_decision. Defined.

Record DryRunOrder := {
  order_id : string;
  ticker : string;
  market : Market;
  side : OrderSide;
  quantity : Z;
  order_type : OrderType;
  limit_price : option float;
  reason : string;
  risk_check_passed : bool;
  risk_check_details : string;
  estimated_price : float;
  estimated_amount : float;
}.

Record DryRunSession := {
  session_id : string;
  status : DryRunStatus;
  started_at : Z;
  ended_at : option Z;
  orders : list DryRunOrder;
  error_message : string;
}.
Definition new_session (id : string) (now : Z) : DryRunSession := {|
  session_id := id; status := RUNNING; started_at := now; ended_at := None; orders := []; error_message := "" |}.
Definition add_order (o : DryRunOrder) (s : DryRunSession) : DryRunSession := {|
  session_id := s.(session_id); status := s.(status); started_at := s.(started_at); ended_at := s.(ended_at);
  orders := s.(orders) ++ [o]; error_message := s.(error_message) |}.
Definition complete (now : Z) (s : DryRunSession) : DryRunSession := {|
  session_id := s.(session_id); status := COMPLETED; started_at := s.(started_at); ended_at := Some now;
  orders := s.(orders); error_message := s.(error_message) |}.
Definition fail (error : string) (now : Z) (s : DryRunSession) : DryRunSession := {|
  session_id := s.(session_id); status := FAILED; started_at := s.(started_at); ended_at := Some now;
  orders := s.(orders); error_message := error |}.

(** [get_summary], the tickers' set left out *)
Record Summary := {
  total_orders : nat; buy_orders : nat; sell_orders : nat; blocked_by_risk : nat;
  total_buy_amount : float; total_sell_amount : float; net_amount : float }.
Definition get_summary (s : DryRunSession) : Summary :=
  let buys := List.filter (λ o, bool_decide (o.(side) = BUY)) s.(orders) in
  let sells := List.filter (λ o, bool_decide (o.(side) = SELL)) s.(orders) in
  let blocked := List.filter (λ o, negb o.(risk_check_passed)) s.(orders) in
  let bought := fsum (estimated_amount <$> buys) in
  let sold := fsum (estimated_amount <$> sells) in
  {| total_orders := length s.(orders); buy_orders := length buys; sell_orders := length sells;
     blocked_by_risk := length blocked; total_buy_amount := bought; total_sell_amount := sold;
     net_amount := fsub bought sold |}.

(** [DryRunReport.to_dict] *)
Record Report := { total_sessions : nat; completed_sessions : nat; failed_sessions : nat; report_orders : nat }.
Definition report_of (l : list DryRunSession) : Report := {|
  total_sessions := length l;
  completed_sessions := length (List.filter (λ s, bool_decide (s.(status) = COMPLETED)) l);
  failed_sessions := length (List.filter (λ s, bool_decide (s.(status) = FAILED)) l);
  report_orders := length (concat (orders <$> l)) |}.

Module DryRunEngine.
Record t := { _sessions : list DryRunSession; _current_session : option nat }.
Definition init : t := {| _sessions := []; _current_session := None |}.
Definition current_session (e : t) : option DryRunSession := i ← e.(_current_session); e.(_sessions) !! i.

Definition start_session (id : string) (now : Z) (e : t) : t := {|
  _sessions := e.(_sessions) ++ [new_session id now]; _current_session := Some (length e.(_sessions)) |}.
Definition end_session (error : option string) (now : Z) (e : t) : option DryRunSession * t :=
  match e.(_current_session) with
  | None => (None, e)
  | Some i =>
      let close := match error with
        | Some m => if bool_decide (m = "") then complete now else fail m now
        | None => complete now end in
      let l := alter close i e.(_sessions) in
      (l !! i, {| _sessions := l; _current_session := None |})
  end.

(** The arguments of [record_order]; [stamp] is the text of the clock in the order id. *)
Record Args := {
  a_ticker : string; a_market : Market; a_side : OrderSide; a_quantity : Z; a_order_type : OrderType;
  a_limit_price : option float; a_reason : string; a_passed : bool; a_details : string; a_price : float }.
Definition order_of (a : Args) (stamp : string) : DryRunOrder := {|
  order_id := "DRY_" +:+ a.(a_ticker) +:+ "_" +:+ stamp; ticker := a.(a_ticker); market := a.(a_market);
  side := a.(a_side); quantity := a.(a_quantity); order_type := a.(a_order_type); limit_price := a.(a_limit_price);
  reason := a.(a_reason); risk_check_passed := a.(a_passed); risk_check_details := a.(a_details);
  estimated_price := a.(a_price); estimated_amount := fmul a.(a_price) (of_Z a.(a_quantity)) |}.
Definition record_order (a : Args) (id stamp : string) (now : Z) (e : t) : t :=
  let e := match e.(_current_session) with None => start_session id now e | Some _ => e end in
  match e.(_current_session) with
  | Some i => {| _sessions := alter (add_order (order_of a stamp)) i e.(_sessions); _current_session := Some i |}
  | None => e
  end.

Definition get_report (e : t) : Report := report_of e.(_sessions).
Definition get_session (id : string) (e : t) : option DryRunSession :=
  List.find (λ s, bool_decide (s.(session_id) = id)) e.(_sessions).
Definition clear_sessions (e : t) : nat * t :=
  (length e.(_sessions), {| _sessions := []; _current_session := None |}).
End DryRunEngine.

(** ** The routes *)

Inductive Reply :=
  | Conflict (active : string)
  | NotFound
  | Started (s : DryRunSession)
  | Stopped (s : DryRunSession)
  | Active (s : DryRunSession)
  | Inactive (last_session : option DryRunSession) (total : nat)
  | Reported (r : Report)
  | Session (s : DryRunSession)
  | Deleted (n : nat).

Module DryRunRoutes.
Import DryRunEngine.
Definition start_dry_run (id : string) (now : Z) (e : t) : Reply * t :=
  match current_session e with
  | Some s => (Conflict s.(session_id), e)
  | None => (Started (new_session id now), start_session id now e)
  end.
Definition stop_dry_run (now : Z) (e : t) : Reply * t :=
  match current_session e with
  | None => (NotFound, e)
  | Some _ => match end_session None now e with (Some s, e') => (Stopped s, e') | (None, e') => (NotFound, e') end
  end.
Definition get_dry_run_status (e : t) : Reply :=
  match current_session e with
  | Some s => Active s
  | None => Inactive (last e.(_sessions)) (length e.(_sessions))
  end.
Definition get_dry_run_report (e : t) : Reply := Reported (get_report e).
Definition get_dry_run_session (id : string) (e : t) : Reply :=
  match get_session id e with Some s => Session s | None => NotFound end.
Definition clear_dry_run_sessions (e : t) : Reply * t :=
  match current_session e with
  | Some s => (Conflict s.(session_id), e)
  | None => let '(n, e') := clear_sessions e in (Deleted n, e')
  end.

(** What reaches the engine: the routes, and the orders of the executor *)
Inductive Event :=
  | EStart (id : string) (now : Z)
  | EStop (now : Z)
  | EClear
  | ERecord (a : Args) (id stamp : string) (now : Z).
Definition handle (ev : Event) (e : t) : t :=
  match ev with
  | EStart id now => (start_dry_run id now e).2
  | EStop now => (stop_dry_run now e).2
  | EClear => (clear_dry_run_sessions e).2
  | ERecord a id stamp now => record_order a id stamp now e
  end.

(** ** Invariant *)

(** Running is the current session, which is the last, and no other; none failed. *)
Definition ended (s : DryRunSession) : Prop := s.(status) = COMPLETED ∧ is_Some s.(ended_at).
Definition wf (e : t) : Prop :=
  match e.(_current_session) with
  | None => Forall ended e.(_sessions)
  | Some i => ∃ l s, e.(_sessions) = l ++ [s] ∧ i = length l ∧ Forall ended l ∧ s.(status) = RUNNING ∧ s.(ended_at) = None
  end.

Lemma current_wf e s : wf e → current_session e = Some s →
  ∃ l, e = {| _sessions := l ++ [s]; _current_session := Some (length l) |} ∧ Forall ended l ∧ s.(status) = RUNNING ∧ s.(ended_at) = None.
Proof.
  destruct e as [l [i|]]; [|done]. unfold wf, current_session. cbn.
  intros (l' & s' & -> & -> & Hl & Hs) Hi. rewrite list_lookup_middle in Hi by done. simplify_eq. eauto.
Qed.
Lemma no_current_wf e : wf e → current_session e = None → e.(_current_session) = None ∧ Forall ended e.(_sessions).
Proof.
  destruct e as [l [i|]]; [|done]. unfold wf, current_session. cbn.
  intros (l' & s' & -> & -> & Hl & Hs) Hi. by rewrite list_lookup_middle in Hi.
Qed.
Lemma alter_last {A} (f : A → A) l x : alter f (length l) (l ++ [x]) = l ++ [f x].
Proof. induction l as [|y l IH]; [done|]. cbn. by f_equal. Qed.

Lemma start_session_wf id now e : e.(_current_session) = None → Forall ended e.(_sessions) → wf (start_session id now e).
Proof. intros _ Hl. exists e.(_sessions), (new_session id now). done. Qed.

Definition orders_of (e : t) : list DryRunOrder := concat (orders <$> e.(_sessions)).
(** The orders recorded since the last clearing that went through *)
Fixpoint kept (evs : list Event) (e : t) (acc : list DryRunOrder) : list DryRunOrder :=
  match evs with
  | [] => acc
  | ev :: evs' =>
      kept evs' (handle ev e)
        match ev with
        | ERecord a _ stamp _ => acc ++ [order_of a stamp]
        | EClear => match current_session e with Some _ => acc | None => [] end
        | _ => acc
        end
  end.

Lemma orders_snoc l s : concat (orders <$> l ++ [s]) = concat (orders <$> l) ++ s.(orders).
Proof. rewrite fmap_app, concat_app. cbn. by rewrite app_nil_r. Qed.

Lemma record_wf a id stamp now e :
  wf e → wf (record_order a id stamp now e) ∧ orders_of (record_order a id stamp now e) = orders_of e ++ [order_of a stamp].
Proof.
  intros Hwf. unfold record_order, orders_of. destruct e as [l [i|]]; cbn in *.
  - destruct Hwf as (l' & s & -> & -> & Hl & Hs & He). rewrite alter_last, !orders_snoc. cbn.
    rewrite app_assoc. split; [|done]. by exists l', (add_order (order_of a stamp) s).
  - rewrite alter_last, !orders_snoc. cbn. split; [|done]. by exists l, (add_order (order_of a stamp) (new_session id now)).
Qed.
Lemma stop_wf now e :
  wf e → wf (stop_dry_run now e).2 ∧ orders_of (stop_dry_run now e).2 = orders_of e.
Proof.
  intros Hwf. unfold stop_dry_run, orders_of. destruct (current_session e) as [s|] eqn:Ec; [|done].
  destruct (current_wf e s Hwf Ec) as (l & -> & Hl & Hs & He). unfold end_session. cbn [_current_session _sessions].
  rewrite alter_last, list_lookup_middle by done. cbn. rewrite !orders_snoc. split; [|done].
  apply Forall_app. split; [done|]. repeat constructor. by eexists.
Qed.

Lemma handle_wf ev e : wf e → wf (handle ev e).
Proof.
  intros Hwf. destruct ev as [id now|now| |a id stamp now]; cbn.
  - unfold start_dry_run. destruct (current_session e) eqn:Ec; [done|].
    destruct (no_current_wf e Hwf Ec). by apply start_session_wf.
  - by apply stop_wf.
  - unfold clear_dry_run_sessions. destruct (current_session e); [done|]. constructor.
  - by apply record_wf.
Qed.

Lemma handle_orders evs e acc : wf e → orders_of e = acc → orders_of (run_ops handle evs e) = kept evs e acc.
Proof.
  unfold run_ops. revert e acc. induction evs as [|ev evs IH]; intros e acc Hwf He; cbn; [done|].
  apply IH; [by apply handle_wf|]. destruct ev as [id now|now| |a id stamp now]; cbn.
  - unfold start_dry_run. destruct (current_session e) eqn:Ec; [done|]. unfold orders_of. cbn.
    rewrite orders_snoc. cbn. by rewrite app_nil_r.
  - destruct (stop_wf now e Hwf) as [_ ->]. done.
  - unfold clear_dry_run_sessions. by destruct (current_session e).
  - destruct (record_wf a id stamp now e Hwf) as [_ ->]. by rewrite He.
Qed.

(** One dry run at a time, and no order lost. *)
Theorem dry_runs_are_accounted (evs : list Event) :
  let e := run_ops handle evs init in
  (∀ s, s ∈ e.(_sessions) → s.(status) ≠ FAILED ∧ (s.(status) = RUNNING ↔ s.(ended_at) = None)) ∧
  (∀ i s, e.(_sessions) !! i = Some s → s.(status) = RUNNING → e.(_current_session) = Some i ∧ S i = length e.(_sessions)) ∧
  (e.(_current_session) = None → ∀ s, s ∈ e.(_sessions) → s.(status) = COMPLETED) ∧
  concat (orders <$> e.(_sessions)) = kept evs init [] ∧
  (get_report e).(report_orders) = length (kept evs init []).
Proof.
  intros e. assert (wf e) as Hwf by (apply (run_ops_invariant handle wf); [intros; by apply handle_wf|by constructor]).
  assert (orders_of e = kept evs init []) as Ho by (apply handle_orders; [by constructor|done]).
  assert (Forall (λ s, s.(status) ≠ FAILED ∧ (s.(status) = RUNNING ↔ s.(ended_at) = None)) e.(_sessions) ∧
    (∀ i s, e.(_sessions) !! i = Some s → s.(status) = RUNNING → e.(_current_session) = Some i ∧ S i = length e.(_sessions)) ∧
    (e.(_current_session) = None → Forall ended e.(_sessions))) as (H1 & H2 & H3).
  { assert (∀ l, Forall ended l → Forall (λ s, s.(status) ≠ FAILED ∧ (s.(status) = RUNNING ↔ s.(ended_at) = None)) l) as Hended.
    { intros l Hl. eapply Forall_impl; [done|]. intros s [-> [t ->]]. done. }
    unfold wf in Hwf. destruct e as [l [i|]]; cbn in *.
    - destruct Hwf as (l' & s & -> & -> & Hl & Hs & He). split_and!; [|intros j x|done].
      + apply Forall_app. split; [by apply Hended|]. constructor; [|done]. by rewrite Hs, He.
      + rewrite length_app. cbn. intros [Hj|[Hj Hx]]%lookup_app_Some Hr.
        * eapply Forall_lookup_1 in Hj; [|done]. destruct Hj as [Hj _]. congruence.
        * destruct (j - length l')%nat eqn:E; simplify_eq/=; split; [f_equal; lia|lia].
    - split_and!; [by apply Hended| |done]. intros j x Hj Hr. eapply Forall_lookup_1 in Hj; [|done]. destruct Hj as [Hj _]. congruence. }
  split_and!; [by apply Forall_forall|done| |done|].
  - intros Hn s Hs. specialize (H3 Hn). rewrite Forall_forall in H3. by destruct (H3 s Hs).
  - cbn. unfold orders_of in Ho. by rewrite Ho.
Qed.
End DryRunRoutes.

Module DryRunExamples.
Import DryRunEngine DryRunRoutes.
Definition buy (t : string) (q : Z) : Args := {|
  a_ticker := t; a_market := KRX; a_side := BUY; a_quantity := q; a_order_type := MARKET; a_limit_price := None;
  a_reason := ""; a_passed := true; a_details := ""; a_price := of_Z 100 |}.
Example sessions_of_a_day :
  let e := run_ops handle [ERecord (buy "005930" 3) "s1" "1" 1; EStart "s2" 2; EStop 3; EStart "s3" 4; EClear; ERecord (buy "000660" 1) "s4" "5" 5] init in
  session_id <$> e.(_sessions) = ["s1"; "s3"] ∧ status <$> e.(_sessions) = [COMPLETED; RUNNING] ∧
  get_report e = {| total_sessions := 2; completed_sessions := 1; failed_sessions := 0; report_orders := 2 |} ∧
  (get_summary <$> get_session "s1" e) = Some {| total_orders := 1; buy_orders := 1; sell_orders := 0; blocked_by_risk := 0;
    total_buy_amount := of_Z 300; total_sell_amount := fzero; net_amount := of_Z 300 |} ∧
  get_dry_run_session "s2" e = NotFound ∧ (start_dry_run "s5" 6 e).1 = Conflict "s3".
Proof. vm_compute. split_and!; reflexivity. Qed.

(** Called directly, [start_session] leaves a running session behind that nothing can end. *)
Example a_second_start_strands_the_first :
  let e := (end_session None 3 (start_session "b" 2 (start_session "a" 1 init))).2 in
  status <$> e.(_sessions) = [RUNNING; COMPLETED] ∧ e.(_current_session) = None.
Proof. vm_compute. split; reflexivity. Qed.
End DryRunExamples.
