(* ===== verification/Limits.v ===== *)
(** Limits around orders that stand beside the executor: backend/core/order_executor/
    time_rules.py, backend/core/capital_budget.py and backend/core/capital_protection.py.

    Every class keeps its own state; an exception is a value of [LimitExn].  A time of
    day is in microseconds, a clock reading too. *)

From stdpp Require Import base option list sets strings.
From Stdlib Require Import ZArith Lia Floats.SpecFloat.
From S2P Require Import Prelude PyFloat PyDict Constants Calendar.

Inductive LimitExn := KeyError | ValueError | RuntimeError.

(** * TimeOfDayRules *)

(** A market argument: the enum, or its text *)
Inductive MarketArg := Enum (m : Market) | Text (s : string).

Record SessionHours := {
  open : Z; close : Z; auction_open_start : Z; auction_open_end : Z; auction_close_start : Z; auction_close_end : Z }.

Module TimeOfDayRules.
Definition _setup_market_hours (m : Market) : SessionHours :=
  match m with
  | KRX => {| open := time 9 0; close := time 15 30; auction_open_start := time 8 30; auction_open_end := time 9 0;
              auction_close_start := time 15 20; auction_close_end := time 15 30 |}
  | NYSE | NASDAQ | AMEX => {| open := time 9 30; close := time 16 0; auction_open_start := time 9 28;
              auction_open_end := time 9 30; auction_close_start := time 15 55; auction_close_end := time 16 0 |}
  end.

(** The enum is a [str]: both forms of a market find its entry. *)
Definition key (a : MarketArg) : option Market := match a with Enum m => Some m | Text s => of_value s end.
Definition get_market_hours (a : MarketArg) : result LimitExn SessionHours :=
  match key a with Some m => Ok (_setup_market_hours m) | None => Err ValueError end.

Definition in_auction (h : SessionHours) (t : Z) : bool :=
  (h.(auction_open_start) <=? t) && (t <? h.(auction_open_end)) ||
  (h.(auction_close_start) <=? t) && (t <=? h.(auction_close_end)).
Definition is_auction_period (t : Z) (a : MarketArg) : result LimitExn bool :=
  rmap (λ h, in_auction h t) (get_market_hours a).
Definition can_execute (t : Z) (a : MarketArg) : result LimitExn bool :=
  rbind (get_market_hours a) (λ h,
    if negb ((h.(open) <=? t) && (t <=? h.(close))) then Ok false
    else rmap negb (is_auction_period t a)).

Definition upper_ascii (a : Ascii.ascii) : Ascii.ascii :=
  let n := Ascii.N_of_ascii a in
  if (97 <=? n)%N && (n <=? 122)%N then Ascii.ascii_of_N (n - 32) else a.
Fixpoint upper (s : string) : string := match s with "" => "" | String a s' => String (upper_ascii a) (upper s') end.
(** [str(market).upper() if isinstance(market, Market) else market.upper()]: the [str]
    of an enum member is its qualified name. *)
Definition market_str (a : MarketArg) : string :=
  match a with Enum m => upper ("Market." +:+ value m) | Text s => upper s end.
Definition get_spread_multiplier (t : Z) (a : MarketArg) : result LimitExn float :=
  rmap (λ h,
    if (h.(auction_open_start) <=? t) && (t <? h.(auction_open_end)) then of_Z 2
    else if (h.(auction_close_start) <=? t) && (t <=? h.(auction_close_end)) then of_Z 2
    else if bool_decide (market_str a = "KRX") then
      if (h.(open) <=? t) && (t <? time 9 10) then dec 15 1
      else if (time 15 20 <=? t) && (t <=? h.(close)) then dec 15 1
      else of_Z 1
    else
      if (h.(open) <=? t) && (t <? time 9 35) then dec 15 1
      else if (time 15 55 <=? t) && (t <=? h.(close)) then dec 15 1
      else of_Z 1) (get_market_hours a).

(** Continuous trading: from the open to the closing auction *)
Definition continuous (m : Market) (t : Z) : bool :=
  let h := _setup_market_hours m in (h.(open) <=? t) && (t <? h.(auction_close_start)).
(** How long after the open the spread counts as wide *)
Definition opening (a : MarketArg) : Z := if bool_decide (market_str a = "KRX") then time 9 10 else time 9 35.

Lemma krx_text a m : key a = Some m → market_str a = "KRX" → m = KRX.
Proof.
  destruct a as [m'|s]; [by destruct m'|]. unfold key. intros <-%of_value_Some. by destruct m.
Qed.

(** The rules as intervals. *)
Theorem time_rules_decide (t : Z) (a : MarketArg) :
  match key a with
  | None => can_execute t a = Err ValueError ∧ get_spread_multiplier t a = Err ValueError ∧ is_auction_period t a = Err ValueError
  | Some m =>
      can_execute t a = Ok (continuous m t) ∧
      is_auction_period t a = Ok (in_auction (_setup_market_hours m) t) ∧
      get_spread_multiplier t a = Ok
        (if in_auction (_setup_market_hours m) t then of_Z 2
         else if continuous m t && (t <? opening a) then dec 15 1 else of_Z 1)
  end.
Proof.
  unfold can_execute, is_auction_period, get_spread_multiplier, get_market_hours, opening.
  destruct (key a) as [m|] eqn:Hkey; cbn [rbind rmap]; [|done]. unfold continuous, in_auction.
  assert (time 9 0 = 32400000000 ∧ time 15 30 = 55800000000 ∧ time 8 30 = 30600000000 ∧ time 15 20 = 55200000000 ∧
    time 9 30 = 34200000000 ∧ time 16 0 = 57600000000 ∧ time 9 28 = 34080000000 ∧ time 15 55 = 57300000000 ∧
    time 9 10 = 33000000000 ∧ time 9 35 = 34500000000) as Ht by (vm_compute; split_and!; reflexivity).
  destruct Ht as (E1 & E2 & E3 & E4 & E5 & E6 & E7 & E8 & E9 & E10).
  assert (bool_decide (market_str a = "KRX") = true → m = KRX) as Hkrx by (intros ?%bool_decide_eq_true; by eapply krx_text).
  destruct (bool_decide (market_str a = "KRX")); [rewrite (Hkrx eq_refl)|destruct m]; cbn;
    rewrite ?E1, ?E2, ?E3, ?E4, ?E5, ?E6, ?E7, ?E8, ?E9, ?E10;
    split_and!; try reflexivity; repeat case_match; bool_hyps; try lia; try done; f_equal; try lia.
Qed.

(** Given as the enum, Korea has the New York rule: the spread counts as wide for 35
    minutes after the open instead of 10, and by the text for 10. *)
Example krx_enum_is_not_krx :
  market_str (Enum KRX) = "MARKET.KRX" ∧
  get_spread_multiplier (time 9 20) (Enum KRX) = Ok (dec 15 1) ∧
  get_spread_multiplier (time 9 20) (Text "KRX") = Ok (of_Z 1) ∧
  get_spread_multiplier (time 9 20) (Text "krx") = Err ValueError.
Proof. vm_compute. split_and!; reflexivity. Qed.
End TimeOfDayRules.

(** * CapitalBudget *)

Record CapitalBudget := {
  total_capital : float;
  strategy_allocations : list (string * float);
  _daily_usage : list (string * float);
}.

Module Budget.
Definition even : list (string * float) :=
  (λ s, (s, fdiv (of_Z 1) (of_Z 4))) <$> ["TREND"; "MEAN_REV"; "FACTOR"; "RISK_PARITY"].
(** [self._daily_usage[strategy] = 0.0] for every strategy *)
Definition zeroed (allocations usage : list (string * float)) : list (string * float) :=
  foldl (λ d s, dict_set s fzero d) usage allocations.*1.
(** [__post_init__] *)
Definition make (total : float) (allocations usage : list (string * float)) : result LimitExn CapitalBudget :=
  if fle total fzero then Err ValueError
  else
    let allocations := match allocations with [] => even | _ => allocations end in
    if flt (dec 1 3) (fabs (fsub (fsum allocations.*2) (of_Z 1))) then Err ValueError
    else Ok {| total_capital := total; strategy_allocations := allocations; _daily_usage := zeroed allocations usage |}.

Definition get_budget (s : string) (b : CapitalBudget) : result LimitExn float :=
  match dict_get s b.(strategy_allocations) with
  | Some a => Ok (fmul b.(total_capital) a)
  | None => Err KeyError
  end.
Definition used (s : string) (b : CapitalBudget) : float := default fzero (dict_get s b.(_daily_usage)).
Definition get_remaining (s : string) (b : CapitalBudget) : result LimitExn float :=
  rmap (λ a, fsub a (used s b)) (get_budget s b).
Definition check_budget (s : string) (amount : float) (b : CapitalBudget) : result LimitExn bool :=
  match dict_get s b.(strategy_allocations) with
  | None => Err KeyError
  | Some _ => if flt amount fzero then Err ValueError
              else rmap (λ a, fle amount (fsub a (used s b))) (get_budget s b)
  end.
Definition record_usage (s : string) (amount : float) (b : CapitalBudget) : result LimitExn float * CapitalBudget :=
  match dict_get s b.(strategy_allocations) with
  | None => (Err KeyError, b)
  | Some _ =>
      if flt amount fzero then (Err ValueError, b)
      else match check_budget s amount b with
      | Err e => (Err e, b)
      | Ok false => (Err ValueError, b)
      | Ok true =>
          let b' := {| total_capital := b.(total_capital); strategy_allocations := b.(strategy_allocations);
                       _daily_usage := dict_set s (fadd (used s b) amount) b.(_daily_usage) |} in
          (get_remaining s b', b')
      end
  end.
Definition reset_daily (b : CapitalBudget) : CapitalBudget := {|
  total_capital := b.(total_capital); strategy_allocations := b.(strategy_allocations);
  _daily_usage := zeroed b.(strategy_allocations) b.(_daily_usage) |}.

Lemma used_zeroed s allocations usage :
  default fzero (dict_get s (zeroed allocations usage)) =
    if bool_decide (s ∈ allocations.*1) then fzero else default fzero (dict_get s usage).
Proof.
  unfold zeroed. revert usage. induction allocations.*1 as [|k l IH]; intros usage; cbn [foldl].
  - by rewrite bool_decide_eq_false_2 by set_solver.
  - rewrite IH, dict_get_set. repeat case_bool_decide; set_solver.
Qed.

(** What recording a usage does. *)
Theorem budget_usage_decides (s : string) (amount : float) (b : CapitalBudget) :
  let '(r, b') := record_usage s amount b in
  match dict_get s b.(strategy_allocations) with
  | None => r = Err KeyError ∧ b' = b
  | Some a =>
      let remaining := fsub (fmul b.(total_capital) a) (used s b) in
      if flt amount fzero || negb (fle amount remaining) then r = Err ValueError ∧ b' = b
      else r = Ok (fsub (fmul b.(total_capital) a) (fadd (used s b) amount)) ∧
           fle fzero amount = true ∧ fle fzero remaining = true ∧
           ∀ k, used k b' = if bool_decide (k = s) then fadd (used s b) amount else used k b
  end.
Proof.
  unfold record_usage, check_budget, get_budget, get_remaining, get_budget.
  destruct (dict_get s b.(strategy_allocations)) as [a|] eqn:Ea; [|done]. cbn [rmap].
  destruct (flt amount fzero) eqn:En; cbn [orb]; [done|].
  destruct (fle amount (fsub (fmul b.(total_capital) a) (used s b))) eqn:El; cbn; [|done].
  rewrite Ea. cbn. unfold used at 2. cbn. rewrite dict_get_set, bool_decide_eq_true_2 by done. cbn.
  assert (fle fzero amount = true) as H0.
  { destruct (fle_nan _ _ El) as [Hn _]. by rewrite fle_not_lt, En. }
  split_and!; [done|done|by eapply fle_trans|].
  intros k. unfold used. cbn. rewrite dict_get_set. by case_bool_decide.
Qed.
End Budget.

(** * AssetClassLimiter *)

Module AssetClassLimiter.
Definition unit_interval (x : float) : bool := fle fzero x && fle x (of_Z 1).
Definition make (limits : list (string * float)) : result LimitExn (list (string * float)) :=
  let limits := match limits with [] => [("KR_EQUITY", dec 6 1); ("US_EQUITY", dec 4 1)] | _ => limits end in
  if forallb (λ x, unit_interval x.2) limits then Ok limits else Err ValueError.
Definition check_limit (asset_class : string) (current additional : float) (limits : list (string * float)) : result LimitExn bool :=
  match dict_get asset_class limits with
  | None => Err KeyError
  | Some limit =>
      if negb (unit_interval current) then Err ValueError
      else if negb (unit_interval additional) then Err ValueError
      else Ok (fle (fadd current additional) limit)
  end.
Definition get_available (asset_class : string) (current : float) (limits : list (string * float)) : result LimitExn float :=
  match dict_get asset_class limits with
  | None => Err KeyError
  | Some limit => if negb (unit_interval current) then Err ValueError else Ok (fmax fzero (fsub limit current))
  end.

Lemma available_nonneg asset_class current limits x :
  get_available asset_class current limits = Ok x → flt x fzero = false.
Proof.
  unfold get_available. intros H. repeat case_match; simplify_eq. unfold fmax.
  set (y := fsub _ current). destruct (flt fzero y) eqn:E; [|apply flt_irrefl].
  destruct (flt y fzero) eqn:E2; [|done]. by pose proof (flt_trans _ _ _ E E2) as Hx; rewrite flt_irrefl in Hx.
Qed.
End AssetClassLimiter.

(** * capital_protection.py *)

Module DailyOrderLimiter.
Record t := { max_orders : Z; _order_count : Z }.
Definition make (max_orders : Z) : result LimitExn t :=
  if max_orders <=? 0 then Err ValueError else Ok {| max_orders := max_orders; _order_count := 0 |}.
Definition can_place_order (s : t) : bool := s.(_order_count) <? s.(max_orders).
Definition record_order (s : t) : result LimitExn Z * t :=
  if negb (can_place_order s) then (Err RuntimeError, s)
  else let s' := {| max_orders := s.(max_orders); _order_count := s.(_order_count) + 1 |} in
       (Ok (s'.(max_orders) - s'.(_order_count)), s').
Definition reset_daily (s : t) : t := {| max_orders := s.(max_orders); _order_count := 0 |}.
Inductive Op := Record | Reset.
Definition run (o : Op) (s : t) : t := match o with Record => (record_order s).2 | Reset => reset_daily s end.
(** The orders recorded since the last reset, counted up to the limit *)
Definition since_reset (limit : Z) (ops : list Op) : Z :=
  foldl (λ n o, match o with Record => Z.min limit (n + 1) | Reset => 0 end) 0 ops.

Lemma count_is_since_reset limit s ops :
  make limit = Ok s → run_ops run ops s = {| max_orders := limit; _order_count := since_reset limit ops |} ∧
  0 ≤ since_reset limit ops ≤ limit.
Proof.
  unfold make. case_match eqn:El; [done|]. intros [= <-]. apply Z.leb_gt in El. unfold run_ops, since_reset.
  enough (∀ n, 0 ≤ n ≤ limit → foldl (λ s i, run i s) {| max_orders := limit; _order_count := n |} ops =
    {| max_orders := limit; _order_count := foldl (λ n o, match o with Record => Z.min limit (n + 1) | Reset => 0 end) n ops |} ∧
    0 ≤ foldl (λ n o, match o with Record => Z.min limit (n + 1) | Reset => 0 end) n ops ≤ limit) as H by (apply H; lia).
  induction ops as [|[] ops IH]; intros n Hn; cbn [foldl run]; [done| |apply IH; lia].
  unfold record_order, can_place_order. cbn. destruct (Z.ltb_spec n limit); cbn.
  - rewrite Z.min_r by lia. apply IH. lia.
  - rewrite Z.min_l by lia. replace n with limit by lia. apply IH. lia.
Qed.
End DailyOrderLimiter.

Module StaleQuoteBlocker.
(** [age] is in seconds; the clock is read twice when the quote is refused. *)
Definition make (max_stale_seconds : Z) : result LimitExn Z := if max_stale_seconds <=? 0 then Err ValueError else Ok max_stale_seconds.
Definition is_stale (max_stale_seconds now quote : Z) : bool := max_stale_seconds * 1000000 <? now - quote.
Definition validate_quote (max_stale_seconds now quote : Z) : result LimitExn unit :=
  if is_stale max_stale_seconds now quote then Err ValueError else Ok tt.
End StaleQuoteBlocker.

Module AIDelayFallback.
Definition make (max_delay_hours : Z) : result LimitExn Z := if max_delay_hours <=? 0 then Err ValueError else Ok max_delay_hours.
Definition check_freshness (max_delay_hours now ai : Z) : bool := now - ai <=? max_delay_hours * 3600000000.
Definition get_weight_multiplier (max_delay_hours now ai : Z) : float :=
  if check_freshness max_delay_hours now ai then of_Z 1 else fzero.
End AIDelayFallback.

Module APIFailureSafeMode.
Record t := { max_consecutive_failures : Z; _failure_count : Z }.
Definition make (limit : Z) : result LimitExn t :=
  if limit <=? 0 then Err ValueError else Ok {| max_consecutive_failures := limit; _failure_count := 0 |}.
Definition is_safe_mode (s : t) : bool := s.(max_consecutive_failures) <=? s.(_failure_count).
Definition record_failure (s : t) : bool * t :=
  let s' := {| max_consecutive_failures := s.(max_consecutive_failures); _failure_count := s.(_failure_count) + 1 |} in
  (is_safe_mode s', s').
Definition record_success (s : t) : t := {| max_consecutive_failures := s.(max_consecutive_failures); _failure_count := 0 |}.
Definition run (failed : bool) (s : t) : t := if failed then (record_failure s).2 else record_success s.

(** The count is the length of the run of failures at the end. *)
Lemma trailing_failures limit l :
  ∃ c l', run_ops run l {| max_consecutive_failures := limit; _failure_count := 0 |} =
      {| max_consecutive_failures := limit; _failure_count := Z.of_nat c |} ∧
    l = l' ++ replicate c true ∧ (l' = [] ∨ last l' = Some false).
Proof.
  induction l as [|[] l IH] using rev_ind; [exists 0%nat, []; auto|..];
    destruct IH as (c & l' & Hrun & -> & Hl); rewrite run_ops_app, Hrun; cbn.
  - exists (S c), l'. cbn. unfold run, record_failure; cbn. split_and!; [f_equal; lia| |done].
    rewrite <- app_assoc. f_equal. by rewrite replicate_cons_app.
  - exists 0%nat, ((l' ++ replicate c true) ++ [false]). cbn. rewrite app_nil_r, last_snoc. auto.
Qed.

(** Safe mode holds exactly when the last [limit] outcomes are failures. *)
Lemma safe_mode_decides limit s l :
  make limit = Ok s →
  is_safe_mode (run_ops run l s) = true ↔ ∃ l', l = l' ++ replicate (Z.to_nat limit) true.
Proof.
  unfold make. case_match eqn:El; [done|]. intros [= <-]. apply Z.leb_gt in El.
  destruct (trailing_failures limit l) as (c & l' & -> & -> & Hl). unfold is_safe_mode. cbn. rewrite Z.leb_le. split.
  - intros Hc. exists (l' ++ replicate (c - Z.to_nat limit) true). rewrite <- app_assoc, <- replicate_add. do 2 f_equal. lia.
  - intros [l2 Heq]. destruct (decide (limit ≤ Z.of_nat c)) as [|Hc]; [done|]. exfalso.
    assert (length l' + c = length l2 + Z.to_nat limit)%nat as Hlen.
    { apply (f_equal length) in Heq. by rewrite !length_app, !length_replicate in Heq. }
    destruct Hl as [->|Hl]; [cbn in Hlen; lia|]. rewrite last_lookup in Hl.
    apply (f_equal (lookup (pred (length l')))) in Heq. rewrite lookup_app_l in Heq by (apply lookup_lt_Some in Hl; lia).
    rewrite Hl, lookup_app_r in Heq by lia. by rewrite lookup_replicate_2 in Heq by lia.
Qed.
End APIFailureSafeMode.

Module CashFloorGuard.
Definition make (min_cash_ratio : float) : result LimitExn float :=
  if fle fzero min_cash_ratio && fle min_cash_ratio (of_Z 1) then Ok min_cash_ratio else Err ValueError.
Definition check_floor (ratio cash total : float) : result LimitExn bool :=
  if flt cash fzero then Err ValueError else if fle total fzero then Err ValueError
  else Ok (fle ratio (fdiv cash total)).
Definition max_deployable (ratio cash total : float) : result LimitExn float :=
  if flt cash fzero then Err ValueError else if fle total fzero then Err ValueError
  else Ok (fmax fzero (fsub cash (fmul total ratio))).
End CashFloorGuard.

Module LimitRuns.
Example budgets :
  rbind (Budget.make (of_Z 1000) [] []) (Budget.get_remaining "TREND") = Ok (of_Z 250) ∧
  Budget.make (of_Z 1000) [("A", dec 5 1)] [] = Err ValueError ∧
  is_ok (Budget.make S754_nan [] []) = true ∧
  rmap (λ b, (Budget.record_usage "FACTOR" (of_Z 300) b).1) (Budget.make (of_Z 1000) [] []) = Ok (Err ValueError) ∧
  AssetClassLimiter.check_limit "KR_EQUITY" (dec 5 1) (dec 1 1) [("KR_EQUITY", dec 6 1)] = Ok true ∧
  CashFloorGuard.max_deployable (dec 1 1) (of_Z 50) (of_Z 1000) = Ok fzero.
Proof. vm_compute. split_and!; reflexivity. Qed.
Example protections :
  (DailyOrderLimiter.record_order {| DailyOrderLimiter.max_orders := 2; DailyOrderLimiter._order_count := 2 |}).1 = Err RuntimeError ∧
  StaleQuoteBlocker.validate_quote 30 31000000 0 = Err ValueError ∧
  StaleQuoteBlocker.validate_quote 30 30000000 0 = Ok tt ∧
  AIDelayFallback.get_weight_multiplier 4 (4 * 3600000000 + 1) 0 = fzero.
Proof. vm_compute. split_and!; reflexivity. Qed.
End LimitRuns.
