(* ===== verification/Lifecycle.v ===== *)
(** Graceful shutdown and mode changes: backend/core/graceful_shutdown.py and
    backend/core/mode_manager.py.

    What the registered coroutines and order tasks do when they are stopped is part of
    the registration ([Outcome], [Task]); which orders complete while the shutdown polls
    is an argument.  [log] is a ghost record of what was called. *)

From stdpp Require Import base option list sets strings.
From Stdlib Require Import ZArith Lia Floats.SpecFloat.
From S2P Require Import Prelude PyFloat PyDict Constants KisClient.

(** * Graceful shutdown *)

Inductive ShutdownPhase := RUNNING | DRAINING | STOPPING_SERVICES | CLEANUP | COMPLETED.
#[global] Instance ShutdownPhase_eq_dec : EqDecision ShutdownPhase.
Proof. solve_decision. Defined.

(** A stop coroutine or a cleanup callback under its time limit *)
Inductive Outcome := Returns | TimesOut | Raises.
#[global] Instance Outcome_eq_dec : EqDecision Outcome.
Proof. solve_decision. Defined.
(** The task of a pending order: absent, finished, or how it takes its cancellation
    within five seconds *)
Inductive Task := NoTask | Done | Cancels | Lingers | Finishes | Fails.

Record PendingOrder := { order_id : string; ticker : string; task : Task }.

Inductive Call := CancelTask (id : string) | StopService (name : string) | RunCleanup (n : nat).

Record Results := { services_stopped : list string; orders_drained : Z; orders_cancelled : Z }.

Module GracefulShutdownManager.
Record t := {
  _phase : ShutdownPhase;
  _services : list (string * Outcome);
  _pending_orders : list (string * PendingOrder);
  _accepting_orders : bool;
  _shutdown_event : bool;
  _cleanup_callbacks : list Outcome;
  log : list Call;
}.
Definition init : t := {|
  _phase := RUNNING; _services := []; _pending_orders := []; _accepting_orders := true; _shutdown_event := false;
  _cleanup_callbacks := []; log := [] |}.

Definition set_phase (p : ShutdownPhase) (m : t) : t := {|
  _phase := p; _services := m.(_services); _pending_orders := m.(_pending_orders);
  _accepting_orders := m.(_accepting_orders); _shutdown_event := m.(_shutdown_event);
  _cleanup_callbacks := m.(_cleanup_callbacks); log := m.(log) |}.
Definition set_pending (l : list (string * PendingOrder)) (m : t) : t := {|
  _phase := m.(_phase); _services := m.(_services); _pending_orders := l;
  _accepting_orders := m.(_accepting_orders); _shutdown_event := m.(_shutdown_event);
  _cleanup_callbacks := m.(_cleanup_callbacks); log := m.(log) |}.
Definition called (c : Call) (m : t) : t := {|
  _phase := m.(_phase); _services := m.(_services); _pending_orders := m.(_pending_orders);
  _accepting_orders := m.(_accepting_orders); _shutdown_event := m.(_shutdown_event);
  _cleanup_callbacks := m.(_cleanup_callbacks); log := m.(log) ++ [c] |}.

Definition register_service (name : string) (o : Outcome) (m : t) : t := {|
  _phase := m.(_phase); _services := m.(_services) ++ [(name, o)]; _pending_orders := m.(_pending_orders);
  _accepting_orders := m.(_accepting_orders); _shutdown_event := m.(_shutdown_event);
  _cleanup_callbacks := m.(_cleanup_callbacks); log := m.(log) |}.
Definition register_cleanup (o : Outcome) (m : t) : t := {|
  _phase := m.(_phase); _services := m.(_services); _pending_orders := m.(_pending_orders);
  _accepting_orders := m.(_accepting_orders); _shutdown_event := m.(_shutdown_event);
  _cleanup_callbacks := m.(_cleanup_callbacks) ++ [o]; log := m.(log) |}.
Definition register_pending_order (p : PendingOrder) (m : t) : bool * t :=
  if negb m.(_accepting_orders) then (false, m)
  else (true, set_pending (dict_set p.(order_id) p m.(_pending_orders)) m).
Definition complete_pending_order (id : string) (m : t) : t := set_pending (dict_del id m.(_pending_orders)) m.

(** What other tasks do to the manager during one second of sleep *)
Inductive Other := Completed (id : string) | Registered (p : PendingOrder).
Definition other (o : Other) (m : t) : t :=
  match o with Completed id => complete_pending_order id m | Registered p => (register_pending_order p m).2 end.

(** [_drain_pending_orders]: [left] polls are left until [elapsed] reaches the timeout. *)
Fixpoint poll (meanwhile : nat → list Other) (left elapsed : nat) (m : t) : t :=
  match left with
  | O => m
  | S left' =>
      match m.(_pending_orders) with
      | [] => m
      | _ => poll meanwhile left' (S elapsed) (run_ops other (meanwhile elapsed) m)
      end
  end.
Definition _drain_pending_orders (timeout : Z) (meanwhile : nat → list Other) (m : t) : Z * t :=
  match m.(_pending_orders) with
  | [] => (0, m)
  | l =>
      let m' := poll meanwhile (Z.to_nat timeout) 0 m in
      (Z.of_nat (length l) - Z.of_nat (length m'.(_pending_orders)), m')
  end.

(** [_cancel_remaining_orders]: [None] is the exception of a task that fails while it is
    cancelled, which only [CancelledError] and [TimeoutError] are caught for. *)
Fixpoint cancel_all (l : list (string * PendingOrder)) (cancelled : Z) (m : t) : option Z * t :=
  match l with
  | [] => (Some cancelled, set_pending [] m)
  | (id, p) :: l' =>
      match p.(task) with
      | NoTask | Done => cancel_all l' (cancelled + 1) m
      | Cancels | Lingers | Finishes => cancel_all l' (cancelled + 1) (called (CancelTask id) m)
      | Fails => (None, called (CancelTask id) m)
      end
  end.
Definition _cancel_remaining_orders (m : t) : option Z * t := cancel_all m.(_pending_orders) 0 m.

Fixpoint stop_services (l : list (string * Outcome)) (stopped : list string) (m : t) : list string * t :=
  match l with
  | [] => (stopped, m)
  | (name, o) :: l' =>
      stop_services l' (if bool_decide (o = Returns) then stopped ++ [name] else stopped) (called (StopService name) m)
  end.
Fixpoint clean_up (l : list Outcome) (n : nat) (m : t) : t :=
  match l with
  | [] => m
  | _ :: l' => clean_up l' (S n) (called (RunCleanup n) m)
  end.

Inductive Reply := AlreadyInProgress | Finished (r : Results).
Definition finish (drained cancelled : Z) (m : t) : result unit Reply * t :=
  let m := set_phase STOPPING_SERVICES m in
  let '(stopped, m) := stop_services (rev m.(_services)) [] m in
  let m := set_phase CLEANUP m in
  let m := clean_up m.(_cleanup_callbacks) 0 m in
  (Ok (Finished {| services_stopped := stopped; orders_drained := drained; orders_cancelled := cancelled |}),
   {| _phase := COMPLETED; _services := m.(_services); _pending_orders := m.(_pending_orders);
      _accepting_orders := m.(_accepting_orders); _shutdown_event := true;
      _cleanup_callbacks := m.(_cleanup_callbacks); log := m.(log) |}).
Definition shutdown (timeout : Z) (meanwhile : nat → list Other) (m : t) : result unit Reply * t :=
  if negb (bool_decide (m.(_phase) = RUNNING)) then (Ok AlreadyInProgress, m)
  else
    let m := {| _phase := DRAINING; _services := m.(_services); _pending_orders := m.(_pending_orders);
                _accepting_orders := false; _shutdown_event := m.(_shutdown_event);
                _cleanup_callbacks := m.(_cleanup_callbacks); log := m.(log) |} in
    let '(drained, m) := _drain_pending_orders timeout meanwhile m in
    match m.(_pending_orders) with
    | [] => finish drained 0 m
    | _ =>
        match _cancel_remaining_orders m with
        | (Some cancelled, m) => finish drained cancelled m
        | (None, m) => (Err tt, m)
        end
    end.

(** ** Properties *)

Lemma stop_services_spec l stopped m :
  stop_services l stopped m =
    (stopped ++ (List.filter (λ s, bool_decide (s.2 = Returns)) l).*1,
     {| _phase := m.(_phase); _services := m.(_services); _pending_orders := m.(_pending_orders);
        _accepting_orders := m.(_accepting_orders); _shutdown_event := m.(_shutdown_event);
        _cleanup_callbacks := m.(_cleanup_callbacks); log := m.(log) ++ (StopService <$> l.*1) |}).
Proof.
  revert stopped m. induction l as [|[name o] l IH]; intros stopped m; cbn; [rewrite !app_nil_r; by destruct m|].
  rewrite IH. cbn. rewrite <- app_assoc. case_bool_decide; cbn; by rewrite <- ?app_assoc.
Qed.
Lemma clean_up_spec l n m :
  clean_up l n m =
    {| _phase := m.(_phase); _services := m.(_services); _pending_orders := m.(_pending_orders);
       _accepting_orders := m.(_accepting_orders); _shutdown_event := m.(_shutdown_event);
       _cleanup_callbacks := m.(_cleanup_callbacks); log := m.(log) ++ (RunCleanup <$> seq n (length l)) |}.
Proof.
  revert n m. induction l as [|o l IH]; intros n m; cbn; [rewrite app_nil_r; by destruct m|].
  rewrite IH. cbn. by rewrite <- app_assoc.
Qed.

(** What a closed manager keeps while others run: only completions change it. *)
Lemma others_closed l m :
  m.(_accepting_orders) = false →
  ∃ p, run_ops other l m = set_pending p m ∧ (length p ≤ length m.(_pending_orders))%nat ∧ ∀ x, x ∈ p → x ∈ m.(_pending_orders).
Proof.
  unfold run_ops. revert m. induction l as [|o l IH]; intros m Ha; [exists m.(_pending_orders); by destruct m|]. cbn [foldl].
  destruct o as [id|q].
  - destruct (IH (complete_pending_order id m) Ha) as (p & Hp & Hl & Hx). exists p. cbn [other]. rewrite Hp. cbn in *.
    split; [done|]. assert (length (dict_del id m.(_pending_orders)) ≤ length m.(_pending_orders))%nat as Hd.
    { clear. induction m.(_pending_orders) as [|[k v] d IHd]; cbn; [lia|]. case_bool_decide; cbn; lia. }
    split; [lia|]. intros x Hx'. by eapply dict_del_elem, Hx.
  - cbn [other]. assert ((register_pending_order q m).2 = m) as -> by (unfold register_pending_order; by rewrite Ha).
    by apply IH.
Qed.

Lemma poll_spec meanwhile left elapsed m :
  m.(_accepting_orders) = false →
  ∃ p, poll meanwhile left elapsed m = set_pending p m ∧
    (length p ≤ length m.(_pending_orders))%nat ∧ ∀ x, x ∈ p → x ∈ m.(_pending_orders).
Proof.
  revert elapsed m. induction left as [|left IH]; intros elapsed m Ha; cbn [poll];
    [exists m.(_pending_orders); by destruct m|].
  destruct m.(_pending_orders) as [|x l] eqn:El; [exists []; rewrite <- El; by destruct m|].
  destruct (others_closed (meanwhile elapsed) m Ha) as (p & -> & Hl & Hx).
  destruct (IH (S elapsed) (set_pending p m) Ha) as (p' & -> & Hl' & Hx'). exists p'. rewrite El in Hl, Hx. cbn in *.
  split; [done|]. split; [lia|]. auto.
Qed.

Lemma drain_spec timeout meanwhile m :
  m.(_accepting_orders) = false →
  ∃ p, _drain_pending_orders timeout meanwhile m =
      (Z.of_nat (length m.(_pending_orders)) - Z.of_nat (length p), set_pending p m) ∧
    (length p ≤ length m.(_pending_orders))%nat ∧ ∀ x, x ∈ p → x ∈ m.(_pending_orders).
Proof.
  intros Ha. unfold _drain_pending_orders. destruct m.(_pending_orders) as [|x l] eqn:El.
  - exists []. cbn. split; [|done]. f_equal. rewrite <- El. by destruct m.
  - destruct (poll_spec meanwhile (Z.to_nat timeout) 0 m Ha) as (p & -> & Hl & Hx). exists p. rewrite El in Hl, Hx. done.
Qed.

Definition cancellable (p : PendingOrder) : Prop := p.(task) ≠ Fails.
Definition cancels (ids : list string) (m : t) : t := foldl (λ m id, called (CancelTask id) m) m ids.
Lemma cancel_all_spec l c m :
  ∃ ids,
    (Forall (λ x, cancellable x.2) l ∧
     cancel_all l c m = (Some (c + Z.of_nat (length l)), set_pending [] (cancels ids m))) ∨
    (¬ Forall (λ x, cancellable x.2) l ∧ cancel_all l c m = (None, cancels ids m)).
Proof.
  revert c m. induction l as [|[id p] l IH]; intros c m; [exists []; left; cbn; by rewrite Z.add_0_r|].
  cbn [cancel_all length]. setoid_rewrite Forall_cons. unfold cancellable at 1 3. cbn [snd].
  assert (c + Z.of_nat (S (length l)) = c + 1 + Z.of_nat (length l)) as -> by lia.
  destruct p.(task) eqn:Et.
  1,2: destruct (IH (c + 1) m) as (ids & [[? ->]|[? ->]]); exists ids; [left|right]; split; (done || naive_solver).
  1,2,3: destruct (IH (c + 1) (called (CancelTask id) m)) as (ids & [[? ->]|[? ->]]); exists (id :: ids);
    [left|right]; split; (done || naive_solver).
  exists [id]. right. split; [naive_solver|done].
Qed.
Lemma cancels_eq ids m : cancels ids m =
  {| _phase := m.(_phase); _services := m.(_services); _pending_orders := m.(_pending_orders);
     _accepting_orders := m.(_accepting_orders); _shutdown_event := m.(_shutdown_event);
     _cleanup_callbacks := m.(_cleanup_callbacks); log := m.(log) ++ (CancelTask <$> ids) |}.
Proof.
  unfold cancels. revert m. induction ids as [|id ids IH]; intros m; cbn; [rewrite app_nil_r; by destruct m|].
  rewrite IH. cbn. by rewrite <- app_assoc.
Qed.

Definition stopped_log (m : t) : list Call :=
  (StopService <$> (rev m.(_services)).*1) ++ (RunCleanup <$> seq 0 (length m.(_cleanup_callbacks))).

Lemma finish_spec drained cancelled m :
  finish drained cancelled m =
    (Ok (Finished {| services_stopped := (List.filter (λ s, bool_decide (s.2 = Returns)) (rev m.(_services))).*1;
                     orders_drained := drained; orders_cancelled := cancelled |}),
     {| _phase := COMPLETED; _services := m.(_services); _pending_orders := m.(_pending_orders);
        _accepting_orders := m.(_accepting_orders); _shutdown_event := true;
        _cleanup_callbacks := m.(_cleanup_callbacks); log := m.(log) ++ stopped_log m |}).
Proof. unfold finish, stopped_log. rewrite stop_services_spec. cbn. rewrite clean_up_spec. cbn. by rewrite <- app_assoc. Qed.

(** C40. A shutdown goes through, unless a task fails under its cancellation. *)
Theorem shutdown_decides (timeout : Z) (meanwhile : nat → list Other) (m : t) :
  if bool_decide (m.(_phase) = RUNNING) then
    ∃ (left : list (string * PendingOrder)) (ids : list string),
      (∀ x, x ∈ left → x ∈ m.(_pending_orders)) ∧
      let drained := Z.of_nat (length m.(_pending_orders)) - Z.of_nat (length left) in
      let m' := (shutdown timeout meanwhile m).2 in
      0 ≤ drained ∧ m'.(_accepting_orders) = false ∧ (∀ p, register_pending_order p m' = (false, m')) ∧
      ((Forall (λ x, cancellable x.2) left ∧ m'.(_phase) = COMPLETED ∧ m'.(_shutdown_event) = true ∧
        m'.(_pending_orders) = [] ∧ m'.(log) = m.(log) ++ (CancelTask <$> ids) ++ stopped_log m ∧
        (shutdown timeout meanwhile m).1 =
          Ok (Finished {| services_stopped := (List.filter (λ s, bool_decide (s.2 = Returns)) (rev m.(_services))).*1;
            orders_drained := drained; orders_cancelled := Z.of_nat (length left) |})) ∨
       (¬ Forall (λ x, cancellable x.2) left ∧ m'.(_phase) = DRAINING ∧ m'.(_shutdown_event) = m.(_shutdown_event) ∧
        m'.(log) = m.(log) ++ (CancelTask <$> ids) ∧ (shutdown timeout meanwhile m).1 = Err tt))
  else shutdown timeout meanwhile m = (Ok AlreadyInProgress, m).
Proof.
  unfold shutdown. case_bool_decide as Hp; [|done]. cbn [negb].
  set (m0 := {| _phase := DRAINING; _services := _; _pending_orders := _; _accepting_orders := _; _shutdown_event := _;
    _cleanup_callbacks := _; log := _ |}).
  destruct (drain_spec timeout meanwhile m0 eq_refl) as (left & -> & Hlen & Hin). exists left.
  destruct left as [|x left'] eqn:El.
  - exists []. cbn [_pending_orders set_pending]. rewrite finish_spec. cbn. split; [done|]. split; [lia|].
    split_and!; [done|done|]. left. split_and!; try done.
  - change (_pending_orders (set_pending (x :: left') m0)) with (x :: left'). unfold _cancel_remaining_orders.
    change (_pending_orders (set_pending (x :: left') m0)) with (x :: left').
    destruct (cancel_all_spec (x :: left') 0 (set_pending (x :: left') m0)) as (ids & [[Hall ->]|[Hall ->]]);
      exists ids; (split; [done|]); rewrite ?finish_spec, cancels_eq; cbn in *; (split; [lia|]); split_and!; try done.
    + left. split_and!; try done. by rewrite <- app_assoc.
    + right. done.
Qed.
End GracefulShutdownManager.

Module ShutdownRuns.
Import GracefulShutdownManager.
Definition pending (id : string) (x : Task) : PendingOrder := {| order_id := id; ticker := "005930"; task := x |}.
Definition running : t :=
  (register_pending_order (pending "o2" Lingers) (register_pending_order (pending "o1" NoTask)
    (register_cleanup Raises (register_cleanup Returns (register_service "ws" TimesOut (register_service "db" Returns init))))).2).2.
(** The first order completes in the second second; an order that comes late is refused. *)
Definition meanwhile (n : nat) : list Other := if (n =? 1)%nat then [Completed "o1"; Registered (pending "o3" NoTask)] else [].
Example shut_down_once :
  let '(r, m) := shutdown 60 meanwhile running in
  r = Ok (Finished {| services_stopped := ["db"]; orders_drained := 1; orders_cancelled := 1 |}) ∧
  m.(log) = [CancelTask "o2"; StopService "ws"; StopService "db"; RunCleanup 0; RunCleanup 1] ∧
  m.(_phase) = COMPLETED ∧ shutdown 60 meanwhile m = (Ok AlreadyInProgress, m).
Proof. vm_compute. split_and!; reflexivity. Qed.

(** A task that fails on its cancellation ends the shutdown: nothing is stopped, and no
    second call starts it again. *)
Example a_failing_task_blocks_the_shutdown :
  let m := (shutdown 3 (λ _, []) (register_pending_order (pending "o1" Fails) running).2).2 in
  m.(_phase) = DRAINING ∧ m.(log) = [CancelTask "o1"] ∧ (shutdown 3 (λ _, []) m).1 = Ok AlreadyInProgress.
Proof. vm_compute. split_and!; reflexivity. Qed.
End ShutdownRuns.

(** * Mode changes *)

Inductive TransitionStatus := READY | NOT_READY | WARNINGS.
#[global] Instance TransitionStatus_eq_dec : EqDecision TransitionStatus.
Proof. solve_decision. Defined.
Record TransitionCheckItem := { name : string; passed : bool; required : bool }.
Record TransitionCheckResult := {
  current_mode : TradingMode; target_mode : string; status : TransitionStatus; items : list TransitionCheckItem }.
Definition can_transition (r : TransitionCheckResult) : bool :=
  forallb passed (List.filter required r.(items)).

(** The settings the manager reads besides those of the KIS client *)
Record Settings := {
  kis : KISSettings;
  environment : string;
  daily_loss_limit_krw : Z;
  max_drawdown : float;
  max_order_amount_krw : Z;
  bot_token : string;
  chat_id : string;
}.
Definition is_production (s : Settings) : bool := bool_decide (s.(environment) = "production").
Definition set_but_not (value dummy : string) : bool := negb (bool_decide (value = "")) && negb (bool_decide (value = dummy)).
Definition must (name : string) (passed : bool) : TransitionCheckItem := {| name := name; passed := passed; required := true |}.

Module ModeManager.
Definition required_passed (l : list TransitionCheckItem) : bool := forallb passed (List.filter required l).
Definition optional_failed (l : list TransitionCheckItem) : bool := existsb (λ i, negb i.(passed)) (List.filter (λ i, negb i.(required)) l).

Definition check_backtest_to_demo (s : Settings) : TransitionCheckResult :=
  let c := s.(kis).(demo) in
  let items := [must "mode" (Settings.is_backtest s.(kis)); must "DEMO API Key" (set_but_not c.(app_key) "test_key_demo");
    must "DEMO API Secret" (set_but_not c.(app_secret) "test_secret_demo"); must "DEMO account" (set_but_not c.(account_no) "87654321-01")] in
  {| current_mode := BACKTEST; target_mode := "DEMO"; status := if required_passed items then READY else NOT_READY; items := items |}.
Definition check_demo_to_live (s : Settings) : TransitionCheckResult :=
  let l := s.(kis).(live) in
  let d := s.(kis).(demo) in
  let cross_check := if negb (bool_decide (l.(app_key) = "")) && negb (bool_decide (d.(app_key) = ""))
                     then negb (bool_decide (l.(app_key) = d.(app_key))) else true in
  let items := [must "mode" (Settings.is_demo s.(kis)); must "production" (is_production s);
    must "LIVE API Key" (set_but_not l.(app_key) "test_key"); must "LIVE API Secret" (set_but_not l.(app_secret) "test_secret");
    must "LIVE account" (set_but_not l.(account_no) "12345678-01"); must "LIVE/DEMO separate" cross_check;
    must "risk limits" ((0 <? s.(daily_loss_limit_krw)) && flt fzero s.(max_drawdown) && (0 <? s.(max_order_amount_krw)));
    {| name := "telegram";
       passed := negb (bool_decide (s.(bot_token) = "")) && negb (bool_decide (s.(chat_id) = "")) && negb (bool_decide (s.(bot_token) = "test-bot-token"));
       required := false |}] in
  {| current_mode := DEMO; target_mode := "LIVE";
     status := if required_passed items then if optional_failed items then WARNINGS else READY else NOT_READY; items := items |}.
Definition check_live_to_demo (s : Settings) : TransitionCheckResult := {|
  current_mode := LIVE; target_mode := "DEMO"; status := READY;
  items := [must "mode" (Settings.is_live s.(kis)); must "downgrade" true] |}.
Definition check_transition (target : string) (s : Settings) : TransitionCheckResult :=
  let unsupported := {| current_mode := s.(kis).(trading_mode); target_mode := target; status := NOT_READY; items := [must "path" false] |} in
  if bool_decide (target = value DEMO) then
    match s.(kis).(trading_mode) with
    | BACKTEST => check_backtest_to_demo s
    | LIVE => check_live_to_demo s
    | DEMO => unsupported
    end
  else if bool_decide (target = value LIVE) then
    match s.(kis).(trading_mode) with DEMO => check_demo_to_live s | _ => unsupported end
  else unsupported.

Record Transition := { from_mode : string; to_mode : string; reason : string }.
Definition record_transition (t : Transition) (history : list Transition) : list Transition := history ++ [t].

Lemma set_but_not_iff x d : set_but_not x d = true ↔ x ≠ "" ∧ x ≠ d.
Proof. unfold set_but_not. rewrite andb_true_iff, !negb_true_iff, !bool_decide_eq_false. done. Qed.
Lemma cross_check_iff (l d : string) :
  l ≠ "" → (if negb (bool_decide (l = "")) && negb (bool_decide (d = "")) then negb (bool_decide (l = d)) else true) = true ↔ l ≠ d.
Proof.
  intros Hl. rewrite (bool_decide_eq_false_2 (l = "")) by done. cbn.
  case_bool_decide as Hd; cbn; [subst d; by split|]. by rewrite negb_true_iff, bool_decide_eq_false.
Qed.

Lemma status_is_can_transition target s :
  (check_transition target s).(status) ≠ NOT_READY ↔ can_transition (check_transition target s) = true.
Proof.
  unfold check_transition. case_bool_decide; [destruct s.(kis).(trading_mode) eqn:Em|case_bool_decide; [destruct s.(kis).(trading_mode) eqn:Em|]];
    try (by split).
  - unfold can_transition, check_live_to_demo, Settings.is_live. cbn. rewrite Em. done.
  - change (status (check_backtest_to_demo s)) with (if required_passed (check_backtest_to_demo s).(items) then READY else NOT_READY).
    change (can_transition (check_backtest_to_demo s)) with (required_passed (check_backtest_to_demo s).(items)).
    destruct (required_passed (check_backtest_to_demo s).(items)); by split.
  - change (status (check_demo_to_live s)) with (if required_passed (check_demo_to_live s).(items)
      then if optional_failed (check_demo_to_live s).(items) then WARNINGS else READY else NOT_READY).
    change (can_transition (check_demo_to_live s)) with (required_passed (check_demo_to_live s).(items)).
    destruct (required_passed (check_demo_to_live s).(items)), (optional_failed (check_demo_to_live s).(items)); by split.
Qed.

(** When trading may go live. *)
Theorem going_live_is_checked (s : Settings) :
  (check_transition "LIVE" s).(status) ≠ NOT_READY ↔
    s.(kis).(trading_mode) = DEMO ∧ s.(environment) = "production" ∧
    (s.(kis).(live).(app_key) ≠ "" ∧ s.(kis).(live).(app_key) ≠ "test_key") ∧
    (s.(kis).(live).(app_secret) ≠ "" ∧ s.(kis).(live).(app_secret) ≠ "test_secret") ∧
    (s.(kis).(live).(account_no) ≠ "" ∧ s.(kis).(live).(account_no) ≠ "12345678-01") ∧
    s.(kis).(live).(app_key) ≠ s.(kis).(demo).(app_key) ∧
    0 < s.(daily_loss_limit_krw) ∧ flt fzero s.(max_drawdown) = true ∧ 0 < s.(max_order_amount_krw).
Proof.
  rewrite status_is_can_transition. unfold check_transition. rewrite bool_decide_eq_false_2 by done.
  rewrite bool_decide_eq_true_2 by done.
  destruct s.(kis).(trading_mode) eqn:Em; [by split; [|intros []]|..|by split; [|intros []]].
  unfold can_transition, check_demo_to_live, Settings.is_demo, is_production. cbn. rewrite Em.
  rewrite !andb_true_iff, !set_but_not_iff, !Z.ltb_lt, !bool_decide_eq_true. split.
  - intros (_ & He & Hk & Hs & Ha & Hx & ((? & ?) & ?) & _). rewrite cross_check_iff in Hx by tauto. tauto.
  - intros (_ & He & Hk & Hs & Ha & Hx & ? & ? & ?). rewrite cross_check_iff by tauto. tauto.
Qed.
End ModeManager.
