(* ===== verification/Quotes.v ===== *)
(** Quotes for the price guard: backend/core/order_executor/quote_provider_kis.py, and
    the cost estimate of backend/core/order_executor/slippage.py.

    [get_quote] calls run interleaved; each stretch of code between two awaits is one
    definition, and the step relation lets any call take its next stretch, the lock of
    its key blocking the others.  One clock that never goes back, in microseconds,
    stands for the monotonic and the wall clock, which the code reads one after the
    other: adjustments of the wall clock are not modelled, nor is [clear].  The answers of the KIS client are
    inputs of the steps. *)

From stdpp Require Import base option list sets strings.
From Stdlib Require Import ZArith Lia Floats.SpecFloat.
From S2P Require Import Prelude PyFloat PyDict PyParse Constants PriceGuard KisClient.

(** * Prices in answers *)

(** [float(raw)] *)
Definition to_float (v : JValue) : option float :=
  match v with
  | JStr s => py_float s
  | JInt z => match of_Z z with S754_infinity _ => None | x => Some x end
  | JFloat x => Some x
  | JBool b => Some (of_Z (if b then 1 else 0))
  | _ => None
  end.
(** [_parse_kr_price] and [_parse_us_price] differ in the field they read. *)
Definition parse_price (field : string) (response : JValue) : result string float :=
  match response with
  | JObject fields =>
      match dict_get "output" fields with
      | Some (JObject output) =>
          match dict_get field output with
          | None | Some JNull => Err "missing price"
          | Some raw =>
              if is_str raw "" then Err "missing price"
              else match to_float raw with Some x => Ok x | None => Err "price not numeric" end
          end
      | _ => Err "missing 'output' dict"
      end
  | _ => Err "not a dict"
  end.
Definition _parse_kr_price : JValue → result string float := parse_price "stck_prpr".
Definition _parse_us_price : JValue → result string float := parse_price "last".

Definition _US_EXCHANGE_CODE (m : Market) : option string :=
  match m with NASDAQ => Some "NAS" | NYSE => Some "NYS" | AMEX => Some "AMS" | KRX => None end.
(** The call [_fetch_upstream] makes *)
Definition upstream_call (ticker : string) (m : Market) : option ApiCall :=
  match m with
  | KRX => Some (KrPrice ticker)
  | _ => UsPrice ticker <$> _US_EXCHANGE_CODE m
  end.
(** [_fetch_upstream] after its call answered at time [now]; [Err] of the answer is the
    client's exception. *)
Definition _fetch_upstream (ticker : string) (m : Market) (answer : result string JValue) (now : Z) : result string Quote :=
  rbind answer (λ response,
  rbind (match m with KRX => _parse_kr_price response | _ => _parse_us_price response end) (λ price,
  if fle price fzero then Err "non-positive price"
  else Ok {| q_ticker := ticker; q_market := m; price := price; fetched_at := now; tz_aware := true |})).

Lemma fetch_upstream_ok ticker m answer now q :
  _fetch_upstream ticker m answer now = Ok q →
  q.(q_ticker) = ticker ∧ q.(q_market) = m ∧ q.(fetched_at) = now ∧ fle q.(price) fzero = false.
Proof.
  unfold _fetch_upstream. destruct answer as [response|]; cbn; [|done].
  destruct (match m with KRX => _ | _ => _ end) as [x|]; cbn; [|done]. case_match; [done|]. by intros [= <-].
Qed.

(** * KISQuoteProvider *)

Abbreviation Key := (string * Market)%type.
Record _CacheEntry := { quote : Quote; expires_monotonic : Z }.
Record KISQuoteProviderConfig := { cache_ttl : Z; max_cache_entries : Z }.
(** [__post_init__] *)
Definition config_ok (c : KISQuoteProviderConfig) : bool := negb (c.(cache_ttl) <=? 0) && negb (c.(max_cache_entries) <=? 0).

Abbreviation Cache := (list (Key * _CacheEntry)).

(** A call of [get_quote]: waiting for the lock of its key, at the await of the upstream
    call, or back with its result, at a time *)
Inductive Call :=
  | AtLock (k : Key)
  | Fetching (k : Key)
  | Answered (k : Key) (r : result string Quote) (at_ : Z).

Module KISQuoteProvider.
Section Provider.
Context (config : KISQuoteProviderConfig).

Definition _lookup_cache (k : Key) (now : Z) (c : Cache) : option Quote * Cache :=
  match dict_get k c with
  | None => (None, c)
  | Some e => if e.(expires_monotonic) <=? now then (None, dict_del k c) else (Some e.(quote), c)
  end.

(** [min(items, key=expires)]: the first of the least *)
Fixpoint oldest (best : Key * _CacheEntry) (c : Cache) : Key * _CacheEntry :=
  match c with
  | [] => best
  | x :: c' => oldest (if x.2.(expires_monotonic) <? best.2.(expires_monotonic) then x else best) c'
  end.
Definition _store_cache (k : Key) (q : Quote) (now : Z) (c : Cache) : Cache :=
  let c := if config.(max_cache_entries) <=? Z.of_nat (length c)
    then match c with [] => c | x :: c' => dict_del (oldest x c').1 c end else c in
  dict_set k {| quote := q; expires_monotonic := now + config.(cache_ttl) |} c.

Definition invalidate (k : Key) (c : Cache) : Cache := dict_del k c.

(** [get_quote] up to the lock *)
Definition enter (k : Key) (now : Z) (c : Cache) : Call * Cache :=
  if bool_decide (k.1 = "") then (Answered k (Err "ticker must be non-empty") now, c)
  else match _lookup_cache k now c with
  | (Some q, c') => (Answered k (Ok q) now, c')
  | (None, c') => (AtLock k, c')
  end.
(** Inside the lock, up to the upstream call *)
Definition locked (k : Key) (now : Z) (c : Cache) : Call * Cache :=
  match _lookup_cache k now c with
  | (Some q, c') => (Answered k (Ok q) now, c')
  | (None, c') => (Fetching k, c')
  end.
(** From the answer to the end *)
Definition fetched (k : Key) (answer : result string JValue) (now : Z) (c : Cache) : Call * Cache :=
  match _fetch_upstream k.1 k.2 answer now with
  | Ok q => (Answered k (Ok q) now, _store_cache k q now c)
  | Err e => (Answered k (Err e) now, c)
  end.

(** ** Interleaved calls *)

Record t := { clock : Z; cache : Cache; calls : list Call }.
Definition init (now : Z) : t := {| clock := now; cache := []; calls := [] |}.

Definition arrive (k : Key) (s : t) : t :=
  let '(c, m) := enter k s.(clock) s.(cache) in {| clock := s.(clock); cache := m; calls := s.(calls) ++ [c] |}.
Definition lock_turn (i : nat) (k : Key) (s : t) : t :=
  let '(c, m) := locked k s.(clock) s.(cache) in {| clock := s.(clock); cache := m; calls := <[i := c]> s.(calls) |}.
Definition fetch_turn (i : nat) (k : Key) (answer : result string JValue) (s : t) : t :=
  let '(c, m) := fetched k answer s.(clock) s.(cache) in {| clock := s.(clock); cache := m; calls := <[i := c]> s.(calls) |}.
(** The lock of a key is held by the call that fetches it. *)
Definition lock_free (k : Key) (s : t) : Prop := Fetching k ∉ s.(calls).

Inductive step : t → t → Prop :=
  | StepTime s now : s.(clock) ≤ now → step s {| clock := now; cache := s.(cache); calls := s.(calls) |}
  | StepArrive s k : step s (arrive k s)
  | StepLock s i k : s.(calls) !! i = Some (AtLock k) → lock_free k s → step s (lock_turn i k s)
  | StepFetch s i k answer : s.(calls) !! i = Some (Fetching k) → step s (fetch_turn i k answer s)
  | StepInvalidate s k : step s {| clock := s.(clock); cache := invalidate k s.(cache); calls := s.(calls) |}.

(** ** Invariant *)

Definition of_key (k : Key) (q : Quote) : Prop := q.(q_ticker) = k.1 ∧ q.(q_market) = k.2 ∧ fle q.(price) fzero = false.
Definition entry_ok (now : Z) (x : Key * _CacheEntry) : Prop :=
  of_key x.1 x.2.(quote) ∧ x.2.(expires_monotonic) = x.2.(quote).(fetched_at) + config.(cache_ttl) ∧
  x.2.(quote).(fetched_at) ≤ now.
Definition cache_ok (now : Z) (c : Cache) : Prop :=
  NoDup c.*1 ∧ Forall (entry_ok now) c ∧ Z.of_nat (length c) ≤ config.(max_cache_entries).
Definition call_ok (now : Z) (c : Call) : Prop :=
  match c with
  | Answered k (Ok q) at_ => of_key k q ∧ q.(fetched_at) ≤ at_ < q.(fetched_at) + config.(cache_ttl) ∧ at_ ≤ now
  | _ => True
  end.
Definition one_fetch (l : list Call) : Prop := ∀ i j k, l !! i = Some (Fetching k) → l !! j = Some (Fetching k) → i = j.
Definition wf (s : t) : Prop := cache_ok s.(clock) s.(cache) ∧ Forall (call_ok s.(clock)) s.(calls) ∧ one_fetch s.(calls).

Context (Hconfig : config_ok config = true).

Lemma config_pos : 0 < config.(cache_ttl) ∧ 0 < config.(max_cache_entries).
Proof. unfold config_ok in Hconfig. bool_hyps. lia. Qed.

Lemma dict_del_length (k : Key) (c : Cache) : (length (dict_del k c) ≤ length c)%nat.
Proof. induction c as [|[k' e] c IH]; cbn; [lia|]. case_bool_decide; cbn; lia. Qed.
Lemma dict_del_length_in (k : Key) (c : Cache) : k ∈ c.*1 → S (length (dict_del k c)) = length c.
Proof.
  induction c as [|[k' e] c IH]; cbn; [by intros ?%not_elem_of_nil|]. case_bool_decide; [done|]. intros [?|?]%elem_of_cons; [done|].
  cbn. by rewrite IH.
Qed.
Lemma dict_set_length (k : Key) e (c : Cache) : (length (dict_set k e c) ≤ S (length c))%nat.
Proof. induction c as [|[k' e'] c IH]; cbn; [lia|]. case_bool_decide; cbn; lia. Qed.
Lemma dict_set_elem (k : Key) e (c : Cache) x : x ∈ dict_set k e c → x = (k, e) ∨ x ∈ c.
Proof.
  induction c as [|[k' e'] c IH]; cbn; [by intros ->%list_elem_of_singleton; left|].
  case_bool_decide; intros [->|Hx]%elem_of_cons; [by left|by right; apply elem_of_cons; right|by right; apply elem_of_cons; left|].
  destruct (IH Hx); [by left|right; by apply elem_of_cons; right].
Qed.
Lemma oldest_elem b c : oldest b c = b ∨ oldest b c ∈ c.
Proof.
  revert b. induction c as [|x c IH]; intros b; cbn; [by left|]. rewrite elem_of_cons.
  destruct (IH (if x.2.(expires_monotonic) <? b.2.(expires_monotonic) then x else b)) as [->|?]; [case_match; auto|auto].
Qed.

Lemma entry_ok_later now now' x : now ≤ now' → entry_ok now x → entry_ok now' x.
Proof. intros ? (? & ? & ?). split_and!; [done..|lia]. Qed.
Lemma cache_ok_later now now' c : now ≤ now' → cache_ok now c → cache_ok now' c.
Proof. intros ? (? & Hc & ?). split_and!; [done| |done]. eapply Forall_impl; [done|]. intros x. by apply entry_ok_later. Qed.
Lemma cache_ok_del now k c : cache_ok now c → cache_ok now (dict_del k c).
Proof.
  intros (Hn & Hc & Hl). split_and!; [by apply dict_del_NoDup| |pose proof (dict_del_length k c); lia].
  rewrite Forall_forall in *. intros x Hx. by eapply Hc, dict_del_elem.
Qed.

Lemma lookup_cache_ok now k c :
  cache_ok now c →
  cache_ok now (_lookup_cache k now c).2 ∧
  ∀ q, (_lookup_cache k now c).1 = Some q → call_ok now (Answered k (Ok q) now).
Proof.
  intros Hc. unfold _lookup_cache. destruct (dict_get k c) as [e|] eqn:Ee; [|done].
  destruct (Z.leb_spec e.(expires_monotonic) now) as [Hle|Hle]; cbn; [split; [by apply cache_ok_del|done]|].
  split; [done|]. intros q [= <-]. apply dict_get_elem in Ee. destruct Hc as (_ & Hc & _). rewrite Forall_forall in Hc.
  destruct (Hc _ Ee) as (Hq & Hx & Hn). cbn in *. split; [done|]. lia.
Qed.

Lemma store_cache_ok now k q c :
  cache_ok now c → of_key k q → q.(fetched_at) = now → cache_ok now (_store_cache k q now c).
Proof.
  intros Hc Hq Hf. destruct config_pos as [Httl Hmax]. unfold _store_cache.
  set (e := {| quote := q; expires_monotonic := now + config.(cache_ttl) |}).
  set (c1 := if config.(max_cache_entries) <=? Z.of_nat (length c) then _ else c).
  assert (cache_ok now c1 ∧ Z.of_nat (length c1) < config.(max_cache_entries)) as ((Hn & Hf1 & _) & Hl).
  { subst c1. destruct (Z.leb_spec config.(max_cache_entries) (Z.of_nat (length c))); [|split; [done|lia]].
    destruct c as [|x c']; [split; [done|cbn; lia]|]. split; [by apply cache_ok_del|].
    assert ((oldest x c').1 ∈ (x :: c').*1) as Hin.
    { apply list_elem_of_fmap. eexists. split; [done|]. apply elem_of_cons. apply oldest_elem. }
    pose proof (dict_del_length_in _ _ Hin). destruct Hc as (_ & _ & Hc). lia. }
  split_and!.
  - by apply dict_set_NoDup.
  - rewrite Forall_forall in *. intros x [->|Hx]%dict_set_elem; [|by apply Hf1].
    split; [done|]. cbn. by rewrite Hf.
  - pose proof (dict_set_length k e c1). lia.
Qed.

Lemma one_fetch_insert i c l : (∀ k, c ≠ Fetching k) → one_fetch l → one_fetch (<[i:=c]> l).
Proof.
  intros Hc Hl j j' k [(_ & E & _)|[_ Hj]]%list_lookup_insert_Some; [by destruct (Hc k)|].
  intros [(_ & E & _)|[_ Hj']]%list_lookup_insert_Some; [by destruct (Hc k)|]. by eapply Hl.
Qed.
Lemma one_fetch_new i k l : Fetching k ∉ l → one_fetch l → one_fetch (<[i:=Fetching k]> l).
Proof.
  intros Hk Hl j j' k' [(<- & E & _)|[Hij Hj]]%list_lookup_insert_Some [(<- & E' & _)|[Hij' Hj']]%list_lookup_insert_Some; simplify_eq; try done.
  - by destruct Hk; apply list_elem_of_lookup_2 in Hj'.
  - by destruct Hk; apply list_elem_of_lookup_2 in Hj.
  - by eapply Hl.
Qed.
Lemma one_fetch_snoc c l : (∀ k, c ≠ Fetching k) → one_fetch l → one_fetch (l ++ [c]).
Proof.
  intros Hc Hl j j' k [Hj|[? Hj]]%lookup_app_Some [Hj'|[? Hj']]%lookup_app_Some; [by eapply Hl|..].
  1: destruct (j' - length l)%nat; simplify_eq/=; by destruct (Hc k).
  all: destruct (j - length l)%nat; simplify_eq/=; by destruct (Hc k).
Qed.

Lemma quote_step_wf s s' : step s s' → wf s → wf s'.
Proof.
  intros Hstep (Hc & Ha & Ho). destruct Hstep as [s now Hnow|s k|s i k Hi Hfree|s i k answer Hi|s k].
  - split_and!; [by eapply cache_ok_later| |done]. eapply Forall_impl; [done|]. intros [|?|k [q|e] at_]; cbn; try done.
    intros (? & ? & ?). split_and!; [done|lia..].
  - unfold arrive, enter. case_bool_decide; [|destruct (lookup_cache_ok s.(clock) k s.(cache) Hc) as [Hc' Hq];
      destruct (_lookup_cache k s.(clock) s.(cache)) as [[q|] c']]; (split_and!; cbn; [done| |]);
      (apply one_fetch_snoc; [by intros ?|done]) || (apply Forall_app; split; [done|]; constructor; [|done]); try done.
    by apply Hq.
  - unfold lock_turn, locked. destruct (lookup_cache_ok s.(clock) k s.(cache) Hc) as [Hc' Hq].
    destruct (_lookup_cache k s.(clock) s.(cache)) as [[q|] c']; (split_and!; cbn; [done| |]).
    + apply Forall_insert; [done|]. by apply Hq.
    + apply one_fetch_insert; [by intros ?|done].
    + by apply Forall_insert.
    + by apply one_fetch_new.
  - unfold fetch_turn, fetched. destruct (_fetch_upstream k.1 k.2 answer s.(clock)) as [q|e] eqn:Eq; (split_and!; cbn).
    + apply fetch_upstream_ok in Eq as (? & ? & Hf & ?). by apply store_cache_ok.
    + apply Forall_insert; [done|]. apply fetch_upstream_ok in Eq as (? & ? & Hf & ?). destruct config_pos.
      cbn. split_and!; [done..|lia|lia|lia].
    + apply one_fetch_insert; [by intros ?|done].
    + done.
    + by apply Forall_insert.
    + apply one_fetch_insert; [by intros ?|done].
  - split_and!; [by apply cache_ok_del|done..].
Qed.

(** C39. Quotes that are handed out are fresh, and one call fetches for all. *)
Theorem quotes_are_fresh (now : Z) (s : t) (Hrun : steps step (init now) s) :
  (∀ k q at_, Answered k (Ok q) at_ ∈ s.(calls) →
     q.(q_ticker) = k.1 ∧ q.(q_market) = k.2 ∧ fle q.(price) fzero = false ∧
     q.(fetched_at) ≤ at_ < q.(fetched_at) + config.(cache_ttl)) ∧
  (∀ i j k, s.(calls) !! i = Some (Fetching k) → s.(calls) !! j = Some (Fetching k) → i = j) ∧
  Z.of_nat (length s.(cache)) ≤ config.(max_cache_entries) ∧ NoDup s.(cache).*1.
Proof.
  assert (wf s) as (Hc & Ha & Ho).
  { eapply steps_invariant; [exact quote_step_wf|exact Hrun|]. destruct config_pos.
    split; [split_and!; cbn; [constructor|by constructor|lia]|]. split; [by apply Forall_nil|by intros ???]. }
  split_and!; [|done|apply Hc..].
  intros k q at_ Hin. rewrite Forall_forall in Ha. destruct (Ha _ Hin) as ((? & ? & ?) & ? & ?). done.
Qed.
End Provider.
End KISQuoteProvider.

(** * SlippageModel *)

Module SlippageModel.
Definition DEFAULT_SPREADS (c : Country) : list (string * float) :=
  match c with
  | KR => [("large_cap", of_Z 1); ("mid_cap", of_Z 2); ("small_cap", of_Z 5); ("kosdaq", of_Z 3)]
  | US => [("large_cap", dec 5 1); ("mid_cap", of_Z 1); ("small_cap", of_Z 2); ("nasdaq", of_Z 1)]
  end.
Definition _get_default_spread (c : Country) (m : Market) : float :=
  let '(name, d) := match m with
    | KRX | NYSE => ("large_cap", of_Z 1) | NASDAQ => ("nasdaq", of_Z 1) | AMEX => ("small_cap", of_Z 2) end in
  default d (dict_get name (DEFAULT_SPREADS c)).
Definition calculate_spread_cost (c : Country) (m : Market) (avg_spread : option float) : float :=
  fdiv (fdiv (match avg_spread with Some s => s | None => _get_default_spread c m end) (of_Z 2)) (of_Z 10000).
Definition calculate_market_impact (order_quantity adv price : float) : float :=
  if fle adv fzero || fle order_quantity fzero || fle price fzero then fzero
  else fmul price (fmul (dec 2 2) (SFsqrt 53 1024 (fdiv order_quantity adv))).
Definition apply_slippage (price : float) (side : OrderSide) (spread_cost impact_cost : float) : float :=
  let total_cost := fadd (fmul price spread_cost) impact_cost in
  match side with BUY => fadd price total_cost | SELL => fsub price total_cost end.
End SlippageModel.

Module QuoteRuns.
Import KISQuoteProvider.
Definition cfg : KISQuoteProviderConfig := {| cache_ttl := 1500000; max_cache_entries := 2 |}.
Definition kr (p : string) : result string JValue := Ok (JObject [("rt_cd", JStr "0"); ("output", JObject [("stck_prpr", JStr p)])]).
Definition a : Key := ("005930", KRX).
Definition tick (now : Z) (s : t) : t := {| clock := now; cache := s.(cache); calls := s.(calls) |}.

(** Three calls for one key, one fetch; the quote serves for a second and a half. *)
Definition three : t := lock_turn 2 a (lock_turn 1 a (fetch_turn cfg 0 a (kr "70000") (lock_turn 0 a (arrive a (arrive a (arrive a (init 0))))))).
Example three_calls_one_fetch :
  Forall (λ c, match c with Answered _ (Ok q) 0 => q.(price) = of_Z 70000 | _ => False end) three.(calls) ∧
  length three.(calls) = 3%nat ∧
  (match last (arrive a (tick 1499999 three)).(calls) with Some (Answered _ (Ok _) _) => true | _ => false end) = true ∧
  last (arrive a (tick 1500000 three)).(calls) = Some (AtLock a).
Proof. vm_compute. split_and!; try reflexivity. repeat constructor. Qed.

(** The text "nan" is a price: no comparison refuses it. *)
Example nan_is_a_price :
  (match _fetch_upstream "005930" KRX (kr "nan") 0 with Ok q => is_nan q.(price) | Err _ => false end) = true ∧
  is_ok (_fetch_upstream "005930" KRX (kr "0") 0) = false ∧ is_ok (_fetch_upstream "005930" KRX (kr "") 0) = false ∧
  upstream_call "AAPL" NASDAQ = Some (UsPrice "AAPL" "NAS").
Proof. vm_compute. split_and!; reflexivity. Qed.

Example slippage :
  SlippageModel.apply_slippage (of_Z 10000) BUY (SlippageModel.calculate_spread_cost KR KRX None) fzero = dec 100005 1 ∧
  SlippageModel.calculate_market_impact (of_Z 100) (of_Z 10000) (of_Z 1000) = of_Z 2 ∧
  SlippageModel.calculate_market_impact (of_Z 100) fzero (of_Z 1000) = fzero.
Proof. vm_compute. split_and!; reflexivity. Qed.

Lemma free_if k (s : t) :
  forallb (λ c, match c with Fetching k' => negb (bool_decide (k' = k)) | _ => true end) s.(calls) = true → lock_free k s.
Proof.
  intros Hf Hin. rewrite forallb_forall in Hf. specialize (Hf (Fetching k) (proj1 (list_elem_of_In _ _) Hin)). cbn in Hf.
  by rewrite bool_decide_eq_true_2 in Hf.
Qed.
Lemma quotes_are_fresh_witness :
  steps (step cfg) (init 0) three ∧ Z.of_nat (length three.(cache)) ≤ 2 ∧ NoDup three.(cache).*1.
Proof.
  assert (steps (step cfg) (init 0) three) as H.
  { do 3 (eapply steps_cons; [apply (StepArrive cfg _ a)|]).
    eapply steps_cons; [by apply (StepLock cfg _ 0 a); [reflexivity|apply free_if]|].
    eapply steps_cons; [by apply (StepFetch cfg _ 0 a (kr "70000"))|].
    eapply steps_cons; [by apply (StepLock cfg _ 1 a); [reflexivity|apply free_if]|].
    eapply steps_cons; [by apply (StepLock cfg _ 2 a); [reflexivity|apply free_if]|]. apply steps_refl. }
  split; [exact H|]. destruct (quotes_are_fresh cfg eq_refl 0 three H) as (_ & _ & ? & ?). done.
Defined.
End QuoteRuns.
