(* ===== verification/KisWebSocket.v ===== *)
(** Realtime data: the WebSocket client of backend/core/data_collector/kis_websocket.py
    and the manager of realtime_manager.py.

    The approval key, the connection and every send are answered by an environment of
    type [W]; decoded JSON and the decryption are parameters.  A connection is a
    sequence of events, a message or its end; [wire] and [delivered] are ghost records
    of what was sent and of what reached the callbacks.  The Redis copy of a quote,
    whose errors are ignored, is left out. *)

From stdpp Require Import base option list sets strings.
From Stdlib Require Import ZArith Lia Ascii Floats.SpecFloat.
From S2P Require Import Prelude PyFloat PyDict PyFormat PyParse Constants Settlement KisClient.

(** * Frames *)

(** The first part of [s] up to [c], and the rest *)
Fixpoint break_at (c : ascii) (s : string) : option (string * string) :=
  match s with
  | "" => None
  | String a s' =>
      if Ascii.eqb a c then Some ("", s')
      else match break_at c s' with Some (p, r) => Some (String a p, r) | None => None end
  end.
(** [s.split(c, n)] *)
Fixpoint split_n (n : nat) (c : ascii) (s : string) : list string :=
  match n with
  | O => [s]
  | S n' => match break_at c s with Some (p, r) => p :: split_n n' c r | None => [s] end
  end.
(** [s.split(c)] *)
Definition split (c : ascii) (s : string) : list string := split_n (String.length s) c s.

Definition TR_ID_QUOTE : string := "H0STCNT0".
Definition TR_ID_ORDERBOOK : string := "H0STASP0".
Definition TR_ID_EXEC_NOTICE_LIVE : string := "H0STCNI0".
Definition TR_ID_EXEC_NOTICE_DEMO : string := "H0STCNI9".
Definition TR_ID_EXEC_NOTICE_OVERSEAS_LIVE : string := "H0GSCNI0".
Definition TR_ID_EXEC_NOTICE_OVERSEAS_DEMO : string := "H0GSCNI9".
Definition is_exec_notice (tr_id : string) : bool :=
  bool_decide (tr_id ∈ [TR_ID_EXEC_NOTICE_LIVE; TR_ID_EXEC_NOTICE_DEMO;
    TR_ID_EXEC_NOTICE_OVERSEAS_LIVE; TR_ID_EXEC_NOTICE_OVERSEAS_DEMO]).
Definition is_overseas (tr_id : string) : bool :=
  bool_decide (tr_id ∈ [TR_ID_EXEC_NOTICE_OVERSEAS_LIVE; TR_ID_EXEC_NOTICE_OVERSEAS_DEMO]).

(** ** The fields of a record, by their positions *)


Definition first_field (fields : list string) (i : nat) : string := default "" (fields !! i).
Record RealtimeQuote := {
  q_ticker : string; q_exec_time : string; q_price : float; q_change : float; q_change_rate : float;
  q_open : float; q_high : float; q_low : float; q_ask1 : float; q_bid1 : float;
  q_volume : Z; q_cum_volume : Z; q_cum_amount : float }.
Definition parse_quote (f : list string) : RealtimeQuote := {|
  q_ticker := first_field f 0; q_exec_time := first_field f 1; q_price := _safe_float f 2; q_change := _safe_float f 4;
  q_change_rate := _safe_float f 5; q_open := _safe_float f 7; q_high := _safe_float f 8; q_low := _safe_float f 9;
  q_ask1 := _safe_float f 10; q_bid1 := _safe_float f 11; q_volume := _safe_int f 12; q_cum_volume := _safe_int f 13;
  q_cum_amount := _safe_float f 14 |}.
Record RealtimeOrderbook := {
  o_ticker : string; o_exec_time : string; asks : list float; bids : list float;
  ask_volumes : list Z; bid_volumes : list Z; total_ask_vol : Z; total_bid_vol : Z }.
Definition parse_orderbook (f : list string) : RealtimeOrderbook := {|
  o_ticker := first_field f 0; o_exec_time := first_field f 1;
  asks := _safe_float f <$> seq 3 10; bids := _safe_float f <$> seq 13 10;
  ask_volumes := _safe_int f <$> seq 23 10; bid_volumes := _safe_int f <$> seq 33 10;
  total_ask_vol := _safe_int f 43; total_bid_vol := _safe_int f 44 |}.

(** What reaches a callback *)
Inductive Delivery :=
  | DQuote (q : RealtimeQuote)
  | DOrderbook (o : RealtimeOrderbook)
  | DNotice (n : RealtimeExecutionNotice).

(** What is sent: a subscription message, or a message echoed *)
Inductive Frame :=
  | Subscription (tr_id tr_key : string) (on : bool)
  | Echo (raw : string).

Inductive WsExn := ConnectionClosed | OtherError.

(** * KISRealtimeClient *)

Class Environment (W : Type) := {
  approval_key : W → bool * W;
  ws_connect : string → W → bool * W;
  ws_send : Frame → W → bool * W;
}.

Record Stats := {
  messages_received : Z; quotes_processed : Z; orderbooks_processed : Z; exec_notices_processed : Z;
  reconnections : Z; errors : Z }.
Definition no_stats : Stats := {| messages_received := 0; quotes_processed := 0; orderbooks_processed := 0;
  exec_notices_processed := 0; reconnections := 0; errors := 0 |}.
Definition count_stats (m q o n r e : Z) (s : Stats) : Stats := {|
  messages_received := s.(messages_received) + m; quotes_processed := s.(quotes_processed) + q;
  orderbooks_processed := s.(orderbooks_processed) + o; exec_notices_processed := s.(exec_notices_processed) + n;
  reconnections := s.(reconnections) + r; errors := s.(errors) + e |}.

Module KISRealtimeClient.
Section Client.
Context {W : Type} `{Environment W}.
(** [json.loads] ([None] is its [JSONDecodeError]), the decryption with a key and an
    initial vector ([None] is any exception), the account id *)
Context (json_loads : string → option JValue) (decrypt : JValue → JValue → string → option string).
Context (settings : KISSettings) (hts_id : string) (subscribe_orderbook : bool).

Definition MAX_RECONNECT_DELAY : Z := 60.
Definition MAX_SUBSCRIPTIONS : nat := 40.

Record t := {
  env : W;
  has_ws : bool;  (** [self._ws is not None] *)
  _connected : bool;
  _subscribed_tickers : list string;
  _reconnect_delay : Z;
  _exec_notice_subscribed : bool;
  _exec_notice_keys : option (JValue * JValue);
  _stats : Stats;
  wire : list Frame;
  delivered : list Delivery;
}.
Definition init (w : W) : t := {|
  env := w; has_ws := false; _connected := false; _subscribed_tickers := []; _reconnect_delay := 1;
  _exec_notice_subscribed := false; _exec_notice_keys := None; _stats := no_stats; wire := []; delivered := [] |}.

Definition set_env (w : W) (c : t) : t := {|
  env := w; has_ws := c.(has_ws); _connected := c.(_connected); _subscribed_tickers := c.(_subscribed_tickers);
  _reconnect_delay := c.(_reconnect_delay); _exec_notice_subscribed := c.(_exec_notice_subscribed);
  _exec_notice_keys := c.(_exec_notice_keys); _stats := c.(_stats); wire := c.(wire); delivered := c.(delivered) |}.
Definition set_link (ws conn : bool) (delay : Z) (c : t) : t := {|
  env := c.(env); has_ws := ws; _connected := conn; _subscribed_tickers := c.(_subscribed_tickers);
  _reconnect_delay := delay; _exec_notice_subscribed := c.(_exec_notice_subscribed);
  _exec_notice_keys := c.(_exec_notice_keys); _stats := c.(_stats); wire := c.(wire); delivered := c.(delivered) |}.
Definition set_tickers (l : list string) (c : t) : t := {|
  env := c.(env); has_ws := c.(has_ws); _connected := c.(_connected); _subscribed_tickers := l;
  _reconnect_delay := c.(_reconnect_delay); _exec_notice_subscribed := c.(_exec_notice_subscribed);
  _exec_notice_keys := c.(_exec_notice_keys); _stats := c.(_stats); wire := c.(wire); delivered := c.(delivered) |}.
Definition set_notices (on : bool) (keys : option (JValue * JValue)) (c : t) : t := {|
  env := c.(env); has_ws := c.(has_ws); _connected := c.(_connected); _subscribed_tickers := c.(_subscribed_tickers);
  _reconnect_delay := c.(_reconnect_delay); _exec_notice_subscribed := on;
  _exec_notice_keys := keys; _stats := c.(_stats); wire := c.(wire); delivered := c.(delivered) |}.
Definition count (f : Stats → Stats) (c : t) : t := {|
  env := c.(env); has_ws := c.(has_ws); _connected := c.(_connected); _subscribed_tickers := c.(_subscribed_tickers);
  _reconnect_delay := c.(_reconnect_delay); _exec_notice_subscribed := c.(_exec_notice_subscribed);
  _exec_notice_keys := c.(_exec_notice_keys); _stats := f c.(_stats); wire := c.(wire); delivered := c.(delivered) |}.
Definition deliver (d : Delivery) (c : t) : t := {|
  env := c.(env); has_ws := c.(has_ws); _connected := c.(_connected); _subscribed_tickers := c.(_subscribed_tickers);
  _reconnect_delay := c.(_reconnect_delay); _exec_notice_subscribed := c.(_exec_notice_subscribed);
  _exec_notice_keys := c.(_exec_notice_keys); _stats := c.(_stats); wire := c.(wire); delivered := c.(delivered) ++ [d] |}.

Abbreviation Ws := (M t WsExn).

(** [await self._ws.send(...)]: a frame that does not go out raises [ConnectionClosed]. *)
Definition send (f : Frame) : Ws unit := λ c,
  let '(ok, w) := ws_send f c.(env) in
  let c := set_env w c in
  if (ok : bool) then (Ok tt, {| env := c.(env); has_ws := c.(has_ws); _connected := c.(_connected);
      _subscribed_tickers := c.(_subscribed_tickers); _reconnect_delay := c.(_reconnect_delay);
      _exec_notice_subscribed := c.(_exec_notice_subscribed); _exec_notice_keys := c.(_exec_notice_keys);
      _stats := c.(_stats); wire := c.(wire) ++ [f]; delivered := c.(delivered) |})
  else (Err ConnectionClosed, c).
Definition get_websocket_key : Ws unit := λ c,
  let '(ok, w) := approval_key c.(env) in (if (ok : bool) then Ok tt else Err OtherError, set_env w c).
(** [try: m; return True except Exception: return False] *)
Definition attempted (m : Ws unit) (c : t) : bool * t := let '(r, c') := m c in (is_ok r, c').

Definition connect (c : t) : bool * t :=
  if Settings.is_backtest settings then (false, c)
  else
    match get_websocket_key c with
    | (Err _, c) => (false, set_link c.(has_ws) false c.(_reconnect_delay) c)
    | (Ok _, c) =>
        let '(ok, w) := ws_connect (Settings.active_credential settings).(websocket_url) c.(env) in
        let c := set_env w c in
        if (ok : bool) then (true, set_link true true 1 c) else (false, set_link c.(has_ws) false c.(_reconnect_delay) c)
    end.
Definition disconnect (c : t) : t :=
  set_notices false None (set_tickers [] (set_link false false c.(_reconnect_delay) c)).

Definition subscribe (ticker : string) (c : t) : bool * t :=
  if negb c.(_connected) || negb c.(has_ws) then (false, c)
  else if (MAX_SUBSCRIPTIONS <=? length c.(_subscribed_tickers))%nat then (false, c)
  else if bool_decide (ticker ∈ c.(_subscribed_tickers)) then (true, c)
  else attempted
    (get_websocket_key ;;
     send (Subscription TR_ID_QUOTE ticker true) ;;
     when subscribe_orderbook (send (Subscription TR_ID_ORDERBOOK ticker true)) ;;
     modify (λ c, set_tickers (c.(_subscribed_tickers) ++ [ticker]) c)) c.
Definition unsubscribe (ticker : string) (c : t) : bool * t :=
  if negb c.(_connected) || negb c.(has_ws) then (false, c)
  else if negb (bool_decide (ticker ∈ c.(_subscribed_tickers))) then (true, c)
  else attempted
    (get_websocket_key ;;
     send (Subscription TR_ID_QUOTE ticker false) ;;
     when subscribe_orderbook (send (Subscription TR_ID_ORDERBOOK ticker false)) ;;
     modify (λ c, set_tickers (List.filter (λ x, negb (bool_decide (x = ticker))) c.(_subscribed_tickers)) c)) c.
Fixpoint subscribe_batch (tickers : list string) (c : t) : Z * t :=
  match tickers with
  | [] => (0, c)
  | ticker :: tickers' =>
      let '(ok, c) := subscribe ticker c in
      let '(n, c) := subscribe_batch tickers' c in ((if (ok : bool) then 1 else 0) + n, c)
  end.

Definition domestic_tr : string := if Settings.is_live settings then TR_ID_EXEC_NOTICE_LIVE else TR_ID_EXEC_NOTICE_DEMO.
Definition overseas_tr : string :=
  if Settings.is_live settings then TR_ID_EXEC_NOTICE_OVERSEAS_LIVE else TR_ID_EXEC_NOTICE_OVERSEAS_DEMO.
Definition subscribe_exec_notice (c : t) : bool * t :=
  if negb c.(_connected) || negb c.(has_ws) then (false, c)
  else if bool_decide (hts_id = "") then (false, c)
  else if c.(_exec_notice_subscribed) then (true, c)
  else attempted
    (get_websocket_key ;;
     send (Subscription domestic_tr hts_id true) ;;
     send (Subscription overseas_tr hts_id true) ;;
     modify (λ c, set_notices true c.(_exec_notice_keys) c)) c.
Definition unsubscribe_exec_notice (c : t) : bool * t :=
  if negb c.(_connected) || negb c.(has_ws) || negb c.(_exec_notice_subscribed) then (false, c)
  else if bool_decide (hts_id = "") then (false, c)
  else attempted
    (get_websocket_key ;;
     send (Subscription domestic_tr hts_id false) ;;
     send (Subscription overseas_tr hts_id false) ;;
     modify (set_notices false None)) c.

(** ** Messages *)

(** [d.get(k, default)] outside a [try] for it: anything but an object raises. *)
Definition field_of (d : JValue) (k : string) (dflt : JValue) : Ws JValue :=
  match get_or d k dflt with Ok v => mret v | Err _ => raise OtherError end.
(** [tr_id in _EXEC_NOTICE_TR_IDS]: a list or an object has no hash. *)
Definition in_exec_ids (tr_id : JValue) : Ws bool :=
  match tr_id with
  | JArray _ | JObject _ => raise OtherError
  | JStr s => mret (is_exec_notice s)
  | _ => mret false
  end.
Definition _handle_json_response (raw : string) : Ws unit :=
  match json_loads raw with
  | None => mret tt
  | Some data =>
      header ← field_of data "header" (JObject []);
      body ← field_of data "body" (JObject []);
      tr_id ← field_of header "tr_id" (JStr "");
      msg_cd ← field_of header "msg_cd" (JStr "");
      field_of header "encrypt" (JStr "") ;;
      (if truthy msg_cd then field_of body "msg1" (JStr "") ;; mret tt else mret tt) ;;
      exec ← in_exec_ids tr_id;
      if exec : bool then
        output ← field_of body "output" (JObject []);
        key ← field_of output "key" JNull;
        iv ← field_of output "iv" JNull;
        when (truthy key && truthy iv) (modify (λ c, set_notices c.(_exec_notice_subscribed) (Some (key, iv)) c))
      else mret tt
  end.

Definition notice_of (tr_id data_str : string) : Delivery :=
  DNotice (parse_notice (split "^" data_str) (is_overseas tr_id)).
Definition _handle_exec_notice (tr_id data_str : string) (is_encrypted : bool) (c : t) : t :=
  let handle d := deliver (notice_of tr_id d) (count (count_stats 0 0 0 1 0 0) c) in
  if is_encrypted then
    match c.(_exec_notice_keys) with
    | None => c
    | Some (key, iv) =>
        match decrypt key iv data_str with
        | None => count (count_stats 0 0 0 0 0 1) c
        | Some d => handle d
        end
    end
  else handle data_str.

Definition first_char (raw : string) : option ascii := match raw with "" => None | String a _ => Some a end.
Definition _handle_message (raw : string) : Ws unit :=
  match first_char raw with
  | None => mret tt
  | Some a =>
      if Ascii.eqb a "1" then send (Echo raw)
      else if Ascii.eqb a "0" || Ascii.eqb a "1" then
        match split_n 3 "|" raw with
        | [p0; tr_id; _; data_str] =>
            let is_encrypted := bool_decide (p0 = "1") in
            if is_exec_notice tr_id then modify (_handle_exec_notice tr_id data_str is_encrypted)
            else if bool_decide (tr_id = TR_ID_QUOTE) then
              modify (λ c, deliver (DQuote (parse_quote (split "^" data_str))) (count (count_stats 0 1 0 0 0 0) c))
            else if bool_decide (tr_id = TR_ID_ORDERBOOK) then
              modify (λ c, deliver (DOrderbook (parse_orderbook (split "^" data_str))) (count (count_stats 0 0 1 0 0 0) c))
            else mret tt
        | _ => mret tt
        end
      else _handle_json_response raw
  end.

(** ** The receive loop *)

Inductive Incoming := Message (raw : string) | Closed.

Definition _reconnect (c : t) : t :=
  let saved_tickers := c.(_subscribed_tickers) in
  let saved_exec_notice := c.(_exec_notice_subscribed) in
  let c := count (count_stats 0 0 0 0 1 0) c in
  let c := set_notices false None (set_tickers [] c) in
  let c := set_link false c.(_connected) (Z.min (c.(_reconnect_delay) * 2) MAX_RECONNECT_DELAY) c in
  let '(success, c) := connect c in
  if (success : bool) then
    let c := (subscribe_batch saved_tickers c).2 in
    if saved_exec_notice then (subscribe_exec_notice c).2 else c
  else c.

(** One turn of the loop: without a connection no loop runs. *)
Definition receive (ev : Incoming) (c : t) : t :=
  if negb c.(_connected) || negb c.(has_ws) then c
  else match ev with
  | Closed => _reconnect c
  | Message raw =>
      match _handle_message raw (count (count_stats 1 0 0 0 0 0) c) with
      | (Ok _, c) => c
      | (Err ConnectionClosed, c) => _reconnect c
      | (Err OtherError, c) => _reconnect (count (count_stats 0 0 0 0 0 1) c)
      end
  end.

(** ** Properties *)

(** What a plain frame delivers *)
Definition decode (raw : string) : list Delivery :=
  match split_n 3 "|" raw with
  | [_; tr_id; _; data_str] =>
      if is_exec_notice tr_id then [notice_of tr_id data_str]
      else if bool_decide (tr_id = TR_ID_QUOTE) then [DQuote (parse_quote (split "^" data_str))]
      else if bool_decide (tr_id = TR_ID_ORDERBOOK) then [DOrderbook (parse_orderbook (split "^" data_str))]
      else []
  | _ => []
  end.
Definition count_of (d : Delivery) : Stats → Stats :=
  match d with DQuote _ => count_stats 0 1 0 0 0 0 | DOrderbook _ => count_stats 0 0 1 0 0 0 | DNotice _ => count_stats 0 0 0 1 0 0 end.
Definition plain (raw : string) : bool := bool_decide (first_char raw = Some "0"%char).
Definition echoed (raw : string) : bool := bool_decide (first_char raw = Some "1"%char).

Lemma break_at_first c a s p r : break_at c (String a s) = Some (p, r) → a ≠ c → ∃ p', p = String a p'.
Proof.
  cbn. destruct (Ascii.eqb_spec a c); [done|]. destruct (break_at c s) as [[p' r']|]; [|done].
  intros [= <- <-] _. eauto.
Qed.
(** Behind its first character, a plain frame is not an encrypted one. *)
Lemma plain_parts raw p0 l : plain raw = true → split_n 3 "|" raw = p0 :: l → p0 ≠ "1".
Proof.
  unfold plain. rewrite bool_decide_eq_true. destruct raw as [|a s]; [done|]. intros [= ->]. cbn [split_n].
  destruct (break_at "|" (String "0" s)) as [[p r]|] eqn:E; [|by intros [= <- _]; intros [=]].
  destruct (break_at_first _ _ _ _ _ E) as [p' ->]; [done|]. by intros [= <- _].
Qed.

Lemma handle_plain raw c :
  plain raw = true →
  _handle_message raw c = (Ok tt, foldl (λ c d, deliver d (count (count_of d) c)) c (decode raw)).
Proof.
  intros Hp. pose proof (plain_parts raw) as Hparts. unfold _handle_message, decode. unfold plain in Hp.
  apply bool_decide_eq_true in Hp as Hf. rewrite Hf. remember (split_n 3 "|" raw) as parts eqn:Es. clear Es. cbn.
  destruct parts as [|p0 [|tr_id [|n [|data_str [|]]]]]; try done.
  specialize (Hparts p0 _ Hp eq_refl). rewrite (bool_decide_eq_false_2 (p0 = "1")) by done.
  case_match; [done|]. case_match; [done|]. by case_match.
Qed.

Lemma handle_echo raw c : echoed raw = true → _handle_message raw c = send (Echo raw) c.
Proof. unfold echoed, _handle_message. intros ->%bool_decide_eq_true. done. Qed.

(** *** What connecting and subscribing change *)

Definition on_wire (w : W) (l : list Frame) (c : t) : t := {|
  env := w; has_ws := c.(has_ws); _connected := c.(_connected); _subscribed_tickers := c.(_subscribed_tickers);
  _reconnect_delay := c.(_reconnect_delay); _exec_notice_subscribed := c.(_exec_notice_subscribed);
  _exec_notice_keys := c.(_exec_notice_keys); _stats := c.(_stats); wire := c.(wire) ++ l; delivered := c.(delivered) |}.
Definition quiet {A} (m : Ws A) : Prop := ∀ c, ∃ w l, (m c).2 = on_wire w l c.

Lemma on_wire_twice w l w' l' c : on_wire w' l' (on_wire w l c) = on_wire w' (l ++ l') c.
Proof. unfold on_wire. cbn. by rewrite app_assoc. Qed.
Lemma on_wire_same c : c = on_wire c.(env) [] c.
Proof. unfold on_wire. rewrite app_nil_r. by destruct c. Qed.

Lemma quiet_send f : quiet (send f).
Proof.
  intros c. unfold send. destruct (ws_send f c.(env)) as [[] w]; cbn; [by exists w, [f]|].
  exists w, []. unfold on_wire. by rewrite app_nil_r.
Qed.
Lemma quiet_key : quiet get_websocket_key.
Proof.
  intros c. unfold get_websocket_key. destruct (approval_key c.(env)) as [[] w]; cbn;
    exists w, []; unfold on_wire; by rewrite app_nil_r.
Qed.
Lemma quiet_when b m : quiet m → quiet (when b m).
Proof. destruct b; [done|]. intros _ c. exists c.(env), []. cbn. apply on_wire_same. Qed.
Hint Resolve quiet_send quiet_key quiet_when : core.

(** Three quiet computations before a last change *)
Lemma attempt_spec {A B D} (m1 : Ws A) (m2 : Ws B) (m3 : Ws D) f c :
  quiet m1 → quiet m2 → quiet m3 →
  ∃ w l, attempted (m1 ;; m2 ;; m3 ;; modify f) c = (true, f (on_wire w l c)) ∨
         attempted (m1 ;; m2 ;; m3 ;; modify f) c = (false, on_wire w l c).
Proof.
  intros H1 H2 H3. unfold attempted, mbind, M_bind. destruct (H1 c) as (w1 & l1 & E1).
  destruct (m1 c) as [[?|e] c1]; cbn in E1; subst c1; [|exists w1, l1; by right].
  destruct (H2 (on_wire w1 l1 c)) as (w2 & l2 & E2). rewrite on_wire_twice in E2.
  destruct (m2 _) as [[?|e] c2]; cbn in E2; subst c2; [|exists w2, (l1 ++ l2); by right].
  destruct (H3 (on_wire w2 (l1 ++ l2) c)) as (w3 & l3 & E3). rewrite on_wire_twice in E3.
  destruct (m3 _) as [[?|e] c3]; cbn in E3; subst c3; [|exists w3, ((l1 ++ l2) ++ l3); by right].
  exists w3, ((l1 ++ l2) ++ l3). by left.
Qed.

(** A subscription adds its ticker or nothing, within the limit. *)
Lemma subscribe_spec x c : ∃ w l L, (subscribe x c).2 = set_tickers L (on_wire w l c) ∧
  (L = c.(_subscribed_tickers) ∨
   L = c.(_subscribed_tickers) ++ [x] ∧ x ∉ c.(_subscribed_tickers) ∧ (length c.(_subscribed_tickers) < MAX_SUBSCRIPTIONS)%nat).
Proof.
  assert (∃ w l L, c = set_tickers L (on_wire w l c) ∧ L = c.(_subscribed_tickers)) as (w0 & l0 & L0 & E0 & EL).
  { exists c.(env), [], c.(_subscribed_tickers). rewrite on_wire_same at 1. by destruct c. }
  unfold subscribe. case_match; [by exists w0, l0, L0; auto|]. case_match eqn:Em; [by exists w0, l0, L0; auto|].
  case_bool_decide as Hin; [by exists w0, l0, L0; auto|]. apply Nat.leb_gt in Em.
  destruct (attempt_spec get_websocket_key (send (Subscription TR_ID_QUOTE x true))
    (when subscribe_orderbook (send (Subscription TR_ID_ORDERBOOK x true)))
    (λ c, set_tickers (c.(_subscribed_tickers) ++ [x]) c) c) as (w & l & [E|E]); auto; rewrite E; exists w, l.
  - by exists (c.(_subscribed_tickers) ++ [x]); auto.
  - by exists c.(_subscribed_tickers); auto.
Qed.

Definition tickers_ok (c : t) : Prop := NoDup c.(_subscribed_tickers) ∧ (length c.(_subscribed_tickers) ≤ MAX_SUBSCRIPTIONS)%nat.
Definition kept (c c' : t) : Prop := c'.(delivered) = c.(delivered) ∧ (tickers_ok c → tickers_ok c').
Instance kept_preorder : PreOrder kept.
Proof. split; [done|]. intros c1 c2 c3 [H1 T1] [H2 T2]. split; [congruence|auto]. Qed.

Lemma subscribe_kept x c : kept c (subscribe x c).2.
Proof.
  destruct (subscribe_spec x c) as (w & l & L & -> & HL). split; [done|]. intros [Hn Hm].
  unfold tickers_ok. cbn. destruct HL as [->|(-> & Hx & Hlt)]; [done|]. rewrite length_app. cbn. split; [|lia].
  apply NoDup_app. split_and!; [done| |by apply NoDup_singleton]. intros y Hy ->%list_elem_of_singleton. done.
Qed.
Lemma subscribe_batch_kept l c : kept c (subscribe_batch l c).2.
Proof.
  revert c. induction l as [|x l IH]; intros c; cbn; [done|]. pose proof (subscribe_kept x c) as Hx.
  destruct (subscribe x c) as [ok c']. specialize (IH c'). destruct (subscribe_batch l c') as [n c'']. by etrans.
Qed.
Lemma unsubscribe_kept x c : kept c (unsubscribe x c).2.
Proof.
  unfold unsubscribe. case_match; [done|]. case_match; [done|].
  destruct (attempt_spec get_websocket_key (send (Subscription TR_ID_QUOTE x false))
    (when subscribe_orderbook (send (Subscription TR_ID_ORDERBOOK x false)))
    (λ c, set_tickers (List.filter (λ y, negb (bool_decide (y = x))) c.(_subscribed_tickers)) c) c) as (w & l & [E|E]);
    auto; rewrite E; split; cbn; try done. intros [Hn Hm]. unfold tickers_ok. cbn. split.
  - by apply NoDup_ListNoDup, List.NoDup_filter, NoDup_ListNoDup.
  - etrans; [apply filter_length_le|done].
Qed.
Lemma exec_notice_kept on f c :
  (∀ c, kept c (f c)) →
  kept c (attempted (get_websocket_key ;; send (Subscription domestic_tr hts_id on) ;; send (Subscription overseas_tr hts_id on) ;; modify f) c).2.
Proof.
  intros Hf. destruct (attempt_spec get_websocket_key (send (Subscription domestic_tr hts_id on))
    (send (Subscription overseas_tr hts_id on)) f c) as (w & l & [E|E]); auto; rewrite E; cbn; [|done].
  etrans; [|apply Hf]. done.
Qed.
Lemma subscribe_exec_kept c : kept c (subscribe_exec_notice c).2.
Proof. unfold subscribe_exec_notice. do 3 (case_match; [done|]). by apply exec_notice_kept. Qed.
Lemma unsubscribe_exec_kept c : kept c (unsubscribe_exec_notice c).2.
Proof. unfold unsubscribe_exec_notice. do 2 (case_match; [done|]). by apply exec_notice_kept. Qed.
Lemma connect_kept c : kept c (connect c).2.
Proof.
  unfold connect. case_match; [done|]. destruct (quiet_key c) as (w & l & E). destruct (get_websocket_key c) as [[] c']; cbn in E; subst c'; [|done].
  destruct (ws_connect _ _) as [[] w']; done.
Qed.
Lemma reconnect_kept c : kept c (_reconnect c).
Proof.
  unfold _reconnect. set (c0 := set_link false _ _ _). assert (kept c c0) as H0 by (split; [done|]; intros _; split; [constructor|cbn; lia]).
  pose proof (connect_kept c0) as H1. destruct (connect c0) as [[] c1]; cbn in H1; [|by etrans].
  pose proof (subscribe_batch_kept c.(_subscribed_tickers) c1) as H2. case_match; [|by etrans; [|etrans]].
  pose proof (subscribe_exec_kept (subscribe_batch c.(_subscribed_tickers) c1).2) as Hx. by etrans; [|etrans; [|etrans]].
Qed.

Definition is_notice (d : Delivery) : bool := match d with DNotice _ => true | _ => false end.
Definition notices (c : t) : list Delivery := List.filter is_notice c.(delivered).

Lemma notices_kept c c' : kept c c' → notices c' = notices c.
Proof. unfold notices. by intros [-> _]. Qed.

(** Whatever a message is, it delivers only what a plain frame carries. *)
Lemma json_kept raw c : kept c (_handle_json_response raw c).2.
Proof.
  unfold _handle_json_response. destruct (json_loads raw) as [data|]; [|done]. unfold mbind, M_bind.
  assert (∀ d k v c, ∃ r, field_of d k v c = (r, c)) as Hf by (intros; unfold field_of; case_match; by eexists).
  assert (∀ v c, ∃ r, in_exec_ids v c = (r, c)) as Hi by (intros; unfold in_exec_ids; case_match; by eexists).
  repeat match goal with
  | |- context [match field_of ?d ?k ?v ?c with _ => _ end] => destruct (Hf d k v c) as [[?|?] ->]; [|done]
  | |- context [match in_exec_ids ?v ?c with _ => _ end] => destruct (Hi v c) as [[?|?] ->]; [|done]
  | |- context [match (if truthy ?x then _ else _) ?c with _ => _ end] => destruct (truthy x)
  | |- context [match mret _ _ with _ => _ end] => cbn [mret M_ret]
  | |- context [match (if ?b : bool then _ else _) ?c with _ => _ end] => destruct b
  | |- context [(if ?b : bool then _ else _) ?c] => destruct b
  | |- context [when ?b _ _] => destruct b; cbn [when]
  end; done.
Qed.

Definition take_in (c : t) (ds : list Delivery) : t := foldl (λ c d, deliver d (count (count_of d) c)) c ds.
Lemma take_in_spec c ds :
  take_in c ds = {| env := c.(env); has_ws := c.(has_ws); _connected := c.(_connected);
    _subscribed_tickers := c.(_subscribed_tickers); _reconnect_delay := c.(_reconnect_delay);
    _exec_notice_subscribed := c.(_exec_notice_subscribed); _exec_notice_keys := c.(_exec_notice_keys);
    _stats := foldl (λ s d, count_of d s) c.(_stats) ds; wire := c.(wire); delivered := c.(delivered) ++ ds |}.
Proof.
  unfold take_in. revert c. induction ds as [|d ds IH]; intros c; cbn; [rewrite app_nil_r; by destruct c|].
  rewrite IH. cbn. by rewrite <- app_assoc.
Qed.

(** A message keeps the tickers, and delivers what it decodes to if it is plain. *)
Lemma message_kept raw c :
  let c' := (_handle_message raw c).2 in
  (tickers_ok c → tickers_ok c') ∧ c'.(delivered) = c.(delivered) ++ (if plain raw then decode raw else []).
Proof.
  cbn. destruct (plain raw) eqn:Hp.
  - rewrite handle_plain by done. fold (take_in c (decode raw)). rewrite take_in_spec. done.
  - rewrite app_nil_r. unfold _handle_message. unfold plain in Hp. apply bool_decide_eq_false in Hp.
    destruct (first_char raw) as [a|]; [|done]. destruct (Ascii.eqb_spec a "1"); [by destruct (quiet_send (Echo raw) c) as (w & l & ->)|].
    destruct (Ascii.eqb_spec a "0"); [congruence|]. cbn [orb]. pose proof (json_kept raw c) as [? ?]. done.
Qed.

Lemma receive_kept ev c :
  (tickers_ok c → tickers_ok (receive ev c)) ∧
  notices (receive ev c) = notices c ++
    match ev with
    | Message raw => if c.(_connected) && c.(has_ws) && plain raw then List.filter is_notice (decode raw) else []
    | Closed => [] end.
Proof.
  unfold receive. destruct (negb c.(_connected) || negb c.(has_ws)) eqn:El.
  { split; [done|]. assert (c.(_connected) && c.(has_ws) = false) as -> by (by destruct c.(_connected), c.(has_ws)).
    destruct ev; by rewrite app_nil_r. }
  assert (c.(_connected) = true ∧ c.(has_ws) = true) as [-> ->] by (by destruct c.(_connected), c.(has_ws)).
  destruct ev as [raw|]; cbn [andb].
  - destruct (message_kept raw (count (count_stats 1 0 0 0 0 0) c)) as [Ht Hd]. cbn in Hd.
    assert (∀ c', c'.(delivered) = c.(delivered) ++ (if plain raw then decode raw else []) →
      notices c' = notices c ++ (if plain raw then List.filter is_notice (decode raw) else [])) as Hn.
    { intros c' Hc'. unfold notices. rewrite Hc', List.filter_app. by destruct (plain raw). }
    destruct (_handle_message raw _) as [[[]|[]] c']; cbn in *.
    + split; [by intros; apply Ht|by apply Hn].
    + split; [intros; by apply reconnect_kept, Ht|]. rewrite (notices_kept _ _ (reconnect_kept c')). by apply Hn.
    + split; [intros; by apply reconnect_kept; cbn; apply Ht|]. rewrite (notices_kept _ _ (reconnect_kept _)). by apply Hn.
  - rewrite app_nil_r. split; [apply reconnect_kept|]. by rewrite (notices_kept _ _ (reconnect_kept c)).
Qed.


(** *** What a plain frame says

    A record is a text for each of the fields that the tables above name. *)

Abbreviation Reading := (string → string).










(** A notice that comes encrypted is never handled. *)
Theorem encrypted_notices_are_lost (evs : list Incoming) (c : t)
  (Hencrypted : ∀ raw p0 tr_id n d, Message raw ∈ evs → split_n 3 "|" raw = [p0; tr_id; n; d] →
     is_exec_notice tr_id = true → echoed raw = true) :
  notices (run_ops receive evs c) = notices c.
Proof.
  unfold run_ops. revert c. induction evs as [|ev evs IH]; intros c; [done|]. cbn [foldl].
  rewrite IH by (intros; eapply Hencrypted; [by apply elem_of_cons; right|done..]).
  destruct (receive_kept ev c) as [_ ->]. destruct ev as [raw|]; [|by rewrite app_nil_r].
  destruct (c.(_connected) && c.(has_ws) && plain raw) eqn:E; [|by rewrite app_nil_r].
  apply andb_true_iff in E as [_ Hp]. enough (List.filter is_notice (decode raw) = []) as -> by by rewrite app_nil_r.
  unfold decode. destruct (split_n 3 "|" raw) as [|p0 [|tr_id [|n [|d [|]]]]] eqn:Es; try done.
  destruct (is_exec_notice tr_id) eqn:Ee.
  - assert (echoed raw = true) as He by (eapply Hencrypted; [by apply elem_of_cons; left|done..]).
    unfold echoed in He. unfold plain in Hp. apply bool_decide_eq_true in He, Hp. congruence.
  - repeat case_match; done.
Qed.

(** A lost connection is tried again once. *)
Theorem reconnection_is_tried_once (c : t) (evs : list Incoming)
  (Hfailed : (receive Closed c).(_connected) = false) :
  run_ops receive evs (receive Closed c) = receive Closed c ∧
  (c.(_connected) = true → c.(has_ws) = true →
     (receive Closed c).(_subscribed_tickers) = [] ∧ (receive Closed c).(_exec_notice_subscribed) = false ∧
     (receive Closed c).(_stats).(reconnections) = c.(_stats).(reconnections) + 1).
Proof.
  split.
  - unfold run_ops. induction evs as [|ev evs IH]; [done|]. cbn [foldl]. unfold receive at 2. by rewrite Hfailed.
  - intros Hc Hw. revert Hfailed. unfold receive. rewrite Hc, Hw. cbn [negb orb]. unfold _reconnect.
    set (c0 := set_link false _ _ _). destruct (connect c0) as [ok c1] eqn:Ec.
    assert (ok = false → c1.(_subscribed_tickers) = [] ∧ c1.(_exec_notice_subscribed) = false ∧
      c1.(_stats).(reconnections) = c.(_stats).(reconnections) + 1) as H0.
    { intros ->. unfold connect in Ec. case_match; [by simplify_eq|]. destruct (quiet_key c0) as (w & l & E).
      destruct (get_websocket_key c0) as [[] c2]; cbn in E; subst c2; [|by simplify_eq].
      destruct (ws_connect _ _) as [[] w']; by simplify_eq. }
    destruct ok; [|by intros _; apply H0]. clear H0.
    assert (c1.(_connected) = true) as Hc1.
    { unfold connect in Ec. case_match; [by simplify_eq|]. destruct (get_websocket_key c0) as [[] c2]; [|by simplify_eq].
      destruct (ws_connect _ _) as [[] w']; by simplify_eq. }
    assert (∀ x c, (subscribe x c).2.(_connected) = c.(_connected)) as Hs.
    { intros x c'. by destruct (subscribe_spec x c') as (? & ? & ? & -> & _). }
    assert (∀ l c, (subscribe_batch l c).2.(_connected) = c.(_connected)) as Hb.
    { clear -Hs. induction l as [|x l IH]; intros c'; [done|]. cbn. specialize (Hs x c'). destruct (subscribe x c') as [? c2].
      specialize (IH c2). destruct (subscribe_batch l c2). cbn in *. congruence. }
    case_match; [|by rewrite Hb, Hc1]. unfold subscribe_exec_notice. do 3 (case_match; [cbn [snd]; by rewrite Hb, Hc1|]).
    destruct (attempt_spec get_websocket_key (send (Subscription domestic_tr hts_id true)) (send (Subscription overseas_tr hts_id true))
      (λ c, set_notices true c.(_exec_notice_keys) c) (subscribe_batch c.(_subscribed_tickers) c1).2) as (w & l & [E|E]); auto;
      rewrite E; cbn; by rewrite Hb, Hc1.
Qed.
End Client.
End KISRealtimeClient.

(** * RealtimeManager *)

Record IntradayBar := {
  open_price : float; high_price : float; low_price : float; close_price : float; bar_volume : Z; trade_count : Z }.
Definition new_bar : IntradayBar := {|
  open_price := fzero; high_price := fzero; low_price := fzero; close_price := fzero; bar_volume := 0; trade_count := 0 |}.
Definition update (price : float) (vol : Z) (b : IntradayBar) : IntradayBar := {|
  open_price := if feq b.(open_price) fzero then price else b.(open_price);
  close_price := price;
  high_price := if flt fzero b.(high_price) then fmax b.(high_price) price else price;
  low_price := if flt fzero b.(low_price) then fmin b.(low_price) price else price;
  bar_volume := b.(bar_volume) + vol;
  trade_count := b.(trade_count) + 1 |}.

Record RealtimeSnapshot := {
  price : float; change : float; change_rate : float; bid1 : float; ask1 : float;
  volume : Z; cum_volume : Z; intraday : IntradayBar }.
Definition new_snapshot : RealtimeSnapshot := {|
  price := fzero; change := fzero; change_rate := fzero; bid1 := fzero; ask1 := fzero; volume := 0; cum_volume := 0;
  intraday := new_bar |}.

Module RealtimeManager.
Abbreviation Snapshots := (list (string * RealtimeSnapshot)).
Definition _on_quote (q : RealtimeQuote) (m : Snapshots) : Snapshots :=
  let snap := default new_snapshot (dict_get q.(q_ticker) m) in
  dict_set q.(q_ticker)
    {| price := q.(q_price); change := q.(q_change); change_rate := q.(q_change_rate); bid1 := q.(q_bid1); ask1 := q.(q_ask1);
       volume := q.(q_volume); cum_volume := q.(q_cum_volume); intraday := update q.(q_price) q.(q_volume) snap.(intraday) |} m.
Definition _on_orderbook (o : RealtimeOrderbook) (m : Snapshots) : Snapshots :=
  match dict_get o.(o_ticker) m with
  | None => m
  | Some snap =>
      dict_set o.(o_ticker)
        {| price := snap.(price); change := snap.(change); change_rate := snap.(change_rate);
           bid1 := match o.(bids) with b :: _ => b | [] => snap.(bid1) end;
           ask1 := match o.(asks) with a :: _ => a | [] => snap.(ask1) end;
           volume := snap.(volume); cum_volume := snap.(cum_volume); intraday := snap.(intraday) |} m
  end.
(** The callbacks [start] registers; notices go to the settlement. *)
Definition on_delivery (d : Delivery) (m : Snapshots) : Snapshots :=
  match d with DQuote q => _on_quote q m | DOrderbook o => _on_orderbook o m | DNotice _ => m end.
Definition started (tickers : list string) : Snapshots := foldl (λ m t, dict_set t new_snapshot m) [] tickers.
Definition get_current_prices (m : Snapshots) : list (string * float) :=
  List.filter (λ x, flt fzero x.2) ((λ x, (x.1, x.2.(price))) <$> m).

(** ** The intraday bar *)

Definition trades (l : list (float * Z)) (b : IntradayBar) : IntradayBar := foldl (λ b x, update x.1 x.2 b) b l.
Definition brackets (b : IntradayBar) (l : list float) : Prop :=
  flt fzero b.(open_price) = true ∧ flt fzero b.(low_price) = true ∧ flt fzero b.(high_price) = true ∧
  (∀ p, p ∈ l → fle b.(low_price) p = true ∧ fle p b.(high_price) = true) ∧ b.(high_price) ∈ l ∧ b.(low_price) ∈ l.

Lemma flt_zero_feq x : flt fzero x = true → feq x fzero = false.
Proof. destruct x as [[]|[]| |[] m e]; done. Qed.
Lemma positive_not_nan x : flt fzero x = true → is_nan x = false.
Proof. intros H. by destruct (flt_nan _ _ H). Qed.

Lemma fmax_bounds a b : is_nan a = false → is_nan b = false →
  fle a (fmax a b) = true ∧ fle b (fmax a b) = true ∧ (fmax a b = a ∨ fmax a b = b).
Proof.
  intros Ha Hb. unfold fmax. destruct (flt a b) eqn:E.
  - split_and!; [by apply flt_le|by apply fle_refl|by right].
  - split_and!; [by apply fle_refl|by rewrite fle_not_lt, E|by left].
Qed.
Lemma fmin_bounds a b : is_nan a = false → is_nan b = false →
  fle (fmin a b) a = true ∧ fle (fmin a b) b = true ∧ (fmin a b = a ∨ fmin a b = b).
Proof.
  intros Ha Hb. unfold fmin. destruct (flt b a) eqn:E.
  - split_and!; [by apply flt_le|by apply fle_refl|by right].
  - split_and!; [by apply fle_refl|by rewrite fle_not_lt, E|by left].
Qed.

Lemma update_brackets p v b l :
  flt fzero p = true → brackets b l →
  brackets (update p v b) (l ++ [p]) ∧ (update p v b).(open_price) = b.(open_price).
Proof.
  intros Hp (Ho & Hl & Hh & Hall & Hhin & Hlin). unfold update. cbn.
  rewrite Hl, Hh, (flt_zero_feq _ Ho). split; [|done].
  pose proof (positive_not_nan _ Hp) as Np.
  destruct (fmax_bounds b.(high_price) p (positive_not_nan _ Hh) Np) as (M1 & M2 & M3).
  destruct (fmin_bounds b.(low_price) p (positive_not_nan _ Hl) Np) as (N1 & N2 & N3).
  unfold brackets. cbn [open_price low_price high_price]. split_and!; [done|by destruct N3 as [-> | ->]|by destruct M3 as [-> | ->]| | |].
  - intros x [Hx|Hx%list_elem_of_singleton]%elem_of_app; [|by subst x].
    destruct (Hall x Hx) as [Hx1 Hx2]. split; [by apply (fle_trans _ _ _ N1)|by apply (fle_trans _ _ _ Hx2)].
  - apply elem_of_app. destruct M3 as [-> | ->]; [by left|right; by apply list_elem_of_singleton].
  - apply elem_of_app. destruct N3 as [-> | ->]; [by left|right; by apply list_elem_of_singleton].
Qed.

(** The bar is the one of the trades. *)
Theorem bar_of_trades (p : float) (v : Z) (l : list (float * Z))
  (Hpos : Forall (λ x, flt fzero x.1 = true) ((p, v) :: l)) :
  let b := trades ((p, v) :: l) new_bar in
  b.(open_price) = p ∧ Some b.(close_price) = last (p :: l.*1) ∧
  (∀ x, x ∈ p :: l.*1 → fle b.(low_price) x = true ∧ fle x b.(high_price) = true) ∧
  b.(high_price) ∈ p :: l.*1 ∧ b.(low_price) ∈ p :: l.*1 ∧
  b.(bar_volume) = sumZ (v :: l.*2) ∧ b.(trade_count) = Z.of_nat (S (length l)).
Proof.
  apply Forall_cons in Hpos as [Hp Hl]. cbn in Hp.
  enough (let b := trades ((p, v) :: l) new_bar in brackets b (p :: l.*1) ∧ b.(open_price) = p ∧
    Some b.(close_price) = last (p :: l.*1) ∧ b.(bar_volume) = sumZ (v :: l.*2) ∧ b.(trade_count) = Z.of_nat (S (length l)))
    as ((_ & _ & _ & Hall & Hh & Hlo) & Ho & Hc & Hv & Hn) by done.
  induction l as [|[p' v'] l IH] using rev_ind.
  - cbn. split_and!; try done; [|lia]. unfold brackets. cbn. split_and!; try done; [|by apply elem_of_cons; left..].
    intros x ->%list_elem_of_singleton. pose proof (positive_not_nan _ Hp). by split; apply fle_refl.
  - apply Forall_app in Hl as [Hl Hp']. apply Forall_cons in Hp' as [Hp' _]. cbn in Hp'.
    destruct (IH Hl) as (Hb & Ho & Hc & Hv & Hn). clear IH.
    unfold trades in *. rewrite app_comm_cons, foldl_app. cbn [foldl]. set (b := foldl _ (update (p, v).1 _ _) l) in *.
    change (foldl (λ b x, update x.1 x.2 b) new_bar ((p, v) :: l)) with b in Hb, Ho, Hc, Hv, Hn.
    destruct (update_brackets p' v' b _ Hp' Hb) as [Hb' Ho']. rewrite !fmap_app. cbn [fmap list_fmap fst snd].
    split_and!; [done|by rewrite <- Ho| | |].
    + cbn [update close_price]. by rewrite app_comm_cons, last_snoc.
    + cbn [update bar_volume]. rewrite app_comm_cons, sumZ_app, <- Hv. cbn. lia.
    + cbn [update trade_count]. rewrite length_app. cbn [length]. lia.
Qed.
End RealtimeManager.

Module StreamRuns.
Import KISRealtimeClient RealtimeManager.
(** An environment that answers everything, and one whose connections fail *)
#[local] Instance answering : Environment bool := {|
  approval_key w := (true, w); ws_connect _ w := (w, w); ws_send _ w := (true, w) |}.
Definition kis (mode : TradingMode) : KISSettings := KisRuns.defaults mode.
Definition nothing (s : string) : option JValue := None.
Definition nokey (k iv : JValue) (d : string) : option string := Some d.
Definition up : t := (subscribe false "005930" (connect (kis LIVE) (init true)).2).2.
Definition go (evs : list Incoming) (c : t) : t := run_ops (receive nothing nokey (kis LIVE) "me" false) evs c.

Example a_quote_arrives :
  let c := go [Message "0|H0STCNT0|001|005930^093001^70000^2^500^0.72^0^69000^70500^68900^70000^69900^10^1234^5"] up in
  match c.(delivered) with
  | [DQuote q] => (q.(q_ticker), q.(q_price), q.(q_volume)) = ("005930", of_Z 70000, 10)
  | _ => False end ∧ c.(_stats).(quotes_processed) = 1 ∧ c.(wire) = [Subscription "H0STCNT0" "005930" true].
Proof. vm_compute. split_and!; reflexivity. Qed.

(** An execution notice: handled in plain text, sent back when it is encrypted. *)
Definition notice_fields : string := "id^acc^0001^^02^0^00^0^005930^10^70000^093001^0^2^2^^10".
Example encrypted_notice_is_echoed :
  length (delivered (go [Message ("0|H0STCNI0|001|" +:+ notice_fields)] up)) = 1%nat ∧
  let c := go [Message ("1|H0STCNI0|001|" +:+ notice_fields)] up in
  c.(delivered) = [] ∧ last c.(wire) = Some (Echo ("1|H0STCNI0|001|" +:+ notice_fields)) ∧ c.(_stats).(errors) = 0.
Proof. vm_compute. split_and!; reflexivity. Qed.

(** Of the trades in one frame only the first is read. *)
Example second_record_is_lost :
  (q_volume <$> match (go [Message "0|H0STCNT0|002|A^1^100^2^0^0^0^0^0^0^0^0^3^3^5^^^B^2^101^2^0^0^0^0^0^0^0^0^4^7^5"] up).(delivered) with
    | [DQuote q] => Some q | _ => None end) = Some 3.
Proof. vm_compute. reflexivity. Qed.

(** The end of the connection: one attempt, and the tickers come back or are gone. *)
Example reconnected_or_gone :
  (go [Closed] up).(_subscribed_tickers) = ["005930"] ∧ (go [Closed] up).(_stats).(reconnections) = 1 ∧
  let c := go [Closed; Closed; Message "0|"] (set_env false up) in
  c.(_subscribed_tickers) = [] ∧ c.(_connected) = false ∧ c.(_stats).(reconnections) = 1.
Proof. vm_compute. split_and!; reflexivity. Qed.

(** A price that does not parse counts as a trade at zero and takes the low with it. *)
Example bad_price_resets_the_low :
  let b := trades [(of_Z 100, 1); (fzero, 1); (of_Z 120, 1)] new_bar in b.(low_price) = of_Z 120 ∧ b.(close_price) = of_Z 120.
Proof. vm_compute. split; reflexivity. Qed.

Lemma encrypted_notices_are_lost_witness :
  notices (go [Message "1|H0STCNI0|001|x"; Closed] up) = [].
Proof.
  apply (encrypted_notices_are_lost nothing nokey (kis LIVE) "me" false [Message "1|H0STCNI0|001|x"; Closed] up).
  intros raw p0 tr_id n d [Hr|[Hr|Hr%not_elem_of_nil]%elem_of_cons]%elem_of_cons; [|done..]. injection Hr as ->. reflexivity.
Defined.
Lemma reconnection_is_tried_once_witness :
  go [Closed; Closed] (go [Closed] (set_env false up)) = go [Closed] (set_env false up).
Proof.
  destruct (reconnection_is_tried_once nothing nokey (kis LIVE) "me" false (set_env false up) [Closed; Closed]) as [H _];
    [reflexivity|exact H].
Defined.
Lemma bar_of_trades_witness :
  (trades [(of_Z 100, 2); (of_Z 90, 1)] new_bar).(open_price) = of_Z 100 ∧
  (trades [(of_Z 100, 2); (of_Z 90, 1)] new_bar).(bar_volume) = 3.
Proof.
  destruct (bar_of_trades (of_Z 100) 2 [(of_Z 90, 1)]) as (H & _ & _ & _ & _ & Hv & _); [repeat constructor|].
  split; [exact H|exact Hv].
Defined.
End StreamRuns.
