(* ===== verification/Compliance.v ===== *)
(** Compliance: core/compliance/retention_policy.py, secret_manager.py and
    compliance_report.py.

    Times are seconds.  Where a method reads the clock, its reading is an argument; a
    method that reads it again takes a second one.  Descriptions, and the metrics that a
    report repeats, are left out.  The records and entries that a method returns are
    values: a caller that changes them is not modelled. *)

From stdpp Require Import base option list sorting strings.
From Stdlib Require Import ZArith Lia.
From S2P Require Import Prelude PyDict.

Definition day : Z := 86400.
(** [timedelta.days] *)
Definition days_of (delta : Z) : Z := delta `div` day.

(** * Retention of records *)

Module RetentionStore.

Inductive RetentionCategory :=
  | TRADE_ORDER | TRADE_EXECUTION | PORTFOLIO_SNAPSHOT | DECISION_RECORD | REBALANCING | RISK_EVENT | AUDIT_LOG | SYSTEM_CONFIG.
#[export] Instance RetentionCategory_eq_dec : EqDecision RetentionCategory.
Proof. solve_decision. Defined.
Inductive RetentionStatus := ACTIVE | EXPIRED | ARCHIVED | DELETED.
#[export] Instance RetentionStatus_eq_dec : EqDecision RetentionStatus.
Proof. solve_decision. Defined.

Definition DEFAULT_RETENTION_DAYS : list (RetentionCategory * Z) := [
  (TRADE_ORDER, 5 * 365); (TRADE_EXECUTION, 5 * 365); (PORTFOLIO_SNAPSHOT, 5 * 365); (DECISION_RECORD, 5 * 365);
  (REBALANCING, 5 * 365); (RISK_EVENT, 5 * 365); (AUDIT_LOG, 10 * 365); (SYSTEM_CONFIG, 3 * 365)].

Record RetentionPolicy := { p_category : RetentionCategory; retention_days : Z; requires_archive : bool }.
Record RetentionRecord := {
  record_id : string; category : RetentionCategory; created_at : Z; expires_at : Z; status : RetentionStatus;
  source_table : string; source_id : string; archived_at : option Z; deleted_at : option Z }.
Record RetentionStore := { _policies : list (RetentionCategory * RetentionPolicy); _records : list RetentionRecord }.

Definition is_expired (now : Z) (r : RetentionRecord) : bool := r.(expires_at) <=? now.
Definition days_until_expiry (now : Z) (r : RetentionRecord) : Z := Z.max 0 (days_of (r.(expires_at) - now)).

(** [RetentionStore(custom_policies)] *)
Definition new_store (custom : list (RetentionCategory * Z)) : RetentionStore := {|
  _policies := map (λ '(c, d), (c, {| p_category := c; retention_days := default d (dict_get c custom); requires_archive := true |})) DEFAULT_RETENTION_DAYS;
  _records := [] |}.

(** [id]: the fresh UUID *)
Definition register_record (id : string) (c : RetentionCategory) (table source : string) (created : option Z) (now : Z)
    (s : RetentionStore) : result unit RetentionRecord * RetentionStore :=
  match dict_get c s.(_policies) with
  | None => (Err tt, s)
  | Some policy =>
      let now := default now created in
      let r := {| record_id := id; category := c; created_at := now; expires_at := now + policy.(retention_days) * day; status := ACTIVE;
                  source_table := table; source_id := source; archived_at := None; deleted_at := None |} in
      (Ok r, {| _policies := s.(_policies); _records := s.(_records) ++ [r] |})
  end.

Definition get_expired_records (now : Z) (s : RetentionStore) : list RetentionRecord :=
  filter (λ r, Is_true (is_expired now r && bool_decide (r.(status) = ACTIVE))) s.(_records).

(** [_find_record] and the mutation of the object it finds *)
Fixpoint find_record (id : string) (l : list RetentionRecord) : option RetentionRecord :=
  match l with [] => None | r :: l' => if bool_decide (r.(record_id) = id) then Some r else find_record id l' end.
Fixpoint update_record (id : string) (f : RetentionRecord → RetentionRecord) (l : list RetentionRecord) : list RetentionRecord :=
  match l with [] => [] | r :: l' => if bool_decide (r.(record_id) = id) then f r :: l' else r :: update_record id f l' end.
Definition mutate (id : string) (f : RetentionRecord → RetentionRecord) (s : RetentionStore) : RetentionStore :=
  {| _policies := s.(_policies); _records := update_record id f s.(_records) |}.

Definition archived (now : Z) (r : RetentionRecord) : RetentionRecord := {|
  record_id := r.(record_id); category := r.(category); created_at := r.(created_at); expires_at := r.(expires_at); status := ARCHIVED;
  source_table := r.(source_table); source_id := r.(source_id); archived_at := Some now; deleted_at := r.(deleted_at) |}.
Definition deleted (now : Z) (r : RetentionRecord) : RetentionRecord := {|
  record_id := r.(record_id); category := r.(category); created_at := r.(created_at); expires_at := r.(expires_at); status := DELETED;
  source_table := r.(source_table); source_id := r.(source_id); archived_at := r.(archived_at); deleted_at := Some now |}.

Definition archive_record (id : string) (now : Z) (s : RetentionStore) : option RetentionRecord * RetentionStore :=
  match find_record id s.(_records) with
  | None => (None, s)
  | Some r => (Some (archived now r), mutate id (archived now) s)
  end.

Definition delete_record (id : string) (now later : Z) (s : RetentionStore) : option RetentionRecord * RetentionStore :=
  match find_record id s.(_records) with
  | None => (None, s)
  | Some r =>
      if negb (is_expired now r) then (None, s) else
      if (match dict_get r.(category) s.(_policies) with
          | Some policy => policy.(requires_archive) && negb (bool_decide (r.(status) = ARCHIVED))
          | None => false
          end)
      then (None, s)
      else (Some (deleted later r), mutate id (deleted later) s)
  end.

Definition premature (r : RetentionRecord) : bool :=
  bool_decide (r.(status) = DELETED) && match r.(deleted_at) with Some d => d <? r.(expires_at) | None => false end.
(** The violations, as the records they name *)
Definition validate_no_premature_deletion (s : RetentionStore) : list RetentionRecord := filter (λ r, Is_true (premature r)) s.(_records).

Record Stats := {
  total_records : Z; by_status : list (RetentionStatus * Z); by_category : list (RetentionCategory * Z); pending_expiry : Z; violations : Z }.
Definition count_by {K} `{EqDecision K} (f : RetentionRecord → K) (l : list RetentionRecord) : list (K * Z) :=
  foldl (λ d r, dict_set (f r) (default 0 (dict_get (f r) d) + 1) d) [] l.
Definition get_stats (now : Z) (s : RetentionStore) : Stats := {|
  total_records := Z.of_nat (length s.(_records)); by_status := count_by status s.(_records); by_category := count_by category s.(_records);
  pending_expiry := Z.of_nat (length (get_expired_records now s)); violations := Z.of_nat (length (validate_no_premature_deletion s)) |}.

(** ** Deletions are due *)

Inductive RetentionOp :=
  | Register (id : string) (c : RetentionCategory) (table source : string) (created : option Z) (now : Z)
  | Archive (id : string) (now : Z) | Delete (id : string) (now later : Z).
Definition do_op (op : RetentionOp) (s : RetentionStore) : RetentionStore :=
  match op with
  | Register id c table source created now => (register_record id c table source created now s).2
  | Archive id now => (archive_record id now s).2
  | Delete id now later => (delete_record id now later s).2
  end.
Definition clock_ok (op : RetentionOp) : Prop := match op with Delete _ now later => now ≤ later | _ => True end.

Definition due (r : RetentionRecord) : Prop :=
  (∀ d, r.(deleted_at) = Some d → r.(expires_at) ≤ d) ∧
  (r.(status) = ARCHIVED → is_Some r.(archived_at)) ∧
  (r.(status) = DELETED → is_Some r.(archived_at) ∧ is_Some r.(deleted_at)).
Definition archives_first (s : RetentionStore) : Prop :=
  ∀ c, ∃ p, dict_get c s.(_policies) = Some p ∧ p.(requires_archive) = true.
Definition store_ok (s : RetentionStore) : Prop := archives_first s ∧ Forall due s.(_records).

Lemma new_store_archives custom : archives_first (new_store custom).
Proof. intros c. destruct c; vm_compute; eauto. Qed.

Lemma find_update id f l : Forall due l → (∀ r, find_record id l = Some r → due r → due (f r)) → Forall due (update_record id f l).
Proof.
  intros Hl. induction Hl as [|r l Hr Hl IH]; intros Hf; cbn in *; [constructor|]. case_bool_decide; constructor; auto.
Qed.

Lemma do_op_due op s : clock_ok op → store_ok s → store_ok (do_op op s).
Proof.
  intros Hclock [Hp Hs]. destruct op as [id c table source created now|id now|id now later]; cbn in *.
  - unfold register_record. destruct (Hp c) as (p&->&_). split; [done|]. cbn. apply Forall_app. split; [done|].
    constructor; [|constructor]. by split_and!.
  - unfold archive_record. destruct (find_record id _) as [r|] eqn:E; [|done]. split; [done|]. cbn. apply find_update; [done|].
    intros r' Hr' (Hd&_&_). split_and!; cbn; eauto. done.
  - unfold delete_record. destruct (find_record id _) as [r|] eqn:E; [|done]. destruct (is_expired now r) eqn:Ex; [|done]. cbn.
    destruct (Hp r.(category)) as (p&->&->). cbn. case_bool_decide as Ha; cbn; [|done]. split; [done|]. cbn. apply find_update; [done|].
    intros r' Hr' (_&Har&_). assert (r' = r) as -> by congruence. unfold is_expired in Ex. split_and!; cbn; [|done|eauto].
    intros d [= <-]. lia.
Qed.

(** Deletions are due.  Whatever records are registered, archived and deleted, in
    whatever order and with whatever retention periods, a record is marked as deleted
    only after its expiry and after it has been archived, and the check for premature
    deletions finds none, as long as the clock does not go backwards within a deletion. *)
Theorem deletions_are_due custom ops (Hclock : Forall clock_ok ops) :
  let s := foldl (λ s op, do_op op s) (new_store custom) ops in
  validate_no_premature_deletion s = [] ∧
  ∀ r, r ∈ s.(_records) → r.(status) = DELETED → ∃ d a, r.(deleted_at) = Some d ∧ r.(expires_at) ≤ d ∧ r.(archived_at) = Some a.
Proof.
  intros s. assert (store_ok s) as [_ Hs].
  { unfold s. assert (store_ok (new_store custom)) as H by (split; [apply new_store_archives|constructor]).
    generalize (new_store custom) H. clear s H. induction Hclock as [|op ops Hop _ IH]; intros s0 H0; [done|]. cbn. by apply IH, do_op_due. }
  clearbody s. rewrite Forall_forall in Hs. split.
  - unfold validate_no_premature_deletion. destruct (filter _ _) as [|r l] eqn:E; [done|]. exfalso.
    assert (r ∈ filter (λ r, Is_true (premature r)) s.(_records)) as Hr by (rewrite E; by left).
    apply list_elem_of_filter in Hr as [Hp Hr]. destruct (Hs r Hr) as (Hd&_&_). unfold premature in Hp.
    destruct (deleted_at r) as [d|]; [specialize (Hd d eq_refl)|]; destruct (bool_decide _); cbn in Hp; try done.
    destruct (Z.ltb_spec d (expires_at r)); [lia|done].
  - intros r Hr Hdel. destruct (Hs r Hr) as (Hd&_&[[a Ha] [d Hd']]%(λ H, H)); [done|]. eauto 10.
Qed.

(** A deleted record can be archived again, and then no longer counts as deleted. *)
Example archive_undeletes :
  let s := foldl (λ s op, do_op op s) (new_store [(RISK_EVENT, 1)])
    [Register "r" RISK_EVENT "events" "1" (Some 0) 0; Archive "r" 10; Delete "r" day day; Archive "r" (2 * day)] in
  map (λ r, (r.(status), r.(deleted_at))) s.(_records) = [(ARCHIVED, Some day)].
Proof. by vm_compute. Qed.

Lemma deletions_are_due_witness :
  let s := foldl (λ s op, do_op op s) (new_store [(RISK_EVENT, 1)])
    [Register "r" RISK_EVENT "events" "1" (Some 0) 0; Archive "r" 10; Delete "r" day day] in
  validate_no_premature_deletion s = [] ∧
  ∀ r, r ∈ s.(_records) → r.(status) = DELETED → ∃ d a, r.(deleted_at) = Some d ∧ r.(expires_at) ≤ d ∧ r.(archived_at) = Some a.
Proof.
  apply (deletions_are_due [(RISK_EVENT, 1)] [Register "r" RISK_EVENT "events" "1" (Some 0) 0; Archive "r" 10; Delete "r" day day]).
  repeat constructor. cbn. lia.
Defined.
End RetentionStore.

(** * Secrets *)

Module SecretManager.

Inductive SecretType := API_KEY | DATABASE_PASSWORD | JWT_SECRET | BOT_TOKEN | ENCRYPTION_KEY | OAUTH_SECRET.
Inductive SecretEnvironment := PRODUCTION | DEMO | TEST.
Inductive SecretStatus := ACTIVE | EXPIRED | ROTATED | REVOKED.
#[export] Instance SecretStatus_eq_dec : EqDecision SecretStatus.
Proof. solve_decision. Defined.

Record RotationRecord := {
  rotation_id : string; secret_name : string; rotated_at : Z; previous_version : Z; new_version : Z; reason : string; performed_by : string }.
Record SecretEntry := {
  name : string; secret_type : SecretType; environment : SecretEnvironment; version : Z; status : SecretStatus; created_at : Z;
  expires_at : option Z; last_rotated_at : option Z; rotation_interval_days : Z }.
Record SecretManager := { _secrets : list (string * SecretEntry); _rotation_history : list RotationRecord }.
Definition new_manager : SecretManager := {| _secrets := []; _rotation_history := [] |}.

Definition is_expired (now : Z) (e : SecretEntry) : bool := match e.(expires_at) with None => false | Some t => t <=? now end.
Definition days_until_expiry (now : Z) (e : SecretEntry) : option Z := (λ t, Z.max 0 (days_of (t - now))) <$> e.(expires_at).
Definition needs_rotation (now : Z) (e : SecretEntry) : bool :=
  e.(rotation_interval_days) <=? days_of (now - default e.(created_at) e.(last_rotated_at)).

Definition register (nm : string) (ty : SecretType) (env : SecretEnvironment) (interval : Z) (expires : option Z) (now : Z)
    (m : SecretManager) : result string SecretEntry * SecretManager :=
  match dict_get nm m.(_secrets) with
  | Some _ => (Err ("Secret '" +:+ nm +:+ "' already registered. Use rotate() to update."), m)
  | None =>
      let e := {| name := nm; secret_type := ty; environment := env; version := 1; status := ACTIVE; created_at := now;
                  expires_at := expires; last_rotated_at := None; rotation_interval_days := interval |} in
      (Ok e, {| _secrets := dict_set nm e m.(_secrets); _rotation_history := m.(_rotation_history) |})
  end.

(** [t1], [t2], [t3]: the three readings of the clock *)
Definition rotate (id nm why by_whom : string) (t1 t2 t3 : Z) (m : SecretManager) : option SecretEntry * SecretManager :=
  match dict_get nm m.(_secrets) with
  | None => (None, m)
  | Some e =>
      let e' := {| name := e.(name); secret_type := e.(secret_type); environment := e.(environment); version := e.(version) + 1; status := ACTIVE;
                   created_at := e.(created_at); expires_at := (λ _, t3 + e.(rotation_interval_days) * day) <$> e.(expires_at);
                   last_rotated_at := Some t2; rotation_interval_days := e.(rotation_interval_days) |} in
      (Some e', {| _secrets := dict_set nm e' m.(_secrets);
                   _rotation_history := m.(_rotation_history) ++ [{| rotation_id := id; secret_name := nm; rotated_at := t1;
                     previous_version := e.(version); new_version := e.(version) + 1; reason := why; performed_by := by_whom |}] |})
  end.

Definition revoke (nm : string) (m : SecretManager) : option SecretEntry * SecretManager :=
  match dict_get nm m.(_secrets) with
  | None => (None, m)
  | Some e =>
      let e' := {| name := e.(name); secret_type := e.(secret_type); environment := e.(environment); version := e.(version); status := REVOKED;
                   created_at := e.(created_at); expires_at := e.(expires_at); last_rotated_at := e.(last_rotated_at);
                   rotation_interval_days := e.(rotation_interval_days) |} in
      (Some e', {| _secrets := dict_set nm e' m.(_secrets); _rotation_history := m.(_rotation_history) |})
  end.

Definition later (x y : RotationRecord) : Prop := y.(rotated_at) ≤ x.(rotated_at).
#[local] Instance later_dec : RelDecision later.
Proof. intros x y. unfold later. apply _. Defined.
Definition get_rotation_history (nm : option string) (limit : nat) (m : SecretManager) : list RotationRecord :=
  let history := match nm with
    | Some n => if bool_decide (n = "") then m.(_rotation_history) else filter (λ r, r.(secret_name) = n) m.(_rotation_history)
    | None => m.(_rotation_history) end in
  take limit (merge_sort later history).

Record SecretHealth := {
  healthy : bool; total_secrets : Z; active : Z; expired : list string; needing_rotation : list string; expiring_soon : list string;
  revoked : list string; total_rotations : Z }.
Definition health_check (now : Z) (m : SecretManager) : SecretHealth :=
  let live := filter (λ kv, kv.2.(status) ≠ REVOKED) m.(_secrets) in
  let expired := map fst (filter (λ kv, Is_true (is_expired now kv.2)) live) in
  let rot := map fst (filter (λ kv, Is_true (needs_rotation now kv.2 && bool_decide (kv.2.(status) = ACTIVE))) live) in
  let soon := map fst (filter (λ kv, Is_true (negb (is_expired now kv.2) &&
    match days_until_expiry now kv.2 with Some d => d <=? 30 | None => false end)) live) in
  {| healthy := bool_decide (length expired = 0%nat) && bool_decide (length rot = 0%nat); total_secrets := Z.of_nat (length m.(_secrets));
     active := Z.of_nat (length (filter (λ kv, kv.2.(status) = ACTIVE) m.(_secrets))); expired := expired; needing_rotation := rot;
     expiring_soon := soon; revoked := map fst (filter (λ kv, kv.2.(status) = REVOKED) m.(_secrets));
     total_rotations := Z.of_nat (length m.(_rotation_history)) |}.

(** ** Versions count rotations *)

Inductive SecretOp :=
  | Register (nm : string) (ty : SecretType) (env : SecretEnvironment) (interval : Z) (expires : option Z) (now : Z)
  | Rotate (id nm why by_whom : string) (t1 t2 t3 : Z) | Revoke (nm : string).
Definition do_op (op : SecretOp) (m : SecretManager) : SecretManager :=
  match op with
  | Register nm ty env interval expires now => (register nm ty env interval expires now m).2
  | Rotate id nm why by_whom t1 t2 t3 => (rotate id nm why by_whom t1 t2 t3 m).2
  | Revoke nm => (revoke nm m).2
  end.
Definition do_ops (ops : list SecretOp) (m : SecretManager) : SecretManager := foldl (λ m op, do_op op m) m ops.

Definition history_of (nm : string) (m : SecretManager) : list (Z * Z) :=
  map (λ r, (r.(previous_version), r.(new_version))) (filter (λ r, r.(secret_name) = nm) m.(_rotation_history)).
(** [(1, 2); (2, 3); ...]: [n] rotations *)
Definition rotations (n : nat) : list (Z * Z) := map (λ v, (v, v + 1)) (seqZ 1 (Z.of_nat n)).
Definition counted (m : SecretManager) : Prop := ∀ nm,
  match dict_get nm m.(_secrets) with
  | Some e => 1 ≤ e.(version) ∧ history_of nm m = rotations (Z.to_nat (e.(version) - 1))
  | None => history_of nm m = []
  end.

Lemma rotations_snoc n : rotations (S n) = rotations n ++ [(Z.of_nat n + 1, Z.of_nat n + 2)].
Proof. unfold rotations. rewrite seqZ_S, map_app. cbn [map]. do 3 f_equal; lia. Qed.

Lemma do_op_counted op m : counted m → counted (do_op op m).
Proof.
  intros Hm. destruct op as [nm ty env interval expires now|id nm why by_whom t1 t2 t3|nm]; cbn.
  - unfold register. pose proof (Hm nm) as Hn. destruct (dict_get nm (_secrets m)) as [e|]; [done|]. intros x. cbn.
    rewrite dict_get_set. case_bool_decide; [subst; cbn; by split|]. apply Hm.
  - unfold rotate. pose proof (Hm nm) as Hn. destruct (dict_get nm (_secrets m)) as [e|]; [|done]. destruct Hn as [Hv Hh]. intros x. cbn.
    rewrite dict_get_set. unfold history_of. cbn [_rotation_history]. rewrite filter_app, map_app. case_bool_decide as E.
    + subst x. rewrite filter_cons_True, filter_nil by done. cbn [map version previous_version new_version]. fold (history_of nm m). rewrite Hh. split; [lia|].
      replace (Z.to_nat (version e + 1 - 1)) with (S (Z.to_nat (version e - 1))) by lia. rewrite rotations_snoc. do 3 f_equal; lia.
    + rewrite filter_cons_False, filter_nil by (cbn; congruence). cbn [map]. rewrite app_nil_r. apply Hm.
  - unfold revoke. pose proof (Hm nm) as Hn. destruct (dict_get nm (_secrets m)) as [e|]; [|done]. intros x. cbn.
    rewrite dict_get_set. case_bool_decide; [subst; cbn; by apply Hn|]. apply Hm.
Qed.

(** Versions count rotations: whatever secrets are registered, rotated and revoked,
    the history of a secret is the gapless sequence of the rotations from version 1 to its
    current version, and a name that is not registered has none. *)
Theorem versions_count_rotations ops nm :
  let m := do_ops ops new_manager in
  match dict_get nm m.(_secrets) with
  | Some e => 1 ≤ e.(version) ∧ history_of nm m = rotations (Z.to_nat (e.(version) - 1))
  | None => history_of nm m = []
  end.
Proof.
  cbv zeta. revert nm. change (counted (do_ops ops new_manager)). assert (counted new_manager) as H by done.
  generalize new_manager H. clear H. unfold do_ops. induction ops as [|op ops IH]; intros m Hm; [done|]. cbn. by apply IH, do_op_counted.
Qed.

(** A rotation puts a revoked secret into service again. *)
Example rotation_revives :
  option_map status (dict_get "KIS" (do_ops [Register "KIS" API_KEY PRODUCTION 90 None 0; Revoke "KIS"; Rotate "1" "KIS" "scheduled" "system" 1 1 1]
    new_manager).(_secrets)) = Some ACTIVE.
Proof. by vm_compute. Qed.
End SecretManager.

(** * Reports *)

Module ComplianceReportGenerator.

Inductive ComplianceGrade := COMPLIANT | MINOR_ISSUES | NON_COMPLIANT.
Inductive SectionStatus := PASS | WARNING | FAIL.
#[export] Instance SectionStatus_eq_dec : EqDecision SectionStatus.
Proof. solve_decision. Defined.
(** What a section found *)
Inductive Finding :=
  | ChainBroken (index : option Z) | NoEntries | PrematureDeletions (n : Z) | PendingExpiry (n : Z) | PiiDetected (n : Z) | SettingsExposed (n : Z)
  | DailyLossTriggered | MddTriggered | KillSwitchActive | TradingHalted.
Record ReportSection := { title : string; status : SectionStatus; findings : list Finding }.
Record ComplianceReport := {
  report_id : string; generated_at : Z; period_start : option Z; period_end : option Z; sections : list ReportSection;
  overall_grade : ComplianceGrade; pass_count : Z; warning_count : Z; fail_count : Z }.
Definition Reports := list ComplianceReport.

Definition noted (b : bool) (f : Finding) : list Finding := if b then [f] else [].

(** [integrity_result]: the keys valid, total_entries and broken_at_index *)
Definition generate_audit_report (valid : option bool) (total_entries broken_at_index : option Z) : ReportSection :=
  let is_valid := default false valid in
  let total := default 0 total_entries in
  {| title := "감사 로그 무결성"; status := if is_valid && (0 <? total) then PASS else if negb is_valid then FAIL else WARNING;
     findings := noted (negb is_valid) (ChainBroken broken_at_index) ++ noted (total =? 0) NoEntries |}.
Definition generate_retention_report (stats : RetentionStore.Stats) (violations : list RetentionStore.RetentionRecord) : ReportSection :=
  let n := Z.of_nat (length violations) in
  let pending := stats.(RetentionStore.pending_expiry) in
  {| title := "거래 기록 보존 정책"; status := if 0 <? n then FAIL else if 0 <? pending then WARNING else PASS;
     findings := noted (0 <? n) (PrematureDeletions n) ++ noted (0 <? pending) (PendingExpiry pending) |}.
Definition generate_pii_report (pii_detections settings_violations : Z) : ReportSection :=
  {| title := "개인정보 보호"; status := if (0 <? pii_detections) || (0 <? settings_violations) then FAIL else PASS;
     findings := noted (0 <? pii_detections) (PiiDetected pii_detections) ++ noted (negb (settings_violations =? 0)) (SettingsExposed settings_violations) |}.
Definition generate_risk_report (daily_loss_triggered mdd_triggered kill_switch_active trading_halted : bool) : ReportSection :=
  {| title := "리스크 한도 준수"; status := if kill_switch_active || mdd_triggered then FAIL else if daily_loss_triggered || trading_halted then WARNING else PASS;
     findings := noted daily_loss_triggered DailyLossTriggered ++ noted mdd_triggered MddTriggered ++ noted kill_switch_active KillSwitchActive ++
       noted trading_halted TradingHalted |}.

Definition count_of (st : SectionStatus) (l : list ReportSection) : Z := Z.of_nat (length (filter (λ x, x.(status) = st) l)).
Definition generate_comprehensive_report (id : string) (l : list ReportSection) (start stop : option Z) (now : Z) (reports : Reports) :
    ComplianceReport * Reports :=
  let f := count_of FAIL l in
  let w := count_of WARNING l in
  let r := {| report_id := id; generated_at := now; period_start := start; period_end := stop; sections := l;
    overall_grade := if 0 <? f then NON_COMPLIANT else if 0 <? w then MINOR_ISSUES else COMPLIANT;
    pass_count := count_of PASS l; warning_count := w; fail_count := f |} in
  (r, reports ++ [r]).
Definition get_latest_report (reports : Reports) : option ComplianceReport := last reports.

Definition newer (x y : ComplianceReport) : Prop := y.(generated_at) ≤ x.(generated_at).
#[local] Instance newer_dec : RelDecision newer.
Proof. intros x y. unfold newer. apply _. Defined.
Definition get_reports (limit : nat) (reports : Reports) : list ComplianceReport := take limit (merge_sort newer reports).

(** ** The grade *)

Lemma count_of_pos st l : 0 < count_of st l ↔ Exists (λ x, x.(status) = st) l.
Proof.
  unfold count_of. induction l as [|x l IH]; [split; [done|inversion 1]|]. rewrite filter_cons, Exists_cons. case_decide; cbn [length]; [|naive_solver].
  split; [by left|lia].
Qed.
Definition grade (l : list ReportSection) : ComplianceGrade :=
  if 0 <? count_of FAIL l then NON_COMPLIANT else if 0 <? count_of WARNING l then MINOR_ISSUES else COMPLIANT.
Lemma grade_fail l : grade l = NON_COMPLIANT ↔ Exists (λ x, x.(status) = FAIL) l.
Proof.
  rewrite <- count_of_pos. unfold grade. destruct (Z.ltb_spec 0 (count_of FAIL l)); [by split|]. split; [by case_match|lia].
Qed.
Lemma grade_pass l : grade l = COMPLIANT ↔ Forall (λ x, x.(status) = PASS) l.
Proof.
  assert (Forall (λ x, x.(status) = PASS) l ↔ ¬ Exists (λ x, x.(status) = FAIL) l ∧ ¬ Exists (λ x, x.(status) = WARNING) l) as ->.
  { induction l as [|x l IH]; [split; [by split; inversion 1|constructor]|]. rewrite Forall_cons, !Exists_cons, IH. destruct (status x); naive_solver. }
  rewrite <- !count_of_pos. unfold grade. destruct (Z.ltb_spec 0 (count_of FAIL l)); [naive_solver|].
  destruct (Z.ltb_spec 0 (count_of WARNING l)); [naive_solver|]. split; [lia|done].
Qed.

Lemma audit_status valid total broken :
  ((generate_audit_report valid total broken).(status) = FAIL ↔ valid ≠ Some true) ∧
  ((generate_audit_report valid total broken).(status) = PASS ↔ valid = Some true ∧ 0 < default 0 total).
Proof. cbn. destruct valid as [[]|], (Z.ltb_spec 0 (default 0 total)); cbn; naive_solver lia. Qed.
Lemma retention_status stats violations :
  ((generate_retention_report stats violations).(status) = FAIL ↔ violations ≠ []) ∧
  ((generate_retention_report stats violations).(status) = PASS ↔ violations = [] ∧ stats.(RetentionStore.pending_expiry) ≤ 0).
Proof.
  cbn. destruct violations as [|v vs]; cbn; [|naive_solver]. destruct (Z.ltb_spec 0 stats.(RetentionStore.pending_expiry)); naive_solver lia.
Qed.
Lemma pii_status pii exposed :
  ((generate_pii_report pii exposed).(status) = FAIL ↔ 0 < pii ∨ 0 < exposed) ∧
  ((generate_pii_report pii exposed).(status) = PASS ↔ pii ≤ 0 ∧ exposed ≤ 0).
Proof. cbn. destruct (Z.ltb_spec 0 pii), (Z.ltb_spec 0 exposed); cbn; naive_solver lia. Qed.
Lemma risk_status daily mdd kill halted :
  ((generate_risk_report daily mdd kill halted).(status) = FAIL ↔ kill = true ∨ mdd = true) ∧
  ((generate_risk_report daily mdd kill halted).(status) = PASS ↔ (daily || mdd || kill || halted) = false).
Proof. destruct daily, mdd, kill, halted; cbn; naive_solver. Qed.

(** The grade of the four sections: compliant exactly when the chain of a log that is
    not empty is valid, no record was deleted early or awaits its expiry, nothing personal
    was exposed and no limit has triggered; not compliant exactly when the chain is broken,
    a record was deleted early, something was exposed, or the kill switch or the drawdown
    limit is on.  The report is the latest one. *)
Theorem grade_of_report id valid total broken stats violations pii exposed daily mdd kill halted start stop now reports :
  let l := [generate_audit_report valid total broken; generate_retention_report stats violations; generate_pii_report pii exposed;
            generate_risk_report daily mdd kill halted] in
  let '(r, reports') := generate_comprehensive_report id l start stop now reports in
  get_latest_report reports' = Some r ∧
  (r.(overall_grade) = NON_COMPLIANT ↔
     valid ≠ Some true ∨ violations ≠ [] ∨ 0 < pii ∨ 0 < exposed ∨ kill = true ∨ mdd = true) ∧
  (r.(overall_grade) = COMPLIANT ↔
     valid = Some true ∧ 0 < default 0 total ∧ violations = [] ∧ stats.(RetentionStore.pending_expiry) ≤ 0 ∧ pii ≤ 0 ∧ exposed ≤ 0 ∧
     (daily || mdd || kill || halted) = false).
Proof.
  cbn zeta. unfold generate_comprehensive_report, get_latest_report. rewrite last_snoc. split; [done|]. cbn [overall_grade].
  set (l := [_; _; _; _]). fold (grade l). rewrite grade_fail, grade_pass. unfold l. rewrite !Exists_cons, Exists_nil, !Forall_cons, Forall_nil.
  destruct (audit_status valid total broken) as [-> ->], (retention_status stats violations) as [-> ->], (pii_status pii exposed) as [-> ->],
    (risk_status daily mdd kill halted) as [-> ->]. tauto.
Qed.
End ComplianceReportGenerator.
