(* ===== verification/Health.v ===== *)
(** Checks before trading: core/health_checker.py and core/demo_verifier.py.

    The answers of databases and of HTTP services are arguments.  Messages, details and
    latencies are left out.  What the trading guard says of the environment is the
    argument [guard], the [allowed] of [TradingGuard().verify_environment()] ([Guard]). *)

From stdpp Require Import base option list strings.
From Stdlib Require Import ZArith Lia.
From S2P Require Import Prelude PyFloat PyDict PyFormat Constants KisClient Lifecycle.

(** The settings that the checks read besides those of the mode manager *)
Record CheckedSettings := {
  base : Lifecycle.Settings; secret_key : string; initial_capital_krw : Z; anthropic_key : string }.
Definition empty (s : string) : bool := bool_decide (s = "").

Module HealthChecker.
Inductive HealthStatus := HEALTHY | DEGRADED | UNHEALTHY | UNKNOWN.
#[export] Instance HealthStatus_eq_dec : EqDecision HealthStatus.
Proof. solve_decision. Defined.
Record ComponentHealth := { name : string; status : HealthStatus }.
Record SystemHealthReport := {
  overall_status : HealthStatus; components : list ComponentHealth; trading_mode : TradingMode; environment : string; ready_for_trading : bool }.

(** What the three databases answer *)
Record Databases := { postgresql : result exc unit; mongodb : result exc unit; redis : result exc unit }.

Definition answered (nm : string) (r : result exc unit) : ComponentHealth :=
  {| name := nm; status := match r with Ok _ => HEALTHY | Err _ => UNHEALTHY end |}.
Definition _check_postgresql (d : Databases) : ComponentHealth := answered "postgresql" d.(postgresql).
Definition _check_mongodb (d : Databases) : ComponentHealth := answered "mongodb" d.(mongodb).
Definition _check_redis (d : Databases) : ComponentHealth := answered "redis" d.(redis).

Definition _check_settings_validity (s : CheckedSettings) : ComponentHealth :=
  let kis := s.(base).(kis) in
  let warnings :=
    (if empty s.(base).(bot_token) || bool_decide (s.(base).(bot_token) = "test-bot-token") then ["telegram"] else []) ++
    (if empty s.(secret_key) || bool_decide (s.(secret_key) = "test-secret-key") then ["dashboard"] else []) in
  let cred := Settings.active_credential kis in
  {| name := "settings_validity";
     status := if Settings.is_live kis && (empty cred.(app_key) || empty cred.(app_secret)) then UNHEALTHY
               else match warnings with [] => HEALTHY | _ => DEGRADED end |}.

Definition complete (c : KISCredential) : bool := negb (empty c.(app_key)) && negb (empty c.(app_secret)) && negb (empty c.(account_no)).
Definition _check_trading_mode_readiness (s : CheckedSettings) : ComponentHealth :=
  let kis := s.(base).(kis) in
  let cred := Settings.active_credential kis in
  {| name := "trading_mode_readiness";
     status := if Settings.is_backtest kis then HEALTHY
               else if Settings.is_demo kis then (if complete cred then HEALTHY else UNHEALTHY)
               else if Settings.is_live kis then
                 (if negb (is_production s.(base)) then UNHEALTHY else if complete cred then HEALTHY else UNHEALTHY)
               else UNKNOWN |}.

Definition run_full_check (d : Databases) (s : CheckedSettings) : SystemHealthReport :=
  let components := [_check_postgresql d; _check_mongodb d; _check_redis d; _check_settings_validity s; _check_trading_mode_readiness s] in
  let statuses := map status components in
  let overall :=
    if forallb (λ x, bool_decide (x = HEALTHY)) statuses then HEALTHY
    else if existsb (λ x, bool_decide (x = UNHEALTHY)) statuses then UNHEALTHY else DEGRADED in
  {| overall_status := overall; components := components; trading_mode := s.(base).(kis).(KisClient.trading_mode);
     environment := s.(base).(Lifecycle.environment); ready_for_trading := bool_decide (overall = HEALTHY) || bool_decide (overall = DEGRADED) |}.

Lemma ready_iff d s : (run_full_check d s).(ready_for_trading) = true ↔ Forall (λ c, c.(status) ≠ UNHEALTHY) (run_full_check d s).(components).
Proof.
  unfold run_full_check. set (l := [_; _; _; _; _]). cbn [ready_for_trading components]. clearbody l.
  assert (Forall (λ c, c.(status) ≠ UNHEALTHY) l ↔ existsb (λ x, bool_decide (x = UNHEALTHY)) (map status l) = false) as ->.
  { induction l as [|c l IH]; [by split|]. rewrite Forall_cons, IH. cbn. rewrite orb_false_iff, bool_decide_eq_false. done. }
  destruct (forallb _ _) eqn:E; [|by destruct (existsb _ _)]. split; [|done]. intros _. induction l as [|c l IH]; [done|]. cbn in *.
  apply andb_true_iff in E as [Ec El]. apply bool_decide_eq_true in Ec. rewrite Ec. cbn. auto.
Qed.
Lemma answered_ok nm r : (answered nm r).(status) ≠ UNHEALTHY ↔ is_ok r = true.
Proof. destruct r; cbn; naive_solver. Qed.
Lemma mode_ok s : (_check_settings_validity s).(status) ≠ UNHEALTHY ∧ (_check_trading_mode_readiness s).(status) ≠ UNHEALTHY ↔
  match s.(base).(kis).(KisClient.trading_mode) with
  | BACKTEST => True
  | DEMO => complete s.(base).(kis).(demo) = true
  | LIVE => complete s.(base).(kis).(live) = true ∧ is_production s.(base) = true
  end.
Proof.
  unfold _check_settings_validity, _check_trading_mode_readiness, Settings.active_credential, Settings.is_live, Settings.is_demo,
    Settings.is_backtest, complete. cbn. set (w := _ ++ _). clearbody w. destruct (KisClient.trading_mode _); cbn; eval_decides.
  - destruct (empty _), (empty _), (empty _), (is_production _), w; cbn; naive_solver.
  - destruct (_ && _), w; naive_solver.
  - destruct w; naive_solver.
Qed.

(** The system reports itself ready for trading exactly when the three databases
    answer and the mode's credentials are complete: in the live mode only in production,
    in the backtest mode without any.  Default tokens only degrade the report. *)
Theorem ready_for_trading_decides d s :
  (run_full_check d s).(ready_for_trading) = true ↔
  is_ok d.(postgresql) = true ∧ is_ok d.(mongodb) = true ∧ is_ok d.(redis) = true ∧
  match s.(base).(kis).(KisClient.trading_mode) with
  | BACKTEST => True
  | DEMO => complete s.(base).(kis).(demo) = true
  | LIVE => complete s.(base).(kis).(live) = true ∧ is_production s.(base) = true
  end.
Proof.
  rewrite ready_iff, <- mode_ok. cbn [components run_full_check]. rewrite !Forall_cons, Forall_nil.
  unfold _check_postgresql, _check_mongodb, _check_redis. rewrite !answered_ok. tauto.
Qed.
End HealthChecker.

Module DemoVerifier.
Inductive VerifyStatus := PASS | FAIL | WARN | SKIP.
#[export] Instance VerifyStatus_eq_dec : EqDecision VerifyStatus.
Proof. solve_decision. Defined.
Record VerifyItem := { name : string; status : VerifyStatus; required : bool }.
Record DemoVerificationReport := { items : list VerifyItem; trading_mode : TradingMode; environment : string }.
Definition all_required_passed (r : DemoVerificationReport) : bool :=
  forallb (λ i, bool_decide (i.(status) = PASS)) (List.filter required r.(items)).
Definition can_start_demo : DemoVerificationReport → bool := all_required_passed.
Definition count_of (st : VerifyStatus) (r : DemoVerificationReport) : Z := Z.of_nat (length (List.filter (λ i, bool_decide (i.(status) = st)) r.(items))).
Definition passed_count := count_of PASS.
Definition failed_count := count_of FAIL.
Definition warn_count := count_of WARN.

(** What the services answer *)
Record World := {
  token_answer : result exc Response; balance_answer : result exc Response; anthropic_answer : result exc Response;
  telegram_answer : result exc Response; connect : string → result exc unit; guard : result exc bool }.

Definition must (nm : string) (ok : bool) : VerifyItem := {| name := nm; status := if ok then PASS else FAIL; required := true |}.
Definition may (nm : string) (st : VerifyStatus) : VerifyItem := {| name := nm; status := st; required := false |}.

Definition _verify_trading_mode (s : CheckedSettings) : VerifyItem := must "mode" (Settings.is_demo s.(base).(kis)).
Definition test_defaults : list string := ["test_key_demo"; "test_secret_demo"; "87654321-01"; ""].
Definition _verify_demo_credentials (s : CheckedSettings) : VerifyItem :=
  let c := s.(base).(kis).(demo) in
  must "credentials" (forallb (λ x, negb (bool_decide (x ∈ test_defaults))) [c.(app_key); c.(app_secret); c.(account_no)]).

(** [k in v] of decoded JSON *)
Definition contains (k : string) (v : JValue) : result exc bool :=
  match v with
  | JObject fields => Ok (match dict_get k fields with Some _ => true | None => false end)
  | JArray l => Ok (existsb (λ x, is_str x k) l)
  | JStr s => Ok (PyFormat.contains k s)
  | _ => Err (OtherException "TypeError" "")
  end.
(** [v[:20] + "..."] *)
Definition preview (v : JValue) : result exc unit := match v with JStr _ => Ok tt | _ => Err (OtherException "TypeError" "") end.
Definition no_keys (s : CheckedSettings) : bool := let c := s.(base).(kis).(demo) in empty c.(app_key) || empty c.(app_secret).
Definition skip (nm : string) : VerifyItem := {| name := nm; status := SKIP; required := true |}.

Definition _verify_kis_token_issuance (s : CheckedSettings) (w : World) : VerifyItem :=
  let nm := "token" in
  if no_keys s then skip nm else
  match rbind w.(token_answer) (λ resp,
    if resp.(status_code) =? 200 then
      rbind resp.(json) (λ data, rbind (contains "access_token" data) (λ b,
        if b then rbind (subscript data "access_token") (λ t, rmap (λ _, PASS) (preview t))
        else rmap (λ _, FAIL) (get_or data "msg1" (JStr "unknown"))))
    else Ok FAIL) with
  | Ok st => {| name := nm; status := st; required := true |}
  | Err _ => must nm false
  end.

(** [v[0]] and [len(v)] *)
Definition first (v : JValue) : result exc JValue :=
  match v with JArray (x :: _) => Ok x | JStr (String a _) => Ok (JStr (String a "")) | _ => Err (OtherException "TypeError" "") end.
Definition sized (v : JValue) : result exc unit :=
  match v with JArray _ | JStr _ | JObject _ => Ok tt | _ => Err (OtherException "TypeError" "") end.
Definition _verify_kis_balance_query (s : CheckedSettings) (w : World) : VerifyItem :=
  let nm := "balance" in
  if no_keys s then skip nm else
  match rbind w.(token_answer) (λ token_resp,
    if negb (token_resp.(status_code) =? 200) then Ok SKIP else
    rbind token_resp.(json) (λ tok, rbind (get_or tok "access_token" (JStr "")) (λ _,
    rbind w.(balance_answer) (λ resp,
    if resp.(status_code) =? 200 then
      rbind resp.(json) (λ data, rbind (get_or data "rt_cd" (JStr "")) (λ rt_cd,
      if is_str rt_cd "0" then
        rbind (get_or data "output2" (JArray [JObject []])) (λ output2,
        rbind (if truthy output2 then rbind (first output2) (λ x, rbind (get_or x "dnca_tot_amt" (JStr "0")) py_int_of) else Ok 0) (λ _,
        rbind (get_or data "output1" (JArray [])) (λ positions, rmap (λ _, PASS) (sized positions))))
      else Ok FAIL))
    else Ok FAIL)))) with
  | Ok st => {| name := nm; status := st; required := true |}
  | Err _ => must nm false
  end.

(** The names of the module db.database *)
Definition database_names : list string := [
  "AsyncGenerator"; "AsyncIOMotorClient"; "AsyncIOMotorDatabase"; "Redis"; "AsyncSession"; "async_sessionmaker"; "create_async_engine";
  "DeclarativeBase"; "get_settings"; "settings"; "Base"; "engine"; "async_session_factory"; "get_db_session"; "MongoDBManager"; "RedisManager"].
(** [from db.database import n] *)
Definition import_database (n : string) : result exc unit :=
  if bool_decide (n ∈ database_names) then Ok tt else Err (OtherException "ImportError" n).
Definition _verify_database (nm imported : string) (w : World) : VerifyItem :=
  must nm (is_ok (rbind (import_database imported) (λ _, w.(connect) nm))).
Definition _verify_postgresql (w : World) : VerifyItem := _verify_database "PostgreSQL" "get_db_engine" w.
Definition _verify_mongodb (w : World) : VerifyItem := _verify_database "MongoDB" "get_mongo_client" w.
Definition _verify_redis (w : World) : VerifyItem := _verify_database "Redis" "get_redis_client" w.

Definition _verify_anthropic_api (s : CheckedSettings) (w : World) : VerifyItem :=
  may "Anthropic API" (if empty s.(anthropic_key) || String.prefix "test_" s.(anthropic_key) then WARN else
    match w.(anthropic_answer) with Ok resp => if resp.(status_code) =? 200 then PASS else WARN | Err _ => WARN end).
Definition _verify_telegram (s : CheckedSettings) (w : World) : VerifyItem :=
  may "Telegram" (if empty s.(base).(bot_token) || String.prefix "test" s.(base).(bot_token) then WARN else
    match rbind w.(telegram_answer) (λ resp,
      if resp.(status_code) =? 200 then
        rbind resp.(json) (λ data, rbind (get_or data "ok" JNull) (λ ok,
        if truthy ok then rbind (get_or data "result" (JObject [])) (λ bot, rmap (λ _, PASS) (get_or bot "username" JNull)) else Ok WARN))
      else Ok WARN) with
    | Ok st => st
    | Err _ => WARN
    end).

Definition _verify_risk_settings (s : CheckedSettings) : VerifyItem :=
  must "risk" (negb ((s.(initial_capital_krw) <=? 0) || (s.(base).(daily_loss_limit_krw) <=? 0) ||
    (fleZ s.(base).(max_drawdown) 0 || fgtZ s.(base).(max_drawdown) 1) || (s.(base).(max_order_amount_krw) <=? 0))).
Definition _verify_trading_guard (w : World) : VerifyItem :=
  match w.(guard) with Ok true => must "TradingGuard" true | Ok false => may "TradingGuard" WARN | Err _ => must "TradingGuard" false end.

Definition run_full_verification (s : CheckedSettings) (w : World) : DemoVerificationReport := {|
  items := [_verify_trading_mode s; _verify_demo_credentials s; _verify_kis_token_issuance s w; _verify_kis_balance_query s w;
    _verify_postgresql w; _verify_mongodb w; _verify_redis w; _verify_anthropic_api s w; _verify_telegram s w;
    _verify_risk_settings s; _verify_trading_guard w];
  trading_mode := s.(base).(kis).(KisClient.trading_mode); environment := s.(base).(Lifecycle.environment) |}.

Lemma database_fails nm imported w : imported ∉ database_names → _verify_database nm imported w = must nm false.
Proof. intros H. unfold _verify_database, import_database. by rewrite bool_decide_false. Qed.

Lemma filter_middle {A} (f : A → bool) l1 l2 l3 : (length (List.filter f l2) ≤ length (List.filter f (l1 ++ l2 ++ l3)))%nat.
Proof. rewrite !List.filter_app, !length_app. lia. Qed.

(** The verification of the demo mode never passes: it imports three functions that
    db/database.py does not define, so whatever is configured and whatever the services
    answer, the three databases fail and the demo mode cannot be started. *)
Theorem demo_verification_never_passes s w :
  can_start_demo (run_full_verification s w) = false ∧ 3 ≤ failed_count (run_full_verification s w).
Proof.
  unfold run_full_verification, _verify_postgresql, _verify_mongodb, _verify_redis. rewrite !database_fails by (by apply (bool_decide_unpack _)).
  split.
  - unfold can_start_demo, all_required_passed. cbn [items]. apply not_true_iff_false. rewrite forallb_forall. intros H.
    specialize (H (must "Redis" false)). discriminate H. apply filter_In. split; [|done]. cbn. tauto.
  - apply (Nat2Z.inj_le 3). exact (filter_middle (λ i, bool_decide (i.(status) = FAIL))
      [_verify_trading_mode s; _verify_demo_credentials s; _verify_kis_token_issuance s w; _verify_kis_balance_query s w]
      [must "PostgreSQL" false; must "MongoDB" false; must "Redis" false] _).
Qed.
End DemoVerifier.
