(* ===== verification/Universe.v ===== *)
(** The investor's profile and universe: core/portfolio_manager/profile.py with its route
    (api/routes/profile.py), and core/portfolio_manager/universe.py.

    The table [user_profiles] has one row for each user and rounds its two amounts
    ([NUMERIC(18, 2)] and [NUMERIC(5, 4)]), which is a parameter, as is what goes wrong
    with a statement.  Amounts of the table [universe] are decimals, here in hundredths.
    Time stamps of the universe are left out. *)

From stdpp Require Import base option list sorting gmap strings.
From Stdlib Require Import ZArith Lia.
From S2P Require Import Prelude PyFloat PyDict Constants KisClient Ensemble Rebalancing.

#[global] Program Instance InvestmentStyle_enum : StrEnum InvestmentStyle := {|
  value s := match s with DISCRETIONARY => "DISCRETIONARY" | ADVISORY => "ADVISORY" end; members := [DISCRETIONARY; ADVISORY] |}.
Next Obligation. solve_enum_complete. Qed.
Next Obligation. solve_enum_inj. Qed.
#[global] Program Instance RebalancingFrequency_enum : StrEnum RebalancingFrequency := {|
  value f := match f with MONTHLY => "MONTHLY" | BIMONTHLY => "BIMONTHLY" | QUARTERLY => "QUARTERLY" end;
  members := [MONTHLY; BIMONTHLY; QUARTERLY] |}.
Next Obligation. solve_enum_complete. Qed.
Next Obligation. solve_enum_inj. Qed.

Definition ValueError (text : string) : exc := OtherException "ValueError" text.
Definition enum_of {A} `{StrEnum A} (s : string) : result exc A := match of_value s with Some a => Ok a | None => Err (ValueError s) end.

Lemma enum_of_value {A} `{StrEnum A} (a : A) : enum_of (value a) = Ok a.
Proof. unfold enum_of. by rewrite of_value_value. Qed.

(** * Profiles *)

Module InvestorProfileManager.

Record InvestorProfile := {
  user_id : string; risk_profile : RiskProfile; seed_amount : float; investment_goal : string; investment_style : InvestmentStyle;
  loss_tolerance : float; sector_filter : list string; designated_tickers : list string; rebalancing_frequency : RebalancingFrequency;
  created_at : Z; updated_at : Z }.
Record Row := {
  r_risk_profile : string; r_seed_amount : float; r_investment_goal : string; r_investment_style : string; r_loss_tolerance : float;
  r_sector_filter : option (list string); r_designated_tickers : option (list string); r_rebalancing_frequency : string;
  r_created_at : Z; r_updated_at : Z }.
Abbreviation Table := (gmap string Row).

Section Manager.
Context (round_amount round_tolerance : float → result exc float).

Definition to_row (p : InvestorProfile) : result exc Row :=
  rbind (round_amount p.(seed_amount)) (λ a, rbind (round_tolerance p.(loss_tolerance)) (λ l,
  Ok {| r_risk_profile := value p.(risk_profile); r_seed_amount := a; r_investment_goal := p.(investment_goal);
        r_investment_style := value p.(investment_style); r_loss_tolerance := l; r_sector_filter := Some p.(sector_filter);
        r_designated_tickers := Some p.(designated_tickers); r_rebalancing_frequency := value p.(rebalancing_frequency);
        r_created_at := p.(created_at); r_updated_at := p.(updated_at) |})).
Definition from_dict (user : string) (r : Row) : result exc InvestorProfile :=
  rbind (enum_of r.(r_risk_profile)) (λ rp, rbind (enum_of r.(r_investment_style)) (λ st, rbind (enum_of r.(r_rebalancing_frequency)) (λ f,
  Ok {| user_id := user; risk_profile := rp; seed_amount := r.(r_seed_amount); investment_goal := r.(r_investment_goal); investment_style := st;
        loss_tolerance := r.(r_loss_tolerance); sector_filter := default [] r.(r_sector_filter);
        designated_tickers := default [] r.(r_designated_tickers); rebalancing_frequency := f; created_at := r.(r_created_at);
        updated_at := r.(r_updated_at) |}))).

(** [fault]: the exception a statement or its commit ends with; nothing is written then *)
Definition create_profile (fault : option exc) (user : string) (rp : RiskProfile) (seed : float) (goal : string) (st : InvestmentStyle) (loss : float)
    (sectors tickers : option (list string)) (freq : option RebalancingFrequency) (now : Z) : M Table exc InvestorProfile :=
  let p := {| user_id := user; risk_profile := rp; seed_amount := seed; investment_goal := goal; investment_style := st; loss_tolerance := loss;
    sector_filter := default [] sectors; designated_tickers := default [] tickers; rebalancing_frequency := default MONTHLY freq;
    created_at := now; updated_at := now |} in
  t ← get;
  match fault with Some e => raise e | None => mret tt end;;
  r ← lift_result (to_row p);
  match t !! user with
  | Some _ => raise (OtherException "IntegrityError" "uq_user_profiles_user_id")
  | None => modify (λ t : Table, <[user := r]> t);; mret p
  end.

Definition get_profile (fault : option exc) (user : string) : M Table exc (option InvestorProfile) :=
  t ← get;
  match fault with Some e => raise e | None => mret tt end;;
  match (t : Table) !! user with None => mret None | Some r => lift_result (rmap Some (from_dict user r)) end.

(** The keyword arguments: fields of the profile, and names that are none *)
Inductive Update :=
  | SetRisk (p : RiskProfile) | SetSeed (x : float) | SetGoal (s : string) | SetStyle (s : InvestmentStyle) | SetLoss (x : float)
  | SetSectors (l : list string) | SetTickers (l : list string) | SetFrequency (f : RebalancingFrequency) | NoField (name : string).
Definition setattr (u : Update) (p : InvestorProfile) : InvestorProfile :=
  let '(rp, seed, goal, st, loss, sectors, tickers, freq) :=
    (p.(risk_profile), p.(seed_amount), p.(investment_goal), p.(investment_style), p.(loss_tolerance), p.(sector_filter),
     p.(designated_tickers), p.(rebalancing_frequency)) in
  let make rp seed goal st loss sectors tickers freq := {| user_id := p.(user_id); risk_profile := rp; seed_amount := seed; investment_goal := goal;
    investment_style := st; loss_tolerance := loss; sector_filter := sectors; designated_tickers := tickers; rebalancing_frequency := freq;
    created_at := p.(created_at); updated_at := p.(updated_at) |} in
  match u with
  | SetRisk x => make x seed goal st loss sectors tickers freq
  | SetSeed x => make rp x goal st loss sectors tickers freq
  | SetGoal x => make rp seed x st loss sectors tickers freq
  | SetStyle x => make rp seed goal x loss sectors tickers freq
  | SetLoss x => make rp seed goal st x sectors tickers freq
  | SetSectors x => make rp seed goal st loss x tickers freq
  | SetTickers x => make rp seed goal st loss sectors x freq
  | SetFrequency x => make rp seed goal st loss sectors tickers x
  | NoField _ => p
  end.
Definition touched (now : Z) (p : InvestorProfile) : InvestorProfile := {|
  user_id := p.(user_id); risk_profile := p.(risk_profile); seed_amount := p.(seed_amount); investment_goal := p.(investment_goal);
  investment_style := p.(investment_style); loss_tolerance := p.(loss_tolerance); sector_filter := p.(sector_filter);
  designated_tickers := p.(designated_tickers); rebalancing_frequency := p.(rebalancing_frequency); created_at := p.(created_at); updated_at := now |}.
(** The row after UPDATE, which leaves [created_at] *)
Definition rewritten (old new : Row) : Row := {|
  r_risk_profile := new.(r_risk_profile); r_seed_amount := new.(r_seed_amount); r_investment_goal := new.(r_investment_goal);
  r_investment_style := new.(r_investment_style); r_loss_tolerance := new.(r_loss_tolerance); r_sector_filter := new.(r_sector_filter);
  r_designated_tickers := new.(r_designated_tickers); r_rebalancing_frequency := new.(r_rebalancing_frequency);
  r_created_at := old.(r_created_at); r_updated_at := new.(r_updated_at) |}.

Definition update_profile (read_fault write_fault : option exc) (user : string) (kwargs : list Update) (now : Z) : M Table exc InvestorProfile :=
  found ← get_profile read_fault user;
  match found with
  | None => raise (ValueError ("Profile not found for user " +:+ user))
  | Some p =>
      let p := touched now (foldl (λ p u, setattr u p) p kwargs) in
      match write_fault with Some e => raise e | None => mret tt end;;
      r ← lift_result (to_row p);
      modify (λ t : Table, alter (λ old, rewritten old r) user t);;
      mret p
  end.

(** * The route *)

Record ProfileUpdateRequest := {
  q_risk_profile : string; q_investment_style : string; q_investment_goal : string; q_initial_capital : float; q_max_loss_tolerance : option float }.
(** [gt=0] and [0 <= x <= 1]: what the schema lets through *)
Definition valid_request (q : ProfileUpdateRequest) : bool :=
  fgtZ q.(q_initial_capital) 0 && match q.(q_max_loss_tolerance) with Some x => fgeZ x 0 && fleZ x 1 | None => true end.

Definition update_kwargs (q : ProfileUpdateRequest) : result exc (list Update) :=
  rbind (if bool_decide (q.(q_risk_profile) = "") then Ok [] else rmap (λ p, [SetRisk p]) (enum_of q.(q_risk_profile))) (λ a,
  rbind (if bool_decide (q.(q_investment_style) = "") then Ok [] else rmap (λ s, [SetStyle s]) (enum_of q.(q_investment_style))) (λ b,
  Ok (a ++ b ++ (if bool_decide (q.(q_investment_goal) = "") then [] else [SetGoal q.(q_investment_goal)]) ++
      (if feq q.(q_initial_capital) fzero then [] else [SetSeed q.(q_initial_capital)]) ++
      match q.(q_max_loss_tolerance) with Some x => [SetLoss x] | None => [] end))).

(** PUT /profile: an exception becomes an answer without success *)
Definition put_profile (f1 f2 f3 : option exc) (user : string) (q : ProfileUpdateRequest) (now : Z) : M Table exc (option InvestorProfile) :=
  try_except
    (existing ← get_profile f1 user;
     match existing with
     | None =>
         rp ← lift_result (enum_of q.(q_risk_profile));
         st ← lift_result (enum_of q.(q_investment_style));
         let loss := match q.(q_max_loss_tolerance) with Some x => if feq x fzero then dec 10 2 else x | None => dec 10 2 end in
         p ← create_profile f2 user rp q.(q_initial_capital) q.(q_investment_goal) st loss None None None now;
         mret (Some p)
     | Some _ =>
         kwargs ← lift_result (update_kwargs q);
         p ← update_profile f2 f3 user kwargs now;
         mret (Some p)
     end)
    (λ _, mret None).

(** * What is written is read back *)

Definition as_stored (a l : float) (p : InvestorProfile) : InvestorProfile := setattr (SetLoss l) (setattr (SetSeed a) p).
Lemma Ok_inj {A} (a b : A) : Ok (E:=exc) a = Ok b → a = b.
Proof. congruence. Qed.
Lemma read_row p r : to_row p = Ok r → ∃ a l, round_amount p.(seed_amount) = Ok a ∧ round_tolerance p.(loss_tolerance) = Ok l ∧
  from_dict p.(user_id) r = Ok (as_stored a l p) ∧ r.(r_created_at) = p.(created_at).
Proof.
  unfold to_row. destruct (round_amount _) as [a|]; [|done]. cbn [rbind]. destruct (round_tolerance _) as [l|]; [|done]. cbn [rbind]. intros <-%Ok_inj.
  exists a, l. split_and!; try done. unfold from_dict. cbn [r_risk_profile r_investment_style r_rebalancing_frequency]. by rewrite !enum_of_value.
Qed.
Lemma from_dict_fields user r p : from_dict user r = Ok p → p.(user_id) = user ∧ p.(created_at) = r.(r_created_at).
Proof. unfold from_dict, rbind. repeat (case_match; [|done]). by intros [= <-]. Qed.
Lemma updates_keep now kwargs p : let p' := touched now (foldl (λ p u, setattr u p) p kwargs) in p'.(user_id) = p.(user_id) ∧ p'.(created_at) = p.(created_at).
Proof.
  cbv zeta. unfold touched. cbn [user_id created_at]. revert p. induction kwargs as [|u l IH]; intros p; [done|]. cbn [foldl].
  destruct (IH (setattr u p)) as [-> ->]. by destruct u.
Qed.
Lemma rewritten_id old r : r.(r_created_at) = old.(r_created_at) → rewritten old r = r.
Proof. intros H. unfold rewritten. rewrite <- H. by destruct r. Qed.

Lemma get_stored user r p t : (t : Table) !! user = Some r → from_dict user r = Ok p → outcome (get_profile None user) t = Ok (Some p).
Proof. intros Ht Hr. unfold get_profile. run_m. rewrite Ht. cbn. by rewrite Hr. Qed.

(** A profile is read back as it was written, with its amounts as the table rounds
    them, after its creation and after every update; an update leaves the day of creation
    and every other user's row alone; what fails leaves the table as it was. *)
Theorem profiles_are_read_back (t : Table) user rp seed goal st loss sectors tickers freq now f kwargs now' f1 f2 :
  (let '(o, t') := create_profile f user rp seed goal st loss sectors tickers freq now t in
   match o with
   | Ok p => ∃ a l, round_amount p.(seed_amount) = Ok a ∧ round_tolerance p.(loss_tolerance) = Ok l ∧
       outcome (get_profile None user) t' = Ok (Some (setattr (SetLoss l) (setattr (SetSeed a) p))) ∧ ∀ u, u ≠ user → t' !! u = t !! u
   | Err _ => t' = t
   end) ∧
  (let '(o, t') := update_profile f1 f2 user kwargs now' t in
   match o with
   | Ok p => ∃ a l, round_amount p.(seed_amount) = Ok a ∧ round_tolerance p.(loss_tolerance) = Ok l ∧
       outcome (get_profile None user) t' = Ok (Some (setattr (SetLoss l) (setattr (SetSeed a) p))) ∧ (∀ u, u ≠ user → t' !! u = t !! u) ∧
       r_created_at <$> t' !! user = r_created_at <$> t !! user
   | Err _ => t' = t
   end).
Proof.
  split.
  - unfold create_profile. run_m. destruct f; [done|]. destruct (to_row _) as [r|] eqn:Er; [|done]. destruct (t !! user) as [r0|] eqn:Et; [done|].
    destruct (read_row _ _ Er) as (a&l&Ha&Hl&Hr&_). exists a, l. split_and!; [done|done| |].
    + apply (get_stored _ r); [apply lookup_insert_eq|done].
    + intros u Hu. by rewrite lookup_insert_ne.
  - unfold update_profile, get_profile. run_m. destruct f1; [done|]. destruct (t !! user) as [old|] eqn:Et; [|done]. cbn.
    destruct (from_dict user old) as [p0|] eqn:Ed; [|done]. cbn. destruct f2; [done|]. destruct (to_row _) as [r|] eqn:Er; [|done].
    destruct (read_row _ _ Er) as (a&l&Ha&Hl&Hr&Hc). destruct (updates_keep now' kwargs p0) as [Hu Hca]. destruct (from_dict_fields _ _ _ Ed) as [Hid Hcr].
    exists a, l. split_and!; [done|done| | |].
    + apply (get_stored _ r); [|rewrite <- Hid, <- Hu; exact Hr]. rewrite lookup_alter_eq, Et. cbn. f_equal. apply rewritten_id. exact (eq_trans Hc (eq_trans Hca Hcr)).
    + intros u Hne. by rewrite lookup_alter_ne.
    + rewrite lookup_alter_eq, Et. done.
Qed.
End Manager.

(** [_apply_profile_to_strategy] *)
Record HoldingPeriod := { min_days : Z; max_days : Z; label : string }.
Definition HOLDING_PERIOD_MAP (p : RiskProfile) : HoldingPeriod :=
  match p with
  | CONSERVATIVE => {| min_days := 14; max_days := 180; label := "포지션" |}
  | BALANCED => {| min_days := 3; max_days := 21; label := "스윙" |}
  | AGGRESSIVE => {| min_days := 1; max_days := 7; label := "단타~스윙" |}
  | DIVIDEND => {| min_days := 60; max_days := 365; label := "포지션" |}
  end.
Record StrategySettings := {
  trading_frequency : string; min_holding_days : Z; max_holding_days : Z; ensemble_weights : list (string * float);
  s_rebalancing_frequency : string; s_loss_tolerance : float; s_investment_style : string }.
Definition _apply_profile_to_strategy (p : InvestorProfile) : StrategySettings :=
  let h := HOLDING_PERIOD_MAP p.(risk_profile) in
  {| trading_frequency := h.(label); min_holding_days := h.(min_days); max_holding_days := h.(max_days);
     ensemble_weights := ENSEMBLE_DEFAULT_WEIGHTS p.(risk_profile); s_rebalancing_frequency := value p.(rebalancing_frequency);
     s_loss_tolerance := p.(loss_tolerance); s_investment_style := value p.(investment_style) |}.

(** A tolerance of zero becomes ten percent where the profile is new, and stays zero
    where it exists. *)
Example zero_tolerance :
  let q := {| q_risk_profile := "BALANCED"; q_investment_style := "ADVISORY"; q_investment_goal := "WEALTH_GROWTH"; q_initial_capital := of_Z 100;
    q_max_loss_tolerance := Some fzero |} in
  let put := put_profile Ok Ok None None None "u" q in
  valid_request q = true ∧
  match put 1 ∅ with
  | (Ok (Some p), t) => feq p.(loss_tolerance) (dec 10 2) = true ∧
      match put 2 t with (Ok (Some p'), _) => p'.(loss_tolerance) = fzero | _ => False end
  | _ => False
  end.
Proof. by vm_compute. Qed.
End InvestorProfileManager.

(** * The universe *)

Module UniverseManager.

Inductive AssetType := STOCK | ETF | BOND | ETN | REITS | CASH.
#[export] Instance AssetType_eq_dec : EqDecision AssetType.
Proof. solve_decision. Defined.
#[export] Program Instance AssetType_enum : StrEnum AssetType := {|
  value a := match a with STOCK => "STOCK" | ETF => "ETF" | BOND => "BOND" | ETN => "ETN" | REITS => "REITS" | CASH => "CASH" end;
  members := [STOCK; ETF; BOND; ETN; REITS; CASH] |}.
Next Obligation. solve_enum_complete. Qed.
Next Obligation. solve_enum_inj. Qed.

Record UniverseItem := {
  ticker : string; market : Market; sector : option string; asset_type : AssetType; market_cap : option Z; avg_daily_volume : option Z; is_active : bool }.
#[export] Instance UniverseItem_eq_dec : EqDecision UniverseItem.
Proof. solve_decision. Defined.
Record URow := {
  u_ticker : string; u_market : string; u_sector : option string; u_asset_type : string; u_market_cap : option Z; u_avg_daily_volume : option Z;
  u_is_active : bool }.

Definition item_of (r : URow) : result exc UniverseItem :=
  rbind (enum_of r.(u_market)) (λ m, rbind (enum_of r.(u_asset_type)) (λ a,
  Ok {| ticker := r.(u_ticker); market := m; sector := r.(u_sector); asset_type := a; market_cap := r.(u_market_cap);
        avg_daily_volume := r.(u_avg_daily_volume); is_active := r.(u_is_active) |})).
Fixpoint items_of (l : list URow) : result exc (list UniverseItem) :=
  match l with [] => Ok [] | r :: l' => rbind (item_of r) (λ x, rmap (cons x) (items_of l')) end.

(** [rows]: the answer of the query for the active rows, the largest first *)
Definition _load_all_active_stocks (rows : result exc (list URow)) : list UniverseItem :=
  match rbind rows items_of with Ok l => l | Err _ => [] end.

(** [item.sector not in sectors] *)
Definition kept (sector_filter : list string) (i : UniverseItem) : Prop := match i.(sector) with Some s => s ∉ sector_filter | None => True end.
#[export] Instance kept_dec sectors i : Decision (kept sectors i).
Proof. unfold kept. destruct (sector i); apply _. Defined.
Definition _apply_sector_filter (items : list UniverseItem) (sectors : list string) : list UniverseItem :=
  filter (kept sectors) items.

Definition dummy (t : string) : UniverseItem := {|
  ticker := t; market := KRX; sector := Some "Unknown"; asset_type := STOCK; market_cap := None; avg_daily_volume := None; is_active := true |}.
Definition _apply_designated_tickers (items : list UniverseItem) (tickers : list string) : list UniverseItem :=
  items ++ (dummy <$> filter (λ t, t ∉ ticker <$> items) tickers).

(** [sorted(volumes)[int(len(volumes) * 0.2)]] *)
Definition volume_threshold (volumes : list Z) : result exc Z :=
  match trunc (fmul (of_Z (Z.of_nat (length volumes))) (dec 2 1)) with
  | Some i => match merge_sort Z.le volumes !! Z.to_nat i with Some v => Ok v | None => Err (OtherException "IndexError" "") end
  | None => Err (OtherException "OverflowError" "")
  end.
Definition liquid (threshold : Z) (i : UniverseItem) : Prop := match i.(avg_daily_volume) with Some v => threshold ≤ v | None => True end.
#[export] Instance liquid_dec threshold i : Decision (liquid threshold i).
Proof. unfold liquid. destruct (avg_daily_volume i); apply _. Defined.
Definition _apply_auto_filter (items : list UniverseItem) : result exc (list UniverseItem) :=
  let volumes := omap avg_daily_volume items in
  rbind (if bool_decide (length volumes = 0%nat) then Ok items
         else rmap (λ th, filter (liquid th) items) (volume_threshold volumes)) (λ items,
  Ok (filter (λ i, i.(is_active) = true) items)).

(** [build_universe] and [refresh_universe].  What storing the result raises is swallowed
    by [_store_universe]. *)
Definition build_universe (rows : result exc (list URow)) (sector_filter designated_tickers : list string) : result exc (list UniverseItem) :=
  let items := _load_all_active_stocks rows in
  let items := if bool_decide (length sector_filter = 0%nat) then items else _apply_sector_filter items sector_filter in
  _apply_auto_filter (_apply_designated_tickers items designated_tickers).

(** ** What is in the universe *)

(** One row with an unknown market, or a query that fails, empties the universe down to
    the designated tickers. *)
Example one_bad_row :
  let good t := {| u_ticker := t; u_market := "KRX"; u_sector := None; u_asset_type := "STOCK"; u_market_cap := None; u_avg_daily_volume := None; u_is_active := true |} in
  let bad := {| u_ticker := "C"; u_market := "KONEX"; u_sector := None; u_asset_type := "STOCK"; u_market_cap := None; u_avg_daily_volume := None; u_is_active := true |} in
  build_universe (Ok [good "A"; bad; good "B"]) [] ["X"] = Ok [dummy "X"].
Proof. by vm_compute. Qed.

(** A designated ticker of the table is dropped where its volume is in the lowest fifth. *)
Example designated_dropped :
  let row t v := {| u_ticker := t; u_market := "KRX"; u_sector := None; u_asset_type := "STOCK"; u_market_cap := None; u_avg_daily_volume := Some v; u_is_active := true |} in
  rmap (map ticker) (build_universe (Ok [row "A" 100; row "B" 200; row "C" 300; row "D" 400; row "E" 500]) [] ["A"]) = Ok ["B"; "C"; "D"; "E"].
Proof. by vm_compute. Qed.

Lemma threshold_occurs volumes th : volume_threshold volumes = Ok th → th ∈ volumes.
Proof.
  unfold volume_threshold. destruct (trunc _) as [i|]; [|done]. destruct (_ !! _) as [v|] eqn:E; [|done]. intros [= <-].
  rewrite <- (merge_sort_Permutation Z.le volumes). by eapply list_elem_of_lookup_2.
Qed.

(** The universe holds exactly the active items of the table that are not in a
    filtered sector and, where volumes are known, are liquid enough, and for each
    designated ticker that is not among the former a stand-in on the Korean exchange.  The
    threshold is the volume of one of the former, and is missing only where none has a
    volume. *)
Theorem universe_members rows sector_filter designated items :
  build_universe rows sector_filter designated = Ok items →
  ∃ threshold,
    (match threshold with
     | Some th => ∃ j, j ∈ _load_all_active_stocks rows ∧ kept sector_filter j ∧ j.(avg_daily_volume) = Some th
     | None => ∀ j, j ∈ _load_all_active_stocks rows → kept sector_filter j → j.(avg_daily_volume) = None
     end) ∧
    ∀ i, i ∈ items ↔
    (match i.(avg_daily_volume), threshold with Some v, Some th => th ≤ v | _, _ => True end) ∧
    ((i ∈ _load_all_active_stocks rows ∧ kept sector_filter i ∧ i.(is_active) = true) ∨
     (∃ t, i = dummy t ∧ t ∈ designated ∧ ∀ j, j ∈ _load_all_active_stocks rows → kept sector_filter j → j.(ticker) ≠ t)).
Proof.
  intros H. unfold build_universe in H.
  set (items1 := if bool_decide (length sector_filter = 0%nat) then _ else _) in H.
  assert (∀ i, i ∈ items1 ↔ i ∈ _load_all_active_stocks rows ∧ kept sector_filter i) as H1.
  { intros i. unfold items1. case_bool_decide as E.
    - destruct sector_filter; [|done]. unfold kept. destruct (sector i); set_solver.
    - unfold _apply_sector_filter. rewrite list_elem_of_filter. tauto. }
  clearbody items1. set (items2 := _apply_designated_tickers items1 designated) in H.
  assert (∀ i, i ∈ items2 ↔ i ∈ items1 ∨ ∃ t, i = dummy t ∧ t ∈ designated ∧ t ∉ ticker <$> items1) as H2.
  { intros i. unfold items2, _apply_designated_tickers. rewrite elem_of_app, list_elem_of_fmap. setoid_rewrite list_elem_of_filter. naive_solver. }
  clearbody items2. unfold _apply_auto_filter in H.
  assert (∃ threshold, (match threshold with Some th => ∃ j, j ∈ items2 ∧ j.(avg_daily_volume) = Some th | None => ∀ j, j ∈ items2 → j.(avg_daily_volume) = None end) ∧
    ∀ i, i ∈ items ↔ i ∈ items2 ∧ i.(is_active) = true ∧
    (match i.(avg_daily_volume), threshold with Some v, Some th => th ≤ v | _, _ => True end)) as (th&Hvol&Hth).
  { case_bool_decide as E; cbn in H.
    - injection H as <-. exists None. split.
      { intros j Hj. destruct (avg_daily_volume j) as [v|] eqn:Ev; [|done]. exfalso.
        assert (v ∈ omap avg_daily_volume items2) as Hv by (apply list_elem_of_omap; eauto). destruct (omap _ _); [by apply not_elem_of_nil in Hv|done]. }
      intros i. rewrite list_elem_of_filter. destruct (avg_daily_volume i); tauto.
    - destruct (volume_threshold _) as [th|] eqn:Et; [|done]. cbn in H. injection H as <-. exists (Some th). split.
      { apply threshold_occurs, list_elem_of_omap in Et as (j&Hj&Ej). eauto. }
      intros i. rewrite !list_elem_of_filter. unfold liquid. destruct (avg_daily_volume i); tauto. }
  exists th. split.
  { destruct th as [v|].
    - destruct Hvol as (j&Hj&Ej). apply H2 in Hj as [Hj|(t&->&_)]; [|done]. apply H1 in Hj as []. eauto.
    - intros j Hj Hk. apply Hvol, H2. left. by apply H1. }
  intros i. rewrite Hth, H2, H1. setoid_rewrite list_elem_of_fmap. setoid_rewrite H1. split.
  - intros ([[Hl Hk]|(t&->&Ht&Hn)]&Ha&Hv); (split; [done|]); [left; done|right]. exists t. split_and!; [done|done|]. intros j Hj Hk <-. apply Hn. eauto.
  - intros (Hv&[(Hl&Hk&Ha)|(t&->&Ht&Hn)]); [tauto|]. split_and!; [|done|done]. right. exists t. split_and!; [done|done|]. intros (j&->&Hj&Hk). by eapply Hn.
Qed.
End UniverseManager.
