(* ===== verification/Judgement.v ===== *)
(** Verdicts on a strategy and on the language model: core/backtest_engine/pass_fail.py
    and core/ai_analyzer/promotion_checklist.py.

    The section that a file of thresholds has is an argument, [None] where the file is
    missing, unreadable or has none.  The memo's frame is left out: its lines are what
    they say. *)

From stdpp Require Import base option list strings.
From Stdlib Require Import ZArith Lia Floats.SpecFloat.
From S2P Require Import Prelude PyFloat PyDict FloatFacts.

Definition Thresholds := list (string * float).
Definition threshold (t : Thresholds) (k : string) (d : float) : float := default d (dict_get k t).

Module PerformanceJudge.
Inductive Verdict := PASS | REVIEW | FAIL.
#[export] Instance Verdict_eq_dec : EqDecision Verdict.
Proof. solve_decision. Defined.

Definition DEFAULT_THRESHOLDS : Thresholds := [
  ("ir_pass", dec 10 2); ("ir_review", dec 5 2); ("excess_cagr_pass_pct", dec 1 2); ("mdd_tolerance_multiplier", dec 12 1);
  ("max_turnover_pass", of_Z 3); ("max_turnover_review", of_Z 5); ("significance_ci", dec 95 2)].
(** [_load_thresholds] and [__init__]: an empty argument counts as none *)
Definition init (given performance : option Thresholds) : Thresholds :=
  match given with Some (x :: l) => x :: l | _ => default DEFAULT_THRESHOLDS performance end.

Definition judge_ir (t : Thresholds) (ir : float) : Verdict :=
  if flt (threshold t "ir_pass" (dec 10 2)) ir then PASS else if flt (threshold t "ir_review" (dec 5 2)) ir then REVIEW else FAIL.
Definition judge_excess_cagr (t : Thresholds) (x : float) : Verdict :=
  if flt (threshold t "excess_cagr_pass_pct" (dec 1 2)) x then PASS else if fgtZ x 0 then REVIEW else FAIL.
Definition judge_mdd (t : Thresholds) (mdd tolerance : float) : Verdict :=
  let fail_threshold := fmul tolerance (threshold t "mdd_tolerance_multiplier" (dec 12 1)) in
  if fle (fabs mdd) tolerance then PASS else if fle (fabs mdd) fail_threshold then REVIEW else FAIL.
Definition judge_turnover (t : Thresholds) (turnover : float) : Verdict :=
  if flt turnover (threshold t "max_turnover_pass" (of_Z 3)) then PASS
  else if flt turnover (threshold t "max_turnover_review" (of_Z 5)) then REVIEW else FAIL.
Definition judge_significance (ci_lower : float) : Verdict :=
  if fgtZ ci_lower 0 then PASS else if flt (fneg (dec 1 3)) ci_lower then REVIEW else FAIL.

Record Metrics := { information_ratio : option float; cagr : option float; max_drawdown : option float; turnover : option float }.
Record Overall := { individual_judgments : list (string * Verdict); pass_count : Z; review_count : Z; fail_count : Z; overall : Verdict }.

Definition judged (k : string) (j : float → Verdict) (x : option float) : list (string * Verdict) :=
  match x with Some v => [(k, j v)] | None => [] end.
Definition judgments (t : Thresholds) (m : Metrics) (tolerance : float) : list (string * Verdict) :=
  judged "information_ratio" (judge_ir t) m.(information_ratio) ++ judged "excess_cagr" (judge_excess_cagr t) m.(cagr) ++
  judged "max_drawdown" (λ x, judge_mdd t x tolerance) m.(max_drawdown) ++ judged "turnover" (judge_turnover t) m.(turnover).
Definition count_of (v : Verdict) (l : list (string * Verdict)) : Z := Z.of_nat (length (filter (λ kv, kv.2 = v) l)).
Definition overall_judgment (t : Thresholds) (m : Metrics) (tolerance : float) : Overall :=
  let l := judgments t m tolerance in
  {| individual_judgments := l; pass_count := count_of PASS l; review_count := count_of REVIEW l; fail_count := count_of FAIL l;
     overall := if 0 <? count_of FAIL l then FAIL else if count_of PASS l <? count_of REVIEW l then REVIEW else PASS |}.

Lemma counts_add l : count_of PASS l + count_of REVIEW l + count_of FAIL l = Z.of_nat (length l).
Proof.
  unfold count_of. induction l as [|[k []] l IH]; [done|..]; rewrite !filter_cons; repeat case_decide; cbn [length snd] in *; try congruence; lia.
Qed.

(** A metric that is no number fails the strategy, and a metric that is missing is not
    judged: the verdict is on as many metrics as there are, any failure fails, and with no
    metric at all the strategy passes. *)
Theorem verdict_on_metrics t m tolerance :
  let r := overall_judgment t m tolerance in
  (∀ x, is_nan x = true → m.(information_ratio) = Some x ∨ m.(cagr) = Some x ∨ m.(max_drawdown) = Some x ∨ m.(turnover) = Some x → r.(overall) = FAIL) ∧
  r.(pass_count) + r.(review_count) + r.(fail_count) =
    Z.of_nat (length (omap id [m.(information_ratio); m.(cagr); m.(max_drawdown); m.(turnover)])) ∧
  (r.(overall) = FAIL ↔ ∃ k, (k, FAIL) ∈ r.(individual_judgments)) ∧
  (m = {| information_ratio := None; cagr := None; max_drawdown := None; turnover := None |} → r.(overall) = PASS).
Proof.
  cbn zeta. assert ((overall_judgment t m tolerance).(overall) = FAIL ↔ ∃ k, (k, FAIL) ∈ judgments t m tolerance) as Hf.
  { cbn [overall_judgment overall]. set (l := judgments t m tolerance). clearbody l.
    assert (0 < count_of FAIL l ↔ ∃ k, (k, FAIL) ∈ l) as <-.
    { unfold count_of. split.
      - intros H. destruct (filter _ l) as [|[k v] l'] eqn:E; [done|].
        assert ((k, v) ∈ filter (λ kv, kv.2 = FAIL) l) as Hk by (rewrite E; by left). apply list_elem_of_filter in Hk as [Hv Hk]. cbn in Hv. subst. eauto.
      - intros [k Hk]. assert ((k, FAIL) ∈ filter (λ kv, kv.2 = FAIL) l) as H by by apply list_elem_of_filter.
        destruct (filter _ l); [by apply not_elem_of_nil in H|cbn; lia]. }
    destruct (Z.ltb_spec 0 (count_of FAIL l)); [done|]. split; [by case_match|lia]. }
  split_and!; [|etrans; [apply (counts_add (judgments t m tolerance))|]|done|intros ->; done].
  - intros x Hx H. apply Hf. unfold judgments, judged. setoid_rewrite elem_of_app. setoid_rewrite elem_of_app. setoid_rewrite elem_of_app.
    assert (judge_ir t x = FAIL ∧ judge_excess_cagr t x = FAIL ∧ judge_mdd t x tolerance = FAIL ∧ judge_turnover t x = FAIL) as (E1&E2&E3&E4).
    { destruct x; try done. unfold judge_ir, judge_excess_cagr, judge_mdd, judge_turnover. rewrite !(flt_nan_r _ S754_nan), !(flt_nan_l S754_nan) by done. by split_and!. }
    destruct H as [E|[E|[E|E]]]; rewrite E; eexists; [left|right; left|right; right; left|right; right; right]; apply list_elem_of_singleton; by rewrite ?E1, ?E2, ?E3, ?E4.
  - unfold judgments, judged. destruct m as [[] [] [] []]; done.
Qed.
End PerformanceJudge.

Module PromotionChecklist.
Inductive PromotionDecision := PROMOTE | HOLD | DEMOTE.
#[export] Instance PromotionDecision_eq_dec : EqDecision PromotionDecision.
Proof. solve_decision. Defined.

Definition _load_default_thresholds (ai : option Thresholds) : Thresholds :=
  let get k d := match ai with Some c => threshold c k d | None => d end in
  [("ir_delta_mode_a", dec 1 1); ("ir_delta_mode_b", dec 15 2); ("sentiment_std_max", get "sentiment_reproducibility_std_max" (dec 1 1));
   ("opinion_match_rate_min", get "opinion_match_rate_min" (dec 8 1)); ("drift_p_min", get "drift_ks_test_p_min" (dec 5 2));
   ("cost_ratio_max", get "cost_benefit_max_ratio" (dec 2 1))].
Record Checklist := {
  ir_delta_mode_a : float; ir_delta_mode_b : float; sentiment_std_max : float; opinion_match_rate_min : float; drift_p_min : float;
  cost_ratio_max : float }.
Definition init (given ai : option Thresholds) : Checklist :=
  let t := default (_load_default_thresholds ai) given in
  {| ir_delta_mode_a := threshold t "ir_delta_mode_a" (dec 1 1); ir_delta_mode_b := threshold t "ir_delta_mode_b" (dec 15 2);
     sentiment_std_max := threshold t "sentiment_std_max" (dec 1 1); opinion_match_rate_min := threshold t "opinion_match_rate_min" (dec 8 1);
     drift_p_min := threshold t "drift_p_min" (dec 5 2); cost_ratio_max := threshold t "cost_ratio_max" (dec 2 1) |}.

Record CheckResult := { ir_delta_pass : bool; second_pass : bool; drift_pass : bool; cost_pass : bool; pass_count : Z; overall_decision : PromotionDecision }.
Definition result_of (a b c d : bool) : CheckResult :=
  let n := Z.b2z a + Z.b2z b + Z.b2z c + Z.b2z d in
  {| ir_delta_pass := a; second_pass := b; drift_pass := c; cost_pass := d; pass_count := n;
     overall_decision := if n =? 4 then PROMOTE else if 2 <=? n then HOLD else DEMOTE |}.
Definition check_mode_a (c : Checklist) (ir_delta reproducibility_std drift_p_value cost_ratio : float) : CheckResult :=
  result_of (flt c.(ir_delta_mode_a) ir_delta) (flt reproducibility_std c.(sentiment_std_max)) (flt c.(drift_p_min) drift_p_value)
    (flt cost_ratio c.(cost_ratio_max)).
Definition check_mode_b (c : Checklist) (ir_delta match_rate drift_p_value cost_ratio : float) : CheckResult :=
  result_of (flt c.(ir_delta_mode_b) ir_delta) (flt c.(opinion_match_rate_min) match_rate) (flt c.(drift_p_min) drift_p_value)
    (flt cost_ratio c.(cost_ratio_max)).

(** The recommendation of the memo *)
Definition generate_memo (a b : CheckResult) : PromotionDecision :=
  if bool_decide (a.(overall_decision) = PROMOTE) && bool_decide (b.(overall_decision) = PROMOTE) then PROMOTE
  else if bool_decide (a.(overall_decision) = DEMOTE) || bool_decide (b.(overall_decision) = DEMOTE) then DEMOTE else HOLD.

(** The model is promoted exactly when all eight checks pass, in both modes, and is
    demoted exactly when one of the modes passes at most one of its four.  A measure that
    is no number passes none. *)
Theorem promotion_needs_all c ir_a std drift cost ir_b rate drift' cost' :
  let a := check_mode_a c ir_a std drift cost in
  let b := check_mode_b c ir_b rate drift' cost' in
  (generate_memo a b = PROMOTE ↔
     flt c.(ir_delta_mode_a) ir_a = true ∧ flt std c.(sentiment_std_max) = true ∧ flt c.(drift_p_min) drift = true ∧ flt cost c.(cost_ratio_max) = true ∧
     flt c.(ir_delta_mode_b) ir_b = true ∧ flt c.(opinion_match_rate_min) rate = true ∧ flt c.(drift_p_min) drift' = true ∧ flt cost' c.(cost_ratio_max) = true) ∧
  (generate_memo a b = DEMOTE ↔ a.(pass_count) ≤ 1 ∨ b.(pass_count) ≤ 1).
Proof.
  cbn zeta. unfold check_mode_a, check_mode_b.
  repeat match goal with |- context [flt ?x ?y] => let E := fresh in set (E := flt x y); clearbody E end.
  repeat match goal with b : bool |- _ => destruct b end; (split; [split; [|intuition congruence]|split]); vm_compute; intuition congruence.
Qed.
End PromotionChecklist.
