(* ===== verification/MarketData.v ===== *)
(** Daily prices: core/data_collector/market_data.py and daily_collector.py.

    A date is its ordinal.  The broker's answers are arguments, and so is what the
    database refuses of a batch.  After a statement that failed there, PostgreSQL refuses every
    further one of the transaction until it is rolled back, which the collectors never do; what
    the driver refuses never gets there.  The
    table keeps the numbers as they are written: its rounding to four decimals and what
    asyncpg makes of a naive midnight are left out, as are times and texts of errors. *)

From stdpp Require Import base option list sorting gmap strings.
From Stdlib Require Import ZArith Lia Ascii Floats.SpecFloat.
From S2P Require Import Prelude PyFloat PyDict PyParse FloatFacts Constants Calendar KisClient ExchangeRate Series.

Record Bar := {
  time : Z; ticker : string; market : string; open : float; high : float; low : float; close : float; volume : Z; interval : string }.
(** The primary key of market_ohlcv: time, ticker, interval *)
Definition key (b : Bar) : Z * string * string := (b.(time), b.(ticker), b.(interval)).
Abbreviation Table := (gmap (Z * string * string) Bar).
(** [aborted]: a statement of the open transaction has failed *)
(** What a statement is refused with, and by whom *)
Record Refusal := { raised : exc; on_server : bool }.
Record Session := { committed : Table; pending : Table; aborted : bool }.
Definition Db := M Session exc.

Definition is_class (c : string) (e : exc) : bool := match e with OtherException k _ => bool_decide (k = c) | _ => false end.
(** [except (KeyError, ValueError)] *)
Definition skips (e : exc) : bool := is_class "KeyError" e || is_class "ValueError" e.

(** [int(v)]; an infinity is an [OverflowError] *)
Definition int_of (v : JValue) : result exc Z :=
  match v with JFloat (S754_infinity _) => Err (OtherException "OverflowError" "") | _ => py_int_of v end.

(** [datetime.strptime(s, "%Y%m%d")]: the month takes two digits where it can and a day
    is left *)
Definition day_of_month (y m : Z) (rest : string) : option (option Z) :=
  match Settings.day_field rest with
  | None => None
  | Some (d, "") => Some (if (1 <=? y) && (d <=? Settings.days_in_month y m) then Some (date y m d) else None)
  | Some _ => Some None
  end.
Definition strptime_ymd (s : string) : option Z :=
  match Settings.year_field s with
  | Some (y, s') =>
      match Settings.month_field s' with
      | Some (m, rest) =>
          match day_of_month y m rest with
          | Some r => r
          | None => match Settings.short_field 1 s' with
                    | Some (m, rest) => default None (day_of_month y m rest)
                    | None => None
                    end
          end
      | None => None
      end
  | None => None
  end.
Definition strptime (v : JValue) : result exc Z :=
  match v with
  | JStr s => match strptime_ymd s with Some d => Ok d | None => Err (OtherException "ValueError" s) end
  | _ => Err (OtherException "TypeError" "")
  end.

Module MarketDataCollector.

(** One row of the broker, by the names of its fields *)
Record Names := { n_date : string; n_open : string; n_high : string; n_low : string; n_close : string; n_volume : string }.
Definition kr_names : Names := {|
  n_date := "stck_bsop_date"; n_open := "stck_oprc"; n_high := "stck_hgpr"; n_low := "stck_lwpr"; n_close := "stck_clpr"; n_volume := "acml_vol" |}.
Definition us_names : Names := {|
  n_date := "xymd"; n_open := "open"; n_high := "high"; n_low := "low"; n_close := "clos"; n_volume := "tvol" |}.
Definition float_field (row : JValue) (k : string) : result exc float := rbind (subscript row k) py_float_of.
Definition record_of (n : Names) (tk mk : string) (row : JValue) : result exc Bar :=
  rbind (rbind (subscript row n.(n_date)) strptime) (λ t, rbind (float_field row n.(n_open)) (λ o, rbind (float_field row n.(n_high)) (λ h,
  rbind (float_field row n.(n_low)) (λ l, rbind (float_field row n.(n_close)) (λ c, rbind (rbind (subscript row n.(n_volume)) int_of) (λ v,
  Ok {| time := t; ticker := tk; market := mk; open := o; high := h; low := l; close := c; volume := v; interval := "1d" |})))))).
Fixpoint records_of (n : Names) (tk mk : string) (rows : list JValue) : result exc (list Bar) :=
  match rows with
  | [] => Ok []
  | row :: rest =>
      match record_of n tk mk row with
      | Ok b => rmap (cons b) (records_of n tk mk rest)
      | Err e => if skips e then records_of n tk mk rest else Err e
      end
  end.
(** [for row in output]: a text or an object gives texts, which have no fields *)
Definition rows_of (v : JValue) : result exc (list JValue) :=
  match v with JArray l => Ok l | _ => Err (OtherException "TypeError" "") end.

Section Collector.
(** What the database refuses of a batch *)
Context (refuses : list Bar → option Refusal).

(** DO UPDATE: the prices of the new row *)
Definition with_prices (old b : Bar) : Bar := {|
  time := old.(time); ticker := old.(ticker); market := old.(market); open := b.(open); high := b.(high); low := b.(low);
  close := b.(close); volume := b.(volume); interval := old.(interval) |}.
Definition upsert (t : Table) (b : Bar) : Table :=
  <[key b := match t !! key b with None => b | Some old => with_prices old b end]> t.
Definition execute (records : list Bar) : Db unit :=
  s ← get;
  if s.(aborted) then raise (OtherException "InFailedSQLTransactionError" "") else
  match refuses records with
  | Some r => modify (λ s, {| committed := s.(committed); pending := s.(pending); aborted := r.(on_server) |});; raise r.(raised)
  | None => modify (λ s, {| committed := s.(committed); pending := foldl upsert s.(pending) records; aborted := false |})
  end.
Definition commit : Db unit := modify (λ s, {| committed := s.(pending); pending := s.(pending); aborted := false |}).
Definition _save_ohlcv_batch (records : list Bar) : Db Z :=
  match records with [] => mret 0 | _ => execute records;; commit;; mret (Z.of_nat (length records)) end.

(** [collect_kr_daily] and [collect_us_daily]: [answer] is the broker's *)
Definition collect_daily (n : Names) (tk mk : string) (answer : result exc JValue) : Db Z :=
  output ← lift_result (rbind answer (λ r, get_or r "output2" (JArray [])));
  if negb (truthy output) then mret 0 else
  records ← lift_result (rbind (rows_of output) (records_of n tk mk));
  _save_ohlcv_batch records.
Definition collect_kr_daily (tk : string) (answer : result exc JValue) : Db Z := collect_daily kr_names tk (value KRX) answer.
Definition market_map (exchange : string) : Market :=
  if bool_decide (exchange = "NYS") then NYSE else if bool_decide (exchange = "AMS") then AMEX else NASDAQ.
Definition collect_us_daily (tk exchange : string) (answer : result exc JValue) : Db Z :=
  collect_daily us_names tk (value (market_map exchange)) answer.
End Collector.

(** ** Saving twice *)

Definition merged (o : option Bar) (b : Bar) : Bar := match o with None => b | Some old => with_prices old b end.
Lemma upserts_lookup l t k : foldl upsert t l !! k = foldl (λ o b, Some (merged o b)) (t !! k) (filter (λ b, key b = k) l).
Proof.
  revert t. induction l as [|b l IH]; intros t; [done|]. cbn [foldl]. rewrite IH, filter_cons. unfold upsert at 1. case_decide as E.
  - subst k. by rewrite lookup_insert_eq.
  - by rewrite lookup_insert_ne.
Qed.
Lemma merges_last o l b : ∃ x, foldl (λ o b, Some (merged o b)) o (l ++ [b]) = Some x ∧
  foldl (λ o b, Some (merged o b)) (Some x) (l ++ [b]) = Some x.
Proof.
  assert (∀ x l, ∃ y, foldl (λ o b, Some (merged o b)) (Some x) l = Some y ∧ with_prices y b = with_prices x b) as Hfix.
  { intros x l0. revert x. induction l0 as [|c l0 IH]; intros x; [by exists x|]. cbn. destruct (IH (with_prices x c)) as (y&->&Hy). by exists y. }
  rewrite foldl_app. cbn. exists (merged (foldl (λ o b, Some (merged o b)) o l) b). split; [done|]. rewrite foldl_app. cbn.
  destruct (Hfix (merged (foldl (λ o b, Some (merged o b)) o l) b) l) as (y&->&Hy). cbn. rewrite Hy. f_equal.
  destruct (foldl _ o l); [done|]. by destruct b.
Qed.

(** Prices that are collected again, as the overlapping days of every morning are, leave
    the table as it is. *)
Theorem saving_twice_is_saving_once (t : Table) l : foldl upsert (foldl upsert t l) l = foldl upsert t l.
Proof.
  apply map_eq. intros k. rewrite (upserts_lookup l (foldl upsert t l)). rewrite upserts_lookup.
  destruct (filter (λ b, key b = k) l) as [|b l' _] using rev_ind; [done|].
  destruct (merges_last (t !! k) l' b) as (x&Hx&Hfix). by rewrite Hx.
Qed.

Definition get_current_price (c : Country) (answer : result exc JValue) : option float :=
  match rbind answer (λ r, rbind (get_or r "output" (JObject [])) (λ output,
    float_at output (match c with KR => "stck_prpr" | US => "last" end))) with
  | Ok x => Some x
  | Err _ => None
  end.

(** * validate_and_fill *)

Definition DATA_INTEGRITY_max_missing : Z := 3.
Definition outlier_sigma : float := of_Z 3.
Definition kr_daily_limit : float := dec 30 2.
Definition us_circuit_breaker : float := dec 7 2.

(** The longest run of Mondays to Fridays between the first and the last date on which
    nothing is stored *)
Fixpoint longest_gap (existing : list Z) (days : list Z) (current : Z) : Z :=
  match days with
  | [] => 0
  | d :: rest =>
      if 5 <=? weekday d then longest_gap existing rest current
      else if bool_decide (d ∈ existing) then longest_gap existing rest 0
      else Z.max (current + 1) (longest_gap existing rest (current + 1))
  end.
Definition _check_consecutive_missing (dates : list Z) : Z :=
  match dates with
  | [] => 0
  | d :: l => let lo := foldl Z.min d l in let hi := foldl Z.max d l in longest_gap dates (seqZ lo (hi - lo + 1)) 0
  end.

Section Validate.
Context {pd : Pandas} (mean : Series → float).

(** The returns that are numbers, with the labels they have in the table *)
Definition labelled_returns (c : Series) : list (nat * float) := filter (λ ix, is_nan ix.2 = false) (zip (seq 0 (length c)) (pct_change 1 c)).
(** The labels whose return lies beyond the threshold *)
Definition outlier_labels (rs : list (nat * float)) : list nat :=
  let x := rs.*2 in
  if fgtZ (std x) 0 then
    fst <$> filter (λ ix, flt outlier_sigma (fabs (fdiv (fsub ix.2 (mean x)) (std x))) = true) rs
  else [].
(** [returns.iloc[idx] if idx < len(returns) else 0] *)
Definition judged_return (rs : list (nat * float)) (label : nat) : float := default fzero (rs.*2 !! label).
Definition flagged (mk : string) (rs : list (nat * float)) : list nat :=
  let limit := if bool_decide (mk = value KRX) then kr_daily_limit else us_circuit_breaker in
  filter (λ i, fle (fabs (judged_return rs i)) limit = false) (outlier_labels rs).

Lemma filter_numbers i rs : Forall (λ x, is_nan x = false) rs → filter (λ ix, is_nan ix.2 = false) (zip (seq i (length rs)) rs) = zip (seq i (length rs)) rs.
Proof.
  intros H. revert i. induction H as [|x rs Hx _ IH]; intros i; [done|]. cbn [length seq zip_with]. rewrite filter_cons_True by done. f_equal. apply IH.
Qed.
Lemma labelled_from_one c rs : pct_change 1 c = S754_nan :: rs → length c = S (length rs) → Forall (λ x, is_nan x = false) rs →
  labelled_returns c = zip (seq 1 (length rs)) rs.
Proof.
  intros Hr Hlen Hnum. unfold labelled_returns. rewrite Hr, Hlen. cbn [seq zip_with]. rewrite filter_cons_False by done. by apply filter_numbers.
Qed.

(** The day whose return decides on an outlier is the day after it: the labels start at 1,
    as the first day has no return, and are used as positions.  So the newest day, whose
    next return is missing, is never flagged. *)
Theorem outliers_are_judged_by_the_next_day mk c rs
  (Hr : pct_change 1 c = S754_nan :: rs) (Hlen : length c = S (length rs)) (Hnum : Forall (λ x, is_nan x = false) rs) :
  (∀ i x, (S i, x) ∈ labelled_returns c ↔ rs !! i = Some x) ∧
  (∀ i, i ∈ flagged mk (labelled_returns c) → ∃ x y, rs !! pred i = Some x ∧ rs !! i = Some y ∧
     fle (fabs y) (if bool_decide (mk = value KRX) then kr_daily_limit else us_circuit_breaker) = false).
Proof.
  rewrite (labelled_from_one c rs) by done.
  assert (∀ i x, (S i, x) ∈ zip (seq 1 (length rs)) rs ↔ rs !! i = Some x) as Hl.
  { intros i x. rewrite list_elem_of_lookup. setoid_rewrite lookup_zip_with_Some. split.
    - intros (j&a&b&[= <- <-]&Ha&Hb). apply lookup_seq in Ha as [E _]. by assert (i = j) as -> by lia.
    - intros Hx. exists i, (S i), x. split_and!; [done| |done]. apply lookup_seq. split; [done|]. by eapply lookup_lt_Some. }
  split; [done|]. intros i Hi. unfold flagged in Hi. apply list_elem_of_filter in Hi as [Hf Hi].
  unfold judged_return in Hf. rewrite snd_zip in Hf by (by rewrite length_seq).
  assert (∃ x, (i, x) ∈ zip (seq 1 (length rs)) rs) as [x Hx].
  { unfold outlier_labels in Hi. destruct (fgtZ _ 0); [|by apply not_elem_of_nil in Hi]. apply list_elem_of_fmap in Hi as ([j x]&->&Hj).
    apply list_elem_of_filter in Hj as [_ Hj]. eauto. }
  assert (∃ k, i = S k) as [k ->].
  { destruct i; [|eauto]. apply elem_of_zip_l, elem_of_seq in Hx. lia. }
  apply Hl in Hx. exists x. destruct (rs !! S k) as [y|] eqn:Ey; [by exists y|]. exfalso. cbn in Hf. by case_bool_decide.
Qed.

Record Validation := { missing_filled : Z; outliers_flagged : Z; excluded : bool }.
(** [rows]: dates and closing prices, sorted by time *)
Definition validate_and_fill (mk : string) (rows : list (Z * float)) : Validation :=
  if Z.of_nat (length rows) <? 5 then {| missing_filled := 0; outliers_flagged := 0; excluded := false |} else
  {| missing_filled := 0;
     outliers_flagged := if Z.of_nat (length rows) >=? 10 then Z.of_nat (length (flagged mk (labelled_returns rows.*2))) else 0;
     excluded := DATA_INTEGRITY_max_missing <? _check_consecutive_missing rows.*1 |}.
End Validate.
End MarketDataCollector.

Module DailyOHLCVCollector.
Import MarketDataCollector.

Record TickerInfo := { t_ticker : string; t_market : string; t_country : string }.
Record CollectionResult := { r_ticker : string; r_country : string; records_saved : Z; success : bool; failed_with : option string }.
Record BatchCollectionReport := {
  total_tickers : Z; succeeded : Z; failed : Z; total_records : Z; results : list CollectionResult; errors : list string }.

Section Daily.
Context (refuses : list Bar → option Refusal) (kr_answer : string → result exc JValue) (us_answer : string → string → result exc JValue).

Definition _MARKET_TO_EXCHANGE (mk : string) : string :=
  if bool_decide (mk = "NASDAQ") then "NAS" else if bool_decide (mk = "NYSE") then "NYS" else if bool_decide (mk = "AMEX") then "AMS" else "NAS".
Definition _collect_single (i : TickerInfo) : Db CollectionResult :=
  let done n := {| r_ticker := i.(t_ticker); r_country := i.(t_country); records_saved := n; success := true; failed_with := None |} in
  if bool_decide (i.(t_market) = "KRX") then
    n ← collect_kr_daily refuses i.(t_ticker) (kr_answer i.(t_ticker)); mret (done n)
  else if bool_decide (i.(t_market) ∈ ["NASDAQ"; "NYSE"; "AMEX"]) then
    let x := _MARKET_TO_EXCHANGE i.(t_market) in
    n ← collect_us_daily refuses i.(t_ticker) x (us_answer i.(t_ticker) x); mret (done n)
  else mret {| r_ticker := i.(t_ticker); r_country := i.(t_country); records_saved := 0; success := false; failed_with := Some "market" |}.

Definition new_report (total : Z) : BatchCollectionReport := {|
  total_tickers := total; succeeded := 0; failed := 0; total_records := 0; results := []; errors := [] |}.
(** What the loop adds to the report for one ticker *)
Definition noted (i : TickerInfo) (o : result exc CollectionResult) (p : BatchCollectionReport) : BatchCollectionReport :=
  let '(r, e) := match o with
    | Ok r => (r, if r.(success) then None else r.(failed_with))
    | Err _ => ({| r_ticker := i.(t_ticker); r_country := i.(t_country); records_saved := 0; success := false; failed_with := Some "exception" |},
                Some "exception") end in
  {| total_tickers := p.(total_tickers); succeeded := if r.(success) then p.(succeeded) + 1 else p.(succeeded);
     failed := if r.(success) then p.(failed) else p.(failed) + 1;
     total_records := if r.(success) then p.(total_records) + r.(records_saved) else p.(total_records);
     results := p.(results) ++ [r]; errors := p.(errors) ++ match e with Some _ => [i.(t_ticker)] | None => [] end |}.
Fixpoint collect_each (l : list TickerInfo) (p : BatchCollectionReport) (s : Session) : BatchCollectionReport * Session :=
  match l with
  | [] => (p, s)
  | i :: rest => let '(o, s') := _collect_single i s in collect_each rest (noted i o p) s'
  end.

(** [tickers]: the active rows of the universe *)
Definition collect_all (backtest : bool) (tickers : result exc (list TickerInfo)) : Db BatchCollectionReport :=
  if backtest then mret (new_report 0) else
  l ← lift_result tickers;
  ((λ s, let '(p, s') := collect_each l (new_report (Z.of_nat (length l))) s in (Ok p, s')) : Db BatchCollectionReport).

(** * The report adds up *)

Definition adds_up (p : BatchCollectionReport) : Prop :=
  p.(succeeded) + p.(failed) = Z.of_nat (length p.(results)) ∧ p.(total_records) = sumZ (map (λ r, if r.(success) then r.(records_saved) else 0) p.(results)) ∧
  (length p.(errors) <= Z.to_nat p.(failed))%nat ∧ 0 ≤ p.(failed) ∧ 0 ≤ p.(succeeded).
Lemma noted_adds_up i o p : adds_up p → adds_up (noted i o p).
Proof.
  intros (H1&H2&H3&H4&H5). unfold noted. destruct o as [r|e]; [destruct (success r) eqn:Es|]; unfold adds_up; cbn; rewrite ?Es, ?length_app, ?map_app, ?sumZ_app; cbn;
    rewrite ?Es; repeat case_match; cbn; split_and!; lia.
Qed.

Lemma collect_each_adds_up l p s : adds_up p → adds_up (collect_each l p s).1.
Proof.
  revert p s. induction l as [|i l IH]; intros p s Hp; [done|]. cbn. destruct (_collect_single i s) as [o s']. apply IH. by apply noted_adds_up.
Qed.
Lemma noted_ticker i o p : (∀ r, o = Ok r → r.(r_ticker) = i.(t_ticker)) → map r_ticker (noted i o p).(results) = map r_ticker p.(results) ++ [i.(t_ticker)].
Proof. intros H. unfold noted. destruct o as [r|e]; cbn; rewrite map_app; cbn; [by rewrite (H r)|done]. Qed.
Lemma single_ticker i s r s' : _collect_single i s = (Ok r, s') → r.(r_ticker) = i.(t_ticker).
Proof.
  unfold _collect_single. run_m. case_bool_decide; [|case_bool_decide]; [destruct (collect_kr_daily _ _ _ _) as [[]]|destruct (collect_us_daily _ _ _ _ _) as [[]]|];
    by intros [= <- <-].
Qed.
Lemma collect_each_tickers l p s : map r_ticker (collect_each l p s).1.(results) = map r_ticker p.(results) ++ map t_ticker l ∧
  (collect_each l p s).1.(total_tickers) = p.(total_tickers).
Proof.
  revert p s. induction l as [|i l IH]; intros p s; cbn; [by rewrite app_nil_r|]. destruct (_collect_single i s) as [o s'] eqn:E.
  destruct (IH (noted i o p) s') as [-> ->]. rewrite noted_ticker by (intros r ->; by eapply single_ticker). split; [by rewrite <- app_assoc|].
  unfold noted. by destruct o.
Qed.

(** A collection accounts for every ticker: whatever the broker and the database do, it
    goes on to the last ticker, has one result for each in their order, as many successes
    and failures as tickers, and counts the records of the successes. *)
Theorem every_ticker_is_accounted_for tickers s :
  let p := outcome (collect_all false (Ok tickers)) s in
  match p with
  | Ok p => map r_ticker p.(results) = map t_ticker tickers ∧ p.(total_tickers) = Z.of_nat (length tickers) ∧
      p.(succeeded) + p.(failed) = p.(total_tickers) ∧
      p.(total_records) = sumZ (map (λ r, if r.(success) then r.(records_saved) else 0) p.(results))
  | Err _ => False
  end.
Proof.
  cbv zeta. unfold collect_all. run_m. destruct (collect_each tickers _ s) as [p s'] eqn:E. cbn.
  pose proof (collect_each_tickers tickers (new_report (Z.of_nat (length tickers))) s) as [Ht Hn]. rewrite E in Ht, Hn. cbn in Ht, Hn.
  assert (adds_up p) as (H1&H2&_) by (change p with (p, s').1; rewrite <- E; by apply collect_each_adds_up).
  split_and!; [done|done| |done]. rewrite H1, Hn, <- (length_map r_ticker), Ht. by rewrite length_map.
Qed.

(** * After a failed save *)

Lemma aborted_single i s : s.(aborted) = true → (_collect_single i s).2 = s ∧ ∀ r, (_collect_single i s).1 = Ok r → r.(records_saved) = 0.
Proof.
  intros Ha.
  assert (∀ n tk mk a, (collect_daily refuses n tk mk a s).2 = s ∧ ∀ r, (collect_daily refuses n tk mk a s).1 = Ok r → r = 0) as H.
  { intros n tk mk a. unfold collect_daily, _save_ohlcv_batch, execute. run_m. destruct (rbind a _); [|by split]. destruct (negb _); [by split; [|intros ? [= <-]]|].
    destruct (rbind (rows_of _) _) as [[|b l]|]; cbn; [by split; [|intros ? [= <-]]| |by split]. rewrite Ha. by split. }
  unfold _collect_single, collect_kr_daily, collect_us_daily. run_m. destruct (bool_decide _); [|destruct (bool_decide _); [|by split; [|intros ? [= <-]]]].
  - destruct (H kr_names (t_ticker i) (value KRX) (kr_answer (t_ticker i))) as [H1 H2].
    destruct (collect_daily _ _ _ _ _ _) as [[n|e] s']; cbn in *; (split; [done|]); [|done]. intros r [= <-]. cbn. by apply H2.
  - set (x := _MARKET_TO_EXCHANGE _) in *. destruct (H us_names (t_ticker i) (value (market_map x)) (us_answer (t_ticker i) x)) as [H1 H2].
    destruct (collect_daily _ _ _ _ _ _) as [[n|e] s']; cbn in *; (split; [done|]); [|done]. intros r [= <-]. cbn. by apply H2.
Qed.

Lemma aborted_collection l p s (Ha : s.(aborted) = true) :
  let '(p', s') := collect_each l p s in
  s' = s ∧ p'.(total_records) = p.(total_records) ∧ ∃ rs, p'.(results) = p.(results) ++ rs ∧ Forall (λ r, r.(records_saved) = 0) rs.
Proof.
  assert (∀ q, let '(p', s') := collect_each l q s in
    s' = s ∧ p'.(total_records) = q.(total_records) ∧ ∃ rs, p'.(results) = q.(results) ++ rs ∧ Forall (λ r, r.(records_saved) = 0) rs) as H.
  { induction l as [|i l IH]; intros q; cbn; [split_and!; [done|done|]; exists []; by rewrite app_nil_r|].
    destruct (aborted_single i s Ha) as [H1 H2]. destruct (_collect_single i s) as [o s1]. cbn in H1, H2. subst s1.
    specialize (IH (noted i o q)). destruct (collect_each l (noted i o q) s) as [p' s']. destruct IH as (->&Ht&rs&Hr&Hf). split; [done|].
    unfold noted in Ht, Hr. destruct o as [r|e]; cbn in Ht, Hr.
    - specialize (H2 r eq_refl). split; [rewrite Ht, H2; destruct (success r); lia|]. exists (r :: rs). rewrite Hr, <- app_assoc. split; [done|]. by constructor.
    - split; [done|]. eexists (_ :: rs). rewrite Hr, <- app_assoc. split; [done|]. by constructor. }
  exact (H p).
Qed.
(** The rows a ticker's collection hands to the database *)
Definition rows_in (n : Names) (tk mk : string) (answer : result exc JValue) : result exc (list Bar) :=
  rbind (rbind answer (λ r, get_or r "output2" (JArray []))) (λ output,
  if negb (truthy output) then Ok [] else rbind (rows_of output) (records_of n tk mk)).
Definition rows_for (i : TickerInfo) : result exc (list Bar) :=
  let x := _MARKET_TO_EXCHANGE i.(t_market) in
  if bool_decide (i.(t_market) = "KRX") then rows_in kr_names i.(t_ticker) (value KRX) (kr_answer i.(t_ticker))
  else if bool_decide (i.(t_market) ∈ ["NASDAQ"; "NYSE"; "AMEX"]) then
    rows_in us_names i.(t_ticker) (value (market_map x)) (us_answer i.(t_ticker) x)
  else Ok [].

Lemma collect_daily_refused n tk mk a s b l r :
  rows_in n tk mk a = Ok (b :: l) → refuses (b :: l) = Some r → r.(on_server) = true →
  ∃ e, outcome (collect_daily refuses n tk mk a) s = Err e ∧ (after (collect_daily refuses n tk mk a) s).(aborted) = true ∧
    (after (collect_daily refuses n tk mk a) s).(committed) = s.(committed).
Proof.
  unfold rows_in, collect_daily, _save_ohlcv_batch, execute, outcome, after. run_m. intros Hrows Hr Hon.
  destruct (rbind a _) as [output|]; [|done]. cbn [rbind] in Hrows. destruct (negb (truthy output)); [done|].
  rewrite Hrows. destruct s.(aborted) eqn:Ea; cbn; [by eauto|]. rewrite Hr. cbn. by eauto.
Qed.

Lemma single_refused i s b l r :
  rows_for i = Ok (b :: l) → refuses (b :: l) = Some r → r.(on_server) = true →
  ∃ e s', _collect_single i s = (Err e, s') ∧ s'.(aborted) = true ∧ s'.(committed) = s.(committed).
Proof.
  unfold rows_for, _collect_single, collect_kr_daily, collect_us_daily. cbv zeta. intros Hrows Hr Hon.
  destruct (bool_decide (_ = "KRX")); [|destruct (bool_decide (_ ∈ _)); [|done]];
    destruct (collect_daily_refused _ _ _ _ s b l r Hrows Hr Hon) as (e & He & Ha & Hc); unfold outcome, after in *; run_m;
    destruct (collect_daily _ _ _ _ _ s) as [o s']; cbn in *; subst o; by eauto.
Qed.

Lemma collect_each_app l1 l2 p s :
  collect_each (l1 ++ l2) p s = let '(p1, s1) := collect_each l1 p s in collect_each l2 p1 s1.
Proof. revert p s. induction l1 as [|i l1 IH]; intros p s; [done|]. cbn. destruct (_collect_single i s) as [o s']. apply IH. Qed.

(** C26. Nothing is saved after a failed save.  When the server refuses the rows of one ticker
    of a collection, that ticker fails, and the prices of every later ticker are lost as
    well, since the transaction is not rolled back: what is committed and what is counted
    stay as they were before it, and no later result counts a record. *)
Theorem nothing_is_saved_after_a_failure earlier i later p s b rows r
  (Hrows : rows_for i = Ok (b :: rows)) (Hrefused : refuses (b :: rows) = Some r) (Hserver : r.(on_server) = true) :
  let '(p1, s1) := collect_each earlier p s in
  let '(p', s') := collect_each (earlier ++ i :: later) p s in
  s'.(committed) = s1.(committed) ∧ p'.(total_records) = p1.(total_records) ∧
  ∃ lost, p'.(results) = p1.(results) ++ lost ∧ map r_ticker lost = i.(t_ticker) :: map t_ticker later ∧
    success <$> head lost = Some false ∧ Forall (λ r, r.(records_saved) = 0) lost.
Proof.
  rewrite collect_each_app. destruct (collect_each earlier p s) as [p1 s1]. cbn [collect_each].
  destruct (single_refused i s1 b rows r Hrows Hrefused Hserver) as (e & s2 & -> & Ha & Hc).
  pose proof (aborted_collection later (noted i (Err e) p1) s2 Ha) as H.
  pose proof (collect_each_tickers later (noted i (Err e) p1) s2) as [Ht _].
  destruct (collect_each later (noted i (Err e) p1) s2) as [p' s']. destruct H as (-> & Htot & Hf).
  split; [done|]. split; [by rewrite Htot|]. cbn [fst] in Ht.
  set (fl := {| r_ticker := i.(t_ticker); r_country := i.(t_country); records_saved := 0; success := false; failed_with := Some "exception" |}) in *.
  assert (∃ rs, p'.(results) = (p1.(results) ++ [fl]) ++ rs ∧ Forall (λ r, r.(records_saved) = 0) rs) as (rs & Hrs & Hzero).
  { exact Hf. }
  exists (fl :: rs). split; [by rewrite Hrs, <- app_assoc|]. split; [|split; [done|by constructor]].
  rewrite Hrs, !map_app in Ht. cbn [noted results] in Ht. rewrite map_app in Ht. apply app_inv_head in Ht. cbn. by f_equal.
Qed.
End Daily.

(** Three tickers, the second with a price that the table's 14 digits cannot hold: the first is saved, the third lost. *)
Definition price (closing : string) : JValue := JObject [("output2", JArray [JObject [("stck_bsop_date", JStr "20240115"); ("stck_oprc", JStr "100");
  ("stck_hgpr", JStr "110"); ("stck_lwpr", JStr "90"); ("stck_clpr", JStr closing); ("acml_vol", JStr "1000")]])].
Definition no_big_prices (l : list Bar) : option Refusal :=
  if existsb (λ b, fle (of_Z (10 ^ 14)) b.(close)) l
  then Some {| raised := OtherException "NumericValueOutOfRangeError" ""; on_server := true |} else None.
Example one_failure_loses_the_rest :
  let answer t := if bool_decide (t = "B") then Ok (price "1e15") else Ok (price "105") in
  let tickers := map (λ t, {| t_ticker := t; t_market := "KRX"; t_country := "KR" |}) ["A"; "B"; "C"] in
  match collect_all no_big_prices answer (λ _ _, Ok JNull) false (Ok tickers) {| committed := ∅; pending := ∅; aborted := false |} with
  | (Ok p, s) => p.(succeeded) = 1 ∧ p.(failed) = 2 ∧ p.(errors) = ["B"; "C"] ∧ map (λ kv, kv.2.(ticker)) (map_to_list s.(committed)) = ["A"]
  | _ => False
  end.
Proof. by vm_compute. Qed.

Definition answer_of (t : string) : result exc JValue := if bool_decide (t = "B") then Ok (price "1e15") else Ok (price "105").
Definition ticker_of (t : string) : TickerInfo := {| t_ticker := t; t_market := "KRX"; t_country := "KR" |}.
Definition too_big : Bar := {|
  time := date 2024 1 15; ticker := "B"; market := "KRX"; open := of_Z 100; high := of_Z 110; low := of_Z 90; close := of_Z (10 ^ 15);
  volume := 1000; interval := "1d" |}.
Definition empty : Session := {| committed := ∅; pending := ∅; aborted := false |}.
Definition collected (l : list string) : BatchCollectionReport * Session :=
  collect_each no_big_prices answer_of (λ _ _, Ok JNull) (map ticker_of l) (new_report 3) empty.

Lemma nothing_is_saved_after_a_failure_witness :
  map (λ kv, kv.2.(ticker)) (map_to_list (collected ["A"]).2.(committed)) = ["A"] ∧
  (collected ["A"; "B"; "C"]).2.(committed) = (collected ["A"]).2.(committed).
Proof.
  split; [vm_compute; reflexivity|].
  pose proof (nothing_is_saved_after_a_failure no_big_prices answer_of (λ _ _, Ok JNull) [ticker_of "A"] (ticker_of "B") [ticker_of "C"]
    (new_report 3) empty too_big [] {| raised := OtherException "NumericValueOutOfRangeError" ""; on_server := true |}
    ltac:(vm_compute; reflexivity) ltac:(vm_compute; reflexivity) eq_refl) as H.
  unfold collected. cbn [map]. cbn [app] in H.
  destruct (collect_each no_big_prices answer_of (λ _ _, Ok JNull) [ticker_of "A"] (new_report 3) empty) as [p1 s1].
  destruct (collect_each no_big_prices answer_of (λ _ _, Ok JNull) [ticker_of "A"; ticker_of "B"; ticker_of "C"] (new_report 3) empty) as [p' s'].
  exact (proj1 H).
Defined.
End DailyOHLCVCollector.
