(* ===== verification/Reports.v ===== *)
(** Weekly and monthly reports: backend/core/periodic_reporter.py.

    A date is its ordinal.  numpy's mean and sample deviation are parameters, the time of
    generation is left out, and so are the fields that no code assigns (trades won and lost,
    their rate, the fees) and what Python's sort makes of contributions that are no numbers. *)

From stdpp Require Import base option list sorting strings.
From Stdlib Require Import ZArith Lia Ascii Floats.SpecFloat.
From S2P Require Import Prelude PyFloat PyFormat FloatFacts Calendar.

Inductive ReportPeriod := DAILY | WEEKLY | MONTHLY.

Record DailySummary := {
  s_date : Z; portfolio_value : float; daily_pnl : float; daily_return_pct : float; trades_count : Z }.

Record PeriodicReport := {
  period : ReportPeriod; start_date : Z; end_date : Z; trading_mode : string;
  portfolio_value_start : float; portfolio_value_end : float; period_pnl : float;
  period_return_pct : float; cumulative_return_pct : float;
  daily_summaries : list DailySummary; best_day : option DailySummary; worst_day : option DailySummary;
  total_trades : Z; max_drawdown_pct : float; volatility_pct : float; sharpe_ratio : float;
  strategy_contributions : list (string * float);
  benchmark_return_pct : float; excess_return_pct : float; trading_days : Z }.

Module PeriodicReporter.
Import MarketCalendar.

Definition empty_report (p : ReportPeriod) (start end_ : Z) (mode : string) : PeriodicReport := {|
  period := p; start_date := start; end_date := end_; trading_mode := mode;
  portfolio_value_start := fzero; portfolio_value_end := fzero; period_pnl := fzero;
  period_return_pct := fzero; cumulative_return_pct := fzero;
  daily_summaries := []; best_day := None; worst_day := None;
  total_trades := 0; max_drawdown_pct := fzero; volatility_pct := fzero; sharpe_ratio := fzero;
  strategy_contributions := []; benchmark_return_pct := fzero; excess_return_pct := fzero; trading_days := 0 |}.

(** One day of [_calculate_mdd]: the peak so far and the lowest drawdown *)
Definition drawdown (value peak : float) : float :=
  if flt fzero peak then fmul (fdiv (fsub value peak) peak) (of_Z 100) else fzero.
Definition mdd_step (pm : float * float) (d : DailySummary) : float * float :=
  let peak := if flt pm.1 d.(portfolio_value) then d.(portfolio_value) else pm.1 in
  (peak, fmin pm.2 (drawdown d.(portfolio_value) peak)).
Definition _calculate_mdd (l : list DailySummary) : float :=
  match l with [] => fzero | d :: _ => (foldl mdd_step (d.(portfolio_value), fzero) l).2 end.

Definition earlier (a b : DailySummary) : Prop := a.(s_date) ≤ b.(s_date).
#[export] Instance earlier_dec a b : Decision (earlier a b).
Proof. unfold earlier. apply _. Defined.
#[export] Instance earlier_total : Total earlier.
Proof. intros a b. unfold earlier. lia. Qed.
#[export] Instance earlier_trans : Transitive earlier.
Proof. intros a b c. unfold earlier. lia. Qed.

(** [max(l, key=...)] and [min(l, key=...)]: the first of the best *)
Definition best_of (d : DailySummary) (l : list DailySummary) : DailySummary :=
  foldl (λ b x, if flt b.(daily_return_pct) x.(daily_return_pct) then x else b) d l.
Definition worst_of (d : DailySummary) (l : list DailySummary) : DailySummary :=
  foldl (λ b x, if flt x.(daily_return_pct) b.(daily_return_pct) then x else b) d l.

(** [date.isoformat()] *)
Definition two (n : Z) : string := pad_left (2 - String.length (digits n)) (digits n).
Definition iso_date (d : Z) : string :=
  pad_left (4 - String.length (digits (year d))) (digits (year d)) +:+ "-" +:+ two (month d) +:+ "-" +:+ two (day d).

Section Reporter.
Context (np_mean np_std : list float → float).

Definition sqrt_252 : float := SFsqrt 53 1024 (of_Z 252).
Definition _calculate_volatility (returns : list float) : float :=
  if bool_decide (length returns < 2)%nat then fzero else fmul (np_std returns) sqrt_252.
Definition RISK_FREE_RATE : float := dec 35 3.
Definition _calculate_sharpe (returns : list float) : float :=
  if bool_decide (length returns < 2)%nat then fzero else
  let rf_daily := fdiv RISK_FREE_RATE (of_Z 252) in
  let excess := (λ r, fsub r rf_daily) <$> returns in
  let std := np_std excess in
  if flt std (dec 1 10) then fzero else fmul (fdiv (np_mean excess) std) sqrt_252.

(** [_build_report] on the days in their order, of which [first] is the first *)
Definition report_on (p : ReportPeriod) (start end_ : Z) (mode : string) (capital : float)
    (first : DailySummary) (l : list DailySummary) : PeriodicReport :=
  let start_value := fsub first.(portfolio_value) first.(daily_pnl) in
  let end_value := (default first (last l)).(portfolio_value) in
  let pnl := fsub end_value start_value in
  let period_return := if flt fzero start_value then fmul (fdiv pnl start_value) (of_Z 100) else fzero in
  let cumulative := if flt fzero capital then fmul (fdiv (fsub end_value capital) capital) (of_Z 100) else fzero in
  let returns := (λ d, fdiv d.(daily_return_pct) (of_Z 100)) <$> l in
  {| period := p; start_date := start; end_date := end_; trading_mode := mode;
     portfolio_value_start := round_to 0 start_value; portfolio_value_end := round_to 0 end_value;
     period_pnl := round_to 0 pnl; period_return_pct := round_to 2 period_return;
     cumulative_return_pct := round_to 2 cumulative;
     daily_summaries := l; best_day := Some (best_of first l); worst_day := Some (worst_of first l);
     total_trades := foldl Z.add 0 (trades_count <$> l);
     max_drawdown_pct := round_to 2 (_calculate_mdd l);
     volatility_pct := round_to 2 (fmul (_calculate_volatility returns) (of_Z 100));
     sharpe_ratio := round_to 2 (_calculate_sharpe returns);
     strategy_contributions := []; benchmark_return_pct := fzero; excess_return_pct := fzero;
     trading_days := Z.of_nat (length l) |}.
Definition _build_report (p : ReportPeriod) (start end_ : Z) (daily : list DailySummary) (capital : float) (mode : string) : PeriodicReport :=
  match merge_sort earlier daily with
  | [] => empty_report p start end_ mode
  | first :: rest => report_on p start end_ mode capital first (first :: rest)
  end.

Definition within (start end_ : Z) (daily : list DailySummary) : list DailySummary :=
  filter (λ d, start ≤ d.(s_date) ∧ d.(s_date) ≤ end_) daily.
Definition generate_weekly (daily : list DailySummary) (week_start week_end : Z) (capital : float) (mode : string) : PeriodicReport :=
  _build_report WEEKLY week_start week_end (within week_start week_end daily) capital mode.

(** [date(y, m, 1)]: there are the years 1 to 9999 *)
Definition first_of (y m : Z) : result string Z :=
  if (1 <=? y) && (y <=? 9999) && (1 <=? m) && (m <=? 12) then Ok (date y m 1) else Err "ValueError".
Definition month_range (y m : Z) : result string (Z * Z) :=
  rbind (first_of y m) (λ start,
  rmap (λ next, (start, next - 1)) (if m =? 12 then first_of (y + 1) 1 else first_of y (m + 1))).
Definition generate_monthly (daily : list DailySummary) (y m : Z) (capital : float) (mode : string) (benchmark : float)
    (contributions : option (list (string * float))) : result string PeriodicReport :=
  rmap (λ '(start, end_),
    let r := _build_report MONTHLY start end_ (within start end_ daily) capital mode in
    {| period := r.(period); start_date := r.(start_date); end_date := r.(end_date); trading_mode := r.(trading_mode);
       portfolio_value_start := r.(portfolio_value_start); portfolio_value_end := r.(portfolio_value_end);
       period_pnl := r.(period_pnl); period_return_pct := r.(period_return_pct);
       cumulative_return_pct := r.(cumulative_return_pct); daily_summaries := r.(daily_summaries);
       best_day := r.(best_day); worst_day := r.(worst_day); total_trades := r.(total_trades);
       max_drawdown_pct := r.(max_drawdown_pct); volatility_pct := r.(volatility_pct); sharpe_ratio := r.(sharpe_ratio);
       strategy_contributions := default [] contributions;
       benchmark_return_pct := benchmark; excess_return_pct := round_to 2 (fsub r.(period_return_pct) benchmark);
       trading_days := r.(trading_days) |}) (month_range y m).
End Reporter.

Definition should_generate_weekly (d : Z) : bool :=
  if (weekday d =? 4) && is_trading_day d CAL_KRX then true else
  let next_day := d + 1 in
  if (weekday next_day =? 5) && is_trading_day d CAL_KRX then true else false.
Definition should_generate_monthly (fuel : nat) (d : Z) : option bool :=
  if negb (is_trading_day d CAL_KRX) then Some false else
  (λ next_td, negb (month next_td =? month d)) <$> next_trading_day fuel d CAL_KRX.
Definition get_week_range (d : Z) : Z * Z :=
  let monday := d - weekday d in (monday, monday + 4).

(** Text: [f"{x:>+<width>,.<prec>f}"] and [f"{x:+.<prec>f}"] *)
Definition fmt_signed (comma : bool) (prec : nat) (x : float) : string :=
  match x with
  | S754_nan | S754_zero false | S754_infinity false | S754_finite false _ _ => "+" +:+ fmt_fixed comma prec x
  | _ => fmt_fixed comma prec x
  end.
Fixpoint spaces (n : nat) (s : string) : string := match n with O => s | S n' => String " " (spaces n' s) end.
Definition right (width : nat) (s : string) : string := spaces (width - String.length s) s.
Definition amount (x : float) : string := right 14 (fmt_signed true 0 x).
Definition fixed (x : float) : string := fmt_fixed false 2 x.
Definition rate (width : nat) (x : float) : string := right width (fmt_signed false 2 x).
Definition nl : string := String (Ascii.ascii_of_nat 10) "".
Definition join_lines (l : list string) : string :=
  match l with [] => "" | s :: rest => foldl (λ acc t, acc +:+ nl +:+ t) s rest end.

Definition rule : string := "━━━━━━━━━━━━━━━━".
Definition pnl_emoji (r : PeriodicReport) : string := if fle fzero r.(period_pnl) then "📈" else "📉".
Definition mode_text (r : PeriodicReport) : string :=
  if bool_decide (r.(trading_mode) = "DEMO") then "🔵 모의투자" else "🔴 실투자".
Definition dates_line (r : PeriodicReport) : string :=
  "📅 " +:+ iso_date r.(start_date) +:+ " ~ " +:+ iso_date r.(end_date) +:+ " | " +:+ mode_text r.
Definition results_lines (r : PeriodicReport) : list string :=
  ["  " +:+ pnl_emoji r +:+ " 손익: " +:+ amount r.(period_pnl) +:+ "원";
   "  📊 수익률: " +:+ rate 10 r.(period_return_pct) +:+ "%";
   "  📊 누적 수익률: " +:+ rate 8 r.(cumulative_return_pct) +:+ "%"].
Definition trades_lines (r : PeriodicReport) : list string :=
  ["📋 거래 요약"; "  거래일: " +:+ fmt_int r.(trading_days) +:+ "일"; "  총 거래: " +:+ fmt_int r.(total_trades) +:+ "건"].
Definition risk_lines (r : PeriodicReport) : list string :=
  ["📉 리스크"; "  MDD: " +:+ fixed r.(max_drawdown_pct) +:+ "%"; "  변동성: " +:+ fixed r.(volatility_pct) +:+ "%";
   "  Sharpe: " +:+ fixed r.(sharpe_ratio)].
Definition day_lines (r : PeriodicReport) : list string :=
  let day (name : string) (d : DailySummary) :=
    name +:+ iso_date d.(s_date) +:+ " (" +:+ fmt_signed false 2 d.(daily_return_pct) +:+ "%)" in
  match r.(best_day) with Some d => [""; day "🏆 Best: " d] | None => [] end ++
  match r.(worst_day) with Some d => [day "💀 Worst: " d] | None => [] end ++ [""; rule].
Definition format_weekly_telegram (r : PeriodicReport) : string :=
  join_lines ([rule; "📊 AQTS 주간 리포트"; rule; dates_line r; ""; "💰 주간 성과"] ++ results_lines r ++ [""] ++
    trades_lines r ++ [""] ++ risk_lines r ++ day_lines r).

(** [sorted(..., reverse=True)] keeps the order of equal contributions. *)
Definition larger (a b : string * float) : Prop := flt a.2 b.2 = false.
#[export] Instance larger_dec a b : Decision (larger a b).
Proof. unfold larger. apply _. Defined.
Definition contribution_lines (r : PeriodicReport) : list string :=
  match r.(strategy_contributions) with
  | [] => []
  | l => [""; "🎯 전략별 기여도"] ++
         ((λ c : string * float, "  " +:+ c.1 +:+ ": " +:+ fmt_signed false 2 c.2 +:+ "%") <$> merge_sort larger l)
  end.
Definition excess_emoji (r : PeriodicReport) : string := if fle fzero r.(excess_return_pct) then "✅" else "❌".
Definition format_monthly_telegram (r : PeriodicReport) : string :=
  join_lines ([rule; "📊 AQTS 월간 리포트"; rule; dates_line r; ""; "💰 월간 성과"] ++ results_lines r ++
    [""; "📊 벤치마크 대비"; "  벤치마크 수익률: " +:+ rate 8 r.(benchmark_return_pct) +:+ "%";
     "  " +:+ excess_emoji r +:+ " 초과 수익률: " +:+ rate 8 r.(excess_return_pct) +:+ "%"] ++
    contribution_lines r ++ [""] ++ trades_lines r ++ [""] ++ risk_lines r ++ day_lines r).
End PeriodicReporter.

(** * Months *)

Module Months.

Definition year_length (y : Z) : Z := if is_leap y then 366 else 365.
Lemma next_year y : days_before_year (y + 1) = days_before_year y + year_length y.
Proof.
  unfold days_before_year, year_length, is_leap. replace (y + 1 - 1) with y by lia.
  destruct (Z.eqb_spec (y mod 4) 0), (Z.eqb_spec (y mod 100) 0), (Z.eqb_spec (y mod 400) 0); cbn; Z.to_euclidean_division_equations; lia.
Qed.
Lemma years_increase y y' : y ≤ y' → days_before_year y ≤ days_before_year y'.
Proof. intros H. unfold days_before_year. Z.to_euclidean_division_equations. lia. Qed.

(** The days before a year by its place in the four cycles *)
Lemma cycles a b c e : 0 ≤ b < 4 → 0 ≤ c < 25 → 0 ≤ e < 4 →
  days_before_year (400 * a + 100 * b + 4 * c + e + 1) = 146097 * a + 36524 * b + 1461 * c + 365 * e.
Proof.
  intros Hb Hc He. unfold days_before_year. replace (400 * a + 100 * b + 4 * c + e + 1 - 1) with (400 * a + 100 * b + 4 * c + e) by lia.
  rewrite <- (Z.div_unique_pos _ 4 (100 * a + 25 * b + c) e), <- (Z.div_unique_pos _ 100 (4 * a + b) (4 * c + e)),
    <- (Z.div_unique_pos _ 400 a (100 * b + 4 * c + e)) by lia. lia.
Qed.
Lemma cycles_next a b c e : 0 ≤ b < 4 → 0 ≤ c < 25 → 0 ≤ e < 4 →
  days_before_year (400 * a + 100 * b + 4 * c + e + 2) =
  if bool_decide (e < 3) then 146097 * a + 36524 * b + 1461 * c + 365 * (e + 1)
  else if bool_decide (c < 24) then 146097 * a + 36524 * b + 1461 * (c + 1)
  else if bool_decide (b < 3) then 146097 * a + 36524 * (b + 1) else 146097 * (a + 1).
Proof.
  intros Hb Hc He. repeat case_bool_decide.
  - replace (400 * a + 100 * b + 4 * c + e + 2) with (400 * a + 100 * b + 4 * c + (e + 1) + 1) by lia. apply cycles; lia.
  - replace (400 * a + 100 * b + 4 * c + e + 2) with (400 * a + 100 * b + 4 * (c + 1) + 0 + 1) by lia. rewrite cycles; lia.
  - replace (400 * a + 100 * b + 4 * c + e + 2) with (400 * a + 100 * (b + 1) + 4 * 0 + 0 + 1) by lia. rewrite cycles; lia.
  - replace (400 * a + 100 * b + 4 * c + e + 2) with (400 * (a + 1) + 100 * 0 + 4 * 0 + 0 + 1) by lia. rewrite cycles; lia.
Qed.
Lemma quotient n k : 0 < k → n = k * (n / k) + n mod k ∧ 0 ≤ n mod k < k.
Proof. intros Hk. split; [apply Z.div_mod; lia|by apply Z.mod_pos_bound]. Qed.

(** A date lies in its year. *)
Lemma year_spec d : days_before_year (year d) < d ∧ d ≤ days_before_year (year d + 1).
Proof.
  unfold year. cbv zeta. assert (d = d - 1 + 1) as Ed by lia. revert Ed. generalize (d - 1). intros n ->.
  pose proof (quotient n 146097 ltac:(lia)) as [E1 B1]. revert E1 B1. generalize (n / 146097), (n mod 146097). intros a r1 -> B1.
  pose proof (quotient r1 36524 ltac:(lia)) as [E2 B2]. revert E2 B2. generalize (r1 / 36524), (r1 mod 36524). intros b r2 -> B2.
  pose proof (quotient r2 1461 ltac:(lia)) as [E3 B3]. revert E3 B3. generalize (r2 / 1461), (r2 mod 1461). intros c r3 -> B3.
  pose proof (quotient r3 365 ltac:(lia)) as [E4 B4]. revert E4 B4. generalize (r3 / 365), (r3 mod 365). intros e r4 -> B4.
  assert (∀ b c e, 0 ≤ b < 4 → 0 ≤ c < 25 → 0 ≤ e < 4 → ∀ x y, y = 400 * a + 100 * b + 4 * c + e + 1 →
    146097 * a + 36524 * b + 1461 * c + 365 * e < x →
    x ≤ (if bool_decide (e < 3) then 146097 * a + 36524 * b + 1461 * c + 365 * (e + 1)
         else if bool_decide (c < 24) then 146097 * a + 36524 * b + 1461 * (c + 1)
         else if bool_decide (b < 3) then 146097 * a + 36524 * (b + 1) else 146097 * (a + 1)) →
    days_before_year y < x ∧ x ≤ days_before_year (y + 1)) as H.
  { intros b' c' e' Hb Hc He x y -> Hlo Hhi. rewrite cycles by done. split; [done|].
    replace (400 * a + 100 * b' + 4 * c' + e' + 1 + 1) with (400 * a + 100 * b' + 4 * c' + e' + 2) by lia. by rewrite cycles_next. }
  destruct (Z.eqb_spec b 4) as [->|Hb]; [rewrite orb_true_r; apply (H 3 24 3); [lia..|]; repeat case_bool_decide; lia|].
  destruct (Z.eqb_spec e 4) as [->|He]; cbn [orb].
  - apply (H b c 3); [lia..|]. repeat case_bool_decide; lia.
  - apply (H b c e); [lia..|]. repeat case_bool_decide; lia.
Qed.
Lemma year_unique d y : days_before_year y < d → d ≤ days_before_year (y + 1) → year d = y.
Proof.
  intros Hlo Hhi. destruct (year_spec d) as [Hlo' Hhi']. destruct (Z.lt_trichotomy (year d) y) as [Hlt|[?|Hlt]]; [|done|].
  - pose proof (years_increase (year d + 1) y ltac:(lia)). lia.
  - pose proof (years_increase (y + 1) (year d) ltac:(lia)). lia.
Qed.

(** The months of a year, by its length: checked on all of its days *)
Definition before_month (leap : bool) (m : Z) : Z :=
  nth (Z.to_nat (m - 1)) [0; 31; 59; 90; 120; 151; 181; 212; 243; 273; 304; 334] 0 + (if (2 <? m) && leap then 1 else 0).
Definition after_month (leap : bool) (m : Z) : Z := if m =? 12 then (if leap then 366 else 365) else before_month leap (m + 1).
Definition month_in (leap : bool) (x : Z) : Z := Z.of_nat (length (List.filter (λ m, before_month leap m + 1 <=? x) (seqZ 1 12))).
Lemma months_table (leap : bool) :
  forallb (λ x, forallb (λ m, Bool.eqb (month_in leap x =? m) ((before_month leap m <? x) && (x <=? after_month leap m))) (seqZ 1 12)
      && (1 <=? month_in leap x) && (month_in leap x <=? 12)) (seqZ 1 (if leap then 366 else 365)) &&
  forallb (λ m, (before_month leap m + 28 <=? after_month leap m) && (0 <=? before_month leap m) &&
      (after_month leap m <=? (if leap then 366 else 365))) (seqZ 1 12) = true.
Proof. destruct leap; vm_compute; reflexivity. Qed.
Lemma month_in_year d : month d = month_in (is_leap (year d)) (d - days_before_year (year d)).
Proof.
  unfold month, month_in. f_equal. f_equal. apply List.filter_ext. intros m. unfold date, days_before_month, before_month. apply eq_bool_prop_intro. rewrite !Is_true_true, !Z.leb_le. lia.
Qed.

(** The first day of the next month *)
Definition next_month (y m : Z) : Z := if m =? 12 then date (y + 1) 1 1 else date y (m + 1) 1.
Lemma next_month_eq y m : 1 ≤ m ≤ 12 → next_month y m = days_before_year y + after_month (is_leap y) m + 1.
Proof.
  intros Hm. unfold next_month, after_month, date. destruct (Z.eqb_spec m 12).
  - change (days_before_month (y + 1) 1) with 0. rewrite next_year. unfold year_length. destruct (is_leap y); lia.
  - unfold days_before_month, before_month. lia.
Qed.

Lemma months_spec (leap : bool) (x : Z) : 1 ≤ x ≤ (if leap then 366 else 365) →
  1 ≤ month_in leap x ≤ 12 ∧ ∀ m, 1 ≤ m ≤ 12 → (month_in leap x = m ↔ before_month leap m < x ∧ x ≤ after_month leap m).
Proof.
  intros Hx. pose proof (months_table leap) as [H _]%andb_true_iff. rewrite forallb_forall in H.
  specialize (H x ltac:(apply list_elem_of_In, elem_of_seqZ; lia)). bool_hyps. split; [lia|]. intros m Hm.
  match goal with H : forallb _ _ = true |- _ => rewrite forallb_forall in H; specialize (H m ltac:(apply list_elem_of_In, elem_of_seqZ; lia)) end.
  match goal with H : Bool.eqb _ _ = true |- _ => apply eqb_prop in H; rename H into E end.
  rewrite <- Z.eqb_eq, E, andb_true_iff, Z.ltb_lt, Z.leb_le. done.
Qed.
Lemma month_sizes (leap : bool) (m : Z) : 1 ≤ m ≤ 12 →
  0 ≤ before_month leap m ∧ before_month leap m + 28 ≤ after_month leap m ∧ after_month leap m ≤ (if leap then 366 else 365).
Proof.
  intros Hm. pose proof (months_table leap) as [_ H]%andb_true_iff. rewrite forallb_forall in H.
  specialize (H m ltac:(apply list_elem_of_In, elem_of_seqZ; lia)). bool_hyps. lia.
Qed.

(** A month is the days from its first to the day before the next one, 28 at least. *)
Lemma in_month y m d : 1 ≤ m ≤ 12 → (date y m 1 ≤ d ∧ d < next_month y m ↔ year d = y ∧ month d = m).
Proof.
  intros Hm. rewrite next_month_eq, month_in_year by done. unfold date, days_before_month.
  fold (before_month (is_leap y) m). pose proof (month_sizes (is_leap y) m Hm) as (H1&H2&H3). split.
  - intros Hd. assert (year d = y) as Ey.
    { apply year_unique; [unfold before_month in *; lia|]. rewrite next_year. unfold year_length. unfold before_month in *; destruct (is_leap y); lia. }
    split; [done|]. rewrite Ey. apply months_spec; [unfold before_month in *; lia|done|unfold before_month in *; lia].
  - intros [<- Em]. destruct (year_spec d) as [Hlo Hhi]. rewrite next_year in Hhi. unfold year_length in Hhi.
    apply months_spec in Em; [unfold before_month in *; lia|destruct (is_leap (year d)); lia|done].
Qed.
Lemma month_length y m : 1 ≤ m ≤ 12 → date y m 1 + 28 ≤ next_month y m.
Proof.
  intros Hm. rewrite next_month_eq by done. unfold date, days_before_month.
  pose proof (month_sizes (is_leap y) m Hm) as (H1&H2&H3). unfold before_month in *. lia.
Qed.
Lemma month_bounds d : 1 ≤ month d ≤ 12.
Proof.
  rewrite month_in_year. destruct (year_spec d) as [Hlo Hhi]. rewrite next_year in Hhi. unfold year_length in Hhi.
  apply months_spec. destruct (is_leap (year d)); lia.
Qed.
Lemma days_of_month d : date (year d) (month d) 1 ≤ d ∧ d < next_month (year d) (month d).
Proof. by apply in_month; [apply month_bounds|]. Qed.
End Months.

Module ReportFacts.
Import MarketCalendar PeriodicReporter Months.

(** ** When reports are made *)

Lemma other_month d n : d < next_month (year d) (month d) → next_month (year d) (month d) ≤ n → n < d + 28 → month n ≠ month d.
Proof.
  intros Hd Hn Hlt. pose proof (month_bounds d) as Hm. unfold next_month in *. destruct (Z.eqb_spec (month d) 12) as [E|E].
  - pose proof (month_length (year d + 1) 1 ltac:(lia)). assert (year n = year d + 1 ∧ month n = 1) as [_ ->] by (apply in_month; lia). lia.
  - pose proof (month_length (year d) (month d + 1) ltac:(lia)).
    assert (year n = year d ∧ month n = month d + 1) as [_ ->] by (apply in_month; lia). lia.
Qed.

(** The last trading day of its month *)
Definition closes_month (d : Z) : Prop :=
  is_trading_day d CAL_KRX = true ∧ ∀ x, d < x → year x = year d → month x = month d → is_trading_day x CAL_KRX = false.

Lemma monthly_decides fuel d : (10 ≤ fuel)%nat →
  ∃ b, should_generate_monthly fuel d = Some b ∧ (b = true ↔ closes_month d).
Proof.
  intros Hf. unfold should_generate_monthly, closes_month. destruct (is_trading_day d CAL_KRX) eqn:Hd; cbn [negb]; [|by exists false; naive_solver].
  pose proof (CalendarFacts.krx_soon 1 d ltac:(by left)) as Hs. unfold CalendarFacts.soon in Hs.
  destruct (search 10 _ 1 (d + 1)) as [n|] eqn:En; [|done].
  pose proof (CalendarFacts.search_spec (λ c, is_trading_day c CAL_KRX) 1 10 (d + 1)) as Hn. rewrite En in Hn.
  destruct Hn as (k&Hk&->&Hp&Hfirst). unfold next_trading_day. rewrite (CalendarFacts.search_fuel _ _ _ _ _ _ En Hf). cbn [fmap option_fmap option_map].
  eexists. split; [done|]. set (n := d + 1 + 1 * Z.of_nat k) in *. destruct (days_of_month d) as [Hlo Hhi]. pose proof (month_bounds d) as Hm.
  rewrite negb_true_iff, Z.eqb_neq. split.
  - intros E. split; [done|]. intros x Hdx Hy Ex. destruct (Z.lt_ge_cases x n) as [Hlt|Hge].
    + specialize (Hfirst (Z.to_nat (x - d - 1)) ltac:(lia)). cbn beta in Hfirst.
      by replace (d + 1 + 1 * Z.of_nat (Z.to_nat (x - d - 1))) with x in Hfirst by lia.
    + exfalso. apply E. destruct (proj2 (in_month (year d) (month d) x Hm) (conj Hy Ex)).
      apply (in_month (year d) (month d)); [done|lia].
  - intros [_ Hnone] E. destruct (Z.lt_ge_cases n (next_month (year d) (month d))) as [Hlt|Hge].
    + destruct (proj1 (in_month (year d) (month d) n Hm) ltac:(lia)) as [Ey _]. rewrite (Hnone n) in Hp; [done|lia|done|done].
    + by apply (other_month d n); [..|lia|].
Qed.

Lemma a_month_closes y m : 1 ≤ m ≤ 12 → ∃ d, year d = y ∧ month d = m ∧ closes_month d.
Proof.
  intros Hm. pose proof (month_length y m Hm) as Hlen. set (l := next_month y m - 1).
  assert (∃ d, l - 11 ≤ d ∧ d ≤ l ∧ is_trading_day d CAL_KRX = true ∧ ∀ x, d < x → x ≤ l → is_trading_day x CAL_KRX = false) as (d&Hlo&Hhi&Ht&Hlast).
  { pose proof (CalendarFacts.krx_soon (-1) (l + 1) ltac:(by right)) as Hs. unfold CalendarFacts.soon in Hs.
    pose proof (CalendarFacts.search_spec (λ c, is_trading_day c CAL_KRX) (-1) 10 (l + 1 + -1)) as Hn.
    destruct (search 10 _ (-1) _) as [n|]; [|done]. destruct Hn as (k&Hk&->&Hp&Hfirst).
    eexists. split_and!; [..|exact Hp|]; [lia|lia|]. intros x Hx Hl. specialize (Hfirst (Z.to_nat (l - x)) ltac:(lia)). cbn beta in Hfirst.
    by replace (l + 1 + -1 + -1 * Z.of_nat (Z.to_nat (l - x))) with x in Hfirst by lia. }
  destruct (proj1 (in_month y m d Hm) ltac:(lia)) as [Hy Em]. exists d. split_and!; [done..|]. split; [done|].
  intros x Hx Ey Ex. apply Hlast; [done|]. rewrite Hy in Ey. rewrite Em in Ex. pose proof (proj2 (in_month y m x Hm) (conj Ey Ex)). lia.
Qed.

(** Every month has its report, once: on its last trading day, which the search for the
    next trading day finds with fuel for ten days, and on no other day; the report then
    covers exactly the days of the month. *)
Theorem every_month_is_reported_once fuel y m (Hf : (10 ≤ fuel)%nat) (Hy : 1 ≤ y < 9999) (Hm : 1 ≤ m ≤ 12) :
  (∃ d, year d = y ∧ month d = m ∧ should_generate_monthly fuel d = Some true ∧
     ∀ x, year x = y → month x = m → x ≠ d → should_generate_monthly fuel x = Some false) ∧
  ∃ start end_, month_range y m = Ok (start, end_) ∧ ∀ l s, s ∈ within start end_ l ↔ s ∈ l ∧ year s.(s_date) = y ∧ month s.(s_date) = m.
Proof.
  split.
  - destruct (a_month_closes y m Hm) as (d&Ey&Em&Hc). exists d. split_and!; [done..| |].
    + destruct (monthly_decides fuel d Hf) as (b&->&Hb). by rewrite (proj2 Hb Hc).
    + intros x Eyx Emx Hne. destruct (monthly_decides fuel x Hf) as ([]&->&Hb); [|done]. exfalso.
      destruct (proj1 Hb eq_refl) as [Hx Hxl], Hc as [Hd Hdl]. destruct (Z.lt_trichotomy x d) as [?|[?|?]]; [|done|].
      * rewrite (Hxl d) in Hd; congruence.
      * rewrite (Hdl x) in Hx; congruence.
  - assert (∀ y m, 1 ≤ y ≤ 9999 → 1 ≤ m ≤ 12 → first_of y m = Ok (date y m 1)) as Hfirst.
    { intros y' m' ? ?. unfold first_of. by rewrite !(proj2 (Z.leb_le _ _)) by lia. }
    exists (date y m 1), (next_month y m - 1). split.
    + unfold month_range, next_month. rewrite Hfirst by lia. cbn [rbind]. destruct (Z.eqb_spec m 12); by rewrite Hfirst by lia.
    + intros l s. unfold within. rewrite list_elem_of_filter. pose proof (in_month y m s.(s_date) Hm).
      assert (date y m 1 ≤ s_date s ∧ s_date s ≤ next_month y m - 1 ↔ date y m 1 ≤ s_date s ∧ s_date s < next_month y m) by lia. naive_solver.
Qed.

Lemma every_month_is_reported_once_witness :
  (∃ d, year d = 2026 ∧ month d = 2 ∧ should_generate_monthly 10 d = Some true ∧
     ∀ x, year x = 2026 → month x = 2 → x ≠ d → should_generate_monthly 10 x = Some false) ∧
  ∃ start end_, month_range 2026 2 = Ok (start, end_) ∧ ∀ l s, s ∈ within start end_ l ↔ s ∈ l ∧ year s.(s_date) = 2026 ∧ month s.(s_date) = 2.
Proof. apply (every_month_is_reported_once 10 2026 2); lia. Defined.

(** A weekly report is made on a Friday that is a trading day and on no other day: the
    second branch asks whether tomorrow is Saturday, which is the same question. *)
Theorem weekly_only_on_fridays d :
  should_generate_weekly d = (weekday d =? 4) && is_trading_day d CAL_KRX.
Proof.
  unfold should_generate_weekly. replace (weekday (d + 1) =? 5) with (weekday d =? 4).
  - by destruct (_ && _).
  - apply eq_bool_prop_intro. rewrite !Is_true_true, !Z.eqb_eq. unfold weekday. Z.to_euclidean_division_equations. lia.
Qed.

(** The week of Christmas 2026 has four trading days and no report. *)
Example no_report_at_christmas :
  let days := seqZ (date 2026 12 21) 7 in
  (length (filter (λ d, is_trading_day d CAL_KRX = true) days), filter (λ d, should_generate_weekly d = true) days) = (4%nat, []).
Proof. by vm_compute. Qed.

(** ** What reports say *)

(** The days of a period have one order by date when no two have the same one. *)
Lemma sorted_once l l' : l ≡ₚ l' → NoDup (s_date <$> l) → merge_sort earlier l = merge_sort earlier l'.
Proof.
  intros Hp Hnd. assert (∀ k : list DailySummary, Sorted earlier (merge_sort earlier k)) as Hsort by (intros k; by apply Sorted_merge_sort, _).
  assert (merge_sort earlier l ≡ₚ merge_sort earlier l') as Hpp by by rewrite !merge_sort_Permutation.
  assert (NoDup (s_date <$> merge_sort earlier l)) as Hnd' by by rewrite merge_sort_Permutation.
  pose proof (Sorted_StronglySorted _ _ (Hsort l)) as S1. pose proof (Sorted_StronglySorted _ _ (Hsort l')) as S2.
  revert Hpp Hnd' S1 S2. generalize (merge_sort earlier l), (merge_sort earlier l'). clear.
  intros l. induction l as [|a l IH]; intros l' Hp Hnd S1 S2; [by apply Permutation_nil in Hp|].
  destruct l' as [|b l']; [by apply Permutation_sym, Permutation_nil in Hp|].
  apply StronglySorted_inv in S1 as [S1 F1], S2 as [S2 F2]. rewrite fmap_cons, NoDup_cons in Hnd. destruct Hnd as [Hna Hnd].
  assert (a = b) as ->.
  { assert (b ∈ a :: l) as Hb by (rewrite Hp; by left). assert (a ∈ b :: l') as Ha by (rewrite <- Hp; by left).
    apply elem_of_cons in Hb as [?|Hb]; [done|]. apply elem_of_cons in Ha as [?|Ha]; [done|].
    rewrite Forall_forall in F1, F2. specialize (F1 b Hb). specialize (F2 a Ha). unfold earlier in *.
    destruct Hna. apply list_elem_of_fmap. exists b. split; [lia|done]. }
  f_equal. apply IH; [by eapply Permutation_cons_inv|done..].
Qed.

(** The order in which the days come does not matter to a report: a weekly report lists
    the days of its week by date, and any other order of the same days gives the same
    report; so does adding days of other weeks. *)
Theorem reports_ignore_the_order mean std l l' start end_ capital mode
    (Hdays : within start end_ l ≡ₚ within start end_ l') (Hnd : NoDup (s_date <$> within start end_ l)) :
  generate_weekly mean std l start end_ capital mode = generate_weekly mean std l' start end_ capital mode ∧
  let r := generate_weekly mean std l start end_ capital mode in
  r.(daily_summaries) ≡ₚ within start end_ l ∧ StronglySorted earlier r.(daily_summaries) ∧
  r.(trading_days) = Z.of_nat (length r.(daily_summaries)).
Proof.
  unfold generate_weekly, _build_report. rewrite (sorted_once _ _ Hdays Hnd). split; [done|].
  assert (merge_sort earlier (within start end_ l') ≡ₚ within start end_ l) as Hp by by rewrite merge_sort_Permutation.
  assert (StronglySorted earlier (merge_sort earlier (within start end_ l'))) as Hs by (apply Sorted_StronglySorted; [apply _|]; by apply Sorted_merge_sort, _).
  destruct (merge_sort earlier (within start end_ l')) as [|a k]; cbn; split_and!; done.
Qed.

(** ** The drawdown *)

(** The highest value so far, for each day *)
Fixpoint peaks (p : float) (l : list DailySummary) : list (float * float) :=
  match l with
  | [] => []
  | d :: l => let p' := fmax p d.(portfolio_value) in (d.(portfolio_value), p') :: peaks p' l
  end.
Lemma mdd_peaks l p m : (foldl mdd_step (p, m) l).2 = foldl (λ m vp, fmin m (drawdown vp.1 vp.2)) m (peaks p l).
Proof. revert p m. induction l as [|d l IH]; intros p m; [done|]. cbn. apply IH. Qed.
Lemma least_of (f : float * float → float) l m : is_nan m = false → (∀ x, x ∈ l → is_nan (f x) = false) →
  let r := foldl (λ m x, fmin m (f x)) m l in
  is_nan r = false ∧ fle r m = true ∧ (∀ x, x ∈ l → fle r (f x) = true) ∧ (r = m ∨ ∃ x, x ∈ l ∧ r = f x).
Proof.
  cbn zeta. revert m. induction l as [|y l IH]; intros m Hm Hl; cbn [foldl].
  { split_and!; [done|by apply fle_refl| |by left]. intros x Hx. by apply elem_of_nil in Hx. }
  assert (is_nan (f y) = false) as Hy by (apply Hl; by left).
  assert (is_nan (fmin m (f y)) = false ∧ fle (fmin m (f y)) m = true ∧ fle (fmin m (f y)) (f y) = true ∧ (fmin m (f y) = m ∨ fmin m (f y) = f y)) as (H1&H2&H3&H4).
  { unfold fmin. destruct (flt (f y) m) eqn:E; split_and!; try done; [by apply flt_le|by apply fle_refl|by right|by apply fle_refl| |by left].
    rewrite fle_not_lt, E; done. }
  destruct (IH (fmin m (f y)) H1 ltac:(intros x Hx; apply Hl; by right)) as (R1&R2&R3&R4). split_and!; [done|by eapply fle_trans| |].
  - intros x [->|Hx]%elem_of_cons; [by eapply fle_trans|by apply R3].
  - destruct R4 as [->|(x&Hx&->)]; [|right; exists x; split; [by right|done]]. destruct H4 as [->| ->]; [by left|]. right. exists y. split; [by left|done].
Qed.

(** The highest value up to and including day [i] *)
Definition peak_at (p : float) (l : list DailySummary) (i : nat) : float := foldl fmax p (portfolio_value <$> take (S i) l).
Lemma peaks_lookup p l vp : vp ∈ peaks p l ↔ ∃ i d, l !! i = Some d ∧ vp = (d.(portfolio_value), peak_at p l i).
Proof.
  revert p. induction l as [|d l IH]; intros p; cbn [peaks]; [split; [by intros ?%elem_of_nil|by intros (i&d&?&_)]|].
  rewrite elem_of_cons, IH. split.
  - intros [->|(i&d'&Hi&->)]; [by exists 0%nat, d|by exists (S i), d'].
  - intros ([|i]&d'&Hi&->); [left; by simplify_eq/=|right; by exists i, d'].
Qed.

Definition number (x : float) : Prop := valid x ∧ finite_float x.
Lemma fmax_number a b : number a → number b → number (fmax a b).
Proof. unfold fmax. by destruct (flt a b). Qed.
Lemma peak_number p l i : number p → Forall (λ d, number d.(portfolio_value)) l → number (peak_at p l i).
Proof.
  intros Hp Hl. unfold peak_at. apply (Forall_take _ (S i)) in Hl. revert p Hp. induction Hl as [|d k Hd _ IH]; intros p Hp; [done|].
  cbn. by apply IH, fmax_number.
Qed.
Lemma drawdown_number v p : number v → number p → is_nan (drawdown v p) = false.
Proof.
  intros [Vv Fv] [Vp Fp]. unfold drawdown. destruct (flt fzero p) eqn:E; [|done].
  assert (nonzero_float p) as Np by by destruct p.
  apply fmul_number; [apply fdiv_valid|apply of_Z_valid| |done]. apply fdiv_number; [|done]. apply fsub_number; [done|]. by destruct p.
Qed.

(** The maximum drawdown of a period whose values are numbers is never positive, is no
    higher than the drop of any day from the highest value before it, and is the drop of
    one of the days, or zero. *)
Theorem drawdown_is_the_deepest first l (Hnum : Forall (λ d, number d.(portfolio_value)) (first :: l)) :
  let days := first :: l in
  let drop_at i d := drawdown d.(portfolio_value) (peak_at first.(portfolio_value) days i) in
  let m := _calculate_mdd days in
  fle m fzero = true ∧ (∀ i d, days !! i = Some d → fle m (drop_at i d) = true) ∧
  (m = fzero ∨ ∃ i d, days !! i = Some d ∧ m = drop_at i d).
Proof.
  cbn zeta. unfold _calculate_mdd. rewrite mdd_peaks. set (p := portfolio_value first).
  assert (number p) as Hp by by apply Forall_inv in Hnum.
  assert (∀ x, x ∈ peaks p (first :: l) → is_nan (drawdown x.1 x.2) = false) as Hx.
  { intros x (i&d&Hi&->)%peaks_lookup. apply drawdown_number; [|by apply peak_number]. rewrite Forall_lookup in Hnum. by eapply (Hnum i). }
  destruct (least_of (λ vp, drawdown vp.1 vp.2) (peaks p (first :: l)) fzero eq_refl Hx) as (_&H1&H2&H3). split_and!; [done| |].
  - intros i d Hi. apply (H2 (d.(portfolio_value), peak_at p (first :: l) i)), peaks_lookup. by exists i, d.
  - destruct H3 as [->|(x&(i&d&Hi&->)%peaks_lookup&->)]; [by left|]. right. by exists i, d.
Qed.

Definition sample (d v r : Z) : DailySummary := {|
  s_date := date 2026 3 d; portfolio_value := of_Z v; daily_pnl := of_Z (r * 1000); daily_return_pct := dec r 2; trades_count := 2 |}.
Lemma drawdown_is_the_deepest_witness :
  let first := sample 2 1000000 0 in let l := [sample 3 1250000 25; sample 4 1000000 (-20); sample 5 1100000 10] in
  Forall (λ d, number d.(portfolio_value)) (first :: l) ∧ fle (_calculate_mdd (first :: l)) fzero = true ∧ _calculate_mdd (first :: l) = of_Z (-20).
Proof.
  assert (Forall (λ d, number d.(portfolio_value)) (sample 2 1000000 0 :: [sample 3 1250000 25; sample 4 1000000 (-20); sample 5 1100000 10])) as H by (repeat constructor).
  split; [exact H|]. split; [|by vm_compute]. exact (proj1 (drawdown_is_the_deepest _ _ H)).
Defined.

Lemma reports_ignore_the_order_witness :
  let a := sample 2 1000000 0 in let b := sample 3 1250000 25 in let std := λ _, fzero in
  generate_weekly std std [a; b] (date 2026 3 2) (date 2026 3 6) (of_Z 1000000) "DEMO" =
  generate_weekly std std [b; sample 10 5 5; a] (date 2026 3 2) (date 2026 3 6) (of_Z 1000000) "DEMO".
Proof.
  intros a b std. refine (proj1 (reports_ignore_the_order std std [a; b] [b; sample 10 5 5; a] (date 2026 3 2) (date 2026 3 6) _ _ _ _)).
  - change (within (date 2026 3 2) (date 2026 3 6) [b; sample 10 5 5; a]) with [b; a]. apply (perm_swap b a []).
  - change (within (date 2026 3 2) (date 2026 3 6) [a; b]) with [a; b]. apply (bool_decide_unpack _). by vm_compute.
Defined.

(** The text of a report *)
Example weekly_text :
  format_weekly_telegram (generate_weekly (λ _, fzero) (λ _, fzero) [sample 3 1250000 25; sample 2 1000000 0] (date 2026 3 2) (date 2026 3 6) (of_Z 1000000) "DEMO") =
  join_lines ["━━━━━━━━━━━━━━━━"; "📊 AQTS 주간 리포트"; "━━━━━━━━━━━━━━━━"; "📅 2026-03-02 ~ 2026-03-06 | 🔵 모의투자"; "";
    "💰 주간 성과"; "  📈 손익:       +250,000원"; "  📊 수익률:     +25.00%"; "  📊 누적 수익률:   +25.00%"; ""; "📋 거래 요약"; "  거래일: 2일"; "  총 거래: 4건"; "";
    "📉 리스크"; "  MDD: 0.00%"; "  변동성: 0.00%"; "  Sharpe: 0.00"; ""; "🏆 Best: 2026-03-03 (+0.25%)"; "💀 Worst: 2026-03-02 (+0.00%)"; ""; "━━━━━━━━━━━━━━━━"].
Proof. by vm_compute. Qed.
End ReportFacts.
