(* ===== verification/News.v ===== *)
(** News and disclosures: backend/core/data_collector/news_collector.py.

    Texts are UTF-8.  What httpx, feedparser and BeautifulSoup answer, md5, the decimal
    digits and the letters of other scripts are parameters; so is whether the collection
    takes an insert.  The clock stands still during one collection, limits of queries are
    positive, and which of two articles of the same moment comes first is left open by
    the database: here it is the order of the map. *)

From stdpp Require Import base option list sorting gmap strings.
From Stdlib Require Import ZArith Lia Ascii.
From S2P Require Import Prelude PyDict PyFormat PyParse Constants Calendar KisClient MarketData.

(** * Tickers of a text *)

(** The characters of a text, each with its bytes *)
Fixpoint chars_from (s : string) : string * list string :=
  match s with
  | "" => ("", [])
  | String a s' =>
      let '(tail, l) := chars_from s' in
      let n := N_of_ascii a in
      if (128 <=? n)%N && (n <=? 191)%N then (String a tail, l) else ("", String a tail :: l)
  end.
Definition chars (s : string) : list string := (chars_from s).2.
Definition text_of (l : list string) : string := foldr String.append "" l.

Definition _KR_NAME_TO_TICKER : list (string * string) :=
  [("삼성전자", "005930"); ("SK하이닉스", "000660"); ("LG에너지솔루션", "373220"); ("삼성바이오로직스", "207940");
   ("현대차", "005380"); ("현대자동차", "005380"); ("기아", "000270"); ("셀트리온", "068270"); ("KB금융", "105560");
   ("POSCO홀딩스", "005490"); ("포스코홀딩스", "005490"); ("NAVER", "035420"); ("네이버", "035420"); ("카카오", "035720");
   ("LG화학", "051910"); ("삼성SDI", "006400"); ("현대모비스", "012330"); ("신한지주", "055550"); ("SK이노베이션", "096770");
   ("하나금융지주", "086790"); ("삼성물산", "028260"); ("LG전자", "066570"); ("SK텔레콤", "017670"); ("카카오뱅크", "323410");
   ("두산에너빌리티", "034020"); ("에코프로비엠", "247540"); ("에코프로", "086520"); ("한화에어로스페이스", "012450")].

(** Code point order of strings is the order of their bytes. *)
Fixpoint str_leb (a b : string) : bool :=
  match a, b with
  | "", _ => true
  | String _ _, "" => false
  | String x a', String y b' => let m := N_of_ascii x in let n := N_of_ascii y in (m <? n)%N || ((m =? n)%N && str_leb a' b')
  end.
Definition str_le (a b : string) : Prop := str_leb a b = true.
#[export] Instance str_le_dec a b : Decision (str_le a b).
Proof. unfold str_le. apply _. Defined.

Section Tickers.
(** Letters and decimal digits beyond ASCII *)
Context (other_word other_digit : string → bool).

Definition ascii_class (f : N → bool) (other : string → bool) (c : string) : bool :=
  match c with String a "" => f (N_of_ascii a) | _ => other c end.
Definition digit_code (n : N) : bool := (48 <=? n)%N && (n <=? 57)%N.
Definition word_code (n : N) : bool :=
  digit_code n || ((65 <=? n)%N && (n <=? 90)%N) || ((97 <=? n)%N && (n <=? 122)%N) || (n =? 95)%N.
Definition is_digit_char : string → bool := ascii_class digit_code other_digit.
Definition is_word_char : string → bool := ascii_class word_code other_word.

(** [re.finditer(r"\b(\d{6})\b", text)]: [prev] is whether a word character precedes,
    [skip] the characters that the last match still covers *)
Definition next_is_word (l : list string) : bool := match l with c :: _ => is_word_char c | [] => false end.
Definition six_digits (l : list string) : bool := (length l =? 6)%nat && forallb is_digit_char l.
Definition matches_here (prev : bool) (l : list string) : bool :=
  xorb prev (next_is_word l) && six_digits (take 6 l) &&
  xorb (match last (take 6 l) with Some c => is_word_char c | None => false end) (next_is_word (drop 6 l)).
Fixpoint scan (prev : bool) (skip : nat) (l : list string) : list (list string) :=
  match l with
  | [] => []
  | c :: rest =>
      match skip with
      | S k => scan (is_word_char c) k rest
      | O => if matches_here prev l then take 6 l :: scan (is_word_char c) 5 rest else scan (is_word_char c) 0 rest
      end
  end.
Definition _KR_TICKER_PATTERN (text : string) : list string := text_of <$> scan false 0 (chars text).

Definition is_year (code : string) : bool := starts_with "20" code || starts_with "19" code.
Definition extract_tickers (text : string) : list string :=
  let codes := filter (λ c, is_year c = false) (_KR_TICKER_PATTERN text) in
  let named := snd <$> filter (λ p, contains p.1 text = true) _KR_NAME_TO_TICKER in
  merge_sort str_le (remove_dups (codes ++ named)).
End Tickers.

Definition earnings_keywords : list string := ["실적"; "영업이익"; "매출"; "순이익"; "분기"; "어닝"].
Definition macro_keywords : list string := ["금리"; "기준금리"; "Fed"; "FOMC"; "환율"; "GDP"; "인플레이션"; "CPI"; "고용"].
Definition sector_keywords : list string := ["반도체"; "2차전지"; "바이오"; "AI"; "자동차"; "은행"; "보험"; "건설"].
Definition _classify_category (text : string) : string :=
  let any l := existsb (λ kw, contains kw text) l in
  if any earnings_keywords then "earnings" else if any macro_keywords then "macro" else if any sector_keywords then "sector" else "general".

(** * Articles *)

Record NewsArticle := {
  url_hash : string; title : string; content : string; url : string; source : string; published_at : Z;
  tickers : list string; category : string; metadata : list (string * JValue) }.

(** What feedparser makes of an entry: the attributes it has *)
Record Entry := {
  e_title : option string; e_link : option string; e_content : option (list (option string)); e_summary : option string;
  published_parsed : option (Z * Z * Z * (Z * Z * Z)); updated_parsed : option (Z * Z * Z * (Z * Z * Z)) }.

Inductive NewsSource := NAVER_FINANCE | HANKYUNG | MAEKYUNG | REUTERS | DART | REDDIT.
#[export] Instance NewsSource_eq_dec : EqDecision NewsSource.
Proof. solve_decision. Defined.
Definition source_value (s : NewsSource) : string :=
  match s with NAVER_FINANCE => "NAVER_FINANCE" | HANKYUNG => "HANKYUNG" | MAEKYUNG => "MAEKYUNG" | REUTERS => "REUTERS" | DART => "DART" | REDDIT => "REDDIT" end.

Definition NEWS_RSS_FEEDS : list (NewsSource * list string) :=
  [(NAVER_FINANCE, ["https://news.google.com/rss/search?q=주식+when:1d&hl=ko&gl=KR&ceid=KR:ko";
                    "https://news.google.com/rss/search?q=증시+when:1d&hl=ko&gl=KR&ceid=KR:ko"]);
   (HANKYUNG, ["https://www.hankyung.com/feed/stock"; "https://www.hankyung.com/feed/economy"; "https://www.hankyung.com/feed/finance"]);
   (MAEKYUNG, ["https://www.mk.co.kr/rss/30100041/"; "https://www.mk.co.kr/rss/30000001/"]);
   (REUTERS, ["https://news.google.com/rss/search?q=site:reuters.com+markets+when:1d&hl=en&gl=US&ceid=US:en";
              "https://news.google.com/rss/search?q=site:reuters.com+economy+when:1d&hl=en&gl=US&ceid=US:en";
              "https://news.google.com/rss/search?q=site:reuters.com+Asia+markets+when:1d&hl=en&gl=US&ceid=US:en"])].
Definition DART_DISCLOSURE_TYPES : list string := ["A"; "B"; "C"; "D"; "F"].

(** [datetime(y, m, d, h, mi, s, tzinfo=utc)] in microseconds *)
Definition utc_datetime (t : Z * Z * Z * (Z * Z * Z)) : result exc Z :=
  let '(y, m, d, (h, mi, s)) := t in
  if (1 <=? y) && (y <=? 9999) && (1 <=? m) && (m <=? 12) && (1 <=? d) && (d <=? Settings.days_in_month y m) &&
     (0 <=? h) && (h <=? 23) && (0 <=? mi) && (mi <=? 59) && (0 <=? s) && (s <=? 59)
  then Ok (date y m d * day_us + ((h * 60 + mi) * 60 + s) * 1000000) else Err (OtherException "ValueError" "").

(** [for x in l: try: ... except Exception: continue], for one that may also be skipped *)
Fixpoint collect_valid {A B} (f : A → result exc (option B)) (l : list A) : list B :=
  match l with
  | [] => []
  | x :: rest => match f x with Ok (Some b) => b :: collect_valid f rest | _ => collect_valid f rest end
  end.
(** [for x in l: try: out.extend(f(x)) except Exception: continue] *)
Definition extend_each {A B} (f : A → result exc (list B)) (l : list A) : list B :=
  flat_map (λ x, match f x with Ok l => l | Err _ => [] end) l.

(** The unique index on url_hash *)
Abbreviation Collection := (gmap string NewsArticle).

Section Collectors.
Context (other_word other_digit : string → bool) (md5 : string → string) (get_text : string → string) (now : Z).
(** A feed is fetched and parsed; DART answers with JSON. *)
Context (fetch_feed : string → result exc (list Entry)).
Context (dart_api_key : string) (fetch_list : string → string → string → option string → result exc JValue).
(** [str(v)] of a value that is no text *)
Context (py_str : JValue → string).

Definition new_article (t c u s : string) (p : option Z) (tk : list string) (cat : string) (meta : list (string * JValue)) : NewsArticle := {|
  url_hash := md5 u; title := strip t; content := strip c; url := u; source := s; published_at := default now p;
  tickers := tk; category := cat; metadata := meta |}.

Definition entry_content (e : Entry) : string :=
  match e.(e_content) with
  | Some (raw :: _) => get_text (default "" raw)
  | _ => match e.(e_summary) with Some s => get_text s | None => "" end
  end.
Definition entry_time (e : Entry) : result exc (option Z) :=
  match e.(published_parsed) with
  | Some t => rmap Some (utc_datetime t)
  | None => match e.(updated_parsed) with Some t => rmap Some (utc_datetime t) | None => Ok None end
  end.
Definition cutoff : Z := now - 24 * 3600 * 1000000.
Definition article_of (s : NewsSource) (e : Entry) : result exc (option NewsArticle) :=
  let t := default "" e.(e_title) in
  let link := default "" e.(e_link) in
  if bool_decide (t = "") || bool_decide (link = "") then Ok None else
  let c := entry_content e in
  rbind (entry_time e) (λ p,
  if match p with Some p => p <? cutoff | None => false end then Ok None else
  let combined_text := t +:+ " " +:+ c in
  Ok (Some (new_article t (text_of (take 5000 (chars c))) link (source_value s) p
              (extract_tickers other_word other_digit combined_text) (_classify_category combined_text) []))).
Definition _parse_feed (feed_url : string) (s : NewsSource) : result exc (list NewsArticle) :=
  rmap (collect_valid (article_of s)) (fetch_feed feed_url).
Definition collect_all : list NewsArticle :=
  flat_map (λ '(s, urls), extend_each (λ u, _parse_feed u s) urls) NEWS_RSS_FEEDS.
Definition feeds_of (s : NewsSource) : list string :=
  match filter (λ f, f.1 = s) NEWS_RSS_FEEDS with f :: _ => f.2 | [] => [] end.
Definition collect_source (s : NewsSource) : list NewsArticle := extend_each (λ u, _parse_feed u s) (feeds_of s).

(** ** DART *)

Definition is_available : bool := negb (bool_decide (dart_api_key = "")).
Definition show (v : JValue) : string := match v with JStr s => s | _ => py_str v end.
(** [len(v)] *)
Definition len_of (v : JValue) : result exc Z :=
  match v with
  | JStr s => Ok (py_len s)
  | JArray l => Ok (Z.of_nat (length l))
  | JObject l => Ok (Z.of_nat (length l))
  | _ => Err (OtherException "TypeError" "")
  end.
Definition strip_of (v : JValue) : result exc string :=
  match v with JStr s => Ok (strip s) | _ => Err (OtherException "AttributeError" "") end.
Definition disclosure_time (rcept_dt : JValue) : result exc (option Z) :=
  if negb (truthy rcept_dt) then Ok None else
  rbind (len_of rcept_dt) (λ n, if n =? 8 then rmap (λ d, Some (d * day_us)) (strptime rcept_dt) else Ok None).
Definition disclosure (pblntf_ty : string) (item : JValue) : result exc (option NewsArticle) :=
  rbind (get_or item "report_nm" (JStr "")) (λ t, rbind (get_or item "corp_name" (JStr "")) (λ corp,
  rbind (rbind (get_or item "stock_code" (JStr "")) strip_of) (λ code, rbind (get_or item "rcept_no" (JStr "")) (λ no,
  rbind (get_or item "rcept_dt" (JStr "")) (λ dt, rbind (disclosure_time dt) (λ p,
  rbind (get_or item "corp_code" (JStr "")) (λ corp_code, rbind (get_or item "flr_nm" (JStr "")) (λ flr,
  Ok (Some (new_article ("[" +:+ show corp +:+ "] " +:+ show t) (show corp +:+ " 전자공시: " +:+ show t)
    ("https://dart.fss.or.kr/dsaf001/main.do?rcpNo=" +:+ show no) (source_value DART) p
    (if bool_decide (code = "") then [] else [code]) "disclosure"
    [("corp_code", corp_code); ("corp_name", corp); ("stock_code", JStr code); ("pblntf_ty", JStr pblntf_ty); ("rcept_no", no); ("flr_nm", flr)])))))))))).
Definition is_text (v : JValue) (s : string) : bool := match v with JStr t => bool_decide (t = s) | _ => false end.
(** A text of items is walked by characters and an object by its keys, none of which is
    an item: all are skipped. *)
Definition iterate (v : JValue) : result exc (list JValue) :=
  match v with
  | JArray l => Ok l
  | JStr _ | JObject _ => Ok []
  | _ => Err (OtherException "TypeError" "")
  end.
Definition _fetch_disclosures (begin_date end_date pblntf_ty : string) (corp_code : option string) : result exc (list NewsArticle) :=
  rbind (fetch_list begin_date end_date pblntf_ty corp_code) (λ data,
  rbind (get_or data "status" JNull) (λ status,
  if negb (is_text status "000") then Ok [] else
  rbind (rbind (get_or data "list" (JArray [])) iterate) (λ l, Ok (collect_valid (disclosure pblntf_ty) l)))).
Definition collect_recent (begin_date end_date : string) (corp_code : option string) : list NewsArticle :=
  if negb is_available then [] else
  extend_each (λ ty, _fetch_disclosures begin_date end_date ty corp_code) DART_DISCLOSURE_TYPES.

(** ** The service *)

(** What the collection does at an insert, beside refusing a duplicate *)
Context (outage : NewsArticle → option exc).
Definition insert_one (a : NewsArticle) : M Collection exc unit :=
  c ← get;
  match outage a with
  | Some e => raise e
  | None => match c !! a.(url_hash) with
            | Some _ => raise (OtherException "DuplicateKeyError" a.(url_hash))
            | None => modify (λ c, <[a.(url_hash) := a]> c)
            end
  end.
Record Counts := { total_collected : Z; new_stored : Z; duplicates_skipped : Z }.
Fixpoint store_each (l : list NewsArticle) (new dup : Z) : M Collection exc (Z * Z) :=
  match l with
  | [] => mret (new, dup)
  | a :: rest =>
      stored ← try_except (insert_one a;; mret true) (λ _, mret false);
      if stored : bool then store_each rest (new + 1) dup else store_each rest new (dup + 1)
  end.
Definition store_all (l : list NewsArticle) : M Collection exc Counts :=
  '(new, dup) ← store_each l 0 0;
  mret {| total_collected := Z.of_nat (length l); new_stored := new; duplicates_skipped := dup |}.
(** [indexes]: whether the indexes could be created; DART is asked for the last two days. *)
Definition collect_and_store (begin_date end_date : string) (indexes : result exc unit) : M Collection exc Counts :=
  let all_articles := collect_all ++ collect_recent begin_date end_date None in
  lift_result indexes;;
  store_all all_articles.

Definition newest_first (a b : NewsArticle) : Prop := b.(published_at) ≤ a.(published_at).
#[export] Instance newest_first_dec a b : Decision (newest_first a b).
Proof. unfold newest_first. apply _. Defined.
Definition found (p : NewsArticle → bool) (limit : nat) (c : Collection) : list NewsArticle :=
  take limit (merge_sort newest_first (filter (λ a, p a = true) (snd <$> map_to_list c))).
Definition recent (hours : Z) (a : NewsArticle) : bool := now - hours * 3600 * 1000000 <=? a.(published_at).
Definition get_articles_for_ticker (tk : string) (hours : Z) (limit : nat) : Collection → list NewsArticle :=
  found (λ a, bool_decide (tk ∈ a.(tickers)) && recent hours a) limit.
Definition get_recent_articles (hours : Z) (cat : option string) (limit : nat) : Collection → list NewsArticle :=
  found (λ a, recent hours a && match cat with Some "" | None => true | Some k => bool_decide (a.(category) = k) end) limit.
Definition get_macro_articles (hours : Z) (limit : nat) : Collection → list NewsArticle := get_recent_articles hours (Some "macro") limit.
End Collectors.

(** * Properties *)

Module NewsFacts.

(** ** Codes *)

Section Words.
Context (other_word other_digit : string → bool).
Context (digits_are_words : ∀ c, is_digit_char other_digit c = true → is_word_char other_word c = true).
Abbreviation word := (is_word_char other_word).
Abbreviation six := (six_digits other_digit).

(** The words of a text: its longest runs of word characters *)
Fixpoint words_from (run : list string) (l : list string) : list (list string) :=
  match l with
  | [] => match run with [] => [] | _ => [run] end
  | c :: rest => if word c then words_from (run ++ [c]) rest else match run with [] => words_from [] rest | _ => run :: words_from [] rest end
  end.
Definition words : list string → list (list string) := words_from [].

Definition stops (r : list string) : Prop := next_is_word other_word r = false.
Lemma run_words w run r : Forall (λ c, word c = true) w → stops r →
  words_from run (w ++ r) = match run ++ w with [] => words r | _ => (run ++ w) :: words (drop 1 r) end.
Proof.
  intros Hw Hr. revert run. induction Hw as [|c w Hc _ IH]; intros run; cbn [words_from app].
  - rewrite app_nil_r. destruct run as [|a run]; [done|]. destruct r as [|c r]; [done|]. change (is_word_char other_word c = false) in Hr. cbn. by rewrite Hr, drop_0.
  - rewrite Hc, IH, <- app_assoc. cbn. by destruct run.
Qed.
Lemma scan_in_word w r : Forall (λ c, word c = true) w → scan other_word other_digit true 0 (w ++ r) = scan other_word other_digit true 0 r.
Proof.
  induction 1 as [|c w Hc _ IH]; [done|]. cbn [app scan]. unfold matches_here. cbn [next_is_word]. rewrite Hc. cbn [xorb andb]. by rewrite <- Hc at 1; rewrite Hc.
Qed.
Lemma scan_skip w r k p : Forall (λ c, word c = true) w → (length w ≤ k)%nat → w ≠ [] →
  scan other_word other_digit p k (w ++ r) = scan other_word other_digit true (k - length w) r.
Proof.
  intros Hw. revert k p. induction Hw as [|c w Hc _ IH]; intros k p Hk Hne; [done|]. cbn [length] in *. destruct k as [|k]; [lia|].
  cbn [app scan]. rewrite Hc. destruct w as [|c' w]; [cbn; by destruct k|]. rewrite IH; [done|lia|done].
Qed.
Lemma scan_before r : stops r → scan other_word other_digit true 0 r = scan other_word other_digit false 0 (drop 1 r) ∧ words r = words (drop 1 r).
Proof.
  intros Hr. destruct r as [|c r]; [done|]. change (is_word_char other_word c = false) in Hr. rewrite skipn_cons, drop_0. split.
  - assert (forallb (is_digit_char other_digit) (take 6 (c :: r)) = false) as E.
    { destruct (is_digit_char other_digit c) eqn:Hd; [apply digits_are_words in Hd; congruence|]. cbn. by rewrite Hd. }
    cbn [scan]. unfold matches_here, six_digits. rewrite E, andb_false_r, andb_false_r. by rewrite Hr.
  - unfold words. cbn [words_from]. by rewrite Hr.
Qed.

Lemma six_word w : six w = true → Forall (λ c, word c = true) w ∧ length w = 6%nat.
Proof.
  unfold six_digits. rewrite andb_true_iff, Nat.eqb_eq, forallb_forall. intros [Hl Hd]. split; [|done].
  apply Forall_forall. intros c Hc. apply digits_are_words, Hd. by apply list_elem_of_In.
Qed.
Lemma next_of_words w r : Forall (λ c, word c = true) w → w ≠ [] → next_is_word other_word (w ++ r) = true.
Proof. intros Hw Hne. destruct w; [done|]. by apply Forall_cons in Hw as [? _]. Qed.
Lemma match_at_word w r : Forall (λ c, word c = true) w → w ≠ [] → stops r →
  matches_here other_word other_digit false (w ++ r) = six w.
Proof.
  intros Hw Hne Hr. unfold matches_here. rewrite next_of_words by done. cbn [xorb andb].
  destruct (Nat.lt_trichotomy (length w) 6) as [Hl|[Hl|Hl]].
  - assert (six w = false) as -> by (unfold six_digits; by rewrite (proj2 (Nat.eqb_neq _ _)) by lia).
    destruct (six (take 6 (w ++ r))) eqn:E; [exfalso|done]. apply six_word in E as [E El].
    destruct r as [|c r]; [rewrite app_nil_r, length_take in El; lia|]. change (is_word_char other_word c = false) in Hr.
    rewrite Forall_lookup in E. assert (take 6 (w ++ c :: r) !! length w = Some c) as Hc by (rewrite lookup_take_lt by done; by apply list_lookup_middle).
    rewrite (E _ _ Hc) in Hr. done.
  - rewrite take_app_length', drop_app_length' by done. unfold stops in Hr. rewrite Hr.
    destruct (last w) as [c|] eqn:El; [|by apply last_None in El].
    apply last_Some_elem_of in El. rewrite Forall_forall in Hw. rewrite (Hw c El). by rewrite andb_true_r.
  - assert (six w = false) as -> by (unfold six_digits; by rewrite (proj2 (Nat.eqb_neq _ _)) by lia).
    rewrite take_app_le, drop_app_le by lia. rewrite next_of_words; [|by apply Forall_drop|intros E%(f_equal length); rewrite length_drop in E; cbn in E; lia].
    destruct (last (take 6 w)) as [c|] eqn:El; [|apply last_None, (f_equal length) in El; rewrite length_take in El; change (length (@nil string)) with 0%nat in El; lia].
    apply last_Some_elem_of in El. rewrite Forall_forall in Hw. rewrite (Hw c); [by rewrite andb_false_r|].
    apply elem_of_take in El as (i&El&_). by eapply list_elem_of_lookup_2.
Qed.

(** The scan on one word and what stops it *)
Lemma scan_word w r : Forall (λ c, word c = true) w → w ≠ [] → stops r →
  scan other_word other_digit false 0 (w ++ r) =
  (if six w then [w] else []) ++ scan other_word other_digit false 0 (drop 1 r).
Proof.
  intros Hw Hne Hr. destruct w as [|c w]; [done|]. apply Forall_cons in Hw as [Hc Hw].
  pose proof (match_at_word (c :: w) r (Forall_cons_2 _ _ _ Hc Hw) Hne Hr) as Hm.
  cbn [app scan]. change (c :: w ++ r) with ((c :: w) ++ r). rewrite Hm, Hc. destruct (six (c :: w)) eqn:E; cbn [app].
  - apply six_word in E as [_ E]. assert (w ≠ []) as Hn by by destruct w.
    rewrite app_comm_cons, take_app_length' by done. f_equal. rewrite scan_skip; [|done|cbn in E; lia|done].
    replace (5 - length w)%nat with 0%nat by (cbn in E; lia). by apply scan_before.
  - rewrite scan_in_word by done. by apply scan_before.
Qed.

(** The codes that the pattern finds are exactly the words of six digits, in the order of
    the text: no part of a longer number or of a name is taken for one. *)
Theorem codes_are_whole_words l : scan other_word other_digit false 0 l = filter (λ w, six w = true) (words l).
Proof.
  remember (length l) as n eqn:En. revert l En. induction n as [n IH] using lt_wf_ind. intros l ->.
  assert (∃ w r, l = w ++ r ∧ Forall (λ c, word c = true) w ∧ stops r) as (w&r&->&Hw&Hr).
  { clear IH. induction l as [|c l (w&r&->&Hw&Hr)]; [by exists [], []|]. destruct (word c) eqn:Hc.
    - exists (c :: w), r. split_and!; [done|by constructor|done].
    - by exists [], (c :: w ++ r). }
  assert (∀ k, (length k < length (w ++ r))%nat → scan other_word other_digit false 0 k = filter (λ w, six w = true) (words k)) as IH'.
  { intros k Hk. by apply (IH (length k)). }
  unfold words at 1. rewrite run_words by done. destruct w as [|c w].
  - destruct r as [|c r]; [done|]. change (is_word_char other_word c = false) in Hr. cbn [app] in *. cbn [scan]. unfold matches_here. cbn [next_is_word]. rewrite Hr. cbn [xorb andb].
    rewrite IH' by (cbn; lia). unfold words at 2. cbn [words_from]. by rewrite Hr.
  - cbn [app]. change (c :: w ++ r) with ((c :: w) ++ r). rewrite scan_word by done. rewrite IH' by (rewrite length_app, length_drop; cbn; lia).
    rewrite filter_cons. by destruct (six (c :: w)) eqn:E; rewrite ?E.
Qed.
End Words.

(** A year is taken for a date, and so is the code of Samsung Biologics: the six digits
    207940 are in the table of names, yet a text that gives them is tagged with nothing.
    A text about EcoPro BM is tagged with EcoPro as well. *)
Example years_and_names :
  let none := λ _ : string, false in
  extract_tickers none none "(207940) 2026" = [] ∧ extract_tickers none none "005930, 1234567" = ["005930"] ∧
  extract_tickers none none "에코프로비엠" = ["086520"; "247540"].
Proof. by vm_compute. Qed.

(** ** Storing *)

Section Storing.
Context (outage : NewsArticle → option exc).

Definition stores (c : Collection) (a : NewsArticle) : bool :=
  match outage a, c !! a.(url_hash) with None, None => true | _, _ => false end.
Lemma insert_runs a c :
  try_except (E:=exc) (E':=exc) (insert_one outage a;; mret true) (λ _, mret false) c =
  (Ok (stores c a), if stores c a then <[a.(url_hash) := a]> c else c).
Proof. unfold try_except, insert_one, stores. run_m. destruct (outage a); [done|]. by destruct (c !! a.(url_hash)). Qed.

(** Storing one after the other: what is stored of it, and what the collection holds *)
Fixpoint kept (l : list NewsArticle) (c : Collection) : list NewsArticle * Collection :=
  match l with
  | [] => ([], c)
  | a :: rest =>
      if stores c a then let '(k, c') := kept rest (<[a.(url_hash) := a]> c) in (a :: k, c') else kept rest c
  end.
Lemma counted a b a' b' (c : Collection) : a = a' → b = b' → (@Ok exc _ (a : Z, b : Z), c) = (Ok (a', b'), c).
Proof. by intros -> ->. Qed.
Lemma store_each_kept l c new dup :
  store_each outage l new dup c =
  (Ok (new + Z.of_nat (length (kept l c).1), dup + Z.of_nat (length l) - Z.of_nat (length (kept l c).1)), (kept l c).2).
Proof.
  revert c new dup. induction l as [|a l IH]; intros c new dup.
  { by apply counted; cbn; lia. }
  cbn [store_each kept]. unfold mbind at 1, M_bind at 1. rewrite insert_runs. destruct (stores c a).
  - rewrite IH. destruct (kept l _) as [k c']. apply counted; cbn [length fst snd]; lia.
  - rewrite IH. apply counted; cbn [length]; lia.
Qed.

Lemma store_all_kept l c :
  store_all outage l c =
  (Ok {| total_collected := Z.of_nat (length l); new_stored := 0 + Z.of_nat (length (kept l c).1);
         duplicates_skipped := 0 + Z.of_nat (length l) - Z.of_nat (length (kept l c).1) |}, (kept l c).2).
Proof. unfold store_all, mbind, M_bind. by rewrite store_each_kept. Qed.

Lemma kept_spec l c : let '(k, c') := kept l c in
  (∀ h a, c !! h = Some a → c' !! h = Some a) ∧
  (∀ h a, c' !! h = Some a → c !! h = Some a ∨ a ∈ k ∧ h = a.(url_hash)) ∧
  (∀ a, a ∈ k → a ∈ l ∧ outage a = None ∧ c !! a.(url_hash) = None ∧ c' !! a.(url_hash) = Some a) ∧
  (∀ a, a ∈ l → outage a = None → is_Some (c' !! a.(url_hash))) ∧
  size c' = (size c + length k)%nat.
Proof.
  revert c. induction l as [|a l IH]; intros c; cbn [kept].
  { split_and!; [done|by left|by intros ? ?%elem_of_nil|by intros ? ?%elem_of_nil|cbn; lia]. }
  unfold stores. destruct (outage a) as [e|] eqn:Eo.
  { specialize (IH c). destruct (kept l c) as [k c']. destruct IH as (H1&H2&H3&H4&H5). split_and!; [done..| | |done].
    - intros x Hx. destruct (H3 x Hx) as (?&?&?&?). split_and!; [by right|done..].
    - intros x [->|Hx]%elem_of_cons Ex; [congruence|by apply H4]. }
  destruct (c !! a.(url_hash)) as [b|] eqn:Ec.
  { specialize (IH c). destruct (kept l c) as [k c']. destruct IH as (H1&H2&H3&H4&H5). split_and!; [done..| | |done].
    - intros x Hx. destruct (H3 x Hx) as (?&?&?&?). split_and!; [by right|done..].
    - intros x [->|Hx]%elem_of_cons Ex; [|by apply H4]. exists b. by apply H1. }
  specialize (IH (<[a.(url_hash) := a]> c)). destruct (kept l _) as [k c']. destruct IH as (H1&H2&H3&H4&H5).
  assert (c' !! a.(url_hash) = Some a) as Ha by (apply H1, lookup_insert_eq). split_and!.
  - intros h x Hx. apply H1. rewrite lookup_insert_ne; [done|congruence].
  - intros h x Hx. destruct (decide (h = a.(url_hash))) as [->|Hne].
    + right. rewrite Ha in Hx. simplify_eq. split; [by left|done].
    + destruct (H2 h x Hx) as [Hc|[Hk ->]]; [left; by rewrite lookup_insert_ne in Hc|right; split; [by right|done]].
  - intros x [->|Hx]%elem_of_cons; [split_and!; [by left|done..]|]. destruct (H3 x Hx) as (?&?&Hn&?).
    split_and!; [by right|done| |done]. apply lookup_insert_None in Hn. naive_solver.
  - intros x [->|Hx]%elem_of_cons Ex; [by eexists|by apply H4].
  - rewrite H5, map_size_insert_None by done. cbn. lia.
Qed.
Lemma nothing_new l c : (∀ a, a ∈ l → outage a = None → is_Some (c !! a.(url_hash))) → kept l c = ([], c).
Proof.
  induction l as [|a l IH]; intros H; [done|]. cbn [kept]. unfold stores. rewrite IH by (intros x Hx; apply H; by right).
  destruct (outage a) eqn:Eo; [done|]. by destruct (H a ltac:(by left) Eo) as [b ->].
Qed.

(** An article is stored at most once, by the hash of its address, and what is stored is
    never overwritten: every article that the collection takes is there afterwards, the
    counts add up, and storing the same articles again stores nothing.  An article that an
    outage keeps out is counted as a duplicate. *)
Theorem news_is_stored_once l (c : Collection) :
  ∃ n c', store_all outage l c = (Ok n, c') ∧
  n.(total_collected) = Z.of_nat (length l) ∧ n.(new_stored) + n.(duplicates_skipped) = n.(total_collected) ∧
  (∀ h a, c !! h = Some a → c' !! h = Some a) ∧
  (∀ h a, c' !! h = Some a → c !! h = Some a ∨ a ∈ l ∧ outage a = None ∧ h = a.(url_hash)) ∧
  (∀ a, a ∈ l → outage a = None → is_Some (c' !! a.(url_hash))) ∧
  n.(new_stored) = Z.of_nat (size c') - Z.of_nat (size c) ∧
  store_all outage l c' =
    (Ok {| total_collected := Z.of_nat (length l); new_stored := 0; duplicates_skipped := Z.of_nat (length l) |}, c').
Proof.
  pose proof (kept_spec l c) as H. destruct (kept l c) as [k c'] eqn:Ek. destruct H as (H1&H2&H3&H4&H5).
  eexists _, c'. rewrite !store_all_kept, Ek, (nothing_new l c') by done. split; [reflexivity|]. cbn. split_and!; try done; try lia.
  - intros h a Ha. destruct (H2 h a Ha) as [?|[Hk ->]]; [by left|right]. destruct (H3 a Hk) as (?&?&_). done.
  - do 3 f_equal. lia.
Qed.
End Storing.

(** ** What feeds give *)

#[local] Instance str_le_total : Total str_le.
Proof.
  intros a. unfold str_le. induction a as [|x a IH]; intros [|y b]; [by left..|by right|]. cbn.
  destruct (N.lt_trichotomy (N_of_ascii x) (N_of_ascii y)) as [H|[H|H]].
  - left. apply N.ltb_lt in H. by rewrite H.
  - rewrite H, N.eqb_refl, N.ltb_irrefl. cbn. apply IH.
  - right. apply N.ltb_lt in H. by rewrite H.
Qed.
Lemma tickers_are_sorted ow od text : Sorted str_le (extract_tickers ow od text) ∧ NoDup (extract_tickers ow od text).
Proof.
  unfold extract_tickers. split; [by apply Sorted_merge_sort, _|]. rewrite merge_sort_Permutation. apply NoDup_remove_dups.
Qed.
Lemma categories text : _classify_category text ∈ ["earnings"; "macro"; "sector"; "general"].
Proof. unfold _classify_category. repeat case_match; set_solver. Qed.
Lemma collect_valid_elem {A B} (f : A → result exc (option B)) l b : b ∈ collect_valid f l → ∃ x, x ∈ l ∧ f x = Ok (Some b).
Proof.
  induction l as [|x l IH]; cbn; [by intros ?%elem_of_nil|]. intros H.
  destruct (f x) as [[y|]|e] eqn:E; [apply elem_of_cons in H as [->|H]; [by exists x; split; [left|]|]|..];
    destruct (IH H) as (z&Hz&Ez); exists z; (split; [by right|done]).
Qed.
Lemma extend_each_elem {A B} (f : A → result exc (list B)) l b : b ∈ extend_each f l → ∃ x k, x ∈ l ∧ f x = Ok k ∧ b ∈ k.
Proof.
  unfold extend_each. rewrite list_elem_of_In, in_flat_map. intros (x&Hx&Hb). destruct (f x) as [k|e] eqn:E; [|done].
  exists x, k. split_and!; [by apply list_elem_of_In|done|by apply list_elem_of_In].
Qed.

(** Whatever the feeds answer, an article of a feed has an address, by whose hash it will
    be stored, is at most a day old where its date is known and counts as new where it is
    not, has each of its tickers once, in order, and one of the four categories. *)
Theorem articles_of_feeds ow od md5 get_text now fetch a :
  a ∈ collect_all ow od md5 get_text now fetch →
  a.(url_hash) = md5 a.(url) ∧ a.(url) ≠ "" ∧ cutoff now ≤ a.(published_at) ∧
  Sorted str_le a.(tickers) ∧ NoDup a.(tickers) ∧ a.(category) ∈ ["earnings"; "macro"; "sector"; "general"] ∧
  ∃ s u es e, a.(source) = source_value s ∧ u ∈ feeds_of s ∧ fetch u = Ok es ∧ e ∈ es ∧
    article_of ow od md5 get_text now s e = Ok (Some a).
Proof.
  unfold collect_all. rewrite list_elem_of_In, in_flat_map. intros ([s urls]&Hs&Ha).
  apply list_elem_of_In, extend_each_elem in Ha as (u&k&Hu&Hk&Ha). unfold _parse_feed in Hk.
  destruct (fetch u) as [es|e0] eqn:Ef; [|done]. cbn in Hk. simplify_eq. apply collect_valid_elem in Ha as (e&He&Ea).
  assert (u ∈ feeds_of s) as Hfeeds by (repeat destruct Hs as [Hs|Hs]; [simplify_eq; exact Hu..|done]).
  assert (a.(url_hash) = md5 a.(url) ∧ a.(url) ≠ "" ∧ cutoff now ≤ a.(published_at) ∧
    (∃ t, a.(tickers) = extract_tickers ow od t ∧ a.(category) = _classify_category t) ∧ a.(source) = source_value s) as (H1&H2&H3&(t&Ht&Hc)&H5).
  { pose proof Ea as E. unfold article_of in E. destruct (_ || _) eqn:E0; [done|]. bool_hyps.
    destruct (entry_time e) as [p|x]; [|done]. cbn [rbind] in E. destruct (match p with Some p => p <? cutoff now | None => false end) eqn:Ep; [done|].
    simplify_eq. cbn. split_and!; [done|done| |by eexists|done]. unfold cutoff in *. destruct p as [p|]; cbn; bool_hyps; lia. }
  rewrite Ht, Hc. pose proof (tickers_are_sorted ow od t) as [? ?]. split_and!; try done; [apply categories|].
  exists s, u, es, e. done.
Qed.
End NewsFacts.
