(* ===== verification/Economic.v ===== *)
(** Economic indicators: backend/core/data_collector/economic_collector.py.

    What a service answers to the n-th request of a series is an argument: decoded JSON or
    the exception that the request, the status or the decoding raised.  So is what the
    database and Redis refuse.  The two collectors that run side by side share nothing and
    are run one after the other; a cached text is the indicator it was made of. *)

From stdpp Require Import base option list gmap strings.
From Stdlib Require Import ZArith Lia Floats.SpecFloat.
From S2P Require Import Prelude PyFloat PyDict PyFormat PyParse Calendar KisClient ExchangeRate MarketData News.

Inductive EconomicIndicatorType :=
  GDP | CPI | FED_FUNDS_RATE | TREASURY_2Y | TREASURY_10Y | UNEMPLOYMENT | PMI | VIX | USD_KRW
  | BOK_BASE_RATE | KR_CPI | KR_UNEMPLOYMENT | KR_GDP | KR_CURRENT_ACCOUNT.
#[export] Instance EconomicIndicatorType_eq_dec : EqDecision EconomicIndicatorType.
Proof. solve_decision. Defined.
Definition type_value (t : EconomicIndicatorType) : string :=
  match t with
  | GDP => "GDP" | CPI => "CPI" | FED_FUNDS_RATE => "FED_FUNDS_RATE" | TREASURY_2Y => "TREASURY_2Y" | TREASURY_10Y => "TREASURY_10Y"
  | UNEMPLOYMENT => "UNEMPLOYMENT" | PMI => "PMI" | VIX => "VIX" | USD_KRW => "USD_KRW" | BOK_BASE_RATE => "BOK_BASE_RATE"
  | KR_CPI => "KR_CPI" | KR_UNEMPLOYMENT => "KR_UNEMPLOYMENT" | KR_GDP => "KR_GDP" | KR_CURRENT_ACCOUNT => "KR_CURRENT_ACCOUNT"
  end.

Definition FRED_SERIES_MAP : list (EconomicIndicatorType * string) :=
  [(GDP, "A191RL1Q225SBEA"); (CPI, "CPIAUCSL"); (FED_FUNDS_RATE, "FEDFUNDS"); (TREASURY_2Y, "DGS2"); (TREASURY_10Y, "DGS10");
   (UNEMPLOYMENT, "UNRATE"); (PMI, "MMNRNJ"); (VIX, "VIXCLS"); (USD_KRW, "DEXKOUS")].
(** stat_code and item_code *)
Definition ECOS_SERIES_MAP : list (EconomicIndicatorType * (string * string)) :=
  [(BOK_BASE_RATE, ("722Y001", "0101000")); (KR_CPI, ("901Y009", "0")); (KR_UNEMPLOYMENT, ("901Y027", "I61BC"));
   (KR_CURRENT_ACCOUNT, ("301Y017", "SA000"))].
Definition series_of {A} (m : list (EconomicIndicatorType * A)) (t : EconomicIndicatorType) : option A :=
  match filter (λ p, p.1 = t) m with p :: _ => Some p.2 | [] => None end.

Record EconomicIndicator := {
  indicator_name : string; indicator_code : string; value : float; time : Z; source : string; country : string }.

(** The requests made and the seconds slept between them *)
Record Net := { asked : list string; waited : list Z }.
Abbreviation Fetch := (M Net exc).

(** A time-out, the status 429 and whatever is no status are tried again. *)
Definition tried_again (e : exc) : bool := match e with HTTPStatusError status _ => status =? 429 | _ => true end.
Definition retry_count : nat := 3.
Definition base_backoff : Z := 2.

(** The loop of both [_fetch_series]: [left] fetch_attempts are left, of which this is number
    [attempt] *)
Fixpoint fetch_attempts (left : nat) (attempt : Z) (request : string) (get : Z → result exc JValue)
    (read : JValue → result exc (option EconomicIndicator)) : Fetch (option EconomicIndicator) :=
  match left with
  | O => mret None
  | S left' =>
      modify (λ n, {| asked := n.(asked) ++ [request]; waited := n.(waited) |});;
      let again : Fetch (option EconomicIndicator) :=
        match left' with
        | O => mret None
        | S _ =>
            modify (λ n, {| asked := n.(asked); waited := n.(waited) ++ [base_backoff ^ (attempt + 1)] |});;
            fetch_attempts left' (attempt + 1) request get read
        end in
      match rbind (get attempt) read with
      | Ok r => mret r
      | Err e => if tried_again e then again else mret None
      end
  end.

(** [try: float(v) except ValueError: return None] *)
Definition or_none {A} (r : result exc A) (k : A → result exc (option EconomicIndicator)) : result exc (option EconomicIndicator) :=
  match r with
  | Ok a => k a
  | Err e => if is_class "ValueError" e then Ok None else Err e
  end.
Definition strptime_dashed (v : JValue) : result exc Z :=
  match v with
  | JStr s => match Settings.strptime_date s with Some d => Ok d | None => Err (OtherException "ValueError" s) end
  | _ => Err (OtherException "TypeError" "")
  end.
(** [v[0]] and [v[-1]] of something truthy *)
Definition first_item (v : JValue) : result exc JValue :=
  match v with
  | JArray (x :: _) => Ok x
  | JStr s => Ok (JStr (text_of (take 1 (chars s))))
  | JObject _ => Err (OtherException "KeyError" "0")
  | _ => Err (OtherException "TypeError" "")
  end.
Definition last_item (v : JValue) : result exc JValue :=
  match v with
  | JArray l => match last l with Some x => Ok x | None => Err (OtherException "IndexError" "") end
  | JStr s => Ok (JStr (default "" (last (chars s))))
  | JObject _ => Err (OtherException "KeyError" "-1")
  | _ => Err (OtherException "TypeError" "")
  end.

Module FREDCollector.
Definition read (t : EconomicIndicatorType) (series_id : string) (data : JValue) : result exc (option EconomicIndicator) :=
  rbind (get_or data "observations" (JArray [])) (λ observations,
  if negb (truthy observations) then Ok None else
  rbind (first_item observations) (λ latest,
  rbind (get_or latest "date" (JStr "")) (λ date_str,
  rbind (get_or latest "value" (JStr "")) (λ value_str,
  if is_text value_str "." || negb (truthy value_str) then Ok None else
  or_none (py_float_of value_str) (λ v,
  or_none (strptime_dashed date_str) (λ d,
  Ok (Some {| indicator_name := type_value t; indicator_code := series_id; value := v; time := d; source := "FRED"; country := "US" |}))))))).

Section Collector.
Context (api_key : string) (get : string → Z → result exc JValue).
Definition is_available : bool := negb (bool_decide (api_key = "")).
Definition _fetch_series (series_id : string) (t : EconomicIndicatorType) : Fetch (option EconomicIndicator) :=
  fetch_attempts retry_count 0 series_id (get series_id) (read t series_id).
Fixpoint collect_each (m : list (EconomicIndicatorType * string)) (indicators : list EconomicIndicator) : Fetch (list EconomicIndicator) :=
  match m with
  | [] => mret indicators
  | (t, series_id) :: rest =>
      data ← try_except (_fetch_series series_id t) (λ _, mret None);
      collect_each rest (indicators ++ match data with Some i => [i] | None => [] end)
  end.
Definition collect_all : Fetch (list EconomicIndicator) :=
  if negb is_available then mret [] else collect_each FRED_SERIES_MAP [].
Definition collect_indicator (t : EconomicIndicatorType) : Fetch (option EconomicIndicator) :=
  if negb is_available then mret None else
  match series_of FRED_SERIES_MAP t with None => mret None | Some series_id => _fetch_series series_id t end.
End Collector.
Definition _get_unit (t : EconomicIndicatorType) : string :=
  match t with
  | GDP => "Billions of Dollars" | CPI | PMI | VIX => "Index"
  | FED_FUNDS_RATE | TREASURY_2Y | TREASURY_10Y | UNEMPLOYMENT => "%" | USD_KRW => "KRW/USD" | _ => "" end.
End FREDCollector.

Module ECOSCollector.
Definition _get_cycle (t : EconomicIndicatorType) : string := "M".

Definition value_error {A} (s : string) : result exc A := Err (OtherException "ValueError" s).
Definition month_start (y m : Z) (s : string) : result exc Z :=
  if (1 <=? y) && (y <=? 9999) && (1 <=? m) && (m <=? 12) then Ok (date y m 1) else value_error s.
Definition int_text (s t : string) : result exc Z := match py_int t with Some z => Ok z | None => value_error s end.
Definition _parse_ecos_date (v : JValue) (cycle : string) : result exc Z :=
  match v with
  | JStr s =>
      if bool_decide (cycle = "M") then
        match Settings.year_field s with
        | Some (y, s') => match Settings.month_field s' with Some (m, "") => month_start y m s | _ => value_error s end
        | None => value_error s
        end
      else if bool_decide (cycle = "Q") then
        rbind (int_text s (text_of (take 4 (chars s)))) (λ y,
        rbind (match chars s !! 5%nat with Some c => int_text s c | None => Err (OtherException "IndexError" "") end) (λ quarter,
        month_start y ((quarter - 1) * 3 + 1) s))
      else if bool_decide (cycle = "A") then
        match Settings.year_field s with Some (y, "") => month_start y 1 s | _ => value_error s end
      else strptime (JStr s)
  | _ => Err (OtherException "TypeError" "")
  end.

(** ["RESULT" in data] *)
Definition error_result (data : JValue) : result exc bool :=
  match data with
  | JObject fields => Ok (match dict_get "RESULT" fields with Some _ => true | None => false end)
  | JArray l => Ok (existsb (λ v, is_text v "RESULT") l)
  | JStr s => Ok (contains "RESULT" s)
  | _ => Err (OtherException "TypeError" "")
  end.
Definition read (t : EconomicIndicatorType) (stat_code cycle : string) (data : JValue) : result exc (option EconomicIndicator) :=
  rbind (error_result data) (λ failed,
  if failed : bool then
    rbind (subscript data "RESULT") (λ err, rbind (get_or err "CODE" JNull) (λ _, rbind (get_or err "MESSAGE" JNull) (λ _, Ok None)))
  else
  rbind (get_or data "StatisticSearch" (JObject [])) (λ stat_search,
  rbind (get_or stat_search "row" (JArray [])) (λ records,
  if negb (truthy records) then Ok None else
  rbind (last_item records) (λ latest,
  rbind (get_or latest "TIME" (JStr "")) (λ date_str,
  rbind (get_or latest "DATA_VALUE" (JStr "")) (λ value_str,
  if negb (truthy date_str) || negb (truthy value_str) then Ok None else
  or_none (py_float_of value_str) (λ v,
  or_none (_parse_ecos_date date_str cycle) (λ d,
  Ok (Some {| indicator_name := type_value t; indicator_code := stat_code; value := v; time := d; source := "ECOS"; country := "KR" |}))))))))).

Section Collector.
Context (api_key : string) (today : Z) (get : string → Z → result exc JValue).
Definition is_available : bool := negb (bool_decide (api_key = "")).
(** [strftime("%Y%m")] *)
Definition year_month (d : Z) : string :=
  let two n := pad_left (2 - String.length (digits n)) (digits n) in
  pad_left (4 - String.length (digits (year d))) (digits (year d)) +:+ two (month d).
Definition date_range (cycle : string) : string * string :=
  if bool_decide (cycle = "Q") then (year_month (today - 730), year_month today)
  else if bool_decide (cycle = "A") then (fmt_int (year today - 3), fmt_int (year today))
  else (year_month (today - 180), year_month today).
Definition url_of (stat_code item_code cycle : string) : string :=
  "https://ecos.bok.or.kr/api/StatisticSearch/" +:+ api_key +:+ "/json/kr/1/100/" +:+ stat_code +:+ "/" +:+ cycle +:+ "/" +:+
  (date_range cycle).1 +:+ "/" +:+ (date_range cycle).2 +:+ "/" +:+ item_code.
Definition _fetch_series (t : EconomicIndicatorType) (series_info : string * string) : Fetch (option EconomicIndicator) :=
  let cycle := _get_cycle t in
  let url := url_of series_info.1 series_info.2 cycle in
  fetch_attempts retry_count 0 url (get url) (read t series_info.1 cycle).
Fixpoint collect_each (m : list (EconomicIndicatorType * (string * string))) (indicators : list EconomicIndicator) : Fetch (list EconomicIndicator) :=
  match m with
  | [] => mret indicators
  | (t, info) :: rest =>
      data ← try_except (_fetch_series t info) (λ _, mret None);
      collect_each rest (indicators ++ match data with Some i => [i] | None => [] end)
  end.
Definition collect_all : Fetch (list EconomicIndicator) :=
  if negb is_available then mret [] else collect_each ECOS_SERIES_MAP [].
Definition collect_indicator (t : EconomicIndicatorType) : Fetch (option EconomicIndicator) :=
  if negb is_available then mret None else
  match series_of ECOS_SERIES_MAP t with None => mret None | Some info => _fetch_series t info end.
End Collector.
Definition _get_unit (t : EconomicIndicatorType) : string :=
  match t with BOK_BASE_RATE | KR_UNEMPLOYMENT => "%" | KR_CPI => "Index" | KR_CURRENT_ACCOUNT => "Millions of USD" | _ => "" end.
End ECOSCollector.

Module EconomicCollectorService.

(** A row of economic_indicators, by time and code *)
Record Row := { row_name : string; row_value : float; row_country : string; row_source : string }.
Record Store := { rows : gmap (Z * string) Row; cache : gmap string (EconomicIndicator * Z) }.

Definition CACHE_PREFIX : string := "economic_indicator:".
Definition CACHE_TTL : Z := 86400.

Section Service.
(** Which statement, or the opening or commit of the session, fails; whether Redis is there
    and which key it refuses; the clock in microseconds *)
Context (db_fails : EconomicIndicator → bool) (opens commits : bool) (redis_there : bool) (redis_fails : string → bool) (now : Z).

(** DO UPDATE leaves country and source. *)
Definition upsert (t : gmap (Z * string) Row) (i : EconomicIndicator) : gmap (Z * string) Row :=
  let k := (i.(time), i.(indicator_code)) in
  <[k := match t !! k with
         | Some old => {| row_name := i.(indicator_name); row_value := i.(value); row_country := old.(row_country); row_source := old.(row_source) |}
         | None => {| row_name := i.(indicator_name); row_value := i.(value); row_country := i.(country); row_source := i.(source) |}
         end]> t.
(** The statements of one session; the first that fails ends it. *)
Fixpoint executed (l : list EconomicIndicator) (t : gmap (Z * string) Row) : option (gmap (Z * string) Row) :=
  match l with
  | [] => if commits then Some t else None
  | i :: rest => if db_fails i then None else executed rest (upsert t i)
  end.
Definition _store_to_db (l : list EconomicIndicator) (s : Store) : Store :=
  match l with
  | [] => s
  | _ => if negb opens then s else
         match executed l s.(rows) with Some t => {| rows := t; cache := s.(cache) |} | None => s end
  end.

Definition cache_key (name : string) : string := CACHE_PREFIX +:+ name.
Fixpoint cache_each (l : list EconomicIndicator) (c : gmap string (EconomicIndicator * Z)) : gmap string (EconomicIndicator * Z) :=
  match l with
  | [] => c
  | i :: rest =>
      let k := cache_key i.(indicator_name) in
      if redis_fails k then c else cache_each rest (<[k := (i, now + CACHE_TTL * 1000000)]> c)
  end.
Definition _cache_latest (l : list EconomicIndicator) (s : Store) : Store :=
  if redis_there then {| rows := s.(rows); cache := cache_each l s.(cache) |} else s.
Definition get_cached (t : EconomicIndicatorType) (s : Store) : option EconomicIndicator :=
  if negb redis_there then None else
  match s.(cache) !! cache_key (type_value t) with Some (i, expires) => if now <? expires then Some i else None | None => None end.

Record Collected := { fred_count : Z; ecos_count : Z; total : Z }.
(** What [gather] gives of a collector that raised is no list. *)
Definition listed (r : result exc (list EconomicIndicator)) : list EconomicIndicator := match r with Ok l => l | Err _ => [] end.
Definition collect_and_store (fred ecos : Fetch (list EconomicIndicator)) (n : Net) (s : Store) : Collected * Net * Store :=
  let '(fred_result, n) := fred n in
  let '(ecos_result, n) := ecos n in
  let fred_indicators := listed fred_result in
  let ecos_indicators := listed ecos_result in
  let all_indicators := fred_indicators ++ ecos_indicators in
  let s := _cache_latest all_indicators (_store_to_db all_indicators s) in
  ({| fred_count := Z.of_nat (length fred_indicators); ecos_count := Z.of_nat (length ecos_indicators); total := Z.of_nat (length all_indicators) |}, n, s).
End Service.

Definition collect_indicator (fred_key ecos_key : string) (today : Z) (get : string → Z → result exc JValue) (t : EconomicIndicatorType) :
    Fetch (option EconomicIndicator) :=
  match series_of FRED_SERIES_MAP t, series_of ECOS_SERIES_MAP t with
  | Some _, _ => FREDCollector.collect_indicator fred_key get t
  | None, Some _ => ECOSCollector.collect_indicator ecos_key today get t
  | None, None => mret None
  end.
End EconomicCollectorService.

(** * Properties *)

Module EconomicFacts.
Import EconomicCollectorService.

(** A request is made three times at most, two and four seconds apart, and whatever is
    answered the collection of a series returns. *)
Definition paced (extra : list Z) (n : nat) : Prop := (1 ≤ n ≤ 3)%nat ∧ extra = take (n - 1) [2; 4].
Lemma attempts_paced request get read n :
  ∃ r k extra, fetch_attempts retry_count 0 request get read n = (Ok r, {| asked := n.(asked) ++ repeat request k; waited := n.(waited) ++ extra |}) ∧
    paced extra k ∧ (∀ i, r = Some i → ∃ a, rbind (get a) read = Ok (Some i)).
Proof.
  unfold retry_count. cbn [fetch_attempts]. unfold mret, M_ret, mbind, M_bind, modify. destruct n as [a w]. cbn.
  destruct (rbind (get 0) read) as [r|e] eqn:E0; [|destruct (tried_again e)].
  1, 3: eexists _, 1%nat, []; rewrite app_nil_r; (split_and!; [reflexivity|split; [lia|done]|naive_solver]).
  destruct (rbind (get (0 + 1)) read) as [r|e'] eqn:E1; [|destruct (tried_again e')].
  1, 3: eexists _, 2%nat, [2]; cbn; rewrite <- app_assoc; (split_and!; [reflexivity|split; [lia|done]|naive_solver]).
  destruct (rbind (get (0 + 1 + 1)) read) as [r|e''] eqn:E2; [|destruct (tried_again e'')].
  all: eexists _, 3%nat, [2; 4]; cbn; rewrite <- !app_assoc; (split_and!; [reflexivity|split; [lia|done]|naive_solver]).
Qed.

(** [known i]: the name, code, source and country of a series of the maps *)
Definition fred_series (i : EconomicIndicator) : Prop :=
  (∃ t, (t, i.(indicator_code)) ∈ FRED_SERIES_MAP ∧ i.(indicator_name) = type_value t) ∧ i.(source) = "FRED" ∧ i.(country) = "US".
Definition ecos_series (i : EconomicIndicator) : Prop :=
  (∃ t item, (t, (i.(indicator_code), item)) ∈ ECOS_SERIES_MAP ∧ i.(indicator_name) = type_value t) ∧ i.(source) = "ECOS" ∧ i.(country) = "KR".

Lemma or_none_Ok {A} (r : result exc A) k i : or_none r k = Ok (Some i) → ∃ a, k a = Ok (Some i).
Proof. unfold or_none. destruct r as [a|e]; [by exists a|]. by destruct (is_class _ e). Qed.
Lemma fred_read t series_id data i : FREDCollector.read t series_id data = Ok (Some i) →
  i.(indicator_name) = type_value t ∧ i.(indicator_code) = series_id ∧ i.(source) = "FRED" ∧ i.(country) = "US".
Proof.
  unfold FREDCollector.read. intros H.
  repeat match type of H with
  | rbind ?r _ = _ => destruct r; cbn [rbind] in H; [|done]
  | (if ?b then _ else _) = _ => destruct b; [done|]
  | or_none _ _ = _ => apply or_none_Ok in H as [? H]
  end. by simplify_eq.
Qed.
Lemma ecos_read t code cycle data i : ECOSCollector.read t code cycle data = Ok (Some i) →
  i.(indicator_name) = type_value t ∧ i.(indicator_code) = code ∧ i.(source) = "ECOS" ∧ i.(country) = "KR".
Proof.
  unfold ECOSCollector.read. intros H. destruct (ECOSCollector.error_result data) as [[]|]; cbn [rbind] in H; [|..|done].
  { by repeat match type of H with rbind ?r _ = _ => destruct r; cbn [rbind] in H; [|done] end. }
  repeat match type of H with
  | rbind ?r _ = _ => destruct r; cbn [rbind] in H; [|done]
  | (if ?b then _ else _) = _ => destruct b; [done|]
  | or_none _ _ = _ => apply or_none_Ok in H as [? H]
  end. by simplify_eq.
Qed.

(** A collection over a map of series makes between one and three requests for each, all
    of them after one another, and its codes are those of the map, in their order. *)
Definition within_limits (n n' : Net) (series : nat) : Prop :=
  ∃ asked' waited', n'.(asked) = n.(asked) ++ asked' ∧ n'.(waited) = n.(waited) ++ waited' ∧
    (series ≤ length asked' ≤ 3 * series)%nat ∧ foldl Z.add 0 waited' ≤ 6 * Z.of_nat series ∧ Forall (λ w, w = 2 ∨ w = 4) waited'.
Lemma foldl_sum l z : foldl Z.add z l = z + foldl Z.add 0 l.
Proof. revert z. induction l as [|x l IH]; intros z; cbn [foldl]; [lia|]. rewrite (IH (z + x)), (IH (0 + x)). lia. Qed.
Lemma one_more n n1 n2 series request k extra : paced extra k →
  n1 = {| asked := n.(asked) ++ repeat request k; waited := n.(waited) ++ extra |} →
  within_limits n1 n2 series → within_limits n n2 (S series).
Proof.
  intros [Hk ->] -> (a&w&Ha&Hw&Hl&Hs&Hf). exists (repeat request k ++ a), (take (k - 1) [2; 4] ++ w). cbn in Ha, Hw.
  split_and!; [by rewrite app_assoc|by rewrite app_assoc|rewrite length_app, repeat_length; lia|rewrite length_app, repeat_length; lia| |].
  - rewrite foldl_app, foldl_sum. destruct k as [|[|[|[|k]]]]; cbn; lia.
  - apply Forall_app. split; [|done]. destruct k as [|[|[|[|k]]]]; cbn; try lia; repeat apply Forall_cons_2; try apply Forall_nil_2; by (left + right).
Qed.

Section Collections.
Context {A : Type} (code_of : A → string) (ok : EconomicIndicator → Prop)
  (fetch : EconomicIndicatorType → A → Fetch (option EconomicIndicator))
  (collect : list (EconomicIndicatorType * A) → list EconomicIndicator → Fetch (list EconomicIndicator)).
Context (collect_nil : ∀ l, collect [] l = mret l)
  (collect_cons : ∀ t a rest l, collect ((t, a) :: rest) l =
     data ← try_except (E':=exc) (fetch t a) (λ _, mret None);
     collect rest (l ++ match data with Some i => [i] | None => [] end)).
Context (fetch_ok : ∀ t a n, ∃ r request k extra,
  fetch t a n = (Ok r, {| asked := n.(asked) ++ repeat request k; waited := n.(waited) ++ extra |}) ∧ paced extra k ∧
  ∀ i, r = Some i → i.(indicator_name) = type_value t ∧ i.(indicator_code) = code_of a ∧ ok i).

Lemma collection m l n : ∃ l' n', collect m l n = (Ok (l ++ l'), n') ∧ within_limits n n' (length m) ∧
  (indicator_code <$> l') `sublist_of` ((λ p, code_of p.2) <$> m) ∧
  (indicator_name <$> l') `sublist_of` ((λ p, type_value p.1) <$> m) ∧
  ∀ i, i ∈ l' → ok i ∧ ∃ t a, (t, a) ∈ m ∧ i.(indicator_name) = type_value t ∧ i.(indicator_code) = code_of a.
Proof.
  revert l n. induction m as [|[t a] m IH]; intros l n.
  - rewrite collect_nil. exists [], n. rewrite app_nil_r. split_and!; [done| |constructor|constructor|by intros i ?%elem_of_nil].
    exists [], []. rewrite !app_nil_r. split_and!; try done; cbn; lia.
  - rewrite collect_cons. unfold mbind, M_bind, try_except. destruct (fetch_ok t a n) as (r&request&k&extra&->&Hp&Hr).
    destruct (IH (l ++ match r with Some i => [i] | None => [] end)
      {| asked := n.(asked) ++ repeat request k; waited := n.(waited) ++ extra |}) as (l'&n'&->&Hn&Hc&Hnm&Hi).
    exists (match r with Some i => [i] | None => [] end ++ l'), n'. split_and!.
    + by rewrite app_assoc.
    + by eapply one_more.
    + destruct r as [i|]; cbn [app]; [|by constructor]. destruct (Hr i eq_refl) as (_&Ec&_). rewrite !fmap_cons, Ec. by constructor.
    + destruct r as [i|]; cbn [app]; [|by constructor]. destruct (Hr i eq_refl) as (Ec&_&_). rewrite !fmap_cons, Ec. by constructor.
    + intros i [Hin|Hin]%elem_of_app.
      * destruct r as [i'|]; [|by apply elem_of_nil in Hin]. apply list_elem_of_singleton in Hin as ->. destruct (Hr i' eq_refl) as (?&?&?).
        split; [done|]. exists t, a. split_and!; [by left|done..].
      * destruct (Hi i Hin) as (?&t'&a'&?&?&?). split; [done|]. exists t', a'. split_and!; [by right|done..].
Qed.
End Collections.

Lemma no_limits_used n : within_limits n n 0.
Proof. exists [], []. rewrite !app_nil_r. split_and!; try done; cbn; lia. Qed.

(** What one collector returns: at most the series of its map *)
Definition collects {A} (code_of : A → string) (ok : EconomicIndicator → Prop) (m : list (EconomicIndicatorType * A))
    (f : Fetch (list EconomicIndicator)) : Prop :=
  ∀ n, ∃ l n' k, f n = (Ok l, n') ∧ within_limits n n' k ∧ (k ≤ length m)%nat ∧
    (indicator_code <$> l) `sublist_of` ((λ p, code_of p.2) <$> m) ∧ (indicator_name <$> l) `sublist_of` ((λ p, type_value p.1) <$> m) ∧
    Forall ok l.

Lemma collects_nothing {A} (code_of : A → string) ok m : collects code_of ok m (mret []).
Proof. intros n. exists [], n, 0%nat. split_and!; try done; [apply no_limits_used|cbn; lia|apply sublist_nil_l|apply sublist_nil_l]. Qed.
Lemma fred_collects key get : collects id fred_series FRED_SERIES_MAP (FREDCollector.collect_all key get).
Proof.
  unfold FREDCollector.collect_all. destruct (negb _); [apply collects_nothing|]. intros n.
  destruct (collection id (λ i, i.(source) = "FRED" ∧ i.(country) = "US") (λ t a, FREDCollector._fetch_series get a t) (FREDCollector.collect_each get)
    ltac:(done) ltac:(done) ltac:(intros t a n0; destruct (attempts_paced a (get a) (FREDCollector.read t a) n0) as (r&k&extra&E&Hp&Hr);
      exists r, a, k, extra; split; [exact E|split; [done|]]; intros i Hi; destruct (Hr i Hi) as [x Hx]; destruct (get a x); [|done];
      apply fred_read in Hx; cbn; tauto) FRED_SERIES_MAP [] n) as (l&n'&E&Hn&Hc&Hnm&Hi).
  exists l, n', 9%nat. split_and!; [done..|]. apply Forall_forall. intros i Hin. destruct (Hi i Hin) as (?&t&a&?&?&Ea).
  split; [|done]. exists t. cbn in Ea. by rewrite Ea.
Qed.
Lemma ecos_collects key today get : collects fst ecos_series ECOS_SERIES_MAP (ECOSCollector.collect_all key today get).
Proof.
  unfold ECOSCollector.collect_all. destruct (negb _); [apply collects_nothing|]. intros n.
  destruct (collection fst (λ i, i.(source) = "ECOS" ∧ i.(country) = "KR") (λ t a, ECOSCollector._fetch_series key today get t a) (ECOSCollector.collect_each key today get)
    ltac:(done) ltac:(done) ltac:(intros t [a item] n0; unfold ECOSCollector._fetch_series; cbn [fst snd];
      set (u := ECOSCollector.url_of _ _ _ _ _); destruct (attempts_paced u (get u) (ECOSCollector.read t a (ECOSCollector._get_cycle t)) n0) as (r&k&extra&E&Hp&Hr);
      exists r, u, k, extra; split; [exact E|split; [done|]]; intros i Hi; destruct (Hr i Hi) as [x Hx]; destruct (get u x); [|done];
      apply ecos_read in Hx; cbn; tauto) ECOS_SERIES_MAP [] n) as (l&n'&E&Hn&Hc&Hnm&Hi).
  exists l, n', 4%nat. split_and!; [done..|]. apply Forall_forall. intros i Hin. destruct (Hi i Hin) as (?&t&[a item]&?&?&Ea).
  split; [|done]. exists t, item. cbn in Ea. by rewrite Ea.
Qed.

Definition row_key (i : EconomicIndicator) : Z * string := (i.(time), i.(indicator_code)).
Lemma upserts_other l t k : k ∉ row_key <$> l → foldl upsert t l !! k = t !! k.
Proof.
  revert t. induction l as [|i l IH]; intros t Hk; [done|]. rewrite fmap_cons, not_elem_of_cons in Hk. destruct Hk as [Hne Hk].
  cbn. rewrite IH by done. unfold upsert. rewrite lookup_insert_ne; [done|]. intros E. apply Hne. by rewrite <- E.
Qed.
Lemma upserts_row l t i : NoDup (indicator_code <$> l) → i ∈ l →
  ∃ r, foldl upsert t l !! row_key i = Some r ∧ r.(row_name) = i.(indicator_name) ∧ r.(row_value) = i.(value).
Proof.
  revert t. induction l as [|j l IH]; intros t Hnd Hi; [by apply elem_of_nil in Hi|].
  rewrite fmap_cons, NoDup_cons in Hnd. destruct Hnd as [Hj Hnd]. cbn. apply elem_of_cons in Hi as [->|Hi]; [|by apply IH].
  rewrite upserts_other.
  - unfold upsert, row_key. rewrite lookup_insert_eq. eexists. split; [done|]. by destruct (t !! _).
  - intros (x&Ex&Hx)%list_elem_of_fmap. apply Hj, list_elem_of_fmap. exists x. split; [|done]. unfold row_key in Ex. congruence.
Qed.
Lemma executed_all db_fails commits l t t' : executed db_fails commits l t = Some t' → t' = foldl upsert t l.
Proof.
  revert t. induction l as [|i l IH]; intros t; cbn; [destruct commits; congruence|]. destruct (db_fails i); [done|]. apply IH.
Qed.
Lemma executes commits l db_fails t : commits = true → Forall (λ i, db_fails i = false) l → executed db_fails commits l t = Some (foldl upsert t l).
Proof. intros -> Hl. revert t. induction Hl as [|i l Hi _ IH]; intros t; [done|]. cbn. by rewrite Hi. Qed.

Lemma cache_key_inj a b : cache_key a = cache_key b → a = b.
Proof. unfold cache_key, CACHE_PREFIX. intros H. cbn in H. by simplify_eq. Qed.
Lemma cached redis_fails now l c i : (∀ k, redis_fails k = false) → NoDup (indicator_name <$> l) → i ∈ l →
  cache_each redis_fails now l c !! cache_key i.(indicator_name) = Some (i, now + CACHE_TTL * 1000000).
Proof.
  intros Hr. assert (∀ l c k, k ∉ cache_key ∘ indicator_name <$> l → cache_each redis_fails now l c !! k = c !! k) as Hother.
  { clear - Hr. intros l. induction l as [|j l IH]; intros c k Hk; [done|]. rewrite fmap_cons, not_elem_of_cons in Hk. destruct Hk as [Hne Hk].
    cbn. rewrite Hr, IH by done. by rewrite lookup_insert_ne. }
  revert c. induction l as [|j l IH]; intros c Hnd Hi; [by apply elem_of_nil in Hi|].
  rewrite fmap_cons, NoDup_cons in Hnd. destruct Hnd as [Hj Hnd]. cbn. rewrite Hr. apply elem_of_cons in Hi as [->|Hi]; [|by apply IH].
  rewrite Hother, lookup_insert_eq; [done|]. intros (x&Ex&Hx)%list_elem_of_fmap. cbn in Ex. apply cache_key_inj in Ex.
  apply Hj, list_elem_of_fmap. by exists x.
Qed.
Lemma names_and_codes fred ecos :
  (indicator_code <$> fred) `sublist_of` ((λ p, id p.2) <$> FRED_SERIES_MAP) → (indicator_code <$> ecos) `sublist_of` ((λ p, fst p.2) <$> ECOS_SERIES_MAP) →
  (indicator_name <$> fred) `sublist_of` ((λ p, type_value p.1) <$> FRED_SERIES_MAP) → (indicator_name <$> ecos) `sublist_of` ((λ p, type_value p.1) <$> ECOS_SERIES_MAP) →
  NoDup (indicator_code <$> (fred ++ ecos)) ∧ NoDup (indicator_name <$> (fred ++ ecos)).
Proof.
  intros H1 H2 H3 H4. rewrite !fmap_app. split; (eapply sublist_NoDup; [|by apply sublist_app]); apply (bool_decide_unpack _); by vm_compute.
Qed.

(** C27. A collection returns whatever the two services answer, after 39 requests and 78
    seconds of waiting at most.  What it collects are series of the maps, none twice.
    Either all of it is in the table afterwards, with the value collected, and every other
    row is as it was, or the table is as it was; the first where the database takes the
    statements.  Where Redis takes them, each indicator can be read from the cache for a day,
    also when the table took none. *)
Theorem economic_collection db_fails opens commits redis_there redis_fails now fred_key ecos_key today get n s :
  let '(c, n', s') := collect_and_store db_fails opens commits redis_there redis_fails now
    (FREDCollector.collect_all fred_key get) (ECOSCollector.collect_all ecos_key today get) n s in
  (∃ requests waits, n'.(asked) = n.(asked) ++ requests ∧ n'.(waited) = n.(waited) ++ waits ∧
     (length requests ≤ 39)%nat ∧ foldl Z.add 0 waits ≤ 78) ∧
  ∃ fred ecos, let all := fred ++ ecos in
  c = {| fred_count := Z.of_nat (length fred); ecos_count := Z.of_nat (length ecos); total := Z.of_nat (length all) |} ∧
  Forall fred_series fred ∧ Forall ecos_series ecos ∧ NoDup (indicator_code <$> all) ∧
  (s'.(rows) = s.(rows) ∨
   (∀ i, i ∈ all → ∃ r, s'.(rows) !! row_key i = Some r ∧ r.(row_name) = i.(indicator_name) ∧ r.(row_value) = i.(value)) ∧
   ∀ k, k ∉ row_key <$> all → s'.(rows) !! k = s.(rows) !! k) ∧
  (opens = true → commits = true → Forall (λ i, db_fails i = false) all → s'.(rows) = foldl upsert s.(rows) all) ∧
  (redis_there = true → (∀ k, redis_fails k = false) → ∀ i later, i ∈ all → later < now + 86400000000 →
     ∀ t, i.(indicator_name) = type_value t → get_cached redis_there later t s' = Some i).
Proof.
  unfold collect_and_store. destruct (fred_collects fred_key get n) as (fred&n1&k1&->&L1&K1&C1&N1&F1).
  destruct (ecos_collects ecos_key today get n1) as (ecos&n2&k2&->&L2&K2&C2&N2&F2). cbn [listed].
  destruct (names_and_codes fred ecos C1 C2 N1 N2) as [Hc Hn]. split.
  - destruct L1 as (a1&w1&Ea1&Ew1&La1&Sw1&_), L2 as (a2&w2&Ea2&Ew2&La2&Sw2&_). exists (a1 ++ a2), (w1 ++ w2).
    rewrite Ea2, Ea1, Ew2, Ew1, !app_assoc. split_and!; [done..|rewrite length_app; cbn in *; lia|].
    rewrite foldl_app, foldl_sum. cbn in *. lia.
  - exists fred, ecos. cbn zeta. set (all := fred ++ ecos) in *.
    assert (∀ s, rows (_cache_latest redis_there redis_fails now all s) = s.(rows)) as Hrows by (intros x; unfold _cache_latest; by destruct redis_there).
    split_and!; [done..| | |].
    + rewrite Hrows. unfold _store_to_db. destruct all as [|j all'] eqn:Eall; [by left|]. rewrite <- Eall in *. clear j all' Eall.
      destruct opens; [|by left]. cbn [negb]. destruct (executed db_fails commits all s.(rows)) as [t|] eqn:E; [|by left]. right. cbn.
      apply executed_all in E as ->. split; [intros i Hi; by apply upserts_row|intros k Hk; by apply upserts_other].
    + intros -> -> Hdb. rewrite Hrows. unfold _store_to_db. destruct all as [|j all'] eqn:Eall; [done|]. rewrite <- Eall in *. clear j all' Eall.
      cbn [negb]. by rewrite executes.
    + intros -> Hr i later Hi Hlt t Ht. unfold get_cached, _cache_latest. cbn [negb cache]. rewrite <- Ht, (cached _ _ _ _ i) by done.
      unfold CACHE_TTL. rewrite (proj2 (Z.ltb_lt _ _)) by lia. done.
Qed.

(** Ten observations are asked for and one is read: on a day without a value, a holiday,
    the series is left out although the value of the day before was sent. *)
Definition observation (d v : string) : JValue := JObject [("date", JStr d); ("value", JStr v)].
Example holiday_hides_the_series :
  let answer l := JObject [("observations", JArray l)] in
  FREDCollector.read VIX "VIXCLS" (answer [observation "2026-01-01" "."; observation "2025-12-31" "14.5"]) = Ok None ∧
  FREDCollector.read VIX "VIXCLS" (answer [observation "2025-12-31" "14.5"]) =
    Ok (Some {| indicator_name := "VIX"; indicator_code := "VIXCLS"; value := dec 145 1; time := date 2025 12 31; source := "FRED"; country := "US" |}).
Proof. by vm_compute. Qed.
End EconomicFacts.
