(* ===== verification/RateLimit.v ===== *)
(** The rate limiter of the API: backend/api/middleware/rate_limiter.py.

    slowapi and the store of the package limits are behind the class [RateStore]: a
    counter for each key and window.  jose's decoding without verification is a
    parameter.  A request is looked at by one limit, that of its route. *)

From stdpp Require Import base option list gmap strings.
From Stdlib Require Import ZArith Lia Ascii.
From S2P Require Import Prelude PyDict PyFormat PyParse KisClient.

Record Request := { authorization : option string; remote_address : string }.

(** * Keys *)

(** [s[n:]] *)
Fixpoint skip (n : nat) (s : string) : string :=
  match n, s with S n', String _ s' => skip n' s' | _, _ => s end.

Section Keys.
(** [jwt.get_unverified_claims]: the claims of a token, or [None] for a [JWTError], and
    [str] of a claim that is no text *)
Context (get_unverified_claims : string → option (list (string * JValue))) (py_str : JValue → string).

(** Behind "bearer " there may be nothing but white space: then [split] gives one word. *)
Definition _extract_user_sub (r : Request) : result exc (option string) :=
  let auth_header := default "" r.(authorization) in
  if negb (starts_with "bearer " (lower auth_header)) then Ok None else
  match lstrip (skip 7 auth_header) with
  | "" => Err (OtherException "IndexError" "")
  | rest =>
      let token := strip rest in
      if bool_decide (token = "") then Ok None else
      match get_unverified_claims token with
      | None => Ok None
      | Some claims =>
          let sub := default JNull (dict_get "sub" claims) in
          Ok (if truthy sub then Some (match sub with JStr s => s | _ => py_str sub end) else None)
      end
  end.
Definition composite_rate_key (r : Request) : result exc string :=
  rmap (λ sub, match sub with Some s => "user:" +:+ s | None => "ip:" +:+ r.(remote_address) end) (_extract_user_sub r).
End Keys.

Definition RATE_LOGIN : Z := 5.
Definition RATE_ORDER : Z := 10.
Definition RATE_GENERAL : Z := 60.
Definition RATE_PIPELINE : Z := 5.

(** * The store *)

(** [hit limit key now s] counts a request in the window of [now] and says whether it is
    within the limit; a store that cannot be reached raises a StorageError. *)
Class RateStore (S : Type) := {
  reachable : S → bool;
  count : string → Z → S → Z;
  hit : Z → string → Z → S → bool * S;
  hit_within limit key now s : (hit limit key now s).1 = (count key now s <? limit);
  hit_counts limit key key' now s : reachable s = true →
    count key' now (hit limit key now s).2 = count key' now s + (if bool_decide (key' = key) then 1 else 0);
  hit_reachable limit key now s : reachable s = true → reachable (hit limit key now s).2 = true;
}.

(** What the limiter and its two handlers answer *)
Inductive Answer := Passed | Refused (status : Z) | Raised (e : exc).

Section Limiter.
Context {S : Type} `{RateStore S}.
Context (get_unverified_claims : string → option (list (string * JValue))) (py_str : JValue → string).

Definition limited (limit now : Z) (r : Request) (s : S) : Answer * S :=
  match composite_rate_key get_unverified_claims py_str r with
  | Err e => (Raised e, s)
  | Ok key =>
      if negb (reachable s) then (Refused 503, s) else
      let '(ok, s') := hit limit key now s in
      (if ok then Passed else Refused 429, s')
  end.
Fixpoint limited_all (limit now : Z) (l : list Request) (s : S) : list Answer * S :=
  match l with
  | [] => ([], s)
  | r :: rest => let '(a, s') := limited limit now r s in let '(k, s'') := limited_all limit now rest s' in (a :: k, s'')
  end.
End Limiter.

(** * Properties *)

Module RateLimitFacts.

Section Facts.
Context {S : Type} `{RateStore S}.
Context (claims : string → option (list (string * JValue))) (py_str : JValue → string).
Abbreviation key_of := (composite_rate_key claims py_str).
Abbreviation answers := (limited_all claims py_str).

Lemma limited_counts limit now r key s : reachable s = true → key_of r = Ok key →
  (limited claims py_str limit now r s).1 = (if count key now s <? limit then Passed else Refused 429) ∧
  reachable (limited claims py_str limit now r s).2 = true ∧
  ∀ k, count k now (limited claims py_str limit now r s).2 = count k now s + (if bool_decide (k = key) then 1 else 0).
Proof.
  intros Hr Hk. unfold limited. rewrite Hk, Hr. cbn [negb]. pose proof (hit_within limit key now s) as Hw.
  pose proof (λ k, hit_counts limit key k now s Hr) as Hc. pose proof (hit_reachable limit key now s Hr) as Hr'.
  destruct (hit limit key now s) as [ok s']. cbn in *. rewrite <- Hw. by destruct ok.
Qed.

Lemma forall_repeat {A} (P : A → Prop) x n : P x → Forall P (repeat x n).
Proof. intros Hx. induction n; by constructor. Qed.
(** Requests with one key in one window: the first ones up to the limit pass, all others
    are refused. *)
Lemma one_key limit now key l s : reachable s = true → Forall (λ r, key_of r = Ok key) l →
  (answers limit now l s).1 = (λ i, if count key now s + Z.of_nat i <? limit then Passed else Refused 429) <$> seq 0 (length l) ∧
  reachable (answers limit now l s).2 = true ∧
  ∀ k, count k now (answers limit now l s).2 = count k now s + (if bool_decide (k = key) then Z.of_nat (length l) else 0).
Proof.
  intros Hr Hl. revert s Hr. induction Hl as [|r l Hk _ IH]; intros s Hr.
  { cbn. split_and!; [done..|]. intros k. case_bool_decide; lia. }
  cbn [limited_all]. destruct (limited_counts limit now r key s Hr Hk) as (H1&H2&H3).
  destruct (limited claims py_str limit now r s) as [a s1]. cbn [fst snd] in *. subst a.
  destruct (IH s1 H2) as (I1&I2&I3). destruct (answers limit now l s1) as [k s2]. cbn [fst snd] in *. subst k. split_and!; [|done|].
  - cbn [length seq fmap list_fmap]. rewrite Z.add_0_r. f_equal. rewrite <- fmap_S_seq, <- list_fmap_compose. apply list_fmap_ext.
    intros i x Hx. cbn. rewrite H3, bool_decide_eq_true_2 by done. by replace (count key now s + 1 + Z.of_nat x) with (count key now s + Z.of_nat (Datatypes.S x)) by lia.
  - intros k. rewrite I3, H3. cbn [length]. case_bool_decide; lia.
Qed.
(** Requests with keys of their own, none of which has been counted, all pass. *)
Lemma own_keys limit now l keys s : 1 ≤ limit → reachable s = true → Forall2 (λ r k, key_of r = Ok k) l keys → NoDup keys →
  Forall (λ k, count k now s = 0) keys → (answers limit now l s).1 = repeat Passed (length l).
Proof.
  intros Hlim Hr Hl. revert s Hr. induction Hl as [|r k l keys Hk _ IH]; intros s Hr Hnd Hc; [done|].
  rewrite NoDup_cons in Hnd. destruct Hnd as [Hn Hnd]. rewrite Forall_cons in Hc. destruct Hc as [Hc Hcs].
  cbn [limited_all]. destruct (limited_counts limit now r k s Hr Hk) as (H1&H2&H3).
  destruct (limited claims py_str limit now r s) as [a s1]. cbn [fst snd] in *. subst a.
  specialize (IH s1 H2 Hnd). destruct (answers limit now l s1) as [m s2]. cbn [fst] in *. rewrite IH.
  - cbn. by rewrite Hc, (proj2 (Z.ltb_lt _ _)) by lia.
  - apply Forall_forall. intros k' Hk'. rewrite Forall_forall in Hcs. rewrite H3, Hcs by done.
    rewrite bool_decide_eq_false_2; [done|]. by intros ->.
Qed.

(** A token whose payload names [sub], made without any key: its claims are read as they
    stand, as the signature is not looked at. *)
Definition forged (token : string → string) (addr sub : string) : Request :=
  {| authorization := Some ("Bearer " +:+ token sub); remote_address := addr |}.
Definition names (token : string → string) (sub : string) : Prop :=
  sub ≠ "" ∧ token sub ≠ "" ∧ lstrip (token sub) = token sub ∧ strip (token sub) = token sub ∧ claims (token sub) = Some [("sub", JStr sub)].
Lemma forged_key token addr sub : names token sub → key_of (forged token addr sub) = Ok ("user:" +:+ sub).
Proof.
  intros (Hs&Ht&Hl&Hst&Hc). unfold composite_rate_key, _extract_user_sub, forged. cbn [authorization default from_option id].
  change (starts_with "bearer " (lower ("Bearer " +:+ token sub))) with true. cbn [negb].
  change (skip 7 ("Bearer " +:+ token sub)) with (skip 0 (token sub)). replace (skip 0 (token sub)) with (token sub) by (by destruct (token sub)).
  rewrite Hl. destruct (token sub) as [|a t] eqn:E; [done|]. rewrite Hst, bool_decide_eq_false_2 by done. rewrite Hc. cbn.
  rewrite bool_decide_eq_true_2 by done. cbn. by rewrite bool_decide_eq_false_2.
Qed.

(** C14. Who sends no token is counted by address, and of such requests, however many, only as
    many pass a window as the limit says.  But a token counts for the user it names before
    anybody has looked at its signature: with a forged name for each request all of them
    pass, from one address and in one window, and requests that name another user use up
    the limit of that user, whose own next request is refused. *)
Theorem forged_tokens_choose_their_count token addr limit now s subs victim own n
    (Hlim : 1 ≤ limit) (Hr : reachable s = true)
    (Hnames : Forall (names token) subs) (Hnd : NoDup subs) (Hfresh : Forall (λ sub, count ("user:" +:+ sub) now s = 0) subs)
    (Hvictim : names token victim) (Hown : key_of own = Ok ("user:" +:+ victim))
    (Haddr : count ("ip:" +:+ addr) now s = 0) (Hn : limit ≤ Z.of_nat n) (Hv : count ("user:" +:+ victim) now s = 0) :
  let plain := {| authorization := None; remote_address := addr |} in
  (answers limit now (repeat plain n) s).1 = repeat Passed (Z.to_nat limit) ++ repeat (Refused 429) (n - Z.to_nat limit) ∧
  (answers limit now (forged token addr <$> subs) s).1 = repeat Passed (length subs) ∧
  (answers limit now (repeat (forged token addr victim) (Z.to_nat limit) ++ [own]) s).1 = repeat Passed (Z.to_nat limit) ++ [Refused 429].
Proof.
  assert (∀ (m : nat) k r, key_of r = Ok k → count k now s = 0 → (answers limit now (repeat r m) s).1 =
    (λ i, if Z.of_nat i <? limit then Passed else Refused 429) <$> seq 0 m) as Hrep.
  { intros m k r Hk Hc. destruct (one_key limit now k (repeat r m) s Hr) as (->&_); [by apply forall_repeat|]. by rewrite Hc, repeat_length. }
  assert (∀ m a, Z.of_nat (a + m) ≤ limit → (λ i, if Z.of_nat i <? limit then Passed else Refused 429) <$> seq a m = repeat Passed m) as Hlow.
  { intros m. induction m as [|m IH]; intros a Ha; [done|]. cbn. rewrite (proj2 (Z.ltb_lt _ _)) by lia. f_equal. apply IH. lia. }
  assert (∀ m a, limit ≤ Z.of_nat a → (λ i, if Z.of_nat i <? limit then Passed else Refused 429) <$> seq a m = repeat (Refused 429) m) as Hhigh.
  { intros m. induction m as [|m IH]; intros a Ha; [done|]. cbn. rewrite (proj2 (Z.ltb_ge _ _)) by lia. f_equal. apply IH. lia. }
  cbn zeta. split_and!.
  - rewrite (Hrep n ("ip:" +:+ addr)) by done. replace n with (Z.to_nat limit + (n - Z.to_nat limit))%nat at 1 by lia.
    rewrite seq_app, fmap_app, Hlow, Hhigh by lia. done.
  - rewrite (own_keys limit now _ ((λ u, "user:" +:+ u) <$> subs)); [by rewrite length_fmap|done|done| | |].
    + apply Forall2_fmap, Forall_Forall2_diag. eapply Forall_impl; [exact Hnames|]. intros sub Hs. by apply forged_key.
    + apply NoDup_fmap_2; [|done]. intros a b E. cbn in E. by simplify_eq.
    + by apply Forall_fmap.
  - assert (∀ l1 l2 s, (answers limit now (l1 ++ l2) s).1 = (answers limit now l1 s).1 ++ (answers limit now l2 (answers limit now l1 s).2).1) as Happ.
    { intros l1. induction l1 as [|r l1 IH]; intros l2 s0; [done|]. cbn [app limited_all]. destruct (limited claims py_str limit now r s0) as [a s1].
      specialize (IH l2 s1). destruct (answers limit now (l1 ++ l2) s1), (answers limit now l1 s1). cbn [fst snd] in *. by rewrite IH. }
    rewrite Happ, (Hrep _ ("user:" +:+ victim)), Hlow; [|lia|by apply forged_key|done]. f_equal.
    destruct (one_key limit now ("user:" +:+ victim) (repeat (forged token addr victim) (Z.to_nat limit)) s Hr) as (_&H2&H3).
    { apply forall_repeat. by apply forged_key. }
    cbn [limited_all]. destruct (limited_counts limit now own _ _ H2 Hown) as (H4&_&_).
    destruct (limited claims py_str limit now own _) as [a s1]. cbn [fst] in *. subst a.
    rewrite H3, bool_decide_eq_true_2, Hv, repeat_length by done. by rewrite (proj2 (Z.ltb_ge _ _)) by lia.
Qed.
End Facts.

(** A counter for each key, in one window *)
#[local] Instance counters : RateStore (gmap string Z).
Proof.
  refine {| reachable _ := true; count k _ (m : gmap string Z) := default 0 (m !! k);
            hit limit k _ m := (default 0 (m !! k) <? limit, <[k := default 0 (m !! k) + 1]> m) |}; [done| |done].
  intros limit k k' now m _. cbn. case_bool_decide as E; [subst; by rewrite lookup_insert_eq|]. rewrite lookup_insert_ne by done. cbn. lia.
Defined.

(** Twelve log-ins in one minute, each with a token of its own *)
Lemma forged_tokens_choose_their_count_witness :
  let token sub := "x." +:+ sub in
  let claims t := Some [("sub", JStr (skip 2 t))] in
  let subs := ["1"; "2"; "3"; "4"; "5"; "6"; "7"; "8"; "9"; "10"; "11"; "12"] in
  let plain := {| authorization := None; remote_address := "10.0.0.1" |} in
  (limited_all claims (λ _, "") RATE_LOGIN 0 (repeat plain 12) ∅).1 = repeat Passed 5 ++ repeat (Refused 429) 7 ∧
  (limited_all claims (λ _, "") RATE_LOGIN 0 (forged token "10.0.0.1" <$> subs) ∅).1 = repeat Passed 12.
Proof.
  intros token claims subs plain.
  destruct (forged_tokens_choose_their_count claims (λ _, "") token "10.0.0.1" RATE_LOGIN 0 ∅ subs "admin" (forged token "10.0.0.9" "admin") 12) as (H1&H2&_).
  - done.
  - reflexivity.
  - repeat constructor; done.
  - apply (bool_decide_unpack _). by vm_compute.
  - repeat constructor.
  - repeat constructor; done.
  - reflexivity.
  - reflexivity.
  - done.
  - reflexivity.
  - by split.
Defined.
End RateLimitFacts.
