(* ===== verification/ParamSensitivity.v ===== *)
(** The analysis of parameter sensitivity: backend/core/param_sensitivity/ and the routes
    of api/routes/param_sensitivity.py that use it.

    The backtest of a trial is an argument, as are numpy's mean and the numbers of
    Python's generator; tables of signals are rows of floats.  Ranges are walked with
    fuel, as a range of no width is walked without end.  Times and identifiers of a run
    are left out, and so is what Python's sorts make of values that are no numbers. *)

From stdpp Require Import base option list sorting strings.
From Stdlib Require Import ZArith Lia Floats.SpecFloat.
From S2P Require Import Prelude PyFloat PyDict PyFormat FloatFacts.

Inductive SweepMethod := GRID | RANDOM.
Inductive SensitivityStatus := PENDING | RUNNING | COMPLETED | ERROR.
Inductive ParamCategory := FACTOR_WEIGHT | TECHNICAL | SIGNAL_THRESHOLD | RISK | COST.

Record ParamRange := {
  name : string; category : ParamCategory; base_value : float; min_value : float; max_value : float;
  step : option float; n_samples : Z }.
Abbreviation Params := (list (string * float)).

Definition validate (r : ParamRange) : bool :=
  negb (flt r.(max_value) r.(min_value)) && (fle r.(min_value) r.(base_value) && fle r.(base_value) r.(max_value)) &&
  match r.(step) with Some s => negb (fle s fzero) | None => true end.

(** [while current <= max_value + step * 0.01] *)
Fixpoint walk (fuel : nat) (limit stride current : float) : option (list float) :=
  match fuel with
  | O => None
  | S fuel' => if fle current limit then cons (round_to 10 current) <$> walk fuel' limit stride (fadd current stride) else Some []
  end.
Definition walk_from (fuel : nat) (r : ParamRange) (stride : float) : option (list float) :=
  walk fuel (fadd r.(max_value) (fmul stride (dec 1 2))) stride r.(min_value).
Definition even_stride (r : ParamRange) : float := fdiv (fsub r.(max_value) r.(min_value)) (of_Z (r.(n_samples) - 1)).
Definition grid_values (fuel : nat) (r : ParamRange) : option (list float) :=
  match r.(step) with
  | Some s => if fle s fzero then (if r.(n_samples) <=? 1 then Some [r.(base_value)] else walk_from fuel r (even_stride r)) else walk_from fuel r s
  | None => if r.(n_samples) <=? 1 then Some [r.(base_value)] else walk_from fuel r (even_stride r)
  end.

Definition param_range (n : string) (c : ParamCategory) (b lo hi s : float) : ParamRange :=
  {| name := n; category := c; base_value := b; min_value := lo; max_value := hi; step := Some s; n_samples := 10 |}.
Definition DEFAULT_PARAM_RANGES : list ParamRange :=
  [param_range "factor_value_weight" FACTOR_WEIGHT (dec 25 2) (dec 5 2) (dec 50 2) (dec 5 2);
   param_range "factor_momentum_weight" FACTOR_WEIGHT (dec 20 2) (dec 5 2) (dec 45 2) (dec 5 2);
   param_range "factor_quality_weight" FACTOR_WEIGHT (dec 20 2) (dec 5 2) (dec 45 2) (dec 5 2);
   param_range "rsi_period" TECHNICAL (of_Z 14) (of_Z 7) (of_Z 28) (of_Z 7);
   param_range "bollinger_period" TECHNICAL (of_Z 20) (of_Z 10) (of_Z 40) (of_Z 10);
   param_range "bollinger_std" TECHNICAL (of_Z 2) (of_Z 1) (of_Z 3) (dec 5 1);
   param_range "rsi_oversold" SIGNAL_THRESHOLD (of_Z 30) (of_Z 20) (of_Z 40) (of_Z 5);
   param_range "rsi_overbought" SIGNAL_THRESHOLD (of_Z 70) (of_Z 60) (of_Z 80) (of_Z 5);
   param_range "commission_rate" COST (dec 15 5) fzero (dec 1 3) (dec 2 4);
   param_range "slippage_rate" COST (dec 1 3) fzero (dec 5 3) (dec 1 3)].

(** * Trials *)

Module SweepGenerator.

Definition dict_of {A} (l : list (string * A)) : list (string * A) := foldl (λ d p, dict_set p.1 p.2 d) [] l.
Definition base_values (ranges : list ParamRange) : Params := dict_of ((λ r, (r.(name), r.(base_value))) <$> ranges).
(** [param_ranges or DEFAULT_PARAM_RANGES], each of them valid *)
Definition new (ranges : list ParamRange) : result string (list ParamRange) :=
  let ranges := match ranges with [] => DEFAULT_PARAM_RANGES | _ => ranges end in
  if forallb validate ranges then Ok ranges else Err "ValueError".

Definition is_base (r : ParamRange) (v : float) : bool := flt (fabs (fsub v r.(base_value))) (dec 1 12).
Definition varied (ranges : list ParamRange) (r : ParamRange) (values : list float) : list Params :=
  (λ v, dict_set r.(name) v (base_values ranges)) <$> filter (λ v, is_base r v = false) values.
Definition generate_one_at_a_time (fuel : nat) (ranges : list ParamRange) : option (list Params) :=
  (λ grids, base_values ranges :: concat (zip_with (varied ranges) ranges grids)) <$> mapM (grid_values fuel) ranges.

Fixpoint product (l : list (list float)) : list (list float) :=
  match l with
  | [] => [[]]
  | values :: rest => flat_map (λ v, cons v <$> product rest) values
  end.

Section Random.
(** [rng.sample(l, k)] and the n-th [rng.uniform(lo, hi)] of the seed *)
Context (sample : list (list float) → nat → list (list float)) (uniform : nat → float → float → float).

Definition _generate_grid (fuel : nat) (max_trials : nat) (ranges : list ParamRange) : option (list Params) :=
  (λ all_values,
    let combinations := product all_values in
    let combinations := if (max_trials <? length combinations)%nat then sample combinations max_trials else combinations in
    (λ combo, dict_of (zip (name <$> ranges) combo)) <$> combinations) <$> mapM (grid_values fuel) ranges.

(** [round(round(val / step) * step, 10)] of a number *)
Definition snapped (r : ParamRange) (v : float) : result string float :=
  match r.(step) with
  | Some s => if flt fzero s then match round (fdiv v s) with Some z => Ok (round_to 10 (fmul (of_Z z) s)) | None => Err "OverflowError" end else Ok v
  | None => Ok v
  end.
Fixpoint random_trial (draw : nat) (ranges : list ParamRange) (trial : Params) : result string Params :=
  match ranges with
  | [] => Ok trial
  | r :: rest => rbind (snapped r (uniform draw r.(min_value) r.(max_value))) (λ v, random_trial (S draw) rest (dict_set r.(name) v trial))
  end.
Fixpoint _generate_random (trials draw : nat) (ranges : list ParamRange) : result string (list Params) :=
  match trials with
  | O => Ok []
  | S trials' => rbind (random_trial draw ranges []) (λ t, rmap (cons t) (_generate_random trials' (draw + length ranges) ranges))
  end.
End Random.
End SweepGenerator.

(** * The analysis of the results *)

Record ParamTrialResult := { param_values : Params; sharpe_ratio : float; cagr : float; mdd : float }.
Record ParamElasticity := {
  param_name : string; e_category : ParamCategory; e_base : float;
  sharpe_elasticity : float; cagr_elasticity : float; mdd_elasticity : float;
  sharpe_range : float * float; cagr_range : float * float; mdd_range : float * float;
  monotonicity : float; stable_range : float * float }.
Definition impact_score (e : ParamElasticity) : float :=
  fadd (fadd (fmul (fabs e.(sharpe_elasticity)) (dec 4 1)) (fmul (fabs e.(cagr_elasticity)) (dec 3 1))) (fmul (fabs e.(mdd_elasticity)) (dec 3 1)).

Module SensitivityAnalyzer.

Definition near (x y : float) : bool := flt (fabs (fsub x y)) (dec 1 8).
Definition _find_base_trial (base : Params) (trials : list ParamTrialResult) : option ParamTrialResult :=
  head (filter (λ t, forallb (λ p, near (default fzero (dict_get p.1 t.(param_values))) p.2) base = true) trials).
Definition _filter_varied_trials (base : Params) (target : string) (trials : list ParamTrialResult) : list ParamTrialResult :=
  filter (λ t, forallb (λ p, bool_decide (p.1 = target) || near (default fzero (dict_get p.1 t.(param_values))) p.2) base = true) trials.

(** [min(l)] and [max(l)] of a list that begins with [x] *)
Definition min_of (l : list float) : float := match l with [] => fzero | x :: rest => foldl fmin x rest end.
Definition max_of (l : list float) : float := match l with [] => fzero | x :: rest => foldl fmax x rest end.

Definition pair_le (a b : float * float) : Prop := flt a.1 b.1 = true ∨ feq a.1 b.1 = true ∧ fle a.2 b.2 = true.
#[export] Instance pair_le_dec a b : Decision (pair_le a b).
Proof. unfold pair_le. apply _. Defined.
Fixpoint steps_of (l : list float) : Z * Z :=
  match l with
  | x :: (y :: _) as rest =>
      let '(inc, dcr) := steps_of rest in
      let diff := fsub y x in
      if flt (dec 1 12) diff then (inc + 1, dcr) else if flt diff (fneg (dec 1 12)) then (inc, dcr + 1) else (inc, dcr)
  | _ => (0, 0)
  end.
Definition _calc_monotonicity (params metrics : list float) : float :=
  if (length params <? 2)%nat then fzero else
  let '(increases, decreases) := steps_of (snd <$> merge_sort pair_le (zip params metrics)) in
  let total := increases + decreases in
  if total =? 0 then fzero else fdiv (of_Z (increases - decreases)) (of_Z total).
Definition _calc_stable_range (params metrics : list float) (base_metric tolerance : float) : float * float :=
  let threshold := if flt (fabs base_metric) (dec 1 12) then tolerance else fabs (fmul base_metric tolerance) in
  let stable := fst <$> filter (λ pm, fle (fabs (fsub pm.2 base_metric)) threshold = true) (zip params metrics) in
  match stable with
  | [] => (min_of params, min_of params)
  | _ => (min_of stable, max_of stable)
  end.

Section Means.
Context (mean : list float → float).
Definition _calc_elasticity (params metrics : list float) (base_param base_metric : float) : float :=
  if flt (fabs base_param) (dec 1 12) || flt (fabs base_metric) (dec 1 12) then
    match (λ m, fabs (fsub m base_metric)) <$> metrics with [] => fzero | deltas => mean deltas end
  else
    let elasticity (pm : float * float) : option float :=
      let dp := fdiv (fsub pm.1 base_param) base_param in
      let dm := fdiv (fsub pm.2 base_metric) base_metric in
      if flt (dec 1 12) (fabs dp) then Some (fdiv dm dp) else None in
    match omap elasticity (zip params metrics) with [] => fzero | l => mean l end.

Definition plain (r : ParamRange) : ParamElasticity := {|
  param_name := r.(name); e_category := r.(category); e_base := r.(base_value);
  sharpe_elasticity := fzero; cagr_elasticity := fzero; mdd_elasticity := fzero;
  sharpe_range := (fzero, fzero); cagr_range := (fzero, fzero); mdd_range := (fzero, fzero);
  monotonicity := fzero; stable_range := (fzero, fzero) |}.
Definition _compute_single_elasticity (r : ParamRange) (base : ParamTrialResult) (trials : list ParamTrialResult) : ParamElasticity :=
  let params := (λ t, default r.(base_value) (dict_get r.(name) t.(param_values))) <$> trials in
  let of_metric (f : ParamTrialResult → float) := _calc_elasticity params (f <$> trials) r.(base_value) (f base) in
  let range (f : ParamTrialResult → float) := (min_of (f <$> trials), max_of (f <$> trials)) in
  {| param_name := r.(name); e_category := r.(category); e_base := r.(base_value);
     sharpe_elasticity := of_metric sharpe_ratio; cagr_elasticity := of_metric cagr; mdd_elasticity := of_metric mdd;
     sharpe_range := range sharpe_ratio; cagr_range := range cagr; mdd_range := range mdd;
     monotonicity := _calc_monotonicity params (sharpe_ratio <$> trials);
     stable_range := _calc_stable_range params (sharpe_ratio <$> trials) base.(sharpe_ratio) (dec 10 2) |}.

Definition by_impact (a b : ParamElasticity) : Prop := flt (impact_score a) (impact_score b) = false.
#[export] Instance by_impact_dec a b : Decision (by_impact a b).
Proof. unfold by_impact. apply _. Defined.
Definition compute_elasticities (ranges : list ParamRange) (base : Params) (trials : list ParamTrialResult) : list ParamElasticity :=
  match trials with
  | [] => []
  | first :: _ =>
      let base_trial := default first (_find_base_trial base trials) in
      let one (p : string * ParamRange) :=
        let varied := _filter_varied_trials base p.1 trials in
        if (length varied <? 2)%nat then plain p.2 else _compute_single_elasticity p.2 base_trial varied in
      merge_sort by_impact (one <$> SweepGenerator.dict_of ((λ r, (r.(name), r)) <$> ranges))
  end.
End Means.

Record TornadoBar := { t_param : string; t_category : ParamCategory; t_low : float; t_high : float; t_spread : float; t_elasticity : float }.
Definition bar (range : float * float) (elasticity : float) (e : ParamElasticity) : TornadoBar := {|
  t_param := e.(param_name); t_category := e.(e_category); t_low := range.1; t_high := range.2; t_spread := fabs (fsub range.2 range.1); t_elasticity := elasticity |}.
Definition by_spread (a b : TornadoBar) : Prop := flt a.(t_spread) b.(t_spread) = false.
#[export] Instance by_spread_dec a b : Decision (by_spread a b).
Proof. unfold by_spread. apply _. Defined.
Definition tornado_ranking (l : list ParamElasticity) (metric : string) : list TornadoBar :=
  merge_sort by_spread
    (if bool_decide (metric = "sharpe") then (λ e, bar e.(sharpe_range) e.(sharpe_elasticity) e) <$> l
     else if bool_decide (metric = "cagr") then (λ e, bar e.(cagr_range) e.(cagr_elasticity) e) <$> l
     else if bool_decide (metric = "mdd") then (λ e, bar e.(mdd_range) e.(mdd_elasticity) e) <$> l
     else []).
End SensitivityAnalyzer.

(** * The engine *)

Record Metrics := { m_sharpe : float; m_cagr : float; m_mdd : float }.
Record SensitivityRun := {
  strategy_version : string; sweep_method : SweepMethod; param_ranges : list ParamRange; status : SensitivityStatus;
  total_trials : Z; completed_trials : Z; trial_results : list ParamTrialResult; elasticities : list ParamElasticity;
  best_params : option Params; best_sharpe : float; base_sharpe : float; error_message : string }.

Module ParamSensitivityEngine.
Import SweepGenerator SensitivityAnalyzer.

Section Engine.
Context {Prices : Type} (mean : list float → float).
Context (sample : list (list float) → nat → list (list float)) (uniform : nat → float → float → float).
(** [BacktestEngine(BacktestConfig(commission_rate, slippage_rate)).run(...)] *)
Context (backtest : option float → option float → list (list float) → Prices → result string Metrics).

Definition ends_with (suffix s : string) : bool :=
  let n := (String.length s - String.length suffix)%nat in
  (String.length suffix <=? String.length s)%nat && bool_decide (String.substring n (String.length suffix) s = suffix).
Definition is_factor_weight (k : string) : bool := starts_with "factor_" k && ends_with "_weight" k.
(** [np.clip(x, lo, hi)] *)
Definition np_clip (lo hi x : float) : float := if is_nan x then x else fmin (fmax x lo) hi.
Definition each (f : float → float) (signals : list (list float)) : list (list float) := map (map f) signals.
Definition _adjust_signals (signals : list (list float)) (params : Params) : list (list float) :=
  let factor_weights := filter (λ p, is_factor_weight p.1 = true) params in
  let total_weight := fsum (snd <$> factor_weights) in
  let adjusted := match factor_weights with
                  | [] => signals
                  | _ => if flt fzero total_weight then each (λ x, fmul x (np_clip (dec 5 1) (of_Z 2) (fdiv total_weight (dec 65 2)))) signals else signals
                  end in
  let overbought := default (of_Z 70) (dict_get "rsi_overbought" params) in
  let oversold := default (of_Z 30) (dict_get "rsi_oversold" params) in
  let threshold_width := fdiv (fsub overbought oversold) (of_Z 40) in
  let adjusted := if flt fzero threshold_width then each (λ x, fdiv x (np_clip (dec 5 1) (of_Z 2) threshold_width)) adjusted else adjusted in
  each (np_clip (of_Z (-1)) (of_Z 1)) adjusted.

Definition _run_single_trial (params : Params) (signals : list (list float)) (prices : Prices) : result string ParamTrialResult :=
  rmap (λ m, {| param_values := params; sharpe_ratio := m.(m_sharpe); cagr := m.(m_cagr); mdd := m.(m_mdd) |})
    (backtest (dict_get "commission_rate" params) (dict_get "slippage_rate" params) (_adjust_signals signals params) prices).

(** [for params in trials: run.trial_results.append(...)], up to the first that raises *)
Fixpoint run_trials (trials : list Params) (signals : list (list float)) (prices : Prices) : list ParamTrialResult * option string :=
  match trials with
  | [] => ([], None)
  | p :: rest =>
      match _run_single_trial p signals prices with
      | Err e => ([], Some e)
      | Ok t => let '(l, e) := run_trials rest signals prices in (t :: l, e)
      end
  end.
Definition best_of (first : ParamTrialResult) (l : list ParamTrialResult) : ParamTrialResult :=
  foldl (λ b t, if flt b.(sharpe_ratio) t.(sharpe_ratio) then t else b) first l.

Definition new_run (version : string) (method : SweepMethod) (ranges : list ParamRange) (st : SensitivityStatus) (total : Z)
    (base : float) (results : list ParamTrialResult) (es : list ParamElasticity) (err : string) : SensitivityRun :=
  let best := match results with [] => None | t :: rest => Some (best_of t rest) end in
  {| strategy_version := version; sweep_method := method; param_ranges := ranges; status := st; total_trials := total;
     completed_trials := Z.of_nat (length results); trial_results := results; elasticities := es;
     best_params := match st, best with COMPLETED, Some b => Some b.(param_values) | _, _ => None end;
     best_sharpe := match st, best with COMPLETED, Some b => b.(sharpe_ratio) | _, _ => fzero end;
     base_sharpe := base; error_message := err |}.
Definition run_on (version : string) (method : SweepMethod) (ranges : list ParamRange) (trials : list Params)
    (signals : list (list float)) (prices : Prices) : SensitivityRun :=
  let n := Z.of_nat (length trials) in
  match _run_single_trial (base_values ranges) signals prices with
  | Err e => new_run version method ranges ERROR n fzero [] [] e
  | Ok b =>
      match run_trials trials signals prices with
      | (l, Some e) => new_run version method ranges ERROR n b.(sharpe_ratio) l [] e
      | (l, None) => new_run version method ranges COMPLETED n b.(sharpe_ratio) l (compute_elasticities mean ranges (base_values ranges) l) ""
      end
  end.
(** The ranges are checked before the run begins, and an invalid one raises; [None] when
    the fuel is not enough. *)
Definition run (fuel : nat) (max_trials : nat) (version : string) (method : SweepMethod) (param_ranges : list ParamRange) (use_oat : bool)
    (signals : list (list float)) (prices : Prices) : option (result string SensitivityRun) :=
  match new param_ranges with
  | Err e => Some (Err e)
  | Ok ranges =>
      let trials : option (result string (list Params)) :=
        if use_oat then Ok <$> generate_one_at_a_time fuel ranges else
        match method with
        | GRID => Ok <$> _generate_grid sample fuel max_trials ranges
        | RANDOM => Some (_generate_random uniform max_trials 0 ranges)
        end in
      (λ r, Ok match r with
               | Ok l => run_on version method ranges l signals prices
               | Err e => new_run version method ranges ERROR 0 fzero [] [] e
               end) <$> trials
  end.
End Engine.
End ParamSensitivityEngine.

(** ** Routes *)

Module SensitivityRoutes.
Inductive HttpError := HTTP (status : Z) (code : string).
Abbreviation App := (option SensitivityRun).
Definition get_latest : M App HttpError SensitivityRun :=
  s ← get; match s with None => raise (HTTP 404 "PARAM_SENSITIVITY_NOT_FOUND") | Some r => mret r end.
Definition get_tornado (metric : string) : M App HttpError (list SensitivityAnalyzer.TornadoBar) :=
  s ← get;
  match s with
  | None => raise (HTTP 404 "PARAM_SENSITIVITY_NOT_FOUND")
  | Some r =>
      if bool_decide (metric = "sharpe") || bool_decide (metric = "cagr") || bool_decide (metric = "mdd")
      then mret (SensitivityAnalyzer.tornado_ranking r.(elasticities) metric)
      else raise (HTTP 400 "PARAM_SENSITIVITY_INVALID_METRIC")
  end.
(** [run] is the engine's run on the default ranges and on the generated data. *)
Definition run_sensitivity (run : SensitivityRun) : M App HttpError SensitivityRun := modify (λ _, Some run);; mret run.
End SensitivityRoutes.

(** * Properties *)

Module SensitivityFacts.
Import SweepGenerator SensitivityAnalyzer ParamSensitivityEngine.

(** ** Trials *)

(** A trial of the sweep of one parameter at a time is the base, or differs from it in
    the value of one parameter, which is of that parameter's grid and not the base's. *)
Theorem one_parameter_at_a_time fuel ranges trials t (Hrun : generate_one_at_a_time fuel ranges = Some trials) (Ht : t ∈ trials) :
  t = base_values ranges ∨
  ∃ r values v, r ∈ ranges ∧ grid_values fuel r = Some values ∧ v ∈ values ∧ is_base r v = false ∧
    dict_get r.(name) t = Some v ∧ ∀ k, k ≠ r.(name) → dict_get k t = dict_get k (base_values ranges).
Proof.
  unfold generate_one_at_a_time in Hrun. destruct (mapM (grid_values fuel) ranges) as [grids|] eqn:Eg; [|done]. cbn in Hrun. simplify_eq.
  apply elem_of_cons in Ht as [->|Ht]; [by left|right]. apply mapM_Some in Eg.
  unfold varied in Ht. set (b := base_values ranges) in *. clearbody b.
  apply list_elem_of_In, in_concat in Ht as (vs&Hvs&Ht). apply list_elem_of_In in Ht. apply list_elem_of_In, elem_of_lookup_zip_with in Hvs as (i&r&values&->&Hr&Hv).
  apply list_elem_of_fmap in Ht as (v&->&[Hb Hin]%list_elem_of_filter).
  exists r, values, v. assert (grid_values fuel r = Some values) as Hg by (by eapply Forall2_lookup_lr in Eg).
  split_and!; [by eapply list_elem_of_lookup_2|done..| |].
  - by rewrite dict_get_set, bool_decide_eq_true_2.
  - intros k Hk. by rewrite dict_get_set, bool_decide_eq_false_2.
Qed.

(** The default sweep has 55 trials: the base, and 54 values that are not the base's, six
    of them of the commission, whose base is not on its grid. *)
Example default_sweep :
  new [] = Ok DEFAULT_PARAM_RANGES ∧ length <$> generate_one_at_a_time 40 DEFAULT_PARAM_RANGES = Some 55%nat ∧
  map length <$> mapM (grid_values 40) DEFAULT_PARAM_RANGES = Some [10; 9; 9; 4; 4; 5; 5; 5; 6; 6]%nat.
Proof. split_and!; by vm_compute. Qed.

Lemma sub_self s m e : fsub (S754_finite s m e) (S754_finite s m e) = S754_zero false.
Proof. unfold fsub, SFsub. by rewrite Z.sub_diag. Qed.
Lemma walk_in_place fuel limit stride x : fle x limit = true → fadd x stride = x → walk fuel limit stride x = None.
Proof. intros Hl Hs. induction fuel as [|fuel IH]; [done|]. cbn. by rewrite Hl, Hs, IH. Qed.
(** A range whose ends are equal is valid, and without a step its values are walked
    without end: the stride is zero, and the value stays at the limit. *)
Theorem flat_ranges_are_walked_for_ever fuel n c (sg : bool) m e :
  let x := S754_finite sg m e in
  let r := {| name := n; category := c; base_value := x; min_value := x; max_value := x; step := None; n_samples := 10 |} in
  validate r = true ∧ grid_values fuel r = None.
Proof.
  cbn zeta. set (x := S754_finite sg m e). assert (fle x x = true) as Hx by by apply fle_refl. split.
  - unfold validate. cbn. by rewrite flt_irrefl, Hx.
  - unfold grid_values, walk_from, even_stride. cbn -[fle fadd fmul fdiv fsub of_Z dec walk].
    rewrite (sub_self sg m e : fsub x x = _). change (fdiv (S754_zero false) (of_Z (10 - 1))) with (S754_zero false).
    change (fmul (S754_zero false) (dec 1 2)) with (S754_zero false). by apply walk_in_place.
Qed.

(** ** Runs *)

Section Runs.
Context {Prices : Type} (mean : list float → float).
Context (backtest : option float → option float → list (list float) → Prices → result string Metrics).
Abbreviation trial := (_run_single_trial backtest).

Lemma run_trials_spec trials signals prices : let '(l, e) := run_trials backtest trials signals prices in
  (param_values <$> l) `prefix_of` trials ∧ (∀ t, t ∈ l → trial t.(param_values) signals prices = Ok t) ∧
  match e with
  | None => (param_values <$> l) = trials
  | Some err => ∃ p, trials !! length l = Some p ∧ trial p signals prices = Err err
  end.
Proof.
  induction trials as [|p trials IH]; cbn [run_trials]; [split_and!; [done|by intros t ?%elem_of_nil|done]|].
  destruct (trial p signals prices) as [t|err] eqn:E.
  - assert (t.(param_values) = p) as Ep by (unfold _run_single_trial in E; destruct (backtest _ _ _ _); [|done]; cbn in E; by simplify_eq).
    destruct (run_trials backtest trials signals prices) as [l e]. destruct IH as (H1&H2&H3). split_and!.
    + rewrite fmap_cons, Ep. by apply prefix_cons.
    + intros t' [->|Ht]%elem_of_cons; [by rewrite Ep|by apply H2].
    + destruct e as [err|]; [done|]. by rewrite fmap_cons, Ep, H3.
  - split_and!; [apply prefix_nil|by intros t ?%elem_of_nil|]. by exists p.
Qed.
Lemma best_of_spec l first : (∀ t, t ∈ first :: l → is_nan t.(sharpe_ratio) = false) →
  best_of first l ∈ first :: l ∧ ∀ t, t ∈ first :: l → fle t.(sharpe_ratio) (best_of first l).(sharpe_ratio) = true.
Proof.
  unfold best_of. revert first. induction l as [|x l IH]; intros first Hn; cbn [foldl].
  { split; [by left|]. intros t Ht. assert (t = first) as -> by (by apply list_elem_of_singleton). apply fle_refl, Hn. by left. }
  set (b := if flt _ _ then x else first).
  assert (b ∈ [first; x] ∧ fle first.(sharpe_ratio) b.(sharpe_ratio) = true ∧ fle x.(sharpe_ratio) b.(sharpe_ratio) = true) as (Hb&H1&H2).
  { assert (is_nan first.(sharpe_ratio) = false) by (apply Hn; by left). assert (is_nan x.(sharpe_ratio) = false) by (apply Hn; by right; left).
    unfold b. destruct (flt first.(sharpe_ratio) x.(sharpe_ratio)) eqn:E; split_and!; [by right; left|by apply flt_le|by apply fle_refl|by left|by apply fle_refl|].
    by rewrite fle_not_lt, E. }
  destruct (IH b) as [IH1 IH2].
  { intros t [->|Ht]%elem_of_cons; [|by apply Hn; right; right]. apply Hn. apply elem_of_cons in Hb as [->|Hb]; [by left|]. right. apply list_elem_of_singleton in Hb as ->. by left. }
  split.
  - apply elem_of_cons in IH1 as [->|IH1]; [|by right; right]. apply elem_of_cons in Hb as [->|Hb]; [by left|]. right. apply list_elem_of_singleton in Hb as ->. by left.
  - intros t [->|[->|Ht]%elem_of_cons]%elem_of_cons; [eapply fle_trans; [exact H1|]; apply IH2; by left|eapply fle_trans; [exact H2|]; apply IH2; by left|].
    apply IH2. by right.
Qed.

(** A run ends either completed, with one result for each of its trials, in their order,
    or in error after a first failed backtest, the results before which it keeps.  A
    completed run whose ratios are numbers names a trial that none exceeds; as the base is
    the first trial of the sweep and backtests are functions, the best is no worse than
    the base. *)
Theorem runs_report_their_trials version method ranges trials signals prices :
  let r := run_on mean backtest version method ranges trials signals prices in
  r.(total_trials) = Z.of_nat (length trials) ∧ r.(completed_trials) = Z.of_nat (length r.(trial_results)) ∧
  (param_values <$> r.(trial_results)) `prefix_of` trials ∧
  (r.(status) = COMPLETED ∧ (param_values <$> r.(trial_results)) = trials ∧
     ((∀ t, t ∈ r.(trial_results) → is_nan t.(sharpe_ratio) = false) → trials ≠ [] →
       ∃ b, b ∈ r.(trial_results) ∧ r.(best_params) = Some b.(param_values) ∧ r.(best_sharpe) = b.(sharpe_ratio) ∧
         (∀ t, t ∈ r.(trial_results) → fle t.(sharpe_ratio) r.(best_sharpe) = true) ∧
         (head trials = Some (base_values ranges) → fle r.(base_sharpe) r.(best_sharpe) = true)) ∨
   r.(status) = ERROR ∧ r.(best_params) = None ∧ r.(elasticities) = [] ∧
     ∃ p, p ∈ base_values ranges :: trials ∧ trial p signals prices = Err r.(error_message)).
Proof.
  cbn zeta. unfold run_on. destruct (trial (base_values ranges) signals prices) as [b|err] eqn:Eb; cycle 1.
  { cbn. split_and!; try done; [apply prefix_nil|]. right. split_and!; try done. exists (base_values ranges). split; [by left|done]. }
  pose proof (run_trials_spec trials signals prices) as H. destruct (run_trials backtest trials signals prices) as [l [err|]].
  - destruct H as (H1&_&p&Hp&He). cbn. split_and!; try done. right. split_and!; try done.
    exists p. split; [right; by eapply list_elem_of_lookup_2|done].
  - destruct H as (H1&H2&H3). cbn. split_and!; try done. left. split_and!; try done. intros Hn Hne.
    destruct l as [|t l]; [by destruct Hne|]. destruct (best_of_spec l t Hn) as [Hb1 Hb2].
    exists (best_of t l). split_and!; try done. intros Hhd. apply Hb2. rewrite <- H3 in Hhd. cbn in Hhd. injection Hhd as Hhd.
    pose proof (H2 t ltac:(by left)) as Ht. rewrite Hhd, Eb in Ht. injection Ht as ->. by left.
Qed.

Lemma factor_weights_kept k v params : is_factor_weight k = false →
  filter (λ p : string * float, is_factor_weight p.1 = true) (dict_set k v params) = filter (λ p : string * float, is_factor_weight p.1 = true) params.
Proof.
  intros Hk. induction params as [|[k' v'] l IH]; cbn [dict_set].
  - rewrite filter_cons_False; [done|]. cbn. by rewrite Hk.
  - case_bool_decide as E.
    + subst k'. rewrite !filter_cons_False; [done|cbn; by rewrite Hk..].
    + rewrite !filter_cons. cbn. by rewrite IH.
Qed.

(** Three of the ten parameters that are swept, the periods of RSI and of the Bollinger
    bands and the width of the bands, reach neither the signals nor the backtest: whatever
    their value, a trial gives the numbers it gives without them. *)
Theorem three_parameters_change_nothing :
  Forall (λ k, k ∈ name <$> DEFAULT_PARAM_RANGES ∧ ∀ v params signals prices,
      _adjust_signals signals (dict_set k v params) = _adjust_signals signals params ∧
      rmap (λ t, (t.(sharpe_ratio), t.(cagr), t.(mdd))) (trial (dict_set k v params) signals prices) =
      rmap (λ t, (t.(sharpe_ratio), t.(cagr), t.(mdd))) (trial params signals prices))
    ["rsi_period"; "bollinger_period"; "bollinger_std"].
Proof.
  assert (∀ k v params signals, is_factor_weight k = false → "rsi_overbought" ≠ k → "rsi_oversold" ≠ k →
    _adjust_signals signals (dict_set k v params) = _adjust_signals signals params) as Hadj.
  { intros k v params signals H1 H2 H3. unfold _adjust_signals. rewrite factor_weights_kept, !dict_get_set by done.
    by rewrite !bool_decide_eq_false_2. }
  assert (∀ k v params signals prices, is_factor_weight k = false → k ∉ ["rsi_overbought"; "rsi_oversold"; "commission_rate"; "slippage_rate"] →
    _adjust_signals signals (dict_set k v params) = _adjust_signals signals params ∧
    rmap (λ t, (t.(sharpe_ratio), t.(cagr), t.(mdd))) (trial (dict_set k v params) signals prices) =
    rmap (λ t, (t.(sharpe_ratio), t.(cagr), t.(mdd))) (trial params signals prices)) as Hall.
  { intros k v params signals prices H1 H2. rewrite !not_elem_of_cons in H2. destruct H2 as (N1&N2&N3&N4&_).
    assert (_adjust_signals signals (dict_set k v params) = _adjust_signals signals params) as E by (apply Hadj; congruence).
    split; [done|]. unfold _run_single_trial. rewrite E, !dict_get_set, !bool_decide_eq_false_2 by congruence.
    by destruct (backtest _ _ _ _). }
  repeat (apply Forall_cons_2; [split; [apply (bool_decide_unpack _); by vm_compute|]; intros; apply Hall; [done|apply (bool_decide_unpack _); by vm_compute]|]).
  constructor.
Qed.
End Runs.

(** ** The analysis *)

Lemma steps_bound l : let '(i, d) := steps_of l in 0 ≤ i ∧ 0 ≤ d ∧ i + d ≤ Z.max 0 (Z.of_nat (length l) - 1).
Proof.
  induction l as [|x l IH]; [cbn; lia|]. destruct l as [|y l]; [cbn; lia|].
  change (steps_of (x :: y :: l)) with (let '(inc, dcr) := steps_of (y :: l) in
    if flt (dec 1 12) (fsub y x) then (inc + 1, dcr) else if flt (fsub y x) (fneg (dec 1 12)) then (inc, dcr + 1) else (inc, dcr)).
  destruct (steps_of (y :: l)) as [i d]. cbn [length] in *. destruct (flt _ _); [lia|]. destruct (flt _ _); lia.
Qed.
(** Monotonicity is a quotient of whole numbers of which the upper is between minus and
    plus the lower, or zero. *)
Theorem monotonicity_is_a_share params metrics :
  _calc_monotonicity params metrics = fzero ∨
  ∃ a b, _calc_monotonicity params metrics = fdiv (of_Z a) (of_Z b) ∧ 0 < b ∧ - b ≤ a ∧ a ≤ b ∧ b < Z.of_nat (length params).
Proof.
  unfold _calc_monotonicity. destruct (length params <? 2)%nat; [by left|].
  pose proof (steps_bound (snd <$> merge_sort pair_le (zip params metrics))) as H. destruct (steps_of _) as [i d].
  destruct (Z.eqb_spec (i + d) 0); [by left|]. right. exists (i - d), (i + d). split; [done|].
  assert (length (snd <$> merge_sort pair_le (zip params metrics)) ≤ length params)%nat.
  { rewrite length_fmap, (Permutation_length (merge_sort_Permutation _ _)), length_zip_with. lia. }
  lia.
Qed.
End SensitivityFacts.
