(* ===== verification/Financial.v ===== *)
(** Financial statements: backend/core/data_collector/financial_collector.py.

    The answers of DART and of the queries are arguments, and so is what the database
    refuses.  The numbers of a query come as the driver gives them: a column of the SQL type
    NUMERIC is a Decimal, whose arithmetic is written out with the default context's 28
    digits.  The reading of a file by pandas is left out. *)

From stdpp Require Import base option list gmap strings.
From Stdlib Require Import ZArith Lia Floats.SpecFloat.
From S2P Require Import Prelude PyFloat PyDict PyFormat PyParse FloatFacts Calendar KisClient MarketData News Economic.

Record FinancialStatement := {
  corp_code : string; ticker : string; corp_name : string; bsns_year : Z; reprt_code : string; fs_div : string;
  revenue : option float; operating_income : option float; net_income : option float; total_assets : option float;
  total_liabilities : option float; total_equity : option float; eps : option float }.
Definition is_available (s : FinancialStatement) : bool :=
  negb (bool_decide (s.(ticker) = "")) && negb (s.(bsns_year) =? 0) && negb (bool_decide (s.(reprt_code) = "")).

Definition REPRT_CODE_TO_PERIOD_TYPE : list (string * string) := [("11013", "Q1"); ("11012", "H1"); ("11014", "Q3"); ("11011", "FY")].
Definition REPRT_CODE_TO_MONTH_DAY : list (string * (Z * Z)) := [("11013", (3, 31)); ("11012", (6, 30)); ("11014", (9, 30)); ("11011", (12, 31))].
Definition ACCOUNT_MAP : list (string * string) :=
  [("매출액", "revenue"); ("매출", "revenue"); ("영업이익", "operating_income"); ("당기순이익", "net_income"); ("총자산", "total_assets");
   ("총부채", "total_liabilities"); ("자본총계", "total_equity"); ("기본주당순이익", "eps"); ("주당순이익", "eps")].

(** * From DART *)

(** The field of an account: that of the first key in its name *)
Definition field_of (account_nm : string) : option string := snd <$> head (filter (λ kv, contains kv.1 account_nm = true) ACCOUNT_MAP).
(** The amount of an item: [None] where it is skipped *)
Definition amount_of (item : JValue) : result exc (option float) :=
  rbind (rbind (get_or item "thstrm_amount" (JStr "0")) strip_of) (λ amount_str,
  if bool_decide (amount_str = "") || bool_decide (amount_str = "-") then Ok None else Ok (py_float amount_str)).
Fixpoint parse_items (items : list JValue) (fields : list (string * float)) : result exc (list (string * float)) :=
  match items with
  | [] => Ok fields
  | item :: rest =>
      rbind (rbind (get_or item "account_nm" (JStr "")) strip_of) (λ account_nm,
      match field_of account_nm with
      | None => parse_items rest fields
      | Some f => rbind (amount_of item) (λ a, parse_items rest (match a with Some x => dict_set f x fields | None => fields end))
      end)
  end.
Definition _parse_financial_items (items : JValue) : result exc (list (string * float)) :=
  match items with
  | JArray l => parse_items l []
  | JStr _ | JObject _ => Err (OtherException "AttributeError" "")
  | _ => Err (OtherException "TypeError" "")
  end.
Definition read_financial (data : JValue) : result exc (option (list (string * float))) :=
  rbind (get_or data "status" JNull) (λ status,
  if negb (is_text status "000") then Ok None else
  rbind (get_or data "list" (JArray [])) (λ items,
  if negb (truthy items) then Ok None else rmap Some (_parse_financial_items items))).

(** The requests: each failure is tried again, a second later. *)
Fixpoint requests (left : nat) (attempt : Z) (get : Z → result exc JValue) : Fetch (option (list (string * float))) :=
  match left with
  | O => mret None
  | S left' =>
      modify (λ n, {| asked := n.(asked) ++ ["fnlttSinglAcntAll.json"]; waited := n.(waited) |});;
      match rbind (get attempt) read_financial with
      | Ok r => mret r
      | Err _ =>
          match left' with
          | O => mret None
          | S _ => modify (λ n, {| asked := n.(asked); waited := n.(waited) ++ [1] |});; requests left' (attempt + 1) get
          end
      end
  end.
Definition api_retry_count : nat := 3.
Definition _fetch_financial_data (http_client : bool) (get : Z → result exc JValue) : Fetch (option (list (string * float))) :=
  if negb http_client then mret None else requests api_retry_count 0 get.

(** [lookup]: the row of the universe whose ticker is the code of the corporation; a
    query that fails is a RuntimeError, which the caller catches. *)
Definition _fetch_corp_info (lookup : string → result exc (option (string * string))) (code : string) : result exc (option (string * string)) :=
  match lookup code with Ok r => Ok r | Err _ => Err (OtherException "RuntimeError" "") end.
Definition fetch_single_company (dart_api_key : string) (http_client : bool) (lookup : string → result exc (option (string * string)))
    (get : Z → result exc JValue) (code : string) (year : Z) (report div : string) : Fetch (option FinancialStatement) :=
  if bool_decide (dart_api_key = "") then mret None else
  match _fetch_corp_info lookup code with
  | Ok (Some (tk, nm)) =>
      data ← _fetch_financial_data http_client get;
      match data with
      | None | Some [] => mret None
      | Some d =>
          let f k := dict_get k d in
          mret (Some {| corp_code := code; ticker := tk; corp_name := nm; bsns_year := year; reprt_code := report; fs_div := div;
            revenue := f "revenue"; operating_income := f "operating_income"; net_income := f "net_income"; total_assets := f "total_assets";
            total_liabilities := f "total_liabilities"; total_equity := f "total_equity"; eps := f "eps" |})
      end
  | _ => mret None
  end.

(** * To the table *)

Record Row := {
  r_market : string; r_revenue : option float; r_operating_income : option float; r_net_income : option float; r_total_assets : option float;
  r_total_liabilities : option float; r_total_equity : option float; r_eps : option float; accounting_standard : string }.
(** financial_statements, by ticker, date and period *)
Abbreviation Statements := (gmap (string * Z * string) Row).
Definition _to_db_record (s : FinancialStatement) : result exc ((string * Z * string) * Row) :=
  match dict_get s.(reprt_code) REPRT_CODE_TO_MONTH_DAY with
  | None => Err (OtherException "ValueError" s.(reprt_code))
  | Some (m, d) =>
      if (1 <=? s.(bsns_year)) && (s.(bsns_year) <=? 9999) then
        match dict_get s.(reprt_code) REPRT_CODE_TO_PERIOD_TYPE with
        | None => Err (OtherException "ValueError" s.(reprt_code))
        | Some period => Ok ((s.(ticker), date s.(bsns_year) m d, period), {|
            r_market := "KRX"; r_revenue := s.(revenue); r_operating_income := s.(operating_income); r_net_income := s.(net_income);
            r_total_assets := s.(total_assets); r_total_liabilities := s.(total_liabilities); r_total_equity := s.(total_equity); r_eps := s.(eps);
            accounting_standard := if bool_decide (s.(fs_div) = "OFS") then "K-GAAP" else "K-IFRS" |})
        end
      else Err (OtherException "ValueError" "year")
  end.
Fixpoint records_of (l : list FinancialStatement) : result exc (list ((string * Z * string) * Row)) :=
  match l with
  | [] => Ok []
  | s :: rest => rbind (_to_db_record s) (λ r, rmap (cons r) (records_of rest))
  end.

Record Db := { committed : Statements; pending : Statements }.
Section Save.
(** What the database refuses of the records, and whether it commits *)
Context (refuses : list ((string * Z * string) * Row) → option exc) (commit_fails : option exc).
Definition execute (records : list ((string * Z * string) * Row)) : M Db exc unit :=
  match refuses records with
  | Some e => raise e
  | None => modify (λ s, {| committed := s.(committed); pending := foldl (λ t r, <[r.1 := r.2]> t) s.(pending) records |})
  end.
Definition commit : M Db exc unit :=
  match commit_fails with Some e => raise e | None => modify (λ s, {| committed := s.(pending); pending := s.(pending) |}) end.
Definition rollback : M Db exc unit := modify (λ s, {| committed := s.(committed); pending := s.(committed) |}).
Definition save_to_db (l : list FinancialStatement) : M Db exc Z :=
  match l with
  | [] => mret 0
  | _ => try_except (records ← lift_result (records_of l); execute records;; commit;; mret (Z.of_nat (length l)))
           (λ e, rollback;; raise e)
  end.
End Save.

(** * Measures *)

Record DerivedMetrics := {
  d_ticker : string; per : option float; pbr : option float; roe : option float; roa : option float; debt_ratio : option float; ev_ebitda : option float }.
Record MarketFigures := { current_price : option float; shares_outstanding : option float; ebitda : option float; net_debt : option float }.
(** [x] as a condition: present and not zero *)
Definition nonzero (o : option float) : option float := match o with Some x => if feq x fzero then None else Some x | None => None end.
Definition above_zero (o : option float) : option float := match nonzero o with Some x => if flt fzero x then Some x else None | None => None end.
Definition ratio (a b : option float) : option float := match a, b with Some x, Some y => Some (fdiv x y) | _, _ => None end.
Definition calculate_derived_metrics (tk : string) (s : FinancialStatement) (m : MarketFigures) : DerivedMetrics :=
  let p := nonzero m.(current_price) in
  let shares := nonzero m.(shares_outstanding) in
  if negb (is_available s) then {| d_ticker := tk; per := None; pbr := None; roe := None; roa := None; debt_ratio := None; ev_ebitda := None |} else
  {| d_ticker := tk;
     per := ratio p (above_zero s.(eps));
     pbr := match p, shares, above_zero s.(total_equity) with
            | Some p, Some n, Some e => let bps := fdiv e n in if flt fzero bps then Some (fdiv p bps) else None
            | _, _, _ => None end;
     roe := ratio (nonzero s.(net_income)) (nonzero s.(total_equity));
     roa := ratio (nonzero s.(net_income)) (nonzero s.(total_assets));
     debt_ratio := ratio (nonzero s.(total_liabilities)) (nonzero s.(total_equity));
     ev_ebitda := match p, shares, above_zero m.(ebitda) with
                  | Some p, Some n, Some e => Some (fdiv (fadd (fmul p n) (default fzero m.(net_debt))) e)
                  | _, _, _ => None end |}.

(** * Numbers of the database *)

(** A finite Decimal: coef * 10 ^ dexp *)
Record Decimal := { coef : Z; dexp : Z }.
Definition digit_count (n : Z) : Z := Z.of_nat (String.length (digits (Z.abs n))).
Definition prec : Z := 28.
Fixpoint strip_zeros (n : nat) (c e ideal : Z) : Z * Z :=
  match n with
  | O => (c, e)
  | S n' => if (e <? ideal) && (c mod 10 =? 0) then strip_zeros n' (c / 10) (e + 1) ideal else (c, e)
  end.
(** [_fix]: 28 digits, half to even *)
Definition fix_digits (c e : Z) : Z * Z :=
  let k := digit_count c - prec in
  if k <=? 0 then (c, e) else
  let q := div_half_even c (10 ^ k) in
  if 10 ^ prec <=? q then (q / 10, e + k + 1) else (q, e + k).
(** [a / b] for [b] not zero *)
Definition dec_div (a b : Decimal) : Decimal :=
  if a.(coef) =? 0 then {| coef := 0; dexp := a.(dexp) - b.(dexp) |} else
  let shift := digit_count b.(coef) - digit_count a.(coef) + prec + 1 in
  let e := a.(dexp) - b.(dexp) - shift in
  let num := Z.abs a.(coef) * (if 0 <=? shift then 10 ^ shift else 1) in
  let den := Z.abs b.(coef) * (if 0 <=? shift then 1 else 10 ^ (- shift)) in
  let c := num / den in
  let '(c, e) := if num mod den =? 0 then strip_zeros (Z.to_nat (digit_count c)) c e (a.(dexp) - b.(dexp))
                 else (if c mod 5 =? 0 then c + 1 else c, e) in
  let '(c, e) := fix_digits c e in
  {| coef := Z.sgn a.(coef) * Z.sgn b.(coef) * c; dexp := e |}.

Inductive Num := NFloat (x : float) | NDecimal (d : Decimal).
Definition is_decimal (n : Num) : bool := match n with NDecimal _ => true | NFloat _ => false end.
Definition true_num (n : Num) : bool := match n with NFloat x => negb (feq x fzero) | NDecimal d => negb (d.(coef) =? 0) end.
Definition positive_num (n : Num) : bool := match n with NFloat x => flt fzero x | NDecimal d => 0 <? d.(coef) end.
(** [float(n)] *)
Definition float_num (n : Num) : float :=
  match n with NFloat x => x | NDecimal d => scaled (d.(coef) <? 0) (Z.abs d.(coef)) d.(dexp) end.
(** [a / b]: a float and a Decimal do not divide. *)
Definition div_num (a b : Num) : result exc Num :=
  if negb (true_num b) then Err (OtherException "ZeroDivisionError" "") else
  match a, b with
  | NFloat x, NFloat y => Ok (NFloat (fdiv x y))
  | NDecimal x, NDecimal y => Ok (NDecimal (dec_div x y))
  | _, _ => Err (OtherException "TypeError" "unsupported operand type(s) for /")
  end.

(** What [get_factor_data] reads of the latest statement, in the order of its use *)
Record StatementRow := { s_net_income : option Num; s_total_equity : option Num; s_total_assets : option Num; s_eps : option Num; s_total_liabilities : option Num }.
Record FactorRow := {
  f_ticker : string; f_per : option Num; f_roe : option Num; f_roa : option Num; f_debt_ratio : option Num;
  return_12m : option Num; return_1m : option Num; volatility_60d : option Num }.

Section Factors.
(** The three queries for a ticker *)
Context (statement : string → result exc (option StatementRow)) (close_price : string → result exc (option Num)).
Context (market : string → result exc (option (option Num * option Num * option Num))).

(** [a / b if a else None], where [b and b > 0] *)
Definition quotient (a b : option Num) : result exc (option Num) :=
  match b with
  | Some y => if true_num y && positive_num y then
                match a with Some x => if true_num x then rmap Some (div_num x y) else Ok None | None => Ok None end
              else Ok None
  | None => Ok None
  end.
Definition price_earnings (price : float) (e : option Num) : result exc (option Num) :=
  match e with
  | Some y => if true_num y && positive_num y then rmap Some (div_num (NFloat price) y) else Ok None
  | None => Ok None
  end.
Definition factor_row (include_market_data : bool) (tk : string) : result exc (option FactorRow) :=
  rbind (statement tk) (λ stmt_row,
  match stmt_row with
  | None => Ok None
  | Some s =>
      rbind (close_price tk) (λ price_row,
      match float_num <$> price_row with
      | None => Ok None
      | Some current_price =>
          if feq current_price fzero then Ok None else
          rbind (price_earnings current_price s.(s_eps)) (λ per,
          rbind (quotient s.(s_net_income) s.(s_total_equity)) (λ roe,
          rbind (quotient s.(s_net_income) s.(s_total_assets)) (λ roa,
          rbind (quotient s.(s_total_liabilities) s.(s_total_equity)) (λ debt,
          let row m := match m with (r12, r1, v) => {| f_ticker := tk; f_per := per; f_roe := roe; f_roa := roa; f_debt_ratio := debt;
                                                       return_12m := r12; return_1m := r1; volatility_60d := v |} end in
          if include_market_data then rmap (λ m, Some (row (default (None, None, None) m))) (market tk)
          else Ok (Some (row (None, None, None)))))))
      end)
  end).
Definition get_factor_data (include_market_data : bool) (tickers : list string) : list FactorRow :=
  collect_valid (factor_row include_market_data) tickers.
End Factors.

(** * Properties *)

Module FinancialFacts.

Example divisions :
  div_num (NDecimal {| coef := 10; dexp := 0 |}) (NDecimal {| coef := 4; dexp := 0 |}) = Ok (NDecimal {| coef := 25; dexp := -1 |}) ∧
  div_num (NDecimal {| coef := -1; dexp := 0 |}) (NDecimal {| coef := 3; dexp := 0 |}) = Ok (NDecimal {| coef := -3333333333333333333333333333; dexp := -28 |}) ∧
  div_num (NDecimal {| coef := 2; dexp := 0 |}) (NDecimal {| coef := 3; dexp := 0 |}) = Ok (NDecimal {| coef := 6666666666666666666666666667; dexp := -28 |}) ∧
  div_num (NFloat (of_Z 1)) (NDecimal {| coef := 3; dexp := 0 |}) = Err (OtherException "TypeError" "unsupported operand type(s) for /").
Proof. by vm_compute. Qed.

(** ** Reading *)

(** A request is made three times at most, a second apart, whatever is answered. *)
Lemma requests_end get n : ∃ r k, requests api_retry_count 0 get n =
  (Ok r, {| asked := n.(asked) ++ repeat "fnlttSinglAcntAll.json" (S k); waited := n.(waited) ++ repeat 1 k |}) ∧ (k ≤ 2)%nat ∧
  ∀ d, r = Some d → ∃ i, rbind (get i) read_financial = Ok (Some d).
Proof.
  unfold api_retry_count. cbn [requests]. unfold mret, M_ret, mbind, M_bind, modify. destruct n as [a w]. cbn.
  destruct (rbind (get 0) read_financial) as [r|e] eqn:E0.
  { exists r, 0%nat. cbn. rewrite app_nil_r. split_and!; [done|lia|naive_solver]. }
  destruct (rbind (get (0 + 1)) read_financial) as [r|e'] eqn:E1.
  { exists r, 1%nat. cbn. rewrite <- app_assoc. split_and!; [done|lia|naive_solver]. }
  destruct (rbind (get (0 + 1 + 1)) read_financial) as [r|e''] eqn:E2; eexists _, 2%nat; cbn; rewrite <- !app_assoc; (split_and!; [reflexivity|lia|naive_solver]).
Qed.

Definition item (nm amount : string) : JValue := JObject [("account_nm", JStr nm); ("thstrm_amount", JStr amount)].
(** The cost of sales has "sales" in its name and comes after them: it is stored as the
    revenue.  An amount that is null loses the whole statement. *)
Example cost_of_sales_is_revenue :
  _parse_financial_items (JArray [item "매출액" "1000"; item "매출원가" "700"; item "당기순이익" "50"]) =
    Ok [("revenue", of_Z 700); ("net_income", of_Z 50)] ∧
  read_financial (JObject [("status", JStr "000"); ("list", JArray [item "당기순이익" "50"; JObject [("account_nm", JStr "총자산"); ("thstrm_amount", JNull)]])]) =
    Err (OtherException "AttributeError" "").
Proof. by vm_compute. Qed.

(** What is read of a field is the amount of the last of the items with a number whose
    name has that field, and every item before it has been overwritten. *)
Definition amount_for (f : string) (i : JValue) : option float :=
  match rbind (get_or i "account_nm" (JStr "")) strip_of with
  | Ok nm => if bool_decide (field_of nm = Some f) then match amount_of i with Ok a => a | Err _ => None end else None
  | Err _ => None
  end.
Theorem the_last_item_counts l d f (Hl : parse_items l [] = Ok d) : dict_get f d = last (omap (amount_for f) l).
Proof.
  assert (∀ l d0 d, parse_items l d0 = Ok d → dict_get f d = match last (omap (amount_for f) l) with Some x => Some x | None => dict_get f d0 end) as H; cycle 1.
  { rewrite (H l [] d Hl). by destruct (last _). }
  clear l d Hl. intros l. induction l as [|i l IH]; intros d0 d Hd; [by injection Hd as <-|]. cbn [parse_items] in Hd.
  change (omap (amount_for f) (i :: l)) with (match amount_for f i with Some x => x :: omap (amount_for f) l | None => omap (amount_for f) l end).
  unfold amount_for at 1. destruct (rbind (get_or i "account_nm" (JStr "")) strip_of) as [nm|]; [|done]. cbn [rbind] in Hd.
  destruct (field_of nm) as [f'|] eqn:Ef; [|rewrite bool_decide_eq_false_2 by done; by apply IH].
  destruct (amount_of i) as [a|]; [|done]. cbn [rbind] in Hd. apply IH in Hd. rewrite Hd. destruct a as [x|]; [|by case_bool_decide].
  rewrite dict_get_set. destruct (decide (f = f')) as [->|Hne].
  - rewrite !bool_decide_eq_true_2 by done. rewrite last_cons. by destruct (last _).
  - rewrite !bool_decide_eq_false_2 by congruence. done.
Qed.

(** ** Saving *)

(** Either every statement is in the table afterwards, each under its ticker, date and
    period, or an exception is raised and the table and the transaction are as they were. *)
Theorem statements_are_saved_together refuses commit_fails l t :
  let s := {| committed := t; pending := t |} in
  match save_to_db refuses commit_fails l s with
  | (Ok n, s') => n = Z.of_nat (length l) ∧ ∃ rs, records_of l = Ok rs ∧ s'.(committed) = foldl (λ t r, <[r.1 := r.2]> t) t rs ∧ s'.(pending) = s'.(committed)
  | (Err _, s') => s' = s
  end.
Proof.
  cbn zeta. destruct l as [|x l]; [cbn; split; [done|]; by exists []|]. unfold save_to_db, execute, commit, rollback. run_m.
  destruct (records_of (x :: l)) as [rs|e]; [|done]. cbn. destruct (refuses rs); [done|]. cbn. destruct commit_fails; [done|]. cbn.
  split; [done|]. by exists rs.
Qed.

(** ** Factors *)

Section FactorFacts.
Context (statement : string → result exc (option StatementRow)) (close_price : string → result exc (option Num)).
Context (market : string → result exc (option (option Num * option Num * option Num))).

Definition decimal_or_null (o : option Num) : Prop := match o with Some n => is_decimal n = true | None => True end.
Definition decimals (s : StatementRow) : Prop :=
  Forall decimal_or_null [s.(s_net_income); s.(s_total_equity); s.(s_total_assets); s.(s_eps); s.(s_total_liabilities)].
Definition profitable (s : StatementRow) : bool := match s.(s_eps) with Some e => positive_num e | None => false end.

Lemma quotient_Ok a b : decimal_or_null a → decimal_or_null b → ∃ q, quotient a b = Ok q.
Proof.
  intros Ha Hb. unfold quotient. destruct b as [y|]; [|by eexists]. destruct (true_num y) eqn:Ty; [|by eexists]. destruct (positive_num y); [|by eexists].
  destruct a as [x|]; [|by eexists]. destruct (true_num x); [|by eexists]. unfold div_num. rewrite Ty.
  destruct x, y; cbn in *; try done. by eexists.
Qed.
Lemma price_earnings_fails p e : decimal_or_null e → price_earnings p e = if match e with Some y => positive_num y | None => false end
  then Err (OtherException "TypeError" "unsupported operand type(s) for /") else Ok None.
Proof.
  intros He. destruct e as [[x|[c e]]|]; [done| |done]. unfold price_earnings. cbn. destruct (Z.eqb_spec c 0) as [->|]; [done|]. cbn.
  destruct (0 <? c); [|done]. cbn. unfold div_num. cbn. by rewrite (proj2 (Z.eqb_neq c 0)).
Qed.
Lemma collect_valid_in {A B} (f : A → result exc (option B)) l b x : x ∈ l → f x = Ok (Some b) → b ∈ collect_valid f l.
Proof.
  induction l as [|y l IH]; [by intros ?%elem_of_nil|]. intros [->|Hx]%elem_of_cons Hf; cbn.
  - rewrite Hf. by left.
  - destruct (f y) as [[z|]|]; [right|..]; by apply IH.
Qed.
Lemma row_ticker include tk r : factor_row statement close_price market include tk = Ok (Some r) → r.(f_ticker) = tk.
Proof.
  unfold factor_row. intros H. repeat match type of H with
  | rbind ?r _ = _ => destruct r; cbn [rbind] in H; [|done]
  | match ?o with Some _ => _ | None => _ end = _ => destruct o; [|done]
  | (if ?b then Ok None else _) = _ => destruct b; [done|]
  end. destruct include; [destruct (market tk) as [m|]; [|done]; cbn in H; simplify_eq; by destruct (default _ m) as [[??]?]|by simplify_eq].
Qed.

(** The driver gives the columns of the statement as Decimals, and the price has been
    made a float: the price-earnings ratio of a company that earns money raises a
    TypeError, and the company is left out.  Of the companies whose rows are there exactly
    those without positive earnings are in the table of factors. *)
Theorem profitable_companies_are_left_out include tickers tk s p m
    (Htk : tk ∈ tickers) (Hs : statement tk = Ok (Some s)) (Hdec : decimals s)
    (Hp : close_price tk = Ok (Some p)) (Hnz : feq (float_num p) fzero = false) (Hm : market tk = Ok m) :
  tk ∈ f_ticker <$> get_factor_data statement close_price market include tickers ↔ profitable s = false.
Proof.
  unfold decimals in Hdec. rewrite !Forall_cons in Hdec. destruct Hdec as (D1&D2&D3&D4&D5&_).
  destruct (quotient_Ok _ _ D1 D2) as [roe E1], (quotient_Ok _ _ D1 D3) as [roa E2], (quotient_Ok _ _ D5 D2) as [debt E3].
  assert (factor_row statement close_price market include tk = if profitable s then Err (OtherException "TypeError" "unsupported operand type(s) for /") else
    Ok (Some (match default (None, None, None) (if include then m else None) with (r12, r1, v) =>
      {| f_ticker := tk; f_per := None; f_roe := roe; f_roa := roa; f_debt_ratio := debt; return_12m := r12; return_1m := r1; volatility_60d := v |} end))) as E.
  { unfold factor_row. rewrite Hs. cbn [rbind]. rewrite Hp. cbn. rewrite Hnz, price_earnings_fails by done. fold (profitable s).
    destruct (profitable s); [done|]. cbn [rbind]. rewrite E1, E2, E3. cbn [rbind]. destruct include; [by rewrite Hm|done]. }
  unfold get_factor_data. split.
  - intros (r&Er&(x&Hx&Ex)%NewsFacts.collect_valid_elem)%list_elem_of_fmap. pose proof (row_ticker _ _ _ Ex) as Et. rewrite Et in Er. subst x.
    rewrite E in Ex. by destruct (profitable s).
  - intros Hpr. rewrite Hpr in E. apply list_elem_of_fmap. eexists. split; [|by eapply collect_valid_in]. by destruct (default _ _) as [[??]?].
Qed.
End FactorFacts.

Definition decimal (c : Z) : option Num := Some (NDecimal {| coef := c; dexp := -2 |}).
Definition company (e : Z) : StatementRow := {|
  s_net_income := decimal e; s_total_equity := decimal 1000; s_total_assets := decimal 3000; s_eps := decimal e; s_total_liabilities := decimal 2000 |}.
Lemma profitable_companies_are_left_out_witness :
  let statement tk := Ok (Some (company (if bool_decide (tk = "loss") then -100 else 100))) in
  let close_price (_ : string) := Ok (Some (NDecimal {| coef := 7000000; dexp := -2 |})) in
  let market (_ : string) := Ok None in
  "gain" ∉ f_ticker <$> get_factor_data statement close_price market true ["gain"; "loss"] ∧
  "loss" ∈ f_ticker <$> get_factor_data statement close_price market true ["gain"; "loss"].
Proof.
  intros statement close_price market. split.
  - intros H. eapply (profitable_companies_are_left_out statement close_price market true ["gain"; "loss"] "gain") in H; [|by left|reflexivity|repeat constructor|reflexivity|by vm_compute|reflexivity].
    by vm_compute in H.
  - eapply (profitable_companies_are_left_out statement close_price market true ["gain"; "loss"] "loss"); [right; by left|reflexivity|repeat constructor|reflexivity|by vm_compute|reflexivity|by vm_compute].
Defined.
End FinancialFacts.
