(* ===== verification/Social.v ===== *)
(** Posts of Reddit: backend/core/data_collector/social_collector.py.

    What Reddit answers is an argument, as decoded JSON or an exception.  [str.lower],
    [str.upper], the classes of characters beyond ASCII and [str] of values that are no
    text are parameters; [str.strip] takes ASCII white space.  Sleeps are left out, and the
    clock stands still during a collection. *)

From stdpp Require Import base option list sorting gmap strings.
From Stdlib Require Import ZArith Lia Ascii Floats.SpecFloat.
From S2P Require Import Prelude PyFloat PyDict PyFormat PyParse Calendar KisClient MarketData News.

Definition FINANCIAL_KEYWORDS : list string :=
  ["주식"; "매수"; "매도"; "상장"; "공매도"; "코스피"; "코스닥"; "배당"; "실적"; "상한가"; "하한가"; "급등"; "급락"; "수익"; "손실"; "수익률";
   "포트폴리오"; "주가"; "종목"; "투자"; "stock"; "buy"; "sell"; "bullish"; "bearish"; "earnings"; "dividend"; "ipo"; "short"; "long"; "market";
   "trading"; "price"; "ticker"; "portfolio"; "profit"; "loss"; "investment"].
(** The patterns without a caret are looked for anywhere. *)
Definition ADVERTISEMENT_PATTERNS : list (bool * string) :=
  [(false, "[AD]"); (false, "[PROMO]"); (false, "[SPONSORED]"); (true, "Promoted"); (true, "Advertising")].
Definition _US_NAME_TO_TICKER : list (string * string) :=
  [("AAPL", "AAPL"); ("Apple", "AAPL"); ("MSFT", "MSFT"); ("Microsoft", "MSFT"); ("GOOGL", "GOOGL"); ("Google", "GOOGL"); ("AMZN", "AMZN");
   ("Amazon", "AMZN"); ("TSLA", "TSLA"); ("Tesla", "TSLA"); ("META", "META"); ("Facebook", "META"); ("NVDA", "NVDA"); ("Nvidia", "NVDA");
   ("JPM", "JPM"); ("JPMorgan", "JPM")].
Definition sentiment_keywords_map : list (string * list string) :=
  [("긍정", ["good"; "excellent"; "best"; "awesome"; "great"; "amazing"; "buy"; "bullish"]);
   ("부정", ["bad"; "worst"; "terrible"; "avoid"; "sell"; "bearish"; "loss"; "fail"]);
   ("중립", ["neutral"; "hmm"; "maybe"; "unclear"; "uncertain"])].

Record SocialPost := {
  post_id : string; subreddit : string; title : string; content : string; author : string; score : JValue; num_comments : JValue;
  url : string; published_at : Z; tickers : list string; sentiment_keywords : list string; is_filtered : bool }.

(** [_author_post_count]: the times of the posts of each author *)
Abbreviation Counts := (gmap string (list Z)).

Section Texts.
Context (lower upper : string → string) (other_word other_digit other_space : string → bool).

Definition extract_tickers (text : string) : list string :=
  let codes := filter (λ c, is_year c = false) (_KR_TICKER_PATTERN other_word other_digit text) in
  let named := snd <$> filter (λ p, contains p.1 text = true) _KR_NAME_TO_TICKER in
  let named_us := snd <$> filter (λ p, contains p.1 text || contains (upper p.1) (upper text) = true) _US_NAME_TO_TICKER in
  merge_sort str_le (remove_dups (codes ++ named ++ named_us)).
Definition is_financial_content (text : string) : bool := existsb (λ kw, contains kw (lower text)) FINANCIAL_KEYWORDS.
Definition extract_sentiment_keywords (text : string) : list string :=
  flat_map (λ '(sentiment, keywords), (λ kw, sentiment +:+ "_" +:+ kw) <$> filter (λ kw, contains kw (lower text) = true) keywords) sentiment_keywords_map.

Definition is_space_char (c : string) : bool := match c with String a "" => is_space a | _ => other_space c end.
(** A match of [https?://\S+] begins here. *)
Definition url_here (l : list string) : bool :=
  let after n := match drop n l with c :: _ => negb (is_space_char c) | [] => false end in
  (bool_decide (text_of (take 7 l) = "http://") && after 7%nat) || (bool_decide (text_of (take 8 l) = "https://") && after 8%nat).
(** [re.sub(r"https?://\S+", "", text)]: an address goes on to the next white space. *)
Fixpoint remove_urls (inside : bool) (l : list string) : list string :=
  match l with
  | [] => []
  | c :: rest =>
      if is_space_char c then c :: remove_urls false rest
      else if inside || url_here l then remove_urls true rest
      else c :: remove_urls false rest
  end.
Definition advertises (content : string) : bool :=
  existsb (λ '(at_start, p), if at_start : bool then starts_with p content else contains p content) ADVERTISEMENT_PATTERNS.
Definition hour : Z := 3600000000.
Definition is_spam (content author : string) (counts : Counts) (now : Z) : bool :=
  if py_len (strip content) <? 10 then true
  else if advertises content then true
  else if match counts !! author with
          | Some _ => 5 <=? Z.of_nat (length (filter (λ ts, now - ts < hour) (default [] (counts !! (author +:+ "_times")))))
          | None => false end then true
  else bool_decide (strip (text_of (remove_urls false (chars content))) = "").

Definition filter_out (p : SocialPost) : SocialPost := {|
  post_id := p.(post_id); subreddit := p.(subreddit); title := p.(title); content := p.(content); author := p.(author); score := p.(score);
  num_comments := p.(num_comments); url := p.(url); published_at := p.(published_at); tickers := p.(tickers);
  sentiment_keywords := p.(sentiment_keywords); is_filtered := true |}.
Definition tagged (p : SocialPost) : SocialPost :=
  let combined_text := p.(title) +:+ " " +:+ p.(content) in {|
  post_id := p.(post_id); subreddit := p.(subreddit); title := p.(title); content := p.(content); author := p.(author); score := p.(score);
  num_comments := p.(num_comments); url := p.(url); published_at := p.(published_at); tickers := extract_tickers combined_text;
  sentiment_keywords := extract_sentiment_keywords combined_text; is_filtered := p.(is_filtered) |}.
(** The posts that pass, and the counts of the service *)
Fixpoint filter_financial_posts (now : Z) (posts : list SocialPost) (counts : Counts) : list SocialPost * Counts :=
  match posts with
  | [] => ([], counts)
  | p :: rest =>
      if negb (is_financial_content (p.(title) +:+ " " +:+ p.(content))) then filter_financial_posts now rest counts
      else if is_spam p.(content) p.(author) counts now then filter_financial_posts now rest counts
      else let '(l, counts') := filter_financial_posts now rest (<[p.(author) := default [] (counts !! p.(author)) ++ [p.(published_at)]]> counts) in
           (tagged p :: l, counts')
  end.
End Texts.

(** * The token *)

Module RedditOAuth2Manager.
Record Manager := { access_token : JValue; token_expiry : option Z }.
Definition is_available (client_id client_secret : string) : bool := negb (bool_decide (client_id = "")) && negb (bool_decide (client_secret = "")).
(** [timedelta(seconds=v)] of whole seconds, in microseconds *)
Definition seconds_of (v : JValue) : result exc Z :=
  match v with
  | JInt z => Ok (z * 1000000)
  | JBool b => Ok (if b then 1000000 else 0)
  | JFloat x => match PyFloat.round (fmul x (of_Z 1000000)) with Some z => Ok z | None => Err (OtherException "ValueError" "") end
  | _ => Err (OtherException "TypeError" "")
  end.
(** The token is kept until five minutes before it expires.  An answer without a number of
    seconds raises after the token has been replaced. *)
Definition get_valid_token (client_id client_secret : string) (now : Z) (answer : result exc JValue) : M Manager exc (option JValue) :=
  if negb (is_available client_id client_secret) then mret None else
  m ← get;
  if truthy m.(access_token) && match m.(token_expiry) with Some e => now <? e - 300000000 | None => false end then mret (Some m.(access_token)) else
  try_except
    (data ← lift_result answer;
     token ← lift_result (get_or data "access_token" JNull);
     modify (λ m, {| access_token := token; token_expiry := m.(token_expiry) |});;
     expires_in ← lift_result (rbind (get_or data "expires_in" (JInt 3600)) seconds_of);
     modify (λ m, {| access_token := m.(access_token); token_expiry := Some (now + expires_in) |});;
     mret (Some token))
    (λ _, mret None).
End RedditOAuth2Manager.

(** * Posts *)

Definition SUBREDDITS : list string := ["KoreanStockMarket"; "ko_stocks"; "wallstreetbets"; "stocks"; "investing"; "ValueInvesting"].
Definition newline : string := String (ascii_of_nat 10) "".
Definition marker : string := "[TOP COMMENTS]".

Section Reddit.
Context (py_str : JValue → string) (fromtimestamp : JValue → result exc Z) (py_sub : JValue → JValue → result exc JValue).
(** The answers for the posts of a subreddit in an order, and for a post *)
Context (fetch_listing : string → string → result exc JValue) (fetch_post : string → result exc JValue).
Abbreviation text := (show py_str).

Fixpoint join (l : list string) : string :=
  match l with [] => "" | [s] => s | s :: rest => s +:+ newline +:+ join rest end.
(** [v.get("data", {}).get("children", [])] and the like *)
Definition at2 (v : JValue) (k1 : string) (k2 : string) (d : JValue) : result exc JValue :=
  rbind (get_or v k1 (JObject [])) (λ x, get_or x k2 d).
Definition comment_of (item : JValue) : result exc (option string) :=
  rbind (at2 item "data" "body" (JStr "")) (λ body,
  if negb (truthy body) then Ok None else
  match body with
  | JStr s => Ok (if starts_with "[deleted" s then None else Some s)
  | _ => Err (OtherException "AttributeError" "")
  end).
Definition slice (v : JValue) (limit : nat) : result exc (list JValue) :=
  match v with JArray l => Ok (take limit l) | JStr _ => Ok [] | _ => Err (OtherException "TypeError" "") end.
Definition _fetch_comments (permalink : string) (limit : nat) : list string :=
  match fetch_post permalink with
  | Ok (JArray (_ :: second :: _)) =>
      match rbind (at2 second "data" "children" (JArray [])) (λ c, slice c limit) with
      | Ok l => collect_valid comment_of l
      | Err _ => []
      end
  | _ => []
  end.
Definition combined (content comments : string) : string := content +:+ newline +:+ newline +:+ marker +:+ newline +:+ comments.
Definition post_of (sub : string) (comments_limit : nat) (item : JValue) : result exc (option SocialPost) :=
  rbind (get_or item "data" (JObject [])) (λ post_data,
  rbind (get_or post_data "id" JNull) (λ id, rbind (get_or post_data "title" (JStr "")) (λ t, rbind (get_or post_data "selftext" (JStr "")) (λ selftext,
  rbind (get_or post_data "author" (JStr "[deleted]")) (λ a, rbind (get_or post_data "permalink" (JStr "")) (λ permalink,
  let comment_text := join (take comments_limit (_fetch_comments (text permalink) comments_limit)) in
  rbind (rbind (get_or post_data "created_utc" (JInt 0)) fromtimestamp) (λ p,
  rbind (get_or post_data "ups" (JInt 0)) (λ ups, rbind (get_or post_data "downs" (JInt 0)) (λ downs, rbind (py_sub ups downs) (λ sc,
  rbind (get_or post_data "num_comments" (JInt 0)) (λ n,
  Ok (Some {| post_id := "reddit_" +:+ text id; subreddit := sub; title := text t;
     content := text_of (take 10000 (chars (combined (text selftext) comment_text))); author := text a; score := sc; num_comments := n;
     url := "https://reddit.com" +:+ text permalink; published_at := p; tickers := []; sentiment_keywords := []; is_filtered := false |})))))))))))).
Definition _fetch_posts_by_sort (sub sort_by : string) (comments_limit : nat) : result exc (list SocialPost) :=
  rbind (fetch_listing sub sort_by) (λ data,
  rbind (rbind (at2 data "data" "children" (JArray [])) iterate) (λ l, Ok (collect_valid (post_of sub comments_limit) l))).
Definition _fetch_subreddit_posts (sub : string) (comments_limit : nat) : list SocialPost :=
  extend_each (λ sort_by, _fetch_posts_by_sort sub sort_by comments_limit) ["hot"; "new"].
Definition collect_all (token : option JValue) (comments_limit : nat) : list SocialPost :=
  match token with
  | Some t => if truthy t then flat_map (λ sub, _fetch_subreddit_posts sub comments_limit) SUBREDDITS else []
  | None => []
  end.
End Reddit.

(** * The service *)

Abbreviation Posts := (gmap string SocialPost).
Section Service.
(** What the collection does at an insert, beside refusing a duplicate *)
Context (outage : SocialPost → option exc).
Definition insert_post (p : SocialPost) : M Posts exc unit :=
  c ← get;
  match outage p, c !! p.(post_id) with
  | Some e, _ => raise e
  | None, Some _ => raise (OtherException "DuplicateKeyError" p.(post_id))
  | None, None => modify (λ c, <[p.(post_id) := p]> c)
  end.
Fixpoint store_posts (l : list SocialPost) (new dup : Z) : M Posts exc (Z * Z) :=
  match l with
  | [] => mret (new, dup)
  | p :: rest =>
      stored ← try_except (insert_post p;; mret true) (λ _, mret false);
      if stored : bool then store_posts rest (new + 1) dup else store_posts rest new (dup + 1)
  end.
Definition save_to_db (indexes : result exc unit) (l : list SocialPost) : M Posts exc (Z * Z) :=
  lift_result indexes;; store_posts l 0 0.

Record Collected := { collected : Z; filtered : Z; stored : Z; duplicates : Z }.
(** [raw_posts] are those of [collect_all]; the counts are those of the service. *)
Definition collect_and_store (lower upper : string → string) (other_word other_digit other_space : string → bool) (now : Z)
    (indexes : result exc unit) (raw_posts : list SocialPost) (counts : Counts) : M Posts exc (Collected * Counts) :=
  match raw_posts with
  | [] => mret ({| collected := 0; filtered := 0; stored := 0; duplicates := 0 |}, counts)
  | _ =>
      let '(kept, counts) := filter_financial_posts lower upper other_word other_digit other_space now raw_posts counts in
      '(new, dup) ← save_to_db indexes kept;
      mret ({| collected := Z.of_nat (length raw_posts); filtered := Z.of_nat (length kept); stored := new; duplicates := dup |}, counts)
  end.
End Service.

Definition newer (a b : SocialPost) : Prop := b.(published_at) ≤ a.(published_at).
#[export] Instance newer_dec a b : Decision (newer a b).
Proof. unfold newer. apply _. Defined.
Definition since (now hours : Z) (p : SocialPost) : bool := (now - hours * 3600000000 <=? p.(published_at)) && negb p.(is_filtered).
Definition get_recent_posts (now : Z) (wanted : list string) (hours : Z) (limit : nat) (c : Posts) : list SocialPost :=
  take limit (merge_sort newer (filter (λ p, since now hours p && match wanted with [] => true | _ => existsb (λ t, bool_decide (t ∈ p.(tickers))) wanted end = true)
    (snd <$> map_to_list c))).
Definition get_posts_by_subreddit (now : Z) (sub : string) (hours : Z) (limit : nat) (c : Posts) : list SocialPost :=
  take limit (merge_sort newer (filter (λ p, since now hours p && bool_decide (p.(subreddit) = sub) = true) (snd <$> map_to_list c))).

(** * Properties *)

Module SocialFacts.

Lemma py_len_app s t : py_len (s +:+ t) = py_len s + py_len t.
Proof. induction s as [|a s IH]; [done|]. rewrite append_cons. cbn. rewrite IH. case_match; lia. Qed.
Lemma py_len_nonneg s : 0 ≤ py_len s.
Proof. induction s as [|a s IH]; cbn; [lia|]. case_match; lia. Qed.
Lemma lstrip_before x a t : is_space a = false → ∃ x', lstrip (x +:+ String a t) = x' +:+ String a t.
Proof.
  intros Ha. induction x as [|b x [x' IH]]; [exists ""; rewrite !append_nil; cbn [lstrip]; by rewrite Ha|]. rewrite append_cons. cbn [lstrip].
  destruct (is_space b); [by exists x'|]. by exists (String b x).
Qed.
Lemma rstrip_after x a t : is_space a = false → ∃ t', rstrip (x +:+ String a t) = x +:+ String a t'.
Proof.
  intros Ha. induction x as [|b x [t' IH]].
  - rewrite !append_nil. cbn [rstrip]. destruct (rstrip t) as [|c t']; [exists ""; by rewrite Ha|by exists (String c t')].
  - exists t'. rewrite append_cons. cbn [rstrip]. rewrite IH. by destruct x.
Qed.
(** Stripping leaves what stands between two characters that are no space. *)
Lemma strip_around x a m b y : is_space a = false → is_space b = false →
  ∃ x' y', strip (x +:+ String a (m +:+ String b y)) = x' +:+ String a (m +:+ String b y').
Proof.
  intros Ha Hb. unfold strip. destruct (lstrip_before x a (m +:+ String b y) Ha) as [x' ->].
  destruct (rstrip_after (x' +:+ String a m) b y Hb) as [y' E]. exists x', y'.
  rewrite <- append_assoc in E. rewrite !append_cons in E. rewrite E, <- append_assoc. by rewrite append_cons.
Qed.
Lemma combined_around c d : combined c d = (c +:+ newline +:+ newline) +:+ String "[" ("TOP COMMENTS" +:+ String "]" (newline +:+ d)).
Proof. unfold combined, marker. by rewrite <- !append_assoc. Qed.
Lemma combined_is_long c d : 10 ≤ py_len (strip (combined c d)).
Proof.
  rewrite combined_around. destruct (strip_around (c +:+ newline +:+ newline) "[" "TOP COMMENTS" "]" (newline +:+ d)) as (x&y&->); [done..|].
  rewrite py_len_app. change (py_len (String "[" ("TOP COMMENTS" +:+ String "]" y))) with (py_len ("[TOP COMMENTS]" +:+ y)). rewrite py_len_app.
  pose proof (py_len_nonneg x). pose proof (py_len_nonneg y). change (py_len "[TOP COMMENTS]") with 14. lia.
Qed.

Lemma chars_app s t : (chars_from t).1 = "" → chars (s +:+ t) = chars s ++ chars t ∧ (chars_from (s +:+ t)).1 = (chars_from s).1.
Proof.
  unfold chars. intros Ht. induction s as [|a s [IH1 IH2]]; [by rewrite append_nil|]. rewrite append_cons. cbn [chars_from].
  destruct (chars_from (s +:+ t)) as [u l], (chars_from s) as [u' l']. cbn in *. subst u l. by destruct (_ && _).
Qed.
Lemma text_of_app l k : text_of (l ++ k) = text_of l +:+ text_of k.
Proof. induction l as [|c l IH]; [by rewrite append_nil|].
  change (c +:+ text_of (l ++ k) = (c +:+ text_of l) +:+ text_of k). by rewrite IH, append_assoc.
Qed.

Section Spam.
Context (other_space : string → bool).

Lemma urls_end inside l r : ∃ pre, remove_urls other_space inside (l ++ newline :: r) = pre ++ newline :: remove_urls other_space false r.
Proof.
  revert inside. induction l as [|c l IH]; intros inside; [by exists []|]. cbn [app remove_urls].
  destruct (is_space_char other_space c); [destruct (IH false) as [pre ->]; by exists (c :: pre)|].
  destruct (inside || _); [by destruct (IH true) as [pre ->]; exists pre|]. destruct (IH false) as [pre ->]. by exists (c :: pre).
Qed.
Lemma marker_stays c d : ∃ x y, text_of (remove_urls other_space false (chars (combined c d))) = x +:+ String "[" y.
Proof.
  assert (∃ r, chars (combined c d) = chars c ++ newline :: newline :: "[" :: r) as [r ->].
  { unfold combined. destruct (chars_app c (newline +:+ newline +:+ marker +:+ newline +:+ d)) as [-> _].
    - unfold newline, marker. rewrite !append_cons, !append_nil. cbn. by destruct (chars_from d).
    - unfold newline, marker, chars. rewrite !append_cons, !append_nil. cbn. destruct (chars_from d) as [t l]. cbn. by eexists. }
  destruct (urls_end false (chars c) (newline :: "[" :: r)) as [pre ->].
  change (remove_urls other_space false (newline :: "[" :: r)) with (newline :: remove_urls other_space false ("[" :: r)).
  assert (url_here other_space ("[" :: r) = false) as Hu.
  { unfold url_here. rewrite !bool_decide_eq_false_2; [done| |].
    - intros E. cbn [take text_of foldr] in E. rewrite append_cons in E. discriminate.
    - intros E. cbn [take text_of foldr] in E. rewrite append_cons in E. discriminate. }
  cbn [remove_urls]. rewrite Hu. cbn [is_space_char is_space]. cbn. 
  rewrite text_of_app. eexists (text_of pre +:+ newline +:+ newline), _. cbn. by rewrite <- !append_assoc.
Qed.

(** Of the four conditions of spam one is left.  The text of a post, where it is not cut at
    ten thousand characters, is joined to that of its comments by a line of its own, which makes it long enough and more than an address;
    and the times of an author's posts are read under a name under which they are never
    written, unless another author's name is that one.  So a post is spam exactly when its
    text has the mark of an advertisement, however often its author posts. *)
Theorem spam_is_what_advertises content comments author (counts : Counts) now (Hname : counts !! (author +:+ "_times") = None) :
  is_spam other_space (combined content comments) author counts now = advertises (combined content comments).
Proof.
  unfold is_spam. rewrite (proj2 (Z.ltb_ge _ _)) by apply combined_is_long. destruct (advertises _); [done|].
  rewrite Hname. cbn [default from_option filter]. assert ((5 <=? Z.of_nat (length (filter (λ ts, now - ts < hour) ([] : list Z)))) = false) as E by done.
  replace (match counts !! author with Some _ => _ | None => false end) with false by (by destruct (counts !! author)).
  apply bool_decide_eq_false_2. destruct (marker_stays content comments) as (x&y&->).
  unfold strip. destruct (lstrip_before x "[" y) as [x' ->]; [done|]. destruct (rstrip_after x' "[" y) as [t' ->]; [done|]. by destruct x'.
Qed.
End Spam.

Lemma spam_is_what_advertises_witness :
  let counts : Counts := {[ "spammer" := repeat 0 100 ]} in
  is_spam (λ _, false) (combined "http://x.y/buy" "") "spammer" counts 1 = false.
Proof. intros counts. rewrite (spam_is_what_advertises (λ _, false) "http://x.y/buy" "" "spammer" counts 1); [by vm_compute|by vm_compute]. Defined.

(** The counts are kept under the names of authors whose posts have passed. *)
Theorem counts_are_by_author lower upper ow od os now posts counts k :
  let '(_, counts') := filter_financial_posts lower upper ow od os now posts counts in
  is_Some (counts' !! k) → is_Some (counts !! k) ∨ k ∈ author <$> posts.
Proof.
  revert counts. induction posts as [|p posts IH]; intros counts; [by left|]. cbn [filter_financial_posts].
  assert (∀ c, let '(_, c') := filter_financial_posts lower upper ow od os now posts c in is_Some (c' !! k) → is_Some (c !! k) ∨ k ∈ p.(author) :: (author <$> posts)) as IH'.
  { intros c. specialize (IH c). destruct (filter_financial_posts _ _ _ _ _ _ _ _) as [l c']. intros H. destruct (IH H); [by left|right; by right]. }
  destruct (negb _); [apply IH'|]. destruct (is_spam _ _ _ _ _); [apply IH'|].
  specialize (IH' (<[p.(author) := default [] (counts !! p.(author)) ++ [p.(published_at)]]> counts)).
  destruct (filter_financial_posts _ _ _ _ _ _ _ _) as [l c']. intros H. destruct (IH' H) as [[x Hx]|]; [|by right].
  destruct (decide (k = p.(author))) as [->|Hne]; [right; by left|]. rewrite lookup_insert_ne in Hx by done. left. by eexists.
Qed.
End SocialFacts.
