(* ===== verification/Decisions.v ===== *)
(** Records of decisions: backend/core/audit/decision_record.py, its collectors and
    backend/api/routes/audit.py.

    What pydantic checks is written out for the JSON values the routes pass on: a field
    [Dict[str, Any]] takes an object, a field [List[Dict[str, Any]]] a list of objects.
    Times are numbers; [datetime.fromisoformat] is a parameter, whose results have a time zone
    or not.  Nothing of the program writes records but the routes. *)

From stdpp Require Import base option list sorting gmap strings.
From Stdlib Require Import ZArith Lia.
From S2P Require Import Prelude PyFloat PyDict KisClient Rebalancing AuditChain.

(** * The record *)

Definition Obj : Type := list (string * JValue).
Record DecisionRecord := {
  decision_id : string; timestamp : Z;
  step1_input_snapshot : option Obj; step2_features : option Obj; step3_signals : option (list Obj);
  step4_ensemble : option Obj; step5_portfolio : option Obj; step6_risk_check : option Obj;
  step7_execution : option (list Obj); gate_results : option (list Obj); status : string }.

Inductive error := InvalidStep (step_name : string) | ValidationError | TypeError.

(** A field of type [Optional[Dict[str, Any]]], and of [Optional[List[Dict[str, Any]]]] *)
Definition as_dict (v : JValue) : result error (option Obj) :=
  match v with JNull => Ok None | JObject o => Ok (Some o) | _ => Err ValidationError end.
Definition object (v : JValue) : option Obj := match v with JObject o => Some o | _ => None end.
Definition as_dicts (v : JValue) : result error (option (list Obj)) :=
  match v with
  | JNull => Ok None
  | JArray l => match mapM object l with Some os => Ok (Some os) | None => Err ValidationError end
  | _ => Err ValidationError
  end.
Definition as_text (v : JValue) : result error string := match v with JStr s => Ok s | _ => Err ValidationError end.
Definition of_dict (o : option Obj) : JValue := from_option JObject JNull o.
Definition of_dicts (o : option (list Obj)) : JValue := from_option (λ l, JArray (JObject <$> l)) JNull o.

Definition steps_complete : list string :=
  ["step1_input_snapshot"; "step2_features"; "step3_signals"; "step4_ensemble"; "step5_portfolio"; "step6_risk_check"; "step7_execution"].
Definition valid_steps : list string := steps_complete ++ ["gate_results"].

(** [record.model_dump()], but for the identifier and the time *)
Definition model_dump (r : DecisionRecord) : Obj :=
  [("step1_input_snapshot", of_dict r.(step1_input_snapshot)); ("step2_features", of_dict r.(step2_features));
   ("step3_signals", of_dicts r.(step3_signals)); ("step4_ensemble", of_dict r.(step4_ensemble));
   ("step5_portfolio", of_dict r.(step5_portfolio)); ("step6_risk_check", of_dict r.(step6_risk_check));
   ("step7_execution", of_dicts r.(step7_execution)); ("gate_results", of_dicts r.(gate_results)); ("status", JStr r.(status))].
Definition field (d : Obj) (k : string) : JValue := default JNull (dict_get k d).
Definition is_not_none (v : JValue) : bool := match v with JNull => false | _ => true end.
Notation "x '←r' y ; z" := (rbind y (λ x, z)) (at level 20, y at level 100, z at level 200).
(** [DecisionRecord( **record_dict)] *)
Definition make_record (id : string) (at_ : Z) (d : Obj) : result error DecisionRecord :=
  s1 ←r as_dict (field d "step1_input_snapshot");
  s2 ←r as_dict (field d "step2_features");
  s3 ←r as_dicts (field d "step3_signals");
  s4 ←r as_dict (field d "step4_ensemble");
  s5 ←r as_dict (field d "step5_portfolio");
  s6 ←r as_dict (field d "step6_risk_check");
  s7 ←r as_dicts (field d "step7_execution");
  g ←r as_dicts (field d "gate_results");
  st ←r as_text (field d "status");
  Ok {| decision_id := id; timestamp := at_; step1_input_snapshot := s1; step2_features := s2; step3_signals := s3;
        step4_ensemble := s4; step5_portfolio := s5; step6_risk_check := s6; step7_execution := s7; gate_results := g; status := st |}.

(** * The store *)

Definition Store : Type := list (string * DecisionRecord).

(** The identifier is the caller's or a new one. *)
Definition create (decision_id : option string) (uuid4 : string) (utcnow : Z) (s : Store) : DecisionRecord * Store :=
  let id := default uuid4 decision_id in
  let record := {| decision_id := id; timestamp := utcnow; step1_input_snapshot := None; step2_features := None; step3_signals := None;
                   step4_ensemble := None; step5_portfolio := None; step6_risk_check := None; step7_execution := None;
                   gate_results := None; status := "PENDING" |} in
  (record, dict_set id record s).

Definition restate (d : Obj) : Obj :=
  if forallb (λ k, is_not_none (field d k)) steps_complete then dict_set "status" (JStr "COMPLETE") d
  else if existsb (λ k, is_not_none (field d k)) steps_complete then dict_set "status" (JStr "PARTIAL") d else d.
Definition update_step (decision_id step_name : string) (data : JValue) : M Store error (option DecisionRecord) := λ s,
  if negb (bool_decide (step_name ∈ valid_steps)) then (Err (InvalidStep step_name), s)
  else match dict_get decision_id s with
  | None => (Ok None, s)
  | Some record =>
      match make_record record.(Decisions.decision_id) record.(timestamp) (restate (dict_set step_name data (model_dump record))) with
      | Err e => (Err e, s)
      | Ok updated_record => (Ok (Some updated_record), dict_set decision_id updated_record s)
      end
  end.

(** A date of a query: the times of the records have no zone, and Python does not compare
    them with a time that has one. *)
Inductive Date := Naive (t : Z) | Aware (t : Z).
Fixpoint filter_records (p : Z → Z → bool) (d : Date) (l : list DecisionRecord) : result error (list DecisionRecord) :=
  match l, d with
  | [], _ => Ok []
  | _, Aware _ => Err TypeError
  | r :: l', Naive t => kept ←r filter_records p d l'; Ok (if p r.(timestamp) t then r :: kept else kept)
  end.
Definition filter_by (p : Z → Z → bool) (d : option Date) (l : list DecisionRecord) : result error (list DecisionRecord) :=
  match d with None => Ok l | Some d => filter_records p d l end.
Definition newer (a b : DecisionRecord) : bool := b.(timestamp) <? a.(timestamp).
Definition query (start_date end_date : option Date) (limit : Z) (s : Store) : result error (list DecisionRecord) :=
  results ←r filter_by (λ r t, t <=? r) start_date s.*2;
  results ←r filter_by Z.leb end_date results;
  Ok (slice_to limit (sort_by newer results)).
Definition count (s : Store) : nat := length s.

(** * The routes *)

Inductive APIResponse (A : Type) := Success (data : A) | Failure.
Arguments Success {A} data.
Arguments Failure {A}.

Definition create_decision (decision_id : string) (utcnow : Z) (s : Store) : APIResponse DecisionRecord * Store :=
  let '(record, s') := create (Some decision_id) "" utcnow s in (Success record, s').
Definition get_decision (decision_id : string) (s : Store) : APIResponse DecisionRecord :=
  match dict_get decision_id s with Some r => Success r | None => Failure end.
(** The body of the request is an object. *)
Definition update_decision_step (decision_id step_name : string) (step_data : Obj) (s : Store) : APIResponse DecisionRecord * Store :=
  match update_step decision_id step_name (JObject step_data) s with
  | (Ok (Some record), s') => (Success record, s')
  | (_, s') => (Failure, s')
  end.

Section List_.
Context (fromisoformat : string → option Date).
(** A date that is given and not empty; [None]: it is no date. *)
Definition parsed (date : option string) : option (option Date) :=
  match date with
  | None => Some None
  | Some s => if bool_decide (s = "") then Some None else Some <$> fromisoformat s
  end.
Definition list_decisions (start_date end_date : option string) (limit : Z) (s : Store) : APIResponse (list DecisionRecord) :=
  match parsed start_date, parsed end_date with
  | Some a, Some b => match query a b limit s with Ok l => Success l | Err _ => Failure end
  | _, _ => Failure
  end.
End List_.

(** What the routes do to the store *)
Inductive Call :=
  | CreateDecision (decision_id : string) (utcnow : Z)
  | UpdateDecisionStep (decision_id step_name : string) (step_data : Obj).
Definition serve (s : Store) (c : Call) : Store :=
  match c with
  | CreateDecision id now => (create_decision id now s).2
  | UpdateDecisionStep id step data => (update_decision_step id step data s).2
  end.

(** * Properties *)

Module DecisionFacts.

(** ** What is read is what was written *)

Lemma object_list l os : mapM object l = Some os → l = JObject <$> os.
Proof.
  revert os. induction l as [|v l IH]; intros os; cbn; [by intros [= <-]|].
  destruct v; try done. cbn. destruct (mapM object l) eqn:E; [|done]. intros [= <-]. cbn. f_equal. by apply IH.
Qed.

Lemma as_dict_reads v o : as_dict v = Ok o → of_dict o = v.
Proof. by destruct v; cbn; intros; simplify_eq. Qed.

Lemma as_dicts_reads v o : as_dicts v = Ok o → of_dicts o = v.
Proof.
  destruct v; cbn; intros H; simplify_eq; [done|]. destruct (mapM object items) as [os|] eqn:E; simplify_eq.
  cbn. by rewrite (object_list _ _ E).
Qed.

Lemma rbind_Ok {E A B} (m : result E A) (f : A → result E B) b : rbind m f = Ok b → ∃ a, m = Ok a ∧ f a = Ok b.
Proof. destruct m; cbn; [eauto|done]. Qed.

Ltac in_steps H := repeat (apply elem_of_cons in H as [->|H]); [..|by apply elem_of_nil in H].

(** A record that was made reads as the dict it was made of. *)
Lemma make_record_reads id t d r : make_record id t d = Ok r →
  r.(Decisions.decision_id) = id ∧ r.(timestamp) = t ∧ field d "status" = JStr r.(status) ∧
  ∀ k, k ∈ valid_steps → field (model_dump r) k = field d k.
Proof.
  unfold make_record. intros H.
  repeat match goal with H : rbind _ _ = Ok _ |- _ => apply rbind_Ok in H as (? & ? & H) end.
  injection H as <-. split_and!; [done..| |].
  - match goal with H : as_text ?v = _ |- _ => destruct v; cbn in H; by simplify_eq end.
  - intros k Hk. in_steps Hk; cbn [model_dump field]; first [by apply as_dict_reads|by apply as_dicts_reads].
Qed.

(** What a record is not made of is a value of another type. *)
Lemma make_record_error id t d step : make_record id t d ≠ Err (InvalidStep step).
Proof.
  unfold make_record.
  intros H.
  repeat match type of H with rbind ?m _ = _ =>
    destruct m eqn:?; cbn [rbind] in H; [|simplify_eq; match goal with E : _ ?v = Err _ |- _ => destruct v; cbn in E; repeat case_match; done end]
  end.
  done.
Qed.

Lemma field_set d k k' v : field (dict_set k' v d) k = if bool_decide (k = k') then v else field d k.
Proof. unfold field. rewrite dict_get_set. by case_bool_decide. Qed.

Lemma complete_in k : k ∈ steps_complete → k ≠ "status" ∧ k ∈ valid_steps.
Proof. intros Hk. split; [intros ->; by apply (bool_decide_pack _) in Hk|unfold valid_steps; set_solver]. Qed.

Lemma restate_field d k : k ≠ "status" → field (restate d) k = field d k.
Proof. intros Hk. unfold restate. repeat case_match; rewrite ?field_set, ?bool_decide_false; done. Qed.

(** ** The status of a record *)

Definition taken (r : DecisionRecord) (k : string) : bool := is_not_none (field (model_dump r) k).
(** Complete with all seven steps, pending with none; partial in between, or when the last
    step that was there has been taken away *)
Definition honest (r : DecisionRecord) : Prop :=
  (r.(status) = "COMPLETE" ∧ forallb (taken r) steps_complete = true) ∨
  (r.(status) = "PARTIAL" ∧ forallb (taken r) steps_complete = false) ∨
  (r.(status) = "PENDING" ∧ existsb (taken r) steps_complete = false).

Lemma agree_on {A} (f g : A → bool) l : (∀ x, x ∈ l → f x = g x) → forallb f l = forallb g l ∧ existsb f l = existsb g l.
Proof.
  induction l as [|x l IH]; [done|]. intros H. cbn. rewrite (H x) by left.
  destruct IH as [-> ->]; [|done]. intros y Hy. apply H. by right.
Qed.

Lemma forallb_false_other (f g : string → bool) k l :
  forallb f l = true → (∀ x, x ∈ l → x ≠ k → g x = f x) → existsb g l = false → ∀ x, x ∈ l → x = k.
Proof.
  intros Hf Hg He x Hx. destruct (decide (x = k)) as [|Hk]; [done|]. exfalso.
  rewrite forallb_forall in Hf. specialize (Hf x (proj1 (list_elem_of_In _ _) Hx)).
  assert (existsb g l = true) as E; [|congruence]. apply existsb_exists. exists x. split; [by apply list_elem_of_In|]. by rewrite Hg.
Qed.

(** A step of a record becomes what it is given, the others stay, and the status follows. *)
Lemma updated_record r id t k v r' : k ∈ valid_steps → honest r → make_record id t (restate (dict_set k v (model_dump r))) = Ok r' →
  r'.(Decisions.decision_id) = id ∧ r'.(timestamp) = t ∧ field (model_dump r') k = v ∧
  (∀ k', k' ∈ valid_steps → k' ≠ k → field (model_dump r') k' = field (model_dump r) k') ∧ honest r'.
Proof.
  intros Hk Hr H. destruct (make_record_reads _ _ _ _ H) as (Hid & Ht & Hst & Hf).
  assert (∀ k', k' ∈ valid_steps → field (model_dump r') k' = if bool_decide (k' = k) then v else field (model_dump r) k') as Hread.
  { intros k' Hk'. rewrite Hf by done. rewrite restate_field; [apply field_set|]. intros ->. by apply (bool_decide_pack _) in Hk'. }
  split_and!; [done..| | |].
  - rewrite Hread by done. by rewrite bool_decide_true.
  - intros k' Hk' Hne. rewrite Hread by done. by rewrite bool_decide_false.
  - set (d := dict_set k v (model_dump r)) in *.
    assert (∀ k', k' ∈ steps_complete → is_not_none (field d k') = taken r' k') as Hd.
    { intros k' [_ Hk']%complete_in. unfold taken, d. by rewrite field_set, Hread. }
    destruct (agree_on _ _ _ Hd) as [Ha Hx].
    unfold restate in Hst. rewrite Ha, Hx in Hst. unfold honest.
    destruct (forallb (taken r') steps_complete) eqn:Eall; [left|right].
    { rewrite field_set, bool_decide_true in Hst by done. by injection Hst as <-. }
    destruct (existsb (taken r') steps_complete) eqn:Eany.
    { left. rewrite field_set, bool_decide_true in Hst by done. by injection Hst as <-. }
    unfold d in Hst. rewrite field_set, bool_decide_false in Hst by (intros <-; by apply (bool_decide_pack _) in Hk).
    cbn in Hst. injection Hst as <-.
    destruct Hr as [[Hs Hall]|[[Hs Hall]|[Hs Hnone]]]; [|left; done|right; done].
    exfalso. assert (∀ x, x ∈ steps_complete → x = k) as Hone.
    { apply (forallb_false_other (taken r) (taken r')); [done| |done]. intros x [_ Hv]%complete_in Hne. unfold taken.
      by rewrite Hread, bool_decide_false. }
    pose proof (Hone "step1_input_snapshot"%string ltac:(by left)) as E1.
    pose proof (Hone "step2_features"%string ltac:(by right; left)) as E2. congruence.
Qed.

(** ** The store *)

Definition sound (s : Store) : Prop := Forall (λ e, e.2.(Decisions.decision_id) = e.1 ∧ honest e.2) s.

Lemma sound_get s id r : sound s → dict_get id s = Some r → r.(Decisions.decision_id) = id ∧ honest r.
Proof. intros Hs Hg%dict_get_elem. apply (proj1 (Forall_forall _ _) Hs _ Hg). Qed.

Lemma Forall_dict_set {A} (P : string * A → Prop) k v d : Forall P d → P (k, v) → Forall P (dict_set k v d).
Proof.
  intros Hd Hp. induction Hd as [|[k' v'] d Hx Hd IH]; cbn; [by constructor|]. case_bool_decide as E; constructor; by subst.
Qed.

Lemma sound_create id uuid now s : sound s → sound (create id uuid now s).2.
Proof. intros Hs. apply Forall_dict_set; [done|]. split; [done|]. by right; right. Qed.

Lemma sound_update id step data s : sound s → sound (after (update_step id step data) s).
Proof.
  intros Hs. unfold after, update_step. case_bool_decide as Hv; cbn [negb]; [|done].
  destruct (dict_get id s) as [old|] eqn:Eg; [|done]. destruct (sound_get _ _ _ Hs Eg) as [Hid Hold].
  destruct (make_record _ _ _) as [r|e] eqn:Em; cbn [fst snd]; [|done].
  destruct (updated_record _ _ _ _ _ _ Hv Hold Em) as (Hi & _ & _ & _ & Hh).
  apply Forall_dict_set; cbn; [done|]. by rewrite Hi.
Qed.

(** [update_step] with any data, of a caller that need not be a route.  A step that is not
    one raises, and so does data of another type than the step's; the store stays.  Otherwise
    the step of that decision reads as the data, its other steps as before, and its status
    says again how far the decision is: complete when, and only when, all seven steps are
    there.  Other decisions stay. *)
Theorem status_follows_the_steps id step data s (Hs : sound s) :
  sound (after (update_step id step data) s) ∧
  match outcome (update_step id step data) s with
  | Err e => after (update_step id step data) s = s ∧ (e = InvalidStep step ↔ step ∉ valid_steps)
  | Ok None => after (update_step id step data) s = s ∧ dict_get id s = None
  | Ok (Some r) =>
      ∃ old, dict_get id s = Some old ∧ dict_get id (after (update_step id step data) s) = Some r ∧ r.(timestamp) = old.(timestamp) ∧
      field (model_dump r) step = data ∧
      (∀ k, k ∈ valid_steps → k ≠ step → field (model_dump r) k = field (model_dump old) k) ∧
      (r.(status) = "COMPLETE" ↔ forallb (taken r) steps_complete = true) ∧
      ∀ id', id' ≠ id → dict_get id' (after (update_step id step data) s) = dict_get id' s
  end.
Proof.
  split; [by apply sound_update|].
  unfold outcome, after, update_step. case_bool_decide as Hv; cbn [negb]; [|by split].
  destruct (dict_get id s) as [old|] eqn:Eg; [|done].
  destruct (sound_get _ _ _ Hs Eg) as [Hid Hold].
  destruct (make_record _ _ _) as [r|e] eqn:Em; cbn [fst snd].
  - destruct (updated_record _ _ _ _ _ _ Hv Hold Em) as (Hi & Ht & Hr & Ho & Hh).
    exists old.
    assert (dict_get id (dict_set id r s) = Some r) as Hnew by by rewrite dict_get_set, bool_decide_true.
    do 5 (split; [done|]). split.
    + destruct Hh as [[-> ->]|[[-> ->]|[-> Hn]]]; [done|done|]. split; [done|]. intros Ha.
      cbn in Ha, Hn. destruct (taken r "step1_input_snapshot"); done.
    + intros id' Hne. by rewrite dict_get_set, bool_decide_false.
  - split; [done|]. split; [|done]. intros ->. exfalso. revert Em. apply make_record_error.
Qed.

(** ** The routes *)

Definition list_steps : list string := ["step3_signals"; "step7_execution"; "gate_results"].

Lemma lists_are_refused id step data s : step ∈ list_steps → update_decision_step id step data s = (Failure, s).
Proof.
  intros Hin. unfold update_decision_step, update_step. case_bool_decide as Hv; cbn [negb]; [|done].
  destruct (dict_get id s) as [old|]; [|done]. destruct (make_record _ _ _) as [r|e] eqn:Em; [|done]. exfalso.
  destruct (make_record_reads _ _ _ _ Em) as (_ & _ & _ & Hf). specialize (Hf step Hv).
  rewrite restate_field, field_set, bool_decide_true in Hf; [|done|intros ->; by apply (bool_decide_pack _) in Hin].
  in_steps Hin; cbn in Hf; destruct r as [????[] ???[] [] ?]; done.
Qed.

(** The records the routes leave behind *)
Definition unlisted (r : DecisionRecord) : Prop :=
  honest r ∧ r.(step3_signals) = None ∧ r.(step7_execution) = None ∧ r.(gate_results) = None.

Lemma of_dicts_None o : of_dicts o = JNull → o = None.
Proof. by destruct o. Qed.

Lemma serve_unlisted s c : Forall (λ e, unlisted e.2) s → sound s → Forall (λ e, unlisted e.2) (serve s c).
Proof.
  intros Hu Hs. destruct c as [id now|id step data]; cbn [serve].
  { apply Forall_dict_set; [done|]. split_and!; [|done..]. by right; right. }
  destruct (decide (step ∈ list_steps)) as [Hl|Hl]; [by rewrite lists_are_refused|].
  unfold update_decision_step, update_step. case_bool_decide as Hv; cbn [negb]; [|done].
  destruct (dict_get id s) as [old|] eqn:Eg; [|done]. destruct (make_record _ _ _) as [r|e] eqn:Em; [|done].
  destruct (sound_get _ _ _ Hs Eg) as [_ Hold].
  destruct (updated_record _ _ _ _ _ _ Hv Hold Em) as (_ & _ & _ & Ho & Hh).
  apply Forall_dict_set; [done|]. apply dict_get_elem in Eg. destruct (proj1 (Forall_forall _ _) Hu _ Eg) as (_ & H3 & H7 & Hg).
  cbn in H3, H7, Hg.
  split; [done|]. split_and!; apply of_dicts_None.
  - trans (field (model_dump r) "step3_signals"); [done|].
    rewrite Ho; [cbn; by rewrite H3|by apply (bool_decide_unpack _)|intros <-; by apply Hl; left].
  - trans (field (model_dump r) "step7_execution"); [done|].
    rewrite Ho; [cbn; by rewrite H7|by apply (bool_decide_unpack _)|intros <-; by apply Hl; right; left].
  - trans (field (model_dump r) "gate_results"); [done|].
    rewrite Ho; [cbn; by rewrite Hg|by apply (bool_decide_unpack _)|intros <-; by apply Hl; right; right; left].
Qed.

Lemma sound_serve s c : sound s → sound (serve s c).
Proof.
  intros Hs. destruct c as [id now|id step data]; cbn [serve]; [by apply sound_create|].
  pose proof (sound_update id step (JObject data) s Hs) as Hu. unfold update_decision_step, after in *.
  destruct (update_step _ _ _ _) as [[[r|]|e] s']; done.
Qed.

(** C33. The body of the route that updates a step is an object, and three steps are lists of
    objects.  So whatever the routes are asked, in any order, a request for one of those
    three fails and changes nothing, no record has signals, executions or results of gates,
    and none ever becomes complete: a chain of seven steps cannot be recorded. *)
Theorem decisions_are_never_complete (calls : list Call) :
  Forall (λ r, honest r ∧ r.(step3_signals) = None ∧ r.(step7_execution) = None ∧ r.(gate_results) = None ∧ r.(status) ≠ "COMPLETE")
    (foldl serve [] calls).*2 ∧
  Forall (λ step, ∀ id data s, update_decision_step id step data s = (Failure, s)) ["step3_signals"; "step7_execution"; "gate_results"].
Proof.
  split; [|apply Forall_forall; intros step Hin id data s; by apply lists_are_refused].
  assert (∀ s, Forall (λ e, unlisted e.2) s → sound s → Forall (λ e, unlisted e.2) (foldl serve s calls)) as H.
  { induction calls as [|c calls IH]; [done|]. intros s Hu Hs. cbn. apply IH; [by apply serve_unlisted|by apply sound_serve]. }
  apply Forall_fmap. eapply Forall_impl; [apply H; constructor|]. intros [id r] (Hh & H3 & H7 & Hg). cbn in *.
  split_and!; try done. intros Hc. destruct Hh as [[_ Ha]|[[Hp _]|[Hp _]]]; [|congruence..].
  cbn in Ha. unfold taken at 3 in Ha. cbn in Ha. rewrite H3 in Ha. cbn in Ha. by rewrite !andb_false_r in Ha.
Qed.

(** A request for a decision that exists puts an empty one in its place. *)
Theorem a_second_request_erases id now s :
  dict_get id (serve s (CreateDecision id now)) = Some (create (Some id) "" now []).1 ∧
  existsb (taken (create (Some id) "" now []).1) valid_steps = false ∧
  length (serve s (CreateDecision id now)) = (length s + if bool_decide (id ∈ s.*1) then 0 else 1)%nat.
Proof.
  split; [cbn; by rewrite dict_get_set, bool_decide_true|]. split; [done|]. cbn. case_bool_decide as Hin.
  - rewrite <- (length_fmap fst), dict_set_keys_same by done. rewrite length_fmap. lia.
  - rewrite dict_set_new by by apply dict_get_None. rewrite length_app. cbn. lia.
Qed.

(** ** Queries *)

Lemma filter_records_naive p t l : filter_records p (Naive t) l = Ok (filter (λ r, p r.(timestamp) t = true) l).
Proof. induction l as [|r l IH]; cbn; [done|]. rewrite IH. cbn. by destruct (p r.(timestamp) t) eqn:E; rewrite ?decide_True, ?decide_False by congruence. Qed.

Definition in_range (start_date end_date : option Z) (r : DecisionRecord) : bool :=
  match start_date with Some a => a <=? r.(timestamp) | None => true end && match end_date with Some b => r.(timestamp) <=? b | None => true end.

Lemma filter_by_naive p d l :
  filter_by p (Naive <$> d) l = Ok (filter (λ r : DecisionRecord, match d with Some t => p r.(timestamp) t | None => true end = true) l).
Proof.
  destruct d as [t|]; cbn; [apply filter_records_naive|]. f_equal. by induction l as [|r l IH]; [|rewrite filter_cons_True, <- IH].
Qed.

(** A query gives the newest of the records in its range, newest first, as many as its limit;
    without a bound the range has no end.  A bound with a time zone is not compared with the
    times of the records: with it every query fails as soon as there is a record. *)
Theorem query_gives_the_newest (start_date end_date : option Z) (limit : nat) (s : Store) :
  (∃ l rest : list DecisionRecord, query (Naive <$> start_date) (Naive <$> end_date) (Z.of_nat limit) s = Ok l ∧ (length l ≤ limit)%nat ∧
    l ++ rest ≡ₚ filter (λ r, in_range start_date end_date r = true) s.*2 ∧ StronglySorted (λ a b, b.(timestamp) ≤ a.(timestamp)) (l ++ rest) ∧
    (rest ≠ [] → length l = limit)) ∧
  ∀ a b, s ≠ [] → query (Some (Aware a)) b (Z.of_nat limit) s = Err TypeError.
Proof.
  split; [|intros a b Hs; unfold query; by destruct s].
  set (kept := filter (λ r, in_range start_date end_date r = true) s.*2).
  assert (query (Naive <$> start_date) (Naive <$> end_date) (Z.of_nat limit) s = Ok (slice_to (Z.of_nat limit) (sort_by newer kept))) as ->.
  { unfold query. rewrite filter_by_naive. cbn [rbind]. rewrite filter_by_naive. cbn [rbind]. rewrite list_filter_filter. do 3 f_equal.
    unfold kept. apply list_filter_iff. intros r. unfold in_range. rewrite andb_true_iff. tauto. }
  unfold slice_to. rewrite (proj2 (Z.leb_le 0 (Z.of_nat limit))), Nat2Z.id by lia.
  exists (take limit (sort_by newer kept)), (drop limit (sort_by newer kept)).
  rewrite take_drop, length_take. split_and!; [done|lia|apply sort_by_perm| |].
  - apply sort_by_sorted; unfold newer; [intros x y z; lia|lia..].
  - intros Hr. destruct (Nat.le_gt_cases (length (sort_by newer kept)) limit) as [Hle|Hgt]; [by rewrite drop_ge in Hr|lia].
Qed.

End DecisionFacts.
